(* ===== verification/_CoqProject ===== *)
-Q . S2P
Prelude.v
Eligibility.v
PayoutData.v
DailyRate.v
Ledger.v
Balances.v
DayBooks.v
Engine.v
Rules.v
Text.v
Json.v
Crypto.v
BillingData.v
Notifications.v
Receipts.v
Settlements.v
Budget.v
DisbursementData.v
Payees.v
Fraud.v
Adapters.v
Paystack.v
Disbursements.v
Corrections.v
Batches.v
Alerts.v
Reconciliation.v
Submission.v
PayOnce.v
Books.v
Cash.v
ProviderInbox.v
Recovery.v
Reservation.v
Trueups.v
TripData.v
TripEvidence.v
Trips.v
TripCodec.v
TripBooks.v
TripSteps.v
TripLife.v
Contacts.v
ContactBooks.v
ContactLife.v
Releases.v
ReleaseLife.v
Adjustments.v
