(* ===== verification/Prelude.v ===== *)
(** * Verification of the money path of the Mobility AdTech backend

    The program is a FastAPI service over PostgreSQL.  Drivers carry
    advertising on their vehicles and are paid by the day; advertisers fund
    campaigns from invoices.  This library models the services that decide
    what a driver earns, how that money reaches the driver's bank account and
    what becomes of an advertiser's money, and proves what those services
    promise.

    ** How the parts interact

    A driver's phone opens a trip, delivers its locations in signed batches and
    ends it with a manifest of them; when everything the manifest declares has
    been received the trip is sealed (Trips, over the hashes and receipts of
    TripEvidence).  A sealed trip with verified evidence is classified into
    payable and excluded seconds (Eligibility).  The payout engine (Engine) turns the
    payable distance of each Lagos day into naira with the terms frozen in the
    assignment's rule binding (DailyRate), which were copied from a revision of
    the campaign's payout rule (Rules), stores one calculation per trip and
    posts one ledger entry for it (Ledger).  What the ledger owes a driver is
    set against the batch lines that paid or hold it and against debts
    recovered from later payments (Balances).  A day that was measured wrongly
    is priced again by a correction order, which previews and then posts the
    differences (Corrections); staff take money off a trip by an adjustment
    (Adjustments).

    A credit becomes available when its trip's fraud assessment is current and
    no hold is active (Fraud, Releases); the driver is told, and called if they
    consented to it on a number they proved (Contacts).  An available credit is reserved into a line of a
    batch: the line freezes the amount and the verified bank account version of
    the payee (Payees), whose details are kept encrypted (Crypto).  Reserving,
    drafting and replacing are Batches; approval, queueing, voiding and
    cancelling are Disbursements.  A submission intent then waits for a worker,
    which claims it under a lease, passes the final gate, calls the provider
    once (Adapters, Paystack) and records what it observed (Submission).  The
    outcome of the transfer comes back as authenticated evidence, through the
    inbox of provider events (ProviderInbox) or a poll, and is applied to the
    line, its credit, its replacement chain and their batches
    (Reconciliation); a credit paid twice raises an alert (Alerts).

    On the advertiser's side receipts of money are recorded, confirmed and
    allocated to accepted terms (Receipts), invoices are corrected and cancelled
    campaigns refunded (Settlements), and a campaign whose booked total passes
    its budget and its accepted price is paused until new money or a new budget
    is confirmed (Budget), each step announcing itself through the outbox
    (Notifications).

    ** Files

    - Prelude: exceptions and fallible code, tactics, sums, dictionaries,
      sorting, time.
    - Eligibility: src/app/services/payout_eligibility.py, with the haversine
      distance and the plausibility thresholds of impressions.py it uses.
    - PayoutData: the rows and table constraints of models/payout.py, trip.py,
      trip_analytics.py, impression.py, driver.py, audit.py, the batch lines of
      models/disbursement.py and the payout store.
    - DailyRate: services/payouts/daily.py and common.py.
    - Ledger: services/payouts/ledger.py and db/integrity.py.
    - Balances: services/payout_balances.py.
    - DayBooks: the invariant that ties a driver's calculations, ledger entries
      and day amounts together; a proof file without code of its own.
    - Engine: services/payouts/engine.py and evidence.py.
    - Rules: publication of services/payouts/rules.py and its request schema.
    - Text: the string operations, number and date formats of the Python
      standard library that keys and fingerprints are built from.
    - Json: the documents json.dumps writes and the reader json.loads is.
    - Crypto: adapters/crypto/envelope.py over base64 and AES-GCM.
    - BillingData: the rows and enumerations of models/billing.py,
      campaign_cancellation.py, notification.py, user.py, organization.py, the
      billing store, admin_authorization.py, billing/common.py (amounts) and
      billing/queries.py.
    - Notifications: services/notifications.py (creation, fan-out).
    - Receipts: services/billing/receipts.py.
    - Settlements: services/billing/settlements.py.
    - Budget: services/billing/budget.py, campaign_lifecycle.py and the budget
      notices of notifications.py.
    - DisbursementData: the rows, constraints and listeners of
      models/disbursement.py and the store the disbursement services share,
      which contains the payout, billing and payee stores.
    - Payees: services/payees.py and models/payee.py.
    - Fraud: services/fraud_holds.py, fraud_disputes.py, fraud_assessments.py.
    - Adapters: adapters/disbursement/provider.py, the providers as type
      classes with laws, the disabled and the fake provider.
    - Paystack: adapters/payments/paystack.py (responses) and
      adapters/disbursement/paystack.py.
    - Disbursements, Batches, Reconciliation, ProviderInbox:
      services/disbursements.py by concern, the last with
      jobs/disbursements.py; Alerts: the alerts, the pause switch and the
      release of services/automatic_payouts.py.
    - Corrections: services/payouts/corrections.py and
      services/payout_corrections.py; Adjustments:
      services/payout_adjustments.py.
    - Contacts: services/contacts.py and its tables of models/contact.py.
    - Releases: services/earnings_release.py, jobs/earnings_release.py and the
      driver notice of services/notifications.py.
    - TripData: the rows and constraints of models/trip.py and the requests of
      schemas/trips.py; TripEvidence: services/trip_evidence.py; Trips:
      services/trips.py, the grace sweep of services/trip_processing.py and the
      trip jobs of jobs/trip_processing.py.
    - Proof files over these definitions: Submission (the gate and the claim),
      PayOnce (the protocol as an order book), Books (the tables' invariant),
      Cash (evidence), Recovery (workers that die), Reservation (batches),
      Trueups (corrections), TripCodec (the canonical encoding), TripBooks (the
      lifecycle of a trip's evidence), TripSteps (the services follow it),
      TripLife (the services as one system), ContactBooks (the invariant of the
      contact tables), ContactLife (what a driver can rely on), ReleaseLife (the
      release and its sweep).

    ** How code becomes definitions

    A handler is a function from the store (and its arguments, with the clock
    readings it takes) to a [result]: a value with the new store, or the
    exception it raises.  A raised exception means the caller's transaction is
    rolled back, so no store comes with it; a savepoint with an [except] clause
    continues from the store before it.  [session.add] followed by
    [session.flush] is a [flush_...] definition that checks the column sizes,
    the CHECK constraints and the unique indexes of the table in models/ and
    appends the row; [IntegrityError] carries the constraint's name where the
    code looks at it.  The update of a batch line or of a credit's status first
    passes the trigger the migrations (alembic/versions/0106 and 0112) put on
    its table, [guard_payout_batch_line_mutation] of DisbursementData and
    [ledger_transition] of Balances, which otherwise raises [DBAPIError]; the
    trigger on submission intents forbids what their listener forbids.  A [select] is a filter over the rows in insertion order,
    sorted where the query has ORDER BY.  Row and advisory locks make a handler
    run alone, except where the code itself handles a concurrent commit: there
    the definition takes the rows that [arrived] between its lookup and its
    insertion.  A worker's visit commits several times: it is the composition of
    its transactions, with a function for what other transactions do between
    them, and the system of Books and PayOnce is a step relation that
    interleaves the transactions of any number of workers and administrators.
    Keyword arguments of long handlers are grouped in request records.

    Naira amounts of two-decimal columns are whole numbers of kobo, timestamps
    are microseconds since the epoch in UTC, dates are day numbers, identifiers
    are natural numbers of 128 bits; [uuid4] returns one not in use.  Floating
    point is reached only through the type class [PyFloat] of Eligibility and
    its laws [PyFloatLaws] (the floor of a number of seconds is monotone and
    exact, the difference of two floats with different floors is positive);
    [RationalFloat] there is an exact implementation that the witnesses run
    on.  SHA-256 ([Sha256]), AES-GCM ([AesGcm], which opens what it sealed),
    random bytes, the digest of an analytics row, a float literal in a JSON
    document and the providers ([DisbursementAdapter] with the promises of its
    capability flags, [ProviderLaws]), HMAC-SHA256 ([HmacSha256]), the bits of a
    float ([float_bits], what struct.pack writes), PostGIS points and the digest
    of a correction's projection are parameters; the fake provider of the
    code is proved to keep the promises, and witnesses run on it.

    ** What the theorems show

    - Eligibility: the classification partitions the session second by second
      and its views agree; a payable slice lies, for sessions that start on a
      whole second, inside one Lagos day; a session that starts on a fraction of
      a second can charge a slice to the day before (a defect).
    - Engine: in whatever order trips are priced, retried or rejected, the
      amounts of a driver's day add up to the pay of the day's total distance,
      never more; only sealed, ended, verified trips are priced.
    - Ledger: posting a calculation adds exactly the entry that is owed, under
      concurrent postings too, and repair leaves nothing owed; a concurrent
      payout conflict is re-raised rather than answered (a defect).
    - Balances: recovery leaves no other debt when money remains.
    - Rules: revisions of a campaign form a gap-free, strictly later chain.
    - Receipts, Settlements: the cash books are sound and append-only, refunds
      stay within receipt, allocation and cancellation, and obligations stay
      non-negative in every reachable state.
    - Budget: a sweep leaves no overspent campaign running whose own check
      succeeded.
    - Crypto, Payees: an account captured and verified for a payee is the one
      every later payout reads, for that payee alone, through any payee
      operations and key rotations.
    - Fraud: a reviewed flag stays reviewed; a trip assessed is current until
      its evidence changes.
    - PayOnce, Submission, Books, Recovery: the submission tables refine an
      order book in which every order is filled at most once; whatever the
      interleaving of workers, leases and crashes, the provider executes at most
      one transfer per line; a claim is given only to authorized payments; the
      tables' invariant holds in every reachable state; a worker that keeps
      visiting settles an abandoned payment; a cancelled sibling blocks the
      submission of its batch (a defect).
    - Reservation: a reserved batch is frozen, complete and payable, reserving
      can be repeated, a replacement goes to a newer and different account; a
      draft reference or a replacement that another request takes first is
      re-raised rather than answered (two defects).
    - Cash: recorded evidence refines a verdict that knows only times and
      outcomes and does not depend on its order; replays change nothing; a
      second success is alerted; late failure evidence strands a reserved
      replacement (a defect).  The code means to let a newer reversal undo a
      success, but the triggers of the database refuse it, so it is never
      recorded and the line stays succeeded, its credit paid (a defect).
    - ProviderInbox: a webhook is stored once and processed once, the inbox
      stays consistent however jobs interleave, and the sweep gives an event up
      after three counted failures; an event the triggers refuse fails uncounted
      and is offered for ever.
    - Trueups: a correction order settles its day, once; its targets price the
      day as the engine does; reversing one trip of a day strands the payments
      in preparation of the day's other trips (a defect).
    - TripCodec: two deliveries hash alike exactly when their content is the
      same.
    - TripBooks, TripSteps, TripLife: the trip services refine a lifecycle of
      evidence, whose reachable stores are well formed; a trip the engine admits
      had complete evidence, which nothing takes back; a paid trip takes no more
      samples; an acknowledged delivery replays; a paid sibling strands a trip
      in its recovery window, and the sweep fails at any clock that is not a
      whole millisecond (a defect).
    - ReleaseLife: exactly the due money of clear trips is released, and the
      sweep releases all it finds, whatever fails beside it.
    - ContactBooks, ContactLife: a driver is contacted only under a consent in
      force for a proved number; few guesses at a code; open tasks are listed
      exactly when they can be carried out, and end with the number.
    - Adjustments: an adjustment is recorded once under its reference and takes
      its amount off the trip's award; a concurrent use of the reference is
      re-raised rather than answered (a defect).
    - Paystack, BillingData: amounts survive the conversion to subunits; the
      money parser accepts every whole number of kobo up to a size at which it
      fails with an uncaught exception (a defect).

    ** Bounds and fuel

    The three [while] loops and the bisection of Eligibility take a bound: the
    scan for stops the number of pings (every round moves past its anchor), the
    Lagos midnights the whole days of the session plus three, the search for
    the interval of a slice the number of pings (every probe shrinks the
    range).  [OutOfFuel] marks a bound that was too small;
    [classify_session_partition] states that every session is classified, so
    it never is.  The walk to the root of a replacement chain is bounded by the
    number of lines plus two (the code's own set of seen lines ends it
    earlier), the pages of the release sweep by the number of trips with due
    money plus one (every page but the last moves past its trips), the JSON reader by twice the length of its text plus one (every
    call consumes a character or descends into a value that does).  Every other
    loop of the code runs over a finite list and is structural.

    ** What is not modelled, and why

    English messages and details of errors, logging, and the contents of audit
    metadata are dropped: no decision reads them.  Columns no modelled service
    reads are left out of the rows.  Foreign keys are not modelled, nor are the
    database's other triggers, which make rows append-only or freeze columns
    (calculations, manifests, receipts and adjudications of trips, verifications
    of accounts, money received, offsets, observations): the modelled services
    only insert those rows, or write those columns once.  PostGIS, the payment and
    e-mail providers, object storage and the HTTP layer are external or glue.
    Africa/Lagos is a fixed UTC+1, which it has been since before the program's
    data begins.  String operations act on ASCII text, where a text's length is
    its number of bytes.  The e-mail rows a notification queues are modelled,
    their delivery is not.  The webhook verification of Paystack and of the fake
    provider (the payload's fields) is the [DisbursementWebhook]
    parameter; an infinite amount in evidence, which a Decimal can be, is
    outside the amount type.  Of a trip's start only
    its end is modelled, the check for other active trips and the insertion: the
    checks of campaign, driver, vehicle, activation, billing authority and
    installation evidence before it read tables no modelled service writes.  The
    processing of a sealed trip calls analytics and impressions, which are not
    modelled.  Of a batch's metadata, which nobody reads again, only the
    financial cutoff is kept.  The theorems about
    the submission protocol take a submission to reach the provider before the
    lease of its claim ends (the guard of [step_call] in PayOnce); the code
    relies on this and does not check it, and a worker that stalls longer could
    submit a line that a lookup has since released and an administrator voided.

    ** What could follow

    The scheduled run of the automatic payouts over Batches; invoices, quotes and financial
    authority over the billing store; checkout and gateway events over
    Receipts; campaign cancellation, whose row Settlements already refunds; then
    assignments, whose rows the trip services already read. *)

From stdpp Require Import base list strings gmap sorting.
From Stdlib Require Import ZArith QArith Qround Lia.

#[global] Open Scope Z_scope.

Create HintDb mobility.
Create Rewrite HintDb mobility.

(** ** Exceptions and fallible code *)

(** The exceptions the modelled code raises.  [AppError] carries the
    machine-readable code and the HTTP status of [app/core/errors.py]; the
    English message and the details payload are not modelled.
    [IntegrityError] carries the name of the violated constraint,
    [DataError] is a number that does not fit its column and [DBAPIError] is
    what a trigger of the database raises.
    [OutOfFuel] is not an exception of the program: it is what a bounded
    iteration answers when its bound was too small, and the termination
    theorems show that it is never the answer. *)
Inductive exn :=
| AppError (code : string) (status_code : Z)
| IntegrityError (constraint_name : string)
| DataError
| DBAPIError
| AssertionError
| ValueError
| RuntimeError
| IndexError
| KeyError
| ZeroDivisionError
| InvalidOperation
| TypeError
| AttributeError
| DisbursementUnavailableError
| PaystackOutcomeUnknownError
| PaystackNotFoundError
| PaystackMalformedResponseError
| PaystackRejectedError
| CryptoConfigurationError
| CryptoOperationError
| OutOfFuel.

#[export] Instance exn_eq_dec : EqDecision exn.
Proof. solve_decision. Defined.

(** A Python call returns a value or raises. *)
Inductive result (A : Type) :=
| Ok (a : A)
| Raise (e : exn).
Arguments Ok {A} a.
Arguments Raise {A} e.

#[export] Instance result_ret : MRet result := fun A a => Ok a.
#[export] Instance result_bind : MBind result := fun A B f m =>
  match m with Ok a => f a | Raise e => Raise e end.
#[export] Instance result_fmap : FMap result := fun A B f m =>
  match m with Ok a => Ok (f a) | Raise e => Raise e end.

(** [if b: raise e] *)
Definition raise_if (b : bool) (e : exn) : result unit :=
  if b then Raise e else Ok tt.

(** [if o is None: raise e] *)
Definition require_some {A} (o : option A) (e : exn) : result A :=
  match o with Some a => Ok a | None => Raise e end.

Definition is_ok {A} (r : result A) : bool :=
  match r with Ok _ => true | Raise _ => false end.

Section ResultLemmas.
Context {A B : Type}.

Lemma bind_Ok (m : result A) (f : A -> result B) b :
  m ≫= f = Ok b <-> exists a, m = Ok a /\ f a = Ok b.
Proof.
  destruct m as [a|e]; simpl; split.
  - eauto.
  - intros (a' & [= ->] & H). exact H.
  - discriminate.
  - intros (a' & H & _). discriminate H.
Qed.

Lemma bind_Raise (m : result A) (f : A -> result B) e :
  m ≫= f = Raise e <-> m = Raise e \/ exists a, m = Ok a /\ f a = Raise e.
Proof.
  destruct m as [a|e']; simpl; split.
  - eauto.
  - intros [H|(a' & [= ->] & H)]; [discriminate H | exact H].
  - intros [= ->]. auto.
  - intros [[= ->]|(a' & H & _)]; [reflexivity | discriminate H].
Qed.
End ResultLemmas.

Lemma raise_if_Ok b e u : raise_if b e = Ok u <-> b = false.
Proof. destruct b, u; simpl; split; congruence. Qed.

Lemma raise_if_Raise b e e' : raise_if b e = Raise e' <-> b = true /\ e = e'.
Proof. destruct b; simpl; split; intuition congruence. Qed.

Lemma require_some_Ok {A} (o : option A) e a :
  require_some o e = Ok a <-> o = Some a.
Proof. destruct o; simpl; split; congruence. Qed.

Lemma require_some_Raise {A} (o : option A) e e' :
  require_some o e = Raise e' <-> o = None /\ e = e'.
Proof. destruct o; simpl; split; intuition congruence. Qed.

(** One step of taking a successful run of fallible code apart. *)
Ltac inv_ok_step :=
  match goal with
  | H : Ok _ = Ok _ |- _ => injection H as H; subst
  | H : Raise _ = Ok _ |- _ => discriminate H
  | H : Ok _ = Raise _ |- _ => discriminate H
  | H : mret _ = Ok _ |- _ => unfold mret, result_ret in H
  | H : mbind _ _ = Ok _ |- _ =>
      apply bind_Ok in H; destruct H as (? & ? & H)
  | H : raise_if _ _ = Ok _ |- _ => apply raise_if_Ok in H
  | H : require_some _ _ = Ok _ |- _ => apply require_some_Ok in H
  | u : unit |- _ => destruct u
  | p : (_ * _)%type |- _ => destruct p
  | H : (_, _) = (_, _) |- _ => injection H as H; subst
  | H : (if ?b then _ else _) = Ok _ |- _ => destruct b eqn:?
  | H : (match ?o with Some _ => _ | None => _ end) = Ok _ |- _ => destruct o eqn:?
  | H : (match ?o with Ok _ => _ | Raise _ => _ end) = Ok _ |- _ => destruct o eqn:?
  end.
Ltac inv_ok := repeat (inv_ok_step; simpl in * ).

(** The next call of a successful run: its value and its own success, or
    neither when the proof does not need them. *)
Tactic Notation "ok_step" hyp(H) "as" simple_intropattern(value) simple_intropattern(success) :=
  let rest := fresh in
  apply bind_Ok in H; destruct H as [value [success rest]]; rename rest into H.
Tactic Notation "ok_step" hyp(H) := ok_step H as ? _.

(** Boolean tests of the code as propositions. *)
Ltac bool_prop :=
  repeat match goal with
  | H : negb _ = true |- _ => apply negb_true_iff in H
  | H : negb _ = false |- _ => apply negb_false_iff in H
  | H : _ && _ = true |- _ => apply andb_true_iff in H; destruct H
  | H : _ || _ = false |- _ => apply orb_false_iff in H; destruct H
  | H : bool_decide _ = true |- _ => apply bool_decide_eq_true in H
  | H : bool_decide _ = false |- _ => apply bool_decide_eq_false in H
  | H : (_ <=? _) = true |- _ => apply Z.leb_le in H
  | H : (_ <=? _) = false |- _ => apply Z.leb_gt in H
  | H : (_ <? _) = true |- _ => apply Z.ltb_lt in H
  | H : (_ <? _) = false |- _ => apply Z.ltb_ge in H
  | H : (_ =? _) = true |- _ => apply Z.eqb_eq in H
  | H : (_ =? _) = false |- _ => apply Z.eqb_neq in H
  end.

(** ** Identifiers

    A UUID is its 128-bit value: [UUID] comparison, [ORDER BY id] in
    PostgreSQL and [key=str] sorting agree with the order of the numbers. *)

Abbreviation uuid := N.

(** ** Money

    A [Numeric(14, 2)] column holds an exact number of hundredths, the kobo of
    a naira amount. *)

Abbreviation kobo := Z.

(** ** Sums *)

Definition sumZ (l : list Z) : Z := foldr Z.add 0 l.
Definition sum_by {A} (f : A -> Z) (l : list A) : Z := sumZ (f <$> l).

Section Sums.
Context {A : Type}.
Implicit Types (l : list A) (f g : A -> Z).

Lemma sumZ_app k1 k2 : sumZ (k1 ++ k2) = sumZ k1 + sumZ k2.
Proof. induction k1; simpl in *; lia. Qed.

Lemma sum_by_nil f : sum_by f [] = 0.
Proof. reflexivity. Qed.

Lemma sum_by_cons f x l : sum_by f (x :: l) = f x + sum_by f l.
Proof. reflexivity. Qed.

Lemma sum_by_app f l1 l2 : sum_by f (l1 ++ l2) = sum_by f l1 + sum_by f l2.
Proof. unfold sum_by. rewrite fmap_app. apply sumZ_app. Qed.

Lemma sum_by_nonneg f l : (forall x, x ∈ l -> 0 <= f x) -> 0 <= sum_by f l.
Proof.
  induction l as [|x l IH]; intros Hf; [reflexivity|].
  rewrite sum_by_cons.
  assert (0 <= f x) by (apply Hf; left).
  assert (0 <= sum_by f l) by (apply IH; intros y Hy; apply Hf; by right).
  lia.
Qed.

Lemma sum_by_ext f g l : (forall x, x ∈ l -> f x = g x) -> sum_by f l = sum_by g l.
Proof.
  induction l as [|x l IH]; intros Hfg; [reflexivity|].
  rewrite !sum_by_cons. rewrite (Hfg x) by left.
  rewrite IH; [reflexivity|]. intros y Hy. apply Hfg. by right.
Qed.

Lemma sum_by_plus f g l : sum_by (fun x => f x + g x) l = sum_by f l + sum_by g l.
Proof. induction l as [|x l IH]; [reflexivity|]. rewrite !sum_by_cons. lia. Qed.

Lemma sum_by_perm f l1 l2 : l1 ≡ₚ l2 -> sum_by f l1 = sum_by f l2.
Proof. induction 1; rewrite ?sum_by_cons in *; lia. Qed.
End Sums.

#[export] Hint Rewrite @sum_by_nil @sum_by_cons @sum_by_app : mobility.

(** ** Dictionaries of integers: [sum(d.values())] and [d[k] = d.get(k, 0) + n] *)

Section MapSums.
Context {K : Type} `{Countable K}.
Implicit Types (m : gmap K Z) (k : K).

Definition map_sum m : Z := map_fold (fun _ v acc => v + acc) 0 m.
Definition dict_get m k : Z := default 0 (m !! k).
Definition dict_add k n m : gmap K Z := <[k := dict_get m k + n]> m.

Lemma map_sum_empty : map_sum ∅ = 0.
Proof. apply map_fold_empty. Qed.

Lemma map_sum_insert_None m k v : m !! k = None -> map_sum (<[k:=v]> m) = v + map_sum m.
Proof.
  intros Hk. unfold map_sum. rewrite map_fold_insert_L; [reflexivity| |exact Hk].
  intros. lia.
Qed.

Lemma map_sum_delete m k v : m !! k = Some v -> map_sum m = v + map_sum (delete k m).
Proof.
  intros Hk. rewrite <- (insert_delete_id m k v) at 1 by exact Hk.
  apply map_sum_insert_None, lookup_delete_eq.
Qed.

Lemma map_sum_dict_add k n m : map_sum (dict_add k n m) = map_sum m + n.
Proof.
  unfold dict_add, dict_get. destruct (m !! k) as [v|] eqn:Hk; simpl.
  - rewrite <- insert_delete_eq, map_sum_insert_None by apply lookup_delete_eq.
    rewrite (map_sum_delete m k v) by exact Hk. lia.
  - rewrite map_sum_insert_None by exact Hk. lia.
Qed.

Lemma dict_get_add_eq k n m : dict_get (dict_add k n m) k = dict_get m k + n.
Proof. unfold dict_add at 1, dict_get at 1. by rewrite lookup_insert_eq. Qed.

Lemma dict_get_add_ne k k' n m : k ≠ k' -> dict_get (dict_add k n m) k' = dict_get m k'.
Proof. intros. unfold dict_add, dict_get. by rewrite lookup_insert_ne. Qed.

(** Dropping the zero entries does not change the sum. *)
Lemma map_sum_filter_pos m :
  (forall k v, m !! k = Some v -> 0 <= v) ->
  map_sum (filter (fun kv => 0 < kv.2) m) = map_sum m.
Proof.
  induction m as [|k v m Hk IH] using map_ind; intros Hpos.
  - by rewrite map_filter_empty.
  - assert (Hm : forall k' v', m !! k' = Some v' -> 0 <= v').
    { intros k' v' Hk'. apply (Hpos k'). rewrite lookup_insert_ne; [done|]. congruence. }
    assert (0 <= v) by (apply (Hpos k), lookup_insert_eq).
    rewrite map_filter_insert. simpl.
    assert (Hf : filter (fun kv : K * Z => 0 < kv.2) m !! k = None)
      by (apply map_lookup_filter_None_2; by left).
    destruct (decide (0 < v)).
    + rewrite !map_sum_insert_None by done. by rewrite IH.
    + rewrite map_filter_delete, delete_id by exact Hf.
      rewrite map_sum_insert_None, IH by done. lia.
Qed.
End MapSums.

#[export] Hint Rewrite @map_sum_empty @map_sum_dict_add : mobility.

(** ** Filtering *)

Lemma elem_of_filter_b {A} (p : A -> bool) l x : x ∈ List.filter p l <-> x ∈ l /\ p x = true.
Proof. rewrite !list_elem_of_In. apply filter_In. Qed.

(** ** Sorting: [sorted(xs, key=...)] and [sorted(set(xs))] *)

Section StableSort.
Context {A : Type} (leb : A -> A -> bool).

Fixpoint sort_insert (x : A) (l : list A) : list A :=
  match l with
  | [] => [x]
  | y :: l' => if leb x y then x :: y :: l' else y :: sort_insert x l'
  end.

(** Stable: an element is placed before the later elements it ties with. *)
Definition stable_sort (l : list A) : list A := foldr sort_insert [] l.

Lemma sort_insert_perm x l : sort_insert x l ≡ₚ x :: l.
Proof.
  induction l as [|y l IH]; simpl; [done|].
  destruct (leb x y); [done|]. rewrite IH. apply Permutation_swap.
Qed.

Lemma stable_sort_perm l : stable_sort l ≡ₚ l.
Proof. induction l as [|x l IH]; simpl; [done|]. by rewrite sort_insert_perm, IH. Qed.

Lemma stable_sort_length l : length (stable_sort l) = length l.
Proof. apply Permutation_length, stable_sort_perm. Qed.

Hypothesis leb_trans : forall x y z, leb x y = true -> leb y z = true -> leb x z = true.
Hypothesis leb_total : forall x y, leb x y = false -> leb y x = true.

Lemma sort_insert_sorted x l :
  StronglySorted (fun a b => leb a b = true) l ->
  StronglySorted (fun a b => leb a b = true) (sort_insert x l).
Proof.
  induction 1 as [|y l Hl IH Hy]; simpl; [repeat constructor|].
  destruct (leb x y) eqn:Hxy.
  - repeat constructor; try assumption.
    eapply Forall_impl; [exact Hy|]. intros z Hz. eauto.
  - constructor; [exact IH|].
    rewrite sort_insert_perm. constructor; auto.
Qed.

Lemma stable_sort_sorted l : StronglySorted (fun a b => leb a b = true) (stable_sort l).
Proof. induction l; simpl; [constructor|]. by apply sort_insert_sorted. Qed.
End StableSort.

Fixpoint set_insert (x : Z) (l : list Z) : list Z :=
  match l with
  | [] => [x]
  | y :: l' => if x <? y then x :: y :: l' else if x =? y then y :: l' else y :: set_insert x l'
  end.

Definition sorted_set (l : list Z) : list Z := foldr set_insert [] l.

Lemma elem_of_set_insert x y l : y ∈ set_insert x l <-> y = x \/ y ∈ l.
Proof.
  induction l as [|z l IH]; simpl; [set_solver|].
  destruct (x <? z); [set_solver|]. destruct (Z.eqb_spec x z); [subst; set_solver|].
  rewrite !elem_of_cons, IH. tauto.
Qed.

Lemma elem_of_sorted_set y l : y ∈ sorted_set l <-> y ∈ l.
Proof. induction l as [|x l IH]; simpl; [done|]. rewrite elem_of_set_insert, IH. set_solver. Qed.

Lemma sorted_set_sorted l : StronglySorted Z.lt (sorted_set l).
Proof.
  induction l as [|x l IH]; simpl; [constructor|].
  induction IH as [|y l' Hl' IH' Hy]; simpl; [repeat constructor|].
  destruct (Z.ltb_spec x y).
  - repeat constructor; try done. eapply Forall_impl; [exact Hy|]. simpl. lia.
  - destruct (Z.eqb_spec x y); [by constructor|].
    constructor; [done|]. apply Forall_forall. intros z.
    rewrite elem_of_set_insert. rewrite Forall_forall in Hy. intros [->|?]; [lia|auto].
Qed.

(** [zip(xs, xs[1:])] *)
Definition pairs {A} (l : list A) : list (A * A) := zip l (tail l).

Lemma pairs_cons2 {A} (x y : A) l : pairs (x :: y :: l) = (x, y) :: pairs (y :: l).
Proof. reflexivity. Qed.

Lemma elem_of_pairs {A} (p : A * A) l : p ∈ pairs l -> p.1 ∈ l /\ p.2 ∈ l.
Proof.
  induction l as [|x [|y l] IH]; [set_solver..|].
  rewrite pairs_cons2, elem_of_cons. intros [->|Hp]; simpl; [set_solver|].
  destruct (IH Hp). set_solver.
Qed.

(** Consecutive elements of a strictly increasing list have nothing between. *)
Lemma pairs_gap l a b c :
  StronglySorted Z.lt l -> (a, b) ∈ pairs l -> c ∈ l -> a < b /\ (c <= a \/ b <= c).
Proof.
  revert c. induction l as [|x [|y l] IH]; intros c; [set_solver..|].
  rewrite pairs_cons2. intros Hs Hab Hc.
  apply StronglySorted_inv in Hs as [Hs Hx].
  rewrite Forall_forall in Hx.
  apply elem_of_cons in Hab as [[= -> ->]|Hab].
  - assert (x < y) by (apply Hx; left). split; [lia|].
    apply elem_of_cons in Hc as [->|Hc]; [lia|].
    apply StronglySorted_inv in Hs as [_ Hy]. rewrite Forall_forall in Hy.
    apply elem_of_cons in Hc as [->|Hc]; [lia|]. specialize (Hy _ Hc). lia.
  - apply elem_of_cons in Hc as [->|Hc]; [|auto].
    destruct (elem_of_pairs _ _ Hab) as [Ha _].
    simpl in Ha. destruct (IH a Hs Hab Ha) as [? _]. specialize (Hx _ Ha). lia.
Qed.

(** The gaps of a strictly increasing list add up to its span. *)
Lemma sum_pairs_span l lo hi :
  StronglySorted Z.lt l -> lo ∈ l -> hi ∈ l -> (forall x, x ∈ l -> lo <= x <= hi) ->
  sum_by (fun p => p.2 - p.1) (pairs l) = hi - lo.
Proof.
  revert lo. induction l as [|x [|y l] IH]; intros lo Hs Hlo Hhi Hb.
  - set_solver.
  - apply list_elem_of_singleton in Hlo, Hhi. subst. simpl. unfold sum_by; simpl. lia.
  - rewrite pairs_cons2, sum_by_cons. simpl.
    pose proof (StronglySorted_inv Hs) as [Hs' Hx]. rewrite Forall_forall in Hx.
    assert (x = lo).
    { apply elem_of_cons in Hlo as [?|Hlo]; [done|].
      specialize (Hx _ Hlo). specialize (Hb x). set_unfold. assert (lo <= x <= hi) by auto. lia. }
    subst x. rewrite (IH y); [lia|done|left| |].
    + apply elem_of_cons in Hhi as [->|?]; [|done].
      assert (lo < y) by (apply Hx; left). assert (lo <= y <= lo) by (apply Hb; set_solver). lia.
    + intros z Hz. split; [|apply Hb; by right].
      apply elem_of_cons in Hz as [->|Hz]; [lia|].
      apply StronglySorted_inv in Hs' as [_ Hy]. rewrite Forall_forall in Hy.
      specialize (Hy _ Hz). lia.
Qed.

(** ** Time

    A [datetime] is a wall-clock reading in microseconds since the Unix epoch
    with the UTC offset of its timezone, absent for a naive value. *)

Record datetime := Datetime { wall : Z; utcoffset : option Z }.

#[export] Instance datetime_eq_dec : EqDecision datetime.
Proof. solve_decision. Defined.

Definition aware (us : Z) : datetime := Datetime us (Some 0).

(** [value.astimezone(UTC)], a naive value being read as UTC. *)
Definition utc_of (d : datetime) : Z := wall d - default 0 (utcoffset d).

Definition second : Z := 1000000.
Definition hour : Z := 3600 * second.
Definition day : Z := 24 * hour.

(** Africa/Lagos is UTC+1 without daylight saving; a calendar date is the
    number of days since 1970-01-01, and ISO date strings are compared and
    used as dictionary keys through that number. *)
Definition lagos_date (us : Z) : Z := (us + hour) / day.
Definition lagos_midnight (d : Z) : Z := d * day - hour.

Lemma lagos_date_spec us d :
  lagos_date us = d <-> lagos_midnight d <= us < lagos_midnight (d + 1).
Proof.
  unfold lagos_date, lagos_midnight, day, hour, second.
  pose proof (Z.div_mod (us + 3600 * 1000000) (24 * (3600 * 1000000)) ltac:(lia)).
  pose proof (Z.mod_pos_bound (us + 3600 * 1000000) (24 * (3600 * 1000000)) ltac:(lia)).
  nia.
Qed.

Lemma lagos_date_mono a b : a <= b -> lagos_date a <= lagos_date b.
Proof. intros. apply Z.div_le_mono; unfold day, hour, second; lia. Qed.

Lemma pairs_lookup {A} (l : list A) i a b :
  pairs l !! i = Some (a, b) <-> l !! i = Some a /\ l !! S i = Some b.
Proof.
  unfold pairs. rewrite lookup_zip_with_Some. split.
  - intros (x & y & [= -> ->] & Hx & Hy). by rewrite lookup_tail in Hy.
  - intros [Hx Hy]. exists a, b. by rewrite lookup_tail.
Qed.

Lemma StronglySorted_lookup {A} (R : relation A) l i j x y :
  StronglySorted R l -> l !! i = Some x -> l !! j = Some y -> (i < j)%nat -> R x y.
Proof.
  intros Hs. revert i j. induction Hs as [|z l Hs IH Hz]; intros [|i] [|j] Hi Hj Hij;
    simpl in *; try lia; try discriminate.
  - injection Hi as <-. rewrite Forall_forall in Hz. apply Hz. by eapply list_elem_of_lookup_2.
  - eapply (IH i j); eauto; lia.
Qed.
