(* ===== verification/Eligibility.v ===== *)
(** Payable-time classification of a trip ([app/services/payout_eligibility.py]):
    the session is cut into elementary slices, every slice gets one reason, and
    the payable slices are credited with their share of the driven distance. *)

From S2P Require Import Prelude.
From stdpp Require Import base list strings gmap sorting.
From Stdlib Require Import ZArith QArith Qround Lia.
#[local] Open Scope Z_scope.

(** ** Python floats

    Binary64 arithmetic and the platform's libm, as far as the classifier uses
    them.  The laws state what IEEE 754 correct rounding gives for
    [timedelta.total_seconds]: a monotone conversion, exact at whole seconds,
    and fine enough below 2^52 microseconds (142 years) to keep the floor. *)

Class PyFloat (F : Type) := {
  f_of_micros : Z -> F;        (* timedelta.total_seconds() *)
  f_lit : Q -> F;              (* a numeric literal or an int operand *)
  f_inf : F;
  f_add : F -> F -> F;
  f_sub : F -> F -> F;
  f_mul : F -> F -> F;
  f_div : F -> F -> F;
  f_radians : F -> F;
  f_sin : F -> F;
  f_cos : F -> F;
  f_asin : F -> F;
  f_sqrt : F -> F;
  f_ltb : F -> F -> bool;
  f_leb : F -> F -> bool;
  f_floor : F -> Z;            (* math.floor *)
  f_to_Q : F -> Q              (* Fraction(x) *)
}.

Class PyFloatLaws (F : Type) `{PyFloat F} : Prop := {
  floor_micros_mono a b : a <= b -> f_floor (f_of_micros a) <= f_floor (f_of_micros b);
  floor_micros_whole k : f_floor (f_of_micros (k * second)) = k;
  floor_micros_exact us : 0 <= us < 2 ^ 52 -> f_floor (f_of_micros us) = us / second;
  sub_pos a b : f_floor a < f_floor b -> (0 < f_to_Q (f_sub b a))%Q
}.

(** ** Reasons and constants *)

Inductive reason :=
| REASON_GPS_GAP
| REASON_LOW_ACCURACY
| REASON_TELEPORT
| REASON_OUT_OF_WINDOW
| REASON_OUT_OF_AREA
| REASON_STATIONARY.

#[export] Instance reason_eq_dec : EqDecision reason.
Proof. solve_decision. Defined.

Definition EXCLUSION_REASONS : list reason :=
  [REASON_GPS_GAP; REASON_LOW_ACCURACY; REASON_TELEPORT;
   REASON_OUT_OF_WINDOW; REASON_OUT_OF_AREA; REASON_STATIONARY].

Definition reason_index (r : reason) : nat :=
  match r with
  | REASON_GPS_GAP => 0 | REASON_LOW_ACCURACY => 1 | REASON_TELEPORT => 2
  | REASON_OUT_OF_WINDOW => 3 | REASON_OUT_OF_AREA => 4 | REASON_STATIONARY => 5
  end.

#[export] Instance reason_countable : Countable reason.
Proof.
  refine (inj_countable reason_index (fun n => EXCLUSION_REASONS !! n) _).
  by intros [].
Defined.

Definition STATIONARY_POLICY_D39 : string := "d39-stop-5min-v1".
Definition METRES_PER_MILE : Q := 1609344 # 1000.

(** [dict.fromkeys(EXCLUSION_REASONS, 0)] *)
Definition no_exclusions : gmap reason Z := list_to_map ((fun r => (r, 0)) <$> EXCLUSION_REASONS).

Section Eligibility.
Context {F : Type} `{PyFloat F}.

Definition EARTH_RADIUS_M : F := f_lit (6371000 # 1).

Record eligibility_params := EligibilityParams {
  stationary_radius_m : F;
  stationary_window_seconds : Z;
  stationary_grace_seconds : Z;
  max_accuracy_m : F;
  teleport_kmh : F;
  max_ping_gap_seconds : Z
}.

Record eligibility_ping := EligibilityPing {
  recorded_at : datetime;
  latitude : F;
  longitude : F;
  accuracy_m : option F;
  in_area : bool;
  in_premium : bool
}.

Record eligible_slice := EligibleSlice {
  start_offset : Z;
  end_offset : Z;
  slice_day : Z;
  premium : bool;
  interval_index : nat;
  interval_length : Z;
  interval_start_seconds : F;
  interval_seconds : F
}.

Definition slice_length (s : eligible_slice) : Z := end_offset s - start_offset s.

Record detector_evidence := DetectorEvidence {
  evidence_version : string;
  evidence_params : eligibility_params;
  excluded_stop_ranges : list (Z * Z)
}.

Record eligibility_breakdown := EligibilityBreakdown {
  eligible_seconds : Z;
  excluded_seconds_by_reason : gmap reason Z;
  teleport_incident_count : Z;
  eligible_seconds_by_day : gmap Z Z;
  eligible_slices : list eligible_slice;
  stationary_detector_evidence : option detector_evidence;
  eligible_instant_intervals : list (nat * Z * bool)
}.

Definition total_seconds (b : eligibility_breakdown) : Z :=
  eligible_seconds b + map_sum (excluded_seconds_by_reason b).

(** ** Geometry and signal rules *)

Definition f_int (n : Z) : F := f_lit (inject_Z n).
Definition f_min (a b : F) : F := if f_ltb b a then b else a.
Definition f_square (a : F) : F := f_mul a a.

Definition haversine_m (lat1 lon1 lat2 lon2 : F) : F :=
  let phi1 := f_radians lat1 in
  let phi2 := f_radians lat2 in
  let dphi := f_radians (f_sub lat2 lat1) in
  let dlambda := f_radians (f_sub lon2 lon1) in
  let a := f_add (f_square (f_sin (f_div dphi (f_int 2))))
             (f_mul (f_mul (f_cos phi1) (f_cos phi2))
                (f_square (f_sin (f_div dlambda (f_int 2))))) in
  f_mul (f_mul (f_int 2) EARTH_RADIUS_M) (f_asin (f_min (f_int 1) (f_sqrt a))).

Definition ping_distance (p q : eligibility_ping) : F :=
  haversine_m (latitude p) (longitude p) (latitude q) (longitude q).

Definition ping_seconds (start : Z) (p : eligibility_ping) : F :=
  f_of_micros (utc_of (recorded_at p) - start).

Definition accuracy_fails (p : eligibility_ping) (params : eligibility_params) : bool :=
  match accuracy_m p with
  | None => true
  | Some a => f_ltb (max_accuracy_m params) a
  end.

Definition signal_reason (first second : eligibility_ping) (delta : F)
    (params : eligibility_params) : option reason :=
  if f_ltb (f_int (max_ping_gap_seconds params)) delta then Some REASON_GPS_GAP
  else if accuracy_fails first params || accuracy_fails second params
  then Some REASON_LOW_ACCURACY
  else
    let distance := ping_distance first second in
    let speed_kmh :=
      if f_ltb (f_int 0) delta then f_mul (f_div distance delta) (f_lit (36 # 10)) else f_inf in
    if f_ltb (f_int 1) distance && f_ltb (teleport_kmh params) speed_kmh
    then Some REASON_TELEPORT
    else None.

(** ** Long stops: the nested loop of [_stay_point_regions] *)

(** The inner [for j in range(anchor + 1, count)] with its two breaks; the
    fuel is the number of indices left in the range. *)
Fixpoint stay_scan (pings : list eligibility_ping) (raw : list F)
    (params : eligibility_params) (fuel anchor j last_inside : nat) : nat :=
  match fuel with
  | O => last_inside
  | S fuel' =>
      match pings !! anchor, pings !! j, raw !! j, raw !! (j - 1)%nat with
      | Some pa, Some pj, Some rj, Some rp =>
          if f_ltb (f_int (max_ping_gap_seconds params)) (f_sub rj rp) then last_inside
          else if f_leb (stationary_radius_m params) (ping_distance pa pj) then last_inside
          else stay_scan pings raw params fuel' anchor (S j) j
      | _, _, _, _ => last_inside
      end
  end.

(** The outer [while anchor < count - 1]. *)
Fixpoint stay_loop (pings : list eligibility_ping) (offsets : list Z) (raw : list F)
    (params : eligibility_params) (fuel anchor : nat) (regions : list (Z * Z))
    : result (list (Z * Z)) :=
  match fuel with
  | O => Raise OutOfFuel
  | S fuel' =>
      let count := length pings in
      if (S anchor <? count)%nat then
        let last_inside := stay_scan pings raw params (count - S anchor) anchor (S anchor) anchor in
        match raw !! last_inside, raw !! anchor, offsets !! anchor, offsets !! last_inside with
        | Some r_last, Some r_anchor, Some span_start, Some span_end =>
            let confirmed := f_ltb (f_int (stationary_window_seconds params)) (f_sub r_last r_anchor) in
            if (anchor <? last_inside)%nat && confirmed then
              let regions' :=
                if span_start <? span_end then regions ++ [(span_start, span_end)] else regions in
              stay_loop pings offsets raw params fuel' (S last_inside) regions'
            else stay_loop pings offsets raw params fuel' (S anchor) regions
        | _, _, _, _ => Raise IndexError
        end
      else Ok regions
  end.

Definition stay_point_regions (pings : list eligibility_ping) (offsets : list Z) (raw : list F)
    (params : eligibility_params) : result (list (Z * Z)) :=
  stay_loop pings offsets raw params (S (length pings)) 0 [].

(** ** Lagos days *)

Definition lagos_day_at (start : Z) (offset_seconds : Z) : Z :=
  lagos_date (start + offset_seconds * second).

Fixpoint midnight_loop (start duration : Z) (fuel : nat) (d : Z) (offsets : list Z)
    : result (list Z) :=
  match fuel with
  | O => Raise OutOfFuel
  | S fuel' =>
      let d' := d + 1 in
      let offset := f_floor (f_of_micros (lagos_midnight d' - start)) in
      if duration <=? offset then Ok offsets
      else midnight_loop start duration fuel' d' (if 0 <? offset then offsets ++ [offset] else offsets)
  end.

Definition lagos_midnight_offsets (start duration : Z) : result (list Z) :=
  midnight_loop start duration (Z.to_nat (duration / 86400) + 3) (lagos_date start) [].

(** ** Classification *)

(** One entry of [for index in range(len(ordered) - 1)]: two consecutive pings
    with their raw seconds and clamped offsets. *)
Record ping_interval := PingInterval {
  iv_first : eligibility_ping;
  iv_second : eligibility_ping;
  iv_raw_first : F;
  iv_raw_second : F;
  iv_off_first : Z;
  iv_off_second : Z
}.

Fixpoint ping_intervals (pings : list eligibility_ping) (raw : list F) (offsets : list Z)
    : list ping_interval :=
  match pings, raw, offsets with
  | p :: ((p' :: _) as pings'), r :: ((r' :: _) as raw'), o :: ((o' :: _) as offsets') =>
      PingInterval p p' r r' o o' :: ping_intervals pings' raw' offsets'
  | _, _, _ => []
  end.

(** Seconds between the two pings, as the code subtracts them. *)
Definition iv_delta (iv : ping_interval) : F := f_sub (iv_raw_second iv) (iv_raw_first iv).

(** [interval_reason[index]] *)
Definition interval_reason (params : eligibility_params) (iv : ping_interval) : option reason :=
  match signal_reason (iv_first iv) (iv_second iv) (iv_delta iv) params with
  | Some r => Some r
  | None =>
      if negb (in_area (iv_first iv) && in_area (iv_second iv))
      then Some REASON_OUT_OF_AREA else None
  end.

Definition is_teleport (params : eligibility_params) (iv : ping_interval) : bool :=
  bool_decide (signal_reason (iv_first iv) (iv_second iv) (iv_delta iv) params
    = Some REASON_TELEPORT).

Definition iv_premium (iv : ping_interval) : bool :=
  in_premium (iv_first iv) && in_premium (iv_second iv).

(** [off]: whole seconds into the session, clamped to it. *)
Definition off (duration : Z) (seconds : F) : Z :=
  Z.min (Z.max 0 (f_floor seconds)) duration.

(** The binary search of [interval_index_for]; indices are Python ints. *)
Fixpoint interval_search (offsets : list Z) (slice_start : Z) (fuel : nat) (low high : Z)
    : result (option nat) :=
  match fuel with
  | O => Raise OutOfFuel
  | S fuel' =>
      if low <=? high then
        let mid := (low + high) / 2 in
        let o := offsets !!! Z.to_nat mid in
        let o' := offsets !!! Z.to_nat (mid + 1) in
        if (o <=? slice_start) && (slice_start <? o') then Ok (Some (Z.to_nat mid))
        else if slice_start <? o then interval_search offsets slice_start fuel' low (mid - 1)
        else interval_search offsets slice_start fuel' (mid + 1) high
      else Ok None
  end.

Definition interval_index_for (offsets : list Z) (slice_start : Z) : result (option nat) :=
  match head offsets, last offsets with
  | Some first_offset, Some last_offset =>
      if (slice_start <? first_offset) || (last_offset <=? slice_start) then Ok None
      else interval_search offsets slice_start (S (length offsets)) 0
             (Z.of_nat (length offsets) - 2)
  | _, _ => Ok None
  end.

(** [stationary_reason_at] *)
Definition stationary_at (regions : list (Z * Z)) (point : Z) : bool :=
  existsb (fun r => (r.1 <=? point) && (point <? r.2)) regions.

(** The values of [classify_session] that are fixed while it loops. *)
Record session_context := SessionContext {
  cx_start : Z;
  cx_params : eligibility_params;
  cx_offsets : list Z;
  cx_intervals : list ping_interval;
  cx_window_from : Z;
  cx_window_to : Z;
  cx_regions : list (Z * Z)
}.

Record slice_totals := SliceTotals {
  st_excluded : gmap reason Z;
  st_eligible : Z;
  st_by_day : gmap Z Z;
  st_slices : list eligible_slice
}.

Definition exclude (r : reason) (length : Z) (t : slice_totals) : slice_totals :=
  SliceTotals (dict_add r length (st_excluded t)) (st_eligible t) (st_by_day t) (st_slices t).

(** The body of the loop over elementary slices once its ping interval is known. *)
Definition classify_in_interval (cx : session_context) (slice_start slice_end : Z)
    (index : nat) (iv : ping_interval) (t : slice_totals) : slice_totals :=
  let length := slice_end - slice_start in
  let base := interval_reason (cx_params cx) iv in
  if bool_decide (base = Some REASON_GPS_GAP) then exclude REASON_GPS_GAP length t
  else if bool_decide (base = Some REASON_LOW_ACCURACY) then exclude REASON_LOW_ACCURACY length t
  else if bool_decide (base = Some REASON_TELEPORT) then exclude REASON_TELEPORT length t
  else if (slice_start <? cx_window_from cx) || (cx_window_to cx <=? slice_start)
  then exclude REASON_OUT_OF_WINDOW length t
  else if bool_decide (base = Some REASON_OUT_OF_AREA) then exclude REASON_OUT_OF_AREA length t
  else if stationary_at (cx_regions cx) slice_start then exclude REASON_STATIONARY length t
  else
    let day_key := lagos_day_at (cx_start cx) slice_start in
    SliceTotals (st_excluded t) (st_eligible t + length)
      (dict_add day_key length (st_by_day t))
      (st_slices t ++ [EligibleSlice slice_start slice_end day_key (iv_premium iv) index
                         (iv_off_second iv - iv_off_first iv) (iv_raw_first iv) (iv_delta iv)]).

Definition classify_slice (cx : session_context) (t : slice_totals) (s : Z * Z)
    : result slice_totals :=
  let '(slice_start, slice_end) := s in
  let length := slice_end - slice_start in
  if length <=? 0 then Ok t
  else
    index ← interval_index_for (cx_offsets cx) slice_start;
    match index with
    | None => Ok (exclude REASON_GPS_GAP length t)
    | Some index =>
        iv ← require_some (cx_intervals cx !! index) IndexError;
        Ok (classify_in_interval cx slice_start slice_end index iv t)
    end.

Fixpoint classify_slices (cx : session_context) (t : slice_totals) (slices : list (Z * Z))
    : result slice_totals :=
  match slices with
  | [] => Ok t
  | s :: slices' => t' ← classify_slice cx t s; classify_slices cx t' slices'
  end.

(** Sub-second intervals that are eligible at their instant. *)
Definition instant_eligible (cx : session_context) (duration : Z) (iv : ping_interval) : bool :=
  let point := iv_off_first iv in
  (iv_off_second iv =? point)
  && f_leb (f_int 0) (iv_raw_first iv)
  && bool_decide (interval_reason (cx_params cx) iv = None)
  && (cx_window_from cx <=? point) && (point <? cx_window_to cx)
  && (point <? duration)
  && negb (stationary_at (cx_regions cx) point).

Fixpoint eligible_instants (cx : session_context) (duration : Z) (index : nat)
    (ivs : list ping_interval) : list (nat * Z * bool) :=
  match ivs with
  | [] => []
  | iv :: ivs' =>
      let rest := eligible_instants cx duration (S index) ivs' in
      if instant_eligible cx duration iv
      then (index, lagos_day_at (cx_start cx) (iv_off_first iv), iv_premium iv) :: rest
      else rest
  end.

Definition count_teleports (params : eligibility_params) (ivs : list ping_interval) : Z :=
  Z.of_nat (length (List.filter (is_teleport params) ivs)).

(** Elementary slice boundaries. *)
Definition slice_cuts (duration window_from window_to : Z) (offsets midnights : list Z)
    (regions : list (Z * Z)) : list Z :=
  [0; duration; window_from; window_to] ++ offsets ++ midnights
  ++ ((fun r => Z.min (Z.max 0 r.1) duration) <$> regions)
  ++ ((fun r => Z.min (Z.max 0 r.2) duration) <$> regions).

Definition ping_before (p q : eligibility_ping) : bool :=
  utc_of (recorded_at p) <=? utc_of (recorded_at q).

Definition window_offset (start duration : Z) (w : option datetime) (otherwise : Z) : Z :=
  match w with
  | Some w => off duration (f_of_micros (utc_of w - start))
  | None => otherwise
  end.

Definition session_duration (session_started_at session_ended_at : datetime) : Z :=
  Z.max 0 (f_floor (f_of_micros (utc_of session_ended_at - utc_of session_started_at))).

Definition empty_breakdown (excluded : gmap reason Z) : eligibility_breakdown :=
  EligibilityBreakdown 0 excluded 0 ∅ [] None [].

Definition classify_session (session_started_at session_ended_at : datetime)
    (pings : list eligibility_ping) (window_start_at window_end_at : option datetime)
    (params : eligibility_params) (stationary_policy_marker : string)
    : result eligibility_breakdown :=
  raise_if (negb (bool_decide (stationary_policy_marker = STATIONARY_POLICY_D39))) ValueError ;;
  let start := utc_of session_started_at in
  let duration := session_duration session_started_at session_ended_at in
  let ordered := stable_sort ping_before pings in
  let raw_seconds := ping_seconds start <$> ordered in
  let offsets := off duration <$> raw_seconds in
  if duration =? 0 then Ok (empty_breakdown ∅)
  else if bool_decide (ordered = []) then Ok (empty_breakdown {[REASON_GPS_GAP := duration]})
  else
    let window_from := window_offset start duration window_start_at 0 in
    let window_to := window_offset start duration window_end_at duration in
    stay_regions ← stay_point_regions ordered offsets raw_seconds params;
    midnights ← lagos_midnight_offsets start duration;
    let intervals := ping_intervals ordered raw_seconds offsets in
    let cx := SessionContext start params offsets intervals window_from window_to stay_regions in
    let boundaries :=
      sorted_set (slice_cuts duration window_from window_to offsets midnights stay_regions) in
    t ← classify_slices cx (SliceTotals no_exclusions 0 ∅ []) (pairs boundaries);
    Ok (EligibilityBreakdown (st_eligible t)
          (filter (fun kv => 0 < kv.2) (st_excluded t))
          (count_teleports params intervals)
          (st_by_day t)
          (st_slices t)
          (Some (DetectorEvidence stationary_policy_marker params stay_regions))
          (eligible_instants cx duration 0 intervals)).

(** ** Credited distance *)

Definition q_div (a b : Q) : result Q :=
  if Qeq_bool b 0 then Raise ZeroDivisionError else Ok (a / b)%Q.

Definition interval_metres (ordered : list eligibility_ping) (index : nat) : result Q :=
  match ordered !! index, ordered !! S index with
  | Some p, Some q => Ok (f_to_Q (ping_distance p q))
  | _, _ => Raise IndexError
  end.

Definition q_weight (premium : bool) : Q := if premium then 1%Q else 0%Q.

Definition q_get (m : gmap Z Q) (k : Z) : Q := default 0%Q (m !! k).

Definition slice_share (ordered : list eligibility_ping) (s : eligible_slice) : result Q :=
  let start := f_to_Q (interval_start_seconds s) in
  let duration := f_to_Q (interval_seconds s) in
  in_trip ← q_div (start + duration - (if Qle_bool 0 start then start else 0))%Q duration;
  metres ← interval_metres ordered (interval_index s);
  fraction ← q_div (inject_Z (slice_length s)) (inject_Z (interval_length s));
  Ok (metres * fraction * in_trip)%Q.

Fixpoint credit_slices (ordered : list eligibility_ping) (totals : gmap Z Q)
    (slices : list eligible_slice) : result (gmap Z Q) :=
  match slices with
  | [] => Ok totals
  | s :: slices' =>
      share ← slice_share ordered s;
      credit_slices ordered
        (<[slice_day s := (q_get totals (slice_day s) + share * q_weight (premium s))%Q]> totals)
        slices'
  end.

Fixpoint credit_instants (ordered : list eligibility_ping) (totals : gmap Z Q)
    (instants : list (nat * Z * bool)) : result (gmap Z Q) :=
  match instants with
  | [] => Ok totals
  | (index, day, premium) :: instants' =>
      metres ← interval_metres ordered index;
      credit_instants ordered
        (<[day := (q_get totals day + metres * q_weight premium)%Q]> totals) instants'
  end.

Definition credited_distance_m_by_day (pings : list eligibility_ping)
    (breakdown : eligibility_breakdown) : result (gmap Z Z) :=
  let ordered := stable_sort ping_before pings in
  slice_totals ← credit_slices ordered ∅ (eligible_slices breakdown);
  totals ← credit_instants ordered slice_totals (eligible_instant_intervals breakdown);
  Ok (Qfloor <$> (totals : gmap Z Q)).

(** ** The accounting invariant of the slice loop *)

(** What the totals have accounted for after some slices. *)
Record accounts_for (t : slice_totals) (seconds : Z) : Prop := {
  acct_partition : st_eligible t + map_sum (st_excluded t) = seconds;
  acct_days : map_sum (st_by_day t) = st_eligible t;
  acct_slices : sum_by slice_length (st_slices t) = st_eligible t;
  acct_nonneg : forall r n, st_excluded t !! r = Some n -> 0 <= n
}.

Lemma accounts_start : accounts_for (SliceTotals no_exclusions 0 ∅ []) 0.
Proof.
  split; try reflexivity.
  intros r n Hn. destruct r; vm_compute in Hn; by injection Hn as <-.
Qed.

Lemma accounts_exclude t n r len :
  0 <= len -> accounts_for t n -> accounts_for (exclude r len t) (n + len).
Proof.
  intros Hlen [Hp Hd Hs Hn]. split; simpl; try done.
  - rewrite map_sum_dict_add. lia.
  - intros r' n'. unfold dict_add, dict_get. rewrite lookup_insert.
    case_decide; [|apply Hn]. intros [= <-]. subst.
    destruct (st_excluded t !! r') eqn:E; simpl; [apply Hn in E|]; lia.
Qed.

Lemma accounts_in_interval cx t n a b i iv :
  a <= b -> accounts_for t n ->
  accounts_for (classify_in_interval cx a b i iv t) (n + (b - a)).
Proof.
  intros Hab Ht. unfold classify_in_interval.
  repeat case_match; try (apply accounts_exclude; [lia | done]).
  destruct Ht as [Hp Hd Hs Hn]. split; simpl; try done.
  - lia.
  - rewrite map_sum_dict_add. lia.
  - autorewrite with mobility. unfold slice_length at 2; simpl. lia.
Qed.

Lemma accounts_slice cx t t' n s :
  s.1 < s.2 -> accounts_for t n -> classify_slice cx t s = Ok t' ->
  accounts_for t' (n + (s.2 - s.1)).
Proof.
  destruct s as [a b]; simpl. intros Hab Ht Hc.
  rewrite (proj2 (Z.leb_gt _ _)) in Hc by lia. inv_ok.
  - by apply accounts_in_interval; [lia|].
  - by apply accounts_exclude; [lia|].
Qed.

Lemma accounts_slices cx slices t t' n :
  (forall s, s ∈ slices -> s.1 < s.2) ->
  accounts_for t n -> classify_slices cx t slices = Ok t' ->
  accounts_for t' (n + sum_by (fun s => s.2 - s.1) slices).
Proof.
  revert t n. induction slices as [|s slices IH]; intros t n Hs Ht Hc; simpl in Hc.
  - inv_ok. by replace (n + _) with n by (autorewrite with mobility; lia).
  - ok_step Hc as t1 Ht1. rewrite sum_by_cons, Z.add_assoc.
    eapply IH; [set_solver| |exact Hc]. eapply accounts_slice; [|eassumption..]. set_solver.
Qed.

(** ** The loops terminate within their bounds *)

Lemma stay_scan_bounds pings raw params fuel anchor j last_inside :
  (last_inside < length pings)%nat -> (j + fuel <= length pings)%nat -> (last_inside < j)%nat ->
  (last_inside <= stay_scan pings raw params fuel anchor j last_inside < length pings)%nat.
Proof.
  revert j last_inside. induction fuel as [|fuel IH]; intros j l Hl Hj Hlj; simpl; [lia|].
  repeat case_match; try lia.
  assert (j <= stay_scan pings raw params fuel anchor (S j) j < length pings)%nat
    by (apply IH; lia). lia.
Qed.

Lemma stay_loop_total pings offsets raw params fuel anchor regions :
  length offsets = length pings -> length raw = length pings ->
  (anchor <= length pings)%nat -> (length pings < anchor + fuel)%nat ->
  exists r, stay_loop pings offsets raw params fuel anchor regions = Ok r.
Proof.
  intros Ho Hr. revert anchor regions.
  induction fuel as [|fuel IH]; intros anchor regions Ha Hf; simpl; [lia|].
  destruct (Nat.ltb_spec (S anchor) (length pings)) as [Hlt|]; [|eauto].
  set (l := stay_scan _ _ _ _ _ _ _).
  assert (anchor <= l < length pings)%nat as Hl by (apply stay_scan_bounds; lia).
  destruct (lookup_lt_is_Some_2 raw l) as [? ->]; [lia|].
  destruct (lookup_lt_is_Some_2 raw anchor) as [? ->]; [lia|].
  destruct (lookup_lt_is_Some_2 offsets anchor) as [? ->]; [lia|].
  destruct (lookup_lt_is_Some_2 offsets l) as [? ->]; [lia|].
  case_match; apply IH; lia.
Qed.

Lemma stay_point_regions_total pings offsets raw params :
  length offsets = length pings -> length raw = length pings ->
  exists r, stay_point_regions pings offsets raw params = Ok r.
Proof. intros. apply stay_loop_total; lia. Qed.

Lemma ping_intervals_length pings raw offsets :
  length raw = length pings -> length offsets = length pings ->
  length (ping_intervals pings raw offsets) = pred (length pings).
Proof.
  revert raw offsets.
  induction pings as [|p [|p' pings] IH]; intros [|r [|r' raw]] [|o [|o' offsets]] Hr Ho;
    try (simpl in *; congruence).
  change (S (length (ping_intervals (p' :: pings) (r' :: raw) (o' :: offsets)))
    = S (length pings)).
  rewrite IH; simpl in *; lia.
Qed.

(** The binary search ends, and what it finds brackets the point. *)
Lemma interval_search_total offsets point fuel low high :
  0 <= low -> Z.max 0 (high - low + 1) < Z.of_nat fuel ->
  exists o, interval_search offsets point fuel low high = Ok o.
Proof.
  revert low high. induction fuel as [|fuel IH]; intros low high Hl Hf; cbn [interval_search];
    [lia|].
  destruct (Z.leb_spec low high); [|eauto].
  assert (low <= (low + high) / 2 <= high)
    by (split; [apply Z.div_le_lower_bound | apply Z.div_le_upper_bound]; lia).
  repeat case_match; eauto; apply IH; lia.
Qed.

Lemma interval_search_sound offsets point fuel low high i :
  0 <= low -> interval_search offsets point fuel low high = Ok (Some i) ->
  low <= Z.of_nat i <= high /\ offsets !!! i <= point < offsets !!! S i.
Proof.
  revert low high. induction fuel as [|fuel IH]; intros low high Hl; cbn [interval_search];
    [discriminate|].
  destruct (Z.leb_spec low high); [|discriminate].
  set (mid := (low + high) / 2).
  assert (low <= mid <= high)
    by (split; [apply Z.div_le_lower_bound | apply Z.div_le_upper_bound]; lia).
  destruct (_ && _) eqn:Hhit; intros Hs.
  - injection Hs as <-. bool_prop.
    replace (Z.to_nat (mid + 1)) with (S (Z.to_nat mid)) in * by lia. lia.
  - case_match; apply IH in Hs; lia.
Qed.

(** In sorted offsets the search finds an interval whenever one exists. *)
Lemma interval_search_complete offsets point fuel low high i :
  (forall j k, (j <= k < length offsets)%nat -> offsets !!! j <= offsets !!! k) ->
  0 <= low -> high + 1 < Z.of_nat (length offsets) ->
  low <= Z.of_nat i <= high -> offsets !!! i <= point < offsets !!! S i ->
  interval_search offsets point fuel low high <> Ok None.
Proof.
  intros Hsorted. revert low high.
  induction fuel as [|fuel IH]; intros low high Hl Hh Hi Hpoint; cbn [interval_search];
    [discriminate|].
  destruct (Z.leb_spec low high); [|lia].
  set (mid := (low + high) / 2).
  assert (low <= mid <= high)
    by (split; [apply Z.div_le_lower_bound | apply Z.div_le_upper_bound]; lia).
  replace (Z.to_nat (mid + 1)) with (S (Z.to_nat mid)) by lia.
  destruct (_ && _) eqn:Hhit; [discriminate|].
  destruct (Z.ltb_spec point (offsets !!! Z.to_nat mid)) as [Hlt|Hge].
  - apply IH; try lia. split; [lia|].
    destruct (Z.le_gt_cases mid (Z.of_nat i)) as [Hmi|]; [|lia].
    pose proof (Hsorted (Z.to_nat mid) i ltac:(lia)). lia.
  - apply IH; try lia. split; [|lia].
    destruct (Z.le_gt_cases (Z.of_nat i) mid) as [Hmi|]; [|lia].
    apply andb_false_iff in Hhit as [Hhit|Hhit]; bool_prop; [lia|].
    destruct (decide (mid = Z.of_nat i)) as [->|]; [rewrite Nat2Z.id in *; lia|].
    pose proof (Hsorted (S i) (Z.to_nat mid) ltac:(lia)). lia.
Qed.

Lemma interval_index_for_cases offsets point :
  (exists i, interval_index_for offsets point = Ok (Some i) /\
     (S i < length offsets)%nat /\ offsets !!! i <= point < offsets !!! S i) \/
  interval_index_for offsets point = Ok None.
Proof.
  unfold interval_index_for.
  destruct (head offsets) as [o|] eqn:Ho; [|auto]. destruct (last offsets); [|auto].
  destruct (_ || _); [auto|].
  destruct (interval_search_total offsets point (S (length offsets)) 0
              (Z.of_nat (length offsets) - 2)) as [[i|] Hi]; [lia|lia| |auto].
  left. exists i. pose proof Hi as Hs. apply interval_search_sound in Hs; [|lia].
  split; [done|]. lia.
Qed.

Definition offsets_sorted (offsets : list Z) : Prop :=
  forall j k, (j <= k < length offsets)%nat -> offsets !!! j <= offsets !!! k.

(** Reference: the first ping interval that contains the point, by linear search. *)
Definition linear_interval_for (offsets : list Z) (point : Z) : option nat :=
  fst <$> list_find (fun p => p.1 <= point < p.2) (pairs offsets).

Lemma linear_interval_for_bracket offsets point i :
  offsets_sorted offsets ->
  (S i < length offsets)%nat -> offsets !!! i <= point < offsets !!! S i ->
  linear_interval_for offsets point = Some i.
Proof.
  intros Hs Hi Hp. unfold linear_interval_for.
  apply fmap_Some. exists (i, (offsets !!! i, offsets !!! S i)). split; [|done].
  apply list_find_Some. split; [|split; [exact Hp|]].
  - apply pairs_lookup. split; apply list_lookup_lookup_total_lt; lia.
  - intros j [a b] Hj Hji. apply pairs_lookup in Hj as [Ha Hb]. simpl.
    apply list_lookup_total_correct in Ha, Hb. pose proof (Hs (S j) i ltac:(lia)). lia.
Qed.

Lemma linear_interval_for_None offsets point :
  (forall i, (S i < length offsets)%nat -> ~ (offsets !!! i <= point < offsets !!! S i)) ->
  linear_interval_for offsets point = None.
Proof.
  intros Hn. unfold linear_interval_for.
  destruct (list_find _ _) as [[i [a b]]|] eqn:E; [|done].
  apply list_find_Some in E as (Hl & Hp & _). apply pairs_lookup in Hl as [Ha Hb].
  pose proof (lookup_lt_Some _ _ _ Hb). apply list_lookup_total_correct in Ha, Hb.
  exfalso. apply (Hn i); [lia|]. simpl in Hp. lia.
Qed.

Lemma lookup_total_head (offsets : list Z) o : head offsets = Some o -> offsets !!! 0%nat = o.
Proof. destruct offsets; simpl; congruence. Qed.

Lemma lookup_total_last (offsets : list Z) o :
  last offsets = Some o -> offsets !!! pred (length offsets) = o.
Proof. rewrite last_lookup. apply list_lookup_total_correct. Qed.

Lemma interval_index_for_None offsets point i :
  offsets_sorted offsets -> interval_index_for offsets point = Ok None ->
  (S i < length offsets)%nat -> ~ (offsets !!! i <= point < offsets !!! S i).
Proof.
  intros Hs Hn Hi Hp. unfold interval_index_for in Hn.
  destruct offsets as [|o offsets]; [simpl in Hi; lia|].
  change (head (o :: offsets)) with (Some o) in Hn. cbv iota in Hn.
  destruct (last (o :: offsets)) as [l|] eqn:Hl.
  2: { apply last_None in Hl. discriminate. }
  apply lookup_total_last in Hl.
  destruct (_ || _) eqn:Hr.
  - pose proof (Hs 0%nat i ltac:(lia)). pose proof (Hs (S i) (pred (length (o :: offsets))) ltac:(lia)).
    apply orb_true_iff in Hr as [Hr|Hr]; bool_prop; simpl in *; lia.
  - revert Hn. apply (interval_search_complete _ _ _ _ _ i); try done; lia.
Qed.

Lemma ping_offsets_sorted `{!PyFloatLaws F} start duration pings :
  offsets_sorted (off duration <$> (ping_seconds start <$> stable_sort ping_before pings)).
Proof.
  assert (StronglySorted (fun p q => ping_before p q = true) (stable_sort ping_before pings)) as Hs.
  { apply stable_sort_sorted; unfold ping_before; intros *; rewrite ?Z.leb_le, ?Z.leb_gt; lia. }
  revert Hs. generalize (stable_sort ping_before pings) as l. intros l Hs j k Hjk.
  rewrite !length_fmap in Hjk.
  destruct (lookup_lt_is_Some_2 l j) as [p Hp]; [lia|].
  destruct (lookup_lt_is_Some_2 l k) as [q Hq]; [lia|].
  rewrite !list_lookup_total_alt, !list_lookup_fmap, Hp, Hq. simpl.
  assert (utc_of (recorded_at p) <= utc_of (recorded_at q)).
  { destruct (decide (j = k)) as [->|]; [replace q with p by congruence; lia|].
    apply Z.leb_le. change (ping_before p q = true).
    eapply (StronglySorted_lookup _ l j k _ _ Hs Hp Hq). lia. }
  unfold off, ping_seconds.
  pose proof (floor_micros_mono (utc_of (recorded_at p) - start) (utc_of (recorded_at q) - start)
    ltac:(lia)). lia.
Qed.

(** ** The classifier always answers, and its answer accounts for every second *)

Section Total.
Context `{!PyFloatLaws F}.

Lemma midnight_loop_total start duration fuel d offsets :
  (0 < fuel)%nat -> duration * second <= lagos_midnight (d + Z.of_nat fuel) - start ->
  exists r, midnight_loop start duration fuel d offsets = Ok r.
Proof.
  revert d offsets. induction fuel as [|fuel IH]; intros d offsets Hf Hd; [lia|].
  cbn [midnight_loop]. destruct (Z.leb_spec duration (f_floor (f_of_micros
    (lagos_midnight (d + 1) - start)))) as [|Hlt]; [eauto|].
  destruct fuel as [|fuel].
  - replace (d + Z.of_nat 1) with (d + 1) in Hd by lia.
    pose proof (floor_micros_mono (F:=F) _ _ Hd) as Hm.
    rewrite floor_micros_whole in Hm. lia.
  - apply IH; [lia|]. by replace (d + 1 + Z.of_nat (S fuel)) with (d + Z.of_nat (S (S fuel))) by lia.
Qed.

Lemma lagos_midnight_offsets_total start duration :
  0 <= duration -> exists r, lagos_midnight_offsets start duration = Ok r.
Proof.
  intros Hd. apply midnight_loop_total; [lia|].
  pose proof (proj1 (lagos_date_spec start (lagos_date start)) eq_refl) as [_ Hs].
  pose proof (Z.div_mod duration 86400 ltac:(lia)).
  pose proof (Z.mod_pos_bound duration 86400 ltac:(lia)).
  pose proof (Z.div_pos duration 86400 Hd ltac:(lia)).
  unfold lagos_midnight, Prelude.day, hour, second in *. lia.
Qed.

(** Every midnight offset lies strictly inside the session. *)
Lemma midnight_loop_inside start duration fuel d offsets r :
  midnight_loop start duration fuel d offsets = Ok r ->
  (forall x, x ∈ offsets -> 0 < x < duration) -> forall x, x ∈ r -> 0 < x < duration.
Proof.
  revert d offsets. induction fuel as [|fuel IH]; intros d offsets; cbn [midnight_loop];
    [discriminate|].
  case_match eqn:Hge; intros Hr Ho; [by inv_ok|].
  eapply IH; [exact Hr|]. intros x. case_match eqn:Hpos; [|apply Ho].
  rewrite elem_of_app, list_elem_of_singleton. bool_prop. intros [?| ->]; [auto|lia].
Qed.

Lemma off_bounds duration seconds : 0 <= duration -> 0 <= off duration seconds <= duration.
Proof. unfold off. lia. Qed.

Lemma window_offset_bounds start duration w otherwise :
  0 <= otherwise <= duration -> 0 <= window_offset start duration w otherwise <= duration.
Proof. destruct w; simpl; [intros; apply off_bounds; lia | done]. Qed.

Lemma slice_cuts_bounds duration wf wt offsets midnights regions x :
  0 <= duration -> 0 <= wf <= duration -> 0 <= wt <= duration ->
  (forall o, o ∈ offsets -> 0 <= o <= duration) ->
  (forall m, m ∈ midnights -> 0 < m < duration) ->
  x ∈ slice_cuts duration wf wt offsets midnights regions -> 0 <= x <= duration.
Proof.
  intros Hd Hf Ht Ho Hm. unfold slice_cuts.
  rewrite !elem_of_app, !elem_of_cons, !list_elem_of_fmap, elem_of_nil.
  intros [[->|[->|[->|[->|[]]]]]|[Hx|[Hx|[(y & -> & _)|(y & -> & _)]]]]; try lia; auto.
  specialize (Hm _ Hx). lia.
Qed.

Lemma classify_slice_total cx t s :
  S (length (cx_intervals cx)) = length (cx_offsets cx) ->
  exists t', classify_slice cx t s = Ok t'.
Proof.
  intros Hlen. destruct s as [a b]. unfold classify_slice.
  destruct (_ <=? 0); [eauto|].
  destruct (interval_index_for_cases (cx_offsets cx) a) as [(i & -> & Hi & _)| ->]; simpl; [|eauto].
  destruct (lookup_lt_is_Some_2 (cx_intervals cx) i) as [iv ->]; [lia|]. simpl. eauto.
Qed.

Lemma classify_slices_total cx t slices :
  S (length (cx_intervals cx)) = length (cx_offsets cx) ->
  exists t', classify_slices cx t slices = Ok t'.
Proof.
  intros Hlen. revert t. induction slices as [|s slices IH]; intros t; simpl; [eauto|].
  destruct (classify_slice_total cx t s Hlen) as [t' ->]. simpl. apply IH.
Qed.

(** The shape of a classification that reached the slice loop. *)
Record classified (duration : Z) (start : Z) (ordered : list eligibility_ping)
    (ws we : option datetime) (params : eligibility_params) (b : eligibility_breakdown)
    (cx : session_context) (boundaries : list Z) (t : slice_totals) : Prop := {
  cl_run : classify_slices cx (SliceTotals no_exclusions 0 ∅ []) (pairs boundaries) = Ok t;
  cl_breakdown : b = EligibilityBreakdown (st_eligible t)
    (filter (fun kv => 0 < kv.2) (st_excluded t)) (count_teleports params (cx_intervals cx))
    (st_by_day t) (st_slices t) (stationary_detector_evidence b)
    (eligible_instants cx duration 0 (cx_intervals cx));
  cl_sorted : StronglySorted Z.lt boundaries;
  cl_cuts : exists midnights,
    lagos_midnight_offsets start duration = Ok midnights /\
    boundaries = sorted_set (slice_cuts duration (cx_window_from cx) (cx_window_to cx)
      (cx_offsets cx) midnights (cx_regions cx));
  cl_bounds : forall x, x ∈ boundaries -> 0 <= x <= duration;
  cl_start : cx_start cx = start;
  cl_params : cx_params cx = params;
  cl_window_from : cx_window_from cx = window_offset start duration ws 0;
  cl_window_to : cx_window_to cx = window_offset start duration we duration;
  cl_regions : stay_point_regions ordered (cx_offsets cx) (ping_seconds start <$> ordered) params
    = Ok (cx_regions cx);
  cl_offsets : cx_offsets cx = off duration <$> (ping_seconds start <$> ordered);
  cl_intervals : cx_intervals cx =
    ping_intervals ordered (ping_seconds start <$> ordered) (cx_offsets cx)
}.
#[local] Arguments cl_run {_ _ _ _ _ _ _ _ _ _}.
#[local] Arguments cl_breakdown {_ _ _ _ _ _ _ _ _ _}.
#[local] Arguments cl_sorted {_ _ _ _ _ _ _ _ _ _}.
#[local] Arguments cl_cuts {_ _ _ _ _ _ _ _ _ _}.
#[local] Arguments cl_bounds {_ _ _ _ _ _ _ _ _ _}.
#[local] Arguments cl_start {_ _ _ _ _ _ _ _ _ _}.
#[local] Arguments cl_params {_ _ _ _ _ _ _ _ _ _}.
#[local] Arguments cl_window_from {_ _ _ _ _ _ _ _ _ _}.
#[local] Arguments cl_window_to {_ _ _ _ _ _ _ _ _ _}.
#[local] Arguments cl_regions {_ _ _ _ _ _ _ _ _ _}.
#[local] Arguments cl_offsets {_ _ _ _ _ _ _ _ _ _}.
#[local] Arguments cl_intervals {_ _ _ _ _ _ _ _ _ _}.

Lemma classify_session_shape started ended pings ws we params marker :
  marker = STATIONARY_POLICY_D39 ->
  let start := utc_of started in
  let duration := session_duration started ended in
  let ordered := stable_sort ping_before pings in
  exists b, classify_session started ended pings ws we params marker = Ok b /\
    ((duration = 0 /\ b = empty_breakdown ∅) \/
     (0 < duration /\ ordered = [] /\ b = empty_breakdown {[REASON_GPS_GAP := duration]}) \/
     (0 < duration /\ ordered <> [] /\
      exists cx boundaries t, classified duration start ordered ws we params b cx boundaries t)).
Proof.
  intros ->. cbv zeta. unfold classify_session. 
  rewrite (bool_decide_true (STATIONARY_POLICY_D39 = _)) by done. cbn [negb raise_if mbind result_bind].
  set (start := utc_of started). set (duration := session_duration started ended).
  set (ordered := stable_sort ping_before pings).
  assert (0 <= duration) by (unfold duration, session_duration; lia).
  destruct (Z.eqb_spec duration 0); [eauto|].
  destruct (bool_decide (ordered = [])) eqn:He; [apply bool_decide_eq_true in He; eauto 10 with lia|].
  apply bool_decide_eq_false in He.
  set (raw := ping_seconds start <$> ordered). set (offsets := off duration <$> raw).
  assert (length raw = length ordered) as Hraw by apply length_fmap.
  assert (length offsets = length ordered) as Hoff by (unfold offsets; by rewrite length_fmap).
  set (wf := window_offset _ _ ws 0). set (wt := window_offset _ _ we duration).
  destruct (stay_point_regions_total ordered offsets raw params Hoff Hraw) as [regions Hreg].
  rewrite Hreg. cbn [mbind result_bind].
  destruct (lagos_midnight_offsets_total start duration ltac:(lia)) as [midnights Hm].
  rewrite Hm. cbn [mbind result_bind].
  set (cx := SessionContext _ _ _ _ _ _ _).
  set (boundaries := sorted_set _).
  destruct (classify_slices_total cx (SliceTotals no_exclusions 0 ∅ []) (pairs boundaries))
    as [t Ht].
  { simpl. rewrite ping_intervals_length, Hoff by done.
    destruct ordered; [done|simpl; lia]. }
  rewrite Ht. cbn [mbind result_bind]. eexists. split; [reflexivity|].
  right; right. split; [lia|]. split; [done|]. exists cx, boundaries, t.
  split; try reflexivity; [exact Ht|apply sorted_set_sorted|eauto| |exact Hreg].
  intros x. unfold boundaries. rewrite elem_of_sorted_set. apply slice_cuts_bounds; [lia| | | |].
  - apply window_offset_bounds. lia.
  - apply window_offset_bounds. lia.
  - intros o Ho. apply list_elem_of_fmap in Ho as (s & -> & _). apply off_bounds. lia.
  - intros m Hm'. eapply midnight_loop_inside; [exact Hm| |exact Hm']. set_solver.
Qed.

Lemma classify_session_inv started ended pings ws we params marker b :
  classify_session started ended pings ws we params marker = Ok b ->
  let start := utc_of started in
  let duration := session_duration started ended in
  let ordered := stable_sort ping_before pings in
  (eligible_slices b = [] /\ eligible_instant_intervals b = [] /\
   eligible_seconds b = 0 /\ eligible_seconds_by_day b = ∅) \/
  (0 < duration /\ exists cx boundaries t,
     classified duration start ordered ws we params b cx boundaries t).
Proof.
  intros Hb. cbv zeta.
  assert (marker = STATIONARY_POLICY_D39) as Hm.
  { unfold classify_session in Hb. apply bind_Ok in Hb as (u & Hu & _).
    apply raise_if_Ok in Hu. by bool_prop. }
  destruct (classify_session_shape started ended pings ws we params marker Hm)
    as (b' & Hb' & Hcases). assert (b' = b) as -> by congruence. cbv zeta in Hcases.
  destruct Hcases as [(_ & ->)|[(_ & _ & ->)|(? & _ & ?)]]; auto.
Qed.

Lemma classified_accounts duration start ordered ws we params b cx boundaries t :
  classified duration start ordered ws we params b cx boundaries t -> accounts_for t duration.
Proof.
  intros [Hrun _ Hs (midnights & _ & Hb) Hbounds _ _ _ _ _ _ _].
  assert (forall x, x ∈ [0; duration] -> x ∈ boundaries) as Hin.
  { intros x Hx. rewrite Hb, elem_of_sorted_set. unfold slice_cuts. set_solver. }
  replace duration with (0 + sum_by (fun s => s.2 - s.1) (pairs boundaries)).
  - eapply accounts_slices; [|apply accounts_start|exact Hrun].
    intros [x y] Hp. apply (pairs_gap _ x y x Hs Hp). by apply elem_of_pairs in Hp as [??].
  - rewrite (sum_pairs_span _ 0 duration); [lia|done| | |exact Hbounds]; apply Hin; set_solver.
Qed.

(** C30: Every session under the frozen stop policy is classified (all loops of
    the classifier end), and the payable seconds plus the seconds excluded
    under each reason are exactly the whole seconds of the session. *)
Theorem classify_session_partition started ended pings ws we params :
  exists b,
    classify_session started ended pings ws we params STATIONARY_POLICY_D39 = Ok b /\
    total_seconds b = session_duration started ended.
Proof.
  destruct (classify_session_shape started ended pings ws we params _ eq_refl)
    as (b & Hb & Hcases). cbv zeta in Hcases.
  exists b. split; [exact Hb|]. unfold total_seconds.
  destruct Hcases as [(Hd & ->)|[(_ & _ & ->)|(_ & _ & cx & bs & t & Hc)]].
  - by rewrite Hd.
  - simpl. unfold map_sum. rewrite map_fold_singleton. lia.
  - destruct (classified_accounts _ _ _ _ _ _ _ _ _ _ Hc) as [Hp _ _ Hn].
    rewrite (cl_breakdown Hc). simpl.
    by rewrite map_sum_filter_pos.
Qed.

(** The payable seconds are the sum of the payable slices and also the sum
    of the seconds charged to the Lagos days, so no slice is charged twice or
    lost between the three views of the same time. *)
Theorem classify_session_views_agree started ended pings ws we params marker b :
  classify_session started ended pings ws we params marker = Ok b ->
  sum_by slice_length (eligible_slices b) = eligible_seconds b /\
  map_sum (eligible_seconds_by_day b) = eligible_seconds b.
Proof.
  intros Hb. destruct (classify_session_inv _ _ _ _ _ _ _ _ Hb)
    as [(-> & _ & -> & ->)|(_ & cx & bs & t & Hc)]; [done|].
  destruct (classified_accounts _ _ _ _ _ _ _ _ _ _ Hc) as [_ Hd Hs _].
  rewrite (cl_breakdown Hc). done.
Qed.


(** ** What a payable slice guarantees *)

(** Where a payable slice comes from. *)
Record slice_from (cx : session_context) (slices : list (Z * Z)) (s : eligible_slice)
    (iv : ping_interval) : Prop := {
  sf_slice : (start_offset s, end_offset s) ∈ slices;
  sf_day : slice_day s = lagos_day_at (cx_start cx) (start_offset s);
  sf_index : interval_index_for (cx_offsets cx) (start_offset s) = Ok (Some (interval_index s));
  sf_interval : cx_intervals cx !! interval_index s = Some iv;
  sf_reason : interval_reason (cx_params cx) iv = None;
  sf_window : cx_window_from cx <= start_offset s < cx_window_to cx;
  sf_moving : stationary_at (cx_regions cx) (start_offset s) = false;
  sf_premium : premium s = iv_premium iv;
  sf_length : interval_length s = iv_off_second iv - iv_off_first iv;
  sf_seconds : interval_seconds s = iv_delta iv;
  sf_start_seconds : interval_start_seconds s = iv_raw_first iv
}.

Lemma slice_from_mono cx slices slices' s iv :
  (forall p, p ∈ slices -> p ∈ slices') -> slice_from cx slices s iv -> slice_from cx slices' s iv.
Proof. intros Hsub []. split; auto. Qed.

Lemma interval_reason_cases params iv :
  interval_reason params iv = None \/
  exists r, interval_reason params iv = Some r /\
    r ∈ [REASON_GPS_GAP; REASON_LOW_ACCURACY; REASON_TELEPORT; REASON_OUT_OF_AREA].
Proof.
  unfold interval_reason, signal_reason.
  repeat case_match; simplify_eq; auto; right; eexists; (split; [reflexivity|set_solver]).
Qed.

Lemma classify_in_interval_from cx a b i iv t s :
  s ∈ st_slices (classify_in_interval cx a b i iv t) ->
  s ∈ st_slices t \/
  interval_reason (cx_params cx) iv = None /\
  cx_window_from cx <= a < cx_window_to cx /\ stationary_at (cx_regions cx) a = false /\
  s = EligibleSlice a b (lagos_day_at (cx_start cx) a) (iv_premium iv) i
        (iv_off_second iv - iv_off_first iv) (iv_raw_first iv) (iv_delta iv).
Proof.
  unfold classify_in_interval.
  destruct (interval_reason_cases (cx_params cx) iv) as [Hr|(r & Hr & Hin)]; rewrite Hr.
  - simpl. destruct (_ || _) eqn:Hw; simpl; [auto|].
    destruct (stationary_at _ _) eqn:Hst; simpl; [auto|].
    rewrite elem_of_app, list_elem_of_singleton. bool_prop. intros [?| ->]; [auto|].
    right. repeat split; [lia|lia].
  - set_unfold in Hin. destruct Hin as [?|[?|[?|[?|[]]]]]; subst r; simpl; try case_match; auto.
Qed.

Lemma classify_slice_from cx t t' p s :
  classify_slice cx t p = Ok t' -> s ∈ st_slices t' ->
  s ∈ st_slices t \/ exists iv, slice_from cx [p] s iv.
Proof.
  destruct p as [a b]. unfold classify_slice. intros Hc Hs.
  destruct (b - a <=? 0); [inv_ok; auto|].
  ok_step Hc as [i|] Hi; [|inv_ok; auto].
  ok_step Hc as iv Hiv. apply require_some_Ok in Hiv.
  injection Hc as <-.
  apply classify_in_interval_from in Hs as [?|(Hr & Hw & Hst & ->)]; [auto|].
  right. exists iv. split; simpl; try done. set_solver.
Qed.

Lemma classify_slices_from cx slices t t' s :
  classify_slices cx t slices = Ok t' -> s ∈ st_slices t' ->
  s ∈ st_slices t \/ exists iv, slice_from cx slices s iv.
Proof.
  revert t. induction slices as [|p slices IH]; intros t Hc Hs; simpl in Hc.
  - injection Hc as <-. auto.
  - ok_step Hc as t1 Ht1.
    destruct (IH _ Hc Hs) as [Hs1|[iv Hiv]].
    + destruct (classify_slice_from _ _ _ _ _ Ht1 Hs1) as [|[iv Hiv]]; [auto|].
      right. exists iv. eapply slice_from_mono; [|exact Hiv]. set_solver.
    + right. exists iv. eapply slice_from_mono; [|exact Hiv]. set_solver.
Qed.

Lemma classified_slice duration start ordered ws we params b cx boundaries t s :
  classified duration start ordered ws we params b cx boundaries t -> s ∈ eligible_slices b ->
  exists iv, slice_from cx (pairs boundaries) s iv.
Proof.
  intros Hc Hs. rewrite (cl_breakdown Hc) in Hs.
  destruct (classify_slices_from _ _ _ _ _ (cl_run Hc) Hs); [set_solver|done].
Qed.

(** The Lagos midnights inside the session are all found. *)
Lemma midnight_loop_keeps start duration fuel d offsets r :
  midnight_loop start duration fuel d offsets = Ok r -> forall x, x ∈ offsets -> x ∈ r.
Proof.
  revert d offsets. induction fuel as [|fuel IH]; intros d offsets; cbn [midnight_loop];
    [discriminate|].
  case_match; intros Hr x Hx; [by inv_ok|].
  eapply IH; [exact Hr|]. case_match; set_solver.
Qed.

Lemma midnight_loop_complete start duration fuel d offsets r d' :
  midnight_loop start duration fuel d offsets = Ok r -> d < d' ->
  0 < f_floor (f_of_micros (F:=F) (lagos_midnight d' - start)) < duration ->
  f_floor (f_of_micros (F:=F) (lagos_midnight d' - start)) ∈ r.
Proof.
  revert d offsets. induction fuel as [|fuel IH]; intros d offsets; cbn [midnight_loop];
    [discriminate|].
  assert (d < d' -> f_floor (f_of_micros (F:=F) (lagos_midnight (d + 1) - start)) <=
    f_floor (f_of_micros (lagos_midnight d' - start))) as Hm.
  { intros. apply floor_micros_mono. unfold lagos_midnight, Prelude.day, hour, second. lia. }
  case_match eqn:Hge; intros Hr Hd Hin; bool_prop; [lia|].
  destruct (decide (d' = d + 1)) as [->|].
  - eapply midnight_loop_keeps; [exact Hr|].
    rewrite (proj2 (Z.ltb_lt _ _)) by lia. set_solver.
  - eapply IH; [exact Hr|lia|done].
Qed.

(** A change of Lagos day inside a session that starts on a whole second
    happens at a whole offset. *)
Lemma lagos_day_boundary start a k :
  start mod second = 0 -> a <= k -> lagos_day_at start a <> lagos_day_at start k ->
  exists o, a < o <= k /\ lagos_midnight (lagos_day_at start a + 1) - start = o * second.
Proof.
  intros Hwhole Hak Hne. set (d := lagos_day_at start a) in *.
  assert (d <= lagos_day_at start k) by (apply lagos_date_mono; unfold second; lia).
  pose proof (proj1 (lagos_date_spec _ d) eq_refl) as [_ Hd].
  pose proof (proj1 (lagos_date_spec (start + k * second) _) eq_refl) as [Hk _].
  fold (lagos_day_at start k) in Hk.
  exists ((lagos_midnight (d + 1) - start) / second).
  assert (lagos_midnight (d + 1) <= start + k * second).
  { unfold lagos_midnight, Prelude.day, hour, second in *. lia. }
  assert (lagos_midnight (d + 1) - start =
    (lagos_midnight (d + 1) - start) / second * second) as Ho; [|split; [|exact Ho]].
  - unfold lagos_midnight, Prelude.day, hour, second in *.
    pose proof (Z.div_mod start 1000000 ltac:(lia)). Z.to_euclidean_division_equations. lia.
  - unfold second in *. lia.
Qed.

(** Every Lagos midnight at a whole offset inside the session is a boundary. *)
Lemma midnight_is_boundary duration start ordered ws we params b cx boundaries t d o :
  classified duration start ordered ws we params b cx boundaries t ->
  lagos_date start < d -> lagos_midnight d - start = o * second -> 0 < o < duration ->
  o ∈ boundaries.
Proof.
  intros Hc Hd Ho Hin. destruct (cl_cuts Hc) as (mids & Hmids & ->).
  rewrite elem_of_sorted_set. unfold slice_cuts. rewrite !elem_of_app. right; right; left.
  pose proof (floor_micros_whole (F:=F) o) as Hfl. rewrite <- Ho in Hfl. rewrite <- Hfl.
  eapply midnight_loop_complete; [exact Hmids|done|by rewrite Hfl].
Qed.

(** When the session starts on a whole second, every second of a payable
    slice belongs to the Lagos day the slice is charged to, so the per-day
    totals never mix two payable days. *)
Theorem payable_slice_in_one_lagos_day started ended pings ws we params marker b s k :
  classify_session started ended pings ws we params marker = Ok b ->
  utc_of started mod second = 0 ->
  s ∈ eligible_slices b -> start_offset s <= k < end_offset s ->
  lagos_day_at (utc_of started) k = slice_day s.
Proof.
  intros Hb Hwhole Hs Hk.
  destruct (classify_session_inv _ _ _ _ _ _ _ _ Hb)
    as [(Hnil & _)|(Hdur & cx & bs & t & Hc)]; [rewrite Hnil in Hs; set_solver|].
  destruct (classified_slice _ _ _ _ _ _ _ _ _ _ _ Hc Hs) as [iv Hfrom].
  rewrite (sf_day _ _ _ _ Hfrom), (cl_start Hc).
  pose proof (sf_slice _ _ _ _ Hfrom) as Hpair.
  destruct (elem_of_pairs _ _ Hpair) as [Ha He]; simpl in Ha, He.
  pose proof (cl_bounds Hc _ Ha). pose proof (cl_bounds Hc _ He).
  destruct (Z.eq_dec (lagos_day_at (utc_of started) (start_offset s))
    (lagos_day_at (utc_of started) k)) as [|Hne]; [done|exfalso].
  destruct (lagos_day_boundary _ _ _ Hwhole (proj1 Hk) Hne) as (o & Hok & Ho).
  assert (o ∈ bs) as Hobs.
  { eapply midnight_is_boundary; [exact Hc| |exact Ho|lia].
    assert (lagos_date (utc_of started) <= lagos_day_at (utc_of started) (start_offset s)); [|lia].
    apply lagos_date_mono. unfold second; lia. }
  destruct (pairs_gap _ _ _ o (cl_sorted Hc) Hpair Hobs). lia.
Qed.

(** What the signal rules let through. *)
Lemma interval_reason_None params iv :
  interval_reason params iv = None ->
  f_ltb (f_int (max_ping_gap_seconds params)) (iv_delta iv) = false /\
  accuracy_fails (iv_first iv) params = false /\ accuracy_fails (iv_second iv) params = false /\
  in_area (iv_first iv) = true /\ in_area (iv_second iv) = true /\
  is_teleport params iv = false.
Proof.
  unfold interval_reason, is_teleport.
  destruct (signal_reason _ _ _ _) as [r|] eqn:Hs; [done|].
  destruct (_ && _) eqn:Ha; [|done]. intros _. apply andb_true_iff in Ha as [Ha1 Ha2].
  unfold signal_reason in Hs.
  destruct (f_ltb (f_int (max_ping_gap_seconds params)) _); [done|].
  destruct (_ || _) eqn:Hacc; [done|]. apply orb_false_iff in Hacc as [??]. done.
Qed.

Lemma ping_intervals_lookup pings raw offsets i iv :
  ping_intervals pings raw offsets !! i = Some iv ->
  pings !! i = Some (iv_first iv) /\ pings !! S i = Some (iv_second iv) /\
  raw !! i = Some (iv_raw_first iv) /\ raw !! S i = Some (iv_raw_second iv) /\
  offsets !! i = Some (iv_off_first iv) /\ offsets !! S i = Some (iv_off_second iv).
Proof.
  revert raw offsets i.
  induction pings as [|p [|p' pings] IH]; intros [|r [|r' raw]] [|o [|o' offsets]] i Hi;
    try (simpl in Hi; discriminate).
  destruct i as [|i]; [by injection Hi as <-|]. apply (IH (r' :: raw) (o' :: offsets) i), Hi.
Qed.

(** A payable slice lies inside one interval between two consecutive pings
    of the ordered trace that are both accurate, both in the service area,
    closer in time than the frozen gap limit and not a teleport, inside the
    campaign window; it counts as target-zone time exactly when both pings are
    in the frozen target zones. *)
Theorem payable_slice_evidence started ended pings ws we params marker b s :
  classify_session started ended pings ws we params marker = Ok b ->
  s ∈ eligible_slices b ->
  let start := utc_of started in
  let duration := session_duration started ended in
  let offset_of p := off duration (ping_seconds start p) in
  exists p q,
    stable_sort ping_before pings !! interval_index s = Some p /\
    stable_sort ping_before pings !! S (interval_index s) = Some q /\
    offset_of p <= start_offset s < end_offset s /\ end_offset s <= offset_of q /\
    in_area p = true /\ in_area q = true /\
    accuracy_fails p params = false /\ accuracy_fails q params = false /\
    f_ltb (f_int (max_ping_gap_seconds params))
      (f_sub (ping_seconds start q) (ping_seconds start p)) = false /\
    window_offset start duration ws 0 <= start_offset s < window_offset start duration we duration /\
    premium s = in_premium p && in_premium q.
Proof.
  intros Hb Hs. cbv zeta.
  destruct (classify_session_inv _ _ _ _ _ _ _ _ Hb)
    as [(Hnil & _)|(Hdur & cx & bs & t & Hc)]; [rewrite Hnil in Hs; set_solver|].
  destruct (classified_slice _ _ _ _ _ _ _ _ _ _ _ Hc Hs) as [iv Hfrom].
  pose proof (sf_slice _ _ _ _ Hfrom) as Hpair.
  destruct (elem_of_pairs _ _ Hpair) as [Ha He]; simpl in Ha, He.
  pose proof (sf_interval _ _ _ _ Hfrom) as Hiv. rewrite (cl_intervals Hc) in Hiv.
  apply ping_intervals_lookup in Hiv as (Hp & Hq & Hrp & Hrq & Hop & Hoq).
  pose proof (interval_reason_None _ _ (sf_reason _ _ _ _ Hfrom)) as Hok.
  rewrite (cl_params Hc) in Hok. destruct Hok as (Hgap & Hap & Haq & Hip & Hiq & _).
  destruct (interval_index_for_cases (cx_offsets cx) (start_offset s))
    as [(i & Hi & _ & Hbr)|Hi]; rewrite (sf_index _ _ _ _ Hfrom) in Hi; [injection Hi as <-|done].
  rewrite (list_lookup_total_correct _ _ _ Hop), (list_lookup_total_correct _ _ _ Hoq) in Hbr.
  assert (iv_off_second iv ∈ bs) as Hcut.
  { destruct (cl_cuts Hc) as (mids & _ & ->). rewrite elem_of_sorted_set. unfold slice_cuts.
    apply list_elem_of_lookup_2 in Hoq. rewrite !elem_of_app. auto. }
  destruct (pairs_gap _ _ _ _ (cl_sorted Hc) Hpair Hcut) as [Hlt Hgap2].
  pose proof (sf_window _ _ _ _ Hfrom) as Hw.
  rewrite (cl_window_from Hc), (cl_window_to Hc) in Hw.
  rewrite list_lookup_fmap, Hp in Hrp. rewrite list_lookup_fmap, Hq in Hrq.
  injection Hrp as Hrp. injection Hrq as Hrq. unfold iv_delta in Hgap.
  rewrite (cl_offsets Hc), !list_lookup_fmap, Hp in Hop. injection Hop as Hop.
  rewrite (cl_offsets Hc), !list_lookup_fmap, Hq in Hoq. injection Hoq as Hoq.
  exists (iv_first iv), (iv_second iv). rewrite Hop, Hoq, Hrp, Hrq.
  repeat (split; [done || lia|]). apply (sf_premium _ _ _ _ Hfrom).
Qed.

(** ** Only real stops longer than the window are excluded *)

(** A stop: from the anchor ping to the last one, no gap and never as far as
    the radius from the anchor, for strictly longer than the window. *)
Definition real_stop (pings : list eligibility_ping) (offsets : list Z) (raw : list F)
    (params : eligibility_params) (region : Z * Z) : Prop :=
  exists i j ri rj,
    (i < j)%nat /\ raw !! i = Some ri /\ raw !! j = Some rj /\
    offsets !! i = Some region.1 /\ offsets !! j = Some region.2 /\
    f_ltb (f_int (stationary_window_seconds params)) (f_sub rj ri) = true /\
    forall k, (i < k <= j)%nat -> exists pi pk rk rk',
      pings !! i = Some pi /\ pings !! k = Some pk /\ raw !! k = Some rk /\ raw !! pred k = Some rk' /\
      f_ltb (f_int (max_ping_gap_seconds params)) (f_sub rk rk') = false /\
      f_leb (stationary_radius_m params) (ping_distance pi pk) = false.

Lemma stay_scan_inside pings raw params fuel anchor j l k :
  (k <= stay_scan pings raw params fuel anchor j l)%nat -> (l < j)%nat -> (j <= k)%nat ->
  exists pi pk rk rk',
    pings !! anchor = Some pi /\ pings !! k = Some pk /\
    raw !! k = Some rk /\ raw !! pred k = Some rk' /\
    f_ltb (f_int (max_ping_gap_seconds params)) (f_sub rk rk') = false /\
    f_leb (stationary_radius_m params) (ping_distance pi pk) = false.
Proof.
  revert j l. induction fuel as [|fuel IH]; intros j l; cbn [stay_scan]; [lia|].
  repeat (case_match; try lia). intros Hk Hl Hj.
  destruct (decide (k = j)) as [->|].
  - replace (pred j) with (j - 1)%nat by lia. eauto 12.
  - eapply IH; [exact Hk|lia|lia].
Qed.

Lemma stay_loop_real pings offsets raw params fuel anchor regions r :
  stay_loop pings offsets raw params fuel anchor regions = Ok r ->
  Forall (real_stop pings offsets raw params) regions ->
  Forall (real_stop pings offsets raw params) r.
Proof.
  revert anchor regions. induction fuel as [|fuel IH]; intros anchor regions; cbn [stay_loop];
    [discriminate|].
  destruct (Nat.ltb_spec (S anchor) (length pings)) as [Hlt|]; [|by intros [= ->]].
  set (l := stay_scan _ _ _ _ _ _ _).
  destruct (raw !! l) as [rl|] eqn:Hrl; [|done]. destruct (raw !! anchor) as [ra|] eqn:Hra; [|done].
  destruct (offsets !! anchor) as [oa|] eqn:Hoa; [|done].
  destruct (offsets !! l) as [ol|] eqn:Hol; [|done].
  destruct (_ && _) eqn:Hconf; intros Hr Hreg; [|eapply IH; eauto].
  apply andb_true_iff in Hconf as [Hal Hconf]. apply Nat.ltb_lt in Hal.
  eapply IH; [exact Hr|]. case_match; [|done]. apply Forall_app. split; [done|].
  constructor; [|done]. exists anchor, l, ra, rl. simpl. repeat (split; [done|]).
  intros k Hk. eapply stay_scan_inside; [exact (proj2 Hk)|lia|lia].
Qed.

(** Time is excluded as stationary only inside a real stop: an unbroken
    run of pings that stays within the radius of its first ping for strictly
    longer than the frozen window.  Shorter stops never cost the driver time. *)
Theorem stationary_regions_are_real_stops pings offsets raw params regions region :
  stay_point_regions pings offsets raw params = Ok regions -> region ∈ regions ->
  real_stop pings offsets raw params region.
Proof.
  intros Hr Hin.
  assert (Forall (real_stop pings offsets raw params) regions) as Hall
    by (eapply stay_loop_real; [exact Hr|constructor]).
  rewrite Forall_forall in Hall. auto.
Qed.


(** ** Credited distance *)

Lemma eligible_instants_index cx duration k ivs i d pr :
  (i, d, pr) ∈ eligible_instants cx duration k ivs ->
  exists iv, (k <= i)%nat /\ ivs !! (i - k)%nat = Some iv /\ pr = iv_premium iv.
Proof.
  revert k. induction ivs as [|iv ivs IH]; intros k; simpl; [set_solver|].
  assert ((i, d, pr) ∈ eligible_instants cx duration (S k) ivs ->
    exists iv', (k <= i)%nat /\ (iv :: ivs) !! (i - k)%nat = Some iv' /\ pr = iv_premium iv') as Hrec.
  { intros Hin. destruct (IH _ Hin) as (iv' & Hk & Hl & ->). exists iv'.
    replace (i - k)%nat with (S (i - S k)) by lia. split; [lia|done]. }
  case_match; [|exact Hrec]. rewrite elem_of_cons. intros [[= -> -> ->]|Hin]; [|auto].
  exists iv. rewrite Nat.sub_diag. done.
Qed.

Lemma q_div_pos a b : (0 < b)%Q -> exists c, q_div a b = Ok c.
Proof.
  intros Hb. unfold q_div. destruct (Qeq_bool b 0) eqn:E; [|eauto].
  apply Qeq_bool_eq in E. rewrite E in Hb. by apply Qlt_irrefl in Hb.
Qed.

Lemma slice_share_total ordered s p q :
  ordered !! interval_index s = Some p -> ordered !! S (interval_index s) = Some q ->
  0 < interval_length s -> (0 < f_to_Q (interval_seconds s))%Q ->
  exists x, slice_share ordered s = Ok x.
Proof.
  intros Hp Hq Hl Hs. unfold slice_share.
  destruct (q_div_pos (f_to_Q (interval_start_seconds s) + f_to_Q (interval_seconds s) -
    (if Qle_bool 0 (f_to_Q (interval_start_seconds s)) then f_to_Q (interval_start_seconds s) else 0))%Q
    _ Hs) as [c ->]. cbn [mbind result_bind].
  unfold interval_metres. rewrite Hp, Hq. cbn [mbind result_bind].
  destruct (q_div_pos (inject_Z (slice_length s)) (inject_Z (interval_length s))) as [c' ->].
  { change 0%Q with (inject_Z 0). by rewrite <- Zlt_Qlt. }
  simpl. eauto.
Qed.

(** Totals in which nothing was credited yet on any day. *)
Definition all_zero (m : gmap Z Q) : Prop := forall d x, m !! d = Some x -> (x == 0)%Q.

Lemma all_zero_insert m d x : all_zero m -> (x == 0)%Q -> all_zero (<[d := x]> m).
Proof.
  intros Hm Hx d' x'. rewrite lookup_insert. case_decide; [by intros [= <-]|apply Hm].
Qed.

Lemma all_zero_get m d : all_zero m -> (q_get m d == 0)%Q.
Proof. intros Hm. unfold q_get. destruct (m !! d) eqn:E; simpl; [eauto|reflexivity]. Qed.

Lemma credit_slices_total ordered totals slices :
  (forall s, s ∈ slices -> exists x, slice_share ordered s = Ok x) ->
  exists m, credit_slices ordered totals slices = Ok m /\
    (all_zero totals -> (forall s, s ∈ slices -> premium s = false) -> all_zero m).
Proof.
  revert totals. induction slices as [|s slices IH]; intros totals Hs; simpl; [eauto|].
  destruct (Hs s) as [x ->]; [set_solver|]. cbn [mbind result_bind].
  destruct (IH (<[slice_day s := (q_get totals (slice_day s) + x * q_weight (premium s))%Q]> totals))
    as (m & -> & Hm); [set_solver|].
  exists m. split; [done|]. intros Hz Hp. apply Hm; [|set_solver].
  apply all_zero_insert; [done|]. rewrite (Hp s) by set_solver. simpl.
  rewrite (all_zero_get _ _ Hz). ring.
Qed.

Lemma credit_instants_total ordered totals instants :
  (forall i d pr, (i, d, pr) ∈ instants -> exists x, interval_metres ordered i = Ok x) ->
  exists m, credit_instants ordered totals instants = Ok m /\
    (all_zero totals -> (forall i d pr, (i, d, pr) ∈ instants -> pr = false) -> all_zero m).
Proof.
  revert totals. induction instants as [|[[i d] pr] instants IH]; intros totals Hi; simpl; [eauto|].
  destruct (Hi i d pr) as [x ->]; [set_solver|]. cbn [mbind result_bind].
  destruct (IH (<[d := (q_get totals d + x * q_weight pr)%Q]> totals)) as (m & -> & Hm);
    [set_solver|].
  exists m. split; [done|]. intros Hz Hp. apply Hm; [|set_solver].
  apply all_zero_insert; [done|]. rewrite (Hp i d pr) by set_solver. simpl.
  rewrite (all_zero_get _ _ Hz). ring.
Qed.

Lemma off_lt duration x y : off duration x < off duration y -> f_floor x < f_floor y.
Proof. unfold off. lia. Qed.

(** The shares of a classification's slices are all defined. *)
Lemma classified_share duration start ordered ws we params b cx boundaries t s :
  classified duration start ordered ws we params b cx boundaries t ->
  s ∈ eligible_slices b ->
  exists iv x, cx_intervals cx !! interval_index s = Some iv /\ premium s = iv_premium iv /\
    slice_share ordered s = Ok x.
Proof.
  intros Hc Hs. destruct (classified_slice _ _ _ _ _ _ _ _ _ _ _ Hc Hs) as [iv Hf].
  pose proof (sf_interval _ _ _ _ Hf) as Hiv. pose proof Hiv as Hiv'.
  rewrite (cl_intervals Hc) in Hiv'.
  apply ping_intervals_lookup in Hiv' as (Hp & Hq & Hrp & Hrq & Hop & Hoq).
  destruct (interval_index_for_cases (cx_offsets cx) (start_offset s))
    as [(i & Hi & _ & Hbr)|Hi]; rewrite (sf_index _ _ _ _ Hf) in Hi; [injection Hi as <-|done].
  rewrite (list_lookup_total_correct _ _ _ Hop), (list_lookup_total_correct _ _ _ Hoq) in Hbr.
  rewrite (cl_offsets Hc) in Hop, Hoq. rewrite list_lookup_fmap, Hrp in Hop.
  rewrite list_lookup_fmap, Hrq in Hoq. injection Hop as Hop. injection Hoq as Hoq.
  destruct (slice_share_total ordered s _ _ Hp Hq) as [x Hx].
  - rewrite (sf_length _ _ _ _ Hf). lia.
  - rewrite (sf_seconds _ _ _ _ Hf). apply sub_pos, (off_lt duration). lia.
  - exists iv, x. split; [done|]. split; [apply (sf_premium _ _ _ _ Hf)|done].
Qed.

(** The distance of every classified session can be credited (no division
    by zero, no missing ping), and a session none of whose pings lies in the
    frozen target zones is credited zero metres on every day. *)
Theorem credited_distance_target_only started ended pings ws we params marker b :
  classify_session started ended pings ws we params marker = Ok b ->
  exists m, credited_distance_m_by_day pings b = Ok m /\
    ((forall p, p ∈ pings -> in_premium p = false) -> forall d n, m !! d = Some n -> n = 0).
Proof.
  intros Hb. unfold credited_distance_m_by_day. set (ordered := stable_sort ping_before pings).
  assert ((forall s, s ∈ eligible_slices b -> exists x, slice_share ordered s = Ok x) /\
    (forall i d pr, (i, d, pr) ∈ eligible_instant_intervals b ->
       exists x, interval_metres ordered i = Ok x) /\
    ((forall p, p ∈ pings -> in_premium p = false) ->
       (forall s, s ∈ eligible_slices b -> premium s = false) /\
       (forall i d pr, (i, d, pr) ∈ eligible_instant_intervals b -> pr = false)))
    as (Hs & Hi & Hout).
  { destruct (classify_session_inv _ _ _ _ _ _ _ _ Hb)
      as [(-> & -> & _)|(_ & cx & bs & t & Hc)]; [set_solver|].
    assert (forall i iv, cx_intervals cx !! i = Some iv ->
      ordered !! i = Some (iv_first iv) /\ ordered !! S i = Some (iv_second iv)) as Hiv.
    { intros i iv Hl. rewrite (cl_intervals Hc) in Hl. apply ping_intervals_lookup in Hl. tauto. }
    assert ((forall p, p ∈ pings -> in_premium p = false) -> forall i iv,
      cx_intervals cx !! i = Some iv -> iv_premium iv = false) as Hpr.
    { intros Hall i iv Hl. destruct (Hiv _ _ Hl) as [Hp _]. apply list_elem_of_lookup_2 in Hp.
      unfold ordered in Hp. rewrite stable_sort_perm in Hp. unfold iv_premium. by rewrite (Hall _ Hp). }
    split; [|split].
    - intros s Hin. destruct (classified_share _ _ _ _ _ _ _ _ _ _ _ Hc Hin) as (? & x & _ & _ & Hx).
      eauto.
    - intros i d pr Hin. rewrite (cl_breakdown Hc) in Hin.
      apply eligible_instants_index in Hin as (iv & _ & Hl & _). rewrite Nat.sub_0_r in Hl.
      destruct (Hiv _ _ Hl) as [Hp Hq]. unfold interval_metres. rewrite Hp, Hq. eauto.
    - intros Hall. split.
      + intros s Hin.
        destruct (classified_share _ _ _ _ _ _ _ _ _ _ _ Hc Hin) as (iv & ? & Hl & -> & _). eauto.
      + intros i d pr Hin. rewrite (cl_breakdown Hc) in Hin.
        apply eligible_instants_index in Hin as (iv & _ & Hl & ->). eauto. }
  destruct (credit_slices_total ordered ∅ _ Hs) as (m1 & -> & H1). cbn [mbind result_bind].
  destruct (credit_instants_total ordered m1 _ Hi) as (m2 & -> & H2). cbn [mbind result_bind].
  eexists. split; [reflexivity|]. intros Hall d n.
  destruct (Hout Hall) as [Hsl Hin].
  rewrite lookup_fmap. destruct (m2 !! d) as [x|] eqn:Hx; [|done]. intros [= <-].
  assert (x == 0)%Q as ->; [|done]. eapply H2; eauto. apply H1; [|done].
  intros ? ? Hem. by rewrite lookup_empty in Hem.
Qed.

(** ** The days a session can credit *)

Lemma eligible_instants_day cx duration k ivs i d pr :
  (i, d, pr) ∈ eligible_instants cx duration k ivs ->
  exists iv, iv ∈ ivs /\ d = lagos_day_at (cx_start cx) (iv_off_first iv).
Proof.
  revert k. induction ivs as [|iv ivs IH]; intros k; simpl; [set_solver|].
  assert ((i, d, pr) ∈ eligible_instants cx duration (S k) ivs ->
    exists iv', iv' ∈ iv :: ivs /\ d = lagos_day_at (cx_start cx) (iv_off_first iv')) as Hrec.
  { intros Hin. destruct (IH _ Hin) as (iv' & ? & ->). exists iv'. split; [by right|done]. }
  case_match; [|exact Hrec]. rewrite elem_of_cons. intros [[= -> -> ->]|Hin]; [|auto].
  exists iv. split; [left|done].
Qed.

Lemma credit_slices_dom ordered totals slices m d :
  credit_slices ordered totals slices = Ok m -> d ∈ dom m ->
  d ∈ dom totals \/ exists s, s ∈ slices /\ d = slice_day s.
Proof.
  revert totals. induction slices as [|s slices IH]; intros totals Hrun Hd; simpl in Hrun.
  - injection Hrun as <-. by left.
  - ok_step Hrun as x _. destruct (IH _ Hrun Hd) as [Hin|(s' & ? & ->)].
    + rewrite dom_insert in Hin. apply elem_of_union in Hin as [->%elem_of_singleton|?]; [|by left].
      right. exists s. split; [left|done].
    + right. exists s'. split; [by right|done].
Qed.

Lemma credit_instants_dom ordered totals instants m d :
  credit_instants ordered totals instants = Ok m -> d ∈ dom m ->
  d ∈ dom totals \/ exists i pr, (i, d, pr) ∈ instants.
Proof.
  revert totals. induction instants as [|[[i d'] pr] instants IH]; intros totals Hrun Hd; simpl in Hrun.
  - injection Hrun as <-. by left.
  - ok_step Hrun as x _. destruct (IH _ Hrun Hd) as [Hin|(i' & pr' & ?)].
    + rewrite dom_insert in Hin. apply elem_of_union in Hin as [->%elem_of_singleton|?]; [|by left].
      right. exists i, pr. left.
    + right. exists i', pr'. by right.
Qed.

(** Every day that distance is credited to is the day of an offset of the
    session. *)
Lemma credited_day_in_session started ended pings ws we params marker b m d :
  classify_session started ended pings ws we params marker = Ok b ->
  credited_distance_m_by_day pings b = Ok m -> d ∈ dom m ->
  exists o, 0 <= o <= session_duration started ended /\ d = lagos_day_at (utc_of started) o.
Proof.
  intros Hb Hm Hd. unfold credited_distance_m_by_day in Hm.
  ok_step Hm as m1 Hm1. apply bind_Ok in Hm as (m2 & Hm2 & [= <-]).
  rewrite dom_fmap in Hd. destruct (classify_session_inv _ _ _ _ _ _ _ _ Hb)
    as [(Hnil & Hinst & _)|(Hdur & cx & bs & t & Hc)].
  { rewrite Hnil in Hm1. rewrite Hinst in Hm2. injection Hm1 as <-. injection Hm2 as <-. set_solver. }
  destruct (credit_instants_dom _ _ _ _ _ Hm2 Hd) as [Hd1|(i & pr & Hin)].
  - destruct (credit_slices_dom _ _ _ _ _ Hm1 Hd1) as [?|(s & Hs & ->)]; [set_solver|].
    destruct (classified_slice _ _ _ _ _ _ _ _ _ _ _ Hc Hs) as [iv Hf].
    destruct (elem_of_pairs _ _ (sf_slice _ _ _ _ Hf)) as [Ha _].
    exists (start_offset s). split; [apply (cl_bounds Hc _ Ha)|].
    by rewrite (sf_day _ _ _ _ Hf), (cl_start Hc).
  - rewrite (cl_breakdown Hc) in Hin. cbn [eligible_instant_intervals] in Hin.
    apply eligible_instants_day in Hin as (iv & Hiv & ->).
    exists (iv_off_first iv). rewrite (cl_start Hc). split; [|done].
    apply list_elem_of_lookup in Hiv as [j Hj]. rewrite (cl_intervals Hc) in Hj.
    apply ping_intervals_lookup in Hj as (_ & _ & _ & _ & Ho & _).
    rewrite (cl_offsets Hc), list_lookup_fmap in Ho.
    destruct ((ping_seconds _ <$> _) !! j) as [x|]; [|done]. injection Ho as <-.
    apply off_bounds. lia.
Qed.

(** The offsets of a session stay inside it. *)
Lemma session_duration_inside started ended :
  utc_of started <= utc_of ended < utc_of started + 2 ^ 52 ->
  utc_of started + session_duration started ended * second <= utc_of ended.
Proof.
  intros Hle. unfold session_duration. rewrite floor_micros_exact by lia.
  pose proof (Z.div_pos (utc_of ended - utc_of started) second ltac:(lia) ltac:(done)).
  pose proof (Z.mul_div_le (utc_of ended - utc_of started) second ltac:(done)). lia.
Qed.
End Total.
End Eligibility.

(** ** Rational arithmetic as a concrete instance, and worked sessions *)

Module RationalFloat.

Definition q_sqrt (q : Q) : Q := Z.sqrt (Qfloor (q * inject_Z (10 ^ 24))%Q) # (10 ^ 12).

#[export] Instance q_float : PyFloat Q := {
  f_of_micros us := us # 1000000;
  f_lit q := q;
  f_inf := inject_Z (10 ^ 300);
  f_add a b := Qred (a + b)%Q;
  f_sub a b := Qred (a - b)%Q;
  f_mul a b := Qred (a * b)%Q;
  f_div a b := Qred (a / b)%Q;
  f_radians x := Qred (x * (3141592653589793 # 180000000000000000))%Q;
  f_sin x := x;
  f_cos x := 1%Q;
  f_asin x := x;
  f_sqrt := q_sqrt;
  f_ltb a b := negb (Qle_bool b a);
  f_leb := Qle_bool;
  f_floor := Qfloor;
  f_to_Q x := x
}.

#[export] Instance q_float_laws : PyFloatLaws Q.
Proof.
  split; simpl.
  - intros a b Hab. apply Z.div_le_mono; lia.
  - intros k. unfold second. apply Z.div_mul. lia.
  - intros us _. reflexivity.
  - intros a b Hab. rewrite Qred_correct.
    apply (proj1 (Qlt_minus_iff a b)), Qnot_le_lt. intros Hba. apply Qfloor_resp_le in Hba. lia.
Qed.

Definition params : eligibility_params (F:=Q) :=
  EligibilityParams (200 # 1) 300 0 (75 # 1) (180 # 1) 120.

(** A ping [s] seconds after midnight UTC of 1970-01-01, [n] thousandths of a
    degree north. *)
Definition ping_at (us n : Z) (target : bool) : eligibility_ping (F:=Q) :=
  EligibilityPing (aware us) (n # 1000) (3 # 1) (Some (10 # 1)) true target.

(** A six-minute drive starting at 09:00:00 UTC with a ping every minute, the
    second half of it in the target zone. *)
Definition drive_start : datetime := aware (9 * hour).
Definition drive_end : datetime := aware (9 * hour + 360 * second).
Definition drive_pings : list (eligibility_ping (F:=Q)) :=
  (fun n => ping_at (9 * hour + Z.of_nat n * 60 * second) (Z.of_nat n * 5) (3 <=? n)%nat)
    <$> seq 0 7.
Definition drive : result (eligibility_breakdown (F:=Q)) :=
  classify_session drive_start drive_end drive_pings None None params STATIONARY_POLICY_D39.

Example drive_is_payable : eligible_seconds <$> drive = Ok 360.
Proof. vm_compute. reflexivity. Qed.

(** Three intervals of about 556 m in the target zone. *)
Example drive_distance :
  (b ← drive; credited_distance_m_by_day drive_pings b) = Ok {[ 0 := 1667 ]}.
Proof. vm_compute. reflexivity. Qed.

(** A session that starts half a second past a whole second, ten and a half
    seconds before a Lagos midnight, with one ping a minute. *)
Definition night_start : Z := lagos_midnight 1 - 10500000.
Definition night : result (eligibility_breakdown (F:=Q)) :=
  classify_session (aware night_start) (aware (night_start + 60 * second))
    [ping_at night_start 0 true; ping_at (night_start + 60 * second) 5 true]
    None None params STATIONARY_POLICY_D39.

End RationalFloat.
Import RationalFloat.

(** A session that starts on a fraction of a second can charge a slice to the
    day before the one its seconds belong to: the midnight cut is floored to a
    second that still belongs to the old day, and the slice that starts there
    runs into the new day. *)
Theorem fractional_start_mixes_lagos_days :
  exists b s k, night = Ok b /\ s ∈ eligible_slices b /\
    start_offset s <= k < end_offset s /\ lagos_day_at night_start k <> slice_day s.
Proof.
  destruct night as [b|] eqn:Hb; [|vm_compute in Hb; discriminate].
  exists b, (EligibleSlice 10 60 0 true 0 60 (0 # 1000000) (60 # 1)), 30.
  split; [done|]. vm_compute in Hb. injection Hb as <-.
  split; [set_solver|]. split; [simpl; lia|]. vm_compute. discriminate.
Qed.

Lemma payable_slice_in_one_lagos_day_witness :
  exists b s, drive = Ok b /\ s ∈ eligible_slices b /\
    lagos_day_at (utc_of drive_start) (start_offset s) = slice_day s.
Proof.
  destruct drive as [b|] eqn:Hb; [|vm_compute in Hb; discriminate].
  assert (exists s, s ∈ eligible_slices b /\ start_offset s < end_offset s) as (s & Hs & Hlt).
  { vm_compute in Hb. injection Hb as <-. eexists. split; [left|done]. }
  exists b, s. split; [reflexivity|]. split; [exact Hs|].
  eapply (payable_slice_in_one_lagos_day drive_start drive_end drive_pings None None params);
    [exact Hb|reflexivity|exact Hs|lia].
Defined.

Lemma classify_session_partition_witness :
  exists b, drive = Ok b /\ total_seconds b = 360.
Proof.
  destruct (classify_session_partition drive_start drive_end drive_pings None None params)
    as (b & Hb & Ht).
  exists b. split; [exact Hb|]. rewrite Ht. vm_compute. reflexivity.
Defined.

Lemma classify_session_views_agree_witness :
  exists b, drive = Ok b /\ sum_by slice_length (eligible_slices b) = eligible_seconds b.
Proof.
  destruct drive as [b|] eqn:Hb; [|vm_compute in Hb; discriminate].
  exists b. split; [reflexivity|].
  eapply (classify_session_views_agree drive_start drive_end drive_pings None None params).
  exact Hb.
Defined.

Lemma payable_slice_evidence_witness :
  exists b s p, drive = Ok b /\ s ∈ eligible_slices b /\
    stable_sort ping_before drive_pings !! interval_index s = Some p /\ in_area p = true.
Proof.
  destruct drive as [b|] eqn:Hb; [|vm_compute in Hb; discriminate].
  assert (exists s, s ∈ eligible_slices b) as (s & Hs).
  { vm_compute in Hb. injection Hb as <-. eexists. left. }
  destruct (payable_slice_evidence drive_start drive_end drive_pings None None params _ b s Hb Hs)
    as (p & q & Hp & _ & _ & _ & Hin & _).
  exists b, s, p. auto.
Defined.

(** A parked car: pings at one place for ten minutes. *)
Definition parked_pings : list (eligibility_ping (F:=Q)) :=
  (fun n => ping_at (Z.of_nat n * 60 * second) 0 true) <$> seq 0 11.
Definition parked_seconds : list Q := ping_seconds 0 <$> parked_pings.
Definition parked_offsets : list Z := off 600 <$> parked_seconds.

Lemma stationary_regions_are_real_stops_witness :
  stay_point_regions parked_pings parked_offsets parked_seconds params = Ok [(0, 600)] /\
  real_stop parked_pings parked_offsets parked_seconds params (0, 600).
Proof.
  assert (stay_point_regions parked_pings parked_offsets parked_seconds params = Ok [(0, 600)])
    as Hr by (vm_compute; reflexivity).
  split; [exact Hr|]. eapply stationary_regions_are_real_stops; [exact Hr|left].
Defined.

Lemma credited_distance_target_only_witness :
  exists b m, drive = Ok b /\ credited_distance_m_by_day drive_pings b = Ok m.
Proof.
  destruct drive as [b|] eqn:Hb; [|vm_compute in Hb; discriminate].
  destruct (credited_distance_target_only drive_start drive_end drive_pings None None params _ b Hb)
    as (m & Hm & _).
  exists b, m. auto.
Defined.
