(* ===== verification/PayoutData.v ===== *)
(** Rows of the payout tables ([app/models/payout.py], [app/models/trip.py],
    [app/models/disbursement.py], [app/models/campaign_cancellation.py]) and
    the store the payout services read and write. *)

From S2P Require Import Prelude Eligibility.
From stdpp Require Import base list strings gmap.
From Stdlib Require Import ZArith QArith Lia.
#[local] Open Scope Z_scope.

(** ** Enumerations *)

Inductive payout_calculation_status := CALCULATED | INSUFFICIENT_DATA | BLOCKED.
Inductive ledger_entry_type := TRIP_PAYOUT | ADJUSTMENT | REVERSAL.
Inductive ledger_entry_status := PENDING | AVAILABLE | VOIDED | REVERSED | PAID.
Inductive correction_order_status := DRAFT | EXECUTED | STALE.
Inductive trip_session_status := TRIP_ACTIVE | TRIP_ENDED | TRIP_SEALED.
Inductive trip_analytics_status := TA_COMPUTED | TA_INSUFFICIENT_DATA | TA_BLOCKED.
Inductive impression_estimate_status := IE_ESTIMATED | IE_INSUFFICIENT_DATA | IE_EXCLUDED.
Inductive payout_batch_line_status :=
  LINE_RESERVED | LINE_SUBMITTED | LINE_SUCCEEDED | LINE_FAILED | LINE_VOID.
Inductive submission_intent_state :=
  INTENT_PENDING | INTENT_CLAIMED | INTENT_QUERY_ONLY | INTENT_RESOLVED | INTENT_CANCELLED.
Inductive submission_claim_action := CLAIM_SUBMIT | CLAIM_QUERY.

#[export] Instance payout_calculation_status_eq_dec : EqDecision payout_calculation_status.
Proof. solve_decision. Defined.
#[export] Instance ledger_entry_type_eq_dec : EqDecision ledger_entry_type.
Proof. solve_decision. Defined.
#[export] Instance ledger_entry_status_eq_dec : EqDecision ledger_entry_status.
Proof. solve_decision. Defined.
#[export] Instance correction_order_status_eq_dec : EqDecision correction_order_status.
Proof. solve_decision. Defined.
#[export] Instance trip_session_status_eq_dec : EqDecision trip_session_status.
Proof. solve_decision. Defined.
#[export] Instance trip_analytics_status_eq_dec : EqDecision trip_analytics_status.
Proof. solve_decision. Defined.
#[export] Instance impression_estimate_status_eq_dec : EqDecision impression_estimate_status.
Proof. solve_decision. Defined.
#[export] Instance payout_batch_line_status_eq_dec : EqDecision payout_batch_line_status.
Proof. solve_decision. Defined.
#[export] Instance submission_intent_state_eq_dec : EqDecision submission_intent_state.
Proof. solve_decision. Defined.
#[export] Instance submission_claim_action_eq_dec : EqDecision submission_claim_action.
Proof. solve_decision. Defined.

(** ** Rows *)

Record trip_session := TripSession {
  trip_id : uuid;
  trip_assignment_id : uuid;
  trip_campaign_id : uuid;
  trip_driver_profile_id : uuid;
  trip_vehicle_id : uuid;
  trip_status : trip_session_status;
  trip_started_at : Z;
  trip_ended_at : option Z;
  evidence_manifest_verified_at : option Z
}.

Record trip_analytics := TripAnalytics {
  ta_id : uuid;
  ta_trip_session_id : uuid;
  ta_assignment_id : uuid;
  ta_campaign_id : uuid;
  ta_driver_profile_id : uuid;
  ta_vehicle_id : uuid;
  ta_status : trip_analytics_status;
  ta_formula_version : string;
  ta_computed_at : Z;
  ta_updated_at : Z
}.

Record impression_estimate := ImpressionEstimate {
  ie_id : uuid;
  ie_trip_session_id : uuid;
  ie_trip_analytics_id : uuid;
  ie_assignment_id : uuid;
  ie_campaign_id : uuid;
  ie_driver_profile_id : uuid;
  ie_vehicle_id : uuid;
  ie_formula_version : string;
  ie_is_authoritative : bool;
  ie_status : impression_estimate_status
}.

(** A [DateTime(timezone=True)] column is an instant, its UTC microseconds.
    Numeric(14, 2) naira are kobo, Numeric(10, 3) miles thousandths of a mile,
    the Numeric(5, 4) weight ten-thousandths. *)
Record assignment_rule_binding := AssignmentRuleBinding {
  bind_id : uuid;
  bind_assignment_id : uuid;
  bind_revision_id : uuid;
  bind_daily_rate_naira : option kobo;
  bind_daily_target_miles : option Z;
  bind_shortfall_strategy : option string;
  bind_deduction_per_mile_naira : option kobo;
  bind_minimum_miles : option Z;
  bind_outside_area_weight : option Z;
  bind_currency : string;
  bind_eligibility_params : gmap string Q;
  bind_resolved_eligibility_params : option (gmap string Q);
  bind_formula_version : string;
  bind_premium_zone_ids : list string;
  bind_premium_zone_geometry_hash : string;
  bind_premium_zone_geometry_wkts : list string;
  bind_exclusion_zone_ids : list string;
  bind_exclusion_zone_geometry_hash : string;
  bind_exclusion_zone_geometry_wkts : list string;
  bind_stationary_policy_marker : string;
  bind_campaign_window_start_at : option Z;
  bind_campaign_window_end_at : option Z;
  bind_campaign_window_frozen : bool;
  bind_offer_terms_sha256 : option string;
  bind_bound_at : Z
}.

Record campaign_payout_rule := CampaignPayoutRule {
  rule_id : uuid;
  rule_campaign_id : uuid;
  rule_created_by_user_id : uuid;
  rule_formula_version : string;
  rule_active : bool;
  rule_currency : string
}.

Record campaign_payout_rule_revision := CampaignPayoutRuleRevision {
  rev_id : uuid;
  rev_campaign_id : uuid;
  rev_payout_rule_id : uuid;
  rev_revision_number : Z;
  rev_effective_from : Z;
  rev_daily_rate_naira : option kobo;
  rev_daily_target_miles : option Z;
  rev_shortfall_strategy : option string;
  rev_deduction_per_mile_naira : option kobo;
  rev_minimum_miles : option Z;
  rev_outside_area_weight : option Z;
  rev_currency : string;
  rev_eligibility_params : gmap string Q;
  rev_formula_version : string;
  rev_reason : string;
  rev_created_by_user_id : uuid
}.

(** The JSON maps from ISO Lagos days are keyed by the day's number. *)
Record payout_calculation := PayoutCalculation {
  pc_id : uuid;
  pc_trip_session_id : uuid;
  pc_trip_analytics_id : uuid;
  pc_impression_estimate_id : uuid;
  pc_payout_rule_id : uuid;
  pc_assignment_id : uuid;
  pc_campaign_id : uuid;
  pc_driver_profile_id : uuid;
  pc_vehicle_id : uuid;
  pc_formula_version : string;
  pc_status : payout_calculation_status;
  pc_currency : string;
  pc_gross_payout : kobo;
  pc_eligible_seconds : Z;
  pc_distance_m_by_day : gmap Z Z;
  pc_amount_by_day : gmap Z kobo;
  pc_excluded_seconds_by_reason : gmap reason Z;
  pc_inputs_fingerprint : string;
  pc_final_payout : kobo;
  pc_calculated_at : Z
}.

(** The keys of the JSON metadata the services read. *)
Record daily_position := DailyPosition {
  pos_distance_m_by_day : option (gmap Z Z);
  pos_amount_by_day : gmap Z kobo
}.

Record ledger_metadata := LedgerMetadata {
  md_source_entry_id : option uuid;
  md_recompute_day : bool;
  md_payout_calculation_id : option uuid;
  md_formula_version : option string;
  md_breakdown : option daily_position;
  md_reason : option string;
  md_actor_user_id : option uuid;
  md_lagos_day : option Z;
  md_correction_order_id : option uuid
}.

#[export] Instance daily_position_eq_dec : EqDecision daily_position.
Proof. solve_decision. Defined.
#[export] Instance ledger_metadata_eq_dec : EqDecision ledger_metadata.
Proof. solve_decision. Defined.

Definition no_metadata : ledger_metadata := LedgerMetadata None false None None None None None None None.

Record ledger_entry := EarningsLedgerEntry {
  le_id : uuid;
  le_payout_calculation_id : option uuid;
  le_driver_profile_id : uuid;
  le_driver_user_id : uuid;
  le_campaign_id : uuid;
  le_trip_session_id : option uuid;
  le_vehicle_id : option uuid;
  le_entry_type : ledger_entry_type;
  le_status : ledger_entry_status;
  le_amount : kobo;
  le_currency : string;
  le_description : option string;
  le_occurred_at : Z;
  le_release_at : option Z;
  le_metadata : ledger_metadata
}.

(** One [trips] item of a correction order's stored execution result. *)
Record executed_trip := ExecutedTrip {
  et_trip_session_id : uuid;
  et_payout_calculation_id : uuid;
  et_position : daily_position
}.

(** One [trips] item of an order's preview. *)
Record projected_trip := ProjectedTrip {
  jt_trip_session_id : uuid;
  jt_driver_profile_id : uuid;
  jt_currency : string;
  jt_previous_posted_amount : kobo;
  jt_target_amount : kobo;
  jt_delta_amount : kobo;
  jt_eligible_seconds : Z;
  jt_voided : bool;
  jt_distance_m_by_day : gmap Z Z
}.

(** The preview: its trips and its totals. *)
Record projected_delta := ProjectedDelta {
  jd_currencies : list string;
  jd_trips : list projected_trip;
  jd_previous_posted_amount : kobo;
  jd_target_amount : kobo;
  jd_delta_amount : kobo;
  jd_adjustment_count : Z;
  jd_reversal_count : Z
}.

Record payout_correction_order := PayoutCorrectionOrder {
  co_id : uuid;
  co_campaign_id : uuid;
  co_lagos_day : Z;
  co_status : correction_order_status;
  co_created_by_user_id : uuid;
  co_approved_by_user_id : option uuid;
  co_executed_by_user_id : option uuid;
  co_reason : string;
  co_projected_delta : option projected_delta;
  co_projection_fingerprint : option string;
  co_projected_at : option Z;
  co_decided_at : option Z;
  co_executed_at : option Z;
  co_executed_trips : list executed_trip
}.

(** An instruction is a JSON object of strings. *)
Abbreviation json_strings := (gmap string string).

Record payout_batch_line := PayoutBatchLine {
  pl_id : uuid;
  pl_batch_id : uuid;
  pl_ledger_entry_id : uuid;
  pl_predecessor_line_id : option uuid;
  pl_payee_version_id : uuid;
  pl_bank_account_version_id : uuid;
  pl_amount : kobo;
  pl_currency : string;
  pl_instruction : json_strings;
  pl_instruction_fingerprint : string;
  pl_idempotency_key : string;
  pl_status : payout_batch_line_status;
  pl_provider_transfer_reference : option string;
  pl_reconciled_by_user_id : option uuid;
  pl_reconciled_at : option Z;
  pl_last_provider_evidence_at : option Z;
  pl_reservation_active : bool
}.

Record payout_submission_intent := PayoutSubmissionIntent {
  pi_id : uuid;
  pi_payout_batch_line_id : uuid;
  pi_provider_name : string;
  pi_idempotency_key : string;
  pi_instruction : json_strings;
  pi_instruction_fingerprint : string;
  pi_requested_by_user_id : uuid;
  pi_state : submission_intent_state;
  pi_generation : Z;
  pi_claim_token : option uuid;
  pi_claim_action : option submission_claim_action;
  pi_claim_expires_at : option Z;
  pi_provider_submission_reference : option string;
  pi_provider_transfer_reference : option string;
  pi_resolved_at : option Z;
  pi_updated_at : Z
}.

Record payout_recovery_offset := PayoutRecoveryOffset {
  po_id : uuid;
  po_source_trip_id : uuid;
  po_funding_entry_id : uuid;
  po_driver_profile_id : uuid;
  po_amount : kobo;
  po_currency : string;
  po_request_id : uuid;
  po_actor_user_id : option uuid;
  po_automatic_run_id : option uuid;
  po_created_at : Z
}.

Record driver_profile := DriverProfile {
  dp_id : uuid;
  dp_user_id : uuid
}.

(** The columns of [campaigns] the payout services read. *)
Record campaign_row := CampaignRow {
  camp_id : uuid;
  camp_organization_id : uuid;
  camp_currency : string
}.

Record audit_event := AuditEvent {
  ae_actor_user_id : option uuid;
  ae_action : string;
  ae_entity_type : string;
  ae_entity_id : uuid
}.

(** ** Table constraints *)

(** [ck_payout_batch_lines_active_state] and
    [ck_payout_batch_lines_amount_positive]. *)
Definition payout_batch_line_row_ok (l : payout_batch_line) : bool :=
  (0 <? pl_amount l)
  && match pl_status l with
     | LINE_RESERVED => pl_reservation_active l && bool_decide (pl_provider_transfer_reference l = None)
     | LINE_SUBMITTED => pl_reservation_active l && negb (bool_decide (pl_provider_transfer_reference l = None))
     | LINE_SUCCEEDED | LINE_FAILED =>
         negb (pl_reservation_active l) && negb (bool_decide (pl_provider_transfer_reference l = None))
     | LINE_VOID => negb (pl_reservation_active l) && bool_decide (pl_provider_transfer_reference l = None)
     end
  && match pl_predecessor_line_id l with Some p => negb (bool_decide (p = pl_id l)) | None => true end.

(** [ck_earnings_ledger_entries_amount_non_negative]. *)
Definition ledger_entry_row_ok (e : ledger_entry) : bool := 0 <=? le_amount e.

(** [PAYOUT_TERMS_SHAPE_SQL] for a binding. *)
Definition binding_terms_shape (b : assignment_rule_binding) : bool :=
  bool_decide (bind_formula_version b = "payout_v4"%string)
  && match bind_daily_rate_naira b with Some r => 0 <? r | None => false end
  && match bind_daily_target_miles b with Some t => 0 <? t | None => false end
  && bool_decide (bind_minimum_miles b = Some 0)
  && bool_decide (bind_outside_area_weight b = Some 0)
  && bool_decide (bind_shortfall_strategy b = Some "proportional"%string)
  && bool_decide (bind_deduction_per_mile_naira b = None).

(** ** The store *)

(** [uuid4()]: an identifier that is not in use. *)
Definition uuid4 (used : list uuid) : uuid := N.succ (foldr N.max 0%N used).

Lemma uuid4_fresh used : uuid4 used ∉ used.
Proof.
  assert (Hle : forall i, i ∈ used -> (i <= foldr N.max 0 used)%N).
  { induction used as [|j used IH]; intros i Hi; simpl; [set_solver|].
    apply elem_of_cons in Hi as [->|Hi]; [lia|]. specialize (IH i Hi). lia. }
  intros Hin. apply Hle in Hin. unfold uuid4 in Hin. lia.
Qed.

Record payout_store := PayoutStore {
  st_trips : list trip_session;
  st_analytics : list trip_analytics;
  st_estimates : list impression_estimate;
  st_bindings : list assignment_rule_binding;
  st_campaigns : list campaign_row;
  st_rules : list campaign_payout_rule;
  st_revisions : list campaign_payout_rule_revision;
  st_calculations : list payout_calculation;
  st_ledger : list ledger_entry;
  st_orders : list payout_correction_order;
  st_lines : list payout_batch_line;
  st_intents : list payout_submission_intent;
  st_offsets : list payout_recovery_offset;
  st_profiles : list driver_profile;
  st_cutoffs : list (uuid * Z);  (* campaign_id, cutoff_at of campaign_cancellations *)
  st_audit : list audit_event
}.

Definition with_rules (f : list campaign_payout_rule -> list campaign_payout_rule)
    (db : payout_store) : payout_store :=
  {| st_trips := st_trips db; st_analytics := st_analytics db; st_estimates := st_estimates db;
     st_bindings := st_bindings db; st_campaigns := st_campaigns db; st_rules := f (st_rules db);
     st_revisions := st_revisions db; st_calculations := st_calculations db; st_ledger := st_ledger db;
     st_orders := st_orders db; st_lines := st_lines db; st_intents := st_intents db;
     st_offsets := st_offsets db; st_profiles := st_profiles db; st_cutoffs := st_cutoffs db;
     st_audit := st_audit db |}.

Definition with_revisions (f : list campaign_payout_rule_revision -> list campaign_payout_rule_revision)
    (db : payout_store) : payout_store :=
  {| st_trips := st_trips db; st_analytics := st_analytics db; st_estimates := st_estimates db;
     st_bindings := st_bindings db; st_campaigns := st_campaigns db; st_rules := st_rules db;
     st_revisions := f (st_revisions db); st_calculations := st_calculations db; st_ledger := st_ledger db;
     st_orders := st_orders db; st_lines := st_lines db; st_intents := st_intents db;
     st_offsets := st_offsets db; st_profiles := st_profiles db; st_cutoffs := st_cutoffs db;
     st_audit := st_audit db |}.

Definition with_calculations (f : list payout_calculation -> list payout_calculation)
    (db : payout_store) : payout_store :=
  {| st_trips := st_trips db; st_analytics := st_analytics db; st_estimates := st_estimates db;
     st_bindings := st_bindings db; st_campaigns := st_campaigns db; st_rules := st_rules db;
     st_revisions := st_revisions db; st_calculations := f (st_calculations db); st_ledger := st_ledger db;
     st_orders := st_orders db; st_lines := st_lines db; st_intents := st_intents db;
     st_offsets := st_offsets db; st_profiles := st_profiles db; st_cutoffs := st_cutoffs db;
     st_audit := st_audit db |}.

Definition with_ledger (f : list ledger_entry -> list ledger_entry)
    (db : payout_store) : payout_store :=
  {| st_trips := st_trips db; st_analytics := st_analytics db; st_estimates := st_estimates db;
     st_bindings := st_bindings db; st_campaigns := st_campaigns db; st_rules := st_rules db;
     st_revisions := st_revisions db; st_calculations := st_calculations db; st_ledger := f (st_ledger db);
     st_orders := st_orders db; st_lines := st_lines db; st_intents := st_intents db;
     st_offsets := st_offsets db; st_profiles := st_profiles db; st_cutoffs := st_cutoffs db;
     st_audit := st_audit db |}.

Definition with_orders (f : list payout_correction_order -> list payout_correction_order)
    (db : payout_store) : payout_store :=
  {| st_trips := st_trips db; st_analytics := st_analytics db; st_estimates := st_estimates db;
     st_bindings := st_bindings db; st_campaigns := st_campaigns db; st_rules := st_rules db;
     st_revisions := st_revisions db; st_calculations := st_calculations db; st_ledger := st_ledger db;
     st_orders := f (st_orders db); st_lines := st_lines db; st_intents := st_intents db;
     st_offsets := st_offsets db; st_profiles := st_profiles db; st_cutoffs := st_cutoffs db;
     st_audit := st_audit db |}.

Definition with_lines (f : list payout_batch_line -> list payout_batch_line)
    (db : payout_store) : payout_store :=
  {| st_trips := st_trips db; st_analytics := st_analytics db; st_estimates := st_estimates db;
     st_bindings := st_bindings db; st_campaigns := st_campaigns db; st_rules := st_rules db;
     st_revisions := st_revisions db; st_calculations := st_calculations db; st_ledger := st_ledger db;
     st_orders := st_orders db; st_lines := f (st_lines db); st_intents := st_intents db;
     st_offsets := st_offsets db; st_profiles := st_profiles db; st_cutoffs := st_cutoffs db;
     st_audit := st_audit db |}.

Definition with_intents (f : list payout_submission_intent -> list payout_submission_intent)
    (db : payout_store) : payout_store :=
  {| st_trips := st_trips db; st_analytics := st_analytics db; st_estimates := st_estimates db;
     st_bindings := st_bindings db; st_campaigns := st_campaigns db; st_rules := st_rules db;
     st_revisions := st_revisions db; st_calculations := st_calculations db; st_ledger := st_ledger db;
     st_orders := st_orders db; st_lines := st_lines db; st_intents := f (st_intents db);
     st_offsets := st_offsets db; st_profiles := st_profiles db; st_cutoffs := st_cutoffs db;
     st_audit := st_audit db |}.

Definition with_offsets (f : list payout_recovery_offset -> list payout_recovery_offset)
    (db : payout_store) : payout_store :=
  {| st_trips := st_trips db; st_analytics := st_analytics db; st_estimates := st_estimates db;
     st_bindings := st_bindings db; st_campaigns := st_campaigns db; st_rules := st_rules db;
     st_revisions := st_revisions db; st_calculations := st_calculations db; st_ledger := st_ledger db;
     st_orders := st_orders db; st_lines := st_lines db; st_intents := st_intents db;
     st_offsets := f (st_offsets db); st_profiles := st_profiles db; st_cutoffs := st_cutoffs db;
     st_audit := st_audit db |}.

Definition with_audit (f : list audit_event -> list audit_event)
    (db : payout_store) : payout_store :=
  {| st_trips := st_trips db; st_analytics := st_analytics db; st_estimates := st_estimates db;
     st_bindings := st_bindings db; st_campaigns := st_campaigns db; st_rules := st_rules db;
     st_revisions := st_revisions db; st_calculations := st_calculations db; st_ledger := st_ledger db;
     st_orders := st_orders db; st_lines := st_lines db; st_intents := st_intents db;
     st_offsets := st_offsets db; st_profiles := st_profiles db; st_cutoffs := st_cutoffs db;
     st_audit := f (st_audit db) |}.

(** [create_audit_event] *)
Definition create_audit_event (actor : option uuid) (action entity_type : string) (entity : uuid)
    (db : payout_store) : payout_store :=
  with_audit (fun l => l ++ [AuditEvent actor action entity_type entity]) db.

(** [select(...).where(p)] returning one row or none. *)
Definition find_row {A} (p : A -> bool) (l : list A) : option A := List.find p l.

(** A partial unique index on the key [k]: no two rows share a present key. *)
Definition unique_on {A K} (k : A -> option K) (l : list A) : Prop :=
  NoDup (omap k l).

Definition conflicts {A K} `{EqDecision K} (k : A -> option K) (row : A) (l : list A) : bool :=
  match k row with
  | None => false
  | Some key => bool_decide (Some key ∈ k <$> l)
  end.

Lemma unique_on_snoc {A K} `{EqDecision K} (k : A -> option K) row l :
  unique_on k l -> conflicts k row l = false -> unique_on k (l ++ [row]).
Proof.
  unfold unique_on, conflicts. intros Hl Hc. rewrite omap_app. simpl.
  destruct (k row) as [key|] eqn:Hk; [|by rewrite app_nil_r].
  apply bool_decide_eq_false in Hc. apply NoDup_app. split; [done|]. split.
  - intros x Hx Hx'. apply list_elem_of_singleton in Hx' as ->. apply Hc.
    apply list_elem_of_omap in Hx as (r & Hr & Hrk). apply list_elem_of_fmap. eauto.
  - apply NoDup_singleton.
Qed.

Lemma unique_on_inj {A K} (k : A -> option K) l x y v :
  unique_on k l -> x ∈ l -> y ∈ l -> k x = Some v -> k y = Some v -> x = y.
Proof.
  unfold unique_on. induction l as [|z l IH]; intros Hnd Hx Hy Hkx Hky; [by apply elem_of_nil in Hx|].
  cbn in Hnd. apply elem_of_cons in Hx, Hy.
  assert (Hout : forall w u, k z = Some u -> w ∈ l -> k w = Some u -> False).
  { intros w u Hz Hw Hkw. rewrite Hz in Hnd. apply NoDup_cons in Hnd as [Hnd _]. apply Hnd, list_elem_of_omap. eauto. }
  destruct Hx as [->|Hx], Hy as [->|Hy]; [done| | |].
  - exfalso. by eapply Hout.
  - exfalso. by eapply Hout.
  - apply IH; try done. destruct (k z); [by apply NoDup_cons in Hnd as [_ ?]|done].
Qed.

Lemma unique_on_app_l {A K} (k : A -> option K) l1 l2 :
  unique_on k (l1 ++ l2) -> unique_on k l1.
Proof. unfold unique_on. rewrite omap_app. intros H. by apply NoDup_app in H as [? _]. Qed.

Lemma find_row_Some {A} (p : A -> bool) l x :
  find_row p l = Some x -> x ∈ l /\ p x = true.
Proof. intros H. apply List.find_some in H as [H ?]. by rewrite <- list_elem_of_In in H. Qed.

Lemma find_row_None {A} (p : A -> bool) l x : find_row p l = None -> x ∈ l -> p x = false.
Proof. intros H Hx. eapply List.find_none; [exact H|]. by apply list_elem_of_In. Qed.

Lemma find_row_snoc_new {A} (p : A -> bool) (x : A) l : find_row p l = None -> p x = true -> find_row p (l ++ [x]) = Some x.
Proof.
  unfold find_row. induction l as [|y l IH]; cbn; [by intros _ ->|]. destruct (p y); [done|apply IH].
Qed.

Lemma find_row_prefix {A} (p : A -> bool) l l' x :
  l `prefix_of` l' -> find_row p l = Some x -> find_row p l' = Some x.
Proof.
  intros [k ->]. unfold find_row. induction l as [|y l IH]; cbn; [done|]. by destruct (p y).
Qed.

Lemma filter_all_false {A} (p : A -> bool) l : (forall x, x ∈ l -> p x = false) -> List.filter p l = [].
Proof.
  induction l as [|x l IH]; intros Hp; cbn; [done|].
  rewrite Hp by left. apply IH. intros y Hy. apply Hp. by right.
Qed.

Lemma existsb_in {A} (p : A -> bool) l x : x ∈ l -> p x = true -> existsb p l = true.
Proof. intros Hx Hp. apply existsb_exists. exists x. by rewrite <- list_elem_of_In. Qed.

Lemma nodup_key_inj {A K} (f : A -> K) l x y :
  NoDup (f <$> l) -> x ∈ l -> y ∈ l -> f x = f y -> x = y.
Proof.
  intros Hnd [i Hi]%list_elem_of_lookup [j Hj]%list_elem_of_lookup Hf.
  assert (i = j) as ->; [|congruence].
  eapply NoDup_lookup; [exact Hnd|rewrite list_lookup_fmap, Hi; reflexivity|].
  by rewrite list_lookup_fmap, Hj, Hf.
Qed.
