(* ===== verification/DailyRate.v ===== *)
(** Daily-rate pay ([app/services/payouts/daily.py]) and the payout services'
    common rules ([app/services/payouts/common.py]): reading the frozen terms,
    the pay D(d) of a day, the Lagos day, the economic end of a trip, the
    currency code. *)

From S2P Require Import Prelude Eligibility PayoutData.
From stdpp Require Import base list strings gmap.
From Stdlib Require Import ZArith QArith Qround Qminmax Lia Lqa Ascii.
#[local] Open Scope Z_scope.

Definition PAYOUT_V4 : string := "payout_v4".

(** ** Frozen terms *)

Record daily_terms := DailyRateTerms {
  daily_rate_naira : kobo;
  daily_target_miles : Z;
  minimum_miles : Z;
  outside_area_weight : Z
}.

Definition is_none {A} (o : option A) : bool :=
  match o with Some _ => false | None => true end.

Definition binding_incomplete : exn := AppError "PAYOUT_BINDING_INCOMPLETE" 409.

Definition daily_rate_terms (binding : assignment_rule_binding) : result daily_terms :=
  raise_if
    (is_none (bind_daily_rate_naira binding)
     || is_none (bind_daily_target_miles binding)
     || is_none (bind_shortfall_strategy binding)
     || is_none (bind_minimum_miles binding)
     || is_none (bind_outside_area_weight binding)
     || negb (bool_decide (bind_shortfall_strategy binding = Some "proportional"%string))
     || negb (is_none (bind_deduction_per_mile_naira binding))
     || negb (bool_decide (bind_minimum_miles binding = Some 0))
     || negb (bool_decide (bind_outside_area_weight binding = Some 0)))
    binding_incomplete ;;
  rate ← require_some (bind_daily_rate_naira binding) AssertionError;
  target ← require_some (bind_daily_target_miles binding) AssertionError;
  minimum ← require_some (bind_minimum_miles binding) AssertionError;
  weight ← require_some (bind_outside_area_weight binding) AssertionError;
  mret (DailyRateTerms rate target minimum weight).

(** ** The pay of a day *)

(** [Fraction(terms.daily_rate_naira)] and [Fraction(terms.daily_target_miles)] *)
Definition naira_fraction (amount : kobo) : Q := amount # 100.
Definition miles_fraction (thousandths : Z) : Q := thousandths # 1000.

(** The kobo of the two-decimal amount. *)
Definition half_up_naira (value : Q) : kobo := Qfloor (value * 100 + (1 # 2))%Q.

Definition miles_of (distance_m : Z) : Q := (inject_Z distance_m / METRES_PER_MILE)%Q.

Definition day_pay_naira (distance_m : Z) (terms : daily_terms) : kobo :=
  if distance_m <=? 0 then 0
  else
    let miles := miles_of distance_m in
    let rate := naira_fraction (daily_rate_naira terms) in
    let target := miles_fraction (daily_target_miles terms) in
    if Qle_bool target miles then half_up_naira rate
    else half_up_naira (rate * miles / target)%Q.

(** ** Frozen values *)

Definition frozen_campaign_window (binding : assignment_rule_binding)
    : result (option Z * option Z) :=
  raise_if (negb (bind_campaign_window_frozen binding))
    (AppError "PAYOUT_BINDING_WINDOW_NOT_FROZEN" 409) ;;
  mret (bind_campaign_window_start_at binding, bind_campaign_window_end_at binding).

Section Frozen.
Context {F : Type} `{PyFloat F}.

Definition RESOLVED_ELIGIBILITY_PARAM_KEYS : gset string :=
  {[ "stationary_radius_m"; "stationary_window_seconds"; "stationary_grace_seconds";
     "max_accuracy_m"; "teleport_kmh"; "max_ping_gap_seconds" ]}%string.

(** [int(x)] of a JSON number truncates. *)
Definition py_int (q : Q) : Z := Z.quot (Qnum q) (Z.pos (Qden q)).

Definition frozen_eligibility_params (binding : assignment_rule_binding)
    : result (eligibility_params (F:=F)) :=
  raise_if (negb (bool_decide (bind_stationary_policy_marker binding = STATIONARY_POLICY_D39)))
    (AppError "PAYOUT_STATIONARY_POLICY_UNRESOLVED" 409) ;;
  let snapshot := default ∅ (bind_resolved_eligibility_params binding) in
  raise_if (negb (bool_decide (dom snapshot = RESOLVED_ELIGIBILITY_PARAM_KEYS)))
    binding_incomplete ;;
  radius ← require_some (snapshot !! "stationary_radius_m"%string) KeyError;
  window ← require_some (snapshot !! "stationary_window_seconds"%string) KeyError;
  grace ← require_some (snapshot !! "stationary_grace_seconds"%string) KeyError;
  accuracy ← require_some (snapshot !! "max_accuracy_m"%string) KeyError;
  kmh ← require_some (snapshot !! "teleport_kmh"%string) KeyError;
  gap ← require_some (snapshot !! "max_ping_gap_seconds"%string) KeyError;
  mret (EligibilityParams (f_lit radius) (py_int window) (py_int grace)
          (f_lit accuracy) (f_lit kmh) (py_int gap)).

(** Every frozen input a payout_v4 amount depends on. *)
Record governing_values := GoverningValues {
  gv_engine : string;
  gv_binding_id : uuid;
  gv_revision_id : uuid;
  gv_terms : daily_terms;
  gv_eligibility_params : eligibility_params (F:=F);
  gv_frozen_eligibility_params : gmap string Q;
  gv_resolved_eligibility_params : option (gmap string Q);
  gv_target_zone_ids : list string;
  gv_target_zone_geometry_hash : string;
  gv_exclusion_zone_ids : list string;
  gv_exclusion_zone_geometry_hash : string;
  gv_stationary_policy_marker : string;
  gv_campaign_window_start_at : option Z;
  gv_campaign_window_end_at : option Z;
  gv_currency : string
}.

Definition v4_governing_values (binding : assignment_rule_binding) (terms : daily_terms)
    (params : eligibility_params (F:=F)) : governing_values :=
  GoverningValues PAYOUT_V4 (bind_id binding) (bind_revision_id binding) terms params
    (bind_eligibility_params binding) (bind_resolved_eligibility_params binding)
    (bind_premium_zone_ids binding) (bind_premium_zone_geometry_hash binding)
    (bind_exclusion_zone_ids binding) (bind_exclusion_zone_geometry_hash binding)
    (bind_stationary_policy_marker binding)
    (bind_campaign_window_start_at binding) (bind_campaign_window_end_at binding)
    (bind_currency binding).
End Frozen.
Arguments governing_values F : clear implicits.

Definition binding_for_assignment (db : payout_store) (assignment_id : uuid)
    : option assignment_rule_binding :=
  find_row (fun b => bool_decide (bind_assignment_id b = assignment_id)) (st_bindings db).

(** ** Time *)

Definition lagos_day_for (moment : datetime) : Z := lagos_date (utc_of moment).

Definition lagos_day_utc_range (d : Z) : Z * Z := (lagos_midnight d, lagos_midnight d + day).

Definition campaign_financial_cutoff (db : payout_store) (campaign_id : uuid) : option Z :=
  snd <$> find_row (fun c => bool_decide (c.1 = campaign_id)) (st_cutoffs db).

(** The economic end of the trip, the effective end of the campaign window and
    the frozen cutoff. *)
Definition payout_time_bounds (db : payout_store) (trip : trip_session)
    (window_end_at : option Z) : result (Z * option Z * option Z) :=
  let cutoff := campaign_financial_cutoff db (trip_campaign_id trip) in
  trip_end ← require_some (trip_ended_at trip) AssertionError;
  let economic_end := match cutoff with Some c => Z.min trip_end c | None => trip_end end in
  let economic_end := Z.max (trip_started_at trip) economic_end in
  let effective_window_end :=
    match cutoff, window_end_at with
    | Some c, None => Some c
    | Some c, Some w => if c <? w then Some c else Some w
    | None, w => w
    end in
  mret (economic_end, effective_window_end, cutoff).

(** [date] days from the first to the last, inclusive. *)
Definition days_between (first last : Z) : list Z :=
  (fun n => first + Z.of_nat n) <$> seq 0 (Z.to_nat (last - first + 1)).

(** [func.coalesce(ended_at, started_at)] *)
Definition trip_last_instant (t : trip_session) : Z :=
  default (trip_started_at t) (trip_ended_at t).

Definition overlaps_day_open (t : trip_session) (d : Z) : bool :=
  (trip_started_at t <? (lagos_day_utc_range d).2)
  && ((lagos_day_utc_range d).1 <? trip_last_instant t).

(** [(started_at, id)] order *)
Definition trip_before (t u : trip_session) : bool :=
  (trip_started_at t <? trip_started_at u)
  || ((trip_started_at t =? trip_started_at u) && (trip_id t <? trip_id u)%N).

Definition has_calculation (db : payout_store) (t : trip_session) : bool :=
  existsb (fun c => bool_decide (pc_trip_session_id c = trip_id t)) (st_calculations db).

Definition is_unprocessed_predecessor (db : payout_store) (trip : trip_session)
    (lagos_days : list Z) (t : trip_session) : bool :=
  bool_decide (trip_driver_profile_id t = trip_driver_profile_id trip)
  && bool_decide (trip_campaign_id t = trip_campaign_id trip)
  && negb (bool_decide (trip_status t = TRIP_ACTIVE))
  && negb (is_none (trip_ended_at t))
  && trip_before t trip
  && existsb (overlaps_day_open t) lagos_days
  && negb (has_calculation db t).

(** The trip named in the error's details is not modelled, so neither is the
    order in which candidates are tried. *)
Definition require_paycap_predecessors_processed (db : payout_store) (trip : trip_session)
    (lagos_days : list Z) : result unit :=
  raise_if (existsb (is_unprocessed_predecessor db trip lagos_days) (st_trips db))
    (AppError "PAYOUT_DAY_PREDECESSOR_UNPROCESSED" 409).

(** ** Ledger entries *)

(** An explicit staff deduction, separate from recomputed pay differentials. *)
Definition is_manual_deduction (e : ledger_entry) : bool :=
  bool_decide (le_entry_type e = REVERSAL)
  && negb (is_none (md_source_entry_id (le_metadata e)))
  && negb (md_recompute_day (le_metadata e)).

Definition signed_ledger_amount (e : ledger_entry) : kobo :=
  if bool_decide (le_entry_type e = REVERSAL) then - le_amount e else le_amount e.

(** [value.quantize(Decimal("0.01"), rounding=ROUND_HALF_UP)], ties away from zero. *)
Definition quantize_ngn_half_up (value : Q) : kobo :=
  if Qle_bool 0 value then Qfloor (value * 100 + (1 # 2))%Q
  else - Qfloor ((- value) * 100 + (1 # 2))%Q.

(** ** Currency codes, on ASCII strings *)

Definition is_space (c : ascii) : bool :=
  let n := Z.of_N (N_of_ascii c) in
  ((9 <=? n) && (n <=? 13)) || ((28 <=? n) && (n <=? 32)).

Definition is_lower (c : ascii) : bool :=
  (97 <=? Z.of_N (N_of_ascii c)) && (Z.of_N (N_of_ascii c) <=? 122).
Definition is_upper (c : ascii) : bool :=
  (65 <=? Z.of_N (N_of_ascii c)) && (Z.of_N (N_of_ascii c) <=? 90).
Definition is_ascii (c : ascii) : bool := Z.of_N (N_of_ascii c) <? 128.

Definition char_upper (c : ascii) : ascii :=
  if is_lower c then ascii_of_N (N_of_ascii c - 32) else c.

Fixpoint lstrip (s : list ascii) : list ascii :=
  match s with
  | [] => []
  | c :: s' => if is_space c then lstrip s' else s
  end.

Definition strip (s : list ascii) : list ascii := rev (lstrip (rev (lstrip s))).

Definition validate_currency_code (value fallback : option string) : result (option string) :=
  match (match value with Some v => Some v | None => fallback end) with
  | None => mret None
  | Some v =>
      let normalized := char_upper <$> strip (String.list_ascii_of_string v) in
      raise_if
        (negb (length normalized =? 3)%nat
         || negb (forallb is_ascii normalized)
         || negb (forallb (fun c => is_upper c || is_lower c) normalized))
        (AppError "INVALID_CURRENCY" 400) ;;
      mret (Some (String.string_of_list_ascii normalized))
  end.

(** [CURRENCY_CODE_SQL] *)
Definition currency_code_sql (s : string) : bool :=
  let cs := String.list_ascii_of_string s in
  (length cs =? 3)%nat
  && bool_decide (cs = char_upper <$> cs)
  && forallb is_upper (take 3 cs).

(** ** Lemmas on the pay of a day *)

(** The terms a binding row can hold. *)
Record terms_ok (terms : daily_terms) : Prop := {
  rate_nonneg : 0 <= daily_rate_naira terms;
  target_pos : 0 < daily_target_miles terms
}.

Lemma half_up_naira_mono u v : (u <= v)%Q -> half_up_naira u <= half_up_naira v.
Proof. intros Huv. apply Qfloor_resp_le. nra. Qed.

Lemma half_up_naira_whole k : half_up_naira (naira_fraction k) = k.
Proof.
  unfold half_up_naira, naira_fraction, Qfloor, Qmult, Qplus. simpl.
  symmetry. apply (Z.div_unique_pos _ _ _ 100); lia.
Qed.

Lemma half_up_naira_nonneg v : (0 <= v)%Q -> 0 <= half_up_naira v.
Proof.
  intros Hv. rewrite <- (half_up_naira_whole 0). apply half_up_naira_mono.
  assert (naira_fraction 0 == 0)%Q as H0 by reflexivity. by rewrite H0.
Qed.

(** The rounded amount is within half a kobo of the exact one. *)
Lemma half_up_naira_close v :
  (inject_Z (half_up_naira v) - (1 # 2) <= v * 100 < inject_Z (half_up_naira v) + (1 # 2))%Q.
Proof.
  unfold half_up_naira.
  pose proof (Qfloor_le (v * 100 + (1 # 2))). pose proof (Qlt_floor (v * 100 + (1 # 2))).
  rewrite inject_Z_plus in *. change (inject_Z 1) with 1%Q in *. lra.
Qed.

Lemma miles_of_mono d1 d2 : d1 <= d2 -> (miles_of d1 <= miles_of d2)%Q.
Proof.
  intros Hd. unfold miles_of. apply Qmult_le_compat_r; [|discriminate].
  by rewrite <- Zle_Qle.
Qed.

Lemma miles_of_pos d : 0 < d -> (0 < miles_of d)%Q.
Proof.
  intros Hd. unfold miles_of. apply Qlt_shift_div_l; [reflexivity|].
  rewrite Qmult_0_l. by rewrite (Zlt_Qlt 0) in Hd.
Qed.

Section DayPay.
Context (terms : daily_terms) (Hok : terms_ok terms).

(** The exact fraction of the rate that a day's miles earn. *)
Definition exact_day_pay (distance_m : Z) : Q :=
  let miles := miles_of (Z.max 0 distance_m) in
  let target := miles_fraction (daily_target_miles terms) in
  (naira_fraction (daily_rate_naira terms) * (Qmin miles target / target))%Q.

Lemma target_fraction_pos : (0 < miles_fraction (daily_target_miles terms))%Q.
Proof. pose proof (target_pos _ Hok). unfold miles_fraction, Qlt. simpl. lia. Qed.

Lemma rate_fraction_nonneg : (0 <= naira_fraction (daily_rate_naira terms))%Q.
Proof. pose proof (rate_nonneg _ Hok). unfold naira_fraction, Qle. simpl. lia. Qed.

Lemma half_up_naira_proper u v : (u == v)%Q -> half_up_naira u = half_up_naira v.
Proof. intros Huv. unfold half_up_naira. by rewrite Huv. Qed.

Lemma day_pay_naira_exact d : day_pay_naira d terms = half_up_naira (exact_day_pay d).
Proof.
  pose proof target_fraction_pos as Ht. unfold day_pay_naira, exact_day_pay.
  destruct (Z.leb_spec d 0) as [Hd|Hd].
  - rewrite Z.max_l by lia. symmetry.
    transitivity (half_up_naira 0); [apply half_up_naira_proper|reflexivity].
    assert (miles_of 0 == 0)%Q as Hm by reflexivity.
    rewrite Q.min_l by (rewrite Hm; lra). rewrite Hm. unfold Qdiv. ring.
  - rewrite Z.max_r by lia.
    destruct (Qle_bool _ _) eqn:Hm; apply half_up_naira_proper.
    + apply Qle_bool_iff in Hm. rewrite Q.min_r by exact Hm. field. lra.
    + assert (Hlt : ~ (miles_fraction (daily_target_miles terms) <= miles_of d)%Q)
        by (rewrite <- Qle_bool_iff; congruence).
      rewrite Q.min_l by lra. field. lra.
Qed.

Lemma exact_day_pay_mono d1 d2 : d1 <= d2 -> (exact_day_pay d1 <= exact_day_pay d2)%Q.
Proof.
  intros Hd. pose proof target_fraction_pos as Ht. pose proof rate_fraction_nonneg as Hr.
  unfold exact_day_pay. rewrite !(Qmult_comm (naira_fraction _)).
  apply Qmult_le_compat_r; [|exact Hr].
  apply Qmult_le_compat_r; [|apply Qinv_le_0_compat; lra].
  apply Q.min_le_compat_r, miles_of_mono. lia.
Qed.
End DayPay.

Lemma naira_fraction_le a b : (naira_fraction a <= naira_fraction b)%Q <-> a <= b.
Proof. unfold naira_fraction, Qle. simpl. lia. Qed.

Lemma exact_day_pay_le_rate terms d : terms_ok terms ->
  (exact_day_pay terms d <= naira_fraction (daily_rate_naira terms))%Q.
Proof.
  intros Hok. pose proof (target_fraction_pos _ Hok) as Ht.
  pose proof (rate_fraction_nonneg _ Hok) as Hr. unfold exact_day_pay.
  assert (Hq : (Qmin (miles_of (Z.max 0 d)) (miles_fraction (daily_target_miles terms))
                / miles_fraction (daily_target_miles terms) <= 1)%Q).
  { apply Qle_shift_div_r; [exact Ht|]. rewrite Qmult_1_l. apply Q.le_min_r. }
  rewrite <- (Qmult_1_l (naira_fraction _)) at 2. rewrite (Qmult_comm (naira_fraction _)).
  by apply Qmult_le_compat_r.
Qed.

Lemma exact_day_pay_nonneg terms d : terms_ok terms -> (0 <= exact_day_pay terms d)%Q.
Proof.
  intros Hok. apply (Qle_trans _ (exact_day_pay terms (Z.min 0 d))).
  - unfold exact_day_pay. rewrite Z.max_l by lia.
    assert (miles_of 0 == 0)%Q as Hm by reflexivity.
    pose proof (target_fraction_pos _ Hok).
    rewrite Q.min_l by (rewrite Hm; lra). rewrite Hm. unfold Qdiv. ring_simplify. lra.
  - apply exact_day_pay_mono; [done|lia].
Qed.

Lemma day_pay_bounds d terms : terms_ok terms ->
  0 <= day_pay_naira d terms <= daily_rate_naira terms.
Proof.
  intros Hok. rewrite day_pay_naira_exact by done. split.
  - by apply half_up_naira_nonneg, exact_day_pay_nonneg.
  - rewrite <- (half_up_naira_whole (daily_rate_naira terms)).
    by apply half_up_naira_mono, exact_day_pay_le_rate.
Qed.

Lemma day_pay_mono d1 d2 terms : terms_ok terms -> d1 <= d2 ->
  day_pay_naira d1 terms <= day_pay_naira d2 terms.
Proof.
  intros Hok Hd. rewrite !day_pay_naira_exact by done. by apply half_up_naira_mono, exact_day_pay_mono.
Qed.

(** a day's pay never decreases with the metres credited, is never
    negative and never exceeds the frozen day rate. *)
Theorem day_pay_naira_monotone_capped terms d1 d2 :
  terms_ok terms -> d1 <= d2 ->
  0 <= day_pay_naira d1 terms <= day_pay_naira d2 terms
  /\ day_pay_naira d2 terms <= daily_rate_naira terms.
Proof.
  intros Hok Hd. pose proof (day_pay_bounds d1 terms Hok). pose proof (day_pay_bounds d2 terms Hok).
  pose proof (day_pay_mono d1 d2 terms Hok Hd). lia.
Qed.

(** a day's pay is the exact proportional amount (rate times miles over
    target, capped at the rate) to the nearest kobo, halves up: nothing at zero
    metres and exactly the rate from the target on. *)
Theorem day_pay_naira_proportional terms d :
  terms_ok terms ->
  (inject_Z (day_pay_naira d terms) - (1 # 2) <= exact_day_pay terms d * 100
     < inject_Z (day_pay_naira d terms) + (1 # 2))%Q
  /\ (d <= 0 -> day_pay_naira d terms = 0)
  /\ ((miles_fraction (daily_target_miles terms) <= miles_of d)%Q ->
      day_pay_naira d terms = daily_rate_naira terms).
Proof.
  intros Hok. pose proof (target_fraction_pos _ Hok) as Ht. split; [|split].
  - rewrite day_pay_naira_exact by done. apply half_up_naira_close.
  - intros Hd. unfold day_pay_naira. by rewrite (proj2 (Z.leb_le d 0) Hd).
  - intros Hm. assert (0 < d).
    { destruct (Z.ltb_spec 0 d); [done|]. assert (miles_of d <= miles_of 0)%Q
        by (by apply miles_of_mono). assert (miles_of 0 == 0)%Q by reflexivity. lra. }
    unfold day_pay_naira. rewrite (proj2 (Z.leb_gt d 0)) by done.
    rewrite (proj2 (Qle_bool_iff _ _) Hm). apply half_up_naira_whole.
Qed.

(** N3,000 for 30 miles. *)
Definition sample_terms : daily_terms := DailyRateTerms 300000 30000 0 0.

Lemma sample_terms_ok : terms_ok sample_terms.
Proof. split; simpl; lia. Qed.

Lemma day_pay_naira_monotone_capped_witness :
  0 <= day_pay_naira 8047 sample_terms <= day_pay_naira 16093 sample_terms
  /\ day_pay_naira 16093 sample_terms <= 300000.
Proof. apply (day_pay_naira_monotone_capped sample_terms); [apply sample_terms_ok | lia]. Defined.

Lemma day_pay_naira_proportional_witness :
  day_pay_naira (-5) sample_terms = 0 /\ day_pay_naira 48281 sample_terms = 300000
  /\ day_pay_naira 16093 sample_terms = 99997.
Proof.
  split; [|split].
  - apply (day_pay_naira_proportional sample_terms); [apply sample_terms_ok | lia].
  - apply (day_pay_naira_proportional sample_terms); [apply sample_terms_ok |].
    vm_compute. discriminate.
  - vm_compute. reflexivity.
Defined.

(** the terms are read exactly from a complete binding, and every binding
    row the table's CHECK constraint admits is complete and prices safely. *)
Theorem daily_rate_terms_of_row binding :
  binding_terms_shape binding = true ->
  exists terms, daily_rate_terms binding = Ok terms /\ terms_ok terms
    /\ bind_daily_rate_naira binding = Some (daily_rate_naira terms)
    /\ bind_daily_target_miles binding = Some (daily_target_miles terms).
Proof.
  unfold binding_terms_shape. intros Hb. bool_prop.
  destruct (bind_daily_rate_naira binding) as [rate|] eqn:Hr; [|done].
  destruct (bind_daily_target_miles binding) as [target|] eqn:Ht; [|done].
  exists (DailyRateTerms rate target 0 0). split; [|split; [split; simpl; bool_prop; lia|done]].
  unfold daily_rate_terms. rewrite Hr, Ht.
  repeat match goal with H : ?x = _ |- context [?x] => rewrite H end. reflexivity.
Qed.

Definition witness_binding : assignment_rule_binding :=
  AssignmentRuleBinding 1 2 3 (Some 300000) (Some 30000) (Some "proportional"%string) None
    (Some 0) (Some 0) "NGN" ∅ None PAYOUT_V4 [] "" [] [] "" [] STATIONARY_POLICY_D39
    None None true None 0.

Lemma daily_rate_terms_of_row_witness :
  binding_terms_shape witness_binding = true
  /\ exists terms, daily_rate_terms witness_binding = Ok terms /\ terms_ok terms
    /\ bind_daily_rate_naira witness_binding = Some (daily_rate_naira terms)
    /\ bind_daily_target_miles witness_binding = Some (daily_target_miles terms).
Proof.
  split; [reflexivity|]. apply (daily_rate_terms_of_row witness_binding). reflexivity.
Defined.

(** ** Lagos days *)

(** the UTC ranges of the Lagos days partition time: a moment belongs to
    the day [lagos_day_for] names and to no other, and the range of a day ends
    where the next one begins. *)
Theorem lagos_days_partition moment d :
  (lagos_day_for moment = d
   <-> (lagos_day_utc_range d).1 <= utc_of moment < (lagos_day_utc_range d).2)
  /\ (lagos_day_utc_range d).2 = (lagos_day_utc_range (d + 1)).1.
Proof.
  unfold lagos_day_for, lagos_day_utc_range; cbn [fst snd]. split.
  - rewrite lagos_date_spec. unfold lagos_midnight. split; intros; lia.
  - unfold lagos_midnight. lia.
Qed.

Lemma elem_of_days_between d a b : d ∈ days_between a b <-> a <= d <= b.
Proof.
  unfold days_between. rewrite list_elem_of_fmap. split.
  - intros (n & -> & Hn). apply elem_of_seq in Hn. lia.
  - intros Hd. exists (Z.to_nat (d - a)). rewrite elem_of_seq. lia.
Qed.

(** ** The economic end *)

Lemma payout_time_bounds_end db trip window_end_at ended e w cutoff :
  trip_ended_at trip = Some ended -> trip_started_at trip <= ended ->
  payout_time_bounds db trip window_end_at = Ok (e, w, cutoff) ->
  trip_started_at trip <= e <= ended.
Proof.
  intros Hended Hle Hrun. unfold payout_time_bounds in Hrun. rewrite Hended in Hrun.
  cbn [require_some mbind result_bind mret result_ret] in Hrun.
  destruct (campaign_financial_cutoff db (trip_campaign_id trip)) as [c|];
    injection Hrun as <- <- <-; lia.
Qed.

(** a cancellation cutoff ends the paid part of a trip: the economic end
    lies in the recorded trip, it is the recorded end without a cutoff, and
    with one it is not after the cutoff unless the trip began later, when
    nothing of it remains; the campaign window then ends at the cutoff or
    earlier. *)
Theorem payout_time_bounds_respect_cutoff db trip window_end_at ended e w cutoff :
  trip_ended_at trip = Some ended -> trip_started_at trip <= ended ->
  payout_time_bounds db trip window_end_at = Ok (e, w, cutoff) ->
  trip_started_at trip <= e <= ended
  /\ (cutoff = None -> e = ended /\ w = window_end_at)
  /\ (forall c, cutoff = Some c ->
        e = Z.max (trip_started_at trip) (Z.min ended c)
        /\ exists w', w = Some w' /\ w' <= c /\ (w' = c \/ window_end_at = Some w')).
Proof.
  intros Hended Hle Hrun. unfold payout_time_bounds in Hrun. rewrite Hended in Hrun.
  cbn [require_some mbind result_bind mret result_ret] in Hrun.
  destruct (campaign_financial_cutoff db (trip_campaign_id trip)) as [c|];
    injection Hrun as <- <- <-; (split; [lia|split; [intros ?; first [discriminate|split; [lia|done]]|]]); [|done].
  intros c' [= <-]. split; [lia|].
  destruct window_end_at as [w|]; [|by exists c; eauto with lia].
  destruct (Z.ltb_spec c w); [exists c; eauto with lia | exists w; eauto with lia].
Qed.

Definition witness_trip : trip_session :=
  TripSession 10 2 4 5 6 TRIP_SEALED (9 * hour) (Some (12 * hour)) (Some (13 * hour)).

Definition witness_cutoff_store : payout_store :=
  PayoutStore [witness_trip] [] [] [witness_binding] [] [] [] [] [] [] [] [] [] []
    [(4%N, 10 * hour)] [].

Lemma payout_time_bounds_respect_cutoff_witness :
  payout_time_bounds witness_cutoff_store witness_trip (Some (20 * hour))
    = Ok (10 * hour, Some (10 * hour), Some (10 * hour))
  /\ trip_started_at witness_trip <= 10 * hour <= 12 * hour.
Proof.
  split; [vm_compute; reflexivity|].
  apply (payout_time_bounds_respect_cutoff witness_cutoff_store witness_trip (Some (20 * hour))
           (12 * hour) (10 * hour) (Some (10 * hour)) (Some (10 * hour)));
    [reflexivity | discriminate | vm_compute; reflexivity].
Defined.

(** ** Currency codes *)

Lemma char_upper_letter c :
  is_upper (char_upper c) || is_lower (char_upper c) = true -> is_upper (char_upper c) = true.
Proof.
  destruct c as [[] [] [] [] [] [] [] []]; intros Hc; vm_compute in Hc;
    first [discriminate Hc | reflexivity].
Qed.

Lemma upper_letter c : is_upper c = true ->
  char_upper c = c /\ is_space c = false /\ is_ascii c = true.
Proof.
  destruct c as [[] [] [] [] [] [] [] []]; intros Hc; vm_compute in Hc;
    first [discriminate Hc | repeat split].
Qed.

(** Three upper-case letters satisfy the constraint and validate to themselves. *)
Lemma three_upper_letters a b c :
  is_upper a = true -> is_upper b = true -> is_upper c = true ->
  let code := String.string_of_list_ascii [a; b; c] in
  currency_code_sql code = true /\ validate_currency_code (Some code) None = Ok (Some code).
Proof.
  intros Ha Hb Hc code.
  destruct (upper_letter _ Ha) as (Ua & Sa & Aa).
  destruct (upper_letter _ Hb) as (Ub & Sb & Ab).
  destruct (upper_letter _ Hc) as (Uc & Sc & Ac).
  unfold currency_code_sql, validate_currency_code, code, strip.
  rewrite !String.list_ascii_of_string_of_list_ascii. split.
  - cbn. by rewrite Ua, Ub, Uc, Ha, Hb, Hc, bool_decide_eq_true_2.
  - cbn [lstrip rev app]. rewrite Sa. cbn [lstrip rev app]. rewrite Sc.
    cbn. rewrite Ua, Ub, Uc, Ha, Hb, Hc, Aa, Ab, Ac. reflexivity.
Qed.

(** a currency code that validation lets through satisfies the tables'
    CHECK constraint, and validating it again returns it unchanged. *)
Theorem validated_currency_is_stored value fallback code :
  validate_currency_code value fallback = Ok (Some code) ->
  currency_code_sql code = true /\ validate_currency_code (Some code) None = Ok (Some code).
Proof.
  unfold validate_currency_code at 1.
  destruct (match value with Some v => Some v | None => fallback end) as [v|]; [|done].
  set (raw := strip _). cbn zeta. intros Hrun.
  apply bind_Ok in Hrun as ([] & Hok & Hret). apply raise_if_Ok in Hok.
  injection Hret as <-. bool_prop.
  destruct raw as [|a [|b [|c [|]]]]; simpl in *; try discriminate. bool_prop.
  apply three_upper_letters; by apply char_upper_letter.
Qed.

Lemma validated_currency_is_stored_witness :
  validate_currency_code (Some " ngn"%string) None = Ok (Some "NGN"%string)
  /\ currency_code_sql "NGN" = true.
Proof.
  split; [reflexivity|].
  apply (validated_currency_is_stored (Some " ngn"%string) None "NGN"). reflexivity.
Defined.
