(* ===== verification/Ledger.v ===== *)
(** The earnings ledger ([app/services/payouts/ledger.py]) and the
    classification of uniqueness conflicts ([app/db/integrity.py]). *)

From S2P Require Import Prelude Eligibility PayoutData DailyRate.
From stdpp Require Import base list strings gmap sorting.
From Stdlib Require Import ZArith QArith Lia.
#[local] Open Scope Z_scope.

(** ** Uniqueness conflicts *)

Definition EXPECTED_UNIQUE_CONSTRAINTS : list string :=
  [ "uq_trip_analytics_trip_session_id";
    "uq_fraud_assessments_trip_session_id";
    "uq_route_replay_signatures_trip_session_id";
    "uq_fraud_flags_trip_nonterminal_flag_type";
    "uq_impression_estimates_trip_formula_profile";
    "uq_payout_calculations_trip_formula_rule";
    "uq_earnings_ledger_entries_payout_calculation_id";
    "uq_traffic_density_profiles_active_default";
    "uq_campaign_assignments_driver_active";
    "uq_campaign_assignments_vehicle_active";
    "uq_campaign_assignments_campaign_vehicle_non_terminal";
    "uq_trip_sessions_driver_profile_active";
    "uq_trip_sessions_vehicle_active";
    "uq_installation_evidence_request";
    "uq_installation_evidence_assignment_pending";
    "uq_installation_evidence_photo_file";
    "uq_payout_batch_lines_active_ledger_entry";
    "uq_payout_batch_lines_provider_transfer_reference";
    "uq_payout_automatic_alerts_dedupe_key";
    "uq_vehicles_plate_country_normalized";
    "uq_organization_memberships_user_active" ]%string.

(** The drivers' several ways of exposing the constraint name (attribute,
    diagnostics, message) all carry the name in [IntegrityError]. *)
Definition integrity_constraint_name (exc : exn) : option string :=
  match exc with
  | IntegrityError name => if decide (name ∈ EXPECTED_UNIQUE_CONSTRAINTS) then Some name else None
  | _ => None
  end.

Definition is_expected_uniqueness_conflict (exc : exn) (constraints : option (list string)) : bool :=
  match integrity_constraint_name exc with
  | None => false
  | Some constraint_name =>
      match constraints with
      | None => true
      | Some cs => bool_decide (constraint_name ∈ cs)
      end
  end.

Definition PAYOUT_CALCULATION_CONSTRAINTS : list string :=
  [ "uq_payout_calculations_trip_formula_rule"%string ].

Definition LEDGER_ENTRY_CONSTRAINTS : list string :=
  [ "uq_earnings_ledger_entries_payout_calculation_id";
    "uq_earnings_ledger_entries_trip_payout_per_trip" ]%string.

(** ** Queries over calculations *)

(** [ORDER BY calculated_at DESC, id] *)
Definition more_recent (a b : payout_calculation) : bool :=
  (pc_calculated_at b <? pc_calculated_at a)
  || ((pc_calculated_at a =? pc_calculated_at b) && (pc_id a <? pc_id b)%N).

(** [ORDER BY calculated_at, id] *)
Definition earlier_calculation (a b : payout_calculation) : bool :=
  (pc_calculated_at a <? pc_calculated_at b)
  || ((pc_calculated_at a =? pc_calculated_at b) && (pc_id a <=? pc_id b)%N).

(** The row number of a calculation among those of its trip. *)
Definition recency_rank (base : list payout_calculation) (c : payout_calculation) : nat :=
  S (length (filter (fun c' => pc_trip_session_id c' = pc_trip_session_id c
                               /\ more_recent c' c = true) base)).

Definition in_report_scope (db : payout_store) (campaign_id organization_id : option uuid)
    (trip_ids : option (list uuid)) (c : payout_calculation) : bool :=
  match campaign_id with Some i => bool_decide (pc_campaign_id c = i) | None => true end
  && match organization_id with
     | Some o => existsb (fun k => bool_decide (camp_id k = pc_campaign_id c)
                                   && bool_decide (camp_organization_id k = o)) (st_campaigns db)
     | None => true
     end
  && match trip_ids with Some l => bool_decide (pc_trip_session_id c ∈ l) | None => true end.

Definition latest_payout_calculation_ids (db : payout_store) (campaign_id organization_id : option uuid)
    (trip_ids : option (list uuid)) : list uuid :=
  let base := List.filter (in_report_scope db campaign_id organization_id trip_ids)
                (st_calculations db) in
  pc_id <$> List.filter (fun c => recency_rank base c =? 1)%nat base.

Definition existing_payout_calculation (db : payout_store) (trip : uuid) (formula_version : string)
    (payout_rule_id : uuid) : option payout_calculation :=
  find_row (fun c => bool_decide (pc_trip_session_id c = trip)
                     && bool_decide (pc_formula_version c = formula_version)
                     && bool_decide (pc_payout_rule_id c = payout_rule_id)) (st_calculations db).

Definition newest_calculation (p : payout_calculation -> bool) (db : payout_store)
    : option payout_calculation :=
  head (stable_sort (fun a b => more_recent a b || negb (more_recent b a))
          (List.filter p (st_calculations db))).

Definition existing_payout_calculation_for_trip_formula (db : payout_store) (trip : uuid)
    (formula_version : string) : option payout_calculation :=
  newest_calculation (fun c => bool_decide (pc_trip_session_id c = trip)
                               && bool_decide (pc_formula_version c = formula_version)) db.

Definition existing_payout_calculation_for_trip_any_formula (db : payout_store) (trip : uuid)
    : option payout_calculation :=
  newest_calculation (fun c => bool_decide (pc_trip_session_id c = trip)) db.

(** ** Distance already credited *)

(** A position found in a ledger entry or in an executed correction order. *)
Definition position : Type := gmap Z Z * gmap Z kobo.

(** A recompute-day entry of this calculation carries its re-measured
    position. *)
Definition entry_position (calculation : payout_calculation) (e : ledger_entry)
    : option (Z * position) :=
  let md := le_metadata e in
  match md_breakdown md with
  | Some b =>
      match pos_distance_m_by_day b with
      | Some distance =>
          if md_recompute_day md
             && bool_decide (md_payout_calculation_id md = Some (pc_id calculation))
             && bool_decide (md_formula_version md = Some PAYOUT_V4)
          then Some (le_occurred_at e, (distance, pos_amount_by_day b))
          else None
      | None => None
      end
  | None => None
  end.

Definition take_entry (calculation : payout_calculation) (acc : option Z * position)
    (e : ledger_entry) : option Z * position :=
  match entry_position calculation e with
  | Some (at_, p) =>
      match acc.1 with
      | None => (Some at_, p)
      | Some best_at => if best_at <? at_ then (Some at_, p) else acc
      end
  | None => acc
  end.

Definition executed_position (calculation : payout_calculation) (t : executed_trip)
    : option position :=
  match pos_distance_m_by_day (et_position t) with
  | Some distance =>
      if bool_decide (et_trip_session_id t = pc_trip_session_id calculation)
         && bool_decide (et_payout_calculation_id t = pc_id calculation)
      then Some (distance, pos_amount_by_day (et_position t))
      else None
  | None => None
  end.

Definition take_trip (calculation : payout_calculation) (at_ : Z) (acc : option Z * position)
    (t : executed_trip) : option Z * position :=
  match executed_position calculation t with
  | Some p => (Some at_, p)
  | None => acc
  end.

Definition take_order (calculation : payout_calculation) (acc : option Z * position)
    (o : payout_correction_order) : option Z * position :=
  match co_executed_at o with
  | None => acc
  | Some at_ =>
      match acc.1 with
      | Some best_at =>
          if at_ <=? best_at then acc
          else foldl (take_trip calculation at_) acc (co_executed_trips o)
      | None => foldl (take_trip calculation at_) acc (co_executed_trips o)
      end
  end.

Definition recompute_entries (db : payout_store) (calculation : payout_calculation)
    : list ledger_entry :=
  List.filter (fun e => bool_decide (le_trip_session_id e = Some (pc_trip_session_id calculation))
                        && negb (bool_decide (le_status e = VOIDED))
                        && negb (bool_decide (le_entry_type e = TRIP_PAYOUT))) (st_ledger db).

Definition executed_orders (db : payout_store) (calculation : payout_calculation)
    : list payout_correction_order :=
  List.filter (fun o => bool_decide (co_campaign_id o = pc_campaign_id calculation)
                        && bool_decide (co_status o = EXECUTED)
                        && negb (is_none (co_executed_at o))) (st_orders db).

Definition latest_daily_rate_position (db : payout_store) (calculation : payout_calculation)
    : position :=
  let acc := (None, (pc_distance_m_by_day calculation, pc_amount_by_day calculation)) in
  let acc := foldl (take_entry calculation) acc (recompute_entries db calculation) in
  (foldl (take_order calculation) acc (executed_orders db calculation)).2.

Definition overlaps_day (t : trip_session) (d : Z) : bool :=
  (trip_started_at t <? (lagos_day_utc_range d).2)
  && ((lagos_day_utc_range d).1 <=? trip_last_instant t).

(** The join with [trip_sessions] and [_day_trip_overlap]. *)
Definition trip_overlaps_day (db : payout_store) (trip : uuid) (d : Z) : bool :=
  existsb (fun t => bool_decide (trip_id t = trip) && overlaps_day t d) (st_trips db).

Definition trip_payout_voided (db : payout_store) (trip : uuid) : bool :=
  existsb (fun e => bool_decide (le_trip_session_id e = Some trip)
                    && bool_decide (le_entry_type e = TRIP_PAYOUT)
                    && bool_decide (le_status e = VOIDED)) (st_ledger db).

Definition credits_day (db : payout_store) (driver campaign : uuid) (d : Z) (exclude_trip : uuid)
    (c : payout_calculation) : bool :=
  bool_decide (pc_driver_profile_id c = driver)
  && bool_decide (pc_campaign_id c = campaign)
  && bool_decide (pc_formula_version c = PAYOUT_V4)
  && negb (bool_decide (pc_trip_session_id c = exclude_trip))
  && trip_overlaps_day db (pc_trip_session_id c) d
  && negb (trip_payout_voided db (pc_trip_session_id c)).

(** [{calc.trip_session_id: calc for calc in rows}] *)
Definition latest_by_trip (rows : list payout_calculation) : gmap uuid payout_calculation :=
  foldl (fun m c => <[pc_trip_session_id c := c]> m) ∅ rows.

Definition day_credited_distance_m (db : payout_store) (driver campaign : uuid) (d : Z)
    (exclude_trip : uuid) : Z :=
  let rows := stable_sort earlier_calculation
                (List.filter (credits_day db driver campaign d exclude_trip) (st_calculations db)) in
  sum_by (fun kc => dict_get (latest_daily_rate_position db kc.2).1 d)
    (map_to_list (latest_by_trip rows)).

(** ** Ledger entries *)

Definition ledger_for_calculation (db : payout_store) (calculation_id : uuid) : option ledger_entry :=
  find_row (fun e => bool_decide (le_payout_calculation_id e = Some calculation_id)) (st_ledger db).

Definition trip_payout_entry_for_trip (db : payout_store) (trip : uuid) : option ledger_entry :=
  find_row (fun e => bool_decide (le_trip_session_id e = Some trip)
                     && bool_decide (le_entry_type e = TRIP_PAYOUT)) (st_ledger db).

(** The key of [uq_earnings_ledger_entries_trip_payout_per_trip]. *)
Definition trip_payout_key (e : ledger_entry) : option uuid :=
  if bool_decide (le_entry_type e = TRIP_PAYOUT) then le_trip_session_id e else None.

(** Inserting a row: the CHECK constraint, then the unique indexes in the
    order the table has them. *)
Definition flush_ledger_entry (row : ledger_entry) (db : payout_store) : result payout_store :=
  raise_if (negb (ledger_entry_row_ok row))
    (IntegrityError "ck_earnings_ledger_entries_amount_non_negative") ;;
  raise_if (conflicts le_payout_calculation_id row (st_ledger db))
    (IntegrityError "uq_earnings_ledger_entries_payout_calculation_id") ;;
  raise_if (conflicts trip_payout_key row (st_ledger db))
    (IntegrityError "uq_earnings_ledger_entries_trip_payout_per_trip") ;;
  mret (with_ledger (fun l => l ++ [row]) db).

Definition new_trip_payout (db : payout_store) (calculation : payout_calculation)
    (profile : driver_profile) : ledger_entry :=
  {| le_id := uuid4 (le_id <$> st_ledger db);
     le_payout_calculation_id := Some (pc_id calculation);
     le_driver_profile_id := pc_driver_profile_id calculation;
     le_driver_user_id := dp_user_id profile;
     le_campaign_id := pc_campaign_id calculation;
     le_trip_session_id := Some (pc_trip_session_id calculation);
     le_vehicle_id := Some (pc_vehicle_id calculation);
     le_entry_type := TRIP_PAYOUT;
     le_status := PENDING;
     le_amount := pc_final_payout calculation;
     le_currency := pc_currency calculation;
     le_description := Some "Trip payout"%string;
     le_occurred_at := pc_calculated_at calculation;
     le_release_at := None;
     le_metadata := LedgerMetadata None false (Some (pc_id calculation))
                      (Some (pc_formula_version calculation)) None None None None None |}.

(** [arrived] are the rows other transactions commit between the checks and
    the flush. *)
Definition ensure_ledger_entry (arrived : list ledger_entry) (db : payout_store)
    (calculation : payout_calculation) : result (option ledger_entry * payout_store) :=
  match ledger_for_calculation db (pc_id calculation) with
  | Some existing => mret (Some existing, db)
  | None =>
      if negb (bool_decide (pc_status calculation = CALCULATED))
         || (pc_final_payout calculation <=? 0)
      then mret (None, db)
      else
        match trip_payout_entry_for_trip db (pc_trip_session_id calculation) with
        | Some _ => mret (None, db)
        | None =>
            profile ← require_some
              (find_row (fun p => bool_decide (dp_id p = pc_driver_profile_id calculation))
                 (st_profiles db))
              (AppError "DRIVER_PROFILE_NOT_FOUND" 404);
            let db := with_ledger (fun l => l ++ arrived) db in
            let ledger_entry := new_trip_payout db calculation profile in
            match flush_ledger_entry ledger_entry db with
            | Ok db' => mret (Some ledger_entry, db')
            | Raise exc =>
                if negb (is_expected_uniqueness_conflict exc (Some LEDGER_ENTRY_CONSTRAINTS))
                then Raise exc
                else
                  match ledger_for_calculation db (pc_id calculation) with
                  | Some existing => mret (Some existing, db)
                  | None =>
                      match trip_payout_entry_for_trip db (pc_trip_session_id calculation) with
                      | Some _ => mret (None, db)
                      | None => Raise exc
                      end
                  end
            end
        end
  end.

(** The loop of [repair_missing_ledger_entries]; [arrivals] are the rows
    arriving during each call. *)
Fixpoint repair_loop (calculations : list payout_calculation) (arrivals : list (list ledger_entry))
    (db : payout_store) (repaired : list ledger_entry) : result (list ledger_entry * payout_store) :=
  match calculations with
  | [] => mret (repaired, db)
  | calculation :: rest =>
      r ← ensure_ledger_entry (default [] (head arrivals)) db calculation;
      let '(ledger, db) := r in
      repair_loop rest (tail arrivals) db
        (match ledger with Some e => repaired ++ [e] | None => repaired end)
  end.

Definition missing_ledger (db : payout_store) (trip : uuid) (c : payout_calculation) : bool :=
  bool_decide (pc_trip_session_id c = trip)
  && bool_decide (pc_status c = CALCULATED)
  && (0 <? pc_final_payout c)
  && negb (existsb (fun e => bool_decide (le_payout_calculation_id e = Some (pc_id c))) (st_ledger db)).

Definition repair_missing_ledger_entries (arrivals : list (list ledger_entry)) (db : payout_store)
    (trip : uuid) : result (list ledger_entry * payout_store) :=
  repair_loop (stable_sort earlier_calculation (List.filter (missing_ledger db trip) (st_calculations db)))
    arrivals db [].

(** ** The ledger invariant *)

(** What the table's constraints keep: one entry per calculation, one trip
    payout per trip, no negative amount. *)
Record ledger_ok (l : list ledger_entry) : Prop := {
  one_per_calculation : unique_on le_payout_calculation_id l;
  one_trip_payout : unique_on trip_payout_key l;
  amounts_nonneg : Forall (fun e => ledger_entry_row_ok e = true) l
}.

Lemma flush_ledger_entry_ok row db db' :
  ledger_ok (st_ledger db) -> flush_ledger_entry row db = Ok db' ->
  db' = with_ledger (fun l => l ++ [row]) db /\ ledger_ok (st_ledger db').
Proof.
  intros [H1 H2 H3] Hrun. unfold flush_ledger_entry in Hrun. inv_ok. bool_prop.
  split; [done|]. split.
  - by apply unique_on_snoc.
  - by apply unique_on_snoc.
  - apply Forall_app. split; [done|]. by apply Forall_singleton.
Qed.

(** How a successful call can end. *)
Inductive ensured (arrived : list ledger_entry) (db : payout_store) (c : payout_calculation)
    : option ledger_entry -> payout_store -> Prop :=
| ensured_existing e :
    ledger_for_calculation db (pc_id c) = Some e -> ensured arrived db c (Some e) db
| ensured_nothing_due :
    ledger_for_calculation db (pc_id c) = None ->
    pc_status c ≠ CALCULATED \/ pc_final_payout c <= 0 -> ensured arrived db c None db
| ensured_other_payout e :
    ledger_for_calculation db (pc_id c) = None ->
    trip_payout_entry_for_trip db (pc_trip_session_id c) = Some e ->
    ensured arrived db c None db
| ensured_posted profile db' :
    let mid := with_ledger (fun l => l ++ arrived) db in
    pc_status c = CALCULATED -> 0 < pc_final_payout c ->
    flush_ledger_entry (new_trip_payout mid c profile) mid = Ok db' ->
    ensured arrived db c (Some (new_trip_payout mid c profile)) db'
| ensured_arrived e :
    let mid := with_ledger (fun l => l ++ arrived) db in
    ledger_for_calculation mid (pc_id c) = Some e -> ensured arrived db c (Some e) mid
| ensured_other_arrived e :
    let mid := with_ledger (fun l => l ++ arrived) db in
    ledger_for_calculation mid (pc_id c) = None ->
    trip_payout_entry_for_trip mid (pc_trip_session_id c) = Some e ->
    ensured arrived db c None mid.

Lemma ensure_ledger_entry_cases arrived db c o db' :
  ensure_ledger_entry arrived db c = Ok (o, db') -> ensured arrived db c o db'.
Proof.
  unfold ensure_ledger_entry. intros Hrun.
  destruct (ledger_for_calculation db (pc_id c)) as [e|] eqn:He.
  { injection Hrun as <- <-. by apply ensured_existing. }
  destruct (negb _ || _) eqn:Hdue.
  { injection Hrun as <- <-. apply ensured_nothing_due; [done|].
    apply orb_true_iff in Hdue as [Hs|Hp]; [left|right; by apply Z.leb_le].
    apply negb_true_iff in Hs. by apply bool_decide_eq_false in Hs. }
  destruct (trip_payout_entry_for_trip db _) as [e|] eqn:Ho.
  { injection Hrun as <- <-. by eapply ensured_other_payout. }
  bool_prop. ok_step Hrun as profile _. cbn zeta in Hrun.
  destruct (flush_ledger_entry _ _) as [db1|exc] eqn:Hflush.
  { injection Hrun as <- <-. by apply ensured_posted. }
  destruct (negb _); [done|].
  destruct (ledger_for_calculation (with_ledger _ db) _) as [e|] eqn:He'.
  { injection Hrun as <- <-. by apply ensured_arrived. }
  destruct (trip_payout_entry_for_trip (with_ledger _ db) _) as [e|] eqn:Ho'; [|done].
  injection Hrun as <- <-. by eapply ensured_other_arrived.
Qed.

Lemma find_row_snoc {A} (p : A -> bool) l x :
  find_row p l = None -> p x = true -> find_row p (l ++ [x]) = Some x.
Proof.
  unfold find_row. induction l as [|y l IH]; simpl; intros Hl Hx; [by rewrite Hx|].
  destruct (p y); [done|]. auto.
Qed.

Lemma ledger_for_calculation_Some db i e :
  ledger_for_calculation db i = Some e ->
  e ∈ st_ledger db /\ le_payout_calculation_id e = Some i.
Proof. intros [? H]%find_row_Some. by apply bool_decide_eq_true in H. Qed.

Lemma trip_payout_entry_Some db t e :
  trip_payout_entry_for_trip db t = Some e ->
  e ∈ st_ledger db /\ trip_payout_key e = Some t.
Proof.
  intros [? H]%find_row_Some. bool_prop. split; [done|]. unfold trip_payout_key.
  by rewrite bool_decide_eq_true_2.
Qed.

Lemma ledger_for_calculation_None db i :
  conflicts le_payout_calculation_id
    (EarningsLedgerEntry 0 (Some i) 0 0 0 None None TRIP_PAYOUT PENDING 0 "" None 0 None no_metadata)
    (st_ledger db) = false ->
  ledger_for_calculation db i = None.
Proof.
  unfold conflicts. cbn [le_payout_calculation_id]. intros Hc%bool_decide_eq_false.
  destruct (ledger_for_calculation db i) as [e|] eqn:He; [|done].
  apply ledger_for_calculation_Some in He as [Hin Hk]. exfalso. apply Hc.
  apply list_elem_of_fmap. eauto.
Qed.

(** The entry posted by the call is the one a later call finds. *)
Lemma posted_entry_found mid c profile db' :
  flush_ledger_entry (new_trip_payout mid c profile) mid = Ok db' ->
  ledger_for_calculation db' (pc_id c) = Some (new_trip_payout mid c profile)
  /\ st_ledger db' = st_ledger mid ++ [new_trip_payout mid c profile].
Proof.
  intros Hrun. unfold flush_ledger_entry in Hrun. inv_ok. split; [|done].
  unfold ledger_for_calculation. cbn [st_ledger with_ledger].
  apply find_row_snoc; [|by apply bool_decide_eq_true_2].
  change (ledger_for_calculation mid (pc_id c) = None).
  by apply ledger_for_calculation_None.
Qed.

(** Some entry stands for the calculation: its own, or its trip's payout. *)
Definition stood_for (l : list ledger_entry) (c : payout_calculation) : Prop :=
  exists e, e ∈ l /\ (le_payout_calculation_id e = Some (pc_id c)
                      \/ trip_payout_key e = Some (pc_trip_session_id c)).

Definition payable_calculation (c : payout_calculation) : Prop :=
  pc_status c = CALCULATED /\ 0 < pc_final_payout c.

(** The calculation's money is owed: it is payable, and neither it nor its trip has
    an entry yet. *)
Definition owed (l : list ledger_entry) (c : payout_calculation) : Prop :=
  payable_calculation c /\ ~ stood_for l c.

Lemma not_stood_for l c :
  ~ stood_for l c -> forall e, e ∈ l ->
  le_payout_calculation_id e <> Some (pc_id c) /\ trip_payout_key e <> Some (pc_trip_session_id c).
Proof. intros Hn e He. split; intros Hk; apply Hn; exists e; auto. Qed.

Lemma nothing_found db c :
  ~ stood_for (st_ledger db) c ->
  ledger_for_calculation db (pc_id c) = None /\ trip_payout_entry_for_trip db (pc_trip_session_id c) = None.
Proof.
  intros Hn. split.
  - destruct (ledger_for_calculation db (pc_id c)) as [e|] eqn:He; [|done].
    apply ledger_for_calculation_Some in He as [Hin Hk]. by destruct (not_stood_for _ _ Hn e Hin).
  - destruct (trip_payout_entry_for_trip db _) as [e|] eqn:He; [|done].
    apply trip_payout_entry_Some in He as [Hin Hk]. by destruct (not_stood_for _ _ Hn e Hin).
Qed.

(** The entry of an owed calculation is free to insert. *)
Lemma new_trip_payout_flushed mid c profile :
  0 < pc_final_payout c -> ~ stood_for (st_ledger mid) c ->
  flush_ledger_entry (new_trip_payout mid c profile) mid
    = Ok (with_ledger (fun l => l ++ [new_trip_payout mid c profile]) mid).
Proof.
  intros Hp Hn. unfold flush_ledger_entry, conflicts, trip_payout_key at 1.
  cbn [le_payout_calculation_id le_entry_type le_trip_session_id new_trip_payout].
  assert (Hrow : ledger_entry_row_ok (new_trip_payout mid c profile) = true) by (apply Z.leb_le; cbn; lia).
  rewrite Hrow, (bool_decide_eq_true_2 (TRIP_PAYOUT = TRIP_PAYOUT)) by done.
  rewrite !bool_decide_eq_false_2; [done| |]; intros (e & He & Hin)%list_elem_of_fmap;
    by destruct (not_stood_for _ _ Hn e Hin).
Qed.

(** Nobody inserts a second entry of one calculation. *)
Lemma new_trip_payout_taken mid c profile e :
  0 < pc_final_payout c -> e ∈ st_ledger mid -> le_payout_calculation_id e = Some (pc_id c) ->
  flush_ledger_entry (new_trip_payout mid c profile) mid
    = Raise (IntegrityError "uq_earnings_ledger_entries_payout_calculation_id").
Proof.
  intros Hp Hin Hk. unfold flush_ledger_entry.
  assert (Hrow : ledger_entry_row_ok (new_trip_payout mid c profile) = true) by (apply Z.leb_le; cbn; lia).
  assert (Hc : conflicts le_payout_calculation_id (new_trip_payout mid c profile) (st_ledger mid) = true).
  { apply bool_decide_eq_true, list_elem_of_fmap. by exists e. }
  by rewrite Hrow, Hc.
Qed.

(** A call that owes nothing. *)
Lemma nothing_owed arrived db c :
  ~ owed (st_ledger db) c -> ensure_ledger_entry arrived db c = Ok (ledger_for_calculation db (pc_id c), db).
Proof.
  intros Hn. unfold ensure_ledger_entry. destruct (ledger_for_calculation db (pc_id c)) as [e|] eqn:He; [done|].
  destruct (negb _ || _) eqn:Hdue; [done|]. bool_prop.
  destruct (trip_payout_entry_for_trip db _) as [e|] eqn:Ho; [done|]. exfalso. apply Hn. split; [by split|].
  intros (e & Hin & [Hk|Hk]).
  - apply (find_row_None _ _ e) in He; [|done]. by apply bool_decide_eq_false in He.
  - apply (find_row_None _ _ e) in Ho; [|done]. unfold trip_payout_key in Hk.
    destruct (bool_decide_reflect (le_entry_type e = TRIP_PAYOUT)) as [Ht|]; [|discriminate Hk].
    apply andb_false_iff in Ho as [Ho|Ho]; by apply bool_decide_eq_false in Ho.
Qed.

(** C20: Posting a calculation, whatever other transactions commit meanwhile.  A
    calculation that is not payable, or whose trip or own entry is already
    there, posts nothing and answers its own entry, if it has one.  A payable
    one that nothing stands for, here or in what arrives meanwhile, gets exactly
    one new entry, pending, of the calculation's final payout for its driver,
    and the ledger keeps one entry per calculation and one payout per trip; if
    another transaction posts the calculation first, that entry is the answer
    and nothing is added. *)
Theorem posting_is_exact arrived db c profile :
  let mid := with_ledger (fun l => l ++ arrived) db in
  ledger_ok (st_ledger mid) ->
  find_row (fun p => bool_decide (dp_id p = pc_driver_profile_id c)) (st_profiles db) = Some profile ->
  (~ owed (st_ledger db) c -> ensure_ledger_entry arrived db c = Ok (ledger_for_calculation db (pc_id c), db))
  /\ (owed (st_ledger db) c -> ~ stood_for arrived c ->
      exists e, ensure_ledger_entry arrived db c = Ok (Some e, with_ledger (fun l => l ++ arrived ++ [e]) db)
      /\ le_payout_calculation_id e = Some (pc_id c) /\ trip_payout_key e = Some (pc_trip_session_id c)
      /\ le_amount e = pc_final_payout c /\ le_currency e = pc_currency c /\ le_status e = PENDING
      /\ le_driver_profile_id e = dp_id profile /\ le_driver_user_id e = dp_user_id profile
      /\ ~ (le_id e ∈ (le_id <$> st_ledger mid)) /\ ledger_ok (st_ledger mid ++ [e]))
  /\ (owed (st_ledger db) c -> forall e, e ∈ arrived -> le_payout_calculation_id e = Some (pc_id c) ->
      ensure_ledger_entry arrived db c = Ok (Some e, mid)).
Proof.
  intros mid Hok Hprofile. split; [apply nothing_owed|]. split.
  - intros [[Hs Hp] Hn] Harr. assert (Hmid : ~ stood_for (st_ledger mid) c).
    { intros (e & [Hin|Hin]%elem_of_app & Hk); [apply Hn|apply Harr]; by exists e. }
    pose proof (new_trip_payout_flushed mid c profile Hp Hmid) as Hf. set (e := new_trip_payout mid c profile) in *.
    exists e. split.
    + destruct (nothing_found db c Hn) as [H1 H2]. unfold ensure_ledger_entry.
      rewrite H1, H2, Hprofile, bool_decide_eq_true_2, (proj2 (Z.leb_gt _ _)) by done. cbn [negb orb require_some mbind result_bind].
      fold mid. fold e. rewrite Hf. unfold mid, with_ledger. cbn [st_ledger]. by rewrite <- app_assoc.
    + pose proof (flush_ledger_entry_ok _ _ _ Hok Hf) as [_ Hok']. apply find_row_Some in Hprofile as [_ Hid].
      apply bool_decide_eq_true in Hid. repeat (split; [done|]). split; [apply uuid4_fresh|exact Hok'].
  - intros [[Hs Hp] Hn] e Hin Hk. destruct (nothing_found db c Hn) as [H1 H2]. unfold ensure_ledger_entry.
    rewrite H1, H2, Hprofile, bool_decide_eq_true_2, (proj2 (Z.leb_gt _ _)) by done. cbn [negb orb require_some mbind result_bind].
    fold mid. assert (He : e ∈ st_ledger mid) by (apply elem_of_app; by right).
    assert (Hfind : ledger_for_calculation mid (pc_id c) = Some e).
    { destruct (ledger_for_calculation mid (pc_id c)) as [e'|] eqn:He'.
      - apply ledger_for_calculation_Some in He' as [Hin' Hk']. f_equal.
        by apply (unique_on_inj _ _ _ _ _ (one_per_calculation _ Hok) Hin' He Hk' Hk).
      - apply (find_row_None _ _ e) in He'; [|done]. by apply bool_decide_eq_false in He'. }
    rewrite (new_trip_payout_taken mid c profile e) by done. cbn match.
    change (is_expected_uniqueness_conflict _ _) with true. cbn [negb]. by rewrite Hfind.
Qed.

Lemma ensure_ledger_entry_again arrived db c o db' :
  ensure_ledger_entry arrived db c = Ok (o, db') -> ensure_ledger_entry [] db' c = Ok (o, db').
Proof.
  intros Hrun. apply ensure_ledger_entry_cases in Hrun.
  destruct Hrun as [e He|Hn Hdue|e Hn Ho|profile db' mid Hs Hp Hf|e mid He|e mid Hn Ho];
    unfold ensure_ledger_entry.
  - by rewrite He.
  - rewrite Hn. destruct Hdue as [Hs|Hp]; [by rewrite bool_decide_eq_false_2|].
    by rewrite (proj2 (Z.leb_le _ _) Hp), orb_true_r.
  - rewrite Hn, Ho. by destruct (_ || _).
  - destruct (posted_entry_found _ _ _ _ Hf) as [Hfind _]. by rewrite Hfind.
  - by rewrite He.
  - rewrite Hn, Ho. by destruct (_ || _).
Qed.

(** posting a calculation only ever appends to the ledger; the entry it
    answers belongs to the calculation; a payable calculation it posts nothing
    for belongs to a trip that already has its payout; and calling it again
    answers the same and changes nothing. *)
Theorem ensure_ledger_entry_idempotent arrived db c o db' :
  ensure_ledger_entry arrived db c = Ok (o, db') ->
  (exists new, st_ledger db' = st_ledger db ++ new)
  /\ (forall e, o = Some e -> e ∈ st_ledger db' /\ le_payout_calculation_id e = Some (pc_id c))
  /\ (o = None -> pc_status c = CALCULATED -> 0 < pc_final_payout c ->
      exists e, e ∈ st_ledger db' /\ trip_payout_key e = Some (pc_trip_session_id c))
  /\ ensure_ledger_entry [] db' c = Ok (o, db').
Proof.
  intros Hrun. pose proof (ensure_ledger_entry_again _ _ _ _ _ Hrun) as Hagain.
  apply ensure_ledger_entry_cases in Hrun.
  destruct Hrun as [e He|Hn Hdue|e Hn Ho|profile db' mid Hs Hp Hf|e mid He|e mid Hn Ho].
  - split; [exists []; by rewrite app_nil_r|]. split; [|done].
    intros e' [= <-]. by apply ledger_for_calculation_Some.
  - split; [exists []; by rewrite app_nil_r|]. split; [done|]. split; [|done].
    intros _ ? ?. destruct Hdue; [done|lia].
  - split; [exists []; by rewrite app_nil_r|]. split; [done|]. split; [|done].
    intros _ _ _. exists e. by apply trip_payout_entry_Some.
  - destruct (posted_entry_found _ _ _ _ Hf) as [Hfind Hl].
    split; [exists (arrived ++ [new_trip_payout mid c profile]); by rewrite Hl, app_assoc|].
    split; [|done]. intros e' [= <-]. by apply ledger_for_calculation_Some.
  - split; [by exists arrived|]. split; [|done].
    intros e' [= <-]. by apply ledger_for_calculation_Some.
  - split; [by exists arrived|]. split; [done|]. split; [|done].
    intros _ _ _. exists e. by apply trip_payout_entry_Some.
Qed.

(** ** The unexpected conflict *)

(** C32: when another transaction posts the trip's payout between the check
    and the flush, the uniqueness conflict is re-raised: the constraint is in
    [LEDGER_ENTRY_CONSTRAINTS] but not among the expected ones, so the branch
    that answers "already paid" is never taken for it. *)
Theorem trip_payout_conflict_is_reraised arrived db c profile other :
  pc_status c = CALCULATED -> 0 < pc_final_payout c ->
  ledger_for_calculation db (pc_id c) = None ->
  trip_payout_entry_for_trip db (pc_trip_session_id c) = None ->
  find_row (fun p => bool_decide (dp_id p = pc_driver_profile_id c)) (st_profiles db) = Some profile ->
  (forall e, e ∈ arrived -> le_payout_calculation_id e ≠ Some (pc_id c)) ->
  other ∈ arrived -> trip_payout_key other = Some (pc_trip_session_id c) ->
  ensure_ledger_entry arrived db c
    = Raise (IntegrityError "uq_earnings_ledger_entries_trip_payout_per_trip").
Proof.
  intros Hs Hp Hn Ho Hprofile Harr Hother Hkey.
  unfold ensure_ledger_entry. rewrite Hn, Ho, Hprofile, bool_decide_eq_true_2 by done.
  rewrite (proj2 (Z.leb_gt _ _)) by lia. cbn [negb orb require_some mbind result_bind].
  set (mid := with_ledger (fun l => l ++ arrived) db). unfold flush_ledger_entry.
  assert (Hrow : ledger_entry_row_ok (new_trip_payout mid c profile) = true)
    by (apply Z.leb_le; simpl; lia).
  assert (Hcalc : conflicts le_payout_calculation_id (new_trip_payout mid c profile) (st_ledger mid)
                  = false).
  { unfold conflicts. cbn [new_trip_payout le_payout_calculation_id].
    apply bool_decide_eq_false. intros (e & He & Hin)%list_elem_of_fmap.
    apply elem_of_app in Hin as [Hin|Hin]; [|by apply (Harr e)].
    pose proof (find_row_None _ _ e Hn Hin) as Hne. by apply bool_decide_eq_false in Hne. }
  assert (Htrip : conflicts trip_payout_key (new_trip_payout mid c profile) (st_ledger mid) = true).
  { unfold conflicts, trip_payout_key at 1. cbn [new_trip_payout le_entry_type le_trip_session_id].
    rewrite bool_decide_eq_true_2 by done. apply bool_decide_eq_true.
    apply list_elem_of_fmap. exists other. split; [done|]. apply elem_of_app. by right. }
  rewrite Hrow, Hcalc, Htrip. reflexivity.
Qed.

(** ** Repair *)

Lemma ensured_step arrived db c o db1 :
  ensured arrived db c o db1 ->
  (exists new, st_ledger db1 = st_ledger db ++ new)
    /\ (payable_calculation c -> stood_for (st_ledger db1) c)
    /\ (forall e, o = Some e -> e ∈ st_ledger db1).
Proof.
  intros Hcases. destruct Hcases as [e He|Hn Hdue|e Hn Ho|profile db2 mid Hs Hp Hf|e mid He|e mid Hn Ho].
  - apply ledger_for_calculation_Some in He as [? ?].
    split; [exists []; by rewrite app_nil_r|]. split; [intros _; exists e; tauto|]. by intros ? [= <-].
  - split; [exists []; by rewrite app_nil_r|]. split; [|done].
    intros [? ?]. destruct Hdue; [done|lia].
  - apply trip_payout_entry_Some in Ho as [? ?].
    split; [exists []; by rewrite app_nil_r|]. split; [intros _; exists e; tauto|done].
  - destruct (posted_entry_found _ _ _ _ Hf) as [Hfind Hl].
    apply ledger_for_calculation_Some in Hfind as [? ?].
    split; [eexists; rewrite Hl; cbn; by rewrite <- app_assoc|].
    split; [intros _; eexists; split; [done|by left]|]. by intros ? [= <-].
  - apply ledger_for_calculation_Some in He as [? ?].
    split; [by eexists|]. split; [intros _; exists e; tauto|]. by intros ? [= <-].
  - apply trip_payout_entry_Some in Ho as [? ?].
    split; [by eexists|]. split; [intros _; exists e; tauto|done].
Qed.

Lemma repair_loop_spec cs arrivals db acc repaired db' :
  repair_loop cs arrivals db acc = Ok (repaired, db') ->
  (exists new, st_ledger db' = st_ledger db ++ new)
  /\ (forall c, c ∈ cs -> payable_calculation c -> stood_for (st_ledger db') c)
  /\ (forall e, e ∈ repaired -> e ∈ acc \/ e ∈ st_ledger db').
Proof.
  revert arrivals db acc. induction cs as [|c cs IH]; intros arrivals db acc Hrun.
  { injection Hrun as <- <-. split; [exists []; by rewrite app_nil_r|].
    split; [set_solver|]. by left. }
  cbn [repair_loop] in Hrun. ok_step Hrun as [o db1] Hens.
  apply ensure_ledger_entry_cases in Hens as Hcases.
  pose proof (ensured_step _ _ _ _ _ Hcases) as Hstep.
  destruct Hstep as ([new1 Hnew1] & Hc & Ho).
  apply IH in Hrun as ([new2 Hnew2] & Hcs & Hacc).
  assert (Hsub : forall e, e ∈ st_ledger db1 -> e ∈ st_ledger db')
    by (intros e ?; rewrite Hnew2; apply elem_of_app; by left).
  split; [exists (new1 ++ new2); by rewrite Hnew2, Hnew1, <- app_assoc|]. split.
  - intros c' [-> | Hc']%elem_of_cons Hpay; [|by apply Hcs].
    destruct (Hc Hpay) as (e & ? & ?). exists e. split; [by apply Hsub|done].
  - intros e He. destruct (Hacc e He) as [Hin|]; [|by right].
    destruct o as [e'|]; [|by left].
    apply elem_of_app in Hin as [? | ->%list_elem_of_singleton]; [by left|right; auto].
Qed.

(** after a repair, every calculation of the trip that was owed and had
    no ledger entry is stood for by an entry, its own or the trip's single
    payout; nothing already in the ledger is touched. *)
Theorem repair_leaves_nothing_owed arrivals db trip repaired db' :
  repair_missing_ledger_entries arrivals db trip = Ok (repaired, db') ->
  (exists new, st_ledger db' = st_ledger db ++ new)
  /\ (forall c, c ∈ st_calculations db -> pc_trip_session_id c = trip -> payable_calculation c ->
        stood_for (st_ledger db') c)
  /\ (forall e, e ∈ repaired -> e ∈ st_ledger db').
Proof.
  intros Hrun. apply repair_loop_spec in Hrun as ([new Hnew] & Hcs & Hrep).
  split; [by exists new|]. split; [|intros e He; apply Hrep in He as []; set_solver].
  intros c Hc Htrip Hpay. destruct (missing_ledger db trip c) eqn:Hm.
  - apply Hcs; [|done]. rewrite stable_sort_perm.
    apply list_elem_of_In, filter_In. by rewrite <- list_elem_of_In.
  - unfold missing_ledger in Hm. destruct Hpay as [Hs Hp].
    rewrite !bool_decide_eq_true_2, (proj2 (Z.ltb_lt _ _) Hp) in Hm by done.
    cbn [andb] in Hm. apply negb_false_iff, existsb_exists in Hm as (e & He & Hid).
    apply bool_decide_eq_true in Hid. exists e. split; [|by left].
    rewrite Hnew. apply elem_of_app. left. by apply list_elem_of_In.
Qed.

(** ** The newest position *)

Definition order_candidates (c : payout_calculation) (o : payout_correction_order)
    : list (Z * position) :=
  match co_executed_at o with
  | Some at_ => (fun p => (at_, p)) <$> omap (executed_position c) (co_executed_trips o)
  | None => []
  end.

(** Every re-measured position recorded for a calculation, with its time. *)
Definition position_candidates (db : payout_store) (c : payout_calculation) : list (Z * position) :=
  omap (entry_position c) (recompute_entries db c)
  ++ (executed_orders db c ≫= order_candidates c).

(** The accumulator holds a newest candidate among the ones seen. *)
Definition newest_of (own : position) (seen : list (Z * position)) (acc : option Z * position) : Prop :=
  match acc.1 with
  | None => seen = [] /\ acc.2 = own
  | Some at_ => (at_, acc.2) ∈ seen /\ forall a p, (a, p) ∈ seen -> a <= at_
  end.

Definition not_after (at_ : Z) (acc : option Z * position) : Prop :=
  forall b, acc.1 = Some b -> b <= at_.

Lemma newest_of_take own seen acc at_ p :
  newest_of own seen acc -> not_after at_ acc -> newest_of own (seen ++ [(at_, p)]) (Some at_, p).
Proof.
  intros Hn Hle. split; [set_solver|]. intros a q [Hin|Hin]%elem_of_app.
  - destruct acc as [[b|] r]; cbn in *.
    + destruct Hn as [_ Hmax]. specialize (Hmax _ _ Hin). specialize (Hle b eq_refl). lia.
    + destruct Hn as [-> _]. set_solver.
  - apply list_elem_of_singleton in Hin as [= -> ->]. lia.
Qed.

Lemma newest_of_older own seen acc more b :
  newest_of own seen acc -> acc.1 = Some b -> (forall a p, (a, p) ∈ more -> a <= b) ->
  newest_of own (seen ++ more) acc.
Proof.
  destruct acc as [o r]. cbn. intros Hn -> Hmore. destruct Hn as [Hin Hmax].
  split; [set_solver|]. intros a p [?|?]%elem_of_app; eauto.
Qed.

Lemma take_entries_newest own c es seen acc :
  newest_of own seen acc ->
  newest_of own (seen ++ omap (entry_position c) es) (foldl (take_entry c) acc es).
Proof.
  revert seen acc. induction es as [|e es IH]; intros seen acc Hn; cbn; [by rewrite app_nil_r|].
  unfold take_entry at 2. destruct (entry_position c e) as [[at_ p]|]; [|by apply IH].
  rewrite (cons_middle (at_, p) seen), app_assoc. apply IH.
  destruct acc as [[b|] r]; cbn [fst].
  - destruct (Z.ltb_spec b at_).
    + eapply newest_of_take; [done|]. intros ? [= <-]. lia.
    + eapply newest_of_older; [done|done|]. intros a q [= -> ->]%list_elem_of_singleton. lia.
  - eapply newest_of_take; done.
Qed.

Lemma take_trips_newest own c at_ ts seen acc :
  newest_of own seen acc -> not_after at_ acc ->
  newest_of own (seen ++ ((fun p => (at_, p)) <$> omap (executed_position c) ts))
    (foldl (take_trip c at_) acc ts).
Proof.
  revert seen acc. induction ts as [|t ts IH]; intros seen acc Hn Hle; cbn; [by rewrite app_nil_r|].
  unfold take_trip at 2. destruct (executed_position c t) as [p|]; [|by apply IH].
  cbn. rewrite (cons_middle (at_, p) seen), app_assoc. apply IH.
  - by eapply newest_of_take.
  - intros b [= <-]. lia.
Qed.

Lemma take_orders_newest own c os seen acc :
  newest_of own seen acc ->
  newest_of own (seen ++ (os ≫= order_candidates c)) (foldl (take_order c) acc os).
Proof.
  revert seen acc. induction os as [|o os IH]; intros seen acc Hn; cbn; [by rewrite app_nil_r|].
  rewrite app_assoc. apply IH. unfold take_order, order_candidates.
  destruct (co_executed_at o) as [at_|]; [|by rewrite app_nil_r].
  destruct acc as [[b|] r]; cbn [fst].
  - destruct (Z.leb_spec at_ b).
    + eapply newest_of_older; [done|done|]. intros a q (x & [= -> ->] & _)%list_elem_of_fmap. done.
    + apply take_trips_newest; [done|]. intros ? [= <-]. lia.
  - apply take_trips_newest; done.
Qed.

Lemma latest_daily_rate_position_invariant db c :
  exists o, newest_of (pc_distance_m_by_day c, pc_amount_by_day c) (position_candidates db c)
              (o, latest_daily_rate_position db c).
Proof.
  unfold latest_daily_rate_position. cbn zeta.
  destruct (foldl (take_order c) _ _) as [o p] eqn:Hf. exists o. cbn [snd]. rewrite <- Hf.
  apply take_orders_newest. apply (take_entries_newest _ c _ []). done.
Qed.

Lemma latest_daily_rate_position_newest_nil db c :
  position_candidates db c = [] ->
  latest_daily_rate_position db c = (pc_distance_m_by_day c, pc_amount_by_day c).
Proof.
  intros Hnil. destruct (latest_daily_rate_position_invariant db c) as [[o|] Hn];
    rewrite Hnil in Hn; unfold newest_of in Hn; cbn in Hn; [set_solver|tauto].
Qed.

(** the position used for a calculation is the newest recorded one: the
    write-once maps when nothing re-measured it, otherwise a recorded
    recompute-day breakdown or executed-order position that no other recorded
    position is later than. *)
Theorem latest_daily_rate_position_newest db c :
  (position_candidates db c = [] ->
     latest_daily_rate_position db c = (pc_distance_m_by_day c, pc_amount_by_day c))
  /\ (position_candidates db c <> [] ->
     exists at_, (at_, latest_daily_rate_position db c) ∈ position_candidates db c
       /\ forall a p, (a, p) ∈ position_candidates db c -> a <= at_).
Proof.
  split; [apply latest_daily_rate_position_newest_nil|]. intros Hne.
  destruct (latest_daily_rate_position_invariant db c) as [[at_|] Hn];
    unfold newest_of in Hn; cbn in Hn; [|tauto]. exists at_. exact Hn.
Qed.

(** whatever the report's scope, a calculation is listed exactly when it
    is in scope and no in-scope calculation of its trip is more recent
    (latest first, lowest id on a tie). *)
Theorem latest_payout_calculation_ids_spec db campaign org trips i :
  i ∈ latest_payout_calculation_ids db campaign org trips <->
  exists c, pc_id c = i /\ c ∈ st_calculations db
    /\ in_report_scope db campaign org trips c = true
    /\ forall c', c' ∈ st_calculations db -> in_report_scope db campaign org trips c' = true ->
         pc_trip_session_id c' = pc_trip_session_id c -> more_recent c' c = false.
Proof.
  unfold latest_payout_calculation_ids. cbn zeta. rewrite list_elem_of_fmap. split.
  - intros (c & -> & Hc). apply list_elem_of_In, filter_In in Hc as [Hc Hr].
    apply filter_In in Hc as [Hc Hs]. apply list_elem_of_In in Hc.
    exists c. split; [done|]. split; [done|]. split; [done|]. intros c' Hc' Hs' Ht.
    destruct (more_recent c' c) eqn:Hm; [|done]. exfalso.
    apply Nat.eqb_eq in Hr. unfold recency_rank in Hr. injection Hr as Hr.
    apply nil_length_inv in Hr. apply (not_elem_of_nil c'). rewrite <- Hr.
    apply list_elem_of_filter. split; [done|].
    apply list_elem_of_In, filter_In. by rewrite <- list_elem_of_In.
  - intros (c & <- & Hc & Hs & Hbest). exists c. split; [done|].
    apply list_elem_of_In, filter_In. split.
    + apply filter_In. by rewrite <- list_elem_of_In.
    + apply Nat.eqb_eq. unfold recency_rank. f_equal. apply length_zero_iff_nil.
      destruct (filter _ _) as [|c' l] eqn:Hf; [done|]. exfalso.
      assert (Hin : c' ∈ c' :: l) by left. rewrite <- Hf in Hin.
      apply list_elem_of_filter in Hin as [[Ht Hm] Hin].
      apply list_elem_of_In, filter_In in Hin as [Hin Hs']. apply list_elem_of_In in Hin.
      by rewrite Hbest in Hm.
Qed.

(** ** Witnesses *)

Definition sample_calculation : payout_calculation :=
  {| pc_id := 40; pc_trip_session_id := 10; pc_trip_analytics_id := 20;
     pc_impression_estimate_id := 30; pc_payout_rule_id := 7; pc_assignment_id := 2;
     pc_campaign_id := 4; pc_driver_profile_id := 5; pc_vehicle_id := 6;
     pc_formula_version := PAYOUT_V4; pc_status := CALCULATED; pc_currency := "NGN";
     pc_gross_payout := 99997; pc_eligible_seconds := 3600;
     pc_distance_m_by_day := {[0 := 16093]}; pc_amount_by_day := {[0 := 99997]};
     pc_excluded_seconds_by_reason := ∅; pc_inputs_fingerprint := "f";
     pc_final_payout := 99997; pc_calculated_at := 14 * hour |}.

Definition sample_store : payout_store :=
  {| st_trips := [witness_trip]; st_analytics := []; st_estimates := [];
     st_bindings := [witness_binding]; st_campaigns := [CampaignRow 4 90 "NGN"]; st_rules := [];
     st_revisions := []; st_calculations := [sample_calculation]; st_ledger := [];
     st_orders := []; st_lines := []; st_intents := []; st_offsets := [];
     st_profiles := [DriverProfile 5 50]; st_cutoffs := []; st_audit := [] |}.

Definition sample_entry : ledger_entry :=
  new_trip_payout sample_store sample_calculation (DriverProfile 5 50).

(** The trip's payout as another transaction would post it, for a calculation
    of another rule. *)
Definition rival_entry : ledger_entry :=
  EarningsLedgerEntry 99 (Some 41%N) 5 50 4 (Some 10%N) (Some 6%N) TRIP_PAYOUT PENDING 5000 "NGN"
    None (14 * hour) None no_metadata.

Lemma posting_is_exact_witness :
  (exists e, ensure_ledger_entry [] sample_store sample_calculation
     = Ok (Some e, with_ledger (fun l => l ++ [] ++ [e]) sample_store) /\ le_amount e = 99997)
  /\ ensure_ledger_entry [] (with_ledger (fun _ => [sample_entry]) sample_store) sample_calculation
     = Ok (Some sample_entry, with_ledger (fun _ => [sample_entry]) sample_store).
Proof.
  assert (Hnone : ledger_ok []) by (repeat constructor).
  assert (Hone : ledger_ok [sample_entry]) by (split; repeat constructor; by intros ?%elem_of_nil).
  assert (Hn : ~ stood_for [] sample_calculation) by (intros (e & He & _); by apply elem_of_nil in He).
  split.
  - destruct (posting_is_exact [] sample_store sample_calculation (DriverProfile 5 50) Hnone eq_refl) as (_ & Hpost & _).
    destruct Hpost as (e & Hrun & _ & _ & Ha & _); [split; [split; reflexivity|exact Hn]|exact Hn|].
    exists e. split; [exact Hrun|exact Ha].
  - destruct (posting_is_exact [] (with_ledger (fun _ => [sample_entry]) sample_store) sample_calculation
                (DriverProfile 5 50) Hone eq_refl) as (Hnothing & _).
    apply Hnothing. intros [_ Hs]. apply Hs. exists sample_entry. split; [left|]. left. reflexivity.
Defined.

Lemma ensure_ledger_entry_idempotent_witness :
  ensure_ledger_entry [] (with_ledger (fun l => l ++ [sample_entry]) sample_store) sample_calculation
    = Ok (Some sample_entry, with_ledger (fun l => l ++ [sample_entry]) sample_store)
  /\ le_amount sample_entry = 99997.
Proof.
  split; [|reflexivity].
  apply (ensure_ledger_entry_idempotent [] sample_store sample_calculation (Some sample_entry)).
  vm_compute. reflexivity.
Defined.

Lemma trip_payout_conflict_is_reraised_witness :
  ensure_ledger_entry [rival_entry] sample_store sample_calculation
    = Raise (IntegrityError "uq_earnings_ledger_entries_trip_payout_per_trip").
Proof.
  apply (trip_payout_conflict_is_reraised [rival_entry] sample_store sample_calculation
           (DriverProfile 5 50) rival_entry);
    [reflexivity | reflexivity | reflexivity | reflexivity | reflexivity | | left | reflexivity].
  intros e ->%list_elem_of_singleton. discriminate.
Defined.

Lemma repair_leaves_nothing_owed_witness :
  repair_missing_ledger_entries [] sample_store 10
    = Ok ([sample_entry], with_ledger (fun l => l ++ [sample_entry]) sample_store)
  /\ stood_for [sample_entry] sample_calculation.
Proof.
  assert (Hrun : repair_missing_ledger_entries [] sample_store 10
    = Ok ([sample_entry], with_ledger (fun l => l ++ [sample_entry]) sample_store))
    by (vm_compute; reflexivity).
  split; [exact Hrun|].
  destruct (repair_leaves_nothing_owed [] sample_store 10 _ _ Hrun) as (_ & Hall & _).
  apply (Hall sample_calculation); [left | reflexivity | split; reflexivity].
Defined.
