(* ===== verification/Balances.v ===== *)
(** Trip worth, verified cash and recovery offsets
    ([app/services/payout_balances.py]). *)

From S2P Require Import Prelude Eligibility PayoutData DailyRate Ledger.
From stdpp Require Import base list strings gmap sorting.
From Stdlib Require Import ZArith QArith Lia.
#[local] Open Scope Z_scope.

(** ** Positions *)

Record trip_money_position := TripMoneyPosition {
  unpaid_authority : kobo;
  earned_net : kobo;
  released_available : kobo;
  reserved : kobo;
  in_flight : kobo;
  terminal_failed : kobo;
  cash_paid : kobo;
  batch_payable : kobo;
  offsets_funded : kobo;
  offsets_received : kobo;
  offset_at : option Z
}.

Definition no_position : trip_money_position :=
  TripMoneyPosition 0 0 0 0 0 0 0 0 0 0 None.

Definition settled (p : trip_money_position) : kobo :=
  cash_paid p + offsets_funded p - offsets_received p.

Definition debt (p : trip_money_position) : kobo := Z.max (settled p - earned_net p) 0.

Record awards := Awards {
  aw_earned : kobo;
  aw_manual_deductions : kobo;
  aw_released : kobo;
  aw_negatives : kobo
}.

Definition is_released (s : ledger_entry_status) : bool :=
  bool_decide (s = AVAILABLE) || bool_decide (s = PAID).

Definition award_step (a : awards) (e : ledger_entry) : awards :=
  if bool_decide (le_status e = VOIDED) then a
  else if bool_decide (le_entry_type e = REVERSAL) then
    if is_manual_deduction e
    then Awards (aw_earned a) (aw_manual_deductions a + le_amount e) (aw_released a)
           (aw_negatives a + le_amount e)
    else Awards (aw_earned a - le_amount e) (aw_manual_deductions a) (aw_released a)
           (aw_negatives a + le_amount e)
  else
    Awards (aw_earned a + le_amount e) (aw_manual_deductions a)
      (if is_released (le_status e) then aw_released a + le_amount e else aw_released a)
      (aw_negatives a).

(** [(earned, released, negatives)] *)
Definition trip_awards (entries : list ledger_entry) : kobo * kobo * kobo :=
  let a := foldl award_step (Awards 0 0 0 0) entries in
  (Z.max (aw_earned a - aw_manual_deductions a) 0, aw_released a, aw_negatives a).

Definition line_row : Type := payout_batch_line * option payout_submission_intent.

Record line_totals := LineTotals {
  lt_paid : kobo;
  lt_reserved : kobo;
  lt_in_flight : kobo;
  lt_failed : kobo
}.

Definition intent_claimed (i : option payout_submission_intent) : bool :=
  match i with
  | Some i => bool_decide (pi_state i = INTENT_CLAIMED) || bool_decide (pi_state i = INTENT_QUERY_ONLY)
  | None => false
  end.

Definition line_step (predecessor_ids : list uuid) (t : line_totals) (row : line_row) : line_totals :=
  let line := row.1 in
  if bool_decide (pl_status line = LINE_SUCCEEDED) then
    LineTotals (lt_paid t + pl_amount line) (lt_reserved t) (lt_in_flight t) (lt_failed t)
  else if pl_reservation_active line then
    if bool_decide (pl_status line = LINE_SUBMITTED) || intent_claimed row.2 then
      LineTotals (lt_paid t) (lt_reserved t) (lt_in_flight t + pl_amount line) (lt_failed t)
    else LineTotals (lt_paid t) (lt_reserved t + pl_amount line) (lt_in_flight t) (lt_failed t)
  else if bool_decide (pl_status line = LINE_FAILED)
          && negb (bool_decide (pl_id line ∈ predecessor_ids)) then
    LineTotals (lt_paid t) (lt_reserved t) (lt_in_flight t) (lt_failed t + pl_amount line)
  else t.

Definition predecessor_ids (rows : list line_row) : list uuid :=
  omap (fun row => pl_predecessor_line_id row.1) rows.

Definition trip_cash_position (entries : list ledger_entry) (line_rows : list line_row)
    (funded received : kobo) (at_ : option Z) : trip_money_position :=
  let '(earned, released, negatives) := trip_awards entries in
  let t := foldl (line_step (predecessor_ids line_rows)) (LineTotals 0 0 0 0) line_rows in
  let position_settled := lt_paid t + funded - received in
  let released_net := Z.max (Z.min (released - negatives) earned) 0 in
  let remaining := Z.max (released_net - position_settled) 0 in
  let payable := Z.max (remaining - lt_reserved t - lt_in_flight t) 0 in
  {| unpaid_authority := remaining;
     earned_net := earned;
     released_available := payable - Z.min (lt_failed t) payable;
     reserved := lt_reserved t;
     in_flight := lt_in_flight t;
     terminal_failed := Z.min (lt_failed t) payable;
     cash_paid := lt_paid t;
     batch_payable := payable;
     offsets_funded := funded;
     offsets_received := received;
     offset_at := at_ |}.

(** ** Positions from the store *)

(** [(trip_session_id, currency)] *)
Definition scope : Type := option uuid * string.

Definition entry_scope (e : ledger_entry) : scope := (le_trip_session_id e, le_currency e).

(** The keys of a dictionary filled in order: first occurrences. *)
Fixpoint first_keys {K} `{EqDecision K} (l : list K) : list K :=
  match l with
  | [] => []
  | k :: l' => k :: List.filter (fun k' => negb (bool_decide (k' = k))) (first_keys l')
  end.

(** The batch lines of the entries, outer-joined with their intents. *)
Definition joined_lines (db : payout_store) (entries : list ledger_entry) : list line_row :=
  List.filter (fun line => bool_decide (pl_ledger_entry_id line ∈ le_id <$> entries)) (st_lines db)
  ≫= fun line =>
    match List.filter (fun i => bool_decide (pi_payout_batch_line_id i = pl_id line)) (st_intents db) with
    | [] => [(line, None)]
    | intents => (fun i => (line, Some i)) <$> intents
    end.

(** [{entry.id: scope}] *)
Definition trip_by_entry (entries : list ledger_entry) : gmap uuid scope :=
  foldl (fun m e => <[le_id e := entry_scope e]> m) ∅ entries.

(** The offsets with the trip of their funding entry. *)
Definition joined_offsets (db : payout_store) (entries : list ledger_entry)
    : list (payout_recovery_offset * option uuid) :=
  st_offsets db ≫= fun o =>
    (fun e => (o, le_trip_session_id e)) <$>
    List.filter (fun e => bool_decide (le_id e = po_funding_entry_id o)
                          && negb (bool_decide (le_status e = VOIDED))
                          && (bool_decide (Some (po_source_trip_id o) ∈ le_trip_session_id <$> entries)
                              || bool_decide (po_funding_entry_id o ∈ le_id <$> entries)))
      (st_ledger db).

Definition source_scope (r : payout_recovery_offset * option uuid) : scope :=
  (Some (po_source_trip_id r.1), po_currency r.1).
Definition funding_scope (r : payout_recovery_offset * option uuid) : scope :=
  (r.2, po_currency r.1).

Definition sum_scope (key : payout_recovery_offset * option uuid -> scope) (s : scope)
    (rows : list (payout_recovery_offset * option uuid)) : kobo :=
  sum_by (fun r => if bool_decide (key r = s) then po_amount r.1 else 0) rows.

Definition last_offset_at (s : scope) (rows : list (payout_recovery_offset * option uuid)) : option Z :=
  foldl (fun acc r =>
    if bool_decide (funding_scope r = s)
    then Some (Z.max (default (po_created_at r.1) acc) (po_created_at r.1)) else acc) None rows.

Definition scope_position (db : payout_store) (entries : list ledger_entry) (s : scope)
    : trip_money_position :=
  let rows := joined_offsets db entries in
  trip_cash_position
    (List.filter (fun e => bool_decide (entry_scope e = s)) entries)
    (List.filter (fun row => bool_decide (trip_by_entry entries !! pl_ledger_entry_id row.1 = Some s))
       (joined_lines db entries))
    (sum_scope funding_scope s rows) (sum_scope source_scope s rows) (last_offset_at s rows).

Definition trip_money_positions (db : payout_store) (entries : list ledger_entry)
    : list (scope * trip_money_position) :=
  (fun s => (s, scope_position db entries s)) <$> first_keys (entry_scope <$> entries).

Definition trip_money_position_of (db : payout_store) (trip : uuid) (currency : string)
    : trip_money_position :=
  let entries := List.filter (fun e => bool_decide (entry_scope e = (Some trip, currency))) (st_ledger db) in
  default no_position
    (snd <$> find_row (fun p => bool_decide (p.1 = (Some trip, currency))) (trip_money_positions db entries)).

Record driver_money_balance := DriverMoneyBalance {
  db_earned_net : kobo;
  db_released_available : kobo;
  db_reserved : kobo;
  db_in_flight : kobo;
  db_terminal_failed : kobo;
  db_cash_paid : kobo;
  db_batch_payable : kobo
}.

(** [currency] is the normalized code. *)
Definition driver_money_balance_of (db : payout_store) (driver : uuid) (currency : string)
    (campaign_id : option uuid) : driver_money_balance :=
  let entries := List.filter (fun e => bool_decide (le_driver_profile_id e = driver)
      && bool_decide (le_currency e = currency)
      && match campaign_id with Some c => bool_decide (le_campaign_id e = c) | None => true end)
    (st_ledger db) in
  let positions := snd <$> trip_money_positions db entries in
  {| db_earned_net := sum_by earned_net positions;
     db_released_available := sum_by released_available positions;
     db_reserved := sum_by reserved positions;
     db_in_flight := sum_by in_flight positions;
     db_terminal_failed := sum_by terminal_failed positions;
     db_cash_paid := sum_by cash_paid positions;
     db_batch_payable := sum_by batch_payable positions |}.

(** [ORDER BY occurred_at, id] *)
Definition earlier_entry (a b : ledger_entry) : bool :=
  (le_occurred_at a <? le_occurred_at b)
  || ((le_occurred_at a =? le_occurred_at b) && (le_id a <=? le_id b)%N).

Definition driver_entries (db : payout_store) (driver : uuid) (currency : string) : list ledger_entry :=
  stable_sort earlier_entry
    (List.filter (fun e => bool_decide (le_driver_profile_id e = driver)
                           && bool_decide (le_currency e = currency)) (st_ledger db)).

Definition driver_recovery_positions (db : payout_store) (driver : uuid) (currency : string)
    : list (scope * trip_money_position) :=
  trip_money_positions db (driver_entries db driver currency).

(** ** Recovery *)

(** The table's constraints on an offset. *)
Definition payout_recovery_offset_row_ok (o : payout_recovery_offset) : bool :=
  (0 <? po_amount o)
  && negb (Bool.eqb (is_none (po_actor_user_id o)) (is_none (po_automatic_run_id o))).

Definition offset_key (o : payout_recovery_offset) : option (uuid * uuid * uuid) :=
  Some (po_request_id o, po_funding_entry_id o, po_source_trip_id o).

Definition flush_offset (o : payout_recovery_offset) (db : payout_store) : result payout_store :=
  raise_if (negb (payout_recovery_offset_row_ok o)) (IntegrityError "ck_payout_recovery_offsets") ;;
  raise_if (conflicts offset_key o (st_offsets db))
    (IntegrityError "uq_payout_recovery_offsets_request_source") ;;
  mret (with_offsets (fun l => l ++ [o]) db).

Record recovery_request := RecoveryRequest {
  rq_request_id : uuid;
  rq_actor_user_id : option uuid;
  rq_automatic_run_id : option uuid;
  rq_now : Z
}.

Definition recovery_action (rq : recovery_request) (system admin : string) : string :=
  match rq_automatic_run_id rq with Some _ => system | None => admin end.

Definition new_offset (db : payout_store) (entry : ledger_entry) (rq : recovery_request)
    (trip : uuid) (currency : string) (amount : kobo) : payout_recovery_offset :=
  {| po_id := uuid4 (po_id <$> st_offsets db);
     po_source_trip_id := trip;
     po_funding_entry_id := le_id entry;
     po_driver_profile_id := le_driver_profile_id entry;
     po_amount := amount;
     po_currency := currency;
     po_request_id := rq_request_id rq;
     po_actor_user_id := rq_actor_user_id rq;
     po_automatic_run_id := rq_automatic_run_id rq;
     po_created_at := rq_now rq |}.

(** The loop over the driver's positions; a scope without a trip violates the
    offset's NOT NULL source. *)
Fixpoint recovery_loop (entry : ledger_entry) (rq : recovery_request)
    (positions : list (scope * trip_money_position)) (remaining : kobo) (db : payout_store)
    : result (kobo * payout_store) :=
  match positions with
  | [] => mret (remaining, db)
  | ((trip_id, currency), position) :: rest =>
      if bool_decide (trip_id = le_trip_session_id entry) || (debt position <=? 0)
      then recovery_loop entry rq rest remaining db
      else
        let amount := Z.min remaining (debt position) in
        if amount <=? 0 then mret (remaining, db)
        else
          trip ← require_some trip_id (IntegrityError "payout_recovery_offsets.source_trip_id");
          let offset := new_offset db entry rq trip currency amount in
          db ← flush_offset offset db;
          let db := create_audit_event (rq_actor_user_id rq)
            (recovery_action rq "system.payout.recovery_offset" "admin.payout.recovery_offset")
            "payout_recovery_offset" (po_id offset) db in
          recovery_loop entry rq rest (remaining - amount) db
  end.

Definition set_entry_status (i : uuid) (s : ledger_entry_status) (l : list ledger_entry)
    : list ledger_entry :=
  (fun e => if bool_decide (le_id e = i)
            then EarningsLedgerEntry (le_id e) (le_payout_calculation_id e) (le_driver_profile_id e)
                   (le_driver_user_id e) (le_campaign_id e) (le_trip_session_id e) (le_vehicle_id e)
                   (le_entry_type e) s (le_amount e) (le_currency e) (le_description e)
                   (le_occurred_at e) (le_release_at e) (le_metadata e)
            else e) <$> l.

(** The trigger [guard_earnings_ledger_entry_mutation] of the migrations on the
    status of an entry. *)
Definition ledger_transition (before after : ledger_entry_status) : bool :=
  bool_decide (before = after)
  || (bool_decide (before = PENDING) && bool_decide (after = AVAILABLE))
  || (bool_decide (before = AVAILABLE) && (bool_decide (after = PAID) || bool_decide (after = REVERSED))).

(** The flush of an entry's new status: the trigger, then the row. *)
Definition update_entry_status (i : uuid) (s : ledger_entry_status) (db : payout_store) : result payout_store :=
  raise_if (negb (match find_row (fun e => bool_decide (le_id e = i)) (st_ledger db) with
                  | Some e => ledger_transition (le_status e) s
                  | None => true
                  end)) DBAPIError ;;
  mret (with_ledger (set_entry_status i s) db).

Definition allocate_payout_recovery (db : payout_store) (entry : ledger_entry) (payable : kobo)
    (rq : recovery_request) : result (kobo * payout_store) :=
  let positions := driver_recovery_positions db (le_driver_profile_id entry) (le_currency entry) in
  r ← recovery_loop entry rq positions payable db;
  let '(remaining, db) := r in
  if remaining =? 0 then
    db ← update_entry_status (le_id entry) PAID db;
    mret (remaining, create_audit_event (rq_actor_user_id rq)
      (recovery_action rq "system.earnings.offset_settled" "admin.earnings.offset_settled")
      "earnings_ledger_entry" (le_id entry) db)
  else mret (remaining, db).

(** ** Bounds of a position *)

Definition lines_ok (rows : list line_row) : Prop :=
  forall row, row ∈ rows -> payout_batch_line_row_ok row.1 = true.

Lemma line_amount_pos row rows : lines_ok rows -> row ∈ rows -> 0 < pl_amount row.1.
Proof.
  intros Hok Hin. specialize (Hok _ Hin). unfold payout_batch_line_row_ok in Hok. by bool_prop.
Qed.

Record totals_nonneg (t : line_totals) : Prop := {
  tn_paid : 0 <= lt_paid t;
  tn_reserved : 0 <= lt_reserved t;
  tn_in_flight : 0 <= lt_in_flight t;
  tn_failed : 0 <= lt_failed t
}.

Lemma line_totals_nonneg ids rows t :
  lines_ok rows -> totals_nonneg t -> totals_nonneg (foldl (line_step ids) t rows).
Proof.
  revert t. induction rows as [|row rows IH]; intros t Hok Ht; [done|]. cbn.
  apply IH; [intros r Hr; apply Hok; by right|].
  assert (0 < pl_amount row.1) by (eapply line_amount_pos; [done|left]).
  destruct Ht. unfold line_step. repeat case_match; split; cbn; lia.
Qed.

Definition line_totals_of (rows : list line_row) : line_totals :=
  foldl (line_step (predecessor_ids rows)) (LineTotals 0 0 0 0) rows.

Lemma line_totals_of_nonneg rows : lines_ok rows -> totals_nonneg (line_totals_of rows).
Proof. intros Hok. apply line_totals_nonneg; [done|]. split; cbn; lia. Qed.

(** What a position says, in closed form. *)
Lemma trip_cash_position_fields entries rows funded received at_ :
  let p := trip_cash_position entries rows funded received at_ in
  let t := line_totals_of rows in
  earned_net p = (trip_awards entries).1.1
  /\ reserved p = lt_reserved t /\ in_flight p = lt_in_flight t /\ cash_paid p = lt_paid t
  /\ offsets_funded p = funded /\ offsets_received p = received
  /\ unpaid_authority p
     = Z.max (Z.max (Z.min ((trip_awards entries).1.2 - (trip_awards entries).2)
                       (trip_awards entries).1.1) 0 - settled p) 0
  /\ batch_payable p = Z.max (unpaid_authority p - reserved p - in_flight p) 0
  /\ terminal_failed p = Z.min (lt_failed t) (batch_payable p)
  /\ released_available p = batch_payable p - terminal_failed p.
Proof.
  unfold trip_cash_position, line_totals_of, settled.
  destruct (trip_awards entries) as [[earned released] negatives]. cbn. repeat split.
Qed.

(** the money offered for payment is bounded by what the trip's released
    work is worth: when anything is payable, cash and offsets already settled,
    money reserved, money in flight and the payable amount add up exactly to
    the released net, which exceeds neither the trip's worth nor the releases
    less every reversal, and the trip owes nothing back. *)
Theorem trip_cash_position_within_worth entries rows funded received at_ :
  lines_ok rows ->
  let p := trip_cash_position entries rows funded received at_ in
  0 <= settled p ->
  let '(earned, released, negatives) := trip_awards entries in
  0 <= batch_payable p
  /\ released_available p + terminal_failed p = batch_payable p
  /\ 0 <= released_available p /\ 0 <= terminal_failed p
  /\ (0 < batch_payable p ->
      settled p + reserved p + in_flight p + batch_payable p
        = Z.min earned (released - negatives)
      /\ debt p = 0)
  /\ (0 < debt p -> batch_payable p = 0 /\ unpaid_authority p = 0
      /\ settled p = earned + debt p).
Proof.
  intros Hok p Hsettled.
  pose proof (trip_cash_position_fields entries rows funded received at_) as Hf. cbn zeta in Hf.
  fold p in Hf. pose proof (line_totals_of_nonneg rows Hok) as [? ? ? ?].
  destruct Hf as (He & Hr & Hi & Hc & Hfu & Hre & Hu & Hb & Ht & Ha).
  assert (0 <= (trip_awards entries).1.1) by (unfold trip_awards; cbn; lia).
  clearbody p. destruct (trip_awards entries) as [[earned released] negatives].
  cbn [fst snd] in *. unfold debt. lia.
Qed.

(** ** No double payment *)

Definition line_paid_amount (row : line_row) : kobo :=
  if bool_decide (pl_status row.1 = LINE_SUCCEEDED) then pl_amount row.1 else 0.
Definition line_held_amount (row : line_row) : kobo :=
  if bool_decide (pl_status row.1 = LINE_SUCCEEDED) then 0
  else if pl_reservation_active row.1 then pl_amount row.1 else 0.

Lemma line_totals_sums ids rows t :
  lt_paid (foldl (line_step ids) t rows) = lt_paid t + sum_by line_paid_amount rows
  /\ lt_reserved (foldl (line_step ids) t rows) + lt_in_flight (foldl (line_step ids) t rows)
     = lt_reserved t + lt_in_flight t + sum_by line_held_amount rows.
Proof.
  revert t. induction rows as [|row rows IH]; intros t; cbn [foldl].
  { rewrite !sum_by_nil. lia. }
  rewrite !sum_by_cons. destruct (IH (line_step ids t row)) as [-> ->].
  unfold line_step, line_paid_amount, line_held_amount. repeat case_match; cbn; lia.
Qed.

Lemma batch_payable_sums entries rows funded received at_ :
  let '(earned, released, negatives) := trip_awards entries in
  batch_payable (trip_cash_position entries rows funded received at_)
  = Z.max (Z.max (Z.max (Z.min (released - negatives) earned) 0
                  - (sum_by line_paid_amount rows + funded - received)) 0
           - sum_by line_held_amount rows) 0.
Proof.
  unfold trip_cash_position. destruct (trip_awards entries) as [[earned released] negatives].
  cbn. destruct (line_totals_sums (predecessor_ids rows) rows (LineTotals 0 0 0 0)) as [Hp Hh].
  cbn in Hp, Hh. rewrite Hp. lia.
Qed.

(** reserving what is payable leaves nothing payable, and it stays so
    while the line is submitted and after the transfer succeeds, whatever the
    intent's state: a trip is never offered the same money twice. *)
Theorem reserving_payable_exhausts_it entries rows funded received at_ line intent :
  lines_ok rows ->
  pl_amount line = batch_payable (trip_cash_position entries rows funded received at_) ->
  pl_status line = LINE_SUCCEEDED \/ pl_reservation_active line = true ->
  batch_payable (trip_cash_position entries (rows ++ [(line, intent)]) funded received at_) = 0.
Proof.
  intros Hok Hamount Hlive.
  pose proof (batch_payable_sums entries rows funded received at_) as Hb.
  pose proof (batch_payable_sums entries (rows ++ [(line, intent)]) funded received at_) as Hb'.
  destruct (trip_awards entries) as [[earned released] negatives].
  rewrite Hb in Hamount. rewrite Hb'. rewrite !sum_by_app, !sum_by_cons, !sum_by_nil.
  unfold line_paid_amount at 2, line_held_amount at 2. cbn [fst].
  assert (0 <= sum_by line_held_amount rows).
  { apply sum_by_nonneg. intros row Hrow. pose proof (line_amount_pos row rows Hok Hrow).
    unfold line_held_amount. repeat case_match; lia. }
  destruct Hlive as [Hs|Ha]; [rewrite bool_decide_eq_true_2 by done; lia|].
  rewrite Ha. case_match; lia.
Qed.

(** ** Recovery: the loop *)

(** An offset the loop may create. *)
Definition legal_offset (entry : ledger_entry) (rq : recovery_request)
    (positions : list (scope * trip_money_position)) (o : payout_recovery_offset) : Prop :=
  po_funding_entry_id o = le_id entry
  /\ po_driver_profile_id o = le_driver_profile_id entry
  /\ po_request_id o = rq_request_id rq
  /\ 0 < po_amount o
  /\ Some (po_source_trip_id o) ≠ le_trip_session_id entry
  /\ exists p, ((Some (po_source_trip_id o), po_currency o), p) ∈ positions /\ po_amount o <= debt p.

Lemma legal_offset_cons entry rq sp positions o :
  legal_offset entry rq positions o -> legal_offset entry rq (sp :: positions) o.
Proof.
  intros (? & ? & ? & ? & ? & p & ? & ?). repeat (split; [done|]). exists p. split; [by right|done].
Qed.

(** What the offsets of a run took from a scope. *)
Definition taken_from (s : scope) (os : list payout_recovery_offset) : kobo :=
  sum_by (fun o => if bool_decide ((Some (po_source_trip_id o), po_currency o) = s)
                   then po_amount o else 0) os.

Record recovery_run (entry : ledger_entry) (rq : recovery_request)
    (positions : list (scope * trip_money_position)) (remaining : kobo) (db : payout_store)
    (left_over : kobo) (db' : payout_store) (new : list payout_recovery_offset) : Prop := {
  rr_offsets : st_offsets db' = st_offsets db ++ new;
  rr_ledger : st_ledger db' = st_ledger db;
  rr_lines : st_lines db' = st_lines db;
  rr_intents : st_intents db' = st_intents db;
  rr_conserved : left_over + sum_by po_amount new = remaining;
  rr_left : 0 <= left_over;
  rr_legal : forall o, o ∈ new -> legal_offset entry rq positions o;
  rr_settled : 0 < left_over -> forall s p, (s, p) ∈ positions ->
    s.1 ≠ le_trip_session_id entry -> 0 < debt p -> exists o, o ∈ new
      /\ (Some (po_source_trip_id o), po_currency o) = s /\ po_amount o = debt p
}.

Lemma flush_offset_Ok o db db' :
  flush_offset o db = Ok db' ->
  db' = with_offsets (fun l => l ++ [o]) db /\ payout_recovery_offset_row_ok o = true.
Proof. unfold flush_offset. intros Hrun. inv_ok. by bool_prop. Qed.

Lemma recovery_loop_run entry rq positions remaining db left_over db' :
  recovery_loop entry rq positions remaining db = Ok (left_over, db') -> 0 <= remaining ->
  exists new, recovery_run entry rq positions remaining db left_over db' new.
Proof.
  revert remaining db. induction positions as [|[[trip cur] p] positions IH];
    intros remaining db Hrun Hrem; cbn [recovery_loop] in Hrun.
  { injection Hrun as <- <-. exists [].
    split; try done; first [by rewrite app_nil_r | rewrite sum_by_nil; lia | set_solver]. }
  destruct (bool_decide _ || _) eqn:Hskip.
  { apply IH in Hrun as [new [? ? ? ? ? ? Hl Hs]]; [|done]. exists new. split; try done.
    - intros o Ho. by apply legal_offset_cons, Hl.
    - intros Hpos s q Hin Hs1 Hd. apply elem_of_cons in Hin as [[= -> ->]|Hin]; [|by eauto].
      exfalso. apply orb_true_iff in Hskip as [Hb|Hb]; bool_prop; [done|lia]. }
  apply orb_false_iff in Hskip as [Htrip Hdebt]. bool_prop.
  destruct (Z.leb_spec (Z.min remaining (debt p)) 0) as [Hz|Hz].
  { injection Hrun as <- <-. exists [].
    split; try done; first [by rewrite app_nil_r | rewrite sum_by_nil; lia | set_solver | lia]. }
  ok_step Hrun as t Ht. apply require_some_Ok in Ht as ->.
  cbn zeta in Hrun. ok_step Hrun as db1 Hflush.
  apply flush_offset_Ok in Hflush as [-> _].
  set (o := new_offset _ _ _ _ _ _) in *.
  apply IH in Hrun as [new [Ho Hl Hli Hin Hc Hle Hlegal Hset]]; [|lia].
  exists (o :: new). split; try done.
  - rewrite Ho. cbn. by rewrite <- app_assoc.
  - rewrite sum_by_cons. cbn [po_amount o new_offset]. lia.
  - intros o' [->|Ho']%elem_of_cons; [|by apply legal_offset_cons, Hlegal].
    repeat (split; [done|]). exists p. split; [left|cbn; lia].
  - intros Hpos s q [[= -> ->]|Hq]%elem_of_cons Hs1 Hd.
    + exists o. split; [left|]. split; [done|].
      assert (0 <= sum_by po_amount new).
      { apply sum_by_nonneg. intros o' Ho'. destruct (Hlegal _ Ho') as (_ & _ & _ & ? & _). lia. }
      cbn. lia.
    + destruct (Hset Hpos s q Hq Hs1 Hd) as (o' & ? & ?). exists o'. split; [by right|done].
Qed.

(** ** Recovery: what it does to the balances *)

Lemma update_entry_status_Ok i s db db' :
  update_entry_status i s db = Ok db' -> db' = with_ledger (set_entry_status i s) db.
Proof. unfold update_entry_status. intros Hrun. ok_step Hrun. by injection Hrun as <-. Qed.

Lemma allocate_payout_recovery_run db entry payable rq remaining db' :
  allocate_payout_recovery db entry payable rq = Ok (remaining, db') -> 0 <= payable ->
  exists mid new,
    recovery_run entry rq (driver_recovery_positions db (le_driver_profile_id entry) (le_currency entry))
      payable db remaining mid new
    /\ st_offsets db' = st_offsets mid
    /\ (remaining ≠ 0 -> db' = mid)
    /\ (remaining = 0 -> st_ledger db' = set_entry_status (le_id entry) PAID (st_ledger mid)).
Proof.
  unfold allocate_payout_recovery. intros Hrun Hpay.
  ok_step Hrun as [left_over mid] Hloop.
  apply recovery_loop_run in Hloop as [new Hnew]; [|done].
  destruct (Z.eqb_spec left_over 0) as [Hz|Hz]; [ok_step Hrun as paid Hs; apply update_entry_status_Ok in Hs as ->|];
    injection Hrun as <- <-; exists mid, new; done.
Qed.

(** recovering debts from a payment conserves money: what is left and the
    offsets created add up to the payment, each offset is positive, funded by
    the entry, taken from another trip that owes at least that much; the entry
    is marked paid exactly when nothing is left, and otherwise the ledger is
    untouched. *)
Theorem allocate_payout_recovery_conserves db entry payable rq remaining db' :
  0 <= payable ->
  allocate_payout_recovery db entry payable rq = Ok (remaining, db') ->
  0 <= remaining
  /\ exists new, st_offsets db' = st_offsets db ++ new
    /\ remaining + sum_by po_amount new = payable
    /\ (forall o, o ∈ new -> legal_offset entry rq
          (driver_recovery_positions db (le_driver_profile_id entry) (le_currency entry)) o)
    /\ st_ledger db' = (if remaining =? 0 then set_entry_status (le_id entry) PAID (st_ledger db)
                        else st_ledger db).
Proof.
  intros Hpay Hrun. apply allocate_payout_recovery_run in Hrun
    as (mid & new & [Ho Hl _ _ Hc Hle Hlegal _] & Hoff & Hne & He); [|done].
  split; [done|]. exists new. rewrite Hoff. repeat (split; [done|]).
  destruct (Z.eqb_spec remaining 0) as [->|Hz]; [by rewrite He, Hl|by rewrite Hne, Hl].
Qed.

Lemma filter_unique {A} (f : A -> uuid) (q : A -> bool) l x :
  NoDup (f <$> l) -> x ∈ l -> q x = true ->
  List.filter (fun y => bool_decide (f y = f x) && q y) l = [x].
Proof.
  induction l as [|y l IH]; [set_solver|]. cbn. intros [Hy Hnd]%NoDup_cons Hin Hq.
  apply elem_of_cons in Hin as [->|Hin].
  - rewrite bool_decide_eq_true_2, Hq by done. cbn. f_equal.
    apply filter_all_false. intros z Hz. rewrite bool_decide_eq_false_2; [done|].
    intros Hf. apply Hy. rewrite <- Hf. by apply list_elem_of_fmap_2.
  - rewrite bool_decide_eq_false_2; [by apply IH|].
    intros Hf. apply Hy. rewrite Hf. by apply list_elem_of_fmap_2.
Qed.

Lemma elem_of_driver_entries db driver currency e :
  e ∈ driver_entries db driver currency <->
  e ∈ st_ledger db /\ le_driver_profile_id e = driver /\ le_currency e = currency.
Proof.
  unfold driver_entries. rewrite stable_sort_perm, list_elem_of_In, filter_In, <- list_elem_of_In.
  split.
  - intros [? Hb]. by bool_prop.
  - intros (? & <- & <-). split; [done|]. by rewrite !bool_decide_eq_true_2.
Qed.

Section AfterRecovery.
Context (db db' : payout_store) (entry : ledger_entry) (new : list payout_recovery_offset).
Hypothesis Hledger : st_ledger db' = st_ledger db.
Hypothesis Hlines : st_lines db' = st_lines db.
Hypothesis Hintents : st_intents db' = st_intents db.
Hypothesis Hoffsets : st_offsets db' = st_offsets db ++ new.
Hypothesis Hids : NoDup (le_id <$> st_ledger db).
Hypothesis Hentry : entry ∈ st_ledger db.
Hypothesis Hlive : le_status entry ≠ VOIDED.
Hypothesis Hfunds : forall o, o ∈ new -> po_funding_entry_id o = le_id entry.

(** Each new offset is joined with its funding entry alone. *)
Lemma joined_new_offsets entries :
  entry ∈ entries ->
  joined_offsets db' entries
  = joined_offsets db entries ++ ((fun o => (o, le_trip_session_id entry)) <$> new).
Proof.
  intros Hin. unfold joined_offsets. rewrite Hoffsets, Hledger, bind_app. f_equal.
  clear Hoffsets. revert Hfunds. generalize new as os.
  induction os as [|o os IH]; intros Hos; [done|]. cbn.
  rewrite IH by (intros o' Ho'; apply Hos; by right).
  assert (Hf : po_funding_entry_id o = le_id entry) by (apply Hos; left).
  rewrite (List.filter_ext _ (fun e => bool_decide (le_id e = le_id entry)
    && negb (bool_decide (le_status e = VOIDED)))); [|].
  - rewrite (filter_unique le_id (fun e => negb (bool_decide (le_status e = VOIDED)))); [done|..];
      [done|done|by rewrite bool_decide_eq_false_2].
  - intros e. rewrite Hf. rewrite (bool_decide_eq_true_2 (le_id entry ∈ _)), orb_true_r, andb_true_r.
    + done.
    + by apply list_elem_of_fmap_2.
Qed.

(** What the source scope of an offset had received grows by what was taken. *)
Lemma scope_position_after entries s :
  entry ∈ entries -> s ≠ entry_scope entry ->
  (forall o, o ∈ new -> po_currency o = le_currency entry) ->
  earned_net (scope_position db' entries s) = earned_net (scope_position db entries s)
  /\ settled (scope_position db' entries s) = settled (scope_position db entries s) - taken_from s new.
Proof.
  intros Hin Hs Hcur. unfold scope_position.
  assert (Hj : joined_lines db' entries = joined_lines db entries)
    by (unfold joined_lines; by rewrite Hlines, Hintents).
  rewrite Hj, joined_new_offsets by done.
  assert (Hfun : sum_scope funding_scope s ((fun o => (o, le_trip_session_id entry)) <$> new) = 0).
  { unfold sum_scope. clear Hoffsets Hfunds. revert Hcur. generalize new as os.
    induction os as [|o os IH]; intros Hos; [done|]. cbn [fmap list_fmap]. rewrite sum_by_cons.
    rewrite IH by (intros; apply Hos; by right).
    rewrite bool_decide_eq_false_2; [done|]. intros Heq. apply Hs. rewrite <- Heq.
    unfold funding_scope, entry_scope. cbn. f_equal. apply Hos. left. }
  assert (Hsrc : sum_scope source_scope s ((fun o => (o, le_trip_session_id entry)) <$> new)
                 = taken_from s new).
  { unfold sum_scope, taken_from. generalize new as os. induction os as [|o os IH]; [done|].
    cbn [fmap list_fmap]. rewrite !sum_by_cons. by rewrite IH. }
  unfold sum_scope in *. rewrite !sum_by_app, Hfun, Hsrc.
  unfold trip_cash_position, settled. destruct (trip_awards _) as [[? ?] ?]. cbn. lia.
Qed.
End AfterRecovery.

Lemma elem_of_first_keys {K} `{EqDecision K} (k : K) l : k ∈ first_keys l <-> k ∈ l.
Proof.
  induction l as [|k' l IH]; cbn; [done|]. rewrite !elem_of_cons.
  rewrite list_elem_of_In, filter_In, <- list_elem_of_In, IH.
  destruct (decide (k = k')); [tauto|]. rewrite bool_decide_eq_false_2 by done. tauto.
Qed.

Lemma elem_of_positions db entries s p :
  (s, p) ∈ trip_money_positions db entries <->
  s ∈ entry_scope <$> entries /\ p = scope_position db entries s.
Proof.
  unfold trip_money_positions. rewrite list_elem_of_fmap. split.
  - intros (s' & [= -> ->] & Hs). split; [by apply elem_of_first_keys|done].
  - intros [Hs ->]. exists s. split; [done|by apply elem_of_first_keys].
Qed.

Lemma taken_from_nonneg s os : (forall o, o ∈ os -> 0 < po_amount o) -> 0 <= taken_from s os.
Proof.
  intros Hpos. apply sum_by_nonneg. intros o Ho. specialize (Hpos o Ho). case_match; lia.
Qed.

Lemma taken_from_at_least s os o :
  (forall o, o ∈ os -> 0 < po_amount o) -> o ∈ os ->
  (Some (po_source_trip_id o), po_currency o) = s -> po_amount o <= taken_from s os.
Proof.
  intros Hpos Hin Hs. induction os as [|o' os IH]; [set_solver|].
  unfold taken_from in *. rewrite sum_by_cons.
  assert (Hpos' : forall o, o ∈ os -> 0 < po_amount o) by (intros; apply Hpos; by right).
  pose proof (taken_from_nonneg s os Hpos'). unfold taken_from in *.
  assert (0 < po_amount o') by (apply Hpos; left).
  apply elem_of_cons in Hin as [->|Hin].
  - rewrite bool_decide_eq_true_2 by done. lia.
  - specialize (IH Hpos' Hin). case_match; lia.
Qed.

Lemma driver_position_currency db driver currency s p :
  (s, p) ∈ driver_recovery_positions db driver currency -> s.2 = currency.
Proof.
  unfold driver_recovery_positions. intros [Hs _]%elem_of_positions.
  apply list_elem_of_fmap in Hs as (e & -> & He). by apply elem_of_driver_entries in He as (_ & _ & ?).
Qed.

(** when money is left after recovery, the driver owes nothing any more
    on any other trip in that currency. *)
Theorem recovery_settles_every_other_debt db entry payable rq remaining db' s p :
  0 <= payable -> NoDup (le_id <$> st_ledger db) ->
  entry ∈ st_ledger db -> le_status entry ≠ VOIDED ->
  allocate_payout_recovery db entry payable rq = Ok (remaining, db') -> 0 < remaining ->
  (s, p) ∈ driver_recovery_positions db' (le_driver_profile_id entry) (le_currency entry) ->
  s.1 ≠ le_trip_session_id entry -> debt p = 0.
Proof.
  intros Hpay Hids Hentry Hlive Hrun Hleft Hin Htrip.
  apply allocate_payout_recovery_run in Hrun
    as (mid & new & [Ho Hl Hli Hin' _ _ Hlegal Hset] & _ & Hne & _); [|done].
  rewrite Hne in Hin by lia. clear Hne.
  set (driver := le_driver_profile_id entry) in *. set (cur := le_currency entry) in *.
  assert (Hent : driver_entries mid driver cur = driver_entries db driver cur)
    by (unfold driver_entries; by rewrite Hl).
  assert (Hcur : forall o, o ∈ new -> po_currency o = cur).
  { intros o Hoin. destruct (Hlegal o Hoin) as (_ & _ & _ & _ & _ & q & Hq & _).
    by apply driver_position_currency in Hq. }
  unfold driver_recovery_positions in Hin. rewrite Hent in Hin.
  apply elem_of_positions in Hin as [Hs ->].
  destruct (scope_position_after db mid entry new Hl Hli Hin' Ho Hids Hentry Hlive
    (fun o Hoin => proj1 (Hlegal o Hoin)) (driver_entries db driver cur) s) as [He Hst];
    [by apply elem_of_driver_entries | by intros -> | done |].
  assert (Hpos : forall o, o ∈ new -> 0 < po_amount o)
    by (intros o Hoin; destruct (Hlegal o Hoin) as (_ & _ & _ & ? & _); done).
  pose proof (taken_from_nonneg s new Hpos).
  unfold debt. rewrite He, Hst. fold (debt (scope_position db (driver_entries db driver cur) s)).
  destruct (Z.ltb_spec 0 (debt (scope_position db (driver_entries db driver cur) s))) as [Hd|Hd];
    [|unfold debt in Hd; lia].
  destruct (Hset Hleft s (scope_position db (driver_entries db driver cur) s)) as (o & Hoin & Hos & Ham);
    [by apply elem_of_positions | done | done |].
  pose proof (taken_from_at_least s new o Hpos Hoin Hos). unfold debt in *. lia.
Qed.

(** ** Witnesses *)

(** Trip 11 was paid N50 and then reversed by N30; trip 10 has N100 released. *)
Definition released_entry : ledger_entry :=
  EarningsLedgerEntry 1 (Some 40%N) 5 50 4 (Some 10%N) (Some 6%N) TRIP_PAYOUT AVAILABLE 10000 "NGN"
    None 200 None no_metadata.
Definition paid_entry : ledger_entry :=
  EarningsLedgerEntry 2 (Some 41%N) 5 50 4 (Some 11%N) (Some 6%N) TRIP_PAYOUT PAID 5000 "NGN"
    None 100 None no_metadata.
Definition reversal_entry : ledger_entry :=
  EarningsLedgerEntry 3 None 5 50 4 (Some 11%N) (Some 6%N) REVERSAL AVAILABLE 3000 "NGN"
    None 150 None no_metadata.
Definition paid_line : payout_batch_line :=
  PayoutBatchLine 70 60 2 None 90 91 5000 "NGN" ∅ "" "" LINE_SUCCEEDED (Some "tr-1"%string)
    None None None false.

Definition debt_store : payout_store :=
  {| st_trips := []; st_analytics := []; st_estimates := []; st_bindings := [];
     st_campaigns := []; st_rules := []; st_revisions := []; st_calculations := [];
     st_ledger := [released_entry; paid_entry; reversal_entry];
     st_orders := []; st_lines := [paid_line]; st_intents := []; st_offsets := [];
     st_profiles := [DriverProfile 5 50]; st_cutoffs := []; st_audit := [] |}.

Definition admin_request : recovery_request := RecoveryRequest 80 (Some 1%N) None 500.

Definition after_recovery : payout_store :=
  match allocate_payout_recovery debt_store released_entry 10000 admin_request with
  | Ok (_, db) => db
  | Raise _ => debt_store
  end.

Lemma recovery_sample_runs :
  allocate_payout_recovery debt_store released_entry 10000 admin_request = Ok (7000, after_recovery).
Proof. vm_compute. reflexivity. Qed.

Lemma trip_cash_position_within_worth_witness :
  let p := trip_cash_position [released_entry] [] 0 0 None in
  batch_payable p = 10000 /\ debt p = 0.
Proof.
  split; [vm_compute; reflexivity|].
  assert (Hok : lines_ok []) by (intros row Hrow; set_solver).
  pose proof (trip_cash_position_within_worth [released_entry] [] 0 0 None Hok) as H.
  assert (Hs : 0 <= settled (trip_cash_position [released_entry] [] 0 0 None)) by (vm_compute; discriminate).
  specialize (H Hs). cbn zeta in H.
  change (trip_awards [released_entry]) with (10000, 10000, 0) in H.
  destruct H as (_ & _ & _ & _ & H & _). apply H. vm_compute. reflexivity.
Defined.

Lemma reserving_payable_exhausts_it_witness :
  let line := PayoutBatchLine 71 61 1 None 90 91 10000 "NGN" ∅ "" "" LINE_RESERVED None None None None true in
  batch_payable (trip_cash_position [released_entry] [(line, None)] 0 0 None) = 0.
Proof.
  apply (reserving_payable_exhausts_it [released_entry] [] 0 0 None);
    [intros row Hrow; set_solver | vm_compute; reflexivity | right; reflexivity].
Defined.

Lemma allocate_payout_recovery_conserves_witness :
  0 <= 7000 /\ exists new, st_offsets after_recovery = [] ++ new
    /\ 7000 + sum_by po_amount new = 10000
    /\ (forall o, o ∈ new -> legal_offset released_entry admin_request
          (driver_recovery_positions debt_store 5 "NGN") o)
    /\ st_ledger after_recovery = st_ledger debt_store.
Proof.
  apply (allocate_payout_recovery_conserves debt_store released_entry 10000 admin_request 7000);
    [discriminate | apply recovery_sample_runs].
Defined.

Lemma recovery_settles_every_other_debt_witness :
  debt (scope_position debt_store (driver_entries debt_store 5 "NGN") (Some 11%N, "NGN"%string)) = 3000
  /\ debt (scope_position after_recovery (driver_entries after_recovery 5 "NGN") (Some 11%N, "NGN"%string)) = 0.
Proof.
  split; [vm_compute; reflexivity|].
  apply (recovery_settles_every_other_debt debt_store released_entry 10000 admin_request 7000
    after_recovery (Some 11%N, "NGN"%string)).
  - discriminate.
  - apply (bool_decide_eq_true_1 _). vm_compute. reflexivity.
  - left.
  - discriminate.
  - apply recovery_sample_runs.
  - reflexivity.
  - apply elem_of_positions. split; [|reflexivity]. apply (bool_decide_eq_true_1 _). vm_compute. reflexivity.
  - discriminate.
Defined.
