(* ===== verification/DayBooks.v ===== *)
(** The books of a driver's days on a campaign: what the stored calculations of
    [app/services/payouts] must add up to for the per-trip increments of the
    daily rate to be right.  No code is translated here; the file holds the
    invariant and the lemmas that relate it to [day_credited_distance_m]. *)

From S2P Require Import Prelude Eligibility PayoutData DailyRate Ledger.
From stdpp Require Import base list strings gmap sorting.
From Stdlib Require Import ZArith QArith Lia.
#[local] Open Scope Z_scope.

Section Books.
Context (driver campaign : uuid).

Definition is_own (c : payout_calculation) : bool :=
  bool_decide (pc_driver_profile_id c = driver) && bool_decide (pc_campaign_id c = campaign)
  && bool_decide (pc_formula_version c = PAYOUT_V4).

(** The daily-rate calculations of the driver on the campaign. *)
Definition own_calculations (db : payout_store) : list payout_calculation :=
  List.filter is_own (st_calculations db).

Definition day_distance (db : payout_store) (d : Z) : Z :=
  sum_by (fun c => dict_get (pc_distance_m_by_day c) d) (own_calculations db).
Definition day_amount (db : payout_store) (d : Z) : kobo :=
  sum_by (fun c => dict_get (pc_amount_by_day c) d) (own_calculations db).

(** No correction or void has touched the ledger: what the calculations say is
    what the trips are credited. *)
Record uncorrected (db : payout_store) : Prop := {
  un_entries : forall e, e ∈ st_ledger db -> md_recompute_day (le_metadata e) = false;
  un_voided : forall e, e ∈ st_ledger db -> le_status e ≠ VOIDED;
  un_orders : forall o, o ∈ st_orders db -> co_status o ≠ EXECUTED
}.

Record day_books (terms : daily_terms) (db : payout_store) : Prop := {
  bk_uncorrected : uncorrected db;
  bk_one_per_trip : NoDup (pc_trip_session_id <$> own_calculations db);
  bk_days_touched : forall c d, c ∈ own_calculations db ->
    dict_get (pc_distance_m_by_day c) d ≠ 0 -> trip_overlaps_day db (pc_trip_session_id c) d = true;
  bk_nonneg : forall c d, c ∈ own_calculations db -> 0 <= dict_get (pc_distance_m_by_day c) d;
  bk_priced : forall d, day_amount db d = day_pay_naira (day_distance db d) terms
}.

Lemma elem_of_own db c : c ∈ own_calculations db <-> c ∈ st_calculations db /\ is_own c = true.
Proof. unfold own_calculations. by rewrite list_elem_of_In, filter_In, <- list_elem_of_In. Qed.

Lemma uncorrected_position db c : uncorrected db ->
  latest_daily_rate_position db c = (pc_distance_m_by_day c, pc_amount_by_day c).
Proof.
  intros [He _ Ho]. apply latest_daily_rate_position_newest_nil.
  unfold position_candidates.
  assert (Hn : omap (entry_position c) (recompute_entries db c) = []).
  { apply elem_of_nil_inv. intros x Hx. apply list_elem_of_omap in Hx as (e & Hin & Hx).
    unfold recompute_entries in Hin. apply list_elem_of_In, filter_In in Hin as [Hin _].
    apply list_elem_of_In, He in Hin. unfold entry_position in Hx. rewrite Hin in Hx.
    repeat case_match; done. }
  assert (Hm : executed_orders db c = []).
  { apply filter_all_false. intros o Hin. apply Ho in Hin.
    rewrite (bool_decide_eq_false_2 (co_status o = EXECUTED)) by done.
    by rewrite andb_false_r. }
  by rewrite Hn, Hm.
Qed.

Lemma uncorrected_not_voided db trip : uncorrected db -> trip_payout_voided db trip = false.
Proof.
  intros [_ Hv _]. unfold trip_payout_voided.
  destruct (existsb _ _) eqn:He; [|done]. apply existsb_exists in He as (e & Hin & Hb).
  apply list_elem_of_In, Hv in Hin. bool_prop. done.
Qed.

Lemma map_to_list_foldl_insert (rows : list payout_calculation) (m : gmap uuid payout_calculation) :
  NoDup (pc_trip_session_id <$> rows) ->
  (forall c, c ∈ rows -> m !! pc_trip_session_id c = None) ->
  map_to_list (foldl (fun m c => <[pc_trip_session_id c := c]> m) m rows)
  ≡ₚ map_to_list m ++ ((fun c => (pc_trip_session_id c, c)) <$> rows).
Proof.
  revert m. induction rows as [|c rows IH]; intros m Hnd Hfresh; cbn; [by rewrite app_nil_r|].
  apply NoDup_cons in Hnd as [Hc Hnd]. rewrite IH; [|done|].
  - rewrite map_to_list_insert by (apply Hfresh; left). apply Permutation_middle.
  - intros c' Hc'. rewrite lookup_insert_ne; [by apply Hfresh; right|].
    intros Heq. apply Hc. rewrite Heq. by apply list_elem_of_fmap_2.
Qed.

Lemma sum_latest_by_trip (f : payout_calculation -> Z) rows :
  NoDup (pc_trip_session_id <$> rows) ->
  sum_by (fun kc => f kc.2) (map_to_list (latest_by_trip rows)) = sum_by f rows.
Proof.
  intros Hnd. unfold latest_by_trip.
  rewrite (sum_by_perm _ _ ([] ++ ((fun c => (pc_trip_session_id c, c)) <$> rows))).
  - cbn [app]. clear Hnd. induction rows as [|c rows IH]; [done|].
    cbn [fmap list_fmap]. rewrite !sum_by_cons. by rewrite IH.
  - rewrite map_to_list_foldl_insert; [by rewrite map_to_list_empty|done|].
    intros. apply lookup_empty.
Qed.

Lemma sum_filter_eq {A} (f : A -> Z) (p q : A -> bool) l :
  (forall x, x ∈ l -> p x = true -> q x = true) ->
  (forall x, x ∈ l -> q x = true -> p x = false -> f x = 0) ->
  sum_by f (List.filter p l) = sum_by f (List.filter q l).
Proof.
  induction l as [|x l IH]; intros Hpq Hz; [done|]. cbn [List.filter].
  assert (IH' : sum_by f (List.filter p l) = sum_by f (List.filter q l))
    by (apply IH; intros; [apply Hpq|apply Hz]; first [done|by right]).
  destruct (p x) eqn:Hp, (q x) eqn:Hq; rewrite ?sum_by_cons, ?IH'.
  - done.
  - rewrite (Hpq x) in Hq; [done|left|done].
  - rewrite (Hz x); [done|left|done|done].
  - done.
Qed.

Lemma filter_fmap_nodup {A K} (k : A -> K) (p q : A -> bool) l :
  (forall x, x ∈ l -> p x = true -> q x = true) ->
  NoDup (k <$> List.filter q l) -> NoDup (k <$> List.filter p l).
Proof.
  intros Hpq. induction l as [|x l IH]; cbn; intros Hnd; [constructor|].
  assert (Hpq' : forall y, y ∈ l -> p y = true -> q y = true) by (intros; apply Hpq; first [done|by right]).
  destruct (p x) eqn:Hp.
  - rewrite (Hpq x) in Hnd by (done || left). cbn in *. apply NoDup_cons in Hnd as [Hx Hnd].
    apply NoDup_cons. split; [|by apply IH]. intros Hin. apply Hx.
    apply list_elem_of_fmap in Hin as (y & -> & Hy). apply list_elem_of_fmap_2.
    apply list_elem_of_In, filter_In in Hy as [Hy Hpy]. apply list_elem_of_In, filter_In.
    split; [done|]. apply Hpq'; [by apply list_elem_of_In|done].
  - apply IH; [done|]. destruct (q x); [by apply NoDup_cons in Hnd as [_ ?]|done].
Qed.

(** With sound books, the distance read back for a day is the whole distance
    the other trips were credited. *)
Lemma day_credited_distance_books terms db d trip :
  day_books terms db -> (forall c, c ∈ own_calculations db -> pc_trip_session_id c ≠ trip) ->
  day_credited_distance_m db driver campaign d trip = day_distance db d.
Proof.
  intros [Hun Hone Htouch _ _] Hfresh. unfold day_credited_distance_m. cbn zeta.
  set (rows := List.filter (credits_day db driver campaign d trip) (st_calculations db)).
  assert (Hsub : forall c, c ∈ st_calculations db ->
    credits_day db driver campaign d trip c = true -> is_own c = true).
  { intros c _ Hc. unfold credits_day in Hc. bool_prop. unfold is_own.
    by rewrite !bool_decide_eq_true_2. }
  rewrite (sum_latest_by_trip (fun c => dict_get (latest_daily_rate_position db c).1 d)).
  - rewrite (sum_by_perm _ _ rows) by apply stable_sort_perm.
    rewrite (sum_by_ext _ (fun c => dict_get (pc_distance_m_by_day c) d))
      by (intros c _; by rewrite uncorrected_position).
    apply sum_filter_eq; [done|]. intros c Hc Hown Hno.
    assert (Hin : c ∈ own_calculations db) by (by apply elem_of_own).
    destruct (Z.eq_dec (dict_get (pc_distance_m_by_day c) d) 0) as [|Hne]; [done|].
    specialize (Htouch c d Hin Hne). exfalso.
    unfold is_own in Hown. bool_prop. unfold credits_day in Hno.
    rewrite !(bool_decide_eq_true_2 (_ = _)), Htouch, uncorrected_not_voided in Hno by done.
    rewrite bool_decide_eq_false_2 in Hno by (by apply Hfresh). done.
  - rewrite (stable_sort_perm earlier_calculation rows).
    by apply (filter_fmap_nodup _ _ is_own).
Qed.

(** Appending a calculation of a new trip whose amounts are the increments over
    the distance already credited keeps the books. *)
Lemma day_books_append terms db row :
  day_books terms db -> terms_ok terms ->
  is_own row = true ->
  (forall c, c ∈ own_calculations db -> pc_trip_session_id c ≠ pc_trip_session_id row) ->
  (forall d, 0 <= dict_get (pc_distance_m_by_day row) d) ->
  (forall d, dict_get (pc_distance_m_by_day row) d ≠ 0 ->
     trip_overlaps_day db (pc_trip_session_id row) d = true) ->
  (forall d, dict_get (pc_amount_by_day row) d
     = day_pay_naira (day_distance db d + dict_get (pc_distance_m_by_day row) d) terms
       - day_pay_naira (day_distance db d) terms) ->
  day_books terms (with_calculations (fun l => l ++ [row]) db).
Proof.
  intros [Hun Hone Htouch Hnn Hpriced] Hterms Hown Hfresh Hpos Hdays Hamount.
  assert (Happ : own_calculations (with_calculations (fun l => l ++ [row]) db)
                 = own_calculations db ++ [row]).
  { unfold own_calculations. cbn. rewrite List.filter_app. cbn. by rewrite Hown. }
  split.
  - by destruct Hun.
  - rewrite Happ, fmap_app. apply NoDup_app. split; [done|]. split; [|apply NoDup_singleton].
    intros t (c & -> & Hc)%list_elem_of_fmap Heq%list_elem_of_singleton. by apply (Hfresh c).
  - intros c d. rewrite Happ, elem_of_app, list_elem_of_singleton. intros [Hc| ->] Hne.
    + by apply Htouch.
    + by apply Hdays.
  - intros c d. rewrite Happ, elem_of_app, list_elem_of_singleton. intros [Hc| ->]; auto.
  - intros d. unfold day_amount, day_distance in *. rewrite Happ, !sum_by_app, !sum_by_cons, !sum_by_nil.
    rewrite Hamount, Hpriced. rewrite !Z.add_0_r. lia.
Qed.

(** Another driver's or campaign's calculation does not matter. *)
Lemma day_books_other terms db row :
  day_books terms db -> is_own row = false ->
  day_books terms (with_calculations (fun l => l ++ [row]) db).
Proof.
  intros [Hun Hone Htouch Hnn Hpriced] Hown.
  assert (Happ : own_calculations (with_calculations (fun l => l ++ [row]) db) = own_calculations db).
  { unfold own_calculations. cbn. rewrite List.filter_app. cbn. by rewrite Hown, app_nil_r. }
  split; unfold day_amount, day_distance; rewrite ?Happ; try done. by destruct Hun.
Qed.

(** Changing the ledger only by sound entries keeps the books. *)
Lemma day_books_ledger terms db db' :
  day_books terms db -> st_calculations db' = st_calculations db -> st_trips db' = st_trips db ->
  st_orders db' = st_orders db ->
  (forall e, e ∈ st_ledger db' -> e ∈ st_ledger db
     \/ exists mid c profile, e = new_trip_payout mid c profile) ->
  day_books terms db'.
Proof.
  intros [[He Hv Ho] Hone Htouch Hnn Hpriced] Hc Ht Hor Hl.
  assert (Hown : own_calculations db' = own_calculations db)
    by (unfold own_calculations; by rewrite Hc).
  split.
  - split.
    + intros e [Hin|(mid & c & p & ->)]%Hl; [by apply He|done].
    + intros e [Hin|(mid & c & p & ->)]%Hl; [by apply Hv|done].
    + rewrite Hor. exact Ho.
  - by rewrite Hown.
  - unfold trip_overlaps_day. rewrite Hown, Ht. exact Htouch.
  - by rewrite Hown.
  - unfold day_amount, day_distance. by rewrite Hown.
Qed.
End Books.
