(* ===== verification/Engine.v ===== *)
(** Pricing a sealed trip ([app/services/payouts/engine.py],
    [app/services/payouts/evidence.py]). *)

From S2P Require Import Prelude Eligibility PayoutData DailyRate Ledger DayBooks.
From stdpp Require Import base list strings gmap sorting.
From Stdlib Require Import ZArith QArith Lia.
#[local] Open Scope Z_scope.

Section Engine.
Context {F : Type} `{PyFloat F}.

(** ** Evidence *)

(** A row of [location_pings]; [G] is the type of PostGIS points. *)
Record location_ping {G : Type} := LocationPing {
  lp_id : uuid;
  lp_trip_session_id : uuid;
  lp_recorded_at : Z;
  lp_sequence_number : option Z;
  lp_latitude : F;
  lp_longitude : F;
  lp_accuracy_m : option F;
  lp_geom : G;
  lp_created_at : Z
}.
#[global] Arguments location_ping G : clear implicits.

(** The environment of the engine: PostGIS's [ST_Intersects] of a WKT geometry
    and a point, the HMAC check of the manifest receipt, the freshness of an
    impression estimate with respect to its analytics and the trip's fraud
    holds, SHA-256 over the canonical JSON of the ping ids and of the inputs,
    the configured formula versions. *)
Context {G : Type}.
Context (st_intersects : string -> G -> bool).
Context (verify_manifest_receipt : trip_session -> bool).
Context (is_current_estimate : impression_estimate -> trip_analytics -> bool).
Context (ping_set_digest : list uuid -> string).
Context (inputs_digest : governing_values F -> string -> option Z -> string).
Context (route_analytics_formula_version impression_formula_version : string).

Record eligibility_ping_row := EligibilityPingRow {
  row_id : uuid;
  row_ping : eligibility_ping (F:=F)
}.

Definition get_trip_for_payout (db : payout_store) (i : uuid) : result trip_session :=
  trip ← require_some (find_row (fun t => bool_decide (trip_id t = i)) (st_trips db))
           (AppError "TRIP_NOT_FOUND" 404);
  raise_if (negb (bool_decide (trip_status trip = TRIP_SEALED)) || is_none (trip_ended_at trip))
    (AppError "TRIP_NOT_SEALED" 400) ;;
  raise_if (is_none (evidence_manifest_verified_at trip) || negb (verify_manifest_receipt trip))
    (AppError "TRIP_EVIDENCE_NOT_VERIFIED" 409) ;;
  mret trip.

Definition analytics_of_trip (db : payout_store) (trip : uuid) : option trip_analytics :=
  find_row (fun a => bool_decide (ta_trip_session_id a = trip)) (st_analytics db).

Definition get_analytics_for_trip (db : payout_store) (trip : uuid) : result trip_analytics :=
  require_some (analytics_of_trip db trip) (AppError "ANALYTICS_NOT_FOUND" 404).

Definition get_authoritative_estimate_for_trip (db : payout_store) (trip : uuid)
    (validate_source : bool) : option impression_estimate :=
  match head (stable_sort (fun a b => (ie_id a <=? ie_id b)%N)
      (List.filter (fun e => bool_decide (ie_trip_session_id e = trip)
                             && bool_decide (ie_formula_version e = impression_formula_version)
                             && ie_is_authoritative e) (st_estimates db))) with
  | None => None
  | Some estimate =>
      if negb validate_source then Some estimate
      else
        match analytics_of_trip db trip with
        | None => None
        | Some analytics =>
            if negb (bool_decide (ta_formula_version analytics = route_analytics_formula_version))
            then None
            else if is_current_estimate estimate analytics then Some estimate else None
        end
  end.

Definition impression_estimate_stale : exn := AppError "IMPRESSION_ESTIMATE_STALE" 409.

Definition get_impression_estimate_for_trip (db : payout_store) (trip : uuid)
    : result impression_estimate :=
  _ ← require_some (get_authoritative_estimate_for_trip db trip false)
        (AppError "IMPRESSION_ESTIMATE_NOT_FOUND" 404);
  require_some (get_authoritative_estimate_for_trip db trip true) impression_estimate_stale.

Definition ensure_payout_sources_match (trip : trip_session) (analytics : trip_analytics)
    (estimate : impression_estimate) : result unit :=
  raise_if
    (negb (bool_decide (ta_campaign_id analytics = trip_campaign_id trip))
     || negb (bool_decide (ie_campaign_id estimate = trip_campaign_id trip))
     || negb (bool_decide (ta_assignment_id analytics = trip_assignment_id trip))
     || negb (bool_decide (ie_assignment_id estimate = trip_assignment_id trip))
     || negb (bool_decide (ta_driver_profile_id analytics = trip_driver_profile_id trip))
     || negb (bool_decide (ie_driver_profile_id estimate = trip_driver_profile_id trip))
     || negb (bool_decide (ta_vehicle_id analytics = trip_vehicle_id trip))
     || negb (bool_decide (ie_vehicle_id estimate = trip_vehicle_id trip))
     || negb (bool_decide (ie_trip_analytics_id estimate = ta_id analytics)))
    (AppError "PAYOUT_SOURCE_MISMATCH" 400).

Definition frozen_zone_hit (wkts : list string) (geom : G) : bool :=
  existsb (fun wkt => st_intersects wkt geom) wkts.

Definition nulls_last (a b : option Z) : comparison :=
  match a, b with
  | Some x, Some y => Z.compare x y
  | Some _, None => Lt
  | None, Some _ => Gt
  | None, None => Eq
  end.

(** [ORDER BY recorded_at, sequence_number NULLS LAST, created_at, id] *)
Definition ping_row_before (a b : location_ping G) : bool :=
  match Z.compare (lp_recorded_at a) (lp_recorded_at b) with
  | Lt => true
  | Gt => false
  | Eq =>
      match nulls_last (lp_sequence_number a) (lp_sequence_number b) with
      | Lt => true
      | Gt => false
      | Eq =>
          match Z.compare (lp_created_at a) (lp_created_at b) with
          | Lt => true
          | Gt => false
          | Eq => (lp_id a <=? lp_id b)%N
          end
      end
  end.

(** [campaign_id] plays no part in the query. *)
Definition load_eligibility_pings (pings_table : list (location_ping G)) (trip : uuid)
    (premium_wkts exclusion_wkts : list string) (recorded_through : option Z)
    : list eligibility_ping_row :=
  (fun p => EligibilityPingRow (lp_id p)
     {| recorded_at := aware (lp_recorded_at p); latitude := lp_latitude p;
        longitude := lp_longitude p; accuracy_m := lp_accuracy_m p;
        in_area := negb (frozen_zone_hit exclusion_wkts (lp_geom p));
        in_premium := frozen_zone_hit premium_wkts (lp_geom p) |}) <$>
  stable_sort ping_row_before
    (List.filter (fun p => bool_decide (lp_trip_session_id p = trip)
       && match recorded_through with Some t => lp_recorded_at p <=? t | None => true end) pings_table).

Definition ping_set_fingerprint (rows : list eligibility_ping_row) : string :=
  ping_set_digest (row_id <$> rows).

(** ** Classification under the frozen binding *)

Record daily_rate_classification := DailyRateClassification {
  dc_terms : daily_terms;
  dc_params : eligibility_params (F:=F);
  dc_governing_values : governing_values F;
  dc_breakdown : eligibility_breakdown (F:=F);
  dc_distance_m_by_day : gmap Z Z;
  dc_ping_fingerprint : string;
  dc_inputs_fingerprint : string;
  dc_window_start_at : option Z;
  dc_window_end_at : option Z;
  dc_effective_window_end_at : option Z;
  dc_financial_cutoff_at : option Z
}.

Definition find_revision (db : payout_store) (i : uuid) : option campaign_payout_rule_revision :=
  find_row (fun r => bool_decide (rev_id r = i)) (st_revisions db).

Definition invalid_rule_values : exn := AppError "INVALID_PAYOUT_RULE" 400.
Definition rule_not_found : exn := AppError "PAYOUT_RULE_NOT_FOUND" 404.
Definition payout_calculation_stale : exn := AppError "PAYOUT_CALCULATION_STALE" 409.

Definition classify_daily_rate_trip (db : payout_store) (pings_table : list (location_ping G))
    (trip : trip_session) (binding : assignment_rule_binding) : result daily_rate_classification :=
  raise_if
    match find_revision db (bind_revision_id binding) with
    | None => true
    | Some revision => negb (bool_decide (rev_currency revision = bind_currency binding))
    end invalid_rule_values ;;
  terms ← daily_rate_terms binding;
  params ← frozen_eligibility_params binding;
  window ← frozen_campaign_window binding;
  bounds ← payout_time_bounds db trip window.2;
  let '(economic_end, effective_window_end, cutoff) := bounds in
  let ping_rows := load_eligibility_pings pings_table (trip_id trip)
    (bind_premium_zone_geometry_wkts binding) (bind_exclusion_zone_geometry_wkts binding)
    (Some economic_end) in
  let pings := row_ping <$> ping_rows in
  breakdown ← classify_session (aware (trip_started_at trip)) (aware economic_end) pings
    (aware <$> window.1) (aware <$> effective_window_end) params
    (bind_stationary_policy_marker binding);
  distance_by_day ← credited_distance_m_by_day pings breakdown;
  let governing := v4_governing_values binding terms params in
  let ping_fingerprint := ping_set_fingerprint ping_rows in
  mret {| dc_terms := terms; dc_params := params; dc_governing_values := governing;
          dc_breakdown := breakdown; dc_distance_m_by_day := distance_by_day;
          dc_ping_fingerprint := ping_fingerprint;
          dc_inputs_fingerprint := inputs_digest governing ping_fingerprint effective_window_end;
          dc_window_start_at := window.1; dc_window_end_at := window.2;
          dc_effective_window_end_at := effective_window_end;
          dc_financial_cutoff_at := cutoff |}.

Definition payout_status (analytics : trip_analytics) (estimate : impression_estimate)
    : payout_calculation_status :=
  if bool_decide (ta_status analytics = TA_INSUFFICIENT_DATA)
     || bool_decide (ie_status estimate = IE_INSUFFICIENT_DATA) then INSUFFICIENT_DATA
  else if bool_decide (ta_status analytics = TA_BLOCKED)
          || bool_decide (ie_status estimate = IE_EXCLUDED) then BLOCKED
  else CALCULATED.

(** ** Pricing *)

(** [sorted(set(seconds) | set(distance)) or [lagos_day]] *)
Definition priced_days (seconds_by_day distance_by_day : gmap Z Z) (lagos_day : Z) : list Z :=
  match sorted_set ((map_to_list seconds_by_day).*1 ++ (map_to_list distance_by_day).*1) with
  | [] => [lagos_day]
  | days => days
  end.

(** The increment of one day. *)
Definition day_increment (prior added : Z) (terms : daily_terms) : kobo :=
  day_pay_naira (prior + added) terms - day_pay_naira prior terms.

Fixpoint price_days (db : payout_store) (trip : trip_session) (terms : daily_terms)
    (distance_by_day : gmap Z Z) (days : list Z) (amounts : gmap Z kobo) : gmap Z kobo :=
  match days with
  | [] => amounts
  | d :: days' =>
      let prior := day_credited_distance_m db (trip_driver_profile_id trip) (trip_campaign_id trip)
                     d (trip_id trip) in
      let added := dict_get distance_by_day d in
      price_days db trip terms distance_by_day days'
        (if 0 <? added then <[d := day_increment prior added terms]> amounts else amounts)
  end.

(** The CHECK constraints and the unique constraint of [payout_calculations]. *)
Definition payout_calculation_row_ok (c : payout_calculation) : bool :=
  bool_decide (pc_formula_version c = PAYOUT_V4)
  && (0 <=? pc_gross_payout c) && (0 <=? pc_final_payout c) && (0 <=? pc_eligible_seconds c).

Definition calculation_key (c : payout_calculation) : option (uuid * string * uuid) :=
  Some (pc_trip_session_id c, pc_formula_version c, pc_payout_rule_id c).

Definition flush_calculation (row : payout_calculation) (db : payout_store) : result payout_store :=
  raise_if (negb (payout_calculation_row_ok row)) (IntegrityError "ck_payout_calculations") ;;
  raise_if (conflicts calculation_key row (st_calculations db))
    (IntegrityError "uq_payout_calculations_trip_formula_rule") ;;
  mret (with_calculations (fun l => l ++ [row]) db).

(** What other transactions commit between this one's reads and its writes. *)
Record arrivals := Arrivals {
  arrived_calculations : list payout_calculation;
  arrived_entries : list ledger_entry
}.

Definition new_calculation (db : payout_store) (trip : trip_session) (analytics : trip_analytics)
    (estimate : impression_estimate) (binding : assignment_rule_binding) (rule : uuid)
    (classified : daily_rate_classification) (status : payout_calculation_status)
    (distance_by_day : gmap Z Z) (amount_by_day : gmap Z kobo) (calculated_at : Z)
    : payout_calculation :=
  {| pc_id := uuid4 (pc_id <$> st_calculations db);
     pc_trip_session_id := trip_id trip;
     pc_trip_analytics_id := ta_id analytics;
     pc_impression_estimate_id := ie_id estimate;
     pc_payout_rule_id := rule;
     pc_assignment_id := ta_assignment_id analytics;
     pc_campaign_id := ta_campaign_id analytics;
     pc_driver_profile_id := ta_driver_profile_id analytics;
     pc_vehicle_id := ta_vehicle_id analytics;
     pc_formula_version := PAYOUT_V4;
     pc_status := status;
     pc_currency := bind_currency binding;
     pc_gross_payout := map_sum amount_by_day;
     pc_eligible_seconds := eligible_seconds (dc_breakdown classified);
     pc_distance_m_by_day := distance_by_day;
     pc_amount_by_day := amount_by_day;
     pc_excluded_seconds_by_reason := excluded_seconds_by_reason (dc_breakdown classified);
     pc_inputs_fingerprint := dc_inputs_fingerprint classified;
     pc_final_payout := map_sum amount_by_day;
     pc_calculated_at := calculated_at |}.

Definition payout_outcome : Type := payout_calculation * option ledger_entry * bool.

Definition calculate_trip_payout_v4 (arrived : arrivals) (db : payout_store)
    (pings_table : list (location_ping G)) (trip : trip_session) (analytics : trip_analytics)
    (estimate : impression_estimate) (binding : assignment_rule_binding) (now : Z)
    : result (payout_outcome * payout_store) :=
  raise_if (negb (existsb (fun k => bool_decide (camp_id k = trip_campaign_id trip)) (st_campaigns db)))
    (AppError "CAMPAIGN_NOT_FOUND" 404) ;;
  classified ← classify_daily_rate_trip db pings_table trip binding;
  rule ← require_some (rev_payout_rule_id <$> find_revision db (bind_revision_id binding)) rule_not_found;
  _ ← require_some (trip_ended_at trip) AssertionError;
  let lagos_day := lagos_day_for (aware (trip_started_at trip)) in
  let lagos_days := priced_days (eligible_seconds_by_day (dc_breakdown classified))
                      (dc_distance_m_by_day classified) lagos_day in
  require_paycap_predecessors_processed db trip lagos_days ;;
  let status := payout_status analytics estimate in
  let distance_by_day : gmap Z Z :=
    if bool_decide (status = CALCULATED)
    then filter (fun kv : Z * Z => 0 < kv.2) (dc_distance_m_by_day classified) else ∅ in
  let amount_by_day := price_days db trip (dc_terms classified) distance_by_day lagos_days ∅ in
  let db := with_calculations (fun l => l ++ arrived_calculations arrived) db in
  let calculation := new_calculation db trip analytics estimate binding rule classified status
                       distance_by_day amount_by_day now in
  match flush_calculation calculation db with
  | Ok db =>
      r ← ensure_ledger_entry (arrived_entries arrived) db calculation;
      mret ((calculation, r.1, true), r.2)
  | Raise exc =>
      if negb (is_expected_uniqueness_conflict exc (Some PAYOUT_CALCULATION_CONSTRAINTS))
      then Raise exc
      else
        match existing_payout_calculation db (trip_id trip) PAYOUT_V4 rule with
        | None => Raise exc
        | Some existing =>
            r ← ensure_ledger_entry (arrived_entries arrived) db existing;
            mret ((existing, r.1, false), r.2)
        end
  end.

Definition v4_calculation_is_stale (db : payout_store) (pings_table : list (location_ping G))
    (calculation : payout_calculation) (trip : trip_session) : result bool :=
  match binding_for_assignment db (trip_assignment_id trip) with
  | None => mret true
  | Some binding =>
      if negb (bool_decide (bind_formula_version binding = PAYOUT_V4))
         || negb (bind_campaign_window_frozen binding)
      then mret true
      else
        classified ← classify_daily_rate_trip db pings_table trip binding;
        mret (negb (bool_decide (pc_currency calculation = bind_currency binding))
              || negb (bool_decide (pc_inputs_fingerprint calculation = dc_inputs_fingerprint classified)))
  end.

(** The reads and checks of [calculate_trip_payout] before any money is looked
    at. *)
Definition admit_trip (db : payout_store) (i : uuid) (payout_rule_id : option uuid)
    : result (trip_session * trip_analytics * impression_estimate * assignment_rule_binding
              * campaign_payout_rule_revision) :=
  trip ← get_trip_for_payout db i;
  analytics ← get_analytics_for_trip db (trip_id trip);
  raise_if (negb (bool_decide (ta_formula_version analytics = route_analytics_formula_version)))
    (AppError "ANALYTICS_FORMULA_VERSION_MISMATCH" 409) ;;
  estimate ← get_impression_estimate_for_trip db (trip_id trip);
  raise_if (negb (is_current_estimate estimate analytics)) impression_estimate_stale ;;
  ensure_payout_sources_match trip analytics estimate ;;
  binding ← require_some (binding_for_assignment db (trip_assignment_id trip))
              (AppError "PAYOUT_BINDING_NOT_FOUND" 409);
  raise_if (negb (bool_decide (bind_formula_version binding = PAYOUT_V4)))
    (AppError "PAYOUT_BINDING_NOT_FOUND" 409) ;;
  revision ← require_some (find_revision db (bind_revision_id binding)) rule_not_found;
  raise_if match payout_rule_id with
           | Some r => negb (bool_decide (r = rev_payout_rule_id revision))
           | None => false
           end invalid_rule_values ;;
  mret (trip, analytics, estimate, binding, revision).

(** A calculation that already exists is answered as it is, unless its inputs
    changed. *)
Definition reuse_calculation (arrived : arrivals) (db : payout_store)
    (pings_table : list (location_ping G)) (trip : trip_session)
    (revision : campaign_payout_rule_revision) (existing : payout_calculation)
    (strict_staleness : bool) : result (payout_outcome * payout_store) :=
  raise_if (negb (bool_decide (pc_formula_version existing = PAYOUT_V4))
            || negb (bool_decide (pc_payout_rule_id existing = rev_payout_rule_id revision)))
    payout_calculation_stale ;;
  stale ← (if strict_staleness then v4_calculation_is_stale db pings_table existing trip
           else mret false);
  raise_if stale payout_calculation_stale ;;
  r ← ensure_ledger_entry (arrived_entries arrived) db existing;
  mret ((existing, r.1, false), r.2).

Definition calculate_trip_payout (arrived : arrivals) (db : payout_store)
    (pings_table : list (location_ping G)) (i : uuid) (payout_rule_id : option uuid)
    (strict_staleness : bool) (now : Z) : result (payout_outcome * payout_store) :=
  admitted ← admit_trip db i payout_rule_id;
  let '(trip, analytics, estimate, binding, revision) := admitted in
  match existing_payout_calculation_for_trip_any_formula db (trip_id trip) with
  | Some existing =>
      reuse_calculation arrived db pings_table trip revision existing strict_staleness
  | None =>
      calculate_trip_payout_v4 arrived db pings_table trip analytics estimate binding now
  end.

(** ** Effects on the store *)

(** The tables pricing never touches. *)
Record same_inputs (db db' : payout_store) : Prop := {
  si_trips : st_trips db' = st_trips db;
  si_analytics : st_analytics db' = st_analytics db;
  si_estimates : st_estimates db' = st_estimates db;
  si_bindings : st_bindings db' = st_bindings db;
  si_campaigns : st_campaigns db' = st_campaigns db;
  si_revisions : st_revisions db' = st_revisions db;
  si_orders : st_orders db' = st_orders db;
  si_cutoffs : st_cutoffs db' = st_cutoffs db;
  si_profiles : st_profiles db' = st_profiles db
}.

Lemma same_inputs_refl db : same_inputs db db.
Proof. by split. Qed.

Lemma same_inputs_trans db1 db2 db3 : same_inputs db1 db2 -> same_inputs db2 db3 -> same_inputs db1 db3.
Proof. intros [] []. split; congruence. Qed.

Lemma flush_ledger_entry_store row db db' :
  flush_ledger_entry row db = Ok db' -> db' = with_ledger (fun l => l ++ [row]) db.
Proof. intros Hrun. unfold flush_ledger_entry in Hrun. by inv_ok. Qed.

Lemma ensure_ledger_entry_store arrived db c o db' :
  ensure_ledger_entry arrived db c = Ok (o, db') ->
  same_inputs db db' /\ st_calculations db' = st_calculations db
  /\ forall e, e ∈ st_ledger db' -> e ∈ st_ledger db \/ e ∈ arrived
       \/ exists mid profile, e = new_trip_payout mid c profile.
Proof.
  intros Hrun. apply ensure_ledger_entry_cases in Hrun.
  destruct Hrun as [e He|Hn Hdue|e Hn Ho|profile db2 mid Hs Hp Hf|e mid He|e mid Hn Ho];
    try (split; [apply same_inputs_refl|]; split; [done|]; by left).
  - apply flush_ledger_entry_store in Hf as ->. split; [by split|]. split; [done|].
    intros e. cbn [st_ledger with_ledger mid]. rewrite !elem_of_app, list_elem_of_singleton.
    intros [[?|?]| ->]; eauto.
  - split; [by split|]. split; [done|]. intros e'. cbn. rewrite elem_of_app. tauto.
  - split; [by split|]. split; [done|]. intros e'. cbn. rewrite elem_of_app. tauto.
Qed.

Lemma flush_calculation_store row db db' :
  flush_calculation row db = Ok db' ->
  db' = with_calculations (fun l => l ++ [row]) db
  /\ payout_calculation_row_ok row = true
  /\ conflicts calculation_key row (st_calculations db) = false.
Proof. intros Hrun. unfold flush_calculation in Hrun. inv_ok. by bool_prop. Qed.

(** ** The prices of the days *)

Lemma price_days_lookup db trip terms distance days amounts d :
  NoDup days ->
  price_days db trip terms distance days amounts !! d
  = if decide (d ∈ days /\ 0 < dict_get distance d)
    then Some (day_increment
      (day_credited_distance_m db (trip_driver_profile_id trip) (trip_campaign_id trip) d (trip_id trip))
      (dict_get distance d) terms)
    else amounts !! d.
Proof.
  revert amounts. induction days as [|d' days IH]; intros amounts Hnd; cbn [price_days].
  { rewrite decide_False; [done|set_solver]. }
  apply NoDup_cons in Hnd as [Hd' Hnd]. rewrite IH by done.
  destruct (decide (d = d')) as [->|Hne].
  - rewrite decide_False by tauto. destruct (Z.ltb_spec 0 (dict_get distance d')).
    + rewrite decide_True by (split; [left|done]). by rewrite lookup_insert_eq.
    + rewrite decide_False by lia. done.
  - destruct (decide (d ∈ days /\ 0 < dict_get distance d)) as [[? ?]|Hno].
    + rewrite decide_True by (split; [by right|done]). done.
    + rewrite decide_False; [|intros [Hin ?]; apply elem_of_cons in Hin as [?|?]; tauto].
      case_match; [by rewrite lookup_insert_ne|done].
Qed.

Lemma sorted_set_nodup l : NoDup (sorted_set l).
Proof.
  pose proof (sorted_set_sorted l) as Hs. induction Hs as [|x l' Hs IH Hx]; [constructor|].
  constructor; [|done]. intros Hin. rewrite Forall_forall in Hx. specialize (Hx _ Hin). lia.
Qed.

Lemma priced_days_nodup seconds distance d : NoDup (priced_days seconds distance d).
Proof.
  unfold priced_days. pose proof (sorted_set_nodup
    ((map_to_list seconds).*1 ++ (map_to_list distance).*1)) as Hnd.
  destruct (sorted_set _); [apply NoDup_singleton|done].
Qed.

Lemma priced_days_distance seconds distance d0 d n :
  distance !! d = Some n -> d ∈ priced_days seconds distance d0.
Proof.
  intros Hd. unfold priced_days.
  assert (Hin : d ∈ sorted_set ((map_to_list seconds).*1 ++ (map_to_list distance).*1)).
  { rewrite elem_of_sorted_set, elem_of_app. right. apply list_elem_of_fmap.
    exists (d, n). split; [done|by apply elem_of_map_to_list]. }
  destruct (sorted_set _); [set_solver|done].
Qed.

Lemma with_calculations_nil db : with_calculations (fun l => l ++ []) db = db.
Proof. destruct db. unfold with_calculations. cbn. by rewrite app_nil_r. Qed.

(** ** The classification's distance *)

Section Pricing.
Context `{!PyFloatLaws F}.

(** What a successful classification of a trip has read and computed. *)
Lemma classify_daily_rate_trip_inv db pings_table trip binding classified :
  classify_daily_rate_trip db pings_table trip binding = Ok classified ->
  daily_rate_terms binding = Ok (dc_terms classified)
  /\ exists economic_end w cutoff pings ws we params marker,
    payout_time_bounds db trip (bind_campaign_window_end_at binding) = Ok (economic_end, w, cutoff)
    /\ classify_session (aware (trip_started_at trip)) (aware economic_end) pings ws we params marker
       = Ok (dc_breakdown classified)
    /\ credited_distance_m_by_day pings (dc_breakdown classified) = Ok (dc_distance_m_by_day classified).
Proof.
  unfold classify_daily_rate_trip. intros Hrun.
  ok_step Hrun as _ _. ok_step Hrun as terms Hterms.
  ok_step Hrun as params _. ok_step Hrun as window Hw.
  ok_step Hrun as [[e w] cutoff] Hb.
  ok_step Hrun as breakdown Hbr. ok_step Hrun as distance Hd.
  unfold frozen_campaign_window in Hw. apply bind_Ok in Hw as (_ & _ & [= <-]).
  injection Hrun as <-. cbn. split; [done|]. by do 8 eexists.
Qed.

(** A trip is short enough for its seconds to be counted exactly. *)
Definition trip_times_ok (trip : trip_session) : Prop :=
  exists ended, trip_ended_at trip = Some ended
    /\ trip_started_at trip <= ended < trip_started_at trip + 2 ^ 52.

(** Distance is credited only to days the trip touches. *)
Lemma classified_days_touched db pings_table trip binding classified d :
  classify_daily_rate_trip db pings_table trip binding = Ok classified ->
  trip_times_ok trip -> d ∈ dom (dc_distance_m_by_day classified) -> overlaps_day trip d = true.
Proof.
  intros Hrun (ended & Hended & Hle & Hlt) Hd.
  apply classify_daily_rate_trip_inv in Hrun as (_ & e & w & cut & pings & ws & we & params & marker
    & Hbounds & Hclass & Hcredit).
  apply (payout_time_bounds_end _ _ _ ended) in Hbounds; [|done|done].
  destruct (credited_day_in_session _ _ _ _ _ _ _ _ _ _ Hclass Hcredit Hd) as (o & Ho & ->).
  pose proof (session_duration_inside (aware (trip_started_at trip)) (aware e)) as Hin.
  unfold aware, utc_of in *. cbn in *. rewrite !Z.sub_0_r in *.
  specialize (Hin ltac:(lia)). unfold lagos_day_at.
  destruct (proj1 (lagos_date_spec (trip_started_at trip + o * second) _) eq_refl) as [Hlo Hhi].
  unfold overlaps_day, lagos_day_utc_range, trip_last_instant. rewrite Hended. cbn [default fst snd]. unfold id.
  unfold lagos_midnight, Prelude.day, hour, second in *.
  apply andb_true_iff. split; [apply Z.ltb_lt|apply Z.leb_le]; lia.
Qed.

Lemma positive_part_get (m : gmap Z Z) d :
  0 <= dict_get (filter (fun kv : Z * Z => 0 < kv.2) m) d
  /\ (dict_get (filter (fun kv : Z * Z => 0 < kv.2) m) d ≠ 0 -> d ∈ dom m).
Proof.
  unfold dict_get. destruct (filter _ m !! d) as [n|] eqn:Hn; cbn; [|split; [lia|done]].
  apply map_lookup_filter_Some in Hn as [Hn Hpos]. cbn in Hpos. split; [lia|].
  intros _. by apply elem_of_dom_2 in Hn.
Qed.

(** ** A successful pricing, taken apart *)

Definition no_arrivals : arrivals := Arrivals [] [].

(** What [calculate_trip_payout_v4] stores when the trip has no calculation and
    nobody interferes. *)
Inductive priced (db : payout_store) (pings_table : list (location_ping G)) (trip : trip_session)
    (analytics : trip_analytics) (estimate : impression_estimate) (binding : assignment_rule_binding)
    (now : Z) : payout_outcome -> payout_store -> Prop :=
| Priced classified rule days ledger db' :
    let distance : gmap Z Z :=
      if bool_decide (payout_status analytics estimate = CALCULATED)
      then filter (fun kv : Z * Z => 0 < kv.2) (dc_distance_m_by_day classified) else ∅ in
    let row := new_calculation db trip analytics estimate binding rule classified
      (payout_status analytics estimate) distance
      (price_days db trip (dc_terms classified) distance days ∅) now in
    classify_daily_rate_trip db pings_table trip binding = Ok classified ->
    rev_payout_rule_id <$> find_revision db (bind_revision_id binding) = Some rule ->
    NoDup days ->
    (forall d, d ∈ dom (dc_distance_m_by_day classified) -> d ∈ days) ->
    require_paycap_predecessors_processed db trip days = Ok tt ->
    payout_calculation_row_ok row = true ->
    ensure_ledger_entry [] (with_calculations (fun l => l ++ [row]) db) row = Ok (ledger, db') ->
    priced db pings_table trip analytics estimate binding now (row, ledger, true) db'.

Definition unpriced (db : payout_store) (trip : uuid) : Prop :=
  forall c, c ∈ st_calculations db -> pc_trip_session_id c ≠ trip.

Lemma calculate_trip_payout_v4_inv db pings_table trip analytics estimate binding now outcome db' :
  unpriced db (trip_id trip) ->
  calculate_trip_payout_v4 no_arrivals db pings_table trip analytics estimate binding now
    = Ok (outcome, db') ->
  priced db pings_table trip analytics estimate binding now outcome db'.
Proof.
  unfold calculate_trip_payout_v4. intros Hnew Hrun.
  ok_step Hrun as _ _. ok_step Hrun as classified Hc.
  ok_step Hrun as rule Hrule. apply require_some_Ok in Hrule.
  ok_step Hrun as _ _. cbn zeta in Hrun.
  ok_step Hrun as [] Hpred.
  cbn [no_arrivals arrived_calculations arrived_entries] in Hrun.
  rewrite with_calculations_nil in Hrun.
  set (days := priced_days _ _ _) in *.
  destruct (flush_calculation _ db) as [db1|exc] eqn:Hflush.
  - ok_step Hrun as [ledger db2] Hens. injection Hrun as <- <-.
    apply flush_calculation_store in Hflush as (-> & Hrow & _).
    apply (Priced _ _ _ _ _ _ _ classified rule days ledger db2); try done.
    + apply priced_days_nodup.
    + intros d [n Hd]%elem_of_dom. by eapply priced_days_distance.
  - exfalso. destruct (negb _); [done|].
    destruct (existing_payout_calculation _ _ _ _) as [existing|] eqn:He; [|done].
    apply find_row_Some in He as [Hin Hb]. bool_prop. by eapply Hnew.
Qed.

(** The amount stored for a day is the increment over the distance the driver's
    other trips were already credited that day. *)
Lemma priced_amount db trip terms distance days d :
  terms_ok terms -> NoDup days ->
  (forall d, 0 <= dict_get distance d) ->
  (forall d, dict_get distance d ≠ 0 -> d ∈ days) ->
  dict_get (price_days db trip terms distance days ∅) d
  = day_increment
      (day_credited_distance_m db (trip_driver_profile_id trip) (trip_campaign_id trip) d (trip_id trip))
      (dict_get distance d) terms.
Proof.
  intros Hok Hnd Hpos Hdays. unfold dict_get at 1. rewrite price_days_lookup by done.
  destruct (decide _) as [|Hno]; [done|]. rewrite lookup_empty. cbn.
  specialize (Hpos d). specialize (Hdays d).
  assert (dict_get distance d = 0) as ->.
  { destruct (Z.eq_dec (dict_get distance d) 0); [done|]. exfalso. apply Hno. split; [auto|lia]. }
  unfold day_increment. rewrite Z.add_0_r. lia.
Qed.

(** The stored distance of a priced trip: non-negative, only on days that are
    priced and that the trip touches. *)
Lemma priced_distance db pings_table trip binding classified status d :
  classify_daily_rate_trip db pings_table trip binding = Ok classified ->
  let distance : gmap Z Z := if bool_decide (status = CALCULATED)
    then filter (fun kv : Z * Z => 0 < kv.2) (dc_distance_m_by_day classified) else ∅ in
  0 <= dict_get distance d
  /\ (dict_get distance d ≠ 0 -> d ∈ dom (dc_distance_m_by_day classified)).
Proof.
  intros Hc distance. unfold distance. case_bool_decide; [apply positive_part_get|].
  unfold dict_get. rewrite lookup_empty. cbn. split; [lia|done].
Qed.

Lemma calculate_trip_payout_v4_books driver campaign terms db pings_table trip analytics estimate
    binding now outcome db' :
  day_books driver campaign terms db -> terms_ok terms ->
  priced db pings_table trip analytics estimate binding now outcome db' ->
  unpriced db (trip_id trip) -> trip ∈ st_trips db -> trip_times_ok trip ->
  ta_driver_profile_id analytics = trip_driver_profile_id trip ->
  ta_campaign_id analytics = trip_campaign_id trip ->
  (trip_driver_profile_id trip = driver -> trip_campaign_id trip = campaign ->
     daily_rate_terms binding = Ok terms) ->
  day_books driver campaign terms db'.
Proof.
  intros Hbooks Hok [classified rule days ledger db2 distance row Hc _ Hnd Hdays _ _ Hens]
    Hnew Htrip Htimes Hdriver Hcampaign Hterms.
  pose proof (fun d => priced_distance _ _ _ _ _ (payout_status analytics estimate) d Hc) as Hdist.
  cbn zeta in Hdist. fold distance in Hdist.
  apply ensure_ledger_entry_store in Hens as ([Htr _ _ _ _ _ Hor _ _] & Hcalcs & Hled).
  apply (day_books_ledger driver campaign terms (with_calculations (fun l => l ++ [row]) db));
    [|done|done|done|].
  2:{ intros e He. apply Hled in He as [?|[?|(mid & p & ->)]]; [by left|set_solver|right; eauto]. }
  destruct (is_own driver campaign row) eqn:Hown; [|by apply day_books_other].
  assert (Hmine : trip_driver_profile_id trip = driver /\ trip_campaign_id trip = campaign).
  { unfold is_own in Hown. bool_prop. cbn in *. split; congruence. }
  destruct Hmine as [Hd Hk]. specialize (Hterms Hd Hk).
  destruct (classify_daily_rate_trip_inv _ _ _ _ _ Hc) as [Ht _].
  assert (dc_terms classified = terms) as Hdc by congruence.
  assert (Hfresh : forall c, c ∈ own_calculations driver campaign db ->
    pc_trip_session_id c ≠ trip_id trip) by (intros c Hcin; apply elem_of_own in Hcin as [? _]; by apply Hnew).
  apply day_books_append; [done|done|done|done| | |].
  - intros d. apply Hdist.
  - intros d Hne. cbn in Hne. apply Hdist in Hne.
    unfold trip_overlaps_day. apply (existsb_in _ _ trip Htrip). cbn.
    rewrite bool_decide_eq_true_2 by done. by eapply classified_days_touched.
  - intros d. cbn [row new_calculation pc_amount_by_day pc_distance_m_by_day].
    rewrite priced_amount; [|by rewrite Hdc|done|intros; apply Hdist|].
    + unfold day_increment. rewrite Hd, Hk, Hdc.
      by rewrite (day_credited_distance_books driver campaign terms).
    + intros d' Hne. by apply Hdays, Hdist.
Qed.

(** ** The whole operation *)

(** The checks a trip passes before any money is computed. *)
Record admitted_trip (db : payout_store) (i : uuid) (trip : trip_session) (analytics : trip_analytics)
    (estimate : impression_estimate) (binding : assignment_rule_binding) : Prop := {
  ad_trip : trip ∈ st_trips db /\ trip_id trip = i;
  ad_sealed : trip_status trip = TRIP_SEALED;
  ad_ended : exists ended, trip_ended_at trip = Some ended;
  ad_verified : is_Some (evidence_manifest_verified_at trip) /\ verify_manifest_receipt trip = true;
  ad_analytics : analytics_of_trip db i = Some analytics
    /\ ta_formula_version analytics = route_analytics_formula_version;
  ad_estimate : get_authoritative_estimate_for_trip db i true = Some estimate
    /\ is_current_estimate estimate analytics = true;
  ad_sources : ensure_payout_sources_match trip analytics estimate = Ok tt;
  ad_binding : binding_for_assignment db (trip_assignment_id trip) = Some binding
    /\ bind_formula_version binding = PAYOUT_V4
}.

Lemma is_none_false {A} (o : option A) : is_none o = false -> exists a, o = Some a.
Proof. destruct o; [eauto|done]. Qed.

Lemma get_trip_for_payout_inv db i trip :
  get_trip_for_payout db i = Ok trip ->
  (trip ∈ st_trips db /\ trip_id trip = i) /\ trip_status trip = TRIP_SEALED
  /\ (exists ended, trip_ended_at trip = Some ended)
  /\ is_Some (evidence_manifest_verified_at trip) /\ verify_manifest_receipt trip = true.
Proof.
  unfold get_trip_for_payout. intros Hrun.
  ok_step Hrun as t Ht. apply require_some_Ok, find_row_Some in Ht as [Hin Hi].
  ok_step Hrun as u1 Hs. apply raise_if_Ok in Hs.
  ok_step Hrun as u2 Hv. apply raise_if_Ok in Hv. injection Hrun as ->.
  bool_prop. split; [done|]. split; [done|]. split; [by apply is_none_false|]. split; [|done].
  destruct (is_none_false (evidence_manifest_verified_at trip)) as [x ->]; [done|]. by exists x.
Qed.

Lemma newest_calculation_None p db :
  newest_calculation p db = None -> forall c, c ∈ st_calculations db -> p c = false.
Proof.
  unfold newest_calculation. intros Hh c Hc. destruct (p c) eqn:Hp; [|done]. exfalso.
  assert (Hin : c ∈ stable_sort (fun a b => more_recent a b || negb (more_recent b a))
                     (List.filter p (st_calculations db))).
  { rewrite stable_sort_perm. apply list_elem_of_In, filter_In. by rewrite <- list_elem_of_In. }
  destruct (stable_sort _ _); [set_solver|done].
Qed.

Inductive payout_run (db : payout_store) (pings_table : list (location_ping G)) (trip : trip_session)
    (analytics : trip_analytics) (estimate : impression_estimate) (binding : assignment_rule_binding)
    (strict : bool) (now : Z) : payout_outcome -> payout_store -> Prop :=
| run_existing revision existing ledger db' :
    find_revision db (bind_revision_id binding) = Some revision ->
    existing_payout_calculation_for_trip_any_formula db (trip_id trip) = Some existing ->
    pc_formula_version existing = PAYOUT_V4 ->
    pc_payout_rule_id existing = rev_payout_rule_id revision ->
    (strict = true -> v4_calculation_is_stale db pings_table existing trip = Ok false) ->
    ensure_ledger_entry [] db existing = Ok (ledger, db') ->
    payout_run db pings_table trip analytics estimate binding strict now (existing, ledger, false) db'
| run_new outcome db' :
    unpriced db (trip_id trip) ->
    priced db pings_table trip analytics estimate binding now outcome db' ->
    payout_run db pings_table trip analytics estimate binding strict now outcome db'.

Lemma admit_trip_inv db i rule trip analytics estimate binding revision :
  admit_trip db i rule = Ok (trip, analytics, estimate, binding, revision) ->
  admitted_trip db i trip analytics estimate binding
  /\ find_revision db (bind_revision_id binding) = Some revision.
Proof.
  unfold admit_trip. intros Hrun.
  ok_step Hrun as t Htrip.
  apply get_trip_for_payout_inv in Htrip as ([Hin <-] & Hsealed & Hended & Hverified).
  ok_step Hrun as a Ha. apply require_some_Ok in Ha.
  ok_step Hrun as ? Hf. apply raise_if_Ok in Hf.
  ok_step Hrun as e He.
  ok_step He. apply require_some_Ok in He.
  ok_step Hrun as ? Hcur. apply raise_if_Ok in Hcur.
  ok_step Hrun as [] Hsrc.
  ok_step Hrun as b Hb. apply require_some_Ok in Hb.
  ok_step Hrun as ? Hv. apply raise_if_Ok in Hv.
  ok_step Hrun as r Hrev. apply require_some_Ok in Hrev.
  ok_step Hrun. injection Hrun as -> -> -> -> ->. bool_prop.
  by split.
Qed.

Lemma calculate_trip_payout_admitted arrived db pings_table i rule strict now r :
  calculate_trip_payout arrived db pings_table i rule strict now = Ok r ->
  exists trip analytics estimate binding revision,
    admit_trip db i rule = Ok (trip, analytics, estimate, binding, revision)
    /\ match existing_payout_calculation_for_trip_any_formula db (trip_id trip) with
       | Some existing => reuse_calculation arrived db pings_table trip revision existing strict
       | None => calculate_trip_payout_v4 arrived db pings_table trip analytics estimate binding now
       end = Ok r.
Proof.
  unfold calculate_trip_payout. intros Hrun.
  ok_step Hrun as [[[[trip analytics] estimate] binding] revision] Hadm.
  by exists trip, analytics, estimate, binding, revision.
Qed.

Lemma calculate_trip_payout_run db pings_table i rule strict now outcome db' :
  calculate_trip_payout no_arrivals db pings_table i rule strict now = Ok (outcome, db') ->
  exists trip analytics estimate binding revision,
    admit_trip db i rule = Ok (trip, analytics, estimate, binding, revision)
    /\ payout_run db pings_table trip analytics estimate binding strict now outcome db'.
Proof.
  intros Hrun. apply calculate_trip_payout_admitted in Hrun
    as (trip & analytics & estimate & binding & revision & Hadm & Hrun).
  exists trip, analytics, estimate, binding, revision. split; [done|].
  apply admit_trip_inv in Hadm as [_ Hrev].
  destruct (existing_payout_calculation_for_trip_any_formula db (trip_id trip)) as [existing|] eqn:Hex.
  - unfold reuse_calculation in Hrun.
    ok_step Hrun as ? Hm. apply raise_if_Ok in Hm.
    ok_step Hrun as stale Hst. ok_step Hrun as ? Hns.
    apply raise_if_Ok in Hns as ->. ok_step Hrun as [ledger db1] Hens.
    injection Hrun as <- <-. bool_prop. eapply run_existing; try done. by intros ->.
  - assert (Hnew : unpriced db (trip_id trip)).
    { intros c Hc Heq. pose proof (newest_calculation_None _ _ Hex c Hc) as Hb'.
      by apply bool_decide_eq_false in Hb'. }
    apply run_new; [done|]. by apply calculate_trip_payout_v4_inv.
Qed.

Lemma calculate_trip_payout_inv db pings_table i rule strict now outcome db' :
  calculate_trip_payout no_arrivals db pings_table i rule strict now = Ok (outcome, db') ->
  exists trip analytics estimate binding,
    admitted_trip db i trip analytics estimate binding
    /\ payout_run db pings_table trip analytics estimate binding strict now outcome db'.
Proof.
  intros Hrun. apply calculate_trip_payout_run in Hrun
    as (trip & analytics & estimate & binding & revision & Hadm & Hrun).
  apply admit_trip_inv in Hadm as [Hadm _]. by exists trip, analytics, estimate, binding.
Qed.

(** ** Properties *)

Lemma sources_match_fields trip analytics estimate :
  ensure_payout_sources_match trip analytics estimate = Ok tt ->
  ta_driver_profile_id analytics = trip_driver_profile_id trip
  /\ ta_campaign_id analytics = trip_campaign_id trip
  /\ ta_assignment_id analytics = trip_assignment_id trip
  /\ ta_vehicle_id analytics = trip_vehicle_id trip
  /\ ie_trip_analytics_id estimate = ta_id analytics.
Proof. intros Hrun%raise_if_Ok. bool_prop. done. Qed.

(** money is computed only for a trip that exists, is sealed and ended,
    carries a verified evidence manifest, has current analytics, a current
    estimate of the same trip, driver, vehicle and campaign, and frozen
    daily-rate terms, whatever other transactions do. *)
Theorem payout_only_for_verified_sealed_trips arrived db pings_table i rule strict now r :
  calculate_trip_payout arrived db pings_table i rule strict now = Ok r ->
  exists trip analytics estimate binding,
    admitted_trip db i trip analytics estimate binding
    /\ ta_driver_profile_id analytics = trip_driver_profile_id trip
    /\ ta_campaign_id analytics = trip_campaign_id trip
    /\ ie_trip_analytics_id estimate = ta_id analytics.
Proof.
  intros Hrun. apply calculate_trip_payout_admitted in Hrun
    as (trip & analytics & estimate & binding & revision & Hadm & _).
  apply admit_trip_inv in Hadm as [Hadm _].
  exists trip, analytics, estimate, binding. split; [done|].
  pose proof (sources_match_fields _ _ _ (ad_sources _ _ _ _ _ _ Hadm)). tauto.
Qed.

(** The bindings of a driver's trips on a campaign all carry these terms, and
    every ended trip has sane times. *)
Record frozen_terms (driver campaign : uuid) (terms : daily_terms) (db : payout_store) : Prop := {
  ft_terms : forall trip binding, trip ∈ st_trips db ->
    trip_driver_profile_id trip = driver -> trip_campaign_id trip = campaign ->
    binding_for_assignment db (trip_assignment_id trip) = Some binding ->
    daily_rate_terms binding = Ok terms;
  ft_times : forall trip, trip ∈ st_trips db -> is_Some (trip_ended_at trip) -> trip_times_ok trip
}.

Lemma frozen_terms_same driver campaign terms db db' :
  same_inputs db db' -> frozen_terms driver campaign terms db -> frozen_terms driver campaign terms db'.
Proof.
  intros [Ht _ _ Hb _ _ _ _ _] [H1 H2]. split.
  - intros trip binding. unfold binding_for_assignment. rewrite Ht, Hb. apply H1.
  - rewrite Ht. exact H2.
Qed.

Lemma payout_run_inputs db pings_table trip analytics estimate binding strict now outcome db' :
  payout_run db pings_table trip analytics estimate binding strict now outcome db' -> same_inputs db db'.
Proof.
  intros [revision existing ledger db1 _ _ _ _ _ Hens|outcome1 db1 _ Hp].
  - by apply ensure_ledger_entry_store in Hens as [? _].
  - destruct Hp as [classified rule days ledger db2 distance row _ _ _ _ _ _ Hens].
    apply ensure_ledger_entry_store in Hens as [Hs _].
    eapply same_inputs_trans; [|exact Hs]. by split.
Qed.

Lemma calculate_trip_payout_books driver campaign terms db pings_table i rule strict now outcome db' :
  terms_ok terms -> frozen_terms driver campaign terms db ->
  day_books driver campaign terms db ->
  calculate_trip_payout no_arrivals db pings_table i rule strict now = Ok (outcome, db') ->
  same_inputs db db' /\ day_books driver campaign terms db'.
Proof.
  intros Hok [Hterms Htimes] Hbooks Hrun.
  apply calculate_trip_payout_inv in Hrun as (trip & analytics & estimate & binding & Hadm & Hrun).
  split; [by eapply payout_run_inputs|].
  destruct Hadm as [[Hin _] _ [ended Hended] _ _ _ Hsrc [Hb _]].
  apply sources_match_fields in Hsrc as (Hd & Hc & _).
  destruct Hrun as [revision existing ledger db1 _ _ _ _ _ Hens|outcome1 db1 Hnew Hp].
  - apply ensure_ledger_entry_store in Hens as ([Htr _ _ _ _ _ Hor _ _] & Hcalcs & Hled).
    eapply day_books_ledger; [exact Hbooks|done|done|done|].
    intros e He. apply Hled in He as [?|[?|(mid & p & ->)]]; [by left|set_solver|right; eauto].
  - eapply calculate_trip_payout_v4_books; try done.
    + apply Htimes; [done|]. by exists ended.
    + intros. by eapply Hterms.
Qed.

(** ** Any sequence of trips *)

Record payout_call := PayoutCall {
  call_pings : list (location_ping G);
  call_trip : uuid;
  call_rule : option uuid;
  call_strict : bool;
  call_now : Z
}.

(** Calls in some order, each in its transaction: a raised error rolls it back.
    The paycap locks make each call's reads and writes one step. *)
Fixpoint run_payouts (calls : list payout_call) (db : payout_store) : payout_store :=
  match calls with
  | [] => db
  | k :: calls =>
      run_payouts calls
        match calculate_trip_payout no_arrivals db (call_pings k) (call_trip k) (call_rule k)
                (call_strict k) (call_now k) with
        | Ok (_, db') => db'
        | Raise _ => db
        end
  end.

Lemma run_payouts_books driver campaign terms calls db :
  terms_ok terms -> frozen_terms driver campaign terms db -> day_books driver campaign terms db ->
  day_books driver campaign terms (run_payouts calls db).
Proof.
  intros Hok. revert db. induction calls as [|k calls IH]; intros db Hterms Hbooks; [done|].
  cbn [run_payouts]. destruct (calculate_trip_payout _ _ _ _ _ _ _) as [[outcome db']|e] eqn:Hrun;
    [|by apply IH].
  destruct (calculate_trip_payout_books _ _ _ _ _ _ _ _ _ _ _ Hok Hterms Hbooks Hrun).
  apply IH; [|done]. by eapply frozen_terms_same.
Qed.

Lemma day_books_start driver campaign terms db :
  uncorrected db -> own_calculations driver campaign db = [] -> day_books driver campaign terms db.
Proof.
  intros Hun Hnil. split; [done|rewrite Hnil..|].
  - constructor.
  - set_solver.
  - set_solver.
  - intros d. unfold day_amount, day_distance. by rewrite Hnil.
Qed.

(** C5: in whatever order a driver's trips are priced, retried or rejected, the
    increments stored for a Lagos day add up to the day's pay for the whole
    distance credited that day, and so never exceed the day rate. *)
Theorem day_earnings_equal_day_pay driver campaign terms calls db d :
  terms_ok terms -> frozen_terms driver campaign terms db ->
  uncorrected db -> own_calculations driver campaign db = [] ->
  let db' := run_payouts calls db in
  day_amount driver campaign db' d = day_pay_naira (day_distance driver campaign db' d) terms
  /\ 0 <= day_amount driver campaign db' d <= daily_rate_naira terms.
Proof.
  intros Hok Hterms Hun Hnil db'.
  assert (Hb : day_books driver campaign terms db')
    by (apply run_payouts_books; [done|done|by apply day_books_start]).
  rewrite (bk_priced _ _ _ _ Hb). split; [done|].
  by apply day_pay_bounds.
Qed.

Lemma price_no_days db trip terms days : NoDup days -> price_days db trip terms ∅ days ∅ = ∅.
Proof.
  intros Hnd. apply map_eq. intros d. rewrite price_days_lookup by done. rewrite decide_False; [done|].
  intros [_ Hd]. unfold dict_get in Hd. rewrite lookup_empty in Hd. cbn in Hd. lia.
Qed.

Lemma ensure_ledger_entry_not_due arrived db c r :
  ledger_for_calculation db (pc_id c) = None -> pc_status c <> CALCULATED ->
  ensure_ledger_entry arrived db c = Ok r -> r = (None, db).
Proof.
  intros Hno Hs. unfold ensure_ledger_entry. rewrite Hno, bool_decide_eq_false_2 by done.
  by intros [= <-].
Qed.

(** a trip whose analytics or estimate are insufficient or blocked is
    stored with no distance, no pay, and no ledger entry. *)
Theorem ineligible_trip_earns_nothing db pings_table i rule strict now c ledger db' :
  calculate_trip_payout no_arrivals db pings_table i rule strict now = Ok ((c, ledger, true), db') ->
  pc_status c <> CALCULATED ->
  pc_distance_m_by_day c = ∅ /\ pc_amount_by_day c = ∅ /\ pc_final_payout c = 0
  /\ (ledger_for_calculation db (pc_id c) = None -> ledger = None).
Proof.
  intros Hrun Hs. apply calculate_trip_payout_inv in Hrun
    as (trip & analytics & estimate & binding & _ & Hrun).
  inversion Hrun as [|outcome1 db1 _ Hp]; subst.
  inversion Hp as [classified r days l db2 distance row _ _ Hnd _ _ _ Hens]; subst.
  assert (Hd : distance = ∅) by (unfold distance; by rewrite bool_decide_eq_false_2).
  clearbody distance. subst distance. cbn [row new_calculation pc_distance_m_by_day pc_amount_by_day
    pc_final_payout]. rewrite price_no_days by done. repeat (split; [done || apply map_sum_empty|]).
  intros Hno. apply ensure_ledger_entry_not_due in Hens; [congruence|exact Hno|exact Hs].
Qed.

(** ** Retrying a call *)

(** What a call reads before money is computed only depends on its inputs. *)
Lemma classify_same_inputs db db' pings_table trip binding :
  same_inputs db db' ->
  classify_daily_rate_trip db' pings_table trip binding = classify_daily_rate_trip db pings_table trip binding.
Proof.
  intros [_ _ _ _ _ Hrev _ Hcut _]. unfold classify_daily_rate_trip, find_revision,
    payout_time_bounds, campaign_financial_cutoff. by rewrite Hrev, Hcut.
Qed.

Lemma stale_same_inputs db db' pings_table c trip :
  same_inputs db db' ->
  v4_calculation_is_stale db' pings_table c trip = v4_calculation_is_stale db pings_table c trip.
Proof.
  intros Hsame. unfold v4_calculation_is_stale, binding_for_assignment. rewrite (si_bindings _ _ Hsame).
  destruct (find_row _ _); [|done]. by rewrite (classify_same_inputs _ _ _ _ _ Hsame).
Qed.

Lemma admit_same_inputs db db' i rule :
  same_inputs db db' -> admit_trip db' i rule = admit_trip db i rule.
Proof.
  intros [Ht Ha He Hb _ Hr _ _ _].
  unfold admit_trip, get_trip_for_payout, get_analytics_for_trip, get_impression_estimate_for_trip,
    get_authoritative_estimate_for_trip, analytics_of_trip, binding_for_assignment, find_revision.
  by rewrite Ht, Ha, He, Hb, Hr.
Qed.

Lemma find_new_calculation db row :
  unpriced db (pc_trip_session_id row) -> forall db', st_calculations db' = st_calculations db ++ [row] ->
  existing_payout_calculation_for_trip_any_formula db' (pc_trip_session_id row) = Some row.
Proof.
  intros Hnew db' Hc. unfold existing_payout_calculation_for_trip_any_formula, newest_calculation.
  rewrite Hc, List.filter_app, filter_all_false; cbn.
  - by rewrite bool_decide_eq_true_2.
  - intros c Hin. by apply bool_decide_eq_false_2, Hnew.
Qed.

Lemma fresh_not_stale db pings_table trip binding classified c :
  classify_daily_rate_trip db pings_table trip binding = Ok classified ->
  binding_for_assignment db (trip_assignment_id trip) = Some binding ->
  bind_formula_version binding = PAYOUT_V4 ->
  pc_currency c = bind_currency binding ->
  pc_inputs_fingerprint c = dc_inputs_fingerprint classified ->
  v4_calculation_is_stale db pings_table c trip = Ok false.
Proof.
  intros Hc Hb Hf Hcur Hfp. unfold v4_calculation_is_stale.
  assert (Hw : bind_campaign_window_frozen binding = true).
  { unfold classify_daily_rate_trip in Hc.
    ok_step Hc. ok_step Hc.
    ok_step Hc. apply bind_Ok in Hc as (window & Hw & _).
    unfold frozen_campaign_window in Hw. apply bind_Ok in Hw as (? & Hw & _).
    apply raise_if_Ok in Hw. by bool_prop. }
  rewrite Hb, Hw, Hc, bool_decide_eq_true_2 by done. cbn.
  by rewrite !bool_decide_eq_true_2.
Qed.

(** calculations are write-once: a successful call stores at most one new
    calculation and alters none, and calling it again at any later time
    answers the same calculation and ledger entry, as existing, without
    changing anything; a freshly priced trip is never stale. *)
Theorem calculate_trip_payout_write_once db pings_table i rule strict now c ledger created db' :
  calculate_trip_payout no_arrivals db pings_table i rule strict now = Ok ((c, ledger, created), db') ->
  st_calculations db' = (if created then st_calculations db ++ [c] else st_calculations db)
  /\ (forall now', calculate_trip_payout no_arrivals db' pings_table i rule strict now'
       = Ok ((c, ledger, false), db'))
  /\ (created = true -> forall trip, trip ∈ st_trips db -> trip_id trip = i ->
       NoDup (trip_id <$> st_trips db) -> v4_calculation_is_stale db' pings_table c trip = Ok false).
Proof.
  intros Hrun. apply calculate_trip_payout_run in Hrun
    as (trip & analytics & estimate & binding & revision & Hadm & Hrun).
  pose proof (payout_run_inputs _ _ _ _ _ _ _ _ _ _ Hrun) as Hsame.
  pose proof (admit_trip_inv _ _ _ _ _ _ _ _ Hadm) as [[[Hin Hi] _ _ _ _ _ _ [Hb Hf]] Hrev].
  inversion Hrun as [revision' existing l db1 Hrev' Hex Hfv Hrule Hst Hens|outcome1 db1 Hnew Hp]; subst.
  - pose proof (ensure_ledger_entry_store _ _ _ _ _ Hens) as (_ & Hcalcs & _).
    split; [done|]. split; [|done]. intros now'.
    unfold calculate_trip_payout. rewrite (admit_same_inputs _ _ _ _ Hsame), Hadm.
    cbn [mbind result_bind]. 
    unfold existing_payout_calculation_for_trip_any_formula, newest_calculation in *.
    rewrite Hcalcs, Hex. unfold reuse_calculation.
    assert (revision' = revision) as -> by congruence.
    rewrite !bool_decide_eq_true_2 by done. cbn [negb orb raise_if mbind result_bind].
    rewrite (stale_same_inputs _ _ _ _ _ Hsame).
    replace (if strict then v4_calculation_is_stale db pings_table c trip else mret false)
      with (Ok false) by (destruct strict; [by rewrite Hst|done]).
    cbn [raise_if mbind result_bind no_arrivals arrived_entries].
    by rewrite (ensure_ledger_entry_again _ _ _ _ _ Hens).
  - inversion Hp as [classified r days l db2 distance row Hc Hr Hnd _ _ _ Hens]; subst.
    pose proof (ensure_ledger_entry_store _ _ _ _ _ Hens) as (_ & Hcalcs & _).
    assert (Hstale : v4_calculation_is_stale db' pings_table row trip = Ok false).
    { rewrite (stale_same_inputs _ _ _ _ _ Hsame). by eapply fresh_not_stale. }
    split; [done|]. split.
    + intros now'. unfold calculate_trip_payout. rewrite (admit_same_inputs _ _ _ _ Hsame), Hadm.
      cbn [mbind result_bind].
      pose proof (find_new_calculation db row Hnew db' Hcalcs) as Hfind.
      change (pc_trip_session_id row) with (trip_id trip) in Hfind.
      rewrite Hfind. unfold reuse_calculation.
      rewrite Hrev in Hr. injection Hr as Hr.
      rewrite !bool_decide_eq_true_2 by done. cbn [negb orb raise_if mbind result_bind].
      replace (if strict then v4_calculation_is_stale db' pings_table row trip else mret false)
        with (Ok false) by (by destruct strict).
      cbn [raise_if mbind result_bind no_arrivals arrived_entries].
      by rewrite (ensure_ledger_entry_again _ _ _ _ _ Hens).
    + intros _ trip' Hin' Hi' Hids. assert (trip' = trip) as ->; [|done].
      eapply nodup_key_inj; eauto.
Qed.
End Pricing.
End Engine.

(** ** A worked trip *)

Module PayoutSample.
Import RationalFloat.

(** A point is a flag: inside the target zone or not. *)
Definition intersects (wkt : string) (inside : bool) : bool :=
  bool_decide (wkt = "target"%string) && inside.

Definition snapshot : gmap string Q :=
  list_to_map [("stationary_radius_m", 200 # 1); ("stationary_window_seconds", 300 # 1);
    ("stationary_grace_seconds", 0 # 1); ("max_accuracy_m", 75 # 1); ("teleport_kmh", 180 # 1);
    ("max_ping_gap_seconds", 120 # 1)]%string.

Definition binding : assignment_rule_binding :=
  AssignmentRuleBinding 1 2 3 (Some 300000) (Some 30000) (Some "proportional"%string) None
    (Some 0) (Some 0) "NGN" ∅ (Some snapshot) PAYOUT_V4 [] "" ["target"%string] [] "" []
    STATIONARY_POLICY_D39 None None true None 0.

Definition trip : trip_session :=
  TripSession 10 2 4 5 6 TRIP_SEALED (9 * hour) (Some (9 * hour + 120 * second)) (Some (10 * hour)).

Definition revision : campaign_payout_rule_revision :=
  CampaignPayoutRuleRevision 3 4 7 1 0 (Some 300000) (Some 30000) (Some "proportional"%string) None
    (Some 0) (Some 0) "NGN" ∅ PAYOUT_V4 "launch" 1.

Definition store (estimate_status : impression_estimate_status) : payout_store :=
  {| st_trips := [trip];
     st_analytics := [TripAnalytics 20 10 2 4 5 6 TA_COMPUTED "route_analytics_v1" 0 0];
     st_estimates := [ImpressionEstimate 30 10 20 2 4 5 6 "imp" true estimate_status];
     st_bindings := [binding]; st_campaigns := [CampaignRow 4 90 "NGN"]; st_rules := [];
     st_revisions := [revision]; st_calculations := []; st_ledger := []; st_orders := [];
     st_lines := []; st_intents := []; st_offsets := []; st_profiles := [DriverProfile 5 50];
     st_cutoffs := []; st_audit := [] |}.

(** Three pings a minute apart, 556 m from each other, in the target zone. *)
Definition pings : list (location_ping (F:=Q) bool) :=
  (fun n => {| lp_id := (100 + n)%N; lp_trip_session_id := 10%N;
     lp_recorded_at := 9 * hour + Z.of_N n * 60 * second; lp_sequence_number := Some (Z.of_N n);
     lp_latitude := Z.of_N n * 5 # 1000; lp_longitude := 3 # 1; lp_accuracy_m := Some (10 # 1);
     lp_geom := true; lp_created_at := 0 |}) <$> [0; 1; 2]%N.

Definition digest (ids : list uuid) : string := "pings".
Definition inputs_digest (g : governing_values Q) (p : string) (w : option Z) : string := "inputs".

Definition calculate (db : payout_store) : result (payout_outcome * payout_store) :=
  calculate_trip_payout (F:=Q) intersects (fun _ => true) (fun _ _ => true) digest inputs_digest
    "route_analytics_v1" "imp" no_arrivals db pings 10 None true (12 * hour).

Definition paid_calculation : payout_calculation :=
  match calculate (store IE_ESTIMATED) with Ok ((c, _, _), _) => c | Raise _ => sample_calculation end.
Definition paid_store : payout_store :=
  match calculate (store IE_ESTIMATED) with Ok (_, db) => db | Raise _ => sample_store end.
Definition paid_ledger : option ledger_entry :=
  match calculate (store IE_ESTIMATED) with Ok ((_, l, _), _) => l | Raise _ => None end.

(** 1,111 m at N3,000 for 30 miles are N69.03. *)
Lemma trip_is_paid :
  calculate (store IE_ESTIMATED) = Ok ((paid_calculation, paid_ledger, true), paid_store)
  /\ pc_final_payout paid_calculation = 6903 /\ le_amount <$> paid_ledger = Some 6903.
Proof. split; [vm_compute; reflexivity|]. split; vm_compute; reflexivity. Qed.

Definition blocked_calculation : payout_calculation :=
  match calculate (store IE_EXCLUDED) with Ok ((c, _, _), _) => c | Raise _ => sample_calculation end.
Definition blocked_store : payout_store :=
  match calculate (store IE_EXCLUDED) with Ok (_, db) => db | Raise _ => sample_store end.

Lemma blocked_trip : calculate (store IE_EXCLUDED) = Ok ((blocked_calculation, None, true), blocked_store).
Proof. vm_compute. reflexivity. Qed.

Definition terms : daily_terms := DailyRateTerms 300000 30000 0 0.
Definition call : payout_call := PayoutCall pings 10 None true (12 * hour).
Definition run (calls : list payout_call) (db : payout_store) : payout_store :=
  run_payouts (F:=Q) intersects (fun _ => true) (fun _ _ => true) digest inputs_digest
    "route_analytics_v1" "imp" calls db.

Lemma store_frozen : frozen_terms 5 4 terms (store IE_ESTIMATED).
Proof.
  split.
  - intros t b Ht _ _ Hb. apply list_elem_of_singleton in Ht as ->. vm_compute in Hb.
    injection Hb as <-. reflexivity.
  - intros t Ht _. apply list_elem_of_singleton in Ht as ->. exists (9 * hour + 120 * second).
    split; [reflexivity|]. vm_compute. split; [discriminate|reflexivity].
Qed.

Lemma store_uncorrected s : uncorrected (store s).
Proof. split; cbn; set_solver. Qed.
End PayoutSample.
Import RationalFloat.

Lemma payout_only_for_verified_sealed_trips_witness :
  exists trip, trip ∈ [PayoutSample.trip] /\ trip_id trip = 10%N /\ trip_status trip = TRIP_SEALED.
Proof.
  destruct (payout_only_for_verified_sealed_trips (F:=Q) PayoutSample.intersects (fun _ => true)
    (fun _ _ => true) PayoutSample.digest PayoutSample.inputs_digest "route_analytics_v1" "imp"
    no_arrivals (PayoutSample.store IE_ESTIMATED) PayoutSample.pings 10 None true (12 * hour)
    (PayoutSample.paid_calculation, PayoutSample.paid_ledger, true, PayoutSample.paid_store)
    (proj1 PayoutSample.trip_is_paid)) as (trip & a & e & b & [[? ?] ? _ _ _ _ _ _] & _).
  by exists trip.
Defined.

Lemma day_earnings_equal_day_pay_witness :
  let db := PayoutSample.run [PayoutSample.call; PayoutSample.call] (PayoutSample.store IE_ESTIMATED) in
  day_amount 5 4 db 0 = 6903
  /\ day_amount 5 4 db 0 = day_pay_naira (day_distance 5 4 db 0) PayoutSample.terms.
Proof.
  split; [vm_compute; reflexivity|].
  unfold PayoutSample.run.
  destruct (day_earnings_equal_day_pay (F:=Q) PayoutSample.intersects (fun _ => true) (fun _ _ => true)
    PayoutSample.digest PayoutSample.inputs_digest "route_analytics_v1" "imp" 5 4 PayoutSample.terms
    [PayoutSample.call; PayoutSample.call] (PayoutSample.store IE_ESTIMATED) 0) as [Hpay _].
  - split; vm_compute; [discriminate|reflexivity].
  - apply PayoutSample.store_frozen.
  - apply PayoutSample.store_uncorrected.
  - reflexivity.
  - exact Hpay.
Defined.

Lemma ineligible_trip_earns_nothing_witness :
  pc_status PayoutSample.blocked_calculation = BLOCKED
  /\ pc_final_payout PayoutSample.blocked_calculation = 0.
Proof.
  split; [vm_compute; reflexivity|].
  destruct (ineligible_trip_earns_nothing (F:=Q) PayoutSample.intersects (fun _ => true) (fun _ _ => true)
    PayoutSample.digest PayoutSample.inputs_digest "route_analytics_v1" "imp"
    (PayoutSample.store IE_EXCLUDED) PayoutSample.pings 10 None true (12 * hour)
    PayoutSample.blocked_calculation None PayoutSample.blocked_store
    PayoutSample.blocked_trip ltac:(vm_compute; discriminate)) as (_ & _ & Hpay & _).
  exact Hpay.
Defined.

Lemma calculate_trip_payout_write_once_witness :
  PayoutSample.calculate PayoutSample.paid_store
  = Ok ((PayoutSample.paid_calculation, PayoutSample.paid_ledger, false), PayoutSample.paid_store).
Proof.
  unfold PayoutSample.calculate.
  destruct (calculate_trip_payout_write_once (F:=Q) PayoutSample.intersects (fun _ => true)
    (fun _ _ => true) PayoutSample.digest PayoutSample.inputs_digest "route_analytics_v1" "imp"
    (PayoutSample.store IE_ESTIMATED) PayoutSample.pings 10 None true (12 * hour)
    PayoutSample.paid_calculation PayoutSample.paid_ledger true PayoutSample.paid_store
    (proj1 PayoutSample.trip_is_paid)) as (_ & Hagain & _).
  exact (Hagain (12 * hour)).
Defined.
