(* ===== verification/Rules.v ===== *)
(** Publishing daily-rate revisions ([app/services/payouts/rules.py]). *)

From S2P Require Import Prelude Eligibility PayoutData DailyRate.
From stdpp Require Import base list strings gmap sorting.
From Stdlib Require Import ZArith QArith Lia.
#[local] Open Scope Z_scope.

(** [CampaignPayoutV4RevisionCreate] of [app/schemas/payouts.py]: kobo and
    thousandths of a mile. *)
Record v4_revision_create := V4RevisionCreate {
  rc_effective_from : datetime;
  rc_daily_rate_naira : kobo;
  rc_daily_target_miles : Z;
  rc_reason : string
}.

(** What the schema lets through. *)
Definition revision_create_ok (payload : v4_revision_create) : bool :=
  (0 <? rc_daily_rate_naira payload) && (rc_daily_rate_naira payload <? 10 ^ 14)
  && (0 <? rc_daily_target_miles payload) && (rc_daily_target_miles payload <? 10 ^ 10)
  && negb (is_none (utcoffset (rc_effective_from payload)))
  && negb (bool_decide (rc_reason payload = ""%string)).

Definition RULE_REVISION_UNIQUE_CONSTRAINTS : list string :=
  [ "uq_campaign_payout_rule_revisions_campaign_number";
    "uq_campaign_payout_rule_revisions_campaign_effective" ]%string.

Definition is_rule_revision_unique_conflict (exc : exn) : bool :=
  match exc with
  | IntegrityError name => bool_decide (name ∈ RULE_REVISION_UNIQUE_CONSTRAINTS)
  | _ => false
  end.

Definition invalid_rule_revision : exn := AppError "INVALID_PAYOUT_RULE_REVISION" 400.
Definition rule_revision_conflict : exn := AppError "PAYOUT_RULE_REVISION_CONFLICT" 409.

Definition get_campaign (db : payout_store) (campaign_id : uuid) : result campaign_row :=
  require_some (find_row (fun k => bool_decide (camp_id k = campaign_id)) (st_campaigns db))
    (AppError "CAMPAIGN_NOT_FOUND" 404).

Definition campaign_revisions (campaign_id : uuid) (l : list campaign_payout_rule_revision)
    : list campaign_payout_rule_revision :=
  List.filter (fun r => bool_decide (rev_campaign_id r = campaign_id)) l.

(** [ORDER BY revision_number DESC LIMIT 1] *)
Definition latest_payout_rule_revision (db : payout_store) (campaign_id : uuid)
    : option campaign_payout_rule_revision :=
  head (stable_sort (fun a b => rev_revision_number b <=? rev_revision_number a)
    (campaign_revisions campaign_id (st_revisions db))).

Definition active_rule (db : payout_store) (campaign_id : uuid) : option campaign_payout_rule :=
  find_row (fun r => bool_decide (rule_campaign_id r = campaign_id) && rule_active r) (st_rules db).

(** [uq_campaign_payout_rules_active_campaign] *)
Definition active_rule_key (r : campaign_payout_rule) : option uuid :=
  if rule_active r then Some (rule_campaign_id r) else None.

(** [PAYOUT_TERMS_SHAPE_SQL] and the other constraints of a revision row. *)
Definition revision_row_ok (r : campaign_payout_rule_revision) : bool :=
  (1 <=? rev_revision_number r)
  && currency_code_sql (rev_currency r)
  && bool_decide (rev_formula_version r = PAYOUT_V4)
  && match rev_daily_rate_naira r with Some x => 0 <? x | None => false end
  && match rev_daily_target_miles r with Some x => 0 <? x | None => false end
  && bool_decide (rev_minimum_miles r = Some 0)
  && bool_decide (rev_outside_area_weight r = Some 0)
  && bool_decide (rev_shortfall_strategy r = Some "proportional"%string)
  && bool_decide (rev_deduction_per_mile_naira r = None).

Definition revision_number_key (r : campaign_payout_rule_revision) : option (uuid * Z) :=
  Some (rev_campaign_id r, rev_revision_number r).
Definition revision_effective_key (r : campaign_payout_rule_revision) : option (uuid * Z) :=
  Some (rev_campaign_id r, rev_effective_from r).

Definition flush_revision (row : campaign_payout_rule_revision) (db : payout_store)
    : result payout_store :=
  raise_if (negb (revision_row_ok row)) (IntegrityError "ck_campaign_payout_rule_revisions") ;;
  raise_if (conflicts revision_number_key row (st_revisions db))
    (IntegrityError "uq_campaign_payout_rule_revisions_campaign_number") ;;
  raise_if (conflicts revision_effective_key row (st_revisions db))
    (IntegrityError "uq_campaign_payout_rule_revisions_campaign_effective") ;;
  mret (with_revisions (fun l => l ++ [row]) db).

Definition flush_rule (row : campaign_payout_rule) (db : payout_store) : result payout_store :=
  raise_if (negb (currency_code_sql (rule_currency row)
                  && bool_decide (rule_formula_version row = PAYOUT_V4)))
    (IntegrityError "ck_campaign_payout_rules") ;;
  raise_if (conflicts active_rule_key row (st_rules db))
    (IntegrityError "uq_campaign_payout_rules_active_campaign") ;;
  mret (with_rules (fun l => l ++ [row]) db).

(** The server's stop rule, as stored. *)
Definition D39_STOP_OVERLAY : gmap string Q :=
  list_to_map [("stationary_window_min", 5 # 1); ("stationary_grace_min", 0 # 1)]%string.

(** The rule a new revision extends: the active one or a new one. *)
Definition rule_for_revision (db : payout_store) (campaign : campaign_row)
    (rule : option campaign_payout_rule) (actor_user_id : uuid)
    : result (campaign_payout_rule * option campaign_payout_rule * payout_store) :=
  match rule with
  | Some r => mret (r, None, db)
  | None =>
      currency ← validate_currency_code (Some (camp_currency campaign)) None;
      let row := CampaignPayoutRule (uuid4 (rule_id <$> st_rules db)) (camp_id campaign) actor_user_id
                   PAYOUT_V4 true (default "" currency) in
      db ← flush_rule row db;
      mret (row, Some row, db)
  end.

Definition new_revision (db : payout_store) (campaign_id : uuid) (payload : v4_revision_create)
    (rule : campaign_payout_rule) (latest : option campaign_payout_rule_revision)
    (actor_user_id : uuid) : campaign_payout_rule_revision :=
  {| rev_id := uuid4 (rev_id <$> st_revisions db);
     rev_campaign_id := campaign_id;
     rev_payout_rule_id := rule_id rule;
     rev_revision_number := match latest with Some l => rev_revision_number l + 1 | None => 1 end;
     rev_effective_from := utc_of (rc_effective_from payload);
     rev_daily_rate_naira := Some (rc_daily_rate_naira payload);
     rev_daily_target_miles := Some (rc_daily_target_miles payload);
     rev_shortfall_strategy := Some "proportional"%string;
     rev_deduction_per_mile_naira := None;
     rev_minimum_miles := Some 0;
     rev_outside_area_weight := Some 0;
     rev_currency := rule_currency rule;
     rev_eligibility_params := D39_STOP_OVERLAY;
     rev_formula_version := PAYOUT_V4;
     rev_reason := rc_reason payload;
     rev_created_by_user_id := actor_user_id |}.

Definition publish_outcome : Type :=
  campaign_payout_rule_revision * option campaign_payout_rule_revision * option campaign_payout_rule.

(** [arrived] are revisions other transactions commit before the flush;
    [db_now] is the database clock. *)
Definition publish_payout_v4_revision (arrived : list campaign_payout_rule_revision)
    (db : payout_store) (campaign_id : uuid) (payload : v4_revision_create) (actor_user_id : uuid)
    (db_now : Z) : result (publish_outcome * payout_store) :=
  campaign ← get_campaign db campaign_id;
  let rule := active_rule db campaign_id in
  raise_if match rule with
           | Some r => negb (bool_decide (rule_formula_version r = PAYOUT_V4))
           | None => false
           end invalid_rule_revision ;;
  let latest := latest_payout_rule_revision db campaign_id in
  raise_if match latest with
           | Some l => utc_of (rc_effective_from payload) <=? rev_effective_from l
           | None => false
           end invalid_rule_revision ;;
  raise_if (utc_of (rc_effective_from payload) <? db_now) invalid_rule_revision ;;
  r ← rule_for_revision db campaign rule actor_user_id;
  let '(rule, created_rule, db) := r in
  let db := with_revisions (fun l => l ++ arrived) db in
  let revision := new_revision db campaign_id payload rule latest actor_user_id in
  match flush_revision revision db with
  | Ok db => mret ((revision, latest, created_rule), db)
  | Raise exc =>
      if is_rule_revision_unique_conflict exc then Raise rule_revision_conflict else Raise exc
  end.

(** ** The revision chain *)

(** A campaign's revisions, oldest first: numbered from one without gaps, each
    taking effect strictly after the one before, with complete terms. *)
Record revision_chain (l : list campaign_payout_rule_revision) : Prop := {
  rch_numbers : rev_revision_number <$> l = Z.of_nat <$> seq 1 (length l);
  rch_effective : StronglySorted Z.lt (rev_effective_from <$> l);
  rch_rows : Forall (fun r => revision_row_ok r = true) l
}.

Lemma chain_lookup l i r :
  revision_chain l -> l !! i = Some r -> rev_revision_number r = Z.of_nat (S i).
Proof.
  intros [Hn _ _] Hi. assert (Hl : (rev_revision_number <$> l) !! i = Some (rev_revision_number r))
    by (by rewrite list_lookup_fmap, Hi).
  rewrite Hn, list_lookup_fmap in Hl.
  destruct (seq 1 (length l) !! i) as [n|] eqn:Hs; [|done]. apply lookup_seq in Hs as [-> _].
  injection Hl as <-. lia.
Qed.

Lemma latest_revision_of_chain db campaign_id :
  revision_chain (campaign_revisions campaign_id (st_revisions db)) ->
  latest_payout_rule_revision db campaign_id = last (campaign_revisions campaign_id (st_revisions db)).
Proof.
  intros Hc. unfold latest_payout_rule_revision.
  set (l := campaign_revisions campaign_id (st_revisions db)) in *. clearbody l.
  set (le := fun a b => rev_revision_number b <=? rev_revision_number a).
  assert (Hs : StronglySorted (fun a b => le a b = true) (stable_sort le l)).
  { apply stable_sort_sorted; unfold le.
    - intros x y z ?%Z.leb_le ?%Z.leb_le. apply Z.leb_le. lia.
    - intros x y ?%Z.leb_gt. apply Z.leb_le. lia. }
  pose proof (stable_sort_perm le l) as Hp.
  destruct (stable_sort le l) as [|m rest] eqn:Hm; cbn [head].
  { apply Permutation_nil_l in Hp. subst l. reflexivity. }
  assert (Hin : m ∈ l) by (rewrite <- Hp; left).
  apply list_elem_of_lookup in Hin as [i Hi].
  assert (Hlen : length l <> 0%nat) by (apply lookup_lt_Some in Hi; lia).
  rewrite last_lookup. destruct (lookup_lt_is_Some_2 l (pred (length l)) ltac:(lia)) as [r Hr].
  rewrite Hr. f_equal.
  assert (Hrm : rev_revision_number r <= rev_revision_number m).
  { assert (Hrin : r ∈ m :: rest) by (rewrite Hp; by eapply list_elem_of_lookup_2).
    apply elem_of_cons in Hrin as [->|Hrin]; [lia|].
    apply StronglySorted_inv in Hs as [_ Hall]. rewrite Forall_forall in Hall.
    specialize (Hall _ Hrin). by apply Z.leb_le in Hall. }
  rewrite (chain_lookup _ _ _ Hc Hi), (chain_lookup _ _ _ Hc Hr) in Hrm.
  pose proof (lookup_lt_Some _ _ _ Hi). assert (i = pred (length l)) as -> by lia. congruence.
Qed.

Lemma chain_snoc l r :
  revision_chain l -> revision_row_ok r = true ->
  rev_revision_number r = Z.of_nat (S (length l)) ->
  (forall r', last l = Some r' -> rev_effective_from r' < rev_effective_from r) ->
  revision_chain (l ++ [r]).
Proof.
  intros [Hn He Hr] Hok Hnum Heff. split.
  - rewrite fmap_app, length_app, seq_app, fmap_app, Hn. cbn. f_equal. f_equal. rewrite Hnum. lia.
  - rewrite fmap_app. apply StronglySorted_app_2; [|done|cbn; repeat constructor].
    intros x y Hx Hy. apply list_elem_of_singleton in Hy as ->.
    apply list_elem_of_fmap in Hx as (r' & -> & Hin).
    apply list_elem_of_lookup in Hin as [i Hi]. pose proof (lookup_lt_Some _ _ _ Hi).
    rewrite last_lookup in Heff.
    destruct (lookup_lt_is_Some_2 l (pred (length l)) ltac:(lia)) as [z Hz].
    specialize (Heff z Hz). destruct (Nat.eq_dec i (pred (length l))) as [->|Hne]; [congruence|].
    assert (rev_effective_from r' < rev_effective_from z); [|lia].
    eapply (StronglySorted_lookup _ _ i (pred (length l))); [exact He| | |lia].
    + by rewrite list_lookup_fmap, Hi.
    + by rewrite list_lookup_fmap, Hz.
  - apply Forall_app. split; [done|]. by apply Forall_singleton.
Qed.

Lemma flush_revision_store row db db' :
  flush_revision row db = Ok db' ->
  db' = with_revisions (fun l => l ++ [row]) db /\ revision_row_ok row = true.
Proof. unfold flush_revision. intros Hrun. inv_ok. by bool_prop. Qed.

Lemma rule_for_revision_store db campaign rule actor r created db' :
  rule_for_revision db campaign rule actor = Ok (r, created, db') ->
  st_revisions db' = st_revisions db.
Proof.
  unfold rule_for_revision. destruct rule as [r0|]; intros Hrun; [by injection Hrun as <- <- <-|].
  ok_step Hrun as currency _. cbn zeta in Hrun.
  ok_step Hrun as db1 Hf. injection Hrun as <- <- <-.
  unfold flush_rule in Hf. by inv_ok.
Qed.

Lemma campaign_revisions_snoc campaign_id l r : rev_campaign_id r = campaign_id ->
  campaign_revisions campaign_id (l ++ [r]) = campaign_revisions campaign_id l ++ [r].
Proof.
  intros Hr. unfold campaign_revisions. rewrite List.filter_app. cbn.
  by rewrite bool_decide_eq_true_2.
Qed.

Lemma with_revisions_nil db : with_revisions (fun l => l ++ []) db = db.
Proof. destruct db. unfold with_revisions. cbn. by rewrite app_nil_r. Qed.

(** publishing appends one revision to the campaign's chain and to no
    other: numbers stay 1..n without gaps, effective times strictly increase,
    the new terms are the payload's and never take effect before the database
    clock or at or before the previous revision, so history is never repriced. *)
Theorem publish_extends_chain db campaign_id payload actor db_now revision previous created db' :
  revision_chain (campaign_revisions campaign_id (st_revisions db)) ->
  publish_payout_v4_revision [] db campaign_id payload actor db_now
    = Ok ((revision, previous, created), db') ->
  st_revisions db' = st_revisions db ++ [revision]
  /\ revision_chain (campaign_revisions campaign_id (st_revisions db'))
  /\ rev_campaign_id revision = campaign_id
  /\ previous = last (campaign_revisions campaign_id (st_revisions db))
  /\ db_now <= rev_effective_from revision
  /\ rev_daily_rate_naira revision = Some (rc_daily_rate_naira payload)
  /\ rev_daily_target_miles revision = Some (rc_daily_target_miles payload).
Proof.
  intros Hchain Hrun. unfold publish_payout_v4_revision in Hrun.
  ok_step Hrun as campaign Hc. ok_step Hrun.
  ok_step Hrun as ? Hprev. apply raise_if_Ok in Hprev.
  ok_step Hrun as ? Hnow. apply raise_if_Ok in Hnow. apply Z.ltb_ge in Hnow.
  ok_step Hrun as [[rule made] db1] Hrule.
  apply rule_for_revision_store in Hrule. cbn zeta in Hrun. rewrite with_revisions_nil in Hrun.
  destruct (flush_revision _ db1) as [db2|exc] eqn:Hflush; [|by destruct (is_rule_revision_unique_conflict exc)].
  injection Hrun as <- <- <- <-. apply flush_revision_store in Hflush as [-> Hok].
  cbn [st_revisions with_revisions]. rewrite Hrule. rewrite latest_revision_of_chain in * by done.
  split; [done|]. split; [|done].
  rewrite campaign_revisions_snoc by done. apply chain_snoc; [done|done| |].
  - cbn [new_revision rev_revision_number]. rewrite last_lookup.
    destruct (campaign_revisions campaign_id (st_revisions db)) as [|r0 l] eqn:Hl; [done|].
    destruct (lookup_lt_is_Some_2 (r0 :: l) (pred (length (r0 :: l))) ltac:(cbn; lia)) as [z Hz].
    rewrite Hz, (chain_lookup _ _ _ Hchain Hz). cbn [length]. lia.
  - intros r' Hr'. rewrite Hr' in Hprev. apply Z.leb_gt in Hprev. exact Hprev.
Qed.

Lemma conflicts_number rival row l :
  rival ∈ l -> rev_campaign_id rival = rev_campaign_id row ->
  rev_revision_number rival = rev_revision_number row -> conflicts revision_number_key row l = true.
Proof.
  intros Hin Hc Hn. unfold conflicts. cbn. apply bool_decide_eq_true, list_elem_of_fmap.
  exists rival. split; [|done]. unfold revision_number_key. by rewrite Hc, Hn.
Qed.

(** a publication that would have succeeded is refused with a conflict
    error when another transaction has meanwhile published the same revision
    number for the campaign, whatever its terms. *)
Theorem concurrent_publication_refused arrived db campaign_id payload actor db_now rival ok :
  publish_payout_v4_revision [] db campaign_id payload actor db_now = Ok ok ->
  rival ∈ arrived -> rev_campaign_id rival = campaign_id ->
  rev_revision_number rival = rev_revision_number ok.1.1.1 ->
  publish_payout_v4_revision arrived db campaign_id payload actor db_now = Raise rule_revision_conflict.
Proof.
  intros Hrun Hin Hcamp Hnum. unfold publish_payout_v4_revision in *.
  ok_step Hrun as campaign ->. cbn [mbind result_bind].
  ok_step Hrun as [] ->. cbn [mbind result_bind].
  ok_step Hrun as [] ->. cbn [mbind result_bind].
  ok_step Hrun as [] ->. cbn [mbind result_bind].
  ok_step Hrun as [[rule made] db1] ->. cbn [mbind result_bind]. cbn zeta in *.
  rewrite with_revisions_nil in Hrun.
  destruct (flush_revision _ db1) as [db2|exc] eqn:Hflush;
    [|by destruct (is_rule_revision_unique_conflict exc)].
  injection Hrun as <-. cbn [fst] in Hnum. apply flush_revision_store in Hflush as [_ Hok].
  unfold flush_revision. change (revision_row_ok (new_revision _ _ _ _ _ _)) with
    (revision_row_ok (new_revision db1 campaign_id payload rule
       (latest_payout_rule_revision db campaign_id) actor)).
  rewrite Hok. cbn [negb raise_if mbind result_bind].
  rewrite (conflicts_number rival); [done| |done|done]. cbn. apply elem_of_app. by right.
Qed.

(** ** Witnesses *)

Definition rules_store : payout_store :=
  {| st_trips := []; st_analytics := []; st_estimates := []; st_bindings := [];
     st_campaigns := [CampaignRow 4 90 "NGN"]; st_rules := []; st_revisions := [];
     st_calculations := []; st_ledger := []; st_orders := []; st_lines := []; st_intents := [];
     st_offsets := []; st_profiles := []; st_cutoffs := []; st_audit := [] |}.

Definition launch : v4_revision_create := V4RevisionCreate (aware 1000) 300000 30000 "launch".

Definition launched : publish_outcome * payout_store :=
  match publish_payout_v4_revision [] rules_store 4 launch 1 500 with
  | Ok r => r
  | Raise _ => ((new_revision rules_store 4 launch
                   (CampaignPayoutRule 0 4 1 PAYOUT_V4 true "NGN") None 1, None, None), rules_store)
  end.

Lemma launch_succeeds : publish_payout_v4_revision [] rules_store 4 launch 1 500 = Ok launched.
Proof. vm_compute. reflexivity. Qed.

Lemma publish_extends_chain_witness :
  revision_chain (campaign_revisions 4 (st_revisions launched.2))
  /\ rev_revision_number launched.1.1.1 = 1.
Proof.
  split; [|vm_compute; reflexivity].
  destruct (publish_extends_chain rules_store 4 launch 1 500 launched.1.1.1 launched.1.1.2 launched.1.2
    launched.2) as (_ & Hchain & _).
  - split; [reflexivity|constructor|constructor].
  - rewrite launch_succeeds. destruct launched as [[[r p] c] db]. reflexivity.
  - exact Hchain.
Defined.

Lemma concurrent_publication_refused_witness :
  publish_payout_v4_revision [launched.1.1.1] rules_store 4 launch 1 500 = Raise rule_revision_conflict.
Proof.
  apply (concurrent_publication_refused [launched.1.1.1] rules_store 4 launch 1 500 launched.1.1.1 launched);
    [apply launch_succeeds | left | vm_compute; reflexivity | reflexivity].
Defined.
