(* ===== verification/Text.v ===== *)
(** Text: the Python string operations, number formats and JSON documents the
    billing services build keys, fingerprints and messages from.  Strings are
    sequences of bytes and the operations act on ASCII text, as [str.strip],
    [str.lower] and [str.upper] do there. *)

From stdpp Require Import base list strings gmap pretty sorting.
From Stdlib Require Import ZArith Lia Ascii.
From S2P Require Import Prelude.

#[local] Open Scope Z_scope.

(** ** [str.strip], [str.lower], [str.upper], [str.startswith] *)

Definition is_space (c : ascii) : bool :=
  let n := nat_of_ascii c in
  ((9 <=? n) && (n <=? 13) || (28 <=? n) && (n <=? 32))%nat.

Definition lower_char (c : ascii) : ascii :=
  let n := nat_of_ascii c in
  if ((65 <=? n) && (n <=? 90))%nat then ascii_of_nat (n + 32) else c.

Definition upper_char (c : ascii) : ascii :=
  let n := nat_of_ascii c in
  if ((97 <=? n) && (n <=? 122))%nat then ascii_of_nat (n - 32) else c.

Fixpoint map_string (f : ascii -> ascii) (s : string) : string :=
  match s with
  | EmptyString => EmptyString
  | String c s => String (f c) (map_string f s)
  end.

Definition lower (s : string) : string := map_string lower_char s.
Definition upper (s : string) : string := map_string upper_char s.

Fixpoint lstrip (s : string) : string :=
  match s with
  | EmptyString => EmptyString
  | String c s' => if is_space c then lstrip s' else s
  end.

Fixpoint rstrip (s : string) : string :=
  match s with
  | EmptyString => EmptyString
  | String c s' =>
      match rstrip s' with
      | EmptyString => if is_space c then EmptyString else String c EmptyString
      | r => String c r
      end
  end.

Definition strip (s : string) : string := lstrip (rstrip s).

Definition startswith (s p : string) : bool := String.prefix p s.

(** [all((a, b, ...))] of strings: no empty one. *)
Definition nonempty (s : string) : bool := negb (bool_decide (s = EmptyString)).

(** ** Decimal digits *)

Definition is_digit (c : ascii) : bool :=
  let n := nat_of_ascii c in ((48 <=? n) && (n <=? 57))%nat.

(** The leading digits and the rest. *)
Fixpoint span_digits (s : string) : string * string :=
  match s with
  | EmptyString => (EmptyString, EmptyString)
  | String c r => if is_digit c then let '(d, rest) := span_digits r in (String c d, rest) else (EmptyString, s)
  end.

Definition digit_value (c : ascii) : Z := Z.of_nat (nat_of_ascii c) - 48.

Fixpoint digits_value (s : string) (acc : Z) : Z :=
  match s with
  | EmptyString => acc
  | String c r => digits_value r (acc * 10 + digit_value c)
  end.

(** [int(text)] refuses more digits than the interpreter's limit. *)
Definition INT_MAX_STR_DIGITS : nat := 4300.

(** ** Number formats *)

Definition hex_digit (n : N) : ascii :=
  if (n <? 10)%N then ascii_of_N (48 + n) else ascii_of_N (87 + n).

(** The [k] lowest hexadecimal digits of [n], in front of [acc]. *)
Fixpoint hex_digits (k : nat) (n : N) (acc : string) : string :=
  match k with
  | O => acc
  | S k => hex_digits k (n / 16)%N (String (hex_digit (n mod 16)%N) acc)
  end.

(** [str(uuid)] *)
Definition uuid_str (u : uuid) : string :=
  (hex_digits 8 (N.shiftr u 96) "" +:+ "-" +:+ hex_digits 4 (N.shiftr u 80) "" +:+ "-"
   +:+ hex_digits 4 (N.shiftr u 64) "" +:+ "-" +:+ hex_digits 4 (N.shiftr u 48) "" +:+ "-"
   +:+ hex_digits 12 u "")%string.

Definition uuid_or_none (u : option uuid) : string :=
  match u with Some u => uuid_str u | None => "None" end.

(** [f"{n:0kd}"] of a natural number. *)
Fixpoint zeros (k : nat) : string :=
  match k with O => EmptyString | S k => String "0" (zeros k) end.

Definition zero_padded (k : nat) (n : N) : string :=
  let s := pretty n in (zeros (k - String.length s) +:+ s)%string.

(** [f"{amount:.2f}"] of an amount of whole kobo. *)
Definition money_str (amount : kobo) : string :=
  let sign := if amount <? 0 then "-"%string else ""%string in
  let naira := Z.to_N (Z.abs amount / 100) in
  let cents := Z.to_N (Z.abs amount mod 100) in
  (sign +:+ pretty naira +:+ "." +:+ zero_padded 2 cents)%string.

(** ["|".join(items)] *)
Fixpoint join (separator : string) (items : list string) : string :=
  match items with
  | [] => ""
  | [s] => s
  | s :: rest => (s +:+ separator +:+ join separator rest)%string
  end.

(** ** JSON *)

Definition quote : string := String (ascii_of_nat 34) EmptyString.
Definition backslash : ascii := ascii_of_nat 92.

Definition json_char (c : ascii) : string :=
  let n := nat_of_ascii c in
  let escaped d := String backslash (String d EmptyString) in
  if (n =? 34)%nat then escaped c
  else if (n =? 92)%nat then escaped c
  else if (n =? 8)%nat then escaped "b"%char
  else if (n =? 9)%nat then escaped "t"%char
  else if (n =? 10)%nat then escaped "n"%char
  else if (n =? 12)%nat then escaped "f"%char
  else if (n =? 13)%nat then escaped "r"%char
  else if ((n <? 32) || (n =? 127))%nat then String backslash ("u" +:+ hex_digits 4 (N_of_ascii c) "")
  else String c EmptyString.

Fixpoint json_body (s : string) : string :=
  match s with
  | EmptyString => EmptyString
  | String c s => (json_char c +:+ json_body s)%string
  end.

(** [json.dumps(s)] of a string. *)
Definition json_string (s : string) : string := (quote +:+ json_body s +:+ quote)%string.

(** [json.dumps(d, sort_keys=True)] of a dictionary whose items are given
    rendered and in key order. *)
Definition json_object (item_separator key_separator : string)
    (items : list (string * string)) : string :=
  ("{" +:+ join item_separator
             ((fun kv => json_string kv.1 +:+ key_separator +:+ kv.2) <$> items) +:+ "}")%string.

(** A dictionary of strings, in key order. *)
Definition key_leb (a b : string * string) : bool := String.leb a.1 b.1.

Definition sorted_items (d : gmap string string) : list (string * string) :=
  stable_sort key_leb (map_to_list d).

(** [separators=(",", ":")] *)
Definition json_compact (items : list (string * string)) : string := json_object "," ":" items.

(** The default separators. *)
Definition json_spaced (items : list (string * string)) : string := json_object ", " ": " items.

Definition json_dict (d : gmap string string) : string :=
  json_compact ((fun kv => (kv.1, json_string kv.2)) <$> sorted_items d).

(** [json.dumps] of a list of rendered items, of an integer, of [None] or a
    string, of a boolean. *)
Definition json_list (items : list string) : string := ("[" +:+ join "," items +:+ "]")%string.

Definition json_int (n : Z) : string :=
  if n <? 0 then ("-" +:+ pretty (Z.to_N (- n)))%string else pretty (Z.to_N n).

Definition json_optional (s : option string) : string :=
  match s with Some s => json_string s | None => "null" end.

(** [hashlib.sha256(text.encode()).hexdigest()]: the models only use that equal
    documents have equal digests. *)
Class Sha256 := sha256_hexdigest : string -> string.

(** ** [datetime.isoformat] of a UTC time *)

(** The proleptic Gregorian date of a day number. *)
Definition civil_from_days (d : Z) : Z * Z * Z :=
  let z := d + 719468 in
  let era := z / 146097 in
  let doe := z mod 146097 in
  let yoe := (doe - doe / 1460 + doe / 36524 - doe / 146096) / 365 in
  let doy := doe - (365 * yoe + yoe / 4 - yoe / 100) in
  let mp := (5 * doy + 2) / 153 in
  let m := if mp <? 10 then mp + 3 else mp - 9 in
  (yoe + era * 400 + (if m <=? 2 then 1 else 0), m, doy - (153 * mp + 2) / 5 + 1).

Definition isoformat_utc (us : Z) : string :=
  let '(y, m, d) := civil_from_days (us / day) in
  let s := us mod day / second in
  let f := us mod second in
  let fraction := if f =? 0 then EmptyString else ("." +:+ zero_padded 6 (Z.to_N f))%string in
  let clock := [s / 3600; s mod 3600 / 60; s mod 60] in
  (join "-" [zero_padded 4 (Z.to_N y); zero_padded 2 (Z.to_N m); zero_padded 2 (Z.to_N d)] +:+ "T"
   +:+ join ":" (zero_padded 2 ∘ Z.to_N <$> clock) +:+ fraction +:+ "+00:00")%string.

Example isoformat_examples :
  isoformat_utc 0 = "1970-01-01T00:00:00+00:00"%string
  /\ isoformat_utc (1709210096 * second + 7) = "2024-02-29T12:34:56.000007+00:00"%string
  /\ isoformat_utc (-1) = "1969-12-31T23:59:59.999999+00:00"%string.
Proof. vm_compute. repeat split. Qed.

(** ** Lemmas *)

Lemma hex_digits_length k n acc : String.length (hex_digits k n acc) = (k + String.length acc)%nat.
Proof. revert n acc. induction k as [|k IH]; intros n acc; [done|]. cbn. rewrite IH. cbn. lia. Qed.

Lemma rstrip_fix s : rstrip (rstrip s) = rstrip s.
Proof.
  induction s as [|c s IH]; cbn [rstrip]; [done|].
  destruct (rstrip s) as [|d r] eqn:Hr; [destruct (is_space c) eqn:Hc; cbn [rstrip]; by rewrite ?Hc|].
  cbn [rstrip] in *. destruct (rstrip r) as [|d' r'] eqn:Hr'.
  - destruct (is_space d); [done|]. by injection IH as <-.
  - by injection IH as <-.
Qed.

Lemma lstrip_fix s : lstrip (lstrip s) = lstrip s.
Proof.
  induction s as [|c s IH]; cbn [lstrip]; [done|].
  destruct (is_space c) eqn:Hc; [done|]. cbn [lstrip]. by rewrite Hc.
Qed.

Lemma rstrip_lstrip s : rstrip s = s -> rstrip (lstrip s) = lstrip s.
Proof.
  induction s as [|c s IH]; cbn [lstrip rstrip]; [done|]. intros Hs.
  destruct (is_space c) eqn:Hc; [|cbn [rstrip]; rewrite Hc; exact Hs].
  apply IH. destruct (rstrip s) as [|d r]; [by destruct (is_space c)|]. by injection Hs.
Qed.

Lemma strip_fix s : strip (strip s) = strip s.
Proof.
  unfold strip. rewrite (rstrip_lstrip (rstrip s)) by apply rstrip_fix. apply lstrip_fix.
Qed.

Lemma pretty_char_digit x : (x < 10)%N -> is_digit (pretty_N_char x) = true /\ digit_value (pretty_N_char x) = Z.of_N x.
Proof.
  intros Hx. assert (x = 0 \/ x = 1 \/ x = 2 \/ x = 3 \/ x = 4 \/ x = 5 \/ x = 6 \/ x = 7 \/ x = 8 \/ x = 9)%N as H by lia.
  destruct H as [->|[->|[->|[->|[->|[->|[->|[->|[->| ->]]]]]]]]]; (split; vm_compute; reflexivity).
Qed.

(** All characters are digits. *)
Fixpoint all_digits (s : string) : bool :=
  match s with EmptyString => true | String c r => is_digit c && all_digits r end.

Lemma append_nil b : ("" +:+ b = b)%string.
Proof. reflexivity. Qed.

Lemma append_cons c a b : (String c a +:+ b = String c (a +:+ b))%string.
Proof. reflexivity. Qed.

Lemma span_digits_app a b :
  all_digits a = true -> span_digits (a +:+ b) = let '(d, rest) := span_digits b in ((a +:+ d)%string, rest).
Proof.
  induction a as [|c a IH]; intros Ha; [rewrite append_nil; by destruct (span_digits b)|].
  cbn in Ha. apply andb_true_iff in Ha as [Hc Ha]. rewrite append_cons. cbn [span_digits]. rewrite Hc, (IH Ha).
  by destruct (span_digits b).
Qed.

Lemma digits_value_app a b acc : digits_value (a +:+ b) acc = digits_value b (digits_value a acc).
Proof.
  revert acc. induction a as [|c a IH]; intros acc; [done|]. rewrite append_cons. cbn [digits_value]. apply IH.
Qed.

Lemma digits_value_acc s acc : digits_value s acc = acc * 10 ^ Z.of_nat (String.length s) + digits_value s 0.
Proof.
  revert acc. induction s as [|c s IH]; intros acc; cbn [digits_value String.length]; [lia|].
  rewrite (IH (acc * 10 + digit_value c)), (IH (0 * 10 + digit_value c)), Nat2Z.inj_succ, Z.pow_succ_r by lia. lia.
Qed.

Lemma pretty_go_digits (x : N) (s : string) :
  all_digits s = true ->
  all_digits (pretty_N_go x s) = true
  /\ digits_value (pretty_N_go x s) 0 = Z.of_N x * 10 ^ Z.of_nat (String.length s) + digits_value s 0.
Proof.
  revert s. induction (N.lt_wf_0 x) as [x _ IH]; intros s Hs.
  destruct (decide (x = 0%N)) as [->|Hx]; [by rewrite pretty_N_go_0|].
  rewrite pretty_N_go_step by lia.
  assert (Hm : (x mod 10 < 10)%N) by (apply N.mod_lt; lia).
  destruct (pretty_char_digit _ Hm) as [Hd Hv].
  destruct (IH (x `div` 10)%N ltac:(apply N.div_lt; lia) (String (pretty_N_char (x `mod` 10)) s)) as [Ha Hval].
  { cbn. by rewrite Hd. }
  split; [done|]. rewrite Hval. cbn [String.length digits_value].
  rewrite Hv, (digits_value_acc s), Nat2Z.inj_succ, Z.pow_succ_r by lia.
  pose proof (N.div_mod x 10 ltac:(lia)) as Hdm. apply (f_equal Z.of_N) in Hdm. rewrite N2Z.inj_add, N2Z.inj_mul in Hdm.
  nia.
Qed.

Lemma pretty_digits (x : N) : all_digits (pretty x) = true /\ digits_value (pretty x) 0 = Z.of_N x.
Proof.
  unfold pretty, pretty_N. destruct (decide (x = 0%N)) as [->|Hx]; [by vm_compute|].
  destruct (pretty_go_digits x "" eq_refl) as [Ha Hv]. split; [done|]. rewrite Hv. cbn. lia.
Qed.

Example uuid_str_example :
  uuid_str 0x123e4567e89b12d3a456426614174000 = "123e4567-e89b-12d3-a456-426614174000"%string.
Proof. vm_compute. reflexivity. Qed.

Example money_str_example : money_str 123405 = "1234.05"%string /\ money_str (-50) = "-0.50"%string.
Proof. vm_compute. split; reflexivity. Qed.

(** ** Sorted lists of strings *)

Lemma string_leb_trans a b c : String.leb a b = true -> String.leb b c = true -> String.leb a c = true.
Proof.
  unfold String.leb. revert b c. induction a as [|x a IH]; intros [|y b] [|z c]; cbn; try done.
  unfold Ascii.compare.
  destruct (N.compare_spec (N_of_ascii x) (N_of_ascii y)), (N.compare_spec (N_of_ascii y) (N_of_ascii z)),
    (N.compare_spec (N_of_ascii x) (N_of_ascii z)); try done; try lia. apply IH.
Qed.

Lemma string_leb_flip a b : String.leb a b = false -> String.leb b a = true.
Proof. destruct (String.leb_total a b) as [H|H]; [congruence|done]. Qed.

Lemma stable_sort_strings_perm (l k : list string) :
  l ≡ₚ k -> stable_sort String.leb l = stable_sort String.leb k.
Proof.
  intros Hlk. apply (StronglySorted_unique_strong (fun a b => String.leb a b = true)).
  - intros a b _ _. apply String.leb_antisym.
  - apply stable_sort_sorted; [apply string_leb_trans|apply string_leb_flip].
  - apply stable_sort_sorted; [apply string_leb_trans|apply string_leb_flip].
  - by rewrite !stable_sort_perm.
Qed.
