(* ===== verification/Json.v ===== *)
(** Json: JSON documents as Python's [json] module reads and writes them, and the
    text encodings around them ([base64], UTF-8 escapes).  An object keeps its
    members in the order of the text.  Documents nested deeper than the
    interpreter's stack are not modelled. *)

From stdpp Require Import base list strings gmap.
From Stdlib Require Import ZArith Lia Ascii QArith.
From S2P Require Import Prelude Text.

#[local] Set Warnings "-register-all".
#[local] Open Scope Z_scope.

Inductive json :=
| JNull
| JBool (b : bool)
| JInt (n : Z)
| JFloat (q : Q)
| JString (s : string)
| JArray (items : list json)
| JObject (members : list (string * json)).

(** [dict.get(name)], [JNull] when it is absent; of repeated members the last. *)
Definition member (members : list (string * json)) (name : string) : json :=
  match List.find (fun m => bool_decide (m.1 = name)) (rev members) with
  | Some m => m.2
  | None => JNull
  end.

Definition is_string (j : json) (s : string) : bool :=
  match j with JString t => bool_decide (t = s) | _ => false end.

(** [j == n] of an [int]: [True] and [1.0] are [1]. *)
Definition is_int (j : json) (n : Z) : bool :=
  match j with
  | JInt m => m =? n
  | JBool b => (if b then 1 else 0) =? n
  | JFloat q => Qeq_bool q (inject_Z n)
  | _ => false
  end.

(** A string that is not empty. *)
Definition code_of (j : json) : option string :=
  match j with JString s => if nonempty s then Some s else None | _ => None end.

(** ** [json.loads] *)

Definition is_json_space (c : ascii) : bool :=
  let n := nat_of_ascii c in ((n =? 32) || (n =? 9) || (n =? 10) || (n =? 13))%nat.

Fixpoint skip_space (s : string) : string :=
  match s with
  | String c rest => if is_json_space c then skip_space rest else s
  | EmptyString => s
  end.

(** Hexadecimal digits. *)
Definition hex_value (c : ascii) : option N :=
  let n := N_of_ascii c in
  if ((48 <=? n) && (n <=? 57))%N then Some (n - 48)%N
  else if ((97 <=? n) && (n <=? 102))%N then Some (n - 87)%N
  else if ((65 <=? n) && (n <=? 70))%N then Some (n - 55)%N
  else None.

(** The four hexadecimal digits of a [\u] escape. *)
Definition hex4 (s : string) : option (N * string) :=
  match s with
  | String a (String b (String c (String d rest))) =>
      match hex_value a, hex_value b, hex_value c, hex_value d with
      | Some a, Some b, Some c, Some d => Some (((a * 16 + b) * 16 + c) * 16 + d, rest)%N
      | _, _, _, _ => None
      end
  | _ => None
  end.

(** The UTF-8 bytes of a code point; a lone surrogate keeps its three bytes. *)
Definition utf8 (n : N) : string :=
  (if n <? 128 then String (ascii_of_N n) ""
   else if n <? 2048 then
     String (ascii_of_N (192 + n / 64)) (String (ascii_of_N (128 + n mod 64)) "")
   else if n <? 65536 then
     String (ascii_of_N (224 + n / 4096)) (String (ascii_of_N (128 + (n / 64) mod 64))
       (String (ascii_of_N (128 + n mod 64)) ""))
   else
     String (ascii_of_N (240 + n / 262144)) (String (ascii_of_N (128 + (n / 4096) mod 64))
       (String (ascii_of_N (128 + (n / 64) mod 64)) (String (ascii_of_N (128 + n mod 64)) ""))))%N.

(** A [\u] escape, of one code unit or of a surrogate pair. *)
Definition unicode_escape (s : string) : option (string * string) :=
  match hex4 s with
  | None => None
  | Some (high, rest) =>
      let lone := Some (utf8 high, rest) in
      if ((55296 <=? high) && (high <=? 56319))%N then
        match rest with
        | String a (String b rest') =>
            if bool_decide (a = backslash) && bool_decide (b = "u"%char) then
              match hex4 rest' with
              | Some (low, rest'') =>
                  if ((56320 <=? low) && (low <=? 57343))%N
                  then Some (utf8 (65536 + (high - 55296) * 1024 + (low - 56320)), rest'')
                  else lone
              | None => lone
              end
            else lone
        | _ => lone
        end
      else lone
  end.

(** The character of a one-letter escape. *)
Definition short_escape (c : ascii) : option ascii :=
  match N_of_ascii c with
  | 34 => Some c | 92 => Some c | 47 => Some c
  | 98 => Some (ascii_of_N 8) | 102 => Some (ascii_of_N 12) | 110 => Some (ascii_of_N 10)
  | 114 => Some (ascii_of_N 13) | 116 => Some (ascii_of_N 9)
  | _ => None
  end%N.

(** The rest of a string after its opening quote; control characters are
    refused.  [fuel] bounds the characters read. *)
Fixpoint parse_string (fuel : nat) (s : string) : option (string * string) :=
  match fuel, s with
  | S fuel, String c rest =>
      if (N_of_ascii c =? 34)%N then Some (""%string, rest)
      else if (N_of_ascii c <? 32)%N then None
      else if bool_decide (c = backslash) then
        match rest with
        | String e rest' =>
            match (if bool_decide (e = "u"%char) then unicode_escape rest'
                   else (fun x => (String x "", rest')) <$> short_escape e) with
            | Some (text, rest'') =>
                (fun p => ((text +:+ p.1)%string, p.2)) <$> parse_string fuel rest''
            | None => None
            end
        | EmptyString => None
        end
      else (fun p => (String c p.1, p.2)) <$> parse_string fuel rest
  | _, _ => None
  end.

(** The parts of a number: an optional sign of [accepted] characters, an integer
    without leading zeros, a fraction and an exponent where they are well formed. *)
Definition read_sign (accepted : N -> bool) (s : string) : string * string :=
  match s with
  | String c r => if accepted (N_of_ascii c) then (String c "", r) else (""%string, s)
  | EmptyString => (""%string, s)
  end.

Definition read_integer (s : string) : option (string * string) :=
  match s with
  | String c r =>
      if (N_of_ascii c =? 48)%N then Some ("0"%string, r)
      else if nonempty (span_digits s).1 then Some (span_digits s) else None
  | EmptyString => None
  end.

Definition read_fraction (s : string) : string * string :=
  match s with
  | String c r =>
      if (N_of_ascii c =? 46)%N && nonempty (span_digits r).1
      then (String c (span_digits r).1, (span_digits r).2) else (""%string, s)
  | EmptyString => (""%string, s)
  end.

Definition read_exponent (s : string) : string * string :=
  match s with
  | String c r =>
      let '(sign, r) := read_sign (fun n => (n =? 43) || (n =? 45))%N r in
      if ((N_of_ascii c =? 101)%N || (N_of_ascii c =? 69)%N) && nonempty (span_digits r).1
      then (String c (sign +:+ (span_digits r).1), (span_digits r).2) else (""%string, s)
  | EmptyString => (""%string, s)
  end.

(** The integer, the rest of the number and what follows it; [None] when there is
    no number. *)
Definition number_parts (s : string) : option (string * string * string) :=
  let '(sign, rest) := read_sign (fun n => (n =? 45)%N) s in
  match read_integer rest with
  | None => None
  | Some (digits, rest) =>
      let '(fraction, rest) := read_fraction rest in
      let '(exponent, rest) := read_exponent rest in
      Some ((sign +:+ digits)%string, (fraction +:+ exponent)%string, rest)
  end.

Definition integer_value (text : string) : Z :=
  match text with
  | String "-" d => - digits_value d 0
  | _ => digits_value text 0
  end%char.

Section Loads.
(** [float(text)] of a number with a fraction or an exponent and of the
    constants [NaN], [Infinity] and [-Infinity]. *)
Context (float_of : string -> json).

Definition parse_number (s : string) : option (json * string) :=
  match number_parts s with
  | None => None
  | Some (integer, rest_of_number, rest) =>
      if nonempty rest_of_number then Some (float_of (integer +:+ rest_of_number)%string, rest)
      else if (INT_MAX_STR_DIGITS <? String.length integer)%nat then None
      else Some (JInt (integer_value integer), rest)
  end.

(** A literal at the head of the text. *)
Definition parse_literal (s : string) : option (json * string) :=
  let at_ word (j : json) := if String.prefix word s
    then Some (j, String.substring (String.length word) (String.length s) s) else None in
  match at_ "null" JNull with
  | Some r => Some r
  | None => match at_ "true" (JBool true) with
  | Some r => Some r
  | None => match at_ "false" (JBool false) with
  | Some r => Some r
  | None => match at_ "NaN" (float_of "NaN") with
  | Some r => Some r
  | None => match at_ "Infinity" (float_of "Infinity") with
  | Some r => Some r
  | None => match at_ "-Infinity" (float_of "-Infinity") with
  | Some r => Some r
  | None => parse_number s
  end end end end end end%string.

Definition head_is (n : N) (s : string) : option string :=
  match s with String c rest => if (N_of_ascii c =? n)%N then Some rest else None | EmptyString => None end.

(** The scanner: a value, the items of an array after [\[], the members of an
    object after an opening brace.  [fuel] bounds the characters read. *)
Fixpoint parse_value (fuel : nat) (s : string) : option (json * string) :=
  match fuel with
  | O => None
  | S fuel =>
      match s with
      | EmptyString => None
      | String c rest =>
          if (N_of_ascii c =? 34)%N then (fun p => (JString p.1, p.2)) <$> parse_string fuel rest
          else if (N_of_ascii c =? 123)%N then
            match head_is 125 (skip_space rest) with
            | Some rest => Some (JObject [], rest)
            | None => (fun p => (JObject p.1, p.2)) <$> parse_members fuel (skip_space rest)
            end
          else if (N_of_ascii c =? 91)%N then
            match head_is 93 (skip_space rest) with
            | Some rest => Some (JArray [], rest)
            | None => (fun p => (JArray p.1, p.2)) <$> parse_items fuel (skip_space rest)
            end
          else parse_literal s
      end
  end
with parse_items (fuel : nat) (s : string) : option (list json * string) :=
  match fuel with
  | O => None
  | S fuel =>
      match parse_value fuel s with
      | None => None
      | Some (j, rest) =>
          let rest := skip_space rest in
          match head_is 93 rest, head_is 44 rest with
          | Some rest, _ => Some ([j], rest)
          | None, Some rest => (fun p => (j :: p.1, p.2)) <$> parse_items fuel (skip_space rest)
          | None, None => None
          end
      end
  end
with parse_members (fuel : nat) (s : string) : option (list (string * json) * string) :=
  match fuel with
  | O => None
  | S fuel =>
      match (match head_is 34 s with Some rest => parse_string fuel rest | None => None end) with
      | None => None
      | Some (name, rest) =>
          match head_is 58 (skip_space rest) with
          | None => None
          | Some rest =>
              match parse_value fuel (skip_space rest) with
              | None => None
              | Some (j, rest) =>
                  let rest := skip_space rest in
                  match head_is 125 rest, head_is 44 rest with
                  | Some rest, _ => Some ([(name, j)], rest)
                  | None, Some rest =>
                      (fun p => ((name, j) :: p.1, p.2)) <$> parse_members fuel (skip_space rest)
                  | None, None => None
                  end
              end
          end
      end
  end.

(** [json.loads]: one value with space around it. *)
Definition json_loads (text : string) : result json :=
  match parse_value (2 * String.length text + 1) (skip_space text) with
  | Some (j, rest) => if nonempty (skip_space rest) then Raise ValueError else mret j
  | None => Raise ValueError
  end.
End Loads.

(** ** [json.dumps(..., ensure_ascii=False)] *)

Definition json_raw_char (c : ascii) : string :=
  if (N_of_ascii c =? 127)%N then String c EmptyString else json_char c.

Fixpoint json_raw_body (s : string) : string :=
  match s with
  | EmptyString => EmptyString
  | String c s => (json_raw_char c +:+ json_raw_body s)%string
  end.

Definition json_raw_string (s : string) : string := (quote +:+ json_raw_body s +:+ quote)%string.

Definition raw_member (m : string * string) : string :=
  (json_raw_string m.1 +:+ ":" +:+ json_raw_string m.2)%string.

(** An object of strings, in the order of its members, with compact separators. *)
Definition json_raw_object (members : list (string * string)) : string :=
  ("{" +:+ join "," (raw_member <$> members) +:+ "}")%string.

Example json_loads_examples :
  let float_of := fun _ => JNull in
  json_loads float_of (" {" +:+ json_raw_string "a" +:+ " : [1, -20,true ,null,{}, []] }")%string
    = Ok (JObject [("a"%string, JArray [JInt 1; JInt (-20); JBool true; JNull; JObject []; JArray []])])
  /\ json_loads float_of "[1,]" = Raise ValueError /\ json_loads float_of "01" = Raise ValueError
  /\ json_loads float_of (json_raw_object [("k", "a\b")])%string = Ok (JObject [("k", JString "a\b")])%string.
Proof. vm_compute. repeat split. Qed.

(** ** The scanner's bound is enough *)

Lemma skip_space_length s : (String.length (skip_space s) <= String.length s)%nat.
Proof. induction s as [|c s IH]; cbn; [lia|]. destruct (is_json_space c); cbn; lia. Qed.

Lemma head_is_length n s r : head_is n s = Some r -> String.length s = S (String.length r).
Proof. destruct s as [|c s]; cbn; [done|]. case_match; [|done]. by intros [= ->]. Qed.

Lemma span_digits_length s : (String.length (span_digits s).1 + String.length (span_digits s).2 = String.length s)%nat.
Proof.
  induction s as [|c s IH]; cbn; [done|]. destruct (is_digit c); [|done].
  destruct (span_digits s) as [d r]. cbn in *. lia.
Qed.

Lemma hex4_length s n r : hex4 s = Some (n, r) -> (String.length r < String.length s)%nat.
Proof.
  destruct s as [|? [|? [|? [|? s]]]]; cbn; try done. repeat case_match; try done. intros [= _ <-]. cbn. lia.
Qed.

Lemma unicode_escape_length s t r : unicode_escape s = Some (t, r) -> (String.length r < String.length s)%nat.
Proof.
  unfold unicode_escape. destruct (hex4 s) as [[high rest]|] eqn:Hs; [|done]. apply hex4_length in Hs.
  repeat case_match; simplify_eq; intros Hr; simplify_eq; try done; cbn in *;
    try (match goal with H : hex4 _ = Some _ |- _ => apply hex4_length in H end); lia.
Qed.

Lemma parse_string_length n s t r : parse_string n s = Some (t, r) -> (String.length r < String.length s)%nat.
Proof.
  revert s t r. induction n as [|n IH]; intros [|c s] t r; try done. cbn.
  case_match; [intros [= _ <-]; lia|]. case_match; [done|]. case_match.
  - destruct s as [|e s]; [done|]. destruct (if bool_decide (e = "u"%char) then _ else _) as [[text s'']|] eqn:He; [|done].
    intros ([t' r'] & Hp & [= -> ->])%fmap_Some. apply IH in Hp. cbn.
    case_match; [apply unicode_escape_length in He; lia|].
    apply fmap_Some in He as (? & _ & [= _ ->]). lia.
  - intros ([t' r'] & Hp & [= -> ->])%fmap_Some. apply IH in Hp. lia.
Qed.

(** One character. *)
Lemma parse_string_step n c s :
  parse_string (S n) (String c s) =
  if (N_of_ascii c =? 34)%N then Some (""%string, s)
  else if (N_of_ascii c <? 32)%N then None
  else if bool_decide (c = backslash) then
    match s with
    | String e rest' =>
        match (if bool_decide (e = "u"%char) then unicode_escape rest'
               else (fun x => (String x "", rest')) <$> short_escape e) with
        | Some (text, rest'') => (fun p => ((text +:+ p.1)%string, p.2)) <$> parse_string n rest''
        | None => None
        end
    | EmptyString => None
    end
  else (fun p => (String c p.1, p.2)) <$> parse_string n s.
Proof. reflexivity. Qed.

Lemma parse_string_fuel n s : (String.length s <= n)%nat -> parse_string (S n) s = parse_string n s.
Proof.
  revert s. induction n as [|n IH]; intros [|c s] Hn; try done; [cbn in Hn; lia|].
  cbn [String.length] in Hn. rewrite !(parse_string_step _ c).
  case_match; [done|]. case_match; [done|]. case_match; [|by rewrite IH by lia].
  destruct s as [|e s]; [done|]. destruct (if bool_decide (e = "u"%char) then _ else _) as [[text s'']|] eqn:He; [|done].
  rewrite IH; [done|]. cbn [String.length] in Hn.
  case_match; [apply unicode_escape_length in He; lia|]. apply fmap_Some in He as (? & _ & [= _ ->]). lia.
Qed.

Section ParseBound.
Context (float_of : string -> json).

Lemma read_sign_length accepted s : (String.length (read_sign accepted s).2 <= String.length s)%nat.
Proof. destruct s as [|c s]; cbn; [done|]. case_match; cbn; lia. Qed.

Lemma read_integer_length s d r : read_integer s = Some (d, r) -> (String.length r < String.length s)%nat.
Proof.
  destruct s as [|c s]; [done|]. unfold read_integer. case_match; [intros [= _ <-]; cbn; lia|].
  pose proof (span_digits_length (String c s)) as Hl. revert Hl.
  destruct (span_digits (String c s)) as [d' r']. case_match eqn:Hd; [|done]. intros Hl [= <- <-].
  destruct d'; [done|]. cbn in *. lia.
Qed.

Lemma read_fraction_length s : (String.length (read_fraction s).2 <= String.length s)%nat.
Proof.
  destruct s as [|c s]; cbn; [done|]. case_match; cbn; [|done]. pose proof (span_digits_length s). lia.
Qed.

Lemma read_exponent_length s : (String.length (read_exponent s).2 <= String.length s)%nat.
Proof.
  destruct s as [|c s]; [done|]. cbn. destruct (read_sign _ s) as [sign r] eqn:Hs.
  pose proof (read_sign_length (fun n => (n =? 43) || (n =? 45))%N s) as Hr. rewrite Hs in Hr. cbn in Hr.
  case_match; cbn; [|done]. pose proof (span_digits_length r). lia.
Qed.

Lemma number_parts_length s i f r : number_parts s = Some (i, f, r) -> (String.length r < String.length s)%nat.
Proof.
  unfold number_parts. pose proof (read_sign_length (fun n => (n =? 45)%N) s) as H1.
  destruct (read_sign _ s) as [sign r1]. destruct (read_integer r1) as [[d r2]|] eqn:H2; [|done].
  apply read_integer_length in H2. pose proof (read_fraction_length r2) as H3.
  destruct (read_fraction r2) as [fr r3]. pose proof (read_exponent_length r3) as H4.
  destruct (read_exponent r3) as [ex r4]. intros [= _ _ <-]. cbn in *. lia.
Qed.

Lemma substring_drop a s : (String.length (String.substring a (String.length s) s) <= String.length s - a)%nat.
Proof.
  assert (H0 : forall t m, (String.length (String.substring 0 m t) <= String.length t)%nat).
  { induction t as [|c t IH]; intros [|m]; cbn; try lia. specialize (IH m). lia. }
  assert (H1 : forall m t, (String.length (String.substring a m t) <= String.length t - a)%nat).
  { induction a as [|a IH]; intros m [|c t]; try (destruct m; cbn; lia).
    - rewrite Nat.sub_0_r. apply H0.
    - destruct m; cbn; apply IH. }
  apply H1.
Qed.

Lemma parse_literal_length s j r : parse_literal float_of s = Some (j, r) -> (String.length r < String.length s)%nat.
Proof.
  assert (Hw : forall w, (0 < String.length w)%nat -> String.prefix w s = true ->
    (String.length (String.substring (String.length w) (String.length s) s) < String.length s)%nat).
  { intros w Hw Hp. destruct s as [|c s]; [by destruct w; cbn in *; [lia|]|].
    pose proof (substring_drop (String.length w) (String c s)). cbn in *. lia. }
  unfold parse_literal. repeat case_match; intros Hr; simplify_eq; try (apply Hw; [cbn; lia|done]).
  unfold parse_number in Hr. destruct (number_parts s) as [[[i f] r']|] eqn:Hn; [|done].
  apply number_parts_length in Hn. repeat case_match; by simplify_eq.
Qed.

Abbreviation value := (parse_value float_of).
Abbreviation items := (parse_items float_of).
Abbreviation members := (parse_members float_of).

Lemma value_step n c s :
  value (S n) (String c s) =
  if (N_of_ascii c =? 34)%N then (fun p => (JString p.1, p.2)) <$> parse_string n s
  else if (N_of_ascii c =? 123)%N then
    match head_is 125 (skip_space s) with
    | Some rest => Some (JObject [], rest)
    | None => (fun p => (JObject p.1, p.2)) <$> members n (skip_space s)
    end
  else if (N_of_ascii c =? 91)%N then
    match head_is 93 (skip_space s) with
    | Some rest => Some (JArray [], rest)
    | None => (fun p => (JArray p.1, p.2)) <$> items n (skip_space s)
    end
  else parse_literal float_of (String c s).
Proof. reflexivity. Qed.

Lemma items_step n s :
  items (S n) s =
  match value n s with
  | None => None
  | Some (j, rest) =>
      match head_is 93 (skip_space rest), head_is 44 (skip_space rest) with
      | Some rest, _ => Some ([j], rest)
      | None, Some rest => (fun p => (j :: p.1, p.2)) <$> items n (skip_space rest)
      | None, None => None
      end
  end.
Proof. reflexivity. Qed.

Lemma members_step n s :
  members (S n) s =
  match (match head_is 34 s with Some rest => parse_string n rest | None => None end) with
  | None => None
  | Some (name, rest) =>
      match head_is 58 (skip_space rest) with
      | None => None
      | Some rest =>
          match value n (skip_space rest) with
          | None => None
          | Some (j, rest) =>
              match head_is 125 (skip_space rest), head_is 44 (skip_space rest) with
              | Some rest, _ => Some ([(name, j)], rest)
              | None, Some rest => (fun p => ((name, j) :: p.1, p.2)) <$> members n (skip_space rest)
              | None, None => None
              end
          end
      end
  end.
Proof. reflexivity. Qed.

(** Every scanner leaves less than it was given. *)
Lemma parse_length n :
  (forall s j r, value n s = Some (j, r) -> (String.length r < String.length s)%nat)
  /\ (forall s j r, items n s = Some (j, r) -> (String.length r < String.length s)%nat)
  /\ (forall s j r, members n s = Some (j, r) -> (String.length r < String.length s)%nat).
Proof.
  induction n as [|n (IHv & IHi & IHm)]; [done|]. repeat split; intros s j r; cbn [parse_value parse_items parse_members].
  - destruct s as [|c s]; [done|]. pose proof (skip_space_length s) as Hk. repeat case_match;
      try (intros ([] & Hp & [= -> ->])%fmap_Some); try (intros [= <- <-]); cbn [String.length];
      try (match goal with H : head_is _ _ = Some _ |- _ => apply head_is_length in H; lia end).
    + apply parse_string_length in Hp. cbn. lia.
    + apply IHm in Hp. cbn. lia.
    + apply IHi in Hp. cbn. lia.
    + apply parse_literal_length.
  - destruct (value n s) as [[j' r']|] eqn:Hv; [|done]. apply IHv in Hv. pose proof (skip_space_length r').
    repeat case_match; try done; try (intros ([] & Hp & [= -> ->])%fmap_Some); try (intros [= <- <-]);
      repeat match goal with H : head_is _ _ = Some _ |- _ => apply head_is_length in H end; [lia|].
    apply IHi in Hp. pose proof (skip_space_length s0). cbn. lia.
  - destruct (head_is 34 s) as [s1|] eqn:Hs1; [|done]. apply head_is_length in Hs1.
    destruct (parse_string n s1) as [[name s2]|] eqn:Hs2; [|done]. apply parse_string_length in Hs2.
    destruct (head_is 58 (skip_space s2)) as [s3|] eqn:Hs3; [|done]. apply head_is_length in Hs3.
    destruct (value n (skip_space s3)) as [[j' s4]|] eqn:Hv; [|done]. apply IHv in Hv.
    pose proof (skip_space_length s2). pose proof (skip_space_length s3). pose proof (skip_space_length s4).
    repeat case_match; try done; try (intros ([] & Hp & [= -> ->])%fmap_Some); try (intros [= <- <-]);
      repeat match goal with H : head_is _ _ = Some _ |- _ => apply head_is_length in H end; [lia|].
    apply IHm in Hp. pose proof (skip_space_length s0). cbn. lia.
Qed.

(** More fuel than twice the text changes nothing. *)
Lemma parse_fuel n :
  (forall s, (2 * String.length s + 1 <= n)%nat -> value (S n) s = value n s)
  /\ (forall s, (2 * String.length s + 2 <= n)%nat -> items (S n) s = items n s)
  /\ (forall s, (2 * String.length s + 1 <= n)%nat -> members (S n) s = members n s).
Proof.
  induction n as [|n (IHv & IHi & IHm)]; [repeat split; intros; lia|].
  destruct (parse_length n) as (Hv & Hi & Hm).
  assert (Hstep : forall s, (String.length (skip_space s) <= String.length s)%nat) by apply skip_space_length.
  repeat split; intros s Hn.
  - destruct s as [|c s]; [done|]. cbn [String.length] in Hn. specialize (Hstep s).
    rewrite !value_step, IHm, IHi, parse_string_fuel by lia. done.
  - rewrite !items_step, IHv by lia. destruct (value n s) as [[j r]|] eqn:Hr; [|done]. apply Hv in Hr.
    destruct (head_is 93 _); [done|]. destruct (head_is 44 _) as [r'|] eqn:Hr'; [|done].
    apply head_is_length in Hr'. pose proof (Hstep r). pose proof (Hstep r'). by rewrite IHi by lia.
  - rewrite !members_step. destruct (head_is 34 s) as [s1|] eqn:Hs1; [|done]. apply head_is_length in Hs1.
    rewrite parse_string_fuel by lia. destruct (parse_string n s1) as [[name s2]|] eqn:Hs2; [|done].
    apply parse_string_length in Hs2. destruct (head_is 58 _) as [s3|] eqn:Hs3; [|done]. apply head_is_length in Hs3.
    pose proof (Hstep s2). pose proof (Hstep s3). rewrite IHv by lia.
    destruct (value n (skip_space s3)) as [[j s4]|] eqn:Hj; [|done]. apply Hv in Hj. pose proof (Hstep s4).
    destruct (head_is 125 _); [done|]. destruct (head_is 44 _) as [s5|] eqn:Hs5; [|done].
    apply head_is_length in Hs5. pose proof (Hstep s5). by rewrite IHm by lia.
Qed.

Lemma parse_value_fuel n m s :
  (2 * String.length s + 1 <= n)%nat -> (n <= m)%nat -> value m s = value n s.
Proof.
  intros Hn Hm. induction Hm as [|m Hm IH]; [done|]. rewrite <- IH. apply parse_fuel. lia.
Qed.
End ParseBound.

(** ** What is written is read back *)

Lemma parse_raw_char n c X :
  parse_string (S n) (json_raw_char c +:+ X)%string = (fun p => (String c p.1, p.2)) <$> parse_string n X.
Proof. destruct c as [[] [] [] [] [] [] [] []]; reflexivity. Qed.

Lemma raw_char_length c : (1 <= String.length (json_raw_char c))%nat.
Proof. destruct c as [[] [] [] [] [] [] [] []]; apply Nat.leb_le; reflexivity. Qed.

Lemma string_append_assoc (a b c : string) : ((a +:+ b) +:+ c = a +:+ (b +:+ c))%string.
Proof. induction a as [|x a IH]; [done|]. rewrite !append_cons. by rewrite IH. Qed.

Lemma string_append_length (a b : string) : String.length (a +:+ b)%string = (String.length a + String.length b)%nat.
Proof. induction a as [|x a IH]; [done|]. rewrite append_cons. cbn. by rewrite IH. Qed.

Lemma string_append_nil (a : string) : (a +:+ "" = a)%string.
Proof. induction a as [|x a IH]; [done|]. rewrite append_cons. by rewrite IH. Qed.

Lemma parse_raw_body n s rest :
  (String.length s < n)%nat -> parse_string n (json_raw_body s +:+ quote +:+ rest)%string = Some (s, rest).
Proof.
  revert n. induction s as [|c s IH]; intros [|n] Hn; try (cbn in Hn; lia); [done|].
  cbn [json_raw_body]. rewrite string_append_assoc, parse_raw_char, IH by (cbn in Hn; lia). done.
Qed.

Lemma raw_body_length s : (String.length s <= String.length (json_raw_body s))%nat.
Proof.
  induction s as [|c s IH]; cbn [json_raw_body String.length]; [lia|].
  rewrite string_append_length. pose proof (raw_char_length c). lia.
Qed.

Section Reading.
Context (float_of : string -> json).

Lemma quote_cons s : (quote +:+ s = String (ascii_of_nat 34) s)%string.
Proof. unfold quote. by rewrite append_cons. Qed.

Lemma raw_string_cons s rest :
  (json_raw_string s +:+ rest = String (ascii_of_nat 34) (json_raw_body s +:+ quote +:+ rest))%string.
Proof. unfold json_raw_string. by rewrite !string_append_assoc, quote_cons. Qed.

Lemma parse_raw_value n s rest :
  (S (String.length s) < n)%nat ->
  parse_value float_of n (json_raw_string s +:+ rest)%string = Some (JString s, rest).
Proof.
  intros Hn. destruct n as [|n]; [lia|]. rewrite raw_string_cons, value_step. cbn [N_of_ascii].
  change (N_of_ascii (ascii_of_nat 34) =? 34)%N with true. cbn iota. by rewrite parse_raw_body by lia.
Qed.

Lemma skip_raw s rest : skip_space (json_raw_string s +:+ rest)%string = (json_raw_string s +:+ rest)%string.
Proof. by rewrite raw_string_cons. Qed.

Lemma raw_string_length s : (String.length s + 2 <= String.length (json_raw_string s))%nat.
Proof.
  unfold json_raw_string. rewrite !string_append_length. pose proof (raw_body_length s). cbn. lia.
Qed.

Lemma raw_member_length m : (String.length m.1 + String.length m.2 + 5 <= String.length (raw_member m))%nat.
Proof.
  unfold raw_member. rewrite !string_append_length. pose proof (raw_string_length m.1).
  pose proof (raw_string_length m.2). cbn. lia.
Qed.

Lemma join_raw_cons m m' ms :
  join "," (raw_member <$> (m :: m' :: ms)) = (raw_member m +:+ "," +:+ join "," (raw_member <$> (m' :: ms)))%string.
Proof. reflexivity. Qed.

Lemma join_raw_head m ms : exists t, join "," (raw_member <$> (m :: ms)) = (json_raw_string m.1 +:+ t)%string.
Proof.
  destruct ms as [|m' ms]; cbn [fmap list_fmap join]; unfold raw_member at 1; [eauto|].
  rewrite string_append_assoc. eauto.
Qed.

Lemma skip_raw_members m ms t :
  skip_space (join "," (raw_member <$> (m :: ms)) +:+ t)%string = (join "," (raw_member <$> (m :: ms)) +:+ t)%string.
Proof. destruct (join_raw_head m ms) as [u ->]. by rewrite string_append_assoc, skip_raw. Qed.

(** The members of a printed object, up to the closing brace. *)
Lemma parse_raw_members n m ms rest :
  (String.length (join "," (raw_member <$> (m :: ms))) < n)%nat ->
  parse_members float_of n (join "," (raw_member <$> (m :: ms)) +:+ "}" +:+ rest)%string
  = Some ((fun m => (m.1, JString m.2)) <$> (m :: ms), rest).
Proof.
  revert m n. induction ms as [|m' ms IH]; intros [k v] n Hn.
  - destruct n as [|n]; [lia|]. cbn [fmap list_fmap join] in *. pose proof (raw_member_length (k, v)) as Hlen. cbn in Hlen.
    rewrite members_step. unfold raw_member. cbn [fst snd]. rewrite !string_append_assoc, raw_string_cons.
    cbn [head_is]. change (N_of_ascii (ascii_of_nat 34) =? 34)%N with true. cbn iota.
    rewrite parse_raw_body by lia. rewrite append_cons, append_nil. cbn [skip_space].
    change (is_json_space ":") with false. cbn iota. cbn [head_is]. change (N_of_ascii ":" =? 58)%N with true. cbn iota.
    rewrite skip_raw, parse_raw_value by lia. done.
  - destruct n as [|n]; [lia|]. rewrite join_raw_cons in Hn |- *.
    rewrite !string_append_length in Hn. pose proof (raw_member_length (k, v)) as Hlen. cbn [String.length fst snd] in Hlen, Hn.
    rewrite members_step. unfold raw_member at 1. cbn [fst snd]. rewrite !string_append_assoc, raw_string_cons.
    cbn [head_is]. change (N_of_ascii (ascii_of_nat 34) =? 34)%N with true. cbn iota.
    rewrite parse_raw_body by lia. rewrite append_cons, append_nil. cbn [skip_space].
    change (is_json_space ":") with false. cbn iota. cbn [head_is]. change (N_of_ascii ":" =? 58)%N with true. cbn iota.
    rewrite skip_raw, parse_raw_value by lia. rewrite append_cons, append_nil. cbn [skip_space].
    change (is_json_space ",") with false. cbn iota. cbn [head_is].
    change (N_of_ascii "," =? 125)%N with false. change (N_of_ascii "," =? 44)%N with true. cbn iota.
    rewrite skip_raw_members, IH by lia. done.
Qed.

Lemma json_loads_raw_object ms :
  json_loads float_of (json_raw_object ms) = Ok (JObject ((fun m => (m.1, JString m.2)) <$> ms)).
Proof.
  unfold json_loads, json_raw_object. set (text := join _ _). rewrite append_cons, append_nil.
  cbn [skip_space]. change (is_json_space "{") with false. cbn iota. cbn [String.length].
  rewrite string_append_length. cbn [String.length].
  replace (2 * S (String.length text + 1) + 1)%nat with (S (2 * (String.length text + 2))) by lia.
  rewrite value_step. change (N_of_ascii "{" =? 34)%N with false. change (N_of_ascii "{" =? 123)%N with true. cbn iota.
  destruct ms as [|m ms]; [done|].
  assert (head_is 125 (text +:+ "}")%string = None) as Hhead.
  { unfold text. destruct (join_raw_head m ms) as [u ->]. by rewrite string_append_assoc, raw_string_cons. }
  assert (skip_space (text +:+ "}") = (text +:+ "}"))%string as -> by apply (skip_raw_members m ms).
  rewrite Hhead. pose proof (parse_raw_members (2 * (String.length text + 2)) m ms "") as H.
  change ("}" +:+ "")%string with "}"%string in H. fold text in H. rewrite H by lia. done.
Qed.
End Reading.
