(* ===== verification/Crypto.v ===== *)
(** Crypto: envelope encryption of stored secrets
    ([app/adapters/crypto/envelope.py]).  A value is encrypted under a fresh data
    key, which is wrapped by a key of the keyring; both ciphertexts are bound to
    the tenant, record and field they belong to.  AES-GCM is the third party's
    ([AesGcm], its documented behaviour in [AesGcmLaws]) and the random bytes of
    a call are arguments. *)

From stdpp Require Import base list strings gmap.
From Stdlib Require Import ZArith Lia Ascii QArith.
From S2P Require Import Prelude PayoutData Text Json.

#[local] Open Scope Z_scope.

(** ** [base64] *)

(** The character of six bits, the most significant first. *)
Definition b64_char (a b c d e f : bool) : ascii :=
  let n := (32 * N.b2n a + 16 * N.b2n b + 8 * N.b2n c + 4 * N.b2n d + 2 * N.b2n e + N.b2n f)%N in
  if (n <? 26)%N then ascii_of_N (65 + n)
  else if (n <? 52)%N then ascii_of_N (71 + n)
  else if (n <? 62)%N then ascii_of_N (n - 4)
  else if (n =? 62)%N then "+"%char else "/"%char.

Definition b64_value (x : ascii) : option N :=
  let n := N_of_ascii x in
  if ((65 <=? n) && (n <=? 90))%N then Some (n - 65)%N
  else if ((97 <=? n) && (n <=? 122))%N then Some (n - 71)%N
  else if ((48 <=? n) && (n <=? 57))%N then Some (n + 4)%N
  else if (n =? 43)%N then Some 62%N
  else if (n =? 47)%N then Some 63%N
  else None.

Record sextet := Sextet { x5 : bool; x4 : bool; x3 : bool; x2 : bool; x1 : bool; x0 : bool }.

Definition b64_bits (x : ascii) : option sextet :=
  (fun n => Sextet (N.testbit n 5) (N.testbit n 4) (N.testbit n 3) (N.testbit n 2) (N.testbit n 1)
              (N.testbit n 0)) <$> b64_value x.

(** [base64.b64encode] *)
Fixpoint b64encode (s : string) : string :=
  match s with
  | String (Ascii a0 a1 a2 a3 a4 a5 a6 a7) (String (Ascii b0 b1 b2 b3 b4 b5 b6 b7)
      (String (Ascii c0 c1 c2 c3 c4 c5 c6 c7) rest)) =>
      String (b64_char a7 a6 a5 a4 a3 a2) (String (b64_char a1 a0 b7 b6 b5 b4)
        (String (b64_char b3 b2 b1 b0 c7 c6) (String (b64_char c5 c4 c3 c2 c1 c0) (b64encode rest))))
  | String (Ascii a0 a1 a2 a3 a4 a5 a6 a7) (String (Ascii b0 b1 b2 b3 b4 b5 b6 b7) EmptyString) =>
      String (b64_char a7 a6 a5 a4 a3 a2) (String (b64_char a1 a0 b7 b6 b5 b4)
        (String (b64_char b3 b2 b1 b0 false false) "="))
  | String (Ascii a0 a1 a2 a3 a4 a5 a6 a7) EmptyString =>
      String (b64_char a7 a6 a5 a4 a3 a2) (String (b64_char a1 a0 false false false false) "==")
  | EmptyString => EmptyString
  end.

(** [base64.b64decode(..., validate=True)]: padding only at the end; the bits a
    padded group leaves over are ignored. *)
Fixpoint b64decode (s : string) : option string :=
  match s with
  | EmptyString => Some EmptyString
  | String w (String x (String y (String z rest))) =>
      match b64_bits w, b64_bits x with
      | Some w, Some x =>
          let first := Ascii (x4 x) (x5 x) (x0 w) (x1 w) (x2 w) (x3 w) (x4 w) (x5 w) in
          let last := bool_decide (z = "="%char) && bool_decide (rest = EmptyString) in
          if bool_decide (y = "="%char) then
            if last then Some (String first "") else None
          else
            match b64_bits y with
            | None => None
            | Some y =>
                let second := Ascii (x2 y) (x3 y) (x4 y) (x5 y) (x0 x) (x1 x) (x2 x) (x3 x) in
                if last then Some (String first (String second ""))
                else
                  match b64_bits z with
                  | None => None
                  | Some z =>
                      let third := Ascii (x0 z) (x1 z) (x2 z) (x3 z) (x4 z) (x5 z) (x0 y) (x1 y) in
                      (fun t => String first (String second (String third t))) <$> b64decode rest
                  end
            end
      | _, _ => None
      end
  | _ => None
  end.

(** ** Bytes *)

(** The [k] lowest bytes of [n], the most significant first ([struct.pack],
    [UUID.bytes]), in front of [acc]. *)
Fixpoint be_bytes (k : nat) (n : N) (acc : string) : string :=
  match k with
  | O => acc
  | S k => be_bytes k (n / 256)%N (String (ascii_of_N (n mod 256)%N) acc)
  end.

(** [struct.pack(">I", len(part)) + part] *)
Definition packed (part : string) : string := (be_bytes 4 (N.of_nat (String.length part)) "" +:+ part)%string.

Definition ENVELOPE_FORMAT_VERSION : Z := 1.
Definition DATA_ALGORITHM : string := "AES-256-GCM".
Definition KEY_WRAP_ALGORITHM : string := "AES-256-GCM".
Definition NONCE_BYTES : nat := 12.
Definition KEY_BYTES : nat := 32.

Record associated_data := AssociatedData {
  ad_tenant_id : uuid;
  ad_record_id : uuid;
  ad_field_name : string
}.

(** [AssociatedData.canonical_bytes] *)
Definition canonical_bytes (a : associated_data) : result string :=
  let field := ad_field_name a in
  raise_if (negb (nonempty field) || (255 <? String.length field)%nat) CryptoOperationError ;;
  mret (packed "cardvert-envelope-aad" +:+ packed (be_bytes 1 (Z.to_N ENVELOPE_FORMAT_VERSION) "")
        +:+ packed (be_bytes 16 (ad_tenant_id a) "") +:+ packed (be_bytes 16 (ad_record_id a) "")
        +:+ packed field)%string.

Definition nul : string := be_bytes 1 0 "".

Definition _data_aad (aad : string) : string := ("cardvert-envelope-data" +:+ nul +:+ aad)%string.

(** [struct.pack] raises for a key version of more than 32 bits. *)
Definition _wrap_aad (aad : string) (key_version : Z) : result string :=
  raise_if (negb ((0 <=? key_version) && (key_version <? 2 ^ 32))) ValueError ;;
  mret ("cardvert-envelope-key-wrap" +:+ nul +:+ be_bytes 4 (Z.to_N key_version) "" +:+ aad)%string.

(** ** The stored form *)

Record ciphertext_envelope := CiphertextEnvelope {
  ce_format_version : Z;
  ce_data_algorithm : string;
  ce_key_wrap_algorithm : string;
  ce_key_version : Z;
  ce_nonce : string;
  ce_ciphertext : string;
  ce_wrapped_key_nonce : string;
  ce_wrapped_key : string
}.

Definition to_mapping (e : ciphertext_envelope) : list (string * json) :=
  [("format_version", JInt (ce_format_version e)); ("data_algorithm", JString (ce_data_algorithm e));
   ("key_wrap_algorithm", JString (ce_key_wrap_algorithm e)); ("key_version", JInt (ce_key_version e));
   ("nonce_b64", JString (b64encode (ce_nonce e)));
   ("ciphertext_b64", JString (b64encode (ce_ciphertext e)));
   ("wrapped_key_nonce_b64", JString (b64encode (ce_wrapped_key_nonce e)));
   ("wrapped_key_b64", JString (b64encode (ce_wrapped_key e)))]%string.

Definition envelope_keys : list string :=
  ["format_version"; "data_algorithm"; "key_wrap_algorithm"; "key_version"; "nonce_b64";
   "ciphertext_b64"; "wrapped_key_nonce_b64"; "wrapped_key_b64"]%string.

(** The digits of [int(text)]: single underscores may stand between digits. *)
Fixpoint grouped_digits (s : string) (after_digit : bool) : option string :=
  match s with
  | EmptyString => if after_digit then Some EmptyString else None
  | String c r =>
      if is_digit c then (String c) <$> grouped_digits r true
      else if bool_decide (c = "_"%char) && after_digit then grouped_digits r false
      else None
  end.

(** [int(value)] of a JSON value; [None] where it raises. *)
Definition int_of_json (j : json) : option Z :=
  match j with
  | JInt n => Some n
  | JBool b => Some (if b then 1 else 0)
  | JFloat q => Some (Z.quot (Qnum q) (Zpos (Qden q)))
  | JString s =>
      let t := strip s in
      let '(negative, digits) := match t with
                                 | String "-" r => (true, r)
                                 | String "+" r => (false, r)
                                 | _ => (false, t)
                                 end%char in
      d ← grouped_digits digits false;
      if (INT_MAX_STR_DIGITS <? String.length d)%nat then None
      else Some (if negative then - digits_value d 0 else digits_value d 0)
  | JNull | JArray _ | JObject _ => None
  end.

Definition _decode_b64 (j : json) : option string :=
  match j with JString s => b64decode s | _ => None end.

Definition envelope_valid (e : ciphertext_envelope) : bool :=
  (ce_format_version e =? ENVELOPE_FORMAT_VERSION) && bool_decide (ce_data_algorithm e = DATA_ALGORITHM)
  && bool_decide (ce_key_wrap_algorithm e = KEY_WRAP_ALGORITHM) && (1 <=? ce_key_version e)
  && (String.length (ce_nonce e) =? NONCE_BYTES)%nat
  && (String.length (ce_wrapped_key_nonce e) =? NONCE_BYTES)%nat
  && nonempty (ce_ciphertext e) && nonempty (ce_wrapped_key e).

(** [CiphertextEnvelope.from_mapping]; [str(value)] of a value that is not a
    string is never the name of an algorithm. *)
Definition from_mapping (value : list (string * json)) : result ciphertext_envelope :=
  let get := member value in
  let text j := match j with JString s => s | _ => ""%string end in
  raise_if (negb (bool_decide ((list_to_set value.*1 : gset string) = list_to_set envelope_keys)))
    CryptoOperationError ;;
  e ← require_some
        (format ← int_of_json (get "format_version"%string);
         key_version ← int_of_json (get "key_version"%string);
         nonce ← _decode_b64 (get "nonce_b64"%string);
         ciphertext ← _decode_b64 (get "ciphertext_b64"%string);
         wrapped_key_nonce ← _decode_b64 (get "wrapped_key_nonce_b64"%string);
         wrapped_key ← _decode_b64 (get "wrapped_key_b64"%string);
         Some (CiphertextEnvelope format (text (get "data_algorithm"%string))
                 (text (get "key_wrap_algorithm"%string)) key_version nonce ciphertext
                 wrapped_key_nonce wrapped_key)) CryptoOperationError;
  raise_if (negb (envelope_valid e)) CryptoOperationError ;;
  mret e.

(** ** AES-GCM and key custody *)

(** HMAC-SHA256 of a message under a key, as bytes. *)
Class HmacSha256 := hmac_sha256 : string -> string -> string.

(** [AESGCM(key).encrypt(nonce, plaintext, aad)] and [decrypt], [None] for
    [InvalidTag]. *)
Class AesGcm := {
  gcm_encrypt : string -> string -> string -> string -> string;
  gcm_decrypt : string -> string -> string -> string -> option string
}.

(** What the library documents: decryption inverts encryption, a ciphertext
    carries a tag, and it opens under no other key or associated data. *)
Class AesGcmLaws `{AesGcm} := {
  gcm_opens key nonce plaintext aad :
    gcm_decrypt key nonce (gcm_encrypt key nonce plaintext aad) aad = Some plaintext;
  gcm_tagged key nonce plaintext aad : nonempty (gcm_encrypt key nonce plaintext aad) = true;
  gcm_binds key key' nonce plaintext plaintext' aad aad' :
    gcm_decrypt key' nonce (gcm_encrypt key nonce plaintext aad) aad' = Some plaintext' ->
    key' = key /\ aad' = aad
}.

(** [KeyCustodyBackend]: the keys that wrap data keys.  [wrap_key] takes the
    nonce it draws, the data key and its associated data. *)
Class KeyCustody `{AesGcm} (C : Type) := {
  custody_active_key_version : C -> Z;
  wrap_key : C -> string -> string -> string -> result (Z * string * string);
  unwrap_key : C -> Z -> string -> string -> string -> result string
}.

(** [LocalKeyCustodyBackend] *)
Record local_custody := LocalCustody {
  lc_keys : gmap Z string;
  lc_active_key_version : Z
}.

Definition new_local_custody (keys : gmap Z string) (active : Z) : result local_custody :=
  raise_if (bool_decide (keys !! active = None) || (active <? 1)) CryptoConfigurationError ;;
  raise_if (existsb (fun k => (k.1 <? 1) || negb (String.length k.2 =? KEY_BYTES)%nat) (map_to_list keys))
    CryptoConfigurationError ;;
  mret (LocalCustody keys active).

(** The random bytes one call draws: data key, data nonce, wrapping nonce. *)
Record randomness := Randomness {
  rnd_data_key : string;
  rnd_nonce : string;
  rnd_wrap_nonce : string
}.

Definition rnd_ok (r : randomness) : bool :=
  (String.length (rnd_data_key r) =? KEY_BYTES)%nat && (String.length (rnd_nonce r) =? NONCE_BYTES)%nat
  && (String.length (rnd_wrap_nonce r) =? NONCE_BYTES)%nat.

Section Envelope.
Context `{AesGcm}.

#[export] Instance local_key_custody : KeyCustody local_custody := {|
  custody_active_key_version := lc_active_key_version;
  wrap_key := fun c nonce plaintext_key aad =>
    key ← require_some (lc_keys c !! lc_active_key_version c) KeyError;
    wrap_aad ← _wrap_aad aad (lc_active_key_version c);
    mret (lc_active_key_version c, nonce, gcm_encrypt key nonce plaintext_key wrap_aad);
  unwrap_key := fun c key_version nonce wrapped_key aad =>
    key ← require_some (lc_keys c !! key_version) CryptoOperationError;
    wrap_aad ← _wrap_aad aad key_version;
    require_some (gcm_decrypt key nonce wrapped_key wrap_aad) CryptoOperationError
|}.

Context `{KeyCustody C}.

(** [CustodyEnvelopeCryptoProvider(custody=...)] *)
Definition new_crypto_provider (custody : C) : result C :=
  raise_if (custody_active_key_version custody <? 1) CryptoConfigurationError ;;
  mret custody.

Definition active_key_version (crypto : C) : Z := custody_active_key_version crypto.

(** [try: ... except Exception: raise CryptoOperationError] *)
Definition or_operation_error {A} (r : result A) : result A :=
  match r with Ok a => Ok a | Raise _ => Raise CryptoOperationError end.

Definition _validate_wrapped_key (key_version : Z) (nonce wrapped_key : string) (expected_version : Z)
    : result unit :=
  raise_if (negb (key_version =? expected_version) || negb (String.length nonce =? NONCE_BYTES)%nat
            || negb (nonempty wrapped_key)) CryptoOperationError.

Definition crypto_encrypt (crypto : C) (r : randomness) (plaintext : string) (ad : associated_data)
    : result ciphertext_envelope :=
  raise_if (negb (nonempty plaintext)) CryptoOperationError ;;
  aad ← canonical_bytes ad;
  let ciphertext := gcm_encrypt (rnd_data_key r) (rnd_nonce r) plaintext (_data_aad aad) in
  w ← or_operation_error (wrap_key crypto (rnd_wrap_nonce r) (rnd_data_key r) aad);
  let '(key_version, wrapped_key_nonce, wrapped_key) := w in
  _validate_wrapped_key key_version wrapped_key_nonce wrapped_key (active_key_version crypto) ;;
  mret (CiphertextEnvelope ENVELOPE_FORMAT_VERSION DATA_ALGORITHM KEY_WRAP_ALGORITHM key_version
          (rnd_nonce r) ciphertext wrapped_key_nonce wrapped_key).

Definition crypto_decrypt (crypto : C) (encrypted_value : ciphertext_envelope) (ad : associated_data)
    : result string :=
  e ← from_mapping (to_mapping encrypted_value);
  aad ← canonical_bytes ad;
  or_operation_error
    (data_key ← unwrap_key crypto (ce_key_version e) (ce_wrapped_key_nonce e) (ce_wrapped_key e) aad;
     require_some (gcm_decrypt data_key (ce_nonce e) (ce_ciphertext e) (_data_aad aad)) CryptoOperationError).

(** [rotate]: the data key is wrapped again under the active key. *)
Definition crypto_rotate (crypto : C) (r : randomness) (encrypted_value : ciphertext_envelope)
    (ad : associated_data) : result ciphertext_envelope :=
  e ← from_mapping (to_mapping encrypted_value);
  if ce_key_version e =? active_key_version crypto then mret e
  else
    aad ← canonical_bytes ad;
    w ← or_operation_error
          (data_key ← unwrap_key crypto (ce_key_version e) (ce_wrapped_key_nonce e) (ce_wrapped_key e) aad;
           wrap_key crypto (rnd_wrap_nonce r) data_key aad);
    let '(key_version, wrapped_key_nonce, wrapped_key) := w in
    _validate_wrapped_key key_version wrapped_key_nonce wrapped_key (active_key_version crypto) ;;
    mret (CiphertextEnvelope (ce_format_version e) (ce_data_algorithm e) (ce_key_wrap_algorithm e)
            key_version (ce_nonce e) (ce_ciphertext e) wrapped_key_nonce wrapped_key).
End Envelope.

(** ** The encodings *)

Lemma b64_bits_char a b c d e f : b64_bits (b64_char a b c d e f) = Some (Sextet a b c d e f).
Proof. destruct a, b, c, d, e, f; reflexivity. Qed.

Lemma b64_char_pad a b c d e f : bool_decide (b64_char a b c d e f = "="%char) = false.
Proof. destruct a, b, c, d, e, f; reflexivity. Qed.

(** Induction over groups of three bytes. *)
Lemma string_ind3 (P : string -> Prop) :
  P EmptyString -> (forall a, P (String a "")) -> (forall a b, P (String a (String b ""))) ->
  (forall a b c s, P s -> P (String a (String b (String c s)))) -> forall s, P s.
Proof.
  intros H0 H1 H2 H3. fix IH 1. intros [|a [|b [|c s]]]; [done|apply H1|apply H2|]. apply H3, IH.
Qed.

Lemma b64_roundtrip s : b64decode (b64encode s) = Some s.
Proof.
  induction s as [|a|a b|a b c s IH] using string_ind3; [done|..].
  - destruct a as [a0 a1 a2 a3 a4 a5 a6 a7]. cbn. by rewrite !b64_bits_char.
  - destruct a as [a0 a1 a2 a3 a4 a5 a6 a7], b as [b0 b1 b2 b3 b4 b5 b6 b7].
    cbn -[b64_char b64_bits bool_decide]. by rewrite !b64_bits_char, b64_char_pad.
  - destruct a as [a0 a1 a2 a3 a4 a5 a6 a7], b as [b0 b1 b2 b3 b4 b5 b6 b7], c as [c0 c1 c2 c3 c4 c5 c6 c7].
    cbn -[b64_char b64_bits bool_decide]. rewrite !b64_bits_char, !b64_char_pad.
    cbn. by rewrite IH.
Qed.

Lemma be_bytes_acc k n acc : be_bytes k n acc = (be_bytes k n "" +:+ acc)%string.
Proof.
  revert n acc. induction k as [|k IH]; intros n acc; [done|]. cbn.
  rewrite (IH _ (String _ acc)), (IH _ (String _ "")), string_append_assoc. done.
Qed.

Lemma be_bytes_length k n : String.length (be_bytes k n "") = k.
Proof.
  revert n. induction k as [|k IH]; intros n; [done|]. cbn.
  rewrite be_bytes_acc, string_append_length, IH. cbn. lia.
Qed.

(** Equal texts split at equal lengths. *)
Lemma append_split (a a' b b' : string) :
  String.length a = String.length a' -> (a +:+ b = a' +:+ b')%string -> a = a' /\ b = b'.
Proof.
  revert a'. induction a as [|x a IH]; intros [|x' a'] Hl; try done.
  rewrite !append_cons. intros [= <- Heq]. apply IH in Heq as [-> ->]; [done|]. by injection Hl.
Qed.

Lemma be_bytes_inj k n m :
  (n < 256 ^ N.of_nat k)%N -> (m < 256 ^ N.of_nat k)%N -> be_bytes k n "" = be_bytes k m "" -> n = m.
Proof.
  revert n m. induction k as [|k IH]; intros n m; [cbn; lia|].
  rewrite Nat2N.inj_succ, N.pow_succ_r'. intros Hn Hm. cbn.
  rewrite (be_bytes_acc k (n / 256)), (be_bytes_acc k (m / 256)). intros Heq.
  apply append_split in Heq as [Hhigh [= Hlow]]; [|by rewrite !be_bytes_length].
  apply IH in Hhigh; [|by apply N.Div0.div_lt_upper_bound..].
  apply (f_equal N_of_ascii) in Hlow. rewrite !N_ascii_embedding in Hlow by (apply N.mod_lt; lia).
  rewrite (N.div_mod n 256), (N.div_mod m 256) by lia. by rewrite Hhigh, Hlow.
Qed.

Lemma Ok_inj {A} (a b : A) : Ok a = Ok b -> a = b.
Proof. congruence. Qed.

Lemma packed_inj a b x y :
  (N.of_nat (String.length a) < 2 ^ 32)%N -> (N.of_nat (String.length b) < 2 ^ 32)%N ->
  (packed a +:+ x = packed b +:+ y)%string -> a = b /\ x = y.
Proof.
  intros Ha Hb. unfold packed. rewrite !string_append_assoc. intros Heq.
  apply append_split in Heq as [Hlen Heq]; [|by rewrite !be_bytes_length].
  apply be_bytes_inj in Hlen; [|done..]. apply append_split in Heq; [done|lia].
Qed.

Definition data_ids_ok (ad : associated_data) : Prop :=
  (ad_tenant_id ad < 2 ^ 128)%N /\ (ad_record_id ad < 2 ^ 128)%N.

(** The canonical bytes tell tenant, record and field apart. *)
Lemma canonical_bytes_inj a b s :
  data_ids_ok a -> data_ids_ok b -> canonical_bytes a = Ok s -> canonical_bytes b = Ok s -> a = b.
Proof.
  destruct a as [ta ra fa], b as [tb rb fb]. unfold data_ids_ok, canonical_bytes. cbn [ad_tenant_id ad_record_id ad_field_name].
  intros [Hta Hra] [Htb Hrb] Ha Hb. ok_step Ha as u Hfa. ok_step Hb as v Hfb. apply raise_if_Ok in Hfa, Hfb.
  apply Ok_inj in Ha as <-. apply Ok_inj in Hb as Heq. symmetry in Heq.
  apply orb_false_iff in Hfa as [_ Hfa%Nat.ltb_ge], Hfb as [_ Hfb%Nat.ltb_ge].
  assert (Hlen : forall k n, (N.of_nat (String.length (be_bytes k n "")) = N.of_nat k)%N)
    by (intros; by rewrite be_bytes_length).
  apply packed_inj in Heq as [_ Heq]; [|done..].
  apply packed_inj in Heq as [_ Heq]; [|done..].
  apply packed_inj in Heq as [Ht Heq]; [|rewrite Hlen; done..].
  apply packed_inj in Heq as [Hr Heq]; [|rewrite Hlen; done..].
  rewrite <- (string_append_nil (packed fb)), <- (string_append_nil (packed fa)) in Heq.
  apply packed_inj in Heq as [Hf _]; [|lia..].
  apply be_bytes_inj in Ht, Hr; [by subst|done..].
Qed.

(** A valid envelope survives its stored form. *)
Lemma mapping_roundtrip e : envelope_valid e = true -> from_mapping (to_mapping e) = Ok e.
Proof.
  intros Hv. unfold from_mapping. rewrite bool_decide_eq_true_2 by done. cbn [negb raise_if mbind result_bind].
  change (member (to_mapping e) "format_version") with (JInt (ce_format_version e)).
  change (member (to_mapping e) "data_algorithm") with (JString (ce_data_algorithm e)).
  change (member (to_mapping e) "key_wrap_algorithm") with (JString (ce_key_wrap_algorithm e)).
  change (member (to_mapping e) "key_version") with (JInt (ce_key_version e)).
  change (member (to_mapping e) "nonce_b64") with (JString (b64encode (ce_nonce e))).
  change (member (to_mapping e) "ciphertext_b64") with (JString (b64encode (ce_ciphertext e))).
  change (member (to_mapping e) "wrapped_key_nonce_b64") with (JString (b64encode (ce_wrapped_key_nonce e))).
  change (member (to_mapping e) "wrapped_key_b64") with (JString (b64encode (ce_wrapped_key e))).
  cbn [int_of_json _decode_b64]. rewrite !b64_roundtrip. cbn [mbind option_bind require_some result_bind].
assert (CiphertextEnvelope (ce_format_version e) (ce_data_algorithm e) (ce_key_wrap_algorithm e) (ce_key_version e)
    (ce_nonce e) (ce_ciphertext e) (ce_wrapped_key_nonce e) (ce_wrapped_key e) = e) as -> by (by destruct e).
  by rewrite Hv.
Qed.

Section Seals.
Context `{AesGcmLaws}.

(** [e] holds [plaintext] for [ad] under a key of the keyring. *)
Definition seals (keys : gmap Z string) (e : ciphertext_envelope) (ad : associated_data) (plaintext : string) : Prop :=
  envelope_valid e = true
  /\ exists key data_key aad wrap_aad,
       keys !! ce_key_version e = Some key /\ canonical_bytes ad = Ok aad
       /\ _wrap_aad aad (ce_key_version e) = Ok wrap_aad
       /\ ce_wrapped_key e = gcm_encrypt key (ce_wrapped_key_nonce e) data_key wrap_aad
       /\ ce_ciphertext e = gcm_encrypt data_key (ce_nonce e) plaintext (_data_aad aad).

Lemma or_operation_error_Ok {A} (r : result A) a : or_operation_error r = Ok a -> r = Ok a.
Proof. by destruct r. Qed.

Lemma encrypt_seals (c : local_custody) r plaintext ad e :
  rnd_ok r = true -> 1 <= lc_active_key_version c ->
  crypto_encrypt c r plaintext ad = Ok e ->
  seals (lc_keys c) e ad plaintext /\ ce_key_version e = lc_active_key_version c.
Proof.
  intros Hr Hactive Hrun. unfold crypto_encrypt in Hrun. ok_step Hrun. ok_step Hrun as aad Haad.
  ok_step Hrun as w Hw. apply or_operation_error_Ok in Hw. cbn [wrap_key local_key_custody] in Hw.
  ok_step Hw as key Hkey. apply require_some_Ok in Hkey. ok_step Hw as waad Hwaad. injection Hw as <-.
  ok_step Hrun. injection Hrun as <-. split; [|done]. split.
  - unfold rnd_ok in Hr. unfold envelope_valid. cbn [ce_format_version ce_data_algorithm ce_key_wrap_algorithm
      ce_key_version ce_nonce ce_ciphertext ce_wrapped_key_nonce ce_wrapped_key].
    rewrite !gcm_tagged. bool_prop. repeat (apply andb_true_iff; split); try done; [lia|by apply Nat.eqb_eq..].
  - by exists key, (rnd_data_key r), aad, waad.
Qed.

Lemma seals_decrypt (c : local_custody) keys e ad plaintext :
  seals keys e ad plaintext -> lc_keys c !! ce_key_version e = keys !! ce_key_version e ->
  crypto_decrypt c e ad = Ok plaintext.
Proof.
  intros (Hv & key & dk & aad & waad & Hkey & Haad & Hwaad & Hw & Hc) Hsame.
  unfold crypto_decrypt. rewrite (mapping_roundtrip _ Hv). cbn [mbind result_bind]. rewrite Haad. cbn [mbind result_bind unwrap_key local_key_custody].
  rewrite Hsame, Hkey. cbn [require_some mbind result_bind]. rewrite Hwaad. cbn [mbind result_bind].
  rewrite Hw, gcm_opens. cbn [require_some mbind result_bind]. by rewrite Hc, gcm_opens.
Qed.

Lemma seals_binds (c : local_custody) keys e ad ad' plaintext plaintext' :
  seals keys e ad plaintext -> data_ids_ok ad -> data_ids_ok ad' ->
  crypto_decrypt c e ad' = Ok plaintext' -> ad' = ad.
Proof.
  intros (Hv & key & dk & aad & waad & Hkey & Haad & Hwaad & Hw & Hc) Hok Hok'.
  unfold crypto_decrypt. rewrite (mapping_roundtrip _ Hv). intros Hrun. ok_step Hrun as e' He. injection He as <-.
  ok_step Hrun as aad' Haad'. apply or_operation_error_Ok in Hrun. ok_step Hrun as dk' Hdk. clear Hrun.
  cbn [unwrap_key local_key_custody] in Hdk. ok_step Hdk as key' _. ok_step Hdk as waad' Hwaad'.
  apply require_some_Ok in Hdk. rewrite Hw in Hdk. apply gcm_binds in Hdk as [_ ->].
  unfold _wrap_aad in Hwaad, Hwaad'. ok_step Hwaad. ok_step Hwaad'. apply Ok_inj in Hwaad as <-. apply Ok_inj in Hwaad' as Heq. symmetry in Heq.
  apply append_split in Heq as [_ Heq]; [|done]. apply append_split in Heq as [_ Heq]; [|done].
  apply append_split in Heq as [_ ->]; [|done]. by eapply canonical_bytes_inj.
Qed.

(** Rotation keeps what is sealed and always succeeds when the key is there. *)
Lemma rotate_seals (c : local_custody) r e ad plaintext :
  rnd_ok r = true -> 1 <= lc_active_key_version c < 2 ^ 32 -> lc_keys c !! lc_active_key_version c <> None ->
  seals (lc_keys c) e ad plaintext ->
  exists e', crypto_rotate c r e ad = Ok e' /\ seals (lc_keys c) e' ad plaintext
    /\ ce_key_version e' = lc_active_key_version c /\ ce_ciphertext e' = ce_ciphertext e.
Proof.
  intros Hr Hactive Hkeys (Hv & key & dk & aad & waad & Hkey & Haad & Hwaad & Hw & Hc).
  unfold crypto_rotate. rewrite (mapping_roundtrip _ Hv). cbn [mbind result_bind]. unfold active_key_version.
  cbn [custody_active_key_version local_key_custody].
  destruct (Z.eqb_spec (ce_key_version e) (lc_active_key_version c)) as [Hsame|Hdiff].
  { exists e. split; [done|]. split; [|done]. split; [done|]. by exists key, dk, aad, waad. }
  rewrite Haad. cbn [mbind result_bind unwrap_key wrap_key local_key_custody].
  rewrite Hkey. cbn [require_some mbind result_bind]. rewrite Hwaad. cbn [mbind result_bind].
  rewrite Hw, gcm_opens. cbn [require_some mbind result_bind].
  destruct (lc_keys c !! lc_active_key_version c) as [key'|] eqn:Hkey'; [|done]. cbn [require_some mbind result_bind].
  assert (exists waad', _wrap_aad aad (lc_active_key_version c) = Ok waad') as [waad' Hwaad'].
  { unfold _wrap_aad. rewrite (proj2 (Z.leb_le _ _)), (proj2 (Z.ltb_lt _ _)) by lia. eauto. }
  rewrite Hwaad'. cbn [mbind result_bind or_operation_error]. unfold _validate_wrapped_key, active_key_version.
  cbn [custody_active_key_version local_key_custody]. unfold rnd_ok in Hr. apply andb_true_iff in Hr as [_ Hr].
  cbn [mret result_ret or_operation_error mbind result_bind].
  rewrite Z.eqb_refl, Hr, gcm_tagged. cbn [negb orb raise_if mbind result_bind].
  eexists. split; [reflexivity|]. repeat split; [|by exists key', dk, aad, waad'].
  unfold envelope_valid in *. cbn [ce_format_version ce_data_algorithm ce_key_wrap_algorithm
    ce_key_version ce_nonce ce_ciphertext ce_wrapped_key_nonce ce_wrapped_key].
  repeat (apply andb_true_iff in Hv as [Hv ?]). rewrite gcm_tagged.
  repeat (apply andb_true_iff; split); try done. apply Z.leb_le. lia.
Qed.
(** A larger keyring decrypts what a smaller one does. *)
Lemma decrypt_more_keys (c c' : local_custody) e ad plaintext :
  lc_keys c ⊆ lc_keys c' -> crypto_decrypt c e ad = Ok plaintext -> crypto_decrypt c' e ad = Ok plaintext.
Proof.
  intros Hsub Hrun. unfold crypto_decrypt in *. ok_step Hrun as e' He. rewrite He. cbn [mbind result_bind].
  ok_step Hrun as aad Haad. rewrite Haad. cbn [mbind result_bind].
  apply or_operation_error_Ok in Hrun. ok_step Hrun as dk Hdk. cbn [unwrap_key local_key_custody] in *.
  ok_step Hdk as key Hkey. apply require_some_Ok in Hkey. ok_step Hdk as waad Hwaad.
  rewrite (lookup_weaken _ _ _ _ Hkey Hsub). cbn [require_some mbind result_bind]. rewrite Hwaad.
  cbn [mbind result_bind]. rewrite Hdk. cbn [mbind result_bind]. by rewrite Hrun.
Qed.

(** A rotated envelope decrypts to what it did before, under a keyring that
    holds only its new key. *)
Lemma rotate_decrypt (c c' : local_custody) r e e' ad plaintext :
  1 <= lc_active_key_version c -> crypto_rotate c r e ad = Ok e' -> crypto_decrypt c e ad = Ok plaintext ->
  lc_keys c' !! lc_active_key_version c = lc_keys c !! lc_active_key_version c ->
  crypto_decrypt c' e' ad = Ok plaintext /\ ce_key_version e' = lc_active_key_version c /\ envelope_valid e' = true.
Proof.
  intros Hpos Hrot Hdec Hsame. unfold crypto_rotate in Hrot. unfold crypto_decrypt in Hdec.
  ok_step Hrot as e0 He0. rewrite He0 in Hdec. cbn [mbind result_bind] in Hdec.
  assert (Hvalid : envelope_valid e0 = true).
  { unfold from_mapping in He0. ok_step He0. ok_step He0. ok_step He0 as u Hu. injection He0 as <-.
    apply raise_if_Ok in Hu. by bool_prop. }
  unfold active_key_version in Hrot. cbn [custody_active_key_version local_key_custody] in Hrot.
  ok_step Hdec as aad Haad. rewrite Haad in Hrot. apply or_operation_error_Ok in Hdec. ok_step Hdec as dk Hdk.
  destruct (Z.eqb_spec (ce_key_version e0) (lc_active_key_version c)) as [Hactive|_].
  { injection Hrot as <-. split; [|done]. unfold crypto_decrypt. rewrite (mapping_roundtrip _ Hvalid). cbn [mbind result_bind].
    rewrite Haad. cbn [mbind result_bind unwrap_key local_key_custody] in *. rewrite Hactive in *. rewrite Hsame, Hdk. cbn [mbind result_bind].
    by rewrite Hdec. }
  cbn [mbind result_bind] in Hrot. rewrite Hdk in Hrot. cbn [mbind result_bind wrap_key local_key_custody] in Hrot.
  ok_step Hrot as w Hw. apply or_operation_error_Ok in Hw. ok_step Hw as key Hkey. ok_step Hw as waad Hwaad.
  injection Hw as <-. ok_step Hrot as u Hv. injection Hrot as <-.
  assert (Hvalid' : envelope_valid (CiphertextEnvelope (ce_format_version e0) (ce_data_algorithm e0)
    (ce_key_wrap_algorithm e0) (lc_active_key_version c) (ce_nonce e0) (ce_ciphertext e0) (rnd_wrap_nonce r)
    (gcm_encrypt key (rnd_wrap_nonce r) dk waad)) = true).
  { unfold envelope_valid in *. cbn [ce_format_version ce_data_algorithm ce_key_wrap_algorithm
      ce_key_version ce_nonce ce_ciphertext ce_wrapped_key_nonce ce_wrapped_key].
    unfold _validate_wrapped_key in Hv. apply raise_if_Ok in Hv. bool_prop.
    repeat (apply andb_true_iff; split); try done; first [by apply bool_decide_eq_true_2|by apply Z.eqb_eq|by apply Z.leb_le]. }
  split; [|done]. unfold crypto_decrypt. rewrite (mapping_roundtrip _ Hvalid').
  cbn [mbind result_bind ce_key_version ce_nonce ce_ciphertext ce_wrapped_key_nonce ce_wrapped_key
    unwrap_key local_key_custody].
  rewrite Haad. cbn [mbind result_bind]. rewrite Hsame. apply require_some_Ok in Hkey. rewrite Hkey.
  cbn [require_some mbind result_bind]. rewrite Hwaad. cbn [mbind result_bind]. rewrite gcm_opens.
  cbn [require_some mbind result_bind]. by rewrite Hdec.
Qed.
End Seals.

Section Roundtrip.
Context `{AesGcmLaws}.

Lemma new_local_custody_Ok keys active c :
  new_local_custody keys active = Ok c ->
  c = LocalCustody keys active /\ 1 <= active /\ keys !! active <> None.
Proof.
  unfold new_local_custody. intros Hrun. ok_step Hrun as u Hb. ok_step Hrun. injection Hrun as <-.
  apply raise_if_Ok, orb_false_iff in Hb as [Hk%bool_decide_eq_false Ha%Z.ltb_ge]. done.
Qed.

Lemma seals_keyring keys keys' e ad plaintext :
  seals keys e ad plaintext -> keys' !! ce_key_version e = keys !! ce_key_version e -> seals keys' e ad plaintext.
Proof. intros (Hv & key & dk & aad & waad & Hkey & Hrest) Hsame. split; [done|]. exists key, dk, aad, waad. by rewrite Hsame. Qed.

(** C33: what is encrypted can be read back, and only as what it is.  An encrypted
    value survives its stored form; it decrypts to the same plaintext as long
    as its key version stays in the keyring, whatever other keys are added or
    made active; rotating it under a keyring that holds its key always
    succeeds, leaves the ciphertext alone and ends under the active key, with
    the same plaintext; and under the associated data of another tenant, record
    or field it never decrypts, whatever the keyring. *)
Theorem envelope_roundtrip keys active (c : local_custody) r plaintext ad e :
  new_local_custody keys active = Ok c -> rnd_ok r = true -> data_ids_ok ad ->
  crypto_encrypt c r plaintext ad = Ok e ->
  from_mapping (to_mapping e) = Ok e
  /\ (forall c' : local_custody, lc_keys c' !! ce_key_version e = lc_keys c !! ce_key_version e ->
      crypto_decrypt c' e ad = Ok plaintext)
  /\ (forall (c' : local_custody) r', new_local_custody (lc_keys c') (lc_active_key_version c') = Ok c' ->
      lc_active_key_version c' < 2 ^ 32 -> rnd_ok r' = true ->
      lc_keys c' !! ce_key_version e = lc_keys c !! ce_key_version e ->
      exists e', crypto_rotate c' r' e ad = Ok e'
        /\ ce_key_version e' = lc_active_key_version c' /\ ce_ciphertext e' = ce_ciphertext e
        /\ forall c'' : local_custody, lc_keys c'' !! ce_key_version e' = lc_keys c' !! ce_key_version e' ->
             crypto_decrypt c'' e' ad = Ok plaintext)
  /\ (forall (c' : local_custody) ad' plaintext', data_ids_ok ad' ->
      crypto_decrypt c' e ad' = Ok plaintext' -> ad' = ad).
Proof.
  intros Hc Hr Hids Hrun. apply new_local_custody_Ok in Hc as (-> & Hactive & _).
  apply encrypt_seals in Hrun as [Hs Hversion]; [|done..]. cbn [lc_keys] in *.
  split; [by apply mapping_roundtrip, Hs|]. split; [|split].
  - intros c' Hsame. by eapply seals_decrypt.
  - intros c' r' Hc' Hbound Hr' Hsame. apply new_local_custody_Ok in Hc' as (_ & Ha & Hk).
    destruct (rotate_seals c' r' e ad plaintext Hr' (conj Ha Hbound) Hk) as (e' & Hrun & Hs' & Hv' & Hct).
    { by eapply seals_keyring. }
    exists e'. repeat (split; [done|]). intros c'' Hsame'. by eapply seals_decrypt.
  - intros c' ad' plaintext' Hids'. by eapply seals_binds.
Qed.
End Roundtrip.

(** ** A cipher for the examples *)

Module CryptoSample.

(** A self-delimiting copy of a text: each byte after a mark. *)
Fixpoint framed (s : string) (rest : string) : string :=
  match s with
  | EmptyString => String "0" rest
  | String c s => String "1" (String c (framed s rest))
  end.

Fixpoint unframe (s : string) (text : string) : option string :=
  match s, text with
  | EmptyString, String "0" rest => Some rest
  | String c s, String "1" (String d text) => if bool_decide (c = d) then unframe s text else None
  | _, _ => None
  end%char.

Lemma unframe_framed s t rest out : unframe s (framed t rest) = Some out <-> s = t /\ out = rest.
Proof.
  revert t. induction s as [|c s IH]; intros [|d t]; cbn; try (split; [done|by intros [? _]]).
  - naive_solver.
  - case_bool_decide as Hcd; [subst; rewrite IH; naive_solver|]. split; [done|]. intros [[= ? ?] _]. done.
Qed.

(** Not a cipher, but it keeps AES-GCM's laws: key, nonce and associated data
    stand in front of the plaintext. *)
#[export] Instance clear_text : AesGcm := {|
  gcm_encrypt := fun key nonce plaintext aad => framed key (framed nonce (framed aad plaintext));
  gcm_decrypt := fun key nonce ciphertext aad =>
    t ← unframe key ciphertext; t ← unframe nonce t; unframe aad t
|}.

#[export] Instance clear_text_laws : AesGcmLaws.
Proof.
  split.
  - intros key nonce plaintext aad. cbn [gcm_encrypt gcm_decrypt clear_text].
    rewrite (proj2 (unframe_framed key key _ _)) by done. cbn [mbind option_bind].
    rewrite (proj2 (unframe_framed nonce nonce _ _)) by done. cbn [mbind option_bind]. by apply unframe_framed.
  - intros key nonce plaintext aad. by destruct key.
  - intros key key' nonce plaintext plaintext' aad aad'. cbn [gcm_encrypt gcm_decrypt clear_text].
    intros (t & [-> ->]%unframe_framed & H)%bind_Some. apply bind_Some in H as (t & [_ ->]%unframe_framed & H).
    by apply unframe_framed in H as [-> _].
Qed.

Definition keyring : local_custody := LocalCustody {[1 := zeros 32]} 1.
Definition next_keyring : local_custody := LocalCustody (<[2 := hex_digits 32 5 ""]> (lc_keys keyring)) 2.
Definition random : randomness := Randomness (hex_digits 32 7 "") (zeros 12) (hex_digits 12 1 "").
Definition owner : associated_data := AssociatedData 50 90 "bank_account.details".
Definition sealed : result ciphertext_envelope := crypto_encrypt keyring random "secret" owner.
End CryptoSample.

Import CryptoSample.

Lemma envelope_roundtrip_witness :
  match CryptoSample.sealed with
  | Ok e =>
      crypto_decrypt CryptoSample.keyring e CryptoSample.owner = Ok "secret"%string
      /\ (exists e', crypto_rotate CryptoSample.next_keyring CryptoSample.random e CryptoSample.owner = Ok e' /\ ce_key_version e' = 2)
      /\ forall c p, crypto_decrypt (C := local_custody) c e (AssociatedData 51 90 "bank_account.details") <> Ok p
  | Raise _ => False
  end.
Proof.
  destruct CryptoSample.sealed as [e|] eqn:He; [|vm_compute in He; discriminate He].
  assert (Hids : data_ids_ok CryptoSample.owner) by (split; vm_compute; reflexivity).
  destruct (envelope_roundtrip (lc_keys CryptoSample.keyring) 1 CryptoSample.keyring CryptoSample.random "secret" CryptoSample.owner e
              ltac:(vm_compute; reflexivity) ltac:(vm_compute; reflexivity) Hids He) as (_ & Hd & Hrot & Hb).
  assert (Hversion : ce_key_version e = 1).
  { assert (match CryptoSample.sealed with Ok e => ce_key_version e | Raise _ => 0 end = 1) as H
      by (vm_compute; reflexivity). by rewrite He in H. }
  split; [by apply Hd|]. split.
  - destruct (Hrot CryptoSample.next_keyring CryptoSample.random
                ltac:(vm_compute; reflexivity) ltac:(vm_compute; reflexivity) ltac:(vm_compute; reflexivity)) as (e' & H1 & H2 & _).
    { rewrite Hversion. vm_compute. reflexivity. }
    by exists e'.
  - intros c p Hp. apply Hb in Hp; [discriminate Hp|split; vm_compute; reflexivity].
Defined.
