(* ===== verification/BillingData.v ===== *)
(** The billing data: the enumerations and rows of [models/billing.py],
    [models/campaign_cancellation.py], [models/notification.py] and the columns
    of users, organizations and campaigns the billing services read, the table
    constraints, the store, and the value helpers and queries shared by the
    billing services ([services/billing/common.py] and [queries.py]). *)

From stdpp Require Import base list strings gmap.
From Stdlib Require Import ZArith QArith Lia.
From S2P Require Import Prelude PayoutData Text.

#[local] Open Scope Z_scope.

(** ** Enumerations *)

Inductive user_role := ROLE_ADMIN | ROLE_ADVERTISER | ROLE_DRIVER.
Inductive user_status := USER_ACTIVE | USER_INVITED | USER_SUSPENDED | USER_DISABLED.
Inductive organization_status := ORG_ACTIVE | ORG_SUSPENDED | ORG_DISABLED.
Inductive membership_status := MEMBER_ACTIVE | MEMBER_INVITED | MEMBER_DISABLED.
Inductive payment_class := STANDARD_PREPAID | APPROVED_CORPORATE_CREDIT.
Inductive receipt_method := MANUAL_TRANSFER | GATEWAY.
Inductive receipt_lifecycle_status := RECORDED | CONFIRMED | REVERSED.
Inductive invoice_status := INVOICE_DRAFT | INVOICE_ISSUED | INVOICE_VOID.
Inductive invoice_correction_type := CREDIT_NOTE | DEBIT_NOTE.
Inductive settlement_disposition := REFUND_RECORDED | CREDIT_SETTLEMENT_RECORDED.
Inductive cancellation_disposition :=
| CASH_REFUND_DUE | CASH_REFUND_NOT_DUE | CREDIT_SETTLEMENT_DUE | NO_SETTLEMENT.
Inductive allocation_source := SOURCE_MANUAL | SOURCE_PROVIDER.
Inductive notification_channel := IN_APP | TRANSACTIONAL_EMAIL.
Inductive notification_status := NOTICE_PENDING | NOTICE_SENT | NOTICE_FAILED.
Inductive notification_type :=
| DRIVER_ID_APPROVED | DRIVER_ID_REJECTED | DRIVER_CAR_APPROVED | DRIVER_CAR_REJECTED | ASSIGNMENT_OFFERED
| ASSIGNMENT_ACCEPTED | CAMPAIGN_APPROVED | CAMPAIGN_REJECTED | CREATIVE_APPROVED | CREATIVE_REJECTED
| QUOTATION_READY | REPORT_READY | FUNDING_CONFIRMED | BUDGET_ALERT | BUDGET_URGENT_ALERT
| CAMPAIGN_BUDGET_PAUSED | CAMPAIGN_BUDGET_RESUMED | CAMPAIGN_CANCELLED | PAYOUT_RELEASED
| PASSWORD_RESET_REQUESTED | ADVERTISER_LOGIN_INVITE | DRIVER_ONBOARDING_ACCESS_REQUESTED
| DRIVER_ACCOUNT_SETUP_REQUESTED | FRAUD_HOLD_RAISED | FRAUD_REVIEW_RESOLVED | FRAUD_DISPUTE_REPLIED
| ASSIGNMENT_INACTIVE | PAYOUT_AUTOMATIC_ALERT | PAYOUT_AUTOMATIC_PAUSED | PAYOUT_AUTOMATIC_RESUMED
| COMPLAINT_RECEIVED | COMPLAINT_REPLIED | COMPLAINT_RESOLVED.
Inductive transition_action := ACTION_PAUSE | ACTION_RESUME.

#[export] Instance user_role_eq_dec : EqDecision user_role.
Proof. solve_decision. Defined.
#[export] Instance user_status_eq_dec : EqDecision user_status.
Proof. solve_decision. Defined.
#[export] Instance organization_status_eq_dec : EqDecision organization_status.
Proof. solve_decision. Defined.
#[export] Instance membership_status_eq_dec : EqDecision membership_status.
Proof. solve_decision. Defined.
#[export] Instance payment_class_eq_dec : EqDecision payment_class.
Proof. solve_decision. Defined.
#[export] Instance receipt_method_eq_dec : EqDecision receipt_method.
Proof. solve_decision. Defined.
#[export] Instance receipt_lifecycle_status_eq_dec : EqDecision receipt_lifecycle_status.
Proof. solve_decision. Defined.
#[export] Instance invoice_status_eq_dec : EqDecision invoice_status.
Proof. solve_decision. Defined.
#[export] Instance invoice_correction_type_eq_dec : EqDecision invoice_correction_type.
Proof. solve_decision. Defined.
#[export] Instance settlement_disposition_eq_dec : EqDecision settlement_disposition.
Proof. solve_decision. Defined.
#[export] Instance cancellation_disposition_eq_dec : EqDecision cancellation_disposition.
Proof. solve_decision. Defined.
#[export] Instance allocation_source_eq_dec : EqDecision allocation_source.
Proof. solve_decision. Defined.
#[export] Instance notification_channel_eq_dec : EqDecision notification_channel.
Proof. solve_decision. Defined.
#[export] Instance notification_type_eq_dec : EqDecision notification_type.
Proof. solve_decision. Defined.
#[export] Instance transition_action_eq_dec : EqDecision transition_action.
Proof. solve_decision. Defined.

(** ** Rows *)

Record user := User {
  us_id : uuid;
  us_role : user_role;
  us_status : user_status;
  us_session_version : Z;
  us_email : string;
  us_full_name : string;
  us_password_hash : string
}.

Record advertiser_organization := AdvertiserOrganization {
  org_id : uuid;
  org_status : organization_status
}.

Record organization_membership := OrganizationMembership {
  om_organization_id : uuid;
  om_user_id : uuid;
  om_status : membership_status
}.

Record notification_preference := NotificationPreference {
  np_advertiser_organization_id : uuid;
  np_transactional_email_enabled : bool
}.

(** A status column holds the string of its [StrEnum]. *)
Record campaign := Campaign {
  ca_id : uuid;
  ca_organization_id : uuid;
  ca_status : string;
  ca_end_at : option Z;
  ca_budget_amount : option kobo;
  ca_currency : string
}.

Record commercial_terms := CommercialTerms {
  ct_id : uuid;
  ct_campaign_id : uuid;
  ct_organization_id : uuid;
  ct_currency : string;
  ct_payment_class : payment_class;
  ct_standard_production_wait_hours : Z;
  ct_gross_amount : kobo;
  ct_accepted_at : Z
}.

Record invoice := Invoice {
  in_id : uuid;
  in_commercial_terms_id : uuid;
  in_campaign_id : uuid;
  in_invoice_number : option string;
  in_status : invoice_status;
  in_currency : string;
  in_gross_amount : kobo
}.

Record invoice_correction := InvoiceCorrection {
  ic_id : uuid;
  ic_invoice_id : uuid;
  ic_sequence_number : Z;
  ic_correction_number : string;
  ic_correction_reference : string;
  ic_request_fingerprint : string;
  ic_correction_type : invoice_correction_type;
  ic_currency : string;
  ic_net_amount : kobo;
  ic_tax_amount : kobo;
  ic_gross_amount : kobo;
  ic_reason : string;
  ic_created_by_user_id : uuid;
  ic_created_at : Z
}.

Record payment_receipt := PaymentReceipt {
  pr_id : uuid;
  pr_organization_id : uuid;
  pr_method : receipt_method;
  pr_provider : string;
  pr_external_transaction_id : string;
  pr_amount : kobo;
  pr_currency : string;
  pr_payer_name : string;
  pr_evidence_reference : string;
  pr_observed_by_user_id : option uuid;
  pr_observed_at : Z
}.

Record receipt_lifecycle_event := ReceiptLifecycleEvent {
  re_id : uuid;
  re_receipt_id : uuid;
  re_provider_event_id : option uuid;
  re_status : receipt_lifecycle_status;
  re_sequence_number : Z;
  re_actor_user_id : option uuid;
  re_reason : option string;
  re_occurred_at : Z
}.

Record receipt_allocation := ReceiptAllocation {
  ra_id : uuid;
  ra_receipt_id : uuid;
  ra_commercial_terms_id : uuid;
  ra_amount : kobo;
  ra_currency : string;
  ra_allocation_source : allocation_source;
  ra_provider_event_id : option uuid;
  ra_allocated_by_user_id : option uuid;
  ra_allocated_at : Z
}.

(** [ge_commercial_terms_reference] is the value of [UUID(reference)], [None]
    when the text is not a UUID. *)
Record payment_gateway_event := PaymentGatewayEvent {
  ge_id : uuid;
  ge_provider : string;
  ge_external_transaction_id : string;
  ge_event_type : string;
  ge_commercial_terms_reference : option uuid;
  ge_amount : kobo;
  ge_currency : string;
  ge_payer_name : string;
  ge_occurred_at : Z
}.

Record production_start := ProductionStart {
  ps_id : uuid;
  ps_campaign_id : uuid;
  ps_waiver_id : option uuid;
  ps_fully_funded_at : option Z;
  ps_started_at : Z
}.

Record campaign_cancellation := CampaignCancellation {
  cc_id : uuid;
  cc_campaign_id : uuid;
  cc_organization_id : uuid;
  cc_cutoff_at : Z;
  cc_commercial_terms_id : option uuid;
  cc_production_start_id : option uuid;
  cc_funding_authorized_at : option Z;
  cc_refund_eligibility_ends_at : option Z;
  cc_disposition : cancellation_disposition;
  cc_refundable_amount : kobo;
  cc_currency : string
}.

Record refund_settlement := RefundSettlement {
  rs_id : uuid;
  rs_commercial_terms_id : uuid;
  rs_campaign_id : uuid;
  rs_receipt_id : option uuid;
  rs_production_start_id : option uuid;
  rs_waiver_id : option uuid;
  rs_cancellation_id : option uuid;
  rs_disposition : settlement_disposition;
  rs_amount : kobo;
  rs_currency : string;
  rs_funding_authorized_at : option Z;
  rs_eligibility_ends_at : option Z;
  rs_eligibility_evaluated_at : option Z;
  rs_settlement_provider : string;
  rs_external_reference : string;
  rs_reason : string;
  rs_recorded_by_user_id : uuid;
  rs_recorded_at : Z
}.

Record budget_campaign_transition := BudgetCampaignTransition {
  bt_id : uuid;
  bt_campaign_id : uuid;
  bt_pause_transition_id : option uuid;
  bt_budget_amount : kobo;
  bt_funding_fingerprint : string;
  bt_action : transition_action;
  bt_prior_status : string;
  bt_new_status : string;
  bt_actor_user_id : option uuid;
  bt_reason : option string;
  bt_created_at : Z
}.

Record notification := Notification {
  no_id : uuid;
  no_recipient_user_id : uuid;
  no_type_key : notification_type;
  no_template_version : string;
  no_payload : gmap string string;
  no_dedupe_key : option string;
  no_channel : notification_channel;
  no_status : notification_status;
  no_dedupe_fingerprint : string;
  no_sent_at : option Z
}.

#[export] Instance payment_receipt_eq_dec : EqDecision payment_receipt.
Proof. solve_decision. Defined.
#[export] Instance receipt_allocation_eq_dec : EqDecision receipt_allocation.
Proof. solve_decision. Defined.

(** ** The store *)

(** The tables the modelled services only read. *)
Record billing_facts := BillingFacts {
  bs_users : list user;
  bs_organizations : list advertiser_organization;
  bs_memberships : list organization_membership;
  bs_preferences : list notification_preference;
  bs_terms : list commercial_terms;
  bs_invoices : list invoice;
  bs_gateway_events : list payment_gateway_event;
  bs_productions : list production_start;
  bs_cancellations : list campaign_cancellation
}.

(** The tables they write, and the jobs queued on the session for dispatch after
    the commit ([session.info]). *)
Record billing_store := BillingStore {
  bs_facts :> billing_facts;
  bs_campaigns : list campaign;
  bs_corrections : list invoice_correction;
  bs_receipts : list payment_receipt;
  bs_receipt_events : list receipt_lifecycle_event;
  bs_allocations : list receipt_allocation;
  bs_refunds : list refund_settlement;
  bs_transitions : list budget_campaign_transition;
  bs_notifications : list notification;
  bs_jobs : gset (string * uuid);
  bs_audit : list audit_event
}.

Definition with_campaigns (f : list campaign -> list campaign)
    (db : billing_store) : billing_store :=
  {| bs_facts := bs_facts db;
     bs_campaigns := f (bs_campaigns db); bs_corrections := bs_corrections db; bs_receipts := bs_receipts db;
     bs_receipt_events := bs_receipt_events db; bs_allocations := bs_allocations db; bs_refunds := bs_refunds db;
     bs_transitions := bs_transitions db; bs_notifications := bs_notifications db; bs_jobs := bs_jobs db;
     bs_audit := bs_audit db |}.

Definition with_corrections (f : list invoice_correction -> list invoice_correction)
    (db : billing_store) : billing_store :=
  {| bs_facts := bs_facts db;
     bs_campaigns := bs_campaigns db; bs_corrections := f (bs_corrections db); bs_receipts := bs_receipts db;
     bs_receipt_events := bs_receipt_events db; bs_allocations := bs_allocations db; bs_refunds := bs_refunds db;
     bs_transitions := bs_transitions db; bs_notifications := bs_notifications db; bs_jobs := bs_jobs db;
     bs_audit := bs_audit db |}.

Definition with_receipts (f : list payment_receipt -> list payment_receipt)
    (db : billing_store) : billing_store :=
  {| bs_facts := bs_facts db;
     bs_campaigns := bs_campaigns db; bs_corrections := bs_corrections db; bs_receipts := f (bs_receipts db);
     bs_receipt_events := bs_receipt_events db; bs_allocations := bs_allocations db; bs_refunds := bs_refunds db;
     bs_transitions := bs_transitions db; bs_notifications := bs_notifications db; bs_jobs := bs_jobs db;
     bs_audit := bs_audit db |}.

Definition with_receipt_events (f : list receipt_lifecycle_event -> list receipt_lifecycle_event)
    (db : billing_store) : billing_store :=
  {| bs_facts := bs_facts db;
     bs_campaigns := bs_campaigns db; bs_corrections := bs_corrections db; bs_receipts := bs_receipts db;
     bs_receipt_events := f (bs_receipt_events db); bs_allocations := bs_allocations db; bs_refunds := bs_refunds db;
     bs_transitions := bs_transitions db; bs_notifications := bs_notifications db; bs_jobs := bs_jobs db;
     bs_audit := bs_audit db |}.

Definition with_allocations (f : list receipt_allocation -> list receipt_allocation)
    (db : billing_store) : billing_store :=
  {| bs_facts := bs_facts db;
     bs_campaigns := bs_campaigns db; bs_corrections := bs_corrections db; bs_receipts := bs_receipts db;
     bs_receipt_events := bs_receipt_events db; bs_allocations := f (bs_allocations db); bs_refunds := bs_refunds db;
     bs_transitions := bs_transitions db; bs_notifications := bs_notifications db; bs_jobs := bs_jobs db;
     bs_audit := bs_audit db |}.

Definition with_refunds (f : list refund_settlement -> list refund_settlement)
    (db : billing_store) : billing_store :=
  {| bs_facts := bs_facts db;
     bs_campaigns := bs_campaigns db; bs_corrections := bs_corrections db; bs_receipts := bs_receipts db;
     bs_receipt_events := bs_receipt_events db; bs_allocations := bs_allocations db; bs_refunds := f (bs_refunds db);
     bs_transitions := bs_transitions db; bs_notifications := bs_notifications db; bs_jobs := bs_jobs db;
     bs_audit := bs_audit db |}.

Definition with_transitions (f : list budget_campaign_transition -> list budget_campaign_transition)
    (db : billing_store) : billing_store :=
  {| bs_facts := bs_facts db;
     bs_campaigns := bs_campaigns db; bs_corrections := bs_corrections db; bs_receipts := bs_receipts db;
     bs_receipt_events := bs_receipt_events db; bs_allocations := bs_allocations db; bs_refunds := bs_refunds db;
     bs_transitions := f (bs_transitions db); bs_notifications := bs_notifications db; bs_jobs := bs_jobs db;
     bs_audit := bs_audit db |}.

Definition with_notifications (f : list notification -> list notification)
    (db : billing_store) : billing_store :=
  {| bs_facts := bs_facts db;
     bs_campaigns := bs_campaigns db; bs_corrections := bs_corrections db; bs_receipts := bs_receipts db;
     bs_receipt_events := bs_receipt_events db; bs_allocations := bs_allocations db; bs_refunds := bs_refunds db;
     bs_transitions := bs_transitions db; bs_notifications := f (bs_notifications db); bs_jobs := bs_jobs db;
     bs_audit := bs_audit db |}.

Definition with_jobs (f : gset (string * uuid) -> gset (string * uuid))
    (db : billing_store) : billing_store :=
  {| bs_facts := bs_facts db;
     bs_campaigns := bs_campaigns db; bs_corrections := bs_corrections db; bs_receipts := bs_receipts db;
     bs_receipt_events := bs_receipt_events db; bs_allocations := bs_allocations db; bs_refunds := bs_refunds db;
     bs_transitions := bs_transitions db; bs_notifications := bs_notifications db; bs_jobs := f (bs_jobs db);
     bs_audit := bs_audit db |}.

Definition with_audit (f : list audit_event -> list audit_event)
    (db : billing_store) : billing_store :=
  {| bs_facts := bs_facts db;
     bs_campaigns := bs_campaigns db; bs_corrections := bs_corrections db; bs_receipts := bs_receipts db;
     bs_receipt_events := bs_receipt_events db; bs_allocations := bs_allocations db; bs_refunds := bs_refunds db;
     bs_transitions := bs_transitions db; bs_notifications := bs_notifications db; bs_jobs := bs_jobs db;
     bs_audit := f (bs_audit db) |}.

(** [create_audit_event] *)
Definition add_audit_event (actor : option uuid) (action entity_type : string) (entity : uuid)
    (db : billing_store) : billing_store :=
  with_audit (fun l => l ++ [AuditEvent actor action entity_type entity]) db.

(** A [Numeric(14, 2)] column. *)
Definition numeric_14_2 (amount : kobo) : bool := Z.abs amount <? 10 ^ 14.

(** The strings of the enumerations. *)
Definition correction_type_value (t : invoice_correction_type) : string :=
  match t with CREDIT_NOTE => "credit_note" | DEBIT_NOTE => "debit_note" end.

Definition channel_value (c : notification_channel) : string :=
  match c with IN_APP => "in_app" | TRANSACTIONAL_EMAIL => "transactional_email" end.

Definition type_key_value (t : notification_type) : string :=
  match t with
  | DRIVER_ID_APPROVED => "driver_id_approved"
  | DRIVER_ID_REJECTED => "driver_id_rejected"
  | DRIVER_CAR_APPROVED => "driver_car_approved"
  | DRIVER_CAR_REJECTED => "driver_car_rejected"
  | ASSIGNMENT_OFFERED => "assignment_offered"
  | ASSIGNMENT_ACCEPTED => "assignment_accepted"
  | CAMPAIGN_APPROVED => "campaign_approved"
  | CAMPAIGN_REJECTED => "campaign_rejected"
  | CREATIVE_APPROVED => "creative_approved"
  | CREATIVE_REJECTED => "creative_rejected"
  | QUOTATION_READY => "quotation_ready"
  | REPORT_READY => "report_ready"
  | FUNDING_CONFIRMED => "funding_confirmed"
  | BUDGET_ALERT => "budget_alert"
  | BUDGET_URGENT_ALERT => "budget_urgent_alert"
  | CAMPAIGN_BUDGET_PAUSED => "campaign_budget_paused"
  | CAMPAIGN_BUDGET_RESUMED => "campaign_budget_resumed"
  | CAMPAIGN_CANCELLED => "campaign_cancelled"
  | PAYOUT_RELEASED => "payout_released"
  | PASSWORD_RESET_REQUESTED => "password_reset_requested"
  | ADVERTISER_LOGIN_INVITE => "advertiser_login_invite"
  | DRIVER_ONBOARDING_ACCESS_REQUESTED => "driver_onboarding_access_requested"
  | DRIVER_ACCOUNT_SETUP_REQUESTED => "driver_account_setup_requested"
  | FRAUD_HOLD_RAISED => "fraud_hold_raised"
  | FRAUD_REVIEW_RESOLVED => "fraud_review_resolved"
  | FRAUD_DISPUTE_REPLIED => "fraud_dispute_replied"
  | ASSIGNMENT_INACTIVE => "assignment_inactive"
  | PAYOUT_AUTOMATIC_ALERT => "payout_automatic_alert"
  | PAYOUT_AUTOMATIC_PAUSED => "payout_automatic_paused"
  | PAYOUT_AUTOMATIC_RESUMED => "payout_automatic_resumed"
  | COMPLAINT_RECEIVED => "complaint_received"
  | COMPLAINT_REPLIED => "complaint_replied"
  | COMPLAINT_RESOLVED => "complaint_resolved"
  end.

(** ** Authorization ([services/admin_authorization.py]) *)

Definition require_active_admin (db : billing_store) (actor_user_id : uuid)
    (expected_session_version : option Z) : result unit :=
  let admin := find_row (fun u =>
      bool_decide (us_id u = actor_user_id)
      && bool_decide (us_role u = ROLE_ADMIN)
      && bool_decide (us_status u = USER_ACTIVE)
      && match expected_session_version with
         | Some v => us_session_version u =? v
         | None => true
         end) (bs_users db) in
  _ ← require_some admin (AppError "FORBIDDEN_ROLE" 403);
  mret tt.

(** ** Value helpers ([services/billing/common.py]) *)

Definition receipt_sequence (s : receipt_lifecycle_status) : Z :=
  match s with RECORDED => 1 | CONFIRMED => 2 | REVERSED => 3 end.

Definition _aware_utc (value : datetime) : result Z :=
  match utcoffset value with
  | None => Raise (AppError "INVALID_ACCEPTED_AT" 400)
  | Some offset => Ok (wall value - offset)
  end.

Definition _stored_aware_utc (value : datetime) : Z := utc_of value.

(** What [Decimal(value)] makes of an amount given as text or number: a finite
    decimal, an infinity or NaN, or [InvalidOperation]. *)
Inductive amount_input := Finite (q : Q) | NotFinite | NotDecimal.

(** The coefficient of [amount.quantize(Decimal("0.01"))]: the nearest whole
    number of kobo, ties to even. *)
Definition round_half_even (q : Q) : Z :=
  let n := Qnum q in
  let d := Zpos (Qden q) in
  let k := n / d in
  let twice := 2 * (n mod d) in
  if twice <? d then k else if d <? twice then k + 1 else if Z.even k then k else k + 1.

(** [_money]; a coefficient of more than 28 digits is beyond the decimal
    context and [quantize] raises. *)
Definition _money (value : amount_input) : result kobo :=
  let invalid := AppError "INVALID_COMMERCIAL_AMOUNT" 400 in
  match value with
  | NotDecimal | NotFinite => Raise invalid
  | Finite amount =>
      if negb (Qle_bool 0 amount) then Raise invalid
      else
        let quantized := round_half_even (amount * inject_Z 100) in
        if 10 ^ 28 <=? quantized then Raise InvalidOperation
        else if negb (Qeq_bool (amount * inject_Z 100) (inject_Z quantized)) then Raise invalid
        else Ok quantized
  end.

Definition _campaign (db : billing_store) (campaign_id : uuid) : result campaign :=
  require_some (find_row (fun c => bool_decide (ca_id c = campaign_id)) (bs_campaigns db))
    (AppError "CAMPAIGN_NOT_FOUND" 404).

(** ** Queries ([services/billing/queries.py]) *)

Definition get_terms (db : billing_store) (terms_id : uuid) : option commercial_terms :=
  find_row (fun t => bool_decide (ct_id t = terms_id)) (bs_terms db).

Definition get_receipt (db : billing_store) (receipt_id : uuid) : option payment_receipt :=
  find_row (fun r => bool_decide (pr_id r = receipt_id)) (bs_receipts db).

Definition receipt_events (db : billing_store) (receipt_id : uuid) : list receipt_lifecycle_event :=
  List.filter (fun e => bool_decide (re_receipt_id e = receipt_id)) (bs_receipt_events db).

Definition _receipt_status (db : billing_store) (receipt_id : uuid) : option receipt_lifecycle_status :=
  re_status <$> head (stable_sort (fun a b => re_sequence_number b <=? re_sequence_number a)
                        (receipt_events db receipt_id)).

Definition _commercial_terms_for_campaign (db : billing_store) (campaign_id : uuid)
    : option commercial_terms :=
  find_row (fun t => bool_decide (ct_campaign_id t = campaign_id)) (bs_terms db).

Definition has_event (db : billing_store) (s : receipt_lifecycle_status) (receipt_id : uuid) : bool :=
  existsb (fun e => bool_decide (re_receipt_id e = receipt_id) && bool_decide (re_status e = s))
    (bs_receipt_events db).

Definition _active_receipt_predicate (db : billing_store) (receipt_id : uuid) : bool :=
  has_event db CONFIRMED receipt_id && negb (has_event db REVERSED receipt_id).

Definition active_allocation (db : billing_store) (terms_id : uuid) (a : receipt_allocation) : bool :=
  bool_decide (ra_commercial_terms_id a = terms_id)
  && existsb (fun r => bool_decide (pr_id r = ra_receipt_id a)) (bs_receipts db)
  && _active_receipt_predicate db (ra_receipt_id a).

Definition _active_cash_allocations (db : billing_store) (commercial_terms_id : uuid)
    : list receipt_allocation :=
  stable_sort (fun a b => (ra_allocated_at a <? ra_allocated_at b)
                          || (ra_allocated_at a =? ra_allocated_at b) && (ra_id a <=? ra_id b)%N)
    (List.filter (active_allocation db commercial_terms_id) (bs_allocations db)).

Definition invoice_for_terms (db : billing_store) (terms_id : uuid) : option invoice :=
  find_row (fun i => bool_decide (in_commercial_terms_id i = terms_id)) (bs_invoices db).

Definition invoice_corrections (db : billing_store) (invoice_id : uuid) : list invoice_correction :=
  List.filter (fun c => bool_decide (ic_invoice_id c = invoice_id)) (bs_corrections db).

(** The invoice obligation after its corrections. *)
Definition signed_correction (row : invoice_correction) : kobo :=
  match ic_correction_type row with
  | CREDIT_NOTE => - ic_gross_amount row
  | DEBIT_NOTE => ic_gross_amount row
  end.

Definition effective_invoice_obligation (db : billing_store) (commercial_terms_id : uuid) : result kobo :=
  terms ← require_some (get_terms db commercial_terms_id) (AppError "COMMERCIAL_TERMS_NOT_FOUND" 404);
  mret match invoice_for_terms db commercial_terms_id with
       | None => ct_gross_amount terms
       | Some inv => in_gross_amount inv + sum_by signed_correction (invoice_corrections db (in_id inv))
       end.

Definition adjusted_invoice_obligation (db : billing_store) (invoice_id : uuid) : result kobo :=
  inv ← require_some (find_row (fun i => bool_decide (in_id i = invoice_id)) (bs_invoices db))
          (AppError "INVOICE_NOT_FOUND" 404);
  effective_invoice_obligation db (in_commercial_terms_id inv).

(** ** Lemmas *)

Lemma _money_Ok v k : _money v = Ok k -> 0 <= k < 10 ^ 28.
Proof.
  destruct v as [q| |]; cbn [_money]; [|done|done].
  destruct (Qle_bool 0 q) eqn:Hq; cbn [negb]; [|done].
  set (z := round_half_even _). destruct (10 ^ 28 <=? z) eqn:Hz; [done|]. apply Z.leb_gt in Hz.
  destruct (Qeq_bool _ _) eqn:He; cbn [negb]; [|done]. intros [= <-]. split; [|exact Hz].
  apply Qeq_bool_iff in He. apply Qle_bool_iff in Hq.
  assert (0 <= inject_Z z)%Q.
  { rewrite <- He. apply Qmult_le_0_compat; [exact Hq|]. by unfold Qle. }
  unfold Qle in H. cbn in H. lia.
Qed.

(** The accepted amount is the amount given. *)
Lemma _money_exact q k : _money (Finite q) = Ok k -> (q * inject_Z 100 == inject_Z k)%Q.
Proof.
  cbn [_money]. destruct (negb (Qle_bool 0 q)); [done|].
  set (z := round_half_even _). destruct (10 ^ 28 <=? z); [done|].
  destruct (Qeq_bool _ _) eqn:He; cbn [negb]; [|done]. intros [= <-]. by apply Qeq_bool_iff.
Qed.

Lemma round_half_even_inject k : round_half_even (inject_Z k) = k.
Proof. unfold round_half_even. cbn. by rewrite Z.mod_1_r, Z.div_1_r. Qed.

Lemma _money_kobo (k : Z) : 0 <= k < 10 ^ 28 -> _money (Finite (k # 100)) = Ok k.
Proof.
  intros [H0 H1]. cbn [_money].
  assert (Hq : Qle_bool 0 (k # 100) = true) by (apply Qle_bool_iff; unfold Qle; cbn; lia).
  rewrite Hq. cbn [negb].
  assert (Hr : round_half_even ((k # 100) * inject_Z 100) = k).
  { unfold round_half_even. cbn -[Z.div Z.modulo Z.mul].
    replace (Z.pos (100 * 1)) with 100 by reflexivity.
    rewrite Z.mod_mul, Z.div_mul by lia. reflexivity. }
  rewrite Hr. destruct (Z.leb_spec (10 ^ 28) k) as [?|_]; [lia|].
  assert (Hx : Qeq_bool ((k # 100) * inject_Z 100) (inject_Z k) = true).
  { apply Qeq_bool_iff. unfold Qeq. cbn. lia. }
  by rewrite Hx.
Qed.

(** Authorization, terms and invoices are read from the facts alone. *)
Section Facts.
Context (db db' : billing_store) (Hfacts : bs_facts db' = bs_facts db).

Lemma require_active_admin_facts actor v : require_active_admin db' actor v = require_active_admin db actor v.
Proof. unfold require_active_admin. by rewrite Hfacts. Qed.

Lemma get_terms_facts tid : get_terms db' tid = get_terms db tid.
Proof. unfold get_terms. by rewrite Hfacts. Qed.

Lemma invoice_for_terms_facts tid : invoice_for_terms db' tid = invoice_for_terms db tid.
Proof. unfold invoice_for_terms. by rewrite Hfacts. Qed.

Lemma campaign_terms_facts cid :
  _commercial_terms_for_campaign db' cid = _commercial_terms_for_campaign db cid.
Proof. unfold _commercial_terms_for_campaign. by rewrite Hfacts. Qed.
End Facts.

Lemma round_half_even_whole q k : (q == inject_Z k)%Q -> round_half_even q = k.
Proof.
  destruct q as [n d]. unfold Qeq. cbn. rewrite Z.mul_1_r. intros ->. unfold round_half_even. cbn.
  by rewrite Z.mod_mul, Z.div_mul by lia.
Qed.

Lemma round_half_even_ge q k : (inject_Z k <= q)%Q -> k <= round_half_even q.
Proof.
  destruct q as [n d]. unfold Qle. cbn. rewrite Z.mul_1_r. intros Hle.
  assert (k <= n / Z.pos d) by (apply Z.div_le_lower_bound; lia).
  unfold round_half_even. cbn. destruct (2 * (n mod Z.pos d) <? Z.pos d); [done|].
  destruct (Z.pos d <? 2 * (n mod Z.pos d)); [lia|]. destruct (Z.even (n / Z.pos d)); lia.
Qed.

(** an amount is accepted exactly when it is a non-negative whole number of
    kobo of at most 28 digits, and then unchanged; an amount of 10^26 naira or
    more is not refused with the invalid-amount error but escapes as the
    decimal module's InvalidOperation. *)
Theorem money_accepts_whole_kobo v :
  (forall k, _money v = Ok k <->
     0 <= k < 10 ^ 28 /\ exists q, v = Finite q /\ (q * inject_Z 100 == inject_Z k)%Q)
  /\ (forall q, v = Finite q -> (inject_Z (10 ^ 26) <= q)%Q -> _money v = Raise InvalidOperation).
Proof.
  split.
  - intros k. split.
    + intros Hk. split; [by apply (_money_Ok v)|]. destruct v as [q| |]; [|done..]. exists q.
      split; [done|]. by apply _money_exact.
    + intros ([H0 H1] & q & -> & Hq). cbn [_money]. rewrite (round_half_even_whole _ _ Hq).
      assert (Hnn : Qle_bool 0 q = true).
      { apply Qle_bool_iff. apply (Qmult_le_r _ _ (inject_Z 100)); [done|]. rewrite Hq, Qmult_0_l.
        unfold Qle. cbn. lia. }
      rewrite Hnn. cbn [negb]. destruct (Z.leb_spec (10 ^ 28) k); [lia|].
      apply Qeq_bool_iff in Hq. by rewrite Hq.
  - intros q -> Hq. cbn [_money].
    assert (Hnn : Qle_bool 0 q = true) by (apply Qle_bool_iff; eapply Qle_trans; [|exact Hq]; done).
    rewrite Hnn. cbn [negb].
    assert (10 ^ 28 <= round_half_even (q * inject_Z 100)).
    { apply round_half_even_ge. change (10 ^ 28) with (10 ^ 26 * 100). rewrite inject_Z_mult.
      by apply Qmult_le_compat_r. }
    destruct (Z.leb_spec (10 ^ 28) (round_half_even (q * inject_Z 100))); [done|lia].
Qed.

Lemma money_accepts_whole_kobo_witness :
  _money (Finite (25 # 2)) = Ok 1250 /\ _money (Finite (inject_Z (10 ^ 26))) = Raise InvalidOperation.
Proof.
  split.
  - apply (money_accepts_whole_kobo (Finite (25 # 2))). split; [lia|]. exists (25 # 2)%Q. split; reflexivity.
  - destruct (money_accepts_whole_kobo (Finite (inject_Z (10 ^ 26)))) as [_ H].
    apply (H (inject_Z (10 ^ 26))); [reflexivity|]. apply Qle_refl.
Defined.
