(* ===== verification/Notifications.v ===== *)
(** Outbox notifications ([services/notifications.py]): the deduplicated
    creation of one delivery, the fan-out to an advertiser organization, and
    the budget notices. *)

From stdpp Require Import base list strings gmap.
From Stdlib Require Import ZArith Lia.
From S2P Require Import Prelude PayoutData Text BillingData.

#[local] Open Scope Z_scope.

Section Notifications.
Context `{Sha256}.

(** [notification_dedupe_fingerprint]; a payload of strings is its own
    canonical form. *)
Definition notification_dedupe_fingerprint (recipient_user_id : uuid) (type_key : notification_type)
    (template_version : string) (channel : notification_channel) (payload : gmap string string)
    : string :=
  sha256_hexdigest (json_compact
    [("channel", json_string (channel_value channel));
     ("payload", json_dict payload);
     ("recipient_user_id", json_string (uuid_str recipient_user_id));
     ("template_version", json_string template_version);
     ("type_key", json_string (type_key_value type_key))]%string).

Definition dedupe_conflict : exn := AppError "NOTIFICATION_DEDUPE_CONFLICT" 409.

(** The row a retry with the same key meets. *)
Definition find_notification (recipient_user_id : uuid) (channel : notification_channel)
    (dedupe_key : string) (l : list notification) : option notification :=
  find_row (fun n => bool_decide (no_recipient_user_id n = recipient_user_id)
                     && bool_decide (no_channel n = channel)
                     && bool_decide (no_dedupe_key n = Some dedupe_key)) l.

(** [uq_notifications_recipient_channel_dedupe_key] *)
Definition notification_dedupe (n : notification)
    : option (uuid * notification_channel * string) :=
  (fun key => (no_recipient_user_id n, no_channel n, key)) <$> no_dedupe_key n.

Definition flush_notification (notice : notification) (db : billing_store) : result billing_store :=
  raise_if (conflicts notification_dedupe notice (bs_notifications db))
    (IntegrityError "uq_notifications_recipient_channel_dedupe_key") ;;
  mret (with_notifications (fun l => l ++ [notice]) db).

Definition pending_job (kind : string) (identity : uuid) (db : billing_store) : billing_store :=
  with_jobs (fun jobs => {[(kind, identity)]} ∪ jobs) db.

Definition new_notification (db : billing_store) (recipient_user_id : uuid)
    (type_key : notification_type) (payload : gmap string string) (dedupe_key : option string)
    (channel : notification_channel) (template_version : string) (clock : Z) : notification :=
  {| no_id := uuid4 (no_id <$> bs_notifications db);
     no_recipient_user_id := recipient_user_id;
     no_type_key := type_key;
     no_template_version := template_version;
     no_payload := payload;
     no_dedupe_key := dedupe_key;
     no_channel := channel;
     no_status := match channel with IN_APP => NOTICE_SENT | TRANSACTIONAL_EMAIL => NOTICE_PENDING end;
     no_dedupe_fingerprint :=
       notification_dedupe_fingerprint recipient_user_id type_key template_version channel payload;
     no_sent_at := match channel with IN_APP => Some clock | TRANSACTIONAL_EMAIL => None end |}.

(** An existing row answers the retry, if it is a retry of the same delivery. *)
Definition accept_existing (existing : notification) (fingerprint : string) : result notification :=
  if bool_decide (no_dedupe_fingerprint existing = fingerprint) then Ok existing
  else Raise dedupe_conflict.

(** [arrived] are the notifications other transactions commit between the
    lookup and the insertion; [clock] is [datetime.now(UTC)]. *)
Definition create_notification (arrived : list notification) (clock : Z) (db : billing_store)
    (recipient_user_id : uuid) (type_key : notification_type) (payload : gmap string string)
    (dedupe_key : option string) (channel : notification_channel) (template_version : string)
    : result (notification * billing_store) :=
  let fingerprint :=
    notification_dedupe_fingerprint recipient_user_id type_key template_version channel payload in
  let lookup l := k ← dedupe_key; find_notification recipient_user_id channel k l in
  match lookup (bs_notifications db) with
  | Some existing => n ← accept_existing existing fingerprint; mret (n, db)
  | None =>
      let db := with_notifications (fun l => l ++ arrived) db in
      let notice := new_notification db recipient_user_id type_key payload dedupe_key channel
                      template_version clock in
      match flush_notification notice db with
      | Ok db =>
          mret (notice, match channel with
                        | IN_APP => db
                        | TRANSACTIONAL_EMAIL => pending_job "deliver_email" (no_id notice) db
                        end)
      | Raise exc =>
          match lookup (bs_notifications db) with
          | None => Raise exc
          | Some existing => n ← accept_existing existing fingerprint; mret (n, db)
          end
      end
  end.

Definition active_advertiser (db : billing_store) (user_id : uuid) : bool :=
  existsb (fun u => bool_decide (us_id u = user_id) && bool_decide (us_role u = ROLE_ADVERTISER)
                    && bool_decide (us_status u = USER_ACTIVE)) (bs_users db).

Definition active_organization (db : billing_store) (organization_id : uuid) : bool :=
  existsb (fun o => bool_decide (org_id o = organization_id) && bool_decide (org_status o = ORG_ACTIVE))
    (bs_organizations db).

Definition active_member (db : billing_store) (organization_id : uuid) (m : organization_membership)
    : bool :=
  bool_decide (om_organization_id m = organization_id)
  && bool_decide (om_status m = MEMBER_ACTIVE)
  && active_organization db organization_id
  && active_advertiser db (om_user_id m).

Definition email_recipient (db : billing_store) (organization_id recipient_user_id : uuid) : bool :=
  existsb (fun m => active_member db organization_id m && bool_decide (om_user_id m = recipient_user_id))
    (bs_memberships db).

Definition create_advertiser_email_notification (clock : Z) (db : billing_store)
    (organization_id recipient_user_id : uuid) (type_key : notification_type)
    (payload : gmap string string) (dedupe_key template_version : string)
    : result (option notification * billing_store) :=
  raise_if (negb (email_recipient db organization_id recipient_user_id))
    (AppError "INVALID_EMAIL_RECIPIENT" 409) ;;
  let enabled :=
    np_transactional_email_enabled <$>
      find_row (fun p => bool_decide (np_advertiser_organization_id p = organization_id))
        (bs_preferences db) in
  if bool_decide (enabled = Some false) then mret (None, db)
  else
    let bounded_payload := <["advertiser_organization_id"%string := uuid_str organization_id]> payload in
    r ← create_notification [] clock db recipient_user_id type_key bounded_payload (Some dedupe_key)
          TRANSACTIONAL_EMAIL template_version;
    mret (Some r.1, r.2).

Fixpoint notify_recipients (clock : Z) (db : billing_store) (organization_id : uuid)
    (recipients : list uuid) (type_key : notification_type) (event_key : string)
    (payload : gmap string string) : result (list notification * billing_store) :=
  match recipients with
  | [] => mret ([], db)
  | recipient :: rest =>
      r ← create_notification [] clock db recipient type_key payload
            (Some (event_key +:+ ":in_app")%string) IN_APP "v1";
      let '(notice, db) := r in
      e ← create_advertiser_email_notification clock db organization_id recipient type_key payload
            (event_key +:+ ":transactional_email")%string "v1";
      let '(email, db) := e in
      r ← notify_recipients clock db organization_id rest type_key event_key payload;
      mret (notice :: option_list email ++ r.1, r.2)
  end.

(** The active members' user ids, in [ORDER BY users.id]. *)
Definition advertiser_recipients (db : billing_store) (organization_id : uuid) : list uuid :=
  stable_sort N.leb (om_user_id <$> List.filter (active_member db organization_id) (bs_memberships db)).

Definition create_advertiser_business_notifications (clock : Z) (db : billing_store)
    (organization_id : uuid) (type_key : notification_type) (event_key : string)
    (payload : gmap string string) : result (list notification * billing_store) :=
  notify_recipients clock db organization_id (advertiser_recipients db organization_id) type_key
    event_key payload.

(** One in-app notice per administrator. *)
Fixpoint notify_admins (clock : Z) (db : billing_store) (admins : list uuid) (type_key : notification_type)
    (dedupe_key : string) (payload : gmap string string) : result (list notification * billing_store) :=
  match admins with
  | [] => mret ([], db)
  | admin :: rest =>
      n ← create_notification [] clock db admin type_key payload (Some dedupe_key) IN_APP "v1";
      r ← notify_admins clock n.2 rest type_key dedupe_key payload;
      mret (n.1 :: r.1, r.2)
  end.

Definition active_admins (db : billing_store) : list uuid :=
  stable_sort N.leb
    (us_id <$> List.filter (fun u => bool_decide (us_role u = ROLE_ADMIN)
                                     && bool_decide (us_status u = USER_ACTIVE)) (bs_users db)).

(** [create_active_admin_notices]: the active administrators in
    [ORDER BY users.id], but the excluded one. *)
Definition create_active_admin_notices (clock : Z) (db : billing_store) (type_key : notification_type)
    (event_key : string) (payload : gmap string string) (exclude_user_id : option uuid)
    : result (list notification * billing_store) :=
  notify_admins clock db
    (List.filter (fun i => negb (bool_decide (exclude_user_id = Some i))) (active_admins db))
    type_key (event_key +:+ ":in_app")%string payload.

(** ** What the notices change *)

(** [db'] is [db] with more notices and possibly more queued jobs. *)
Definition notified (db db' : billing_store) : Prop :=
  exists notices jobs,
    db' = with_jobs (fun _ => jobs) (with_notifications (fun l => l ++ notices) db).

Lemma notified_refl db : notified db db.
Proof. exists [], (bs_jobs db). destruct db. unfold with_jobs, with_notifications. cbn. by rewrite app_nil_r. Qed.

Lemma notified_trans db1 db2 db3 : notified db1 db2 -> notified db2 db3 -> notified db1 db3.
Proof.
  intros (n1 & j1 & ->) (n2 & j2 & ->). exists (n1 ++ n2), j2.
  unfold with_jobs, with_notifications. cbn. by rewrite app_assoc.
Qed.

Lemma notified_facts db db' : notified db db' -> bs_facts db' = bs_facts db.
Proof. by intros (? & ? & ->). Qed.

Lemma find_row_app {A} (p : A -> bool) l1 l2 :
  find_row p (l1 ++ l2) = match find_row p l1 with Some x => Some x | None => find_row p l2 end.
Proof. unfold find_row. induction l1 as [|x l1 IH]; cbn; [done|]. by destruct (p x). Qed.

Lemma find_notification_app recipient channel k l1 l2 :
  find_notification recipient channel k (l1 ++ l2) =
    match find_notification recipient channel k l1 with
    | Some n => Some n
    | None => find_notification recipient channel k l2
    end.
Proof. apply find_row_app. Qed.

Lemma with_no_notifications db : with_notifications (fun l => l ++ []) db = db.
Proof. destruct db. unfold with_notifications. cbn. by rewrite app_nil_r. Qed.

(** What a successful creation leaves behind: the notice under its key. *)
Lemma create_notification_spec clock db recipient t payload k channel v n db' :
  create_notification [] clock db recipient t payload (Some k) channel v = Ok (n, db') ->
  notified db db'
  /\ find_notification recipient channel k (bs_notifications db') = Some n
  /\ no_dedupe_fingerprint n = notification_dedupe_fingerprint recipient t v channel payload.
Proof.
  unfold create_notification, accept_existing. cbn [mbind option_bind].
  destruct (find_notification recipient channel k (bs_notifications db)) as [e|] eqn:He.
  - destruct (bool_decide _) eqn:Hf; [|done]. cbn. intros [= <- <-].
    apply bool_decide_eq_true in Hf. split; [apply notified_refl|done].
  - rewrite with_no_notifications. unfold flush_notification.
    set (notice := new_notification _ _ _ _ _ _ _ _).
    destruct (conflicts _ _ _); cbn [raise_if mbind result_bind]; [by rewrite He|].
    intros [= <- <-]. split; [|split; [|done]].
    + exists [notice], (match channel with
                        | IN_APP => bs_jobs db
                        | TRANSACTIONAL_EMAIL => {[("deliver_email"%string, no_id notice)]} ∪ bs_jobs db
                        end).
      by destruct channel.
    + transitivity (find_notification recipient channel k (bs_notifications db ++ [notice]));
        [by destruct channel|].
      rewrite find_notification_app, He. unfold find_notification, find_row. cbn.
      by rewrite !bool_decide_eq_true_2.
Qed.

(** A retry after more notices were written finds the first delivery and
    changes nothing. *)
Lemma create_notification_replay clock clock' db recipient t payload k channel v n db' db'' :
  create_notification [] clock db recipient t payload (Some k) channel v = Ok (n, db') ->
  notified db' db'' ->
  create_notification [] clock' db'' recipient t payload (Some k) channel v = Ok (n, db'').
Proof.
  intros Hrun (ns & js & ->). apply create_notification_spec in Hrun as (_ & Hf & Hfp).
  unfold create_notification. cbn [mbind option_bind].
  assert (find_notification recipient channel k
    (bs_notifications (with_jobs (fun _ => js) (with_notifications (fun l => l ++ ns) db'))) = Some n) as ->.
  { cbn [bs_notifications with_jobs with_notifications]. by rewrite find_notification_app, Hf. }
  unfold accept_existing. by rewrite Hfp, bool_decide_eq_true_2.
Qed.

Lemma email_recipient_facts db db' organization recipient :
  bs_facts db' = bs_facts db -> email_recipient db' organization recipient = email_recipient db organization recipient.
Proof.
  intros Hf. unfold email_recipient, active_member, active_organization, active_advertiser. by rewrite Hf.
Qed.

Lemma email_notification_spec clock db organization recipient t payload k v e db' :
  create_advertiser_email_notification clock db organization recipient t payload k v = Ok (e, db') ->
  notified db db'
  /\ (forall clock' db'', notified db' db'' ->
        create_advertiser_email_notification clock' db'' organization recipient t payload k v
        = Ok (e, db'')).
Proof.
  unfold create_advertiser_email_notification. intros Hrun.
  ok_step Hrun as [] Hm. cbn zeta in Hrun.
  destruct (bool_decide _) eqn:Hp.
  - injection Hrun as <- <-. split; [apply notified_refl|]. intros clock' db'' Hn.
    rewrite (email_recipient_facts db) by (by apply notified_facts). rewrite Hm.
    cbn [mbind result_bind]. by rewrite (notified_facts _ _ Hn), Hp.
  - ok_step Hrun as [n db1] Hc. injection Hrun as <- <-. cbn [fst snd].
    pose proof (create_notification_spec _ _ _ _ _ _ _ _ _ _ Hc) as (Hn1 & _).
    split; [exact Hn1|]. intros clock' db'' Hn.
    assert (Hfacts : bs_facts db'' = bs_facts db)
      by (rewrite (notified_facts _ _ Hn); apply (notified_facts _ _ Hn1)).
    rewrite (email_recipient_facts db) by exact Hfacts. rewrite Hm.
    cbn [mbind result_bind]. rewrite Hfacts, Hp.
    by rewrite (create_notification_replay _ clock' _ _ _ _ _ _ _ _ _ _ Hc Hn).
Qed.

Lemma notify_recipients_spec clock organization recipients t k payload db out db' :
  notify_recipients clock db organization recipients t k payload = Ok (out, db') ->
  notified db db'
  /\ (forall clock' db'', notified db' db'' ->
        notify_recipients clock' db'' organization recipients t k payload = Ok (out, db'')).
Proof.
  revert db out. induction recipients as [|r rest IH]; intros db out Hrun.
  { injection Hrun as <- <-. split; [apply notified_refl|done]. }
  cbn [notify_recipients] in Hrun.
  ok_step Hrun as [n db1] Hc.
  ok_step Hrun as [e db2] He.
  ok_step Hrun as [out' db3] Hr. injection Hrun as <- <-. cbn [fst snd].
  pose proof (create_notification_spec _ _ _ _ _ _ _ _ _ _ Hc) as (N1 & _).
  apply email_notification_spec in He as [N2 Re]. apply IH in Hr as [N3 Rr].
  split; [by eapply notified_trans; [|eapply notified_trans]|].
  intros clock' db'' Hn. cbn [notify_recipients].
  rewrite (create_notification_replay _ clock' _ _ _ _ _ _ _ _ _ _ Hc).
  - cbn [mbind result_bind]. rewrite Re by (by eapply notified_trans). cbn [mbind result_bind].
    by rewrite Rr.
  - by eapply notified_trans; [|eapply notified_trans].
Qed.

Lemma business_notifications_spec clock organization t k payload db out db' :
  create_advertiser_business_notifications clock db organization t k payload = Ok (out, db') ->
  notified db db'
  /\ (forall clock' db'', notified db' db'' ->
        create_advertiser_business_notifications clock' db'' organization t k payload = Ok (out, db'')).
Proof.
  unfold create_advertiser_business_notifications. intros Hrun.
  pose proof (notify_recipients_spec _ _ _ _ _ _ _ _ _ Hrun) as [Hn Hr].
  split; [exact Hn|]. intros clock' db'' Hn'.
  assert (Hf : bs_facts db'' = bs_facts db)
    by (rewrite (notified_facts _ _ Hn'); apply (notified_facts _ _ Hn)).
  assert (advertiser_recipients db'' organization = advertiser_recipients db organization) as ->.
  { unfold advertiser_recipients, active_member, active_organization, active_advertiser.
    by rewrite Hf. }
  by apply Hr.
Qed.
Lemma notify_admins_spec clock admins t k payload db out db' :
  notify_admins clock db admins t k payload = Ok (out, db') ->
  notified db db'
  /\ (forall clock' db'', notified db' db'' -> notify_admins clock' db'' admins t k payload = Ok (out, db'')).
Proof.
  revert db out. induction admins as [|a rest IH]; intros db out Hrun.
  { injection Hrun as <- <-. split; [apply notified_refl|done]. }
  cbn [notify_admins] in Hrun. ok_step Hrun as [n db1] Hc.
  ok_step Hrun as [out' db2] Hr. injection Hrun as <- <-. cbn [fst snd] in *.
  pose proof (create_notification_spec _ _ _ _ _ _ _ _ _ _ Hc) as (N1 & _). apply IH in Hr as [N2 Rr].
  split; [by eapply notified_trans|]. intros clock' db'' Hn. cbn [notify_admins].
  rewrite (create_notification_replay _ clock' _ _ _ _ _ _ _ _ _ _ Hc) by (by eapply notified_trans).
  cbn [mbind result_bind fst snd]. by rewrite Rr.
Qed.

Lemma active_admins_facts db db' : bs_facts db' = bs_facts db -> active_admins db' = active_admins db.
Proof. intros Hf. unfold active_admins. by rewrite Hf. Qed.
End Notifications.
