(* ===== verification/Receipts.v ===== *)
(** Payment receipts ([services/billing/receipts.py]): recording observed
    money, confirming it, allocating it to accepted terms and reversing it,
    with the invariant of the cash books and the behaviour of replays. *)

From stdpp Require Import base list strings gmap relations.
From Stdlib Require Import ZArith QArith Lia.
From S2P Require Import Prelude PayoutData Text BillingData Notifications.

#[local] Open Scope Z_scope.

(** ** Requests *)

Record receipt_request := ReceiptRequest {
  rq_organization_id : uuid;
  rq_method : receipt_method;
  rq_provider : string;
  rq_external_transaction_id : string;
  rq_amount : amount_input;
  rq_currency : string;
  rq_payer_name : string;
  rq_evidence_reference : string;
  rq_observed_at : datetime
}.

(** ** Table constraints *)

(** [payment_receipts]: the checks, and the column sizes. *)
Definition receipt_row_fits (r : payment_receipt) : bool :=
  numeric_14_2 (pr_amount r)
  && (String.length (pr_provider r) <=? 64)%nat
  && (String.length (pr_external_transaction_id r) <=? 255)%nat
  && (String.length (pr_currency r) <=? 3)%nat
  && (String.length (pr_payer_name r) <=? 255)%nat
  && (String.length (pr_evidence_reference r) <=? 255)%nat.

Definition receipt_row_ok (r : payment_receipt) : bool :=
  (String.length (pr_currency r) =? 3)%nat && (0 <? pr_amount r).

Definition flush_receipt (row : payment_receipt) (db : billing_store) : result billing_store :=
  raise_if (negb (receipt_row_fits row)) DataError ;;
  raise_if (negb (receipt_row_ok row)) (IntegrityError "ck_payment_receipts") ;;
  raise_if (conflicts (fun r => Some (pr_external_transaction_id r)) row (bs_receipts db))
    (IntegrityError "uq_payment_receipts_external_transaction") ;;
  mret (with_receipts (fun l => l ++ [row]) db).

(** [receipt_lifecycle_events] *)
Definition event_row_ok (e : receipt_lifecycle_event) : bool :=
  (re_sequence_number e =? receipt_sequence (re_status e))
  && match re_provider_event_id e with
     | None => true
     | Some _ => bool_decide (re_status e = CONFIRMED) && bool_decide (re_actor_user_id e = None)
     end
  && (negb (bool_decide (re_status e = CONFIRMED))
      || negb (bool_decide (re_actor_user_id e = None))
      || negb (bool_decide (re_provider_event_id e = None))).

Definition event_status_key (e : receipt_lifecycle_event) : option (uuid * receipt_lifecycle_status) :=
  Some (re_receipt_id e, re_status e).

Definition event_sequence_key (e : receipt_lifecycle_event) : option (uuid * Z) :=
  Some (re_receipt_id e, re_sequence_number e).

Definition flush_event (row : receipt_lifecycle_event) (db : billing_store) : result billing_store :=
  raise_if (negb (event_row_ok row)) (IntegrityError "ck_receipt_lifecycle") ;;
  raise_if (conflicts event_status_key row (bs_receipt_events db))
    (IntegrityError "uq_receipt_lifecycle_status") ;;
  raise_if (conflicts re_provider_event_id row (bs_receipt_events db))
    (IntegrityError "uq_receipt_lifecycle_provider_event") ;;
  raise_if (conflicts event_sequence_key row (bs_receipt_events db))
    (IntegrityError "uq_receipt_lifecycle_sequence") ;;
  mret (with_receipt_events (fun l => l ++ [row]) db).

(** [receipt_allocations] *)
Definition allocation_row_ok (a : receipt_allocation) : bool :=
  (0 <? ra_amount a)
  && (String.length (ra_currency a) =? 3)%nat
  && match ra_allocation_source a with
     | SOURCE_MANUAL =>
         negb (bool_decide (ra_allocated_by_user_id a = None)) && bool_decide (ra_provider_event_id a = None)
     | SOURCE_PROVIDER =>
         bool_decide (ra_allocated_by_user_id a = None) && negb (bool_decide (ra_provider_event_id a = None))
     end.

Definition allocation_key (a : receipt_allocation) : option (uuid * uuid) :=
  Some (ra_receipt_id a, ra_commercial_terms_id a).

Definition flush_allocation (row : receipt_allocation) (db : billing_store) : result billing_store :=
  raise_if (negb (numeric_14_2 (ra_amount row))) DataError ;;
  raise_if (negb (allocation_row_ok row)) (IntegrityError "ck_receipt_allocations") ;;
  raise_if (conflicts allocation_key row (bs_allocations db))
    (IntegrityError "uq_receipt_allocations_terms") ;;
  raise_if (conflicts ra_provider_event_id row (bs_allocations db))
    (IntegrityError "uq_receipt_allocations_provider_event") ;;
  mret (with_allocations (fun l => l ++ [row]) db).

(** ** Recording *)

Definition _append_receipt_event (db : billing_store) (receipt_id : uuid)
    (lifecycle_status : receipt_lifecycle_status) (actor_user_id : option uuid) (occurred_at : Z)
    (reason : option string) (provider_event_id : option uuid) : result billing_store :=
  flush_event
    {| re_id := uuid4 (re_id <$> bs_receipt_events db);
       re_receipt_id := receipt_id;
       re_provider_event_id := provider_event_id;
       re_status := lifecycle_status;
       re_sequence_number := receipt_sequence lifecycle_status;
       re_actor_user_id := actor_user_id;
       re_reason := reason;
       re_occurred_at := occurred_at |} db.

Definition _trusted_confirmed_gateway_event (db : billing_store) (event_id : uuid)
    : result (payment_gateway_event * commercial_terms) :=
  let required := AppError "CONFIRMED_GATEWAY_EVENT_REQUIRED" 403 in
  event ← require_some (find_row (fun e => bool_decide (ge_id e = event_id)) (bs_gateway_events db)) required;
  raise_if (negb (bool_decide (ge_event_type event = "payment_confirmed"%string))) required ;;
  let mismatch := AppError "PAYMENT_EVENT_TERMS_MISMATCH" 409 in
  terms_id ← require_some (ge_commercial_terms_reference event) mismatch;
  terms ← require_some (get_terms db terms_id) mismatch;
  mret (event, terms).

Definition _require_issued_invoice (status : option invoice_status) : result unit :=
  raise_if (negb (bool_decide (status = Some INVOICE_ISSUED))) (AppError "INVOICE_NOT_ISSUED" 409).

(** [Decimal(str(amount)) == Decimal(column)] *)
Definition decimal_equals (amount : amount_input) (column : kobo) : result bool :=
  match amount with
  | NotDecimal => Raise InvalidOperation
  | NotFinite => Ok false
  | Finite q => Ok (Qeq_bool (q * inject_Z 100) (inject_Z column))
  end.

Definition gateway_transaction_id (event : payment_gateway_event) : string :=
  (ge_provider event +:+ ":" +:+ ge_external_transaction_id event)%string.

Definition check_receipt_authority (db : billing_store) (rq : receipt_request)
    (actor_user_id trusted_gateway_event_id : option uuid) : result unit :=
  match actor_user_id with
  | Some actor => require_active_admin db actor None
  | None =>
      let actor_required := AppError "RECEIPT_ACTOR_REQUIRED" 403 in
      raise_if (negb (bool_decide (rq_method rq = GATEWAY))) actor_required ;;
      event_id ← require_some trusted_gateway_event_id actor_required;
      g ← _trusted_confirmed_gateway_event db event_id;
      let '(gateway_event, gateway_terms) := g in
      same_amount ← decimal_equals (rq_amount rq) (ge_amount gateway_event);
      raise_if (negb (bool_decide (rq_organization_id rq = ct_organization_id gateway_terms)
                      && bool_decide (lower (strip (rq_provider rq)) = ge_provider gateway_event)
                      && bool_decide (strip (rq_external_transaction_id rq)
                                      = gateway_transaction_id gateway_event)
                      && same_amount
                      && bool_decide (upper (strip (rq_currency rq)) = ge_currency gateway_event)
                      && bool_decide (strip (rq_payer_name rq) = ge_payer_name gateway_event)
                      && (_stored_aware_utc (rq_observed_at rq) =? ge_occurred_at gateway_event)))
        (AppError "GATEWAY_RECEIPT_LINEAGE_MISMATCH" 409)
  end.

(** The receipt of a request, its text normalised. *)
Definition new_receipt (id : uuid) (rq : receipt_request) (actor_user_id : option uuid)
    (amount : kobo) (observed : Z) : payment_receipt :=
  {| pr_id := id;
     pr_organization_id := rq_organization_id rq;
     pr_method := rq_method rq;
     pr_provider := lower (strip (rq_provider rq));
     pr_external_transaction_id := strip (rq_external_transaction_id rq);
     pr_amount := amount;
     pr_currency := upper (strip (rq_currency rq));
     pr_payer_name := strip (rq_payer_name rq);
     pr_evidence_reference := strip (rq_evidence_reference rq);
     pr_observed_by_user_id := actor_user_id;
     pr_observed_at := observed |}.

(** The checks of a request: its amount and observation time. *)
Definition validate_receipt_request (db : billing_store) (rq : receipt_request)
    (actor_user_id trusted_gateway_event_id : option uuid) : result (kobo * Z) :=
  check_receipt_authority db rq actor_user_id trusted_gateway_event_id ;;
  raise_if (negb (existsb (fun t => bool_decide (ct_organization_id t = rq_organization_id rq)) (bs_terms db)))
    (AppError "ORGANIZATION_NOT_FOUND" 404) ;;
  receipt_amount ← _money (rq_amount rq);
  raise_if ((receipt_amount =? 0)
            || negb (String.length (upper (strip (rq_currency rq))) =? 3)%nat
            || negb (nonempty (lower (strip (rq_provider rq)))
                     && nonempty (strip (rq_external_transaction_id rq))
                     && nonempty (strip (rq_payer_name rq))
                     && nonempty (strip (rq_evidence_reference rq))))
    (AppError "INVALID_PAYMENT_RECEIPT" 400) ;;
  observed ← _aware_utc (rq_observed_at rq);
  mret (receipt_amount, observed).

(** [exact_match] *)
Definition receipt_exact_match (receipt candidate : payment_receipt) : bool :=
  bool_decide (pr_organization_id candidate = pr_organization_id receipt)
  && bool_decide (pr_method candidate = pr_method receipt)
  && bool_decide (pr_provider candidate = pr_provider receipt)
  && (pr_amount candidate =? pr_amount receipt)
  && bool_decide (pr_currency candidate = pr_currency receipt)
  && bool_decide (pr_payer_name candidate = pr_payer_name receipt)
  && bool_decide (pr_evidence_reference candidate = pr_evidence_reference receipt)
  && (pr_observed_at candidate =? pr_observed_at receipt).

Definition receipt_by_external_id (db : billing_store) (external_id : string) : option payment_receipt :=
  find_row (fun r => bool_decide (pr_external_transaction_id r = external_id)) (bs_receipts db).

Definition receipt_identity_conflict : exn := AppError "RECEIPT_IDENTITY_CONFLICT" 409.

(** [arrived] are receipts other transactions commit between the lookup and
    the insertion. *)
Definition record_payment_receipt (arrived : list payment_receipt) (db : billing_store)
    (rq : receipt_request) (actor_user_id trusted_gateway_event_id : option uuid)
    : result (payment_receipt * billing_store) :=
  v ← validate_receipt_request db rq actor_user_id trusted_gateway_event_id;
  let receipt := new_receipt (uuid4 (pr_id <$> bs_receipts db)) rq actor_user_id v.1 v.2 in
  match receipt_by_external_id db (pr_external_transaction_id receipt) with
  | Some existing =>
      if receipt_exact_match receipt existing then mret (existing, db)
      else Raise receipt_identity_conflict
  | None =>
      let db := with_receipts (fun l => l ++ arrived) db in
      match flush_receipt receipt db with
      | Raise (IntegrityError _) =>
          match receipt_by_external_id db (pr_external_transaction_id receipt) with
          | Some concurrent =>
              if receipt_exact_match receipt concurrent then mret (concurrent, db)
              else Raise receipt_identity_conflict
          | None => Raise receipt_identity_conflict
          end
      | Raise exc => Raise exc
      | Ok db =>
          db ← _append_receipt_event db (pr_id receipt) RECORDED actor_user_id v.2 None None;
          mret (receipt, add_audit_event actor_user_id "billing.receipt.observed" "payment_receipt"
                           (pr_id receipt) db)
      end
  end.

(** ** Confirming *)

Definition confirm_payment_receipt (db : billing_store) (receipt_id actor_user_id : uuid)
    (expected_amount : amount_input) (expected_currency : string) (db_now : Z)
    : result (bool * billing_store) :=
  require_active_admin db actor_user_id None ;;
  receipt ← require_some (get_receipt db receipt_id) (AppError "RECEIPT_NOT_FOUND" 404);
  raise_if (negb (bool_decide (pr_method receipt = MANUAL_TRANSFER)))
    (AppError "VERIFIED_GATEWAY_EVENT_REQUIRED" 403) ;;
  amount ← _money expected_amount;
  let currency := upper (strip expected_currency) in
  raise_if ((amount =? 0) || negb (String.length currency =? 3)%nat)
    (AppError "INVALID_CONFIRMATION_EXPECTATION" 400) ;;
  let current := _receipt_status db (pr_id receipt) in
  let matched := (pr_amount receipt =? amount) && bool_decide (pr_currency receipt = currency) in
  if bool_decide (current = Some CONFIRMED) then
    raise_if (negb matched) (AppError "RECEIPT_CONFIRMATION_CONFLICT" 409) ;;
    mret (true, db)
  else
    raise_if (negb (bool_decide (current = Some RECORDED))) (AppError "RECEIPT_NOT_RECORDED" 409) ;;
    db ← (if matched
          then _append_receipt_event db (pr_id receipt) CONFIRMED (Some actor_user_id) db_now None None
          else mret db);
    mret (matched, add_audit_event (Some actor_user_id) "billing.receipt.confirmation_checked"
                     "payment_receipt" (pr_id receipt) db).

(** ** Allocating *)

Section Allocation.
Context `{Sha256}.

Definition receipt_allocations (db : billing_store) (receipt_id : uuid) : list receipt_allocation :=
  List.filter (fun a => bool_decide (ra_receipt_id a = receipt_id)) (bs_allocations db).

(** The cash that currently funds the terms. *)
Definition active_total (db : billing_store) (terms_id : uuid) : kobo :=
  sum_by ra_amount (List.filter (active_allocation db terms_id) (bs_allocations db)).

(** The authority the caller presents: the trusted gateway evidence when there
    is no administrator. *)
Definition allocation_evidence (db : billing_store) (actor_user_id trusted_gateway_event_id : option uuid)
    : result (option (payment_gateway_event * commercial_terms)) :=
  match actor_user_id with
  | None =>
      event_id ← require_some trusted_gateway_event_id (AppError "ALLOCATION_ACTOR_REQUIRED" 403);
      g ← _trusted_confirmed_gateway_event db event_id;
      mret (Some g)
  | Some _ =>
      raise_if (negb (bool_decide (trusted_gateway_event_id = None)))
        (AppError "ALLOCATION_AUTHORITY_CONFLICT" 400) ;;
      mret None
  end.

Definition gateway_allocation_mismatch (evidence : option (payment_gateway_event * commercial_terms))
    (receipt : payment_receipt) (terms : commercial_terms) : bool :=
  match evidence with
  | None => false
  | Some (gateway_event, gateway_terms) =>
      negb (bool_decide (ct_id gateway_terms = ct_id terms))
      || negb (bool_decide (ge_provider gateway_event = pr_provider receipt))
      || negb (bool_decide (gateway_transaction_id gateway_event = pr_external_transaction_id receipt))
      || negb (ge_amount gateway_event =? pr_amount receipt)
      || negb (bool_decide (ge_currency gateway_event = pr_currency receipt))
  end.

Definition new_allocation (db : billing_store) (receipt : payment_receipt) (terms : commercial_terms)
    (amount : kobo) (actor_user_id trusted_gateway_event_id : option uuid) (db_now : Z)
    : receipt_allocation :=
  {| ra_id := uuid4 (ra_id <$> bs_allocations db);
     ra_receipt_id := pr_id receipt;
     ra_commercial_terms_id := ct_id terms;
     ra_amount := amount;
     ra_currency := pr_currency receipt;
     ra_allocation_source :=
       match trusted_gateway_event_id with Some _ => SOURCE_PROVIDER | None => SOURCE_MANUAL end;
     ra_provider_event_id := trusted_gateway_event_id;
     ra_allocated_by_user_id := actor_user_id;
     ra_allocated_at := db_now |}.

Definition find_allocation (db : billing_store) (receipt_id terms_id : uuid) : option receipt_allocation :=
  find_row (fun a => bool_decide (ra_receipt_id a = receipt_id)
                     && bool_decide (ra_commercial_terms_id a = terms_id)) (bs_allocations db).

Definition announce_allocation (clock : Z) (db : billing_store) (terms : commercial_terms)
    (allocation : receipt_allocation) : result (list notification * billing_store) :=
  create_advertiser_business_notifications clock db (ct_organization_id terms) FUNDING_CONFIRMED
    ("funding:allocation:v1:" +:+ uuid_str (ra_id allocation))%string
    (list_to_map [("campaign_id", uuid_str (ct_campaign_id terms));
                  ("receipt_allocation_id", uuid_str (ra_id allocation));
                  ("currency", ra_currency allocation)]%string).

(** The checks before the allocations are consulted. *)
Definition validate_allocation (db : billing_store) (receipt_id commercial_terms_id : uuid)
    (actor_user_id : option uuid) (amount : amount_input) (trusted_gateway_event_id : option uuid)
    : result (payment_receipt * commercial_terms * kobo) :=
  evidence ← allocation_evidence db actor_user_id trusted_gateway_event_id;
  match actor_user_id with Some actor => require_active_admin db actor None | None => Ok tt end ;;
  let missing := AppError "BILLING_AUTHORITY_NOT_FOUND" 404 in
  terms ← require_some (get_terms db commercial_terms_id) missing;
  _campaign db (ct_campaign_id terms) ;;
  receipt ← require_some (get_receipt db receipt_id) missing;
  raise_if (negb (bool_decide (pr_organization_id receipt = ct_organization_id terms))) missing ;;
  _require_issued_invoice (in_status <$> invoice_for_terms db (ct_id terms)) ;;
  raise_if (gateway_allocation_mismatch evidence receipt terms)
    (AppError "GATEWAY_ALLOCATION_LINEAGE_MISMATCH" 409) ;;
  raise_if (negb (bool_decide (_receipt_status db (pr_id receipt) = Some CONFIRMED)))
    (AppError "RECEIPT_NOT_CONFIRMED" 409) ;;
  raise_if (negb (bool_decide (pr_currency receipt = ct_currency terms)))
    (AppError "ALLOCATION_CURRENCY_MISMATCH" 409) ;;
  allocation_amount ← _money amount;
  raise_if (allocation_amount =? 0) (AppError "INVALID_ALLOCATION_AMOUNT" 400) ;;
  mret (receipt, terms, allocation_amount).

Definition allocate_payment_receipt (db : billing_store) (receipt_id commercial_terms_id : uuid)
    (actor_user_id : option uuid) (amount : amount_input) (trusted_gateway_event_id : option uuid)
    (db_now clock : Z) : result (receipt_allocation * billing_store) :=
  v ← validate_allocation db receipt_id commercial_terms_id actor_user_id amount trusted_gateway_event_id;
  let '(receipt, terms, allocation_amount) := v in
  match find_allocation db (pr_id receipt) (ct_id terms) with
  | Some existing =>
      if ra_amount existing =? allocation_amount then mret (existing, db)
      else Raise (AppError "ALLOCATION_ALREADY_RECORDED" 409)
  | None =>
      raise_if (pr_amount receipt <? sum_by ra_amount (receipt_allocations db (pr_id receipt)) + allocation_amount)
        (AppError "RECEIPT_OVERALLOCATION" 409) ;;
      effective_obligation ← effective_invoice_obligation db (ct_id terms);
      raise_if (effective_obligation <? active_total db (ct_id terms) + allocation_amount)
        (AppError "OBLIGATION_OVERFUNDING" 409) ;;
      let allocation := new_allocation db receipt terms allocation_amount actor_user_id
                          trusted_gateway_event_id db_now in
      db ← flush_allocation allocation db;
      let db := add_audit_event actor_user_id "billing.receipt.allocated" "receipt_allocation"
                  (ra_id allocation) db in
      n ← announce_allocation clock db terms allocation;
      mret (allocation, n.2)
  end.

(** ** Reversing *)

Definition reverse_payment_receipt (db : billing_store) (receipt_id actor_user_id : uuid)
    (reason : string) (db_now : Z) : result (payment_receipt * billing_store) :=
  require_active_admin db actor_user_id None ;;
  receipt ← require_some (get_receipt db receipt_id) (AppError "RECEIPT_NOT_FOUND" 404);
  let current := _receipt_status db (pr_id receipt) in
  if bool_decide (current = Some REVERSED) then mret (receipt, db)
  else
    raise_if (negb (bool_decide (current = Some CONFIRMED))) (AppError "RECEIPT_NOT_CONFIRMED" 409) ;;
    let normalized_reason := strip reason in
    raise_if (negb (nonempty normalized_reason)) (AppError "REVERSAL_REASON_REQUIRED" 400) ;;
    db ← _append_receipt_event db (pr_id receipt) REVERSED (Some actor_user_id) db_now
           (Some normalized_reason) None;
    mret (receipt, add_audit_event (Some actor_user_id) "billing.receipt.reversed" "payment_receipt"
                     (pr_id receipt) db).

(** ** One manual bank statement line *)

Record bank_transfer := BankTransfer {
  bk_organization_id : uuid;
  bk_commercial_terms_id : uuid;
  bk_external_transaction_id : string;
  bk_observed_amount : amount_input;
  bk_expected_amount : amount_input;
  bk_currency : string;
  bk_payer_name : string;
  bk_evidence_reference : string;
  bk_observed_at : datetime;
  bk_allocation_amount : option amount_input
}.

Definition transfer_receipt (b : bank_transfer) : receipt_request :=
  {| rq_organization_id := bk_organization_id b;
     rq_method := MANUAL_TRANSFER;
     rq_provider := "manual-bank-transfer";
     rq_external_transaction_id := bk_external_transaction_id b;
     rq_amount := bk_observed_amount b;
     rq_currency := bk_currency b;
     rq_payer_name := bk_payer_name b;
     rq_evidence_reference := bk_evidence_reference b;
     rq_observed_at := bk_observed_at b |}.

Definition process_manual_bank_transfer (arrived : list payment_receipt) (db : billing_store)
    (b : bank_transfer) (actor_user_id : uuid) (db_now clock : Z)
    : result ((payment_receipt * bool * option receipt_allocation) * billing_store) :=
  _require_issued_invoice (in_status <$> invoice_for_terms db (bk_commercial_terms_id b)) ;;
  r ← record_payment_receipt arrived db (transfer_receipt b) (Some actor_user_id) None;
  let '(receipt, db) := r in
  m ← confirm_payment_receipt db (pr_id receipt) actor_user_id (bk_expected_amount b) (bk_currency b) db_now;
  let '(matched, db) := m in
  if negb matched then mret ((receipt, false, None), db)
  else
    let amount_to_allocate := default (bk_observed_amount b) (bk_allocation_amount b) in
    a ← allocate_payment_receipt db (pr_id receipt) (bk_commercial_terms_id b) (Some actor_user_id)
          amount_to_allocate None db_now clock;
    mret ((receipt, true, Some a.1), a.2).
End Allocation.

(** ** The cash books *)

Definition lifecycle_histories : list (list receipt_lifecycle_status) :=
  [[RECORDED]; [RECORDED; CONFIRMED]; [RECORDED; CONFIRMED; REVERSED]].

Definition history (db : billing_store) (receipt_id : uuid) : list receipt_lifecycle_status :=
  re_status <$> receipt_events db receipt_id.

(** What the receipt tables promise: identities are unique, every receipt went
    through a prefix of recorded, confirmed, reversed in that order, and what
    was allocated was confirmed cash and never more than the receipt. *)
Record cash_books (db : billing_store) : Prop := {
  cb_receipt_ids : NoDup (pr_id <$> bs_receipts db);
  cb_external_ids : NoDup (pr_external_transaction_id <$> bs_receipts db);
  cb_events : Forall (fun e => re_receipt_id e ∈ pr_id <$> bs_receipts db
                               /\ re_sequence_number e = receipt_sequence (re_status e))
                (bs_receipt_events db);
  cb_histories : Forall (fun r => history db (pr_id r) ∈ lifecycle_histories) (bs_receipts db);
  cb_allocated : Forall (fun r => sum_by ra_amount (receipt_allocations db (pr_id r)) <= pr_amount r)
                   (bs_receipts db);
  cb_allocations : Forall (fun a => 0 < ra_amount a /\ ra_receipt_id a ∈ pr_id <$> bs_receipts db
                                    /\ CONFIRMED ∈ history db (ra_receipt_id a)) (bs_allocations db);
  cb_allocation_keys :
    NoDup ((fun a => (ra_receipt_id a, ra_commercial_terms_id a)) <$> bs_allocations db)
}.

(** The tables the cash books live in. *)
Definition cash_tables (db : billing_store) :=
  (bs_receipts db, bs_receipt_events db, bs_allocations db).

Lemma cash_books_frame db db' : cash_tables db' = cash_tables db -> cash_books db -> cash_books db'.
Proof.
  intros [= Hr He Ha] [H1 H2 H3 H4 H5 H6 H7].
  split; unfold history, receipt_events, receipt_allocations in *; rewrite ?Hr, ?He, ?Ha; assumption.
Qed.

Lemma receipt_events_snoc db e rid :
  receipt_events (with_receipt_events (fun l => l ++ [e]) db) rid
  = receipt_events db rid ++ (if bool_decide (re_receipt_id e = rid) then [e] else []).
Proof. unfold receipt_events. cbn. by rewrite List.filter_app. Qed.

Lemma history_snoc db e rid :
  history (with_receipt_events (fun l => l ++ [e]) db) rid
  = history db rid ++ (if bool_decide (re_receipt_id e = rid) then [re_status e] else []).
Proof.
  unfold history. rewrite receipt_events_snoc, fmap_app. by case_bool_decide.
Qed.

Lemma history_no_events db rid :
  rid ∉ pr_id <$> bs_receipts db -> cash_books db -> history db rid = [].
Proof.
  intros Hn Hcb. unfold history, receipt_events. rewrite filter_all_false; [done|].
  intros e He. apply bool_decide_eq_false. intros <-.
  pose proof (cb_events _ Hcb) as Hev. rewrite Forall_forall in Hev. by destruct (Hev e He).
Qed.

(** The status query reads the last event of the history. *)
Lemma receipt_status_last db rid :
  cash_books db -> history db rid ∈ lifecycle_histories ->
  _receipt_status db rid = last (history db rid).
Proof.
  intros Hcb Hh. pose proof (cb_events _ Hcb) as Hev.
  assert (Hseq : Forall (fun e => re_sequence_number e = receipt_sequence (re_status e))
                   (receipt_events db rid)).
  { apply Forall_forall. intros e He. unfold receipt_events in He.
    apply list_elem_of_In, filter_In in He as [He _]. apply list_elem_of_In in He.
    rewrite Forall_forall in Hev. by destruct (Hev e He). }
  unfold _receipt_status, history in *. destruct (receipt_events db rid) as [|e1 [|e2 [|e3 [|? ?]]]];
    cbn [fmap list_fmap] in Hh; unfold lifecycle_histories in Hh;
    rewrite !elem_of_cons, elem_of_nil in Hh; try (exfalso; solve [intuition congruence]);
    repeat match goal with H : Forall _ (_ :: _) |- _ => apply Forall_cons in H as [? H] end; cbn.
  - done.
  - destruct Hh as [?|[[= Hs1 Hs2]|[?|[]]]]; try congruence.
    rewrite Hs1, Hs2 in *. cbn in *. replace (re_sequence_number e2 <=? re_sequence_number e1) with false by lia.
    cbn. by rewrite Hs2.
  - destruct Hh as [?|[?|[[= Hs1 Hs2 Hs3]|[]]]]; try congruence. rewrite Hs1, Hs2, Hs3 in *. cbn in *.
    replace (re_sequence_number e3 <=? re_sequence_number e2) with false by lia. cbn.
    replace (re_sequence_number e3 <=? re_sequence_number e1) with false by lia. cbn. by rewrite Hs3.
Qed.

Lemma get_receipt_Some db rid r :
  get_receipt db rid = Some r -> r ∈ bs_receipts db /\ pr_id r = rid.
Proof. intros [Hin Hid]%find_row_Some. split; [done|]. by apply bool_decide_eq_true in Hid. Qed.

Lemma get_receipt_id db rid r : get_receipt db rid = Some r -> pr_id r = rid.
Proof. by intros [_ ?]%get_receipt_Some. Qed.

Lemma receipt_status_of db rid r :
  cash_books db -> get_receipt db rid = Some r ->
  history db (pr_id r) ∈ lifecycle_histories /\ _receipt_status db (pr_id r) = last (history db (pr_id r)).
Proof.
  intros Hcb [Hin _]%get_receipt_Some. pose proof (cb_histories _ Hcb) as Hh.
  rewrite Forall_forall in Hh. specialize (Hh r Hin). split; [done|]. by apply receipt_status_last.
Qed.

Lemma last_recorded h : h ∈ lifecycle_histories -> last h = Some RECORDED -> h = [RECORDED].
Proof. unfold lifecycle_histories. rewrite !elem_of_cons, elem_of_nil. intros [->|[->|[->|[]]]]; done. Qed.

Lemma last_confirmed h : h ∈ lifecycle_histories -> last h = Some CONFIRMED -> h = [RECORDED; CONFIRMED].
Proof. unfold lifecycle_histories. rewrite !elem_of_cons, elem_of_nil. intros [->|[->|[->|[]]]]; done. Qed.

Lemma last_reversed h :
  h ∈ lifecycle_histories -> last h = Some REVERSED -> h = [RECORDED; CONFIRMED; REVERSED].
Proof. unfold lifecycle_histories. rewrite !elem_of_cons, elem_of_nil. intros [->|[->|[->|[]]]]; done. Qed.

(** *** The writes *)

Lemma append_receipt_event_spec db rid s actor at_ reason provider db' :
  _append_receipt_event db rid s actor at_ reason provider = Ok db' ->
  exists e, db' = with_receipt_events (fun l => l ++ [e]) db
    /\ re_receipt_id e = rid /\ re_status e = s /\ re_sequence_number e = receipt_sequence s.
Proof.
  unfold _append_receipt_event, flush_event. set (e := ReceiptLifecycleEvent _ _ _ _ _ _ _ _).
  intros Hrun. inv_ok. by exists e.
Qed.

Lemma cash_books_event db e :
  cash_books db -> re_receipt_id e ∈ pr_id <$> bs_receipts db ->
  re_sequence_number e = receipt_sequence (re_status e) ->
  history db (re_receipt_id e) ++ [re_status e] ∈ lifecycle_histories ->
  cash_books (with_receipt_events (fun l => l ++ [e]) db).
Proof.
  intros [H1 H2 H3 H4 H5 H6 H7] Hin Hseq Hhist. split; try assumption.
  - cbn. apply Forall_app. split; [done|]. by apply Forall_singleton.
  - apply Forall_forall. intros r Hr. rewrite history_snoc. case_bool_decide as Heq; [by rewrite <- Heq|].
    rewrite app_nil_r. rewrite Forall_forall in H4. by apply H4.
  - apply Forall_forall. intros a Ha. rewrite Forall_forall in H6. destruct (H6 a Ha) as (? & ? & ?).
    split; [done|]. split; [done|]. rewrite history_snoc. apply elem_of_app. by left.
Qed.

Lemma cash_books_new_receipt db r e :
  cash_books db -> pr_id r ∉ pr_id <$> bs_receipts db ->
  pr_external_transaction_id r ∉ pr_external_transaction_id <$> bs_receipts db ->
  0 < pr_amount r -> re_receipt_id e = pr_id r -> re_status e = RECORDED ->
  re_sequence_number e = receipt_sequence RECORDED ->
  cash_books (with_receipt_events (fun l => l ++ [e]) (with_receipts (fun l => l ++ [r]) db)).
Proof.
  intros Hcb Hid Hext Hpos He Hs Hseq. pose proof (history_no_events db (pr_id r) Hid Hcb) as Hnil.
  assert (Hh : forall rid, history (with_receipt_events (fun l => l ++ [e]) (with_receipts (fun l => l ++ [r]) db)) rid
    = history db rid ++ (if bool_decide (pr_id r = rid) then [RECORDED] else [])).
  { intros rid. by rewrite history_snoc, He, Hs. }
  destruct Hcb as [H1 H2 H3 H4 H5 H6 H7]. rewrite Forall_forall in H6.
  split; cbn [bs_receipts bs_receipt_events bs_allocations with_receipts with_receipt_events];
    rewrite ?fmap_app; cbn [fmap list_fmap].
  - apply NoDup_app. split; [done|]. split; [|apply NoDup_singleton]. intros x Hx ->%list_elem_of_singleton. done.
  - apply NoDup_app. split; [done|]. split; [|apply NoDup_singleton]. intros x Hx ->%list_elem_of_singleton. done.
  - apply Forall_app. split.
    + eapply Forall_impl; [exact H3|]. intros x [??]. split; [|done]. apply elem_of_app. by left.
    + apply Forall_singleton. rewrite Hs, He. split; [|done]. apply elem_of_app. right. left.
  - apply Forall_app. split.
    + rewrite Forall_forall in *. intros r' Hr'. rewrite Hh, bool_decide_eq_false_2, app_nil_r; [by apply H4|].
      intros Heq. apply Hid. rewrite Heq. apply list_elem_of_fmap. eauto.
    + apply Forall_singleton. rewrite Hh, Hnil, bool_decide_eq_true_2 by done. left.
  - apply Forall_app. split; [exact H5|]. apply Forall_singleton.
    unfold receipt_allocations. cbn. rewrite filter_all_false; [by apply Z.lt_le_incl|].
    intros a Ha. apply bool_decide_eq_false. intros Heq. apply Hid. rewrite <- Heq. by destruct (H6 a Ha) as (_ & ? & _).
  - apply Forall_forall. intros a Ha. destruct (H6 a Ha) as (? & ? & ?). split; [done|].
    rewrite Hh. split; apply elem_of_app; by left.
  - exact H7.
Qed.

Lemma receipt_allocations_snoc db a rid :
  receipt_allocations (with_allocations (fun l => l ++ [a]) db) rid
  = receipt_allocations db rid ++ (if bool_decide (ra_receipt_id a = rid) then [a] else []).
Proof. unfold receipt_allocations. cbn. by rewrite List.filter_app. Qed.

Lemma cash_books_new_allocation db a r :
  cash_books db -> get_receipt db (ra_receipt_id a) = Some r -> 0 < ra_amount a ->
  CONFIRMED ∈ history db (ra_receipt_id a) ->
  sum_by ra_amount (receipt_allocations db (pr_id r)) + ra_amount a <= pr_amount r ->
  find_allocation db (ra_receipt_id a) (ra_commercial_terms_id a) = None ->
  cash_books (with_allocations (fun l => l ++ [a]) db).
Proof.
  intros [H1 H2 H3 H4 H5 H6 H7] Hr Hpos Hc Hsum Hnew. apply get_receipt_Some in Hr as [Hin Hid].
  split; try assumption.
  - apply Forall_forall. intros r' Hr'. rewrite receipt_allocations_snoc, sum_by_app. cbn in Hr'.
    case_bool_decide as Heq.
    + assert (r' = r) as -> by (eapply nodup_key_inj; [exact H1|done|done|congruence]).
      unfold sum_by at 2. cbn. lia.
    + unfold sum_by at 2. cbn. rewrite Forall_forall in H5. specialize (H5 _ Hr'). lia.
  - cbn. apply Forall_app. split; [exact H6|]. apply Forall_singleton. split; [done|]. split; [|done].
    rewrite <- Hid. apply list_elem_of_fmap. eauto.
  - cbn. rewrite fmap_app. apply NoDup_app. split; [done|]. split; [|apply NoDup_singleton].
    intros x Hx ->%list_elem_of_singleton. apply list_elem_of_fmap in Hx as (a' & [= E1 E2] & Ha').
    pose proof (find_row_None _ _ a' Hnew Ha') as Hf. cbn in Hf. rewrite <- E1, <- E2 in Hf.
    by rewrite !bool_decide_eq_true_2 in Hf.
Qed.

(** *** Tables only grow *)

(** Receipts, lifecycle events and allocations are append-only. *)
Definition cash_log_extends (db db' : billing_store) : Prop :=
  bs_receipts db `prefix_of` bs_receipts db'
  /\ bs_receipt_events db `prefix_of` bs_receipt_events db'
  /\ bs_allocations db `prefix_of` bs_allocations db'.

#[export] Instance cash_log_extends_preorder : PreOrder cash_log_extends.
Proof.
  split; [by intros db|]. intros a b c (?&?&?) (?&?&?). repeat split; by etrans.
Qed.

Lemma cash_log_extends_frame db db' : cash_tables db' = cash_tables db -> cash_log_extends db db'.
Proof. intros [= Hr He Ha]. unfold cash_log_extends. by rewrite Hr, He, Ha. Qed.

(** What one operation does to the books. *)
Definition keeps_books (db db' : billing_store) : Prop :=
  (cash_books db -> cash_books db') /\ cash_log_extends db db'.

#[export] Instance keeps_books_preorder : PreOrder keeps_books.
Proof.
  split; [by intros db|]. intros a b c [??] [??]. split; [auto|by etrans].
Qed.

Lemma keeps_books_frame db db' : cash_tables db' = cash_tables db -> keeps_books db db'.
Proof. split; [by apply cash_books_frame | by apply cash_log_extends_frame]. Qed.

(** *** Every operation keeps the books *)

Lemma with_no_receipts db : with_receipts (fun l => l ++ []) db = db.
Proof. destruct db. unfold with_receipts. cbn. by rewrite app_nil_r. Qed.

(** Recording either answers a receipt on file or adds the receipt with its
    first event. *)
Lemma record_payment_receipt_effect db rq actor gw r db' :
  record_payment_receipt [] db rq actor gw = Ok (r, db') ->
  (db' = db /\ r ∈ bs_receipts db)
  \/ exists e,
      cash_tables db' = cash_tables (with_receipt_events (fun l => l ++ [e]) (with_receipts (fun l => l ++ [r]) db))
      /\ pr_id r = uuid4 (pr_id <$> bs_receipts db)
      /\ receipt_by_external_id db (pr_external_transaction_id r) = None /\ 0 < pr_amount r
      /\ re_receipt_id e = pr_id r /\ re_status e = RECORDED
      /\ re_sequence_number e = receipt_sequence RECORDED.
Proof.
  unfold record_payment_receipt. intros Hrun.
  ok_step Hrun as [amount observed] _. cbn zeta in Hrun. cbn [fst snd] in Hrun.
  set (row := new_receipt _ rq actor amount observed) in *.
  destruct (receipt_by_external_id db _) as [existing|] eqn:Hex.
  { destruct (receipt_exact_match row existing); [|done]. injection Hrun as <- <-. left.
    split; [done|]. by apply find_row_Some in Hex as [? _]. }
  rewrite with_no_receipts in Hrun. unfold flush_receipt in Hrun.
  destruct (negb (receipt_row_fits row)); cbn [raise_if mbind result_bind] in Hrun; [done|].
  destruct (negb (receipt_row_ok row)) eqn:Hok; cbn [raise_if mbind result_bind] in Hrun;
    [by rewrite Hex in Hrun|].
  destruct (conflicts _ _ _); cbn [raise_if mbind result_bind] in Hrun; [by rewrite Hex in Hrun|].
  cbn [mret result_ret] in Hrun. ok_step Hrun as db1 He. injection Hrun as <- <-.
  apply append_receipt_event_spec in He as (e & -> & He1 & He2 & He3). right. exists e.
  split; [done|]. split; [done|]. split; [done|]. split; [|done].
  apply negb_false_iff, andb_true_iff in Hok as [_ Hpos]. by apply Z.ltb_lt in Hpos.
Qed.

Lemma record_keeps_books db rq actor gw r db' :
  record_payment_receipt [] db rq actor gw = Ok (r, db') -> keeps_books db db'.
Proof.
  intros [[-> _]|(e & Ht & Hid & Hext & Hpos & He1 & He2 & He3)]%record_payment_receipt_effect; [done|].
  etrans; [|by apply keeps_books_frame]. split.
  - intros Hcb. apply cash_books_new_receipt; try done; [rewrite Hid; apply uuid4_fresh|].
    intros Hin. apply list_elem_of_fmap in Hin as (r' & Heq & Hr').
    pose proof (find_row_None _ _ r' Hext Hr') as Hf. cbn in Hf. rewrite Heq in Hf.
    by rewrite bool_decide_eq_true_2 in Hf.
  - repeat split; cbn; try done; by apply prefix_app_r.
Qed.

Lemma event_keeps_books db e r :
  get_receipt db (re_receipt_id e) = Some r ->
  re_sequence_number e = receipt_sequence (re_status e) ->
  (cash_books db -> history db (re_receipt_id e) ++ [re_status e] ∈ lifecycle_histories) ->
  keeps_books db (with_receipt_events (fun l => l ++ [e]) db).
Proof.
  intros Hr Hseq Hh. split; [|repeat split; cbn; try done; by apply prefix_app_r].
  intros Hcb. apply get_receipt_Some in Hr as [Hin Hid].
  apply cash_books_event; auto. rewrite <- Hid. apply list_elem_of_fmap. eauto.
Qed.

Lemma confirm_keeps_books db rid actor amount currency now ok db' :
  confirm_payment_receipt db rid actor amount currency now = Ok (ok, db') -> keeps_books db db'.
Proof.
  unfold confirm_payment_receipt. intros Hrun. ok_step Hrun.
  ok_step Hrun as r Hr. apply require_some_Ok in Hr.
  ok_step Hrun. ok_step Hrun. cbn zeta in Hrun.
  ok_step Hrun.
  assert (Hid : pr_id r = rid) by (by eapply get_receipt_id).
  case_bool_decide as Hc.
  { ok_step Hrun. by injection Hrun as <- <-. }
  ok_step Hrun as ? Hrec. apply raise_if_Ok in Hrec. bool_prop.
  ok_step Hrun as db1 He. injection Hrun as <- <-.
  transitivity db1; [|by apply keeps_books_frame]. destruct (_ && _); [|by injection He as <-].
  apply append_receipt_event_spec in He as (e & -> & E1 & E2 & E3).
  rewrite Hid in *. apply (event_keeps_books db e r); [by rewrite E1 | by rewrite E2 |].
  intros Hcb. destruct (receipt_status_of db rid r Hcb Hr) as [Hh Hs]. rewrite Hid in Hh, Hs.
  rewrite Hs in Hrec. rewrite E1, E2, (last_recorded _ Hh Hrec). unfold lifecycle_histories. set_solver.
Qed.

Lemma reverse_keeps_books db rid actor reason now r db' :
  reverse_payment_receipt db rid actor reason now = Ok (r, db') -> keeps_books db db'.
Proof.
  unfold reverse_payment_receipt. intros Hrun. ok_step Hrun.
  ok_step Hrun as r0 Hr. apply require_some_Ok in Hr. cbn zeta in Hrun.
  assert (Hid : pr_id r0 = rid) by (by eapply get_receipt_id).
  case_bool_decide as Hc; [by injection Hrun as <- <-|].
  ok_step Hrun as ? Hrec. apply raise_if_Ok in Hrec. bool_prop.
  ok_step Hrun.
  ok_step Hrun as db1 He. injection Hrun as <- <-.
  transitivity db1; [|by apply keeps_books_frame].
  apply append_receipt_event_spec in He as (e & -> & E1 & E2 & E3).
  rewrite Hid in *. apply (event_keeps_books db e r0); [by rewrite E1 | by rewrite E2 |].
  intros Hcb. destruct (receipt_status_of db rid r0 Hcb Hr) as [Hh Hs]. rewrite Hid in Hh, Hs.
  rewrite Hs in Hrec. rewrite E1, E2, (last_confirmed _ Hh Hrec). unfold lifecycle_histories. set_solver.
Qed.

Section AllocationLemmas.
Context `{Sha256}.

Lemma notified_cash db db' : notified db db' -> cash_tables db' = cash_tables db.
Proof. by intros (? & ? & ->). Qed.

Lemma validate_allocation_spec db rid tid actor amount gw r terms k :
  validate_allocation db rid tid actor amount gw = Ok (r, terms, k) ->
  get_receipt db rid = Some r /\ get_terms db tid = Some terms
  /\ _receipt_status db (pr_id r) = Some CONFIRMED /\ _money amount = Ok k /\ 0 < k.
Proof.
  unfold validate_allocation. intros Hrun.
  ok_step Hrun as ev _. ok_step Hrun. cbn zeta in Hrun.
  ok_step Hrun as t Ht. apply require_some_Ok in Ht.
  ok_step Hrun.
  ok_step Hrun as r' Hr. apply require_some_Ok in Hr.
  do 3 ok_step Hrun.
  ok_step Hrun as ? Hs. apply raise_if_Ok in Hs. bool_prop.
  ok_step Hrun.
  ok_step Hrun as k' Hk. ok_step Hrun as ? Hk0.
  apply raise_if_Ok in Hk0. bool_prop. pose proof (_money_Ok _ _ Hk) as [Hk1 _].
  injection Hrun as <- <- <-. repeat split; try done. lia.
Qed.

(** Allocating either answers the allocation on file or adds one that the
    receipt and the obligation can bear. *)
Lemma allocate_effect db rid tid actor amount gw now clock a db' :
  allocate_payment_receipt db rid tid actor amount gw now clock = Ok (a, db') ->
  exists r, get_receipt db rid = Some r /\ ra_receipt_id a = rid /\ ra_commercial_terms_id a = tid
  /\ _receipt_status db rid = Some CONFIRMED /\ _money amount = Ok (ra_amount a) /\ 0 < ra_amount a
  /\ ((db' = db /\ find_allocation db rid tid = Some a)
      \/ (find_allocation db rid tid = None
          /\ sum_by ra_amount (receipt_allocations db rid) + ra_amount a <= pr_amount r
          /\ (exists obligation, effective_invoice_obligation db tid = Ok obligation
              /\ active_total db tid + ra_amount a <= obligation)
          /\ notified (add_audit_event actor "billing.receipt.allocated" "receipt_allocation" (ra_id a)
                        (with_allocations (fun l => l ++ [a]) db)) db')).
Proof.
  unfold allocate_payment_receipt. intros Hrun.
  ok_step Hrun as [[r terms] k] Hv.
  apply validate_allocation_spec in Hv as (Hr & Ht & Hs & Hk & Hk0).
  assert (Hid : pr_id r = rid) by (by eapply get_receipt_id).
  assert (Htid : ct_id terms = tid) by (apply find_row_Some in Ht as [_ Ht]; by bool_prop).
  rewrite Hid, Htid in *. exists r. split; [done|].
  destruct (find_allocation db rid tid) as [existing|] eqn:Hf.
  - destruct (Z.eqb_spec (ra_amount existing) k) as [Ha|]; [|done]. injection Hrun as <- <-.
    pose proof (find_row_Some _ _ _ Hf) as [_ Hkey]. bool_prop. rewrite Ha.
    split; [done|]. split; [done|]. split; [done|]. split; [done|]. split; [lia|]. by left.
  - ok_step Hrun as ? Hsum. apply raise_if_Ok in Hsum. bool_prop.
    ok_step Hrun as ob Hob.
    ok_step Hrun as ? Hfund. apply raise_if_Ok in Hfund. bool_prop.
    set (row := new_allocation _ _ _ _ _ _ _) in *.
    ok_step Hrun as db1 Hfl. unfold flush_allocation in Hfl.
    ok_step Hfl.
    do 3 (ok_step Hfl). injection Hfl as <-.
    ok_step Hrun as [out db2] Hn. injection Hrun as <- <-. cbn [snd].
    unfold announce_allocation in Hn. apply business_notifications_spec in Hn as [Hn _].
    split; [done|]. split; [done|]. split; [done|]. split; [done|]. split; [cbn; lia|]. right.
    split; [done|]. split; [done|]. split; [by exists ob|]. done.
Qed.
End AllocationLemmas.

Section CashInvariant.
Context `{Sha256}.

Lemma allocate_keeps_books db rid tid actor amount gw now clock a db' :
  allocate_payment_receipt db rid tid actor amount gw now clock = Ok (a, db') -> keeps_books db db'.
Proof.
  intros (r & Hr & <- & <- & Hs & _ & Hpos & Hcase)%allocate_effect.
  destruct Hcase as [[-> _]|(Hnew & Hsum & _ & Hn)]; [done|].
  transitivity (with_allocations (fun l => l ++ [a]) db);
    [|by apply keeps_books_frame; rewrite (notified_cash _ _ Hn)].
  split; [|repeat split; cbn; try done; by apply prefix_app_r].
  intros Hcb. pose proof (get_receipt_id _ _ _ Hr) as Hid.
  eapply cash_books_new_allocation; eauto; [|by rewrite Hid].
  destruct (receipt_status_of _ _ _ Hcb Hr) as [Hh Hl]. rewrite Hid in *. rewrite Hs in Hl. symmetry in Hl.
  rewrite (last_confirmed _ Hh Hl). set_solver.
Qed.

Lemma transfer_keeps_books db b actor now clock out db' :
  process_manual_bank_transfer [] db b actor now clock = Ok (out, db') -> keeps_books db db'.
Proof.
  unfold process_manual_bank_transfer. intros Hrun. ok_step Hrun.
  ok_step Hrun as [r db1] H1. ok_step Hrun as [m db2] H2.
  transitivity db2; [transitivity db1; [by eapply record_keeps_books | by eapply confirm_keeps_books]|].
  destruct m; cbn [negb] in Hrun; [|by injection Hrun as <- <-].
  ok_step Hrun as [a db3] H3. injection Hrun as <- <-.
  by eapply allocate_keeps_books.
Qed.

(** One successful call of a receipt service. *)
Inductive cash_step (db : billing_store) : billing_store -> Prop :=
| step_record rq actor gateway_event r db' :
    record_payment_receipt [] db rq actor gateway_event = Ok (r, db') -> cash_step db db'
| step_confirm receipt_id actor amount currency now ok db' :
    confirm_payment_receipt db receipt_id actor amount currency now = Ok (ok, db') -> cash_step db db'
| step_allocate receipt_id terms_id actor amount gateway_event now clock a db' :
    allocate_payment_receipt db receipt_id terms_id actor amount gateway_event now clock = Ok (a, db') ->
    cash_step db db'
| step_reverse receipt_id actor reason now r db' :
    reverse_payment_receipt db receipt_id actor reason now = Ok (r, db') -> cash_step db db'
| step_transfer transfer actor now clock out db' :
    process_manual_bank_transfer [] db transfer actor now clock = Ok (out, db') -> cash_step db db'.

Lemma cash_step_keeps_books db db' : cash_step db db' -> keeps_books db db'.
Proof.
  destruct 1; [by eapply record_keeps_books | by eapply confirm_keeps_books
    | by eapply allocate_keeps_books | by eapply reverse_keeps_books | by eapply transfer_keeps_books].
Qed.

(** C29: whatever receipts are recorded, confirmed, allocated and reversed, in
    any order, the cash books stay sound: receipt identities stay unique, each
    receipt goes through recorded, confirmed, reversed in that order and no
    other, allocations are of confirmed cash, at most one per terms and never
    more than the receipt in total; and nothing on file is ever changed. *)
Theorem cash_books_reachable db db' :
  cash_books db -> rtc cash_step db db' -> cash_books db' /\ cash_log_extends db db'.
Proof.
  intros Hcb Hsteps. assert (keeps_books db db') as [H1 H2]; [|auto].
  clear Hcb. induction Hsteps as [db|db db1 db2 Hstep _ IH]; [done|].
  by transitivity db1; [apply cash_step_keeps_books|].
Qed.

Lemma active_total_new db a :
  existsb (fun r => bool_decide (pr_id r = ra_receipt_id a)) (bs_receipts db) = true ->
  _active_receipt_predicate db (ra_receipt_id a) = true ->
  active_total (with_allocations (fun l => l ++ [a]) db) (ra_commercial_terms_id a)
  = active_total db (ra_commercial_terms_id a) + ra_amount a.
Proof.
  intros Hr Hp. unfold active_total. cbn [bs_allocations with_allocations].
  rewrite List.filter_app, sum_by_app. f_equal.
  cbn [List.filter]. unfold active_allocation. cbn [bs_receipts with_allocations].
  rewrite bool_decide_eq_true_2 by done. rewrite Hr. unfold _active_receipt_predicate in *.
  unfold has_event in *. cbn [bs_receipt_events with_allocations]. rewrite Hp. cbn. unfold sum_by. cbn. lia.
Qed.

Lemma has_event_history db s rid : has_event db s rid = true <-> s ∈ history db rid.
Proof.
  unfold has_event, history, receipt_events. rewrite existsb_exists, list_elem_of_fmap. split.
  - intros (e & He & Hb). bool_prop. subst. exists e. split; [done|].
    apply list_elem_of_In, filter_In. split; [done|]. by apply bool_decide_eq_true_2.
  - intros (e & -> & He). apply list_elem_of_In, filter_In in He as [He Hb]. exists e.
    split; [done|]. by rewrite Hb, bool_decide_eq_true_2.
Qed.

(** a new allocation raises the active funding of the terms by exactly its
    amount, and that funding stays within the invoice obligation after its
    corrections while the receipt's allocations stay within its amount. *)
Theorem allocation_within_obligation db rid tid actor amount gw now clock a db' :
  cash_books db -> find_allocation db rid tid = None ->
  allocate_payment_receipt db rid tid actor amount gw now clock = Ok (a, db') ->
  exists r obligation,
    get_receipt db' rid = Some r /\ effective_invoice_obligation db' tid = Ok obligation
    /\ active_total db' tid = active_total db tid + ra_amount a
    /\ active_total db' tid <= obligation
    /\ sum_by ra_amount (receipt_allocations db' rid) <= pr_amount r.
Proof.
  intros Hcb Hnone (r & Hr & <- & <- & Hs & _ & Hpos & Hcase)%allocate_effect.
  destruct Hcase as [[_ Hf]|(_ & Hsum & (ob & Hob & Hfund) & Hn)]; [congruence|].
  destruct Hn as (ns & js & ->). exists r, ob. pose proof (get_receipt_id _ _ _ Hr) as Hid.
  destruct (receipt_status_of _ _ _ Hcb Hr) as [Hh Hl]. rewrite Hid in *. rewrite Hs in Hl. symmetry in Hl.
  pose proof (last_confirmed _ Hh Hl) as Hhist.
  assert (Hact : _active_receipt_predicate db (ra_receipt_id a) = true).
  { unfold _active_receipt_predicate. apply andb_true_iff. split.
    - apply has_event_history. rewrite Hhist. set_solver.
    - apply negb_true_iff, not_true_is_false. rewrite has_event_history, Hhist. set_solver. }
  assert (Hex : existsb (fun r => bool_decide (pr_id r = ra_receipt_id a)) (bs_receipts db) = true).
  { apply existsb_in with r; [by apply get_receipt_Some in Hr as [? _]|]. by apply bool_decide_eq_true_2. }
  pose proof (active_total_new db a Hex Hact) as Htot.
  split; [exact Hr|]. split; [exact Hob|].
  split; [exact Htot|]. split; [etrans; [apply Z.eq_le_incl, Htot | lia]|].
  pose proof (receipt_allocations_snoc db a (ra_receipt_id a)) as Hsn.
  rewrite bool_decide_eq_true_2 in Hsn by done.
  etrans; [apply Z.eq_le_incl, (f_equal (sum_by ra_amount) Hsn)|].
  rewrite sum_by_app, sum_by_cons, sum_by_nil. lia.
Qed.
End CashInvariant.

(** ** Replays *)

Section Replays.
Context `{Sha256}.

Lemma gateway_event_facts db db' id : bs_facts db' = bs_facts db ->
  _trusted_confirmed_gateway_event db' id = _trusted_confirmed_gateway_event db id.
Proof. intros Hf. unfold _trusted_confirmed_gateway_event, get_terms. by rewrite Hf. Qed.

Lemma validate_receipt_facts db db' rq actor gw : bs_facts db' = bs_facts db ->
  validate_receipt_request db' rq actor gw = validate_receipt_request db rq actor gw.
Proof.
  intros Hf. unfold validate_receipt_request.
  replace (check_receipt_authority db' rq actor gw) with (check_receipt_authority db rq actor gw);
    [by rewrite Hf|].
  unfold check_receipt_authority. destruct actor as [actor|]; [by rewrite (require_active_admin_facts db db')|].
  destruct (raise_if _ _); [cbn [mbind result_bind]|done].
  destruct (require_some gw _); [cbn [mbind result_bind]|done]. by rewrite (gateway_event_facts db db').
Qed.

Lemma receipt_exact_match_refl id id' rq actor amount observed :
  receipt_exact_match (new_receipt id rq actor amount observed) (new_receipt id' rq actor amount observed) = true.
Proof. unfold receipt_exact_match. cbn. by rewrite !bool_decide_eq_true_2, !Z.eqb_refl. Qed.

(** A receipt on file answers the same request again. *)
Lemma record_replay db rq actor gw r db1 db2 :
  record_payment_receipt [] db rq actor gw = Ok (r, db1) ->
  bs_facts db2 = bs_facts db ->
  receipt_by_external_id db2 (pr_external_transaction_id r) = Some r ->
  record_payment_receipt [] db2 rq actor gw = Ok (r, db2).
Proof.
  unfold record_payment_receipt. intros Hrun Hf Hfile. rewrite (validate_receipt_facts db db2) by done.
  ok_step Hrun as [amount observed] ->. cbn [mbind result_bind fst snd] in *. cbn zeta in *.
  assert (Hr : exists id, pr_external_transaction_id r = strip (rq_external_transaction_id rq)
    /\ receipt_exact_match (new_receipt id rq actor amount observed) r = true).
  { destruct (receipt_by_external_id db _) as [e|] eqn:He.
    - destruct (receipt_exact_match _ e) eqn:Hm; [|done]. injection Hrun as <- <-. eexists.
      split; [|exact Hm]. apply find_row_Some in He as [_ He]. by apply bool_decide_eq_true in He.
    - rewrite with_no_receipts in Hrun. unfold flush_receipt in Hrun. exists 0%N.
      repeat (destruct (raise_if _ _) as [|[]]; cbn [mbind result_bind] in Hrun; rewrite ?He in Hrun; try done).
      cbn [mret result_ret] in Hrun. ok_step Hrun. injection Hrun as <- <-.
      split; [done|]. apply receipt_exact_match_refl. }
  destruct Hr as (id & Hext & Hm). rewrite Hext in Hfile.
  change (pr_external_transaction_id (new_receipt _ rq actor amount observed))
    with (strip (rq_external_transaction_id rq)).
  rewrite Hfile. change (receipt_exact_match (new_receipt _ rq actor amount observed) r)
    with (receipt_exact_match (new_receipt id rq actor amount observed) r).
  by rewrite Hm.
Qed.

(** A confirmed receipt answers the same confirmation again. *)
Lemma confirm_replay db rid actor amount currency now now' db1 db2 :
  confirm_payment_receipt db rid actor amount currency now = Ok (true, db1) ->
  bs_facts db2 = bs_facts db -> get_receipt db2 rid = get_receipt db rid ->
  _receipt_status db2 rid = Some CONFIRMED ->
  confirm_payment_receipt db2 rid actor amount currency now' = Ok (true, db2).
Proof.
  unfold confirm_payment_receipt. intros Hrun Hf Hg Hs.
  rewrite (require_active_admin_facts db db2) by done. rewrite Hg.
  ok_step Hrun as [] ->. cbn [mbind result_bind].
  ok_step Hrun as r Hr. rewrite Hr. cbn [mbind result_bind].
  apply require_some_Ok, get_receipt_id in Hr. rewrite Hr in *.
  ok_step Hrun as [] ->. cbn [mbind result_bind].
  ok_step Hrun as k ->. cbn [mbind result_bind]. cbn zeta in *.
  ok_step Hrun as [] ->. cbn [mbind result_bind].
  rewrite Hs, (bool_decide_eq_true_2 (Some CONFIRMED = Some CONFIRMED)) by done.
  assert (Hm : (pr_amount r =? k) && bool_decide (pr_currency r = upper (strip currency)) = true).
  { destruct (bool_decide (_receipt_status db rid = Some CONFIRMED)).
    - apply bind_Ok in Hrun as (? & Hm & _). apply raise_if_Ok in Hm. by apply negb_false_iff in Hm.
    - ok_step Hrun. ok_step Hrun.
      by injection Hrun as Hm _. }
  by rewrite Hm.
Qed.

(** An allocation on file answers the same allocation again. *)
Lemma allocate_replay db rid tid actor amount gw now clock now' clock' a db1 db2 :
  allocate_payment_receipt db rid tid actor amount gw now clock = Ok (a, db1) ->
  bs_facts db2 = bs_facts db -> bs_campaigns db2 = bs_campaigns db ->
  get_receipt db2 rid = get_receipt db rid -> _receipt_status db2 rid = Some CONFIRMED ->
  find_allocation db2 rid tid = Some a ->
  allocate_payment_receipt db2 rid tid actor amount gw now' clock' = Ok (a, db2).
Proof.
  intros Hrun Hf Hc Hg Hs Hfile.
  pose proof (allocate_effect _ _ _ _ _ _ _ _ _ _ Hrun) as (r & Hr & Ea & Et & Hs0 & Hm & Hpos & _).
  unfold allocate_payment_receipt in *. apply bind_Ok in Hrun as ([[r' terms] k] & Hv & _).
  pose proof (validate_allocation_spec _ _ _ _ _ _ _ _ _ Hv) as (Hr' & Ht & _ & Hk & _).
  assert (r' = r) as -> by congruence. assert (k = ra_amount a) as -> by congruence.
  assert (Hid : pr_id r = rid) by (by eapply get_receipt_id).
  assert (Htid : ct_id terms = tid) by (apply find_row_Some in Ht as [_ Ht]; by bool_prop).
  assert (Hv2 : validate_allocation db2 rid tid actor amount gw = Ok (r, terms, ra_amount a)).
  { rewrite <- Hv. unfold validate_allocation, allocation_evidence, _campaign.
    rewrite (get_terms_facts db db2), Hc, Hg by done. rewrite Hr, Ht. cbn [require_some mbind result_bind].
    rewrite (invoice_for_terms_facts db db2) by done. rewrite Hid, Hs, Hs0.
    destruct actor; [by rewrite (require_active_admin_facts db db2)|].
    destruct gw as [gw|]; [|done]. cbn [require_some mbind result_bind].
    by rewrite (gateway_event_facts db db2). }
  rewrite Hv2. cbn [mbind result_bind]. cbn iota. rewrite Hid, Htid, Hfile, Z.eqb_refl. done.
Qed.
(** The tables the receipt services leave alone. *)
Definition other_tables (db : billing_store) :=
  (bs_facts db, bs_campaigns db, bs_corrections db, bs_refunds db, bs_transitions db).

Lemma append_event_others db rid s actor at_ reason provider db' :
  _append_receipt_event db rid s actor at_ reason provider = Ok db' -> other_tables db' = other_tables db.
Proof. by intros (e & -> & _)%append_receipt_event_spec. Qed.

Lemma record_others db rq actor gw r db' :
  record_payment_receipt [] db rq actor gw = Ok (r, db') -> other_tables db' = other_tables db.
Proof.
  unfold record_payment_receipt. intros Hrun. ok_step Hrun as [amount observed] _.
  cbn zeta in Hrun. destruct (receipt_by_external_id db _) as [e|] eqn:He.
  { destruct (receipt_exact_match _ e); [|done]. by injection Hrun as <- <-. }
  rewrite with_no_receipts in Hrun. unfold flush_receipt in Hrun.
  repeat (destruct (raise_if _ _) as [|[]]; cbn [mbind result_bind] in Hrun; rewrite ?He in Hrun; try done).
  cbn [mret result_ret] in Hrun. ok_step Hrun as db1 Ha. injection Hrun as <- <-.
  by apply append_event_others in Ha.
Qed.

Lemma confirm_others db rid actor amount currency now ok db' :
  confirm_payment_receipt db rid actor amount currency now = Ok (ok, db') ->
  other_tables db' = other_tables db.
Proof.
  unfold confirm_payment_receipt. intros Hrun. ok_step Hrun.
  ok_step Hrun as r _. ok_step Hrun.
  ok_step Hrun. cbn zeta in Hrun. ok_step Hrun.
  case_bool_decide.
  { ok_step Hrun. by injection Hrun as <- <-. }
  ok_step Hrun. ok_step Hrun as db1 He.
  injection Hrun as <- <-. destruct (_ && _); [by apply append_event_others in He|by injection He as <-].
Qed.

Lemma reverse_others db rid actor reason now r db' :
  reverse_payment_receipt db rid actor reason now = Ok (r, db') -> other_tables db' = other_tables db.
Proof.
  unfold reverse_payment_receipt. intros Hrun. ok_step Hrun.
  ok_step Hrun as r0 _. cbn zeta in Hrun.
  case_bool_decide; [by injection Hrun as <- <-|].
  do 2 ok_step Hrun. ok_step Hrun as db1 He.
  injection Hrun as <- <-. by apply append_event_others in He.
Qed.

Lemma allocate_others db rid tid actor amount gw now clock a db' :
  allocate_payment_receipt db rid tid actor amount gw now clock = Ok (a, db') ->
  other_tables db' = other_tables db.
Proof.
  intros (r & _ & _ & _ & _ & _ & _ & [[-> _]|(_ & _ & _ & ns & js & ->)])%allocate_effect; done.
Qed.

Lemma find_unique {A K} `{EqDecision K} (key : A -> K) l x :
  NoDup (key <$> l) -> x ∈ l -> find_row (fun y => bool_decide (key y = key x)) l = Some x.
Proof.
  intros Hnd Hin. destruct (find_row _ l) as [y|] eqn:Hf.
  - apply find_row_Some in Hf as [Hy Hk]. apply bool_decide_eq_true in Hk. f_equal.
    by eapply nodup_key_inj.
  - pose proof (find_row_None _ _ x Hf Hin) as Hk. cbn in Hk. by rewrite bool_decide_eq_true_2 in Hk.
Qed.

Lemma receipt_on_file db r :
  cash_books db -> r ∈ bs_receipts db ->
  get_receipt db (pr_id r) = Some r /\ receipt_by_external_id db (pr_external_transaction_id r) = Some r.
Proof. intros [H1 H2 _ _ _ _ _] Hin. split; by apply find_unique. Qed.

Lemma recorded_on_file db rq actor gw r db' :
  record_payment_receipt [] db rq actor gw = Ok (r, db') -> r ∈ bs_receipts db'.
Proof.
  intros [[-> ?]|(e & [= Hr _ _] & _)]%record_payment_receipt_effect; [done|].
  rewrite Hr. apply elem_of_app. right. left.
Qed.

(** What an allocation leaves on file. *)
Lemma allocated_on_file db rid tid actor amount gw now clock a db' :
  allocate_payment_receipt db rid tid actor amount gw now clock = Ok (a, db') ->
  find_allocation db' rid tid = Some a /\ _receipt_status db' rid = Some CONFIRMED
  /\ bs_receipts db' = bs_receipts db.
Proof.
  intros (r & _ & Er & Et & Hs & _ & _ & [[-> Hf]|(Hf & _ & _ & ns & js & ->)])%allocate_effect; [done|].
  split; [|done]. unfold find_allocation in *.
  transitivity (find_row (fun a' => bool_decide (ra_receipt_id a' = rid)
      && bool_decide (ra_commercial_terms_id a' = tid)) (bs_allocations db ++ [a])); [done|].
  rewrite find_row_app, Hf. unfold find_row. cbn. by rewrite !bool_decide_eq_true_2.
Qed.

(** processing the same bank statement line again, at any later time,
    answers the same receipt and the same allocation and changes nothing: no
    second receipt, confirmation, allocation, notice or audit event. *)
Theorem manual_transfer_replay db b actor now clock now' clock' r a db' :
  cash_books db ->
  process_manual_bank_transfer [] db b actor now clock = Ok ((r, true, Some a), db') ->
  process_manual_bank_transfer [] db' b actor now' clock' = Ok ((r, true, Some a), db').
Proof.
  intros Hcb Hrun. pose proof (transfer_keeps_books _ _ _ _ _ _ _ Hrun) as [Hcb' _]. specialize (Hcb' Hcb).
  unfold process_manual_bank_transfer in *.
  ok_step Hrun as [] Hinv.
  ok_step Hrun as [r1 db1] H1. ok_step Hrun as [m db2] H2.
  destruct m; cbn [negb] in Hrun; [|by injection Hrun].
  ok_step Hrun as [a' db3] H3. injection Hrun as <- <- <-.
  pose proof (record_others _ _ _ _ _ _ H1) as [= F1 C1 _ _ _].
  pose proof (confirm_others _ _ _ _ _ _ _ _ H2) as [= F2 C2 _ _ _].
  pose proof (allocate_others _ _ _ _ _ _ _ _ _ _ H3) as [= F3 C3 _ _ _].
  pose proof (allocated_on_file _ _ _ _ _ _ _ _ _ _ H3) as (Hfile & Hconf & Hrec).
  pose proof (record_keeps_books _ _ _ _ _ _ H1) as [Hcb1 _]. specialize (Hcb1 Hcb).
  pose proof (confirm_keeps_books _ _ _ _ _ _ _ _ H2) as [Hcb2 (Hpre & _)]. specialize (Hcb2 Hcb1).
  pose proof (recorded_on_file _ _ _ _ _ _ H1) as Hin1.
  assert (Hin2 : r1 ∈ bs_receipts db2) by (destruct Hpre as [k ->]; apply elem_of_app; by left).
  assert (Hin3 : r1 ∈ bs_receipts db3) by (by rewrite Hrec).
  destruct (receipt_on_file _ _ Hcb1 Hin1) as [G1 _]. destruct (receipt_on_file _ _ Hcb2 Hin2) as [G2 _].
  destruct (receipt_on_file _ _ Hcb' Hin3) as [G3 X3].
  rewrite (invoice_for_terms_facts db db3) by congruence. rewrite Hinv. cbn [mbind result_bind].
  rewrite (record_replay _ _ _ _ _ _ db3 H1) by congruence. cbn [mbind result_bind].
  rewrite (confirm_replay _ _ _ _ _ _ now' _ db3 H2) by congruence. cbn [mbind result_bind negb].
  rewrite (allocate_replay _ _ _ _ _ _ _ _ now' clock' _ _ db3 H3) by congruence. done.
Qed.
End Replays.

(** ** Witnesses: one bank transfer that funds an invoice in part *)

Module BillingSample.

#[export] Instance plain_digest : Sha256 := fun text => text.

Definition facts : billing_facts :=
  {| bs_users := [User 1 ROLE_ADMIN USER_ACTIVE 1 "" "" ""; User 2 ROLE_ADVERTISER USER_ACTIVE 1 "" "" ""];
     bs_organizations := [AdvertiserOrganization 5 ORG_ACTIVE];
     bs_memberships := [OrganizationMembership 5 2 MEMBER_ACTIVE];
     bs_preferences := [];
     bs_terms := [CommercialTerms 10 4 5 "NGN" STANDARD_PREPAID 24 1000000 0];
     bs_invoices := [Invoice 20 10 4 (Some "TMX-2026-000001"%string) INVOICE_ISSUED "NGN" 1000000];
     bs_gateway_events := [];
     bs_productions := [];
     bs_cancellations :=
       [CampaignCancellation 30 4 5 2000 (Some 10%N) None (Some 500) (Some 90000000000)
          CASH_REFUND_DUE 600000 "NGN"] |}.

Definition store : billing_store :=
  {| bs_facts := facts;
     bs_campaigns := [Campaign 4 5 "active" None (Some 900000) "NGN"];
     bs_corrections := []; bs_receipts := []; bs_receipt_events := []; bs_allocations := [];
     bs_refunds := []; bs_transitions := []; bs_notifications := []; bs_jobs := ∅; bs_audit := [] |}.

Definition transfer : bank_transfer :=
  {| bk_organization_id := 5; bk_commercial_terms_id := 10;
     bk_external_transaction_id := " GTB-77 "; bk_observed_amount := Finite 6000;
     bk_expected_amount := Finite 6000; bk_currency := "ngn"; bk_payer_name := "Acme Ltd";
     bk_evidence_reference := "statement-1"; bk_observed_at := aware 1000;
     bk_allocation_amount := None |}.

Definition paid_outcome : result ((payment_receipt * bool * option receipt_allocation) * billing_store) :=
  process_manual_bank_transfer [] store transfer 1 1500 1600.

Definition receipt : payment_receipt :=
  PaymentReceipt 1 5 MANUAL_TRANSFER "manual-bank-transfer" "GTB-77" 600000 "NGN" "Acme Ltd" "statement-1"
    (Some 1%N) 1000.

Definition allocation : receipt_allocation :=
  ReceiptAllocation 1 1 10 600000 "NGN" SOURCE_MANUAL None (Some 1%N) 1500.

Definition paid : billing_store := match paid_outcome with Ok r => r.2 | Raise _ => store end.

Lemma store_books : cash_books store.
Proof. split; constructor. Qed.

Lemma paid_runs :
  process_manual_bank_transfer [] store transfer 1 1500 1600 = Ok ((receipt, true, Some allocation), paid).
Proof. vm_compute. reflexivity. Qed.

Lemma paid_books : cash_books paid.
Proof. apply (transfer_keeps_books _ _ _ _ _ _ _ paid_runs), store_books. Qed.

(** The second receipt, confirmed and not allocated yet. *)
Definition transfer2 : receipt_request :=
  ReceiptRequest 5 MANUAL_TRANSFER "bank" "GTB-78" (Finite 3000) "NGN" "Acme Ltd" "statement-2" (aware 1700).

Definition second : billing_store :=
  match record_payment_receipt [] paid transfer2 (Some 1%N) None with
  | Ok (r, db) =>
      match confirm_payment_receipt db (pr_id r) 1 (Finite 3000) "NGN" 1800 with
      | Ok (_, db) => db
      | Raise _ => db
      end
  | Raise _ => paid
  end.

Definition second_allocation : result (receipt_allocation * billing_store) :=
  allocate_payment_receipt second 2 10 (Some 1%N) (Finite 3000) None 1900 1900.

Definition funded : billing_store := match second_allocation with Ok r => r.2 | Raise _ => second end.

Definition allocation2 : receipt_allocation :=
  ReceiptAllocation 2 2 10 300000 "NGN" SOURCE_MANUAL None (Some 1%N) 1900.

Lemma second_books : cash_books second.
Proof.
  unfold second. destruct (record_payment_receipt [] paid transfer2 (Some 1%N) None) as [[r db]|] eqn:Hr;
    [|apply paid_books].
  pose proof (proj1 (record_keeps_books _ _ _ _ _ _ Hr) paid_books) as Hdb.
  destruct (confirm_payment_receipt db (pr_id r) 1 (Finite 3000) "NGN" 1800) as [[ok db2]|] eqn:Hc; [|done].
  by apply (proj1 (confirm_keeps_books _ _ _ _ _ _ _ _ Hc)).
Qed.

Lemma second_runs :
  allocate_payment_receipt second 2 10 (Some 1%N) (Finite 3000) None 1900 1900 = Ok (allocation2, funded).
Proof. vm_compute. reflexivity. Qed.
End BillingSample.

Import BillingSample.

Lemma cash_books_reachable_witness :
  cash_books paid /\ cash_log_extends store paid /\ length (bs_allocations paid) = 1%nat.
Proof.
  destruct (cash_books_reachable store paid store_books) as [H1 H2].
  - eapply rtc_once, step_transfer, paid_runs.
  - split; [exact H1|]. split; [exact H2|]. vm_compute. reflexivity.
Defined.

Lemma allocation_within_obligation_witness :
  exists r obligation,
    get_receipt funded 2 = Some r /\ effective_invoice_obligation funded 10 = Ok obligation
    /\ active_total funded 10 = active_total second 10 + 300000
    /\ active_total funded 10 <= obligation
    /\ sum_by ra_amount (receipt_allocations funded 2) <= pr_amount r.
Proof.
  exact (allocation_within_obligation second 2 10 (Some 1%N) (Finite 3000) None 1900 1900 allocation2 funded
    second_books eq_refl second_runs).
Defined.

Lemma manual_transfer_replay_witness :
  process_manual_bank_transfer [] paid transfer 1 5000 5100 = Ok ((receipt, true, Some allocation), paid).
Proof.
  exact (manual_transfer_replay store transfer 1 1500 1600 5000 5100 receipt allocation paid
    store_books paid_runs).
Defined.
