(* ===== verification/Settlements.v ===== *)
(** Settlements ([services/billing/settlements.py]): immutable invoice
    corrections, the refund window, cash refunds against a cancellation and the
    settlement of corporate credit, with the bounds that hold whatever is
    recorded and the answers to replays. *)

From stdpp Require Import base list strings gmap relations pretty.
From Stdlib Require Import ZArith QArith Lia.
From S2P Require Import Prelude PayoutData Text BillingData Notifications Receipts.

#[local] Open Scope Z_scope.

(** ** Invoice corrections *)

Section Corrections.
Context `{Sha256}.

Definition correction_row_ok (c : invoice_correction) : bool :=
  (0 <? ic_sequence_number c)
  && (String.length (ic_currency c) =? 3)%nat
  && (0 <=? ic_net_amount c) && (0 <=? ic_tax_amount c) && (0 <? ic_gross_amount c)
  && (ic_gross_amount c =? ic_net_amount c + ic_tax_amount c).

Definition correction_row_fits (c : invoice_correction) : bool :=
  numeric_14_2 (ic_net_amount c) && numeric_14_2 (ic_tax_amount c) && numeric_14_2 (ic_gross_amount c)
  && (String.length (ic_correction_number c) <=? 96)%nat
  && (String.length (ic_correction_reference c) <=? 128)%nat.

Definition flush_correction (row : invoice_correction) (db : billing_store) : result billing_store :=
  raise_if (negb (correction_row_fits row)) DataError ;;
  raise_if (negb (correction_row_ok row)) (IntegrityError "ck_invoice_corrections") ;;
  raise_if (conflicts (fun c => Some (ic_invoice_id c, ic_sequence_number c)) row (bs_corrections db))
    (IntegrityError "uq_invoice_corrections_sequence") ;;
  raise_if (conflicts (fun c => Some (ic_correction_number c)) row (bs_corrections db))
    (IntegrityError "uq_invoice_corrections_number") ;;
  raise_if (conflicts (fun c => Some (ic_invoice_id c, ic_correction_reference c)) row (bs_corrections db))
    (IntegrityError "uq_invoice_corrections_reference") ;;
  mret (with_corrections (fun l => l ++ [row]) db).

Definition correction_fingerprint (correction_type : invoice_correction_type) (net tax : kobo)
    (reason : string) : string :=
  sha256_hexdigest (json_compact
    [("correction_type", json_string (correction_type_value correction_type));
     ("net_amount", json_string (money_str net));
     ("reason", json_string reason);
     ("tax_amount", json_string (money_str tax))]%string).

Record correction_request := CorrectionRequest {
  cr_invoice_id : uuid;
  cr_correction_reference : string;
  cr_correction_type : invoice_correction_type;
  cr_net_amount : amount_input;
  cr_tax_amount : amount_input;
  cr_reason : string
}.

Definition get_invoice (db : billing_store) (invoice_id : uuid) : option invoice :=
  find_row (fun i => bool_decide (in_id i = invoice_id)) (bs_invoices db).

(** The checks of a request: the invoice, the reference, the net and tax
    amounts and the reason. *)
Definition validate_correction (db : billing_store) (rq : correction_request) (actor_user_id : uuid)
    : result (invoice * string * kobo * kobo * string) :=
  require_active_admin db actor_user_id None ;;
  inv ← require_some (get_invoice db (cr_invoice_id rq)) (AppError "INVOICE_NOT_FOUND" 404);
  _campaign db (in_campaign_id inv) ;;
  let reference := strip (cr_correction_reference rq) in
  raise_if (negb (nonempty reference) || startswith (lower reference) "legacy:")
    (AppError "INVALID_CORRECTION_REFERENCE" 400) ;;
  let normalized_reason := strip (cr_reason rq) in
  net ← _money (cr_net_amount rq);
  tax ← _money (cr_tax_amount rq);
  raise_if ((net + tax <=? 0) || negb (nonempty normalized_reason))
    (AppError "INVALID_INVOICE_CORRECTION" 400) ;;
  mret (inv, reference, net, tax, normalized_reason).

Definition notes_total (t : invoice_correction_type) (rows : list invoice_correction) : kobo :=
  sum_by ic_gross_amount (List.filter (fun c => bool_decide (ic_correction_type c = t)) rows).

Definition find_correction (db : billing_store) (invoice_id : uuid) (reference : string)
    : option invoice_correction :=
  find_row (fun c => bool_decide (ic_invoice_id c = invoice_id)
                     && bool_decide (ic_correction_reference c = reference)) (bs_corrections db).

Definition new_correction (db : billing_store) (inv : invoice) (t : invoice_correction_type)
    (reference fingerprint reason : string) (net tax : kobo) (sequence : Z) (actor_user_id : uuid)
    (db_now : Z) : invoice_correction :=
  {| ic_id := uuid4 (ic_id <$> bs_corrections db);
     ic_invoice_id := in_id inv;
     ic_sequence_number := sequence;
     ic_correction_number :=
       ("COR-" +:+ default "None" (in_invoice_number inv) +:+ "-" +:+ zero_padded 3 (Z.to_N sequence))%string;
     ic_correction_reference := reference;
     ic_request_fingerprint := fingerprint;
     ic_correction_type := t;
     ic_currency := in_currency inv;
     ic_net_amount := net;
     ic_tax_amount := tax;
     ic_gross_amount := net + tax;
     ic_reason := reason;
     ic_created_by_user_id := actor_user_id;
     ic_created_at := db_now |}.

Definition record_invoice_correction (db : billing_store) (rq : correction_request)
    (actor_user_id : uuid) (db_now : Z) : result (invoice_correction * billing_store) :=
  v ← validate_correction db rq actor_user_id;
  let '(inv, reference, net, tax, reason) := v in
  let t := cr_correction_type rq in
  let fingerprint := correction_fingerprint t net tax reason in
  match find_correction db (in_id inv) reference with
  | Some existing =>
      if bool_decide (ic_request_fingerprint existing = fingerprint) then mret (existing, db)
      else Raise (AppError "INVOICE_CORRECTION_REFERENCE_CONFLICT" 409)
  | None =>
      raise_if (negb (bool_decide (in_status inv = INVOICE_ISSUED) || bool_decide (in_status inv = INVOICE_VOID)))
        (AppError "ISSUED_INVOICE_REQUIRED" 409) ;;
      let rows := invoice_corrections db (in_id inv) in
      raise_if (bool_decide (t = CREDIT_NOTE)
                && (in_gross_amount inv + notes_total DEBIT_NOTE rows
                    <? notes_total CREDIT_NOTE rows + (net + tax)))
        (AppError "INVOICE_CREDIT_EXCEEDS_OBLIGATION" 409) ;;
      let sequence := Z.of_nat (length rows) + 1 in
      let correction := new_correction db inv t reference fingerprint reason net tax sequence
                          actor_user_id db_now in
      db ← flush_correction correction db;
      mret (correction, add_audit_event (Some actor_user_id) "billing.invoice.corrected"
                          "invoice_correction" (ic_id correction) db)
  end.
End Corrections.

(** ** The refund window *)

(** The loop of [_historical_fully_funded_at]. *)
Fixpoint funded_at_loop (cumulative obligation : kobo) (allocations : list receipt_allocation) : option Z :=
  match allocations with
  | [] => None
  | allocation :: rest =>
      let cumulative := cumulative + ra_amount allocation in
      if obligation <=? cumulative then Some (ra_allocated_at allocation)
      else funded_at_loop cumulative obligation rest
  end.

Definition _historical_fully_funded_at (db : billing_store) (terms : commercial_terms) : result (option Z) :=
  obligation ← effective_invoice_obligation db (ct_id terms);
  if obligation =? 0 then mret (Some (ct_accepted_at terms))
  else
    mret (funded_at_loop 0 obligation
      (stable_sort (fun a b => (ra_allocated_at a <? ra_allocated_at b)
                               || (ra_allocated_at a =? ra_allocated_at b) && (ra_id a <=? ra_id b)%N)
         (List.filter (fun a => bool_decide (ra_commercial_terms_id a = ct_id terms)) (bs_allocations db)))).

Definition _refund_window (db : billing_store) (terms : commercial_terms)
    : result (option Z * option Z * option production_start) :=
  if bool_decide (ct_payment_class terms = APPROVED_CORPORATE_CREDIT) then mret (None, None, None)
  else
    let production :=
      find_row (fun p => bool_decide (ps_campaign_id p = ct_campaign_id terms)) (bs_productions db) in
    funded_at ← match (p ← production; ps_fully_funded_at p) with
                | Some at_ => Ok (Some at_)
                | None => _historical_fully_funded_at db terms
                end;
    match funded_at with
    | None => mret (None, None, None)
    | Some funded_at =>
        let standard_end := funded_at + ct_standard_production_wait_hours terms * hour in
        let eligibility_ends_at :=
          match production with
          | Some p => Z.min standard_end (ps_started_at p)
          | None => standard_end
          end in
        mret (Some funded_at, Some eligibility_ends_at, production)
    end.

(** ** Cash refunds *)

Definition _validate_refund_cancellation (cancellation : option campaign_cancellation)
    (terms : commercial_terms) : result campaign_cancellation :=
  cancellation ← require_some cancellation (AppError "REFUND_CANCELLATION_REQUIRED" 409);
  let mismatch := AppError "REFUND_CANCELLATION_MISMATCH" 409 in
  raise_if (negb (bool_decide (cc_commercial_terms_id cancellation = Some (ct_id terms)))
            || negb (bool_decide (cc_campaign_id cancellation = ct_campaign_id terms))
            || negb (bool_decide (cc_organization_id cancellation = ct_organization_id terms))
            || negb (bool_decide (cc_currency cancellation = ct_currency terms))) mismatch ;;
  raise_if (negb (bool_decide (cc_disposition cancellation = CASH_REFUND_DUE))
            || (cc_refundable_amount cancellation <=? 0))
    (AppError "REFUND_CANCELLATION_NOT_DUE" 409) ;;
  raise_if (bool_decide (cc_funding_authorized_at cancellation = None)
            || match cc_refund_eligibility_ends_at cancellation with
               | None => true
               | Some ends_at => ends_at <=? cc_cutoff_at cancellation
               end) mismatch ;;
  mret cancellation.

Record refund_request := RefundRequest {
  rf_commercial_terms_id : uuid;
  rf_receipt_id : uuid;
  rf_amount : amount_input;
  rf_settlement_provider : string;
  rf_external_reference : string;
  rf_reason : string
}.

(** The authority a refund is recorded under: the terms, their campaign's
    cancellation, the receipt, and the normalised request. *)
Record refund_authority := RefundAuthority {
  au_terms : commercial_terms;
  au_cancellation : option campaign_cancellation;
  au_receipt : payment_receipt;
  au_amount : kobo;
  au_provider : string;
  au_reference : string;
  au_reason : string
}.

Definition validate_refund (db : billing_store) (rq : refund_request) (actor_user_id : uuid)
    : result refund_authority :=
  require_active_admin db actor_user_id None ;;
  terms ← require_some (get_terms db (rf_commercial_terms_id rq)) (AppError "COMMERCIAL_TERMS_NOT_FOUND" 404);
  _campaign db (ct_campaign_id terms) ;;
  let cancellation :=
    find_row (fun c => bool_decide (cc_campaign_id c = ct_campaign_id terms)) (bs_cancellations db) in
  let missing := AppError "REFUND_AUTHORITY_NOT_FOUND" 404 in
  receipt ← require_some (get_receipt db (rf_receipt_id rq)) missing;
  raise_if (negb (bool_decide (pr_organization_id receipt = ct_organization_id terms))) missing ;;
  raise_if (bool_decide (ct_payment_class terms = APPROVED_CORPORATE_CREDIT))
    (AppError "CASH_REFUND_NOT_APPLICABLE" 409) ;;
  let provider := lower (strip (rf_settlement_provider rq)) in
  let reference := strip (rf_external_reference rq) in
  let normalized_reason := strip (rf_reason rq) in
  refund_amount ← _money (rf_amount rq);
  raise_if ((refund_amount =? 0)
            || negb (nonempty provider && nonempty reference && nonempty normalized_reason))
    (AppError "INVALID_REFUND_SETTLEMENT" 400) ;;
  mret (RefundAuthority terms cancellation receipt refund_amount provider reference normalized_reason).

(** [exact_match] *)
Definition refund_exact_match (au : refund_authority) (candidate : refund_settlement) : bool :=
  bool_decide (rs_commercial_terms_id candidate = ct_id (au_terms au))
  && bool_decide (rs_receipt_id candidate = Some (pr_id (au_receipt au)))
  && bool_decide (rs_cancellation_id candidate = cc_id <$> au_cancellation au)
  && (rs_amount candidate =? au_amount au)
  && bool_decide (rs_settlement_provider candidate = au_provider au)
  && bool_decide (rs_external_reference candidate = au_reference au)
  && bool_decide (rs_reason candidate = au_reason au).

Definition find_settlement (db : billing_store) (provider reference : string) : option refund_settlement :=
  find_row (fun s => bool_decide (rs_settlement_provider s = provider)
                     && bool_decide (rs_external_reference s = reference)) (bs_refunds db).

(** [coalesce(sum(amount), 0)] over the recorded refunds that satisfy [p]. *)
Definition refunded (db : billing_store) (p : refund_settlement -> bool) : kobo :=
  sum_by rs_amount
    (List.filter (fun s => p s && bool_decide (rs_disposition s = REFUND_RECORDED)) (bs_refunds db)).

Definition of_receipt (receipt_id : uuid) (s : refund_settlement) : bool :=
  bool_decide (rs_receipt_id s = Some receipt_id).
Definition of_allocation (receipt_id terms_id : uuid) (s : refund_settlement) : bool :=
  of_receipt receipt_id s && bool_decide (rs_commercial_terms_id s = terms_id).
Definition of_cancellation (cancellation_id : uuid) (s : refund_settlement) : bool :=
  bool_decide (rs_cancellation_id s = Some cancellation_id).

(** [refund_settlements] *)
Definition settlement_row_ok (s : refund_settlement) : bool :=
  (String.length (rs_currency s) =? 3)%nat
  && match rs_disposition s with
     | REFUND_RECORDED =>
         negb (bool_decide (rs_receipt_id s = None)) && (0 <? rs_amount s)
         && negb (bool_decide (rs_funding_authorized_at s = None))
         && negb (bool_decide (rs_eligibility_ends_at s = None))
     | CREDIT_SETTLEMENT_RECORDED =>
         bool_decide (rs_receipt_id s = None) && (rs_amount s =? 0)
         && bool_decide (rs_funding_authorized_at s = None) && bool_decide (rs_eligibility_ends_at s = None)
         && bool_decide (rs_cancellation_id s = None) && bool_decide (rs_eligibility_evaluated_at s = None)
     end
  && Bool.eqb (bool_decide (rs_cancellation_id s = None)) (bool_decide (rs_eligibility_evaluated_at s = None))
  && match rs_eligibility_evaluated_at s, rs_eligibility_ends_at s with
     | Some evaluated_at, Some ends_at => evaluated_at <? ends_at
     | _, _ => true
     end.

Definition settlement_row_fits (s : refund_settlement) : bool :=
  numeric_14_2 (rs_amount s)
  && (String.length (rs_settlement_provider s) <=? 64)%nat
  && (String.length (rs_external_reference s) <=? 255)%nat.

Definition flush_settlement (row : refund_settlement) (db : billing_store) : result billing_store :=
  raise_if (negb (settlement_row_fits row)) DataError ;;
  raise_if (negb (settlement_row_ok row)) (IntegrityError "ck_refund_settlements") ;;
  raise_if (conflicts (fun s => Some (rs_settlement_provider s, rs_external_reference s)) row (bs_refunds db))
    (IntegrityError "uq_refund_settlements_external_reference") ;;
  mret (with_refunds (fun l => l ++ [row]) db).

Definition settlement_reference_conflict : exn := AppError "REFUND_REFERENCE_CONFLICT" 409.

Definition new_refund (db : billing_store) (au : refund_authority) (cancellation : campaign_cancellation)
    (actor_user_id : uuid) (db_now : Z) : refund_settlement :=
  let production :=
    id ← cc_production_start_id cancellation;
    find_row (fun p => bool_decide (ps_id p = id)) (bs_productions db) in
  {| rs_id := uuid4 (rs_id <$> bs_refunds db);
     rs_commercial_terms_id := ct_id (au_terms au);
     rs_campaign_id := ct_campaign_id (au_terms au);
     rs_receipt_id := Some (pr_id (au_receipt au));
     rs_production_start_id := ps_id <$> production;
     rs_waiver_id := p ← production; ps_waiver_id p;
     rs_cancellation_id := Some (cc_id cancellation);
     rs_disposition := REFUND_RECORDED;
     rs_amount := au_amount au;
     rs_currency := ct_currency (au_terms au);
     rs_funding_authorized_at := cc_funding_authorized_at cancellation;
     rs_eligibility_ends_at := cc_refund_eligibility_ends_at cancellation;
     rs_eligibility_evaluated_at := Some (cc_cutoff_at cancellation);
     rs_settlement_provider := au_provider au;
     rs_external_reference := au_reference au;
     rs_reason := au_reason au;
     rs_recorded_by_user_id := actor_user_id;
     rs_recorded_at := db_now |}.

(** The guards of a refund that is not on file: the cancellation that
    authorises it, and the three ceilings. *)
Definition authorize_refund (db : billing_store) (au : refund_authority) : result campaign_cancellation :=
  cancellation ← _validate_refund_cancellation (au_cancellation au) (au_terms au);
  let receipt_id := pr_id (au_receipt au) in
  let terms_id := ct_id (au_terms au) in
  raise_if (negb (bool_decide (_receipt_status db receipt_id = Some REVERSED)))
    (AppError "REVERSED_RECEIPT_REQUIRED" 409) ;;
  allocation ← require_some (find_allocation db receipt_id terms_id) (AppError "REFUND_ALLOCATION_REQUIRED" 409);
  raise_if (ra_amount allocation <? refunded db (of_allocation receipt_id terms_id) + au_amount au)
    (AppError "REFUND_EXCEEDS_CASH_AUTHORITY" 409) ;;
  raise_if (pr_amount (au_receipt au) <? refunded db (of_receipt receipt_id) + au_amount au)
    (AppError "REFUND_EXCEEDS_RECEIPT_TOTAL" 409) ;;
  raise_if (cc_refundable_amount cancellation
            <? refunded db (of_cancellation (cc_id cancellation)) + au_amount au)
    (AppError "REFUND_EXCEEDS_CANCELLATION_AUTHORITY" 409) ;;
  raise_if (bool_decide (cc_funding_authorized_at cancellation = None)
            || bool_decide (cc_refund_eligibility_ends_at cancellation = None)) AssertionError ;;
  mret cancellation.

(** [arrived] are settlements other transactions commit between the lookup and
    the insertion. *)
Definition record_refund_settlement (arrived : list refund_settlement) (db : billing_store)
    (rq : refund_request) (actor_user_id : uuid) (db_now : Z)
    : result (refund_settlement * billing_store) :=
  au ← validate_refund db rq actor_user_id;
  match find_settlement db (au_provider au) (au_reference au) with
  | Some existing =>
      if refund_exact_match au existing then mret (existing, db) else Raise settlement_reference_conflict
  | None =>
      cancellation ← authorize_refund db au;
      let settlement := new_refund db au cancellation actor_user_id db_now in
      let db := with_refunds (fun l => l ++ arrived) db in
      match flush_settlement settlement db with
      | Raise (IntegrityError name) =>
          match find_settlement db (au_provider au) (au_reference au) with
          | Some concurrent =>
              if refund_exact_match au concurrent then mret (concurrent, db)
              else Raise settlement_reference_conflict
          | None => Raise (IntegrityError name)
          end
      | Raise exc => Raise exc
      | Ok db =>
          mret (settlement, add_audit_event (Some actor_user_id) "billing.refund.recorded"
                              "refund_settlement" (rs_id settlement) db)
      end
  end.

(** ** Corporate credit *)

Record credit_settlement_request := CreditSettlementRequest {
  cs_commercial_terms_id : uuid;
  cs_settlement_provider : string;
  cs_external_reference : string;
  cs_reason : string
}.

Definition new_credit_settlement (db : billing_store) (terms : commercial_terms)
    (provider reference reason : string) (actor_user_id : uuid) (db_now : Z) : refund_settlement :=
  {| rs_id := uuid4 (rs_id <$> bs_refunds db);
     rs_commercial_terms_id := ct_id terms;
     rs_campaign_id := ct_campaign_id terms;
     rs_receipt_id := None;
     rs_production_start_id := None;
     rs_waiver_id := None;
     rs_cancellation_id := None;
     rs_disposition := CREDIT_SETTLEMENT_RECORDED;
     rs_amount := 0;
     rs_currency := ct_currency terms;
     rs_funding_authorized_at := None;
     rs_eligibility_ends_at := None;
     rs_eligibility_evaluated_at := None;
     rs_settlement_provider := provider;
     rs_external_reference := reference;
     rs_reason := reason;
     rs_recorded_by_user_id := actor_user_id;
     rs_recorded_at := db_now |}.

Definition record_credit_contract_settlement (db : billing_store) (rq : credit_settlement_request)
    (actor_user_id : uuid) (db_now : Z) : result (refund_settlement * billing_store) :=
  require_active_admin db actor_user_id None ;;
  let required := AppError "APPROVED_CREDIT_TERMS_REQUIRED" 409 in
  terms ← require_some (get_terms db (cs_commercial_terms_id rq)) required;
  _campaign db (ct_campaign_id terms) ;;
  raise_if (negb (bool_decide (ct_payment_class terms = APPROVED_CORPORATE_CREDIT))) required ;;
  let provider := lower (strip (cs_settlement_provider rq)) in
  let reference := strip (cs_external_reference rq) in
  let normalized_reason := strip (cs_reason rq) in
  raise_if (negb (nonempty provider && nonempty reference && nonempty normalized_reason))
    (AppError "INVALID_CREDIT_SETTLEMENT" 400) ;;
  match find_settlement db provider reference with
  | Some existing =>
      if bool_decide (rs_commercial_terms_id existing = ct_id terms)
         && bool_decide (rs_disposition existing = CREDIT_SETTLEMENT_RECORDED)
      then mret (existing, db)
      else Raise (AppError "SETTLEMENT_REFERENCE_CONFLICT" 409)
  | None =>
      let settlement := new_credit_settlement db terms provider reference normalized_reason
                          actor_user_id db_now in
      db ← flush_settlement settlement db;
      mret (settlement, add_audit_event (Some actor_user_id) "billing.credit_settlement.recorded"
                          "refund_settlement" (rs_id settlement) db)
  end.

(** ** The refund books *)

(** What the settlement tables promise: every cash refund is positive and of
    allocated cash of a reversed receipt, and the refunds of a receipt, of an
    allocation and of a cancellation stay within it. *)
Record refund_books (db : billing_store) : Prop := {
  rb_cancellation_ids : NoDup (cc_id <$> bs_cancellations db);
  rb_rows : Forall (fun s => rs_disposition s = REFUND_RECORDED ->
      0 < rs_amount s /\ exists a, a ∈ bs_allocations db /\ rs_receipt_id s = Some (ra_receipt_id a)
        /\ rs_commercial_terms_id s = ra_commercial_terms_id a
        /\ REVERSED ∈ history db (ra_receipt_id a)) (bs_refunds db);
  rb_receipts : Forall (fun r => refunded db (of_receipt (pr_id r)) <= pr_amount r) (bs_receipts db);
  rb_allocations :
    Forall (fun a => refunded db (of_allocation (ra_receipt_id a) (ra_commercial_terms_id a)) <= ra_amount a)
      (bs_allocations db);
  rb_cancellations :
    Forall (fun c => refunded db (of_cancellation (cc_id c)) <= cc_refundable_amount c)
      (bs_cancellations db)
}.

Lemma refunded_none db p :
  (forall s, s ∈ bs_refunds db -> p s = true -> rs_disposition s = REFUND_RECORDED -> False) ->
  refunded db p = 0.
Proof.
  intros Hnone. unfold refunded. rewrite filter_all_false; [done|].
  intros s Hs. apply not_true_is_false. intros Hp. bool_prop. eauto.
Qed.

Lemma refunded_snoc db s p :
  refunded (with_refunds (fun l => l ++ [s]) db) p
  = refunded db p + (if p s && bool_decide (rs_disposition s = REFUND_RECORDED) then rs_amount s else 0).
Proof.
  unfold refunded. cbn [bs_refunds with_refunds]. rewrite List.filter_app, sum_by_app. cbn [List.filter].
  destruct (p s && _); unfold sum_by; cbn; lia.
Qed.

(** In an append-only table with unique keys, a row whose key was already
    there is an old row. *)
Lemma prefix_key_old {A K} (key : A -> K) l l' x y :
  l `prefix_of` l' -> NoDup (key <$> l') -> x ∈ l' -> y ∈ l -> key x = key y -> x ∈ l.
Proof.
  intros [k ->] Hnd Hx Hy Hkey.
  assert (x = y) as ->; [|done]. eapply nodup_key_inj; [exact Hnd|done| |done].
  apply elem_of_app. by left.
Qed.

Lemma history_prefix db db' rid s :
  bs_receipt_events db `prefix_of` bs_receipt_events db' -> s ∈ history db rid -> s ∈ history db' rid.
Proof.
  intros [k Hk] Hs. unfold history, receipt_events in *. rewrite Hk, List.filter_app, fmap_app.
  apply elem_of_app. by left.
Qed.

(** The receipt services keep the refund books: what they add was not
    refunded yet. *)
Lemma refund_books_extend db db' :
  cash_books db -> cash_books db' -> cash_log_extends db db' -> other_tables db' = other_tables db ->
  refund_books db -> refund_books db'.
Proof.
  intros Hcb Hcb' (Hr & He & Ha) [= Hf _ _ Hrf _] [H1 H2 H3 H4 H5].
  assert (Href : forall p, refunded db' p = refunded db p) by (intros p; unfold refunded; by rewrite Hrf).
  rewrite Forall_forall in H2. rewrite Forall_forall in H3. rewrite Forall_forall in H4. pose proof (cb_allocations _ Hcb) as Hal. rewrite Forall_forall in Hal.
  split.
  - by rewrite Hf.
  - rewrite Hrf. apply Forall_forall. intros s Hs Hd. destruct (H2 s Hs Hd) as (Hpos & a & Hin & E1 & E2 & Hh).
    split; [done|]. exists a. split; [destruct Ha as [k ->]; apply elem_of_app; by left|].
    split; [done|]. split; [done|]. by eapply history_prefix.
  - apply Forall_forall. intros r Hin. rewrite Href.
    destruct (decide (r ∈ bs_receipts db)) as [Hold|Hnew]; [by apply H3|].
    pose proof (cb_allocated _ Hcb') as Hpos. rewrite Forall_forall in Hpos. specialize (Hpos r Hin).
    rewrite refunded_none; [etrans; [|exact Hpos]; apply sum_by_nonneg|].
    + intros a Haa. apply list_elem_of_In, filter_In in Haa as [Haa _]. apply list_elem_of_In in Haa.
      pose proof (cb_allocations _ Hcb') as Hp. rewrite Forall_forall in Hp. destruct (Hp a Haa). lia.
    + intros s Hs Hp Hd. destruct (H2 s Hs Hd) as (_ & a & Haa & E1 & _). unfold of_receipt in Hp. bool_prop.
      destruct (Hal a Haa) as (_ & Hfk & _). apply list_elem_of_fmap in Hfk as (r0 & Hid & Hr0).
      apply Hnew. eapply (prefix_key_old pr_id); [exact Hr|apply (cb_receipt_ids _ Hcb')|done|exact Hr0|congruence].
  - apply Forall_forall. intros a Hin. rewrite Href.
    destruct (decide (a ∈ bs_allocations db)) as [Hold|Hnew]; [by apply H4|].
    pose proof (cb_allocations _ Hcb') as Hp. rewrite Forall_forall in Hp. destruct (Hp a Hin) as [Hpos _].
    rewrite refunded_none; [lia|].
    intros s Hs Hm Hd. destruct (H2 s Hs Hd) as (_ & a0 & Ha0 & E1 & E2 & _).
    unfold of_allocation, of_receipt in Hm. bool_prop. apply Hnew.
    eapply (prefix_key_old (fun a => (ra_receipt_id a, ra_commercial_terms_id a)));
      [exact Ha|apply (cb_allocation_keys _ Hcb')|done|exact Ha0|congruence].
  - rewrite Hf. eapply Forall_impl; [exact H5|]. intros c Hc. by rewrite Href.
Qed.

Lemma with_no_refunds db : with_refunds (fun l => l ++ []) db = db.
Proof. destruct db. unfold with_refunds. cbn. by rewrite app_nil_r. Qed.

Lemma flush_settlement_spec s db db' :
  flush_settlement s db = Ok db' ->
  settlement_row_ok s = true /\ db' = with_refunds (fun l => l ++ [s]) db.
Proof.
  unfold flush_settlement. intros Hrun. ok_step Hrun.
  ok_step Hrun as ? Hok. apply raise_if_Ok, negb_false_iff in Hok.
  ok_step Hrun. by injection Hrun as <-.
Qed.

Lemma refund_exact_match_reference au s :
  refund_exact_match au s = true ->
  rs_settlement_provider s = au_provider au /\ rs_external_reference s = au_reference au.
Proof. unfold refund_exact_match. intros Hm. by bool_prop. Qed.

(** Recording a refund answers the settlement on file or adds an authorised
    one. *)
Lemma record_refund_effect db rq actor now s db' :
  record_refund_settlement [] db rq actor now = Ok (s, db') ->
  exists au, validate_refund db rq actor = Ok au /\ refund_exact_match au s = true
  /\ ((db' = db /\ find_settlement db (au_provider au) (au_reference au) = Some s)
      \/ (find_settlement db (au_provider au) (au_reference au) = None
          /\ exists c, authorize_refund db au = Ok c /\ s = new_refund db au c actor now
          /\ settlement_row_ok s = true
          /\ db' = add_audit_event (Some actor) "billing.refund.recorded" "refund_settlement" (rs_id s)
                     (with_refunds (fun l => l ++ [s]) db))).
Proof.
  unfold record_refund_settlement. intros Hrun. ok_step Hrun as au Hau.
  exists au. split; [done|]. destruct (find_settlement db _ _) as [e|] eqn:He.
  { destruct (refund_exact_match au e) eqn:Hm; [|done]. injection Hrun as <- <-. split; [done|]. by left. }
  ok_step Hrun as c Hc. cbn zeta in Hrun. rewrite with_no_refunds in Hrun.
  destruct (flush_settlement _ db) as [db1|[]] eqn:Hfl; rewrite ?He in Hrun; try done.
  injection Hrun as <- <-. apply flush_settlement_spec in Hfl as [Hok ->]. split.
  - unfold authorize_refund in Hc. ok_step Hc as c' Hv.
    assert (c' = c) as -> by (cbn zeta in Hc; repeat (ok_step Hc); by injection Hc).
    unfold _validate_refund_cancellation in Hv. ok_step Hv as c' Hs.
    apply require_some_Ok in Hs. cbn zeta in Hv. repeat (ok_step Hv). injection Hv as ->.
    unfold refund_exact_match. cbn. rewrite Hs. cbn. by rewrite !bool_decide_eq_true_2, Z.eqb_refl.
  - right. split; [done|]. by exists c.
Qed.

(** What an authorised refund rests on. *)
Lemma authorize_refund_spec db au c :
  authorize_refund db au = Ok c ->
  au_cancellation au = Some c
  /\ _receipt_status db (pr_id (au_receipt au)) = Some REVERSED
  /\ (exists a, find_allocation db (pr_id (au_receipt au)) (ct_id (au_terms au)) = Some a
      /\ refunded db (of_allocation (pr_id (au_receipt au)) (ct_id (au_terms au))) + au_amount au <= ra_amount a)
  /\ refunded db (of_receipt (pr_id (au_receipt au))) + au_amount au <= pr_amount (au_receipt au)
  /\ refunded db (of_cancellation (cc_id c)) + au_amount au <= cc_refundable_amount c.
Proof.
  unfold authorize_refund. intros Hrun. ok_step Hrun as c' Hv. cbn zeta in Hrun.
  ok_step Hrun as ? Hs. apply raise_if_Ok in Hs. bool_prop.
  ok_step Hrun as a Ha. apply require_some_Ok in Ha.
  ok_step Hrun as ? H1. apply raise_if_Ok in H1.
  ok_step Hrun as ? H2. apply raise_if_Ok in H2.
  ok_step Hrun as ? H3. apply raise_if_Ok in H3. bool_prop.
  ok_step Hrun. injection Hrun as <-.
  unfold _validate_refund_cancellation in Hv. ok_step Hv as c Hc.
  apply require_some_Ok in Hc. cbn zeta in Hv. repeat (ok_step Hv). injection Hv as <-.
  split; [done|]. split; [done|]. split; [by exists a|]. done.
Qed.

Lemma validate_refund_spec db rq actor au :
  validate_refund db rq actor = Ok au ->
  get_receipt db (rf_receipt_id rq) = Some (au_receipt au)
  /\ au_cancellation au
     = find_row (fun c => bool_decide (cc_campaign_id c = ct_campaign_id (au_terms au))) (bs_cancellations db)
  /\ 0 < au_amount au.
Proof.
  unfold validate_refund. intros Hrun. ok_step Hrun.
  ok_step Hrun as t Ht. ok_step Hrun. cbn zeta in Hrun.
  ok_step Hrun as r Hr. apply require_some_Ok in Hr.
  do 2 ok_step Hrun.
  ok_step Hrun as k Hk. ok_step Hrun as ? Hk0.
  apply raise_if_Ok in Hk0. bool_prop. injection Hrun as <-. cbn.
  apply _money_Ok in Hk. split; [|split; [done|lia]]. by rewrite Hr.
Qed.

Lemma refund_keeps_books db rq actor now s db' :
  cash_books db -> refund_books db ->
  record_refund_settlement [] db rq actor now = Ok (s, db') -> refund_books db'.
Proof.
  intros Hcb Hrb (au & Hv & _ & [[-> _]|(_ & c & Hauth & -> & _ & ->)])%record_refund_effect; [done|].
  apply validate_refund_spec in Hv as (Hg & Hcanc & Hpos).
  apply authorize_refund_spec in Hauth as (Hc & Hs & (a & Ha & B1) & B2 & B3).
  rewrite Hc in Hcanc. symmetry in Hcanc. apply find_row_Some in Hcanc as [Hcin _].
  apply find_row_Some in Ha as [Hain Hak]. bool_prop.
  pose proof (get_receipt_id _ _ _ Hg) as Hid. pose proof Hg as [Hrin _]%get_receipt_Some.
  rewrite <- Hid in Hg. destruct (receipt_status_of _ _ _ Hcb Hg) as [Hh Hl]. rewrite Hs in Hl. symmetry in Hl.
  set (s := new_refund db au c actor now) in *.
  destruct Hrb as [H1 H2 H3 H4 H5]. rewrite Forall_forall in H3. rewrite Forall_forall in H4. rewrite Forall_forall in H5.
  split; cbn [bs_facts bs_refunds bs_receipts bs_allocations with_refunds add_audit_event with_audit].
  - done.
  - apply Forall_app. split; [exact H2|]. apply Forall_singleton. intros _. split; [exact Hpos|].
    exists a. split; [done|]. split; [by cbn; f_equal|]. split; [done|].
    assert (Hra : ra_receipt_id a = pr_id (au_receipt au)) by done.
    rewrite Hra. change (REVERSED ∈ history db (pr_id (au_receipt au))).
    rewrite (last_reversed _ Hh Hl). set_solver.
  - apply Forall_forall. intros r Hr. etrans; [apply Z.eq_le_incl, refunded_snoc|].
    unfold of_receipt. cbn. case_bool_decide as Heq; [|specialize (H3 r Hr); unfold of_receipt in H3; cbn; lia].
    injection Heq as Heq. cbn.
    assert (r = au_receipt au) as -> by (eapply (nodup_key_inj pr_id); [apply (cb_receipt_ids _ Hcb)|done..]). exact B2.
  - apply Forall_forall. intros a' Ha'. etrans; [apply Z.eq_le_incl, refunded_snoc|].
    destruct (of_allocation (ra_receipt_id a') (ra_commercial_terms_id a') s) eqn:Heq;
      [|specialize (H4 a' Ha'); cbn; lia].
    unfold of_allocation, of_receipt in Heq. apply andb_true_iff in Heq as [E1 E2].
    apply bool_decide_eq_true in E1, E2. injection E1 as E1. cbn in E2.
    assert (a' = a) as ->.
    { eapply (nodup_key_inj (fun a => (ra_receipt_id a, ra_commercial_terms_id a)));
        [apply (cb_allocation_keys _ Hcb)|done|done|congruence]. }
    rewrite <- E1, <- E2. cbn. exact B1.
  - apply Forall_forall. intros c' Hc'. etrans; [apply Z.eq_le_incl, refunded_snoc|].
    unfold of_cancellation. cbn. case_bool_decide as Heq; [|specialize (H5 c' Hc'); unfold of_cancellation in H5; cbn; lia].
    injection Heq as Heq. cbn. assert (c' = c) as -> by (by eapply (nodup_key_inj cc_id)). exact B3.
Qed.

Lemma refund_books_frame db db' :
  cash_tables db' = cash_tables db -> bs_facts db' = bs_facts db -> bs_refunds db' = bs_refunds db ->
  refund_books db -> refund_books db'.
Proof.
  intros [= Hr He Ha] Hf Hrf [H1 H2 H3 H4 H5].
  split; unfold refunded, history, receipt_events in *; rewrite ?Hr, ?He, ?Ha, ?Hf, ?Hrf; assumption.
Qed.

Lemma record_credit_effect db rq actor now s db' :
  record_credit_contract_settlement db rq actor now = Ok (s, db') ->
  rs_disposition s = CREDIT_SETTLEMENT_RECORDED
  /\ (db' = db \/ db' = add_audit_event (Some actor) "billing.credit_settlement.recorded"
                          "refund_settlement" (rs_id s) (with_refunds (fun l => l ++ [s]) db)).
Proof.
  unfold record_credit_contract_settlement. intros Hrun. ok_step Hrun.
  cbn zeta in Hrun. ok_step Hrun as t _.
  do 3 ok_step Hrun.
  destruct (find_settlement _ _ _) as [e|].
  - destruct (_ && _) eqn:Hm; [|done]. injection Hrun as <- <-. bool_prop. split; [done|by left].
  - ok_step Hrun as db1 Hfl. injection Hrun as <- <-.
    apply flush_settlement_spec in Hfl as [_ ->]. split; [done|by right].
Qed.

Lemma credit_keeps_books db rq actor now s db' :
  refund_books db -> record_credit_contract_settlement db rq actor now = Ok (s, db') -> refund_books db'.
Proof.
  intros Hrb [Hd [->| ->]]%record_credit_effect; [done|].
  assert (Hsame : forall p, refunded (with_refunds (fun l => l ++ [s]) db) p = refunded db p).
  { intros p. rewrite refunded_snoc, Hd. rewrite (bool_decide_eq_false_2) by done.
    rewrite andb_false_r. lia. }
  apply (refund_books_frame (with_refunds (fun l => l ++ [s]) db)); [done..|].
  destruct Hrb as [H1 H2 H3 H4 H5]. split; cbn [bs_facts bs_refunds bs_receipts bs_allocations with_refunds].
  - done.
  - apply Forall_app. split; [exact H2|]. apply Forall_singleton. by rewrite Hd.
  - eapply Forall_impl; [exact H3|]. intros r Hr. by rewrite Hsame.
  - eapply Forall_impl; [exact H4|]. intros r Hr. by rewrite Hsame.
  - eapply Forall_impl; [exact H5|]. intros r Hr. by rewrite Hsame.
Qed.

(** ** The correction books *)

Lemma signed_notes rows :
  sum_by signed_correction rows = notes_total DEBIT_NOTE rows - notes_total CREDIT_NOTE rows.
Proof.
  unfold notes_total. induction rows as [|c rows IH]; [done|]. rewrite sum_by_cons, IH. cbn [List.filter].
  unfold signed_correction at 1. destruct (ic_correction_type c);
    [rewrite (bool_decide_eq_false_2 (CREDIT_NOTE = DEBIT_NOTE)), (bool_decide_eq_true_2 (CREDIT_NOTE = CREDIT_NOTE)) by done
    |rewrite (bool_decide_eq_true_2 (DEBIT_NOTE = DEBIT_NOTE)), (bool_decide_eq_false_2 (DEBIT_NOTE = CREDIT_NOTE)) by done];
    rewrite sum_by_cons; lia.
Qed.

(** What the corrections of an invoice promise: they are numbered 1, 2, ...
    in the order recorded, each is positive and itemised, and together they
    never take the obligation below zero. *)
Record correction_books (db : billing_store) : Prop := {
  kb_invoice_ids : NoDup (in_id <$> bs_invoices db);
  kb_rows : Forall (fun c => 0 < ic_gross_amount c
                             /\ ic_gross_amount c = ic_net_amount c + ic_tax_amount c) (bs_corrections db);
  kb_numbers : Forall (fun inv =>
      ic_sequence_number <$> invoice_corrections db (in_id inv)
      = Z.of_nat <$> seq 1 (length (invoice_corrections db (in_id inv)))) (bs_invoices db);
  kb_obligations : Forall (fun inv =>
      0 <= in_gross_amount inv + sum_by signed_correction (invoice_corrections db (in_id inv)))
    (bs_invoices db)
}.

Section Reachable.
Context `{Sha256}.

Lemma record_correction_effect db rq actor now c db' :
  record_invoice_correction db rq actor now = Ok (c, db') ->
  exists inv reference net tax reason,
    validate_correction db rq actor = Ok (inv, reference, net, tax, reason)
    /\ get_invoice db (cr_invoice_id rq) = Some inv /\ 0 < net + tax
    /\ ic_request_fingerprint c = correction_fingerprint (cr_correction_type rq) net tax reason
    /\ ((db' = db /\ find_correction db (in_id inv) reference = Some c)
        \/ (find_correction db (in_id inv) reference = None
            /\ ic_correction_type c = cr_correction_type rq /\ ic_invoice_id c = in_id inv
            /\ ic_correction_reference c = reference
            /\ ic_net_amount c = net /\ ic_tax_amount c = tax /\ ic_gross_amount c = net + tax
            /\ ic_sequence_number c = Z.of_nat (length (invoice_corrections db (in_id inv))) + 1
            /\ (ic_correction_type c = CREDIT_NOTE ->
                ic_gross_amount c
                <= in_gross_amount inv + sum_by signed_correction (invoice_corrections db (in_id inv)))
            /\ db' = add_audit_event (Some actor) "billing.invoice.corrected" "invoice_correction" (ic_id c)
                       (with_corrections (fun l => l ++ [c]) db))).
Proof.
  unfold record_invoice_correction. intros Hrun.
  ok_step Hrun as [[[[inv reference] net] tax] reason] Hv.
  exists inv, reference, net, tax, reason. split; [done|].
  assert (Hg : get_invoice db (cr_invoice_id rq) = Some inv /\ 0 < net + tax).
  { unfold validate_correction in Hv. ok_step Hv.
    ok_step Hv as i Hi. apply require_some_Ok in Hi. ok_step Hv.
    cbn zeta in Hv. ok_step Hv. ok_step Hv as n _.
    ok_step Hv as t _. ok_step Hv as ? Hp.
    apply raise_if_Ok in Hp. bool_prop. injection Hv as <- <- <- <- <-. by split. }
  destruct Hg as [Hg Hpos]. split; [done|]. split; [done|].
  destruct (find_correction db (in_id inv) reference) as [e|] eqn:He.
  { case_bool_decide; [|done]. injection Hrun as <- <-. split; [done|]. by left. }
  ok_step Hrun. cbn zeta in Hrun.
  ok_step Hrun as ? Hcap. apply raise_if_Ok in Hcap.
  ok_step Hrun as db1 Hfl. injection Hrun as <- <-.
  unfold flush_correction in Hfl. do 5 ok_step Hfl. injection Hfl as <-.
  split; [done|]. right. do 8 (split; [done|]). split; [|done].
  cbn. intros Ht. rewrite Ht, bool_decide_eq_true_2 in Hcap by done. cbn in Hcap.
  apply Z.ltb_ge in Hcap. rewrite signed_notes. lia.
Qed.

Lemma invoice_corrections_snoc db c id :
  invoice_corrections (with_corrections (fun l => l ++ [c]) db) id
  = invoice_corrections db id ++ (if bool_decide (ic_invoice_id c = id) then [c] else []).
Proof. unfold invoice_corrections. cbn. by rewrite List.filter_app. Qed.

Lemma correction_keeps_books db rq actor now c db' :
  correction_books db -> record_invoice_correction db rq actor now = Ok (c, db') -> correction_books db'.
Proof.
  intros [K1 K2 K3 K4] (inv & reference & net & tax & reason & _ & Hg & Hpos & _ & Hcase)%record_correction_effect.
  destruct Hcase as [[-> _]|(_ & Ht & Hi & _ & En & Et & Eg & Es & Hcap & ->)]; [done|].
  apply find_row_Some in Hg as [Hin _]. rewrite Forall_forall in K3. rewrite Forall_forall in K4.
  assert (Hsn : forall id, invoice_corrections (add_audit_event (Some actor) "billing.invoice.corrected"
      "invoice_correction" (ic_id c) (with_corrections (fun l => l ++ [c]) db)) id
      = invoice_corrections db id ++ (if bool_decide (ic_invoice_id c = id) then [c] else []))
    by apply invoice_corrections_snoc.
  split; [exact K1| | |].
  - apply Forall_app. split; [exact K2|]. apply Forall_singleton. split; [by rewrite Eg|congruence].
  - apply Forall_forall. intros i Hii. rewrite Hsn. specialize (K3 i Hii). case_bool_decide as Heq.
    + assert (i = inv) as -> by (eapply (nodup_key_inj in_id); [exact K1|done|done|congruence]).
      rewrite fmap_app, length_app, seq_app, fmap_app, K3. cbn. f_equal. f_equal. rewrite Es. lia.
    + by rewrite app_nil_r.
  - apply Forall_forall. intros i Hii. rewrite Hsn, sum_by_app. specialize (K4 i Hii). case_bool_decide as Heq.
    + assert (i = inv) as -> by (eapply (nodup_key_inj in_id); [exact K1|done|done|congruence]).
      rewrite sum_by_cons, sum_by_nil. unfold signed_correction at 2.
      destruct (ic_correction_type c) eqn:Htc; [specialize (Hcap eq_refl)|]; lia.
    + rewrite sum_by_nil. lia.
Qed.

(** One successful call of a receipt or settlement service. *)
Inductive billing_step (db : billing_store) : billing_store -> Prop :=
| step_cash db' : cash_step db db' -> billing_step db db'
| step_correction rq actor now c db' :
    record_invoice_correction db rq actor now = Ok (c, db') -> billing_step db db'
| step_refund rq actor now s db' :
    record_refund_settlement [] db rq actor now = Ok (s, db') -> billing_step db db'
| step_credit rq actor now s db' :
    record_credit_contract_settlement db rq actor now = Ok (s, db') -> billing_step db db'.

Lemma cash_step_others db db' : cash_step db db' -> other_tables db' = other_tables db.
Proof.
  destruct 1 as [? ? ? ? ? H1|? ? ? ? ? ? ? H1|? ? ? ? ? ? ? ? ? H1|? ? ? ? ? ? H1|? ? ? ? ? ? H1].
  - by apply record_others in H1.
  - by apply confirm_others in H1.
  - by apply allocate_others in H1.
  - by apply reverse_others in H1.
  - unfold process_manual_bank_transfer in H1. ok_step H1.
    ok_step H1 as [r db1] A1. ok_step H1 as [m db2] A2.
    apply record_others in A1. apply confirm_others in A2.
    destruct m; cbn [negb] in H1; [|injection H1 as <- <-; congruence].
    ok_step H1 as [a db3] A3. injection H1 as <- <-. apply allocate_others in A3. cbn. congruence.
Qed.

Lemma billing_step_books db db' :
  billing_step db db' -> cash_books db -> refund_books db -> cash_books db' /\ refund_books db'.
Proof.
  destruct 1 as [db' Hs|? ? ? ? ? Hs|? ? ? ? ? Hs|? ? ? ? ? Hs]; intros Hcb Hrb.
  - destruct (cash_step_keeps_books _ _ Hs) as [Hk He]. split; [auto|].
    eapply refund_books_extend; eauto. by apply cash_step_others.
  - apply record_correction_effect in Hs
      as (? & ? & ? & ? & ? & _ & _ & _ & _ & [[-> _]|(_ & _ & _ & _ & _ & _ & _ & _ & _ & ->)]); [done|].
    split; [by apply (cash_books_frame db)|by apply (refund_books_frame db)].
  - split; [|by eapply refund_keeps_books].
    apply record_refund_effect in Hs as (? & _ & _ & [[-> _]|(_ & ? & _ & _ & _ & ->)]); [done|].
    by apply (cash_books_frame db).
  - split; [|by eapply credit_keeps_books].
    apply record_credit_effect in Hs as [_ [->| ->]]; [done|]. by apply (cash_books_frame db).
Qed.

(** C18: whatever receipts, corrections and settlements are recorded, in any
    order, the cash refunded for a receipt never exceeds the receipt, for an
    allocation never the allocated amount, and for a campaign's cancellation
    never its frozen refundable amount; and only reversed, allocated cash is
    refunded. *)
Theorem refund_books_reachable db db' :
  cash_books db -> refund_books db -> rtc billing_step db db' -> cash_books db' /\ refund_books db'.
Proof.
  intros Hcb Hrb Hsteps. induction Hsteps as [|db db1 db2 Hs _ IH]; [done|].
  destruct (billing_step_books _ _ Hs Hcb Hrb). auto.
Qed.

Lemma correction_books_frame db db' :
  bs_facts db' = bs_facts db -> bs_corrections db' = bs_corrections db ->
  correction_books db -> correction_books db'.
Proof.
  intros Hf Hc [K1 K2 K3 K4]. split; unfold invoice_corrections in *; rewrite ?Hf, ?Hc; assumption.
Qed.

Lemma billing_step_corrections db db' :
  billing_step db db' -> correction_books db -> correction_books db'.
Proof.
  destruct 1 as [db' Hs|? ? ? ? ? Hs|? ? ? ? ? Hs|? ? ? ? ? Hs]; intros Hk.
  - apply cash_step_others in Hs as [= Hf _ Hc _ _]. by apply (correction_books_frame db).
  - by eapply correction_keeps_books.
  - apply record_refund_effect in Hs as (? & _ & _ & [[-> _]|(_ & ? & _ & _ & _ & ->)]); [done|].
    by apply (correction_books_frame db).
  - apply record_credit_effect in Hs as [_ [->| ->]]; [done|]. by apply (correction_books_frame db).
Qed.

(** an invoice's corrections are numbered without gaps and the obligation
    they leave is never negative, however many credit and debit notes are
    recorded between the other billing operations. *)
Theorem obligation_never_negative db db' tid terms :
  correction_books db -> rtc billing_step db db' ->
  get_terms db' tid = Some terms -> 0 <= ct_gross_amount terms ->
  correction_books db' /\ exists obligation,
    effective_invoice_obligation db' tid = Ok obligation /\ 0 <= obligation.
Proof.
  intros Hk Hsteps Ht Hgross. assert (Hk' : correction_books db').
  { clear Ht. induction Hsteps as [|db db1 db2 Hs _ IH]; [done|]. eauto using billing_step_corrections. }
  split; [done|]. unfold effective_invoice_obligation. rewrite Ht. cbn [require_some mbind result_bind].
  destruct (invoice_for_terms db' tid) as [inv|] eqn:Hi; [|by exists (ct_gross_amount terms)].
  eexists. split; [done|]. pose proof (kb_obligations _ Hk') as Ho. rewrite Forall_forall in Ho.
  apply Ho. by apply find_row_Some in Hi as [? _].
Qed.

(** ** Replays *)

(** What no billing operation changes or removes. *)
Definition billing_log_extends (db db' : billing_store) : Prop :=
  bs_facts db' = bs_facts db /\ bs_campaigns db' = bs_campaigns db
  /\ bs_receipts db `prefix_of` bs_receipts db'
  /\ bs_refunds db `prefix_of` bs_refunds db'
  /\ bs_corrections db `prefix_of` bs_corrections db'.

Lemma billing_step_log db db' : billing_step db db' -> billing_log_extends db db'.
Proof.
  assert (Happ : forall (X : Type) (l : list X) x, l `prefix_of` l ++ [x])
    by (intros; by apply prefix_app_r).
  destruct 1 as [db' Hs|? ? ? ? ? Hs|? ? ? ? ? Hs|? ? ? ? ? Hs].
  - destruct (cash_step_keeps_books _ _ Hs) as [_ (Hr & _)].
    apply cash_step_others in Hs as [= Hf Hc Hk Hrf _]. unfold billing_log_extends. by rewrite Hrf, Hk.
  - apply record_correction_effect in Hs
      as (? & ? & ? & ? & ? & _ & _ & _ & _ & [[-> _]|(_ & _ & _ & _ & _ & _ & _ & _ & _ & ->)]);
      repeat split; cbn; done || apply Happ.
  - apply record_refund_effect in Hs as (? & _ & _ & [[-> _]|(_ & ? & _ & _ & _ & ->)]);
      repeat split; cbn; done || apply Happ.
  - apply record_credit_effect in Hs as [_ [->| ->]]; repeat split; cbn; done || apply Happ.
Qed.

Lemma billing_log_reachable db db' : rtc billing_step db db' -> billing_log_extends db db'.
Proof.
  induction 1 as [db|db db1 db2 Hs _ (F & C & R & S & K)]; [by repeat split|].
  apply billing_step_log in Hs as (F' & C' & R' & S' & K').
  repeat split; (by etrans) || congruence.
Qed.

Lemma validate_refund_later db db' rq actor au :
  billing_log_extends db db' -> validate_refund db rq actor = Ok au -> validate_refund db' rq actor = Ok au.
Proof.
  intros (F & C & R & _ & _) Hv. pose proof (validate_refund_spec _ _ _ _ Hv) as (Hg & _ & _).
  unfold validate_refund, _campaign in *.
  rewrite (require_active_admin_facts db db'), (get_terms_facts db db'), C, F by done.
  unfold get_receipt at 1. rewrite (find_row_prefix _ _ _ _ R Hg). by rewrite Hg in Hv.
Qed.

(** a refund recorded once is answered with the same settlement, and
    changes nothing, however much billing happens before it is retried; a
    retry with any other facts under the same reference is refused. *)
Theorem refund_replay db rq actor now s db1 db2 now' :
  record_refund_settlement [] db rq actor now = Ok (s, db1) -> rtc billing_step db1 db2 ->
  record_refund_settlement [] db2 rq actor now' = Ok (s, db2)
  /\ (forall rq' au', validate_refund db2 rq' actor = Ok au' ->
        au_provider au' = rs_settlement_provider s -> au_reference au' = rs_external_reference s ->
        refund_exact_match au' s = false ->
        record_refund_settlement [] db2 rq' actor now' = Raise settlement_reference_conflict).
Proof.
  intros Hrun Hsteps. pose proof (billing_step_log _ _ (step_refund _ _ _ _ _ _ Hrun)) as Hlog1.
  apply billing_log_reachable in Hsteps as Hlog2.
  apply record_refund_effect in Hrun as (au & Hv & Hm & Hcase).
  pose proof (refund_exact_match_reference _ _ Hm) as [Hp Hr].
  assert (Hfile : find_settlement db2 (au_provider au) (au_reference au) = Some s).
  { destruct Hlog2 as (_ & _ & _ & S & _). eapply find_row_prefix; [exact S|].
    destruct Hcase as [[-> Hf]|(Hf & c & _ & -> & _ & ->)]; [exact Hf|].
    cbn [bs_refunds add_audit_event with_audit with_refunds]. unfold find_settlement in Hf.
    rewrite find_row_app, Hf. unfold find_row. cbn. by rewrite !bool_decide_eq_true_2. }
  unfold record_refund_settlement. split.
  - rewrite (validate_refund_later db db2 rq actor au); [|destruct Hlog1 as (?&?&?&?&?), Hlog2 as (?&?&?&?&?)|done].
    { cbn [mbind result_bind]. by rewrite Hfile, Hm. }
    repeat split; (by etrans) || congruence.
  - intros rq' au' -> Hp' Hr' Hm'. cbn [mbind result_bind]. by rewrite Hp', Hr', Hp, Hr, Hfile, Hm'.
Qed.

Lemma validate_correction_later db db' rq actor v :
  billing_log_extends db db' -> validate_correction db rq actor = Ok v -> validate_correction db' rq actor = Ok v.
Proof.
  intros (F & C & _ & _ & _) Hv. unfold validate_correction, _campaign, get_invoice in *.
  by rewrite (require_active_admin_facts db db'), C, F.
Qed.

(** a correction recorded once is answered with the same row, and changes
    nothing, however much billing happens before it is retried. *)
Theorem correction_replay db rq actor now c db1 db2 now' :
  record_invoice_correction db rq actor now = Ok (c, db1) -> rtc billing_step db1 db2 ->
  record_invoice_correction db2 rq actor now' = Ok (c, db2).
Proof.
  intros Hrun Hsteps. pose proof (billing_step_log _ _ (step_correction _ _ _ _ _ _ Hrun)) as Hlog1.
  apply billing_log_reachable in Hsteps as Hlog2.
  apply record_correction_effect in Hrun as (inv & reference & net & tax & reason & Hv & _ & _ & Hfp & Hcase).
  assert (Hfile : find_correction db2 (in_id inv) reference = Some c).
  { destruct Hlog2 as (_ & _ & _ & _ & K). eapply find_row_prefix; [exact K|].
    destruct Hcase as [[-> Hf]|(Hf & _ & Hi & Hr & _ & _ & _ & _ & _ & ->)]; [exact Hf|].
    cbn [bs_corrections add_audit_event with_audit with_corrections]. unfold find_correction in Hf.
    rewrite find_row_app, Hf. unfold find_row. cbn. by rewrite !bool_decide_eq_true_2. }
  unfold record_invoice_correction.
  rewrite (validate_correction_later db db2 rq actor (inv, reference, net, tax, reason));
    [|destruct Hlog1 as (?&?&?&?&?), Hlog2 as (?&?&?&?&?)|done].
  { cbn [mbind result_bind]. cbn iota. by rewrite Hfile, bool_decide_eq_true_2. }
  repeat split; (by etrans) || congruence.
Qed.
End Reachable.

(** ** Witnesses: the sample transfer reversed and refunded in part *)

Module SettlementSample.
Import BillingSample.

Definition reversed : billing_store :=
  match reverse_payment_receipt paid 1 1 "campaign cancelled" 3000 with Ok r => r.2 | Raise _ => paid end.

Lemma reversed_runs : reverse_payment_receipt paid 1 1 "campaign cancelled" 3000 = Ok (receipt, reversed).
Proof. vm_compute. reflexivity. Qed.

Definition refund : refund_request :=
  RefundRequest 10 1 (Finite 2500) " Paystack " "RF-1" "cancelled before launch".

Definition refund_outcome := record_refund_settlement [] reversed refund 1 4000.

Definition settlement : refund_settlement :=
  match refund_outcome with
  | Ok r => r.1
  | Raise _ => new_credit_settlement reversed (CommercialTerms 0 0 0 "" STANDARD_PREPAID 0 0 0) "" "" "" 0 0
  end.

Definition refunded_store : billing_store := match refund_outcome with Ok r => r.2 | Raise _ => reversed end.

Lemma refund_runs : record_refund_settlement [] reversed refund 1 4000 = Ok (settlement, refunded_store).
Proof. vm_compute. reflexivity. Qed.

Definition credit_note : correction_request :=
  CorrectionRequest 20 "CN-1" CREDIT_NOTE (Finite 100) (Finite (15 # 2)) "fewer vehicles".

Definition correction_outcome := record_invoice_correction refunded_store credit_note 1 5000.

Definition correction : invoice_correction :=
  match correction_outcome with
  | Ok r => r.1
  | Raise _ => InvoiceCorrection 0 0 0 "" "" "" CREDIT_NOTE "" 0 0 0 "" 0 0
  end.

Definition corrected : billing_store := match correction_outcome with Ok r => r.2 | Raise _ => refunded_store end.

Lemma correction_runs :
  record_invoice_correction refunded_store credit_note 1 5000 = Ok (correction, corrected).
Proof. vm_compute. reflexivity. Qed.

Lemma store_refund_books : refund_books store.
Proof.
  split; [apply NoDup_singleton|constructor|constructor|constructor|].
  apply Forall_singleton. vm_compute. discriminate.
Qed.

Lemma store_correction_books : correction_books store.
Proof.
  split; [apply NoDup_singleton|constructor|by apply Forall_singleton|].
  apply Forall_singleton. vm_compute. discriminate.
Qed.

Lemma refunded_reachable : rtc billing_step store refunded_store.
Proof.
  eapply rtc_l; [eapply step_cash, step_transfer, paid_runs|].
  eapply rtc_l; [eapply step_cash, step_reverse, reversed_runs|].
  eapply rtc_once, step_refund, refund_runs.
Qed.

Lemma corrected_reachable : rtc billing_step refunded_store corrected.
Proof. eapply rtc_once, step_correction, correction_runs. Qed.
End SettlementSample.

Import BillingSample SettlementSample.

Lemma refund_books_reachable_witness :
  refund_books refunded_store /\ refunded refunded_store (of_receipt 1) = 250000.
Proof.
  destruct (refund_books_reachable store refunded_store store_books store_refund_books refunded_reachable)
    as [_ Hrb].
  split; [exact Hrb | vm_compute; reflexivity].
Defined.

Lemma obligation_never_negative_witness :
  exists obligation, effective_invoice_obligation corrected 10 = Ok obligation /\ 0 <= obligation.
Proof.
  destruct (obligation_never_negative store corrected 10
    (CommercialTerms 10 4 5 "NGN" STANDARD_PREPAID 24 1000000 0) store_correction_books) as [_ Ho].
  - etrans; [exact refunded_reachable | exact corrected_reachable].
  - vm_compute. reflexivity.
  - vm_compute. discriminate.
  - exact Ho.
Defined.

Lemma refund_replay_witness :
  record_refund_settlement [] corrected refund 1 9000 = Ok (settlement, corrected).
Proof.
  destruct (refund_replay reversed refund 1 4000 settlement refunded_store corrected 9000 refund_runs
    corrected_reachable) as [H _].
  exact H.
Defined.

Lemma correction_replay_witness :
  record_invoice_correction corrected credit_note 1 9000 = Ok (correction, corrected).
Proof.
  exact (correction_replay refunded_store credit_note 1 5000 correction corrected corrected 9000
    correction_runs (rtc_refl _ corrected)).
Defined.
