(* ===== verification/Budget.v ===== *)
(** Campaign budgets ([services/billing/budget.py]): the booked total, the
    thresholds, the automatic pause, the notices, the administrator's resume
    and the sweep over all campaigns. *)

From stdpp Require Import base list strings gmap relations.
From Stdlib Require Import ZArith Lia Ascii.
From S2P Require Import Prelude PayoutData Text BillingData Notifications Receipts.

#[local] Open Scope Z_scope.

(** ** The campaign's end ([services/campaign_lifecycle.py]) *)

Definition campaign_display_status (status : string) (end_at : option Z) (now : Z) : string :=
  if bool_decide (status ∈ ["approved"; "active"; "paused"]%string)
     && match end_at with Some e => e <=? now | None => false end
  then "finished" else status.

Definition ensure_campaign_not_finished (c : campaign) (now : Z) : result unit :=
  raise_if (bool_decide (campaign_display_status (ca_status c) (ca_end_at c) now = "finished"%string))
    (AppError "CAMPAIGN_FINISHED" 409).

Section Budget.
Context `{Sha256}.

(** ** The booked total *)

Definition _campaign_billing_spend (db : billing_store) (campaign_id : uuid) : result (kobo * string) :=
  match _commercial_terms_for_campaign db campaign_id with
  | None => mret (0, "confirmed_funding"%string)
  | Some terms =>
      if existsb (fun p => bool_decide (ps_campaign_id p = campaign_id)) (bs_productions db) then
        obligation ← effective_invoice_obligation db (ct_id terms);
        mret (obligation, "production_obligation"%string)
      else
        mret (sum_by ra_amount (_active_cash_allocations db (ct_id terms)), "confirmed_funding"%string)
  end.

Definition funding_facts (db : billing_store) (campaign_id : uuid) (total_spend : kobo) (source : string)
    : list string :=
  let terms := _commercial_terms_for_campaign db campaign_id in
  [source; money_str total_spend; match terms with Some t => uuid_str (ct_id t) | None => "none" end]
  ++ match terms with
     | Some t =>
         if bool_decide (source = "confirmed_funding"%string) then
           (fun row => (uuid_str (ra_id row) +:+ ":" +:+ uuid_str (ra_receipt_id row) +:+ ":"
                        +:+ money_str (ra_amount row))%string) <$> _active_cash_allocations db (ct_id t)
         else []
     | None => []
     end.

Definition _funding_fingerprint (db : billing_store) (campaign_id : uuid) (total_spend : kobo)
    (source : string) : string :=
  sha256_hexdigest (join "|" (funding_facts db campaign_id total_spend source)).

Record budget_used := BudgetUsed {
  bu_amount : kobo;
  bu_budget_amount : option kobo;
  bu_currency : string;
  bu_basis : string;
  bu_as_of : Z
}.

Definition campaign_budget_used (db : billing_store) (c : campaign) (now : Z) : result budget_used :=
  s ← _campaign_billing_spend db (ca_id c);
  mret {| bu_amount := s.1;
          bu_budget_amount :=
            match ca_budget_amount c with
            | Some b => if 0 <? b then Some b else None
            | None => None
            end;
          bu_currency := ca_currency c;
          bu_basis := if bool_decide (s.2 = "production_obligation"%string) then "invoice" else "funding";
          bu_as_of := now |}.

(** ** The thresholds *)

Record budget_check := BudgetCheck {
  bc_campaign_id : uuid;
  bc_state : string;
  bc_campaign_budget_amount : kobo;
  bc_currency : string;
  bc_billing_spend_amount : kobo;
  bc_resume_allowed : bool;
  bc_funding_fingerprint : string;
  bc_evaluated_at : Z;
  bc_pause_applied : bool
}.

Definition alert_applied (check : budget_check) : bool :=
  bool_decide (bc_state check ∈ ["alert_threshold"; "urgent_threshold"; "pause_threshold"]%string).

(** Exact decimal comparisons with 95 and 80 per cent of the budget. *)
Definition budget_state (booked budget : kobo) (agreed : option kobo) : string :=
  if match agreed with Some a => booked <=? a | None => false end then "within_budget"
  else if budget <? booked then "pause_threshold"
  else if budget * 95 <=? booked * 100 then "urgent_threshold"
  else if budget * 80 <=? booked * 100 then "alert_threshold"
  else "within_budget".

Definition campaign_budget_check (db : billing_store) (c : campaign) (evaluated_at : Z)
    : result (option budget_check) :=
  match ca_budget_amount c with
  | None => mret None
  | Some budget =>
      if budget <=? 0 then mret None
      else
        s ← _campaign_billing_spend db (ca_id c);
        let '(booked, source) := s in
        let terms := _commercial_terms_for_campaign db (ca_id c) in
        mret (Some {| bc_campaign_id := ca_id c;
                      bc_state := budget_state booked budget (ct_gross_amount <$> terms);
                      bc_campaign_budget_amount := budget;
                      bc_currency := ca_currency c;
                      bc_billing_spend_amount := booked;
                      bc_resume_allowed := booked <=? budget;
                      bc_funding_fingerprint := _funding_fingerprint db (ca_id c) booked source;
                      bc_evaluated_at := evaluated_at;
                      bc_pause_applied := false |})
  end.

(** ** Budget notices ([services/notifications.py]) *)

Definition budget_notice_type (state : string) : option notification_type :=
  if bool_decide (state = "alert_threshold"%string) then Some BUDGET_ALERT
  else if bool_decide (state = "urgent_threshold"%string) then Some BUDGET_URGENT_ALERT
  else if bool_decide (state = "pause_threshold"%string) then Some CAMPAIGN_BUDGET_PAUSED
  else None.

Definition budget_event_key (c : campaign) (evaluation : budget_check) (epoch_id : option uuid) : string :=
  ("budget:" +:+ sha256_hexdigest (json_spaced
    [("budget", json_string (money_str (bc_campaign_budget_amount evaluation)));
     ("campaign", json_string (uuid_str (ca_id c)));
     ("currency", json_string (bc_currency evaluation));
     ("epoch", json_string (uuid_or_none epoch_id));
     ("state", json_string (bc_state evaluation))]))%string.

Definition create_budget_policy_notices (clock : Z) (db : billing_store) (c : campaign)
    (evaluation : budget_check) (epoch_id : option uuid) : result (list notification * billing_store) :=
  match budget_notice_type (bc_state evaluation) with
  | None => mret ([], db)
  | Some type_key =>
      if bool_decide (bc_state evaluation = "pause_threshold"%string) && negb (bc_pause_applied evaluation)
      then mret ([], db)
      else
        let event_key := budget_event_key c evaluation epoch_id in
        let payload : gmap string string :=
          list_to_map [("campaign_id", uuid_str (ca_id c)); ("budget_state", bc_state evaluation);
                       ("currency", bc_currency evaluation)]%string in
        n ← create_advertiser_business_notifications clock db (ca_organization_id c) type_key event_key payload;
        a ← notify_admins clock n.2 (active_admins n.2) type_key (event_key +:+ ":in_app")%string payload;
        mret (n.1 ++ a.1, a.2)
  end.

Definition create_budget_resume_notices (clock : Z) (db : billing_store) (c : campaign)
    (transition : budget_campaign_transition) : result (list notification * billing_store) :=
  create_advertiser_business_notifications clock db (ca_organization_id c) CAMPAIGN_BUDGET_RESUMED
    ("budget:resume:v1:" +:+ uuid_str (bt_id transition))%string
    (list_to_map [("campaign_id", uuid_str (ca_id c)); ("budget_transition_id", uuid_str (bt_id transition));
                  ("campaign_status", bt_new_status transition)]%string).

(** ** Transitions *)

Definition transition_row_ok (t : budget_campaign_transition) : bool :=
  let live := ["approved"; "scheduled"; "active"; "paused"]%string in
  bool_decide (bt_prior_status t ∈ live) && bool_decide (bt_new_status t ∈ live)
  && negb (bool_decide (bt_prior_status t = bt_new_status t))
  && match bt_action t with
     | ACTION_PAUSE =>
         bool_decide (bt_actor_user_id t = None) && bool_decide (bt_new_status t = "paused"%string)
         && bool_decide (bt_pause_transition_id t = None)
     | ACTION_RESUME =>
         negb (bool_decide (bt_actor_user_id t = None)) && bool_decide (bt_prior_status t = "paused"%string)
         && match bt_reason t with
            | Some r => existsb (fun c => negb (Ascii.eqb c " "%char)) (String.list_ascii_of_string r)
            | None => false
            end
         && negb (bool_decide (bt_pause_transition_id t = None))
     end.

Definition flush_transition (row : budget_campaign_transition) (db : billing_store) : result billing_store :=
  raise_if (negb (transition_row_ok row)) (IntegrityError "ck_budget_transitions") ;;
  raise_if (conflicts bt_pause_transition_id row (bs_transitions db))
    (IntegrityError "uq_budget_transition_pause_resume") ;;
  mret (with_transitions (fun l => l ++ [row]) db).

(** [campaign.status = status] *)
Definition set_campaign_status (campaign_id : uuid) (status : string) (db : billing_store) : billing_store :=
  with_campaigns (fun l =>
    (fun c => if bool_decide (ca_id c = campaign_id)
              then Campaign (ca_id c) (ca_organization_id c) status (ca_end_at c) (ca_budget_amount c)
                     (ca_currency c)
              else c) <$> l) db.

(** [ORDER BY created_at DESC, id DESC LIMIT 1] *)
Definition newest (l : list budget_campaign_transition) : option budget_campaign_transition :=
  head (stable_sort (fun a b => (bt_created_at b <? bt_created_at a)
                                || (bt_created_at a =? bt_created_at b) && (bt_id b <=? bt_id a)%N) l).

Definition campaign_transitions (db : billing_store) (campaign_id : uuid) : list budget_campaign_transition :=
  List.filter (fun t => bool_decide (bt_campaign_id t = campaign_id)) (bs_transitions db).

Definition latest_resume_id (db : billing_store) (campaign_id : uuid) : option uuid :=
  bt_id <$> newest (List.filter (fun t => bool_decide (bt_campaign_id t = campaign_id)
                                          && bool_decide (bt_action t = ACTION_RESUME)) (bs_transitions db)).

(** ** Enforcement *)

Definition pause_transition (db : billing_store) (c : campaign) (check : budget_check)
    : budget_campaign_transition :=
  {| bt_id := uuid4 (bt_id <$> bs_transitions db);
     bt_campaign_id := ca_id c;
     bt_pause_transition_id := None;
     bt_budget_amount := bc_campaign_budget_amount check;
     bt_funding_fingerprint := bc_funding_fingerprint check;
     bt_action := ACTION_PAUSE;
     bt_prior_status := ca_status c;
     bt_new_status := "paused";
     bt_actor_user_id := None;
     bt_reason := Some "Booked charges exceed the total budget and accepted price"%string;
     bt_created_at := bc_evaluated_at check |}.

(** [replace(check, pause_applied=True)] *)
Definition applied (check : budget_check) : budget_check :=
  {| bc_campaign_id := bc_campaign_id check; bc_state := bc_state check;
     bc_campaign_budget_amount := bc_campaign_budget_amount check; bc_currency := bc_currency check;
     bc_billing_spend_amount := bc_billing_spend_amount check; bc_resume_allowed := bc_resume_allowed check;
     bc_funding_fingerprint := bc_funding_fingerprint check; bc_evaluated_at := bc_evaluated_at check;
     bc_pause_applied := true |}.

Definition live_status (status : string) : bool :=
  bool_decide (status ∈ ["approved"; "active"]%string).

Definition apply_pause (db : billing_store) (c : campaign) (check : budget_check)
    : result (budget_check * billing_store) :=
  if bool_decide (bc_state check = "pause_threshold"%string) && live_status (ca_status c) then
    let transition := pause_transition db c check in
    db ← flush_transition transition (set_campaign_status (ca_id c) "paused" db);
    mret (applied check, add_audit_event None "billing.budget.paused" "budget_campaign_transition"
                           (bt_id transition) db)
  else mret (check, db).

(** [db_now] is the database clock, [clock] the process clock of the notices. *)
Definition enforce_campaign_budget (db : billing_store) (campaign_id : uuid) (db_now clock : Z)
    : result (option budget_check * billing_store) :=
  c ← _campaign db campaign_id;
  check ← campaign_budget_check db c db_now;
  match check with
  | None => mret (None, db)
  | Some check =>
      let epoch_id := latest_resume_id db (ca_id c) in
      p ← apply_pause db c check;
      let '(check, db) := p in
      n ← create_budget_policy_notices clock db c check epoch_id;
      mret (Some check, n.2)
  end.

(** ** Resuming *)

Definition current_name (status : string) : string :=
  if bool_decide (status = "scheduled"%string) then "approved" else status.

(** The answer when the campaign is not paused. *)
Definition resume_not_paused (c : campaign) (latest : option budget_campaign_transition)
    (actor_user_id : uuid) (reason : string) : result budget_campaign_transition :=
  let not_paused := AppError "CAMPAIGN_NOT_BUDGET_PAUSED" 409 in
  match latest with
  | Some t =>
      if bool_decide (bt_action t = ACTION_RESUME)
         && bool_decide (current_name (bt_new_status t) = ca_status c) then
        if bool_decide (bt_actor_user_id t = Some actor_user_id) && bool_decide (bt_reason t = Some reason)
        then Ok t
        else Raise (AppError "BUDGET_RESUME_ALREADY_RECORDED" 409)
      else Raise not_paused
  | None => Raise not_paused
  end.

Definition resume_transition (db : billing_store) (c : campaign) (latest : budget_campaign_transition)
    (check : budget_check) (actor_user_id : uuid) (reason : string) : budget_campaign_transition :=
  {| bt_id := uuid4 (bt_id <$> bs_transitions db);
     bt_campaign_id := ca_id c;
     bt_pause_transition_id := Some (bt_id latest);
     bt_budget_amount := bc_campaign_budget_amount check;
     bt_funding_fingerprint := bc_funding_fingerprint check;
     bt_action := ACTION_RESUME;
     bt_prior_status := "paused";
     bt_new_status := current_name (bt_prior_status latest);
     bt_actor_user_id := Some actor_user_id;
     bt_reason := Some reason;
     bt_created_at := Z.max (bc_evaluated_at check) (bt_created_at latest + 1) |}.

(** The evaluation that authorises the restart. *)
Definition authorize_resume (db : billing_store) (c : campaign) (latest : budget_campaign_transition)
    (evaluated_at : Z) : result budget_check :=
  let not_authorized := AppError "BUDGET_RESUME_NOT_AUTHORIZED" 409 in
  check ← campaign_budget_check db c evaluated_at;
  check ← require_some check not_authorized;
  raise_if (negb (bc_resume_allowed check)
            || (bt_budget_amount latest =? bc_campaign_budget_amount check)
               && bool_decide (bt_funding_fingerprint latest = bc_funding_fingerprint check))
    not_authorized ;;
  mret check.

(** [db_now] and [evaluated_at] are the two readings of the database clock. *)
Definition resume_campaign_after_budget_pause (db : billing_store) (campaign_id actor_user_id : uuid)
    (reason : string) (db_now evaluated_at clock : Z)
    : result (budget_campaign_transition * billing_store) :=
  require_active_admin db actor_user_id None ;;
  let reason := strip reason in
  raise_if (negb (nonempty reason)) (AppError "BUDGET_RESUME_REASON_REQUIRED" 400) ;;
  c ← _campaign db campaign_id;
  let latest := newest (campaign_transitions db campaign_id) in
  if negb (bool_decide (ca_status c = "paused"%string)) then
    t ← resume_not_paused c latest actor_user_id reason;
    mret (t, db)
  else
    let missing := AppError "BUDGET_PAUSE_AUTHORITY_MISSING" 409 in
    latest ← require_some latest missing;
    raise_if (negb (bool_decide (bt_action latest = ACTION_PAUSE))) missing ;;
    ensure_campaign_not_finished c db_now ;;
    check ← authorize_resume db c latest evaluated_at;
    let transition := resume_transition db c latest check actor_user_id reason in
    db ← flush_transition transition (set_campaign_status (ca_id c) (bt_new_status transition) db);
    let db := add_audit_event (Some actor_user_id) "billing.budget.resumed" "budget_campaign_transition"
                (bt_id transition) db in
    n ← create_budget_resume_notices clock db c transition;
    mret (transition, n.2).

(** ** The sweep *)

(** Each campaign is enforced in its own savepoint: a failure is logged, what
    it wrote is rolled back, and the sweep goes on.  [clocks] gives the
    readings of the database and process clocks for each campaign. *)
Fixpoint sweep_loop (clocks : uuid -> Z * Z) (db : billing_store) (campaign_ids : list uuid)
    : list budget_check * billing_store :=
  match campaign_ids with
  | [] => ([], db)
  | campaign_id :: rest =>
      match enforce_campaign_budget db campaign_id (clocks campaign_id).1 (clocks campaign_id).2 with
      | Ok (check, db) =>
          let '(checks, db) := sweep_loop clocks db rest in (option_list check ++ checks, db)
      | Raise _ => sweep_loop clocks db rest
      end
  end.

Definition sweep_campaign_budgets (clocks : uuid -> Z * Z) (db : billing_store)
    : list budget_check * billing_store :=
  sweep_loop clocks db
    (stable_sort N.leb
      (ca_id <$> List.filter (fun c => match ca_budget_amount c with Some b => 0 <? b | None => false end)
                   (bs_campaigns db))).
End Budget.

(** ** The booked total only depends on the billing tables *)

Section BudgetLemmas.
Context `{Sha256}.

(** The tables the booked total is read from. *)
Definition spend_tables (db : billing_store) :=
  (bs_facts db, bs_receipts db, bs_receipt_events db, bs_allocations db, bs_corrections db).

Lemma active_allocations_frame db db' tid :
  spend_tables db' = spend_tables db -> _active_cash_allocations db' tid = _active_cash_allocations db tid.
Proof.
  intros [= _ Hr He Ha _]. unfold _active_cash_allocations. f_equal. rewrite Ha.
  apply List.filter_ext. intros a. unfold active_allocation, _active_receipt_predicate, has_event.
  by rewrite Hr, He.
Qed.

Lemma spend_frame db db' cid :
  spend_tables db' = spend_tables db -> _campaign_billing_spend db' cid = _campaign_billing_spend db cid.
Proof.
  intros Hs. pose proof Hs as [= Hf _ _ _ Hc]. unfold _campaign_billing_spend.
  rewrite (campaign_terms_facts db db') by done. rewrite Hf.
  destruct (_commercial_terms_for_campaign db cid) as [t|]; [|done].
  destruct (existsb _ _).
  - unfold effective_invoice_obligation, invoice_corrections.
    by rewrite (get_terms_facts db db'), (invoice_for_terms_facts db db'), Hc.
  - by rewrite (active_allocations_frame db db').
Qed.

Lemma funding_facts_frame db db' cid total source :
  spend_tables db' = spend_tables db -> funding_facts db' cid total source = funding_facts db cid total source.
Proof.
  intros Hs. pose proof Hs as [= Hf _ _ _ _]. unfold funding_facts.
  rewrite (campaign_terms_facts db db') by done.
  destruct (_commercial_terms_for_campaign db cid); [|done]. by rewrite (active_allocations_frame db db').
Qed.

(** Two readings of the same campaign's budget differ at most in their time
    and in whether a pause was applied. *)
Definition same_evaluation (a b : budget_check) : Prop :=
  bc_campaign_id a = bc_campaign_id b /\ bc_state a = bc_state b
  /\ bc_campaign_budget_amount a = bc_campaign_budget_amount b /\ bc_currency a = bc_currency b
  /\ bc_billing_spend_amount a = bc_billing_spend_amount b
  /\ bc_funding_fingerprint a = bc_funding_fingerprint b.

Definition same_campaign_but_status (a b : campaign) : Prop :=
  ca_id a = ca_id b /\ ca_organization_id a = ca_organization_id b /\ ca_end_at a = ca_end_at b
  /\ ca_budget_amount a = ca_budget_amount b /\ ca_currency a = ca_currency b.

Lemma budget_check_frame db db' c c' now now' check :
  spend_tables db' = spend_tables db -> same_campaign_but_status c' c ->
  campaign_budget_check db c now = Ok (Some check) ->
  exists check', campaign_budget_check db' c' now' = Ok (Some check')
    /\ same_evaluation check' check /\ bc_pause_applied check' = false /\ bc_evaluated_at check' = now'.
Proof.
  intros Hs (Hi & _ & _ & Hb & Hcur). unfold campaign_budget_check. rewrite Hi, Hb, Hcur.
  destruct (ca_budget_amount c) as [budget|]; [|done]. destruct (budget <=? 0); [done|].
  rewrite (spend_frame db db') by done. intros Hrun.
  ok_step Hrun as [booked source] ->. injection Hrun as <-. cbn [mbind result_bind].
  eexists. split; [done|]. pose proof Hs as [= Hf _ _ _ _].
  unfold same_evaluation, _funding_fingerprint.
  cbn [bc_campaign_id bc_state bc_campaign_budget_amount bc_currency bc_billing_spend_amount
       bc_funding_fingerprint bc_pause_applied bc_evaluated_at].
  by rewrite (funding_facts_frame db db'), (campaign_terms_facts db db').
Qed.

Lemma budget_check_spec db c now check :
  campaign_budget_check db c now = Ok (Some check) ->
  exists budget source, ca_budget_amount c = Some budget /\ 0 < budget
    /\ _campaign_billing_spend db (ca_id c) = Ok (bc_billing_spend_amount check, source)
    /\ bc_campaign_id check = ca_id c /\ bc_campaign_budget_amount check = budget
    /\ bc_state check = budget_state (bc_billing_spend_amount check) budget
                          (ct_gross_amount <$> _commercial_terms_for_campaign db (ca_id c))
    /\ bc_resume_allowed check = (bc_billing_spend_amount check <=? budget)
    /\ bc_funding_fingerprint check = _funding_fingerprint db (ca_id c) (bc_billing_spend_amount check) source
    /\ bc_pause_applied check = false /\ bc_evaluated_at check = now.
Proof.
  unfold campaign_budget_check. destruct (ca_budget_amount c) as [budget|]; [|done].
  destruct (Z.leb_spec budget 0); [done|]. intros Hrun.
  ok_step Hrun as [booked source] Hs. injection Hrun as <-.
  exists budget, source. repeat split; done.
Qed.

(** *** Notices *)

Lemma budget_notices_spec clock db c check epoch out db' :
  create_budget_policy_notices clock db c check epoch = Ok (out, db') ->
  notified db db'
  /\ (forall clock' db'' c' check', notified db' db'' ->
        ca_id c' = ca_id c -> ca_organization_id c' = ca_organization_id c ->
        same_evaluation check' check -> bc_pause_applied check' = bc_pause_applied check ->
        create_budget_policy_notices clock' db'' c' check' epoch = Ok (out, db'')).
Proof.
  unfold create_budget_policy_notices, budget_event_key. intros Hrun.
  destruct (budget_notice_type (bc_state check)) as [t|] eqn:Ht.
  2:{ injection Hrun as <- <-. split; [apply notified_refl|].
      intros clock' db'' c' check' _ _ _ (_ & Hst & _) _. by rewrite Hst, Ht. }
  destruct (bool_decide _ && negb (bc_pause_applied check)) eqn:Hp.
  { injection Hrun as <- <-. split; [apply notified_refl|].
    intros clock' db'' c' check' _ _ _ (_ & Hst & _) Hpa. by rewrite Hst, Ht, Hpa, Hp. }
  cbn zeta in Hrun. ok_step Hrun as [o1 db1] H1.
  ok_step Hrun as [o2 db2] H2. injection Hrun as <- <-. cbn [fst snd] in *.
  apply business_notifications_spec in H1 as [N1 R1]. apply notify_admins_spec in H2 as [N2 R2].
  split; [by eapply notified_trans|].
  intros clock' db'' c' check' Hn Hid Horg (_ & Hst & Hbud & Hcur & _ & _) Hpa.
  rewrite Hst, Ht, Hpa, Hp, Hid, Horg, Hbud, Hcur. cbn zeta.
  rewrite R1 by (by eapply notified_trans). cbn [mbind result_bind fst snd].
  assert (Hf : bs_facts db'' = bs_facts db1)
    by (rewrite (notified_facts _ _ Hn); apply (notified_facts _ _ N2)).
  rewrite (active_admins_facts db1 db'') by done. by rewrite R2.
Qed.
End BudgetLemmas.

(** ** What enforcement does *)

Section Enforcement.
Context `{Sha256}.

Lemma apply_pause_spec db c check check' db' :
  apply_pause db c check = Ok (check', db') ->
  (check' = check /\ db' = db
   /\ bool_decide (bc_state check = "pause_threshold"%string) && live_status (ca_status c) = false)
  \/ (bc_state check = "pause_threshold"%string /\ live_status (ca_status c) = true
      /\ check' = applied check
      /\ db' = add_audit_event None "billing.budget.paused" "budget_campaign_transition"
                 (bt_id (pause_transition db c check))
                 (with_transitions (fun l => l ++ [pause_transition db c check])
                    (set_campaign_status (ca_id c) "paused" db))).
Proof.
  unfold apply_pause. destruct (_ && _) eqn:Hp; intros Hrun.
  - right. apply andb_true_iff in Hp as [Hp Hl]. apply bool_decide_eq_true in Hp.
    ok_step Hrun as db1 Hf. injection Hrun as <- <-.
    unfold flush_transition in Hf. do 2 ok_step Hf. by injection Hf as <-.
  - left. by injection Hrun as <- <-.
Qed.

(** The campaign after its status was set. *)
Lemma campaign_status_set cid status db cid' c :
  _campaign db cid' = Ok c ->
  exists c', _campaign (set_campaign_status cid status db) cid' = Ok c'
    /\ same_campaign_but_status c' c /\ ca_id c = cid'
    /\ ca_status c' = if bool_decide (cid' = cid) then status else ca_status c.
Proof.
  unfold _campaign, find_row. intros Hc. apply require_some_Ok in Hc.
  cbn [bs_campaigns set_campaign_status with_campaigns].
  induction (bs_campaigns db) as [|x l IH]; [done|]. cbn [fmap list_fmap List.find] in *.
  destruct (bool_decide (ca_id x = cid)) eqn:Hx; cbn [ca_id] in *;
    destruct (bool_decide (ca_id x = cid')) eqn:Hx'; try (by apply IH);
    injection Hc as ->; bool_prop; subst; eexists; (split; [done|]); (split; [by repeat split|]);
    (split; [done|]); cbn [ca_status]; case_bool_decide; congruence.
Qed.

Lemma campaign_id_of db cid c : _campaign db cid = Ok c -> ca_id c = cid.
Proof. intros Hc%require_some_Ok. apply find_row_Some in Hc as [_ Hc]. by apply bool_decide_eq_true in Hc. Qed.

(** A successful enforcement, taken apart. *)
Lemma enforce_spec db cid now clock check db' :
  enforce_campaign_budget db cid now clock = Ok (check, db') ->
  exists c, _campaign db cid = Ok c /\
  ((check = None /\ campaign_budget_check db c now = Ok None /\ db' = db)
   \/ exists chk chk' dbp out,
       campaign_budget_check db c now = Ok (Some chk) /\ apply_pause db c chk = Ok (chk', dbp)
       /\ create_budget_policy_notices clock dbp c chk' (latest_resume_id db cid) = Ok (out, db')
       /\ check = Some chk').
Proof.
  unfold enforce_campaign_budget. intros Hrun. ok_step Hrun as c Hc.
  exists c. split; [done|]. pose proof (campaign_id_of _ _ _ Hc) as Hid.
  ok_step Hrun as [chk|] Hchk; [|injection Hrun as <- <-; by left].
  right. cbn zeta in Hrun. rewrite Hid in Hrun. ok_step Hrun as [chk' dbp] Hp.
  ok_step Hrun as [out db2] Hn. injection Hrun as <- <-.
  by exists chk, chk', dbp, out.
Qed.

Lemma latest_resume_after_pause db t cid :
  bt_action t = ACTION_PAUSE ->
  latest_resume_id (with_transitions (fun l => l ++ [t]) db) cid = latest_resume_id db cid.
Proof.
  intros Ht. unfold latest_resume_id. cbn [bs_transitions with_transitions].
  rewrite List.filter_app. cbn [List.filter]. rewrite Ht, (bool_decide_eq_false_2 (ACTION_PAUSE = _)) by done.
  by rewrite andb_false_r, app_nil_r.
Qed.

Lemma notified_tables db db' :
  notified db db' -> bs_campaigns db' = bs_campaigns db /\ bs_transitions db' = bs_transitions db
    /\ spend_tables db' = spend_tables db.
Proof. by intros (? & ? & ->). Qed.

(** What is on file after an enforcement. *)
Lemma enforce_after db cid now clock check db' :
  enforce_campaign_budget db cid now clock = Ok (check, db') ->
  spend_tables db' = spend_tables db /\ latest_resume_id db' cid = latest_resume_id db cid
  /\ (forall cid' c, _campaign db cid' = Ok c ->
       exists c', _campaign db' cid' = Ok c' /\ same_campaign_but_status c' c
         /\ (cid' <> cid -> ca_status c' = ca_status c)).
Proof.
  intros (c & Hc & [(_ & _ & ->)|(chk & chk' & dbp & out & _ & Hp & Hn & _)])%enforce_spec.
  { split; [done|]. split; [done|]. intros cid' c' Hc'. by exists c'. }
  apply budget_notices_spec in Hn as [Hn _]. apply notified_tables in Hn as (Ec & Et & Es).
  pose proof (campaign_id_of _ _ _ Hc) as Hid.
  assert (Hres : forall d, bs_transitions d = bs_transitions dbp -> latest_resume_id d cid = latest_resume_id dbp cid).
  { intros d Hd. unfold latest_resume_id. by rewrite Hd. }
  rewrite Es, (Hres db' Et). unfold _campaign. rewrite Ec. fold (_campaign dbp).
  apply apply_pause_spec in Hp as [(-> & -> & _)|(_ & _ & -> & ->)].
  { split; [done|]. split; [done|]. intros cid' c' Hc'. by exists c'. }
  split; [done|]. split.
  { etrans; [|apply (latest_resume_after_pause _ (pause_transition db c chk)); done]. done. }
  intros cid' c0 Hc0. rewrite Hid.
  destruct (campaign_status_set cid "paused" db cid' c0 Hc0) as (c' & H1 & H2 & H3 & H4).
  exists c'. split; [exact H1|]. split; [done|]. intros Hne. by rewrite bool_decide_eq_false_2 in H4.
Qed.

(** enforcing a campaign's budget again, at any later time, changes
    nothing: no second pause, transition, audit event or notice is written
    while the booked total and the budget stay as they are. *)
Theorem enforce_campaign_budget_idempotent db cid now clock check db' now' clock' :
  enforce_campaign_budget db cid now clock = Ok (check, db') ->
  exists check', enforce_campaign_budget db' cid now' clock' = Ok (check', db').
Proof.
  intros Hrun. pose proof (enforce_after _ _ _ _ _ _ Hrun) as (Es & Er & Ec).
  apply enforce_spec in Hrun as (c & Hc & Hcase). destruct (Ec cid c Hc) as (c' & Hc' & Hsame & _).
  unfold enforce_campaign_budget. rewrite Hc'. cbn [mbind result_bind].
  assert (Hid' : ca_id c' = cid) by (by eapply campaign_id_of).
  destruct Hcase as [(_ & Hnone & ->)|(chk & chk' & dbp & out & Hchk & Hp & Hn & _)].
  { assert (c' = c) as -> by congruence. exists None. unfold campaign_budget_check in *.
    destruct (ca_budget_amount c) as [b|]; [|done]. destruct (b <=? 0); [done|].
    by ok_step Hnone as [booked source] _. }
  destruct (budget_check_frame db db' c c' now now' chk Es Hsame Hchk) as (chk2 & -> & Hev & Hpa & _).
  cbn [mbind result_bind]. cbn zeta. rewrite Hid', Er.
  pose proof Hsame as (Hid & Horg & _). pose proof Hev as (_ & Hst & _).
  pose proof (budget_notices_spec _ _ _ _ _ _ _ Hn) as [Hnot Hreplay].
  apply notified_tables in Hnot as (Ecs & _ & _).
  exists (Some chk2). apply apply_pause_spec in Hp as [(-> & -> & Hnp)|(Hpt & _ & -> & ->)].
  - assert (c' = c) as -> by (unfold _campaign in *; rewrite Ecs in Hc'; congruence).
    unfold apply_pause. rewrite Hst, Hnp. cbn [mret result_ret mbind result_bind].
    rewrite (Hreplay clock' db' c chk2); [done|apply notified_refl|done|done|done|].
    pose proof (budget_check_spec _ _ _ _ Hchk) as (? & ? & _ & _ & _ & _ & _ & _ & _ & _ & Hpf & _). congruence.
  - assert (Hpaused : ca_status c' = "paused"%string).
    { destruct (campaign_status_set (ca_id c) "paused" db cid c Hc) as (c2 & H1 & _ & H3 & H4).
      rewrite H3 in H4. rewrite bool_decide_eq_true_2 in H4 by done. unfold _campaign in Hc', H1.
      rewrite Ecs in Hc'. rewrite H3 in H1, Hc'. cbn in H1, Hc'. congruence. }
    unfold apply_pause. rewrite Hpaused, andb_false_r. cbn [mret result_ret mbind result_bind].
    unfold create_budget_policy_notices. rewrite Hst, Hpt. cbn. by rewrite Hpa.
Qed.

(** ** What the sweep guarantees *)

(** The campaign does not run, or what is booked is within its budget or within
    the price its advertiser accepted. *)
Definition stopped_or_covered (db : billing_store) (cid : uuid) : Prop :=
  forall c budget, _campaign db cid = Ok c -> ca_budget_amount c = Some budget -> 0 < budget ->
    live_status (ca_status c) = true ->
    exists booked source, _campaign_billing_spend db cid = Ok (booked, source)
      /\ (booked <= budget
          \/ exists terms, _commercial_terms_for_campaign db cid = Some terms
             /\ booked <= ct_gross_amount terms).

Lemma budget_state_not_pause booked budget agreed :
  budget_state booked budget agreed <> "pause_threshold"%string ->
  booked <= budget \/ exists a, agreed = Some a /\ booked <= a.
Proof.
  unfold budget_state. destruct agreed as [a|].
  - destruct (Z.leb_spec booked a); [by right; exists a|]. destruct (Z.ltb_spec budget booked); [done|]. by left.
  - destruct (Z.ltb_spec budget booked); [done|]. by left.
Qed.

Lemma enforce_covers db cid now clock check db' :
  enforce_campaign_budget db cid now clock = Ok (check, db') -> stopped_or_covered db' cid.
Proof.
  intros Hrun. pose proof (enforce_after _ _ _ _ _ _ Hrun) as (Es & _ & Ec).
  apply enforce_spec in Hrun as (c & Hc & Hcase). intros c' budget Hc' Hbud Hpos Hlive.
  destruct (Ec cid c Hc) as (c2 & Hc2 & (_ & _ & _ & Hb & _) & _).
  assert (c2 = c') as -> by congruence. pose proof (campaign_id_of _ _ _ Hc) as Hid.
  destruct Hcase as [(_ & Hnone & _)|(chk & chk' & dbp & out & Hchk & Hp & Hn & _)].
  { unfold campaign_budget_check in Hnone. rewrite <- Hb, Hbud in Hnone.
    destruct (Z.leb_spec budget 0); [lia|]. by ok_step Hnone as [? ?] _. }
  apply budget_check_spec in Hchk as (b & source & Hb' & _ & Hsp & _ & _ & Hst & _).
  assert (b = budget) as -> by congruence. rewrite Hid in *. rewrite (spend_frame db db') by done.
  pose proof Es as [= Hf _ _ _ _]. rewrite (campaign_terms_facts db db') by done.
  exists (bc_billing_spend_amount chk), source. split; [done|].
  apply budget_notices_spec in Hn as [Hn _]. apply notified_tables in Hn as (Ecs & _ & _).
  apply apply_pause_spec in Hp as [(-> & -> & Hnp)|(_ & _ & -> & ->)].
  - assert (c' = c) as -> by (unfold _campaign in *; rewrite Ecs in Hc'; congruence).
    rewrite Hlive, andb_true_r in Hnp. apply bool_decide_eq_false in Hnp. rewrite Hst in Hnp.
    apply budget_state_not_pause in Hnp as [?|(a & Ha & ?)]; [by left|right].
    destruct (_commercial_terms_for_campaign db cid) as [t|]; [|done]. injection Ha as <-. by exists t.
  - destruct (campaign_status_set cid "paused" db cid c Hc) as (c2 & H1 & _ & _ & H4).
    rewrite bool_decide_eq_true_2 in H4 by done. unfold _campaign in Hc', H1.
    rewrite Ecs, Hid in Hc'. cbn in Hc', H1. assert (c2 = c') as -> by congruence. by rewrite H4 in Hlive.
Qed.

Lemma enforce_campaign_ids db cid now clock check db' :
  enforce_campaign_budget db cid now clock = Ok (check, db') ->
  ca_id <$> bs_campaigns db' = ca_id <$> bs_campaigns db.
Proof.
  intros (c & _ & [(_ & _ & ->)|(chk & chk' & dbp & out & _ & Hp & Hn & _)])%enforce_spec; [done|].
  apply budget_notices_spec in Hn as [Hn _]. apply notified_tables in Hn as (-> & _ & _).
  apply apply_pause_spec in Hp as [(_ & -> & _)|(_ & _ & _ & ->)]; [done|].
  cbn [bs_campaigns add_audit_event with_audit with_transitions set_campaign_status with_campaigns].
  rewrite <- list_fmap_compose. apply list_fmap_ext. intros i x _. cbn. by case_bool_decide.
Qed.

Lemma campaign_exists db cid : cid ∈ ca_id <$> bs_campaigns db -> exists c, _campaign db cid = Ok c.
Proof.
  intros (x & -> & Hx)%list_elem_of_fmap. unfold _campaign. destruct (find_row _ _) as [c|] eqn:Hf; [by exists c|].
  pose proof (find_row_None _ _ x Hf Hx) as Hb. cbn in Hb. by rewrite bool_decide_eq_true_2 in Hb.
Qed.

Lemma enforce_keeps_covered db cid now clock check db' cid' :
  enforce_campaign_budget db cid now clock = Ok (check, db') ->
  stopped_or_covered db cid' -> stopped_or_covered db' cid'.
Proof.
  intros Hrun Hcov. destruct (decide (cid' = cid)) as [->|Hne]; [by eapply enforce_covers|].
  pose proof (enforce_after _ _ _ _ _ _ Hrun) as (Es & _ & Ec).
  intros c' budget Hc' Hb Hpos Hlive.
  assert (Hin : cid' ∈ ca_id <$> bs_campaigns db).
  { rewrite <- (enforce_campaign_ids _ _ _ _ _ _ Hrun). pose proof (campaign_id_of _ _ _ Hc') as <-.
    apply require_some_Ok in Hc'. apply find_row_Some in Hc' as [? _]. apply list_elem_of_fmap. eauto. }
  apply campaign_exists in Hin as [c Hc]. destruct (Ec _ _ Hc) as (c2 & Hc2 & (_ & _ & _ & Hb2 & _) & Hst).
  assert (c2 = c') as -> by congruence. rewrite (spend_frame db db') by done.
  pose proof Es as [= Hf _ _ _ _]. rewrite (campaign_terms_facts db db') by done.
  apply (Hcov c budget); congruence || (rewrite <- Hst; done).
Qed.

Lemma sweep_loop_covers clocks db ids :
  (forall cid, stopped_or_covered db cid -> stopped_or_covered (sweep_loop clocks db ids).2 cid)
  /\ forall cid, cid ∈ ids ->
       stopped_or_covered (sweep_loop clocks db ids).2 cid
       \/ exists mid e, spend_tables mid = spend_tables db
            /\ enforce_campaign_budget mid cid (clocks cid).1 (clocks cid).2 = Raise e.
Proof.
  revert db. induction ids as [|cid0 ids IH]; intros db; cbn [sweep_loop].
  { split; [done|]. intros cid Hcid. by apply not_elem_of_nil in Hcid. }
  destruct (enforce_campaign_budget db cid0 _ _) as [[check db1]|e] eqn:Hrun.
  - destruct (IH db1) as [IH1 IH2]. pose proof (enforce_after _ _ _ _ _ _ Hrun) as (Es & _ & _).
    destruct (sweep_loop clocks db1 ids) as [checks db2] eqn:Hs. cbn [snd] in *. split.
    + intros cid Hcid. eapply IH1, enforce_keeps_covered; eauto.
    + intros cid [->|Hcid]%elem_of_cons; [left; eapply IH1, enforce_covers; exact Hrun|].
      destruct (IH2 cid Hcid) as [?|(mid & e & Hm & He)]; [by left|]. right. exists mid, e. split; [congruence|done].
  - destruct (IH db) as [IH1 IH2]. split; [done|].
    intros cid [->|Hcid]%elem_of_cons; [|by apply IH2]. right. exists db, e. done.
Qed.

(** after a sweep, every campaign with a budget is stopped, or what is
    booked is within its budget or the price its advertiser accepted, unless
    its own enforcement failed: one campaign's failure never keeps the sweep
    from the others. *)
Theorem sweep_stops_overspent_campaigns clocks db c budget :
  c ∈ bs_campaigns db -> ca_budget_amount c = Some budget -> 0 < budget ->
  stopped_or_covered (sweep_campaign_budgets clocks db).2 (ca_id c)
  \/ exists mid e, spend_tables mid = spend_tables db
       /\ enforce_campaign_budget mid (ca_id c) (clocks (ca_id c)).1 (clocks (ca_id c)).2 = Raise e.
Proof.
  intros Hin Hb Hpos. apply sweep_loop_covers. rewrite stable_sort_perm. apply list_elem_of_fmap.
  exists c. split; [done|]. apply list_elem_of_In, filter_In. split; [by apply list_elem_of_In|].
  rewrite Hb. by apply Z.ltb_lt.
Qed.

(** ** What a restart needs *)

Lemma authorize_resume_spec db c latest now check :
  authorize_resume db c latest now = Ok check ->
  campaign_budget_check db c now = Ok (Some check) /\ bc_resume_allowed check = true
  /\ (bt_budget_amount latest <> bc_campaign_budget_amount check
      \/ bt_funding_fingerprint latest <> bc_funding_fingerprint check).
Proof.
  unfold authorize_resume. intros Hrun. ok_step Hrun as o Ho.
  ok_step Hrun as chk Hs. apply require_some_Ok in Hs as ->.
  ok_step Hrun as ? Hg. injection Hrun as <-.
  apply raise_if_Ok, orb_false_iff in Hg as [H1 H2]. apply negb_false_iff in H1.
  split; [done|]. split; [done|]. apply andb_false_iff in H2 as [H2|H2]; bool_prop; auto.
Qed.

(** A restart of a paused campaign, taken apart. *)
Lemma resume_paused_spec db cid actor reason now evaluated_at clock t db' c pause :
  newest (campaign_transitions db cid) = Some pause ->
  _campaign db cid = Ok c -> ca_status c = "paused"%string ->
  resume_campaign_after_budget_pause db cid actor reason now evaluated_at clock = Ok (t, db') ->
  exists check c', authorize_resume db c pause evaluated_at = Ok check
    /\ _campaign db' cid = Ok c' /\ ca_status c' = current_name (bt_prior_status pause).
Proof.
  intros Hnew Hc Hpaused Hrun. unfold resume_campaign_after_budget_pause in Hrun.
  ok_step Hrun. cbn zeta in Hrun. ok_step Hrun.
  rewrite Hc in Hrun. cbn [mbind result_bind] in Hrun.
  rewrite Hpaused, (bool_decide_eq_true_2 ("paused"%string = _)), Hnew in Hrun by done.
  cbn [negb require_some mbind result_bind] in Hrun.
  ok_step Hrun. ok_step Hrun.
  ok_step Hrun as check Hauth. ok_step Hrun as db4 Hfl.
  ok_step Hrun as [out db5] Hnot. injection Hrun as <- <-. cbn [snd].
  apply business_notifications_spec in Hnot as [Hnot _]. apply notified_tables in Hnot as (Ecs & _ & _).
  unfold flush_transition in Hfl. do 2 ok_step Hfl. injection Hfl as <-.
  pose proof (campaign_id_of _ _ _ Hc) as Hid. rewrite Hid in Ecs.
  destruct (campaign_status_set cid (current_name (bt_prior_status pause)) db cid c Hc) as (c' & H1 & _ & _ & H4).
  rewrite bool_decide_eq_true_2 in H4 by done. exists check, c'. split; [done|].
  split; [unfold _campaign in *; by rewrite Ecs | done].
Qed.

(** a campaign that budget enforcement paused is only restarted when what
    is booked is within its budget again and either the budget or the confirmed
    funding (the booked total, its basis, the terms and the active cash
    allocations) differs from what the pause was decided on; it then goes back
    to the status it was paused from. *)
Theorem resume_needs_new_facts db0 cid now0 clock0 chk0 db1 pause db2 actor reason now evaluated_at clock t db3 c0 c2 :
  _campaign db0 cid = Ok c0 ->
  enforce_campaign_budget db0 cid now0 clock0 = Ok (Some chk0, db1) ->
  bs_transitions db1 = bs_transitions db0 ++ [pause] ->
  newest (campaign_transitions db2 cid) = Some pause ->
  _campaign db2 cid = Ok c2 -> ca_status c2 = "paused"%string ->
  resume_campaign_after_budget_pause db2 cid actor reason now evaluated_at clock = Ok (t, db3) ->
  exists budget booked source booked0 source0 c3,
    ca_budget_amount c2 = Some budget
    /\ _campaign_billing_spend db2 cid = Ok (booked, source) /\ booked <= budget
    /\ _campaign_billing_spend db0 cid = Ok (booked0, source0)
    /\ (ca_budget_amount c0 <> Some budget
        \/ funding_facts db0 cid booked0 source0 <> funding_facts db2 cid booked source)
    /\ _campaign db3 cid = Ok c3 /\ ca_status c3 = ca_status c0.
Proof.
  intros Hc0 (c & Hc & Hcase)%enforce_spec Hts Hnew Hc2 Hpaused Hrun.
  assert (c = c0) as -> by congruence.
  destruct Hcase as [(? & _)|(chk & chk' & dbp & out & Hchk & Hp & Hn & _)]; [done|].
  apply budget_notices_spec in Hn as [Hn _]. apply notified_tables in Hn as (_ & Et & _).
  apply apply_pause_spec in Hp as [(_ & -> & _)|(_ & Hlive & _ & ->)].
  { rewrite Hts in Et. apply (f_equal length) in Et. rewrite length_app in Et. cbn in Et. lia. }
  rewrite Hts in Et. cbn in Et. apply app_inv_head in Et as [= ->].
  destruct (resume_paused_spec _ _ _ _ _ _ _ _ _ _ _ Hnew Hc2 Hpaused Hrun) as (chk2 & c3 & Hauth & Hc3 & Hst3).
  apply authorize_resume_spec in Hauth as (Hchk2 & Hallow & Hdiff).
  apply budget_check_spec in Hchk as (b0 & src0 & Hb0 & _ & Hsp0 & _ & Hbud0 & _ & _ & Hfp0 & _).
  apply budget_check_spec in Hchk2 as (b2 & src2 & Hb2 & _ & Hsp2 & _ & Hbud2 & _ & Hra & Hfp2 & _).
  pose proof (campaign_id_of _ _ _ Hc0) as Hid0. pose proof (campaign_id_of _ _ _ Hc2) as Hid2.
  rewrite Hid0 in *. rewrite Hid2 in *. rewrite Hra in Hallow. apply Z.leb_le in Hallow.
  exists b2, (bc_billing_spend_amount chk2), src2, (bc_billing_spend_amount chk), src0, c3.
  split; [done|]. split; [done|]. split; [done|]. split; [done|]. split.
  - cbn [bt_budget_amount bt_funding_fingerprint pause_transition] in Hdiff.
    destruct Hdiff as [Hd|Hd]; [left; congruence|right]. intros Heq. apply Hd.
    rewrite Hfp0, Hfp2. unfold _funding_fingerprint. by rewrite Heq.
  - split; [done|]. rewrite Hst3. cbn [bt_prior_status pause_transition]. unfold current_name.
    unfold live_status in Hlive. apply bool_decide_eq_true in Hlive.
    rewrite bool_decide_eq_false_2; [done|]. intros Heq. rewrite Heq in Hlive. set_solver.
Qed.
End Enforcement.

(** ** Witnesses: a debit note takes the booked total above budget and price *)

Module BudgetSample.
Import BillingSample.

Definition over_facts : billing_facts :=
  {| bs_users := bs_users facts; bs_organizations := bs_organizations facts;
     bs_memberships := bs_memberships facts; bs_preferences := bs_preferences facts;
     bs_terms := bs_terms facts; bs_invoices := bs_invoices facts; bs_gateway_events := [];
     bs_productions := [ProductionStart 40 4 None (Some 500) 600]; bs_cancellations := [] |}.

Definition over : billing_store :=
  {| bs_facts := over_facts;
     bs_campaigns := [Campaign 4 5 "active" None (Some 900000) "NGN"];
     bs_corrections :=
       [InvoiceCorrection 1 20 1 "COR-TMX-2026-000001-001" "DN-1" "" DEBIT_NOTE "NGN" 200000 0 200000
          "two more vehicles" 1 700];
     bs_receipts := []; bs_receipt_events := []; bs_allocations := [];
     bs_refunds := []; bs_transitions := []; bs_notifications := []; bs_jobs := ∅; bs_audit := [] |}.

Definition enforced : option budget_check * billing_store :=
  match enforce_campaign_budget over 4 1000 1001 with Ok r => r | Raise _ => (None, over) end.

Lemma enforced_runs : enforce_campaign_budget over 4 1000 1001 = Ok enforced.
Proof. vm_compute. reflexivity. Qed.

Definition check0 : budget_check :=
  match enforced.1 with Some c => c | None => BudgetCheck 0 "" 0 "" 0 false "" 0 false end.

Lemma enforced_pauses :
  enforce_campaign_budget over 4 1000 1001 = Ok (Some check0, enforced.2)
  /\ bc_pause_applied check0 = true.
Proof. vm_compute. split; reflexivity. Qed.

Definition pause : budget_campaign_transition :=
  BudgetCampaignTransition 1 4 None 900000 (bc_funding_fingerprint check0) ACTION_PAUSE "active" "paused"
    None (Some "Booked charges exceed the total budget and accepted price"%string) 1000.

(** The advertiser's budget is raised to cover what is booked. *)
Definition raised : billing_store :=
  with_campaigns (fun _ => [Campaign 4 5 "paused" None (Some 1300000) "NGN"]) enforced.2.

Definition resumed_outcome := resume_campaign_after_budget_pause raised 4 1 "budget raised" 2000 2001 2002.

Definition resumed : budget_campaign_transition * billing_store :=
  match resumed_outcome with Ok r => r | Raise _ => (pause, raised) end.

Lemma resumed_runs :
  resume_campaign_after_budget_pause raised 4 1 "budget raised" 2000 2001 2002 = Ok (resumed.1, resumed.2).
Proof. vm_compute. reflexivity. Qed.
End BudgetSample.

Import BillingSample BudgetSample.

Lemma enforce_campaign_budget_idempotent_witness :
  (exists check', enforce_campaign_budget enforced.2 4 5000 5001 = Ok (check', enforced.2))
  /\ length (bs_notifications enforced.2) = 3%nat.
Proof.
  split; [|vm_compute; reflexivity].
  apply (enforce_campaign_budget_idempotent over 4 1000 1001 enforced.1 enforced.2 5000 5001).
  rewrite enforced_runs. destruct enforced as [check db]. reflexivity.
Defined.

Lemma sweep_stops_overspent_campaigns_witness :
  stopped_or_covered (sweep_campaign_budgets (fun _ => (1000, 1001)) over).2 4.
Proof.
  destruct (sweep_stops_overspent_campaigns (fun _ => (1000, 1001)) over
    (Campaign 4 5 "active" None (Some 900000) "NGN") 900000) as [H|(mid & e & _ & He)].
  - left.
  - reflexivity.
  - reflexivity.
  - exact H.
  - intros c b Hc Hb Hpos Hlive. vm_compute in Hc. injection Hc as <-. vm_compute in Hlive. discriminate Hlive.
Defined.

Lemma resume_needs_new_facts_witness :
  exists c3, _campaign resumed.2 4 = Ok c3 /\ ca_status c3 = "active"%string.
Proof.
  destruct (resume_needs_new_facts over 4 1000 1001 check0 enforced.2 pause raised 1 "budget raised"
    2000 2001 2002 resumed.1 resumed.2 (Campaign 4 5 "active" None (Some 900000) "NGN")
    (Campaign 4 5 "paused" None (Some 1300000) "NGN"))
    as (budget & booked & source & booked0 & source0 & c3 & _ & _ & _ & _ & _ & H1 & H2).
  - reflexivity.
  - exact (proj1 enforced_pauses).
  - vm_compute. reflexivity.
  - vm_compute. reflexivity.
  - vm_compute. reflexivity.
  - reflexivity.
  - exact resumed_runs.
  - exists c3. split; [exact H1 | exact H2].
Defined.
