(* ===== verification/DisbursementData.v ===== *)
(** Rows of the disbursement tables ([app/models/disbursement.py],
    [app/models/payee.py], [app/models/trip_analytics.py] (fraud flags),
    [app/models/fraud_dispute.py], [app/models/fraud_assessment.py],
    [app/models/route_replay.py]), their constraints, and the store the
    disbursement and fraud services read and write. *)

From stdpp Require Import base list strings gmap.
From Stdlib Require Import ZArith Lia Ascii.
From S2P Require Import Prelude PayoutData Text Json BillingData.

#[local] Open Scope Z_scope.

(** ** Enumerations *)

Inductive payout_batch_status :=
| BATCH_DRAFT | BATCH_RESERVED | BATCH_SUBMITTED | BATCH_RECONCILED | BATCH_COMPLETED
| BATCH_FAILED | BATCH_VOID.
Inductive payout_batch_approval_mode := APPROVAL_MANUAL | APPROVAL_AUTOMATIC.
Inductive observation_outcome := OBS_SUBMITTED | OBS_FOUND | OBS_NOT_FOUND | OBS_UNKNOWN.
Inductive fraud_flag_status := FLAG_OPEN | FLAG_CONFIRMED | FLAG_DISMISSED.
Inductive fraud_dispute_status := DISPUTE_OPEN | DISPUTE_REPLIED.
Inductive fraud_assessment_status :=
| ASSESSMENT_PENDING | ASSESSMENT_CLEAN | ASSESSMENT_FLAGGED | ASSESSMENT_ERROR.
Inductive route_replay_status := REPLAY_COMPUTED | REPLAY_INSUFFICIENT_DATA | REPLAY_ERROR.
Inductive payout_automatic_alert_kind :=
| FAILED_PAYMENT | DUPLICATE_PAYMENT | DAILY_LIMIT | RUN_FAILED | SUBMISSION_BLOCKED | BUSINESS_HEALTH.

#[export] Instance payout_batch_status_eq_dec : EqDecision payout_batch_status.
Proof. solve_decision. Defined.
#[export] Instance payout_batch_approval_mode_eq_dec : EqDecision payout_batch_approval_mode.
Proof. solve_decision. Defined.
#[export] Instance observation_outcome_eq_dec : EqDecision observation_outcome.
Proof. solve_decision. Defined.
#[export] Instance fraud_flag_status_eq_dec : EqDecision fraud_flag_status.
Proof. solve_decision. Defined.
#[export] Instance fraud_dispute_status_eq_dec : EqDecision fraud_dispute_status.
Proof. solve_decision. Defined.
#[export] Instance fraud_assessment_status_eq_dec : EqDecision fraud_assessment_status.
Proof. solve_decision. Defined.
#[export] Instance route_replay_status_eq_dec : EqDecision route_replay_status.
Proof. solve_decision. Defined.

(** [CARDVERT_AUTOMATIC_PAYOUT_ACTOR_ID] and its seeded identity. *)
Definition CARDVERT_AUTOMATIC_PAYOUT_ACTOR_ID : uuid := 0x6c0de0000000400080000000000000001.
Definition CARDVERT_AUTOMATIC_PAYOUT_ACTOR_EMAIL : string := "automatic-payouts@cardvert.invalid".
Definition CARDVERT_AUTOMATIC_PAYOUT_ACTOR_NAME : string := "Cardvert (automatic payouts)".

(** The strings of the enumerations. *)
Definition observation_value (o : observation_outcome) : string :=
  match o with
  | OBS_SUBMITTED => "submitted" | OBS_FOUND => "found"
  | OBS_NOT_FOUND => "not_found" | OBS_UNKNOWN => "unknown"
  end.

Definition flag_status_value (s : fraud_flag_status) : string :=
  match s with FLAG_OPEN => "open" | FLAG_CONFIRMED => "confirmed" | FLAG_DISMISSED => "dismissed" end.

Definition replay_status_value (s : route_replay_status) : string :=
  match s with
  | REPLAY_COMPUTED => "computed" | REPLAY_INSUFFICIENT_DATA => "insufficient_data"
  | REPLAY_ERROR => "error"
  end.

Definition alert_kind_value (k : payout_automatic_alert_kind) : string :=
  match k with
  | FAILED_PAYMENT => "failed_payment" | DUPLICATE_PAYMENT => "duplicate_payment"
  | DAILY_LIMIT => "daily_limit" | RUN_FAILED => "run_failed"
  | SUBMISSION_BLOCKED => "submission_blocked" | BUSINESS_HEALTH => "business_health"
  end.

(** ** Rows *)

Record payout_batch := PayoutBatch {
  pb_id : uuid;
  pb_status : payout_batch_status;
  pb_currency : string;
  pb_total_amount : kobo;
  pb_instruction_set_fingerprint : option string;
  pb_provider_submission_reference : option string;
  pb_created_by_user_id : uuid;
  pb_approved_by_user_id : option uuid;
  pb_approved_at : option Z;
  pb_submitted_at : option Z;
  pb_approval_mode : payout_batch_approval_mode;
  pb_automatic_run_id : option uuid
}.

Record payout_submission_attempt := PayoutSubmissionAttempt {
  sa_id : uuid;
  sa_intent_id : uuid;
  sa_generation : Z;
  sa_claim_token : uuid;
  sa_action : submission_claim_action;
  sa_idempotency_key : string;
  sa_instruction_fingerprint : string
}.

Record payout_submission_observation := PayoutSubmissionObservation {
  so_id : uuid;
  so_attempt_id : uuid;
  so_intent_id : uuid;
  so_generation : Z;
  so_idempotency_key : string;
  so_instruction_fingerprint : string;
  so_outcome : observation_outcome;
  so_provider_submission_reference : option string;
  so_provider_transfer_reference : option string;
  so_evidence_fingerprint : string;
  so_error_code : option string;
  so_observed_at : Z
}.

Record payout_line_reconciliation_event := PayoutLineReconciliationEvent {
  rc_id : uuid;
  rc_line_id : uuid;
  rc_provider_event_id : string;
  rc_source : string;
  rc_outcome : string;
  rc_evidence_fingerprint : string;
  rc_provider_occurred_at : Z;
  rc_applied : bool;
  rc_reconciled_by_user_id : option uuid
}.

Record payout_provider_event := PayoutProviderEvent {
  pe_id : uuid;
  pe_provider : string;
  pe_provider_event_id : string;
  pe_provider_event_type : string;
  pe_provider_transfer_reference : string;
  pe_provider_reference : string;
  pe_amount : kobo;
  pe_currency : string;
  pe_outcome : string;
  pe_provider_occurred_at : Z;
  pe_evidence_fingerprint : string;
  pe_received_at : Z
}.

Record provider_event_processing_attempt := ProviderEventProcessingAttempt {
  pp_id : uuid;
  pp_provider_event_id : uuid;
  pp_attempt_number : Z;
  pp_processed : bool;
  pp_error_code : option string;
  pp_reconciliation_event_id : option uuid;
  pp_processed_at : Z
}.

Record payee := Payee {
  py_id : uuid;
  py_tenant_id : uuid;
  py_payee_type : string;
  py_subject_id : uuid
}.

Record payee_version := PayeeVersion {
  pv_id : uuid;
  pv_payee_id : uuid;
  pv_version : Z;
  pv_payee_type : string;
  pv_subject_id : uuid
}.

Record payee_bank_account := PayeeBankAccount {
  ba_id : uuid;
  ba_payee_id : uuid
}.

(** [av_encrypted_details] are the members of the stored JSON object. *)
Record payee_bank_account_version := PayeeBankAccountVersion {
  av_id : uuid;
  av_bank_account_id : uuid;
  av_payee_version_id : uuid;
  av_version : Z;
  av_encrypted_details : list (string * json);
  av_encryption_algorithm : string;
  av_encryption_key_version : Z;
  av_verification_reference_sha256 : string;
  av_verified_by_user_id : uuid
}.

Record payee_payout_verification := PayeePayoutVerification {
  vf_id : uuid;
  vf_bank_account_version_id : uuid;
  vf_verification_reference_sha256 : string;
  vf_verified_by_user_id : uuid
}.

(** [fl_evidence] is the canonical JSON text of the evidence document. *)
Record fraud_flag := FraudFlag {
  fl_id : uuid;
  fl_trip_session_id : uuid;
  fl_trip_analytics_id : option uuid;
  fl_campaign_id : uuid;
  fl_driver_profile_id : uuid;
  fl_flag_type : string;
  fl_severity : string;
  fl_status : fraud_flag_status;
  fl_description : string;
  fl_evidence : string;
  fl_detected_at : Z;
  fl_reviewed_by_user_id : option uuid;
  fl_reviewed_at : option Z;
  fl_resolution_note : option string;
  fl_escalated_at : option Z;
  fl_updated_at : Z
}.

Record fraud_dispute := FraudDispute {
  fd_id : uuid;
  fd_fraud_flag_id : uuid;
  fd_driver_profile_id : uuid;
  fd_submitted_by_user_id : uuid;
  fd_message : string;
  fd_status : fraud_dispute_status;
  fd_replied_by_user_id : option uuid;
  fd_replied_at : option Z;
  fd_reply_text : option string
}.

Record fraud_assessment := FraudAssessment {
  fa_id : uuid;
  fa_trip_session_id : uuid;
  fa_trip_analytics_id : uuid;
  fa_status : fraud_assessment_status;
  fa_formula_version : string;
  fa_source_analytics_fingerprint : string;
  fa_inputs_fingerprint : string;
  fa_flags_count : Z;
  fa_flags_updated_through : option Z;
  fa_error_code : option string;
  fa_assessed_at : option Z
}.

Record route_replay_signature := RouteReplaySignature {
  rr_id : uuid;
  rr_trip_session_id : uuid;
  rr_trip_analytics_id : uuid;
  rr_status : route_replay_status;
  rr_detector_version : string;
  rr_detector_config_fingerprint : string;
  rr_source_analytics_fingerprint : string;
  rr_payload_fingerprint : option string;
  rr_normalized_fingerprint : option string;
  rr_point_count : Z
}.

(** The Finance pause switch, a single row. *)
Record payout_automatic_control := PayoutAutomaticControl {
  ctl_paused : bool;
  ctl_reason : option string;
  ctl_changed_by_user_id : option uuid;
  ctl_changed_at : option Z;
  ctl_actor_password_fingerprint : string
}.

Record payout_automatic_alert := PayoutAutomaticAlert {
  al_id : uuid;
  al_kind : payout_automatic_alert_kind;
  al_dedupe_key : string;
  al_run_id : option uuid;
  al_batch_id : option uuid;
  al_line_id : option uuid;
  al_ledger_entry_id : option uuid;
  al_driver_profile_id : option uuid;
  al_lagos_day : option Z;
  al_amount : option kobo;
  al_currency : option string;
  al_resolved_by_user_id : option uuid;
  al_resolved_at : option Z;
  al_resolution_note : option string
}.

(** ** The store *)

Record fraud_tables := FraudTables {
  ft_flags : list fraud_flag;
  ft_disputes : list fraud_dispute;
  ft_assessments : list fraud_assessment;
  ft_signatures : list route_replay_signature
}.

Record payee_tables := PayeeTables {
  yt_payees : list payee;
  yt_versions : list payee_version;
  yt_accounts : list payee_bank_account;
  yt_account_versions : list payee_bank_account_version;
  yt_verifications : list payee_payout_verification
}.

(** Batch lines, submission intents, ledger entries, recovery offsets and the
    audit trail are tables of the payout store; users and notifications those
    of the billing store. *)
Record disbursement_store := DisbursementStore {
  ds_payout :> payout_store;
  ds_billing : billing_store;
  ds_fraud : fraud_tables;
  ds_payees : payee_tables;
  ds_batches : list payout_batch;
  ds_attempts : list payout_submission_attempt;
  ds_observations : list payout_submission_observation;
  ds_events : list payout_line_reconciliation_event;
  ds_provider_events : list payout_provider_event;
  ds_processing : list provider_event_processing_attempt;
  ds_control : option payout_automatic_control;
  ds_alerts : list payout_automatic_alert
}.

Definition set_payout (f : payout_store -> payout_store)
    (db : disbursement_store) : disbursement_store :=
  {| ds_payout := f (ds_payout db); ds_billing := ds_billing db; ds_fraud := ds_fraud db;
     ds_payees := ds_payees db; ds_batches := ds_batches db; ds_attempts := ds_attempts db;
     ds_observations := ds_observations db; ds_events := ds_events db; ds_provider_events := ds_provider_events db;
     ds_processing := ds_processing db; ds_control := ds_control db; ds_alerts := ds_alerts db |}.

Definition set_billing (f : billing_store -> billing_store)
    (db : disbursement_store) : disbursement_store :=
  {| ds_payout := ds_payout db; ds_billing := f (ds_billing db); ds_fraud := ds_fraud db;
     ds_payees := ds_payees db; ds_batches := ds_batches db; ds_attempts := ds_attempts db;
     ds_observations := ds_observations db; ds_events := ds_events db; ds_provider_events := ds_provider_events db;
     ds_processing := ds_processing db; ds_control := ds_control db; ds_alerts := ds_alerts db |}.

Definition set_fraud (f : fraud_tables -> fraud_tables)
    (db : disbursement_store) : disbursement_store :=
  {| ds_payout := ds_payout db; ds_billing := ds_billing db; ds_fraud := f (ds_fraud db);
     ds_payees := ds_payees db; ds_batches := ds_batches db; ds_attempts := ds_attempts db;
     ds_observations := ds_observations db; ds_events := ds_events db; ds_provider_events := ds_provider_events db;
     ds_processing := ds_processing db; ds_control := ds_control db; ds_alerts := ds_alerts db |}.

Definition set_payees (f : payee_tables -> payee_tables)
    (db : disbursement_store) : disbursement_store :=
  {| ds_payout := ds_payout db; ds_billing := ds_billing db; ds_fraud := ds_fraud db;
     ds_payees := f (ds_payees db); ds_batches := ds_batches db; ds_attempts := ds_attempts db;
     ds_observations := ds_observations db; ds_events := ds_events db; ds_provider_events := ds_provider_events db;
     ds_processing := ds_processing db; ds_control := ds_control db; ds_alerts := ds_alerts db |}.

Definition set_batches (f : list payout_batch -> list payout_batch)
    (db : disbursement_store) : disbursement_store :=
  {| ds_payout := ds_payout db; ds_billing := ds_billing db; ds_fraud := ds_fraud db;
     ds_payees := ds_payees db; ds_batches := f (ds_batches db); ds_attempts := ds_attempts db;
     ds_observations := ds_observations db; ds_events := ds_events db; ds_provider_events := ds_provider_events db;
     ds_processing := ds_processing db; ds_control := ds_control db; ds_alerts := ds_alerts db |}.

Definition set_attempts (f : list payout_submission_attempt -> list payout_submission_attempt)
    (db : disbursement_store) : disbursement_store :=
  {| ds_payout := ds_payout db; ds_billing := ds_billing db; ds_fraud := ds_fraud db;
     ds_payees := ds_payees db; ds_batches := ds_batches db; ds_attempts := f (ds_attempts db);
     ds_observations := ds_observations db; ds_events := ds_events db; ds_provider_events := ds_provider_events db;
     ds_processing := ds_processing db; ds_control := ds_control db; ds_alerts := ds_alerts db |}.

Definition set_observations (f : list payout_submission_observation -> list payout_submission_observation)
    (db : disbursement_store) : disbursement_store :=
  {| ds_payout := ds_payout db; ds_billing := ds_billing db; ds_fraud := ds_fraud db;
     ds_payees := ds_payees db; ds_batches := ds_batches db; ds_attempts := ds_attempts db;
     ds_observations := f (ds_observations db); ds_events := ds_events db; ds_provider_events := ds_provider_events db;
     ds_processing := ds_processing db; ds_control := ds_control db; ds_alerts := ds_alerts db |}.

Definition set_events (f : list payout_line_reconciliation_event -> list payout_line_reconciliation_event)
    (db : disbursement_store) : disbursement_store :=
  {| ds_payout := ds_payout db; ds_billing := ds_billing db; ds_fraud := ds_fraud db;
     ds_payees := ds_payees db; ds_batches := ds_batches db; ds_attempts := ds_attempts db;
     ds_observations := ds_observations db; ds_events := f (ds_events db); ds_provider_events := ds_provider_events db;
     ds_processing := ds_processing db; ds_control := ds_control db; ds_alerts := ds_alerts db |}.

Definition set_provider_events (f : list payout_provider_event -> list payout_provider_event)
    (db : disbursement_store) : disbursement_store :=
  {| ds_payout := ds_payout db; ds_billing := ds_billing db; ds_fraud := ds_fraud db;
     ds_payees := ds_payees db; ds_batches := ds_batches db; ds_attempts := ds_attempts db;
     ds_observations := ds_observations db; ds_events := ds_events db; ds_provider_events := f (ds_provider_events db);
     ds_processing := ds_processing db; ds_control := ds_control db; ds_alerts := ds_alerts db |}.

Definition set_processing (f : list provider_event_processing_attempt -> list provider_event_processing_attempt)
    (db : disbursement_store) : disbursement_store :=
  {| ds_payout := ds_payout db; ds_billing := ds_billing db; ds_fraud := ds_fraud db;
     ds_payees := ds_payees db; ds_batches := ds_batches db; ds_attempts := ds_attempts db;
     ds_observations := ds_observations db; ds_events := ds_events db; ds_provider_events := ds_provider_events db;
     ds_processing := f (ds_processing db); ds_control := ds_control db; ds_alerts := ds_alerts db |}.

Definition set_control (f : option payout_automatic_control -> option payout_automatic_control)
    (db : disbursement_store) : disbursement_store :=
  {| ds_payout := ds_payout db; ds_billing := ds_billing db; ds_fraud := ds_fraud db;
     ds_payees := ds_payees db; ds_batches := ds_batches db; ds_attempts := ds_attempts db;
     ds_observations := ds_observations db; ds_events := ds_events db; ds_provider_events := ds_provider_events db;
     ds_processing := ds_processing db; ds_control := f (ds_control db); ds_alerts := ds_alerts db |}.

Definition set_alerts (f : list payout_automatic_alert -> list payout_automatic_alert)
    (db : disbursement_store) : disbursement_store :=
  {| ds_payout := ds_payout db; ds_billing := ds_billing db; ds_fraud := ds_fraud db;
     ds_payees := ds_payees db; ds_batches := ds_batches db; ds_attempts := ds_attempts db;
     ds_observations := ds_observations db; ds_events := ds_events db; ds_provider_events := ds_provider_events db;
     ds_processing := ds_processing db; ds_control := ds_control db; ds_alerts := f (ds_alerts db) |}.


(** [create_audit_event] *)
Definition audit (actor : option uuid) (action entity_type : string) (entity : uuid)
    (db : disbursement_store) : disbursement_store :=
  set_payout (create_audit_event actor action entity_type entity) db.

(** ** Updating a row

    A session holds one object per row: assigning to its attributes and flushing
    replaces the row with the same identifier. *)

Section SetRow.
Context {A : Type} (key : A -> uuid).

Definition set_row (row : A) (l : list A) : list A :=
  (fun r => if bool_decide (key r = key row) then row else r) <$> l.

(** The other rows of the table, for its unique indexes. *)
Definition other_rows (row : A) (l : list A) : list A :=
  List.filter (fun r => negb (bool_decide (key r = key row))) l.

Definition find_by_key (i : uuid) (l : list A) : option A :=
  find_row (fun r => bool_decide (key r = i)) l.

Lemma set_row_cons row x l :
  set_row row (x :: l) = (if bool_decide (key x = key row) then row else x) :: set_row row l.
Proof. reflexivity. Qed.

Lemma set_row_absent row l : (forall y, y ∈ l -> key y <> key row) -> set_row row l = l.
Proof.
  intros Hl. unfold set_row. rewrite <- (list_fmap_id l) at 2. apply list_fmap_ext. intros k y Hy.
  apply list_elem_of_lookup_2 in Hy. cbn. by rewrite bool_decide_eq_false_2 by auto.
Qed.

Lemma set_row_keys row l : key <$> set_row row l = key <$> l.
Proof.
  unfold set_row. rewrite <- list_fmap_compose. apply list_fmap_ext. intros _ r _. cbn.
  by destruct (bool_decide_reflect (key r = key row)).
Qed.

Lemma elem_of_set_row x row l :
  x ∈ set_row row l -> x = row \/ (x ∈ l /\ key x <> key row).
Proof.
  intros (r & -> & Hr)%list_elem_of_fmap.
  destruct (bool_decide_reflect (key r = key row)); [by left|by right].
Qed.

Lemma elem_of_set_row_other x row l :
  x ∈ l -> key x <> key row -> x ∈ set_row row l.
Proof.
  intros Hx Hk. apply list_elem_of_fmap. exists x. by rewrite bool_decide_eq_false_2.
Qed.

Lemma elem_of_set_row_same x row l :
  x ∈ l -> key x = key row -> row ∈ set_row row l.
Proof.
  intros Hx Hk. apply list_elem_of_fmap. exists x. by rewrite bool_decide_eq_true_2.
Qed.

Lemma find_by_key_Some i l r : find_by_key i l = Some r -> r ∈ l /\ key r = i.
Proof. intros [H1 H2]%find_row_Some. by apply bool_decide_eq_true in H2. Qed.

Lemma find_by_key_in l r : NoDup (key <$> l) -> r ∈ l -> find_by_key (key r) l = Some r.
Proof.
  intros Hnd Hr. destruct (find_by_key (key r) l) as [r'|] eqn:Hf.
  - apply find_by_key_Some in Hf as [Hr' Hk]. f_equal. by apply (nodup_key_inj key l).
  - eapply find_row_None in Hf; [|exact Hr]. by apply bool_decide_eq_false in Hf.
Qed.

Lemma find_row_set_row p row l r :
  find_row p l = Some r -> p row = true -> key r = key row -> find_row p (set_row row l) = Some row.
Proof.
  unfold find_row. intros Hf Hp Hk. induction l as [|x l IH]; [done|]. rewrite set_row_cons. cbn in *.
  destruct (bool_decide_reflect (key x = key row)) as [Hx|Hx]; [by rewrite Hp|].
  destruct (p x) eqn:Hpx; [congruence|by apply IH].
Qed.

Lemma find_set_row_same i row l r :
  find_by_key i l = Some r -> key row = i -> find_by_key i (set_row row l) = Some row.
Proof.
  unfold find_by_key, find_row. intros Hf Hk. induction l as [|x l IH]; cbn in *; [done|].
  destruct (bool_decide_reflect (key x = i)) as [Hx|Hx].
  - rewrite (bool_decide_eq_true_2 (key x = key row)) by congruence. by rewrite bool_decide_eq_true_2.
  - rewrite (bool_decide_eq_false_2 (key x = key row)) by congruence.
    rewrite bool_decide_eq_false_2 by done. by apply IH.
Qed.

Lemma find_set_row_other i row l :
  key row <> i -> find_by_key i (set_row row l) = find_by_key i l.
Proof.
  unfold find_by_key, find_row. intros Hk. induction l as [|x l IH]; cbn; [done|].
  destruct (bool_decide_reflect (key x = key row)) as [Hx|Hx].
  - rewrite (bool_decide_eq_false_2 (key row = i)), (bool_decide_eq_false_2 (key x = i)) by congruence.
    exact IH.
  - destruct (bool_decide (key x = i)); [done|exact IH].
Qed.

Lemma elem_of_other_rows x row l : x ∈ other_rows row l <-> x ∈ l /\ key x <> key row.
Proof.
  unfold other_rows. rewrite list_elem_of_In, filter_In, <- list_elem_of_In, negb_true_iff.
  by rewrite bool_decide_eq_false.
Qed.

(** Replacing a row keeps a unique index whose key no other row has. *)
Lemma unique_on_set_row {K} `{EqDecision K} (k : A -> option K) row l :
  NoDup (key <$> l) -> unique_on k l -> conflicts k row (other_rows row l) = false ->
  unique_on k (set_row row l).
Proof.
  unfold unique_on. induction l as [|x l IH]; intros Hnd Hu Hc; [constructor|].
  rewrite fmap_cons in Hnd. apply NoDup_cons in Hnd as [Hx Hnd]. rewrite set_row_cons.
  assert (Hsame : forall y, y ∈ l -> key y <> key x) by (intros y Hy Hk; apply Hx, list_elem_of_fmap; eauto).
  assert (Hfree : forall v y, k row = Some v -> y ∈ x :: l -> key y <> key row -> k y <> Some v).
  { intros v y Hv Hy Hne Hk. unfold conflicts in Hc. rewrite Hv in Hc. apply bool_decide_eq_false in Hc.
    apply Hc, list_elem_of_fmap. exists y. by rewrite elem_of_other_rows. }
  assert (Hsub : NoDup (omap k l)) by (cbn in Hu; destruct (k x); [by apply NoDup_cons in Hu as [_ Hu]|done]).
  destruct (bool_decide_reflect (key x = key row)) as [Heq|Hne].
  - rewrite (set_row_absent row l) by (intros y Hy; specialize (Hsame y Hy); congruence).
    cbn. destruct (k row) as [v|] eqn:Hv; [|done]. apply NoDup_cons. split; [|done].
    intros (y & Hy & Hky)%list_elem_of_omap. eapply Hfree; [done|right; exact Hy| |exact Hky].
    specialize (Hsame y Hy). congruence.
  - assert (IH' : NoDup (omap k (set_row row l))).
    { apply IH; [done..|]. unfold conflicts in *. destruct (k row); [|done].
      apply bool_decide_eq_false. intros (y & Hky & Hy)%list_elem_of_fmap.
      apply elem_of_other_rows in Hy as [Hy Hyne]. eapply Hfree; [done|right; exact Hy|done|done]. }
    cbn. destruct (k x) as [v|] eqn:Hv; [|exact IH']. apply NoDup_cons. split; [|exact IH'].
    cbn in Hu. rewrite Hv in Hu. apply NoDup_cons in Hu as [Hu _].
    intros (y & Hy & Hky)%list_elem_of_omap. apply elem_of_set_row in Hy as [->|[Hy _]].
    + eapply Hfree; [exact Hky|left|exact Hne|exact Hv].
    + apply Hu, list_elem_of_omap. eauto.
Qed.

(** The last of two updates of a row stays. *)
Lemma set_row_twice a b l : key a = key b -> set_row b (set_row a l) = set_row b l.
Proof.
  intros Hk. unfold set_row. rewrite <- list_fmap_compose. apply list_fmap_ext. intros _ y _. cbn.
  destruct (bool_decide_reflect (key y = key a)) as [He|He].
  - by rewrite !bool_decide_eq_true_2 by congruence.
  - done.
Qed.

Lemma set_row_self row l : NoDup (key <$> l) -> row ∈ l -> set_row row l = l.
Proof.
  intros Hnd Hrow. unfold set_row. rewrite <- (list_fmap_id l) at 2. apply list_fmap_ext. intros k y Hy.
  apply list_elem_of_lookup_2 in Hy. cbn. destruct (bool_decide_reflect (key y = key row)) as [Hk|]; [|done].
  symmetry. by apply (nodup_key_inj key l).
Qed.

Lemma set_row_snoc old row l :
  key old ∉ key <$> l -> key row = key old -> set_row row (l ++ [old]) = l ++ [row].
Proof.
  intros Hnew Hk. unfold set_row. rewrite fmap_app. fold (set_row row l). rewrite set_row_absent.
  - cbn. by rewrite bool_decide_eq_true_2.
  - intros y Hy Heq. apply Hnew, list_elem_of_fmap. exists y. split; [congruence|done].
Qed.
End SetRow.

(** ** Unique indexes that hold pass *)

Section Conflicts.
Context {A K : Type} `{EqDecision K} (key : A -> uuid) (k : A -> option K).

Lemma conflicts_fresh row l : (forall v y, k row = Some v -> y ∈ l -> k y <> Some v) -> conflicts k row l = false.
Proof.
  unfold conflicts. intros Hf. destruct (k row) as [v|] eqn:Hv; [|done]. apply bool_decide_eq_false.
  intros (y & Hy & Hin)%list_elem_of_fmap. by apply (Hf v y).
Qed.

(** A row that keeps its key. *)
Lemma conflicts_kept old row l :
  unique_on k l -> old ∈ l -> key row = key old -> k row = k old ->
  conflicts k row (other_rows key row l) = false.
Proof.
  intros Hu Hold Hkey Hk. apply conflicts_fresh. intros v y Hv [Hy Hne]%elem_of_other_rows Hyv.
  apply Hne. rewrite Hkey. f_equal. apply (unique_on_inj k l y old v); congruence.
Qed.

Lemma conflicts_free row l :
  (forall v y, k row = Some v -> y ∈ l -> k y <> Some v) -> conflicts k row (other_rows key row l) = false.
Proof. intros Hf. apply conflicts_fresh. intros v y Hv [Hy _]%elem_of_other_rows. by apply Hf. Qed.
End Conflicts.

(** ** Constraints *)

(** A [String(64)] column that holds a digest. *)
Definition digest_length (s : string) : bool := (String.length s =? 64)%nat.

(** The CHECK constraints of [payout_submission_intents]. *)
Definition payout_submission_intent_row_ok (i : payout_submission_intent) : bool :=
  let unclaimed := bool_decide (pi_claim_token i = None) && bool_decide (pi_claim_action i = None)
                   && bool_decide (pi_claim_expires_at i = None) in
  let unresolved := bool_decide (pi_provider_transfer_reference i = None)
                    && bool_decide (pi_resolved_at i = None) in
  digest_length (pi_instruction_fingerprint i) && digest_length (pi_idempotency_key i)
  && (0 <=? pi_generation i)
  && match pi_state i with
     | INTENT_PENDING | INTENT_QUERY_ONLY => unclaimed && unresolved
     | INTENT_CLAIMED =>
         (0 <? pi_generation i) && negb (bool_decide (pi_claim_token i = None))
         && negb (bool_decide (pi_claim_action i = None))
         && negb (bool_decide (pi_claim_expires_at i = None)) && unresolved
     | INTENT_RESOLVED =>
         unclaimed && negb (bool_decide (pi_provider_transfer_reference i = None))
         && negb (bool_decide (pi_resolved_at i = None))
     | INTENT_CANCELLED =>
         unclaimed && bool_decide (pi_provider_transfer_reference i = None)
         && negb (bool_decide (pi_resolved_at i = None))
     end.

Definition payout_submission_attempt_row_ok (a : payout_submission_attempt) : bool :=
  (0 <? sa_generation a) && digest_length (sa_idempotency_key a)
  && digest_length (sa_instruction_fingerprint a).

Definition payout_submission_observation_row_ok (o : payout_submission_observation) : bool :=
  (0 <? so_generation o) && digest_length (so_idempotency_key o)
  && digest_length (so_instruction_fingerprint o) && digest_length (so_evidence_fingerprint o)
  && match so_outcome o with
     | OBS_SUBMITTED | OBS_FOUND => negb (bool_decide (so_provider_transfer_reference o = None))
     | OBS_NOT_FOUND | OBS_UNKNOWN => bool_decide (so_provider_transfer_reference o = None)
     end.

Definition payout_batch_row_ok (b : payout_batch) : bool :=
  (String.length (pb_currency b) =? 3)%nat && (0 <=? pb_total_amount b)
  && Bool.eqb (bool_decide (pb_status b = BATCH_DRAFT))
       (bool_decide (pb_instruction_set_fingerprint b = None))
  && match pb_approval_mode b with
     | APPROVAL_MANUAL =>
         bool_decide (pb_automatic_run_id b = None)
         && negb (bool_decide (pb_created_by_user_id b = CARDVERT_AUTOMATIC_PAYOUT_ACTOR_ID))
     | APPROVAL_AUTOMATIC =>
         negb (bool_decide (pb_automatic_run_id b = None))
         && bool_decide (pb_created_by_user_id b = CARDVERT_AUTOMATIC_PAYOUT_ACTOR_ID)
         && bool_decide (pb_approved_by_user_id b = None)
         && negb (bool_decide (pb_approved_at b = None))
         && negb (bool_decide (pb_status b = BATCH_DRAFT))
     end.

(** [_SUBMISSION_INTENT_TRANSITIONS] *)
Definition _SUBMISSION_INTENT_TRANSITIONS : list (submission_intent_state * submission_intent_state) :=
  [(INTENT_PENDING, INTENT_CLAIMED); (INTENT_QUERY_ONLY, INTENT_CLAIMED);
   (INTENT_CLAIMED, INTENT_PENDING); (INTENT_CLAIMED, INTENT_QUERY_ONLY);
   (INTENT_CLAIMED, INTENT_RESOLVED); (INTENT_PENDING, INTENT_CANCELLED)].

(** [_SUBMISSION_INTENT_IDENTITY_FIELDS] unchanged. *)
Definition same_intent_identity (before after : payout_submission_intent) : bool :=
  bool_decide (pi_payout_batch_line_id before = pi_payout_batch_line_id after)
  && bool_decide (pi_provider_name before = pi_provider_name after)
  && bool_decide (pi_idempotency_key before = pi_idempotency_key after)
  && bool_decide (pi_instruction before = pi_instruction after)
  && bool_decide (pi_instruction_fingerprint before = pi_instruction_fingerprint after)
  && bool_decide (pi_requested_by_user_id before = pi_requested_by_user_id after).

(** The [before_update] listener of the table. *)
Definition validate_payout_submission_intent_update (before after : payout_submission_intent)
    : result unit :=
  raise_if (negb (same_intent_identity before after)) ValueError ;;
  raise_if (negb (bool_decide (pi_state before = pi_state after))
            && negb (bool_decide ((pi_state before, pi_state after) ∈ _SUBMISSION_INTENT_TRANSITIONS)))
    ValueError ;;
  let entering_claimed :=
    bool_decide (pi_state after = INTENT_CLAIMED)
    && (bool_decide (pi_state before = INTENT_PENDING) || bool_decide (pi_state before = INTENT_QUERY_ONLY)
        || bool_decide (pi_state before = INTENT_CLAIMED)) in
  let leaving_claimed :=
    bool_decide (pi_state before = INTENT_CLAIMED)
    && (bool_decide (pi_state after = INTENT_PENDING) || bool_decide (pi_state after = INTENT_QUERY_ONLY)
        || bool_decide (pi_state after = INTENT_RESOLVED)) in
  if entering_claimed then
    raise_if (negb (pi_generation after =? pi_generation before + 1)) ValueError
  else if leaving_claimed
          || (bool_decide (pi_state before = INTENT_PENDING) && bool_decide (pi_state after = INTENT_CANCELLED))
  then raise_if (negb (pi_generation after =? pi_generation before)) ValueError
  else Raise ValueError.

(** ** Unique indexes *)

Definition active_ledger_entry (l : payout_batch_line) : option uuid :=
  if pl_reservation_active l then Some (pl_ledger_entry_id l) else None.

Definition attempt_key (a : payout_submission_attempt) : option (uuid * Z) :=
  Some (sa_intent_id a, sa_generation a).

Definition observation_key (o : payout_submission_observation) : option (uuid * Z) :=
  Some (so_intent_id o, so_generation o).

Definition update_batch (b : payout_batch) (db : disbursement_store) : result disbursement_store :=
  raise_if (negb (payout_batch_row_ok b)) (IntegrityError "ck_payout_batches") ;;
  mret (set_batches (set_row pb_id b) db).

Definition flush_batch (b : payout_batch) (db : disbursement_store) : result disbursement_store :=
  raise_if (negb (payout_batch_row_ok b)) (IntegrityError "ck_payout_batches") ;;
  raise_if (conflicts (fun b => Some (pb_id b)) b (ds_batches db)) (IntegrityError "payout_batches_pkey") ;;
  mret (set_batches (fun l => l ++ [b]) db).

(** The constraints of one batch line against the other [rows]. *)
Definition line_constraints (l : payout_batch_line) (rows : list payout_batch_line) : result unit :=
  raise_if (negb (payout_batch_line_row_ok l && (String.length (pl_currency l) =? 3)%nat
                  && digest_length (pl_instruction_fingerprint l)))
    (IntegrityError "ck_payout_batch_lines") ;;
  raise_if (conflicts (fun l => Some (pl_idempotency_key l)) l rows)
    (IntegrityError "uq_payout_batch_lines_idempotency_key") ;;
  raise_if (conflicts active_ledger_entry l rows)
    (IntegrityError "uq_payout_batch_lines_active_ledger_entry") ;;
  raise_if (conflicts pl_predecessor_line_id l rows)
    (IntegrityError "uq_payout_batch_lines_predecessor") ;;
  raise_if (conflicts pl_provider_transfer_reference l rows)
    (IntegrityError "uq_payout_batch_lines_provider_transfer_reference").

Definition flush_line (l : payout_batch_line) (db : disbursement_store) : result disbursement_store :=
  line_constraints l (st_lines db) ;;
  mret (set_payout (with_lines (fun rows => rows ++ [l])) db).

(** The trigger [guard_payout_batch_line_mutation] of the migrations, which sees
    every update of a line.  The columns it compares first (batch, entry,
    predecessor, versions, amount, currency, instruction, key). *)
Definition same_line_identity (before after : payout_batch_line) : bool :=
  bool_decide (pl_batch_id before = pl_batch_id after)
  && bool_decide (pl_ledger_entry_id before = pl_ledger_entry_id after)
  && bool_decide (pl_predecessor_line_id before = pl_predecessor_line_id after)
  && bool_decide (pl_payee_version_id before = pl_payee_version_id after)
  && bool_decide (pl_bank_account_version_id before = pl_bank_account_version_id after)
  && bool_decide (pl_amount before = pl_amount after)
  && bool_decide (pl_currency before = pl_currency after)
  && bool_decide (pl_instruction before = pl_instruction after)
  && bool_decide (pl_instruction_fingerprint before = pl_instruction_fingerprint after)
  && bool_decide (pl_idempotency_key before = pl_idempotency_key after).

Definition line_transition (before after : payout_batch_line_status) : bool :=
  bool_decide (before = after)
  || bool_decide ((before, after) ∈ [(LINE_RESERVED, LINE_SUBMITTED); (LINE_RESERVED, LINE_VOID);
                                     (LINE_SUBMITTED, LINE_SUCCEEDED); (LINE_SUBMITTED, LINE_FAILED);
                                     (LINE_FAILED, LINE_SUCCEEDED)]).

Definition guard_payout_batch_line_mutation (before after : payout_batch_line) : bool :=
  same_line_identity before after
  && line_transition (pl_status before) (pl_status after)
  && (bool_decide (pl_provider_transfer_reference before = pl_provider_transfer_reference after)
      || (bool_decide (pl_provider_transfer_reference before = None)
          && bool_decide (pl_status before = LINE_RESERVED) && bool_decide (pl_status after = LINE_SUBMITTED)))
  && (bool_decide (pl_reservation_active before = pl_reservation_active after)
      || (pl_reservation_active before
          && bool_decide (pl_status after ∈ [LINE_SUCCEEDED; LINE_FAILED; LINE_VOID]))).

(** The trigger runs before the constraints are checked. *)
Definition update_line (l : payout_batch_line) (db : disbursement_store) : result disbursement_store :=
  raise_if (negb (match find_by_key pl_id (pl_id l) (st_lines db) with
                  | Some before => guard_payout_batch_line_mutation before l
                  | None => true
                  end)) DBAPIError ;;
  line_constraints l (other_rows pl_id l (st_lines db)) ;;
  mret (set_payout (with_lines (set_row pl_id l)) db).

Definition intent_constraints (i : payout_submission_intent) (rows : list payout_submission_intent)
    : result unit :=
  raise_if (negb (payout_submission_intent_row_ok i)) (IntegrityError "ck_payout_submission_intents") ;;
  raise_if (conflicts (fun i => Some (pi_payout_batch_line_id i)) i rows)
    (IntegrityError "payout_submission_intents_payout_batch_line_id_key") ;;
  raise_if (conflicts (fun i => Some (pi_idempotency_key i)) i rows)
    (IntegrityError "payout_submission_intents_idempotency_key_key") ;;
  raise_if (conflicts pi_claim_token i rows)
    (IntegrityError "payout_submission_intents_claim_token_key") ;;
  raise_if (conflicts pi_provider_transfer_reference i rows)
    (IntegrityError "uq_payout_submission_intents_provider_transfer_reference").

Definition flush_intent (i : payout_submission_intent) (db : disbursement_store)
    : result disbursement_store :=
  intent_constraints i (st_intents db) ;;
  mret (set_payout (with_intents (fun rows => rows ++ [i])) db).

(** The flush of a changed intent: the listener, then the table. *)
Definition update_intent (before after : payout_submission_intent) (db : disbursement_store)
    : result disbursement_store :=
  validate_payout_submission_intent_update before after ;;
  intent_constraints after (other_rows pi_id after (st_intents db)) ;;
  mret (set_payout (with_intents (set_row pi_id after)) db).

Definition flush_attempt (a : payout_submission_attempt) (db : disbursement_store)
    : result disbursement_store :=
  raise_if (negb (payout_submission_attempt_row_ok a)) (IntegrityError "ck_payout_submission_attempts") ;;
  raise_if (conflicts attempt_key a (ds_attempts db))
    (IntegrityError "uq_payout_submission_attempts_intent_generation") ;;
  raise_if (conflicts (fun a => Some (sa_claim_token a)) a (ds_attempts db))
    (IntegrityError "uq_payout_submission_attempts_claim_token") ;;
  mret (set_attempts (fun l => l ++ [a]) db).

(** [fk_payout_submission_observations_attempt_binding] *)
Definition observes (o : payout_submission_observation) (a : payout_submission_attempt) : bool :=
  bool_decide (sa_id a = so_attempt_id o) && bool_decide (sa_intent_id a = so_intent_id o)
  && (sa_generation a =? so_generation o)
  && bool_decide (sa_idempotency_key a = so_idempotency_key o)
  && bool_decide (sa_instruction_fingerprint a = so_instruction_fingerprint o).

Definition flush_observation (o : payout_submission_observation) (db : disbursement_store)
    : result disbursement_store :=
  raise_if (negb (payout_submission_observation_row_ok o))
    (IntegrityError "ck_payout_submission_observations") ;;
  raise_if (conflicts (fun o => Some (so_attempt_id o)) o (ds_observations db))
    (IntegrityError "uq_payout_submission_observations_attempt") ;;
  raise_if (conflicts observation_key o (ds_observations db))
    (IntegrityError "uq_payout_submission_observations_intent_generation") ;;
  raise_if (negb (existsb (observes o) (ds_attempts db)))
    (IntegrityError "fk_payout_submission_observations_attempt_binding") ;;
  mret (set_observations (fun l => l ++ [o]) db).

(** ** A concrete store for the examples *)

Module DisbursementSample.

(** A 64-character digest of a text: its value in base 33 modulo 2^28. *)
Fixpoint text_value (s : string) (acc : N) : N :=
  match s with
  | EmptyString => acc
  | String c s => text_value s (N.land (acc * 33 + N_of_ascii c + 1) 268435455)
  end.
#[export] Instance digest : Sha256 := fun s => hex_digits 64 (text_value s 0) "".

Definition payout_tables : payout_store :=
  {| st_trips := []; st_analytics := []; st_estimates := []; st_bindings := [];
     st_campaigns := []; st_rules := []; st_revisions := []; st_calculations := [];
     st_ledger := []; st_orders := []; st_lines := []; st_intents := []; st_offsets := [];
     st_profiles := [DriverProfile 5 50]; st_cutoffs := []; st_audit := [] |}.

Definition facts : billing_facts :=
  {| bs_users := [User 1 ROLE_ADMIN USER_ACTIVE 1 "" "" ""; User 2 ROLE_ADMIN USER_ACTIVE 1 "" "" "";
                  User 50 ROLE_DRIVER USER_ACTIVE 1 "" "" ""];
     bs_organizations := []; bs_memberships := []; bs_preferences := []; bs_terms := [];
     bs_invoices := []; bs_gateway_events := []; bs_productions := []; bs_cancellations := [] |}.

Definition billing_tables : billing_store :=
  {| bs_facts := facts; bs_campaigns := []; bs_corrections := []; bs_receipts := [];
     bs_receipt_events := []; bs_allocations := []; bs_refunds := []; bs_transitions := [];
     bs_notifications := []; bs_jobs := ∅; bs_audit := [] |}.

Definition store : disbursement_store :=
  {| ds_payout := payout_tables; ds_billing := billing_tables; ds_fraud := FraudTables [] [] [] [];
     ds_payees := PayeeTables [] [] [] [] []; ds_batches := []; ds_attempts := [];
     ds_observations := []; ds_events := []; ds_provider_events := []; ds_processing := [];
     ds_control := None; ds_alerts := [] |}.
End DisbursementSample.
