(* ===== verification/Payees.v ===== *)
(** Payees: who is paid and where ([app/services/payees.py]).  A payee and its
    bank account keep append-only versions; a version holds the account details
    encrypted for its tenant and record, and a separate row authorizes payouts
    to exactly that version.  A payout instruction freezes a payee version and an
    account version, and the system reads exactly these at submission. *)

From stdpp Require Import base list strings gmap.
From Stdlib Require Import ZArith Lia Ascii.
From S2P Require Import Prelude PayoutData Text Json Crypto BillingData DisbursementData.

#[local] Open Scope Z_scope.

Definition BANK_ACCOUNT_DETAILS_FIELD : string := "bank_account.details".
Definition PAYEE_DRIVER : string := "driver".

Record verified_bank_account_details := VerifiedBankAccountDetails {
  vd_account_name : string;
  vd_account_number : string;
  vd_bank_code : string
}.

(** ** Tables *)

Definition payees (db : disbursement_store) : list payee := yt_payees (ds_payees db).
Definition payee_versions (db : disbursement_store) : list payee_version := yt_versions (ds_payees db).
Definition bank_accounts (db : disbursement_store) : list payee_bank_account := yt_accounts (ds_payees db).
Definition account_versions (db : disbursement_store) : list payee_bank_account_version :=
  yt_account_versions (ds_payees db).
Definition payout_verifications (db : disbursement_store) : list payee_payout_verification :=
  yt_verifications (ds_payees db).

(** An integer column holds 32 bits. *)
Definition int_column (n : Z) : result unit := raise_if (negb ((- 2 ^ 31 <=? n) && (n <? 2 ^ 31))) DataError.

Definition flush_payee (p : payee) (db : disbursement_store) : result disbursement_store :=
  raise_if (negb (bool_decide (py_payee_type p = PAYEE_DRIVER))) (IntegrityError "ck_payees_type") ;;
  raise_if (conflicts (fun p => Some (py_tenant_id p, py_payee_type p, py_subject_id p)) p (payees db))
    (IntegrityError "uq_payees_tenant_type_subject") ;;
  mret (set_payees (fun t => PayeeTables (yt_payees t ++ [p]) (yt_versions t) (yt_accounts t)
                               (yt_account_versions t) (yt_verifications t)) db).

Definition flush_payee_version (v : payee_version) (db : disbursement_store) : result disbursement_store :=
  raise_if (negb ((0 <? pv_version v) && bool_decide (pv_payee_type v = PAYEE_DRIVER)))
    (IntegrityError "ck_payee_versions") ;;
  raise_if (conflicts (fun v => Some (pv_payee_id v, pv_version v)) v (payee_versions db))
    (IntegrityError "uq_payee_versions_payee_version") ;;
  mret (set_payees (fun t => PayeeTables (yt_payees t) (yt_versions t ++ [v]) (yt_accounts t)
                               (yt_account_versions t) (yt_verifications t)) db).

Definition flush_bank_account (a : payee_bank_account) (db : disbursement_store) : result disbursement_store :=
  raise_if (conflicts (fun a => Some (ba_payee_id a)) a (bank_accounts db))
    (IntegrityError "uq_payee_bank_accounts_payee_id") ;;
  mret (set_payees (fun t => PayeeTables (yt_payees t) (yt_versions t) (yt_accounts t ++ [a])
                               (yt_account_versions t) (yt_verifications t)) db).

Definition account_version_row_ok (v : payee_bank_account_version) : bool :=
  (0 <? av_version v) && bool_decide (av_encryption_algorithm v = DATA_ALGORITHM)
  && (0 <? av_encryption_key_version v) && digest_length (av_verification_reference_sha256 v).

Definition flush_account_version (v : payee_bank_account_version) (db : disbursement_store)
    : result disbursement_store :=
  int_column (av_version v) ;;
  int_column (av_encryption_key_version v) ;;
  raise_if (negb (account_version_row_ok v)) (IntegrityError "ck_payee_bank_account_versions") ;;
  raise_if (conflicts (fun v => Some (av_bank_account_id v, av_version v)) v (account_versions db))
    (IntegrityError "uq_payee_bank_account_versions_account_version") ;;
  mret (set_payees (fun t => PayeeTables (yt_payees t) (yt_versions t) (yt_accounts t)
                               (yt_account_versions t ++ [v]) (yt_verifications t)) db).

Definition flush_payout_verification (v : payee_payout_verification) (db : disbursement_store)
    : result disbursement_store :=
  raise_if (negb (digest_length (vf_verification_reference_sha256 v)))
    (IntegrityError "ck_payee_bank_account_payout_verifications_hash") ;;
  raise_if (conflicts (fun v => Some (vf_bank_account_version_id v)) v (payout_verifications db))
    (IntegrityError "uq_payee_bank_account_payout_verifications_version") ;;
  mret (set_payees (fun t => PayeeTables (yt_payees t) (yt_versions t) (yt_accounts t)
                               (yt_account_versions t) (yt_verifications t ++ [v])) db).

(** ** Queries *)

(** [ORDER BY version DESC LIMIT 1] *)
Definition newest_by {A} (version : A -> Z) (l : list A) : option A :=
  head (stable_sort (fun a b => version b <=? version a) l).

Definition _current_payee_version (db : disbursement_store) (payee_id : uuid) : result payee_version :=
  require_some (newest_by pv_version
                  (List.filter (fun v => bool_decide (pv_payee_id v = payee_id)) (payee_versions db))) RuntimeError.

Definition _current_bank_account_version (db : disbursement_store) (bank_account_id : uuid)
    : result payee_bank_account_version :=
  require_some (newest_by av_version
                  (List.filter (fun v => bool_decide (av_bank_account_id v = bank_account_id)) (account_versions db)))
    RuntimeError.

Definition payee_account (db : disbursement_store) (payee_id : uuid) : option payee_bank_account :=
  find_row (fun a => bool_decide (ba_payee_id a = payee_id)) (bank_accounts db).

Definition bank_account_payout_verification (db : disbursement_store) (account_version_id : uuid)
    : option payee_payout_verification :=
  find_row (fun v => bool_decide (vf_bank_account_version_id v = account_version_id)) (payout_verifications db).

(** The version joined with its account and its payee. *)
Definition account_version_row (db : disbursement_store) (i : uuid)
    : option (payee_bank_account_version * payee_bank_account * payee) :=
  v ← find_by_key av_id i (account_versions db);
  a ← find_by_key ba_id (av_bank_account_id v) (bank_accounts db);
  p ← find_by_key py_id (ba_payee_id a) (payees db);
  Some (v, a, p).

Definition find_user (db : disbursement_store) (i : uuid) : option user :=
  find_row (fun u => bool_decide (us_id u = i)) (bs_users (ds_billing db)).

(** A driver whose application is open or accepted. *)
Definition applicant (u : user) : bool :=
  bool_decide (us_role u = ROLE_DRIVER)
  && (bool_decide (us_status u = USER_INVITED) || bool_decide (us_status u = USER_ACTIVE)).

(** ** Validation *)

Definition details_invalid : exn := AppError "BANK_ACCOUNT_DETAILS_INVALID" 422.

(** [len(value)] *)
Definition json_len (j : json) : result Z :=
  match j with
  | JString s => mret (Z.of_nat (String.length s))
  | JArray items => mret (Z.of_nat (length items))
  | JObject members => mret (Z.of_nat (length (remove_dups members.*1)))
  | _ => Raise TypeError
  end.

Definition checked_digits (low high : Z) (j : json) : result string :=
  n ← json_len j;
  raise_if (negb ((low <=? n) && (n <=? high))) details_invalid ;;
  match j with
  | JString s => raise_if (negb (all_digits s)) details_invalid ;; mret s
  | _ => Raise AttributeError
  end.

(** The fields of the dataclass are not checked to be strings. *)
Definition _validate_details (account_name account_number bank_code : json)
    : result verified_bank_account_details :=
  name ← match account_name with JString s => mret (strip s) | _ => Raise AttributeError end;
  let n := Z.of_nat (String.length name) in
  raise_if (negb ((2 <=? n) && (n <=? 160))) details_invalid ;;
  number ← checked_digits 10 10 account_number;
  code ← checked_digits 3 10 bank_code;
  mret (VerifiedBankAccountDetails name number code).

Definition is_control (c : ascii) : bool := let n := N_of_ascii c in ((n <? 32) || (n =? 127))%N.

Fixpoint has_control (s : string) : bool :=
  match s with EmptyString => false | String c s => is_control c || has_control s end.

Fixpoint purpose_body (s : string) : bool :=
  match s with
  | EmptyString => true
  | String c s =>
      let n := N_of_ascii c in
      (((97 <=? n) && (n <=? 122)) || ((48 <=? n) && (n <=? 57)) || (n =? 95))%N && purpose_body s
  end.

(** [PURPOSE_PATTERN.fullmatch] *)
Definition purpose_ok (s : string) : bool :=
  match s with
  | String c r =>
      let n := N_of_ascii c in
      ((97 <=? n) && (n <=? 122))%N && purpose_body r
      && (2 <=? String.length r)%nat && (String.length r <=? 63)%nat
  | EmptyString => false
  end.

Definition _normalize_purpose (purpose : string) : result string :=
  let normalized := strip purpose in
  raise_if (negb (purpose_ok normalized)) (AppError "BANK_ACCOUNT_READ_PURPOSE_INVALID" 422) ;;
  mret normalized.

Definition decryption_failed : exn := AppError "BANK_ACCOUNT_DECRYPTION_FAILED" 409.

(** [try: ... except CryptoOperationError: raise e] *)
Definition except_crypto {A} (e : exn) (r : result A) : result A :=
  match r with Raise CryptoOperationError => Raise e | r => r end.

Definition _parse_envelope (value : list (string * json)) : result ciphertext_envelope :=
  except_crypto decryption_failed (from_mapping value).

Section Payees.
Context `{Sha256} `{KeyCustody C} (float_of : string -> json).

Definition verification_reference_hash (reference : string) : result string :=
  let normalized := strip reference in
  raise_if (negb (nonempty normalized) || (512 <? Z.of_nat (String.length normalized)) || has_control reference)
    (AppError "VERIFICATION_REFERENCE_INVALID" 422) ;;
  mret (sha256_hexdigest normalized).

(** ** Payees *)

(** The answer is the payee with its current version. *)
Definition _create_driver_payee_locked (db : disbursement_store) (profile : driver_profile) (driver_user : user)
    (actor_user_id : uuid) (audit_action : string) : result (payee * payee_version * disbursement_store) :=
  let found := find_row (fun p => bool_decide (py_tenant_id p = us_id driver_user)
                                  && bool_decide (py_payee_type p = PAYEE_DRIVER)
                                  && bool_decide (py_subject_id p = dp_id profile)) (payees db) in
  match found with
  | Some p => v ← _current_payee_version db (py_id p); mret (p, v, db)
  | None =>
      let p := Payee (uuid4 (py_id <$> payees db)) (us_id driver_user) PAYEE_DRIVER (dp_id profile) in
      db ← flush_payee p db;
      let v := PayeeVersion (uuid4 (pv_id <$> payee_versions db)) (py_id p) 1 (py_payee_type p) (py_subject_id p) in
      db ← flush_payee_version v db;
      mret (p, v, audit (Some actor_user_id) audit_action "payee" (py_id p) db)
  end.

Definition find_profile (db : disbursement_store) (i : uuid) : option driver_profile :=
  find_row (fun p => bool_decide (dp_id p = i)) (st_profiles db).

(** Only driver payees exist during the pilot, so the payee type is not an
    argument here. *)
Definition create_pilot_payee (db : disbursement_store) (driver_profile_id actor_user_id : uuid)
    : result (payee * payee_version * disbursement_store) :=
  require_active_admin (ds_billing db) actor_user_id None ;;
  profile ← require_some (find_profile db driver_profile_id) (AppError "DRIVER_PROFILE_NOT_FOUND" 404);
  let subject_invalid := AppError "PAYEE_SUBJECT_INVALID" 409 in
  driver_user ← require_some (find_user db (dp_user_id profile)) subject_invalid;
  raise_if (negb (bool_decide (us_role driver_user = ROLE_DRIVER))) subject_invalid ;;
  _create_driver_payee_locked db profile driver_user actor_user_id "admin.payee.created".

Definition create_applicant_payee (db : disbursement_store) (driver_profile_id actor_user_id : uuid)
    : result (payee * payee_version * disbursement_store) :=
  let subject_invalid := AppError "PAYEE_SUBJECT_INVALID" 409 in
  profile ← require_some (find_profile db driver_profile_id) subject_invalid;
  driver_user ← require_some (find_user db actor_user_id) subject_invalid;
  raise_if (negb (bool_decide (dp_user_id profile = actor_user_id) && applicant driver_user)) subject_invalid ;;
  _create_driver_payee_locked db profile driver_user actor_user_id "driver_application.payee.created".

(** ** Bank account versions *)

Definition _record_payout_verification (db : disbursement_store) (v : payee_bank_account_version)
    (verification_hash : string) (actor_user_id : uuid)
    : result (payee_payout_verification * bool * disbursement_store) :=
  match bank_account_payout_verification db (av_id v) with
  | Some existing =>
      raise_if (negb (bool_decide (vf_verification_reference_sha256 existing = verification_hash)))
        (AppError "BANK_ACCOUNT_PAYOUT_VERIFICATION_CONFLICT" 409) ;;
      mret (existing, false, db)
  | None =>
      let verification := PayeePayoutVerification (uuid4 (vf_id <$> payout_verifications db)) (av_id v)
                            verification_hash actor_user_id in
      db ← flush_payout_verification verification db;
      mret (verification, true, db)
  end.

(** The account of the payee, created when there is none, and the number of its
    next version. *)
Definition account_for_version (db : disbursement_store) (p : payee)
    : result (payee_bank_account * Z * disbursement_store) :=
  match payee_account db (py_id p) with
  | None =>
      let a := PayeeBankAccount (uuid4 (ba_id <$> bank_accounts db)) (py_id p) in
      db ← flush_bank_account a db;
      mret (a, 1, db)
  | Some a =>
      current ← _current_bank_account_version db (ba_id a);
      mret (a, av_version current + 1, db)
  end.

Definition details_text (d : verified_bank_account_details) : string :=
  json_raw_object [("account_name", vd_account_name d); ("account_number", vd_account_number d);
                   ("bank_code", vd_bank_code d)]%string.

Definition account_data (p : payee) (a : payee_bank_account) : associated_data :=
  AssociatedData (py_tenant_id p) (ba_id a) BANK_ACCOUNT_DETAILS_FIELD.

Definition _add_verified_bank_account_version_authorized (r : randomness) (db : disbursement_store)
    (payee_id : uuid) (details : verified_bank_account_details) (verification_reference : string)
    (actor_user_id : uuid) (crypto : C) (audit_action : string) (payout_authoritative : bool)
    : result (payee_bank_account_version * disbursement_store) :=
  details ← _validate_details (JString (vd_account_name details)) (JString (vd_account_number details))
              (JString (vd_bank_code details));
  verification_hash ← verification_reference_hash verification_reference;
  p ← require_some (find_by_key py_id payee_id (payees db)) (AppError "PAYEE_NOT_FOUND" 404);
  raise_if (negb (bool_decide (py_payee_type p = PAYEE_DRIVER))) (AppError "PAYEE_TYPE_NOT_SUPPORTED" 409) ;;
  pv ← _current_payee_version db (py_id p);
  acc ← account_for_version db p;
  let '(a, next_version, db) := acc in
  envelope ← crypto_encrypt crypto r (details_text details) (account_data p a);
  let v := PayeeBankAccountVersion (uuid4 (av_id <$> account_versions db)) (ba_id a) (pv_id pv) next_version
    (to_mapping envelope) (ce_data_algorithm envelope) (ce_key_version envelope) verification_hash
    actor_user_id in
  db ← flush_account_version v db;
  db ← (if payout_authoritative
        then r ← _record_payout_verification db v verification_hash actor_user_id; mret r.2
        else mret db);
  mret (v, audit (Some actor_user_id) audit_action "payee_bank_account" (ba_id a) db).

Definition add_verified_bank_account_version (r : randomness) (db : disbursement_store) (payee_id : uuid)
    (details : verified_bank_account_details) (verification_reference : string) (actor_user_id : uuid)
    (crypto : C) : result (payee_bank_account_version * disbursement_store) :=
  require_active_admin (ds_billing db) actor_user_id None ;;
  _add_verified_bank_account_version_authorized r db payee_id details verification_reference actor_user_id
    crypto "admin.bank_account.verified" true.

Definition add_applicant_bank_account_version (r : randomness) (db : disbursement_store) (payee_id : uuid)
    (details : verified_bank_account_details) (verification_reference : string) (actor_user_id : uuid)
    (crypto : C) : result (payee_bank_account_version * disbursement_store) :=
  let forbidden := AppError "PAYEE_ACCESS_FORBIDDEN" 403 in
  actor ← require_some (find_user db actor_user_id) forbidden;
  p ← require_some (find_by_key py_id payee_id (payees db)) forbidden;
  raise_if (negb (applicant actor && bool_decide (py_tenant_id p = actor_user_id)
                  && bool_decide (py_payee_type p = PAYEE_DRIVER))) forbidden ;;
  _add_verified_bank_account_version_authorized r db payee_id details verification_reference actor_user_id
    crypto "driver_application.bank_account.captured" false.

Definition version_not_found : exn := AppError "BANK_ACCOUNT_VERSION_NOT_FOUND" 404.

Definition verify_bank_account_version_for_payout (db : disbursement_store) (bank_account_version_id : uuid)
    (verification_reference : string) (actor_user_id : uuid)
    : result (payee_bank_account_version * payee_payout_verification * disbursement_store) :=
  require_active_admin (ds_billing db) actor_user_id None ;;
  row ← require_some (account_version_row db bank_account_version_id) version_not_found;
  let v := row.1.1 in
  verification_hash ← verification_reference_hash verification_reference;
  r ← _record_payout_verification db v verification_hash actor_user_id;
  let '(verification, created, db) := r in
  mret (v, verification,
        if created : bool
        then audit (Some actor_user_id) "admin.bank_account.payout_verified" "payee_bank_account"
               (av_bank_account_id v) db
        else db).

(** ** Reading an account *)

(** What a decrypted text says; [decoded["..."]] of a document that is not an
    object raises. *)
Definition decode_details (plaintext : string) : result verified_bank_account_details :=
  j ← json_loads float_of plaintext;
  match j with
  | JObject members =>
      let get name := raise_if (negb (bool_decide (name ∈ members.*1))) KeyError ;; mret (member members name) in
      name ← get "account_name"%string;
      number ← get "account_number"%string;
      code ← get "bank_code"%string;
      _validate_details name number code
  | _ => Raise TypeError
  end.

Definition _read_verified_bank_account_authorized (db : disbursement_store) (bank_account_version_id : uuid)
    (actor_user_id : option uuid) (crypto : C) (purpose audit_action : string)
    : result (verified_bank_account_details * disbursement_store) :=
  purpose ← _normalize_purpose purpose;
  row ← require_some (account_version_row db bank_account_version_id) version_not_found;
  let '(v, a, p) := row in
  (if bool_decide (purpose = "person_payee_approval"%string) then
     current ← _current_bank_account_version db (ba_id a);
     raise_if (negb (bool_decide (av_id current = bank_account_version_id)))
       (AppError "BANK_ACCOUNT_VERSION_STALE" 409)
   else mret tt) ;;
  envelope ← _parse_envelope (av_encrypted_details v);
  details ← match (plaintext ← crypto_decrypt crypto envelope (account_data p a); decode_details plaintext) with
            | Raise (CryptoOperationError | KeyError | TypeError | ValueError) => Raise decryption_failed
            | r => r
            end;
  mret (details, audit actor_user_id audit_action "payee_bank_account" (ba_id a) db).

Definition read_verified_bank_account (db : disbursement_store) (bank_account_version_id actor_user_id : uuid)
    (crypto : C) (purpose : string) : result (verified_bank_account_details * disbursement_store) :=
  require_active_admin (ds_billing db) actor_user_id None ;;
  _read_verified_bank_account_authorized db bank_account_version_id (Some actor_user_id) crypto purpose
    "admin.bank_account.read".

(** The join that authorizes the system's own read. *)
Definition frozen_destination (db : disbursement_store) (payee_version_id bank_account_version_id : uuid) : bool :=
  match account_version_row db bank_account_version_id, find_by_key pv_id payee_version_id (payee_versions db) with
  | Some (v, a, p), Some pv =>
      bool_decide (av_payee_version_id v = payee_version_id) && bool_decide (pv_payee_id pv = py_id p)
      && negb (bool_decide (bank_account_payout_verification db bank_account_version_id = None))
  | _, _ => false
  end.

Definition read_frozen_payout_bank_account (db : disbursement_store)
    (payee_version_id bank_account_version_id : uuid) (crypto : C)
    : result (verified_bank_account_details * disbursement_store) :=
  raise_if (negb (frozen_destination db payee_version_id bank_account_version_id))
    (AppError "PAYOUT_DESTINATION_AUTHORITY_INVALID" 409) ;;
  _read_verified_bank_account_authorized db bank_account_version_id None crypto "provider_payout_submission"
    "worker.bank_account.payout_read".

Definition read_applicant_verified_bank_account (db : disbursement_store)
    (bank_account_version_id actor_user_id : uuid) (crypto : C) (purpose : string)
    : result (verified_bank_account_details * disbursement_store) :=
  let forbidden := AppError "PAYEE_ACCESS_FORBIDDEN" 403 in
  actor ← require_some (find_user db actor_user_id) forbidden;
  row ← require_some (account_version_row db bank_account_version_id) forbidden;
  raise_if (negb (applicant actor && bool_decide (py_tenant_id row.2 = actor_user_id))) forbidden ;;
  _read_verified_bank_account_authorized db bank_account_version_id (Some actor_user_id) crypto purpose
    "driver_application.bank_account.retry_read".

(** ** Key rotation *)

Definition rewrapped (current : payee_bank_account_version) (i : uuid) (rotated : ciphertext_envelope)
    : payee_bank_account_version :=
  PayeeBankAccountVersion i (av_bank_account_id current) (av_payee_version_id current) (av_version current + 1)
    (to_mapping rotated) (ce_data_algorithm rotated) (ce_key_version rotated)
    (av_verification_reference_sha256 current) (av_verified_by_user_id current).

Definition rewrap_bank_account (r : randomness) (db : disbursement_store) (bank_account_id actor_user_id : uuid)
    (crypto : C) : result (payee_bank_account_version * disbursement_store) :=
  require_active_admin (ds_billing db) actor_user_id None ;;
  a ← require_some (find_by_key ba_id bank_account_id (bank_accounts db)) (AppError "BANK_ACCOUNT_NOT_FOUND" 404);
  p ← require_some (find_by_key py_id (ba_payee_id a) (payees db)) AttributeError;
  current ← _current_bank_account_version db (ba_id a);
  if av_encryption_key_version current =? active_key_version crypto then mret (current, db)
  else
    let verification := bank_account_payout_verification db (av_id current) in
    envelope ← _parse_envelope (av_encrypted_details current);
    rotated ← except_crypto (AppError "BANK_ACCOUNT_REWRAP_FAILED" 409)
                (crypto_rotate crypto r envelope (account_data p a));
    let v := rewrapped current (uuid4 (av_id <$> account_versions db)) rotated in
    db ← flush_account_version v db;
    db ← match verification with
         | Some verification =>
             r ← _record_payout_verification db v (vf_verification_reference_sha256 verification)
                   (vf_verified_by_user_id verification);
             mret r.2
         | None => mret db
         end;
    mret (v, audit (Some actor_user_id) "admin.bank_account.rewrapped" "payee_bank_account" (ba_id a) db).
End Payees.

(** ** The tables only grow *)

(** Row identifiers are primary keys. *)
Record ids_ok (t : payee_tables) : Prop := IdsOk {
  io_payees : NoDup (py_id <$> yt_payees t);
  io_versions : NoDup (pv_id <$> yt_versions t);
  io_accounts : NoDup (ba_id <$> yt_accounts t);
  io_account_versions : NoDup (av_id <$> yt_account_versions t)
}.

(** Rows are appended under fresh identifiers and never change. *)
Record grows (t t' : payee_tables) : Prop := Grows {
  gr_payees : yt_payees t `prefix_of` yt_payees t';
  gr_versions : yt_versions t `prefix_of` yt_versions t';
  gr_accounts : yt_accounts t `prefix_of` yt_accounts t';
  gr_account_versions : yt_account_versions t `prefix_of` yt_account_versions t';
  gr_verifications : yt_verifications t `prefix_of` yt_verifications t';
  gr_ids : ids_ok t -> ids_ok t'
}.

#[export] Instance grows_preorder : PreOrder grows.
Proof.
  split.
  - intros t. by split.
  - intros t1 t2 t3 [] []. split; [by etrans..|auto].
Qed.

Lemma grows_same db db' : ds_payees db' = ds_payees db -> grows (ds_payees db) (ds_payees db').
Proof. intros ->. reflexivity. Qed.

Lemma payees_audit actor action entity_type entity db :
  ds_payees (audit actor action entity_type entity db) = ds_payees db.
Proof. reflexivity. Qed.

Lemma nodup_snoc {A} (l : list A) x : NoDup l -> x ∉ l -> NoDup (l ++ [x]).
Proof. intros Hl Hx. apply NoDup_app. split; [done|]. split; [set_solver|]. apply NoDup_singleton. Qed.

Section Grow.
Implicit Types (db : disbursement_store).

Ltac grow_proof :=
  intros;
  match goal with Hrun : _ = Ok _ |- _ => repeat ok_step Hrun; injection Hrun as <- end;
  split; cbn; try reflexivity; try (by eexists);
  intros [? ? ? ?]; split; cbn; try assumption; rewrite fmap_app; apply nodup_snoc; assumption.

Lemma grows_flush_payee p db db' :
  py_id p ∉ py_id <$> payees db -> flush_payee p db = Ok db' -> grows (ds_payees db) (ds_payees db').
Proof. grow_proof. Qed.

Lemma grows_flush_payee_version v db db' :
  pv_id v ∉ pv_id <$> payee_versions db -> flush_payee_version v db = Ok db' ->
  grows (ds_payees db) (ds_payees db').
Proof. grow_proof. Qed.

Lemma grows_flush_bank_account a db db' :
  ba_id a ∉ ba_id <$> bank_accounts db -> flush_bank_account a db = Ok db' ->
  grows (ds_payees db) (ds_payees db').
Proof. grow_proof. Qed.

Lemma grows_flush_account_version v db db' :
  av_id v ∉ av_id <$> account_versions db -> flush_account_version v db = Ok db' ->
  grows (ds_payees db) (ds_payees db').
Proof. grow_proof. Qed.

Lemma grows_flush_payout_verification v db db' :
  flush_payout_verification v db = Ok db' -> grows (ds_payees db) (ds_payees db').
Proof. grow_proof. Qed.
End Grow.

Section Steps.
Context `{Sha256} `{KeyCustody C} (float_of : string -> json).

Lemma grows_record_payout_verification db v hash actor vf created db' :
  _record_payout_verification db v hash actor = Ok (vf, created, db') -> grows (ds_payees db) (ds_payees db').
Proof.
  unfold _record_payout_verification. destruct (bank_account_payout_verification _ _) as [e|]; intros Hrun.
  - ok_step Hrun. by injection Hrun as _ _ <-; rewrite ?payees_audit.
  - ok_step Hrun as db1 Hf. injection Hrun as _ _ <-; rewrite ?payees_audit. by eapply grows_flush_payout_verification.
Qed.

Lemma grows_create_driver_payee db profile u actor action p v db' :
  _create_driver_payee_locked db profile u actor action = Ok (p, v, db') -> grows (ds_payees db) (ds_payees db').
Proof.
  unfold _create_driver_payee_locked. destruct (find_row _ (payees db)) as [q|]; intros Hrun.
  - ok_step Hrun. by injection Hrun as _ _ <-; rewrite ?payees_audit.
  - ok_step Hrun as db1 Hf1. ok_step Hrun as db2 Hf2. injection Hrun as _ _ <-; rewrite ?payees_audit. etrans.
    + eapply grows_flush_payee; [|exact Hf1]. apply uuid4_fresh.
    + eapply grows_flush_payee_version; [|exact Hf2]. unfold payee_versions. apply uuid4_fresh.
Qed.

Lemma grows_account_for_version db p a n db' :
  account_for_version db p = Ok (a, n, db') -> grows (ds_payees db) (ds_payees db').
Proof.
  unfold account_for_version. destruct (payee_account db (py_id p)) as [b|]; intros Hrun.
  - ok_step Hrun. by injection Hrun as _ _ <-; rewrite ?payees_audit.
  - ok_step Hrun as db1 Hf1. injection Hrun as _ _ <-; rewrite ?payees_audit. eapply grows_flush_bank_account; [|exact Hf1].
    apply uuid4_fresh.
Qed.

Lemma grows_add_version r db payee_id details reference actor (crypto : C) action auth v db' :
  _add_verified_bank_account_version_authorized r db payee_id details reference actor crypto action auth
    = Ok (v, db') -> grows (ds_payees db) (ds_payees db').
Proof.
  intros Hrun. do 4 ok_step Hrun. ok_step Hrun. ok_step Hrun as acc Hacc. destruct acc as [[a n] db1].
  apply grows_account_for_version in Hacc. ok_step Hrun as e _. ok_step Hrun as db2 Hf. ok_step Hrun as db3 Hv.
  injection Hrun as _ <-; rewrite ?payees_audit. etrans; [exact Hacc|]. etrans.
  { eapply grows_flush_account_version; [|exact Hf]. apply uuid4_fresh. }
  destruct auth.
  - ok_step Hv as out Hout. destruct out as [[vf c] dbx]. injection Hv as <-.
    by eapply grows_record_payout_verification.
  - by injection Hv as <-.
Qed.

Lemma grows_rewrap r db account actor (crypto : C) v db' :
  rewrap_bank_account r db account actor crypto = Ok (v, db') -> grows (ds_payees db) (ds_payees db').
Proof.
  intros Hrun. do 3 ok_step Hrun. ok_step Hrun as current _. destruct (_ =? _).
  { by injection Hrun as _ <-; rewrite ?payees_audit. }
  ok_step Hrun. ok_step Hrun. ok_step Hrun as db1 Hf. ok_step Hrun as db2 Hv. injection Hrun as _ <-; rewrite ?payees_audit.
  etrans; [eapply grows_flush_account_version; [|exact Hf]; apply uuid4_fresh|].
  destruct (bank_account_payout_verification _ _).
  - ok_step Hv as out Hout. destruct out as [[vf c] dbx]. injection Hv as <-.
    by eapply grows_record_payout_verification.
  - by injection Hv as <-.
Qed.

(** The operations of the service, by whoever and with whatever arguments, and
    what other services do between them, which leaves these tables alone. *)
Inductive payee_step (db db' : disbursement_store) : Prop :=
| step_create_pilot profile actor p v :
    create_pilot_payee db profile actor = Ok (p, v, db') -> payee_step db db'
| step_create_applicant profile actor p v :
    create_applicant_payee db profile actor = Ok (p, v, db') -> payee_step db db'
| step_add r payee_id details reference actor (crypto : C) v :
    add_verified_bank_account_version r db payee_id details reference actor crypto = Ok (v, db') ->
    payee_step db db'
| step_add_applicant r payee_id details reference actor (crypto : C) v :
    add_applicant_bank_account_version r db payee_id details reference actor crypto = Ok (v, db') ->
    payee_step db db'
| step_verify version reference actor v vf :
    verify_bank_account_version_for_payout db version reference actor = Ok (v, vf, db') -> payee_step db db'
| step_read version actor (crypto : C) purpose action details :
    _read_verified_bank_account_authorized float_of db version actor crypto purpose action = Ok (details, db') ->
    payee_step db db'
| step_rewrap r account actor (crypto : C) v :
    rewrap_bank_account r db account actor crypto = Ok (v, db') -> payee_step db db'
| step_elsewhere : ds_payees db' = ds_payees db -> payee_step db db'.

Lemma read_authorized_Ok db version actor (crypto : C) purpose action details db' :
  _read_verified_bank_account_authorized float_of db version actor crypto purpose action = Ok (details, db') ->
  ds_payees db' = ds_payees db.
Proof.
  intros Hrun. ok_step Hrun. ok_step Hrun as row _. destruct row as [[v a] p]. do 3 ok_step Hrun.
  by injection Hrun as _ <-; rewrite ?payees_audit.
Qed.

Lemma payee_step_grows db db' : payee_step db db' -> grows (ds_payees db) (ds_payees db').
Proof.
  intros [profile actor p v Hrun|profile actor p v Hrun|r pid d ref actor crypto v Hrun|
          r pid d ref actor crypto v Hrun|version ref actor v vf Hrun|version actor crypto pu ac d Hrun|
          r account actor crypto v Hrun|Hsame].
  - do 4 ok_step Hrun. by eapply grows_create_driver_payee.
  - do 3 ok_step Hrun. by eapply grows_create_driver_payee.
  - ok_step Hrun. by eapply grows_add_version.
  - do 3 ok_step Hrun. by eapply grows_add_version.
  - do 3 ok_step Hrun. ok_step Hrun as out Hout. destruct out as [[vf' c] dbx].
    apply grows_record_payout_verification in Hout. injection Hrun as _ _ <-; rewrite ?payees_audit. by destruct c.
  - apply grows_same. by eapply read_authorized_Ok.
  - by eapply grows_rewrap.
  - by apply grows_same.
Qed.

Lemma payee_steps_grow db db' : rtc payee_step db db' -> grows (ds_payees db) (ds_payees db').
Proof. induction 1 as [|db1 db2 db3 Hs _ IH]; [reflexivity|]. etrans; [by apply payee_step_grows|done]. Qed.
End Steps.

(** ** Reading what a version seals *)

Section Reading.
Context `{Sha256} `{AesGcm} (float_of : string -> json).

Lemma account_version_row_grows db db' i row :
  grows (ds_payees db) (ds_payees db') -> account_version_row db i = Some row ->
  account_version_row db' i = Some row.
Proof.
  intros Hg Hrow. apply bind_Some in Hrow as (v & Hv & Hrow). apply bind_Some in Hrow as (a & Ha & Hrow).
  apply bind_Some in Hrow as (p & Hp & Hrow). unfold account_version_row, find_by_key in *.
  rewrite (find_row_prefix _ _ (account_versions db') _ (gr_account_versions _ _ Hg) Hv). cbn [mbind option_bind].
  rewrite (find_row_prefix _ _ (bank_accounts db') _ (gr_accounts _ _ Hg) Ha). cbn [mbind option_bind].
  by rewrite (find_row_prefix _ _ (payees db') _ (gr_payees _ _ Hg) Hp).
Qed.

Lemma frozen_destination_grows db db' pv av :
  grows (ds_payees db) (ds_payees db') -> frozen_destination db pv av = true ->
  frozen_destination db' pv av = true.
Proof.
  intros Hg. unfold frozen_destination.
  destruct (account_version_row db av) as [[[v a] p]|] eqn:Hrow; [|done].
  rewrite (account_version_row_grows _ _ _ _ Hg Hrow).
  destruct (find_by_key pv_id pv (payee_versions db)) as [w|] eqn:Hw; [|done].
  unfold find_by_key in *. rewrite (find_row_prefix _ _ (payee_versions db') _ (gr_versions _ _ Hg) Hw).
  destruct (bank_account_payout_verification db av) as [x|] eqn:Hx; [|by rewrite andb_false_r].
  unfold bank_account_payout_verification in *.
  by rewrite (find_row_prefix _ _ (payout_verifications db') _ (gr_verifications _ _ Hg) Hx).
Qed.

(** What a read finds, apart from the audit row it leaves. *)
Definition version_details (row : payee_bank_account_version * payee_bank_account * payee) (crypto : local_custody)
    : result verified_bank_account_details :=
  let '(v, a, p) := row in
  envelope ← _parse_envelope (av_encrypted_details v);
  plaintext ← crypto_decrypt crypto envelope (account_data p a);
  decode_details float_of plaintext.

Lemma read_frozen_Ok db pv av (crypto : local_custody) details :
  (exists db', read_frozen_payout_bank_account float_of db pv av crypto = Ok (details, db'))
  <-> frozen_destination db pv av = true
      /\ exists row, account_version_row db av = Some row /\ version_details row crypto = Ok details.
Proof.
  unfold read_frozen_payout_bank_account, _read_verified_bank_account_authorized, version_details.
  change (_normalize_purpose "provider_payout_submission") with (Ok "provider_payout_submission"%string).
  cbn [mbind result_bind]. rewrite bool_decide_eq_false_2 by discriminate.
  destruct (frozen_destination db pv av); cbn [negb raise_if mbind result_bind];
    [|split; [intros (? & [=])|intros [[=] _]]].
  destruct (account_version_row db av) as [[[v a] p]|]; cbn [require_some mbind result_bind mret result_ret];
    [|split; [intros (? & [=])|intros (_ & ? & [=] & _)]].
  destruct (_parse_envelope _) as [e|x] eqn:He; cbn [mbind result_bind];
    [|split; [by intros (? & ?)|]; intros (_ & row & Hr & Hd); injection Hr as <-; by rewrite He in Hd].
  set (rest := crypto_decrypt crypto e _ ≫= _).
  change (crypto_decrypt crypto e (account_data p a) ≫= decode_details float_of) with rest.
  split.
  - intros (db' & Hrun). split; [done|]. exists (v, a, p). split; [done|].
    rewrite He. cbn [mbind result_bind]. fold rest. destruct rest as [d|[]]; try discriminate Hrun. by injection Hrun as -> _.
  - intros (_ & row & Hrow & Hd). injection Hrow as <-. rewrite He in Hd. cbn [mbind result_bind] in Hd. fold rest in Hd. rewrite Hd. by eexists.
Qed.
End Reading.

(** ** What a capture stores *)

Lemma validated_again name number code d :
  _validate_details name number code = Ok d ->
  _validate_details (JString (vd_account_name d)) (JString (vd_account_number d)) (JString (vd_bank_code d)) = Ok d.
Proof.
  unfold _validate_details. intros Hrun. ok_step Hrun as n Hn. destruct name as [|b|z|f|s|l|m]; try discriminate Hn.
  apply Ok_inj in Hn as <-. ok_step Hrun as u Hlen. ok_step Hrun as num Hnum. ok_step Hrun as c Hc.
  apply Ok_inj in Hrun as <-. cbn [vd_account_name vd_account_number vd_bank_code mbind result_bind mret result_ret].
  rewrite strip_fix, Hlen. cbn [mbind result_bind].
  assert (Hdigits : forall low high j t, checked_digits low high j = Ok t -> checked_digits low high (JString t) = Ok t).
  { intros low high j t Ht. unfold checked_digits in Ht. ok_step Ht as k Hk. ok_step Ht as u' Hu.
    destruct j as [|b|z|f|t'|l|m]; try discriminate Ht. ok_step Ht as u'' Hu''. apply Ok_inj in Ht as <-.
    unfold checked_digits. rewrite Hk. cbn [mbind result_bind]. rewrite Hu. cbn [mbind result_bind]. by rewrite Hu''. }
  rewrite (Hdigits _ _ _ _ Hnum). cbn [mbind result_bind]. by rewrite (Hdigits _ _ _ _ Hc).
Qed.

Lemma decode_details_text float_of d :
  _validate_details (JString (vd_account_name d)) (JString (vd_account_number d)) (JString (vd_bank_code d)) = Ok d ->
  decode_details float_of (details_text d) = Ok d.
Proof.
  intros Hd. unfold decode_details, details_text. rewrite json_loads_raw_object. cbn [mbind result_bind].
  exact Hd.
Qed.

Lemma newest_by_elem {A} (version : A -> Z) p l v :
  newest_by version (List.filter p l) = Some v -> v ∈ l /\ p v = true.
Proof.
  unfold newest_by. intros Hv. apply head_Some_elem_of in Hv. rewrite stable_sort_perm in Hv.
  by rewrite list_elem_of_In, filter_In, <- list_elem_of_In in Hv.
Qed.

Lemma current_payee_version_Ok db i v :
  _current_payee_version db i = Ok v -> v ∈ payee_versions db /\ pv_payee_id v = i.
Proof. intros [? Hp]%require_some_Ok%newest_by_elem. by apply bool_decide_eq_true in Hp. Qed.

Lemma current_bank_account_version_Ok db i v :
  _current_bank_account_version db i = Ok v -> v ∈ account_versions db /\ av_bank_account_id v = i.
Proof. intros [? Hp]%require_some_Ok%newest_by_elem. by apply bool_decide_eq_true in Hp. Qed.

Lemma account_for_version_Ok db p a n db' :
  ids_ok (ds_payees db) -> account_for_version db p = Ok (a, n, db') ->
  find_by_key ba_id (ba_id a) (bank_accounts db') = Some a /\ ba_payee_id a = py_id p
  /\ payees db' = payees db /\ payee_versions db' = payee_versions db /\ ids_ok (ds_payees db').
Proof.
  intros Hids Hrun. assert (Hids' : ids_ok (ds_payees db')).
  { eapply gr_ids; [by eapply grows_account_for_version|done]. }
  unfold account_for_version in Hrun. destruct (payee_account db (py_id p)) as [b|] eqn:Hb.
  - ok_step Hrun. injection Hrun as <- _ <-. apply find_row_Some in Hb as [Hb Hp].
    apply bool_decide_eq_true in Hp. repeat (split; try done). by apply find_by_key_in; [apply Hids|].
  - ok_step Hrun as db1 Hf. injection Hrun as <- _ <-. unfold flush_bank_account in Hf. ok_step Hf.
    injection Hf as <-. repeat (split; try done). apply find_by_key_in; [apply Hids'|]. cbn. set_solver.
Qed.

Lemma flushed_version_row v a p db db' :
  ids_ok (ds_payees db) -> av_id v ∉ av_id <$> account_versions db -> av_bank_account_id v = ba_id a ->
  find_by_key ba_id (ba_id a) (bank_accounts db) = Some a ->
  find_by_key py_id (ba_payee_id a) (payees db) = Some p ->
  flush_account_version v db = Ok db' -> account_version_row db' (av_id v) = Some (v, a, p).
Proof.
  intros Hids Hfresh Hva Ha Hp Hf. assert (Hids' : ids_ok (ds_payees db')).
  { eapply gr_ids; [by eapply grows_flush_account_version|done]. }
  unfold flush_account_version in Hf. do 4 ok_step Hf. injection Hf as <-.
  unfold account_version_row. rewrite (find_by_key_in av_id (account_versions _) v);
    [|apply Hids'|cbn; set_solver]. cbn [mbind option_bind]. rewrite Hva.
  change (bank_accounts (set_payees _ db)) with (bank_accounts db). rewrite Ha. cbn [mbind option_bind].
  change (payees (set_payees _ db)) with (payees db). by rewrite Hp.
Qed.

Lemma current_version_row db a p v :
  ids_ok (ds_payees db) -> find_by_key ba_id (ba_id a) (bank_accounts db) = Some a ->
  find_by_key py_id (ba_payee_id a) (payees db) = Some p -> _current_bank_account_version db (ba_id a) = Ok v ->
  account_version_row db (av_id v) = Some (v, a, p) /\ av_bank_account_id v = ba_id a.
Proof.
  intros Hids Ha Hp [Hin Hacc]%current_bank_account_version_Ok. split; [|done]. unfold account_version_row.
  rewrite (find_by_key_in av_id (account_versions db) v (io_account_versions _ Hids) Hin).
  cbn [mbind option_bind]. rewrite Hacc, Ha.
  cbn [mbind option_bind]. by rewrite Hp.
Qed.

Lemma recorded_verification db v hash actor vf created db' :
  _record_payout_verification db v hash actor = Ok (vf, created, db') ->
  bank_account_payout_verification db' (av_id v) <> None.
Proof.
  unfold _record_payout_verification. destruct (bank_account_payout_verification db (av_id v)) eqn:Hold; intros Hrun.
  - ok_step Hrun. injection Hrun as _ _ <-. by rewrite Hold.
  - ok_step Hrun as db1 Hf. injection Hrun as _ _ <-. unfold flush_payout_verification in Hf. do 2 ok_step Hf.
    injection Hf as <-. intros Hnone.
    eapply find_row_None in Hnone; [|cbn; apply elem_of_app; right; left]. cbn in Hnone.
    by apply bool_decide_eq_false in Hnone.
Qed.

Section Capture.
Context `{Sha256} `{AesGcmLaws} (float_of : string -> json).

(** The stored version says who is paid, under which key, and its text. *)
Lemma add_version_Ok r db payee_id details reference actor (crypto : local_custody) action auth v db' :
  ids_ok (ds_payees db) -> rnd_ok r = true -> 1 <= lc_active_key_version crypto ->
  _add_verified_bank_account_version_authorized r db payee_id details reference actor crypto action auth
    = Ok (v, db') ->
  exists d a p pv,
    _validate_details (JString (vd_account_name details)) (JString (vd_account_number details))
      (JString (vd_bank_code details)) = Ok d
    /\ account_version_row db' (av_id v) = Some (v, a, p)
    /\ find_by_key pv_id (av_payee_version_id v) (payee_versions db') = Some pv /\ pv_payee_id pv = py_id p
    /\ av_encryption_key_version v = lc_active_key_version crypto
    /\ (auth = true -> bank_account_payout_verification db' (av_id v) <> None)
    /\ forall crypto' : local_custody,
         lc_keys crypto' !! lc_active_key_version crypto = lc_keys crypto !! lc_active_key_version crypto ->
         version_details float_of (v, a, p) crypto' = Ok d.
Proof.
  intros Hids Hr Hactive Hrun. unfold _add_verified_bank_account_version_authorized in Hrun.
  ok_step Hrun as d Hd. ok_step Hrun as hash _. ok_step Hrun as p Hp. ok_step Hrun.
  ok_step Hrun as pv Hpv. ok_step Hrun as acc Hacc. destruct acc as [[a n] db1].
  apply account_for_version_Ok in Hacc as (Ha & Hap & Hsp & Hsv & Hids1); [|done].
  ok_step Hrun as e He. ok_step Hrun as db2 Hf. ok_step Hrun as db3 Hver. injection Hrun as <- <-.
  set (v := PayeeBankAccountVersion _ _ _ _ _ _ _ _ _) in *.
  assert (Hg : grows (ds_payees db1) (ds_payees db2)).
  { eapply grows_flush_account_version; [|exact Hf]. apply uuid4_fresh. }
  apply require_some_Ok in Hp. apply current_payee_version_Ok in Hpv as [Hpv Hpvp].
  assert (Hg3 : grows (ds_payees db2) (ds_payees db3)).
  { destruct auth; [|by injection Hver as <-]. ok_step Hver as out Hout. destruct out as [[vf c] dbx].
    injection Hver as <-. by eapply grows_record_payout_verification. }
  apply encrypt_seals in He as [Hs Hkv]; [|done..].
  exists d, a, p, pv. split; [done|]. split; [|split; [|split; [done|split; [done|split]]]].
  - apply (account_version_row_grows db2); [done|].
    eapply flushed_version_row; [exact Hids1|apply uuid4_fresh|done|done| |exact Hf].
    rewrite Hsp, Hap. by pose proof (find_by_key_Some _ _ _ _ Hp) as [_ ->].
  - eapply find_row_prefix; [apply (gr_versions _ _ Hg3)|].
    eapply find_row_prefix; [apply (gr_versions _ _ Hg)|]. change (yt_versions _) with (payee_versions db1).
    rewrite Hsv. cbn [v av_payee_version_id]. apply find_by_key_in; [apply Hids|done].
  - intros ->. ok_step Hver as out Hout. destruct out as [[vf c] dbx]. injection Hver as <-.
    apply recorded_verification in Hout. exact Hout.
  - intros crypto' Hsame. unfold version_details, _parse_envelope. cbn [v av_encrypted_details].
    rewrite (mapping_roundtrip e) by apply Hs. cbn [except_crypto mbind result_bind].
    rewrite (seals_decrypt crypto' (lc_keys crypto) e _ (details_text d)); [|done|by rewrite Hkv].
    cbn [mbind result_bind]. apply decode_details_text. by eapply validated_again.
Qed.
End Capture.

Lemma except_crypto_Ok {A} (r : result A) e a : except_crypto e r = Ok a -> r = Ok a.
Proof. destruct r as [|[]]; cbn; congruence. Qed.

Section Properties.
Context `{Sha256} `{AesGcmLaws} (float_of : string -> json).

(** C34: what a driver's account was verified as is what it is paid as.  An
    administrator captures verified account details; whatever the payee service
    and the rest of the program do afterwards, and whatever keys are added to
    the keyring, made active or retired, as long as the key of the capture is
    kept, the system reads for exactly this frozen payee version and account
    version the captured details, the name stripped of spaces; and it reads
    them for no payee version other than the one of the capture. *)
Theorem captured_account_is_paid r db payee_id details reference actor (crypto : local_custody) v db1 db2
    (crypto' : local_custody) :
  ids_ok (ds_payees db) -> rnd_ok r = true -> 1 <= lc_active_key_version crypto ->
  add_verified_bank_account_version r db payee_id details reference actor crypto = Ok (v, db1) ->
  rtc (payee_step (C := local_custody) float_of) db1 db2 ->
  lc_keys crypto' !! lc_active_key_version crypto = lc_keys crypto !! lc_active_key_version crypto ->
  (exists db3, read_frozen_payout_bank_account float_of db2 (av_payee_version_id v) (av_id v) crypto'
     = Ok (VerifiedBankAccountDetails (strip (vd_account_name details)) (vd_account_number details)
             (vd_bank_code details), db3))
  /\ (forall pv, pv <> av_payee_version_id v ->
      read_frozen_payout_bank_account float_of db2 pv (av_id v) crypto'
        = Raise (AppError "PAYOUT_DESTINATION_AUTHORITY_INVALID" 409)).
Proof.
  intros Hids Hr Hactive Hrun Hsteps Hsame. ok_step Hrun.
  apply (add_version_Ok float_of) in Hrun as (d & a & p & pv & Hd & Hrow & Hpv & Hpp & _ & Hauth & Hread); [|done..].
  pose proof (payee_steps_grow _ _ _ Hsteps) as Hg.
  assert (Hd' : d = VerifiedBankAccountDetails (strip (vd_account_name details)) (vd_account_number details)
                      (vd_bank_code details)).
  { unfold _validate_details in Hd. cbn [mbind result_bind mret result_ret] in Hd. ok_step Hd.
    unfold checked_digits in Hd. ok_step Hd as num Hnum. do 3 ok_step Hnum. apply Ok_inj in Hnum as <-.
    ok_step Hd as code Hcode. do 3 ok_step Hcode. apply Ok_inj in Hcode as <-. by apply Ok_inj in Hd as <-. }
  split.
  - rewrite <- Hd'. apply read_frozen_Ok. split; [|exists (v, a, p); split].
    + apply (frozen_destination_grows db1); [done|]. unfold frozen_destination. rewrite Hrow, Hpv.
      rewrite !bool_decide_eq_true_2 by done. by rewrite bool_decide_eq_false_2 by auto.
    + by apply (account_version_row_grows db1).
    + by apply Hread.
  - intros pv' Hne. unfold read_frozen_payout_bank_account, frozen_destination.
    rewrite (account_version_row_grows _ _ _ _ Hg Hrow).
    destruct (find_by_key pv_id pv' (payee_versions db2)); [|done].
    by rewrite bool_decide_eq_false_2 by congruence.
Qed.

(** a payout instruction's destination does not move.  Once the system can
    read the account frozen in an instruction, it reads the same details after
    any sequence of payee operations (new versions, verifications, reads,
    rotations to other keys, by anyone) and of other services' work, under
    every keyring that still has the keys; an exact re-read never sees a newer
    account of the driver. *)
Theorem frozen_destination_is_stable db pv av (crypto crypto' : local_custody) details x db' :
  read_frozen_payout_bank_account float_of db pv av crypto = Ok (details, x) ->
  rtc (payee_step (C := local_custody) float_of) db db' ->
  lc_keys crypto ⊆ lc_keys crypto' ->
  exists x', read_frozen_payout_bank_account float_of db' pv av crypto' = Ok (details, x').
Proof.
  intros Hread Hsteps%payee_steps_grow Hkeys.
  pose proof (proj1 (read_frozen_Ok _ _ _ _ _ details) (ex_intro _ x Hread)) as (Hf & [[v a] p] & Hrow & Hd). apply read_frozen_Ok.
  split; [by eapply frozen_destination_grows|]. exists (v, a, p).
  split; [by eapply account_version_row_grows|]. unfold version_details in *.
  ok_step Hd as e He. rewrite He. cbn [mbind result_bind]. ok_step Hd as text Htext.
  by rewrite (decrypt_more_keys _ _ _ _ _ Hkeys Htext).
Qed.

(** rotating a bank account's key changes no destination.  A rewrap either
    finds the account under the active key and changes nothing, or appends the
    next version under a fresh identifier and the active key; then whatever the
    system could read for an instruction frozen on the old version it reads for
    the new one too, now with the new key alone. *)
Theorem rewrap_keeps_destination r db account actor (crypto : local_custody) v db' :
  ids_ok (ds_payees db) -> 1 <= lc_active_key_version crypto ->
  rewrap_bank_account r db account actor crypto = Ok (v, db') ->
  exists old, _current_bank_account_version db account = Ok old
    /\ ((v = old /\ db' = db)
        \/ (av_version v = av_version old + 1 /\ (av_id v ∉ (av_id <$> account_versions db))
            /\ forall pv details x (crypto' : local_custody),
                 read_frozen_payout_bank_account float_of db pv (av_id old) crypto = Ok (details, x) ->
                 lc_keys crypto' !! lc_active_key_version crypto = lc_keys crypto !! lc_active_key_version crypto ->
                 exists x', read_frozen_payout_bank_account float_of db' pv (av_id v) crypto' = Ok (details, x'))).
Proof.
  intros Hids Hactive Hrun. unfold rewrap_bank_account in Hrun. ok_step Hrun.
  ok_step Hrun as a Ha. apply require_some_Ok in Ha. ok_step Hrun as p Hp. apply require_some_Ok in Hp.
  ok_step Hrun as old Hold. pose proof (find_by_key_Some _ _ _ _ Ha) as [_ <-].
  exists old. split; [done|]. destruct (_ =? _); [left; by injection Hrun as <- <-|right].
  destruct (current_version_row _ _ _ _ Hids Ha Hp Hold) as [Hrow Hacc].
  ok_step Hrun as e He. ok_step Hrun as rotated Hrot. ok_step Hrun as db1 Hf. ok_step Hrun as db2 Hver.
  injection Hrun as <- <-. set (v := rewrapped old _ _) in *. split; [done|]. split; [apply uuid4_fresh|].
  assert (Hnew : account_version_row db1 (av_id v) = Some (v, a, p)).
  { eapply flushed_version_row; [done|apply uuid4_fresh|done..|exact Hf]. }
  intros pv details out0 crypto' Hread Hkey.
  pose proof (proj1 (read_frozen_Ok _ _ _ _ _ details) (ex_intro _ out0 Hread)) as (Hfd & row & Hrow' & Hd). apply read_frozen_Ok.
  rewrite Hrow in Hrow'. injection Hrow' as <-. unfold frozen_destination in Hfd. rewrite Hrow in Hfd.
  destruct (find_by_key pv_id pv (payee_versions db)) as [w|] eqn:Hw; [|done].
  apply andb_true_iff in Hfd as [Hpv Hvf].
  destruct (bank_account_payout_verification db (av_id old)) as [vf|]; [|done].
  ok_step Hver as out Hout. destruct out as [[vf' c] dbx]. injection Hver as <-.
  assert (Hg : grows (ds_payees db) (ds_payees dbx)).
  { etrans; [eapply grows_flush_account_version; [|exact Hf]; apply uuid4_fresh|].
    by eapply grows_record_payout_verification. }
  assert (Hnew' : account_version_row dbx (av_id v) = Some (v, a, p)).
  { eapply account_version_row_grows; [by eapply grows_record_payout_verification|done]. }
  split.
  - apply (frozen_destination_grows dbx); [by apply grows_same|]. unfold frozen_destination. rewrite Hnew'.
    unfold find_by_key in *. rewrite (find_row_prefix _ _ (payee_versions dbx) _ (gr_versions _ _ Hg) Hw).
    apply andb_true_iff. split; [exact Hpv|]. apply recorded_verification in Hout.
    by rewrite bool_decide_eq_false_2.
  - exists (v, a, p).
    split; [by eapply account_version_row_grows, Hnew'; apply grows_same|]. unfold version_details in *. rewrite He in Hd.
    cbn [mbind result_bind] in Hd. ok_step Hd as text Htext.
    apply except_crypto_Ok in Hrot.
    destruct (rotate_decrypt crypto crypto' r e rotated _ _ Hactive Hrot Htext) as (Hdec & _ & Hvalid); [done|].
    unfold _parse_envelope. cbn [v rewrapped av_encrypted_details]. rewrite (mapping_roundtrip _ Hvalid).
    cbn [except_crypto mbind result_bind]. by rewrite Hdec.
Qed.
End Properties.

(** ** A concrete payee for the witnesses *)

Module PayeeSample.
Import DisbursementSample CryptoSample.
Definition no_floats (_ : string) : json := JNull.
Definition result_or {A} (d : A) (r : result A) : A := match r with Ok a => a | Raise _ => d end.

Definition with_payee : disbursement_store :=
  result_or DisbursementSample.store
    (r ← create_pilot_payee DisbursementSample.store 5 1; mret r.2).
Definition given : verified_bank_account_details := VerifiedBankAccountDetails " ADA OBI " "0123456789" "058".
Definition kept : verified_bank_account_details := VerifiedBankAccountDetails "ADA OBI" "0123456789" "058".
Definition moved : verified_bank_account_details := VerifiedBankAccountDetails "ADA OBI" "9876543210" "044".

Definition captured : result (payee_bank_account_version * disbursement_store) :=
  add_verified_bank_account_version CryptoSample.random with_payee 1 given "transfer-1" 1 CryptoSample.keyring.
Definition no_version : payee_bank_account_version := PayeeBankAccountVersion 0 0 0 0 [] "" 0 "" 0.
Definition version : payee_bank_account_version := (result_or (no_version, with_payee) captured).1.
Definition with_account : disbursement_store := (result_or (no_version, with_payee) captured).2.

(** The key is rotated, then the driver moves to another account. *)
Definition rewrapping : payee_bank_account_version * disbursement_store :=
  result_or (no_version, with_account)
    (rewrap_bank_account CryptoSample.random with_account 1 1 CryptoSample.next_keyring).
Definition rotated : disbursement_store := rewrapping.2.
Definition adding : payee_bank_account_version * disbursement_store :=
  result_or (no_version, rotated)
    (add_verified_bank_account_version CryptoSample.random rotated 1 moved "transfer-2" 1
       CryptoSample.next_keyring).
Definition with_next_account : disbursement_store := adding.2.

Definition paid_account (db : disbursement_store) (version_id : uuid) (crypto : local_custody)
    : result verified_bank_account_details :=
  r ← read_frozen_payout_bank_account no_floats db 1 version_id crypto; mret r.1.

(** The store after a read of the first capture. *)
Definition after_read (crypto : local_custody) : disbursement_store :=
  result_or with_account (r ← read_frozen_payout_bank_account no_floats with_account 1 1 crypto; mret r.2).
End PayeeSample.

Import DisbursementSample CryptoSample PayeeSample.

Lemma sample_captured :
  add_verified_bank_account_version random with_payee 1 given "transfer-1" 1 keyring = Ok (version, with_account).
Proof. vm_compute. reflexivity. Qed.

Lemma sample_rotated :
  rewrap_bank_account random with_account 1 1 next_keyring = Ok (rewrapping.1, rotated).
Proof. vm_compute. reflexivity. Qed.

Lemma sample_next :
  add_verified_bank_account_version random rotated 1 moved "transfer-2" 1 next_keyring
    = Ok (adding.1, with_next_account).
Proof. vm_compute. reflexivity. Qed.

Lemma sample_steps : rtc (payee_step (C := local_custody) no_floats) with_account with_next_account.
Proof.
  eapply rtc_l; [eapply step_rewrap, sample_rotated|]. apply rtc_once. eapply step_add, sample_next.
Qed.

Lemma sample_read :
  read_frozen_payout_bank_account no_floats with_account 1 1 keyring = Ok (kept, after_read keyring)
  /\ read_frozen_payout_bank_account no_floats with_account 1 1 next_keyring = Ok (kept, after_read next_keyring).
Proof. split; vm_compute; reflexivity. Qed.

Lemma sample_ids : ids_ok (ds_payees with_payee) /\ ids_ok (ds_payees with_account).
Proof. split; split; vm_compute; repeat constructor; set_solver. Qed.

Lemma captured_account_is_paid_witness :
  paid_account with_next_account 1 next_keyring = Ok kept
  /\ read_frozen_payout_bank_account no_floats with_next_account 2 1 next_keyring
     = Raise (AppError "PAYOUT_DESTINATION_AUTHORITY_INVALID" 409).
Proof.
  destruct (captured_account_is_paid no_floats random with_payee 1 given "transfer-1" 1 keyring version with_account
              with_next_account next_keyring (proj1 sample_ids) eq_refl ltac:(cbn; lia) sample_captured sample_steps eq_refl)
    as [(db3 & Hpaid) Hother].
  split.
  - change (av_payee_version_id version) with 1%N in Hpaid. change (av_id version) with 1%N in Hpaid.
    unfold paid_account. by rewrite Hpaid.
  - by apply (Hother 2%N).
Defined.

Lemma frozen_destination_is_stable_witness : paid_account with_next_account 1 next_keyring = Ok kept.
Proof.
  destruct (frozen_destination_is_stable no_floats with_account 1 1 keyring next_keyring kept
              (after_read keyring) with_next_account (proj1 sample_read) sample_steps) as (x & Hpaid).
  - intros i. destruct (decide (i = 2)) as [->|Hi]; [done|]. cbn [next_keyring lc_keys].
    rewrite lookup_insert_ne by done. by destruct (lc_keys keyring !! i).
  - unfold paid_account. by rewrite Hpaid.
Defined.

Lemma rewrap_keeps_destination_witness :
  paid_account rotated 2 (LocalCustody {[2 := hex_digits 32 5 ""]} 2) = Ok kept.
Proof.
  assert (Hid : av_id rewrapping.1 = 2%N) by (vm_compute; reflexivity).
  destruct (rewrap_keeps_destination no_floats random with_account 1 1 next_keyring rewrapping.1 rotated
              (proj2 sample_ids) ltac:(cbn; lia) sample_rotated) as (old & Hold & [[Heq _]|(_ & _ & Hread)]).
  - exfalso. rewrite <- Heq in Hold. vm_compute in Hold. discriminate Hold.
  - assert (Hold1 : av_id old = 1%N).
    { assert (match _current_bank_account_version with_account 1 with Ok v => av_id v | Raise _ => 0%N end = 1%N) as Hf
        by (vm_compute; reflexivity). by rewrite Hold in Hf. }
    rewrite Hold1, Hid in Hread.
    destruct (Hread 1%N kept (after_read next_keyring) (LocalCustody {[2 := hex_digits 32 5 ""]} 2)) as (x & Hpaid).
    + exact (proj2 sample_read).
    + reflexivity.
    + unfold paid_account. by rewrite Hpaid.
Defined.
