(* ===== verification/Fraud.v ===== *)
(** Fraud holds, disputes and assessments ([app/services/fraud_holds.py],
    [fraud_disputes.py], [fraud_assessments.py]): the review of a flag, the
    driver's dispute and its reply, the assessment row a trip's flags and
    analytics are condensed into and the test that it is still current. *)

From stdpp Require Import base list strings gmap.
From Stdlib Require Import ZArith Lia.
From S2P Require Import Prelude PayoutData Text BillingData Notifications DisbursementData.

#[local] Open Scope Z_scope.

(** The versions the detectors run under ([Settings]);
    [route_replay_config_fingerprint] is the digest of the detector's settings. *)
Record fraud_settings := FraudSettings {
  route_analytics_formula_version : string;
  route_replay_detector_version : string;
  route_replay_config_fingerprint : string;
  fraud_assessment_formula_version : string
}.

(** [analytics_output_fingerprint] of trip analytics, whose measured columns are
    not modelled: the digest of a row, or the exception computing it raised. *)
Class AnalyticsFingerprint := analytics_output_fingerprint : trip_analytics -> result string.

Definition set_flags (f : list fraud_flag -> list fraud_flag) : disbursement_store -> disbursement_store :=
  set_fraud (fun t => FraudTables (f (ft_flags t)) (ft_disputes t) (ft_assessments t) (ft_signatures t)).
Definition set_disputes (f : list fraud_dispute -> list fraud_dispute)
    : disbursement_store -> disbursement_store :=
  set_fraud (fun t => FraudTables (ft_flags t) (f (ft_disputes t)) (ft_assessments t) (ft_signatures t)).
Definition set_assessments (f : list fraud_assessment -> list fraud_assessment)
    : disbursement_store -> disbursement_store :=
  set_fraud (fun t => FraudTables (ft_flags t) (ft_disputes t) (f (ft_assessments t)) (ft_signatures t)).

Definition flags (db : disbursement_store) : list fraud_flag := ft_flags (ds_fraud db).

(** ** Holds *)

(** [hold_active], [fraud_hold_active_clause] *)
Definition hold_active (s : fraud_flag_status) : bool :=
  bool_decide (s = FLAG_OPEN) || bool_decide (s = FLAG_CONFIRMED).

Definition trip_hold (trip : uuid) (f : fraud_flag) : bool :=
  bool_decide (fl_trip_session_id f = trip) && hold_active (fl_status f).

(** The trip has an active hold. *)
Definition trip_held (db : disbursement_store) (trip : uuid) : bool := existsb (trip_hold trip) (flags db).

Definition active_fraud_hold_counts (db : disbursement_store) (trip : uuid) : gmap string Z :=
  let counts := foldr (fun s => <[s := 0]>) ∅ ["low"; "medium"; "high"]%string in
  foldl (fun m f => dict_add (fl_severity f) 1 m) counts (List.filter (trip_hold trip) (flags db)).

(** [FRAUD_REVIEW_TRANSITIONS] *)
Definition FRAUD_REVIEW_TRANSITIONS (s : fraud_flag_status) : list fraud_flag_status :=
  match s with
  | FLAG_OPEN => [FLAG_CONFIRMED; FLAG_DISMISSED]
  | FLAG_CONFIRMED | FLAG_DISMISSED => []
  end.

(** [ck_fraud_flags_review_evidence] *)
Definition fraud_flag_row_ok (f : fraud_flag) : bool :=
  match fl_status f with
  | FLAG_OPEN =>
      bool_decide (fl_reviewed_by_user_id f = None) && bool_decide (fl_reviewed_at f = None)
      && bool_decide (fl_resolution_note f = None)
  | FLAG_CONFIRMED | FLAG_DISMISSED =>
      negb (bool_decide (fl_reviewed_by_user_id f = None)) && negb (bool_decide (fl_reviewed_at f = None))
      && match fl_resolution_note f with
         | Some note => let n := String.length (strip note) in ((1 <=? n) && (n <=? 2000))%nat
         | None => false
         end
  end.

(** [uq_fraud_flags_trip_nonterminal_flag_type] *)
Definition hold_key (f : fraud_flag) : option (uuid * string) :=
  if hold_active (fl_status f) then Some (fl_trip_session_id f, fl_flag_type f) else None.

Definition update_flag (f : fraud_flag) (db : disbursement_store) : result disbursement_store :=
  raise_if (negb (fraud_flag_row_ok f)) (IntegrityError "ck_fraud_flags_review_evidence") ;;
  raise_if (conflicts hold_key f (other_rows fl_id f (flags db)))
    (IntegrityError "uq_fraud_flags_trip_nonterminal_flag_type") ;;
  mret (set_flags (set_row fl_id f) db).

(** ** Notices *)

Section Fraud.
Context `{Sha256}.

Definition _recipient_for_flag (db : disbursement_store) (f : fraud_flag) : result uuid :=
  require_some (dp_user_id <$> find_row (fun p => bool_decide (dp_id p = fl_driver_profile_id f)) (st_profiles db))
    RuntimeError.

(** [_create_notice] *)
Definition notify_flag_driver (clock : Z) (db : disbursement_store) (f : fraud_flag)
    (type_key : notification_type) (payload : gmap string string) (dedupe_key : string)
    : result disbursement_store :=
  recipient ← _recipient_for_flag db f;
  r ← create_notification [] clock (ds_billing db) recipient type_key payload (Some dedupe_key) IN_APP "v1";
  mret (set_billing (fun _ => r.2) db).

Definition create_fraud_review_resolved_notice (clock : Z) (db : disbursement_store) (f : fraud_flag)
    : result disbursement_store :=
  notify_flag_driver clock db f FRAUD_REVIEW_RESOLVED
    (list_to_map [("fraud_flag_id"%string, uuid_str (fl_id f));
                  ("trip_session_id"%string, uuid_str (fl_trip_session_id f));
                  ("outcome"%string, flag_status_value (fl_status f))])
    ("fraud_review_resolved:v1:" +:+ uuid_str (fl_id f) +:+ ":" +:+ flag_status_value (fl_status f))%string.

Definition create_fraud_dispute_replied_notice (clock : Z) (db : disbursement_store) (f : fraud_flag)
    (dispute_id : uuid) : result disbursement_store :=
  notify_flag_driver clock db f FRAUD_DISPUTE_REPLIED
    (list_to_map [("fraud_flag_id"%string, uuid_str (fl_id f));
                  ("trip_session_id"%string, uuid_str (fl_trip_session_id f));
                  ("fraud_dispute_id"%string, uuid_str dispute_id)])
    ("fraud_dispute_replied:v1:" +:+ uuid_str dispute_id)%string.

(** ** Review of a flag *)

Definition reviewed_flag (f : fraud_flag) (target : fraud_flag_status) (actor : uuid)
    (note : option string) (reviewed_at : Z) : fraud_flag :=
  {| fl_id := fl_id f; fl_trip_session_id := fl_trip_session_id f;
     fl_trip_analytics_id := fl_trip_analytics_id f; fl_campaign_id := fl_campaign_id f;
     fl_driver_profile_id := fl_driver_profile_id f; fl_flag_type := fl_flag_type f;
     fl_severity := fl_severity f; fl_status := target; fl_description := fl_description f;
     fl_evidence := fl_evidence f; fl_detected_at := fl_detected_at f;
     fl_reviewed_by_user_id := Some actor; fl_reviewed_at := Some reviewed_at;
     fl_resolution_note := note; fl_escalated_at := fl_escalated_at f;
     fl_updated_at := if reviewed_at <=? fl_updated_at f then fl_updated_at f + 1 else reviewed_at |}.

(** [clock] is [now or datetime.now(UTC)]; the answer is the flag and whether
    the call changed it. *)
Definition _review_fraud_flag (clock : Z) (db : disbursement_store) (flag_id actor_user_id : uuid)
    (target_status : fraud_flag_status) (resolution_note : option string)
    : result (fraud_flag * bool * disbursement_store) :=
  f ← require_some (find_by_key fl_id flag_id (flags db)) (AppError "FRAUD_FLAG_NOT_FOUND" 404);
  let normalized_note := strip <$> resolution_note in
  if bool_decide (fl_status f = target_status) then
    raise_if (negb (bool_decide (fl_reviewed_by_user_id f = Some actor_user_id)
                    && negb (bool_decide (fl_reviewed_at f = None))
                    && bool_decide (fl_resolution_note f = normalized_note)))
      (AppError "FRAUD_FLAG_REVIEW_REPLAY_CONFLICT" 409) ;;
    mret (f, false, db)
  else
    raise_if (negb (bool_decide (target_status ∈ FRAUD_REVIEW_TRANSITIONS (fl_status f))))
      (AppError "FRAUD_FLAG_INVALID_TRANSITION" 409) ;;
    let reviewed := reviewed_flag f target_status actor_user_id normalized_note clock in
    db ← update_flag reviewed db;
    let db := audit (Some actor_user_id) "admin.fraud_flag.resolved" "fraud_flag" flag_id db in
    db ← (match target_status with
          | FLAG_CONFIRMED | FLAG_DISMISSED => create_fraud_review_resolved_notice clock db reviewed
          | FLAG_OPEN => mret db
          end);
    mret (reviewed, true, db).

Definition resolve_fraud_flag (clock : Z) (db : disbursement_store) (flag_id actor_user_id : uuid)
    (outcome : fraud_flag_status) (resolution_note : string)
    : result (fraud_flag * bool * disbursement_store) :=
  raise_if (bool_decide (outcome = FLAG_OPEN)) (AppError "FRAUD_FLAG_INVALID_TRANSITION" 409) ;;
  _review_fraud_flag clock db flag_id actor_user_id outcome (Some resolution_note).

(** ** Disputes *)

(** The CHECK constraints of [fraud_disputes]. *)
Definition fraud_dispute_row_ok (d : fraud_dispute) : bool :=
  let bounded s := let n := String.length (strip s) in ((1 <=? n) && (n <=? 2000))%nat in
  bounded (fd_message d)
  && match fd_status d with
     | DISPUTE_OPEN =>
         bool_decide (fd_replied_by_user_id d = None) && bool_decide (fd_replied_at d = None)
         && bool_decide (fd_reply_text d = None)
     | DISPUTE_REPLIED =>
         negb (bool_decide (fd_replied_by_user_id d = None)) && negb (bool_decide (fd_replied_at d = None))
         && match fd_reply_text d with Some t => bounded t | None => false end
     end.

Definition flush_dispute (d : fraud_dispute) (db : disbursement_store) : result disbursement_store :=
  raise_if (negb (fraud_dispute_row_ok d)) (IntegrityError "ck_fraud_disputes") ;;
  raise_if (conflicts (fun d => Some (fd_fraud_flag_id d)) d (ft_disputes (ds_fraud db)))
    (IntegrityError "uq_fraud_disputes_fraud_flag_id") ;;
  mret (set_disputes (fun l => l ++ [d]) db).

Definition update_dispute (d : fraud_dispute) (db : disbursement_store) : result disbursement_store :=
  raise_if (negb (fraud_dispute_row_ok d)) (IntegrityError "ck_fraud_disputes") ;;
  mret (set_disputes (set_row fd_id d) db).

Definition flag_dispute (db : disbursement_store) (flag_id : uuid) : option fraud_dispute :=
  find_row (fun d => bool_decide (fd_fraud_flag_id d = flag_id)) (ft_disputes (ds_fraud db)).

(** A retry of the same submission. *)
Definition same_dispute (d : fraud_dispute) (user_id : uuid) (message : string)
    (db : disbursement_store) : result (fraud_dispute * bool * disbursement_store) :=
  if bool_decide (fd_submitted_by_user_id d = user_id) && bool_decide (fd_message d = message)
  then mret (d, false, db) else Raise (AppError "FRAUD_DISPUTE_REPLAY_CONFLICT" 409).

Definition _owned_driver_profile (db : disbursement_store) (user_id : uuid) : result driver_profile :=
  require_some (find_row (fun p => bool_decide (dp_user_id p = user_id)) (st_profiles db))
    (AppError "DRIVER_PROFILE_NOT_FOUND" 404).

(** [arrived]: the disputes other transactions commit before the insertion. *)
Definition create_driver_dispute (arrived : list fraud_dispute) (db : disbursement_store)
    (flag_id user_id : uuid) (message : string) : result (fraud_dispute * bool * disbursement_store) :=
  let normalized := strip message in
  profile ← _owned_driver_profile db user_id;
  f ← require_some (find_by_key fl_id flag_id (flags db)) (AppError "FRAUD_FLAG_NOT_FOUND" 404);
  raise_if (negb (bool_decide (fl_driver_profile_id f = dp_id profile)))
    (AppError "FRAUD_FLAG_NOT_FOUND" 404) ;;
  match flag_dispute db (fl_id f) with
  | Some d => same_dispute d user_id normalized db
  | None =>
      raise_if (negb (hold_active (fl_status f))) (AppError "FRAUD_FLAG_NOT_DISPUTABLE" 409) ;;
      let db := set_disputes (fun l => l ++ arrived) db in
      let d := FraudDispute (uuid4 (fd_id <$> ft_disputes (ds_fraud db))) (fl_id f) (dp_id profile)
                 user_id normalized DISPUTE_OPEN None None None in
      match flush_dispute d db with
      | Raise exc =>
          match flag_dispute db (fl_id f) with
          | None => Raise exc
          | Some existing => same_dispute existing user_id normalized db
          end
      | Ok db => mret (d, true, audit (Some user_id) "driver.fraud_dispute.created" "fraud_dispute" (fd_id d) db)
      end
  end.

Definition reply_to_dispute (clock : Z) (db : disbursement_store) (dispute_id actor_user_id : uuid)
    (reply : string) : result (fraud_dispute * bool * disbursement_store) :=
  let normalized := strip reply in
  let not_found := AppError "FRAUD_DISPUTE_NOT_FOUND" 404 in
  d ← require_some (find_by_key fd_id dispute_id (ft_disputes (ds_fraud db))) not_found;
  f ← require_some (find_by_key fl_id (fd_fraud_flag_id d) (flags db)) not_found;
  if bool_decide (fd_status d = DISPUTE_REPLIED) then
    raise_if (negb (bool_decide (fd_replied_by_user_id d = Some actor_user_id)
                    && bool_decide (fd_reply_text d = Some normalized)))
      (AppError "FRAUD_DISPUTE_REPLY_REPLAY_CONFLICT" 409) ;;
    mret (d, false, db)
  else
    let replied := FraudDispute (fd_id d) (fd_fraud_flag_id d) (fd_driver_profile_id d)
      (fd_submitted_by_user_id d) (fd_message d) DISPUTE_REPLIED (Some actor_user_id) (Some clock)
      (Some normalized) in
    db ← update_dispute replied db;
    db ← create_fraud_dispute_replied_notice clock db f (fd_id d);
    mret (replied, true, audit (Some actor_user_id) "admin.fraud_dispute.replied" "fraud_dispute" (fd_id d) db).

(** ** Assessments *)

Definition assessment_successful (s : fraud_assessment_status) : bool :=
  bool_decide (s = ASSESSMENT_CLEAN) || bool_decide (s = ASSESSMENT_FLAGGED).
Definition replay_successful (s : route_replay_status) : bool :=
  bool_decide (s = REPLAY_COMPUTED) || bool_decide (s = REPLAY_INSUFFICIENT_DATA).

(** [sorted(..., key=(flag_type, severity))] of the rendered facts. *)
Definition flag_fact (f : fraud_flag) : string :=
  json_compact [("description", json_string (fl_description f)); ("evidence", fl_evidence f);
                ("flag_type", json_string (fl_flag_type f)); ("severity", json_string (fl_severity f));
                ("status", json_string (flag_status_value (fl_status f)))]%string.

Definition fact_leb (a b : fraud_flag) : bool :=
  if bool_decide (fl_flag_type a = fl_flag_type b) then String.leb (fl_severity a) (fl_severity b)
  else String.leb (fl_flag_type a) (fl_flag_type b).

Definition current_flag_facts (l : list fraud_flag) : list string := flag_fact <$> stable_sort fact_leb l.

Context `{AnalyticsFingerprint}.

(** [upstream] are the rendered items of the upstream facts, in key order. *)
Definition assessment_inputs_fingerprint (analytics : trip_analytics) (l : list fraud_flag)
    (formula_version : string) (upstream : list (string * string)) : result (string * string) :=
  source_fingerprint ← analytics_output_fingerprint analytics;
  mret (source_fingerprint,
    sha256_hexdigest (json_compact
      [("flags", json_list (current_flag_facts l));
       ("formula_version", json_string formula_version);
       ("source_analytics_fingerprint", json_string source_fingerprint);
       ("upstream", json_compact upstream)]%string)).

Definition is_current_successful_assessment (s : fraud_settings) (a : fraud_assessment)
    (analytics : trip_analytics) (l : list fraud_flag) (upstream : list (string * string))
    : result bool :=
  if negb (assessment_successful (fa_status a)) then mret false
  else
    fp ← assessment_inputs_fingerprint analytics l (fraud_assessment_formula_version s) upstream;
    mret (bool_decide (fa_formula_version a = fraud_assessment_formula_version s)
          && bool_decide (fa_source_analytics_fingerprint a = fp.1)
          && bool_decide (fa_inputs_fingerprint a = fp.2)).

Definition route_replay_assessment_facts (r : route_replay_signature) : string :=
  json_compact
    [("detector_config_fingerprint", json_string (rr_detector_config_fingerprint r));
     ("detector_version", json_string (rr_detector_version r));
     ("normalized_fingerprint", json_optional (rr_normalized_fingerprint r));
     ("payload_fingerprint", json_optional (rr_payload_fingerprint r));
     ("point_count", json_int (rr_point_count r));
     ("source_analytics_fingerprint", json_string (rr_source_analytics_fingerprint r));
     ("status", json_string (replay_status_value (rr_status r)))]%string.

(** [{"route_replay": route_replay_assessment_facts(signature)}] *)
Definition replay_upstream (r : route_replay_signature) : list (string * string) :=
  [("route_replay"%string, route_replay_assessment_facts r)].

Definition flag_order (a b : fraud_flag) : bool :=
  if bool_decide (fl_flag_type a = fl_flag_type b) then
    if bool_decide (fl_severity a = fl_severity b) then (fl_id a <=? fl_id b)%N
    else String.leb (fl_severity a) (fl_severity b)
  else String.leb (fl_flag_type a) (fl_flag_type b).

Definition load_current_detection_flags (db : disbursement_store) (analytics : trip_analytics)
    : list fraud_flag :=
  stable_sort flag_order
    (List.filter (fun f => bool_decide (fl_trip_analytics_id f = Some (ta_id analytics))
                           && (fl_detected_at f =? ta_computed_at analytics)) (flags db)).

(** [max((flag.updated_at ...), default=None)] *)
Definition flags_updated_through (l : list fraud_flag) : option Z :=
  foldl (fun m f => Some (match m with Some m => Z.max m (fl_updated_at f) | None => fl_updated_at f end))
    None l.

Definition trip_assessment (db : disbursement_store) (trip : uuid) : option fraud_assessment :=
  find_row (fun a => bool_decide (fa_trip_session_id a = trip)) (ft_assessments (ds_fraud db)).

(** [load_current_successful_assessment(...).current]; the digest that raises in
    [analytics_output_fingerprint] makes the assessment not current. *)
Definition load_current_successful_assessment (s : fraud_settings) (db : disbursement_store) (trip : uuid)
    : result bool :=
  match find_row (fun t => bool_decide (ta_trip_session_id t = trip)) (st_analytics db) with
  | None => mret false
  | Some analytics =>
      if negb (bool_decide (ta_formula_version analytics = route_analytics_formula_version s)) then mret false
      else
        let l := load_current_detection_flags db analytics in
        match find_row (fun r => bool_decide (rr_trip_session_id r = trip)) (ft_signatures (ds_fraud db)) with
        | None => mret false
        | Some signature =>
            match analytics_output_fingerprint analytics with
            | Raise _ => mret false
            | Ok analytics_fingerprint =>
                let replay_current :=
                  bool_decide (rr_trip_analytics_id signature = ta_id analytics)
                  && bool_decide (rr_detector_version signature = route_replay_detector_version s)
                  && bool_decide (rr_detector_config_fingerprint signature = route_replay_config_fingerprint s)
                  && replay_successful (rr_status signature)
                  && bool_decide (rr_source_analytics_fingerprint signature = analytics_fingerprint) in
                match trip_assessment db trip with
                | Some a =>
                    if replay_current && bool_decide (fa_trip_analytics_id a = ta_id analytics)
                       && (fa_flags_count a =? Z.of_nat (length l))
                       && bool_decide (fa_flags_updated_through a = flags_updated_through l)
                    then is_current_successful_assessment s a analytics l (replay_upstream signature)
                    else mret false
                | None => mret false
                end
            end
        end
  end.

Definition UNAVAILABLE_FINGERPRINT : string := zeros 64.
Definition ASSESSMENT_ERROR_CODE : string := "assessment_evaluation_failed".

Definition flush_assessment (a : fraud_assessment) (db : disbursement_store) : result disbursement_store :=
  raise_if (conflicts (fun a => Some (fa_trip_session_id a)) a (ft_assessments (ds_fraud db)))
    (IntegrityError "uq_fraud_assessments_trip_session_id") ;;
  mret (set_assessments (fun l => l ++ [a]) db).

(** The row of the trip: the one found, or a new pending one; when another
    transaction inserted it first ([arrived]), that one. *)
Definition assessment_row (arrived : list fraud_assessment) (db : disbursement_store)
    (candidate : fraud_assessment) : result (fraud_assessment * disbursement_store) :=
  match trip_assessment db (fa_trip_session_id candidate) with
  | Some a => mret (a, db)
  | None =>
      let db := set_assessments (fun l => l ++ arrived) db in
      match flush_assessment candidate db with
      | Ok db => mret (candidate, db)
      | Raise exc =>
          a ← require_some (trip_assessment db (fa_trip_session_id candidate)) exc;
          mret (a, db)
      end
  end.

(** [upstream_error_code] is [None] when the upstream evaluation succeeded. *)
Definition assess_trip_fraud (arrived : list fraud_assessment) (s : fraud_settings)
    (db : disbursement_store) (analytics : trip_analytics) (l : list fraud_flag) (now : Z)
    (upstream : list (string * string)) (upstream_error_code : option string)
    : result (fraud_assessment * bool * disbursement_store) :=
  let trip := ta_trip_session_id analytics in
  let through := flags_updated_through l in
  let count := Z.of_nat (length l) in
  let inputs := assessment_inputs_fingerprint analytics l (fraud_assessment_formula_version s) upstream in
  let '(source_fp, inputs_fp, failed) :=
    match inputs with
    | Ok fp => (fp.1, fp.2, negb (bool_decide (upstream_error_code = None)))
    | Raise _ => (UNAVAILABLE_FINGERPRINT, UNAVAILABLE_FINGERPRINT, true)
    end in
  let unchanged a :=
    negb failed && assessment_successful (fa_status a)
    && bool_decide (fa_formula_version a = fraud_assessment_formula_version s)
    && bool_decide (fa_source_analytics_fingerprint a = source_fp)
    && bool_decide (fa_inputs_fingerprint a = inputs_fp)
    && (fa_flags_count a =? count) && bool_decide (fa_flags_updated_through a = through) in
  let current := match trip_assessment db trip with
                 | Some a => if unchanged a then Some a else None
                 | None => None
                 end in
  match current with
  | Some a => mret (a, false, db)
  | None =>
      let candidate := FraudAssessment (uuid4 (fa_id <$> ft_assessments (ds_fraud db))) trip (ta_id analytics)
        ASSESSMENT_PENDING (fraud_assessment_formula_version s) source_fp inputs_fp count through None None in
      r ← assessment_row arrived db candidate;
      let '(a, db) := r in
      let assessed := FraudAssessment (fa_id a) (fa_trip_session_id a) (ta_id analytics)
        (if failed then ASSESSMENT_ERROR
         else match l with [] => ASSESSMENT_CLEAN | _ => ASSESSMENT_FLAGGED end)
        (fraud_assessment_formula_version s) source_fp inputs_fp count through
        (if failed then Some (default ASSESSMENT_ERROR_CODE upstream_error_code) else None)
        (Some now) in
      mret (assessed, true, set_assessments (set_row fa_id assessed) db)
  end.

(** ** Reviews and replies are final *)

Lemma notify_flag_driver_frame clock db f t payload k db' :
  notify_flag_driver clock db f t payload k = Ok db' -> exists b, db' = set_billing (fun _ => b) db.
Proof.
  unfold notify_flag_driver. intros Hrun. ok_step Hrun. ok_step Hrun as r _. injection Hrun as <-. eauto.
Qed.

(** What a review does to the flags: nothing, or one transition of an open flag. *)
Lemma review_flags clock db i actor target note f changed db' :
  _review_fraud_flag clock db i actor target note = Ok (f, changed, db') ->
  ft_disputes (ds_fraud db') = ft_disputes (ds_fraud db)
  /\ ((changed = false /\ db' = db)
      \/ exists f0, find_by_key fl_id i (flags db) = Some f0 /\ fl_status f0 = FLAG_OPEN
          /\ target <> FLAG_OPEN
          /\ f = reviewed_flag f0 target actor (strip <$> note) clock
          /\ flags db' = set_row fl_id f (flags db)).
Proof.
  unfold _review_fraud_flag. intros Hrun. ok_step Hrun as f0 Hf0. apply require_some_Ok in Hf0.
  destruct (bool_decide (fl_status f0 = target)) eqn:Hs.
  { ok_step Hrun. injection Hrun as <- <- <-. split; [done|by left]. }
  ok_step Hrun as u Ht. apply raise_if_Ok, negb_false_iff, bool_decide_eq_true in Ht.
  assert (Hopen : fl_status f0 = FLAG_OPEN) by (destruct (fl_status f0); [done|by apply elem_of_nil in Ht..]).
  ok_step Hrun as db1 Hu. ok_step Hrun as db2 Hn. injection Hrun as <- <- <-.
  unfold update_flag in Hu. ok_step Hu. ok_step Hu. injection Hu as <-.
  unfold flags. assert (ds_fraud db2 = ds_fraud (set_flags (set_row fl_id
            (reviewed_flag f0 target actor (strip <$> note) clock)) db)) as ->.
  { destruct target; [by injection Hn as <-|..];
      apply notify_flag_driver_frame in Hn as [b ->]; reflexivity. }
  split; [done|]. right. exists f0. split; [done|]. split; [done|]. split; [|done].
  intros ->. rewrite Hopen in Ht. change (FLAG_OPEN ∈ [FLAG_CONFIRMED; FLAG_DISMISSED]) in Ht.
  set_solver.
Qed.

Inductive fraud_step (db : disbursement_store) : disbursement_store -> Prop :=
| step_resolve clock i actor outcome note f changed db' :
    resolve_fraud_flag clock db i actor outcome note = Ok (f, changed, db') -> fraud_step db db'
| step_dispute arrived i user message d changed db' :
    create_driver_dispute arrived db i user message = Ok (d, changed, db') ->
    fraud_step db db'
| step_reply clock i actor reply d changed db' :
    reply_to_dispute clock db i actor reply = Ok (d, changed, db') -> fraud_step db db'
| step_assess arrived s analytics l now upstream err a changed db' :
    assess_trip_fraud arrived s db analytics l now upstream err = Ok (a, changed, db') ->
    fraud_step db db'.

Lemma dispute_flags arrived db i user message d changed db' :
  create_driver_dispute arrived db i user message = Ok (d, changed, db') -> flags db' = flags db.
Proof.
  unfold create_driver_dispute, same_dispute. intros Hrun. ok_step Hrun. ok_step Hrun. ok_step Hrun.
  destruct (flag_dispute _ _). { case_match; [by injection Hrun as <- <- <-|done]. }
  ok_step Hrun. set (db1 := set_disputes (fun l => l ++ arrived) db) in *.
  destruct (flush_dispute _ _) as [db2|] eqn:Hf.
  - unfold flush_dispute in Hf. ok_step Hf. ok_step Hf. injection Hf as <-. by injection Hrun as <- <- <-.
  - case_match; [|done]. case_match; [by injection Hrun as <- <- <-|done].
Qed.

Lemma reply_flags clock db i actor reply d changed db' :
  reply_to_dispute clock db i actor reply = Ok (d, changed, db') -> flags db' = flags db.
Proof.
  unfold reply_to_dispute. intros Hrun. ok_step Hrun. ok_step Hrun. case_match.
  { ok_step Hrun. by injection Hrun as <- <- <-. }
  ok_step Hrun as db1 Hu. ok_step Hrun as db2 Hn. injection Hrun as <- <- <-.
  unfold update_dispute in Hu. ok_step Hu. injection Hu as <-.
  by apply notify_flag_driver_frame in Hn as [b ->].
Qed.

Lemma assess_flags arrived s db analytics l now upstream err a changed db' :
  assess_trip_fraud arrived s db analytics l now upstream err = Ok (a, changed, db') ->
  flags db' = flags db.
Proof.
  unfold assess_trip_fraud. destruct (match assessment_inputs_fingerprint _ _ _ _ with Ok _ => _ | _ => _ end)
    as [[sf inf] failed]. intros Hrun. case_match; [by injection Hrun as <- <- <-|].
  ok_step Hrun as [row db1] Hr. injection Hrun as <- <- <-. unfold assessment_row in Hr.
  case_match; [by injection Hr as <- <-|]. case_match.
  - injection Hr as <- <-. unfold flush_assessment in *. match goal with H : _ = Ok _ |- _ => ok_step H; by injection H as <- end.
  - ok_step Hr. by injection Hr as <- <-.
Qed.

(** A flag of a later state: the same row, or the one review of an open one. *)
Definition flag_after (f f' : fraud_flag) : Prop :=
  f' = f \/ (fl_status f = FLAG_OPEN /\ fl_updated_at f < fl_updated_at f'
             /\ exists target actor note at_, target <> FLAG_OPEN /\ f' = reviewed_flag f target actor note at_).

Lemma flag_after_trans f1 f2 f3 : flag_after f1 f2 -> flag_after f2 f3 -> flag_after f1 f3.
Proof.
  intros [->|(Ho & Hlt & t & a & n & w & Ht & ->)]; [done|].
  intros [->|(Ho' & _)]; [right; eauto 10|]. cbn in Ho'. congruence.
Qed.

Lemma fraud_step_flag db db' i f :
  fraud_step db db' -> find_by_key fl_id i (flags db) = Some f ->
  exists f', find_by_key fl_id i (flags db') = Some f' /\ flag_after f f'.
Proof.
  intros Hstep Hf. destruct Hstep as [clock j actor outcome note fr ch db' Hrun|??????? Hrun|??????? Hrun|?????????? Hrun].
  - unfold resolve_fraud_flag in Hrun. ok_step Hrun.
    apply review_flags in Hrun as [_ [[_ ->]|(f0 & Hf0 & Ho & Ht & -> & ->)]]; [exists f; split; [done|by left]|].
    apply find_by_key_Some in Hf0 as Hk. destruct Hk as [_ Hk].
    destruct (decide (i = j)) as [->|Hij].
    + rewrite Hf in Hf0. injection Hf0 as <-. eexists. split; [by eapply find_set_row_same|]. right.
      split; [done|]. split; [|eauto 10]. cbn. destruct (clock <=? fl_updated_at f) eqn:Hc; bool_prop; lia.
    + exists f. split; [|by left]. rewrite find_set_row_other; [done|]. cbn. congruence.
  - apply dispute_flags in Hrun as ->. exists f. split; [done|by left].
  - apply reply_flags in Hrun as ->. exists f. split; [done|by left].
  - apply assess_flags in Hrun as ->. exists f. split; [done|by left].
Qed.

Lemma fraud_steps_flag db db' i f :
  rtc fraud_step db db' -> find_by_key fl_id i (flags db) = Some f ->
  exists f', find_by_key fl_id i (flags db') = Some f' /\ flag_after f f'.
Proof.
  intros Hsteps. revert f. induction Hsteps as [db|db db1 db' Hstep _ IH]; intros f Hf.
  { exists f. split; [done|by left]. }
  destruct (fraud_step_flag _ _ _ _ Hstep Hf) as (f1 & Hf1 & H1).
  destruct (IH f1 Hf1) as (f' & Hf' & H2). exists f'. split; [done|]. by eapply flag_after_trans.
Qed.

(** a review is final.  Through any sequence of reviews, disputes, replies
    and assessments a flag is never removed, its update watermark never moves
    back, it changes at most once and only out of the open state, by a review
    that keeps what was detected; in particular a confirmed flag keeps its
    trip on hold for ever. *)
Theorem fraud_review_is_final db db' i f :
  rtc fraud_step db db' -> find_by_key fl_id i (flags db) = Some f ->
  exists f', find_by_key fl_id i (flags db') = Some f'
    /\ fl_updated_at f <= fl_updated_at f'
    /\ (fl_status f <> FLAG_OPEN -> f' = f)
    /\ (f' <> f -> exists target actor note at_,
          target <> FLAG_OPEN /\ f' = reviewed_flag f target actor note at_)
    /\ (fl_status f = FLAG_CONFIRMED -> trip_held db' (fl_trip_session_id f) = true).
Proof.
  intros Hsteps Hf. destruct (fraud_steps_flag _ _ _ _ Hsteps Hf) as (f' & Hf' & Ha).
  exists f'. split; [done|].
  assert (Hfin : fl_status f <> FLAG_OPEN -> f' = f) by (intros Hne; destruct Ha as [->|[? _]]; done).
  split; [destruct Ha as [->|(_ & ? & _)]; lia|]. split; [exact Hfin|].
  split; [destruct Ha as [->|(_ & _ & ?)]; done|].
  intros Hc. rewrite Hfin in Hf' by congruence. apply find_by_key_Some in Hf' as [Hin _].
  eapply existsb_in; [exact Hin|]. unfold trip_hold, hold_active. by rewrite Hc, bool_decide_eq_true_2.
Qed.

(** ** An assessment just written is current *)

Lemma assessment_row_trip arrived db candidate a db' :
  assessment_row arrived db candidate = Ok (a, db') ->
  trip_assessment db' (fa_trip_session_id candidate) = Some a
  /\ st_analytics db' = st_analytics db /\ flags db' = flags db
  /\ ft_signatures (ds_fraud db') = ft_signatures (ds_fraud db).
Proof.
  unfold assessment_row. destruct (trip_assessment db _) as [a0|] eqn:Ha0; [by intros [= <- <-]|].
  set (db1 := set_assessments _ db). destruct (flush_assessment _ _) as [db2|e] eqn:Hf.
  - intros [= <- <-]. unfold flush_assessment in Hf. ok_step Hf as u Hc. injection Hf as <-.
    apply raise_if_Ok in Hc. split; [|done]. unfold trip_assessment in *.
    cbn [set_assessments set_fraud ds_fraud ft_assessments]. rewrite find_row_app.
    destruct (find_row _ (ft_assessments (ds_fraud db1))) as [x|] eqn:Hx.
    + exfalso. apply find_row_Some in Hx as [Hx Ht]. apply bool_decide_eq_true in Ht.
      apply bool_decide_eq_false in Hc. apply Hc, list_elem_of_fmap. exists x. by rewrite Ht.
    + unfold find_row. cbn. by rewrite bool_decide_eq_true_2.
  - intros Hr. ok_step Hr as x Hx. injection Hr as <- <-. by apply require_some_Ok in Hx.
Qed.

(** What the reader compares with the stored row. *)
Definition up_to_date (s : fraud_settings) (analytics : trip_analytics) (l : list fraud_flag)
    (fp : string * string) (a : fraud_assessment) : bool :=
  bool_decide (fa_trip_analytics_id a = ta_id analytics)
  && assessment_successful (fa_status a)
  && bool_decide (fa_formula_version a = fraud_assessment_formula_version s)
  && bool_decide (fa_source_analytics_fingerprint a = fp.1)
  && bool_decide (fa_inputs_fingerprint a = fp.2)
  && (fa_flags_count a =? Z.of_nat (length l))
  && bool_decide (fa_flags_updated_through a = flags_updated_through l).

Lemma assess_result arrived s db analytics l now upstream fingerprint a changed db' :
  let trip := ta_trip_session_id analytics in
  analytics_output_fingerprint analytics = Ok fingerprint ->
  (forall a0, trip_assessment db trip = Some a0 -> fa_trip_analytics_id a0 = ta_id analytics) ->
  assess_trip_fraud arrived s db analytics l now upstream None = Ok (a, changed, db') ->
  exists fp,
    assessment_inputs_fingerprint analytics l (fraud_assessment_formula_version s) upstream = Ok fp
    /\ trip_assessment db' trip = Some a
    /\ up_to_date s analytics l fp a = true
    /\ (changed = true -> fa_status a = match l with [] => ASSESSMENT_CLEAN | _ => ASSESSMENT_FLAGGED end)
    /\ st_analytics db' = st_analytics db
    /\ ft_signatures (ds_fraud db') = ft_signatures (ds_fraud db)
    /\ flags db' = flags db.
Proof.
  intros trip Hfp Hbound Hrun. unfold assess_trip_fraud in Hrun. cbn zeta in Hrun. fold trip in Hrun.
  destruct (assessment_inputs_fingerprint _ _ _ _) as [fp|] eqn:Hi;
    [|unfold assessment_inputs_fingerprint in Hi; by rewrite Hfp in Hi].
  exists fp. split; [done|]. cbn [negb] in Hrun. rewrite (bool_decide_eq_true_2 (None = None)) in Hrun by done.
  cbn [negb andb] in Hrun.
  match type of Hrun with match ?c with Some _ => _ | None => _ end = _ => destruct c as [a0|] eqn:Hc end.
  - injection Hrun as <- <- <-. destruct (trip_assessment db trip) as [a1|] eqn:Ha1; [|done].
    case_match eqn:Hu; [|done]. injection Hc as ->. split; [done|]. split; [|done].
    unfold up_to_date. rewrite (bool_decide_eq_true_2 _ (Hbound _ eq_refl)). exact Hu.
  - clear Hc. ok_step Hrun as [row db1] Hr. injection Hrun as <- <- <-.
    apply assessment_row_trip in Hr as (Hrow & Ha & Hf & Hs). cbn [fa_trip_session_id] in Hrow. split.
    { eapply find_row_set_row; [exact Hrow| |done]. cbn. unfold trip_assessment in Hrow.
      by apply find_row_Some in Hrow as [_ Ht]. }
    split; [|done]. unfold up_to_date. cbn [fa_trip_analytics_id fa_status fa_formula_version
      fa_source_analytics_fingerprint fa_inputs_fingerprint fa_flags_count fa_flags_updated_through].
    rewrite Z.eqb_refl, !bool_decide_eq_true_2 by done. by destruct l.
Qed.

(** what the processing of a trip records is what the money gates later
    accept.  When the analytics carry the running formula version, the route
    replay signature matches them and the detector's settings, and the inputs
    can be fingerprinted, assessing the trip with its current flags succeeds
    in making the stored assessment current and successful, be it new,
    refreshed or found unchanged, and whoever created the row first. *)
Theorem assessed_trip_is_current arrived s db analytics signature now fingerprint a changed db' :
  let trip := ta_trip_session_id analytics in
  let l := load_current_detection_flags db analytics in
  find_row (fun t => bool_decide (ta_trip_session_id t = trip)) (st_analytics db) = Some analytics ->
  ta_formula_version analytics = route_analytics_formula_version s ->
  analytics_output_fingerprint analytics = Ok fingerprint ->
  find_row (fun r => bool_decide (rr_trip_session_id r = trip)) (ft_signatures (ds_fraud db)) = Some signature ->
  rr_trip_analytics_id signature = ta_id analytics ->
  rr_detector_version signature = route_replay_detector_version s ->
  rr_detector_config_fingerprint signature = route_replay_config_fingerprint s ->
  replay_successful (rr_status signature) = true ->
  rr_source_analytics_fingerprint signature = fingerprint ->
  (forall a0, trip_assessment db trip = Some a0 -> fa_trip_analytics_id a0 = ta_id analytics) ->
  assess_trip_fraud arrived s db analytics l now (replay_upstream signature) None = Ok (a, changed, db') ->
  load_current_successful_assessment s db' trip = Ok true
  /\ (changed = true -> fa_status a = match l with [] => ASSESSMENT_CLEAN | _ => ASSESSMENT_FLAGGED end).
Proof.
  intros trip l Han Hfv Hfp Hsig Hsid Hdv Hcf Hst Hsrc Hbound Hrun.
  destruct (assess_result _ _ _ _ _ _ _ _ _ _ _ Hfp Hbound Hrun)
    as (fp & Hinputs & Hrow & Hok & Hnew & Hst' & Hsig' & Hfl).
  split; [|exact Hnew]. unfold load_current_successful_assessment. subst trip.
  rewrite Hst', Han, Hfv, Hsig', Hsig, Hfp, (bool_decide_eq_true_2 _ Hsid), (bool_decide_eq_true_2 _ Hdv),
    (bool_decide_eq_true_2 _ Hcf), (bool_decide_eq_true_2 _ Hsrc), Hst, Hrow.
  rewrite bool_decide_eq_true_2 by done. cbn [negb andb].
  assert (Hl : load_current_detection_flags db' analytics = l)
    by (unfold load_current_detection_flags; by rewrite Hfl).
  rewrite Hl. unfold is_current_successful_assessment, up_to_date in *. rewrite Hinputs.
  bool_prop. subst. rewrite !bool_decide_eq_true_2 by done. cbn [andb].
  match goal with H : assessment_successful _ = true |- _ => rewrite H end.
  match goal with H : fa_flags_count a = _ |- _ => rewrite H, Z.eqb_refl end.
  cbn. by rewrite !bool_decide_eq_true_2.
Qed.

End Fraud.

Module FraudSample.
Import DisbursementSample.

#[export] Instance fingerprint : AnalyticsFingerprint := fun t => Ok (ta_formula_version t).

Definition settings : fraud_settings := FraudSettings "ra1" "rr1" "config" "fa1".
Definition analytics : trip_analytics :=
  TripAnalytics 20 10 2 4 5 6 TA_COMPUTED "ra1" 100 100.
Definition signature : route_replay_signature :=
  RouteReplaySignature 30 10 20 REPLAY_COMPUTED "rr1" "config" "ra1" (Some "p"%string) (Some "n"%string) 9.
Definition flag : fraud_flag :=
  FraudFlag 7 10 (Some 20%N) 4 5 "route_replay" "high" FLAG_OPEN "replayed" "{}" 100 None None None None 100.

Definition store : disbursement_store :=
  set_payout (fun p => {| st_trips := []; st_analytics := [analytics]; st_estimates := []; st_bindings := [];
     st_campaigns := []; st_rules := []; st_revisions := []; st_calculations := []; st_ledger := [];
     st_orders := []; st_lines := []; st_intents := []; st_offsets := [];
     st_profiles := st_profiles p; st_cutoffs := []; st_audit := [] |})
  (set_fraud (fun _ => FraudTables [flag] [] [] [signature]) DisbursementSample.store).

Definition reviewed : disbursement_store :=
  match resolve_fraud_flag 500 store 7 1 FLAG_CONFIRMED " seen " with Ok r => r.2 | Raise _ => store end.

Definition assessed : result (fraud_assessment * bool * disbursement_store) :=
  assess_trip_fraud [] settings store analytics (load_current_detection_flags store analytics) 600
    (replay_upstream signature) None.
End FraudSample.

Lemma fraud_review_is_final_witness :
  rtc (@fraud_step DisbursementSample.digest FraudSample.fingerprint) FraudSample.store FraudSample.reviewed
  /\ exists f', find_by_key fl_id 7 (flags FraudSample.reviewed) = Some f'
    /\ fl_updated_at FraudSample.flag <= fl_updated_at f'.
Proof.
  assert (Hstep : rtc (@fraud_step DisbursementSample.digest FraudSample.fingerprint)
    FraudSample.store FraudSample.reviewed).
  { apply rtc_once. eapply (step_resolve _ 500 7 1 FLAG_CONFIRMED " seen "). vm_compute. reflexivity. }
  split; [exact Hstep|].
  destruct (@fraud_review_is_final DisbursementSample.digest FraudSample.fingerprint _ _ 7 FraudSample.flag Hstep)
    as (f' & Hf & Hu & _); [reflexivity|]. by exists f'.
Defined.

Lemma assessed_trip_is_current_witness :
  exists a db', FraudSample.assessed = Ok (a, true, db')
    /\ @load_current_successful_assessment DisbursementSample.digest FraudSample.fingerprint
         FraudSample.settings db' 10 = Ok true.
Proof.
  destruct FraudSample.assessed as [[[a changed] db']|] eqn:Hr; [|vm_compute in Hr; discriminate].
  exists a, db'.
  assert (changed = true) as -> by (vm_compute in Hr; congruence). split; [reflexivity|].
  eapply (@assessed_trip_is_current DisbursementSample.digest FraudSample.fingerprint [] FraudSample.settings
    FraudSample.store FraudSample.analytics FraudSample.signature 600 "ra1"); try reflexivity; [done|exact Hr].
Defined.
