(* ===== verification/Adapters.v ===== *)
(** Disbursement providers ([app/adapters/disbursement/provider.py]): the
    protocol the disbursement service calls, what its two capability flags
    promise, and the adapter for tests and local runs, which keeps the
    promises. *)

From stdpp Require Import base list strings gmap.
From Stdlib Require Import ZArith Lia.
From S2P Require Import Prelude PayoutData Text.

#[local] Open Scope Z_scope.

Inductive provider_lookup_status := LOOKUP_FOUND | LOOKUP_NOT_FOUND | LOOKUP_UNKNOWN.

#[export] Instance provider_lookup_status_eq_dec : EqDecision provider_lookup_status.
Proof. solve_decision. Defined.

Record provider_capabilities := ProviderCapabilities {
  provider_name : string;
  lookup_by_idempotency_key : bool;
  semantic_same_key_idempotency : bool
}.

Record disbursement_instruction := DisbursementInstruction {
  di_line_id : string;
  di_idempotency_key : string;
  di_instruction : json_strings;
  di_instruction_fingerprint : string
}.

Record provider_submission := ProviderSubmission {
  ps_provider_reference : string;
  ps_line_references : gmap string string
}.

Record provider_lookup := ProviderLookup {
  pk_status : provider_lookup_status;
  pk_provider_submission_reference : option string;
  pk_provider_transfer_reference : option string
}.

Record verified_line_evidence := VerifiedLineEvidence {
  ve_provider_transfer_reference : string;
  ve_provider_event_id : string;
  ve_outcome : string;
  ve_occurred_at : datetime;
  ve_evidence_fingerprint : string;
  ve_provider_reference : option string;
  ve_amount : option string;
  ve_currency : option string;
  ve_provider_event_type : option string
}.

(** [DisbursementAdapter]: a provider of states [P].  A call moves the provider
    to a new state and returns or raises. *)
Class DisbursementAdapter (P : Type) := {
  capabilities : provider_capabilities;
  submit_batch : P -> string -> list disbursement_instruction -> P * result provider_submission;
  lookup_line : P -> string -> string -> P * result provider_lookup
}.

(** The authenticated evidence of a transfer's outcome: of a webhook's payload and
    signature, or of a poll by the transfer's reference. *)
Class DisbursementWebhook (P : Type) := {
  verify_webhook : P -> string -> string -> result verified_line_evidence
}.
Class DisbursementPoll (P : Type) := {
  poll_line : P -> string -> P * result verified_line_evidence
}.

(** The two capabilities as laws over the transfers the provider executed:
    idempotency key to instruction fingerprint and transfer reference.
    [semantic_same_key_idempotency]: a submission executes at most one transfer,
    and none when its key has one already; the reference it answers is the
    executed transfer's.  [lookup_by_idempotency_key]: a lookup executes nothing,
    finds the transfer of the key, and misses it only when there is none.  The
    promises are about the keys the provider tells apart, [key_ok]. *)
Class ProviderLaws (P : Type) `{DisbursementAdapter P} := {
  provider_ok : P -> Prop;
  key_ok : string -> Prop;
  transfers : P -> gmap string (string * string);
  submit_ok p batch_id i :
    provider_ok p -> key_ok (di_idempotency_key i) -> provider_ok (submit_batch p batch_id [i]).1;
  submit_once p batch_id i :
    provider_ok p -> key_ok (di_idempotency_key i) ->
    let p' := (submit_batch p batch_id [i]).1 in
    transfers p' = transfers p
    \/ (transfers p !! di_idempotency_key i = None
        /\ exists ref, transfers p' = <[di_idempotency_key i := (di_instruction_fingerprint i, ref)]> (transfers p));
  submit_reference p batch_id i receipt ref :
    provider_ok p -> key_ok (di_idempotency_key i) ->
    (submit_batch p batch_id [i]).2 = Ok receipt ->
    ps_line_references receipt !! di_line_id i = Some ref ->
    exists fingerprint, transfers (submit_batch p batch_id [i]).1 !! di_idempotency_key i
                        = Some (fingerprint, ref);
  lookup_ok p key fingerprint : provider_ok p -> key_ok key -> provider_ok (lookup_line p key fingerprint).1;
  lookup_silent p key fingerprint :
    provider_ok p -> key_ok key -> transfers (lookup_line p key fingerprint).1 = transfers p;
  lookup_missing p key fingerprint answer :
    provider_ok p -> key_ok key -> (lookup_line p key fingerprint).2 = Ok answer ->
    pk_status answer = LOOKUP_NOT_FOUND -> transfers p !! key = None;
  lookup_reference p key fingerprint answer ref :
    provider_ok p -> key_ok key -> (lookup_line p key fingerprint).2 = Ok answer ->
    pk_status answer = LOOKUP_FOUND -> pk_provider_transfer_reference answer = Some ref ->
    exists fingerprint', transfers p !! key = Some (fingerprint', ref)
}.

(** ** [DisabledDisbursementAdapter] *)

Inductive disabled_provider := Disabled.

#[export] Instance disabled_adapter : DisbursementAdapter disabled_provider := {|
  capabilities := ProviderCapabilities "disabled" false false;
  submit_batch := fun p _ _ => (p, Raise DisbursementUnavailableError);
  lookup_line := fun p _ _ => (p, Raise DisbursementUnavailableError)
|}.

#[export] Instance disabled_webhook : DisbursementWebhook disabled_provider := {|
  verify_webhook := fun _ _ _ => Raise DisbursementUnavailableError
|}.
#[export] Instance disabled_poll : DisbursementPoll disabled_provider := {|
  poll_line := fun p _ => (p, Raise DisbursementUnavailableError)
|}.

(** ** [FakeDisbursementAdapter] *)

(** An executed effect: instruction fingerprint, submission reference, transfer
    reference. *)
Record fake_effect := FakeEffect {
  fe_fingerprint : string;
  fe_submission_reference : string;
  fe_transfer_reference : string
}.

Record fake_provider := FakeProvider {
  fk_calls : list (string * list disbursement_instruction);
  fk_lookup_results : gmap string provider_lookup;
  fk_effects : gmap string fake_effect;
  fk_poll_results : gmap string verified_line_evidence;
  fk_poll_calls : list string
}.

Definition fake_effect_of (batch_id : string) (i : disbursement_instruction) : fake_effect :=
  FakeEffect (di_instruction_fingerprint i) ("fake-batch-" +:+ batch_id) ("fake-line-" +:+ di_line_id i).

(** The loop of [submit_batch]: the effects, the references of the lines and the
    distinct submission references; effects of earlier instructions stay when a
    later one raises. *)
Fixpoint fake_submit_loop (batch_id : string) (items : list disbursement_instruction)
    (effects : gmap string fake_effect) (line_references : gmap string string)
    (submission_references : gset string)
    : gmap string fake_effect * result (gmap string string * gset string) :=
  match items with
  | [] => (effects, mret (line_references, submission_references))
  | i :: rest =>
      match effects !! di_idempotency_key i with
      | Some e =>
          if bool_decide (fe_fingerprint e = di_instruction_fingerprint i)
          then fake_submit_loop batch_id rest effects
                 (<[di_line_id i := fe_transfer_reference e]> line_references)
                 ({[fe_submission_reference e]} ∪ submission_references)
          else (effects, Raise ValueError)
      | None =>
          let e := fake_effect_of batch_id i in
          fake_submit_loop batch_id rest (<[di_idempotency_key i := e]> effects)
            (<[di_line_id i := fe_transfer_reference e]> line_references)
            ({[fe_submission_reference e]} ∪ submission_references)
      end
  end.

Definition fake_submit_batch (p : fake_provider) (batch_id : string) (items : list disbursement_instruction)
    : fake_provider * result provider_submission :=
  let '(effects, r) := fake_submit_loop batch_id items (fk_effects p) ∅ ∅ in
  let p' := FakeProvider (fk_calls p ++ [(batch_id, items)]) (fk_lookup_results p) effects
              (fk_poll_results p) (fk_poll_calls p) in
  (p', r ← r;
       raise_if (1 <? Z.of_nat (size r.2)) ValueError ;;
       mret (ProviderSubmission (default ("fake-batch-" +:+ batch_id)%string (head (elements r.2))) r.1)).

Definition fake_lookup_line (p : fake_provider) (key fingerprint : string)
    : fake_provider * result provider_lookup :=
  (p, mret match fk_lookup_results p !! key with
           | Some override => override
           | None =>
               match fk_effects p !! key with
               | None => ProviderLookup LOOKUP_NOT_FOUND None None
               | Some e =>
                   if bool_decide (fe_fingerprint e = fingerprint)
                   then ProviderLookup LOOKUP_FOUND (Some (fe_submission_reference e))
                          (Some (fe_transfer_reference e))
                   else ProviderLookup LOOKUP_UNKNOWN None None
               end
           end).

(** [set_lookup_result] *)
Definition set_lookup_result (p : fake_provider) (key : string) (answer : provider_lookup) : fake_provider :=
  FakeProvider (fk_calls p) (<[key := answer]> (fk_lookup_results p)) (fk_effects p)
    (fk_poll_results p) (fk_poll_calls p).

#[export] Instance fake_adapter : DisbursementAdapter fake_provider := {|
  capabilities := ProviderCapabilities "fake" true true;
  submit_batch := fake_submit_batch;
  lookup_line := fake_lookup_line
|}.

(** The result of polls about one transfer. *)
Definition set_poll_result `{Sha256} (p : fake_provider) (reference event_id outcome : string) (occurred_at : datetime)
    : fake_provider :=
  let payload := json_compact
    [("occurred_at", json_string (isoformat_utc (utc_of occurred_at))); ("outcome", json_string outcome);
     ("provider_event_id", json_string event_id);
     ("provider_transfer_reference", json_string reference)]%string in
  let evidence := VerifiedLineEvidence reference event_id outcome occurred_at (sha256_hexdigest payload)
    None None None (Some "provider.result"%string) in
  FakeProvider (fk_calls p) (fk_lookup_results p) (fk_effects p) (<[reference := evidence]> (fk_poll_results p))
    (fk_poll_calls p).

Definition fake_poll_line (p : fake_provider) (reference : string) : fake_provider * result verified_line_evidence :=
  (FakeProvider (fk_calls p) (fk_lookup_results p) (fk_effects p) (fk_poll_results p)
     (fk_poll_calls p ++ [reference]),
   require_some (fk_poll_results p !! reference) ValueError).

#[export] Instance fake_poll : DisbursementPoll fake_provider := {| poll_line := fake_poll_line |}.

(** The fake keeps the laws as long as no lookup answer is injected. *)
Definition fake_ok (p : fake_provider) : Prop := fk_lookup_results p = ∅.

Definition fake_transfers (p : fake_provider) : gmap string (string * string) :=
  (fun e => (fe_fingerprint e, fe_transfer_reference e)) <$> fk_effects p.

(** A submission of one instruction, on every branch. *)
Lemma fake_submit_one p batch_id i :
  let r := fake_submit_batch p batch_id [i] in
  fk_lookup_results r.1 = fk_lookup_results p
  /\ match fk_effects p !! di_idempotency_key i with
     | Some e =>
         fk_effects r.1 = fk_effects p
         /\ r.2 = if bool_decide (fe_fingerprint e = di_instruction_fingerprint i)
                  then Ok (ProviderSubmission (fe_submission_reference e)
                             {[di_line_id i := fe_transfer_reference e]})
                  else Raise ValueError
     | None =>
         fk_effects r.1 = <[di_idempotency_key i := fake_effect_of batch_id i]> (fk_effects p)
         /\ r.2 = Ok (ProviderSubmission ("fake-batch-" +:+ batch_id)
                        {[di_line_id i := "fake-line-" +:+ di_line_id i]})
     end%string.
Proof.
  unfold fake_submit_batch. cbn [fake_submit_loop].
  destruct (fk_effects p !! _) as [e|] eqn:He; [destruct (bool_decide _)|]; (split; [done|]);
    cbn; rewrite ?(right_id_L ∅ (∪)), ?size_singleton, ?elements_singleton; cbn;
    by rewrite ?insert_empty.
Qed.

#[export] Instance fake_laws : ProviderLaws fake_provider.
Proof.
  refine {| provider_ok := fake_ok; key_ok := fun _ => True; transfers := fake_transfers |}; unfold fake_ok, fake_transfers;
    cbn [submit_batch lookup_line fake_adapter].
  - intros p b i Hp _. destruct (fake_submit_one p b i) as [-> _]. exact Hp.
  - intros p b i Hp _. destruct (fake_submit_one p b i) as [_ H]. cbn zeta.
    destruct (fk_effects p !! _) as [e|] eqn:He; destruct H as [-> _]; [by left|]. right.
    rewrite lookup_fmap, He. split; [done|]. eexists. by rewrite fmap_insert.
  - intros p b i receipt ref Hp _ Hr Href. destruct (fake_submit_one p b i) as [_ H].
    rewrite lookup_fmap. destruct (fk_effects p !! _) as [e|] eqn:He; destruct H as [-> Hr2]; rewrite Hr2 in Hr.
    + case_match; [|done]. injection Hr as <-. cbn in Href. rewrite lookup_singleton_eq in Href.
      injection Href as <-. rewrite He. cbn. eauto.
    + injection Hr as <-. cbn in Href. rewrite lookup_singleton_eq in Href. injection Href as <-.
      rewrite lookup_insert_eq. cbn. eauto.
  - done.
  - done.
  - intros p key fp answer Hp _ Hr Hs. cbn in Hr. injection Hr as <-. rewrite Hp, lookup_empty in Hs.
    rewrite lookup_fmap. destruct (fk_effects p !! key) as [e|]; [|done]. by case_match.
  - intros p key fp answer ref Hp _ Hr Hs Href. cbn in Hr. injection Hr as <-. rewrite Hp, lookup_empty in Hs, Href.
    rewrite lookup_fmap. destruct (fk_effects p !! key) as [e|]; [|done]. case_match; [|done].
    injection Href as <-. cbn. eauto.
Defined.
