(* ===== verification/Paystack.v ===== *)
(** Paystack ([app/adapters/payments/paystack.py], [disbursement/paystack.py]):
    naira amounts as subunits and back, the client's reading of an answer, and
    the transfer adapter over Paystack's documented service. *)

From stdpp Require Import base list strings gmap pretty.
From Stdlib Require Import ZArith QArith Lia Ascii.
From S2P Require Import Prelude PayoutData Text Json BillingData DisbursementData Adapters.

#[local] Open Scope Z_scope.

(** ** [Decimal(text)] *)

Definition sign_of (s : string) : bool * string :=
  match s with
  | String "-" r => (true, r)
  | String "+" r => (false, r)
  | _ => (false, s)
  end%char.

Fixpoint remove_underscores (s : string) : string :=
  match s with
  | EmptyString => EmptyString
  | String c r => if (c =? "_")%char then remove_underscores r else String c (remove_underscores r)
  end.

(** The exponent part, [None] when it is malformed. *)
Definition exponent_of (s : string) : option Z :=
  match s with
  | EmptyString => Some 0
  | String c r =>
      if ((c =? "e") || (c =? "E"))%char then
        let '(negative, r) := sign_of r in
        let '(d, rest) := span_digits r in
        if negb (nonempty d) || nonempty rest then None
        else Some (if negative then - digits_value d 0 else digits_value d 0)
      else None
  end.

Definition scaled (coefficient exponent : Z) : Q :=
  if 0 <=? exponent then inject_Z (coefficient * 10 ^ exponent)
  else coefficient # Z.to_pos (10 ^ (- exponent)).

(** [inf], [infinity], [nan] and [snan] with digits, in any case. *)
Definition special_decimal (s : string) : amount_input :=
  let s := lower s in
  if String.eqb s "inf" || String.eqb s "infinity" then NotFinite
  else
    let payload := if String.prefix "snan" s then Some (String.substring 4 (String.length s - 4) s)
                   else if String.prefix "nan" s then Some (String.substring 3 (String.length s - 3) s)
                   else None in
    match payload with
    | Some p => if nonempty (span_digits p).2 then NotDecimal else NotFinite
    | None => NotDecimal
    end.

(** The limits of a decimal's exponent on a 64-bit platform; a number beyond
    them is refused as text that is not a number. *)
Definition MAX_EMAX : Z := 999999999999999999.
Definition MIN_ETINY : Z := -1999999999999999997.

Definition decimal_of_string (text : string) : amount_input :=
  let '(negative, s) := sign_of (remove_underscores (strip text)) in
  let '(whole, rest) := span_digits s in
  let '(fraction, rest) := match rest with
                           | String "." r => span_digits r
                           | _ => (EmptyString, rest)
                           end%char in
  let digits := (whole +:+ fraction)%string in
  if negb (nonempty digits) then special_decimal s
  else
    match exponent_of rest with
    | None => NotDecimal
    | Some e =>
        let coefficient := digits_value digits 0 in
        let exponent := e - Z.of_nat (String.length fraction) in
        if (MAX_EMAX <? exponent + Z.of_nat (String.length digits) - 1) || (exponent <? MIN_ETINY) then NotDecimal
        else Finite (scaled (if negative then - coefficient else coefficient) exponent)
    end.

(** ** Amounts in subunits *)

(** [to_subunits] of [Decimal(str(amount))]; [quantize] raises when the result
    has more digits than the decimal context. *)
Definition to_subunits (amount : amount_input) : result Z :=
  match amount with
  | NotDecimal | NotFinite => Raise ValueError
  | Finite value =>
      if Qle_bool value 0 then Raise ValueError
      else
        let quantized := round_half_even (value * inject_Z 100) in
        if 10 ^ 28 <=? quantized then Raise InvalidOperation
        else if negb (Qeq_bool (value * inject_Z 100) (inject_Z quantized)) then Raise ValueError
        else mret quantized
  end.

(** [from_subunits], as whole kobo. *)
Definition from_subunits (value : json) : result kobo :=
  subunits ← match value with
             | JInt n => mret n
             | JString s =>
                 if negb (nonempty s) || nonempty (span_digits s).2 then Raise ValueError
                 else if (INT_MAX_STR_DIGITS <? String.length s)%nat then Raise ValueError
                 else mret (digits_value s 0)
             | _ => Raise ValueError
             end;
  raise_if (subunits <=? 0) ValueError ;;
  raise_if (10 ^ 28 <=? subunits) InvalidOperation ;;
  mret subunits.

Example decimal_examples :
  decimal_of_string " 1_234.05 " = Finite (123405 # 100)
  /\ decimal_of_string "12e2" = Finite (inject_Z 1200)
  /\ decimal_of_string "-inf" = NotFinite /\ decimal_of_string "1.2.3" = NotDecimal
  /\ to_subunits (decimal_of_string "1234.05") = Ok 123405
  /\ to_subunits (decimal_of_string "0.001") = Raise ValueError
  /\ to_subunits (decimal_of_string "1e26") = Raise InvalidOperation.
Proof. vm_compute. repeat split. Qed.

(** ** [PaystackClient] *)

Definition paystack_key_mode (secret_key : string) : result string :=
  if String.prefix "sk_live_" secret_key then mret "live"%string
  else if String.prefix "sk_test_" secret_key then mret "test"%string
  else Raise ValueError.

Record http_request := HttpRequest {
  rq_method : string;
  rq_path : string;
  rq_body : option json
}.

(** A transport failure, or a status code with a body that is JSON or not. *)
Inductive http_response := HttpError | HttpResponse (status_code : Z) (body : option json).

(** Paystack's service: a request moves it to a new state. *)
Class PaystackService (S : Type) := send : S -> http_request -> S * http_response.

(** What [PaystackClient.request] makes of the response. *)
Definition read_response (r : http_response) : result json :=
  match r with
  | HttpError => Raise PaystackOutcomeUnknownError
  | HttpResponse status_code body =>
      raise_if ((500 <=? status_code) || (status_code =? 429)) PaystackOutcomeUnknownError ;;
      raise_if (status_code =? 404) PaystackNotFoundError ;;
      raise_if (400 <=? status_code) PaystackRejectedError ;;
      match body with
      | Some (JObject members) =>
          match member members "status" with
          | JBool true => mret (member members "data")
          | JBool false => Raise PaystackRejectedError
          | _ => Raise PaystackMalformedResponseError
          end
      | _ => Raise PaystackMalformedResponseError
      end
  end.

(** ** [PaystackDisbursementAdapter] *)

Definition PAYSTACK_PROVIDER_NAME : string := "paystack".
Definition TRANSFER_REASON : string := "Cardvert driver payout".

Record transfer_destination := TransferDestination {
  td_account_name : string;
  td_account_number : string;
  td_bank_code : string
}.

Definition paystack_transfer_reference `{Sha256} (idempotency_key : string) : result string :=
  raise_if (negb (nonempty idempotency_key)) ValueError ;;
  mret ("cvp_" +:+ String.substring 0 46 (sha256_hexdigest idempotency_key))%string.

Definition recipient_request (d : transfer_destination) (currency : string) : http_request :=
  HttpRequest "POST" "/transferrecipient" (Some (JObject
    [("type", JString "nuban"); ("name", JString (td_account_name d));
     ("account_number", JString (td_account_number d)); ("bank_code", JString (td_bank_code d));
     ("currency", JString currency)]%string)).

Definition transfer_request (amount : Z) (recipient_code reference currency : string) : http_request :=
  HttpRequest "POST" "/transfer" (Some (JObject
    [("source", JString "balance"); ("amount", JInt amount); ("recipient", JString recipient_code);
     ("reference", JString reference); ("reason", JString TRANSFER_REASON); ("currency", JString currency)]%string)).

Definition verify_request (reference : string) : http_request :=
  HttpRequest "GET" ("/transfer/verify/" +:+ reference)%string None.

Section Adapter.
Context {Dg : Sha256} {S : Type} {Service : PaystackService S}.
(** The key mode of the client, and the resolver of a line's destination when it
    is wired. *)
Context (mode : string) (resolver : option (disbursement_instruction -> result transfer_destination)).

Definition paystack_capabilities : provider_capabilities :=
  let wired := negb (bool_decide (resolver = None)) in ProviderCapabilities PAYSTACK_PROVIDER_NAME wired wired.

(** What a submission reads of its instruction before it calls the service. *)
Definition submission_terms (i : disbursement_instruction) : result (Z * string * string) :=
  text ← require_some (di_instruction i !! "amount"%string) KeyError;
  decimal ← match decimal_of_string text with NotDecimal => Raise InvalidOperation | d => mret d end;
  amount ← to_subunits decimal;
  currency ← require_some (di_instruction i !! "currency"%string) KeyError;
  reference ← paystack_transfer_reference (di_idempotency_key i);
  mret (amount, currency, reference).

Definition _matching_recipient (recipient : json) (d : transfer_destination) (currency : string) : result string :=
  match recipient with
  | JObject members =>
      match member members "details", code_of (member members "recipient_code") with
      | JObject details, Some code =>
          raise_if (negb (is_string (member members "domain") mode
                          && match member members "active" with JBool true => true | _ => false end
                          && is_string (member members "currency") currency
                          && is_string (member details "account_number") (td_account_number d)
                          && is_string (member details "bank_code") (td_bank_code d)))
            PaystackRejectedError ;;
          mret code
      | _, _ => Raise PaystackRejectedError
      end
  | _ => Raise PaystackRejectedError
  end.

(** The transfer code of the answer to a transfer. *)
Definition transfer_answer (transfer : json) (reference : string) (amount : Z) (currency : string)
    : result string :=
  match transfer with
  | JObject members =>
      match code_of (member members "transfer_code") with
      | Some code =>
          raise_if (negb (is_string (member members "domain") mode
                          && is_string (member members "reference") reference
                          && is_int (member members "amount") amount
                          && is_string (member members "currency") currency))
            PaystackOutcomeUnknownError ;;
          mret code
      | None => Raise PaystackOutcomeUnknownError
      end
  | _ => Raise PaystackOutcomeUnknownError
  end.

(** [submit_batch]: the recipient is created first, then the transfer. *)
Definition paystack_submit_batch (s : S) (batch_id : string) (items : list disbursement_instruction)
    : S * result provider_submission :=
  match resolver with
  | None => (s, Raise DisbursementUnavailableError)
  | Some resolve =>
      match items with
      | [i] =>
          match (terms ← submission_terms i; d ← resolve i; mret (terms, d)) with
          | Raise e => (s, Raise e)
          | Ok ((amount, currency, reference), d) =>
              let '(s, r) := send s (recipient_request d currency) in
              match (data ← read_response r; _matching_recipient data d currency) with
              | Raise e => (s, Raise e)
              | Ok recipient_code =>
                  let '(s, r) := send s (transfer_request amount recipient_code reference currency) in
                  (s, data ← read_response r;
                      code ← transfer_answer data reference amount currency;
                      mret (ProviderSubmission code {[di_line_id i := code]}))
              end
          end
      | _ => (s, Raise ValueError)
      end
  end.

(** [lookup_line]: the key binds the instruction, so the fingerprint is not sent. *)
Definition paystack_lookup_line (s : S) (idempotency_key instruction_fingerprint : string)
    : S * result provider_lookup :=
  let unknown := ProviderLookup LOOKUP_UNKNOWN None None in
  match paystack_transfer_reference idempotency_key with
  | Raise e => (s, Raise e)
  | Ok reference =>
      let '(s, r) := send s (verify_request reference) in
      (s, match read_response r with
          | Raise PaystackNotFoundError => mret (ProviderLookup LOOKUP_NOT_FOUND None None)
          | Raise _ => mret unknown
          | Ok (JObject members) =>
              match code_of (member members "transfer_code") with
              | Some code =>
                  if is_string (member members "domain") mode && is_string (member members "reference") reference
                  then mret (ProviderLookup LOOKUP_FOUND (Some code) (Some code))
                  else mret unknown
              | None => mret unknown
              end
          | Ok _ => mret unknown
          end)
  end.

#[export] Instance paystack_adapter : DisbursementAdapter S := {|
  capabilities := paystack_capabilities;
  submit_batch := paystack_submit_batch;
  lookup_line := paystack_lookup_line
|}.
End Adapter.

(** ** The round trip of an amount *)

(** Text of digits and points is read as it stands. *)
Fixpoint plain (s : string) : bool :=
  match s with EmptyString => true | String c r => (is_digit c || (c =? ".")%char) && plain r end.

Lemma plain_char c : is_digit c || (c =? ".")%char = true ->
  is_space c = false /\ (c =? "_")%char = false /\ c <> "-"%char /\ c <> "+"%char.
Proof.
  intros Hc. apply orb_true_iff in Hc as [Hc|Hc%Ascii.eqb_eq]; [|by subst].
  unfold is_digit in Hc. apply andb_true_iff in Hc as [H1%Nat.leb_le H2%Nat.leb_le].
  repeat split.
  - unfold is_space. destruct (Nat.leb_spec 9 (nat_of_ascii c)), (Nat.leb_spec (nat_of_ascii c) 13),
      (Nat.leb_spec 28 (nat_of_ascii c)), (Nat.leb_spec (nat_of_ascii c) 32); try done; lia.
  - apply Ascii.eqb_neq. intros ->. vm_compute in H2. lia.
  - intros ->. vm_compute in H1. lia.
  - intros ->. vm_compute in H1. lia.
Qed.

Lemma plain_rstrip s : plain s = true -> rstrip s = s.
Proof.
  induction s as [|c s IH]; intros Hs; [done|]. cbn in Hs. apply andb_true_iff in Hs as [Hc Hs].
  apply plain_char in Hc as [Hc _]. cbn [rstrip]. rewrite (IH Hs). destruct s; [by rewrite Hc|done].
Qed.

Lemma plain_strip s : plain s = true -> strip s = s.
Proof.
  intros Hs. unfold strip. rewrite (plain_rstrip s Hs). destruct s as [|c s]; [done|].
  cbn in Hs. apply andb_true_iff in Hs as [Hc _]. apply plain_char in Hc as [Hc _]. cbn. by rewrite Hc.
Qed.

Lemma plain_underscores s : plain s = true -> remove_underscores s = s.
Proof.
  induction s as [|c s IH]; intros Hs; [done|]. cbn in Hs. apply andb_true_iff in Hs as [Hc Hs].
  apply plain_char in Hc as (_ & Hc & _). cbn. by rewrite Hc, (IH Hs).
Qed.

Lemma plain_sign s : plain s = true -> sign_of s = (false, s).
Proof.
  destruct s as [|c s]; intros Hs; [done|]. cbn in Hs. apply andb_true_iff in Hs as [Hc _].
  apply plain_char in Hc as (_ & _ & Hm & Hp). unfold sign_of.
  destruct c as [[] [] [] [] [] [] [] []]; done.
Qed.

Lemma plain_app a b : plain (a +:+ b) = plain a && plain b.
Proof.
  induction a as [|c a IH]; [done|]. rewrite append_cons. cbn [plain]. by rewrite IH, andb_assoc.
Qed.

Lemma digits_plain s : all_digits s = true -> plain s = true.
Proof.
  induction s as [|c s IH]; intros Hs; [done|]. cbn in *. apply andb_true_iff in Hs as [-> Hs]. by rewrite IH.
Qed.

(** Two digits after the point. *)
Lemma cents_digits n :
  (n < 100)%N -> all_digits (zero_padded 2 n) = true /\ String.length (zero_padded 2 n) = 2%nat
  /\ digits_value (zero_padded 2 n) 0 = Z.of_N n.
Proof.
  intros Hn.
  assert (Hall : forallb (fun n => all_digits (zero_padded 2 n) && (String.length (zero_padded 2 n) =? 2)%nat
                                   && (digits_value (zero_padded 2 n) 0 =? Z.of_N n)) (N.of_nat <$> seq 0 100) = true)
    by (vm_compute; reflexivity).
  rewrite forallb_forall in Hall. specialize (Hall n). rewrite !andb_true_iff in Hall.
  destruct Hall as [[H1 H2%Nat.eqb_eq] H3%Z.eqb_eq]; [|done].
  apply list_elem_of_In, list_elem_of_fmap. exists (N.to_nat n). split; [by rewrite N2Nat.id|].
  apply elem_of_seq. lia.
Qed.

Lemma pretty_go_length k x s :
  (x < 10 ^ N.of_nat k)%N -> (String.length (pretty_N_go x s) <= k + String.length s)%nat.
Proof.
  revert x s. induction k as [|k IH]; intros x s Hx.
  - assert (x = 0%N) as -> by (cbn in Hx; lia). by rewrite pretty_N_go_0.
  - destruct (decide (x = 0%N)) as [->|Hne]; [rewrite pretty_N_go_0; lia|]. rewrite pretty_N_go_step by lia.
    etrans; [apply IH|cbn; lia]. rewrite Nat2N.inj_succ, N.pow_succ_r' in Hx. apply N.Div0.div_lt_upper_bound. lia.
Qed.

Lemma pretty_length x : (x < 10 ^ 28)%N -> (String.length (pretty x) <= 28)%nat.
Proof.
  intros Hx. unfold pretty, pretty_N. destruct (decide _); [cbn; lia|].
  pose proof (pretty_go_length 28 x "" Hx) as H. cbn in *. lia.
Qed.

Lemma pretty_nonempty (x : N) : nonempty (pretty x) = true.
Proof.
  destruct (pretty x) eqn:Hp; [|done]. exfalso. revert Hp. unfold pretty, pretty_N.
  destruct (decide (x = 0%N)) as [->|Hx]; [done|].
  assert (Hgo : forall n s, s <> EmptyString -> pretty_N_go n s <> EmptyString).
  { intros n. induction (N.lt_wf_0 n) as [n _ IH]; intros s Hs.
    destruct (decide (n = 0%N)) as [->|Hn]; [by rewrite pretty_N_go_0|].
    rewrite pretty_N_go_step by lia. apply IH; [apply N.div_lt; lia|done]. }
  rewrite pretty_N_go_step by lia. by apply Hgo.
Qed.

Lemma append_length a b : String.length (a +:+ b) = (String.length a + String.length b)%nat.
Proof. induction a as [|c a IH]; [done|]. rewrite append_cons. cbn. by rewrite IH. Qed.

(** The text of an amount is read back as the amount. *)
Lemma decimal_of_money_str a : 0 <= a < 10 ^ 28 -> decimal_of_string (money_str a) = Finite (a # 100).
Proof.
  intros Ha. unfold money_str. rewrite (proj2 (Z.ltb_ge a 0)), append_nil by lia.
  set (w := pretty (Z.to_N (Z.abs a / 100))). set (f := zero_padded 2 (Z.to_N (Z.abs a mod 100))).
  assert (Hdiv : 0 <= Z.abs a / 100 < 10 ^ 28).
  { split; [apply Z.div_pos; lia|]. apply Z.div_lt_upper_bound; lia. }
  pose proof (Z.mod_pos_bound (Z.abs a) 100 ltac:(lia)) as Hmod.
  destruct (pretty_digits (Z.to_N (Z.abs a / 100))) as [Hw Hwv].
  destruct (cents_digits (Z.to_N (Z.abs a mod 100)) ltac:(lia)) as (Hf & Hfl & Hfv). fold w in Hw, Hwv. fold f in Hf, Hfl, Hfv.
  assert (Hplain : plain (w +:+ "." +:+ f) = true).
  { rewrite !plain_app, (digits_plain w), (digits_plain f) by done. done. }
  unfold decimal_of_string. rewrite plain_strip, plain_underscores, plain_sign by done.
  rewrite (span_digits_app w) by done. rewrite append_cons. cbn [span_digits is_digit].
  replace (is_digit ".") with false by reflexivity. cbn iota. rewrite append_nil.
  assert (w +:+ "" = w)%string as ->.
  { clear. induction w as [|c w IH]; [done|]. by rewrite append_cons, IH. }
  assert (Hfs : span_digits f = (f, ""%string)).
  { pose proof (span_digits_app f "" Hf) as H. cbn in H.
    assert (He : (f +:+ "" = f)%string) by (clear; induction f as [|c s IH]; [done|]; by rewrite append_cons, IH).
    by rewrite He in H. }
  rewrite Hfs. cbn iota beta.
  assert (nonempty (w +:+ f) = true) as ->.
  { pose proof (pretty_nonempty (Z.to_N (Z.abs a / 100))) as Hne. fold w in Hne. by destruct w. }
  cbn [negb exponent_of]. rewrite append_length, Hfl, digits_value_app, digits_value_acc, Hfl, Hwv, Hfv.
  pose proof (pretty_length (Z.to_N (Z.abs a / 100)) ltac:(lia)) as Hlen. fold w in Hlen.
  assert ((MAX_EMAX <? 0 - Z.of_nat 2 + Z.of_nat (String.length w + 2) - 1) = false) as ->
    by (apply Z.ltb_ge; unfold MAX_EMAX; lia).
  assert ((0 - Z.of_nat 2 <? MIN_ETINY) = false) as -> by (apply Z.ltb_ge; unfold MIN_ETINY; lia).
  cbn [orb]. unfold scaled. cbn -[Z.div Z.modulo Z.mul Z.abs Z.to_N Z.of_N]. do 2 f_equal.
  rewrite !Z2N.id by lia. pose proof (Z.div_mod (Z.abs a) 100 ltac:(lia)). lia.
Qed.

Lemma to_subunits_kobo a : 0 < a < 10 ^ 28 -> to_subunits (Finite (a # 100)) = Ok a.
Proof.
  intros Ha. pose proof (_money_kobo a ltac:(lia)) as Hm. unfold _money in Hm. unfold to_subunits.
  assert (Qle_bool (a # 100) 0 = false) as ->.
  { apply not_true_iff_false. rewrite Qle_bool_iff. unfold Qle. cbn. lia. }
  destruct (negb (Qle_bool 0 (a # 100))); [done|]. cbn zeta in *.
  destruct (10 ^ 28 <=? _); [done|]. destruct (negb _); [done|]. exact Hm.
Qed.

(** Only exact positive amounts in the decimal context are sent. *)
Lemma to_subunits_Ok amount n :
  to_subunits amount = Ok n -> exists q, amount = Finite q /\ (q * inject_Z 100 == inject_Z n)%Q /\ 0 < n < 10 ^ 28.
Proof.
  unfold to_subunits. destruct amount as [q| |]; [|done|done].
  destruct (Qle_bool q 0) eqn:Hq; [done|]. cbn zeta. set (z := round_half_even _).
  destruct (Z.leb_spec (10 ^ 28) z) as [|Hz]; [done|]. destruct (Qeq_bool _ _) eqn:He; [|done].
  intros [= <-]. apply Qeq_bool_iff in He. exists q. split; [done|]. split; [done|]. split; [|done].
  apply not_true_iff_false in Hq. rewrite Qle_bool_iff in Hq. apply Qnot_le_lt in Hq.
  assert (H : (0 < inject_Z z)%Q).
  { rewrite <- He. apply (Qle_lt_trans _ (0 * inject_Z 100)); [unfold Qle; cbn; lia|]. by apply Qmult_lt_compat_r. }
  unfold Qlt in H. cbn in H. lia.
Qed.

(** an amount survives the way to Paystack and back.  The text of any
    positive amount a database column holds, as it stands in the frozen
    instruction, is read as exactly that amount and sent as that number of
    kobo; a number of kobo Paystack answers, as a JSON integer or as text, is
    read as that amount again; nothing is ever sent but the exact value of the
    text in whole kobo; and an amount of more than 28 digits raises. *)
Theorem subunits_roundtrip a :
  (0 < a < 10 ^ 28 ->
     to_subunits (decimal_of_string (money_str a)) = Ok a
     /\ from_subunits (JInt a) = Ok a
     /\ from_subunits (JString (pretty (Z.to_N a))) = Ok a)
  /\ (forall text n, to_subunits (decimal_of_string text) = Ok n ->
        exists q, decimal_of_string text = Finite q /\ (q * inject_Z 100 == inject_Z n)%Q /\ 0 < n < 10 ^ 28)
  /\ (10 ^ 28 <= a -> from_subunits (JInt a) = Raise InvalidOperation
        /\ to_subunits (Finite (a # 100)) = Raise InvalidOperation).
Proof.
  split; [|split; [intros text n; apply to_subunits_Ok|]].
  - intros Ha. rewrite decimal_of_money_str by lia. split; [by apply to_subunits_kobo|].
    assert (Hread : forall n, n = a -> (raise_if (n <=? 0) ValueError ;; raise_if (10 ^ 28 <=? n) InvalidOperation ;; mret n)
                = Ok a).
    { intros n ->. rewrite (proj2 (Z.leb_gt a 0)), (proj2 (Z.leb_gt (10 ^ 28) a)) by lia. done. }
    split; [by apply Hread|]. unfold from_subunits.
    destruct (pretty_digits (Z.to_N a)) as [Hd Hv]. pose proof (pretty_length (Z.to_N a) ltac:(lia)) as Hl.
    rewrite pretty_nonempty. cbn [negb orb].
    assert (span_digits (pretty (Z.to_N a)) = (pretty (Z.to_N a), ""%string)) as ->.
    { pose proof (span_digits_app (pretty (Z.to_N a)) "" Hd) as H. cbn in H.
      assert (He : forall s, (s +:+ "" = s)%string) by (intros s; induction s as [|c s IH]; [done|]; by rewrite append_cons, IH).
      by rewrite !He in H. }
    cbn [snd nonempty]. unfold INT_MAX_STR_DIGITS. destruct (Nat.ltb_spec 4300 (String.length (pretty (Z.to_N a)))); [lia|].
    cbn [mbind result_bind mret result_ret]. apply Hread. rewrite Hv, Z2N.id; lia.
  - intros Ha. unfold from_subunits. cbn [mbind result_bind mret result_ret].
    rewrite (proj2 (Z.leb_gt a 0)), (proj2 (Z.leb_le (10 ^ 28) a)) by lia. split; [done|].
    unfold to_subunits. assert (Qle_bool (a # 100) 0 = false) as ->.
    { apply not_true_iff_false. rewrite Qle_bool_iff. unfold Qle. cbn. lia. }
    assert (round_half_even ((a # 100) * inject_Z 100) = a) as ->.
    { unfold round_half_even. cbn -[Z.div Z.modulo Z.mul]. replace (Z.pos (100 * 1)) with 100 by reflexivity.
      by rewrite Z.mod_mul, Z.div_mul by lia. }
    cbn zeta. by rewrite (proj2 (Z.leb_le (10 ^ 28) a)).
Qed.

Lemma subunits_roundtrip_witness :
  to_subunits (decimal_of_string (money_str 123405)) = Ok 123405 /\ from_subunits (JInt 123405) = Ok 123405.
Proof. destruct (proj1 (subunits_roundtrip 123405)) as (H1 & H2 & _); [lia|]. split; [exact H1|exact H2]. Defined.

(** ** What Paystack documents of transfers *)

(** The reference and the amount of a transfer request. *)
Definition transfer_of (rq : http_request) : option (string * Z) :=
  if bool_decide (rq_method rq = "POST") && bool_decide (rq_path rq = "/transfer") then
    match rq_body rq with
    | Some (JObject members) =>
        match member members "reference", member members "amount" with
        | JString reference, JInt amount => Some (reference, amount)
        | _, _ => None
        end
    | _ => None
    end
  else None.

(** The transfers the service executed, by reference: amount and transfer code.
    A reference is used for one transfer only; only a transfer request executes
    one, with its own reference and amount; the code answered for a reference is
    that of its transfer; and the verification of a reference answers 404 only
    when it has no transfer. *)
Class PaystackLaws (S : Type) `{PaystackService S} := {
  service_ok : S -> Prop;
  executed : S -> gmap string (Z * string);
  send_ok s rq : service_ok s -> service_ok (send s rq).1;
  send_silent s rq : service_ok s -> transfer_of rq = None -> executed (send s rq).1 = executed s;
  send_transfer s rq reference amount :
    service_ok s -> transfer_of rq = Some (reference, amount) ->
    executed (send s rq).1 = executed s
    \/ (executed s !! reference = None
        /\ exists code, executed (send s rq).1 = <[reference := (amount, code)]> (executed s));
  transfer_code s rq reference amount members code :
    service_ok s -> transfer_of rq = Some (reference, amount) ->
    read_response (send s rq).2 = Ok (JObject members) ->
    member members "reference" = JString reference -> member members "transfer_code" = JString code ->
    exists amount', executed (send s rq).1 !! reference = Some (amount', code);
  verify_missing s reference :
    service_ok s -> read_response (send s (verify_request reference)).2 = Raise PaystackNotFoundError ->
    executed s !! reference = None;
  verify_code s reference members code :
    service_ok s -> read_response (send s (verify_request reference)).2 = Ok (JObject members) ->
    member members "reference" = JString reference -> member members "transfer_code" = JString code ->
    exists amount', executed s !! reference = Some (amount', code)
}.

Section Laws.
Context {Dg : Sha256} {S : Type} {Service : PaystackService S} {Laws : PaystackLaws S}.
Context (mode : string) (resolver : option (disbursement_instruction -> result transfer_destination)).

Lemma is_string_eq j s : is_string j s = true -> j = JString s.
Proof. destruct j; try done. cbn. intros H%bool_decide_eq_true. by subst. Qed.

Lemma code_of_Some j s : code_of j = Some s -> j = JString s.
Proof. destruct j; try done. cbn. destruct (nonempty s0); [|done]. by intros [= ->]. Qed.

Lemma transfer_of_request amount code reference currency :
  transfer_of (transfer_request amount code reference currency) = Some (reference, amount).
Proof. reflexivity. Qed.

Lemma transfer_of_verify reference : transfer_of (verify_request reference) = None.
Proof. reflexivity. Qed.

(** A submission of one instruction: nothing is executed, or one transfer of the
    instruction's exact amount under the reference of its key. *)
Lemma paystack_submit_effect s batch_id i :
  service_ok s ->
  let r := paystack_submit_batch mode resolver s batch_id [i] in
  service_ok r.1
  /\ (executed r.1 = executed s
      \/ exists amount currency reference code, submission_terms i = Ok (amount, currency, reference)
           /\ executed s !! reference = None /\ executed r.1 = <[reference := (amount, code)]> (executed s))
  /\ (forall receipt, r.2 = Ok receipt ->
        exists amount currency reference code amount', submission_terms i = Ok (amount, currency, reference)
          /\ ps_line_references receipt = {[di_line_id i := code]}
          /\ executed r.1 !! reference = Some (amount', code)).
Proof.
  intros Hs. unfold paystack_submit_batch. destruct resolver as [resolve|]; [|split; [done|]; split; [by left|done]].
  destruct (submission_terms i) as [[[amount currency] reference]|e] eqn:Ht; cbn [mbind result_bind];
    [|split; [done|]; split; [by left|done]].
  destruct (resolve i) as [d|e]; cbn [mbind result_bind mret result_ret]; [|split; [done|]; split; [by left|done]].
  pose proof (send_ok s (recipient_request d currency) Hs) as Hs1.
  pose proof (send_silent s (recipient_request d currency) Hs eq_refl) as He1.
  destruct (send s (recipient_request d currency)) as [s1 r1]. cbn [fst snd] in *.
  destruct (read_response r1 ≫= _) as [code|e]; [|split; [done|]; split; [by left|done]].
  pose proof (send_ok s1 (transfer_request amount code reference currency) Hs1) as Hs2.
  pose proof (send_transfer s1 _ _ _ Hs1 (transfer_of_request amount code reference currency)) as He2.
  pose proof (fun members c => transfer_code s1 _ _ _ members c Hs1
    (transfer_of_request amount code reference currency)) as Hcode.
  destruct (send s1 (transfer_request amount code reference currency)) as [s2 r2]. cbn [fst snd] in *.
  split; [done|]. split.
  - destruct He2 as [->|(Hn & c & ->)]; [by left|]. right. rewrite He1 in Hn. exists amount, currency, reference, c.
    by rewrite He1.
  - intros receipt Hr. ok_step Hr as data Hd. ok_step Hr as tc Htc. injection Hr as <-.
    destruct data as [| | | | | |members]; try done. cbn in Htc.
    destruct (code_of (member members "transfer_code")) as [tc'|] eqn:Hc; [|done]. ok_step Htc as u Hm.
    injection Htc as <-. apply raise_if_Ok, negb_false_iff in Hm. rewrite !andb_true_iff in Hm.
    destruct Hm as [[[_ Href%is_string_eq] _] _]. apply code_of_Some in Hc.
    destruct (Hcode members tc' Hd Href Hc) as [a' Ha']. exists amount, currency, reference, tc', a'. done.
Qed.

(** ** The adapter keeps the promises of a disbursement provider

    A world is the service with the history of the instructions sent: the
    fingerprint last submitted for each key that had no transfer yet. *)
Record world := World { w_service : S; w_sent : gmap string string }.

Definition reference_of (key : string) : string := ("cvp_" +:+ String.substring 0 46 (sha256_hexdigest key))%string.

Definition noted (s : S) (h : gmap string string) (items : list disbursement_instruction) : gmap string string :=
  match items with
  | [i] =>
      match executed s !! reference_of (di_idempotency_key i) with
      | Some _ => h
      | None => <[di_idempotency_key i := di_instruction_fingerprint i]> h
      end
  | _ => h
  end.

#[local] Instance world_adapter : DisbursementAdapter world := {|
  capabilities := paystack_capabilities resolver;
  submit_batch := fun w batch_id items =>
    let r := paystack_submit_batch mode resolver (w_service w) batch_id items in
    (World r.1 (noted (w_service w) (w_sent w) items), r.2);
  lookup_line := fun w key fingerprint =>
    let r := paystack_lookup_line mode (w_service w) key fingerprint in (World r.1 (w_sent w), r.2)
|}.

Definition world_transfers (w : world) : gmap string (string * string) :=
  map_imap (fun key fp => (fun e => (fp, e.2)) <$> executed (w_service w) !! reference_of key) (w_sent w).

Context (keys : gset string).

(** The keys in use have different references: the 46 hexadecimal digits kept of
    their digests do not collide. *)
Definition references_differ : Prop :=
  forall k1 k2, k1 ∈ keys -> k2 ∈ keys -> reference_of k1 = reference_of k2 -> k1 = k2.

Definition world_ok (w : world) : Prop :=
  service_ok (w_service w)
  /\ (forall k, k ∈ keys -> is_Some (executed (w_service w) !! reference_of k) -> is_Some (w_sent w !! k))
  /\ (forall k, is_Some (w_sent w !! k) -> k ∈ keys).

Definition world_key (k : string) : Prop := k ∈ keys /\ nonempty k = true.

Lemma world_transfers_lookup w k :
  world_transfers w !! k = fp ← w_sent w !! k; (fun e => (fp, e.2)) <$> executed (w_service w) !! reference_of k.
Proof. unfold world_transfers. by rewrite map_lookup_imap. Qed.

Lemma paystack_reference k : nonempty k = true -> paystack_transfer_reference k = Ok (reference_of k).
Proof. intros Hk. unfold paystack_transfer_reference. by rewrite Hk. Qed.

Lemma submission_reference i amount currency reference :
  submission_terms i = Ok (amount, currency, reference) -> reference = reference_of (di_idempotency_key i).
Proof.
  unfold submission_terms. intros Hrun. do 4 ok_step Hrun. ok_step Hrun as r Hr. injection Hrun as <- <- <-.
  unfold paystack_transfer_reference in Hr. ok_step Hr. by injection Hr as <-.
Qed.

(** What one submission does to the service, by key. *)
Lemma world_submit w batch_id i :
  service_ok (w_service w) ->
  let w' := (submit_batch w batch_id [i]).1 in
  w_service w' = (paystack_submit_batch mode resolver (w_service w) batch_id [i]).1 /\ w_sent w' = noted (w_service w) (w_sent w) [i]
  /\ service_ok (w_service w')
  /\ (executed (w_service w') = executed (w_service w)
      \/ (executed (w_service w) !! reference_of (di_idempotency_key i) = None
          /\ exists a code, executed (w_service w') = <[reference_of (di_idempotency_key i) := (a, code)]> (executed (w_service w)))).
Proof.
  intros Hs. destruct (paystack_submit_effect (w_service w) batch_id i Hs) as (Hok & He & _). cbn.
  split; [done|]. split; [done|]. split; [done|].
  destruct He as [->|(a & cur & ref & code & Ht & Hn & ->)]; [by left|]. right.
  apply submission_reference in Ht as ->. eauto.
Qed.

Lemma noted_in w i k :
  world_ok w -> di_idempotency_key i ∈ keys -> is_Some (noted (w_service w) (w_sent w) [i] !! k) -> k ∈ keys.
Proof.
  intros (_ & _ & Hin) Hk. unfold noted. destruct (executed (w_service w) !! _); [apply Hin|].
  destruct (decide (k = di_idempotency_key i)) as [->|Hdiff]; [done|]. rewrite lookup_insert_ne by congruence. apply Hin.
Qed.

Lemma world_submit_ok w batch_id i :
  world_ok w -> references_differ -> world_key (di_idempotency_key i) -> world_ok (submit_batch w batch_id [i]).1.
Proof.
  intros Hw Hinj [Hk Hne]. pose proof Hw as (Hs & Hh & _).
  destruct (world_submit w batch_id i Hs) as (_ & Hnote & Hs' & He).
  unfold world_ok. rewrite Hnote. split; [done|]. split; [|intros k; by apply noted_in].
  intros k Hkin Hex. unfold noted. destruct (decide (k = di_idempotency_key i)) as [->|Hdiff].
  - destruct (executed (w_service w) !! _) eqn:Hold; [by apply Hh|]. by rewrite lookup_insert_eq.
  - assert (Hkex : is_Some (executed (w_service w) !! reference_of k)).
    { destruct He as [He|(_ & a & code & He)]; rewrite He in Hex; [done|].
      rewrite lookup_insert_ne in Hex; [done|]. intros Heq. apply Hdiff. symmetry. by apply Hinj. }
    destruct (executed (w_service w) !! reference_of (di_idempotency_key i)); [by apply Hh|].
    rewrite lookup_insert_ne by congruence. by apply Hh.
Qed.

Lemma world_submit_once w batch_id i :
  world_ok w -> references_differ -> world_key (di_idempotency_key i) ->
  world_transfers (submit_batch w batch_id [i]).1 = world_transfers w
  \/ (world_transfers w !! di_idempotency_key i = None
      /\ exists ref, world_transfers (submit_batch w batch_id [i]).1
           = <[di_idempotency_key i := (di_instruction_fingerprint i, ref)]> (world_transfers w)).
Proof.
  intros (Hs & Hh & Hin) Hinj [Hk Hne]. destruct (world_submit w batch_id i Hs) as (_ & Hnote & _ & He).
  destruct He as [He|(Hnone & a & code & He)].
  - left. apply map_eq. intros k. rewrite !world_transfers_lookup, He, Hnote. unfold noted.
    destruct (executed (w_service w) !! reference_of (di_idempotency_key i)) eqn:Hold; [done|].
    destruct (decide (k = di_idempotency_key i)) as [->|Hdiff]; [|by rewrite lookup_insert_ne].
    rewrite lookup_insert_eq. cbn. rewrite Hold. by destruct (w_sent w !! _).
  - right. split; [rewrite world_transfers_lookup, Hnone; by destruct (w_sent w !! _)|]. exists code.
    apply map_eq. intros k. rewrite world_transfers_lookup, He, Hnote. unfold noted. rewrite Hnone.
    destruct (decide (k = di_idempotency_key i)) as [->|Hdiff].
    + by rewrite !lookup_insert_eq.
    + rewrite !(lookup_insert_ne _ (di_idempotency_key i)), world_transfers_lookup by done.
      destruct (w_sent w !! k) as [fp|] eqn:Hw; [|done]. cbn. rewrite lookup_insert_ne; [done|]. intros Heq.
      apply Hdiff. symmetry. apply Hinj; [done|by apply Hin|done].
Qed.

Lemma world_submit_reference w batch_id i receipt ref :
  world_ok w -> references_differ -> world_key (di_idempotency_key i) ->
  (submit_batch w batch_id [i]).2 = Ok receipt -> ps_line_references receipt !! di_line_id i = Some ref ->
  exists fingerprint, world_transfers (submit_batch w batch_id [i]).1 !! di_idempotency_key i = Some (fingerprint, ref).
Proof.
  intros Hw Hinj Hkey Hr Href. pose proof (world_submit_ok w batch_id i Hw Hinj Hkey) as (_ & Hh' & _).
  destruct Hw as (Hs & _). destruct (paystack_submit_effect (w_service w) batch_id i Hs) as (_ & _ & Hc).
  destruct (Hc receipt Hr) as (a & cur & reference & code & a' & Ht & Hlines & Hex).
  apply submission_reference in Ht as ->. rewrite Hlines, lookup_singleton_eq in Href. injection Href as <-.
  destruct Hkey as [Hk _]. destruct (Hh' _ Hk) as [fp Hfp]; [by eexists|]. exists fp.
  rewrite world_transfers_lookup, Hfp. cbn in *. by rewrite Hex.
Qed.

(** A lookup executes nothing and answers of the key's transfer. *)
Lemma world_lookup w key fingerprint :
  service_ok (w_service w) -> nonempty key = true ->
  let r := lookup_line w key fingerprint in
  service_ok (w_service r.1) /\ executed (w_service r.1) = executed (w_service w) /\ w_sent r.1 = w_sent w
  /\ forall answer, r.2 = Ok answer ->
       (pk_status answer = LOOKUP_NOT_FOUND -> executed (w_service w) !! reference_of key = None)
       /\ (forall ref, pk_status answer = LOOKUP_FOUND -> pk_provider_transfer_reference answer = Some ref ->
            exists a, executed (w_service w) !! reference_of key = Some (a, ref)).
Proof.
  intros Hs Hne. cbn. unfold paystack_lookup_line. rewrite (paystack_reference key Hne).
  pose proof (send_ok (w_service w) (verify_request (reference_of key)) Hs) as Hok.
  pose proof (send_silent (w_service w) (verify_request (reference_of key)) Hs eq_refl) as Hsil.
  pose proof (verify_missing (w_service w) (reference_of key) Hs) as Hmiss.
  pose proof (fun members c => verify_code (w_service w) (reference_of key) members c Hs) as Hcode.
  destruct (send (w_service w) _) as [s' r]. cbn [fst snd] in *. split; [done|]. split; [done|]. split; [done|].
  intros answer Hans. destruct (read_response r) as [data|e].
  - destruct data as [| | | | | |members]; try (injection Hans as <-; done).
    destruct (code_of (member members "transfer_code")) as [code|] eqn:Hc; [|injection Hans as <-; done].
    destruct (_ && _) eqn:Hm; [|injection Hans as <-; done]. injection Hans as <-. cbn. split; [done|].
    intros ref _ [= <-]. apply andb_true_iff in Hm as [_ Hm%is_string_eq]. apply code_of_Some in Hc.
    by apply (Hcode members).
  - destruct e; injection Hans as <-; cbn; try done. split; [by intros _; apply Hmiss|done].
Qed.
End Laws.
