(* ===== verification/Disbursements.v ===== *)
(** Payout batches and their submission ([app/services/disbursements.py]):
    freezing and checking instructions, approval, the durable submission
    intents, the claim a worker takes before it calls the provider, the
    resolution of the provider's answer, and the cancellation of lines the
    provider never saw. *)

From stdpp Require Import base list strings gmap.
From Stdlib Require Import ZArith Lia Ascii.
From S2P Require Import Prelude PayoutData Ledger Balances Text BillingData Notifications.
From S2P Require Import DisbursementData Fraud Adapters.

#[local] Open Scope Z_scope.

Definition DISBURSEMENT_CLAIM_LEASE : Z := 120 * second.

Record claimed_disbursement_intent := ClaimedDisbursementIntent {
  cl_intent_id : uuid;
  cl_batch_id : uuid;
  cl_line_id : uuid;
  cl_generation : Z;
  cl_claim_token : uuid;
  cl_action : submission_claim_action;
  cl_idempotency_key : string;
  cl_instruction : json_strings;
  cl_instruction_fingerprint : string
}.

Record disbursement_claim_observation := DisbursementClaimObservation {
  ob_outcome : observation_outcome;
  ob_provider_submission_reference : option string;
  ob_provider_transfer_reference : option string;
  ob_error_code : option string
}.

(** [_reason] *)
Definition _reason (value : string) : result string :=
  let reason := strip value in
  let n := String.length reason in
  raise_if (negb ((3 <=? n) && (n <=? 500))%nat) (AppError "PAYOUT_REASON_INVALID" 422) ;;
  mret reason.

(** Rows by identifier. *)
Definition get_batch (db : disbursement_store) (i : uuid) : option payout_batch :=
  find_by_key pb_id i (ds_batches db).
Definition get_intent (db : disbursement_store) (i : uuid) : option payout_submission_intent :=
  find_by_key pi_id i (st_intents db).
Definition get_line (db : disbursement_store) (i : uuid) : option payout_batch_line :=
  find_by_key pl_id i (st_lines db).

(** [WHERE batch_id = ... ORDER BY id] *)
Definition line_id_leb (a b : payout_batch_line) : bool := (pl_id a <=? pl_id b)%N.
Definition batch_lines (db : disbursement_store) (batch_id : uuid) : list payout_batch_line :=
  stable_sort line_id_leb (List.filter (fun l => bool_decide (pl_batch_id l = batch_id)) (st_lines db)).

(** [intents_by_line.get(line_id)] of the intents of a set of lines. *)
Definition line_intent (db : disbursement_store) (line_id : uuid) : option payout_submission_intent :=
  find_row (fun i => bool_decide (pi_payout_batch_line_id i = line_id)) (st_intents db).

(** [actor.require_active_admin] over the billing tables. *)
Definition active_admin (db : disbursement_store) (actor : uuid) : result unit :=
  require_active_admin (ds_billing db) actor None.

Section Disbursements.
Context `{Sha256} `{AnalyticsFingerprint} (settings : fraud_settings).

(** ** Frozen instructions *)

(** [_fingerprint] of a dictionary of strings. *)
Definition _fingerprint (value : json_strings) : string := sha256_hexdigest (json_dict value).

Definition _line_idempotency_key (batch_id : uuid) (instruction_fingerprint : string)
    (predecessor_line_id : option uuid) : string :=
  let authority : json_strings := list_to_map
    [("scope", match predecessor_line_id with
               | None => "cardvert-payout-line-v1"
               | Some _ => "cardvert-payout-replacement-line-v1"
               end);
     ("batch_id", uuid_str batch_id);
     ("instruction_fingerprint", instruction_fingerprint)]%string in
  _fingerprint match predecessor_line_id with
               | None => authority
               | Some p => <["predecessor_line_id"%string := uuid_str p]> authority
               end.

(** The instruction of one line. *)
Definition frozen_instruction (ledger_entry_id payee_version_id bank_account_version_id : uuid)
    (amount : kobo) (currency : string) : json_strings :=
  list_to_map
    [("ledger_entry_id", uuid_str ledger_entry_id);
     ("payee_version_id", uuid_str payee_version_id);
     ("bank_account_version_id", uuid_str bank_account_version_id);
     ("amount", money_str amount);
     ("currency", currency)]%string.

(** A reserved line, of a first payment or of the replacement of [predecessor]. *)
Definition reserved_line (line_id batch_id : uuid) (predecessor : option uuid) (entry : ledger_entry)
    (payee_version account_version : uuid) (amount : kobo) : payout_batch_line :=
  let instruction := frozen_instruction (le_id entry) payee_version account_version amount (le_currency entry) in
  {| pl_id := line_id; pl_batch_id := batch_id; pl_ledger_entry_id := le_id entry;
     pl_predecessor_line_id := predecessor; pl_payee_version_id := payee_version;
     pl_bank_account_version_id := account_version; pl_amount := amount;
     pl_currency := le_currency entry; pl_instruction := instruction;
     pl_instruction_fingerprint := _fingerprint instruction;
     pl_idempotency_key := _line_idempotency_key batch_id (_fingerprint instruction) predecessor;
     pl_status := LINE_RESERVED; pl_provider_transfer_reference := None;
     pl_reconciled_by_user_id := None; pl_reconciled_at := None;
     pl_last_provider_evidence_at := None; pl_reservation_active := true |}.

Definition build_frozen_payout_line (line_id batch_id : uuid) (entry : ledger_entry)
    (payee_version account_version : uuid) (amount : option kobo) : result payout_batch_line :=
  let amount := default (le_amount entry) amount in
  raise_if (negb ((0 <? amount) && (amount <=? le_amount entry))) (AppError "PAYOUT_AMOUNT_INVALID" 409) ;;
  mret (reserved_line line_id batch_id None entry payee_version account_version amount).

Definition lines_total (lines : list payout_batch_line) : kobo := sum_by pl_amount lines.

(** The digest of the instruction set. *)
Definition instruction_set_fingerprint (currency : string) (total : kobo) (lines : list payout_batch_line)
    : string :=
  sha256_hexdigest (json_compact
    [("currency", json_string currency);
     ("line_fingerprints",
       json_list (json_string <$> stable_sort String.leb (pl_instruction_fingerprint <$> lines)));
     ("total_amount", json_string (money_str total))]%string).

Definition freeze_batch_instruction_set (b : payout_batch) (lines : list payout_batch_line) : payout_batch :=
  let total := lines_total lines in
  {| pb_id := pb_id b; pb_status := pb_status b; pb_currency := pb_currency b; pb_total_amount := total;
     pb_instruction_set_fingerprint := Some (instruction_set_fingerprint (pb_currency b) total lines);
     pb_provider_submission_reference := pb_provider_submission_reference b;
     pb_created_by_user_id := pb_created_by_user_id b; pb_approved_by_user_id := pb_approved_by_user_id b;
     pb_approved_at := pb_approved_at b; pb_submitted_at := pb_submitted_at b;
     pb_approval_mode := pb_approval_mode b; pb_automatic_run_id := pb_automatic_run_id b |}.

Definition _locked_batch_with_lines (db : disbursement_store) (batch_id : uuid)
    : result (payout_batch * list payout_batch_line) :=
  b ← require_some (get_batch db batch_id) (AppError "PAYOUT_BATCH_NOT_FOUND" 404);
  mret (b, batch_lines db (pb_id b)).

Definition line_frozen (b : payout_batch) (l : payout_batch_line) : bool :=
  bool_decide (pl_instruction_fingerprint l = _fingerprint (pl_instruction l))
  && bool_decide (pl_instruction l
       = frozen_instruction (pl_ledger_entry_id l) (pl_payee_version_id l) (pl_bank_account_version_id l)
           (pl_amount l) (pl_currency l))
  && bool_decide (pl_idempotency_key l
       = _line_idempotency_key (pb_id b) (pl_instruction_fingerprint l) (pl_predecessor_line_id l))
  && bool_decide (pl_currency l = pb_currency b).

Definition _assert_frozen (b : payout_batch) (lines : list payout_batch_line) : result unit :=
  raise_if (bool_decide (lines = [])) (AppError "PAYOUT_BATCH_EMPTY" 409) ;;
  raise_if (negb (forallb (line_frozen b) lines)) (AppError "PAYOUT_INSTRUCTION_CHANGED" 409) ;;
  let total := lines_total lines in
  raise_if (negb ((total =? pb_total_amount b)
                  && bool_decide (Some (instruction_set_fingerprint (pb_currency b) total lines)
                                  = pb_instruction_set_fingerprint b)))
    (AppError "PAYOUT_BATCH_CHANGED" 409).

Definition _refuse_automatic_batch (b : payout_batch) : result unit :=
  raise_if (bool_decide (pb_approval_mode b = APPROVAL_AUTOMATIC)) (AppError "PAYOUT_BATCH_AUTOMATIC" 409).

(** ** Approval *)

Definition approved_batch (b : payout_batch) (actor : uuid) (at_ : Z) : payout_batch :=
  {| pb_id := pb_id b; pb_status := pb_status b; pb_currency := pb_currency b;
     pb_total_amount := pb_total_amount b; pb_instruction_set_fingerprint := pb_instruction_set_fingerprint b;
     pb_provider_submission_reference := pb_provider_submission_reference b;
     pb_created_by_user_id := pb_created_by_user_id b; pb_approved_by_user_id := Some actor;
     pb_approved_at := Some at_; pb_submitted_at := pb_submitted_at b;
     pb_approval_mode := pb_approval_mode b; pb_automatic_run_id := pb_automatic_run_id b |}.

Definition approve_payout_batch (clock : Z) (db : disbursement_store) (batch_id actor : uuid) (reason : string)
    : result (payout_batch * list payout_batch_line * disbursement_store) :=
  active_admin db actor ;;
  _reason reason ;;
  r ← _locked_batch_with_lines db batch_id;
  let '(b, lines) := r in
  _refuse_automatic_batch b ;;
  raise_if (negb (bool_decide (pb_status b = BATCH_RESERVED))) (AppError "PAYOUT_BATCH_NOT_RESERVED" 409) ;;
  _assert_frozen b lines ;;
  match pb_approved_by_user_id b with
  | Some approver =>
      raise_if (negb (bool_decide (approver = actor))) (AppError "PAYOUT_BATCH_APPROVAL_CONFLICT" 409) ;;
      mret (b, lines, db)
  | None =>
      let approved := approved_batch b actor clock in
      db ← update_batch approved db;
      mret (approved, lines,
        audit (Some actor) "admin.payout_batch.approved" "payout_batch" (pb_id b) db)
  end.

(** ** Durable submission intents *)

(** [_submission_capabilities] *)
Definition _submission_capabilities (c : provider_capabilities) : result provider_capabilities :=
  raise_if (negb (nonempty (provider_name c) && lookup_by_idempotency_key c && semantic_same_key_idempotency c))
    (AppError "DISBURSEMENT_PROVIDER_UNAVAILABLE" 503) ;;
  mret c.

(** The intent carries the frozen instruction of its line. *)
Definition intent_matches (i : payout_submission_intent) (l : payout_batch_line) : bool :=
  bool_decide (pi_idempotency_key i = pl_idempotency_key l)
  && bool_decide (pi_instruction i = pl_instruction l)
  && bool_decide (pi_instruction_fingerprint i = pl_instruction_fingerprint l).

Definition new_intent (db : disbursement_store) (l : payout_batch_line) (provider : string) (actor : uuid)
    (now : Z) : payout_submission_intent :=
  {| pi_id := uuid4 (pi_id <$> st_intents db); pi_payout_batch_line_id := pl_id l;
     pi_provider_name := provider; pi_idempotency_key := pl_idempotency_key l;
     pi_instruction := pl_instruction l; pi_instruction_fingerprint := pl_instruction_fingerprint l;
     pi_requested_by_user_id := actor; pi_state := INTENT_PENDING; pi_generation := 0;
     pi_claim_token := None; pi_claim_action := None; pi_claim_expires_at := None;
     pi_provider_submission_reference := None; pi_provider_transfer_reference := None;
     pi_resolved_at := None; pi_updated_at := now |}.

(** The loop of [submit_payout_batch]; [before] is the store the existing
    intents were read from. *)
Fixpoint queue_lines (before : disbursement_store) (provider : string) (actor : uuid) (now : Z)
    (lines : list payout_batch_line) (created : Z) (db : disbursement_store)
    : result (Z * disbursement_store) :=
  match lines with
  | [] => mret (created, db)
  | l :: rest =>
      match line_intent before (pl_id l) with
      | Some i =>
          raise_if (negb (bool_decide (pi_provider_name i = provider) && intent_matches i l))
            (AppError "PAYOUT_SUBMISSION_INTENT_CONFLICT" 409) ;;
          queue_lines before provider actor now rest created db
      | None =>
          raise_if (negb (bool_decide (pl_status l = LINE_RESERVED)))
            (AppError "PAYOUT_SUBMISSION_INTENT_MISSING" 409) ;;
          db ← flush_intent (new_intent db l provider actor now) db;
          queue_lines before provider actor now rest (created + 1) db
      end
  end.

Definition submit_payout_batch (now : Z) (db : disbursement_store) (batch_id actor : uuid)
    (adapter : provider_capabilities) : result (payout_batch * list payout_batch_line * disbursement_store) :=
  active_admin db actor ;;
  r ← _locked_batch_with_lines db batch_id;
  let '(b, lines) := r in
  _refuse_automatic_batch b ;;
  raise_if (negb (bool_decide (pb_status b = BATCH_RESERVED) || bool_decide (pb_status b = BATCH_SUBMITTED)))
    (AppError "PAYOUT_BATCH_NOT_RESERVED" 409) ;;
  raise_if (bool_decide (pb_approved_by_user_id b = None) || bool_decide (pb_approved_at b = None))
    (AppError "PAYOUT_BATCH_NOT_APPROVED" 409) ;;
  _assert_frozen b lines ;;
  c ← _submission_capabilities adapter;
  q ← queue_lines db (provider_name c) actor now lines 0 db;
  let '(created, db) := q in
  mret (b, lines,
    if 0 <? created
    then audit (Some actor) "admin.payout_batch.submission_queued" "payout_batch" (pb_id b) db else db).

(** ** The system actor and the pause switch ([services/automatic_payouts.py]) *)

Inductive submission_blocker := ACTOR_INVALID | PAUSED.

Definition actor_integrity_problem (db : disbursement_store) (control : option payout_automatic_control)
    : option string :=
  match control with
  | None => Some "control_missing"%string
  | Some control =>
      match find_row (fun u => bool_decide (us_id u = CARDVERT_AUTOMATIC_PAYOUT_ACTOR_ID)) (bs_users (ds_billing db)) with
      | None => Some "actor_missing"%string
      | Some actor =>
          if bool_decide (us_email actor = CARDVERT_AUTOMATIC_PAYOUT_ACTOR_EMAIL)
             && bool_decide (us_full_name actor = CARDVERT_AUTOMATIC_PAYOUT_ACTOR_NAME)
             && bool_decide (us_role actor = ROLE_ADMIN)
             && bool_decide (us_status actor = USER_DISABLED)
             && bool_decide (sha256_hexdigest (us_password_hash actor) = ctl_actor_password_fingerprint control)
          then None else Some "actor_changed"%string
      end
  end.

Definition automatic_submission_blocker (db : disbursement_store) : option submission_blocker :=
  match actor_integrity_problem db (ds_control db) with
  | Some _ => Some ACTOR_INVALID
  | None => match ds_control db with
            | Some control => if ctl_paused control then Some PAUSED else None
            | None => None
            end
  end.

(** [automatic_final_clean_authority] *)
Definition automatic_final_clean_authority (db : disbursement_store) (trips drivers : list uuid)
    : result unit :=
  raise_if (existsb (fun f => bool_decide (fl_trip_session_id f ∈ trips)) (flags db))
    (AppError "PAYOUT_AUTOMATIC_NOT_CLEAN" 409) ;;
  raise_if (existsb (fun d => bool_decide (fd_driver_profile_id d ∈ drivers)
                              && bool_decide (fd_status d = DISPUTE_OPEN)) (ft_disputes (ds_fraud db)))
    (AppError "PAYOUT_AUTOMATIC_NOT_CLEAN" 409).

(** ** The final gate before a provider call *)

Definition intent_conflict : exn := AppError "PAYOUT_SUBMISSION_INTENT_CONFLICT" 409.
Definition ledger_not_available : exn := AppError "PAYOUT_LEDGER_NOT_AVAILABLE" 409.

(** The loop that collects the unresolved lines with their intents. *)
Fixpoint collect_candidates (db : disbursement_store) (provider : string) (lines : list payout_batch_line)
    : result (list (payout_batch_line * payout_submission_intent)) :=
  match lines with
  | [] => mret []
  | l :: rest =>
      let intent := line_intent db (pl_id l) in
      if negb (bool_decide (pl_status l = LINE_RESERVED)) then
        raise_if (match intent with
                  | Some i => negb (bool_decide (pi_state i = INTENT_RESOLVED))
                  | None => false
                  end) intent_conflict ;;
        collect_candidates db provider rest
      else
        let missing := AppError "PAYOUT_SUBMISSION_INTENT_MISSING" 409 in
        i ← require_some intent missing;
        raise_if (bool_decide (pi_state i = INTENT_RESOLVED) || negb (pl_reservation_active l)
                  || negb (bool_decide (pl_provider_transfer_reference l = None))) missing ;;
        raise_if (negb (bool_decide (pi_provider_name i = provider) && intent_matches i l)) intent_conflict ;;
        candidates ← collect_candidates db provider rest;
        mret ((l, i) :: candidates)
  end.

(** The credit a line froze is still there. *)
Definition ledger_authority (db : disbursement_store) (l : payout_batch_line) : bool :=
  match find_by_key le_id (pl_ledger_entry_id l) (st_ledger db) with
  | None => false
  | Some e =>
      bool_decide (le_status e = AVAILABLE) && negb (bool_decide (le_entry_type e = REVERSAL))
      && (0 <? le_amount e) && (0 <? pl_amount l) && (pl_amount l <=? le_amount e)
      && bool_decide (le_currency e = pl_currency l) && negb (bool_decide (le_trip_session_id e = None))
  end.

(** [sorted(set(...), key=str)] *)
Definition sorted_ids (l : list uuid) : list uuid := stable_sort N.leb (remove_dups l).

Lemma sorted_ids_in l (i : uuid) : i ∈ sorted_ids l <-> i ∈ l.
Proof. unfold sorted_ids. by rewrite stable_sort_perm, elem_of_remove_dups. Qed.

Lemma sorted_ids_nodup l : NoDup (sorted_ids l).
Proof. unfold sorted_ids. rewrite stable_sort_perm. apply NoDup_remove_dups. Qed.

(** The ledger entries of the candidates, by id. *)
Definition candidate_entries (db : disbursement_store) (lines : list payout_batch_line) : list ledger_entry :=
  List.filter (fun e => bool_decide (le_id e ∈ pl_ledger_entry_id <$> lines)) (st_ledger db).

Fixpoint trip_authorities (db : disbursement_store) (currency : string) (trips : list uuid) : result unit :=
  match trips with
  | [] => mret tt
  | trip :: rest =>
      let position := trip_money_position_of db trip currency in
      raise_if (unpaid_authority position <? reserved position + in_flight position)
        (AppError "PAYOUT_TRIP_AMOUNT_CHANGED" 409) ;;
      raise_if (trip_held db trip) (AppError "PAYOUT_ENTRY_HELD" 409) ;;
      current ← load_current_successful_assessment settings db trip;
      raise_if (negb current) (AppError "PAYOUT_ASSESSMENT_NOT_CURRENT" 409) ;;
      trip_authorities db currency rest
  end.

Definition batch_submittable (s : payout_batch_status) : bool :=
  bool_decide (s = BATCH_RESERVED) || bool_decide (s = BATCH_SUBMITTED) || bool_decide (s = BATCH_RECONCILED).

Definition _final_payout_authority (db : disbursement_store) (b : payout_batch) (lines : list payout_batch_line)
    (current_intent : uuid) (provider : string) (automatic_clean_check : bool) : result unit :=
  raise_if (negb (batch_submittable (pb_status b))) (AppError "PAYOUT_BATCH_NOT_SUBMITTABLE" 409) ;;
  let automatic := bool_decide (pb_approval_mode b = APPROVAL_AUTOMATIC) in
  (if automatic then
     raise_if (negb (bool_decide (pb_created_by_user_id b = CARDVERT_AUTOMATIC_PAYOUT_ACTOR_ID)
                     && bool_decide (pb_approved_by_user_id b = None)
                     && negb (bool_decide (pb_approved_at b = None))
                     && negb (bool_decide (pb_automatic_run_id b = None))))
       (AppError "PAYOUT_BATCH_AUTOMATIC_AUTHORITY_INVALID" 409)
   else
     raise_if (bool_decide (pb_approved_by_user_id b = None) || bool_decide (pb_approved_at b = None))
       (AppError "PAYOUT_BATCH_APPROVAL_REQUIRED" 409)) ;;
  _assert_frozen b lines ;;
  candidates ← collect_candidates db provider lines;
  raise_if (negb (existsb (fun c => bool_decide (pi_id c.2 = current_intent)) candidates)) intent_conflict ;;
  let candidate_lines := candidates.*1 in
  let entries := candidate_entries db candidate_lines in
  raise_if (negb (bool_decide (length entries = length candidates))
            || existsb (fun e => bool_decide (le_trip_session_id e = None)) entries) ledger_not_available ;;
  raise_if (negb (forallb (ledger_authority db) candidate_lines)) ledger_not_available ;;
  let trips := sorted_ids (omap le_trip_session_id entries) in
  trip_authorities db (pb_currency b) trips ;;
  if automatic && automatic_clean_check
  then automatic_final_clean_authority db trips (le_driver_profile_id <$> entries)
  else mret tt.

(** ** Claiming an intent *)

(** The batch's administrators whose authority a new submission needs. *)
Definition batch_authorities (b : payout_batch) (requesters : list uuid) : list uuid :=
  requesters ++ [pb_created_by_user_id b] ++ option_list (pb_approved_by_user_id b).

Definition batch_requesters (db : disbursement_store) (lines : list payout_batch_line) : list uuid :=
  pi_requested_by_user_id
    <$> List.filter (fun i => bool_decide (pi_payout_batch_line_id i ∈ pl_id <$> lines)) (st_intents db).

(** [inactive_authority_error] *)
Definition inactive_authority (db : disbursement_store) (admins : list uuid) : option exn :=
  head (omap (fun a => match active_admin db a with Raise e => Some e | Ok _ => None end) (sorted_ids admins)).

Definition claimed_intent (i : payout_submission_intent) (token : uuid) (action : submission_claim_action)
    (expires now : Z) : payout_submission_intent :=
  {| pi_id := pi_id i; pi_payout_batch_line_id := pi_payout_batch_line_id i;
     pi_provider_name := pi_provider_name i; pi_idempotency_key := pi_idempotency_key i;
     pi_instruction := pi_instruction i; pi_instruction_fingerprint := pi_instruction_fingerprint i;
     pi_requested_by_user_id := pi_requested_by_user_id i; pi_state := INTENT_CLAIMED;
     pi_generation := pi_generation i + 1; pi_claim_token := Some token; pi_claim_action := Some action;
     pi_claim_expires_at := Some expires;
     pi_provider_submission_reference := pi_provider_submission_reference i;
     pi_provider_transfer_reference := pi_provider_transfer_reference i;
     pi_resolved_at := pi_resolved_at i; pi_updated_at := now |}.

(** What a visit to the intent would do: nothing while a claim is live or when
    the intent is closed, a lookup when an earlier call may have had an effect,
    a submission otherwise. *)
Definition claim_action (i : payout_submission_intent) (now : Z) : option submission_claim_action :=
  match pi_state i with
  | INTENT_CLAIMED =>
      match pi_claim_expires_at i with
      | Some expires => if now <? expires then None else Some CLAIM_QUERY
      | None => Some CLAIM_QUERY
      end
  | INTENT_QUERY_ONLY => Some CLAIM_QUERY
  | INTENT_PENDING => Some CLAIM_SUBMIT
  | INTENT_RESOLVED | INTENT_CANCELLED => None
  end.

(** The authority of the batch's people or of the system actor:
    [Ok (inactive, blocker)]. *)
Definition submission_authority (db : disbursement_store) (b : payout_batch) (lines : list payout_batch_line)
    : result (option exn * option submission_blocker) :=
  let requesters := batch_requesters db lines in
  if bool_decide (pb_approval_mode b = APPROVAL_AUTOMATIC) then
    raise_if (negb (forallb (fun r => bool_decide (r = CARDVERT_AUTOMATIC_PAYOUT_ACTOR_ID)) requesters)
              || bool_decide (requesters = [])
              || negb (bool_decide (pb_created_by_user_id b = CARDVERT_AUTOMATIC_PAYOUT_ACTOR_ID)))
      (AppError "PAYOUT_BATCH_AUTHORITY_CHANGED" 409) ;;
    mret (None, automatic_submission_blocker db)
  else mret (inactive_authority db (batch_authorities b requesters), None).

(** What the claim of [action] demands, [None] when the payment waits. *)
Definition authorize_claim (db : disbursement_store) (b : payout_batch) (lines : list payout_batch_line)
    (i : payout_submission_intent) (l : payout_batch_line) (provider : string)
    (authority : option exn * option submission_blocker) (action : submission_claim_action)
    : result (option unit) :=
  match action with
  | CLAIM_SUBMIT =>
      match authority with
      | (Some inactive, _) => Raise inactive
      | (None, Some ACTOR_INVALID) => Raise (AppError "PAYOUT_AUTOMATIC_ACTOR_INVALID" 503)
      | (None, Some PAUSED) => mret None
      | (None, None) =>
          _final_payout_authority db b lines (pi_id i) provider true ;;
          mret (Some tt)
      end
  | CLAIM_QUERY =>
      _assert_frozen b lines ;;
      raise_if (negb (intent_matches i l)) intent_conflict ;;
      mret (Some tt)
  end.

(** The committed effects of a claim. *)
Definition write_claim (now : Z) (db : disbursement_store) (b : payout_batch) (l : payout_batch_line)
    (i : payout_submission_intent) (action : submission_claim_action)
    : result (claimed_disbursement_intent * disbursement_store) :=
  let token := uuid4 (sa_claim_token <$> ds_attempts db) in
  let claimed := claimed_intent i token action (now + DISBURSEMENT_CLAIM_LEASE) now in
  db' ← update_intent i claimed db;
  let attempt := PayoutSubmissionAttempt (uuid4 (sa_id <$> ds_attempts db)) (pi_id i)
    (pi_generation claimed) token action (pi_idempotency_key i) (pi_instruction_fingerprint i) in
  db' ← flush_attempt attempt db';
  mret (ClaimedDisbursementIntent (pi_id i) (pb_id b) (pl_id l) (pi_generation claimed) token action
          (pi_idempotency_key i) (pi_instruction i) (pi_instruction_fingerprint i),
        audit (Some (pi_requested_by_user_id i)) "worker.payout_submission.authorized"
          "payout_submission_intent" (pi_id i) db').

(** [now] is the database clock of the transaction.  The rows read under the
    locks are those of the stub, so the comparison of the two is always equal. *)
Definition claim_payout_submission_intent (now : Z) (db : disbursement_store) (intent_id : uuid)
    (adapter : provider_capabilities) : result (option (claimed_disbursement_intent * disbursement_store)) :=
  c ← _submission_capabilities adapter;
  match get_intent db intent_id with
  | None => mret None
  | Some i =>
      match get_line db (pi_payout_batch_line_id i) with
      | None => mret None
      | Some l =>
          match get_batch db (pl_batch_id l) with
          | None => mret None
          | Some b =>
              let lines := batch_lines db (pb_id b) in
              authority ← submission_authority db b lines;
              if bool_decide (pi_state i = INTENT_RESOLVED) || negb (bool_decide (pl_status l = LINE_RESERVED))
              then mret None
              else
                raise_if (negb (bool_decide (pi_provider_name i = provider_name c)))
                  (AppError "DISBURSEMENT_PROVIDER_CHANGED" 503) ;;
                match claim_action i now with
                | None => mret None
                | Some action =>
                    authorized ← authorize_claim db b lines i l (provider_name c) authority action;
                    match authorized with
                    | None => mret None
                    | Some _ => r ← write_claim now db b l i action; mret (Some r)
                    end
                end
          end
      end
  end.


(** ** Resolving a claim *)

Definition observation_json (o : option string) : string := json_optional o.

Definition _submission_observation_fingerprint (c : claimed_disbursement_intent)
    (o : disbursement_claim_observation) : string :=
  sha256_hexdigest (json_compact
    [("claim_token", json_string (uuid_str (cl_claim_token c)));
     ("error_code", observation_json (ob_error_code o));
     ("generation", json_int (cl_generation c));
     ("idempotency_key", json_string (cl_idempotency_key c));
     ("instruction_fingerprint", json_string (cl_instruction_fingerprint c));
     ("intent_id", json_string (uuid_str (cl_intent_id c)));
     ("outcome", json_string (observation_value (ob_outcome o)));
     ("provider_submission_reference", observation_json (ob_provider_submission_reference o));
     ("provider_transfer_reference", observation_json (ob_provider_transfer_reference o))]%string).

(** [if not reference]: absent or empty. *)
Definition present (s : option string) : bool :=
  match s with Some s => nonempty s | None => false end.

(** [_derive_batch_status] *)
Definition _derive_batch_status (lines : list payout_batch_line) : payout_batch_status :=
  let statuses := pl_status <$> lines in
  let all s := negb (bool_decide (statuses = [])) && forallb (fun t => bool_decide (t = s)) statuses in
  if all LINE_SUCCEEDED then BATCH_COMPLETED
  else if all LINE_FAILED then BATCH_FAILED
  else if bool_decide (LINE_SUBMITTED ∈ statuses) then BATCH_SUBMITTED
  else if all LINE_VOID then BATCH_VOID
  else BATCH_RECONCILED.

(** The claim is still the worker's: same token, generation and action, and
    the lease has not run out. *)
Definition claim_live (c : claimed_disbursement_intent) (i : payout_submission_intent) (now : Z) : bool :=
  bool_decide (pi_state i = INTENT_CLAIMED)
  && (pi_generation i =? cl_generation c)
  && bool_decide (pi_claim_token i = Some (cl_claim_token c))
  && bool_decide (pi_claim_action i = Some (cl_action c))
  && match pi_claim_expires_at i with Some expires => now <? expires | None => false end.

(** The observation to record, and whether it resolves the intent: an answer
    without both references is unknown, a reference another line has is only
    recorded. *)
Definition final_observation (db : disbursement_store) (line_id : uuid) (o : disbursement_claim_observation)
    : disbursement_claim_observation * bool :=
  match ob_outcome o with
  | OBS_SUBMITTED | OBS_FOUND =>
      if negb (present (ob_provider_transfer_reference o) && present (ob_provider_submission_reference o))
      then (DisbursementClaimObservation OBS_UNKNOWN None None (Some "provider_response_invalid"%string), false)
      else if existsb (fun l => bool_decide (pl_provider_transfer_reference l = ob_provider_transfer_reference o)
                                && negb (bool_decide (pl_id l = line_id))) (st_lines db)
      then (DisbursementClaimObservation (ob_outcome o) (ob_provider_submission_reference o)
              (ob_provider_transfer_reference o) (Some "provider_transfer_reference_duplicate"%string), false)
      else (o, true)
  | OBS_NOT_FOUND | OBS_UNKNOWN => (o, false)
  end.

(** [_clear_disbursement_claim] with the new state. *)
Definition released_intent (i : payout_submission_intent) (s : submission_intent_state) (now : Z)
    : payout_submission_intent :=
  {| pi_id := pi_id i; pi_payout_batch_line_id := pi_payout_batch_line_id i;
     pi_provider_name := pi_provider_name i; pi_idempotency_key := pi_idempotency_key i;
     pi_instruction := pi_instruction i; pi_instruction_fingerprint := pi_instruction_fingerprint i;
     pi_requested_by_user_id := pi_requested_by_user_id i; pi_state := s;
     pi_generation := pi_generation i; pi_claim_token := None; pi_claim_action := None;
     pi_claim_expires_at := None; pi_provider_submission_reference := pi_provider_submission_reference i;
     pi_provider_transfer_reference := pi_provider_transfer_reference i;
     pi_resolved_at := pi_resolved_at i; pi_updated_at := now |}.

Definition resolved_intent (i : payout_submission_intent) (o : disbursement_claim_observation) (now : Z)
    : payout_submission_intent :=
  {| pi_id := pi_id i; pi_payout_batch_line_id := pi_payout_batch_line_id i;
     pi_provider_name := pi_provider_name i; pi_idempotency_key := pi_idempotency_key i;
     pi_instruction := pi_instruction i; pi_instruction_fingerprint := pi_instruction_fingerprint i;
     pi_requested_by_user_id := pi_requested_by_user_id i; pi_state := INTENT_RESOLVED;
     pi_generation := pi_generation i; pi_claim_token := None; pi_claim_action := None;
     pi_claim_expires_at := None; pi_provider_submission_reference := ob_provider_submission_reference o;
     pi_provider_transfer_reference := ob_provider_transfer_reference o;
     pi_resolved_at := Some now; pi_updated_at := now |}.

(** A line with a new status and reservation; the other columns stay. *)
Definition line_with (l : payout_batch_line) (s : payout_batch_line_status) (reference : option string)
    (active : bool) (reconciled_by : option uuid) (reconciled_at evidence_at : option Z) : payout_batch_line :=
  {| pl_id := pl_id l; pl_batch_id := pl_batch_id l; pl_ledger_entry_id := pl_ledger_entry_id l;
     pl_predecessor_line_id := pl_predecessor_line_id l; pl_payee_version_id := pl_payee_version_id l;
     pl_bank_account_version_id := pl_bank_account_version_id l; pl_amount := pl_amount l;
     pl_currency := pl_currency l; pl_instruction := pl_instruction l;
     pl_instruction_fingerprint := pl_instruction_fingerprint l; pl_idempotency_key := pl_idempotency_key l;
     pl_status := s; pl_provider_transfer_reference := reference;
     pl_reconciled_by_user_id := reconciled_by; pl_reconciled_at := reconciled_at;
     pl_last_provider_evidence_at := evidence_at; pl_reservation_active := active |}.

Definition submitted_line (l : payout_batch_line) (reference : option string) : payout_batch_line :=
  line_with l LINE_SUBMITTED reference (pl_reservation_active l) (pl_reconciled_by_user_id l)
    (pl_reconciled_at l) (pl_last_provider_evidence_at l).

Definition batch_with (b : payout_batch) (s : payout_batch_status) (reference : option string)
    (submitted_at : option Z) : payout_batch :=
  {| pb_id := pb_id b; pb_status := s; pb_currency := pb_currency b; pb_total_amount := pb_total_amount b;
     pb_instruction_set_fingerprint := pb_instruction_set_fingerprint b;
     pb_provider_submission_reference := reference; pb_created_by_user_id := pb_created_by_user_id b;
     pb_approved_by_user_id := pb_approved_by_user_id b; pb_approved_at := pb_approved_at b;
     pb_submitted_at := submitted_at; pb_approval_mode := pb_approval_mode b;
     pb_automatic_run_id := pb_automatic_run_id b |}.

(** [a or b] of optional values that are never empty when present. *)
Definition first_some {A} (a b : option A) : option A := match a with Some _ => a | None => b end.

Definition attempt_of (db : disbursement_store) (c : claimed_disbursement_intent)
    : option payout_submission_attempt :=
  find_row (fun a => bool_decide (sa_intent_id a = cl_intent_id c) && (sa_generation a =? cl_generation c)
                     && bool_decide (sa_claim_token a = cl_claim_token c)) (ds_attempts db).

(** What a live claim writes. *)
Definition write_resolution (now : Z) (db : disbursement_store) (c : claimed_disbursement_intent)
    (b : payout_batch) (lines : list payout_batch_line) (l : payout_batch_line) (i : payout_submission_intent)
    (attempt : payout_submission_attempt) (o : disbursement_claim_observation)
    : result (submission_intent_state * disbursement_store) :=
  let '(final, resolved) := final_observation db (pl_id l) o in
  db ← flush_observation
    (PayoutSubmissionObservation (uuid4 (so_id <$> ds_observations db)) (sa_id attempt) (pi_id i)
       (pi_generation i) (pi_idempotency_key i) (pi_instruction_fingerprint i) (ob_outcome final)
       (ob_provider_submission_reference final) (ob_provider_transfer_reference final)
       (_submission_observation_fingerprint c final) (ob_error_code final) now) db;
  if resolved then
    let i' := resolved_intent i final now in
    let l' := submitted_line l (ob_provider_transfer_reference final) in
    let lines' := set_row pl_id l' lines in
    let b' := batch_with b (_derive_batch_status lines')
      (first_some (pb_provider_submission_reference b) (ob_provider_submission_reference final))
      (first_some (pb_submitted_at b) (Some now)) in
    db ← update_intent i i' db;
    db ← update_line l' db;
    db ← update_batch b' db;
    mret (INTENT_RESOLVED,
      if bool_decide (pb_submitted_at b = None)
      then audit (Some (pi_requested_by_user_id i)) "admin.payout_batch.submitted" "payout_batch" (pb_id b) db
      else db)
  else
    let s := match ob_outcome final with OBS_NOT_FOUND => INTENT_PENDING | _ => INTENT_QUERY_ONLY end in
    db ← update_intent i (released_intent i s now) db;
    mret (s, db).

(** [None] is the answer "stale". *)
Definition _resolve_payout_submission_claim (now : Z) (db : disbursement_store)
    (c : claimed_disbursement_intent) (o : disbursement_claim_observation)
    : result (option submission_intent_state * disbursement_store) :=
  match get_intent db (cl_intent_id c) with
  | None => mret (None, db)
  | Some i =>
      r ← _locked_batch_with_lines db (cl_batch_id c);
      let '(b, lines) := r in
      if negb (claim_live c i now) then mret (None, db)
      else
        attempt ← require_some (attempt_of db c) RuntimeError;
        l ← require_some (find_by_key pl_id (pi_payout_batch_line_id i) lines) RuntimeError;
        w ← write_resolution now db c b lines l i attempt o;
        mret (Some w.1, w.2)
  end.

(** ** One visit of the worker *)

(** [type(exc).__name__.lower()] *)
Definition exception_name (e : exn) : string :=
  match e with
  | AppError _ _ => "apperror" | IntegrityError _ => "integrityerror" | DataError => "dataerror"
  | DBAPIError => "dbapierror"
  | AssertionError => "assertionerror" | ValueError => "valueerror" | RuntimeError => "runtimeerror"
  | IndexError => "indexerror" | KeyError => "keyerror" | ZeroDivisionError => "zerodivisionerror"
  | InvalidOperation => "invalidoperation" | TypeError => "typeerror"
  | AttributeError => "attributeerror"
  | DisbursementUnavailableError => "disbursementunavailableerror"
  | PaystackOutcomeUnknownError => "paystackoutcomeunknownerror"
  | PaystackNotFoundError => "paystacknotfounderror"
  | PaystackMalformedResponseError => "paystackmalformedresponseerror"
  | PaystackRejectedError => "paystackrejectederror"
  | CryptoConfigurationError => "cryptoconfigurationerror"
  | CryptoOperationError => "cryptooperationerror" | OutOfFuel => ""
  end.

Definition unknown_observation (error : option string) : disbursement_claim_observation :=
  DisbursementClaimObservation OBS_UNKNOWN None None error.

Definition claim_instruction (c : claimed_disbursement_intent) : disbursement_instruction :=
  DisbursementInstruction (uuid_str (cl_line_id c)) (cl_idempotency_key c) (cl_instruction c)
    (cl_instruction_fingerprint c).

(** The observation of a submission's answer. *)
Definition observe_submission (c : claimed_disbursement_intent) (r : result provider_submission)
    : disbursement_claim_observation :=
  match r with
  | Raise e => unknown_observation (Some (exception_name e))
  | Ok receipt =>
      let reference := ps_line_references receipt !! uuid_str (cl_line_id c) in
      if negb (nonempty (ps_provider_reference receipt))
         || negb (bool_decide (dom (ps_line_references receipt) =@{gset string} {[uuid_str (cl_line_id c)]}))
         || negb (present reference)
      then unknown_observation (Some (exception_name ValueError))
      else DisbursementClaimObservation OBS_SUBMITTED (Some (ps_provider_reference receipt)) reference None
  end.

Definition observe_lookup (r : result provider_lookup) : disbursement_claim_observation :=
  match r with
  | Raise e => unknown_observation (Some (exception_name e))
  | Ok answer =>
      match pk_status answer with
      | LOOKUP_FOUND => DisbursementClaimObservation OBS_FOUND (pk_provider_submission_reference answer)
                          (pk_provider_transfer_reference answer) None
      | LOOKUP_NOT_FOUND => DisbursementClaimObservation OBS_NOT_FOUND None None None
      | LOOKUP_UNKNOWN => unknown_observation None
      end
  end.

Section Provider.
Context {P : Type} `{DisbursementAdapter P}.

(** The call a claim authorizes, outside any transaction. *)
Definition call_provider (p : P) (c : claimed_disbursement_intent) : P * disbursement_claim_observation :=
  match cl_action c with
  | CLAIM_SUBMIT =>
      let '(p, r) := submit_batch p (uuid_str (cl_batch_id c)) [claim_instruction c] in
      (p, observe_submission c r)
  | CLAIM_QUERY =>
      let '(p, r) := lookup_line p (cl_idempotency_key c) (cl_instruction_fingerprint c) in
      (p, observe_lookup r)
  end.

(** [process_payout_submission_intent] without interruption: claimed at [t],
    resolved at [t'].  [None] is "skipped". *)
Definition process_payout_submission_intent (t t' : Z) (db : disbursement_store) (p : P) (intent_id : uuid)
    : result (option (option submission_intent_state) * disbursement_store * P) :=
  claim ← claim_payout_submission_intent t db intent_id capabilities;
  match claim with
  | None => mret (None, db, p)
  | Some (c, db) =>
      let '(p, o) := call_provider p c in
      r ← _resolve_payout_submission_claim t' db c o;
      mret (Some r.1, r.2, p)
  end.
End Provider.

(** ** Cancelling what the provider never saw *)

Definition _intent_has_unknown_effect (i : option payout_submission_intent) : bool :=
  match i with
  | Some i => bool_decide (pi_state i = INTENT_CLAIMED) || bool_decide (pi_state i = INTENT_QUERY_ONLY)
  | None => false
  end.

Definition cancelled_intent (i : payout_submission_intent) (at_ : Z) : payout_submission_intent :=
  {| pi_id := pi_id i; pi_payout_batch_line_id := pi_payout_batch_line_id i;
     pi_provider_name := pi_provider_name i; pi_idempotency_key := pi_idempotency_key i;
     pi_instruction := pi_instruction i; pi_instruction_fingerprint := pi_instruction_fingerprint i;
     pi_requested_by_user_id := pi_requested_by_user_id i; pi_state := INTENT_CANCELLED;
     pi_generation := pi_generation i; pi_claim_token := pi_claim_token i;
     pi_claim_action := pi_claim_action i; pi_claim_expires_at := pi_claim_expires_at i;
     pi_provider_submission_reference := pi_provider_submission_reference i;
     pi_provider_transfer_reference := pi_provider_transfer_reference i;
     pi_resolved_at := Some at_; pi_updated_at := at_ |}.

Definition voided_line (l : payout_batch_line) (at_ : Z) : payout_batch_line :=
  line_with l LINE_VOID (pl_provider_transfer_reference l) false (pl_reconciled_by_user_id l) (Some at_)
    (pl_last_provider_evidence_at l).

(** The answer says whether the line was cancelled. *)
Definition _cancel_uncalled_line (db : disbursement_store) (l : payout_batch_line)
    (i : option payout_submission_intent) (at_ : Z) : result (bool * disbursement_store) :=
  if negb (bool_decide (pl_status l = LINE_RESERVED)) || _intent_has_unknown_effect i then mret (false, db)
  else
    match i with
    | None => db ← update_line (voided_line l at_) db; mret (true, db)
    | Some i =>
        if negb (bool_decide (pi_state i = INTENT_PENDING)) then mret (false, db)
        else
          db ← update_intent i (cancelled_intent i at_) db;
          db ← update_line (voided_line l at_) db;
          mret (true, db)
    end.

(** The loop of a trip or a chain: cancel each of [lines] where it can be. *)
Fixpoint cancel_lines (db : disbursement_store) (lines : list payout_batch_line) (at_ : Z)
    : result disbursement_store :=
  match lines with
  | [] => mret db
  | l :: rest =>
      r ← _cancel_uncalled_line db l (line_intent db (pl_id l)) at_;
      cancel_lines r.2 rest at_
  end.

(** [batch.status = _derive_batch_status(...)] of each of the batches. *)
Fixpoint rederive_batches (db : disbursement_store) (batches : list uuid) : result disbursement_store :=
  match batches with
  | [] => mret db
  | i :: rest =>
      match get_batch db i with
      | None => rederive_batches db rest
      | Some b =>
          db ← update_batch (batch_with b (_derive_batch_status (batch_lines db i))
                 (pb_provider_submission_reference b) (pb_submitted_at b)) db;
          rederive_batches db rest
      end
  end.

(** [lock_payout_chains]: the batches with a line of the trips' entries, in
    [ORDER BY id]. *)
Definition trip_entry_ids (db : disbursement_store) (trips : list uuid) : list uuid :=
  le_id <$> List.filter (fun e => match le_trip_session_id e with
                                  | Some t => bool_decide (t ∈ trips)
                                  | None => false
                                  end) (st_ledger db).

Definition lock_payout_chains (db : disbursement_store) (trips : list uuid) : list uuid :=
  sorted_ids (pl_batch_id <$> List.filter (fun l => bool_decide (pl_ledger_entry_id l ∈ trip_entry_ids db trips))
                                (st_lines db)).

Definition cancel_uncalled_trip_payouts (db : disbursement_store) (trip : uuid) (batches : list uuid) (at_ : Z)
    : result disbursement_store :=
  let entries := trip_entry_ids db [trip] in
  let lines := stable_sort line_id_leb
    (List.filter (fun l => bool_decide (pl_batch_id l ∈ batches)) (st_lines db)) in
  db ← cancel_lines db
    (List.filter (fun l => bool_decide (pl_ledger_entry_id l ∈ entries) && pl_reservation_active l) lines) at_;
  rederive_batches db batches.

(** ** Replacement chains *)

(** [_chain_root_id]: [lines_by_id] as a dictionary; the loop is bounded by
    [fuel], the entries of [seen] are the lines passed. *)
Fixpoint chain_root (fuel : nat) (lines_by_id : gmap uuid payout_batch_line) (current : payout_batch_line)
    (seen : gset uuid) : result uuid :=
  match pl_predecessor_line_id current with
  | None => mret (pl_id current)
  | Some predecessor_id =>
      match fuel with
      | O => Raise OutOfFuel
      | S fuel =>
          raise_if (bool_decide (pl_id current ∈ seen)) RuntimeError ;;
          predecessor ← require_some (lines_by_id !! predecessor_id) RuntimeError;
          chain_root fuel lines_by_id predecessor ({[pl_id current]} ∪ seen)
      end
  end.

Definition _chain_root_id (line : payout_batch_line) (lines_by_id : gmap uuid payout_batch_line) : result uuid :=
  chain_root (size lines_by_id + 2) lines_by_id line ∅.

(** ** Voiding a batch *)

Definition void_payout_batch (db : disbursement_store) (batch_id actor : uuid)
    : result (payout_batch * list payout_batch_line * disbursement_store) :=
  active_admin db actor ;;
  r ← _locked_batch_with_lines db batch_id;
  let '(b, lines) := r in
  let unsafe := AppError "PAYOUT_BATCH_VOID_UNSAFE" 409 in
  raise_if (negb (bool_decide (pb_status b = BATCH_RESERVED))
            || existsb (fun l => negb (bool_decide (pl_status l = LINE_RESERVED))
                                 || negb (bool_decide (pl_provider_transfer_reference l = None))) lines
            || existsb (fun i => bool_decide (pi_payout_batch_line_id i ∈ pl_id <$> lines)) (st_intents db))
    unsafe ;;
  let entries := candidate_entries db lines in
  raise_if (negb (bool_decide (length entries = length lines))
            || existsb (fun e => negb (bool_decide (le_status e = AVAILABLE))) entries) unsafe ;;
  let void l := line_with l LINE_VOID (pl_provider_transfer_reference l) false
    (pl_reconciled_by_user_id l) (pl_reconciled_at l) (pl_last_provider_evidence_at l) in
  db ← foldl (fun r l => db ← r; update_line (void l) db) (mret db) lines;
  let b' := batch_with b BATCH_VOID (pb_provider_submission_reference b) (pb_submitted_at b) in
  db ← update_batch b' db;
  mret (b', void <$> lines, audit (Some actor) "admin.payout_batch.voided" "payout_batch" (pb_id b) db).

End Disbursements.

(** ** A reserved batch for the examples *)

(** Two trips of one driver, assessed clean, each with one available credit on
    one line of a frozen batch that administrator 1 made and approved. *)
Module BatchSample.
Import DisbursementSample.
#[export] Existing Instance FraudSample.fingerprint.

Definition settings : fraud_settings := FraudSample.settings.
Definition analytics (i trip : uuid) : trip_analytics :=
  TripAnalytics i trip 2 4 5 6 TA_COMPUTED "ra1" 100 100.
Definition signature (i trip analytics : uuid) : route_replay_signature :=
  RouteReplaySignature i trip analytics REPLAY_COMPUTED "rr1" "config" "ra1" (Some "p"%string) (Some "n"%string) 9.
Definition entry (i calculation trip : uuid) (amount : kobo) : ledger_entry :=
  {| le_id := i; le_payout_calculation_id := Some calculation; le_driver_profile_id := 5; le_driver_user_id := 50;
     le_campaign_id := 4; le_trip_session_id := Some trip; le_vehicle_id := Some 6%N;
     le_entry_type := TRIP_PAYOUT; le_status := AVAILABLE; le_amount := amount; le_currency := "NGN";
     le_description := None; le_occurred_at := 100; le_release_at := Some 200; le_metadata := no_metadata |}.

Definition first_line : payout_batch_line := reserved_line 61 60 None (entry 40 30 10 300000) 70 71 300000.
Definition second_line : payout_batch_line := reserved_line 62 60 None (entry 41 31 11 150000) 70 71 150000.
Definition draft : payout_batch :=
  PayoutBatch 60 BATCH_RESERVED "NGN" 0 None None 1 None None None APPROVAL_MANUAL None.
Definition batch : payout_batch :=
  approved_batch (freeze_batch_instruction_set draft [first_line; second_line]) 2 500.

Definition tables : disbursement_store :=
  set_batches (fun _ => [batch])
  (set_payout (fun p =>
    {| st_trips := []; st_analytics := [analytics 20 10; analytics 21 11]; st_estimates := []; st_bindings := [];
       st_campaigns := []; st_rules := []; st_revisions := []; st_calculations := [];
       st_ledger := [entry 40 30 10 300000; entry 41 31 11 150000];
       st_orders := []; st_lines := [first_line; second_line]; st_intents := []; st_offsets := [];
       st_profiles := st_profiles p; st_cutoffs := []; st_audit := [] |})
  (set_fraud (fun _ => FraudTables [] [] [] [signature 30 10 20; signature 31 11 21])
    DisbursementSample.store)).

Definition assess (i trip : uuid) (signature : route_replay_signature) (db : disbursement_store)
    : disbursement_store :=
  match assess_trip_fraud [] settings db (analytics i trip) [] 400 (replay_upstream signature) None with
  | Ok r => r.2
  | Raise _ => db
  end.

(** The approved batch before its lines are queued. *)
Definition store : disbursement_store :=
  assess 21 11 (signature 31 11 21) (assess 20 10 (signature 30 10 20) tables).

(** Its lines queued. *)
Definition queued : disbursement_store :=
  match submit_payout_batch 600 store 60 1 (@capabilities _ fake_adapter) with
  | Ok r => r.2
  | Raise _ => store
  end.

Definition provider : fake_provider := FakeProvider [] ∅ ∅ ∅ [].
End BatchSample.
