(* ===== verification/Corrections.v ===== *)
(** Payout corrections ([app/services/payouts/corrections.py],
    [app/services/payout_corrections.py]): re-measuring a campaign's Lagos day,
    the differences posted for it, and the orders that preview them and apply
    them once. *)

From S2P Require Import Prelude Eligibility PayoutData DailyRate Ledger Balances DayBooks Engine Rules Text BillingData.
From S2P Require Import DisbursementData Disbursements.
From stdpp Require Import base list strings gmap.
From Stdlib Require Import ZArith QArith Lia.

#[local] Open Scope Z_scope.

(** ** Targets *)

(** [DayTripTarget]; [governing_values] is the frozen values with the financial
    cutoff added. *)
Record day_trip_target {F : Type} := DayTripTarget {
  tg_trip_session_id : uuid;
  tg_vehicle_id : uuid;
  tg_payout_calculation_id : uuid;
  tg_currency : string;
  tg_previous_posted_amount : kobo;
  tg_target_amount : kobo;
  tg_delta_amount : kobo;
  tg_eligible_seconds : Z;
  tg_voided : bool;
  tg_current_ping_fingerprint : string;
  tg_stored_inputs_fingerprint : string;
  tg_governing_values : governing_values F;
  tg_financial_cutoff_at : option Z;
  tg_distance_m_by_day : gmap Z Z;
  tg_amount_by_day : gmap Z kobo;
  tg_prior_distance_m : Z
}.
#[global] Arguments day_trip_target F : clear implicits.

(** [DayComputation]; the zone state and the campaign window it also carries are
    read by nobody. *)
Record day_computation {F : Type} := DayComputation {
  cm_campaign_id : uuid;
  cm_driver_profile_id : uuid;
  cm_lagos_date : Z;
  cm_currency : option string;
  cm_trips : list (day_trip_target F)
}.
#[global] Arguments day_computation F : clear implicits.

(** What the fingerprint of a projection is taken of. *)
Record trip_input {F : Type} := TripInput {
  ti_trip_session_id : uuid;
  ti_driver_profile_id : uuid;
  ti_stored_inputs_fingerprint : string;
  ti_current_ping_fingerprint : string;
  ti_governing_values : governing_values F;
  ti_financial_cutoff_at : option Z;
  ti_voided : bool
}.
#[global] Arguments trip_input F : clear implicits.
#[global] Arguments TripInput {F}.

Definition ledger_input : Type := uuid * ledger_entry_type * kobo * string.

Record projection_inputs {F : Type} := ProjectionInputs {
  pj_campaign_id : uuid;
  pj_lagos_day : Z;
  pj_trips : list (trip_input F);
  pj_ledger_entries : list ledger_input
}.
#[global] Arguments projection_inputs F : clear implicits.
#[global] Arguments ProjectionInputs {F}.

(** [RecomputeDayTripOutcome] *)
Record trip_outcome {F : Type} := TripOutcome {
  to_target : day_trip_target F;
  to_entry : option ledger_entry
}.
#[global] Arguments trip_outcome F : clear implicits.
#[global] Arguments TripOutcome {F} to_target to_entry.

Definition payout_day_unsupported_formula : exn := AppError "PAYOUT_DAY_UNSUPPORTED_FORMULA" 409.
Definition payout_day_currency_mismatch : exn := AppError "PAYOUT_DAY_CURRENCY_MISMATCH" 409.
Definition recompute_requires_correction_order : exn := AppError "RECOMPUTE_REQUIRES_CORRECTION_ORDER" 409.
Definition correction_release_at_required : exn := AppError "CORRECTION_RELEASE_AT_REQUIRED" 400.

(** ** The day's trips and what is posted for them *)

(** The ended trips of the campaign that overlap the day. *)
Definition overlapping_trip (campaign : uuid) (d : Z) (t : trip_session) : bool :=
  bool_decide (trip_campaign_id t = campaign)
  && negb (bool_decide (trip_status t = TRIP_ACTIVE))
  && match trip_ended_at t with
     | Some ended => (trip_started_at t <? (lagos_day_utc_range d).2) && ((lagos_day_utc_range d).1 <=? ended)
     | None => false
     end.

Definition _affected_driver_ids (db : payout_store) (campaign : uuid) (d : Z) : list uuid :=
  sorted_ids (trip_driver_profile_id <$> List.filter (overlapping_trip campaign d) (st_trips db)).

(** [sorted(..., key=lambda trip: (trip.started_at, trip.id))] *)
Definition trip_leb (a b : trip_session) : bool := negb (trip_before b a).
Definition day_trips (db : payout_store) (campaign driver : uuid) (d : Z) : list trip_session :=
  stable_sort trip_leb
    (List.filter (fun t => overlapping_trip campaign d t && bool_decide (trip_driver_profile_id t = driver))
       (st_trips db)).

(** The entries of a trip that count. *)
Definition trip_entries (db : payout_store) (trip : uuid) : list ledger_entry :=
  List.filter (fun e => bool_decide (le_trip_session_id e = Some trip) && negb (bool_decide (le_status e = VOIDED)))
    (st_ledger db).

Definition _posted_amount_for_trip (db : payout_store) (trip driver : uuid) (currency : string) : result kobo :=
  raise_if (existsb (fun e => negb (bool_decide (le_currency e = currency))) (trip_entries db trip))
    payout_day_currency_mismatch ;;
  mret (sum_by signed_ledger_amount
          (List.filter (fun e => bool_decide (le_driver_profile_id e = driver) && bool_decide (le_currency e = currency))
             (trip_entries db trip))).

(** The staff deductions of a trip. *)
Definition trip_deductions (db : payout_store) (trip : uuid) (currency : string) : kobo :=
  sum_by le_amount
    (List.filter (fun e => bool_decide (le_currency e = currency) && is_manual_deduction e) (trip_entries db trip)).

(** What is still to post: the target less deductions, never below zero, less
    what is posted. *)
Definition day_delta (target deductions posted : kobo) : kobo :=
  let worth := Z.max (target - deductions) 0 in
  if (worth =? 0) && (posted <=? 0) then 0 else worth - posted.

(** The calculations of the day's trips, the newest of each trip. *)
Definition day_calculations (db : payout_store) (trips : list trip_session) : gmap uuid payout_calculation :=
  latest_by_trip (stable_sort earlier_calculation
    (List.filter (fun c => bool_decide (pc_trip_session_id c ∈ trip_id <$> trips)) (st_calculations db))).

Section Corrections.
Context {F : Type} `{PyFloat F} {G : Type}.
Context (st_intersects : string -> G -> bool).
Context (ping_set_digest : list uuid -> string).
Context (inputs_digest : governing_values F -> string -> option Z -> string).
(** [stable_source_fingerprint] of a projection. *)
Context (projection_digest : projection_inputs F -> string).

#[local] Abbreviation classify := (classify_daily_rate_trip st_intersects ping_set_digest inputs_digest).

(** The position of a trip after the day has been re-measured: the other days as
    they are recorded, the day credited after [credited_before_m] metres. *)
Definition corrected_position (d : Z) (stored : position) (day_distance credited_before_m : Z) (terms : daily_terms)
    : position :=
  let '(distance, amount) := (delete d stored.1, delete d stored.2) in
  if 0 <? day_distance
  then (<[d := day_distance]> distance,
        <[d := day_pay_naira (credited_before_m + day_distance) terms - day_pay_naira credited_before_m terms]> amount)
  else (distance, amount).

Definition _daily_rate_day_target (db : payout_store) (pings : list (location_ping G)) (trip : trip_session)
    (calculation : payout_calculation) (voided : bool) (d : Z) (credited_before_m : Z) (driver : uuid)
    : result (day_trip_target F) :=
  let no_binding := AppError "PAYOUT_BINDING_NOT_FOUND" 409 in
  binding ← require_some (binding_for_assignment db (trip_assignment_id trip)) no_binding;
  raise_if (negb (bool_decide (bind_formula_version binding = PAYOUT_V4))) no_binding ;;
  raise_if (negb (bool_decide (pc_currency calculation = bind_currency binding))) payout_day_currency_mismatch ;;
  classified ← classify db pings trip binding;
  let unpaid := voided || bool_decide (pc_status calculation = BLOCKED) in
  let position :=
    if unpaid then (∅, ∅)
    else corrected_position d (latest_daily_rate_position db calculation)
           (dict_get (dc_distance_m_by_day classified) d) credited_before_m (dc_terms classified) in
  let target_amount := map_sum position.2 in
  posted ← _posted_amount_for_trip db (trip_id trip) driver (pc_currency calculation);
  mret {| tg_trip_session_id := trip_id trip;
          tg_vehicle_id := trip_vehicle_id trip;
          tg_payout_calculation_id := pc_id calculation;
          tg_currency := pc_currency calculation;
          tg_previous_posted_amount := posted;
          tg_target_amount := target_amount;
          tg_delta_amount := day_delta target_amount
                               (trip_deductions db (trip_id trip) (pc_currency calculation)) posted;
          tg_eligible_seconds := if unpaid then 0 else eligible_seconds (dc_breakdown classified);
          tg_voided := voided;
          tg_current_ping_fingerprint := dc_ping_fingerprint classified;
          tg_stored_inputs_fingerprint := pc_inputs_fingerprint calculation;
          tg_governing_values := dc_governing_values classified;
          tg_financial_cutoff_at := dc_financial_cutoff_at classified;
          tg_distance_m_by_day := position.1;
          tg_amount_by_day := position.2;
          tg_prior_distance_m := credited_before_m |}.

(** The loop over the day's trips, in their order. *)
Fixpoint day_targets (db : payout_store) (pings : list (location_ping G)) (d : Z) (driver : uuid)
    (calculations : gmap uuid payout_calculation) (trips : list trip_session) (credited_m : Z)
    : result (list (day_trip_target F)) :=
  match trips with
  | [] => mret []
  | trip :: rest =>
      match calculations !! trip_id trip with
      | None => day_targets db pings d driver calculations rest credited_m
      | Some calculation =>
          let voided := match trip_payout_entry_for_trip db (trip_id trip) with
                        | Some e => bool_decide (le_status e = VOIDED)
                        | None => false
                        end in
          target ← _daily_rate_day_target db pings trip calculation voided d credited_m driver;
          targets ← day_targets db pings d driver calculations rest
                      (credited_m + dict_get (tg_distance_m_by_day target) d);
          mret (target :: targets)
      end
  end.

Definition compute_payout_day_targets (db : payout_store) (pings : list (location_ping G)) (campaign driver : uuid)
    (d : Z) : result (day_computation F) :=
  get_campaign db campaign ;;
  let trips := day_trips db campaign driver d in
  let calculations := day_calculations db trips in
  let latest := omap (fun t => calculations !! trip_id t) trips in
  raise_if (existsb (fun c => negb (bool_decide (pc_formula_version c = PAYOUT_V4))) latest)
    payout_day_unsupported_formula ;;
  raise_if (1 <? length (remove_dups (pc_currency <$> latest)))%nat payout_day_currency_mismatch ;;
  targets ← day_targets db pings d driver calculations trips 0;
  mret {| cm_campaign_id := campaign; cm_driver_profile_id := driver; cm_lagos_date := d;
          cm_currency := head (pc_currency <$> latest); cm_trips := targets |}.

(** ** Posting the differences *)

(** The status of the new entry. *)
Definition differential_status (db : payout_store) (driver : uuid) (target : day_trip_target F) (by_order : bool)
    : ledger_entry_status :=
  let delta := tg_delta_amount target in
  if (0 <? delta) && by_order then PENDING
  else
    let paid_credit := existsb (fun e => bool_decide (le_driver_profile_id e = driver)
        && bool_decide (le_trip_session_id e = Some (tg_trip_session_id target))
        && bool_decide (le_currency e = tg_currency target) && bool_decide (le_status e = PAID)
        && negb (bool_decide (le_entry_type e = REVERSAL))) (st_ledger db) in
    if (delta <? 0) && paid_credit then AVAILABLE
    else match trip_payout_entry_for_trip db (tg_trip_session_id target) with
         | Some e => if bool_decide (le_status e = VOIDED) then PENDING else le_status e
         | None => PENDING
         end.

Definition differential_entry (db : payout_store) (computation : day_computation F) (profile : driver_profile)
    (target : day_trip_target F) (at_ : Z) (order : option uuid) (release_at : option Z) : ledger_entry :=
  let delta := tg_delta_amount target in
  let up := 0 <? delta in
  let by_order := negb (is_none order) in
  {| le_id := uuid4 (le_id <$> st_ledger db);
     le_payout_calculation_id := None;
     le_driver_profile_id := cm_driver_profile_id computation;
     le_driver_user_id := dp_user_id profile;
     le_campaign_id := cm_campaign_id computation;
     le_trip_session_id := Some (tg_trip_session_id target);
     le_vehicle_id := Some (tg_vehicle_id target);
     le_entry_type := if up then ADJUSTMENT else REVERSAL;
     le_status := differential_status db (cm_driver_profile_id computation) target by_order;
     le_amount := Z.abs delta;
     le_currency := tg_currency target;
     le_description := Some (if up then "Day true-up adjustment" else "Day true-up reversal")%string;
     le_occurred_at := at_;
     le_release_at := if up && by_order then release_at else None;
     le_metadata := LedgerMetadata None true (Some (tg_payout_calculation_id target)) (Some PAYOUT_V4)
       (Some (DailyPosition (Some (tg_distance_m_by_day target)) (tg_amount_by_day target)))
       None None (Some (cm_lagos_date computation)) order |}.

(** One trip of the writing loop. *)
Definition write_differential (db : disbursement_store) (computation : day_computation F) (profile : driver_profile)
    (target : day_trip_target F) (at_ : Z) (order : option uuid) (release_at : option Z) (chains : list uuid)
    : result (trip_outcome F * disbursement_store) :=
  let delta := tg_delta_amount target in
  if delta =? 0 then mret (TripOutcome target None, db)
  else
    raise_if ((0 <? delta) && negb (is_none order) && is_none release_at) correction_release_at_required ;;
    let entry := differential_entry (db : payout_store) computation profile target at_ order release_at in
    payout ← flush_ledger_entry entry db;
    let db := set_payout (fun _ => payout) db in
    db ← (if delta <? 0 then cancel_uncalled_trip_payouts db (tg_trip_session_id target) chains at_ else mret db);
    mret (TripOutcome target (Some entry), db).

Fixpoint write_differentials (db : disbursement_store) (computation : day_computation F) (profile : driver_profile)
    (targets : list (day_trip_target F)) (at_ : Z) (order : option uuid) (release_at : option Z) (chains : list uuid)
    : result (list (trip_outcome F) * disbursement_store) :=
  match targets with
  | [] => mret ([], db)
  | target :: rest =>
      r ← write_differential db computation profile target at_ order release_at chains;
      rs ← write_differentials r.2 computation profile rest at_ order release_at chains;
      mret (r.1 :: rs.1, rs.2)
  end.

(** A run without an order writes no position, so it may not move money between
    the days of a trip whose total stays. *)
Fixpoint require_recorded_positions (db : payout_store) (targets : list (day_trip_target F)) : result unit :=
  match targets with
  | [] => mret tt
  | target :: rest =>
      if negb (tg_delta_amount target =? 0) then require_recorded_positions db rest
      else
        calculation ← require_some (find_by_key pc_id (tg_payout_calculation_id target) (st_calculations db))
                        recompute_requires_correction_order;
        raise_if (negb (bool_decide ((latest_daily_rate_position db calculation).2 = tg_amount_by_day target)))
          recompute_requires_correction_order ;;
        require_recorded_positions db rest
  end.

Definition lock_driver_money_scope (db : payout_store) (driver : uuid) : result driver_profile :=
  require_some (find_row (fun p => bool_decide (dp_id p = driver)) (st_profiles db)) ValueError.

Definition write_day_differentials (db : disbursement_store) (computation : day_computation F) (at_ : Z)
    (order : option uuid) (release_at : option Z) (chains : list uuid)
    : result (list (trip_outcome F) * disbursement_store) :=
  profile ← lock_driver_money_scope db (cm_driver_profile_id computation);
  (if is_none order then require_recorded_positions db (cm_trips computation) else mret tt) ;;
  write_differentials db computation profile (cm_trips computation) at_ order release_at chains.

(** The true-up of one driver's day outside an order. *)
Definition recompute_payout_day (db : disbursement_store) (pings : list (location_ping G)) (campaign driver : uuid)
    (d now : Z) : result (list (trip_outcome F) * disbursement_store) :=
  computation ← compute_payout_day_targets db pings campaign driver d;
  let chains := lock_payout_chains db (tg_trip_session_id <$> cm_trips computation) in
  write_day_differentials db computation now None None chains.

(** ** Projections *)

Record campaign_day_projection := CampaignDayProjection {
  cp_computations : list (day_computation F);
  cp_projected_delta : projected_delta;
  cp_fingerprint : string
}.

Fixpoint compute_drivers (db : payout_store) (pings : list (location_ping G)) (campaign : uuid) (d : Z)
    (drivers : list uuid) : result (list (day_computation F)) :=
  match drivers with
  | [] => mret []
  | driver :: rest =>
      c ← compute_payout_day_targets db pings campaign driver d;
      cs ← compute_drivers db pings campaign d rest;
      mret (c :: cs)
  end.

Definition all_targets (computations : list (day_computation F)) : list (day_trip_target F) :=
  mjoin (cm_trips <$> computations).

Definition projected_trips (computation : day_computation F) : list projected_trip :=
  (fun t => ProjectedTrip (tg_trip_session_id t) (cm_driver_profile_id computation) (tg_currency t)
              (tg_previous_posted_amount t) (tg_target_amount t) (tg_delta_amount t) (tg_eligible_seconds t)
              (tg_voided t) (tg_distance_m_by_day t)) <$> cm_trips computation.

Definition count (p : day_trip_target F -> bool) (targets : list (day_trip_target F)) : Z :=
  Z.of_nat (length (List.filter p targets)).

Definition _projection_payload (computations : list (day_computation F)) : projected_delta :=
  let targets := all_targets computations in
  {| jd_currencies := stable_sort String.leb (remove_dups (tg_currency <$> targets));
     jd_trips := mjoin (projected_trips <$> computations);
     jd_previous_posted_amount := sum_by tg_previous_posted_amount targets;
     jd_target_amount := sum_by tg_target_amount targets;
     jd_delta_amount := sum_by tg_delta_amount targets;
     jd_adjustment_count := count (fun t => 0 <? tg_delta_amount t) targets;
     jd_reversal_count := count (fun t => tg_delta_amount t <? 0) targets |}.

Definition trip_inputs (computation : day_computation F) : list (trip_input F) :=
  (fun t => TripInput (tg_trip_session_id t) (cm_driver_profile_id computation) (tg_stored_inputs_fingerprint t)
              (tg_current_ping_fingerprint t) (tg_governing_values t) (tg_financial_cutoff_at t) (tg_voided t))
  <$> cm_trips computation.

(** The posted entries of the trips, by id. *)
Definition ledger_inputs (db : payout_store) (trips : list uuid) : list ledger_input :=
  (fun e => (le_id e, le_entry_type e, le_amount e, le_currency e)) <$>
    stable_sort (fun a b => (le_id a <=? le_id b)%N)
      (List.filter (fun e => match le_trip_session_id e with
                             | Some t => bool_decide (t ∈ trips)
                             | None => false
                             end && negb (bool_decide (le_status e = VOIDED))) (st_ledger db)).

Definition _projection_fingerprint (db : payout_store) (campaign : uuid) (d : Z)
    (computations : list (day_computation F)) : string :=
  projection_digest (ProjectionInputs campaign d (mjoin (trip_inputs <$> computations))
    (ledger_inputs db (tg_trip_session_id <$> all_targets computations))).

Definition project_campaign_day (db : payout_store) (pings : list (location_ping G)) (campaign : uuid) (d : Z)
    : result campaign_day_projection :=
  get_campaign db campaign ;;
  computations ← compute_drivers db pings campaign d (_affected_driver_ids db campaign d);
  mret (CampaignDayProjection computations (_projection_payload computations)
          (_projection_fingerprint db campaign d computations)).

(** ** Orders *)

Definition create_correction_order (db : disbursement_store) (pings : list (location_ping G)) (campaign : uuid) (d : Z)
    (reason : string) (created_by : uuid) (now : Z) : result (payout_correction_order * disbursement_store) :=
  active_admin db created_by ;;
  reason ← _reason reason;
  projection ← project_campaign_day db pings campaign d;
  let order := {| co_id := uuid4 (co_id <$> st_orders db); co_campaign_id := campaign; co_lagos_day := d;
                  co_status := DRAFT; co_created_by_user_id := created_by; co_approved_by_user_id := None;
                  co_executed_by_user_id := None; co_reason := reason;
                  co_projected_delta := Some (cp_projected_delta projection);
                  co_projection_fingerprint := Some (cp_fingerprint projection); co_projected_at := Some now;
                  co_decided_at := None; co_executed_at := None; co_executed_trips := [] |} in
  mret (order, set_payout (with_orders (fun l => l ++ [order])) db).

Definition get_correction_order (db : payout_store) (i : uuid) : result payout_correction_order :=
  require_some (find_by_key co_id i (st_orders db)) (AppError "CORRECTION_ORDER_NOT_FOUND" 404).

Definition correction_order_stale : exn := AppError "CORRECTION_ORDER_STALE" 409.

Definition stale_order (o : payout_correction_order) (at_ : Z) : payout_correction_order :=
  {| co_id := co_id o; co_campaign_id := co_campaign_id o; co_lagos_day := co_lagos_day o; co_status := STALE;
     co_created_by_user_id := co_created_by_user_id o; co_approved_by_user_id := co_approved_by_user_id o;
     co_executed_by_user_id := co_executed_by_user_id o; co_reason := co_reason o;
     co_projected_delta := co_projected_delta o; co_projection_fingerprint := co_projection_fingerprint o;
     co_projected_at := co_projected_at o; co_decided_at := Some at_; co_executed_at := co_executed_at o;
     co_executed_trips := co_executed_trips o |}.

(** The order turns stale for good: the transaction commits before the error. *)
Definition _mark_stale (db : disbursement_store) (o : payout_correction_order) (actor : uuid) (at_ : Z)
    : disbursement_store :=
  audit (Some actor) "admin.payout_correction_order.stale" "payout_correction_order" (co_id o)
    (set_payout (with_orders (set_row co_id (stale_order o at_))) db).

(** The trips of the recorded result, each with its position. *)
Definition executed_trip_of (outcome : trip_outcome F) : executed_trip :=
  ExecutedTrip (tg_trip_session_id (to_target outcome)) (tg_payout_calculation_id (to_target outcome))
    (DailyPosition (Some (tg_distance_m_by_day (to_target outcome))) (tg_amount_by_day (to_target outcome))).

Definition executed_order (o : payout_correction_order) (actor : uuid) (at_ : Z) (outcomes : list (trip_outcome F))
    : payout_correction_order :=
  {| co_id := co_id o; co_campaign_id := co_campaign_id o; co_lagos_day := co_lagos_day o; co_status := EXECUTED;
     co_created_by_user_id := co_created_by_user_id o; co_approved_by_user_id := Some actor;
     co_executed_by_user_id := Some actor; co_reason := co_reason o; co_projected_delta := co_projected_delta o;
     co_projection_fingerprint := co_projection_fingerprint o; co_projected_at := co_projected_at o;
     co_decided_at := Some at_; co_executed_at := Some at_;
     co_executed_trips := executed_trip_of <$> outcomes |}.

(** One driver after the other. *)
Fixpoint write_days (db : disbursement_store) (computations : list (day_computation F)) (at_ : Z)
    (order : option uuid) (release_at : option Z) (chains : list uuid)
    : result (list (trip_outcome F) * disbursement_store) :=
  match computations with
  | [] => mret ([], db)
  | c :: rest =>
      r ← write_day_differentials db c at_ order release_at chains;
      rs ← write_days r.2 rest at_ order release_at chains;
      mret (r.1 ++ rs.1, rs.2)
  end.

(** The scopes of all drivers are locked before the first entry. *)
Fixpoint lock_drivers (db : payout_store) (drivers : list uuid) : result unit :=
  match drivers with
  | [] => mret tt
  | driver :: rest => lock_driver_money_scope db driver ;; lock_drivers db rest
  end.

Definition execute_order (db : disbursement_store) (o : payout_correction_order) (projection : campaign_day_projection)
    (actor : uuid) (release_at : option Z) (now : Z) : result (payout_correction_order * disbursement_store) :=
  let computations := cp_computations projection in
  let targets := all_targets computations in
  raise_if (existsb (fun t => 0 <? tg_delta_amount t) targets && is_none release_at) correction_release_at_required ;;
  let chains := lock_payout_chains db (tg_trip_session_id <$> targets) in
  lock_drivers db (sorted_ids (cm_driver_profile_id <$> computations)) ;;
  r ← write_days db computations now (Some (co_id o)) release_at chains;
  let executed := executed_order o actor now r.1 in
  mret (executed, audit (Some actor) "admin.payout_correction_order.approved" "payout_correction_order" (co_id o)
                    (set_payout (with_orders (set_row co_id executed)) r.2)).

(** The guards that leave the order as it is. *)
Definition admit_order (db : disbursement_store) (i actor : uuid) (reason : string) : result payout_correction_order :=
  active_admin db actor ;;
  _reason reason ;;
  o ← get_correction_order db i;
  raise_if (bool_decide (co_status o = STALE)) (AppError "CORRECTION_ORDER_INVALID_STATE" 409) ;;
  mret o.

(** Approving applies the preview, once; the flag says whether it was now.  The
    store is the one the request leaves behind: only the stale mark survives an
    error. *)
Definition approve_correction_order (db : disbursement_store) (pings : list (location_ping G)) (i actor : uuid)
    (release_at : option Z) (reason : string) (now : Z)
    : disbursement_store * result (payout_correction_order * bool) :=
  match admit_order db i actor reason with
  | Raise e => (db, Raise e)
  | Ok o =>
      if bool_decide (co_status o = EXECUTED) then (db, mret (o, false))
      else
        match project_campaign_day db pings (co_campaign_id o) (co_lagos_day o) with
        | Raise e => (db, Raise e)
        | Ok projection =>
            if negb (bool_decide (Some (cp_fingerprint projection) = co_projection_fingerprint o))
            then (_mark_stale db o actor now, Raise correction_order_stale)
            else
              match execute_order db o projection actor release_at now with
              | Ok (executed, db) => (db, mret (executed, true))
              | Raise e => (db, Raise e)
              end
        end
  end.
End Corrections.
