(* ===== verification/Batches.v ===== *)
(** Disbursement batches ([app/services/disbursements.py]): drafting a batch,
    reserving ledger entries into frozen lines, and replacing failed lines by a
    new batch to a newer destination. *)

From stdpp Require Import base list strings gmap.
From Stdlib Require Import ZArith Lia Ascii.
From S2P Require Import Prelude PayoutData Ledger Balances Text Json Crypto BillingData Notifications.
From S2P Require Import DisbursementData Payees Fraud Adapters Disbursements.

#[local] Open Scope Z_scope.

(** ** Drafts *)

Definition is_alpha (c : ascii) : bool :=
  let n := nat_of_ascii c in (((65 <=? n) && (n <=? 90)) || ((97 <=? n) && (n <=? 122)))%nat.

(** [normalized.isalpha()] of a text that is not empty. *)
Fixpoint all_alpha (s : string) : bool :=
  match s with EmptyString => true | String c r => is_alpha c && all_alpha r end.

Definition draft_currency (currency : string) : result string :=
  let normalized := upper (strip currency) in
  raise_if (negb ((String.length normalized =? 3)%nat && all_alpha normalized))
    (AppError "PAYOUT_BATCH_CURRENCY_INVALID" 422) ;;
  mret normalized.

Definition draft_conflict : exn := AppError "PAYOUT_DRAFT_RETRY_CONFLICT" 409.

(** The insertion of a draft under its savepoint. *)
Definition except_taken (requested : bool) (r : result disbursement_store) : result disbursement_store :=
  match r with
  | Raise (IntegrityError c) =>
      if negb requested || negb (bool_decide (integrity_constraint_name (IntegrityError c) = Some "payout_batches_pkey"%string))
      then Raise (IntegrityError c) else Raise draft_conflict
  | r => r
  end.

(** [arrived] are the batches other requests commit before the insertion. *)
Definition create_payout_batch_draft (arrived : list payout_batch) (db : disbursement_store) (currency : string)
    (actor : uuid) (reason : string) (request_id : option uuid) : result (payout_batch * disbursement_store) :=
  active_admin db actor ;;
  _reason reason ;;
  currency ← draft_currency currency;
  match (i ← request_id; get_batch db i) with
  | Some existing =>
      raise_if (negb (bool_decide (pb_created_by_user_id existing = actor) && bool_decide (pb_currency existing = currency)))
        draft_conflict ;;
      mret (existing, db)
  | None =>
      let db := set_batches (fun l => l ++ arrived) db in
      let batch := PayoutBatch (default (uuid4 (pb_id <$> ds_batches db)) request_id) BATCH_DRAFT currency 0 None None
                     actor None None None APPROVAL_MANUAL None in
      db ← except_taken (negb (bool_decide (request_id = None))) (flush_batch batch db);
      mret (batch, audit (Some actor) "admin.payout_batch.created" "payout_batch" (pb_id batch) db)
  end.

(** ** The destination of an entry *)

(** [payees_by_subject]: the driver payees of the entries, a later one replacing
    an earlier one of the same subject and tenant. *)
Definition payee_id_geb (a b : payee) : bool := (py_id b <=? py_id a)%N.
Definition payee_of (db : disbursement_store) (e : ledger_entry) : option payee :=
  head (stable_sort payee_id_geb
    (List.filter (fun p => bool_decide (py_payee_type p = PAYEE_DRIVER)
                           && bool_decide (py_subject_id p = le_driver_profile_id e)
                           && bool_decide (py_tenant_id p = le_driver_user_id e)) (payees db))).

(** The versions of the payee's accounts, as the join finds them. *)
Definition payee_account_versions (db : disbursement_store) (payee_id : uuid) : list payee_bank_account_version :=
  List.filter (fun v => bool_decide (av_bank_account_id v
                 ∈ ba_id <$> List.filter (fun a => bool_decide (ba_payee_id a = payee_id)) (bank_accounts db)))
    (account_versions db).

Definition _frozen_payee_authority (db : disbursement_store) (p : payee)
    : result (payee_version * payee_bank_account_version) :=
  let missing := AppError "PAYOUT_BANK_ACCOUNT_MISSING" 409 in
  pv ← require_some (newest_by pv_version (List.filter (fun v => bool_decide (pv_payee_id v = py_id p)) (payee_versions db)))
         missing;
  av ← require_some (newest_by av_version (payee_account_versions db (py_id p))) missing;
  raise_if (negb (bool_decide (av_payee_version_id av = pv_id pv))) (AppError "PAYOUT_PAYEE_VERSION_STALE" 409) ;;
  raise_if (bool_decide (bank_account_payout_verification db (av_id av) = None))
    (AppError "PAYOUT_BANK_ACCOUNT_UNVERIFIED" 409) ;;
  mret (pv, av).

(** ** Reserving *)

(** The entries of the identifiers, by id. *)
Definition entry_id_leb (a b : ledger_entry) : bool := (le_id a <=? le_id b)%N.
Definition selected_entries (db : disbursement_store) (ids : list uuid) : list ledger_entry :=
  stable_sort entry_id_leb (List.filter (fun e => bool_decide (le_id e ∈ ids)) (st_ledger db)).

Definition ineligible : exn := AppError "PAYOUT_ENTRY_INELIGIBLE" 409.
Definition already_reserved : exn := AppError "PAYOUT_ENTRY_ALREADY_RESERVED" 409.

(** [set(a) == set(b)] *)
Definition same_set (a b : list uuid) : bool :=
  forallb (fun i => bool_decide (i ∈ b)) a && forallb (fun i => bool_decide (i ∈ a)) b.

(** What is left of the trip's position, from the dictionary or computed once. *)
Definition trip_remaining (db : disbursement_store) (remaining : gmap uuid kobo) (trip : uuid) (currency : string) : kobo :=
  default (batch_payable (trip_money_position_of db trip currency)) (remaining !! trip).

Definition line_ids (db : disbursement_store) (lines : list payout_batch_line) : list uuid :=
  (pl_id <$> st_lines db) ++ (pl_id <$> lines).

Definition delete_batch (i : uuid) (db : disbursement_store) : disbursement_store :=
  set_batches (List.filter (fun b => negb (bool_decide (pb_id b = i)))) db.

Section Batches.
Context `{Sha256} `{AnalyticsFingerprint} (settings : fraud_settings).

(** The guards of one entry, in the loop's order. *)
Definition reservable (db : disbursement_store) (currency : string) (e : ledger_entry) (trip : uuid) : result unit :=
  raise_if (trip_held db trip) (AppError "PAYOUT_ENTRY_HELD" 409) ;;
  current ← load_current_successful_assessment settings db trip;
  raise_if (negb current) (AppError "PAYOUT_ASSESSMENT_NOT_CURRENT" 409) ;;
  raise_if (negb (bool_decide (le_status e = AVAILABLE)) || bool_decide (le_entry_type e = REVERSAL)
            || (le_amount e <=? 0) || negb (bool_decide (le_currency e = currency))) ineligible.

(** The loop over the entries: [remaining] is what each trip met so far still
    has to pay out, [lines] the lines built. *)
Fixpoint reserve_entries (db : disbursement_store) (b : payout_batch) (rq : recovery_request)
    (entries : list ledger_entry) (remaining : gmap uuid kobo) (lines : list payout_batch_line)
    : result (list payout_batch_line * disbursement_store) :=
  match entries with
  | [] => mret (lines, db)
  | e :: rest =>
      trip ← require_some (le_trip_session_id e) AssertionError;
      reservable db (pb_currency b) e trip ;;
      p ← require_some (payee_of db e) (AppError "PAYOUT_PAYEE_MISSING" 409);
      authority ← _frozen_payee_authority db p;
      let left_over := trip_remaining db remaining trip (le_currency e) in
      let amount := Z.min (le_amount e) left_over in
      raise_if (amount <=? 0) ineligible ;;
      let remaining := <[trip := left_over - amount]> remaining in
      r ← allocate_payout_recovery (ds_payout db) e amount rq;
      let db := set_payout (fun _ => r.2) db in
      if r.1 =? 0 then reserve_entries db b rq rest remaining lines
      else
        l ← build_frozen_payout_line (uuid4 (line_ids db lines)) (pb_id b) e (pv_id authority.1) (av_id authority.2)
              (Some r.1);
        reserve_entries db b rq rest remaining (lines ++ [l])
  end.

(** [session.add_all(lines)], row by row. *)
Fixpoint flush_lines (lines : list payout_batch_line) (db : disbursement_store) : result disbursement_store :=
  match lines with
  | [] => mret db
  | l :: rest => db ← flush_line l db; flush_lines rest db
  end.

Definition reserved_batch (b : payout_batch) (lines : list payout_batch_line) : payout_batch :=
  let frozen := freeze_batch_instruction_set b lines in
  batch_with frozen BATCH_RESERVED (pb_provider_submission_reference frozen) (pb_submitted_at frozen).

Definition except_reserved (r : result disbursement_store) : result disbursement_store :=
  match r with
  | Raise (IntegrityError c) =>
      if bool_decide (integrity_constraint_name (IntegrityError c) = Some "uq_payout_batch_lines_active_ledger_entry"%string)
      then Raise already_reserved else Raise (IntegrityError c)
  | r => r
  end.

(** The recovery offsets an earlier run of the request left. *)
Definition request_offsets (db : disbursement_store) (request : uuid) : list payout_recovery_offset :=
  List.filter (fun o => bool_decide (po_request_id o = request)) (st_offsets db).

Definition reservation : Type := option payout_batch * list payout_batch_line.

(** A replay of a request that only recovered debts: the batch is gone, or goes
    now. *)
Definition recovery_replay (db : disbursement_store) (batch_id actor : uuid) (ids : list uuid)
    : result (option (reservation * disbursement_store)) :=
  let offsets := request_offsets db batch_id in
  raise_if (existsb (fun o => negb (bool_decide (po_actor_user_id o = Some actor))) offsets) draft_conflict ;;
  let same := same_set ids (po_funding_entry_id <$> offsets) in
  if bool_decide (offsets = []) then mret None
  else
    match get_batch db batch_id with
    | None => raise_if (negb same) draft_conflict ;; mret (Some ((None, []), db))
    | Some b =>
        let is_draft := bool_decide (pb_status b = BATCH_DRAFT) in
        if same && is_draft && bool_decide (pb_created_by_user_id b = actor)
        then mret (Some ((None, []), delete_batch batch_id db))
        else raise_if is_draft draft_conflict ;; mret None
    end.

(** The batch is no draft any more: the same selection gets its lines back. *)
Definition reserved_before (db : disbursement_store) (b : payout_batch) (ids : list uuid)
    : result (reservation * disbursement_store) :=
  let lines := batch_lines db (pb_id b) in
  let offsets := request_offsets db (pb_id b) in
  raise_if (negb (same_set ((pl_ledger_entry_id <$> lines) ++ (po_funding_entry_id <$> offsets)) ids))
    (AppError "PAYOUT_BATCH_NOT_DRAFT" 409) ;;
  _assert_frozen b lines ;;
  mret ((Some b, lines), db).

(** Reserving a draft: [arrived] are the lines other transactions commit before
    the insertion. *)
Definition reserve_draft (arrived : list payout_batch_line) (now : Z) (db : disbursement_store) (b : payout_batch)
    (ids : list uuid) (actor : uuid) : result (reservation * disbursement_store) :=
  let entries := selected_entries db ids in
  let of_entries l := bool_decide (pl_ledger_entry_id l ∈ le_id <$> entries) in
  raise_if (existsb (fun l => of_entries l && pl_reservation_active l) (st_lines db)) already_reserved ;;
  raise_if (existsb (fun l => of_entries l && bool_decide (pl_status l = LINE_FAILED)) (st_lines db))
    (AppError "PAYOUT_REPLACEMENT_REQUIRED" 409) ;;
  r ← reserve_entries db b (RecoveryRequest (pb_id b) (Some actor) None now) entries ∅ [];
  let '(lines, db) := r in
  if bool_decide (lines = []) then mret ((None, []), delete_batch (pb_id b) db)
  else
    let db := set_payout (with_lines (fun l => l ++ arrived)) db in
    let b := reserved_batch b lines in
    db ← except_reserved (db ← update_batch b db; flush_lines lines db);
    mret ((Some b, lines), audit (Some actor) "admin.payout_batch.reserved" "payout_batch" (pb_id b) db).

Definition reserve_payout_batch (arrived : list payout_batch_line) (now : Z) (db : disbursement_store)
    (batch_id : uuid) (ids : list uuid) (actor : uuid) (reason : string) : result (reservation * disbursement_store) :=
  active_admin db actor ;;
  _reason reason ;;
  replay ← recovery_replay db batch_id actor ids;
  match replay with
  | Some r => mret r
  | None =>
      b ← require_some (get_batch db batch_id) (AppError "PAYOUT_BATCH_NOT_FOUND" 404);
      raise_if (bool_decide (ids = []) || negb (bool_decide (NoDup ids))) (AppError "PAYOUT_BATCH_ENTRIES_INVALID" 422) ;;
      let stubs := List.filter (fun e => bool_decide (le_id e ∈ ids)) (st_ledger db) in
      raise_if (negb (bool_decide (length stubs = length ids))
                || existsb (fun e => bool_decide (le_trip_session_id e = None)) stubs) ineligible ;;
      raise_if (negb (bool_decide (pb_created_by_user_id b = actor))) (AppError "PAYOUT_BATCH_MAKER_REQUIRED" 403) ;;
      if negb (bool_decide (pb_status b = BATCH_DRAFT)) then reserved_before db b ids
      else reserve_draft arrived now db b ids actor
  end.
End Batches.

(** ** Replacing failed lines *)

Definition replacement_conflict : exn := AppError "PAYOUT_REPLACEMENT_CONFLICT" 409.
Definition not_retryable : exn := AppError "PAYOUT_RESOLVED_LINES_NOT_RETRYABLE" 409.

(** The lines that replace one of [failed], by id. *)
Definition children (db : disbursement_store) (failed : list payout_batch_line) : list payout_batch_line :=
  stable_sort line_id_leb
    (List.filter (fun l => match pl_predecessor_line_id l with
                           | Some p => bool_decide (p ∈ pl_id <$> failed)
                           | None => false
                           end) (st_lines db)).

(** The failed lines were replaced before: by one batch, each of them. *)
Definition existing_replacement (db : disbursement_store) (failed existing : list payout_batch_line)
    : result (payout_batch * list payout_batch_line) :=
  raise_if (negb (bool_decide (length existing = length failed))
            || negb (bool_decide (length (remove_dups (pl_batch_id <$> existing)) = 1%nat))
            || negb (same_set (omap pl_predecessor_line_id existing) (pl_id <$> failed))) replacement_conflict ;;
  first ← require_some (head existing) IndexError;
  _locked_batch_with_lines db (pl_batch_id first).

(** The name is only known when it is an expected one, which
    [uq_payout_batch_lines_predecessor] is not. *)
Definition except_replaced (r : result disbursement_store) : result disbursement_store :=
  match r with
  | Raise (IntegrityError c) =>
      if bool_decide (integrity_constraint_name (IntegrityError c)
                      ∈ Some <$> ["uq_payout_batch_lines_active_ledger_entry"%string;
                                  "uq_payout_batch_lines_predecessor"%string])
      then Raise replacement_conflict else Raise (IntegrityError c)
  | r => r
  end.

Section Retry.
Context `{Sha256} `{AnalyticsFingerprint} `{KeyCustody C} (float_of : string -> json) (settings : fraud_settings).

Fixpoint assessments_current (db : disbursement_store) (trips : list uuid) : result unit :=
  match trips with
  | [] => mret tt
  | trip :: rest =>
      current ← load_current_successful_assessment settings db trip;
      raise_if (negb current) (AppError "PAYOUT_ASSESSMENT_NOT_CURRENT" 409) ;;
      assessments_current db rest
  end.

(** The credit of a failed line is still its own. *)
Definition replaceable (predecessor : payout_batch_line) (e : ledger_entry) : bool :=
  bool_decide (le_status e = AVAILABLE) && negb (bool_decide (le_entry_type e = REVERSAL))
  && (0 <? pl_amount predecessor) && (pl_amount predecessor <=? le_amount e)
  && bool_decide (le_currency e = pl_currency predecessor).

(** A replacement goes to a newer version that holds a different account. *)
Definition new_destination (db : disbursement_store) (predecessor : payout_batch_line)
    (account_version : payee_bank_account_version) (actor : uuid) (crypto : C) : result disbursement_store :=
  raise_if (bool_decide (av_id account_version = pl_bank_account_version_id predecessor)) not_retryable ;;
  previous ← read_verified_bank_account float_of db (pl_bank_account_version_id predecessor) actor crypto
               "payout_replacement_destination";
  current ← read_verified_bank_account float_of previous.2 (av_id account_version) actor crypto
              "payout_replacement_destination";
  raise_if (bool_decide ((vd_bank_code previous.1, vd_account_number previous.1)
                         = (vd_bank_code current.1, vd_account_number current.1))) not_retryable ;;
  mret current.2.

Fixpoint replace_lines (db : disbursement_store) (batch_id actor : uuid) (crypto : C)
    (failed : list payout_batch_line) (remaining : gmap uuid kobo) (lines : list payout_batch_line)
    : result (list payout_batch_line * disbursement_store) :=
  match failed with
  | [] => mret (lines, db)
  | predecessor :: rest =>
      e ← require_some (find_by_key le_id (pl_ledger_entry_id predecessor) (st_ledger db)) replacement_conflict;
      raise_if (negb (replaceable predecessor e)) replacement_conflict ;;
      trip ← require_some (le_trip_session_id e) AssertionError;
      raise_if (trip_held db trip) (AppError "PAYOUT_ENTRY_HELD" 409) ;;
      p ← require_some (payee_of db e) (AppError "PAYOUT_PAYEE_MISSING" 409);
      authority ← _frozen_payee_authority db p;
      db ← new_destination db predecessor authority.2 actor crypto;
      let left_over := trip_remaining db remaining trip (le_currency e) in
      let amount := Z.min (pl_amount predecessor) left_over in
      raise_if (amount <=? 0) ineligible ;;
      let l := reserved_line (uuid4 (line_ids db lines)) batch_id (Some (pl_id predecessor)) e
                 (pv_id authority.1) (av_id authority.2) amount in
      replace_lines db batch_id actor crypto rest (<[trip := left_over - amount]> remaining) (lines ++ [l])
  end.

(** The failed lines of a batch that may be replaced now. *)
Definition failed_lines (lines : list payout_batch_line) : result (list payout_batch_line) :=
  let failed := List.filter (fun l => bool_decide (pl_status l = LINE_FAILED)) lines in
  raise_if (bool_decide (failed = [])) (AppError "PAYOUT_FAILED_LINES_MISSING" 409) ;;
  raise_if (existsb (fun l => bool_decide (pl_status l = LINE_RESERVED) || bool_decide (pl_status l = LINE_SUBMITTED)) lines)
    (AppError "PAYOUT_UNRESOLVED_LINES_REMAIN" 409) ;;
  mret failed.

(** [crypto] is what [EnvelopeCryptoProvider(...)] makes of the settings' keys;
    [arrived] are the lines other transactions commit before the insertion. *)
Definition replace_failed (arrived : list payout_batch_line) (db : disbursement_store) (b : payout_batch)
    (failed : list payout_batch_line) (actor : uuid) (crypto : result C)
    : result (payout_batch * list payout_batch_line * disbursement_store) :=
  let entries := selected_entries db (pl_ledger_entry_id <$> failed) in
  raise_if (negb (bool_decide (length entries = length failed))
            || existsb (fun e => bool_decide (le_trip_session_id e = None)) entries) replacement_conflict ;;
  assessments_current db (sorted_ids (omap le_trip_session_id entries)) ;;
  let replacement := PayoutBatch (uuid4 (pb_id <$> ds_batches db)) BATCH_RESERVED (pb_currency b) 0 None None actor
                       None None None APPROVAL_MANUAL None in
  crypto ← crypto;
  r ← replace_lines db (pb_id replacement) actor crypto failed ∅ [];
  let '(lines, db) := r in
  let replacement := freeze_batch_instruction_set replacement lines in
  let db := set_payout (with_lines (fun l => l ++ arrived)) db in
  db ← except_replaced (db ← flush_batch replacement db; flush_lines lines db);
  mret (replacement, lines,
        audit (Some actor) "admin.payout_batch.replacement_reserved" "payout_batch" (pb_id replacement) db).

Definition retry_failed_payout_lines (arrived : list payout_batch_line) (db : disbursement_store) (batch_id actor : uuid)
    (adapter : provider_capabilities) (crypto : result C) (reason : string)
    : result (payout_batch * list payout_batch_line * disbursement_store) :=
  active_admin db actor ;;
  _reason reason ;;
  r ← _locked_batch_with_lines db batch_id;
  let '(b, lines) := r in
  failed ← failed_lines lines;
  _assert_frozen b lines ;;
  _submission_capabilities adapter ;;
  raise_if (existsb pl_reservation_active failed) (AppError "PAYOUT_TERMINAL_FAILURE_NOT_RELEASED" 409) ;;
  let existing := children db failed in
  if negb (bool_decide (existing = [])) then
    out ← existing_replacement db failed existing;
    mret (out, db)
  else replace_failed arrived db b failed actor crypto.
End Retry.
