(* ===== verification/Alerts.v ===== *)
(** Alerts and the pause switch of the automatic payouts
    ([app/services/automatic_payouts.py]): one alert per dedupe key with its
    notices, its follow-up, Finance's switch, and the release of payments the
    provider was never asked for back to the manual path. *)

From stdpp Require Import base list strings gmap.
From Stdlib Require Import ZArith Lia Ascii.
From S2P Require Import Prelude PayoutData Text BillingData Notifications DisbursementData Fraud Disbursements.

#[local] Open Scope Z_scope.

Definition AUTOMATIC_CURRENCY : string := "NGN".
Definition REASON_MIN : nat := 3.
Definition REASON_MAX : nat := 500.

(** ** Alerts *)

Definition alert_dedupe_key (a : payout_automatic_alert) : option string := Some (al_dedupe_key a).

(** [trim(text)] of PostgreSQL takes spaces off both ends. *)
Fixpoint ltrim (s : string) : string :=
  match s with String " " s => ltrim s | _ => s end.
Fixpoint rtrim (s : string) : string :=
  match s with
  | EmptyString => EmptyString
  | String c s =>
      match rtrim s with
      | EmptyString => if bool_decide (c = " "%char) then EmptyString else String c EmptyString
      | r => String c r
      end
  end.
Definition trimmed_length (s : string) : nat := String.length (rtrim (ltrim s)).

Definition payout_automatic_alert_row_ok (a : payout_automatic_alert) : bool :=
  match al_resolved_by_user_id a, al_resolved_at a, al_resolution_note a with
  | None, None, None => true
  | Some _, Some _, Some note => (3 <=? trimmed_length note)%nat && (trimmed_length note <=? 500)%nat
  | _, _, _ => false
  end.

Definition flush_alert (a : payout_automatic_alert) (db : disbursement_store) : result disbursement_store :=
  raise_if (match al_amount a with Some n => negb (numeric_14_2 n) | None => false end) DataError ;;
  raise_if (negb (payout_automatic_alert_row_ok a)) (IntegrityError "ck_payout_automatic_alerts_resolution") ;;
  raise_if (conflicts alert_dedupe_key a (ds_alerts db)) (IntegrityError "uq_payout_automatic_alerts_dedupe_key") ;;
  mret (set_alerts (fun l => l ++ [a]) db).

(** What an alert is about. *)
Record alert_subject := AlertSubject {
  as_run_id : option uuid;
  as_batch_id : option uuid;
  as_line_id : option uuid;
  as_ledger_entry_id : option uuid;
  as_driver_profile_id : option uuid;
  as_lagos_day : option Z;
  as_amount : option kobo;
  as_currency : string
}.

Section Alerts.
Context `{Sha256}.

(** [_key]: the parts joined with colons. *)
Definition _key (parts : list string) : string := sha256_hexdigest (join ":" parts).

Definition alert_key (kind : payout_automatic_alert_kind) (dedupe : list string) : string :=
  _key ("cardvert-automatic-payout-alert-v1"%string :: alert_kind_value kind :: dedupe).

(** [arrived] are alerts other transactions commit between the lookup and the
    insertion. *)
Definition raise_alert (arrived : list payout_automatic_alert) (clock : Z) (db : disbursement_store)
    (kind : payout_automatic_alert_kind) (dedupe : list string) (subject : alert_subject)
    : result (option payout_automatic_alert * disbursement_store) :=
  let dedupe_key := alert_key kind dedupe in
  if existsb (fun a => bool_decide (al_dedupe_key a = dedupe_key)) (ds_alerts db) then mret (None, db)
  else
    let db := set_alerts (fun l => l ++ arrived) db in
    let alert := {| al_id := uuid4 (al_id <$> ds_alerts db); al_kind := kind; al_dedupe_key := dedupe_key;
                    al_run_id := as_run_id subject; al_batch_id := as_batch_id subject;
                    al_line_id := as_line_id subject; al_ledger_entry_id := as_ledger_entry_id subject;
                    al_driver_profile_id := as_driver_profile_id subject; al_lagos_day := as_lagos_day subject;
                    al_amount := as_amount subject;
                    al_currency := (fun _ => as_currency subject) <$> as_amount subject;
                    al_resolved_by_user_id := None; al_resolved_at := None; al_resolution_note := None |} in
    match flush_alert alert db with
    | Raise (IntegrityError "uq_payout_automatic_alerts_dedupe_key") => mret (None, db)
    | Raise e => Raise e
    | Ok db =>
        n ← create_active_admin_notices clock (ds_billing db) PAYOUT_AUTOMATIC_ALERT
              ("payout-automatic-alert:v1:" +:+ uuid_str (al_id alert))%string
              (list_to_map [("alert_id", uuid_str (al_id alert)); ("kind", alert_kind_value kind)]%string) None;
        let actor := us_id <$> find_row (fun u => bool_decide (us_id u = CARDVERT_AUTOMATIC_PAYOUT_ACTOR_ID))
                                 (bs_users (ds_billing db)) in
        mret (Some alert, audit actor "system.payout_automatic_alert.created" "payout_automatic_alert" (al_id alert)
                            (set_billing (fun _ => n.2) db))
    end.

(** ** Following up *)

Definition alert_reason (value : string) : result string :=
  let reason := strip value in
  let n := String.length reason in
  raise_if (negb ((REASON_MIN <=? n) && (n <=? REASON_MAX))%nat) (AppError "PAYOUT_AUTOMATIC_REASON_INVALID" 422) ;;
  mret reason.

Definition resolved_alert (a : payout_automatic_alert) (actor : uuid) (at_ : Z) (note : string)
    : payout_automatic_alert :=
  {| al_id := al_id a; al_kind := al_kind a; al_dedupe_key := al_dedupe_key a; al_run_id := al_run_id a;
     al_batch_id := al_batch_id a; al_line_id := al_line_id a; al_ledger_entry_id := al_ledger_entry_id a;
     al_driver_profile_id := al_driver_profile_id a; al_lagos_day := al_lagos_day a; al_amount := al_amount a;
     al_currency := al_currency a; al_resolved_by_user_id := Some actor; al_resolved_at := Some at_;
     al_resolution_note := Some note |}.

Definition update_alert (a : payout_automatic_alert) (db : disbursement_store) : result disbursement_store :=
  raise_if (negb (payout_automatic_alert_row_ok a)) (IntegrityError "ck_payout_automatic_alerts_resolution") ;;
  mret (set_alerts (set_row al_id a) db).

Definition resolve_automatic_payout_alert (clock : Z) (db : disbursement_store) (alert_id : uuid) (note : string)
    (actor : uuid) : result (payout_automatic_alert * disbursement_store) :=
  active_admin db actor ;;
  note ← alert_reason note;
  alert ← require_some (find_by_key al_id alert_id (ds_alerts db)) (AppError "PAYOUT_AUTOMATIC_ALERT_NOT_FOUND" 404);
  raise_if (negb (bool_decide (al_resolved_at alert = None))) (AppError "PAYOUT_AUTOMATIC_ALERT_RESOLVED" 409) ;;
  let resolved := resolved_alert alert actor clock note in
  db ← update_alert resolved db;
  mret (resolved, audit (Some actor) "admin.payout_automatic_alert.resolved" "payout_automatic_alert" alert_id db).

(** ** The pause switch *)

Definition _locked_control (db : disbursement_store) : result payout_automatic_control :=
  require_some (ds_control db) (AppError "PAYOUT_AUTOMATIC_NOT_INSTALLED" 503).

Definition control_change_ok (c : payout_automatic_control) : bool :=
  match ctl_changed_by_user_id c, ctl_changed_at c, ctl_reason c with
  | None, None, None => negb (ctl_paused c)
  | Some _, Some _, Some r => (3 <=? trimmed_length r)%nat && (trimmed_length r <=? 500)%nat
  | _, _, _ => false
  end.

Definition update_control (c : payout_automatic_control) (db : disbursement_store) : result disbursement_store :=
  raise_if (negb (control_change_ok c)) (IntegrityError "ck_payout_automatic_controls_change_evidence") ;;
  raise_if (negb (digest_length (ctl_actor_password_fingerprint c)))
    (IntegrityError "ck_payout_automatic_controls_actor_fingerprint") ;;
  mret (set_control (fun _ => Some c) db).

Definition set_automatic_payouts_paused (clock : Z) (db : disbursement_store) (paused : bool) (reason : string)
    (actor : uuid) : result (payout_automatic_control * disbursement_store) :=
  active_admin db actor ;;
  reason ← alert_reason reason;
  control ← _locked_control db;
  raise_if (Bool.eqb (ctl_paused control) paused)
    (AppError (if paused then "PAYOUT_AUTOMATIC_ALREADY_PAUSED" else "PAYOUT_AUTOMATIC_NOT_PAUSED") 409) ;;
  let control := PayoutAutomaticControl paused (Some reason) (Some actor) (Some clock)
                   (ctl_actor_password_fingerprint control) in
  db ← update_control control db;
  let db := audit (Some actor) (if paused then "admin.payout_automatic.paused" else "admin.payout_automatic.resumed")
              "payout_automatic_control" 1 db in
  n ← create_active_admin_notices clock (ds_billing db)
        (if paused then PAYOUT_AUTOMATIC_PAUSED else PAYOUT_AUTOMATIC_RESUMED)
        ("payout-automatic-switch:v1:" +:+ isoformat_utc clock)%string
        (list_to_map [("paused", if paused then "true" else "false")]%string) (Some actor);
  mret (control, set_billing (fun _ => n.2) db).

(** ** Back to the manual path *)

Definition never_tried (db : disbursement_store) (i : payout_submission_intent) : bool :=
  negb (existsb (fun a => bool_decide (sa_intent_id a = pi_id i)) (ds_attempts db)).

(** The batches of [_unsent_intent_rows], in [ORDER BY id]. *)
Definition unsent_batches (db : disbursement_store) : list uuid :=
  sorted_ids (pl_batch_id <$> List.filter (fun l =>
    bool_decide (pl_status l = LINE_RESERVED)
    && match get_batch db (pl_batch_id l), line_intent db (pl_id l) with
       | Some b, Some i =>
           bool_decide (pb_approval_mode b = APPROVAL_AUTOMATIC) && bool_decide (pi_state i = INTENT_PENDING)
           && never_tried db i
       | _, _ => false
       end) (st_lines db)).

(** The lines of one batch: the released lines with the store. *)
Fixpoint release_lines (db : disbursement_store) (lines : list payout_batch_line) (at_ : Z)
    : result (list payout_batch_line * disbursement_store) :=
  match lines with
  | [] => mret ([], db)
  | l :: rest =>
      match line_intent db (pl_id l) with
      | Some i =>
          if never_tried db i then
            c ← _cancel_uncalled_line db l (Some i) at_;
            r ← release_lines c.2 rest at_;
            mret (if c.1 : bool then l :: r.1 else r.1, r.2)
          else release_lines db rest at_
      | None => release_lines db rest at_
      end
  end.

Fixpoint release_batches (db : disbursement_store) (batches : list uuid) (actor : uuid) (at_ : Z)
    (count : Z) (amount : kobo) : result (Z * kobo * disbursement_store) :=
  match batches with
  | [] => mret (count, amount, db)
  | i :: rest =>
      r ← _locked_batch_with_lines db i;
      let '(b, lines) := r in
      r ← release_lines db lines at_;
      let '(released, db) := r in
      if bool_decide (released = []) then release_batches db rest actor at_ count amount
      else
        db ← update_batch (batch_with b (_derive_batch_status (batch_lines db i))
               (pb_provider_submission_reference b) (pb_submitted_at b)) db;
        release_batches (audit (Some actor) "admin.payout_automatic.released_to_manual" "payout_batch" (pb_id b) db)
          rest actor at_ (count + Z.of_nat (length released)) (amount + lines_total released)
  end.

(** The number and the total of the released payments. *)
Definition release_unsent_automatic_payments (clock : Z) (db : disbursement_store) (reason : string) (actor : uuid)
    : result (Z * kobo * disbursement_store) :=
  active_admin db actor ;;
  reason ← alert_reason reason;
  control ← _locked_control db;
  raise_if (negb (ctl_paused control)) (AppError "PAYOUT_AUTOMATIC_RELEASE_REQUIRES_PAUSE" 409) ;;
  release_batches db (unsent_batches db) actor clock 0 0.
End Alerts.
