(* ===== verification/Reconciliation.v ===== *)
(** Reconciliation of payouts ([app/services/disbursements.py]): what
    authenticated evidence of a transfer's outcome does to the line, its credit,
    its siblings in the replacement chain and their batches, and the webhook and
    the poll that bring it. *)

From stdpp Require Import base list strings gmap.
From Stdlib Require Import ZArith Lia Ascii.
From S2P Require Import Prelude PayoutData Ledger Balances Text BillingData Notifications.
From S2P Require Import DisbursementData Fraud Adapters Paystack Disbursements Alerts.

#[local] Open Scope Z_scope.

(** [_aware_utc]: a naive time is read as UTC. *)
Definition _aware_utc (t : datetime) : Z := utc_of t.

Definition OUTCOME_SUCCEEDED : string := "succeeded".
Definition OUTCOME_FAILED : string := "failed".
Definition TRANSFER_REVERSED : string := "transfer.reversed".

Definition provider_event_key (e : payout_line_reconciliation_event) : option string := Some (rc_provider_event_id e).

Definition reconciliation_event_row_ok (e : payout_line_reconciliation_event) : bool :=
  (bool_decide (rc_source e = "webhook"%string) || bool_decide (rc_source e = "poll"%string))
  && (bool_decide (rc_outcome e = OUTCOME_SUCCEEDED) || bool_decide (rc_outcome e = OUTCOME_FAILED))
  && digest_length (rc_evidence_fingerprint e).

Definition flush_reconciliation_event (e : payout_line_reconciliation_event) (db : disbursement_store)
    : result disbursement_store :=
  raise_if (negb (reconciliation_event_row_ok e)) (IntegrityError "ck_payout_line_events") ;;
  raise_if (conflicts provider_event_key e (ds_events db))
    (IntegrityError "payout_line_reconciliation_events_provider_event_id_key") ;;
  mret (set_events (fun l => l ++ [e]) db).

(** ** What evidence means for a line *)

(** The effect on the line and on its credit: [None] leaves the status. *)
Record evidence_effect := EvidenceEffect {
  ef_line : option payout_batch_line_status;
  ef_ledger : option ledger_entry_status
}.

Definition is_reversal (ev : verified_line_evidence) : bool :=
  bool_decide (ve_provider_event_type ev = Some TRANSFER_REVERSED).

(** Evidence older than the last is stale, and a success is final but for a
    reversal. *)
Definition evidence_considered (l : payout_batch_line) (ev : verified_line_evidence) : bool :=
  (negb (bool_decide (pl_status l = LINE_SUCCEEDED)) || is_reversal ev)
  && match pl_last_provider_evidence_at l with
     | None => true
     | Some last => last <=? _aware_utc (ve_occurred_at ev)
     end.

Definition considered_effect (l : payout_batch_line) (credit : option ledger_entry) (other_succeeded : bool)
    (ev : verified_line_evidence) : result evidence_effect :=
  let finality := AppError "PAYOUT_LEDGER_FINALITY_CONFLICT" 409 in
  e ← require_some credit finality;
  if bool_decide (ve_outcome ev = OUTCOME_SUCCEEDED) then
    raise_if (negb (bool_decide (le_status e = AVAILABLE) || bool_decide (le_status e = PAID))) finality ;;
    mret (EvidenceEffect (Some LINE_SUCCEEDED) (Some PAID))
  else if bool_decide (ve_outcome ev = OUTCOME_FAILED) then
    raise_if (bool_decide (le_status e = PAID) && negb other_succeeded && negb (is_reversal ev))
      (AppError "PAYOUT_PAID_HISTORY_IMMUTABLE" 409) ;;
    mret (EvidenceEffect (if bool_decide (pl_status l = LINE_FAILED) then None else Some LINE_FAILED)
            (if is_reversal ev && negb other_succeeded then Some AVAILABLE else None))
  else Raise (AppError "PAYOUT_PROVIDER_OUTCOME_INVALID" 422).

Definition evidence_effect_of (l : payout_batch_line) (credit : option ledger_entry) (other_succeeded : bool)
    (ev : verified_line_evidence) : result evidence_effect :=
  if evidence_considered l ev then considered_effect l credit other_succeeded ev
  else mret (EvidenceEffect None None).

(** The time of the newest evidence. *)
Definition newest_evidence (last : option Z) (at_ : Z) : option Z :=
  match last with
  | None => Some at_
  | Some t => if t <? at_ then Some at_ else Some t
  end.

(** The line with the effect: a new status releases the reservation and names
    who reconciled it. *)
Definition reconciled_line (l : payout_batch_line) (ef : evidence_effect) (ev : verified_line_evidence)
    (actor : option uuid) (resolved_at : Z) : payout_batch_line :=
  let last := newest_evidence (pl_last_provider_evidence_at l) (_aware_utc (ve_occurred_at ev)) in
  match ef_line ef with
  | Some s => line_with l s (pl_provider_transfer_reference l) false actor (Some resolved_at) last
  | None => line_with l (pl_status l) (pl_provider_transfer_reference l) (pl_reservation_active l)
              (pl_reconciled_by_user_id l) (pl_reconciled_at l) last
  end.

Definition line_changes (l : payout_batch_line) (ef : evidence_effect) (ev : verified_line_evidence) : bool :=
  negb (bool_decide (ef_line ef = None))
  || negb (bool_decide (newest_evidence (pl_last_provider_evidence_at l) (_aware_utc (ve_occurred_at ev))
                        = pl_last_provider_evidence_at l)).

(** The credit's new status, if it gets one. *)
Definition flush_credit (i : uuid) (s : option ledger_entry_status) (db : disbursement_store)
    : result disbursement_store :=
  match s with
  | Some s => p ← update_entry_status i s (ds_payout db); mret (set_payout (fun _ => p) db)
  | None => mret db
  end.

(** ** The chain of a ledger entry *)

(** [_locked_ledger_chain]: the batches with a line of the entry, by id. *)
Definition _locked_ledger_chain (db : disbursement_store) (ledger_entry_id : uuid) : list uuid :=
  sorted_ids (pl_batch_id <$> List.filter (fun l => bool_decide (pl_ledger_entry_id l = ledger_entry_id)) (st_lines db)).

(** The lines of the entry, by id. *)
Definition chain_lines (db : disbursement_store) (ledger_entry_id : uuid) : list payout_batch_line :=
  stable_sort line_id_leb
    (List.filter (fun l => bool_decide (pl_ledger_entry_id l = ledger_entry_id)) (st_lines db)).

Definition succeeded (l : payout_batch_line) : bool := bool_decide (pl_status l = LINE_SUCCEEDED).

Section Reconciliation.
Context `{Sha256}.

Definition duplicate_dedupe (lines : list payout_batch_line) : list string :=
  "duplicate_cash"%string :: (uuid_str <$> stable_sort N.leb (pl_id <$> lines)).

(** After a success: the siblings the provider never saw are cancelled, and a
    second success of the same credit raises an alert. *)
Definition _converge_line_cash (arrived : list payout_automatic_alert) (db : disbursement_store)
    (l : payout_batch_line) (e : ledger_entry) (outcome : payout_batch_line_status) (resolved_at : Z)
    : result disbursement_store :=
  if negb (bool_decide (outcome = LINE_SUCCEEDED)) then mret db
  else
    db ← cancel_lines db
      (List.filter (fun c => negb (bool_decide (pl_id c = pl_id l)) && pl_reservation_active c)
         (chain_lines db (le_id e))) resolved_at;
    let winners := List.filter succeeded (chain_lines db (le_id e)) in
    if (1 <? length winners)%nat then
      r ← raise_alert arrived resolved_at db DUPLICATE_PAYMENT (duplicate_dedupe winners)
            (AlertSubject None None (Some (pl_id l)) (Some (le_id e)) (Some (le_driver_profile_id e)) None
               (Some (pl_amount l)) (le_currency e));
      mret r.2
    else mret db.

(** The line with the evidence's reference, joined with its credit. *)
Definition evidence_line (db : disbursement_store) (reference : string) : option payout_batch_line :=
  find_row (fun l => bool_decide (pl_provider_transfer_reference l = Some reference)
                     && bool_decide (pl_ledger_entry_id l ∈ le_id <$> st_ledger db)) (st_lines db).

(** The identity of evidence from Paystack. *)
Definition paystack_identity (db : disbursement_store) (l : payout_batch_line) (ev : verified_line_evidence)
    : result unit :=
  match line_intent db (pl_id l) with
  | Some i =>
      if bool_decide (pi_provider_name i = "paystack"%string) then
        reference ← paystack_transfer_reference (pl_idempotency_key l);
        raise_if (negb (bool_decide (ve_provider_reference ev = Some reference)
                        && bool_decide (ve_amount ev = Some (money_str (pl_amount l)))
                        && bool_decide (ve_currency ev = Some (pl_currency l))))
          (AppError "PAYOUT_PROVIDER_EVIDENCE_MISMATCH" 409)
      else mret tt
  | None => mret tt
  end.

Definition reconcilable (s : payout_batch_line_status) : bool :=
  bool_decide (s = LINE_SUBMITTED) || bool_decide (s = LINE_FAILED) || bool_decide (s = LINE_SUCCEEDED).

(** Who may bring evidence, and why. *)
Definition evidence_authority (db : disbursement_store) (source : string) (actor : option uuid)
    (reason : option string) : result unit :=
  let webhook := bool_decide (source = "webhook"%string) in
  let poll := bool_decide (source = "poll"%string) in
  raise_if (negb (webhook || poll)) ValueError ;;
  raise_if (webhook && negb (bool_decide (actor = None))) ValueError ;;
  raise_if (poll && bool_decide (actor = None)) ValueError ;;
  match actor with
  | Some a =>
      if poll then active_admin db a ;; _reason (default EmptyString reason) ;; mret tt else mret tt
  | None => mret tt
  end.

Definition find_event (db : disbursement_store) (provider_event_id : string) : option payout_line_reconciliation_event :=
  find_row (fun e => bool_decide (rc_provider_event_id e = provider_event_id)) (ds_events db).

(** The evidence of [ev] is new: the line, its credit and the event are written,
    a success converges the chain, and every batch of the chain takes its status
    from its lines. *)
Definition record_evidence (arrived : list payout_automatic_alert) (resolved_at : Z) (db : disbursement_store)
    (l : payout_batch_line) (ev : verified_line_evidence) (source : string) (actor : option uuid)
    : result (payout_line_reconciliation_event * disbursement_store) :=
  let batches := _locked_ledger_chain db (pl_ledger_entry_id l) in
  let other_succeeded := existsb (fun c => negb (bool_decide (pl_id c = pl_id l)) && succeeded c)
                           (chain_lines db (pl_ledger_entry_id l)) in
  let credit := find_by_key le_id (pl_ledger_entry_id l) (st_ledger db) in
  ef ← evidence_effect_of l credit other_succeeded ev;
  db ← flush_credit (pl_ledger_entry_id l) (ef_ledger ef) db;
  let l' := reconciled_line l ef ev actor resolved_at in
  db ← (if line_changes l ef ev then update_line l' db else mret db);
  let applied := negb (bool_decide (ef_line ef = None)) in
  let event := PayoutLineReconciliationEvent (uuid4 (rc_id <$> ds_events db)) (pl_id l) (ve_provider_event_id ev)
                 source (ve_outcome ev) (ve_evidence_fingerprint ev) (_aware_utc (ve_occurred_at ev)) applied actor in
  db ← flush_reconciliation_event event db;
  db ← match ef_line ef, credit with
       | Some s, Some e => _converge_line_cash arrived db l' e s resolved_at
       | _, _ => mret db
       end;
  db ← rederive_batches db batches;
  mret (event, if applied
               then audit actor "provider.payout_line.reconciled" "payout_batch_line" (pl_id l) db else db).

Definition same_evidence (event : payout_line_reconciliation_event) (l : payout_batch_line)
    (ev : verified_line_evidence) : bool :=
  bool_decide (rc_line_id event = pl_id l) && bool_decide (rc_outcome event = ve_outcome ev)
  && bool_decide (rc_evidence_fingerprint event = ve_evidence_fingerprint ev).

(** The batch, its lines and the event. *)
Definition reconciliation : Type := payout_batch * list payout_batch_line * payout_line_reconciliation_event.

Definition _apply_verified_line_evidence (arrived : list payout_automatic_alert) (resolved_at : Z)
    (db : disbursement_store) (ev : verified_line_evidence) (source : string) (actor : option uuid)
    (reason : option string) : result (reconciliation * disbursement_store) :=
  evidence_authority db source actor reason ;;
  l ← require_some (evidence_line db (ve_provider_transfer_reference ev))
        (AppError "PAYOUT_PROVIDER_LINE_NOT_FOUND" 404);
  paystack_identity db l ev ;;
  raise_if (negb (reconcilable (pl_status l))) (AppError "PAYOUT_LINE_NOT_SUBMITTED" 409) ;;
  let db := if bool_decide (source = "poll"%string)
            then audit actor "admin.payout_line.reconciled" "payout_batch_line" (pl_id l) db else db in
  r ← match find_event db (ve_provider_event_id ev) with
      | Some event =>
          raise_if (negb (same_evidence event l ev)) (AppError "PAYOUT_PROVIDER_EVENT_REPLAY_CONFLICT" 409) ;;
          mret (event, db)
      | None => record_evidence arrived resolved_at db l ev source actor
      end;
  let '(event, db) := r in
  batch ← require_some (get_batch db (pl_batch_id l)) KeyError;
  mret ((batch, batch_lines db (pl_batch_id l), event), db).

(** [reconcile_payout_webhook]: evidence straight from the signed payload. *)
Definition verified {P} `{DisbursementWebhook P} (p : P) (payload signature : string) : result verified_line_evidence :=
  match verify_webhook p payload signature with
  | Raise DisbursementUnavailableError => Raise (AppError "DISBURSEMENT_PROVIDER_UNAVAILABLE" 503)
  | Raise ValueError => Raise (AppError "DISBURSEMENT_WEBHOOK_INVALID" 401)
  | r => r
  end.

Definition reconcile_payout_webhook {P} `{DisbursementWebhook P} (arrived : list payout_automatic_alert)
    (resolved_at : Z) (db : disbursement_store) (p : P) (payload signature : string)
    : result (reconciliation * disbursement_store) :=
  ev ← verified p payload signature;
  _apply_verified_line_evidence arrived resolved_at db ev "webhook" None None.

(** [poll_payout_line]: the provider is asked between two transactions; [later]
    is the store the evidence then finds. *)
Definition poll_reference (db : disbursement_store) (line_id actor : uuid) (reason : string)
    : result string :=
  active_admin db actor ;;
  _reason reason ;;
  let not_found := AppError "PAYOUT_PROVIDER_LINE_NOT_FOUND" 404 in
  l ← require_some (get_line db line_id) not_found;
  raise_if (bool_decide (get_batch db (pl_batch_id l) = None)) not_found ;;
  require_some (pl_provider_transfer_reference l) not_found.

Definition poll_payout_line {P} `{DisbursementPoll P} (arrived : list payout_automatic_alert) (resolved_at : Z)
    (db : disbursement_store) (later : disbursement_store -> disbursement_store) (line_id actor : uuid) (p : P)
    (reason : string) : P * result (reconciliation * disbursement_store) :=
  match poll_reference db line_id actor reason with
  | Raise e => (p, Raise e)
  | Ok reference =>
      let '(p, r) := poll_line p reference in
      (p, match r with
          | Raise DisbursementUnavailableError => Raise (AppError "DISBURSEMENT_PROVIDER_UNAVAILABLE" 503)
          | Raise ValueError => Raise (AppError "DISBURSEMENT_POLL_FAILED" 502)
          | Raise e => Raise e
          | Ok ev =>
              reason ← _reason reason;
              _apply_verified_line_evidence arrived resolved_at (later db) ev "poll" (Some actor) (Some reason)
          end)
  end.
End Reconciliation.
