(* ===== verification/Submission.v ===== *)
(** What the submission of a payout batch demands and promises: the gate before
    a provider call, the frozen instruction set, the roots of replacement
    chains.  A proof file over Disbursements. *)

From stdpp Require Import base list strings gmap sorting.
From Stdlib Require Import ZArith Lia.
From S2P Require Import Prelude PayoutData Ledger Balances Text BillingData Notifications.
From S2P Require Import DisbursementData Fraud Adapters Disbursements.

#[local] Open Scope Z_scope.

(** ** The claim's reads *)

(** A claim is the write of one action the intent's state allows, and a
    submission passed the final gate of its batch. *)
Lemma claim_Ok `{Sha256} `{AnalyticsFingerprint} settings now db i adapter c db' :
  claim_payout_submission_intent settings now db i adapter = Ok (Some (c, db')) ->
  exists x l b action, get_intent db i = Some x /\ get_line db (pi_payout_batch_line_id x) = Some l
    /\ get_batch db (pl_batch_id l) = Some b /\ claim_action x now = Some action
    /\ pl_status l = LINE_RESERVED /\ write_claim now db b l x action = Ok (c, db')
    /\ (action = CLAIM_SUBMIT ->
        _final_payout_authority settings db b (batch_lines db (pb_id b)) (pi_id x) (provider_name adapter) true
        = Ok tt
        /\ (pb_approval_mode b = APPROVAL_AUTOMATIC -> automatic_submission_blocker db = None)).
Proof.
  unfold claim_payout_submission_intent. intros Hrun. ok_step Hrun as cap Hcap.
  unfold _submission_capabilities in Hcap. ok_step Hcap. injection Hcap as <-.
  destruct (get_intent db i) as [it|] eqn:Hit; [|done].
  destruct (get_line db _) as [l|] eqn:Hl; [|done]. destruct (get_batch db _) as [b|] eqn:Hb; [|done].
  ok_step Hrun as auth Hauth. destruct (_ || _) eqn:Hst; [done|]. bool_prop.
  ok_step Hrun. destruct (claim_action it now) as [action|] eqn:Hact; [|done].
  ok_step Hrun as granted Hz. destruct granted as [[]|]; [|done]. ok_step Hrun as [c0 db0] Hw.
  injection Hrun as -> ->. exists it, l, b, action. repeat (split; [done|]). intros ->.
  unfold authorize_claim in Hz. destruct auth as [[e|] [[|]|]]; try done. ok_step Hz as [] Hf.
  split; [done|]. intros Hauto. unfold submission_authority in Hauth. rewrite bool_decide_eq_true_2 in Hauth by done.
  ok_step Hauth. by injection Hauth.
Qed.

Lemma claim_action_submit x now : claim_action x now = Some CLAIM_SUBMIT <-> pi_state x = INTENT_PENDING.
Proof.
  unfold claim_action. destruct (pi_state x); try done. destruct (pi_claim_expires_at x); [|done].
  by destruct (now <? _).
Qed.

Lemma write_claim_action now db b l x action c db' :
  write_claim now db b l x action = Ok (c, db') -> cl_action c = action.
Proof. unfold write_claim. cbn zeta. intros Hrun. ok_step Hrun. ok_step Hrun. by injection Hrun as <- _. Qed.

(** ** Lines and candidates *)

Lemma batch_lines_in db b l : l ∈ batch_lines db b <-> l ∈ st_lines db /\ pl_batch_id l = b.
Proof.
  unfold batch_lines. rewrite stable_sort_perm, list_elem_of_In, filter_In, <- list_elem_of_In.
  by rewrite bool_decide_eq_true.
Qed.

Lemma line_intent_Some db line x :
  line_intent db line = Some x -> x ∈ st_intents db /\ pi_payout_batch_line_id x = line.
Proof. intros [? Hx]%find_row_Some. by apply bool_decide_eq_true in Hx. Qed.

(** Every collected candidate is a reserved line with its own unresolved intent. *)
Lemma collect_candidates_Ok db provider lines candidates :
  collect_candidates db provider lines = Ok candidates ->
  Forall (fun '(l, i) => l ∈ lines /\ pl_status l = LINE_RESERVED /\ line_intent db (pl_id l) = Some i
            /\ pl_reservation_active l = true /\ pl_provider_transfer_reference l = None
            /\ intent_matches i l = true) candidates
  /\ Forall (fun l => pl_status l <> LINE_RESERVED ->
               forall i, line_intent db (pl_id l) = Some i -> pi_state i = INTENT_RESOLVED) lines.
Proof.
  revert candidates. induction lines as [|l lines IH]; intros candidates Hrun; cbn in Hrun.
  { injection Hrun as <-. by split. }
  destruct (bool_decide_reflect (pl_status l = LINE_RESERVED)) as [Hs|Hs]; cbn [negb] in Hrun.
  - ok_step Hrun as i Hi. apply require_some_Ok in Hi. ok_step Hrun as u Ha. apply raise_if_Ok in Ha.
    ok_step Hrun as u' Hm. apply raise_if_Ok in Hm. ok_step Hrun as rest Hr. injection Hrun as <-.
    apply orb_false_iff in Ha as [Ha Href]. apply orb_false_iff in Ha as [_ Ha].
    apply negb_false_iff in Ha, Href, Hm. apply andb_true_iff in Hm as [_ Hm].
    apply bool_decide_eq_true in Href. destruct (IH _ Hr) as [IHc IHl]. split; constructor; try done.
    + by repeat split; [left|..].
    + eapply Forall_impl; [exact IHc|]. intros [l' i'] (Hin & Hrest). split; [by right|exact Hrest].
  - ok_step Hrun as u Ha. apply raise_if_Ok in Ha. destruct (IH _ Hrun) as [IHc IHl].
    split; [eapply Forall_impl; [exact IHc|]; intros [l' i'] (Hin & Hrest); split; [by right|exact Hrest]|].
    constructor; [|done]. intros _ i Hi. rewrite Hi in Ha. by apply negb_false_iff, bool_decide_eq_true in Ha.
Qed.

Lemma candidate_entries_in db lines e :
  e ∈ candidate_entries db lines <-> e ∈ st_ledger db /\ le_id e ∈ pl_ledger_entry_id <$> lines.
Proof.
  unfold candidate_entries. rewrite list_elem_of_In, filter_In, <- list_elem_of_In. by rewrite bool_decide_eq_true.
Qed.

Section Gate.
Context {Dg : Sha256} {Af : AnalyticsFingerprint} (settings : fraud_settings).

Lemma trip_authorities_Ok db currency trips trip :
  trip_authorities settings db currency trips = Ok tt -> trip ∈ trips ->
  reserved (trip_money_position_of db trip currency) + in_flight (trip_money_position_of db trip currency)
    <= unpaid_authority (trip_money_position_of db trip currency)
  /\ trip_held db trip = false
  /\ load_current_successful_assessment settings db trip = Ok true.
Proof.
  induction trips as [|t trips IH]; intros Hrun Hin; [by apply elem_of_nil in Hin|]. cbn in Hrun.
  ok_step Hrun as u Hp. ok_step Hrun as u' Hh. ok_step Hrun as current Hc. ok_step Hrun as u'' Hcur.
  apply elem_of_cons in Hin as [->|Hin]; [|by apply IH].
  apply raise_if_Ok in Hp, Hh, Hcur. apply Z.ltb_ge in Hp. apply negb_false_iff in Hcur as ->. done.
Qed.

(** What the final gate of a batch has checked of the line of one intent. *)
Lemma final_payout_authority_Ok db b lines i provider clean :
  _final_payout_authority settings db b lines i provider clean = Ok tt ->
  batch_submittable (pb_status b) = true
  /\ (pb_approval_mode b <> APPROVAL_AUTOMATIC -> pb_approved_by_user_id b <> None /\ pb_approved_at b <> None)
  /\ forallb (line_frozen b) lines = true
  /\ exists l x e trip, l ∈ lines /\ pi_id x = i /\ line_intent db (pl_id l) = Some x
      /\ pl_reservation_active l = true /\ intent_matches x l = true
      /\ find_by_key le_id (pl_ledger_entry_id l) (st_ledger db) = Some e
      /\ ledger_authority db l = true /\ le_trip_session_id e = Some trip
      /\ reserved (trip_money_position_of db trip (pb_currency b))
         + in_flight (trip_money_position_of db trip (pb_currency b))
           <= unpaid_authority (trip_money_position_of db trip (pb_currency b))
      /\ trip_held db trip = false
      /\ load_current_successful_assessment settings db trip = Ok true
      /\ (pb_approval_mode b = APPROVAL_AUTOMATIC -> clean = true ->
          Forall (fun f => fl_trip_session_id f <> trip) (flags db)).
Proof.
  unfold _final_payout_authority. intros Hrun. ok_step Hrun as u Hs. apply raise_if_Ok, negb_false_iff in Hs.
  cbn zeta in Hrun. ok_step Hrun as u' Hm. ok_step Hrun as u2 Hf. ok_step Hrun as candidates Hc.
  ok_step Hrun as u3 Hcur. ok_step Hrun as u4 Hlen. ok_step Hrun as u5 Hla. ok_step Hrun as [] Htrips.
  split; [done|]. split.
  { intros Hmode. rewrite bool_decide_eq_false_2 in Hm by done. apply raise_if_Ok in Hm. by bool_prop. }
  unfold _assert_frozen in Hf. ok_step Hf as u8 _. ok_step Hf as u6 Hfr. apply raise_if_Ok, negb_false_iff in Hfr.
  split; [done|]. clear Hf Hm.
  apply raise_if_Ok, negb_false_iff, existsb_exists in Hcur as ([l x] & Hin%list_elem_of_In & Hx).
  apply bool_decide_eq_true in Hx. cbn in Hx.
  apply collect_candidates_Ok in Hc as [Hc _]. rewrite Forall_forall in Hc.
  destruct (Hc _ Hin) as (Hl & Hst & Hint & Hact & Href & Hmatch).
  assert (Hl1 : l ∈ candidates.*1) by (by apply (list_elem_of_fmap_2 fst) in Hin).
  apply raise_if_Ok, negb_false_iff in Hla. rewrite forallb_forall in Hla.
  pose proof (Hla l (proj1 (list_elem_of_In _ _) Hl1)) as Hauth. pose proof Hauth as Hauth0.
  unfold ledger_authority in Hauth0. destruct (find_by_key le_id _ _) as [e|] eqn:He; [|done].
  apply andb_true_iff in Hauth0 as [_ Ht]. apply negb_true_iff, bool_decide_eq_false in Ht.
  destruct (le_trip_session_id e) as [trip|] eqn:Htrip; [|done].
  assert (Hentry : e ∈ candidate_entries db candidates.*1).
  { apply candidate_entries_in. pose proof He as He0. apply find_by_key_Some in He0 as [He1 He2].
    split; [done|]. rewrite He2. by apply list_elem_of_fmap_2. }
  assert (Hsorted : trip ∈ sorted_ids (omap le_trip_session_id (candidate_entries db candidates.*1)))
    by (apply sorted_ids_in, list_elem_of_omap; eauto).
  destruct (trip_authorities_Ok _ _ _ _ Htrips Hsorted) as (Hp & Hh & Hcurrent).
  exists l, x, e, trip. repeat (split; [done|]). intros Hauto Hclean.
  rewrite Hauto, Hclean, bool_decide_eq_true_2 in Hrun by done. cbn in Hrun.
  unfold automatic_final_clean_authority in Hrun. ok_step Hrun as u7 Hfl. apply raise_if_Ok in Hfl.
  apply Forall_forall. intros f Hfin Heq. apply not_true_iff_false in Hfl. apply Hfl, existsb_exists.
  exists f. rewrite <- list_elem_of_In. split; [done|]. rewrite Heq. by apply bool_decide_eq_true.
Qed.

(** C17: a provider is asked to pay only what is owed.  When a worker is granted
    the submission of an intent, the intent was pending, its line is reserved
    and carries the frozen instruction, the batch is approved (an automatic
    one: the system actor is intact and payouts are not paused, and the trip
    has no fraud flag at all), the line's credit is available and covers the
    line's amount, and the line's trip has no active fraud hold, a current
    successful fraud assessment, and no more money reserved and in flight than
    its unpaid worth. *)
Theorem submission_claim_is_authorized now (db : disbursement_store) i adapter c db' :
  NoDup (pi_id <$> st_intents db) -> NoDup (pl_id <$> st_lines db) ->
  claim_payout_submission_intent settings now db i adapter = Ok (Some (c, db')) ->
  cl_action c = CLAIM_SUBMIT ->
  exists x l b e trip,
    get_intent db i = Some x /\ pi_state x = INTENT_PENDING
    /\ get_line db (pi_payout_batch_line_id x) = Some l /\ get_batch db (pl_batch_id l) = Some b
    /\ pl_status l = LINE_RESERVED /\ pl_reservation_active l = true
    /\ line_frozen b l = true /\ intent_matches x l = true
    /\ batch_submittable (pb_status b) = true
    /\ (pb_approval_mode b <> APPROVAL_AUTOMATIC -> pb_approved_by_user_id b <> None)
    /\ (pb_approval_mode b = APPROVAL_AUTOMATIC ->
        automatic_submission_blocker db = None /\ Forall (fun f => fl_trip_session_id f <> trip) (flags db))
    /\ find_by_key le_id (pl_ledger_entry_id l) (st_ledger db) = Some e
    /\ le_status e = AVAILABLE /\ 0 < pl_amount l <= le_amount e
    /\ le_trip_session_id e = Some trip
    /\ reserved (trip_money_position_of db trip (pb_currency b))
       + in_flight (trip_money_position_of db trip (pb_currency b))
         <= unpaid_authority (trip_money_position_of db trip (pb_currency b))
    /\ trip_held db trip = false
    /\ load_current_successful_assessment settings db trip = Ok true.
Proof.
  intros Hids Hlids Hrun Hsub.
  apply claim_Ok in Hrun as (x & l & b & action & Hx & Hl & Hb & Hact & Hst & Hw & Hgate).
  rewrite (write_claim_action _ _ _ _ _ _ _ _ Hw) in Hsub. subst action.
  apply claim_action_submit in Hact as Hpend. destruct (Hgate eq_refl) as [Hf Hauto].
  apply final_payout_authority_Ok in Hf
    as (Hs & Happ & Hfr & l' & x' & e & trip & Hl' & Hx' & Hint & Hres & Hm & He & Hau & Ht & Hp & Hh & Hc & Hcl).
  apply batch_lines_in in Hl' as [Hl'in Hl'b]. apply line_intent_Some in Hint as [Hx'in Hx'l].
  unfold get_intent in Hx. apply find_by_key_Some in Hx as Hxin. destruct Hxin as [Hxin Hxi].
  assert (x' = x) as -> by (by apply (nodup_key_inj pi_id (st_intents db))).
  unfold get_line in Hl. apply find_by_key_Some in Hl as Hlin. destruct Hlin as [Hlin Hli].
  assert (l' = l) as -> by (by apply (nodup_key_inj pl_id (st_lines db)); congruence).
  rewrite forallb_forall in Hfr. assert (Hfrozen : line_frozen b l = true).
  { apply Hfr, list_elem_of_In, batch_lines_in. done. }
  unfold ledger_authority in Hau. rewrite He in Hau. bool_prop.
  exists x, l, b, e, trip. repeat (split; [done|]). split; [intros Hmode; by apply Happ|].
  split; [intros Hmode; split; [by apply Hauto|by apply Hcl]|]. done.
Qed.

(** A collected set without conflicts has no cancelled sibling. *)
Lemma final_authority_cancelled_sibling db b lines i provider clean l0 x0 :
  l0 ∈ lines -> pl_status l0 <> LINE_RESERVED -> line_intent db (pl_id l0) = Some x0 ->
  pi_state x0 <> INTENT_RESOLVED ->
  _final_payout_authority settings db b lines i provider clean <> Ok tt.
Proof.
  intros Hin Hs Hx Hr Hrun. unfold _final_payout_authority in Hrun. ok_step Hrun. cbn zeta in Hrun.
  do 2 ok_step Hrun. ok_step Hrun as candidates Hc. apply collect_candidates_Ok in Hc as [_ Hc].
  rewrite Forall_forall in Hc. by apply Hr, (Hc l0).
Qed.

(** C31: once the cancellation of a trip's payouts has voided one queued line of
    a batch, no pending intent of the batch is ever granted its submission: the
    cancelled intent of the void line is taken for unresolved submission
    authority. *)
Theorem cancelled_sibling_blocks_submission now db i adapter x l b l0 x0 :
  get_intent db i = Some x -> get_line db (pi_payout_batch_line_id x) = Some l ->
  get_batch db (pl_batch_id l) = Some b ->
  pi_state x = INTENT_PENDING ->
  l0 ∈ st_lines db -> pl_batch_id l0 = pl_batch_id l -> pl_status l0 = LINE_VOID ->
  line_intent db (pl_id l0) = Some x0 -> pi_state x0 = INTENT_CANCELLED ->
  forall r, claim_payout_submission_intent settings now db i adapter <> Ok (Some r).
Proof.
  intros Hx Hl Hb Hpend Hl0 Hbatch Hvoid Hx0 Hcan [c db'] Hrun.
  apply claim_Ok in Hrun as (x' & l' & b' & action & Hx' & Hl' & Hb' & Hact & _ & Hw & Hgate).
  rewrite Hx in Hx'. injection Hx' as <-. rewrite Hl in Hl'. injection Hl' as <-. rewrite Hb in Hb'.
  injection Hb' as <-. rewrite (proj2 (claim_action_submit x now) Hpend) in Hact. injection Hact as <-.
  destruct (Hgate eq_refl) as [Hf _]. revert Hf.
  apply (final_authority_cancelled_sibling _ _ _ _ _ _ l0 x0); [|congruence|done|congruence].
  apply batch_lines_in. split; [done|]. apply find_by_key_Some in Hb as [_ ->]. done.
Qed.
End Gate.

(** ** Roots of replacement chains *)

(** The line a line replaces. *)
Definition replaces (lines_by_id : gmap uuid payout_batch_line) (l predecessor : payout_batch_line) : Prop :=
  exists i, pl_predecessor_line_id l = Some i /\ lines_by_id !! i = Some predecessor.

Section ChainRoot.
Context (m : gmap uuid payout_batch_line).
Context (Hkeys : forall i l, m !! i = Some l -> pl_id l = i).

Lemma replaces_functional l a b : replaces m l a -> replaces m l b -> a = b.
Proof. intros (i & Hi & Ha) (j & Hj & Hb). congruence. Qed.

Lemma replaces_in l a : replaces m l a -> m !! pl_id a = Some a.
Proof. intros (i & _ & Ha). by rewrite (Hkeys i a Ha). Qed.

(** Every way down to a line without predecessor has the same length. *)
Lemma replaces_length n k l root :
  nsteps (replaces m) n l root -> nsteps (replaces m) k l root -> pl_predecessor_line_id root = None -> n = k.
Proof.
  intros Hn. revert k. induction Hn as [l|n l y root Hly _ IH]; intros k Hk Hroot.
  - inversion Hk as [|? ? ? ? (i & Hi & _)]; [done|congruence].
  - inversion Hk as [|k' ? y' ? Hly' Hk']; subst; [destruct Hly as (i & Hi & _); congruence|].
    f_equal. apply IH; [|done]. by rewrite (replaces_functional _ _ _ Hly Hly').
Qed.

(** The lines already passed. *)
Definition passed (seen : gset uuid) (current : payout_batch_line) : Prop :=
  forall i, i ∈ seen -> exists y n, m !! i = Some y /\ nsteps (replaces m) (S n) y current.

Lemma passed_step seen l a :
  m !! pl_id l = Some l -> replaces m l a -> passed seen l -> passed ({[pl_id l]} ∪ seen) a.
Proof.
  intros Hl Hla Hseen i [->%elem_of_singleton|Hi]%elem_of_union.
  - exists l, 0%nat. split; [done|]. by apply nsteps_once.
  - destruct (Hseen i Hi) as (y & n & Hy & Hn). exists y, (S n). split; [done|]. by apply nsteps_r with l.
Qed.

(** With one unit of fuel for each line not yet passed the walk ends: at the
    root, or with the error of a cycle or a lost predecessor, which a line with
    a root never gives. *)
Lemma chain_root_walk fuel l seen :
  m !! pl_id l = Some l -> passed seen l -> seen ⊆ dom m -> (size (dom m) < fuel + size seen)%nat ->
  match chain_root fuel m l seen with
  | Ok r => exists root, rtc (replaces m) l root /\ pl_predecessor_line_id root = None /\ pl_id root = r
  | Raise e => e = RuntimeError
      /\ forall root, rtc (replaces m) l root -> pl_predecessor_line_id root <> None
  end.
Proof.
  revert l seen. induction fuel as [|fuel IH]; intros l seen Hl Hseen Hsub Hfuel; cbn.
  all: destruct (pl_predecessor_line_id l) as [p|] eqn:Hp; [|by exists l].
  { exfalso. apply subseteq_size in Hsub. lia. }
  destruct (bool_decide_reflect (pl_id l ∈ seen)) as [Hin|Hin]; cbn.
  - split; [done|]. intros root Hroot Hnone. apply rtc_nsteps in Hroot as [k Hk].
    destruct (Hseen _ Hin) as (y & n & Hy & Hn). rewrite Hl in Hy. injection Hy as <-.
    assert (S n + k = k)%nat; [|lia]. eapply replaces_length; [|exact Hk|done]. by eapply nsteps_trans.
  - destruct (m !! p) as [a|] eqn:Ha; cbn.
    + assert (Hla : replaces m l a) by by exists p.
      specialize (IH a ({[pl_id l]} ∪ seen) (replaces_in _ _ Hla) (passed_step _ _ _ Hl Hla Hseen)).
      assert (Hd : pl_id l ∈ dom m) by (apply elem_of_dom; eauto).
      rewrite size_union, size_singleton in IH by set_solver.
      specialize (IH ltac:(set_solver) ltac:(lia)). destruct (chain_root _ _ _ _) as [r|e].
      * destruct IH as (root & Hr & Hn & Hid). exists root. split; [by eapply rtc_l|done].
      * destruct IH as [-> Hno]. split; [done|]. intros root Hroot. inversion Hroot as [|? a' ? Hla' Hr]; subst.
        { congruence. } apply Hno. by rewrite (replaces_functional _ _ _ Hla Hla').
    + split; [done|]. intros root Hroot. inversion Hroot as [|? a ? (i & Hi & Hai) _]; subst; congruence.
Qed.

(** the search for the first line of a replacement chain ends on every set of
    lines, cyclic or broken ones included: it returns exactly the line without
    predecessor that the chain leads to, and raises the internal error exactly
    when there is none. *)
Theorem chain_root_found l r :
  m !! pl_id l = Some l ->
  (_chain_root_id l m = Ok r <->
     exists root, rtc (replaces m) l root /\ pl_predecessor_line_id root = None /\ pl_id root = r)
  /\ ((forall root, rtc (replaces m) l root -> pl_predecessor_line_id root <> None) ->
      _chain_root_id l m = Raise RuntimeError).
Proof.
  intros Hl. unfold _chain_root_id.
  assert (H := chain_root_walk (size m + 2) l ∅ Hl ltac:(by intros ? ?%not_elem_of_empty)
                 ltac:(set_solver) ltac:(rewrite size_dom, size_empty; lia)).
  destruct (chain_root _ _ _ _) as [r'|e]; split; [split| |split|].
  - by intros [= <-].
  - intros (root & Hr & Hn & <-). destruct H as (root' & Hr' & Hn' & <-).
    apply rtc_nsteps in Hr as [n Hsn], Hr' as [k Hsk]. do 2 f_equal.
    clear Hl. revert k Hsk. induction Hsn as [x|n x y root Hxy _ IH]; intros k Hk.
    + inversion Hk as [|? ? ? ? (i & Hi & _)]; subst; [done|congruence].
    + inversion Hk as [|k' ? y' ? Hxy' Hk']; subst; [destruct Hxy as (i & Hi & _); congruence|].
      apply (IH Hn k'). by rewrite (replaces_functional _ _ _ Hxy Hxy').
  - intros Hno. destruct H as (root & Hr & Hn & _). by destruct (Hno root Hr).
  - done.
  - intros (root & Hr & Hn & _). destruct H as [_ Hno]. by destruct (Hno root Hr).
  - intros _. by destruct H as [-> _].
Qed.
End ChainRoot.

(** ** The frozen instruction set *)

Section Frozen.
Context {Dg : Sha256}.

(** The columns of a line its instruction freezes. *)
Definition instruction_of (l : payout_batch_line)
    : (uuid * uuid * uuid) * (kobo * string * option uuid) * (json_strings * string * string) :=
  ((pl_ledger_entry_id l, pl_payee_version_id l, pl_bank_account_version_id l),
   (pl_amount l, pl_currency l, pl_predecessor_line_id l),
   (pl_instruction l, pl_instruction_fingerprint l, pl_idempotency_key l)).

Definition instruction_frozen (b : payout_batch)
    (k : (uuid * uuid * uuid) * (kobo * string * option uuid) * (json_strings * string * string)) : bool :=
  let '((entry, payee, account), (amount, currency, predecessor), (instruction, fingerprint, key)) := k in
  bool_decide (fingerprint = _fingerprint instruction)
  && bool_decide (instruction = frozen_instruction entry payee account amount currency)
  && bool_decide (key = _line_idempotency_key (pb_id b) fingerprint predecessor)
  && bool_decide (currency = pb_currency b).

Lemma line_frozen_instruction b l : line_frozen b l = instruction_frozen b (instruction_of l).
Proof. reflexivity. Qed.

Lemma forallb_perm {A} (f : A -> bool) l l' : l ≡ₚ l' -> forallb f l = forallb f l'.
Proof. induction 1; cbn; [done|congruence| |congruence]. by rewrite !andb_assoc, (andb_comm (f y)). Qed.

Lemma forallb_fmap {A B} (f : A -> B) (g : B -> bool) l : forallb (fun x => g (f x)) l = forallb g (f <$> l).
Proof. induction l as [|x l IH]; cbn; [done|]. by rewrite IH. Qed.

Lemma instruction_set_fingerprint_perm currency total lines lines' :
  pl_instruction_fingerprint <$> lines ≡ₚ pl_instruction_fingerprint <$> lines' ->
  instruction_set_fingerprint currency total lines = instruction_set_fingerprint currency total lines'.
Proof. intros Hp. unfold instruction_set_fingerprint. by rewrite (stable_sort_strings_perm _ _ Hp). Qed.

(** The check of a batch reads the instructions of its lines only, in any order. *)
Lemma assert_frozen_instructions b lines lines' :
  instruction_of <$> lines' ≡ₚ instruction_of <$> lines -> _assert_frozen b lines' = _assert_frozen b lines.
Proof.
  intros Hp. unfold _assert_frozen.
  assert (bool_decide (lines' = []) = bool_decide (lines = [])) as ->.
  { apply Permutation_length in Hp. rewrite !length_fmap in Hp. by destruct lines, lines'. }
  assert (lines_total lines' = lines_total lines) as ->.
  { assert (forall l, lines_total l = sum_by (fun k => k.1.2.1.1) (instruction_of <$> l)) as Hsum
      by (intros l; unfold lines_total, sum_by; by rewrite <- list_fmap_compose).
    rewrite !Hsum. by apply sum_by_perm. }
  rewrite (instruction_set_fingerprint_perm _ _ lines' lines).
  2:{ assert (forall l, pl_instruction_fingerprint <$> l = (fun k => k.2.1.2) <$> (instruction_of <$> l)) as Hfp
        by (intros l; by rewrite <- list_fmap_compose).
      rewrite !Hfp. by rewrite Hp. }
  assert (forallb (line_frozen b) lines' = forallb (line_frozen b) lines) as ->; [|done].
  assert (forall l, forallb (line_frozen b) l = forallb (instruction_frozen b) (instruction_of <$> l)) as Hall.
  { intros l. exact (forallb_fmap instruction_of (instruction_frozen b) l). }
  rewrite !Hall. by apply forallb_perm.
Qed.

Lemma freeze_instructions b lines :
  lines <> [] ->
  Forall (fun l => exists i predecessor entry payee account amount,
            l = reserved_line i (pb_id b) predecessor entry payee account amount
            /\ le_currency entry = pb_currency b) lines ->
  _assert_frozen (freeze_batch_instruction_set b lines) lines = Ok tt.
Proof.
  intros Hne Hl. unfold _assert_frozen. rewrite (bool_decide_eq_false_2 (lines = [])) by done. cbn.
  assert (forallb (line_frozen (freeze_batch_instruction_set b lines)) lines = true) as ->.
  { apply forallb_forall. intros l Hin%list_elem_of_In. rewrite Forall_forall in Hl.
    destruct (Hl l Hin) as (i & p & e & pv & av & amt & -> & Hc). unfold line_frozen.
    repeat (apply andb_true_iff; split); apply bool_decide_eq_true; [reflexivity..|exact Hc]. }
  cbn. by rewrite Z.eqb_refl, bool_decide_eq_true_2.
Qed.

(** what a batch froze can be read back for good.  A batch frozen over lines
    built for it passes the check of every later reader, whatever order the
    database returns the lines in and whatever became of their status,
    reservation, references and reconciliation since. *)
Theorem frozen_batch_is_accepted b lines lines' status reference submitted_at :
  lines <> [] ->
  Forall (fun l => exists i predecessor entry payee account amount,
            l = reserved_line i (pb_id b) predecessor entry payee account amount
            /\ le_currency entry = pb_currency b) lines ->
  instruction_of <$> lines' ≡ₚ instruction_of <$> lines ->
  _assert_frozen (batch_with (freeze_batch_instruction_set b lines) status reference submitted_at) lines' = Ok tt.
Proof.
  intros Hne Hl Hp. rewrite (assert_frozen_instructions _ lines lines' Hp). exact (freeze_instructions b lines Hne Hl).
Qed.
End Frozen.

(** ** Examples *)

Lemma submission_claim_is_authorized_witness :
  exists c db', @claim_payout_submission_intent DisbursementSample.digest FraudSample.fingerprint
      BatchSample.settings 700 BatchSample.queued 1 (@capabilities _ fake_adapter) = Ok (Some (c, db'))
    /\ exists x l trip, get_intent BatchSample.queued 1 = Some x
         /\ get_line BatchSample.queued (pi_payout_batch_line_id x) = Some l
         /\ trip_held BatchSample.queued trip = false.
Proof.
  assert (match @claim_payout_submission_intent DisbursementSample.digest FraudSample.fingerprint
      BatchSample.settings 700 BatchSample.queued 1 (@capabilities _ fake_adapter) with
    | Ok (Some (c, _)) => bool_decide (cl_action c = CLAIM_SUBMIT)
    | _ => false
    end = true) as Hsub by (vm_compute; reflexivity).
  destruct (claim_payout_submission_intent _ _ _ _ _) as [[[c db']|]|] eqn:Hc; [|discriminate..].
  apply bool_decide_eq_true in Hsub. exists c, db'. split; [reflexivity|].
  destruct (@submission_claim_is_authorized DisbursementSample.digest FraudSample.fingerprint BatchSample.settings
    700 BatchSample.queued 1 (@capabilities _ fake_adapter) c db') as (x & l & b & e & trip & Hx & _ & Hl & Hrest);
    [apply (bool_decide_unpack _); vm_compute; exact I..|exact Hc|exact Hsub|].
  exists x, l, trip. split; [exact Hx|]. split; [exact Hl|].
  destruct Hrest as (_ & _ & _ & _ & _ & _ & _ & _ & _ & _ & _ & _ & _ & Hheld & _). exact Hheld.
Defined.

Module SubmissionSample.
Import DisbursementSample BatchSample.

Definition stored (r : result disbursement_store) : disbursement_store :=
  match r with Ok db => db | Raise _ => DisbursementSample.store end.

(** The queued batch after the payouts of trip 11 were cancelled. *)
Definition cancelled : disbursement_store :=
  stored (cancel_uncalled_trip_payouts queued 11 (lock_payout_chains queued [11%N]) 650).

Definition chain : gmap uuid payout_batch_line :=
  list_to_map ((fun l => (pl_id l, l)) <$>
    [reserved_line 61 60 None (entry 40 30 10 300000) 70 71 300000;
     reserved_line 63 60 (Some 61%N) (entry 40 30 10 300000) 70 71 300000;
     reserved_line 64 60 (Some 63%N) (entry 40 30 10 300000) 70 71 300000;
     reserved_line 65 60 (Some 66%N) (entry 40 30 10 300000) 70 71 300000;
     reserved_line 66 60 (Some 65%N) (entry 40 30 10 300000) 70 71 300000]).

Definition paid_lines : list payout_batch_line :=
  [submitted_line second_line (Some "t"%string); voided_line first_line 900].
End SubmissionSample.

(** The rows of the cancelled sample. *)
Lemma cancelled_rows :
  exists x l b l0 x0, get_intent SubmissionSample.cancelled 1 = Some x
    /\ get_line SubmissionSample.cancelled (pi_payout_batch_line_id x) = Some l
    /\ get_batch SubmissionSample.cancelled (pl_batch_id l) = Some b /\ pi_state x = INTENT_PENDING
    /\ l0 ∈ st_lines SubmissionSample.cancelled /\ pl_batch_id l0 = pl_batch_id l
    /\ pl_status l0 = LINE_VOID /\ line_intent SubmissionSample.cancelled (pl_id l0) = Some x0
    /\ pi_state x0 = INTENT_CANCELLED.
Proof.
  assert (match get_intent SubmissionSample.cancelled 1, get_line SubmissionSample.cancelled 61,
      get_batch SubmissionSample.cancelled 60, get_line SubmissionSample.cancelled 62,
      line_intent SubmissionSample.cancelled 62 with
    | Some x, Some l, Some b, Some l0, Some x0 =>
        bool_decide (pi_payout_batch_line_id x = 61%N /\ pl_batch_id l = 60%N
          /\ pi_state x = INTENT_PENDING /\ pl_batch_id l0 = 60%N
          /\ pl_status l0 = LINE_VOID /\ pl_id l0 = 62%N /\ pi_state x0 = INTENT_CANCELLED)
    | _, _, _, _, _ => false
    end = true) as Hrows by (vm_compute; reflexivity).
  revert Hrows. generalize SubmissionSample.cancelled. intros db Hrows.
  destruct (get_intent db 1) as [x|] eqn:Hx; [|discriminate].
  destruct (get_line db 61) as [l|] eqn:Hl; [|discriminate].
  destruct (get_batch db 60) as [b|] eqn:Hb; [|discriminate].
  destruct (get_line db 62) as [l0|] eqn:Hl0; [|discriminate].
  destruct (line_intent db 62) as [x0|] eqn:Hx0; [|discriminate].
  apply bool_decide_eq_true in Hrows as (H1 & H2 & H3 & H4 & H5 & H6 & H7).
  exists x, l, b, l0, x0. rewrite H1, H2, H6. unfold get_line in Hl0. apply find_by_key_Some in Hl0 as [Hin _].
  repeat split; congruence.
Qed.

Lemma cancelled_sibling_blocks_submission_witness :
  @claim_payout_submission_intent DisbursementSample.digest FraudSample.fingerprint
      BatchSample.settings 700 SubmissionSample.cancelled 1 (@capabilities _ fake_adapter)
    = Raise (AppError "PAYOUT_SUBMISSION_INTENT_CONFLICT" 409)
  /\ forall t r, @claim_payout_submission_intent DisbursementSample.digest FraudSample.fingerprint
      BatchSample.settings t SubmissionSample.cancelled 1 (@capabilities _ fake_adapter) <> Ok (Some r).
Proof.
  split; [vm_compute; reflexivity|]. intros t r.
  destruct cancelled_rows as (x & l & b & l0 & x0 & Hx & Hl & Hb & Hp & Hl0 & H1 & H2 & H3 & H4).
  exact (@cancelled_sibling_blocks_submission DisbursementSample.digest FraudSample.fingerprint
    BatchSample.settings t SubmissionSample.cancelled 1 _ x l b l0 x0 Hx Hl Hb Hp Hl0 H1 H2 H3 H4 r).
Defined.

Lemma chain_root_found_witness :
  _chain_root_id (reserved_line (H := DisbursementSample.digest) 64 60 (Some 63%N)
      (BatchSample.entry 40 30 10 300000) 70 71 300000) SubmissionSample.chain = Ok 61%N
  /\ exists root, rtc (replaces SubmissionSample.chain)
       (reserved_line (H := DisbursementSample.digest) 64 60 (Some 63%N)
          (BatchSample.entry 40 30 10 300000) 70 71 300000) root
       /\ pl_predecessor_line_id root = None /\ pl_id root = 61%N.
Proof.
  assert (_chain_root_id (reserved_line (H := DisbursementSample.digest) 64 60 (Some 63%N)
      (BatchSample.entry 40 30 10 300000) 70 71 300000) SubmissionSample.chain = Ok 61%N) as Hroot
    by (vm_compute; reflexivity).
  split; [exact Hroot|]. eapply chain_root_found; [|vm_compute; reflexivity|exact Hroot].
  intros i l Hl. apply elem_of_list_to_map_2 in Hl. apply list_elem_of_fmap in Hl as (k & [= -> ->] & _). reflexivity.
Defined.

Lemma frozen_batch_is_accepted_witness :
  @_assert_frozen DisbursementSample.digest
    (batch_with (@freeze_batch_instruction_set DisbursementSample.digest BatchSample.draft
       [BatchSample.first_line; BatchSample.second_line]) BATCH_SUBMITTED None (Some 9))
    SubmissionSample.paid_lines = Ok tt.
Proof.
  apply (@frozen_batch_is_accepted DisbursementSample.digest BatchSample.draft
    [BatchSample.first_line; BatchSample.second_line]); [discriminate| |].
  - repeat constructor; (do 6 eexists; split; [unfold BatchSample.first_line, BatchSample.second_line; reflexivity|reflexivity]).
  - apply Permutation_swap.
Defined.
