(* ===== verification/PayOnce.v ===== *)
(** Every payment is sent at most once: the submission intents, the provider
    and any number of workers that claim, call, crash and resolve, with their
    invariant, and the refinement of a three-state order book by them.  A proof
    file over Disbursements and Adapters. *)

From stdpp Require Import base list strings gmap.
From Stdlib Require Import ZArith Lia.
From S2P Require Import Prelude PayoutData Ledger Balances Text BillingData Notifications.
From S2P Require Import DisbursementData Fraud Adapters Disbursements Submission.

#[local] Open Scope Z_scope.

(** ** What the writes of an intent are *)

Lemma update_intent_Ok i i' db db' :
  update_intent i i' db = Ok db' ->
  db' = set_payout (with_intents (set_row pi_id i')) db
  /\ payout_submission_intent_row_ok i' = true
  /\ (pi_state i = INTENT_CLAIMED \/ pi_state i' = INTENT_CLAIMED
      \/ (pi_state i = INTENT_PENDING /\ pi_state i' = INTENT_CANCELLED)).
Proof.
  unfold update_intent, intent_constraints. intros Hrun.
  ok_step Hrun as u Hv. ok_step Hrun as u' Hc. injection Hrun as <-. split; [done|].
  ok_step Hc as u'' Hr. apply raise_if_Ok, negb_false_iff in Hr. split; [done|].
  unfold validate_payout_submission_intent_update in Hv. ok_step Hv. ok_step Hv. cbn zeta in Hv.
  destruct (bool_decide_reflect (pi_state i' = INTENT_CLAIMED)); [by right; left|].
  destruct (bool_decide_reflect (pi_state i = INTENT_CLAIMED)); [by left|].
  cbn [andb orb] in Hv. destruct (bool_decide_reflect (pi_state i = INTENT_PENDING)); [|done].
  destruct (bool_decide_reflect (pi_state i' = INTENT_CANCELLED)); [|done]. by right; right.
Qed.

Lemma update_line_Ok l db db' :
  update_line l db = Ok db' -> db' = set_payout (with_lines (set_row pl_id l)) db.
Proof. unfold update_line. intros Hrun. ok_step Hrun. ok_step Hrun. by injection Hrun as <-. Qed.

Lemma update_batch_Ok b db db' : update_batch b db = Ok db' -> db' = set_batches (set_row pb_id b) db.
Proof. unfold update_batch. intros Hrun. ok_step Hrun. by injection Hrun as <-. Qed.

(** The tables of the submission protocol. *)
Definition protocol (db : disbursement_store) : list payout_submission_intent * list payout_submission_attempt :=
  (st_intents db, ds_attempts db).

Lemma audit_protocol actor action entity i db : protocol (audit actor action entity i db) = protocol db.
Proof. reflexivity. Qed.

Lemma get_intent_Some db i x : get_intent db i = Some x -> x ∈ st_intents db /\ pi_id x = i.
Proof. apply find_by_key_Some. Qed.

(** ** The environment's steps: new intents and cancellations *)

Inductive intent_step (l : list payout_submission_intent) : list payout_submission_intent -> Prop :=
| intent_queued i :
    pi_state i = INTENT_PENDING -> pi_id i ∉ pi_id <$> l ->
    pi_idempotency_key i ∉ pi_idempotency_key <$> l ->
    pi_provider_transfer_reference i = None ->
    intent_step l (l ++ [i])
| intent_cancelled i at_ :
    i ∈ l -> pi_state i = INTENT_PENDING ->
    intent_step l (set_row pi_id (cancelled_intent i at_) l).

(** A handler that only queues and cancels. *)
Definition environment (db db' : disbursement_store) : Prop :=
  rtc intent_step (st_intents db) (st_intents db') /\ ds_attempts db' = ds_attempts db.

Lemma environment_refl db : environment db db.
Proof. by split. Qed.

Lemma environment_trans db1 db2 db3 : environment db1 db2 -> environment db2 db3 -> environment db1 db3.
Proof. intros [H1 ?] [H2 ?]. split; [by etrans|congruence]. Qed.

Lemma environment_frame db db' : protocol db' = protocol db -> environment db db'.
Proof. intros [= Hi Ha]. split; [by rewrite Hi|done]. Qed.

Lemma flush_intent_environment i db db' :
  flush_intent i db = Ok db' -> pi_state i = INTENT_PENDING ->
  pi_id i ∉ pi_id <$> st_intents db -> pi_provider_transfer_reference i = None -> environment db db'.
Proof.
  unfold flush_intent, intent_constraints. intros Hrun Hs Hid Href. ok_step Hrun as u Hc. injection Hrun as <-.
  split; [|done]. ok_step Hc. ok_step Hc. ok_step Hc as u' Hk. apply raise_if_Ok, bool_decide_eq_false in Hk.
  apply rtc_once, intent_queued; try done. intros (y & Hy & Hin)%list_elem_of_fmap. apply Hk.
  apply list_elem_of_fmap. exists y. by rewrite Hy.
Qed.

Lemma queue_lines_environment before provider actor now lines created db n db' :
  queue_lines before provider actor now lines created db = Ok (n, db') -> environment db db'.
Proof.
  revert created db. induction lines as [|l lines IH]; intros created db Hrun; cbn in Hrun.
  { injection Hrun as _ <-. apply environment_refl. }
  destruct (line_intent before (pl_id l)).
  - ok_step Hrun. by eapply IH.
  - ok_step Hrun. ok_step Hrun as db1 Hf. eapply environment_trans; [|by eapply IH].
    apply flush_intent_environment in Hf; [done..| |done]. apply uuid4_fresh.
Qed.

Lemma submit_payout_batch_environment `{Sha256} now db b actor adapter out db' :
  submit_payout_batch now db b actor adapter = Ok (out, db') -> environment db db'.
Proof.
  unfold submit_payout_batch. intros Hrun. ok_step Hrun. ok_step Hrun as [b0 lines] _.
  do 4 ok_step Hrun. ok_step Hrun. ok_step Hrun as [n db1] Hq. injection Hrun as _ <-.
  apply queue_lines_environment in Hq. eapply environment_trans; [exact Hq|].
  apply environment_frame. by case_match.
Qed.

Lemma cancel_uncalled_line_environment db l i at_ r :
  _cancel_uncalled_line db l i at_ = Ok r -> (forall x, i = Some x -> x ∈ st_intents db) ->
  environment db r.2.
Proof.
  unfold _cancel_uncalled_line. intros Hrun Hin. destruct (_ || _); [injection Hrun as <-; apply environment_refl|].
  destruct i as [i|].
  - destruct (bool_decide_reflect (pi_state i = INTENT_PENDING)) as [Hs|]; cbn [negb] in Hrun;
      [|injection Hrun as <-; apply environment_refl].
    ok_step Hrun as db1 Hi. ok_step Hrun as db2 Hl. injection Hrun as <-.
    apply update_intent_Ok in Hi as [-> _]. apply update_line_Ok in Hl as ->. split; [|done].
    apply rtc_once, intent_cancelled; auto.
  - ok_step Hrun as db1 Hl. injection Hrun as <-. apply update_line_Ok in Hl as ->. by apply environment_frame.
Qed.

Lemma line_intent_in db l x : line_intent db l = Some x -> x ∈ st_intents db.
Proof. intros Hx. by apply find_row_Some in Hx as [? _]. Qed.

Lemma cancel_lines_environment db lines at_ db' : cancel_lines db lines at_ = Ok db' -> environment db db'.
Proof.
  revert db. induction lines as [|l lines IH]; intros db Hrun; cbn in Hrun.
  { injection Hrun as <-. apply environment_refl. }
  ok_step Hrun as r Hc. eapply environment_trans; [|by apply IH].
  eapply cancel_uncalled_line_environment; [exact Hc|]. intros x. apply line_intent_in.
Qed.

Lemma rederive_batches_protocol db batches db' :
  rederive_batches db batches = Ok db' ->
  protocol db' = protocol db /\ ds_payout db' = ds_payout db.
Proof.
  revert db. induction batches as [|b batches IH]; intros db Hrun; cbn in Hrun.
  { by injection Hrun as <-. }
  destruct (get_batch db b); [|by apply IH]. ok_step Hrun as db1 Hb. apply update_batch_Ok in Hb as ->.
  apply IH in Hrun as [-> ->]. done.
Qed.

Lemma cancel_uncalled_trip_payouts_environment db trip batches at_ db' :
  cancel_uncalled_trip_payouts db trip batches at_ = Ok db' -> environment db db'.
Proof.
  unfold cancel_uncalled_trip_payouts. intros Hrun. ok_step Hrun as db1 Hc.
  apply cancel_lines_environment in Hc. eapply environment_trans; [exact Hc|].
  apply rederive_batches_protocol in Hrun as [Hp _]. by apply environment_frame.
Qed.

Lemma approve_payout_batch_environment `{Sha256} clock db b actor reason out db' :
  approve_payout_batch clock db b actor reason = Ok (out, db') -> environment db db'.
Proof.
  unfold approve_payout_batch. intros Hrun. do 2 ok_step Hrun. ok_step Hrun as [b0 lines] _.
  do 3 ok_step Hrun. case_match.
  - ok_step Hrun. injection Hrun as _ <-. apply environment_refl.
  - ok_step Hrun as db1 Hb. injection Hrun as _ <-. apply update_batch_Ok in Hb as ->. by apply environment_frame.
Qed.

Lemma update_lines_protocol (f : payout_batch_line -> payout_batch_line) lines db db' :
  foldl (fun r l => db ← r; update_line (f l) db) (mret db) lines = Ok db' -> protocol db' = protocol db.
Proof.
  revert db'. induction lines as [|l lines IH] using rev_ind; intros db' Hrun.
  { by injection Hrun as <-. }
  rewrite foldl_app in Hrun. cbn [foldl] in Hrun. ok_step Hrun as db1 H1. apply update_line_Ok in Hrun as ->.
  by rewrite <- (IH db1 H1).
Qed.

Lemma void_payout_batch_environment db b actor out db' :
  void_payout_batch db b actor = Ok (out, db') -> environment db db'.
Proof.
  unfold void_payout_batch. intros Hrun. ok_step Hrun. ok_step Hrun as [b0 lines] _. do 2 ok_step Hrun.
  ok_step Hrun as db1 Hl. ok_step Hrun as db2 Hb. injection Hrun as _ <-. apply update_batch_Ok in Hb as ->.
  apply environment_frame. rewrite <- (update_lines_protocol _ _ _ _ Hl). reflexivity.
Qed.

(** ** What a claim and a resolution write *)

Lemma write_claim_Ok now db b l i action c db' :
  write_claim now db b l i action = Ok (c, db') ->
  let token := uuid4 (sa_claim_token <$> ds_attempts db) in
  st_intents db' = set_row pi_id (claimed_intent i token action (now + DISBURSEMENT_CLAIM_LEASE) now) (st_intents db)
  /\ (exists a, ds_attempts db' = ds_attempts db ++ [a] /\ sa_claim_token a = token
        /\ sa_intent_id a = pi_id i /\ sa_generation a = pi_generation i + 1)
  /\ c = ClaimedDisbursementIntent (pi_id i) (pb_id b) (pl_id l) (pi_generation i + 1) token action
           (pi_idempotency_key i) (pi_instruction i) (pi_instruction_fingerprint i).
Proof.
  unfold write_claim. cbn zeta. intros Hrun. ok_step Hrun as db1 Hi. ok_step Hrun as db2 Ha.
  injection Hrun as <- <-. apply update_intent_Ok in Hi as [-> _].
  unfold flush_attempt in Ha. do 3 ok_step Ha. injection Ha as <-. split; [done|]. split; [|done].
  by eexists.
Qed.

(** A resolution of a live claim: the observation recorded is final, and the
    intent moves with it. *)
Lemma write_resolution_Ok `{Sha256} now db c b lines l i attempt o s db' :
  write_resolution now db c b lines l i attempt o = Ok (s, db') ->
  ds_attempts db' = ds_attempts db
  /\ exists i', st_intents db' = set_row pi_id i' (st_intents db)
    /\ ((s = INTENT_RESOLVED /\ i' = resolved_intent i o now /\ present (ob_provider_transfer_reference o) = true
          /\ (ob_outcome o = OBS_SUBMITTED \/ ob_outcome o = OBS_FOUND))
        \/ (s = INTENT_PENDING /\ i' = released_intent i s now /\ ob_outcome o = OBS_NOT_FOUND)
        \/ (s = INTENT_QUERY_ONLY /\ i' = released_intent i s now)).
Proof.
  unfold write_resolution. destruct (final_observation db (pl_id l) o) as [final resolved] eqn:Hfin.
  intros Hrun. ok_step Hrun as db1 Ho. unfold flush_observation in Ho. do 4 ok_step Ho. injection Ho as <-.
  unfold final_observation in Hfin. destruct resolved.
  - ok_step Hrun as db2 Hi. ok_step Hrun as db3 Hl. ok_step Hrun as db4 Hb.
    apply update_intent_Ok in Hi as [-> _]. apply update_line_Ok in Hl as ->. apply update_batch_Ok in Hb as ->.
    assert (final = o /\ present (ob_provider_transfer_reference o) = true
            /\ (ob_outcome o = OBS_SUBMITTED \/ ob_outcome o = OBS_FOUND)) as (-> & Hpres & Hout).
    { destruct (ob_outcome o); try done; destruct (present (ob_provider_transfer_reference o)); try done;
        destruct (present (ob_provider_submission_reference o)); try done;
        destruct (existsb _ _); try done; injection Hfin as <-; auto. }
    injection Hrun as <- <-. clear Hfin. destruct (bool_decide (pb_submitted_at b = None)); (split; [done|]); eexists; (split; [done|]); left; done.
  - ok_step Hrun as db2 Hi. apply update_intent_Ok in Hi as [-> _]. injection Hrun as <- <-. split; [done|].
    eexists. split; [done|]. right. destruct (ob_outcome final) eqn:Hf; [by right|by right| |by right]. left.
    split; [done|]. split; [done|].
    destruct (ob_outcome o) eqn:Ho'; try done; repeat case_match; injection Hfin as <-; try done; congruence.
Qed.

Lemma resolve_Ok `{Sha256} now db c o s db' :
  _resolve_payout_submission_claim now db c o = Ok (s, db') ->
  (s = None /\ db' = db)
  \/ exists i i' st, get_intent db (cl_intent_id c) = Some i /\ claim_live c i now = true
      /\ s = Some st /\ ds_attempts db' = ds_attempts db
      /\ st_intents db' = set_row pi_id i' (st_intents db)
      /\ ((st = INTENT_RESOLVED /\ i' = resolved_intent i o now
           /\ present (ob_provider_transfer_reference o) = true
           /\ (ob_outcome o = OBS_SUBMITTED \/ ob_outcome o = OBS_FOUND))
          \/ (st = INTENT_PENDING /\ i' = released_intent i st now /\ ob_outcome o = OBS_NOT_FOUND)
          \/ (st = INTENT_QUERY_ONLY /\ i' = released_intent i st now)).
Proof.
  unfold _resolve_payout_submission_claim. intros Hrun.
  destruct (get_intent db (cl_intent_id c)) as [i|] eqn:Hi; [|injection Hrun as <- <-; by left].
  ok_step Hrun as [b lines] Hb. destruct (claim_live c i now) eqn:Hlive; cbn [negb] in Hrun;
    [|injection Hrun as <- <-; by left].
  ok_step Hrun as attempt Ha. ok_step Hrun as l Hl. ok_step Hrun as [st db1] Hw. injection Hrun as <- <-.
  apply write_resolution_Ok in Hw as (Hat & i' & Hint & Hcase). right. exists i, i', st. naive_solver.
Qed.

(** ** The system *)

Section PayOnce.
Context {Dg : Sha256} {Af : AnalyticsFingerprint} (settings : fraud_settings).
Context {P : Type} {Ad : DisbursementAdapter P} {Laws : ProviderLaws P}.

(** A worker holds a claim it has yet to take to the provider, or an answer it
    has yet to record.  With a claim goes the end of its lease. *)
Record system := System {
  sy_clock : Z;
  sy_db : disbursement_store;
  sy_provider : P;
  sy_calls : list (claimed_disbursement_intent * Z);
  sy_answers : list (claimed_disbursement_intent * disbursement_claim_observation)
}.

(** Time passes; any worker claims any intent; a worker calls the provider, a
    submission while its lease runs and a lookup at any time, and gets the answer or loses it on the way back
    ([unknown_observation]); workers crash at any point, before or after the
    call, whatever the provider did; an answer is recorded whenever it comes;
    batches are approved, queued, voided and trips cancelled at any time. *)
Inductive system_step : system -> system -> Prop :=
| step_tick t t' db p calls answers :
    t <= t' -> system_step (System t db p calls answers) (System t' db p calls answers)
| step_claim t db p calls answers i c db' :
    claim_payout_submission_intent settings t db i capabilities = Ok (Some (c, db')) ->
    system_step (System t db p calls answers)
      (System t db' p ((c, t + DISBURSEMENT_CLAIM_LEASE) :: calls) answers)
| step_call t db p calls1 c expires calls2 answers p' o :
    t < expires \/ cl_action c = CLAIM_QUERY -> call_provider p c = (p', o) ->
    system_step (System t db p (calls1 ++ (c, expires) :: calls2) answers)
      (System t db p' (calls1 ++ calls2) ((c, o) :: answers))
| step_lost t db p calls1 c expires calls2 answers p' o error :
    t < expires \/ cl_action c = CLAIM_QUERY -> call_provider p c = (p', o) ->
    system_step (System t db p (calls1 ++ (c, expires) :: calls2) answers)
      (System t db p' (calls1 ++ calls2) ((c, unknown_observation error) :: answers))
| step_crash_before t db p calls1 c calls2 answers :
    system_step (System t db p (calls1 ++ c :: calls2) answers)
      (System t db p (calls1 ++ calls2) answers)
| step_crash_after t db p calls answers1 a answers2 :
    system_step (System t db p calls (answers1 ++ a :: answers2))
      (System t db p calls (answers1 ++ answers2))
| step_resolve_claim t db p calls answers1 c o answers2 s db' :
    _resolve_payout_submission_claim t db c o = Ok (s, db') ->
    system_step (System t db p calls (answers1 ++ (c, o) :: answers2))
      (System t db' p calls (answers1 ++ answers2))
| step_submit t db p calls answers b actor out db' :
    submit_payout_batch t db b actor capabilities = Ok (out, db') ->
    system_step (System t db p calls answers) (System t db' p calls answers)
| step_approve t db p calls answers b actor reason out db' :
    approve_payout_batch t db b actor reason = Ok (out, db') ->
    system_step (System t db p calls answers) (System t db' p calls answers)
| step_void t db p calls answers b actor out db' :
    void_payout_batch db b actor = Ok (out, db') ->
    system_step (System t db p calls answers) (System t db' p calls answers)
| step_cancel t db p calls answers trip batches db' :
    cancel_uncalled_trip_payouts db trip batches t = Ok db' ->
    system_step (System t db p calls answers) (System t db' p calls answers).

(** ** The invariant *)

Definition claim_tokens (calls : list (claimed_disbursement_intent * Z))
    (answers : list (claimed_disbursement_intent * disbursement_claim_observation)) : list uuid :=
  (fun c => cl_claim_token c.1) <$> calls ++ ((fun a => (a.1, 0)) <$> answers).

(** The claim was made on this intent. *)
Definition claim_of (c : claimed_disbursement_intent) (i : payout_submission_intent) : Prop :=
  pi_id i = cl_intent_id c /\ pi_idempotency_key i = cl_idempotency_key c
  /\ pi_instruction_fingerprint i = cl_instruction_fingerprint c.

Definition held_by (c : claimed_disbursement_intent) (i : payout_submission_intent) : Prop :=
  pi_state i = INTENT_CLAIMED /\ pi_claim_token i = Some (cl_claim_token c).

Definition maybe_sent (s : submission_intent_state) : Prop :=
  s = INTENT_CLAIMED \/ s = INTENT_QUERY_ONLY \/ s = INTENT_RESOLVED.

Record intents_ok (l : list payout_submission_intent) : Prop := {
  io_ids : NoDup (pi_id <$> l);
  io_keys : NoDup (pi_idempotency_key <$> l)
}.

(** What the provider executed agrees with the intents. *)
Record transfers_ok (l : list payout_submission_intent) (tr : gmap string (string * string)) : Prop := {
  to_known : forall key fp ref, tr !! key = Some (fp, ref) ->
    exists i, i ∈ l /\ pi_idempotency_key i = key /\ pi_instruction_fingerprint i = fp /\ maybe_sent (pi_state i);
  to_resolved : forall i, i ∈ l -> pi_state i = INTENT_RESOLVED ->
    exists fp ref, tr !! pi_idempotency_key i = Some (fp, ref) /\ pi_provider_transfer_reference i = Some ref
}.

(** A claim whose lease runs holds its intent. *)
Definition call_ok (t : Z) (l : list payout_submission_intent) (call : claimed_disbursement_intent * Z) : Prop :=
  exists i, i ∈ l /\ claim_of call.1 i
    /\ (t < call.2 -> held_by call.1 i /\ pi_claim_expires_at i = Some call.2).

(** An answer is true: a reference is the executed transfer's, and a miss
    whose claim still holds its intent is a miss now. *)
Definition answer_ok (l : list payout_submission_intent) (tr : gmap string (string * string))
    (answer : claimed_disbursement_intent * disbursement_claim_observation) : Prop :=
  exists i, i ∈ l /\ claim_of answer.1 i
    /\ (held_by answer.1 i -> ob_outcome answer.2 = OBS_NOT_FOUND -> tr !! pi_idempotency_key i = None)
    /\ (forall ref, ob_outcome answer.2 = OBS_SUBMITTED \/ ob_outcome answer.2 = OBS_FOUND ->
        ob_provider_transfer_reference answer.2 = Some ref ->
        exists fp, tr !! pi_idempotency_key i = Some (fp, ref)).

Record system_ok (s : system) : Prop := {
  so_provider : provider_ok (sy_provider s);
  so_intents : intents_ok (st_intents (sy_db s));
  so_transfers : transfers_ok (st_intents (sy_db s)) (transfers (sy_provider s));
  so_tokens : NoDup (claim_tokens (sy_calls s) (sy_answers s));
  so_given : forall token, token ∈ claim_tokens (sy_calls s) (sy_answers s) ->
    token ∈ sa_claim_token <$> ds_attempts (sy_db s);
  so_calls : forall c, c ∈ sy_calls s -> call_ok (sy_clock s) (st_intents (sy_db s)) c;
  so_answers : forall a, a ∈ sy_answers s ->
    answer_ok (st_intents (sy_db s)) (transfers (sy_provider s)) a
}.

(** ** The order book *)

(** What a payment is to whoever asks for it: waiting, sent once and for all
    under a reference, or cancelled unsent. *)
Inductive order := Waiting | Sent (fingerprint reference : string) | Cancelled.

#[export] Instance order_eq_dec : EqDecision order.
Proof. solve_decision. Defined.

Inductive order_step (book : gmap uuid order) : gmap uuid order -> Prop :=
| order_placed k : book !! k = None -> order_step book (<[k := Waiting]> book)
| order_sent k fp ref : book !! k = Some Waiting -> order_step book (<[k := Sent fp ref]> book)
| order_cancelled k : book !! k = Some Waiting -> order_step book (<[k := Cancelled]> book).

Definition order_of (tr : gmap string (string * string)) (i : payout_submission_intent) : order :=
  match tr !! pi_idempotency_key i with
  | Some (fp, ref) => Sent fp ref
  | None => if bool_decide (pi_state i = INTENT_CANCELLED) then Cancelled else Waiting
  end.

Definition book_of (tr : gmap string (string * string)) (l : list payout_submission_intent) : gmap uuid order :=
  list_to_map ((fun i => (pi_id i, order_of tr i)) <$> l).

Definition order_book (s : system) : gmap uuid order :=
  book_of (transfers (sy_provider s)) (st_intents (sy_db s)).

(** ** Replacing one intent *)

Definition same_identity (i i' : payout_submission_intent) : Prop :=
  pi_id i' = pi_id i /\ pi_idempotency_key i' = pi_idempotency_key i
  /\ pi_instruction_fingerprint i' = pi_instruction_fingerprint i.

Section Replace.
Context (l : list payout_submission_intent) (i i' : payout_submission_intent).
Context (Hids : NoDup (pi_id <$> l)) (Hi : i ∈ l) (Hsame : same_identity i i').

Lemma fmap_set_row {A} (f : payout_submission_intent -> A) : f i' = f i -> f <$> set_row pi_id i' l = f <$> l.
Proof.
  intros Hf. unfold set_row. rewrite <- list_fmap_compose. apply list_fmap_ext. intros n x Hx. cbn.
  apply list_elem_of_lookup_2 in Hx. destruct (bool_decide_reflect (pi_id x = pi_id i')) as [He|]; [|done].
  destruct Hsame as (Hid & _). rewrite Hf. f_equal. by apply (nodup_key_inj pi_id l); [..|congruence].
Qed.

Lemma in_set_row x : x ∈ set_row pi_id i' l -> x = i' \/ (x ∈ l /\ x <> i).
Proof.
  intros [->|[Hx Hne]]%elem_of_set_row; [by left|right]. split; [done|]. intros ->.
  destruct Hsame as (Hid & _). congruence.
Qed.

Lemma replaced_in : i' ∈ set_row pi_id i' l.
Proof. destruct Hsame as (Hid & _). by eapply elem_of_set_row_same. Qed.

(** Every old row has a successor. *)
Lemma successor x : x ∈ l -> (x = i /\ i' ∈ set_row pi_id i' l) \/ (x <> i /\ x ∈ set_row pi_id i' l).
Proof.
  intros Hx. destruct (decide (pi_id x = pi_id i)) as [He|Hne].
  - left. split; [by apply (nodup_key_inj pi_id l)|apply replaced_in].
  - right. split; [congruence|]. apply elem_of_set_row_other; [done|]. destruct Hsame as (Hid & _). congruence.
Qed.

Lemma intents_ok_set_row : intents_ok l -> intents_ok (set_row pi_id i' l).
Proof.
  destruct Hsame as (Hid & Hk & _). intros [H1 H2]. split; by rewrite fmap_set_row.
Qed.

Lemma transfers_ok_set_row tr :
  transfers_ok l tr -> tr !! pi_idempotency_key i = None \/ maybe_sent (pi_state i') ->
  (pi_state i' = INTENT_RESOLVED -> exists fp ref, tr !! pi_idempotency_key i = Some (fp, ref)
     /\ pi_provider_transfer_reference i' = Some ref) ->
  transfers_ok (set_row pi_id i' l) tr.
Proof.
  destruct Hsame as (Hid & Hk & Hfp). intros [Hkn Hres] Hsent Hnew. split.
  - intros key fp ref Htr. destruct (Hkn _ _ _ Htr) as (x & Hx & Hkx & Hfx & Hsx).
    destruct (successor x Hx) as [[-> Hin]|[_ Hin]].
    + exists i'. split; [done|]. split; [congruence|]. split; [congruence|].
      destruct Hsent as [Hn|?]; [congruence|done].
    + exists x. done.
  - intros x Hx Hsx. apply in_set_row in Hx as [->|[Hx _]]; [|by apply Hres].
    rewrite Hk. by apply Hnew.
Qed.

Lemma call_ok_set_row t call :
  call_ok t l call ->
  (t < call.2 -> held_by call.1 i -> pi_claim_expires_at i = Some call.2 -> False) ->
  call_ok t (set_row pi_id i' l) call.
Proof.
  destruct Hsame as (Hid & Hk & Hfp). intros (x & Hx & (H1 & H2 & H3) & Hlive) Hno.
  destruct (successor x Hx) as [[-> Hin]|[_ Hin]].
  - exists i'. split; [done|]. split; [by repeat split; congruence|]. intros Ht. exfalso.
    destruct (Hlive Ht). by apply Hno.
  - by exists x.
Qed.

Lemma answer_ok_set_row tr answer :
  answer_ok l tr answer -> (held_by answer.1 i' -> False) -> answer_ok (set_row pi_id i' l) tr answer.
Proof.
  destruct Hsame as (Hid & Hk & Hfp). intros (x & Hx & (H1 & H2 & H3) & Hmiss & Href) Hno.
  destruct (successor x Hx) as [[-> Hin]|[_ Hin]]; [|by exists x].
  exists i'. rewrite Hk. split; [done|]. split; [by repeat split; congruence|]. split; [|done].
  intros Hh. by destruct (Hno Hh).
Qed.
End Replace.

(** ** The order book under one step *)

Lemma book_lookup tr l k : NoDup (pi_id <$> l) -> book_of tr l !! k = order_of tr <$> find_by_key pi_id k l.
Proof.
  unfold book_of, find_by_key, find_row. induction l as [|x l IH]; [done|]. rewrite fmap_cons. intros Hnd.
  apply NoDup_cons in Hnd as [Hx Hnd]. cbn.
  destruct (bool_decide_reflect (pi_id x = k)) as [<-|Hne]; [by rewrite lookup_insert_eq|].
  rewrite lookup_insert_ne by done. by apply IH.
Qed.

Lemma book_ext tr tr' l l' :
  NoDup (pi_id <$> l) -> NoDup (pi_id <$> l') ->
  (forall k, order_of tr <$> find_by_key pi_id k l = order_of tr' <$> find_by_key pi_id k l') ->
  book_of tr l = book_of tr' l'.
Proof. intros H1 H2 Hk. apply map_eq. intros k. by rewrite !book_lookup. Qed.

Lemma book_set_row tr l i i' k0 :
  NoDup (pi_id <$> l) -> i ∈ l -> same_identity i i' -> pi_id i = k0 ->
  book_of tr (set_row pi_id i' l) = <[k0 := order_of tr i']> (book_of tr l).
Proof.
  intros Hnd Hi Hsame <-. pose proof Hsame as (Hid & _). apply map_eq. intros k.
  rewrite book_lookup by (by rewrite set_row_keys). destruct (decide (k = pi_id i)) as [->|Hne].
  - rewrite lookup_insert_eq.
    by rewrite (find_set_row_same pi_id (pi_id i) i' l i) by (by try apply find_by_key_in).
  - rewrite lookup_insert_ne by done. rewrite find_set_row_other by congruence. by rewrite book_lookup.
Qed.

(** A replacement that is neither a cancellation nor undoes one. *)
Lemma book_set_row_same tr l i i' :
  NoDup (pi_id <$> l) -> i ∈ l -> same_identity i i' ->
  pi_state i <> INTENT_CANCELLED -> pi_state i' <> INTENT_CANCELLED ->
  book_of tr (set_row pi_id i' l) = book_of tr l.
Proof.
  intros Hnd Hi Hsame Hs Hs'. rewrite (book_set_row tr l i i' (pi_id i)) by done. apply insert_id.
  rewrite book_lookup, find_by_key_in by done. cbn. unfold order_of. destruct Hsame as (_ & -> & _).
  destruct (tr !! _); [done|]. by rewrite !bool_decide_eq_false_2.
Qed.

(** What a step of the environment keeps. *)
Definition keeps (tr : gmap string (string * string)) (l l' : list payout_submission_intent) : Prop :=
  intents_ok l' /\ transfers_ok l' tr
  /\ (forall t c, call_ok t l c -> call_ok t l' c)
  /\ (forall a, answer_ok l tr a -> answer_ok l' tr a)
  /\ rtc order_step (book_of tr l) (book_of tr l').

Lemma queued_keeps tr l i :
  intents_ok l -> transfers_ok l tr ->
  pi_state i = INTENT_PENDING -> pi_id i ∉ pi_id <$> l -> pi_idempotency_key i ∉ pi_idempotency_key <$> l ->
  keeps tr l (l ++ [i]).
Proof.
  intros [H1 H2] [Hk Hr] Hs Hid Hkey. split; [|split; [|split; [|split]]].
  - split; rewrite fmap_app; apply NoDup_app; (split; [done|]); (split; [|apply NoDup_singleton]);
      intros x Hx ->%list_elem_of_singleton; done.
  - split.
    + intros key fp ref Htr. destruct (Hk _ _ _ Htr) as (x & Hx & ?). exists x.
      by rewrite elem_of_app; eauto.
    + intros x [Hx| ->%list_elem_of_singleton]%elem_of_app Hsx; [by apply Hr|congruence].
  - intros t c (x & Hx & ?). exists x. rewrite elem_of_app. eauto.
  - intros a (x & Hx & ?). exists x. rewrite elem_of_app. eauto.
  - apply rtc_once.
    assert (Hnone : find_by_key pi_id (pi_id i) l = None).
    { destruct (find_by_key pi_id (pi_id i) l) as [x|] eqn:Hf; [|done]. apply find_by_key_Some in Hf as [Hx He].
      exfalso. apply Hid, list_elem_of_fmap. eauto. }
    assert (book_of tr (l ++ [i]) = <[pi_id i := Waiting]> (book_of tr l)) as ->.
    { apply map_eq. intros k. rewrite book_lookup.
      - unfold find_by_key in *. rewrite find_row_app. destruct (decide (k = pi_id i)) as [->|Hne].
        + rewrite Hnone, lookup_insert_eq. unfold find_row. cbn. rewrite bool_decide_eq_true_2 by done.
          cbn. unfold order_of. rewrite Hs. destruct (tr !! pi_idempotency_key i) as [[fp ref]|] eqn:Htr; [|done].
          destruct (Hk _ _ _ Htr) as (x & Hx & Hkx & _). exfalso. apply Hkey, list_elem_of_fmap. eauto.
        + rewrite lookup_insert_ne, book_lookup by done. unfold find_by_key.
          unfold find_row. cbn. rewrite (bool_decide_eq_false_2 (pi_id i = k)) by congruence.
          by destruct (List.find (fun r => bool_decide (pi_id r = k)) l).
      - rewrite fmap_app. apply NoDup_app. split; [done|]. split; [|apply NoDup_singleton].
        by intros x Hx ->%list_elem_of_singleton. }
    apply order_placed. by rewrite book_lookup, Hnone.
Qed.

Lemma unsent_pending tr l i :
  transfers_ok l tr -> intents_ok l -> i ∈ l -> pi_state i = INTENT_PENDING ->
  tr !! pi_idempotency_key i = None.
Proof.
  intros [Hk _] [_ Hkeys] Hi Hs. destruct (tr !! _) as [[fp ref]|] eqn:Htr; [|done]. exfalso.
  destruct (Hk _ _ _ Htr) as (x & Hx & Hkx & _ & Hsent).
  assert (x = i) as -> by (by apply (nodup_key_inj pi_idempotency_key l)).
  unfold maybe_sent in Hsent. rewrite Hs in Hsent. naive_solver.
Qed.

Lemma cancelled_keeps tr l i at_ :
  intents_ok l -> transfers_ok l tr -> i ∈ l -> pi_state i = INTENT_PENDING ->
  keeps tr l (set_row pi_id (cancelled_intent i at_) l).
Proof.
  intros Hl Htr Hi Hs. pose proof Hl as [Hids _].
  assert (Hsame : same_identity i (cancelled_intent i at_)) by done.
  assert (Hnone : tr !! pi_idempotency_key i = None) by (by apply (unsent_pending _ l)).
  split; [|split; [|split; [|split]]].
  - by apply (intents_ok_set_row l i).
  - apply (transfers_ok_set_row l i); [done..|by left|done].
  - intros t c Hc. apply (call_ok_set_row l i); [done..|]. intros _ [Hh _]. congruence.
  - intros a Ha. apply (answer_ok_set_row l i); [done..|]. by intros [Hh _].
  - apply rtc_once. rewrite (book_set_row tr l i _ (pi_id i)) by done.
    unfold order_of at 1. cbn [pi_idempotency_key pi_state cancelled_intent]. rewrite Hnone.
    rewrite bool_decide_eq_true_2 by done. apply order_cancelled.
    rewrite book_lookup, find_by_key_in by done. cbn. unfold order_of. by rewrite Hnone, Hs.
Qed.

Lemma environment_keeps tr l l' :
  rtc intent_step l l' -> intents_ok l -> transfers_ok l tr -> keeps tr l l'.
Proof.
  induction 1 as [l|l l1 l' Hstep _ IH]; intros Hl Htr.
  { split; [done|]. split; [done|]. by split_and!. }
  assert (Hk : keeps tr l l1).
  { destruct Hstep; [by apply queued_keeps|by apply cancelled_keeps]. }
  destruct Hk as (Hl1 & Htr1 & Hc1 & Ha1 & Hb1). destruct (IH Hl1 Htr1) as (Hl2 & Htr2 & Hc2 & Ha2 & Hb2).
  split; [done|]. split; [done|]. split; [auto|]. split; [auto|]. by etrans.
Qed.

(** ** The steps *)

Definition keeps_system (s s' : system) : Prop :=
  system_ok s' /\ rtc order_step (order_book s) (order_book s').

Lemma environment_step t db p calls answers db' :
  system_ok (System t db p calls answers) -> environment db db' ->
  keeps_system (System t db p calls answers) (System t db' p calls answers).
Proof.
  intros [Hp Hi Ht Hn Hg Hc Ha] [He Hat]. cbn in *.
  destruct (environment_keeps _ _ _ He Hi Ht) as (Hi' & Ht' & Hc' & Ha' & Hb). split; [|exact Hb].
  split; cbn; auto. by rewrite Hat.
Qed.

(** Forgetting calls and answers, and letting time pass. *)
Lemma forget_step t t' db p calls answers calls' answers' :
  system_ok (System t db p calls answers) -> t <= t' ->
  calls' ⊆ calls -> answers' ⊆ answers -> sublist (claim_tokens calls' answers') (claim_tokens calls answers) ->
  keeps_system (System t db p calls answers) (System t' db p calls' answers').
Proof.
  intros [Hp Hi Ht Hn Hg Hc Ha] Htime Hcs Has Hsub. cbn in *. split; [|done]. split; cbn; [done..| | | |].
  - by eapply sublist_NoDup.
  - intros token Htok. apply Hg. eapply elem_of_submseteq; [exact Htok|]. by apply sublist_submseteq.
  - intros c Hin. destruct (Hc c) as (i & Hi1 & Hi2 & Hi3); [by apply Hcs|]. exists i.
    split; [done|]. split; [done|]. intros ?. apply Hi3. lia.
  - auto.
Qed.

Lemma claim_action_free i t action :
  claim_action i t = Some action ->
  pi_state i <> INTENT_RESOLVED /\ pi_state i <> INTENT_CANCELLED
  /\ (pi_state i = INTENT_CLAIMED -> forall e, pi_claim_expires_at i = Some e -> e <= t).
Proof.
  unfold claim_action. destruct (pi_state i); try done. intros Ha. split; [done|]. split; [done|].
  intros _ e He. rewrite He in Ha. destruct (Z.ltb_spec t e); [done|lia].
Qed.

Lemma claim_step t db p calls answers i c db' :
  system_ok (System t db p calls answers) ->
  claim_payout_submission_intent settings t db i capabilities = Ok (Some (c, db')) ->
  keeps_system (System t db p calls answers)
    (System t db' p ((c, t + DISBURSEMENT_CLAIM_LEASE) :: calls) answers).
Proof.
  intros [Hp Hi Ht Hn Hg Hc Ha] Hrun. cbn in *.
  apply claim_Ok in Hrun as (x & b & l & action & Hx & _ & _ & Hact & _ & Hw & _).
  apply get_intent_Some in Hx as [Hx _]. apply write_claim_Ok in Hw as (Hint & (a & Hat & Htok & _) & Hcl).
  set (token := uuid4 (sa_claim_token <$> ds_attempts db)) in *.
  set (x' := claimed_intent x token action (t + DISBURSEMENT_CLAIM_LEASE) t) in *.
  assert (Hfresh : token ∉ sa_claim_token <$> ds_attempts db) by apply uuid4_fresh.
  apply claim_action_free in Hact as (Hnr & Hnc & Hexp).
  pose proof Hi as [Hids _]. assert (Hsame : same_identity x x') by done.
  assert (Hother : forall c0, cl_claim_token c0 ∈ claim_tokens calls answers -> held_by c0 x' -> False).
  { intros c0 Hc0 [_ Htk]. cbn in Htk. injection Htk as Htk. apply Hfresh. rewrite Htk. by apply Hg. }
  assert (Hincall : forall k, k ∈ calls -> cl_claim_token k.1 ∈ claim_tokens calls answers).
  { intros k Hk. unfold claim_tokens. apply list_elem_of_fmap. exists k. by rewrite elem_of_app; auto. }
  assert (Hinans : forall k, k ∈ answers -> cl_claim_token k.1 ∈ claim_tokens calls answers).
  { intros k Hk. unfold claim_tokens. apply list_elem_of_fmap. exists (k.1, 0). split; [done|].
    rewrite elem_of_app. right. apply list_elem_of_fmap. by exists k. }
  split; [|unfold order_book; cbn; rewrite Hint, (book_set_row_same _ _ x) by done; done].
  split; cbn; [done|rewrite Hint; by apply (intents_ok_set_row _ x)| | | | |].
  - rewrite Hint. apply (transfers_ok_set_row _ x); [done..|right; by left|done].
  - rewrite Hcl. cbn. constructor; [|exact Hn]. intros Hin. by apply Hfresh, Hg.
  - intros tk Htk. rewrite Hat, fmap_app, elem_of_app. cbn. rewrite Htok.
    apply elem_of_cons in Htk as [->|Htk]; [right; rewrite Hcl; left|left; by apply Hg].
  - intros k [->|Hk]%elem_of_cons; rewrite Hint.
    + exists x'. rewrite Hcl. split; [by apply (replaced_in _ x)|]. done.
    + apply (call_ok_set_row _ x); [done..|by apply Hc|]. intros Hlt [Hs _] He. cbn in *.
      specialize (Hexp Hs _ He). lia.
  - intros k Hk. rewrite Hint. apply (answer_ok_set_row _ x); [done..|by apply Ha|]. by apply Hother, Hinans.
Qed.

(** ** The provider call *)

(** What one call does to the transfers and what its answer says. *)
Definition call_effect (p p' : P) (c : claimed_disbursement_intent) (o : disbursement_claim_observation) : Prop :=
  provider_ok p'
  /\ (transfers p' = transfers p
      \/ (cl_action c = CLAIM_SUBMIT /\ transfers p !! cl_idempotency_key c = None /\ ob_outcome o <> OBS_NOT_FOUND
          /\ exists ref, transfers p' = <[cl_idempotency_key c := (cl_instruction_fingerprint c, ref)]> (transfers p)))
  /\ (ob_outcome o = OBS_NOT_FOUND -> transfers p' !! cl_idempotency_key c = None)
  /\ (forall ref, ob_outcome o = OBS_SUBMITTED \/ ob_outcome o = OBS_FOUND ->
        ob_provider_transfer_reference o = Some ref ->
        exists fp, transfers p' !! cl_idempotency_key c = Some (fp, ref)).

Lemma call_provider_effect p c p' o :
  provider_ok p -> key_ok (cl_idempotency_key c) -> call_provider p c = (p', o) -> call_effect p p' c o.
Proof.
  intros Hp Hkey Hcall. unfold call_provider in Hcall. destruct (cl_action c) eqn:Hact.
  - pose proof (submit_ok p (uuid_str (cl_batch_id c)) (claim_instruction c) Hp Hkey) as Hok.
    pose proof (submit_once p (uuid_str (cl_batch_id c)) (claim_instruction c) Hp Hkey) as Honce.
    pose proof (submit_reference p (uuid_str (cl_batch_id c)) (claim_instruction c)) as Href.
    destruct (submit_batch _ _ _) as [p1 r]. cbn [fst snd] in *. injection Hcall as <- <-.
    assert (Hout : ob_outcome (observe_submission c r) <> OBS_NOT_FOUND).
    { unfold observe_submission. destruct r; [by case_match|done]. }
    split; [done|]. split; [|split; [done|]].
    + destruct Honce as [->|(Hn & ref & ->)]; [by left|]. right. cbn in *. eauto.
    + intros ref _ Hr. unfold observe_submission in Hr. destruct r as [receipt|]; [|done].
      case_match; [done|]. cbn in Hr. by apply (Href receipt ref Hp Hkey eq_refl).
  - pose proof (lookup_ok p (cl_idempotency_key c) (cl_instruction_fingerprint c) Hp Hkey) as Hok.
    pose proof (lookup_silent p (cl_idempotency_key c) (cl_instruction_fingerprint c) Hp Hkey) as Hsil.
    pose proof (lookup_missing p (cl_idempotency_key c) (cl_instruction_fingerprint c)) as Hmiss.
    pose proof (lookup_reference p (cl_idempotency_key c) (cl_instruction_fingerprint c)) as Href.
    destruct (lookup_line _ _ _) as [p1 r]. cbn [fst snd] in *. injection Hcall as <- <-.
    unfold call_effect. rewrite Hsil. split; [done|]. split; [by left|]. destruct r as [answer|]; [|by split; [|intros ? [?|?]]].
    cbn. specialize (Hmiss answer Hp Hkey eq_refl). destruct (pk_status answer) eqn:Hst; cbn.
    + split; [done|]. intros ref _ Hr. by apply (Href answer ref Hp Hkey eq_refl).
    + split; [auto|]. by intros ? [?|?].
    + by split; [|intros ? [?|?]].
Qed.

(** The answer may be lost on the way back. *)
Lemma lost_effect p p' c o error : call_effect p p' c o -> call_effect p p' c (unknown_observation error).
Proof.
  intros (Hok & Htr & _ & _). split; [done|]. split; [|split; [done|by intros ? [?|?]]].
  destruct Htr as [->|(? & ? & _ & ?)]; [by left|right]. done.
Qed.

Lemma call_tokens calls1 c e calls2 answers o :
  claim_tokens (calls1 ++ (c, e) :: calls2) answers ≡ₚ claim_tokens (calls1 ++ calls2) ((c, o) :: answers).
Proof.
  unfold claim_tokens. rewrite !fmap_app, fmap_cons, !fmap_cons. cbn. rewrite <- !app_assoc. cbn.
  rewrite (Permutation_middle _ _ (cl_claim_token c)). solve_Permutation.
Qed.

Lemma transfers_ok_insert l tr i fp ref :
  transfers_ok l tr -> i ∈ l -> pi_state i = INTENT_CLAIMED -> pi_instruction_fingerprint i = fp ->
  tr !! pi_idempotency_key i = None -> transfers_ok l (<[pi_idempotency_key i := (fp, ref)]> tr).
Proof.
  intros [Hk Hr] Hi Hs Hfp Hn. split.
  - intros key fp' ref' Htr. destruct (decide (key = pi_idempotency_key i)) as [->|Hne].
    + rewrite lookup_insert_eq in Htr. injection Htr as <- <-. exists i. rewrite Hs. by repeat split; [..|left].
    + rewrite lookup_insert_ne in Htr by done. eauto.
  - intros x Hx Hsx. destruct (Hr x Hx Hsx) as (fp' & ref' & Htr & ?). exists fp', ref'. split; [|done].
    rewrite lookup_insert_ne; [done|congruence].
Qed.

(** An intent the provider has just paid: one order is sent. *)
Lemma book_sent tr l i fp ref :
  intents_ok l -> i ∈ l -> pi_state i = INTENT_CLAIMED -> tr !! pi_idempotency_key i = None ->
  order_step (book_of tr l) (book_of (<[pi_idempotency_key i := (fp, ref)]> tr) l).
Proof.
  intros [Hids Hkeys] Hi Hs Hn.
  assert (book_of (<[pi_idempotency_key i := (fp, ref)]> tr) l = <[pi_id i := Sent fp ref]> (book_of tr l)) as ->.
  { apply map_eq. intros k. rewrite book_lookup by done. destruct (decide (k = pi_id i)) as [->|Hne].
    - rewrite lookup_insert_eq, find_by_key_in by done. cbn. unfold order_of. by rewrite lookup_insert_eq.
    - rewrite lookup_insert_ne, book_lookup by done.
      destruct (find_by_key pi_id k l) as [x|] eqn:Hx; [|done]. cbn. unfold order_of.
      apply find_by_key_Some in Hx as [Hx <-]. rewrite lookup_insert_ne; [done|]. intros Hk.
      apply Hne. f_equal. by apply (nodup_key_inj pi_idempotency_key l). }
  apply order_sent. rewrite book_lookup, find_by_key_in by done. cbn. unfold order_of. by rewrite Hn, Hs.
Qed.

(** An answer stays true when another claim's submission is paid. *)
Lemma answer_ok_insert tr l i fp ref answer :
  intents_ok l -> i ∈ l -> tr !! pi_idempotency_key i = None ->
  (held_by answer.1 i -> False) ->
  answer_ok l tr answer -> answer_ok l (<[pi_idempotency_key i := (fp, ref)]> tr) answer.
Proof.
  intros [Hids Hkeys] Hi Hn Hno (x & Hx & Hc & Hmiss & Href). exists x. split; [done|]. split; [done|]. split.
  - intros Hh Ho. destruct (decide (pi_idempotency_key x = pi_idempotency_key i)) as [He|Hne].
    + exfalso. apply Hno. assert (x = i) as -> by (by apply (nodup_key_inj pi_idempotency_key l)). done.
    + rewrite lookup_insert_ne by done. by apply Hmiss.
  - intros r Ho Hr. destruct (Href r Ho Hr) as [fp' Htr]. exists fp'. rewrite lookup_insert_ne; [done|congruence].
Qed.

Lemma call_step_keeps t db p calls1 c e calls2 answers p' o :
  system_ok (System t db p (calls1 ++ (c, e) :: calls2) answers) ->
  t < e \/ cl_action c = CLAIM_QUERY -> call_effect p p' c o ->
  keeps_system (System t db p (calls1 ++ (c, e) :: calls2) answers)
    (System t db p' (calls1 ++ calls2) ((c, o) :: answers)).
Proof.
  intros [Hp Hi Ht Hn Hg Hc Ha] Hlease (Hok & Htr & Hmiss & Href). cbn in *.
  destruct (Hc (c, e)) as (i & Hil & (Hid & Hkey & Hfp) & Hlive); [rewrite elem_of_app, elem_of_cons; auto|].
  cbn [fst snd] in *. rewrite (call_tokens calls1 c e calls2 answers o) in Hn.
  assert (Hg' : forall tk, tk ∈ claim_tokens (calls1 ++ calls2) ((c, o) :: answers) ->
                tk ∈ sa_claim_token <$> ds_attempts db)
    by (intros tk Htk; apply Hg; by rewrite (call_tokens calls1 c e calls2 answers o)).
  assert (Hc' : forall k, k ∈ calls1 ++ calls2 -> call_ok t (st_intents db) k)
    by (intros k Hk; apply Hc; rewrite elem_of_app, elem_of_cons in *; tauto).
  destruct Htr as [Htr|(Hact & Hnone & Hout & ref & Htr)].
  - split; [|unfold order_book; cbn; by rewrite Htr]. split; cbn; rewrite ?Htr; try done.
    intros k [->|Hk]%elem_of_cons; [|by apply Ha]. exists i.
    split; [done|]. split; [done|]. cbn [fst snd]. rewrite Hkey, <- Htr. auto.
  - assert (Hlt : t < e) by (destruct Hlease; [done|congruence]). destruct (Hlive Hlt) as [[Hst Htok] _].
    rewrite <- Hkey in Hnone, Htr. rewrite <- Hfp in Htr.
    split; [|unfold order_book; cbn; rewrite Htr; by apply rtc_once, book_sent].
    split; cbn; rewrite ?Htr; try done; [by apply transfers_ok_insert|].
    intros k [->|Hk]%elem_of_cons.
    + exists i. split; [done|]. split; [done|]. split; [done|]. cbn [fst snd]. intros r Ho Hr.
      rewrite <- Htr, Hkey. by apply Href.
    + apply answer_ok_insert; [done..| |by apply Ha]. intros [_ Hk2]. rewrite Htok in Hk2. injection Hk2 as Hk2.
      unfold claim_tokens in Hn. cbn in Hn. rewrite fmap_app, fmap_cons in Hn. cbn in Hn.
      apply NoDup_app in Hn as (_ & _ & Hn). apply NoDup_cons in Hn as [Hn _]. apply Hn. rewrite Hk2.
      apply list_elem_of_fmap. exists (k.1, 0). split; [done|]. apply list_elem_of_fmap. by exists k.
Qed.

Lemma answer_tokens calls answers1 c o answers2 :
  claim_tokens calls (answers1 ++ (c, o) :: answers2)
  ≡ₚ cl_claim_token c :: claim_tokens calls (answers1 ++ answers2).
Proof.
  unfold claim_tokens. rewrite !fmap_app, fmap_cons, fmap_cons. cbn. solve_Permutation.
Qed.

Lemma claim_live_held c i t : claim_live c i t = true -> held_by c i.
Proof. unfold claim_live. intros Hl. bool_prop. by split. Qed.

Lemma resolve_step_keeps t db p calls answers1 c o answers2 s db' :
  system_ok (System t db p calls (answers1 ++ (c, o) :: answers2)) ->
  _resolve_payout_submission_claim t db c o = Ok (s, db') ->
  keeps_system (System t db p calls (answers1 ++ (c, o) :: answers2))
    (System t db' p calls (answers1 ++ answers2)).
Proof.
  intros Hsys Hrun. apply resolve_Ok in Hrun as [[_ ->]|(i & i' & st & Hi & Hlive & _ & Hat & Hint & Hcase)].
  { apply forget_step; [done|lia|done|intros a; rewrite !elem_of_app, elem_of_cons; tauto|].
    unfold claim_tokens. apply fmap_sublist, sublist_app; [done|].
    apply fmap_sublist, sublist_app; [done|]. by apply sublist_cons. }
  destruct Hsys as [Hp Hio Ht Hn Hg Hc Ha]. cbn in *. rewrite (answer_tokens calls answers1 c o answers2) in Hn.
  apply NoDup_cons in Hn as [Hctok Hn].
  apply get_intent_Some in Hi as [Hi Hid]. pose proof Hio as [Hids Hkeys].
  apply claim_live_held in Hlive as [Hst Htok].
  destruct (Ha (c, o)) as (x & Hx & (Hxid & _) & Hmiss & Href); [rewrite elem_of_app, elem_of_cons; auto|].
  cbn [fst snd] in *. assert (x = i) as -> by (by apply (nodup_key_inj pi_id (st_intents db)); [..|congruence]).
  assert (Hsame : same_identity i i') by (destruct Hcase as [(_ & -> & _)|[(_ & -> & _)|(_ & ->)]]; done).
  assert (Hst' : pi_state i' = st) by (destruct Hcase as [(-> & -> & _)|[(-> & -> & _)|(-> & ->)]]; done).
  assert (Hnc : st <> INTENT_CLAIMED /\ st <> INTENT_CANCELLED)
    by (destruct Hcase as [(-> & _)|[(-> & _)|(-> & _)]]; done).
  split; [|unfold order_book; cbn; rewrite Hint, (book_set_row_same _ _ i); [done..| |];
           [congruence|rewrite Hst'; by apply Hnc]].
  split; cbn; rewrite ?Hint, ?Hat; [done|by apply (intents_ok_set_row _ i)| | | | |]; [|done| | |].
  - apply (transfers_ok_set_row _ i); [done..| |].
    + destruct Hcase as [(-> & _)|[(-> & _ & Ho)|(-> & _)]]; rewrite Hst';
        [right; by right; right|left; by apply Hmiss|right; by right; left].
    + intros Hr. destruct Hcase as [(-> & -> & Hpres & Ho)|[(-> & _)|(-> & _)]]; [|congruence..]. cbn.
      unfold present in Hpres. destruct (ob_provider_transfer_reference o) as [ref|] eqn:Hor; [|done].
      destruct (Href ref Ho eq_refl) as [fp Htr]. by exists fp, ref.
  - intros tk Htk. apply Hg. rewrite (answer_tokens calls answers1 c o answers2). by right.
  - intros k Hk. apply (call_ok_set_row _ i); [done..|by apply Hc|]. intros _ [_ Hk2] _.
    rewrite Htok in Hk2. injection Hk2 as Hk2. apply Hctok. rewrite Hk2. unfold claim_tokens.
    apply list_elem_of_fmap. exists k. rewrite elem_of_app. by auto.
  - intros k Hk. apply (answer_ok_set_row _ i); [done..| |].
    + apply Ha. rewrite elem_of_app, elem_of_cons in *. tauto.
    + intros [Hs _]. destruct Hnc. congruence.
Qed.

(** ** The keys in use *)

Definition system_keys (s : system) : list string := pi_idempotency_key <$> st_intents (sy_db s).

(** The provider tells the keys of the intents apart. *)
Definition keys_ok (s : system) : Prop := forall k, k ∈ system_keys s -> key_ok k.

Lemma keys_set_row l i i' :
  NoDup (pi_id <$> l) -> i ∈ l -> same_identity i i' ->
  pi_idempotency_key <$> set_row pi_id i' l = pi_idempotency_key <$> l.
Proof. intros Hids Hi Hsame. apply (fmap_set_row l i); [done..|]. by destruct Hsame as (_ & -> & _). Qed.

Lemma environment_keys l l' :
  rtc intent_step l l' -> NoDup (pi_id <$> l) ->
  NoDup (pi_id <$> l') /\ pi_idempotency_key <$> l ⊆ pi_idempotency_key <$> l'.
Proof.
  induction 1 as [l|l l1 l' Hstep _ IH]; intros Hids; [done|]. destruct Hstep as [i _ Hid _ _|i at_ Hi _].
  - destruct IH as [Hids' Hsub].
    + rewrite fmap_app. apply NoDup_app. split; [done|]. split; [|apply NoDup_singleton].
      by intros x Hx ->%list_elem_of_singleton.
    + split; [done|]. etrans; [|exact Hsub]. rewrite fmap_app. set_solver.
  - rewrite <- (keys_set_row l i (cancelled_intent i at_)) by done. apply IH. by rewrite set_row_keys.
Qed.

Definition ids_unique (s : system) : Prop := NoDup (pi_id <$> st_intents (sy_db s)).

(** Intents are never removed and never change their key. *)
Lemma system_step_keys s s' :
  system_step s s' -> ids_unique s -> ids_unique s' /\ system_keys s ⊆ system_keys s'.
Proof.
  unfold ids_unique, system_keys. intros Hstep Hids. destruct Hstep; cbn in *; try done.
  - match goal with H : claim_payout_submission_intent _ _ _ _ _ = _ |- _ =>
      apply claim_Ok in H as (x & l & b & action & Hx & _ & _ & _ & _ & Hw & _) end.
    apply get_intent_Some in Hx as [Hx _]. apply write_claim_Ok in Hw as (-> & _).
    by rewrite (keys_set_row _ x), set_row_keys.
  - match goal with H : _resolve_payout_submission_claim _ _ _ _ = _ |- _ =>
      apply resolve_Ok in H as [[_ ->]|(i & i' & st & Hi & _ & _ & _ & -> & Hcase)] end; [done|].
    apply get_intent_Some in Hi as [Hi _]. rewrite set_row_keys, (keys_set_row _ i); [done..|].
    by destruct Hcase as [(_ & -> & _)|[(_ & -> & _)|(_ & ->)]].
  - eapply environment_keys; [by eapply submit_payout_batch_environment|done].
  - eapply environment_keys; [by eapply approve_payout_batch_environment|done].
  - eapply environment_keys; [by eapply void_payout_batch_environment|done].
  - eapply environment_keys; [by eapply cancel_uncalled_trip_payouts_environment|done].
Qed.

Lemma system_run_keys s s' : rtc system_step s s' -> ids_unique s -> keys_ok s' -> keys_ok s.
Proof.
  induction 1 as [s|s s1 s' Hstep _ IH]; intros Hids Hk; [done|].
  destruct (system_step_keys _ _ Hstep Hids) as [Hids1 Hsub]. intros k Hin. apply (IH Hids1 Hk). by apply Hsub.
Qed.

(** ** Refinement *)

Lemma call_key_ok t db p calls1 c e calls2 answers :
  system_ok (System t db p (calls1 ++ (c, e) :: calls2) answers) ->
  keys_ok (System t db p (calls1 ++ (c, e) :: calls2) answers) -> key_ok (cl_idempotency_key c).
Proof.
  intros [_ _ _ _ _ Hc _] Hk. cbn in Hc.
  destruct (Hc (c, e)) as (i & Hi & (_ & Hkey & _) & _); [rewrite elem_of_app, elem_of_cons; auto|].
  apply Hk. cbn in Hkey. rewrite <- Hkey. by apply list_elem_of_fmap_2.
Qed.

Lemma system_step_keeps s s' : system_step s s' -> system_ok s -> keys_ok s -> keeps_system s s'.
Proof.
  intros Hstep Hok Hkeys. destruct Hstep.
  - by apply forget_step.
  - by eapply claim_step.
  - eapply call_step_keeps; [done..|]. eapply call_provider_effect; [apply Hok|by eapply call_key_ok|done].
  - eapply call_step_keeps; [done..|]. eapply lost_effect, call_provider_effect; [apply Hok|by eapply call_key_ok|done].
  - apply forget_step; [done|lia|intros a; rewrite !elem_of_app, elem_of_cons; tauto|done|].
    unfold claim_tokens. apply fmap_sublist, sublist_app; [|done]. apply sublist_app; [done|by apply sublist_cons].
  - apply forget_step; [done|lia|done|intros x; rewrite !elem_of_app, elem_of_cons; tauto|].
    unfold claim_tokens. apply fmap_sublist, sublist_app; [done|]. apply fmap_sublist, sublist_app; [done|].
    by apply sublist_cons.
  - by eapply resolve_step_keeps.
  - eapply environment_step; [done|by eapply submit_payout_batch_environment].
  - eapply environment_step; [done|by eapply approve_payout_batch_environment].
  - eapply environment_step; [done|by eapply void_payout_batch_environment].
  - eapply environment_step; [done|by eapply cancel_uncalled_trip_payouts_environment].
Qed.

(** A run whose keys, which are those of its end, the provider tells apart. *)
Lemma system_run_keeps s s' : rtc system_step s s' -> system_ok s -> keys_ok s' -> keeps_system s s'.
Proof.
  intros Hrun. induction Hrun as [s|s s1 s' Hstep Hrun IH]; intros Hok Hkeys; [by split|].
  pose proof (system_run_keys _ _ (rtc_l _ _ _ _ Hstep Hrun) (io_ids _ (so_intents _ Hok)) Hkeys) as Hk.
  destruct (system_step_keeps _ _ Hstep Hok Hk) as [Hok1 Hb1]. destruct (IH Hok1 Hkeys) as [Hok' Hb']. split; [done|].
  by etrans.
Qed.

(** Before the first batch is queued. *)
Definition initial (s : system) : Prop :=
  st_intents (sy_db s) = [] /\ sy_calls s = [] /\ sy_answers s = []
  /\ provider_ok (sy_provider s) /\ transfers (sy_provider s) = ∅.

Lemma initial_ok s : initial s -> system_ok s.
Proof.
  destruct s as [t db p calls answers]. intros (Hi & Hc & Ha & Hp & Ht). cbn in *. subst.
  split; cbn; rewrite ?Hi, ?Ht; [done|split; constructor|split| | | |]; try (intros; set_solver).
  constructor.
Qed.

(** C1: any number of workers that claim, call the provider, lose answers, crash
    and resolve in any order, with batches queued, approved, voided and trips
    cancelled in between, implement the order book: every run of the system is
    a run of orders that are placed, then sent once under one reference or
    cancelled unsent, provided the provider tells the idempotency keys in use
    apart and keeps its two capabilities, and a submission reaches it before the
    claim's lease ends. *)
Theorem submission_refines_order_book s s' :
  initial s -> rtc system_step s s' -> keys_ok s' ->
  order_book s = ∅ /\ rtc order_step ∅ (order_book s').
Proof.
  intros Hinit Hrun Hkeys. assert (Hempty : order_book s = ∅).
  { destruct Hinit as (Hi & _). unfold order_book. by rewrite Hi. }
  split; [done|]. rewrite <- Hempty. apply system_run_keeps; [done|by apply initial_ok|done].
Qed.

(** A sent or cancelled order stays what it is. *)
Lemma order_final book book' k o :
  rtc order_step book book' -> book !! k = Some o -> o <> Waiting -> book' !! k = Some o.
Proof.
  induction 1 as [b|b b1 b' Hstep _ IH]; intros Hk Ho; [done|]. apply IH; [|done].
  destruct Hstep as [k'|k'|k']; destruct (decide (k = k')) as [->|];
    rewrite ?lookup_insert_eq, ?lookup_insert_ne by done; congruence.
Qed.

Lemma order_book_lookup s i :
  system_ok s -> i ∈ st_intents (sy_db s) ->
  order_book s !! pi_id i = Some (order_of (transfers (sy_provider s)) i).
Proof.
  intros [_ [Hids _] _ _ _ _ _] Hi. unfold order_book. by rewrite book_lookup, find_by_key_in.
Qed.

(** C2: a payment is made at most once and never after its cancellation.  In
    every reachable state each transfer the provider executed carries the key
    and the frozen instruction of exactly one intent; a pending or cancelled
    intent has none, a resolved one has the transfer whose reference it
    records; and in every later state a transfer is still there unchanged and
    a cancelled intent still has none. *)
Theorem payment_sent_at_most_once s s1 s2 i i2 :
  initial s -> rtc system_step s s1 -> rtc system_step s1 s2 -> keys_ok s2 ->
  i ∈ st_intents (sy_db s1) -> i2 ∈ st_intents (sy_db s2) -> pi_id i2 = pi_id i ->
  (forall key fp ref, transfers (sy_provider s1) !! key = Some (fp, ref) ->
     exists! x, x ∈ st_intents (sy_db s1) /\ pi_idempotency_key x = key /\ pi_instruction_fingerprint x = fp)
  /\ (pi_state i = INTENT_PENDING \/ pi_state i = INTENT_CANCELLED ->
      transfers (sy_provider s1) !! pi_idempotency_key i = None)
  /\ (pi_state i = INTENT_RESOLVED -> exists fp ref,
      transfers (sy_provider s1) !! pi_idempotency_key i = Some (fp, ref)
      /\ pi_provider_transfer_reference i = Some ref)
  /\ (forall fp ref, transfers (sy_provider s1) !! pi_idempotency_key i = Some (fp, ref) ->
      transfers (sy_provider s2) !! pi_idempotency_key i2 = Some (fp, ref))
  /\ (pi_state i = INTENT_CANCELLED -> transfers (sy_provider s2) !! pi_idempotency_key i2 = None).
Proof.
  intros Hinit H1 H2 Hkeys Hi Hi2 Hid. pose proof (initial_ok _ Hinit) as Hok.
  assert (Hids : ids_unique s) by apply (so_intents _ Hok).
  assert (Hkeys1 : keys_ok s1).
  { apply (system_run_keys _ _ H2); [|done]. clear -H1 Hids. induction H1 as [s|s s0 s1 Hstep _ IH]; [done|].
    by apply IH, (system_step_keys s). }
  destruct (system_run_keeps _ _ H1 Hok Hkeys1) as [Hok1 _].
  destruct (system_run_keeps _ _ H2 Hok1 Hkeys) as [Hok2 Hbook].
  pose proof (order_book_lookup _ _ Hok1 Hi) as Hb1. pose proof (order_book_lookup _ _ Hok2 Hi2) as Hb2.
  rewrite Hid in Hb2. pose proof (so_intents _ Hok1) as [_ Hkinj]. pose proof (so_transfers _ Hok1) as [Hkn Hres].
  assert (Hnone : pi_state i = INTENT_PENDING \/ pi_state i = INTENT_CANCELLED ->
                  transfers (sy_provider s1) !! pi_idempotency_key i = None).
  { intros Hs. destruct (transfers _ !! _) as [[fp ref]|] eqn:Htr; [|done].
    destruct (Hkn _ _ _ Htr) as (x & Hx & Hk & _ & Hsent).
    assert (x = i) as -> by (by apply (nodup_key_inj pi_idempotency_key (st_intents (sy_db s1)))).
    unfold maybe_sent in Hsent. naive_solver congruence. }
  unfold order_of in Hb1, Hb2.
  split; [|split; [exact Hnone|split; [by apply Hres|split]]].
  - intros key fp ref Htr. destruct (Hkn _ _ _ Htr) as (x & Hx & Hk & Hf & _). exists x. split; [done|].
    intros y (Hy & Hky & _). apply (nodup_key_inj pi_idempotency_key (st_intents (sy_db s1))); congruence.
  - intros fp ref Htr. rewrite Htr in Hb1. pose proof (order_final _ _ _ _ Hbook Hb1 ltac:(done)) as Hb.
    rewrite Hb2 in Hb. destruct (transfers (sy_provider s2) !! _) as [[fp2 ref2]|]; [congruence|].
    by destruct (bool_decide _).
  - intros Hs. rewrite Hnone, Hs, bool_decide_eq_true_2 in Hb1 by auto.
    pose proof (order_final _ _ _ _ Hbook Hb1 ltac:(done)) as Hb. rewrite Hb2 in Hb.
    by destruct (transfers (sy_provider s2) !! _) as [[fp2 ref2]|].
Qed.

End PayOnce.

(** ** A run for the examples *)

Module PayOnceSample.
Import DisbursementSample BatchSample.

Definition granted (r : result (option (claimed_disbursement_intent * disbursement_store)))
    : option (claimed_disbursement_intent * disbursement_store) :=
  match r with Ok c => c | Raise _ => None end.

Definition claimed : option (claimed_disbursement_intent * disbursement_store) :=
  granted (claim_payout_submission_intent settings 700 queued 1 (@capabilities _ fake_adapter)).

Definition start : system := System 600 store provider [] [].

(** One intent is claimed, called and resolved; the other waits. *)
Definition recorded (p : fake_provider) (r : result (option submission_intent_state * disbursement_store))
    : option system :=
  match r with Ok r => Some (System 702 r.2 p [] []) | Raise _ => None end.

Definition finish : option system :=
  '(c, db) ← claimed;
  let '(p, o) := call_provider provider c in
  recorded p (_resolve_payout_submission_claim 702 db c o).

(** The first payment is made, the second waits. *)
Definition outcome (s : system) : bool :=
  bool_decide (order_book s !! 2%N = Some Waiting)
  && match order_book s !! 1%N with
     | Some (Sent _ ref) => bool_decide (ref = "fake-line-" +:+ uuid_str 61)%string
     | _ => false
     end
  && match find_by_key pi_id 1 (st_intents (sy_db s)) with
     | Some i => bool_decide (pi_state i = INTENT_RESOLVED)
     | None => false
     end.
End PayOnceSample.

Definition sample_step : system -> system -> Prop :=
  @system_step DisbursementSample.digest FraudSample.fingerprint BatchSample.settings fake_provider fake_adapter.

Lemma sample_run s : PayOnceSample.finish = Some s -> rtc sample_step PayOnceSample.start s.
Proof.
  unfold PayOnceSample.finish, PayOnceSample.claimed, PayOnceSample.granted, PayOnceSample.start, BatchSample.queued.
  destruct (submit_payout_batch _ _ _ _ _) as [[out q]|] eqn:Hs; [|vm_compute in Hs; discriminate].
  destruct (claim_payout_submission_intent _ _ _ _ _) as [[[c db]|]|] eqn:Hc; [|done..]. cbn.
  destruct (call_provider BatchSample.provider c) as [p o] eqn:Hcall.
  destruct (_resolve_payout_submission_claim 702 db c o) as [[st db']|] eqn:Hr; [|done]. intros [= <-].
  eapply rtc_l; [by eapply step_submit|]. eapply rtc_l; [by apply (step_tick _ _ 700)|].
  eapply rtc_l; [by apply (step_claim _ 700 _ _ [] [] 1 c db)|].
  eapply rtc_l; [by apply (step_tick _ _ 701)|].
  eapply rtc_l; [apply (step_call _ 701 _ _ [] c (700 + DISBURSEMENT_CLAIM_LEASE) [] [] p o); [by left|done]|].
  eapply rtc_l; [by apply (step_tick _ _ 702)|].
  apply rtc_once. by apply (step_resolve_claim _ 702 _ _ [] [] c o [] st db').
Qed.

Lemma sample_initial : initial PayOnceSample.start.
Proof. repeat split. Qed.

Lemma sample_finish : exists s, PayOnceSample.finish = Some s /\ PayOnceSample.outcome s = true.
Proof.
  assert (match PayOnceSample.finish with Some s => PayOnceSample.outcome s | None => false end = true) as H
    by (vm_compute; reflexivity).
  destruct PayOnceSample.finish as [s|]; [by exists s|done].
Qed.

Lemma submission_refines_order_book_witness :
  exists s, PayOnceSample.finish = Some s /\ PayOnceSample.outcome s = true
    /\ rtc sample_step PayOnceSample.start s /\ rtc order_step ∅ (order_book s).
Proof.
  destruct sample_finish as (s & Hf & Ho). exists s. split; [exact Hf|]. split; [exact Ho|].
  split; [exact (sample_run s Hf)|].
  exact (proj2 (@submission_refines_order_book DisbursementSample.digest FraudSample.fingerprint
    BatchSample.settings fake_provider fake_adapter fake_laws _ _ sample_initial (sample_run s Hf) (fun _ _ => I))).
Defined.

Lemma payment_sent_at_most_once_witness :
  exists s i, PayOnceSample.finish = Some s /\ i ∈ st_intents (sy_db s)
    /\ exists fp ref, transfers (sy_provider s) !! pi_idempotency_key i = Some (fp, ref)
         /\ pi_provider_transfer_reference i = Some ref.
Proof.
  destruct sample_finish as (s & Hf & Ho). unfold PayOnceSample.outcome in Ho.
  destruct (find_by_key pi_id 1 (st_intents (sy_db s))) as [i|] eqn:Hi; [|by rewrite andb_false_r in Ho].
  apply andb_true_iff in Ho as [_ Hst]. apply bool_decide_eq_true in Hst.
  apply find_by_key_Some in Hi as [Hi _]. exists s, i. split; [exact Hf|]. split; [exact Hi|].
  destruct (@payment_sent_at_most_once DisbursementSample.digest FraudSample.fingerprint
    BatchSample.settings fake_provider fake_adapter fake_laws _ _ _ _ _ sample_initial (sample_run s Hf)
    (rtc_refl _ s) (fun _ _ => I) Hi Hi eq_refl) as (_ & _ & Hr & _). exact (Hr Hst).
Defined.
