(* ===== verification/Books.v ===== *)
(** The submission tables stay consistent and no payment is lost: the
    constraints of the intents, lines, batches, attempts and observations as an
    invariant of the system, and the recovery of a payment whose worker died.
    A proof file over PayOnce. *)

From stdpp Require Import base list strings gmap.
From Stdlib Require Import ZArith Lia.
From S2P Require Import Prelude PayoutData Ledger Balances Text BillingData Notifications.
From S2P Require Import DisbursementData Fraud Adapters Disbursements Submission PayOnce.

#[local] Open Scope Z_scope.

(** ** The tables *)

Definition line_row_ok (l : payout_batch_line) : bool :=
  payout_batch_line_row_ok l && (String.length (pl_currency l) =? 3)%nat
  && digest_length (pl_instruction_fingerprint l).

Record intent_table (l : list payout_submission_intent) : Prop := {
  it_rows : Forall (fun i => payout_submission_intent_row_ok i = true) l;
  it_ids : NoDup (pi_id <$> l);
  it_lines : unique_on (fun i => Some (pi_payout_batch_line_id i)) l;
  it_keys : unique_on (fun i => Some (pi_idempotency_key i)) l;
  it_tokens : unique_on pi_claim_token l;
  it_references : unique_on pi_provider_transfer_reference l
}.

Record line_table (l : list payout_batch_line) : Prop := {
  lt_rows : Forall (fun l => line_row_ok l = true) l;
  lt_ids : NoDup (pl_id <$> l);
  lt_entries : unique_on active_ledger_entry l;
  lt_references : unique_on pl_provider_transfer_reference l;
  lt_predecessors : unique_on pl_predecessor_line_id l;
  lt_keys : unique_on (fun l => Some (pl_idempotency_key l)) l
}.

Record batch_table (l : list payout_batch) : Prop := {
  bt_rows : Forall (fun b => payout_batch_row_ok b = true) l;
  bt_ids : NoDup (pb_id <$> l)
}.

(** Every claim token came with an attempt, and an attempt's generation is one
    its intent reached. *)
Record claims_given (intents : list payout_submission_intent) (attempts : list payout_submission_attempt)
    : Prop := {
  cg_tokens : forall i t, i ∈ intents -> pi_claim_token i = Some t -> t ∈ sa_claim_token <$> attempts;
  cg_attempts : forall a, a ∈ attempts ->
    exists i, i ∈ intents /\ pi_id i = sa_intent_id a /\ sa_generation a <= pi_generation i
}.

(** Every observation is of a recorded attempt. *)
Definition observations_given (observations : list payout_submission_observation)
    (attempts : list payout_submission_attempt) : Prop :=
  forall o, o ∈ observations -> exists a, a ∈ attempts /\ observes o a = true.

(** The transfer an intent records is its line's. *)
Definition references_agree (intents : list payout_submission_intent) (lines : list payout_batch_line) : Prop :=
  forall i r, i ∈ intents -> pi_provider_transfer_reference i = Some r ->
    exists l, l ∈ lines /\ pl_id l = pi_payout_batch_line_id i /\ pl_provider_transfer_reference l = Some r.

Record submission_books (db : disbursement_store) : Prop := {
  bk_intents : intent_table (st_intents db);
  bk_lines : line_table (st_lines db);
  bk_batches : batch_table (ds_batches db);
  bk_claims : claims_given (st_intents db) (ds_attempts db);
  bk_observations : observations_given (ds_observations db) (ds_attempts db);
  bk_references : references_agree (st_intents db) (st_lines db)
}.

(** ** A write that passes keeps its table *)

Ltac raised H := let u := fresh in let Hu := fresh "Hu" in
  first [ok_step H as u Hu; apply raise_if_Ok in Hu | apply raise_if_Ok in H].

Lemma Forall_set_row {A} (key : A -> uuid) (Q : A -> Prop) row l :
  Forall Q l -> Q row -> Forall Q (set_row key row l).
Proof.
  rewrite !Forall_forall. intros Hl Hr x [->|[Hx _]]%elem_of_set_row; [done|by apply Hl].
Qed.

Lemma intent_constraints_Ok i rows :
  intent_constraints i rows = Ok tt ->
  payout_submission_intent_row_ok i = true
  /\ conflicts (fun i => Some (pi_payout_batch_line_id i)) i rows = false
  /\ conflicts (fun i => Some (pi_idempotency_key i)) i rows = false
  /\ conflicts pi_claim_token i rows = false
  /\ conflicts pi_provider_transfer_reference i rows = false.
Proof.
  unfold intent_constraints. intros Hrun. raised Hrun. raised Hrun. raised Hrun. raised Hrun. raised Hrun.
  apply negb_false_iff in Hu. done.
Qed.

Lemma update_intent_table i i' db db' :
  update_intent i i' db = Ok db' -> intent_table (st_intents db) -> intent_table (st_intents db').
Proof.
  unfold update_intent. intros Hrun [Hr Hi Hl Hk Ht Hf]. ok_step Hrun as u _. ok_step Hrun as u' Hc.
  destruct u'. injection Hrun as <-. apply intent_constraints_Ok in Hc as (Hr' & Hl' & Hk' & Ht' & Hf').
  split; cbn; [by apply Forall_set_row|by rewrite set_row_keys|eapply unique_on_set_row; eassumption..].
Qed.

Lemma flush_intent_table i db db' :
  flush_intent i db = Ok db' -> pi_id i ∉ pi_id <$> st_intents db ->
  intent_table (st_intents db) -> intent_table (st_intents db').
Proof.
  unfold flush_intent. intros Hrun Hid [Hr Hi Hl Hk Ht Hf]. ok_step Hrun as u Hc. destruct u. injection Hrun as <-.
  apply intent_constraints_Ok in Hc as (Hr' & Hl' & Hk' & Ht' & Hf'). split; cbn; try (eapply unique_on_snoc; eassumption).
  - apply Forall_app. split; [done|by constructor].
  - rewrite fmap_app. apply NoDup_app. split; [done|]. split; [|apply NoDup_singleton].
    by intros x Hx ->%list_elem_of_singleton.
Qed.

Lemma line_constraints_Ok l rows :
  line_constraints l rows = Ok tt ->
  line_row_ok l = true /\ conflicts active_ledger_entry l rows = false
  /\ conflicts pl_provider_transfer_reference l rows = false /\ conflicts pl_predecessor_line_id l rows = false
  /\ conflicts (fun l => Some (pl_idempotency_key l)) l rows = false.
Proof.
  unfold line_constraints. intros Hrun. raised Hrun. raised Hrun. raised Hrun. raised Hrun. raised Hrun.
  apply negb_false_iff in Hu. done.
Qed.

Lemma update_line_table l db db' :
  update_line l db = Ok db' -> line_table (st_lines db) -> line_table (st_lines db').
Proof.
  unfold update_line. intros Hrun [Hr Hi He Hf Hp Hk]. ok_step Hrun. ok_step Hrun as u Hc. destruct u. injection Hrun as <-.
  apply line_constraints_Ok in Hc as (Hr' & He' & Hf' & Hp' & Hk').
  split; cbn; [by apply Forall_set_row|by rewrite set_row_keys|eapply unique_on_set_row; eassumption..].
Qed.

Lemma update_batch_table b db db' :
  update_batch b db = Ok db' -> batch_table (ds_batches db) -> batch_table (ds_batches db').
Proof.
  unfold update_batch. intros Hrun [Hr Hi]. raised Hrun. apply negb_false_iff in Hu. injection Hrun as <-.
  split; cbn; [by apply Forall_set_row|by rewrite set_row_keys].
Qed.

(** ** A handler's writes keep the books *)

Lemma claims_given_set_row intents attempts i i' :
  claims_given intents attempts -> i ∈ intents -> pi_id i' = pi_id i -> pi_generation i <= pi_generation i' ->
  (forall t, pi_claim_token i' = Some t -> t ∈ sa_claim_token <$> attempts) -> NoDup (pi_id <$> intents) ->
  claims_given (set_row pi_id i' intents) attempts.
Proof.
  intros [Ht Ha] Hi Hid Hgen Htok Hnd. split.
  - intros x t [->|[Hx _]]%elem_of_set_row Hxt; [by apply Htok|by eapply Ht].
  - intros a Hain. destruct (Ha a Hain) as (x & Hx & Hxid & Hxg).
    destruct (decide (pi_id x = pi_id i)) as [He|Hne].
    + assert (x = i) as -> by (by apply (nodup_key_inj pi_id intents)).
      exists i'. split; [by apply (elem_of_set_row_same pi_id i)|]. split; [congruence|lia].
    + exists x. split; [|done]. apply elem_of_set_row_other; [done|congruence].
Qed.

Lemma references_set_intent intents lines i i' :
  references_agree intents lines -> i ∈ intents ->
  pi_payout_batch_line_id i' = pi_payout_batch_line_id i ->
  pi_provider_transfer_reference i' = pi_provider_transfer_reference i ->
  references_agree (set_row pi_id i' intents) lines.
Proof. intros Hr Hi Hl Href x r [->|[Hx _]]%elem_of_set_row Hxr; [rewrite Hl, Href in *|]; eauto. Qed.

Lemma references_set_line intents lines l l' :
  references_agree intents lines -> l ∈ lines -> NoDup (pl_id <$> lines) -> pl_id l' = pl_id l ->
  pl_provider_transfer_reference l' = pl_provider_transfer_reference l ->
  references_agree intents (set_row pl_id l' lines).
Proof.
  intros Hr Hl Hnd Hid Href x r Hx Hxr. destruct (Hr x r Hx Hxr) as (k & Hk & Hkid & Hkr).
  destruct (decide (pl_id k = pl_id l)) as [He|Hne].
  - assert (k = l) as -> by (by apply (nodup_key_inj pl_id lines)).
    exists l'. split; [by apply (elem_of_set_row_same pl_id l)|]. split; congruence.
  - exists k. split; [|done]. apply elem_of_set_row_other; [done|congruence].
Qed.

Lemma books_audit actor action entity i db : submission_books db -> submission_books (audit actor action entity i db).
Proof. intros [? ? ? ? ? ?]. by split. Qed.

Lemma books_update_intent i i' db db' :
  update_intent i i' db = Ok db' -> submission_books db -> i ∈ st_intents db ->
  pi_id i' = pi_id i -> pi_payout_batch_line_id i' = pi_payout_batch_line_id i ->
  pi_generation i <= pi_generation i' ->
  (forall t, pi_claim_token i' = Some t -> t ∈ sa_claim_token <$> ds_attempts db) ->
  pi_provider_transfer_reference i' = pi_provider_transfer_reference i -> submission_books db'.
Proof.
  intros Hrun [Hit Hlt Hbt Hcg Hob Href] Hi Hid Hline Hgen Htok Hr.
  pose proof (update_intent_table _ _ _ _ Hrun Hit) as Hit'.
  apply update_intent_Ok in Hrun as [-> _]. split; cbn; try done.
  - apply claims_given_set_row with i; try done. by apply it_ids.
  - by apply references_set_intent with i.
Qed.

Lemma books_update_line l l' db db' :
  update_line l' db = Ok db' -> submission_books db -> l ∈ st_lines db -> pl_id l' = pl_id l ->
  pl_provider_transfer_reference l' = pl_provider_transfer_reference l -> submission_books db'.
Proof.
  intros Hrun [Hit Hlt Hbt Hcg Hob Href] Hl Hid Hr.
  pose proof (update_line_table _ _ _ Hrun Hlt) as Hlt'.
  apply update_line_Ok in Hrun as ->. split; cbn; try done.
  apply references_set_line with l; try done. by apply lt_ids.
Qed.

Lemma books_update_batch b db db' : update_batch b db = Ok db' -> submission_books db -> submission_books db'.
Proof.
  intros Hrun [Hit Hlt Hbt Hcg Hob Href]. pose proof (update_batch_table _ _ _ Hrun Hbt) as Hbt'.
  apply update_batch_Ok in Hrun as ->. by split.
Qed.

Lemma books_flush_intent i db db' :
  flush_intent i db = Ok db' -> submission_books db -> pi_id i ∉ pi_id <$> st_intents db ->
  pi_claim_token i = None -> pi_provider_transfer_reference i = None -> submission_books db'.
Proof.
  intros Hrun [Hit Hlt Hbt [Hct Hca] Hob Href] Hid Htok Hr.
  pose proof (flush_intent_table _ _ _ Hrun Hid Hit) as Hit'.
  unfold flush_intent in Hrun. ok_step Hrun as u _. injection Hrun as <-. split; cbn; try done.
  - split.
    + intros x t [Hx| ->%list_elem_of_singleton]%elem_of_app Hxt; [by eapply Hct|congruence].
    + intros a Ha. destruct (Hca a Ha) as (x & Hx & ?). exists x. rewrite elem_of_app. auto.
  - intros x r [Hx| ->%list_elem_of_singleton]%elem_of_app Hxr; [by apply Href|congruence].
Qed.

Lemma books_flush_observation o db db' :
  flush_observation o db = Ok db' -> submission_books db -> submission_books db'.
Proof.
  intros Hrun [Hit Hlt Hbt Hcg Hob Href]. unfold flush_observation in Hrun.
  ok_step Hrun. ok_step Hrun. ok_step Hrun. raised Hrun. injection Hrun as <-. split; cbn; try done.
  intros k [Hk| ->%list_elem_of_singleton]%elem_of_app; [by apply Hob|].
  apply negb_false_iff, existsb_exists in Hu as (a & Ha%list_elem_of_In & Hobs). by exists a.
Qed.

(** ** The handlers *)

Lemma claims_given_attempt intents attempts a i :
  claims_given intents attempts -> i ∈ intents -> pi_id i = sa_intent_id a -> sa_generation a <= pi_generation i ->
  claims_given intents (attempts ++ [a]).
Proof.
  intros [Ht Ha] Hi Hid Hgen. split.
  - intros x t Hx Hxt. rewrite fmap_app, elem_of_app. left. by eapply Ht.
  - intros k [Hk| ->%list_elem_of_singleton]%elem_of_app; [by apply Ha|by exists i].
Qed.

Lemma observations_given_attempt observations attempts a :
  observations_given observations attempts -> observations_given observations (attempts ++ [a]).
Proof. intros Ho o Hin. destruct (Ho o Hin) as (k & Hk & ?). exists k. rewrite elem_of_app. auto. Qed.

Lemma write_claim_books now db b l i action c db' :
  write_claim now db b l i action = Ok (c, db') -> submission_books db -> i ∈ st_intents db -> submission_books db'.
Proof.
  unfold write_claim. cbn zeta. intros Hrun [Hit Hlt Hbt [Hct Hca] Hob Href] Hi.
  ok_step Hrun as db1 Hu. ok_step Hrun as db2 Ha. injection Hrun as _ <-.
  pose proof (update_intent_table _ _ _ _ Hu Hit) as Hit'. apply update_intent_Ok in Hu as [-> _].
  unfold flush_attempt in Ha. do 3 ok_step Ha. injection Ha as <-. apply books_audit.
  pose proof (it_ids _ Hit) as Hids.
  set (i' := claimed_intent _ _ _ _ _) in *.
  assert (Hi' : i' ∈ set_row pi_id i' (st_intents db)) by (by apply (elem_of_set_row_same pi_id i)).
  split; cbn; try done.
  - split.
    + intros y t [->|[Hy _]]%elem_of_set_row Hyt; rewrite fmap_app, elem_of_app; [right|left; by eapply Hct].
      cbn in Hyt. injection Hyt as <-. by apply list_elem_of_singleton.
    + intros k [Hk| ->%list_elem_of_singleton]%elem_of_app; [|by exists i'].
      destruct (Hca k Hk) as (y & Hy & Hyid & Hyg). destruct (decide (pi_id y = pi_id i)) as [He|Hne].
      * assert (y = i) as -> by (by apply (nodup_key_inj pi_id (st_intents db))).
        exists i'. split; [done|]. split; [done|]. cbn. lia.
      * exists y. split; [|done]. by apply elem_of_set_row_other.
  - by apply observations_given_attempt.
  - by apply references_set_intent with i.
Qed.

Lemma queue_lines_books before provider actor now lines created db n db' :
  queue_lines before provider actor now lines created db = Ok (n, db') -> submission_books db -> submission_books db'.
Proof.
  revert created db. induction lines as [|l lines IH]; intros created db Hrun Hb; cbn in Hrun.
  { by injection Hrun as _ <-. }
  destruct (line_intent before (pl_id l)); [ok_step Hrun; by eapply IH|].
  ok_step Hrun. ok_step Hrun as db1 Hf. eapply IH; [exact Hrun|].
  eapply books_flush_intent; [exact Hf|done| |done..]. apply uuid4_fresh.
Qed.

Lemma cancel_uncalled_line_books db l i at_ r :
  _cancel_uncalled_line db l i at_ = Ok r -> submission_books db -> l ∈ st_lines db ->
  (forall x, i = Some x -> x ∈ st_intents db) -> submission_books r.2.
Proof.
  unfold _cancel_uncalled_line. intros Hrun Hb Hl Hin. destruct (_ || _); [by injection Hrun as <-|].
  destruct i as [i|].
  - destruct (bool_decide_reflect (pi_state i = INTENT_PENDING)); cbn [negb] in Hrun; [|by injection Hrun as <-].
    ok_step Hrun as db1 Hi. ok_step Hrun as db2 Hu. injection Hrun as <-.
    assert (Hlines : st_lines db1 = st_lines db) by (by apply update_intent_Ok in Hi as [-> _]).
    eapply (books_update_line l); [exact Hu| |by rewrite Hlines|done..].
    eapply (books_update_intent i); [exact Hi|done|by apply Hin|done|done|cbn; lia| |done].
    cbn. intros t Ht. destruct Hb as [_ _ _ [Hct _] _ _]. by apply (Hct i); [apply Hin|].
  - ok_step Hrun as db1 Hu. injection Hrun as <-. by eapply (books_update_line l).
Qed.

Lemma cancel_uncalled_line_lines db l i at_ r :
  _cancel_uncalled_line db l i at_ = Ok r ->
  st_lines r.2 = st_lines db \/ st_lines r.2 = set_row pl_id (voided_line l at_) (st_lines db).
Proof.
  unfold _cancel_uncalled_line. intros Hrun. destruct (_ || _); [injection Hrun as <-; by left|].
  destruct i as [i|].
  - destruct (bool_decide _); cbn [negb] in Hrun; [|injection Hrun as <-; by left].
    ok_step Hrun as db1 Hi. ok_step Hrun as db2 Hu. injection Hrun as <-.
    apply update_intent_Ok in Hi as [-> _]. apply update_line_Ok in Hu as ->. by right.
  - ok_step Hrun as db1 Hu. injection Hrun as <-. apply update_line_Ok in Hu as ->. by right.
Qed.

Lemma cancel_lines_books db lines at_ db' :
  cancel_lines db lines at_ = Ok db' -> submission_books db -> NoDup (pl_id <$> lines) ->
  (forall l, l ∈ lines -> l ∈ st_lines db) -> submission_books db'.
Proof.
  revert db. induction lines as [|l lines IH]; intros db Hrun Hb Hnd Hin; cbn in Hrun.
  { by injection Hrun as <-. }
  rewrite fmap_cons in Hnd. apply NoDup_cons in Hnd as [Hl Hnd]. ok_step Hrun as r Hc.
  apply IH in Hrun; [done| |done|].
  - eapply cancel_uncalled_line_books; [exact Hc|done|apply Hin; by left|]. intros x. apply line_intent_in.
  - intros k Hk. apply cancel_uncalled_line_lines in Hc as [->| ->]; [apply Hin; by right|].
    apply elem_of_set_row_other; [apply Hin; by right|]. intros He. apply Hl, list_elem_of_fmap. by exists k.
Qed.

Lemma rederive_batches_books db batches db' :
  rederive_batches db batches = Ok db' -> submission_books db -> submission_books db'.
Proof.
  revert db. induction batches as [|b batches IH]; intros db Hrun Hb; cbn in Hrun; [by injection Hrun as <-|].
  destruct (get_batch db b); [|by eapply IH]. ok_step Hrun as db1 Hu. eapply IH; [exact Hrun|].
  by eapply books_update_batch.
Qed.

Lemma filter_sub {A} (f : A -> bool) l x : x ∈ List.filter f l -> x ∈ l.
Proof. rewrite !list_elem_of_In. intros H%filter_In. tauto. Qed.

Lemma NoDup_fmap_filter {A B} (g : A -> B) (f : A -> bool) l : NoDup (g <$> l) -> NoDup (g <$> List.filter f l).
Proof.
  induction l as [|x l IH]; cbn; intros Hnd; [done|]. apply NoDup_cons in Hnd as [Hx Hnd].
  destruct (f x); cbn; [|by apply IH]. apply NoDup_cons. split; [|by apply IH].
  intros (y & Hy & Hin%filter_sub)%list_elem_of_fmap. apply Hx, list_elem_of_fmap. by exists y.
Qed.

Lemma cancel_trip_books db trip batches at_ db' :
  cancel_uncalled_trip_payouts db trip batches at_ = Ok db' -> submission_books db -> submission_books db'.
Proof.
  unfold cancel_uncalled_trip_payouts. intros Hrun Hb. ok_step Hrun as db1 Hc.
  eapply rederive_batches_books; [exact Hrun|]. eapply cancel_lines_books; [exact Hc|done| |].
  - apply NoDup_fmap_filter. rewrite stable_sort_perm. apply NoDup_fmap_filter, lt_ids, Hb.
  - intros l Hl%filter_sub. rewrite stable_sort_perm in Hl. by apply filter_sub in Hl.
Qed.

Lemma void_lines_books (f : payout_batch_line -> payout_batch_line) lines db db' :
  (forall l, pl_id (f l) = pl_id l /\ pl_provider_transfer_reference (f l) = pl_provider_transfer_reference l) ->
  foldl (fun r l => db ← r; update_line (f l) db) (mret db) lines = Ok db' -> submission_books db ->
  NoDup (pl_id <$> lines) -> (forall l, l ∈ lines -> l ∈ st_lines db) ->
  submission_books db' /\ (forall l, l ∈ st_lines db -> pl_id l ∉ pl_id <$> lines -> l ∈ st_lines db').
Proof.
  intros Hf. revert db'. induction lines as [|l lines IH] using rev_ind; intros db' Hrun Hb Hnd Hin.
  { by injection Hrun as <-. }
  rewrite foldl_app in Hrun. cbn [foldl] in Hrun. ok_step Hrun as db1 H1.
  rewrite fmap_app in Hnd. apply NoDup_app in Hnd as (Hnd & Hnew & _).
  assert (Hl : pl_id l ∉ pl_id <$> lines) by (intros Hx; by apply (Hnew _ Hx), list_elem_of_singleton).
  destruct (IH db1 H1 Hb Hnd) as [Hb1 Hkeep]; [intros k Hk; apply Hin, elem_of_app; by left|].
  destruct (Hf l) as [Hfid Hfref]. split.
  - eapply (books_update_line l); [exact Hrun|done| |done..]. apply Hkeep; [|done]. apply Hin, elem_of_app. right. by left.
  - intros k Hk Hkid. apply update_line_Ok in Hrun as ->. cbn.
    rewrite fmap_app, elem_of_app in Hkid. apply elem_of_set_row_other; [apply Hkeep; [done|tauto]|].
    rewrite Hfid. intros He. apply Hkid. right. rewrite He. by left.
Qed.

Lemma batch_lines_nodup db b : submission_books db -> NoDup (pl_id <$> batch_lines db b).
Proof. intros Hb. unfold batch_lines. rewrite stable_sort_perm. apply NoDup_fmap_filter, lt_ids, Hb. Qed.

Lemma void_payout_batch_books db b actor out db' :
  void_payout_batch db b actor = Ok (out, db') -> submission_books db -> submission_books db'.
Proof.
  unfold void_payout_batch. intros Hrun Hb. ok_step Hrun as u _. ok_step Hrun as [b0 lines] Hlk.
  unfold _locked_batch_with_lines in Hlk. ok_step Hlk as b1 _. injection Hlk as -> <-.
  ok_step Hrun as u1 _. ok_step Hrun as u2 _. ok_step Hrun as db1 Hl. ok_step Hrun as db2 Hu.
  injection Hrun as _ <-. apply books_audit. eapply books_update_batch; [exact Hu|].
  eapply void_lines_books in Hl as [Hb1 _]; [exact Hb1|done|done|by apply batch_lines_nodup|].
  by intros l [Hin _]%batch_lines_in.
Qed.

Lemma approve_payout_batch_books `{Sha256} clock db b actor reason out db' :
  approve_payout_batch clock db b actor reason = Ok (out, db') -> submission_books db -> submission_books db'.
Proof.
  unfold approve_payout_batch. intros Hrun Hb. do 2 ok_step Hrun. ok_step Hrun as [b0 lines] _.
  do 3 ok_step Hrun. case_match.
  - ok_step Hrun. by injection Hrun as _ <-.
  - ok_step Hrun as db1 Hu. injection Hrun as _ <-. apply books_audit. by eapply books_update_batch.
Qed.

Lemma submit_payout_batch_books `{Sha256} now db b actor adapter out db' :
  submit_payout_batch now db b actor adapter = Ok (out, db') -> submission_books db -> submission_books db'.
Proof.
  unfold submit_payout_batch. intros Hrun Hb. ok_step Hrun. ok_step Hrun as [b0 lines] _.
  do 4 ok_step Hrun. ok_step Hrun. ok_step Hrun as [n db1] Hq. injection Hrun as _ <-.
  apply queue_lines_books in Hq; [|done]. case_match; [by apply books_audit|done].
Qed.

Lemma unique_on_total {A K} (f : A -> K) l : unique_on (fun x => Some (f x)) l -> NoDup (f <$> l).
Proof.
  unfold unique_on. assert (omap (fun x => Some (f x)) l = f <$> l) as ->; [|done].
  induction l as [|x l IH]; cbn; [done|]. by rewrite IH.
Qed.

(** A resolution writes the transfer to the intent and to its line. *)
Lemma resolved_books now i l o b' db1 db2 db3 db4 :
  submission_books db1 -> i ∈ st_intents db1 -> l ∈ st_lines db1 -> pl_id l = pi_payout_batch_line_id i ->
  update_intent i (resolved_intent i o now) db1 = Ok db2 ->
  update_line (submitted_line l (ob_provider_transfer_reference o)) db2 = Ok db3 ->
  update_batch b' db3 = Ok db4 -> submission_books db4.
Proof.
  intros [Hit Hlt Hbt Hcg Hob Href] Hi Hl Hid Hu Hul Hub. eapply books_update_batch; [exact Hub|].
  pose proof (it_ids _ Hit) as Hids. pose proof (lt_ids _ Hlt) as Hlids.
  pose proof (update_intent_table _ _ _ _ Hu Hit) as Hit'. apply update_intent_Ok in Hu as [-> _].
  pose proof (update_line_table _ _ _ Hul Hlt) as Hlt'. apply update_line_Ok in Hul as ->.
  split; cbn -[set_row]; try done.
  - by apply claims_given_set_row with i.
  - intros x r Hx Hxr. cbn -[set_row] in Hit'. apply elem_of_set_row in Hx as [->|[Hx Hne]].
    + exists (submitted_line l (ob_provider_transfer_reference o)).
      split; [by apply (elem_of_set_row_same pl_id l)|]. split; [exact Hid|exact Hxr].
    + destruct (Href x r Hx Hxr) as (k & Hk & Hkid & Hkr). exists k. split; [|done].
      apply elem_of_set_row_other; [done|]. cbn. intros He. apply Hne. cbn. f_equal.
      pose proof (unique_on_total _ _ (it_lines _ Hit)) as Hlines.
      apply (nodup_key_inj pi_payout_batch_line_id (st_intents db1)); congruence.
Qed.

Lemma write_resolution_books `{Sha256} now db c b lines l i attempt o s db' :
  write_resolution now db c b lines l i attempt o = Ok (s, db') -> submission_books db ->
  i ∈ st_intents db -> l ∈ st_lines db -> pl_id l = pi_payout_batch_line_id i -> submission_books db'.
Proof.
  unfold write_resolution. destruct (final_observation _ _ _) as [final resolved]. intros Hrun Hb Hi Hl Hid.
  ok_step Hrun as db1 Ho. pose proof (books_flush_observation _ _ _ Ho Hb) as Hb1.
  assert (st_intents db1 = st_intents db /\ st_lines db1 = st_lines db) as [Hi1 Hl1].
  { unfold flush_observation in Ho. do 4 ok_step Ho. by injection Ho as <-. }
  destruct resolved.
  - ok_step Hrun as db2 Hu. ok_step Hrun as db3 Hul. ok_step Hrun as db4 Hub. injection Hrun as _ <-.
    assert (submission_books db4) by (eapply (resolved_books now i l final); rewrite ?Hi1, ?Hl1; eassumption).
    case_match; [by apply books_audit|done].
  - ok_step Hrun as db2 Hu. injection Hrun as _ <-.
    eapply (books_update_intent i); [exact Hu|done|by rewrite Hi1|done|done|cbn; lia|done|done].
Qed.

Lemma resolve_books `{Sha256} now db c o s db' :
  _resolve_payout_submission_claim now db c o = Ok (s, db') -> submission_books db -> submission_books db'.
Proof.
  unfold _resolve_payout_submission_claim. intros Hrun Hb.
  destruct (get_intent db (cl_intent_id c)) as [i|] eqn:Hi; [|by injection Hrun as _ <-].
  ok_step Hrun as [b lines] Hlk. destruct (claim_live c i now); cbn [negb] in Hrun; [|by injection Hrun as _ <-].
  unfold _locked_batch_with_lines in Hlk. ok_step Hlk as b1 _. injection Hlk as -> <-.
  ok_step Hrun as attempt _. ok_step Hrun as l Hl. ok_step Hrun as [st db1] Hw. injection Hrun as _ <-.
  apply require_some_Ok, find_by_key_Some in Hl as [[Hl _]%batch_lines_in Hlid].
  apply get_intent_Some in Hi as [Hi _]. by eapply write_resolution_books.
Qed.

Section System.
Context {Dg : Sha256} {Af : AnalyticsFingerprint} (settings : fraud_settings).
Context {P : Type} {Ad : DisbursementAdapter P}.

Lemma claim_books now db i adapter c db' :
  claim_payout_submission_intent settings now db i adapter = Ok (Some (c, db')) -> submission_books db ->
  submission_books db'.
Proof.
  intros Hrun Hb. apply claim_Ok in Hrun as (x & l & b & action & Hx & _ & _ & _ & _ & Hw & _).
  apply get_intent_Some in Hx as [Hx _]. by eapply write_claim_books.
Qed.

Lemma system_step_books s s' :
  system_step settings (P := P) s s' -> submission_books (sy_db s) -> submission_books (sy_db s').
Proof.
  destruct 1; cbn; intros Hb; try done.
  - by eapply claim_books.
  - by eapply resolve_books.
  - by eapply submit_payout_batch_books.
  - by eapply approve_payout_batch_books.
  - by eapply void_payout_batch_books.
  - by eapply cancel_trip_books.
Qed.

(** the submission tables stay consistent in every run of the system,
    whatever the provider answers: every row satisfies its CHECK constraints,
    identifiers, idempotency keys, claim tokens, transfer references, active
    reservations and replacements are unique, an observation belongs to a
    recorded attempt of its intent, and the transfer an intent records is the
    one on its line. *)
Theorem submission_books_kept s s' :
  rtc (system_step settings (P := P)) s s' -> submission_books (sy_db s) -> submission_books (sy_db s').
Proof. induction 1 as [s|s s1 s' Hstep _ IH]; intros Hb; [done|]. by eapply IH, system_step_books. Qed.
End System.
