(* ===== verification/Cash.v ===== *)
(** Cash finality: evidence of transfers against the lines and credits of a
    replacement chain, in any order it can be recorded, and the reversals that
    cannot be.  A proof file over Reconciliation and Books. *)

From stdpp Require Import base list strings gmap.
From Stdlib Require Import ZArith Lia.
From S2P Require Import Prelude PayoutData Ledger Balances Text BillingData Notifications.
From S2P Require Import DisbursementData Fraud Adapters Paystack Disbursements Alerts Reconciliation Submission PayOnce Books.

#[local] Open Scope Z_scope.

(** ** What alerts and batches leave alone *)

(** The tables evidence decides on. *)
Definition cash_tables (db : disbursement_store) :=
  (st_lines db, st_ledger db, st_intents db, ds_attempts db, ds_observations db, ds_events db).

(** The tables of provider events. *)
Definition event_tables (db : disbursement_store) := (ds_provider_events db, ds_processing db, ds_events db).

Lemma books_frame db db' :
  cash_tables db' = cash_tables db -> ds_batches db' = ds_batches db -> submission_books db -> submission_books db'.
Proof.
  intros Ht Hb [? ? ? ? ? ?]. unfold cash_tables in Ht. injection Ht as H1 H2 H3 H4 H5 H6.
  split; by rewrite ?H1, ?H3, ?H4, ?H5, ?Hb.
Qed.

Lemma raise_alert_frame `{Sha256} arrived clock db kind dedupe subject out db' :
  raise_alert arrived clock db kind dedupe subject = Ok (out, db') ->
  cash_tables db' = cash_tables db /\ ds_batches db' = ds_batches db /\ event_tables db' = event_tables db
  /\ exists a, a ∈ ds_alerts db' /\ al_dedupe_key a = alert_key kind dedupe.
Proof.
  unfold raise_alert. destruct (existsb _ (ds_alerts db)) eqn:Hex.
  { intros Hrun. injection Hrun as _ <-. split; [done|]. split; [done|]. split; [done|].
    apply existsb_exists in Hex as (a & Ha & Hk). apply bool_decide_eq_true in Hk. exists a.
    by rewrite list_elem_of_In. }
  cbn zeta. set (db0 := set_alerts _ db). set (a := PayoutAutomaticAlert _ _ _ _ _ _ _ _ _ _ _ _ _ _).
  destruct (flush_alert a db0) as [db1|e] eqn:Hf; intros Hrun.
  - ok_step Hrun as n Hn. injection Hrun as _ <-. unfold flush_alert in Hf. do 3 ok_step Hf.
    injection Hf as <-. split; [done|]. split; [done|]. split; [done|]. exists a. split; [|done]. cbn. apply elem_of_app. right. by left.
  - assert (db' = db0 /\ conflicts alert_dedupe_key a (ds_alerts db0) = true) as [-> Hc].
    { unfold flush_alert in Hf. apply bind_Raise in Hf as [Hf|(u & Hu & Hf)];
        [apply raise_if_Raise in Hf as [_ <-]; discriminate Hrun|].
      apply bind_Raise in Hf as [Hf|(u' & Hu' & Hf)]; [apply raise_if_Raise in Hf as [_ <-]; discriminate Hrun|].
      apply bind_Raise in Hf as [Hf|(u'' & _ & Hf)]; [|discriminate Hf].
      apply raise_if_Raise in Hf as [Hc <-]. cbn in Hrun. by injection Hrun as _ <-. }
    split; [done|]. split; [done|]. split; [done|]. unfold conflicts, alert_dedupe_key in Hc. apply bool_decide_eq_true in Hc.
    apply list_elem_of_fmap in Hc as (b & Hk & Hb). exists b. split; [done|]. by injection Hk as <-.
Qed.

Lemma rederive_batches_frame db batches db' :
  rederive_batches db batches = Ok db' -> cash_tables db' = cash_tables db /\ ds_alerts db' = ds_alerts db.
Proof.
  revert db. induction batches as [|b batches IH]; intros db Hrun; cbn in Hrun; [by injection Hrun as <-|].
  destruct (get_batch db b); [|by apply IH]. ok_step Hrun as db1 Hb. apply update_batch_Ok in Hb as ->.
  by apply IH in Hrun as [-> ->].
Qed.

Lemma rederive_batches_other db batches db' i :
  rederive_batches db batches = Ok db' -> i ∉ batches -> get_batch db' i = get_batch db i.
Proof.
  revert db. induction batches as [|b batches IH]; intros db Hrun Hi; cbn in Hrun; [by injection Hrun as <-|].
  apply not_elem_of_cons in Hi as [Hib Hi]. destruct (get_batch db b) eqn:Hb; [|by apply IH].
  ok_step Hrun as db1 Hu. apply update_batch_Ok in Hu as ->. rewrite (IH _ Hrun Hi). unfold get_batch in *. cbn.
  apply find_by_key_Some in Hb as [_ Hid]. apply find_set_row_other. cbn. congruence.
Qed.

Lemma rederive_batches_status db batches db' i b :
  rederive_batches db batches = Ok db' -> NoDup batches -> i ∈ batches -> get_batch db i = Some b ->
  get_batch db' i = Some (batch_with b (_derive_batch_status (batch_lines db' i))
                            (pb_provider_submission_reference b) (pb_submitted_at b)).
Proof.
  revert db. induction batches as [|j batches IH]; intros db Hrun Hnd Hi Hb; [by apply elem_of_nil in Hi|].
  pose proof Hrun as Hframe. apply rederive_batches_frame in Hframe as [Ht _]. unfold cash_tables in Ht.
  assert (Hlines : batch_lines db' i = batch_lines db i) by (unfold batch_lines; by injection Ht as -> _).
  apply NoDup_cons in Hnd as [Hj Hnd]. cbn in Hrun. apply elem_of_cons in Hi as [->|Hi].
  - rewrite Hb in Hrun. ok_step Hrun as db1 Hu. apply update_batch_Ok in Hu as ->.
    rewrite (rederive_batches_other _ _ _ _ Hrun Hj), Hlines. unfold get_batch in *. cbn.
    apply find_set_row_same with b; [done|]. by apply find_by_key_Some in Hb as [_ ?].
  - destruct (get_batch db j) as [bj|] eqn:Hbj; [|by apply (IH db)]. ok_step Hrun as db1 Hu.
    apply update_batch_Ok in Hu as ->. eapply IH; [exact Hrun|done..|]. unfold get_batch in *.
    refine (eq_trans (find_set_row_other pb_id i _ _ _) Hb). apply find_by_key_Some in Hbj as [_ Hid]. cbn. congruence.
Qed.

(** An intent keeps its line and provider. *)
Definition same_sender (i i' : payout_submission_intent) : Prop :=
  pi_payout_batch_line_id i' = pi_payout_batch_line_id i /\ pi_provider_name i' = pi_provider_name i.

#[export] Instance same_sender_preorder : PreOrder same_sender.
Proof. split; [done|]. intros i j k [H1 H2] [H3 H4]. unfold same_sender. by rewrite H3, H4. Qed.

(** ** The lines, one by one *)

(** A sibling is left alone or was reserved and is void now. *)
Definition voided_from (at_ : Z) (k k' : payout_batch_line) : Prop :=
  k' = k \/ (pl_status k = LINE_RESERVED /\ k' = voided_line k at_).

#[export] Instance voided_from_preorder at_ : PreOrder (voided_from at_).
Proof.
  split; [by left|]. intros k1 k2 k3 [->|[Hs ->]] [->|[Hs' ->]]; unfold voided_from; auto.
Qed.

Lemma set_row_pointwise {A} (key : A -> uuid) (R : A -> A -> Prop) (row : A) l :
  (forall x, x ∈ l -> key x <> key row -> R x x) -> (forall x, x ∈ l -> key x = key row -> R x row) ->
  Forall2 R l (set_row key row l).
Proof.
  intros Hother Hsame. apply Forall2_fmap_r, Forall_Forall2_diag, Forall_forall. intros x Hx.
  cbn. destruct (bool_decide_reflect (key x = key row)); auto.
Qed.

Lemma Forall2_impl_in {A B} (P Q : A -> B -> Prop) l k :
  Forall2 P l k -> (forall x y, x ∈ l -> y ∈ k -> P x y -> Q x y) -> Forall2 Q l k.
Proof.
  induction 1 as [|x y l k Hxy _ IH]; intros Himp; constructor.
  - apply Himp; [by left..|done].
  - apply IH. intros x' y' Hx' Hy'. apply Himp; by right.
Qed.

Lemma pointwise_ids (R : payout_batch_line -> payout_batch_line -> Prop) ls ls' :
  Forall2 R ls ls' -> (forall k k', R k k' -> pl_id k' = pl_id k) -> pl_id <$> ls' = pl_id <$> ls.
Proof. intros Hpw HR. induction Hpw as [|k k' ls ls' Hk _ IH]; [done|]. cbn. by rewrite IH, (HR _ _ Hk). Qed.

Lemma voided_from_id at_ k k' : voided_from at_ k k' -> pl_id k' = pl_id k.
Proof. by intros [->|[_ ->]]. Qed.

Lemma cancel_lines_pointwise db lines at_ db' :
  cancel_lines db lines at_ = Ok db' -> NoDup (pl_id <$> st_lines db) -> NoDup (pl_id <$> lines) ->
  (forall l, l ∈ lines -> l ∈ st_lines db) ->
  Forall2 (voided_from at_) (st_lines db) (st_lines db')
  /\ st_ledger db' = st_ledger db /\ ds_events db' = ds_events db /\ ds_batches db' = ds_batches db
  /\ ds_alerts db' = ds_alerts db.
Proof.
  revert db. induction lines as [|l lines IH]; intros db Hrun Hdb Hnd Hin; cbn in Hrun.
  { injection Hrun as <-. by split. }
  rewrite fmap_cons in Hnd. apply NoDup_cons in Hnd as [Hl Hnd]. ok_step Hrun as r Hc.
  assert (Hstep : Forall2 (voided_from at_) (st_lines db) (st_lines r.2)
    /\ st_ledger r.2 = st_ledger db /\ ds_events r.2 = ds_events db /\ ds_batches r.2 = ds_batches db
    /\ ds_alerts r.2 = ds_alerts db).
  { unfold _cancel_uncalled_line in Hc. destruct (bool_decide_reflect (pl_status l = LINE_RESERVED)) as [Hs|Hs];
      [|injection Hc as <-; by split].
    assert (Hrow : forall i, st_lines i = st_lines db -> Forall2 (voided_from at_) (st_lines db)
              (set_row pl_id (voided_line l at_) (st_lines i))).
    { intros i ->. apply set_row_pointwise; [by left|]. intros x Hx Hk. right.
      assert (x = l) as -> by (apply (nodup_key_inj pl_id (st_lines db)); auto using list_elem_of_here).
      done. }
    destruct (_intent_has_unknown_effect _); cbn [orb negb] in Hc;
      [injection Hc as <-; by split|].
    destruct (line_intent db (pl_id l)) as [i|].
    - destruct (bool_decide _); cbn [negb] in Hc;
        [|injection Hc as <-; by split].
      ok_step Hc as db1 Hi. ok_step Hc as db2 Hu. injection Hc as <-.
      apply update_intent_Ok in Hi as [-> _]. apply update_line_Ok in Hu as ->. split; [|done].
      by apply (Hrow (set_payout _ db)).
    - ok_step Hc as db1 Hu. injection Hc as <-. apply update_line_Ok in Hu as ->. split; [by apply (Hrow db)|done]. }
  destruct Hstep as (Hpw & Hle & Hev & Hba & Hal).
  apply IH in Hrun as (Hpw' & -> & -> & -> & ->).
  - split; [|done]. by etrans.
  - by rewrite (pointwise_ids _ _ _ Hpw (voided_from_id at_)).
  - done.
  - intros k Hk. apply cancel_uncalled_line_lines in Hc as [->| ->]; [apply Hin; by right|].
    apply elem_of_set_row_other; [apply Hin; by right|]. intros He. apply Hl, list_elem_of_fmap. by exists k.
Qed.

Lemma cancel_lines_senders db lines at_ db' :
  cancel_lines db lines at_ = Ok db' -> NoDup (pi_id <$> st_intents db) ->
  Forall2 same_sender (st_intents db) (st_intents db').
Proof.
  revert db. induction lines as [|l lines IH]; intros db Hrun Hnd; cbn in Hrun; [by injection Hrun as <-|].
  ok_step Hrun as r Hc.
  assert (Hstep : Forall2 same_sender (st_intents db) (st_intents r.2) /\ NoDup (pi_id <$> st_intents r.2)).
  { unfold _cancel_uncalled_line in Hc. destruct (_ || _); [by injection Hc as <-|].
    destruct (line_intent db (pl_id l)) as [i|] eqn:Hi; [|ok_step Hc as db1 Hu; injection Hc as <-;
      by apply update_line_Ok in Hu as ->].
    destruct (negb _); [by injection Hc as <-|]. ok_step Hc as db1 Hu. ok_step Hc as db2 Hl. injection Hc as <-.
    apply update_intent_Ok in Hu as [-> _]. apply update_line_Ok in Hl as ->. cbn. rewrite set_row_keys. split; [|done].
    apply line_intent_in in Hi. apply set_row_pointwise; [done|]. intros x Hx Hk.
    assert (x = i) as -> by (apply (nodup_key_inj pi_id (st_intents db)); done). done. }
  destruct Hstep as [Hs Hnd']. etrans; [exact Hs|]. by apply (IH r.2).
Qed.

(** ** One new piece of evidence *)

Lemma line_with_same l :
  line_with l (pl_status l) (pl_provider_transfer_reference l) (pl_reservation_active l)
    (pl_reconciled_by_user_id l) (pl_reconciled_at l) (pl_last_provider_evidence_at l) = l.
Proof. by destruct l. Qed.

Lemma unchanged_line l ef ev actor at_ : line_changes l ef ev = false -> reconciled_line l ef ev actor at_ = l.
Proof.
  unfold line_changes, reconciled_line. intros Hc. bool_prop.
  match goal with H : ef_line ef = None |- _ => rewrite H end.
  match goal with H : newest_evidence _ _ = _ |- _ => rewrite H end. apply line_with_same.
Qed.

Lemma reconciled_line_keys l ef ev actor at_ :
  let l' := reconciled_line l ef ev actor at_ in
  pl_id l' = pl_id l /\ pl_provider_transfer_reference l' = pl_provider_transfer_reference l
  /\ pl_ledger_entry_id l' = pl_ledger_entry_id l
  /\ pl_status l' = default (pl_status l) (ef_line ef)
  /\ pl_last_provider_evidence_at l'
     = newest_evidence (pl_last_provider_evidence_at l) (_aware_utc (ve_occurred_at ev)).
Proof. unfold reconciled_line. by destruct (ef_line ef). Qed.

(** What happens to a line when evidence about [l] is recorded. *)
Definition line_after (l l' : payout_batch_line) (won : bool) (at_ : Z) (k k' : payout_batch_line) : Prop :=
  (k = l /\ k' = l') \/ (pl_id k <> pl_id l /\ (k' = k \/ (won = true /\ pl_status k = LINE_RESERVED /\ k' = voided_line k at_))).

Definition credit_of (db : disbursement_store) (l : payout_batch_line) : option ledger_entry :=
  find_by_key le_id (pl_ledger_entry_id l) (st_ledger db).
Definition other_succeeded (db : disbursement_store) (l : payout_batch_line) : bool :=
  existsb (fun c => negb (bool_decide (pl_id c = pl_id l)) && succeeded c) (chain_lines db (pl_ledger_entry_id l)).
Definition won (ef : evidence_effect) : bool := bool_decide (ef_line ef = Some LINE_SUCCEEDED).

(** The alert of the successes of one credit. *)
Definition alerted `{Sha256} (db : disbursement_store) (credit : uuid) : Prop :=
  let winners := List.filter succeeded (chain_lines db credit) in
  (1 < length winners)%nat ->
  exists a, a ∈ ds_alerts db /\ al_dedupe_key a = alert_key DUPLICATE_PAYMENT (duplicate_dedupe winners).

Record recorded `{Sha256} (db : disbursement_store) (l : payout_batch_line) (ev : verified_line_evidence) (source : string)
    (actor : option uuid) (now : Z) (ef : evidence_effect) (event : payout_line_reconciliation_event)
    (db' : disbursement_store) : Prop := Recorded {
  rd_effect : evidence_effect_of l (credit_of db l) (other_succeeded db l) ev = Ok ef;
  rd_transition : line_transition (pl_status l) (default (pl_status l) (ef_line ef)) = true;
  rd_books : submission_books db';
  rd_event : event = PayoutLineReconciliationEvent (uuid4 (rc_id <$> ds_events db)) (pl_id l) (ve_provider_event_id ev)
               source (ve_outcome ev) (ve_evidence_fingerprint ev) (_aware_utc (ve_occurred_at ev))
               (negb (bool_decide (ef_line ef = None))) actor;
  rd_events : ds_events db' = ds_events db ++ [event];
  rd_fresh : find_event db (ve_provider_event_id ev) = None -> find_event db' (ve_provider_event_id ev) = Some event;
  rd_ledger : st_ledger db' = match ef_ledger ef with
                              | Some s => set_entry_status (pl_ledger_entry_id l) s (st_ledger db)
                              | None => st_ledger db
                              end;
  rd_lines : Forall2 (line_after l (reconciled_line l ef ev actor now) (won ef) now) (st_lines db) (st_lines db');
  rd_alerted : won ef = true -> alerted db' (pl_ledger_entry_id l);
  rd_senders : Forall2 same_sender (st_intents db) (st_intents db');
  rd_batches : forall i b, i ∈ _locked_ledger_chain db (pl_ledger_entry_id l) -> get_batch db i = Some b ->
    get_batch db' i = Some (batch_with b (_derive_batch_status (batch_lines db' i))
                              (pb_provider_submission_reference b) (pb_submitted_at b))
}.

Lemma chain_lines_in db e k : k ∈ chain_lines db e <-> k ∈ st_lines db /\ pl_ledger_entry_id k = e.
Proof.
  unfold chain_lines. rewrite stable_sort_perm, list_elem_of_In, filter_In, <- list_elem_of_In.
  by rewrite bool_decide_eq_true.
Qed.

Lemma cancel_lines_siblings db l lines at_ db' :
  cancel_lines db lines at_ = Ok db' -> submission_books db -> l ∈ st_lines db -> NoDup (pl_id <$> lines) ->
  (forall k, k ∈ lines -> k ∈ st_lines db /\ pl_id k <> pl_id l) ->
  Forall2 (line_after l l true at_) (st_lines db) (st_lines db') /\ st_ledger db' = st_ledger db
  /\ ds_events db' = ds_events db /\ ds_batches db' = ds_batches db.
Proof.
  intros Hc Hb Hl Hnd Hin. pose proof (lt_ids _ (bk_lines _ Hb)) as Hids.
  assert (Hkeep : l ∈ st_lines db').
  { clear Hids. revert db Hc Hb Hl Hin. induction lines as [|k lines IH]; intros db Hc Hb Hl Hin; cbn in Hc.
    { by injection Hc as <-. }
    ok_step Hc as r Hr. rewrite fmap_cons in Hnd. apply NoDup_cons in Hnd as [Hk Hnd].
    destruct (Hin k) as [Hkin Hkl]; [by left|]. apply (IH Hnd r.2); [done| | |].
    - eapply cancel_uncalled_line_books; [exact Hr|done..|]. intros x. apply line_intent_in.
    - apply cancel_uncalled_line_lines in Hr as [->| ->]; [done|]. apply elem_of_set_row_other; [done|]. cbn. congruence.
    - intros j Hj. destruct (Hin j) as [Hjin Hjl]; [by right|]. split; [|done].
      apply cancel_uncalled_line_lines in Hr as [->| ->]; [done|]. apply elem_of_set_row_other; [done|]. cbn.
      intros He. apply Hk, list_elem_of_fmap. by exists j. }
  apply cancel_lines_pointwise in Hc as (Hpw & Hle & Hev & Hba & _); [|done..|by intros k Hk; apply Hin].
  split; [|done]. assert (Hids' : NoDup (pl_id <$> st_lines db')).
  { by rewrite (pointwise_ids _ _ _ Hpw (voided_from_id at_)). }
  eapply Forall2_impl_in; [exact Hpw|]. intros k k' Hk Hk' Hv.
  destruct (decide (pl_id k = pl_id l)) as [Hid|Hid].
  - left. split; [by apply (nodup_key_inj pl_id (st_lines db))|]. apply (nodup_key_inj pl_id (st_lines db')); [done..|].
    by rewrite (voided_from_id _ _ _ Hv).
  - right. split; [done|]. destruct Hv as [->|[Hs ->]]; auto.
Qed.

Lemma converge_frame `{Sha256} arrived db l e s at_ db' :
  _converge_line_cash arrived db l e s at_ = Ok db' -> submission_books db -> l ∈ st_lines db ->
  pl_ledger_entry_id l = le_id e ->
  Forall2 (line_after l l (bool_decide (s = LINE_SUCCEEDED)) at_) (st_lines db) (st_lines db')
  /\ submission_books db' /\ st_ledger db' = st_ledger db /\ ds_events db' = ds_events db
  /\ ds_batches db' = ds_batches db /\ Forall2 same_sender (st_intents db) (st_intents db')
  /\ (s = LINE_SUCCEEDED -> alerted db' (le_id e)).
Proof.
  unfold _converge_line_cash. intros Hrun Hb Hl Hle.
  destruct (bool_decide_reflect (s = LINE_SUCCEEDED)) as [->|Hs]; cbn [negb] in Hrun.
  2:{ injection Hrun as <-. split; [|done]. apply Forall_Forall2_diag, Forall_forall. intros k Hk.
      destruct (decide (pl_id k = pl_id l)) as [Hid|]; [left|right; auto].
      assert (k = l) as -> by (apply (nodup_key_inj pl_id (st_lines db)); [apply lt_ids, Hb|done..]). done. }
  ok_step Hrun as db1 Hc. pose proof Hc as Hbooks.
  pose proof (cancel_lines_senders _ _ _ _ Hc (it_ids _ (bk_intents _ Hb))) as Hsend.
  assert (Hnd : NoDup (pl_id <$> List.filter (fun c => negb (bool_decide (pl_id c = pl_id l)) && pl_reservation_active c)
                  (chain_lines db (le_id e)))).
  { apply NoDup_fmap_filter. unfold chain_lines. rewrite stable_sort_perm. apply NoDup_fmap_filter, lt_ids, Hb. }
  apply cancel_lines_books in Hbooks; [|done..|by intros k Hk%filter_sub; apply chain_lines_in in Hk as [? _]].
  apply (cancel_lines_siblings db l) in Hc as (Hpw & Hle1 & Hev1 & Hba1); [|done..|].
  2:{ intros k Hk. rewrite list_elem_of_In, filter_In, <- list_elem_of_In, chain_lines_in in Hk.
      destruct Hk as [[Hk _] Hk']. bool_prop. done. }
  destruct (1 <? length _)%nat eqn:Hn.
  - ok_step Hrun as out Hr. injection Hrun as <-. destruct out as [out dbx].
    apply raise_alert_frame in Hr as (Ht & Hb2 & _ & Ha). cbn [snd].
    pose proof (books_frame _ _ Ht Hb2 Hbooks). unfold cash_tables in Ht. injection Ht as H1 H2 H3 _ _ H6.
    rewrite H1, H2, H3, H6, Hb2. repeat (split; [done|]). intros _ _.
    assert (chain_lines dbx (le_id e) = chain_lines db1 (le_id e)) as -> by (unfold chain_lines; by rewrite H1). done.
  - injection Hrun as <-. apply Nat.ltb_ge in Hn. repeat (split; [done|]). intros _ Hlt. lia.
Qed.

Lemma books_flush_event e db db' :
  flush_reconciliation_event e db = Ok db' -> submission_books db ->
  submission_books db' /\ db' = set_events (fun l => l ++ [e]) db
  /\ conflicts provider_event_key e (ds_events db) = false.
Proof.
  unfold flush_reconciliation_event. intros Hrun [? ? ? ? ? ?]. ok_step Hrun. ok_step Hrun as u Hc.
  apply raise_if_Ok in Hc. injection Hrun as <-. split; [by split|done].
Qed.

Lemma find_event_snoc db e :
  conflicts provider_event_key e (ds_events db) = false ->
  find_row (fun x => bool_decide (rc_provider_event_id x = rc_provider_event_id e)) (ds_events db ++ [e]) = Some e.
Proof.
  unfold conflicts, provider_event_key. intros Hc%bool_decide_eq_false. unfold find_row.
  induction (ds_events db) as [|x l IH]; cbn; [by rewrite bool_decide_eq_true_2|].
  rewrite fmap_cons in Hc. rewrite not_elem_of_cons in Hc. destruct Hc as [Hx Hc].
  rewrite bool_decide_eq_false_2 by congruence. by apply IH.
Qed.

Lemma line_transition_same s : line_transition s s = true.
Proof. unfold line_transition. by rewrite bool_decide_eq_true_2. Qed.

(** The triggers let the update of a line that is already there pass. *)
Lemma update_line_guard l l' db db' :
  update_line l' db = Ok db' -> NoDup (pl_id <$> st_lines db) -> l ∈ st_lines db -> pl_id l' = pl_id l ->
  guard_payout_batch_line_mutation l l' = true.
Proof.
  unfold update_line. intros Hrun Hids Hl Hid. ok_step Hrun as u Hg. apply raise_if_Ok, negb_false_iff in Hg.
  by rewrite Hid, (find_by_key_in pl_id _ _ Hids Hl) in Hg.
Qed.

(** The write of the line itself. *)
Lemma write_line_transition db l ef ev actor now db' :
  (if line_changes l ef ev then update_line (reconciled_line l ef ev actor now) db else mret db) = Ok db' ->
  NoDup (pl_id <$> st_lines db) -> l ∈ st_lines db ->
  line_transition (pl_status l) (default (pl_status l) (ef_line ef)) = true.
Proof.
  intros Hrun Hids Hl. destruct (reconciled_line_keys l ef ev actor now) as (Hid & _ & _ & Hst & _).
  destruct (line_changes l ef ev) eqn:Hch.
  - pose proof (update_line_guard _ _ _ _ Hrun Hids Hl Hid) as Hg. unfold guard_payout_batch_line_mutation in Hg.
    rewrite Hst, !andb_true_iff in Hg. tauto.
  - unfold line_changes in Hch. apply orb_false_iff in Hch as [Hn _]. apply negb_false_iff, bool_decide_eq_true in Hn.
    rewrite Hn. apply line_transition_same.
Qed.

Lemma write_line_frame db db0 db1 l ef ev actor now :
  let l' := reconciled_line l ef ev actor now in
  (if line_changes l ef ev then update_line l' db0 else mret db0) = Ok db1 -> submission_books db -> l ∈ st_lines db ->
  st_lines db0 = st_lines db -> submission_books db0 ->
  submission_books db1 /\ ds_events db1 = ds_events db0 /\ ds_batches db1 = ds_batches db0
  /\ st_intents db1 = st_intents db0 /\ st_ledger db1 = st_ledger db0
  /\ l' ∈ st_lines db1 /\ Forall2 (line_after l l' false now) (st_lines db) (st_lines db1).
Proof.
  intros l' Hu Hb Hl Hl0 Hb0. destruct (reconciled_line_keys l ef ev actor now) as (Hid & Href & _ & _ & _).
  fold l' in Hid, Href.
  pose proof (lt_ids _ (bk_lines _ Hb)) as Hids.
  assert (Hpw : Forall2 (line_after l l' false now) (st_lines db) (set_row pl_id l' (st_lines db))).
  { apply set_row_pointwise; intros x Hx Hk; [right; split; [congruence|by left]|left].
    split; [|done]. apply (nodup_key_inj pl_id (st_lines db)); [done..|congruence]. }
  destruct (line_changes l ef ev) eqn:Hch.
  - pose proof (books_update_line l l' db0 db1 Hu Hb0 ltac:(by rewrite Hl0) Hid Href).
    apply update_line_Ok in Hu as ->. cbn. rewrite Hl0. repeat (split; [done|]). split; [|done].
    by apply (elem_of_set_row_same pl_id l).
  - injection Hu as <-. assert (l' = l) as Hsame by by apply unchanged_line. rewrite Hl0, Hsame in *.
    repeat (split; [done|]). apply Forall_Forall2_diag, Forall_forall. intros k Hk.
    destruct (decide (pl_id k = pl_id l)); [left|right; auto].
    split; [|by apply (nodup_key_inj pl_id (st_lines db))]. by apply (nodup_key_inj pl_id (st_lines db)).
Qed.

Lemma flush_credit_Ok i s db db' :
  flush_credit i s db = Ok db' ->
  db' = match s with Some s => set_payout (with_ledger (set_entry_status i s)) db | None => db end.
Proof.
  unfold flush_credit. intros Hrun. destruct s; [|by injection Hrun as <-]. ok_step Hrun as p Hp.
  apply update_entry_status_Ok in Hp as ->. by injection Hrun as <-.
Qed.

Lemma flush_credit_Raise i s db e : flush_credit i s db = Raise e -> e = DBAPIError.
Proof.
  unfold flush_credit, update_entry_status. intros Hrun. destruct s; [|discriminate].
  apply bind_Raise in Hrun as [Hrun|(p & _ & Hrun)]; [|discriminate].
  apply bind_Raise in Hrun as [Hrun|(p & _ & Hrun)]; [|discriminate]. by apply raise_if_Raise in Hrun as [_ <-].
Qed.

Lemma record_evidence_Ok `{Sha256} arrived now db l ev source actor event db' :
  record_evidence arrived now db l ev source actor = Ok (event, db') -> submission_books db -> l ∈ st_lines db ->
  exists ef, recorded db l ev source actor now ef event db'.
Proof.
  unfold record_evidence. intros Hrun Hb Hl. ok_step Hrun as ef Hef. ok_step Hrun as db0 Hcredit.
  ok_step Hrun as db1 Hu. ok_step Hrun as db2 Hf.
  ok_step Hrun as db3 Hc. ok_step Hrun as db4 Hr.
  injection Hrun as <- Hdb'. exists ef.
  set (l' := reconciled_line l ef ev actor now) in *.
  destruct (reconciled_line_keys l ef ev actor now) as (Hid & Href & Hent & Hst & Hlast).
  fold l' in Hid, Href, Hent, Hst, Hlast.
  assert (Hdb0 : st_lines db0 = st_lines db /\ ds_events db0 = ds_events db /\ ds_batches db0 = ds_batches db
    /\ st_intents db0 = st_intents db /\ submission_books db0
    /\ st_ledger db0 = match ef_ledger ef with Some s => set_entry_status (pl_ledger_entry_id l) s (st_ledger db)
                                          | None => st_ledger db end).
  { apply flush_credit_Ok in Hcredit as ->. destruct (ef_ledger ef); [|done]. repeat (split; [done|]). split; [|done].
    destruct Hb as [? ? ? ? ? ?]. by split. }
  destruct Hdb0 as (Hl0 & He0 & Hba0 & Hi0 & Hb0 & Hled0).
  assert (Htrans : line_transition (pl_status l) (default (pl_status l) (ef_line ef)) = true).
  { apply (write_line_transition _ _ _ _ _ _ _ Hu); rewrite Hl0; [apply lt_ids, Hb|done]. }
  pose proof (write_line_frame db db0 db1 l ef ev actor now Hu Hb Hl Hl0 Hb0) as Hdb1. fold l' in Hdb1.
  rewrite He0, Hba0, Hi0 in Hdb1.
  destruct Hdb1 as (Hb1 & He1 & Hba1 & Hi1 & Hled1 & Hl1 & Hpw1).
  apply books_flush_event in Hf as (Hb2 & -> & Hfresh); [|done].
  set (event := PayoutLineReconciliationEvent _ _ _ _ _ _ _ _ _) in *.
  assert (Hdb3 : submission_books db3 /\ ds_events db3 = ds_events db1 ++ [event] /\ st_ledger db3 = st_ledger db1
    /\ ds_batches db3 = ds_batches db1 /\ Forall2 same_sender (st_intents db1) (st_intents db3)
    /\ Forall2 (line_after l' l' (won ef) now) (st_lines db1) (st_lines db3)
    /\ (won ef = true -> alerted db3 (pl_ledger_entry_id l))).
  { unfold won. destruct (ef_line ef) as [s|] eqn:Hs.
    - destruct (find_by_key le_id (pl_ledger_entry_id l) (st_ledger db)) as [e|] eqn:He.
      + pose proof (find_by_key_Some _ _ _ _ He) as [_ Heid].
        apply converge_frame in Hc as (Hpw & Hb3 & Hled3 & Hev3 & Hba3 & Hs3 & Hal); [|done|done|congruence].
        rewrite Hled3, Hev3, Hba3. rewrite Heid in Hal.
        assert (bool_decide (Some s = Some LINE_SUCCEEDED) = bool_decide (s = LINE_SUCCEEDED)) as ->
          by (apply bool_decide_ext; split; congruence).
        repeat (split; [done|]). intros Hw%bool_decide_eq_true. by apply Hal.
      + exfalso. unfold evidence_effect_of in Hef. destruct (evidence_considered l ev); [discriminate Hef|].
        injection Hef as <-. discriminate Hs.
    - injection Hc as <-. repeat (split; [done|]). split; [|done].
      apply Forall_Forall2_diag, Forall_forall. intros k Hk.
      destruct (decide (pl_id k = pl_id l')) as [Hk'|]; [left|right; auto].
      assert (k = l') as -> by (apply (nodup_key_inj pl_id (st_lines db1)); [apply lt_ids, Hb1|done..]). done. }
  destruct Hdb3 as (Hb3 & Hev3 & Hled3 & Hba3 & Hs3 & Hpw3 & Hal3).
  pose proof (rederive_batches_books _ _ _ Hr Hb3) as Hb4. pose proof (fun i b => rederive_batches_status _ _ _ i b Hr) as Hst4.
  apply rederive_batches_frame in Hr as [Ht Hal4].
  assert (Hfin : cash_tables db' = cash_tables db4 /\ ds_batches db' = ds_batches db4 /\ ds_alerts db' = ds_alerts db4)
    by (rewrite <- Hdb'; by destruct (negb _)).
  destruct Hfin as (Ht' & Hbt' & Hal5). pose proof (books_frame _ _ Ht' Hbt' Hb4) as Hb5.
  assert (Hl4 : st_lines db4 = st_lines db3) by (unfold cash_tables in Ht; by injection Ht as -> _).
  rewrite Ht in Ht'. clear Ht Hdb'.
  unfold cash_tables in Ht'. injection Ht' as H1 H2 H3 _ _ H6.
  split; [exact Hef|exact Htrans|done|by unfold event; rewrite He1|..].
  - by rewrite H6, Hev3, He1.
  - intros _. unfold find_event. rewrite H6, Hev3. by apply (find_event_snoc _ event).
  - by rewrite H2, Hled3, Hled1, Hled0.
  - rewrite H1. eapply Forall2_trans; [|exact Hpw1|exact Hpw3]. cbn. intros k1 k2 k3 H12 H23.
    destruct H12 as [[-> ->]|[Hne [->|[? _]]]]; [| |done].
    + left. split; [done|]. by destruct H23 as [[_ ->]|[Hk _]].
    + right. split; [done|]. destruct H23 as [[-> _]|[_ Hk]]; [congruence|exact Hk].
  - intros Hw. specialize (Hal3 Hw). unfold alerted, chain_lines in *. by rewrite H1, Hal5, Hal4.
  - by rewrite H3, <- Hi1.
  - intros i b Hi Hbi. unfold get_batch, batch_lines in *. rewrite Hbt', H1.
    rewrite (Hst4 i b); [by rewrite Hl4|apply sorted_ids_nodup|done|by rewrite Hba3, Hba1].
Qed.

Lemma recorded_same `{Sha256} db0 db l ev source actor now ef event db' :
  cash_tables db0 = cash_tables db -> ds_batches db0 = ds_batches db -> recorded db0 l ev source actor now ef event db' ->
  recorded db l ev source actor now ef event db'.
Proof.
  unfold cash_tables. intros Ht Hbt [He Htr Hb Hev Hevs Hf Hle Hli Hal Hs Hba]. injection Ht as H1 H2 H3 _ _ H6.
  unfold credit_of, other_succeeded, chain_lines in He. unfold find_event in Hf. unfold _locked_ledger_chain, get_batch in Hba.
  rewrite ?H1, ?H2, ?H3, ?H6, ?Hbt in *.
  by split.
Qed.

Lemma evidence_line_Some db reference l :
  evidence_line db reference = Some l ->
  l ∈ st_lines db /\ pl_provider_transfer_reference l = Some reference.
Proof. intros [Hl Hp]%find_row_Some. by bool_prop. Qed.

Lemma apply_new_evidence `{Sha256} arrived now db ev source actor reason out db' :
  _apply_verified_line_evidence arrived now db ev source actor reason = Ok (out, db') ->
  find_event db (ve_provider_event_id ev) = None -> submission_books db ->
  exists l ef, evidence_line db (ve_provider_transfer_reference ev) = Some l /\ reconcilable (pl_status l) = true
    /\ recorded db l ev source actor now ef out.2 db' /\ paystack_identity db l ev = Ok tt
    /\ get_batch db' (pl_batch_id l) = Some out.1.1.
Proof.
  intros Hrun Hfresh Hb. ok_step Hrun. ok_step Hrun as l Hl. apply require_some_Ok in Hl. ok_step Hrun as v Hp. destruct v.
  ok_step Hrun as u Hs. apply raise_if_Ok, negb_false_iff in Hs.
  cbn zeta in Hrun. set (db0 := if bool_decide (source = _) then _ else db) in Hrun.
  assert (Hdb0 : cash_tables db0 = cash_tables db /\ ds_batches db0 = ds_batches db)
    by (unfold db0; by destruct (bool_decide _)).
  destruct Hdb0 as [Ht Hbt]. assert (Hf0 : find_event db0 (ve_provider_event_id ev) = None).
  { unfold find_event. unfold cash_tables in Ht. by injection Ht as _ _ _ _ _ ->. }
  rewrite Hf0 in Hrun. ok_step Hrun as [event db1] Hr. ok_step Hrun as b Hbatch. apply require_some_Ok in Hbatch. injection Hrun as <- <-.
  apply record_evidence_Ok in Hr as [ef Hr]; [|by apply (books_frame db)|].
  - exists l, ef. repeat (split; [done|]). split; [by apply (recorded_same db0)|done].
  - apply evidence_line_Some in Hl as [Hl _]. unfold cash_tables in Ht. by injection Ht as -> _.
Qed.

(** ** The credit follows its lines *)

Lemma other_succeeded_true db l :
  other_succeeded db l = true
  <-> exists k, k ∈ st_lines db /\ pl_ledger_entry_id k = pl_ledger_entry_id l /\ pl_id k <> pl_id l /\ succeeded k = true.
Proof.
  unfold other_succeeded. rewrite existsb_exists. split.
  - intros (k & Hk & Hp). rewrite <- list_elem_of_In, chain_lines_in in Hk. bool_prop. exists k. tauto.
  - intros (k & Hk & He & Hne & Hs). exists k. rewrite <- list_elem_of_In, chain_lines_in.
    split; [done|]. by rewrite bool_decide_eq_false_2.
Qed.

Lemma Forall2_in_l {A B} (R : A -> B -> Prop) l k x : Forall2 R l k -> x ∈ l -> exists y, y ∈ k /\ R x y.
Proof.
  induction 1 as [|a b l k Hab _ IH]; [by intros ?%elem_of_nil|]. intros [->|Hx]%elem_of_cons.
  - exists b. split; [by left|done].
  - destruct (IH Hx) as (y & Hy & HR). exists y. split; [by right|done].
Qed.

Lemma Forall2_in_r {A B} (R : A -> B -> Prop) l k y : Forall2 R l k -> y ∈ k -> exists x, x ∈ l /\ R x y.
Proof. intros Hp%Forall2_flip Hy. by destruct (Forall2_in_l _ _ _ _ Hp Hy) as (x & Hx & HR); eauto. Qed.

Section Recorded.
Context `{Sha256}.
Context {db db' : disbursement_store} {l : payout_batch_line} {ev : verified_line_evidence} {source : string}
  {actor : option uuid} {now : Z} {ef : evidence_effect} {event : payout_line_reconciliation_event}.
Hypothesis Hrec : recorded db l ev source actor now ef event db'.
Hypothesis Hl : l ∈ st_lines db.

#[local] Abbreviation l' := (reconciled_line l ef ev actor now).

Lemma recorded_line : l' ∈ st_lines db'.
Proof.
  destruct (Forall2_in_l _ _ _ _ (rd_lines _ _ _ _ _ _ _ _ _ Hrec) Hl) as (y & Hy & [[_ ->]|[Hne _]]); done.
Qed.

Lemma voided_line_keys k at_ :
  pl_id (voided_line k at_) = pl_id k /\ pl_ledger_entry_id (voided_line k at_) = pl_ledger_entry_id k
  /\ succeeded (voided_line k at_) = false.
Proof. done. Qed.

Lemma recorded_others : other_succeeded db' l' = other_succeeded db l.
Proof.
  destruct (reconciled_line_keys l ef ev actor now) as (Hid & _ & Hent & _).
  apply eq_true_iff_eq. rewrite !other_succeeded_true, Hid, Hent. split.
  - intros (k' & Hk' & He & Hne & Hs).
    destruct (Forall2_in_r _ _ _ _ (rd_lines _ _ _ _ _ _ _ _ _ Hrec) Hk') as (k & Hk & [[-> ->]|[Hkl [->|(_ & Hres & ->)]]]).
    + by rewrite Hid in Hne.
    + by exists k.
    + by destruct (voided_line_keys k now) as (_ & _ & Hf); rewrite Hf in Hs.
  - intros (k & Hk & He & Hne & Hs).
    destruct (Forall2_in_l _ _ _ _ (rd_lines _ _ _ _ _ _ _ _ _ Hrec) Hk) as (k' & Hk' & [[-> _]|[_ [->|(_ & Hres & ->)]]]).
    + done.
    + by exists k.
    + unfold succeeded in Hs. by rewrite Hres in Hs.
Qed.

(** The status of the credit after the evidence. *)
Lemma find_entry_status i s entries :
  find_by_key le_id i (set_entry_status i s entries)
  = (fun e => EarningsLedgerEntry (le_id e) (le_payout_calculation_id e) (le_driver_profile_id e)
                (le_driver_user_id e) (le_campaign_id e) (le_trip_session_id e) (le_vehicle_id e)
                (le_entry_type e) s (le_amount e) (le_currency e) (le_description e)
                (le_occurred_at e) (le_release_at e) (le_metadata e)) <$> find_by_key le_id i entries.
Proof.
  unfold find_by_key, find_row, set_entry_status. induction entries as [|e entries IH]; cbn; [done|].
  destruct (bool_decide_reflect (le_id e = i)) as [He|He]; cbn.
  - by rewrite bool_decide_eq_true_2.
  - by rewrite bool_decide_eq_false_2.
Qed.

Lemma recorded_credit :
  le_status <$> credit_of db' l'
  = match ef_ledger ef with
    | Some s => (fun _ => s) <$> credit_of db l
    | None => le_status <$> credit_of db l
    end.
Proof.
  destruct (reconciled_line_keys l ef ev actor now) as (_ & _ & Hent & _).
  unfold credit_of. rewrite Hent, (rd_ledger _ _ _ _ _ _ _ _ _ Hrec). destruct (ef_ledger ef) as [s|]; [|done].
  rewrite find_entry_status. by destruct (find_by_key _ _ _).
Qed.
End Recorded.

(** A credit is paid exactly while a transfer of its chain has succeeded. *)
Definition credit_settled (db : disbursement_store) (l : payout_batch_line) : Prop :=
  le_status <$> credit_of db l = Some (if succeeded l || other_succeeded db l then PAID else AVAILABLE).

Lemma effect_settled l credit other ev ef :
  evidence_effect_of l credit other ev = Ok ef ->
  le_status <$> credit = Some (if succeeded l || other then PAID else AVAILABLE) ->
  match ef_ledger ef with Some s => Some s | None => le_status <$> credit end
  = Some (if bool_decide (default (pl_status l) (ef_line ef) = LINE_SUCCEEDED) || other then PAID else AVAILABLE).
Proof.
  unfold evidence_effect_of. destruct (evidence_considered l ev) eqn:Hc; intros Hrun Hst.
  2:{ injection Hrun as <-. exact Hst. }
  unfold considered_effect in Hrun. ok_step Hrun as e He. apply require_some_Ok in He as ->. cbn in Hst.
  injection Hst as Hst. destruct (bool_decide (ve_outcome ev = OUTCOME_SUCCEEDED)).
  { ok_step Hrun. by injection Hrun as <-. }
  destruct (bool_decide (ve_outcome ev = OUTCOME_FAILED)); [|done]. ok_step Hrun as u Hp. apply raise_if_Ok in Hp.
  injection Hrun as <-. cbn [ef_ledger ef_line].
  assert (bool_decide (default (pl_status l) (if bool_decide (pl_status l = LINE_FAILED) then None else Some LINE_FAILED)
                       = LINE_SUCCEEDED) = false) as ->.
  { apply bool_decide_eq_false. destruct (bool_decide_reflect (pl_status l = LINE_FAILED)) as [Hf|]; cbn; congruence. }
  cbn [orb]. unfold evidence_considered in Hc. unfold succeeded in Hst. destruct other; cbn [negb] in *.
  - rewrite andb_false_r. cbn. rewrite orb_true_r in Hst. by rewrite Hst.
  - rewrite orb_false_r in Hst. destruct (is_reversal ev); [done|]. cbn in *.
    rewrite orb_false_r in Hc. apply andb_true_iff in Hc as [Hc _]. apply negb_true_iff in Hc. rewrite Hc in Hst.
    by rewrite Hst.
Qed.

Lemma recorded_settled `{Sha256} db l ev source actor now ef event db' :
  recorded db l ev source actor now ef event db' -> l ∈ st_lines db -> credit_settled db l ->
  credit_settled db' (reconciled_line l ef ev actor now).
Proof.
  intros Hrec Hl Hs. unfold credit_settled in *. rewrite (recorded_credit Hrec), (recorded_others Hrec).
  destruct (reconciled_line_keys l ef ev actor now) as (_ & _ & _ & Hst & _).
  pose proof (effect_settled _ _ _ _ _ (rd_effect _ _ _ _ _ _ _ _ _ Hrec) Hs) as He. unfold succeeded at 1.
  rewrite Hst, <- He. destruct (ef_ledger ef); [|done]. by destruct (credit_of db l).
Qed.

(** ** A line listens to its newest evidence *)

(** What a piece of evidence reports, and the verdict on a line with the time of
    the newest report.  Older reports change nothing, a success stands against a
    plain failure, and a reversal of a success cannot be recorded: the triggers
    of the database refuse a succeeded line that fails. *)
Record report := Report { rp_at : Z; rp_success : bool; rp_reversal : bool }.
Definition verdict : Type := payout_batch_line_status * option Z.

Definition outcome_of (r : report) : payout_batch_line_status := if rp_success r then LINE_SUCCEEDED else LINE_FAILED.

Definition counts (v : verdict) (r : report) : bool :=
  (negb (bool_decide (v.1 = LINE_SUCCEEDED)) || rp_reversal r)
  && match v.2 with None => true | Some last => last <=? rp_at r end.

Definition hear (v : verdict) (r : report) : option verdict :=
  if counts v r && bool_decide (v.1 = LINE_SUCCEEDED) && negb (rp_success r) then None
  else Some (if counts v r then outcome_of r else v.1, newest_evidence v.2 (rp_at r)).

(** One report after the other. *)
Fixpoint heard (v : verdict) (rs : list report) : option verdict :=
  match rs with
  | [] => Some v
  | r :: rs => v ← hear v r; heard v rs
  end.

Definition report_of (ev : verified_line_evidence) : report :=
  Report (_aware_utc (ve_occurred_at ev)) (bool_decide (ve_outcome ev = OUTCOME_SUCCEEDED)) (is_reversal ev).

Definition verdict_of (l : payout_batch_line) : verdict := (pl_status l, pl_last_provider_evidence_at l).

Lemma evidence_heard l credit other ev ef actor at_ :
  evidence_effect_of l credit other ev = Ok ef ->
  line_transition (pl_status l) (default (pl_status l) (ef_line ef)) = true ->
  hear (verdict_of l) (report_of ev) = Some (verdict_of (reconciled_line l ef ev actor at_)).
Proof.
  intros Hrun Htr. destruct (reconciled_line_keys l ef ev actor at_) as (_ & _ & _ & Hst & Hlast).
  unfold verdict_of, hear. rewrite Hst, Hlast. cbn [fst snd rp_at rp_success report_of].
  unfold evidence_effect_of in Hrun.
  change (counts (pl_status l, pl_last_provider_evidence_at l) (report_of ev)) with (evidence_considered l ev).
  destruct (evidence_considered l ev); [|by injection Hrun as <-]. unfold considered_effect in Hrun. ok_step Hrun.
  unfold outcome_of. cbn [rp_success report_of]. destruct (bool_decide (ve_outcome ev = OUTCOME_SUCCEEDED)).
  { ok_step Hrun. injection Hrun as <-. by rewrite andb_false_r. }
  destruct (bool_decide (ve_outcome ev = OUTCOME_FAILED)); [|done]. ok_step Hrun. injection Hrun as <-.
  cbn [ef_line] in *. destruct (bool_decide_reflect (pl_status l = LINE_SUCCEEDED)) as [Hs|Hs].
  { rewrite Hs in Htr. cbv in Htr. discriminate Htr. }
  cbn. by destruct (bool_decide_reflect (pl_status l = LINE_FAILED)) as [->|_].
Qed.

(** No plain failure is newer than a success, as providers report transfers: a
    completed transfer can only be reversed. *)
Definition plausible (rs : list report) : Prop :=
  forall f s, f ∈ rs -> s ∈ rs -> rp_success f = false -> rp_reversal f = false -> rp_success s = true ->
    rp_at f < rp_at s.

Definition newest_of (rs : list report) (r : report) : Prop := r ∈ rs /\ forall r', r' ∈ rs -> rp_at r' <= rp_at r.

Lemma heard_app v rs rs' : heard v (rs ++ rs') = (v' ← heard v rs; heard v' rs').
Proof. revert v. induction rs as [|r rs IH]; intros v; [done|]. cbn. destruct (hear v r); [apply IH|done]. Qed.

Lemma hear_Some v r v' :
  hear v r = Some v' -> v' = (if counts v r then outcome_of r else v.1, newest_evidence v.2 (rp_at r)).
Proof. unfold hear. destruct (_ && negb _); [discriminate|]. by intros [= <-]. Qed.

(** A report heard after the newest one so far. *)
Lemma hear_newest m r :
  (rp_success r = false -> rp_reversal r = false -> rp_success m = true -> rp_at r < rp_at m) ->
  (if counts (outcome_of m, Some (rp_at m)) r then outcome_of r else outcome_of m,
   newest_evidence (Some (rp_at m)) (rp_at r))
  = if rp_at m <=? rp_at r then (outcome_of r, Some (rp_at r)) else (outcome_of m, Some (rp_at m)).
Proof.
  intros Hp. unfold counts, newest_evidence. cbn [fst snd]. destruct (Z.leb_spec (rp_at m) (rp_at r)) as [Hle|Hlt].
  - rewrite andb_true_r. f_equal.
    + destruct (bool_decide_reflect (outcome_of m = LINE_SUCCEEDED)) as [Hsucc|]; [|done]. cbn.
      destruct (rp_reversal r) eqn:Hrev; [done|]. rewrite Hsucc. unfold outcome_of in *.
      destruct (rp_success r); [done|]. destruct (rp_success m); [|done]. specialize (Hp eq_refl eq_refl eq_refl). lia.
    + destruct (Z.ltb_spec (rp_at m) (rp_at r)); [done|]. f_equal. lia.
  - rewrite andb_false_r. f_equal. destruct (Z.ltb_spec (rp_at m) (rp_at r)); [lia|done].
Qed.

Lemma newest_of_snoc rs m r :
  newest_of rs m -> newest_of (rs ++ [r]) (if rp_at m <=? rp_at r then r else m).
Proof.
  intros [Hm Hmax]. destruct (Z.leb_spec (rp_at m) (rp_at r)) as [Hle|Hlt].
  - split; [apply elem_of_app; right; by left|]. intros r' [Hr'| ->%list_elem_of_singleton]%elem_of_app; [|lia].
    specialize (Hmax _ Hr'). lia.
  - split; [apply elem_of_app; by left|]. intros r' [Hr'| ->%list_elem_of_singleton]%elem_of_app; [by apply Hmax|lia].
Qed.

Lemma verdict_is_newest rs s0 v :
  rs <> [] -> s0 <> LINE_SUCCEEDED -> plausible rs -> heard (s0, None) rs = Some v ->
  exists r, newest_of rs r /\ v = (outcome_of r, Some (rp_at r)).
Proof.
  intros Hne Hs0. revert v. induction rs as [|r rs IH] using rev_ind; intros v Hp Hh; [done|]. clear Hne.
  rewrite heard_app in Hh. destruct (heard (s0, None) rs) as [w|] eqn:Hw; [|discriminate Hh].
  cbn in Hh. destruct (hear w r) as [v'|] eqn:Hv; [|discriminate Hh]. injection Hh as <-.
  apply hear_Some in Hv as ->. destruct (decide (rs = [])) as [->|Hrs].
  { cbn in Hw. injection Hw as <-. exists r. split; [split; [by left|]; intros r' ->%list_elem_of_singleton; lia|].
    unfold counts. cbn. by rewrite bool_decide_eq_false_2. }
  destruct (IH Hrs w) as (m & Hm & ->); [|done|].
  { intros f s Hf Hs. apply Hp; apply elem_of_app; by left. }
  cbn [fst snd]. rewrite hear_newest.
  - exists (if rp_at m <=? rp_at r then r else m). split; [by apply newest_of_snoc|]. by destruct (rp_at m <=? rp_at r).
  - intros Hr Hrev Hms. apply Hp; [apply elem_of_app; right; by left|apply elem_of_app; left; apply Hm|done..].
Qed.

(** No failure of any kind is newer than a success: nothing is reversed after it
    was paid. *)
Definition final_success (rs : list report) : Prop :=
  forall f s, f ∈ rs -> s ∈ rs -> rp_success f = false -> rp_success s = true -> rp_at f < rp_at s.

Lemma final_success_plausible rs : final_success rs -> plausible rs.
Proof. intros Hf f s ? ? ? _ ?. by apply Hf. Qed.

(** Then every report can be recorded. *)
Lemma heard_total rs s0 : s0 <> LINE_SUCCEEDED -> final_success rs -> is_Some (heard (s0, None) rs).
Proof.
  intros Hs0. induction rs as [|r rs IH] using rev_ind; intros Hf; [by eexists|].
  assert (Hf' : final_success rs) by (intros f s Hfi Hsi; apply Hf; apply elem_of_app; by left).
  rewrite heard_app. destruct (IH Hf') as (w & Hw). rewrite Hw. cbn. unfold hear.
  destruct (counts w r && bool_decide (w.1 = LINE_SUCCEEDED) && negb (rp_success r)) eqn:Hc; [|by eexists]. exfalso.
  rewrite !andb_true_iff, negb_true_iff, bool_decide_eq_true in Hc. destruct Hc as [[Hc Hs] Hr].
  destruct (decide (rs = [])) as [->|Hne]; [cbn in Hw; by injection Hw as <-|].
  apply verdict_is_newest in Hw as (m & [Hm _] & ->); [|done|done|by apply final_success_plausible].
  unfold counts in Hc. cbn in Hc, Hs. apply andb_true_iff in Hc as [_ Hle%Z.leb_le].
  unfold outcome_of in Hs. destruct (rp_success m) eqn:Hms; [|done].
  assert (rp_at r < rp_at m); [|lia]. apply Hf; [apply elem_of_app; right; by left|apply elem_of_app; by left|done..].
Qed.

(** ** Evidence, one piece after the other *)

Lemma find_row_pointwise {A} (p : A -> bool) (R : A -> A -> Prop) ls ls' x :
  Forall2 R ls ls' -> (forall k k', k ∈ ls -> R k k' -> p k' = p k) -> find_row p ls = Some x ->
  exists x', find_row p ls' = Some x' /\ R x x'.
Proof.
  unfold find_row. induction 1 as [|k k' ls ls' Hk _ IH]; intros Hp; cbn; [done|].
  rewrite (Hp k k'); [|by left|done]. destruct (p k).
  - intros Hx. injection Hx as <-. by exists k'.
  - apply IH. intros j j' Hj. apply Hp. by right.
Qed.

Lemma set_entry_status_ids i s entries : le_id <$> set_entry_status i s entries = le_id <$> entries.
Proof.
  unfold set_entry_status. rewrite <- list_fmap_compose. apply list_fmap_ext. intros _ e _. cbn.
  by destruct (bool_decide _).
Qed.

Lemma recorded_evidence_line `{Sha256} db reference l ev source actor now ef event db' :
  recorded db l ev source actor now ef event db' -> evidence_line db reference = Some l ->
  evidence_line db' reference = Some (reconciled_line l ef ev actor now).
Proof.
  intros Hrec Hl. pose proof Hl as Hline. unfold evidence_line in Hline.
  assert (Hids : le_id <$> st_ledger db' = le_id <$> st_ledger db).
  { rewrite (rd_ledger _ _ _ _ _ _ _ _ _ Hrec). destruct (ef_ledger ef); [|done]. apply set_entry_status_ids. }
  eapply find_row_pointwise in Hline as (l1 & Hl1 & Hafter); [|exact (rd_lines _ _ _ _ _ _ _ _ _ Hrec)|].
  - destruct Hafter as [[_ ->]|[Hne _]]; [|done]. unfold evidence_line. by rewrite Hids.
  - intros k k' _ Hafter. destruct (reconciled_line_keys l ef ev actor now) as (_ & Href & Hent & _).
    destruct Hafter as [[-> ->]|[_ [->|(_ & _ & ->)]]]; [|done|done]. by rewrite Href, Hent.
Qed.

(** New evidence about one transfer, each piece recorded before the next. *)
Inductive delivered `{Sha256} (reference : string)
    : list verified_line_evidence -> disbursement_store -> disbursement_store -> Prop :=
| delivered_nothing db : delivered reference [] db db
| delivered_next arrived now db ev source actor reason out db1 evs db2 :
    ve_provider_transfer_reference ev = reference ->
    find_event db (ve_provider_event_id ev) = None ->
    _apply_verified_line_evidence arrived now db ev source actor reason = Ok (out, db1) ->
    delivered reference evs db1 db2 ->
    delivered reference (ev :: evs) db db2.

Lemma delivered_verdict `{Sha256} reference evs db db' l :
  delivered reference evs db db' -> submission_books db -> evidence_line db reference = Some l -> credit_settled db l ->
  exists l', evidence_line db' reference = Some l' /\ credit_settled db' l' /\ submission_books db'
  /\ other_succeeded db' l' = other_succeeded db l /\ heard (verdict_of l) (report_of <$> evs) = Some (verdict_of l').
Proof.
  intros Hd. revert l. induction Hd as [db|arrived now db ev source actor reason out db1 evs db2 Href Hf Hrun Hd IH];
    intros l Hb Hl Hs; [by exists l|].
  apply apply_new_evidence in Hrun as (l0 & ef & Hl0 & _ & Hrec & _); [|done..].
  rewrite Href, Hl in Hl0. injection Hl0 as <-. pose proof Hl as [Hin _]%evidence_line_Some.
  destruct (IH (reconciled_line l ef ev actor now)) as (l' & Hl' & Hs' & Hb' & Ho & Hv).
  - apply (rd_books _ _ _ _ _ _ _ _ _ Hrec).
  - by apply (recorded_evidence_line _ _ _ _ _ _ _ _ _ _ Hrec).
  - by apply (recorded_settled _ _ _ _ _ _ _ _ _ Hrec).
  - exists l'. split; [done|]. split; [done|]. split; [done|]. rewrite Ho, (recorded_others Hrec) by done. split; [done|].
    rewrite fmap_cons. cbn [heard]. rewrite (evidence_heard _ _ _ _ _ actor now (rd_effect _ _ _ _ _ _ _ _ _ Hrec)
      (rd_transition _ _ _ _ _ _ _ _ _ Hrec)). exact Hv.
Qed.

Lemma plausible_perm rs rs' : rs ≡ₚ rs' -> plausible rs -> plausible rs'.
Proof. intros Hp Hpl f s Hf Hs. apply Hpl; by rewrite Hp. Qed.

Lemma newest_unique rs r r' : NoDup (rp_at <$> rs) -> newest_of rs r -> newest_of rs r' -> r = r'.
Proof.
  intros Hnd [Hr Hmax] [Hr' Hmax']. specialize (Hmax _ Hr'). specialize (Hmax' _ Hr).
  apply (nodup_key_inj rp_at rs); [done..|lia].
Qed.

Lemma final_success_perm rs rs' : rs ≡ₚ rs' -> final_success rs -> final_success rs'.
Proof. intros Hp Hpl f s Hf Hs. apply Hpl; by rewrite Hp. Qed.

Lemma verdict_order rs rs' s0 v v' :
  rs ≡ₚ rs' -> s0 <> LINE_SUCCEEDED -> plausible rs -> NoDup (rp_at <$> rs) ->
  heard (s0, None) rs = Some v -> heard (s0, None) rs' = Some v' -> v' = v.
Proof.
  intros Hp Hs0 Hpl Hnd Hv Hv'. destruct (decide (rs = [])) as [->|Hne].
  { apply Permutation_nil_l in Hp as <-. congruence. }
  destruct (verdict_is_newest rs s0 v) as (r & Hr & ->); [done..|].
  destruct (verdict_is_newest rs' s0 v') as (r' & [Hin' Hmax'] & ->); [|done| |done|].
  - intros ->. by apply Permutation_nil_r in Hp.
  - by apply (plausible_perm rs).
  - assert (r = r') as ->; [|done]. apply (newest_unique rs); [done..|]. split.
    + by rewrite Hp.
    + intros x Hx. apply Hmax'. by rewrite <- Hp.
Qed.

(** ** Evidence the triggers refuse *)

Lemma evidence_line_credit db reference l :
  evidence_line db reference = Some l -> exists e, credit_of db l = Some e.
Proof.
  intros [_ Hp]%find_row_Some. apply andb_true_iff in Hp as [_ Hp%bool_decide_eq_true].
  apply list_elem_of_fmap in Hp as (e & He & Hin). unfold credit_of, find_by_key.
  destruct (find_row _ (st_ledger db)) as [e'|] eqn:Hf; [by exists e'|].
  apply (find_row_None _ _ e) in Hf; [|done]. by apply bool_decide_eq_false in Hf.
Qed.

Lemma update_line_refused l l' (db : disbursement_store) :
  NoDup (pl_id <$> st_lines db) -> l ∈ st_lines db -> pl_id l' = pl_id l ->
  line_transition (pl_status l) (pl_status l') = false -> update_line l' db = Raise DBAPIError.
Proof.
  intros Hids Hl Hid Ht. unfold update_line. rewrite Hid, (find_by_key_in pl_id _ _ Hids Hl).
  unfold guard_payout_batch_line_mutation. by rewrite Ht, andb_false_r.
Qed.

(** A reversal a listener could not hear is refused by the database. *)
Lemma record_evidence_refused `{Sha256} arrived now (db : disbursement_store) l ev source actor e :
  NoDup (pl_id <$> st_lines db) -> l ∈ st_lines db -> credit_of db l = Some e -> ve_outcome ev = OUTCOME_FAILED ->
  hear (verdict_of l) (report_of ev) = None -> record_evidence arrived now db l ev source actor = Raise DBAPIError.
Proof.
  intros Hids Hl He Ho Hh. unfold hear in Hh.
  change (counts (verdict_of l) (report_of ev)) with (evidence_considered l ev) in Hh. cbn [fst verdict_of] in Hh.
  destruct (evidence_considered l ev) eqn:Hc; [|discriminate Hh].
  destruct (bool_decide_reflect (pl_status l = LINE_SUCCEEDED)) as [Hs|]; [|discriminate Hh]. clear Hh.
  assert (Hrev : is_reversal ev = true).
  { unfold evidence_considered in Hc. rewrite Hs in Hc. cbn in Hc. by apply andb_true_iff in Hc as [? _]. }
  unfold record_evidence. unfold credit_of in He. rewrite He. unfold evidence_effect_of. rewrite Hc.
  unfold considered_effect. cbn [require_some mbind result_bind]. rewrite Ho, Hrev, andb_false_r.
  rewrite bool_decide_eq_false_2, bool_decide_eq_true_2 by done. cbn [raise_if mbind result_bind mret result_ret ef_ledger].
  rewrite (bool_decide_eq_false_2 (pl_status l = LINE_FAILED)) by congruence.
  match goal with |- context [line_changes l ?x ev] => set (ef := x) end.
  destruct (flush_credit _ _ db) as [db0|x] eqn:Hf; [|apply flush_credit_Raise in Hf as ->; done].
  apply flush_credit_Ok in Hf. assert (Hl0 : st_lines db0 = st_lines db) by (subst db0; by case_match).
  cbn [mbind result_bind]. change (line_changes l ef ev) with true. cbn match.
  rewrite (update_line_refused l); [done|by rewrite Hl0|by rewrite Hl0|by apply reconciled_line_keys|].
  by rewrite Hs.
Qed.

Lemma evidence_refused `{Sha256} arrived now db ev source actor reason l :
  evidence_authority db source actor reason = Ok tt -> find_event db (ve_provider_event_id ev) = None ->
  submission_books db -> evidence_line db (ve_provider_transfer_reference ev) = Some l ->
  paystack_identity db l ev = Ok tt -> ve_outcome ev = OUTCOME_FAILED -> hear (verdict_of l) (report_of ev) = None ->
  _apply_verified_line_evidence arrived now db ev source actor reason = Raise DBAPIError.
Proof.
  intros Ha Hf Hb Hl Hp Ho Hh. destruct (evidence_line_credit _ _ _ Hl) as (e & He).
  unfold _apply_verified_line_evidence. rewrite Ha, Hl. cbn [require_some mbind result_bind]. rewrite Hp.
  assert (Hs : pl_status l = LINE_SUCCEEDED).
  { unfold hear in Hh. destruct (_ && negb _) eqn:Hc in Hh; [|discriminate Hh]. cbn [fst verdict_of] in Hc. bool_prop. done. }
  rewrite Hs. cbn [reconcilable negb raise_if mbind result_bind]. cbn zeta.
  set (db0 := if bool_decide (source = _) then _ else db).
  assert (Ht : cash_tables db0 = cash_tables db) by (unfold db0; by destruct (bool_decide _)).
  unfold cash_tables in Ht. injection Ht as H1 H2 _ _ _ H6.
  unfold find_event in *. rewrite H6, Hf. apply evidence_line_Some in Hl as [Hl _].
  rewrite (record_evidence_refused arrived now db0 l ev source actor e); [done| |by rewrite H1| |done|done].
  - rewrite H1. apply lt_ids, Hb.
  - unfold credit_of. by rewrite H2.
Qed.

(** ** The properties *)

(** C3: However many pieces of fresh evidence about one transfer are recorded,
    the line stands where a listener that knows only the reports' times and
    outcomes stands, and its credit is paid exactly when a transfer of its chain
    has succeeded.  The failure such a listener refuses to hear, a newer
    reversal of a success, is never recorded: the database's triggers refuse
    the update and every delivery of it raises. *)
Theorem evidence_refines_verdict `{Sha256} reference evs db db' l :
  delivered reference evs db db' -> submission_books db -> evidence_line db reference = Some l -> credit_settled db l ->
  exists l', evidence_line db' reference = Some l'
  /\ heard (pl_status l, pl_last_provider_evidence_at l) (report_of <$> evs)
     = Some (pl_status l', pl_last_provider_evidence_at l')
  /\ le_status <$> credit_of db' l' = Some (if succeeded l' || other_succeeded db l then PAID else AVAILABLE)
  /\ (forall arrived now ev source actor reason, ve_provider_transfer_reference ev = reference ->
       evidence_authority db' source actor reason = Ok tt -> find_event db' (ve_provider_event_id ev) = None ->
       paystack_identity db' l' ev = Ok tt -> ve_outcome ev = OUTCOME_FAILED ->
       hear (pl_status l', pl_last_provider_evidence_at l') (report_of ev) = None ->
       _apply_verified_line_evidence arrived now db' ev source actor reason = Raise DBAPIError).
Proof.
  intros Hd Hb Hl Hs. destruct (delivered_verdict _ _ _ _ _ Hd Hb Hl Hs) as (l' & Hl' & Hs' & Hb' & Ho & Hv).
  exists l'. split; [done|]. split; [exact Hv|]. split; [by rewrite <- Ho|].
  intros arrived now ev source actor reason Href Ha Hf Hp Hout Hh. rewrite <- Href in Hl'. by apply (evidence_refused _ _ _ _ _ _ _ l').
Qed.


Lemma find_row_pointwise_None {A} (p : A -> bool) (R : A -> A -> Prop) ls ls' :
  Forall2 R ls ls' -> (forall k k', k ∈ ls -> R k k' -> p k' = p k) -> find_row p ls = None -> find_row p ls' = None.
Proof.
  unfold find_row. induction 1 as [|k k' ls ls' Hk _ IH]; intros Hp; cbn; [done|].
  rewrite (Hp k k'); [|by left|done]. destruct (p k); [done|]. apply IH. intros j j' Hj. apply Hp. by right.
Qed.

Lemma paystack_identity_kept `{Sha256} (db db' : disbursement_store) l l' ev :
  Forall2 same_sender (st_intents db) (st_intents db') -> pl_id l' = pl_id l ->
  pl_idempotency_key l' = pl_idempotency_key l -> pl_amount l' = pl_amount l -> pl_currency l' = pl_currency l ->
  paystack_identity db' l' ev = paystack_identity db l ev.
Proof.
  intros Hs Hid Hk Ha Hc. unfold paystack_identity. rewrite Hid, Hk, Ha, Hc.
  assert (Hp : forall k k', k ∈ st_intents db -> same_sender k k' ->
    bool_decide (pi_payout_batch_line_id k' = pl_id l) = bool_decide (pi_payout_batch_line_id k = pl_id l))
    by (intros k k' _ [-> _]; done).
  unfold line_intent. destruct (find_row _ (st_intents db)) as [i|] eqn:Hi.
  - destruct (find_row_pointwise _ _ _ _ _ Hs Hp Hi) as (i' & -> & [_ ->]). done.
  - by rewrite (find_row_pointwise_None _ _ _ _ Hs Hp Hi).
Qed.

Lemma reconciled_reconcilable l credit other ev ef actor now :
  evidence_effect_of l credit other ev = Ok ef -> reconcilable (pl_status l) = true ->
  reconcilable (pl_status (reconciled_line l ef ev actor now)) = true.
Proof.
  intros He Hr. destruct (reconciled_line_keys l ef ev actor now) as (_ & _ & _ & -> & _).
  unfold evidence_effect_of in He. destruct (evidence_considered l ev); [|by injection He as <-].
  unfold considered_effect in He. ok_step He. destruct (bool_decide (ve_outcome ev = OUTCOME_SUCCEEDED)).
  { ok_step He. by injection He as <-. }
  destruct (bool_decide (ve_outcome ev = OUTCOME_FAILED)); [|done]. ok_step He. injection He as <-. cbn.
  by destruct (bool_decide_reflect (pl_status l = LINE_FAILED)).
Qed.

Lemma apply_known_event `{Sha256} arrived now db ev source actor reason l event b :
  evidence_authority db source actor reason = Ok tt ->
  evidence_line db (ve_provider_transfer_reference ev) = Some l -> paystack_identity db l ev = Ok tt ->
  reconcilable (pl_status l) = true -> find_event db (ve_provider_event_id ev) = Some event ->
  same_evidence event l ev = true -> get_batch db (pl_batch_id l) = Some b ->
  exists out db', _apply_verified_line_evidence arrived now db ev source actor reason = Ok (out, db')
  /\ out.2 = event /\ cash_tables db' = cash_tables db /\ ds_batches db' = ds_batches db /\ ds_alerts db' = ds_alerts db.
Proof.
  intros Ha Hl Hp Hr Hf Hs Hb. unfold _apply_verified_line_evidence.
  rewrite Ha, Hl. cbn [require_some mbind result_bind]. rewrite Hp, Hr. cbn [negb raise_if mbind result_bind].
  cbn zeta. set (db0 := if bool_decide (source = _) then _ else db).
  assert (Hdb0 : cash_tables db0 = cash_tables db /\ ds_batches db0 = ds_batches db /\ ds_alerts db0 = ds_alerts db)
    by (unfold db0; by destruct (bool_decide _)).
  destruct Hdb0 as (Ht & Hbt & Hal). unfold find_event, get_batch in *.
  assert (ds_events db0 = ds_events db) as -> by (unfold cash_tables in Ht; by injection Ht as _ _ _ _ _ ->).
  rewrite Hf, Hs. cbn [negb raise_if mbind result_bind mret result_ret]. rewrite Hbt, Hb.
  cbn [require_some mbind result_bind].
  eexists _, _. split; [reflexivity|]. by repeat (split; [done|]).
Qed.

(** Delivering recorded evidence again, by any source and as often as a
    provider likes, returns the event already recorded and changes no line,
    credit, intent, event, batch or alert. *)
Theorem evidence_replay_changes_nothing `{Sha256} arrived now db ev source actor reason out db1 :
  _apply_verified_line_evidence arrived now db ev source actor reason = Ok (out, db1) ->
  find_event db (ve_provider_event_id ev) = None -> submission_books db ->
  forall arrived' now' source' actor' reason', evidence_authority db1 source' actor' reason' = Ok tt ->
  exists out' db2, _apply_verified_line_evidence arrived' now' db1 ev source' actor' reason' = Ok (out', db2)
  /\ out'.2 = out.2 /\ cash_tables db2 = cash_tables db1 /\ ds_batches db2 = ds_batches db1
  /\ ds_alerts db2 = ds_alerts db1.
Proof.
  intros Hrun Hf Hb arrived' now' source' actor' reason' Ha.
  apply apply_new_evidence in Hrun as (l & ef & Hl & Hr & Hrec & Hp & Hbatch); [|done..].
  set (l' := reconciled_line l ef ev actor now).
  assert (Hkeys : pl_id l' = pl_id l /\ pl_idempotency_key l' = pl_idempotency_key l /\ pl_amount l' = pl_amount l
    /\ pl_currency l' = pl_currency l /\ pl_batch_id l' = pl_batch_id l)
    by (unfold l', reconciled_line; by destruct (ef_line ef)).
  destruct Hkeys as (Hid & Hk & Ham & Hc & Hbid).
  apply (apply_known_event _ _ _ _ _ _ _ l' out.2 out.1.1); [done|..].
  - by apply (recorded_evidence_line _ _ _ _ _ _ _ _ _ _ Hrec).
  - rewrite (paystack_identity_kept db db1 l l' ev); [done|by apply (rd_senders _ _ _ _ _ _ _ _ _ Hrec)|done..].
  - eapply reconciled_reconcilable; [exact (rd_effect _ _ _ _ _ _ _ _ _ Hrec)|done].
  - by apply (rd_fresh _ _ _ _ _ _ _ _ _ Hrec).
  - rewrite (rd_event _ _ _ _ _ _ _ _ _ Hrec). unfold same_evidence. cbn. rewrite Hid.
    by rewrite !bool_decide_eq_true_2.
  - by rewrite Hbid.
Qed.

(** C25: When new evidence makes a second transfer of one credit succeed, an
    alert of a duplicate payment that names exactly the lines that succeeded is
    in the table. *)
Theorem duplicate_success_alerted `{Sha256} arrived now db ev source actor reason out db1 l k :
  _apply_verified_line_evidence arrived now db ev source actor reason = Ok (out, db1) ->
  find_event db (ve_provider_event_id ev) = None -> submission_books db ->
  evidence_line db (ve_provider_transfer_reference ev) = Some l ->
  ve_outcome ev = OUTCOME_SUCCEEDED -> rc_applied out.2 = true ->
  k ∈ st_lines db -> pl_ledger_entry_id k = pl_ledger_entry_id l -> pl_id k <> pl_id l -> pl_status k = LINE_SUCCEEDED ->
  exists a, a ∈ ds_alerts db1
  /\ al_dedupe_key a = alert_key DUPLICATE_PAYMENT
       (duplicate_dedupe (List.filter succeeded (chain_lines db1 (pl_ledger_entry_id l)))).
Proof.
  intros Hrun Hf Hb Hl Hout Happ Hk He Hne Hks.
  apply apply_new_evidence in Hrun as (l0 & ef & Hl0 & _ & Hrec & _); [|done..]. rewrite Hl in Hl0. injection Hl0 as <-.
  pose proof (rd_effect _ _ _ _ _ _ _ _ _ Hrec) as Hef. rewrite (rd_event _ _ _ _ _ _ _ _ _ Hrec) in Happ. cbn in Happ.
  assert (Hwon : ef_line ef = Some LINE_SUCCEEDED).
  { unfold evidence_effect_of in Hef. destruct (evidence_considered l ev); [|by injection Hef as <-].
    unfold considered_effect in Hef. ok_step Hef. rewrite Hout, bool_decide_eq_true_2 in Hef by done. ok_step Hef.
    by injection Hef as <-. }
  apply (rd_alerted _ _ _ _ _ _ _ _ _ Hrec); [by apply bool_decide_eq_true|].
  pose proof Hl as [Hin _]%evidence_line_Some. pose proof (recorded_line Hrec Hin) as Hl'.
  destruct (reconciled_line_keys l ef ev actor now) as (Hid & _ & Hent & Hst & _). rewrite Hwon in Hst. cbn in Hst.
  destruct (Forall2_in_l _ _ _ _ (rd_lines _ _ _ _ _ _ _ _ _ Hrec) Hk) as (k' & Hk' & [[-> _]|[_ [->|(_ & Hres & _)]]]);
    [done| |congruence].
  assert (Hsub : [reconciled_line l ef ev actor now; k] ⊆+ List.filter succeeded (chain_lines db1 (pl_ledger_entry_id l))).
  { apply NoDup_submseteq.
    - apply NoDup_cons. split; [|apply NoDup_singleton]. intros Heq%list_elem_of_singleton. apply Hne. by rewrite <- Heq, Hid.
    - intros x Hx. rewrite list_elem_of_In, filter_In, <- list_elem_of_In, chain_lines_in. unfold succeeded.
      apply elem_of_cons in Hx as [-> | ->%list_elem_of_singleton].
      + rewrite Hst, Hent. by rewrite bool_decide_eq_true_2.
      + rewrite Hks. by rewrite bool_decide_eq_true_2. }
  apply submseteq_length in Hsub. cbn in Hsub. lia.
Qed.

Lemma derived_reserved lines :
  lines <> [] -> (forall l, l ∈ lines -> pl_status l = LINE_RESERVED) -> _derive_batch_status lines = BATCH_RECONCILED.
Proof.
  intros Hne Hall. destruct lines as [|l lines]; [done|]. pose proof (Hall l ltac:(by left)) as Hl.
  unfold _derive_batch_status. cbn [fmap list_fmap forallb]. rewrite Hl.
  rewrite (bool_decide_eq_false_2 (LINE_SUBMITTED ∈ _)).
  - cbn. by rewrite !bool_decide_eq_false_2.
  - rewrite <- Hl. change (LINE_SUBMITTED ∉ pl_status <$> (l :: lines)).
    intros (k & Hk & Hin)%list_elem_of_fmap. by rewrite (Hall k Hin) in Hk.
Qed.

(** Nobody can approve, queue or void a batch that is neither reserved nor
    submitted. *)
Lemma refused_batch `{Sha256} db i b :
  get_batch db i = Some b -> pb_status b = BATCH_RECONCILED ->
  (forall clock actor reason r, approve_payout_batch clock db i actor reason <> Ok r)
  /\ (forall now actor adapter r, submit_payout_batch now db i actor adapter <> Ok r)
  /\ (forall actor r, void_payout_batch db i actor <> Ok r).
Proof.
  intros Hb Hs. split; [|split].
  - intros clock actor reason r Hrun. unfold approve_payout_batch, _locked_batch_with_lines in Hrun. rewrite Hb in Hrun.
    ok_step Hrun. ok_step Hrun. cbn [require_some mbind result_bind mret result_ret] in Hrun. ok_step Hrun.
    rewrite Hs in Hrun. discriminate Hrun.
  - intros now actor adapter r Hrun. unfold submit_payout_batch, _locked_batch_with_lines in Hrun. rewrite Hb in Hrun.
    ok_step Hrun. cbn [require_some mbind result_bind mret result_ret] in Hrun. ok_step Hrun.
    rewrite Hs in Hrun. discriminate Hrun.
  - intros actor r Hrun. unfold void_payout_batch, _locked_batch_with_lines in Hrun. rewrite Hb in Hrun.
    ok_step Hrun. cbn [require_some mbind result_bind mret result_ret] in Hrun. rewrite Hs in Hrun. discriminate Hrun.
Qed.

Lemma failure_effect l credit other ev ef :
  evidence_effect_of l credit other ev = Ok ef -> ve_outcome ev = OUTCOME_FAILED -> won ef = false.
Proof.
  unfold evidence_effect_of, won. intros He Ho. destruct (evidence_considered l ev); [|by injection He as <-].
  unfold considered_effect in He. ok_step He. rewrite Ho in He. cbn [bool_decide] in He.
  rewrite bool_decide_eq_false_2, bool_decide_eq_true_2 in He by done. ok_step He. injection He as <-. cbn.
  by destruct (bool_decide_reflect (pl_status l = LINE_FAILED)).
Qed.

(** C26: Failure evidence about a line that has already failed strands its
    reserved replacement: the event leaves the replacement's lines reserved, yet
    their batch is derived as reconciled, and from then on nobody can approve,
    queue or void it. *)
Theorem late_failure_strands_replacement `{Sha256} arrived now db ev source actor reason out db1 l k b :
  _apply_verified_line_evidence arrived now db ev source actor reason = Ok (out, db1) ->
  find_event db (ve_provider_event_id ev) = None -> submission_books db ->
  evidence_line db (ve_provider_transfer_reference ev) = Some l -> pl_status l = LINE_FAILED ->
  ve_outcome ev = OUTCOME_FAILED ->
  k ∈ st_lines db -> pl_ledger_entry_id k = pl_ledger_entry_id l -> get_batch db (pl_batch_id k) = Some b ->
  (forall x, x ∈ batch_lines db (pl_batch_id k) -> pl_status x = LINE_RESERVED) ->
  (exists b', get_batch db1 (pl_batch_id k) = Some b' /\ pb_status b' = BATCH_RECONCILED)
  /\ k ∈ st_lines db1
  /\ (forall clock actor' reason' r, approve_payout_batch clock db1 (pl_batch_id k) actor' reason' <> Ok r)
  /\ (forall now' actor' adapter r, submit_payout_batch now' db1 (pl_batch_id k) actor' adapter <> Ok r)
  /\ (forall actor' r, void_payout_batch db1 (pl_batch_id k) actor' <> Ok r).
Proof.
  intros Hrun Hf Hb Hl Hlst Hout Hk He Hbatch Hres.
  apply apply_new_evidence in Hrun as (l0 & ef & Hl0 & _ & Hrec & _); [|done..]. rewrite Hl in Hl0. injection Hl0 as <-.
  pose proof (failure_effect _ _ _ _ _ (rd_effect _ _ _ _ _ _ _ _ _ Hrec) Hout) as Hw.
  pose proof (rd_lines _ _ _ _ _ _ _ _ _ Hrec) as Hpw. rewrite Hw in Hpw.
  assert (Hlb : pl_batch_id l <> pl_batch_id k).
  { intros Heq. apply evidence_line_Some in Hl as [Hl _]. rewrite (Hres l) in Hlst; [done|]. by apply batch_lines_in. }
  assert (Hsame : forall x, pl_batch_id x = pl_batch_id k -> x ∈ st_lines db1 <-> x ∈ st_lines db).
  { intros x Hx. split; intros Hin.
    - destruct (Forall2_in_r _ _ _ _ Hpw Hin) as (y & Hy & [[_ Hyl]|[_ [->|[? _]]]]); [|done|done].
      destruct Hlb. rewrite <- Hx, Hyl. unfold reconciled_line. by destruct (ef_line ef).
    - destruct (Forall2_in_l _ _ _ _ Hpw Hin) as (y & Hy & [[-> _]|[_ [->|[? _]]]]); done. }
  assert (Hbatch' : get_batch db1 (pl_batch_id k) = Some (batch_with b BATCH_RECONCILED
            (pb_provider_submission_reference b) (pb_submitted_at b))).
  { rewrite (rd_batches _ _ _ _ _ _ _ _ _ Hrec _ b); [|apply sorted_ids_in, list_elem_of_fmap; exists k|done].
    - rewrite derived_reserved; [done| |].
      + assert (Hin : k ∈ batch_lines db1 (pl_batch_id k)) by by apply batch_lines_in; rewrite Hsame.
        intros Hnil. rewrite Hnil in Hin. by apply elem_of_nil in Hin.
      + intros x [Hx Hxb]%batch_lines_in. apply Hres, batch_lines_in. by rewrite <- Hsame.
    - split; [done|]. rewrite list_elem_of_In, filter_In, <- list_elem_of_In. by rewrite bool_decide_eq_true_2. }
  split; [by eexists|]. split; [by apply Hsame|]. by apply (refused_batch _ _ _ Hbatch').
Qed.

(** ** Examples *)

Module CashSample.
Import DisbursementSample BatchSample.

Definition line_of (l : payout_batch_line) (s : payout_batch_line_status) (reference : option string) : payout_batch_line :=
  line_with l s reference (bool_decide (s = LINE_RESERVED) || bool_decide (s = LINE_SUBMITTED)) None None None.

Definition batch_of (i : uuid) (s : payout_batch_status) (lines : list payout_batch_line) : payout_batch :=
  batch_with (freeze_batch_instruction_set
    (PayoutBatch i s "NGN" 0 None None 1 None None None APPROVAL_MANUAL None) lines) s None None.

Definition credit (s : ledger_entry_status) : ledger_entry :=
  {| le_id := 40; le_payout_calculation_id := Some 30%N; le_driver_profile_id := 5; le_driver_user_id := 50;
     le_campaign_id := 4; le_trip_session_id := Some 10%N; le_vehicle_id := Some 6%N;
     le_entry_type := TRIP_PAYOUT; le_status := s; le_amount := 300000; le_currency := "NGN";
     le_description := None; le_occurred_at := 100; le_release_at := Some 200; le_metadata := no_metadata |}.

(** One credit, with a line of batch 60 and perhaps its replacement in batch 64. *)
Definition replacement : payout_batch_line := reserved_line 63 64 (Some 61%N) (credit AVAILABLE) 70 72 300000.

Definition cash_store (s : ledger_entry_status) (batches : list payout_batch) (lines : list payout_batch_line)
    : disbursement_store :=
  set_batches (fun _ => batches)
  (set_payout (fun p => with_lines (fun _ => lines) (with_ledger (fun _ => [credit s]) p)) DisbursementSample.store).

(** The first transfer is on its way. *)
Definition sent : payout_batch_line := line_of first_line LINE_SUBMITTED (Some "T1"%string).
Definition sent_store : disbursement_store := cash_store AVAILABLE [batch_of 60 BATCH_SUBMITTED [first_line]] [sent].

(** It succeeded, and its replacement is on its way as well. *)
Definition second_sent : payout_batch_line := line_of replacement LINE_SUBMITTED (Some "T2"%string).
Definition twice_store : disbursement_store :=
  cash_store PAID [batch_of 60 BATCH_COMPLETED [first_line]; batch_of 64 BATCH_SUBMITTED [replacement]]
    [line_of first_line LINE_SUCCEEDED (Some "T1"%string); second_sent].

(** It failed, and its replacement waits for approval. *)
Definition failed : payout_batch_line := line_of first_line LINE_FAILED (Some "T1"%string).
Definition replaced_store : disbursement_store :=
  cash_store AVAILABLE [batch_of 60 BATCH_FAILED [first_line]; batch_of 64 BATCH_RESERVED [replacement]]
    [failed; replacement].

Definition evidence (reference event outcome : string) (at_ : Z) (type : option string) : verified_line_evidence :=
  VerifiedLineEvidence reference event outcome (aware at_) (sha256_hexdigest event) None None None type.

Definition failure : verified_line_evidence := evidence "T1" "E0" OUTCOME_FAILED 600 None.
Definition success : verified_line_evidence := evidence "T1" "E1" OUTCOME_SUCCEEDED 700 None.
Definition reversal : verified_line_evidence := evidence "T1" "E2" OUTCOME_FAILED 900 (Some TRANSFER_REVERSED).

Definition recorded_in (db : disbursement_store) (ev : verified_line_evidence) : result (reconciliation * disbursement_store) :=
  _apply_verified_line_evidence [] 1000 db ev "webhook" None None.
Definition after (db : disbursement_store) (ev : verified_line_evidence) : disbursement_store :=
  match recorded_in db ev with Ok r => r.2 | Raise _ => db end.
Definition given (db : disbursement_store) (ev : verified_line_evidence) : option reconciliation :=
  match recorded_in db ev with Ok r => Some r.1 | Raise _ => None end.
End CashSample.

Section CashExamples.
Import CashSample.
#[local] Existing Instance DisbursementSample.digest.

Lemma cash_store_books s batches lines :
  line_table lines -> batch_table batches -> submission_books (cash_store s batches lines).
Proof.
  intros Hl Hb. split; [split; constructor|exact Hl|exact Hb|..].
  - split; intros ? *; by intros ?%elem_of_nil.
  - intros o Ho. by apply elem_of_nil in Ho.
  - intros i r Hi. by apply elem_of_nil in Hi.
Qed.

Ltac by_computation := apply (bool_decide_unpack _); vm_compute; exact I.

Lemma sent_books : submission_books sent_store.
Proof. apply cash_store_books; split; by_computation. Qed.

Lemma twice_books : submission_books twice_store.
Proof. apply cash_store_books; split; by_computation. Qed.

Lemma replaced_books : submission_books replaced_store.
Proof. apply cash_store_books; split; by_computation. Qed.

Lemma recorded_in_after db ev : is_ok (recorded_in db ev) = true ->
  exists out, _apply_verified_line_evidence [] 1000 db ev "webhook" None None = Ok (out, after db ev).
Proof. unfold after, recorded_in. destruct (_apply_verified_line_evidence _ _ _ _ _ _ _) as [[out db']|]; [by exists out|done]. Qed.

Lemma delivered_two reference db ev ev' :
  ve_provider_transfer_reference ev = reference -> ve_provider_transfer_reference ev' = reference ->
  find_event db (ve_provider_event_id ev) = None -> find_event (after db ev) (ve_provider_event_id ev') = None ->
  is_ok (recorded_in db ev) = true -> is_ok (recorded_in (after db ev) ev') = true ->
  delivered reference [ev; ev'] db (after (after db ev) ev').
Proof.
  intros Hr Hr' Hf Hf' (out & Ho)%recorded_in_after (out' & Ho')%recorded_in_after.
  eapply delivered_next; [exact Hr|exact Hf|exact Ho|]. eapply delivered_next; [exact Hr'|exact Hf'|exact Ho'|constructor].
Qed.

Lemma failed_then_paid : delivered "T1" [failure; success] sent_store (after (after sent_store failure) success).
Proof. apply delivered_two; vm_compute; reflexivity. Qed.

Lemma paid_then_failed : delivered "T1" [success; failure] sent_store (after (after sent_store success) failure).
Proof. apply delivered_two; vm_compute; reflexivity. Qed.

(** The same two webhooks in both orders: a reversal that comes after the success
    is refused, and one that comes before it decides. *)
Lemma reversal_in_both_orders :
  recorded_in (after sent_store success) reversal = Raise DBAPIError
  /\ (pl_status <$> evidence_line (after sent_store success) "T1") = Some LINE_SUCCEEDED
  /\ (pl_status <$> evidence_line (after (after sent_store reversal) success) "T1") = Some LINE_FAILED.
Proof. split_and!; vm_compute; reflexivity. Qed.

Definition paid_store : disbursement_store := after (after sent_store failure) success.

Lemma paid_authority :
  evidence_authority paid_store "webhook" None None = Ok tt
  /\ find_event paid_store (ve_provider_event_id reversal) = None.
Proof. split; vm_compute; reflexivity. Qed.

Definition refuses_reversal (db : disbursement_store) (l : payout_batch_line) : bool :=
  is_ok (paystack_identity db l reversal) && bool_decide (pl_status l = LINE_SUCCEEDED)
  && bool_decide (hear (pl_status l, pl_last_provider_evidence_at l) (report_of reversal) = None).

Lemma paid_line_refuses l : evidence_line paid_store "T1" = Some l -> refuses_reversal paid_store l = true.
Proof.
  assert (Hall : forallb (refuses_reversal paid_store) (option_list (evidence_line paid_store "T1")) = true)
    by (vm_compute; reflexivity).
  intros Hl. rewrite Hl in Hall. change (refuses_reversal paid_store l && true = true) in Hall. by rewrite andb_true_r in Hall.
Qed.

Lemma success_fresh : find_event sent_store (ve_provider_event_id success) = None.
Proof. vm_compute. reflexivity. Qed.

Lemma success_recorded : is_ok (recorded_in sent_store success) = true.
Proof. vm_compute. reflexivity. Qed.

Lemma poll_authority : evidence_authority (after sent_store success) "poll" (Some 1%N) (Some "asked"%string) = Ok tt.
Proof. vm_compute. reflexivity. Qed.

Lemma sent_line : evidence_line sent_store "T1" = Some sent.
Proof. vm_compute. reflexivity. Qed.

Lemma sent_settled : credit_settled sent_store sent.
Proof. vm_compute. reflexivity. Qed.
End CashExamples.

Lemma evidence_refines_verdict_witness :
  (exists l', evidence_line paid_store "T1" = Some l' /\ pl_status l' = LINE_SUCCEEDED)
  /\ CashSample.recorded_in paid_store CashSample.reversal = Raise DBAPIError.
Proof.
  destruct (@evidence_refines_verdict DisbursementSample.digest _ _ _ _ _ failed_then_paid sent_books
              sent_line sent_settled) as (l' & Hl' & _ & _ & Hrefused).
  pose proof (paid_line_refuses l' Hl') as Hr. unfold refuses_reversal in Hr.
  apply andb_true_iff in Hr as [[Hp Hs%bool_decide_eq_true]%andb_true_iff Hh%bool_decide_eq_true].
  destruct paid_authority as (Ha & Hf). split.
  { exists l'. split; [exact Hl'|exact Hs]. }
  apply Hrefused; [reflexivity|exact Ha|exact Hf| |reflexivity|exact Hh].
  destruct (paystack_identity paid_store l' CashSample.reversal) as [[]|]; [reflexivity|discriminate Hp].
Defined.


Lemma evidence_replay_changes_nothing_witness :
  exists out db2, _apply_verified_line_evidence (H := DisbursementSample.digest) []
      2000 (CashSample.after CashSample.sent_store CashSample.success) CashSample.success "poll" (Some 1%N) (Some "asked"%string)
    = Ok (out, db2)
    /\ cash_tables db2 = cash_tables (CashSample.after CashSample.sent_store CashSample.success).
Proof.
  destruct (recorded_in_after CashSample.sent_store CashSample.success success_recorded) as (out & Ho).
  destruct (@evidence_replay_changes_nothing DisbursementSample.digest _ _ _ _ _ _ _ _ _ Ho success_fresh
              sent_books [] 2000 "poll"%string (Some 1%N) (Some "asked"%string) poll_authority)
    as (out' & db2 & Hrun & _ & Ht & _).
  exists out', db2. split; [exact Hrun|exact Ht].
Defined.

Definition second_success : verified_line_evidence := CashSample.evidence "T2" "E3" OUTCOME_SUCCEEDED 800 None.

Lemma duplicate_success_alerted_witness :
  exists a, a ∈ ds_alerts (CashSample.after CashSample.twice_store second_success).
Proof.
  destruct (recorded_in_after CashSample.twice_store second_success ltac:(vm_compute; reflexivity)) as (out & Ho).
  destruct (@duplicate_success_alerted DisbursementSample.digest _ _ _ _ _ _ _ _ _ CashSample.second_sent
              (CashSample.line_of BatchSample.first_line LINE_SUCCEEDED (Some "T1"%string)) Ho) as (a & Ha & _).
  - vm_compute. reflexivity.
  - exact twice_books.
  - vm_compute. reflexivity.
  - reflexivity.
  - assert (Hg : rc_applied <$> (snd <$> CashSample.given CashSample.twice_store second_success) = Some true)
      by (vm_compute; reflexivity).
    unfold CashSample.given, CashSample.recorded_in in Hg. rewrite Ho in Hg. by injection Hg as ->.
  - by left.
  - reflexivity.
  - discriminate.
  - reflexivity.
  - by exists a.
Defined.

Definition late_failure : verified_line_evidence := CashSample.evidence "T1" "E4" OUTCOME_FAILED 800 None.

Lemma late_failure_strands_replacement_witness :
  (pb_status <$> get_batch CashSample.replaced_store 64) = Some BATCH_RESERVED
  /\ exists b, get_batch (CashSample.after CashSample.replaced_store late_failure) 64 = Some b /\ pb_status b = BATCH_RECONCILED.
Proof.
  split; [vm_compute; reflexivity|].
  destruct (recorded_in_after CashSample.replaced_store late_failure ltac:(vm_compute; reflexivity)) as (out & Ho).
  edestruct (@late_failure_strands_replacement DisbursementSample.digest _ _ _ _ _ _ _ _ _ CashSample.failed
              CashSample.replacement
              (CashSample.batch_of 64 BATCH_RESERVED [CashSample.replacement]) Ho) as ((b & Hb & Hs) & _).
  - vm_compute. reflexivity.
  - exact replaced_books.
  - vm_compute. reflexivity.
  - reflexivity.
  - reflexivity.
  - by right; left.
  - reflexivity.
  - vm_compute. reflexivity.
  - assert (batch_lines CashSample.replaced_store 64 = [CashSample.replacement]) as Hbl by (vm_compute; reflexivity).
    intros x Hx. change (x ∈ batch_lines CashSample.replaced_store 64) in Hx. rewrite Hbl in Hx.
    by apply list_elem_of_singleton in Hx as ->.
  - exists b. split; [exact Hb|exact Hs].
Defined.
