(* ===== verification/ProviderInbox.v ===== *)
(** The inbox of provider events ([app/services/disbursements.py],
    [app/jobs/disbursements.py]): a webhook is authenticated and stored without
    touching money, a job applies the stored evidence, and a sweep retries the
    events that are due. *)

From stdpp Require Import base list strings gmap.
From Stdlib Require Import ZArith QArith Lia Ascii.
From S2P Require Import Prelude PayoutData Ledger Balances Text Json BillingData Notifications.
From S2P Require Import DisbursementData Fraud Adapters Paystack Disbursements Alerts Reconciliation PayOnce Cash.

#[local] Open Scope Z_scope.

(** ** The tables *)

(** A [Numeric(14, 2)] column: rounded half away from zero, at most twelve
    digits before the point. *)
Definition numeric_14_2 (q : Q) : result kobo :=
  let n := Z.abs (Qnum q) * 100 in
  let d := Zpos (Qden q) in
  let k := Z.sgn (Qnum q) * ((2 * n + d) / (2 * d)) in
  if 10 ^ 14 <=? Z.abs k then Raise DataError else mret k.

Definition provider_event_row_ok (e : payout_provider_event) : bool :=
  (bool_decide (pe_outcome e = OUTCOME_SUCCEEDED) || bool_decide (pe_outcome e = OUTCOME_FAILED))
  && (0 <? pe_amount e) && (String.length (pe_currency e) =? 3)%nat && digest_length (pe_evidence_fingerprint e).

Definition provider_event_identity (e : payout_provider_event) : option (string * string) :=
  Some (pe_provider e, pe_provider_event_id e).

Definition flush_provider_event (e : payout_provider_event) (db : disbursement_store) : result disbursement_store :=
  raise_if (negb (provider_event_row_ok e)) (IntegrityError "ck_payout_provider_events") ;;
  raise_if (conflicts provider_event_identity e (ds_provider_events db))
    (IntegrityError "uq_payout_provider_events_identity") ;;
  mret (set_provider_events (fun l => l ++ [e]) db).

Definition processing_row_ok (a : provider_event_processing_attempt) : bool :=
  (0 <? pp_attempt_number a)
  && (if pp_processed a
      then negb (bool_decide (pp_reconciliation_event_id a = None)) && bool_decide (pp_error_code a = None)
      else bool_decide (pp_reconciliation_event_id a = None) && negb (bool_decide (pp_error_code a = None))).

Definition processing_key (a : provider_event_processing_attempt) : option (uuid * Z) :=
  Some (pp_provider_event_id a, pp_attempt_number a).

Definition flush_processing (a : provider_event_processing_attempt) (db : disbursement_store)
    : result disbursement_store :=
  raise_if (negb (processing_row_ok a)) (IntegrityError "ck_payout_provider_attempts") ;;
  raise_if (conflicts processing_key a (ds_processing db)) (IntegrityError "uq_payout_provider_attempt_sequence") ;;
  mret (set_processing (fun l => l ++ [a]) db).

(** ** [int(text, 16) >= 0] *)

(** The digits of a literal of base 16, one underscore allowed between two of
    them; [ready] says that a digit or the prefix went before, [ended] that the
    literal may end here.  The answer says whether a digit is not zero. *)
Fixpoint hex_literal (s : string) (ready ended nonzero : bool) : option bool :=
  match s with
  | EmptyString => if ended then Some nonzero else None
  | String c r =>
      match hex_value c with
      | Some n => hex_literal r true true (nonzero || (0 <? n)%N)
      | None => if (c =? "_")%char && ready then hex_literal r false false nonzero else None
      end
  end.

(** [None] when [int] raises [ValueError]. *)
Definition hex_nonnegative (text : string) : option bool :=
  let '(negative, s) := sign_of (strip text) in
  let '(prefixed, s) := match s with
                        | String "0" (String "x" r) | String "0" (String "X" r) => (true, r)
                        | _ => (false, s)
                        end%char in
  (fun nonzero => negb (negative && nonzero)) <$> hex_literal s prefixed false false.

Definition fingerprint_is_hex (fingerprint : string) : bool :=
  digest_length fingerprint && default false (hex_nonnegative fingerprint).

Example hex_examples :
  hex_nonnegative "00ff" = Some true /\ hex_nonnegative " 0x_f " = Some true /\ hex_nonnegative "-1" = Some false
  /\ hex_nonnegative "-0_0" = Some true /\ hex_nonnegative "0x" = None /\ hex_nonnegative "f__f" = None.
Proof. repeat split. Qed.

(** ** Storing a webhook *)

Definition blank (s : string) : bool := negb (nonempty (strip s)).
Definition missing (s : option string) : bool := negb (nonempty (default EmptyString s)).
Definition longer (n : nat) (s : string) : bool := (n <? String.length s)%nat.

(** The fields that say what happened, before the amount is read. *)
Definition evidence_incomplete (provider : string) (ev : verified_line_evidence) : bool :=
  negb (nonempty provider)
  || blank (ve_provider_event_id ev) || longer 255 (ve_provider_event_id ev)
  || blank (ve_provider_transfer_reference ev) || longer 255 (ve_provider_transfer_reference ev)
  || negb (bool_decide (ve_outcome ev = OUTCOME_SUCCEEDED) || bool_decide (ve_outcome ev = OUTCOME_FAILED))
  || missing (ve_provider_event_type ev) || longer 64 (default EmptyString (ve_provider_event_type ev))
  || missing (ve_provider_reference ev) || longer 100 (default EmptyString (ve_provider_reference ev))
  || bool_decide (ve_amount ev = None).

Definition evidence_malformed (q : Q) (ev : verified_line_evidence) : bool :=
  Qle_bool q 0
  || negb (String.length (default EmptyString (ve_currency ev)) =? 3)%nat
  || bool_decide (utcoffset (ve_occurred_at ev) = None)
  || negb (fingerprint_is_hex (ve_evidence_fingerprint ev)).

(** [Decimal(evidence.amount)]; comparing a NaN raises as well, an infinite
    amount is outside the model. *)
Definition evidence_amount (ev : verified_line_evidence) : result Q :=
  match decimal_of_string (default EmptyString (ve_amount ev)) with
  | Finite q => mret q
  | NotFinite | NotDecimal => Raise InvalidOperation
  end.

Definition webhook_malformed : exn := AppError "DISBURSEMENT_WEBHOOK_INVALID" 400.

Definition complete_amount (provider : string) (ev : verified_line_evidence) : result Q :=
  raise_if (evidence_incomplete provider ev) webhook_malformed ;;
  q ← evidence_amount ev;
  raise_if (evidence_malformed q ev) webhook_malformed ;;
  mret q.

(** [exact_match] *)
Definition exact_match (provider : string) (ev : verified_line_evidence) (q : Q) (e : payout_provider_event) : bool :=
  bool_decide (pe_provider e = provider)
  && bool_decide (Some (pe_provider_event_type e) = ve_provider_event_type ev)
  && bool_decide (pe_provider_transfer_reference e = ve_provider_transfer_reference ev)
  && bool_decide (Some (pe_provider_reference e) = ve_provider_reference ev)
  && Qeq_bool (inject_Z (pe_amount e)) (q * inject_Z 100)
  && bool_decide (Some (pe_currency e) = ve_currency ev)
  && bool_decide (pe_outcome e = ve_outcome ev)
  && bool_decide (pe_evidence_fingerprint e = ve_evidence_fingerprint ev).

Definition find_provider_event (db : disbursement_store) (provider event : string) : option payout_provider_event :=
  find_row (fun e => bool_decide (pe_provider e = provider) && bool_decide (pe_provider_event_id e = event))
    (ds_provider_events db).

Definition event_conflict : exn := AppError "DISBURSEMENT_EVENT_IDENTITY_CONFLICT" 409.

Definition provider_event_of (db : disbursement_store) (provider : string) (ev : verified_line_evidence)
    (amount : kobo) (received_at : Z) : payout_provider_event :=
  {| pe_id := uuid4 (pe_id <$> ds_provider_events db); pe_provider := provider;
     pe_provider_event_id := ve_provider_event_id ev;
     pe_provider_event_type := default EmptyString (ve_provider_event_type ev);
     pe_provider_transfer_reference := ve_provider_transfer_reference ev;
     pe_provider_reference := default EmptyString (ve_provider_reference ev);
     pe_amount := amount; pe_currency := default EmptyString (ve_currency ev); pe_outcome := ve_outcome ev;
     pe_provider_occurred_at := utc_of (ve_occurred_at ev);
     pe_evidence_fingerprint := ve_evidence_fingerprint ev; pe_received_at := received_at |}.

(** The insertion under its savepoint: after an [IntegrityError] the event of
    another request is accepted when it is the same evidence. *)
Definition except_concurrent (db : disbursement_store) (provider : string) (ev : verified_line_evidence) (q : Q)
    (event : payout_provider_event) (r : result disbursement_store)
    : result (payout_provider_event * bool * disbursement_store) :=
  match r with
  | Ok db => mret (event, true, db)
  | Raise (IntegrityError _) =>
      match find_provider_event db provider (ve_provider_event_id ev) with
      | Some concurrent => if exact_match provider ev q concurrent then mret (concurrent, false, db) else Raise event_conflict
      | None => Raise event_conflict
      end
  | Raise e => Raise e
  end.

(** [arrived] are the events other requests commit between the lookup and the
    insertion.  The flag says that the event is new. *)
Definition ingest_payout_provider_webhook {P} `{DisbursementAdapter P} `{DisbursementWebhook P}
    (arrived : list payout_provider_event) (received_at : Z) (db : disbursement_store) (p : P)
    (payload signature : string) : result (payout_provider_event * bool * disbursement_store) :=
  ev ← verified p payload signature;
  let provider := lower (strip (provider_name capabilities)) in
  q ← complete_amount provider ev;
  match find_provider_event db provider (ve_provider_event_id ev) with
  | Some existing => if exact_match provider ev q existing then mret (existing, false, db) else Raise event_conflict
  | None =>
      let db := set_provider_events (fun l => l ++ arrived) db in
      amount ← numeric_14_2 q;
      let event := provider_event_of db provider ev amount received_at in
      except_concurrent db provider ev q event (flush_provider_event event db)
  end.

(** ** Processing *)

Definition find_stored_event (db : disbursement_store) (event_id : uuid) : result payout_provider_event :=
  require_some (find_by_key pe_id event_id (ds_provider_events db)) (AppError "DISBURSEMENT_EVENT_NOT_FOUND" 404).

Definition event_attempts (db : disbursement_store) (event_id : uuid) : list provider_event_processing_attempt :=
  List.filter (fun a => bool_decide (pp_provider_event_id a = event_id)) (ds_processing db).

(** The processed attempt of the highest number. *)
Definition attempt_number_leb (a b : provider_event_processing_attempt) : bool := pp_attempt_number b <=? pp_attempt_number a.
Definition completed_attempt (db : disbursement_store) (event_id : uuid) : option provider_event_processing_attempt :=
  head (stable_sort attempt_number_leb (List.filter pp_processed (event_attempts db event_id))).

(** [coalesce(max(attempt_number), 0) + 1] *)
Definition next_attempt_number (db : disbursement_store) (event_id : uuid) : Z :=
  foldr Z.max 0 (pp_attempt_number <$> event_attempts db event_id) + 1.

Definition stored_evidence (e : payout_provider_event) : verified_line_evidence :=
  {| ve_provider_transfer_reference := pe_provider_transfer_reference e;
     ve_provider_event_id := pe_provider_event_id e; ve_outcome := pe_outcome e;
     ve_occurred_at := aware (pe_provider_occurred_at e); ve_evidence_fingerprint := pe_evidence_fingerprint e;
     ve_provider_reference := Some (pe_provider_reference e); ve_amount := Some (money_str (pe_amount e));
     ve_currency := Some (pe_currency e); ve_provider_event_type := Some (pe_provider_event_type e) |}.

Definition new_attempt (db : disbursement_store) (event_id : uuid) (number : Z) (processed : bool)
    (error : option string) (reconciliation : option uuid) (at_ : Z) : provider_event_processing_attempt :=
  ProviderEventProcessingAttempt (uuid4 (pp_id <$> ds_processing db)) event_id number processed error reconciliation at_.

(** [type(exc).__name__] *)
Definition type_name (e : exn) : string :=
  match e with
  | AppError _ _ => "AppError" | IntegrityError _ => "IntegrityError" | DataError => "DataError"
  | DBAPIError => "DBAPIError"
  | AssertionError => "AssertionError" | ValueError => "ValueError" | RuntimeError => "RuntimeError"
  | IndexError => "IndexError" | KeyError => "KeyError" | ZeroDivisionError => "ZeroDivisionError"
  | InvalidOperation => "InvalidOperation" | TypeError => "TypeError" | AttributeError => "AttributeError"
  | DisbursementUnavailableError => "DisbursementUnavailableError"
  | PaystackOutcomeUnknownError => "PaystackOutcomeUnknownError"
  | PaystackNotFoundError => "PaystackNotFoundError"
  | PaystackMalformedResponseError => "PaystackMalformedResponseError"
  | PaystackRejectedError => "PaystackRejectedError"
  | CryptoConfigurationError => "CryptoConfigurationError"
  | CryptoOperationError => "CryptoOperationError" | OutOfFuel => ""
  end.

Definition error_code (e : exn) : string :=
  match e with AppError code _ => code | e => type_name e end.

Section Processing.
Context `{Sha256}.

Definition process_payout_provider_event (arrived : list payout_automatic_alert) (clock : Z)
    (db : disbursement_store) (event_id : uuid) : result (provider_event_processing_attempt * disbursement_store) :=
  event ← find_stored_event db event_id;
  match completed_attempt db event_id with
  | Some completed => mret (completed, db)
  | None =>
      let number := next_attempt_number db event_id in
      r ← _apply_verified_line_evidence arrived clock db (stored_evidence event) "webhook" None None;
      let '(_, _, reconciliation, db) := r in
      let attempt := new_attempt db event_id number true None (Some (rc_id reconciliation)) clock in
      db ← flush_processing attempt db;
      mret (attempt, db)
  end.

Definition record_payout_provider_event_failure (clock : Z) (db : disbursement_store) (event_id : uuid)
    (code : string) : result (provider_event_processing_attempt * disbursement_store) :=
  find_stored_event db event_id ;;
  let attempt := new_attempt db event_id (next_attempt_number db event_id) false
                   (Some (String.substring 0 128 code)) None clock in
  db ← flush_processing attempt db;
  mret (attempt, db).

(** [process_payout_provider_event_job]: a failure is rolled back and recorded
    in a second session, which finds the store [later], and then raised. *)
Definition process_payout_provider_event_job (arrived : list payout_automatic_alert) (clock : Z)
    (later : disbursement_store -> disbursement_store) (db : disbursement_store) (event_id : uuid)
    : disbursement_store * result provider_event_processing_attempt :=
  match process_payout_provider_event arrived clock db event_id with
  | Ok (attempt, db) => (db, mret attempt)
  | Raise e =>
      match record_payout_provider_event_failure clock (later db) event_id (error_code e) with
      | Ok (_, db) => (db, Raise e)
      | Raise e' => (later db, Raise e')
      end
  end.
End Processing.

(** ** The sweep *)

Definition _TERMINAL_PAYOUT_EVENT_ERRORS : list string :=
  ["PAYOUT_PROVIDER_EVIDENCE_MISMATCH"; "PAYOUT_PROVIDER_EVENT_REPLAY_CONFLICT"; "PAYOUT_PAID_HISTORY_IMMUTABLE";
   "PAYOUT_LEDGER_FINALITY_CONFLICT"; "PAYOUT_PROVIDER_OUTCOME_INVALID"]%string.
Definition _BOUNDED_PAYOUT_EVENT_ERRORS : list string :=
  ["PAYOUT_PROVIDER_LINE_NOT_FOUND"; "PAYOUT_LINE_NOT_SUBMITTED"]%string.
Definition _MAX_BOUNDED_PAYOUT_EVENT_ATTEMPTS : nat := 3.

(** A failed attempt with one of the codes. *)
Definition failed_with (codes : list string) (a : provider_event_processing_attempt) : bool :=
  negb (pp_processed a) && match pp_error_code a with Some c => bool_decide (c ∈ codes) | None => false end.

Definition event_due (db : disbursement_store) (e : payout_provider_event) : bool :=
  let attempts := event_attempts db (pe_id e) in
  negb (existsb pp_processed attempts)
  && negb (existsb (failed_with _TERMINAL_PAYOUT_EVENT_ERRORS) attempts)
  && (length (List.filter (failed_with _BOUNDED_PAYOUT_EVENT_ERRORS) attempts)
      <? _MAX_BOUNDED_PAYOUT_EVENT_ATTEMPTS)%nat.

Definition received_leb (a b : payout_provider_event) : bool :=
  (pe_received_at a <? pe_received_at b) || ((pe_received_at a =? pe_received_at b) && (pe_id a <=? pe_id b)%N).

Definition due_provider_events (db : disbursement_store) : list uuid :=
  take 100 (pe_id <$> stable_sort received_leb (List.filter (event_due db) (ds_provider_events db))).

Section Sweep.
Context `{Sha256}.

(** The loop: [clock] gives each event's time, [later] the store its failure
    finds.  The answer counts processed and failed events. *)
Fixpoint sweep_events (clock : uuid -> Z) (later : disbursement_store -> disbursement_store)
    (db : disbursement_store) (events : list uuid) (processed failed : nat) : disbursement_store * (nat * nat) :=
  match events with
  | [] => (db, (processed, failed))
  | i :: rest =>
      match process_payout_provider_event_job [] (clock i) later db i with
      | (db, Ok _) => sweep_events clock later db rest (S processed) failed
      | (db, Raise _) => sweep_events clock later db rest processed (S failed)
      end
  end.

Definition sweep_payout_provider_events (clock : uuid -> Z) (later : disbursement_store -> disbursement_store)
    (db : disbursement_store) : disbursement_store * (nat * nat) :=
  sweep_events clock later db (due_provider_events db) 0 0.
End Sweep.

(** ** What evidence leaves alone *)

Section Frames.
Context `{Sha256}.

Lemma cancel_lines_events db lines at_ db' : cancel_lines db lines at_ = Ok db' -> event_tables db' = event_tables db.
Proof.
  revert db. induction lines as [|l lines IH]; intros db Hrun; cbn in Hrun; [by injection Hrun as <-|].
  ok_step Hrun as r Hc. rewrite (IH _ Hrun). clear IH Hrun. unfold _cancel_uncalled_line in Hc.
  destruct (_ || _); [by injection Hc as <-|]. destruct (line_intent db (pl_id l)).
  - destruct (negb _); [by injection Hc as <-|]. ok_step Hc as db1 Hi. ok_step Hc as db2 Hl. injection Hc as <-.
    apply update_intent_Ok in Hi as [-> _]. by apply update_line_Ok in Hl as ->.
  - ok_step Hc as db1 Hl. injection Hc as <-. by apply update_line_Ok in Hl as ->.
Qed.

Lemma rederive_batches_events db batches db' : rederive_batches db batches = Ok db' -> event_tables db' = event_tables db.
Proof.
  revert db. induction batches as [|b batches IH]; intros db Hrun; cbn in Hrun; [by injection Hrun as <-|].
  destruct (get_batch db b); [|by apply IH]. ok_step Hrun as db1 Hb. apply update_batch_Ok in Hb as ->.
  by rewrite (IH _ Hrun).
Qed.

Lemma record_evidence_events arrived now db l ev source actor event db' :
  record_evidence arrived now db l ev source actor = Ok (event, db') ->
  event_tables db' = (ds_provider_events db, ds_processing db, ds_events db ++ [event])
  /\ rc_provider_event_id event = ve_provider_event_id ev.
Proof.
  unfold record_evidence. intros Hrun. ok_step Hrun as ef Hef. ok_step Hrun as db0 Hcr. ok_step Hrun as db1 Hu.
  ok_step Hrun as db2 Hf. apply flush_credit_Ok in Hcr as ->.
  ok_step Hrun as db3 Hc. ok_step Hrun as db4 Hr. injection Hrun as <- <-. split; [|done].
  set (event := PayoutLineReconciliationEvent _ _ _ _ _ _ _ _ _) in *. clearbody event.
  assert (H1 : event_tables db1 = event_tables db).
  { destruct (line_changes l ef ev); [apply update_line_Ok in Hu as ->|injection Hu as <-]; by destruct (ef_ledger ef). }
  unfold flush_reconciliation_event in Hf. ok_step Hf. ok_step Hf. injection Hf as <-.
  assert (H3 : event_tables db3 = event_tables (set_events (fun l0 => l0 ++ [event]) db1)).
  { destruct (ef_line ef) as [s|]; [|by injection Hc as <-]. destruct (find_by_key _ _ _) as [e|]; [|by injection Hc as <-].
    unfold _converge_line_cash in Hc. destruct (negb _); [by injection Hc as <-|]. ok_step Hc as dbx Hx.
    apply cancel_lines_events in Hx. destruct (1 <? _)%nat; [|injection Hc as <-; by rewrite Hx].
    ok_step Hc as [o dby] Ha. injection Hc as <-. apply raise_alert_frame in Ha as (_ & _ & Ha & _). by rewrite Ha, Hx. }
  apply rederive_batches_events in Hr.
  assert (Hfin : forall b, event_tables (if b : bool then audit actor "provider.payout_line.reconciled" "payout_batch_line" (pl_id l) db4
                                          else db4) = event_tables db4) by (by intros []).
  rewrite Hfin, Hr, H3. unfold event_tables in *. cbn. injection H1 as -> -> ->. done.
Qed.

Lemma apply_events arrived now db ev source actor reason out db' :
  _apply_verified_line_evidence arrived now db ev source actor reason = Ok (out, db') ->
  ds_provider_events db' = ds_provider_events db /\ ds_processing db' = ds_processing db
  /\ out.2 ∈ ds_events db' /\ rc_provider_event_id out.2 = ve_provider_event_id ev
  /\ exists new, ds_events db' = ds_events db ++ new.
Proof.
  intros Hrun. ok_step Hrun. ok_step Hrun as l Hl. ok_step Hrun. ok_step Hrun. cbn zeta in Hrun.
  set (db0 := if bool_decide (source = _) then _ else db) in Hrun.
  assert (Hdb0 : event_tables db0 = event_tables db) by (unfold db0; by destruct (bool_decide _)).
  ok_step Hrun as [event db1] Hr. ok_step Hrun as b _. injection Hrun as <- <-. cbn [snd].
  unfold event_tables in Hdb0. injection Hdb0 as H1 H2 H3. destruct (find_event db0 _) as [known|] eqn:Hf.
  - ok_step Hr. injection Hr as <- <-. apply find_row_Some in Hf as [Hin Hid]. apply bool_decide_eq_true in Hid.
    rewrite H1, H2. repeat (split; [done|]). exists []. by rewrite app_nil_r.
  - apply record_evidence_events in Hr as [Ht Hid]. unfold event_tables in Ht. injection Ht as -> -> ->.
    rewrite H1, H2, H3. repeat (split; [done|]). split; [apply elem_of_app; right; by left|]. split; [done|]. by exists [event].
Qed.
End Frames.

(** ** Storing the same webhook again *)

Lemma numeric_14_2_whole q a : (q * inject_Z 100 == inject_Z a)%Q -> 0 <= a < 10 ^ 14 -> numeric_14_2 q = Ok a.
Proof.
  destruct q as [n d]. unfold Qeq, numeric_14_2. cbn -[Z.mul Z.div Z.abs Z.sgn Z.pow]. intros Hq Ha.
  rewrite Z.mul_1_r, Pos.mul_1_r in Hq. assert (Hn : 0 <= n) by nia.
  rewrite (Z.abs_eq n) by done.
  assert (Hk : (2 * (n * 100) + Z.pos d) / (2 * Z.pos d) = a).
  { symmetry. apply (Z.div_unique _ _ _ (Z.pos d)); nia. }
  rewrite Hk. assert (Hs : Z.sgn n * a = a) by (destruct (Z.eq_dec n 0) as [->|]; [nia|rewrite Z.sgn_pos; nia]).
  rewrite Hs, Z.abs_eq by lia. by destruct (Z.leb_spec (10 ^ 14) a); [lia|].
Qed.

Lemma present_default s : missing s = false -> Some (default EmptyString s) = s.
Proof. by destruct s. Qed.

Lemma ingested_event provider ev q db a at_ :
  complete_amount provider ev = Ok q -> (q * inject_Z 100 == inject_Z a)%Q ->
  exact_match provider ev q (provider_event_of db provider ev a at_) = true.
Proof.
  intros Hc Hq. unfold complete_amount in Hc. ok_step Hc as u Hi. apply raise_if_Ok in Hi. ok_step Hc as q' _.
  ok_step Hc as u' Hm. apply raise_if_Ok in Hm. injection Hc as ->.
  unfold evidence_incomplete in Hi. unfold evidence_malformed in Hm. bool_prop.
  assert (Hcur : Some (default EmptyString (ve_currency ev)) = ve_currency ev) by by destruct (ve_currency ev).
  unfold exact_match, provider_event_of.
  cbn [pe_provider pe_provider_event_type pe_provider_transfer_reference pe_provider_reference pe_amount pe_currency
       pe_outcome pe_evidence_fingerprint].
  rewrite !present_default, Hcur, !bool_decide_eq_true_2 by done. cbn [andb]. rewrite !andb_true_r.
  apply Qeq_bool_iff. by symmetry.
Qed.

(** The insertion, with what it leaves in the table. *)
Lemma concurrent_event db arrived provider ev q a at_ event new db1 :
  let db0 := set_provider_events (fun l => l ++ arrived) db in
  let e := provider_event_of db0 provider ev a at_ in
  except_concurrent db0 provider ev q e (flush_provider_event e db0) = Ok (event, new, db1) ->
  complete_amount provider ev = Ok q -> (q * inject_Z 100 == inject_Z a)%Q ->
  unique_on provider_event_identity (ds_provider_events db ++ arrived) ->
  find_provider_event db1 provider (ve_provider_event_id ev) = Some event
  /\ exact_match provider ev q event = true /\ unique_on provider_event_identity (ds_provider_events db1).
Proof.
  intros db0 e Hrun Hc Hq Hu. unfold except_concurrent in Hrun.
  destruct (flush_provider_event e db0) as [db2|x] eqn:Hf.
  - injection Hrun as <- _ <-. unfold flush_provider_event in Hf. ok_step Hf. ok_step Hf as u Hfree.
    apply raise_if_Ok in Hfree. injection Hf as <-. split; [|split; [by apply ingested_event|]].
    + apply find_row_snoc_new; [|by rewrite !bool_decide_eq_true_2].
      destruct (find_row _ (ds_provider_events db0)) as [y|] eqn:Hy; [|done]. exfalso.
      apply find_row_Some in Hy as [Hin Hp]. bool_prop. unfold conflicts in Hfree. cbn in Hfree.
      apply bool_decide_eq_false in Hfree. apply Hfree, list_elem_of_fmap. exists y. split; [|done].
      unfold provider_event_identity. congruence.
    + by apply unique_on_snoc.
  - destruct x; try discriminate Hrun. destruct (find_provider_event db0 _ _) as [y|] eqn:Hy; [|discriminate Hrun].
    destruct (exact_match provider ev q y) eqn:Hm; [|discriminate Hrun]. by injection Hrun as <- _ <-.
Qed.

(** A webhook is stored once: when a delivery has stored or found its event,
    every later delivery of the same payload finds that event, reports it as
    known and changes nothing, whatever other requests stored in between the
    lookup and the insertion. *)
Theorem ingested_webhook_is_known {P} `{DisbursementAdapter P} `{DisbursementWebhook P} arrived at_ db p payload signature
    event new db1 ev a :
  ingest_payout_provider_webhook arrived at_ db p payload signature = Ok (event, new, db1) ->
  verify_webhook p payload signature = Ok ev -> ve_amount ev = Some (money_str a) -> 0 < a < 10 ^ 14 ->
  unique_on provider_event_identity (ds_provider_events db ++ arrived) ->
  (forall arrived' at_', ingest_payout_provider_webhook arrived' at_' db1 p payload signature = Ok (event, false, db1))
  /\ unique_on provider_event_identity (ds_provider_events db1) /\ event ∈ ds_provider_events db1.
Proof.
  unfold ingest_payout_provider_webhook, verified. intros Hrun Hev Ham Ha Hu. rewrite Hev in *.
  cbn [mbind result_bind] in *. set (provider := lower _) in *.
  destruct (complete_amount provider ev) as [q|] eqn:Hc; [|done]. cbn [mbind result_bind] in *.
  assert (Hq : (q * inject_Z 100 == inject_Z a)%Q).
  { unfold complete_amount, evidence_amount in Hc. rewrite Ham in Hc. cbn [from_option id] in Hc.
    rewrite decimal_of_money_str in Hc by lia. ok_step Hc. ok_step Hc as q' Hq'. ok_step Hc. injection Hc as <-.
    injection Hq' as <-. unfold Qeq. cbn. lia. }
  assert (Hnow : find_provider_event db1 provider (ve_provider_event_id ev) = Some event
    /\ exact_match provider ev q event = true /\ unique_on provider_event_identity (ds_provider_events db1)).
  { destruct (find_provider_event db provider (ve_provider_event_id ev)) as [e|] eqn:Hf.
    - destruct (exact_match provider ev q e) eqn:Hm; [|done]. injection Hrun as -> _ ->.
      split; [done|]. split; [done|]. by apply unique_on_app_l in Hu.
    - rewrite (numeric_14_2_whole q a) in Hrun by (done || lia). cbn [mbind result_bind] in Hrun.
      by apply (concurrent_event db arrived) in Hrun. }
  destruct Hnow as (Hf & Hm & Hu1). split; [intros arrived' at_'; by rewrite Hf, Hm|]. split; [done|].
  by apply find_row_Some in Hf as [? _].
Qed.

(** ** Attempts *)

Lemma event_attempts_snoc (db db' : disbursement_store) a i :
  ds_processing db' = ds_processing db ++ [a] ->
  event_attempts db' i = event_attempts db i ++ (if bool_decide (pp_provider_event_id a = i) then [a] else []).
Proof. intros Hp. unfold event_attempts. rewrite Hp, List.filter_app. cbn. by destruct (bool_decide _). Qed.

Lemma event_attempts_in db a i : a ∈ event_attempts db i <-> a ∈ ds_processing db /\ pp_provider_event_id a = i.
Proof.
  unfold event_attempts. rewrite list_elem_of_In, filter_In, <- list_elem_of_In. by rewrite bool_decide_eq_true.
Qed.

Lemma next_attempt_fresh db i a : a ∈ event_attempts db i -> pp_attempt_number a < next_attempt_number db i.
Proof.
  unfold next_attempt_number. intros Ha. induction Ha as [a l|a b l _ IH]; cbn; lia.
Qed.

Lemma next_attempt_positive db i : 0 < next_attempt_number db i.
Proof.
  unfold next_attempt_number. assert (0 <= foldr Z.max 0 (pp_attempt_number <$> event_attempts db i)); [|lia].
  induction (event_attempts db i); cbn; lia.
Qed.

(** An attempt of the next number always fits. *)
Lemma flush_next_attempt db i processed error reconciliation at_ :
  let a := new_attempt db i (next_attempt_number db i) processed error reconciliation at_ in
  processing_row_ok a = true -> flush_processing a db = Ok (set_processing (fun l => l ++ [a]) db).
Proof.
  intros a Hr. unfold flush_processing. rewrite Hr. cbn [negb raise_if mbind result_bind].
  assert (conflicts processing_key a (ds_processing db) = false) as ->; [|done].
  unfold conflicts, processing_key. cbn. apply bool_decide_eq_false. intros (b & Hk & Hb)%list_elem_of_fmap.
  injection Hk as Hi Hn. assert (Hlt := next_attempt_fresh db i b). rewrite event_attempts_in in Hlt.
  specialize (Hlt (conj Hb (eq_sym Hi))). lia.
Qed.

Lemma completed_attempt_None db i : completed_attempt db i = None -> List.filter pp_processed (event_attempts db i) = [].
Proof.
  unfold completed_attempt. intros Hh. pose proof (stable_sort_perm attempt_number_leb
    (List.filter pp_processed (event_attempts db i))) as Hp.
  destruct (stable_sort _ _); [by apply Permutation_nil_l in Hp|done].
Qed.

Lemma completed_attempt_Some db i a :
  completed_attempt db i = Some a -> a ∈ ds_processing db /\ pp_provider_event_id a = i /\ pp_processed a = true.
Proof.
  unfold completed_attempt. intros Hh. apply head_Some_elem_of in Hh. rewrite stable_sort_perm in Hh.
  rewrite list_elem_of_In, filter_In, <- list_elem_of_In, event_attempts_in in Hh. tauto.
Qed.

Section Attempts.
Context `{Sha256}.

(** A processing that returns: the event was completed, or its evidence was
    applied and the attempt says so. *)
Lemma process_event_Ok arrived clock db i a db' :
  process_payout_provider_event arrived clock db i = Ok (a, db') ->
  exists e, find_stored_event db i = Ok e
  /\ ((completed_attempt db i = Some a /\ db' = db)
      \/ (completed_attempt db i = None /\ pp_processed a = true /\ pp_provider_event_id a = i
          /\ exists out db1, _apply_verified_line_evidence arrived clock db (stored_evidence e) "webhook" None None = Ok (out, db1)
             /\ pp_reconciliation_event_id a = Some (rc_id out.2) /\ conflicts processing_key a (ds_processing db1) = false
             /\ db' = set_processing (fun l => l ++ [a]) db1)).
Proof.
  unfold process_payout_provider_event. intros Hrun. ok_step Hrun as e He. exists e. split; [done|].
  destruct (completed_attempt db i) as [c|]; [left; by injection Hrun as <- <-|right].
  ok_step Hrun as r Happ. destruct r as [[[b ls] event] db1]. ok_step Hrun as db2 Hf. injection Hrun as <- <-.
  unfold flush_processing in Hf. ok_step Hf. ok_step Hf as u Hfree. apply raise_if_Ok in Hfree. injection Hf as <-.
  repeat (split; [done|]). by exists (b, ls, event), db1.
Qed.

Lemma process_event_processing arrived clock db i a db' :
  process_payout_provider_event arrived clock db i = Ok (a, db') ->
  ds_provider_events db' = ds_provider_events db
  /\ pp_processed a = true /\ a ∈ event_attempts db' i
  /\ (ds_processing db' = ds_processing db \/ (ds_processing db' = ds_processing db ++ [a] /\ completed_attempt db i = None)).
Proof.
  intros (e & _ & [[Hc ->]|(Hc & Hp & Hi & out & db1 & Happ & _ & _ & ->)])%process_event_Ok.
  - apply completed_attempt_Some in Hc as (Hin & Hi & Hp). rewrite event_attempts_in. auto.
  - apply apply_events in Happ as (H1 & H2 & _). rewrite event_attempts_in. cbn. rewrite H1, H2.
    repeat (split; [done|]). split; [|by right]. split; [apply elem_of_app; right; by left|done].
Qed.

(** C28: The evidence of a stored event is applied once: when its processing has
    returned, processing it again returns the same attempt and changes
    nothing. *)
Theorem event_processed_once arrived clock db i a db' :
  process_payout_provider_event arrived clock db i = Ok (a, db') ->
  forall arrived' clock', process_payout_provider_event arrived' clock' db' i = Ok (a, db').
Proof.
  intros Hrun arrived' clock'. pose proof Hrun as (He & Hp & _ & Hproc)%process_event_processing.
  apply process_event_Ok in Hrun as (e & Hfind & Hcase). unfold process_payout_provider_event.
  assert (find_stored_event db' i = Ok e) as -> by (unfold find_stored_event in *; by rewrite He).
  cbn [mbind result_bind]. assert (completed_attempt db' i = Some a) as ->; [|done].
  destruct Hcase as [[Hc ->]|(Hc & _ & Hi & out & db1 & Happ & _ & _ & ->)]; [done|].
  apply apply_events in Happ as (_ & H2 & _). apply completed_attempt_None in Hc.
  unfold completed_attempt. rewrite (event_attempts_snoc db _ a); [|cbn; by rewrite H2].
  rewrite Hi, bool_decide_eq_true_2, List.filter_app, Hc by done. cbn. by rewrite Hp.
Qed.
End Attempts.

(** ** The books of the inbox *)

Definition processed_event (a : provider_event_processing_attempt) : option uuid :=
  if pp_processed a then Some (pp_provider_event_id a) else None.

(** A processed event has its evidence recorded. *)
Definition recorded_attempt (db : disbursement_store) (a : provider_event_processing_attempt) : Prop :=
  exists e r, find_by_key pe_id (pp_provider_event_id a) (ds_provider_events db) = Some e /\ r ∈ ds_events db
  /\ pp_reconciliation_event_id a = Some (rc_id r) /\ rc_provider_event_id r = pe_provider_event_id e.

Record inbox_books (db : disbursement_store) : Prop := {
  ib_identity : unique_on provider_event_identity (ds_provider_events db);
  ib_sequence : unique_on processing_key (ds_processing db);
  ib_once : unique_on processed_event (ds_processing db);
  ib_recorded : forall a, a ∈ ds_processing db -> pp_processed a = true -> recorded_attempt db a
}.

(** What other transactions do: events and attempts are only added, and the
    books hold after them. *)
Definition inbox_grows (db db' : disbursement_store) : Prop :=
  ds_provider_events db `prefix_of` ds_provider_events db' /\ ds_processing db `prefix_of` ds_processing db'
  /\ ds_events db `prefix_of` ds_events db'.

Section Books.
Context `{Sha256} {P : Type} `{DisbursementAdapter P} `{DisbursementWebhook P}.

Inductive inbox_step : disbursement_store -> disbursement_store -> Prop :=
| ingest_step arrived at_ db p payload signature event new db' :
    unique_on provider_event_identity (ds_provider_events db ++ arrived) ->
    ingest_payout_provider_webhook arrived at_ db p payload signature = Ok (event, new, db') -> inbox_step db db'
| job_step arrived clock later db i :
    (forall db, inbox_books db -> inbox_books (later db) /\ inbox_grows db (later db)) ->
    inbox_step db (process_payout_provider_event_job arrived clock later db i).1
| evidence_step db db' :
    ds_provider_events db' = ds_provider_events db -> ds_processing db' = ds_processing db ->
    ds_events db `prefix_of` ds_events db' -> inbox_step db db'.

Lemma recorded_attempt_grows db db' a : inbox_grows db db' -> recorded_attempt db a -> recorded_attempt db' a.
Proof.
  intros (Hp & _ & He) (e & r & Hf & Hr & Hid & Hev). exists e, r. split; [by eapply find_row_prefix|].
  split; [|done]. by eapply elem_of_prefix.
Qed.

Lemma inbox_grows_same db db' :
  ds_provider_events db' = ds_provider_events db -> ds_processing db' = ds_processing db ->
  ds_events db `prefix_of` ds_events db' -> inbox_grows db db'.
Proof. intros Hp Hq He. unfold inbox_grows. by rewrite Hp, Hq. Qed.

Lemma inbox_books_same db db' :
  ds_processing db' = ds_processing db -> inbox_grows db db' ->
  unique_on provider_event_identity (ds_provider_events db') -> inbox_books db -> inbox_books db'.
Proof.
  intros Hq Hg Hu [Hi Hs Ho Hr]. split; [done|by rewrite Hq..|]. intros a. rewrite Hq. intros Ha Hp.
  by apply (recorded_attempt_grows db), Hr.
Qed.

Lemma inbox_books_attempt db a :
  inbox_books db -> conflicts processing_key a (ds_processing db) = false ->
  conflicts processed_event a (ds_processing db) = false -> (pp_processed a = true -> recorded_attempt db a) ->
  inbox_books (set_processing (fun l => l ++ [a]) db).
Proof.
  intros [Hi Hs Ho Hr] Hk Hf Ha. split; [done|by apply unique_on_snoc..|]. cbn.
  intros b [Hb| ->%list_elem_of_singleton]%elem_of_app Hp; [by apply Hr|by apply Ha].
Qed.

Lemma ingest_grows arrived at_ db p payload signature event new db' :
  ingest_payout_provider_webhook arrived at_ db p payload signature = Ok (event, new, db') ->
  ds_processing db' = ds_processing db /\ inbox_grows db db'
  /\ (unique_on provider_event_identity (ds_provider_events db ++ arrived) ->
      unique_on provider_event_identity (ds_provider_events db')).
Proof.
  unfold ingest_payout_provider_webhook. intros Hrun. ok_step Hrun as ev Hev. cbn zeta in Hrun. ok_step Hrun as q Hq.
  destruct (find_provider_event db _ _) as [known|].
  { destruct (exact_match _ _ _ _); [|done]. injection Hrun as _ _ <-.
    split; [done|]. split; [by apply inbox_grows_same|]. by intros Hu%unique_on_app_l. }
  ok_step Hrun as amount Ha. set (db0 := set_provider_events _ db) in *.
  assert (Hg : forall l, inbox_grows db (set_provider_events (fun l' => l' ++ l) db0)).
  { intros l. split; [|done]. cbn. rewrite <- app_assoc. by apply prefix_app_r. }
  unfold except_concurrent in Hrun. destruct (flush_provider_event _ db0) as [db2|x] eqn:Hf.
  - injection Hrun as _ _ <-. unfold flush_provider_event in Hf. ok_step Hf. ok_step Hf as u Hfree.
    apply raise_if_Ok in Hfree. injection Hf as <-. split; [done|]. split; [apply Hg|].
    intros Hu. by apply unique_on_snoc.
  - destruct x; try discriminate Hrun. destruct (find_provider_event db0 _ _); [|discriminate Hrun].
    destruct (exact_match _ _ _ _); [|discriminate Hrun]. injection Hrun as _ _ <-. split; [done|]. split; [|done].
    split; [by apply prefix_app_r|done].
Qed.

Lemma process_event_books arrived clock db i a db' :
  process_payout_provider_event arrived clock db i = Ok (a, db') -> inbox_books db -> inbox_books db'.
Proof.
  intros (e & Hfind & [[_ ->]|(Hc & Hp & Hi & out & db1 & Happ & Hid & Hk & ->)])%process_event_Ok Hb; [done|].
  apply apply_events in Happ as (H3 & H4 & Hin & Hev & new & Hnew).
  assert (Hb1 : inbox_books db1).
  { apply (inbox_books_same db); [done| |by rewrite H3; apply ib_identity|done].
    apply inbox_grows_same; [done..|]. by exists new. }
  apply inbox_books_attempt; [done..| |].
  - unfold conflicts, processed_event. rewrite Hp, Hi, H4. apply bool_decide_eq_false.
    intros (b & Hpb & Hb')%list_elem_of_fmap. destruct (pp_processed b) eqn:Hpp; [|done]. injection Hpb as Hib.
    apply completed_attempt_None in Hc. assert (Hin' : b ∈ List.filter pp_processed (event_attempts db i)).
    { rewrite list_elem_of_In, filter_In, <- list_elem_of_In, event_attempts_in. done. }
    rewrite Hc in Hin'. by apply elem_of_nil in Hin'.
  - intros _. apply require_some_Ok in Hfind. exists e, out.2. rewrite Hi, H3. done.
Qed.

Lemma record_failure_books clock db i code a db' :
  record_payout_provider_event_failure clock db i code = Ok (a, db') -> inbox_books db -> inbox_books db'.
Proof.
  unfold record_payout_provider_event_failure. intros Hrun Hb. ok_step Hrun. cbn zeta in Hrun. ok_step Hrun as db1 Hf.
  injection Hrun as _ <-. rewrite flush_next_attempt in Hf; [injection Hf as <-|].
  2:{ unfold processing_row_ok. cbn. pose proof (next_attempt_positive db i) as Hpos%Z.ltb_lt. by rewrite Hpos. }
  apply inbox_books_attempt; [done| |done|done].
  unfold conflicts, processing_key. cbn. apply bool_decide_eq_false. intros (b & Hk & Hin)%list_elem_of_fmap.
  injection Hk as Hi Hn. assert (Hlt := next_attempt_fresh db i b). rewrite event_attempts_in in Hlt.
  specialize (Hlt (conj Hin (eq_sym Hi))). lia.
Qed.

(** C23: However webhooks, jobs, rolled-back failures and other transactions
    interleave, an event identity is stored once, attempts are numbered apart,
    an event is marked processed at most once, and only with its own evidence
    recorded. *)
Theorem inbox_books_kept db db' : rtc inbox_step db db' -> inbox_books db -> inbox_books db'.
Proof.
  induction 1 as [db|db db1 db2 Hstep _ IH]; [done|]. intros Hb. apply IH. clear IH.
  destruct Hstep as [arrived at_ db p payload signature event new db' Hu Hrun|arrived clock later db i Hlater|db db' H3 H4 He].
  - apply ingest_grows in Hrun as (Hq & Hg & Hu'). apply (inbox_books_same db); auto.
  - unfold process_payout_provider_event_job. destruct (process_payout_provider_event arrived clock db i) as [[a db1]|e] eqn:Hp.
    { by apply process_event_books in Hp. }
    destruct (Hlater db Hb) as [Hbl _].
    destruct (record_payout_provider_event_failure clock (later db) i (error_code e)) as [[a db1]|e'] eqn:Hf; [|done].
    by apply record_failure_books in Hf.
  - apply (inbox_books_same db); [done|by apply inbox_grows_same|by rewrite H3; apply ib_identity|done].
Qed.
End Books.

(** ** The sweep comes to an end *)

(** The failures an event may still have before the sweep leaves it alone. *)
Definition failures_left (db : disbursement_store) (i : uuid) : nat :=
  let attempts := event_attempts db i in
  if existsb pp_processed attempts || existsb (failed_with _TERMINAL_PAYOUT_EVENT_ERRORS) attempts then 0
  else _MAX_BOUNDED_PAYOUT_EVENT_ATTEMPTS - length (List.filter (failed_with _BOUNDED_PAYOUT_EVENT_ERRORS) attempts).

Lemma event_due_left db e : event_due db e = (0 <? failures_left db (pe_id e))%nat.
Proof.
  unfold event_due, failures_left. cbn zeta. set (n := length _). destruct (existsb pp_processed _); [done|].
  destruct (existsb (failed_with _TERMINAL_PAYOUT_EVENT_ERRORS) _); [done|]. cbn [orb negb andb].
  destruct (Nat.ltb_spec n _MAX_BOUNDED_PAYOUT_EVENT_ATTEMPTS), (Nat.ltb_spec 0 (_MAX_BOUNDED_PAYOUT_EVENT_ATTEMPTS - n)); lia.
Qed.

Lemma not_due_not_swept db e :
  NoDup (pe_id <$> ds_provider_events db) -> e ∈ ds_provider_events db -> event_due db e = false ->
  pe_id e ∉ due_provider_events db.
Proof.
  unfold due_provider_events. intros Hnd He Hd Hin. apply elem_of_take in Hin as (n & Hn & _).
  apply list_elem_of_lookup_2, list_elem_of_fmap in Hn as (x & Hid & Hx). rewrite stable_sort_perm in Hx.
  rewrite list_elem_of_In, filter_In, <- list_elem_of_In in Hx. destruct Hx as [Hx Hdx].
  assert (x = e) as -> by by apply (nodup_key_inj pe_id (ds_provider_events db)). congruence.
Qed.

Lemma failures_left_grows db db' i : ds_processing db `prefix_of` ds_processing db' -> (failures_left db' i <= failures_left db i)%nat.
Proof.
  intros [l Hl]. unfold failures_left, event_attempts. rewrite Hl, !List.filter_app, !existsb_app, length_app.
  set (old := List.filter _ (ds_processing db)). destruct (existsb pp_processed old); [cbn; lia|].
  destruct (existsb (failed_with _TERMINAL_PAYOUT_EVENT_ERRORS) old); [rewrite orb_true_r; lia|].
  cbn [orb]. destruct (_ || _); lia.
Qed.

(** The codes the sweep counts. *)
Definition counted (code : string) : Prop := code ∈ _TERMINAL_PAYOUT_EVENT_ERRORS \/ code ∈ _BOUNDED_PAYOUT_EVENT_ERRORS.

Lemma counted_short code : counted code -> String.substring 0 128 code = code.
Proof.
  unfold counted, _TERMINAL_PAYOUT_EVENT_ERRORS, _BOUNDED_PAYOUT_EVENT_ERRORS. rewrite !elem_of_cons, !elem_of_nil.
  intuition (subst; reflexivity).
Qed.

Lemma failures_left_attempt (db db' : disbursement_store) a i :
  ds_processing db' = ds_processing db ++ [a] -> pp_provider_event_id a = i ->
  pp_processed a = true \/ (exists code, pp_processed a = false /\ pp_error_code a = Some code /\ counted code) ->
  (failures_left db' i <= pred (failures_left db i))%nat.
Proof.
  intros Hp Hi Ha. unfold failures_left. rewrite (event_attempts_snoc db db' a) by done.
  rewrite Hi, bool_decide_eq_true_2, List.filter_app, !existsb_app, length_app by done. cbn [existsb List.filter].
  set (old := event_attempts db i). rewrite !orb_false_r.
  destruct Ha as [->|(code & Hf & Hc & Hcode)]; [rewrite orb_true_r; cbn; lia|]. rewrite Hf, orb_false_r.
  destruct (existsb pp_processed old); [cbn; lia|]. cbn [orb].
  destruct (existsb (failed_with _TERMINAL_PAYOUT_EVENT_ERRORS) old); [cbn; lia|]. cbn [orb].
  unfold failed_with at 1 3. rewrite Hf, Hc. cbn [negb andb].
  destruct (bool_decide_reflect (code ∈ _TERMINAL_PAYOUT_EVENT_ERRORS)) as [|Ht]; [lia|].
  destruct Hcode as [|Hb]; [done|]. rewrite (bool_decide_eq_true_2 (code ∈ _BOUNDED_PAYOUT_EVENT_ERRORS)) by done.
  cbn [length]. lia.
Qed.

(** An attempt that failed with another code is not counted at all. *)
Lemma failures_left_uncounted (db db' : disbursement_store) a code :
  ds_processing db' = ds_processing db ++ [a] -> pp_processed a = false -> pp_error_code a = Some code ->
  ~ counted code -> failures_left db' (pp_provider_event_id a) = failures_left db (pp_provider_event_id a).
Proof.
  intros Hp Hf Hc Hcode. unfold failures_left. rewrite (event_attempts_snoc db db' a) by done.
  rewrite bool_decide_eq_true_2, List.filter_app, !existsb_app, length_app by done. cbn [existsb List.filter].
  assert (Hno : forall codes, (forall c, c ∈ codes -> counted c) -> failed_with codes a = false).
  { intros codes Hall. unfold failed_with. rewrite Hf, Hc. cbn. apply bool_decide_eq_false. intros Hin. by apply Hcode, Hall. }
  rewrite Hf, (Hno _TERMINAL_PAYOUT_EVENT_ERRORS), (Hno _BOUNDED_PAYOUT_EVENT_ERRORS); [|by right|by left].
  cbn [length]. by rewrite !orb_false_r, Nat.add_0_r.
Qed.

Section Left.
Context `{Sha256}.

(** A failure of a stored event is always recorded. *)
Lemma failure_recorded clock db i code e :
  find_stored_event db i = Ok e ->
  exists a, record_payout_provider_event_failure clock db i code = Ok (a, set_processing (fun l => l ++ [a]) db)
  /\ pp_processed a = false /\ pp_provider_event_id a = i /\ pp_error_code a = Some (String.substring 0 128 code).
Proof.
  intros He. unfold record_payout_provider_event_failure. rewrite He. cbn [mbind result_bind]. cbn zeta.
  eexists. rewrite flush_next_attempt; [by cbn|]. unfold processing_row_ok. cbn.
  pose proof (next_attempt_positive db i) as Hpos%Z.ltb_lt. by rewrite Hpos.
Qed.

(** What the database's triggers refuse is offered by the sweep for ever: the
    failure is recorded with a code the sweep does not count. *)
Lemma refused_event_stays_due arrived clock db i db' e :
  find_stored_event db i = Ok e -> pe_id e = i ->
  process_payout_provider_event arrived clock db i = Raise DBAPIError ->
  process_payout_provider_event_job arrived clock id db i = (db', Raise DBAPIError) -> event_due db' e = event_due db e.
Proof.
  intros He <- Hp Hjob. unfold process_payout_provider_event_job in Hjob. rewrite Hp in Hjob.
  destruct (failure_recorded clock db (pe_id e) (error_code DBAPIError) e He) as (a & Hf & Hpr & Hi & Hc).
  unfold id in Hjob at 1 2. rewrite Hf in Hjob. injection Hjob as <-. rewrite !event_due_left, <- Hi.
  erewrite failures_left_uncounted; [done|done|exact Hpr|exact Hc|].
  unfold counted, _TERMINAL_PAYOUT_EVENT_ERRORS, _BOUNDED_PAYOUT_EVENT_ERRORS. rewrite !elem_of_cons, !elem_of_nil.
  intros Hin. cbv in Hin. intuition discriminate.
Qed.

(** [n] jobs of one event, each of which succeeds or fails with a counted code;
    other transactions only add events and attempts. *)
Inductive job_runs (i : uuid) : nat -> disbursement_store -> disbursement_store -> Prop :=
| no_job db db' : inbox_grows db db' -> job_runs i 0 db db'
| one_job arrived clock later n db db1 r db2 db3 :
    inbox_grows db db1 -> (forall db, inbox_grows db (later db)) ->
    process_payout_provider_event_job arrived clock later db1 i = (db2, r) ->
    (forall x, r = Raise x -> counted (error_code x)) ->
    job_runs i n db2 db3 -> job_runs i (S n) db db3.

Lemma job_left arrived clock later db i db' r e :
  find_stored_event db i = Ok e -> (forall db, inbox_grows db (later db)) ->
  process_payout_provider_event_job arrived clock later db i = (db', r) ->
  (forall x, r = Raise x -> counted (error_code x)) ->
  find_stored_event db' i = Ok e /\ (failures_left db' i <= pred (failures_left db i))%nat.
Proof.
  intros He Hlater Hjob Hr. unfold process_payout_provider_event_job in Hjob.
  destruct (process_payout_provider_event arrived clock db i) as [[a db1]|x] eqn:Hp.
  - injection Hjob as <- _. apply process_event_processing in Hp as (H3 & Hpr & Ha & Hcase). split.
    { unfold find_stored_event in *. by rewrite H3. }
    assert (Hz : failures_left db1 i = 0%nat); [|lia]. unfold failures_left. cbn zeta.
    assert (existsb pp_processed (event_attempts db1 i) = true) as ->; [|done].
    apply existsb_exists. exists a. by rewrite <- list_elem_of_In.
  - assert (Hel : find_stored_event (later db) i = Ok e).
    { unfold find_stored_event in *. apply require_some_Ok in He. destruct (Hlater db) as (Hg & _).
      unfold find_by_key in *. by rewrite (find_row_prefix _ _ _ _ Hg He). }
    destruct (failure_recorded clock (later db) i (error_code x) e Hel) as (a & Hf & Hpr & Hi & Hc).
    rewrite Hf in Hjob. injection Hjob as <- <-. split; [exact Hel|].
    specialize (Hr x eq_refl). rewrite (counted_short _ Hr) in Hc.
    etrans; [eapply (failures_left_attempt (later db)); [done|exact Hi|right; eauto]|].
    destruct (Hlater db) as (_ & Hg & _). pose proof (failures_left_grows db (later db) i Hg). lia.
Qed.

(** C27: The sweep gives every event up after finitely many attempts: once three
    jobs of an event have succeeded or failed for a reason the code counts,
    whatever else happened in between, the sweep never selects the event
    again. *)
Theorem counted_failures_end_sweep i db db' db'' e :
  find_stored_event db i = Ok e -> job_runs i 3 db db' -> inbox_grows db' db'' ->
  NoDup (pe_id <$> ds_provider_events db'') -> i ∉ due_provider_events db''.
Proof.
  intros He Hruns Hg Hnd.
  assert (Hall : forall n db db', job_runs i n db db' -> find_stored_event db i = Ok e ->
            find_stored_event db' i = Ok e /\ (failures_left db' i <= failures_left db i - n)%nat).
  { clear. induction 1 as [db db' (Hp & Hq & _)|arrived clock later n db db1 r db2 db3 (Hp & Hq & _) Hlater Hjob Hr _ IH];
      intros He; pose proof (failures_left_grows _ _ i Hq); apply require_some_Ok in He;
      pose proof (find_row_prefix _ _ _ _ Hp He) as He'.
    - split; [|lia]. unfold find_stored_event, find_by_key. by rewrite He'.
    - assert (He1 : find_stored_event db1 i = Ok e) by (unfold find_stored_event, find_by_key; by rewrite He').
      destruct (job_left _ _ _ _ _ _ _ _ He1 Hlater Hjob Hr) as [He2 Hle]. destruct (IH He2) as [? ?]. split; [done|lia]. }
  destruct (Hall 3%nat _ _ Hruns He) as [He' Hle]. destruct Hg as (Hp & Hq & _).
  apply require_some_Ok in He'. pose proof (find_row_prefix _ _ _ _ Hp He') as [Hin Hid]%find_by_key_Some.
  pose proof (failures_left_grows _ _ i Hq) as Hle'.
  assert (Hz : failures_left db'' i = 0%nat).
  { assert (failures_left db i <= 3)%nat; [|lia]. unfold failures_left, _MAX_BOUNDED_PAYOUT_EVENT_ATTEMPTS.
    destruct (_ || _); lia. }
  rewrite <- Hid. apply not_due_not_swept; [done..|]. by rewrite event_due_left, Hid, Hz.
Qed.
End Left.

(** ** Examples *)

Module InboxSample.
Import DisbursementSample BatchSample CashSample.

(** A provider whose payload names the event: "paid" reports the first transfer,
    "lost" one nobody made. *)
Definition reported (payload : string) : result verified_line_evidence :=
  let evidence reference event := VerifiedLineEvidence reference event OUTCOME_SUCCEEDED (aware 700)
    (sha256_hexdigest event) (Some "R"%string) (Some (money_str 300000)) (Some "NGN"%string)
    (Some "transfer.success"%string) in
  if bool_decide (payload = "paid"%string) then Ok (evidence "T1" "E1")%string
  else if bool_decide (payload = "lost"%string) then Ok (evidence "T9" "E9")%string
  else Raise ValueError.

#[export] Instance webhook : DisbursementWebhook fake_provider := {| verify_webhook := fun _ payload _ => reported payload |}.

Definition ingested (payload : string) : result (payout_provider_event * bool * disbursement_store) :=
  ingest_payout_provider_webhook [] 800 sent_store provider payload "".
Definition inbox (payload : string) : disbursement_store :=
  match ingested payload with Ok r => r.2 | Raise _ => sent_store end.

Definition job (clock : Z) (db : disbursement_store) : disbursement_store * result provider_event_processing_attempt :=
  process_payout_provider_event_job [] clock id db 1.
Definition processed (db : disbursement_store) : result (provider_event_processing_attempt * disbursement_store) :=
  process_payout_provider_event [] 900 db 1.

(** The event of a transfer nobody made, after three jobs. *)
Definition lost1 : disbursement_store := (job 900 (inbox "lost")).1.
Definition lost2 : disbursement_store := (job 1000 lost1).1.
Definition lost3 : disbursement_store := (job 1100 lost2).1.
End InboxSample.

Section InboxExamples.
Import InboxSample.
#[local] Existing Instance DisbursementSample.digest.

Lemma ingested_paid : exists e,
  ingest_payout_provider_webhook [] 800 CashSample.sent_store BatchSample.provider "paid" "" = Ok (e, true, inbox "paid").
Proof.
  change (exists e, ingested "paid" = Ok (e, true, inbox "paid")).
  assert (Hn : match ingested "paid" with Ok r => r.1.2 | Raise _ => false end = true) by (vm_compute; reflexivity).
  unfold inbox. destruct (ingested "paid") as [[[e n] db]|]; [|discriminate Hn]. exists e. cbn in Hn. by rewrite Hn.
Qed.

Lemma processed_paid : exists a db, process_payout_provider_event [] 900 (inbox "paid") 1 = Ok (a, db).
Proof.
  change (exists a db, processed (inbox "paid") = Ok (a, db)).
  assert (Hn : is_ok (processed (inbox "paid")) = true) by (vm_compute; reflexivity).
  destruct (processed (inbox "paid")) as [[a db]|]; [by exists a, db|discriminate Hn].
Qed.

Lemma lost_event : exists e, find_stored_event (inbox "lost") 1 = Ok e /\ pe_id e = 1%N.
Proof.
  assert (Hn : match find_stored_event (inbox "lost") 1 with Ok e => bool_decide (pe_id e = 1%N) | Raise _ => false end = true)
    by (vm_compute; reflexivity).
  destruct (find_stored_event (inbox "lost") 1) as [e|]; [|discriminate Hn]. exists e. by apply bool_decide_eq_true in Hn.
Qed.

Definition lost_error : exn := AppError "PAYOUT_PROVIDER_LINE_NOT_FOUND" 404.

Lemma lost_results : (job 900 (inbox "lost")).2 = Raise lost_error /\ (job 1000 lost1).2 = Raise lost_error
  /\ (job 1100 lost2).2 = Raise lost_error.
Proof. split; [|split]; vm_compute; reflexivity. Qed.

Lemma lost_error_counted : counted (error_code lost_error).
Proof. right. by left. Qed.

Lemma sample_job clock db n db' r :
  job clock db = (db', r) -> r = Raise lost_error -> job_runs 1 n db' lost3 -> job_runs 1 (S n) db lost3.
Proof.
  intros Hj Hr Hrest. eapply one_job; [split; [|split]; reflexivity| |exact Hj| |exact Hrest].
  - intros d. split; [|split]; reflexivity.
  - rewrite Hr. intros x Hx. injection Hx as <-. exact lost_error_counted.
Qed.

Lemma lost_runs : job_runs 1 3 (inbox "lost") lost3.
Proof.
  destruct lost_results as (H1 & H2 & H3).
  eapply sample_job; [apply surjective_pairing|exact H1|]. eapply sample_job; [apply surjective_pairing|exact H2|].
  eapply sample_job; [apply surjective_pairing|exact H3|]. apply no_job. split; [|split]; reflexivity.
Qed.

Lemma lost_ids : NoDup (pe_id <$> ds_provider_events lost3).
Proof. apply (bool_decide_unpack _). vm_compute. exact I. Qed.

Lemma inbox_empty_books : inbox_books CashSample.sent_store.
Proof. split; [constructor..|]. intros a Ha. by apply elem_of_nil in Ha. Qed.
End InboxExamples.

Lemma ingested_webhook_is_known_witness :
  exists e, @ingest_payout_provider_webhook fake_provider fake_adapter InboxSample.webhook [] 999
    (InboxSample.inbox "paid") BatchSample.provider "paid" "" = Ok (e, false, InboxSample.inbox "paid").
Proof.
  destruct ingested_paid as (e & He).
  destruct (@ingested_webhook_is_known fake_provider fake_adapter InboxSample.webhook _ _ _ _ _ _ _ _ _ _ 300000 He
              eq_refl eq_refl (conj eq_refl eq_refl) (NoDup_nil_2)) as (Hknown & _).
  exists e. exact (Hknown [] 999).
Defined.

Lemma event_processed_once_witness :
  exists a db, @process_payout_provider_event DisbursementSample.digest [] 900 (InboxSample.inbox "paid") 1 = Ok (a, db)
    /\ @process_payout_provider_event DisbursementSample.digest [] 900 db 1 = Ok (a, db).
Proof.
  destruct processed_paid as (a & db & Hp). exists a, db. split; [exact Hp|].
  exact (@event_processed_once DisbursementSample.digest [] 900 (InboxSample.inbox "paid") 1 a db Hp [] 900).
Defined.

Lemma inbox_books_kept_witness : inbox_books (InboxSample.inbox "paid").
Proof.
  destruct ingested_paid as (e & He).
  refine (@inbox_books_kept DisbursementSample.digest fake_provider fake_adapter InboxSample.webhook
            CashSample.sent_store _ _ inbox_empty_books).
  eapply rtc_l; [|apply rtc_refl]. eapply ingest_step; [|exact He]. constructor.
Defined.

Lemma counted_failures_end_sweep_witness :
  existsb (fun i => bool_decide (i = 1%N)) (due_provider_events (InboxSample.inbox "lost")) = true
  /\ 1%N ∉ due_provider_events InboxSample.lost3.
Proof.
  split; [vm_compute; reflexivity|]. destruct lost_event as (e & He & _).
  refine (@counted_failures_end_sweep DisbursementSample.digest 1 _ _ _ e He lost_runs _ lost_ids).
  split; [|split]; reflexivity.
Defined.
