(* ===== verification/Recovery.v ===== *)
(** No payment is lost: a payment whose worker died, or whose provider did not
    answer, is looked up again by the worker's later visits until it is
    resolved or known not to have been made.  A proof file over Books. *)

From stdpp Require Import base list strings gmap.
From Stdlib Require Import ZArith Lia.
From S2P Require Import Prelude PayoutData Ledger Balances Text BillingData Notifications.
From S2P Require Import DisbursementData Fraud Adapters Disbursements Submission PayOnce Books.

#[local] Open Scope Z_scope.

Lemma raise_if_false b e : b = false -> raise_if b e = Ok tt.
Proof. by intros ->. Qed.

Lemma validate_passes before after :
  same_intent_identity before after = true ->
  match pi_state before, pi_state after with
  | INTENT_PENDING, INTENT_CLAIMED | INTENT_QUERY_ONLY, INTENT_CLAIMED | INTENT_CLAIMED, INTENT_CLAIMED =>
      pi_generation after = pi_generation before + 1
  | INTENT_CLAIMED, INTENT_PENDING | INTENT_CLAIMED, INTENT_QUERY_ONLY | INTENT_CLAIMED, INTENT_RESOLVED
  | INTENT_PENDING, INTENT_CANCELLED => pi_generation after = pi_generation before
  | _, _ => False
  end ->
  validate_payout_submission_intent_update before after = Ok tt.
Proof.
  intros Hsame. unfold validate_payout_submission_intent_update. rewrite Hsame. cbn [negb raise_if mbind result_bind].
  destruct (pi_state before), (pi_state after); try done; intros ->; vm_compute bool_decide; cbn;
    by rewrite Z.eqb_refl.
Qed.

Lemma same_intent_identity_intro before after :
  pi_payout_batch_line_id before = pi_payout_batch_line_id after -> pi_provider_name before = pi_provider_name after ->
  pi_idempotency_key before = pi_idempotency_key after -> pi_instruction before = pi_instruction after ->
  pi_instruction_fingerprint before = pi_instruction_fingerprint after ->
  pi_requested_by_user_id before = pi_requested_by_user_id after -> same_intent_identity before after = true.
Proof. intros. unfold same_intent_identity. by rewrite !bool_decide_eq_true_2. Qed.

(** An intent's write that keeps its identity passes when the transition is a
    legal one, the row is well formed and its new token and reference are free. *)
Lemma update_intent_passes i i' (db : disbursement_store) :
  intent_table (st_intents db) -> i ∈ st_intents db -> pi_id i' = pi_id i ->
  validate_payout_submission_intent_update i i' = Ok tt ->
  payout_submission_intent_row_ok i' = true ->
  (forall t y, pi_claim_token i' = Some t -> y ∈ st_intents db -> pi_claim_token y <> Some t) ->
  (forall r y, pi_provider_transfer_reference i' = Some r -> y ∈ st_intents db ->
     pi_provider_transfer_reference y <> Some r) ->
  update_intent i i' db = Ok (set_payout (with_intents (set_row pi_id i')) db).
Proof.
  intros [Hr Hids Hl Hk Ht Hf] Hi Hid Hv Hrow Htok Href. unfold update_intent. rewrite Hv. cbn [mbind result_bind].
  unfold intent_constraints. rewrite Hrow.
  assert (Hsame : same_intent_identity i i' = true).
  { unfold validate_payout_submission_intent_update in Hv. ok_step Hv as u Hs. by apply raise_if_Ok, negb_false_iff in Hs. }
  unfold same_intent_identity in Hsame. bool_prop.
  rewrite (conflicts_kept pi_id (fun i => Some (pi_payout_batch_line_id i)) i) by (done || congruence).
  rewrite (conflicts_kept pi_id (fun i => Some (pi_idempotency_key i)) i) by (done || congruence).
  rewrite (conflicts_free pi_id pi_claim_token), (conflicts_free pi_id pi_provider_transfer_reference) by done. done.
Qed.

Lemma update_line_passes l l' (db : disbursement_store) :
  line_table (st_lines db) -> l ∈ st_lines db -> pl_id l' = pl_id l ->
  guard_payout_batch_line_mutation l l' = true -> line_row_ok l' = true ->
  active_ledger_entry l' = active_ledger_entry l -> pl_predecessor_line_id l' = pl_predecessor_line_id l ->
  pl_idempotency_key l' = pl_idempotency_key l ->
  (forall r y, pl_provider_transfer_reference l' = Some r -> y ∈ st_lines db ->
     pl_id y <> pl_id l -> pl_provider_transfer_reference y <> Some r) ->
  update_line l' db = Ok (set_payout (with_lines (set_row pl_id l')) db).
Proof.
  intros [Hr Hids He Hf Hp Hk] Hl Hid Hg Hrow Hact Hpred Hkey Href. unfold update_line, line_constraints.
  rewrite Hid, (find_by_key_in pl_id (st_lines db) l Hids Hl), Hg. cbn [negb raise_if mbind result_bind].
  unfold line_row_ok in Hrow. rewrite Hrow. cbn [negb raise_if mbind result_bind].
  rewrite (conflicts_kept pl_id (fun l => Some (pl_idempotency_key l)) l) by (done || congruence).
  rewrite (conflicts_kept pl_id active_ledger_entry l) by done.
  rewrite (conflicts_kept pl_id pl_predecessor_line_id l) by done.
  rewrite (conflicts_fresh pl_provider_transfer_reference).
  2:{ intros v y Hv [Hy Hne]%elem_of_other_rows. apply Href; [done..|congruence]. }
  done.
Qed.

(** ** The claim of a lookup *)

(** What a claim leaves alone. *)
Lemma write_claim_frame now db b l i action c db' :
  write_claim now db b l i action = Ok (c, db') ->
  st_lines db' = st_lines db /\ ds_batches db' = ds_batches db /\ ds_observations db' = ds_observations db
  /\ ds_billing db' = ds_billing db /\ ds_control db' = ds_control db.
Proof.
  unfold write_claim. cbn zeta. intros Hrun. ok_step Hrun as db1 Hi. ok_step Hrun as db2 Ha.
  injection Hrun as _ <-. apply update_intent_Ok in Hi as [-> _].
  unfold flush_attempt in Ha. do 3 ok_step Ha. by injection Ha as <-.
Qed.

Lemma intent_row_bounds i :
  payout_submission_intent_row_ok i = true ->
  digest_length (pi_instruction_fingerprint i) = true /\ digest_length (pi_idempotency_key i) = true
  /\ 0 <= pi_generation i
  /\ (pi_state i <> INTENT_RESOLVED -> pi_provider_transfer_reference i = None)
  /\ (pi_state i = INTENT_CLAIMED \/ pi_state i = INTENT_PENDING \/ pi_state i = INTENT_QUERY_ONLY ->
      pi_resolved_at i = None).
Proof.
  unfold payout_submission_intent_row_ok. cbn zeta. intros H. apply andb_true_iff in H as [H Hs]. bool_prop.
  repeat (split; [done|]). split; destruct (pi_state i); bool_prop; try done; intros Hd; naive_solver.
Qed.

Lemma update_claim_passes i token action expires now db :
  submission_books db -> i ∈ st_intents db -> pi_state i = INTENT_CLAIMED \/ pi_state i = INTENT_QUERY_ONLY ->
  token ∉ sa_claim_token <$> ds_attempts db ->
  update_intent i (claimed_intent i token action expires now) db
  = Ok (set_payout (with_intents (set_row pi_id (claimed_intent i token action expires now))) db).
Proof.
  intros [Hit _ _ [Hct _] _ _] Hi Hst Htok. pose proof (it_rows _ Hit) as Hrows. rewrite Forall_forall in Hrows.
  destruct (intent_row_bounds i (Hrows i Hi)) as (Hfp & Hkey & Hgen & Href & Hres).
  specialize (Href ltac:(destruct Hst as [-> | ->]; done)). specialize (Hres ltac:(tauto)).
  apply update_intent_passes; [done..| | | |].
  - apply validate_passes; [by apply same_intent_identity_intro|]. cbn. by destruct Hst as [-> | ->].
  - unfold payout_submission_intent_row_ok. cbn -[digest_length Z.leb Z.ltb]. rewrite Hfp, Hkey, Href, Hres. cbn.
    assert ((0 <=? pi_generation i + 1) = true) as -> by lia. assert ((0 <? pi_generation i + 1) = true) as -> by lia.
    done.
  - cbn. intros t y [= <-] Hy Hyt. apply Htok. by eapply Hct.
  - cbn. intros r y Hr. congruence.
Qed.

(** The attempt of a fresh token and the next generation is recorded. *)
Lemma flush_attempt_passes a (db : disbursement_store) :
  0 < sa_generation a -> digest_length (sa_idempotency_key a) = true ->
  digest_length (sa_instruction_fingerprint a) = true -> sa_claim_token a ∉ sa_claim_token <$> ds_attempts db ->
  (forall y, y ∈ ds_attempts db -> sa_intent_id y = sa_intent_id a -> sa_generation y < sa_generation a) ->
  flush_attempt a db = Ok (set_attempts (fun l => l ++ [a]) db).
Proof.
  intros Hg Hk Hf Ht Hgen. unfold flush_attempt, payout_submission_attempt_row_ok. rewrite Hk, Hf.
  assert ((0 <? sa_generation a) = true) as -> by lia. cbn [andb negb raise_if mbind result_bind].
  rewrite (conflicts_fresh attempt_key), (conflicts_fresh (fun a => Some (sa_claim_token a))); [done| |].
  - intros v y [= <-] Hy [= Hyt]. apply Ht, list_elem_of_fmap. by exists y.
  - intros v y [= <-] Hy [= Hyi Hyg]. specialize (Hgen y Hy Hyi). lia.
Qed.

Lemma write_claim_passes now db b l i action :
  submission_books db -> i ∈ st_intents db -> pi_state i = INTENT_CLAIMED \/ pi_state i = INTENT_QUERY_ONLY ->
  exists c db', write_claim now db b l i action = Ok (c, db').
Proof.
  intros Hb Hi Hst. unfold write_claim. cbn zeta. set (token := uuid4 _).
  assert (Htok : token ∉ sa_claim_token <$> ds_attempts db) by apply uuid4_fresh.
  rewrite (update_claim_passes i token) by done. cbn [mbind result_bind].
  pose proof Hb as [Hit _ _ [_ Hca] _ _]. pose proof (it_rows _ Hit) as Hrows. rewrite Forall_forall in Hrows.
  destruct (intent_row_bounds i (Hrows i Hi)) as (Hfp & Hkey & Hgen & _).
  rewrite flush_attempt_passes; [cbn [mbind result_bind]; by eexists _, _|cbn; lia|done..|].
  cbn. intros y Hy Hyi. destruct (Hca y Hy) as (x & Hx & Hxid & Hxg).
  assert (x = i) as -> by (apply (nodup_key_inj pi_id (st_intents db)); [by apply it_ids|done..|congruence]). lia.
Qed.

(** ** The resolution *)

Section Resolution.
Context {Dg : Sha256}.
(** A SHA-256 digest has 64 hexadecimal digits. *)
Context (Hdigest : forall s, String.length (sha256_hexdigest s) = 64%nat).

(** What an answer makes of the intent. *)
Definition settled_state (db : disbursement_store) (line_id : uuid) (o : disbursement_claim_observation)
    : submission_intent_state :=
  let '(final, resolved) := final_observation db line_id o in
  if resolved then INTENT_RESOLVED
  else match ob_outcome final with OBS_NOT_FOUND => INTENT_PENDING | _ => INTENT_QUERY_ONLY end.

(** Only an answer that found a transfer carries references. *)
Definition observation_ok (o : disbursement_claim_observation) : Prop :=
  match ob_outcome o with
  | OBS_SUBMITTED | OBS_FOUND => True
  | OBS_NOT_FOUND | OBS_UNKNOWN => ob_provider_transfer_reference o = None
  end.

Lemma final_observation_ok db line_id o final resolved :
  final_observation db line_id o = (final, resolved) -> observation_ok o ->
  match ob_outcome final with
  | OBS_SUBMITTED | OBS_FOUND => ob_provider_transfer_reference final <> None
  | OBS_NOT_FOUND | OBS_UNKNOWN => ob_provider_transfer_reference final = None
  end.
Proof.
  unfold final_observation, observation_ok. intros Hf Ho.
  destruct (ob_outcome o) eqn:Hout;
    try (injection Hf as <- _; by rewrite Hout).
  all: destruct (present (ob_provider_transfer_reference o)) eqn:Hp; [|by injection Hf as <- _].
  all: destruct (present (ob_provider_submission_reference o)); [|by injection Hf as <- _].
  all: assert (ob_provider_transfer_reference o <> None) by (by destruct (ob_provider_transfer_reference o)).
  all: cbn in Hf; destruct (existsb _ _); injection Hf as <- _; cbn; by rewrite ?Hout.
Qed.

(** A resolving answer names a transfer no other line has. *)
Lemma final_observation_resolved db line_id o final :
  final_observation db line_id o = (final, true) ->
  final = o /\ (exists r, ob_provider_transfer_reference o = Some r)
  /\ forall l, l ∈ st_lines db -> pl_id l <> line_id ->
       pl_provider_transfer_reference l <> ob_provider_transfer_reference o.
Proof.
  unfold final_observation. intros Hf. destruct (ob_outcome o); try done.
  all: destruct (present (ob_provider_transfer_reference o)) eqn:Hp; [|done].
  all: destruct (present (ob_provider_submission_reference o)); [|done]; cbn in Hf.
  all: destruct (existsb _ _) eqn:Hdup; [done|]; injection Hf as <-; split; [done|].
  all: split; [destruct (ob_provider_transfer_reference o) as [r|]; [by exists r|done]|].
  all: intros l Hl Hne Heq; apply not_true_iff_false in Hdup; apply Hdup, existsb_exists.
  all: exists l; split; [by apply list_elem_of_In|]; apply andb_true_iff.
  all: split; [by apply bool_decide_eq_true|by apply negb_true_iff, bool_decide_eq_false].
Qed.

Lemma flush_observation_passes o a (db : disbursement_store) :
  a ∈ ds_attempts db -> observes o a = true -> 0 < so_generation o ->
  digest_length (so_idempotency_key o) = true -> digest_length (so_instruction_fingerprint o) = true ->
  digest_length (so_evidence_fingerprint o) = true ->
  match so_outcome o with
  | OBS_SUBMITTED | OBS_FOUND => so_provider_transfer_reference o <> None
  | OBS_NOT_FOUND | OBS_UNKNOWN => so_provider_transfer_reference o = None
  end ->
  (forall y, y ∈ ds_observations db -> so_attempt_id y <> so_attempt_id o
     /\ observation_key y <> observation_key o) ->
  flush_observation o db = Ok (set_observations (fun l => l ++ [o]) db).
Proof.
  intros Ha Hobs Hg Hk Hf He Hr Hfresh. unfold flush_observation, payout_submission_observation_row_ok.
  rewrite Hk, Hf, He. assert ((0 <? so_generation o) = true) as -> by lia.
  assert (match so_outcome o with
          | OBS_SUBMITTED | OBS_FOUND => negb (bool_decide (so_provider_transfer_reference o = None))
          | OBS_NOT_FOUND | OBS_UNKNOWN => bool_decide (so_provider_transfer_reference o = None)
          end = true) as ->.
  { destruct (so_outcome o); rewrite ?negb_true_iff, ?bool_decide_eq_true, ?bool_decide_eq_false; done. }
  cbn [andb negb raise_if mbind result_bind].
  rewrite (conflicts_fresh (fun o => Some (so_attempt_id o))), (conflicts_fresh observation_key).
  - cbn [raise_if mbind result_bind]. assert (existsb (observes o) (ds_attempts db) = true) as ->; [|done].
    apply existsb_exists. exists a. by rewrite <- list_elem_of_In.
  - intros v y Hv Hy Hyv. destruct (Hfresh y Hy) as [_ Hne]. congruence.
  - intros v y [= <-] Hy [= Hyv]. by destruct (Hfresh y Hy) as [Hne _].
Qed.

Lemma derived_status_not_draft lines : _derive_batch_status lines <> BATCH_DRAFT.
Proof. unfold _derive_batch_status. by repeat case_match. Qed.

Lemma update_batch_passes b s reference at_ (db : disbursement_store) :
  payout_batch_row_ok b = true -> pb_instruction_set_fingerprint b <> None -> s <> BATCH_DRAFT ->
  update_batch (batch_with b s reference at_) db = Ok (set_batches (set_row pb_id (batch_with b s reference at_)) db).
Proof.
  intros Hrow Hfp Hs. unfold update_batch.
  assert (payout_batch_row_ok (batch_with b s reference at_) = true) as ->; [|done].
  unfold payout_batch_row_ok in *. cbn -[String.length Z.leb] in *.
  rewrite (bool_decide_eq_false_2 _ Hfp) in *. rewrite (bool_decide_eq_false_2 _ Hs).
  apply andb_true_iff in Hrow as [Hrow Hmode]. apply andb_true_iff in Hrow as [Hrow Hdraft].
  rewrite Hrow. cbn. destruct (pb_approval_mode b); [done|]. apply andb_true_iff in Hmode as [Hmode _]. by rewrite Hmode.
Qed.

(** A claimed intent is resolved, or released. *)
Lemma claimed_row i :
  payout_submission_intent_row_ok i = true -> pi_state i = INTENT_CLAIMED ->
  (forall s now, s = INTENT_PENDING \/ s = INTENT_QUERY_ONLY ->
     payout_submission_intent_row_ok (released_intent i s now) = true)
  /\ (forall o now r, ob_provider_transfer_reference o = Some r ->
     payout_submission_intent_row_ok (resolved_intent i o now) = true).
Proof.
  intros Hrow Hst. destruct (intent_row_bounds i Hrow) as (Hfp & Hkey & Hgen & Href & Hres).
  specialize (Href ltac:(congruence)). specialize (Hres ltac:(tauto)).
  assert ((0 <=? pi_generation i) = true) as Hg by lia. split.
  - intros s now Hs. unfold payout_submission_intent_row_ok. cbn -[digest_length Z.leb].
    rewrite Hfp, Hkey, Hg, Href, Hres. by destruct Hs as [-> | ->].
  - intros o now r Hr. unfold payout_submission_intent_row_ok. cbn -[digest_length Z.leb].
    by rewrite Hfp, Hkey, Hg, Hr.
Qed.

Lemma update_release_passes i s now db :
  submission_books db -> i ∈ st_intents db -> pi_state i = INTENT_CLAIMED ->
  s = INTENT_PENDING \/ s = INTENT_QUERY_ONLY ->
  update_intent i (released_intent i s now) db = Ok (set_payout (with_intents (set_row pi_id (released_intent i s now))) db).
Proof.
  intros [Hit _ _ _ _ _] Hi Hst Hs. pose proof (it_rows _ Hit) as Hrows. rewrite Forall_forall in Hrows.
  destruct (claimed_row i (Hrows i Hi) Hst) as [Hrel _].
  destruct (intent_row_bounds i (Hrows i Hi)) as (_ & _ & _ & Href & _).
  apply update_intent_passes; [done..| |by apply Hrel|done|].
  - apply validate_passes; [by apply same_intent_identity_intro|]. cbn. rewrite Hst. by destruct Hs as [-> | ->].
  - cbn. intros r y Hr. rewrite Href in Hr by congruence. done.
Qed.

Lemma update_resolve_passes i l o r now db :
  submission_books db -> i ∈ st_intents db -> pi_state i = INTENT_CLAIMED ->
  pl_id l = pi_payout_batch_line_id i -> ob_provider_transfer_reference o = Some r ->
  (forall k, k ∈ st_lines db -> pl_id k <> pl_id l -> pl_provider_transfer_reference k <> Some r) ->
  update_intent i (resolved_intent i o now) db = Ok (set_payout (with_intents (set_row pi_id (resolved_intent i o now))) db).
Proof.
  intros [Hit _ _ _ _ Hra] Hi Hst Hl Hr Hdup. pose proof (it_rows _ Hit) as Hrows. rewrite Forall_forall in Hrows.
  destruct (claimed_row i (Hrows i Hi) Hst) as [_ Hres].
  destruct (intent_row_bounds i (Hrows i Hi)) as (_ & _ & _ & Href & _).
  apply update_intent_passes; [done..| |by eapply Hres|done|].
  - apply validate_passes; [by apply same_intent_identity_intro|]. cbn. by rewrite Hst.
  - cbn. intros r' y Hr' Hy Hyr. assert (r' = r) as -> by congruence.
    destruct (Hra y r Hy Hyr) as (k & Hk & Hkid & Hkr). apply (Hdup k Hk); [|done]. intros He.
    assert (y = i) as ->.
    { apply (nodup_key_inj pi_payout_batch_line_id (st_intents db));
        [by apply unique_on_total, it_lines|done..|congruence]. }
    rewrite Href in Hyr by congruence. done.
Qed.

Lemma submitted_line_passes l r (db : disbursement_store) :
  line_table (st_lines db) -> l ∈ st_lines db -> pl_status l = LINE_RESERVED ->
  (forall k, k ∈ st_lines db -> pl_id k <> pl_id l -> pl_provider_transfer_reference k <> Some r) ->
  update_line (submitted_line l (Some r)) db = Ok (set_payout (with_lines (set_row pl_id (submitted_line l (Some r)))) db).
Proof.
  intros Hlt Hl Hst Hdup. pose proof (lt_rows _ Hlt) as Hrows. rewrite Forall_forall in Hrows.
  apply update_line_passes with l; [done..| | |done|done|done|].
  - specialize (Hrows l Hl). unfold line_row_ok, payout_batch_line_row_ok in Hrows. rewrite Hst, !andb_true_iff in Hrows.
    destruct Hrows as [[[[_ [_ Hr%bool_decide_eq_true]] _] _] _]. unfold guard_payout_batch_line_mutation, same_line_identity.
    cbn. rewrite Hst, Hr, !bool_decide_eq_true_2 by done.
    by rewrite (bool_decide_eq_true_2 (pl_reservation_active l = pl_reservation_active l)).
  - specialize (Hrows l Hl). unfold line_row_ok, payout_batch_line_row_ok in *. cbn -[digest_length Z.ltb] in *.
    rewrite Hst in Hrows. rewrite !andb_true_iff in *. tauto.
  - intros r' y Hr' Hy Hne. cbn in Hr'. injection Hr' as <-. by apply Hdup.
Qed.

(** The tables a payment waiting for its provider depends on. *)
Definition same_batches (db db' : disbursement_store) : Prop :=
  st_lines db' = st_lines db /\ ds_batches db' = ds_batches db /\ ds_billing db' = ds_billing db
  /\ ds_control db' = ds_control db.

(** The observation of a live claim is written, and the state it leads to. *)
Lemma write_resolution_passes t db c b lines l i a o :
  submission_books db -> i ∈ st_intents db -> pi_state i = INTENT_CLAIMED ->
  pb_instruction_set_fingerprint b <> None -> b ∈ ds_batches db ->
  l ∈ st_lines db -> pl_id l = pi_payout_batch_line_id i -> pl_status l = LINE_RESERVED ->
  a ∈ ds_attempts db -> sa_intent_id a = pi_id i -> sa_generation a = pi_generation i ->
  sa_idempotency_key a = pi_idempotency_key i -> sa_instruction_fingerprint a = pi_instruction_fingerprint i ->
  (forall y, y ∈ ds_observations db -> so_attempt_id y <> sa_id a
     /\ observation_key y <> Some (pi_id i, pi_generation i)) ->
  observation_ok o ->
  exists db', write_resolution t db c b lines l i a o = Ok (settled_state db (pl_id l) o, db')
    /\ (settled_state db (pl_id l) o = INTENT_QUERY_ONLY ->
        same_batches db db' /\ st_intents db' = set_row pi_id (released_intent i INTENT_QUERY_ONLY t) (st_intents db)).
Proof.
  intros Hb Hi Hst Hbfp Hbin Hl Hlid Hlst Ha Hai Hag Hak Haf Hfresh Ho.
  pose proof Hb as [Hit Hlt Hbt _ _ _]. pose proof (it_rows _ Hit) as Hrows. rewrite Forall_forall in Hrows.
  specialize (Hrows i Hi). destruct (intent_row_bounds i Hrows) as (Hfp & Hkey & _ & _).
  assert (Hgen : 0 < pi_generation i).
  { unfold payout_submission_intent_row_ok in Hrows. rewrite Hst in Hrows. bool_prop. lia. }
  unfold write_resolution, settled_state. destruct (final_observation db (pl_id l) o) as [final resolved] eqn:Hfin.
  pose proof (final_observation_ok _ _ _ _ _ Hfin Ho) as Hfo.
  set (row := PayoutSubmissionObservation _ _ _ _ _ _ _ _ _ _ _ _).
  assert (Hflush : flush_observation row db = Ok (set_observations (fun l => l ++ [row]) db)).
  { apply (flush_observation_passes row a); try done.
    - unfold observes. cbn. rewrite !bool_decide_eq_true_2 by congruence. by rewrite Hag, Z.eqb_refl.
    - unfold digest_length. cbn. unfold _submission_observation_fingerprint. by rewrite Hdigest. }
  pose proof (books_flush_observation _ _ _ Hflush Hb) as Hb1. rewrite Hflush. cbn [mbind result_bind].
  destruct resolved.
  - apply final_observation_resolved in Hfin as (-> & [r Hr] & Hdup). rewrite Hr in Hdup.
    assert (Hd : forall k, k ∈ st_lines db -> pl_id k <> pl_id l -> pl_provider_transfer_reference k <> Some r)
      by (intros k Hk Hne; by apply Hdup).
    rewrite (update_resolve_passes i l o r) by done. cbn [mbind result_bind]. rewrite Hr.
    rewrite (submitted_line_passes l r) by done. cbn [mbind result_bind].
    rewrite update_batch_passes; [|by apply (proj1 (Forall_forall _ _) (bt_rows _ Hbt))|done|apply derived_status_not_draft].
    cbn [mbind result_bind]. eexists. split; [done|]. done.
  - assert (Hs : match ob_outcome final with OBS_NOT_FOUND => INTENT_PENDING | _ => INTENT_QUERY_ONLY end = INTENT_PENDING
              \/ match ob_outcome final with OBS_NOT_FOUND => INTENT_PENDING | _ => INTENT_QUERY_ONLY end = INTENT_QUERY_ONLY)
      by (destruct (ob_outcome final); auto).
    rewrite update_release_passes by done. cbn [mbind result_bind]. eexists. split; [done|].
    intros Hq. rewrite Hq. done.
Qed.

Lemma resolve_passes t db c o i l b a :
  submission_books db -> get_intent db (cl_intent_id c) = Some i -> claim_live c i t = true ->
  get_batch db (cl_batch_id c) = Some b -> pb_instruction_set_fingerprint b <> None ->
  l ∈ st_lines db -> pl_batch_id l = pb_id b -> pl_id l = pi_payout_batch_line_id i -> pl_status l = LINE_RESERVED ->
  attempt_of db c = Some a -> sa_idempotency_key a = pi_idempotency_key i ->
  sa_instruction_fingerprint a = pi_instruction_fingerprint i ->
  (forall y, y ∈ ds_observations db -> so_attempt_id y <> sa_id a
     /\ observation_key y <> Some (pi_id i, pi_generation i)) ->
  observation_ok o ->
  exists db', _resolve_payout_submission_claim t db c o = Ok (Some (settled_state db (pl_id l) o), db')
    /\ (settled_state db (pl_id l) o = INTENT_QUERY_ONLY ->
        same_batches db db' /\ st_intents db' = set_row pi_id (released_intent i INTENT_QUERY_ONLY t) (st_intents db)).
Proof.
  intros Hb Hi Hlive Hgb Hbfp Hl Hlb Hlid Hlst Ha Hak Haf Hfresh Ho.
  unfold _resolve_payout_submission_claim. rewrite Hi. unfold _locked_batch_with_lines. rewrite Hgb.
  cbn [require_some mbind result_bind mret result_ret]. rewrite Hlive. cbn [negb]. rewrite Ha.
  cbn [require_some mbind result_bind].
  assert (Hfind : find_by_key pl_id (pi_payout_batch_line_id i) (batch_lines db (pb_id b)) = Some l).
  { rewrite <- Hlid. apply find_by_key_in; [by apply batch_lines_nodup|by apply batch_lines_in]. }
  rewrite Hfind. cbn [require_some mbind result_bind].
  apply get_intent_Some in Hi as [Hi Hid]. unfold get_batch in Hgb. apply find_by_key_Some in Hgb as [Hbin _].
  unfold attempt_of in Ha. apply find_row_Some in Ha as [Ha Hm]. unfold claim_live in Hlive. bool_prop.
  destruct (write_resolution_passes t db c b (batch_lines db (pb_id b)) l i a o) as (db' & Hw & Hq); try done; try congruence.
  rewrite Hw. exists db'. done.
Qed.
End Resolution.

(** ** A visit of the worker *)

Lemma write_claim_attempt now db b l i action c db' :
  write_claim now db b l i action = Ok (c, db') ->
  exists a, ds_attempts db' = ds_attempts db ++ [a] /\ sa_id a = uuid4 (sa_id <$> ds_attempts db)
    /\ sa_claim_token a = uuid4 (sa_claim_token <$> ds_attempts db) /\ sa_intent_id a = pi_id i
    /\ sa_generation a = pi_generation i + 1 /\ sa_idempotency_key a = pi_idempotency_key i
    /\ sa_instruction_fingerprint a = pi_instruction_fingerprint i.
Proof.
  unfold write_claim. cbn zeta. intros Hrun. ok_step Hrun as db1 Hi. ok_step Hrun as db2 Ha.
  injection Hrun as _ <-. apply update_intent_Ok in Hi as [-> _].
  unfold flush_attempt in Ha. do 3 ok_step Ha. injection Ha as <-. by eexists.
Qed.

(** The attempt a claim wrote is the one its resolution finds, and it has no
    observation yet. *)
Lemma claimed_attempt now db b l i action c db' :
  write_claim now db b l i action = Ok (c, db') -> submission_books db -> i ∈ st_intents db ->
  exists a, attempt_of db' c = Some a /\ sa_idempotency_key a = pi_idempotency_key i
    /\ sa_instruction_fingerprint a = pi_instruction_fingerprint i
    /\ forall y, y ∈ ds_observations db' ->
         so_attempt_id y <> sa_id a /\ observation_key y <> Some (pi_id i, pi_generation i + 1).
Proof.
  intros Hw [Hit _ _ [_ Hca] Hob _] Hi.
  destruct (write_claim_attempt _ _ _ _ _ _ _ _ Hw) as (a & Hat & Haid & Hatok & Hai & Hag & Hak & Haf).
  destruct (write_claim_frame _ _ _ _ _ _ _ _ Hw) as (_ & _ & Hobs & _).
  apply write_claim_Ok in Hw as (_ & _ & ->). exists a. split; [|split; [done|split; [done|]]].
  - unfold attempt_of. rewrite Hat. cbn [cl_intent_id cl_generation cl_claim_token]. apply find_row_snoc.
    + destruct (find_row _ (ds_attempts db)) as [k|] eqn:Hk; [|done]. apply find_row_Some in Hk as [Hk Hm]. bool_prop.
      exfalso. apply (uuid4_fresh (sa_claim_token <$> ds_attempts db)), list_elem_of_fmap. by exists k.
    + by rewrite Hai, Hag, Hatok, Z.eqb_refl, !bool_decide_eq_true_2.
  - intros y Hy. rewrite Hobs in Hy. destruct (Hob y Hy) as (k & Hk & Hobsk). unfold observes in Hobsk. bool_prop.
    split.
    + intros He. apply (uuid4_fresh (sa_id <$> ds_attempts db)), list_elem_of_fmap. exists k. split; [congruence|done].
    + unfold observation_key. intros [= Hyi Hyg]. destruct (Hca k Hk) as (x & Hx & Hxid & Hxg).
      assert (x = i) as -> by (apply (nodup_key_inj pi_id (st_intents db)); [by apply it_ids|done..|congruence]). lia.
Qed.

(** A payment whose earlier call may have had an effect: the intent is to be
    looked up, its line is still reserved, and the frozen batch and the people
    or the system actor behind it are still readable. *)
Record waiting (settings_provider : string) (db : disbursement_store) (i : uuid) (t : Z)
    (x : payout_submission_intent) (l : payout_batch_line) (b : payout_batch) : Prop := {
  wt_intent : get_intent db i = Some x;
  wt_state : pi_state x = INTENT_QUERY_ONLY
    \/ (pi_state x = INTENT_CLAIMED /\ exists e, pi_claim_expires_at x = Some e /\ e <= t);
  wt_provider : pi_provider_name x = settings_provider;
  wt_line : get_line db (pi_payout_batch_line_id x) = Some l;
  wt_reserved : pl_status l = LINE_RESERVED;
  wt_batch : get_batch db (pl_batch_id l) = Some b
}.

Section Visit.
Context {Dg : Sha256} {Af : AnalyticsFingerprint} (settings : fraud_settings).
Context {P : Type} {Ad : DisbursementAdapter P}.
Context (Hdigest : forall s, String.length (sha256_hexdigest s) = 64%nat).
Context (Hname : nonempty (provider_name capabilities) = true)
        (Hlookup : lookup_by_idempotency_key capabilities = true)
        (Hsame : semantic_same_key_idempotency capabilities = true).

(** The frozen batch of a waiting payment passes its checks. *)
Definition readable (db : disbursement_store) (x : payout_submission_intent) (l : payout_batch_line)
    (b : payout_batch) : Prop :=
  _assert_frozen b (batch_lines db (pb_id b)) = Ok tt /\ intent_matches x l = true
  /\ exists authority, submission_authority db b (batch_lines db (pb_id b)) = Ok authority.

Lemma claim_query_passes db i t x l b :
  submission_books db -> waiting (provider_name capabilities) db i t x l b -> readable db x l b ->
  exists c db1, claim_payout_submission_intent settings t db i capabilities = Ok (Some (c, db1))
    /\ write_claim t db b l x CLAIM_QUERY = Ok (c, db1).
Proof.
  intros Hb [Hx Hst Hpr Hl Hres Hbt] (Hf & Hm & authority & Ha). unfold claim_payout_submission_intent.
  unfold _submission_capabilities. rewrite Hname, Hlookup, Hsame. cbn [andb negb raise_if mbind result_bind mret result_ret].
  rewrite Hx, Hl, Hbt, Ha. cbn [mbind result_bind].
  rewrite (bool_decide_eq_false_2 (pi_state x = INTENT_RESOLVED)) by (destruct Hst as [-> | [-> _]]; done).
  rewrite (bool_decide_eq_true_2 (pl_status l = LINE_RESERVED)) by done.
  rewrite (bool_decide_eq_true_2 (pi_provider_name x = provider_name capabilities)) by done.
  cbn [orb negb raise_if mbind result_bind].
  assert (claim_action x t = Some CLAIM_QUERY) as ->.
  { unfold claim_action. destruct Hst as [-> | [-> (e & -> & He)]]; [done|]. by rewrite (proj2 (Z.ltb_ge t e)). }
  cbn [authorize_claim]. rewrite Hf, Hm. cbn [mbind result_bind negb raise_if mret result_ret].
  apply get_intent_Some in Hx as [Hx _].
  destruct (write_claim_passes t db b l x CLAIM_QUERY Hb Hx) as (c & db1 & Hw); [destruct Hst as [|[? _]]; auto|].
  exists c, db1. by rewrite Hw.
Qed.

Lemma observe_lookup_ok r : observation_ok (observe_lookup r).
Proof. destruct r as [[[| |] s f]|e]; done. Qed.

(** What the readers of a waiting payment read is not changed by a visit that
    learns nothing. *)
Lemma batch_requesters_set_row (db db' : disbursement_store) x x' lines :
  st_intents db' = set_row pi_id x' (st_intents db) -> NoDup (pi_id <$> st_intents db) -> x ∈ st_intents db ->
  pi_id x' = pi_id x -> pi_payout_batch_line_id x' = pi_payout_batch_line_id x ->
  pi_requested_by_user_id x' = pi_requested_by_user_id x ->
  batch_requesters db' lines = batch_requesters db lines.
Proof.
  intros Hdb Hnd Hx Hid Hl Hr. unfold batch_requesters. rewrite Hdb. clear Hdb.
  assert (Hrow : forall y, y ∈ st_intents db -> pi_id y = pi_id x' -> y = x).
  { intros y Hy He. apply (nodup_key_inj pi_id (st_intents db)); congruence. }
  clear Hnd Hx. revert Hrow. induction (st_intents db) as [|y rest IH]; intros Hrow; [done|].
  rewrite set_row_cons. cbn [List.filter].
  specialize (IH (fun z Hz => Hrow z (list_elem_of_further _ _ _ Hz))).
  destruct (bool_decide_reflect (pi_id y = pi_id x')) as [He|He].
  - assert (y = x) as -> by (apply Hrow; [by left|done]). rewrite Hl.
    destruct (bool_decide _); [|exact IH]. rewrite !fmap_cons, Hr. by f_equal.
  - destruct (bool_decide _); [|exact IH]. rewrite !fmap_cons. by f_equal.
Qed.

Lemma submission_authority_same (db db' : disbursement_store) b lines :
  batch_requesters db' lines = batch_requesters db lines -> ds_billing db' = ds_billing db ->
  ds_control db' = ds_control db -> submission_authority db' b lines = submission_authority db b lines.
Proof.
  intros Hr Hb Hc. unfold submission_authority, inactive_authority, automatic_submission_blocker, actor_integrity_problem,
    active_admin.
  by rewrite Hr, Hb, Hc.
Qed.

Lemma batch_lines_same (db db' : disbursement_store) b : st_lines db' = st_lines db -> batch_lines db' b = batch_lines db b.
Proof. unfold batch_lines. by intros ->. Qed.

Lemma settled_state_same (db db' : disbursement_store) line o : st_lines db' = st_lines db -> settled_state db' line o = settled_state db line o.
Proof. unfold settled_state, final_observation. by intros ->. Qed.

(** A payment that still waits after a visit reads the same batch. *)
Lemma still_waiting provider (db db' : disbursement_store) i t t2 x x' l b :
  waiting provider db i t x l b -> readable db x l b -> NoDup (pi_id <$> st_intents db) ->
  same_batches db db' -> st_intents db' = set_row pi_id x' (st_intents db) ->
  same_intent_identity x x' = true -> pi_id x' = pi_id x -> pi_state x' = INTENT_QUERY_ONLY ->
  waiting provider db' i t2 x' l b /\ readable db' x' l b.
Proof.
  intros [Hx _ Hpr Hl Hres Hb] (Hf & Hm & authority & Ha) Hnd (Hls & Hbs & Hbill & Hctl) Hint Hsm Hid Hq.
  unfold same_intent_identity in Hsm. bool_prop. apply get_intent_Some in Hx as Hxin. destruct Hxin as [Hxin Hxid].
  split.
  - assert (Hlx : pi_payout_batch_line_id x' = pi_payout_batch_line_id x) by done. split.
    + unfold get_intent in *. rewrite Hint. apply (find_set_row_same _ _ _ _ x); [done|congruence].
    + by left.
    + by rewrite <- Hpr.
    + unfold get_line in *. by rewrite Hls, Hlx.
    + done.
    + unfold get_batch in *. by rewrite Hbs.
  - unfold readable. rewrite (batch_lines_same db db') by done. split; [done|]. split.
    + unfold intent_matches in *. bool_prop. by rewrite !bool_decide_eq_true_2 by (by etrans).
    + exists authority. rewrite <- Ha. apply submission_authority_same; [|done..].
      by apply (batch_requesters_set_row db db' x x').
Qed.

(** One visit returns, and does with the payment what the provider answered. *)
Lemma visit_passes t t' db p i x l b p' r :
  submission_books db -> waiting (provider_name capabilities) db i t x l b -> readable db x l b ->
  t <= t' < t + DISBURSEMENT_CLAIM_LEASE ->
  lookup_line p (pi_idempotency_key x) (pi_instruction_fingerprint x) = (p', r) ->
  let s := settled_state db (pl_id l) (observe_lookup r) in
  exists db', process_payout_submission_intent settings t t' db p i = Ok (Some (Some s), db', p')
    /\ submission_books db' /\ pi_state <$> get_intent db' i = Some s
    /\ (s = INTENT_QUERY_ONLY -> exists x', (forall t2, waiting (provider_name capabilities) db' i t2 x' l b)
          /\ readable db' x' l b /\ pi_idempotency_key x' = pi_idempotency_key x
          /\ pi_instruction_fingerprint x' = pi_instruction_fingerprint x /\ st_lines db' = st_lines db).
Proof.
  intros Hb Hw Hrd Ht Hans s. destruct (claim_query_passes db i t x l b Hb Hw Hrd) as (c & db1 & Hclaim & Hwc).
  unfold process_payout_submission_intent. rewrite Hclaim. cbn [mbind result_bind].
  pose proof (claim_books _ _ _ _ _ _ _ Hclaim Hb) as Hb1. pose proof Hw as [Hx Hst Hpr Hl Hres Hbt].
  apply get_intent_Some in Hx as Hxin. destruct Hxin as [Hxin Hxid].
  destruct (claimed_attempt _ _ _ _ _ _ _ _ Hwc Hb Hxin) as (a & Ha & Hak & Haf & Hfresh).
  destruct (write_claim_frame _ _ _ _ _ _ _ _ Hwc) as (Hls & Hbs & _ & Hbill & Hctl).
  apply write_claim_Ok in Hwc as (Hint & _ & Hc). set (token := uuid4 _) in *.
  set (x1 := claimed_intent x token CLAIM_QUERY (t + DISBURSEMENT_CLAIM_LEASE) t) in *.
  assert (Hget1 : get_intent db1 (cl_intent_id c) = Some x1).
  { unfold get_intent. rewrite Hint, Hc. apply (find_set_row_same _ _ _ _ x); [|done].
    unfold get_intent in Hx. cbn. congruence. }
  assert (Hcall : call_provider p c = (p', observe_lookup r)) by (unfold call_provider; rewrite Hc; cbn; by rewrite Hans).
  rewrite Hcall. cbn iota.
  unfold get_line in Hl. apply find_by_key_Some in Hl as Hlin. destruct Hlin as [Hlin Hlid].
  unfold get_batch in Hbt. apply find_by_key_Some in Hbt as Hbin. destruct Hbin as [Hbin Hbid].
  destruct (resolve_passes Hdigest t' db1 c (observe_lookup r) x1 l b a) as (db' & Hr & Hq); try done.
  - unfold claim_live. rewrite Hc. cbn -[Z.ltb]. rewrite !bool_decide_eq_true_2, Z.eqb_refl by done.
    apply Z.ltb_lt. lia.
  - unfold get_batch. rewrite Hc, Hbs. cbn. congruence.
  - destruct Hrd as (Hf & _). unfold _assert_frozen in Hf. ok_step Hf. ok_step Hf. apply raise_if_Ok, negb_false_iff in Hf.
    bool_prop. congruence.
  - by rewrite Hls.
  - apply observe_lookup_ok.
  - rewrite (settled_state_same db db1) in Hr, Hq by done. fold s in Hr, Hq. rewrite Hr. cbn [mbind result_bind].
    exists db'. split; [done|]. split; [by eapply resolve_books|].
    pose proof (resolve_Ok _ _ _ _ _ _ Hr) as [[Hn _]|(i0 & i' & st & Hi0 & _ & Hst0 & _ & Hint' & Hcase)]; [done|].
    injection Hst0 as <-. rewrite Hget1 in Hi0. injection Hi0 as <-.
    assert (Hi' : pi_id i' = pi_id x1 /\ pi_state i' = s)
      by (destruct Hcase as [(-> & -> & _)|[(-> & -> & _)|(-> & ->)]]; done).
    assert (Hcid : cl_intent_id c = i) by (rewrite Hc; exact Hxid).
    split.
    { rewrite Hcid in Hget1. unfold get_intent in *. rewrite Hint'.
      rewrite (find_set_row_same _ _ _ _ x1 Hget1) by (destruct Hi' as [-> _]; exact Hxid). cbn. by destruct Hi' as [_ ->]. }
    intros Hsq. destruct (Hq Hsq) as [(Hls' & Hbs' & Hbill' & Hctl') Hint2].
    exists (released_intent x1 INTENT_QUERY_ONLY t').
    assert (Hset : st_intents db' = set_row pi_id (released_intent x1 INTENT_QUERY_ONLY t') (st_intents db)).
    { rewrite Hint2, Hint. apply set_row_twice. done. }
    assert (Hstill : forall t2, waiting (provider_name capabilities) db' i t2 (released_intent x1 INTENT_QUERY_ONLY t') l b
              /\ readable db' (released_intent x1 INTENT_QUERY_ONLY t') l b).
    { intros t2. apply (still_waiting _ db db' i t t2 x); try done.
      - apply it_ids, Hb.
      - unfold same_batches in *. repeat split; congruence.
      - by apply same_intent_identity_intro. }
    split; [intros t2; apply Hstill|]. split; [by apply (Hstill 0)|]. split; [done|]. split; [done|congruence].
Qed.

(** ** Recovery *)

(** The worker's later visits to one intent, each claimed at the first and
    resolved at the second of its two times, until one of them settles it. *)
Fixpoint revisit (times : list (Z * Z)) (db : disbursement_store) (p : P) (i : uuid)
    : result (submission_intent_state * disbursement_store * P) :=
  match times with
  | [] => mret (INTENT_QUERY_ONLY, db, p)
  | (t, t') :: rest =>
      v ← process_payout_submission_intent settings t t' db p i;
      match v with
      | (Some (Some INTENT_QUERY_ONLY), db, p) => revisit rest db p i
      | (Some (Some s), db, p) => mret (s, db, p)
      | (_, db, p) => mret (INTENT_CLAIMED, db, p)
      end
  end.

(** The provider after [n] lookups of one instruction, and its next answer. *)
Fixpoint provider_after (n : nat) (p : P) (key fingerprint : string) : P :=
  match n with
  | O => p
  | S n => provider_after n (lookup_line p key fingerprint).1 key fingerprint
  end.

Definition answer_after (n : nat) (p : P) (key fingerprint : string) : disbursement_claim_observation :=
  observe_lookup (lookup_line (provider_after n p key fingerprint) key fingerprint).2.

(** C21: a payment whose worker died or lost the provider's answer is recovered.
    Once its claim has run out, every later visit looks the payment up again and
    returns, without asking whether its administrators are still active, its
    driver is held or payouts are paused; and when the provider answers one of
    these lookups for good, the visits end with the intent resolved under the
    transfer found or pending again, as that answer says. *)
Theorem worker_recovers_payment times db p i x l b n :
  submission_books db ->
  Forall (fun '(t, t') => waiting (provider_name capabilities) db i t x l b
            /\ t <= t' < t + DISBURSEMENT_CLAIM_LEASE) times ->
  readable db x l b ->
  (n < length times)%nat ->
  settled_state db (pl_id l) (answer_after n p (pi_idempotency_key x) (pi_instruction_fingerprint x))
    <> INTENT_QUERY_ONLY ->
  exists s k db' p', revisit times db p i = Ok (s, db', p')
    /\ (k <= n)%nat
    /\ s = settled_state db (pl_id l) (answer_after k p (pi_idempotency_key x) (pi_instruction_fingerprint x))
    /\ (s = INTENT_RESOLVED \/ s = INTENT_PENDING)
    /\ pi_state <$> get_intent db' i = Some s
    /\ submission_books db'.
Proof.
  revert db p x n. induction times as [|[t t'] times IH]; intros db p x n Hb Htimes Hrd Hn Hans; [cbn in Hn; lia|].
  apply Forall_cons in Htimes as [[Hw Ht] Htimes].
  destruct (lookup_line p (pi_idempotency_key x) (pi_instruction_fingerprint x)) as [p1 r] eqn:Hl.
  destruct (visit_passes t t' db p i x l b p1 r Hb Hw Hrd Ht Hl) as (db1 & Hv & Hb1 & Hs1 & Hq).
  cbn [revisit]. rewrite Hv. cbn [mbind result_bind].
  assert (H0 : answer_after 0 p (pi_idempotency_key x) (pi_instruction_fingerprint x) = observe_lookup r)
    by (unfold answer_after; cbn; by rewrite Hl).
  set (s := settled_state db (pl_id l) (observe_lookup r)) in *.
  assert (Hcases : s = INTENT_QUERY_ONLY \/ s = INTENT_RESOLVED \/ s = INTENT_PENDING).
  { unfold s, settled_state. destruct (final_observation _ _ _) as [f [|]]; [auto|]. destruct (ob_outcome f); auto. }
  destruct Hcases as [Hs|Hs].
  - rewrite Hs. destruct n as [|n]; [rewrite H0 in Hans; by destruct Hans|].
    destruct (Hq Hs) as (x' & Hw' & Hrd' & Hk & Hf & Hlines).
    assert (Hafter : forall k, answer_after k p1 (pi_idempotency_key x') (pi_instruction_fingerprint x')
                               = answer_after (S k) p (pi_idempotency_key x) (pi_instruction_fingerprint x))
      by (intros k; unfold answer_after; rewrite Hk, Hf; cbn; by rewrite Hl).
    destruct (IH db1 p1 x' n) as (s' & k & db' & p' & Hrun & Hkn & Hsk & Hrest); [done| |done|cbn in Hn; lia| |].
    + eapply Forall_impl; [exact Htimes|]. intros [u u'] [_ Hu]. by split.
    + rewrite Hafter, (settled_state_same db db1) by done. exact Hans.
    + exists s', (S k), db', p'. rewrite Hafter, (settled_state_same db db1) in Hsk by done.
      split; [exact Hrun|]. split; [lia|]. done.
  - exists s, 0%nat, db1, p1. split; [by destruct Hs as [-> | ->]|]. split; [lia|]. rewrite H0. done.
Qed.
End Visit.

(** ** A worker that died, for the examples *)

Lemma sample_digest_length s : String.length (@sha256_hexdigest DisbursementSample.digest s) = 64%nat.
Proof. unfold sha256_hexdigest, DisbursementSample.digest. by rewrite hex_digits_length. Qed.

Module RecoverySample.
Import DisbursementSample BatchSample.

(** The provider executed the payment of the claim; the worker never recorded it. *)
Definition called (r : option (claimed_disbursement_intent * disbursement_store)) : fake_provider :=
  match r with Some (c, _) => (call_provider provider c).1 | None => provider end.

Definition abandoned (r : option (claimed_disbursement_intent * disbursement_store)) : disbursement_store :=
  match r with Some (_, db) => db | None => DisbursementSample.store end.

Definition lapsed : Z := 700 + DISBURSEMENT_CLAIM_LEASE.
End RecoverySample.

Lemma sample_store_books : submission_books BatchSample.store.
Proof.
  split.
  - split; [constructor..].
  - split; apply (bool_decide_unpack _); vm_compute; exact I.
  - split; apply (bool_decide_unpack _); vm_compute; exact I.
  - split; intros ? *; vm_compute; by intros ?%not_elem_of_nil.
  - intros o Ho. by apply elem_of_nil in Ho.
  - intros i r Hi. by apply elem_of_nil in Hi.
Qed.

(** What the examples need of the abandoned claim. *)
Definition abandoned_ok (db : disbursement_store) (p : fake_provider) : bool :=
  match get_intent db 1, get_line db 61, get_batch db 60 with
  | Some x, Some l, Some b =>
      bool_decide (pi_state x = INTENT_CLAIMED /\ pi_claim_expires_at x = Some RecoverySample.lapsed
        /\ pi_provider_name x = provider_name (@capabilities _ fake_adapter) /\ pi_payout_batch_line_id x = 61%N
        /\ pl_status l = LINE_RESERVED /\ pl_batch_id l = 60%N)
      && is_ok (@_assert_frozen DisbursementSample.digest b (batch_lines db (pb_id b)))
      && intent_matches x l
      && is_ok (@submission_authority DisbursementSample.digest db b (batch_lines db (pb_id b)))
      && bool_decide (settled_state db (pl_id l)
           (answer_after 0 p (pi_idempotency_key x) (pi_instruction_fingerprint x)) = INTENT_RESOLVED)
  | _, _, _ => false
  end.

Lemma is_ok_Ok {A} (r : result A) : is_ok r = true -> exists a, r = Ok a.
Proof. destruct r; [eauto|done]. Qed.

Lemma abandoned_waits db p :
  abandoned_ok db p = true ->
  exists x l b, (forall t, RecoverySample.lapsed <= t ->
      waiting (provider_name (@capabilities _ fake_adapter)) db 1 t x l b)
    /\ @readable DisbursementSample.digest db x l b
    /\ settled_state db (pl_id l)
         (answer_after 0 p (pi_idempotency_key x) (pi_instruction_fingerprint x)) = INTENT_RESOLVED.
Proof.
  unfold abandoned_ok. destruct (get_intent db 1) as [x|] eqn:Hx; [|done].
  destruct (get_line db 61) as [l|] eqn:Hl; [|done]. destruct (get_batch db 60) as [b|] eqn:Hb; [|done].
  rewrite !andb_true_iff, !bool_decide_eq_true.
  intros [[[[(Hst & He & Hp & Hlid & Hres & Hbid) Hf] Hm] Ha] Hs].
  apply is_ok_Ok in Hf as [[] Hf], Ha as [authority Ha].
  exists x, l, b. split; [|split; [|done]].
  - intros t Ht. split; [done| |done|by rewrite Hlid|done|by rewrite Hbid].
    right. split; [done|]. by exists RecoverySample.lapsed.
  - split; [done|]. split; [done|]. by exists authority.
Qed.

Lemma sample_queued_books : submission_books BatchSample.queued.
Proof.
  unfold BatchSample.queued. pose proof sample_store_books as Hb.
  destruct (submit_payout_batch _ _ _ _ _) as [[out q]|e] eqn:Hq; [|exact Hb].
  eapply submit_payout_batch_books; [exact Hq|exact Hb].
Qed.

Lemma sample_claimed_books c db : PayOnceSample.claimed = Some (c, db) -> submission_books db.
Proof.
  unfold PayOnceSample.claimed, PayOnceSample.granted.
  destruct (claim_payout_submission_intent _ _ _ _ _) as [r|e] eqn:Hq; [|done]. intros ->.
  eapply claim_books; [exact Hq|exact sample_queued_books].
Qed.

Lemma worker_recovers_payment_witness :
  exists c db x l b, PayOnceSample.claimed = Some (c, db) /\ get_intent db 1 = Some x
    /\ get_line db (pi_payout_batch_line_id x) = Some l /\ get_batch db (pl_batch_id l) = Some b
    /\ exists s db' p', @revisit DisbursementSample.digest FraudSample.fingerprint BatchSample.settings
         fake_provider fake_adapter
         [(RecoverySample.lapsed, RecoverySample.lapsed + 5); (RecoverySample.lapsed + 9, RecoverySample.lapsed + 9)]
         db (RecoverySample.called PayOnceSample.claimed) 1 = Ok (s, db', p')
       /\ pi_state <$> get_intent db' 1 = Some s /\ submission_books db'.
Proof.
  assert (abandoned_ok (RecoverySample.abandoned PayOnceSample.claimed) (RecoverySample.called PayOnceSample.claimed)
          = true) as Hok by (vm_compute; reflexivity).
  destruct PayOnceSample.claimed as [[c db]|] eqn:Hc; [|discriminate].
  pose proof (sample_claimed_books c db Hc) as Hb. cbn [RecoverySample.abandoned] in Hok.
  destruct (abandoned_waits _ _ Hok) as (x & l & b & Hw & Hrd & Hs).
  destruct (Hw RecoverySample.lapsed (Z.le_refl _)) as [Hx _ _ Hl _ Hbt].
  exists c, db, x, l, b. split; [reflexivity|]. split; [exact Hx|]. split; [exact Hl|]. split; [exact Hbt|].
  destruct (@worker_recovers_payment DisbursementSample.digest FraudSample.fingerprint BatchSample.settings
    fake_provider fake_adapter sample_digest_length eq_refl eq_refl eq_refl
    [(RecoverySample.lapsed, RecoverySample.lapsed + 5); (RecoverySample.lapsed + 9, RecoverySample.lapsed + 9)]
    db (RecoverySample.called (Some (c, db))) 1 x l b 0) as (s & k & db' & p' & Hrun & _ & _ & _ & Hst & Hb');
    [exact Hb| |exact Hrd|cbn; lia|rewrite Hs; discriminate|].
  - assert (0 < DISBURSEMENT_CLAIM_LEASE - 100) by reflexivity.
    constructor; [split; [apply Hw; lia|lia]|]. constructor; [split; [apply Hw; lia|lia]|constructor].
  - exists s, db', p'. split; [exact Hrun|]. split; [exact Hst|exact Hb'].
Defined.

(** ** The books of the running system *)

Lemma submission_books_kept_witness :
  exists s, PayOnceSample.finish = Some s /\ submission_books (sy_db s).
Proof.
  destruct sample_finish as (s & Hf & _). exists s. split; [exact Hf|].
  exact (@submission_books_kept DisbursementSample.digest FraudSample.fingerprint BatchSample.settings
    fake_provider fake_adapter _ _ (sample_run s Hf) sample_store_books).
Defined.
