(* ===== verification/Reservation.v ===== *)
(** Reserving and replacing payouts: what a reserved batch holds, that it can be
    paid, and that the requests can be repeated.  A proof file over Batches. *)

From stdpp Require Import base list strings gmap.
From Stdlib Require Import ZArith Lia.
From S2P Require Import Prelude PayoutData Ledger Balances Text Json Crypto BillingData Notifications.
From S2P Require Import DisbursementData Payees Fraud Adapters Disbursements Batches Submission PayOnce Books.

#[local] Open Scope Z_scope.

(** ** What the recovery of debts leaves alone *)

(** The identity of an entry: a recovery changes statuses only. *)
Definition entry_key (e : ledger_entry) := (le_id e, le_trip_session_id e).

Lemma set_entry_status_keys i s l : entry_key <$> set_entry_status i s l = entry_key <$> l.
Proof.
  unfold set_entry_status. rewrite <- list_fmap_compose. apply list_fmap_ext. intros _ e _. cbn. by destruct (bool_decide _).
Qed.

(** The tables neither a recovery nor a reservation changes. *)
Definition quiet (db db' : payout_store) : Prop :=
  st_lines db' = st_lines db /\ st_intents db' = st_intents db /\ st_profiles db' = st_profiles db
  /\ entry_key <$> st_ledger db' = entry_key <$> st_ledger db.

#[export] Instance quiet_preorder : PreOrder quiet.
Proof.
  split; [done|]. intros a b c (H1 & H2 & H3 & H4) (H5 & H6 & H7 & H8). unfold quiet. split_and!; congruence.
Qed.

Lemma recovery_loop_quiet entry rq positions remaining db r db' :
  recovery_loop entry rq positions remaining db = Ok (r, db') ->
  quiet db db' /\ exists new, st_offsets db' = st_offsets db ++ new
    /\ forall o, o ∈ new -> po_actor_user_id o = rq_actor_user_id rq.
Proof.
  revert remaining db. induction positions as [|[[trip cur] p] positions IH];
    intros remaining db Hrun; cbn [recovery_loop] in Hrun.
  { injection Hrun as _ <-. split; [done|]. exists []. rewrite app_nil_r. split; [done|]. by intros o ?%elem_of_nil. }
  destruct (_ || _); [by eapply IH|]. destruct (_ <=? 0).
  { injection Hrun as _ <-. split; [done|]. exists []. rewrite app_nil_r. split; [done|]. by intros o ?%elem_of_nil. }
  ok_step Hrun as t Ht. cbn zeta in Hrun. ok_step Hrun as db1 Hf. apply flush_offset_Ok in Hf as [-> _].
  apply IH in Hrun as (Hq & new & Ho & Hact). split; [by etrans; [|exact Hq]|].
  eexists (_ :: new). cbn in Ho. rewrite Ho. cbn. rewrite <- app_assoc. split; [done|].
  by intros o [->|Hin]%elem_of_cons; [|apply Hact].
Qed.

(** A recovery: what is left, and the offsets it made. *)
Record recovered (e : ledger_entry) (rq : recovery_request) (payable : kobo) (db : payout_store)
    (left_over : kobo) (new : list payout_recovery_offset) (db' : payout_store) : Prop := Recovered {
  rv_quiet : quiet db db';
  rv_offsets : st_offsets db' = st_offsets db ++ new;
  rv_left : 0 <= left_over;
  rv_conserved : left_over + sum_by po_amount new = payable;
  rv_new : forall o, o ∈ new -> po_funding_entry_id o = le_id e /\ po_request_id o = rq_request_id rq
             /\ po_actor_user_id o = rq_actor_user_id rq /\ 0 < po_amount o
}.

Lemma allocate_recovered db e payable rq r db' :
  allocate_payout_recovery db e payable rq = Ok (r, db') -> 0 <= payable ->
  exists new, recovered e rq payable db r new db'.
Proof.
  intros Hrun Hp. pose proof Hrun as Hr. apply allocate_payout_recovery_run in Hr
    as (mid & new & [Ho _ _ _ Hc Hle Hlegal _] & Hoff & _ & _); [|done].
  unfold allocate_payout_recovery in Hrun. ok_step Hrun as [left_over mid'] Hloop.
  apply recovery_loop_quiet in Hloop as (Hq & new' & Ho' & Hact). exists new.
  assert (Hsame : quiet mid' db' /\ left_over = r /\ st_offsets db' = st_offsets mid').
  { destruct (left_over =? 0); [ok_step Hrun as paid Hs; apply update_entry_status_Ok in Hs as ->|];
      injection Hrun as <- <-; [|done]. split; [|done].
    unfold quiet. cbn. by rewrite set_entry_status_keys. }
  destruct Hsame as (Hq' & -> & Hoff').
  assert (new' = new) as ->. { rewrite Hoff, Ho, Ho' in Hoff'. by apply app_inv_head in Hoff'. }
  split; [by etrans|by rewrite Hoff, Ho| done|done|]. intros o Hin.
  destruct (Hlegal o Hin) as (? & _ & ? & ? & _). split_and!; auto.
Qed.

(** ** The frozen destination *)

Lemma frozen_authority_destination db p pv av :
  _frozen_payee_authority db p = Ok (pv, av) -> p ∈ payees db -> ids_ok (ds_payees db) ->
  frozen_destination db (pv_id pv) (av_id av) = true.
Proof.
  unfold _frozen_payee_authority. intros Hrun Hp Hids. ok_step Hrun as v Hv. ok_step Hrun as a Ha.
  apply require_some_Ok, newest_by_elem in Hv as [Hv Hvp], Ha as [Ha Hap]. ok_step Hrun as u Hst. ok_step Hrun as u' Hver.
  apply raise_if_Ok in Hst, Hver. injection Hrun as <- <-. bool_prop.
  apply list_elem_of_fmap in Hap as (acc & Hacc & Hin). rewrite list_elem_of_In, filter_In, <- list_elem_of_In in Hin.
  destruct Hin as [Hin Hpay]. apply bool_decide_eq_true in Hpay.
  unfold frozen_destination, account_version_row.
  rewrite (find_by_key_in av_id (account_versions db) a (io_account_versions _ Hids) Ha). cbn [mbind option_bind].
  rewrite Hacc, (find_by_key_in ba_id (bank_accounts db) acc (io_accounts _ Hids) Hin). cbn [mbind option_bind].
  rewrite Hpay, (find_by_key_in py_id (payees db) p (io_payees _ Hids) Hp). cbn [mbind option_bind].
  rewrite (find_by_key_in pv_id (payee_versions db) v (io_versions _ Hids) Hv).
  by rewrite (bool_decide_eq_true_2 (av_payee_version_id a = pv_id v)), (bool_decide_eq_true_2 (pv_payee_id v = py_id p)),
    (bool_decide_eq_false_2 (bank_account_payout_verification db (av_id a) = None)).
Qed.

Lemma payee_of_in db e p : payee_of db e = Some p -> p ∈ payees db.
Proof.
  unfold payee_of. intros Hh. apply head_Some_elem_of in Hh. rewrite stable_sort_perm in Hh.
  rewrite list_elem_of_In, filter_In, <- list_elem_of_In in Hh. tauto.
Qed.

Lemma frozen_destination_same db db' pv av :
  ds_payees db' = ds_payees db -> frozen_destination db' pv av = frozen_destination db pv av.
Proof.
  intros Hp. unfold frozen_destination, account_version_row, bank_account_payout_verification, account_versions,
    bank_accounts, payees, payee_versions, payout_verifications. by rewrite Hp.
Qed.

(** ** The loop over the entries *)

Section Reserve.
Context `{Sha256} `{AnalyticsFingerprint} (settings : fraud_settings).

(** What every new line is: the frozen payment of one selected credit to the
    verified destination of its driver. *)
Definition payable_line (db : disbursement_store) (b : payout_batch) (entries : list ledger_entry)
    (l : payout_batch_line) : Prop :=
  exists i e pv av amount, l = reserved_line i (pb_id b) None e pv av amount
  /\ e ∈ entries /\ le_status e = AVAILABLE /\ le_entry_type e <> REVERSAL /\ le_currency e = pb_currency b
  /\ 0 < amount <= le_amount e /\ frozen_destination db pv av = true.

Record reserved_run (db : disbursement_store) (b : payout_batch) (rq : recovery_request) (entries : list ledger_entry)
    (lines lines' : list payout_batch_line) (db' : disbursement_store) (new : list payout_batch_line)
    (offs : list payout_recovery_offset) : Prop := ReservedRun {
  rs_lines : lines' = lines ++ new;
  rs_payees : ds_payees db' = ds_payees db;
  rs_batches : ds_batches db' = ds_batches db;
  rs_billing : ds_billing db' = ds_billing db;
  rs_quiet : quiet (ds_payout db) (ds_payout db');
  rs_offsets : st_offsets db' = st_offsets db ++ offs;
  rs_payable : forall l, l ∈ new -> payable_line db b entries l;
  rs_ids : NoDup (line_ids db lines) -> NoDup (line_ids db lines');
  rs_offs : forall o, o ∈ offs -> po_request_id o = rq_request_id rq /\ po_actor_user_id o = rq_actor_user_id rq
              /\ 0 < po_amount o /\ exists e, e ∈ entries /\ po_funding_entry_id o = le_id e;
  rs_covered : forall e, e ∈ entries ->
    le_id e ∈ pl_ledger_entry_id <$> new \/ le_id e ∈ po_funding_entry_id <$> offs;
  rs_money : sum_by pl_amount new + sum_by po_amount offs <= sum_by le_amount entries
}.

Lemma payable_line_more db db' b e entries l :
  ds_payees db' = ds_payees db -> payable_line db' b entries l -> payable_line db b (e :: entries) l.
Proof.
  intros Hp (i & e' & pv & av & amount & -> & Hin & ? & ? & ? & ? & Hd). exists i, e', pv, av, amount.
  split_and!; [done|by right|done..|lia|lia|]. by rewrite <- (frozen_destination_same db db').
Qed.

Lemma reserve_entry_Ok db b rq e rest remaining lines out :
  reserve_entries settings db b rq (e :: rest) remaining lines = Ok out -> ids_ok (ds_payees db) ->
  exists amount r offs p remaining' (pv : payee_version) (av : payee_bank_account_version),
    le_status e = AVAILABLE /\ le_entry_type e <> REVERSAL /\ le_currency e = pb_currency b
    /\ 0 < amount <= le_amount e /\ frozen_destination db (pv_id pv) (av_id av) = true
    /\ recovered e rq amount (ds_payout db) r offs p
    /\ let db1 := set_payout (fun _ => p) db in
       let l := reserved_line (uuid4 (line_ids db1 lines)) (pb_id b) None e (pv_id pv) (av_id av) r in
       if r =? 0 then reserve_entries settings db1 b rq rest remaining' lines = Ok out
       else 0 < r <= le_amount e /\ reserve_entries settings db1 b rq rest remaining' (lines ++ [l]) = Ok out.
Proof.
  cbn [reserve_entries]. intros Hrun Hids. ok_step Hrun as trip Ht. ok_step Hrun as u Hres. ok_step Hrun as p Hp.
  ok_step Hrun as authority Hauth. destruct authority as [pv av]. cbn zeta in Hrun. ok_step Hrun as u' Ha.
  apply raise_if_Ok in Ha. ok_step Hrun as [r q] Hall. cbn [fst snd] in Hrun. apply Z.leb_gt in Ha.
  unfold reservable in Hres. ok_step Hres. ok_step Hres. ok_step Hres. apply raise_if_Ok in Hres. bool_prop.
  set (amount := Z.min _ _) in *. apply allocate_recovered in Hall as (offs & Hrec); [|lia].
  eexists amount, r, offs, q, _, pv, av. split_and!; [done..|lia|unfold amount; lia| |exact Hrec|].
  - apply require_some_Ok, payee_of_in in Hp. by eapply frozen_authority_destination.
  - cbn zeta. destruct (Z.eqb_spec r 0) as [Hz|Hz]; [exact Hrun|]. ok_step Hrun as l Hl.
    unfold build_frozen_payout_line in Hl. ok_step Hl as u2 Hb. injection Hl as <-. apply raise_if_Ok in Hb.
    cbn in Hb. bool_prop. split; [lia|]. exact Hrun.
Qed.

Lemma line_ids_snoc db lines l : NoDup (line_ids db lines) -> pl_id l = uuid4 (line_ids db lines) -> NoDup (line_ids db (lines ++ [l])).
Proof.
  unfold line_ids. intros Hnd Hid. rewrite fmap_app, app_assoc. cbn. rewrite Hid. apply NoDup_app.
  split; [exact Hnd|]. split; [|apply NoDup_singleton]. intros x Hx ->%list_elem_of_singleton. by apply uuid4_fresh in Hx.
Qed.

Lemma line_ids_quiet db db' lines : quiet (ds_payout db) (ds_payout db') -> line_ids db' lines = line_ids db lines.
Proof. intros (Hl & _). unfold line_ids. by rewrite Hl. Qed.

(** One more entry before a run. *)
Lemma reserved_run_cons db b rq e rest lines lines' db' new offs amount r offs0 p :
  let db1 := set_payout (fun _ => p) db in
  recovered e rq amount (ds_payout db) r offs0 p -> amount <= le_amount e ->
  forall (new0 : list payout_batch_line),
  (r = 0 /\ new0 = [] \/ exists i pv av, new0 = [reserved_line i (pb_id b) None e pv av r] /\ i = uuid4 (line_ids db1 lines)
     /\ payable_line db b (e :: rest) (reserved_line i (pb_id b) None e pv av r)) ->
  0 < amount ->
  reserved_run db1 b rq rest (lines ++ new0) lines' db' new offs ->
  reserved_run db b rq (e :: rest) lines lines' db' (new0 ++ new) (offs0 ++ offs).
Proof.
  intros db1 [Hq Ho Hle Hc Hnew] Hamt new0 Hnew0 Hpos [Hl Hp Hb Hbi Hq' Ho' Hpay Hids Hoffs Hcov Hm].
  assert (Hp1 : forall l, l ∈ new -> payable_line db b (e :: rest) l).
  { intros l Hin. by apply (payable_line_more db db1), Hpay. }
  split; [by rewrite Hl, app_assoc|done|done|done|by etrans|by rewrite Ho'; cbn; rewrite Ho, app_assoc|..].
  - intros l [Hin|Hin]%elem_of_app; [|by apply Hp1]. destruct Hnew0 as [[_ ->] | (i & pv & av & -> & _ & Hl0)].
    + by apply elem_of_nil in Hin.
    + by apply list_elem_of_singleton in Hin as ->.
  - intros Hnd. rewrite <- (line_ids_quiet db db1) in Hnd by exact Hq. rewrite <- (line_ids_quiet db db1) by exact Hq.
    apply Hids. destruct Hnew0 as [[_ ->] | (i & pv & av & -> & Hi & _)]; [by rewrite app_nil_r|by apply line_ids_snoc].
  - intros o [Hin|Hin]%elem_of_app.
    + destruct (Hnew o Hin) as (? & ? & ? & ?). split_and!; [done..|]. exists e. split; [by left|done].
    + destruct (Hoffs o Hin) as (? & ? & ? & e' & ? & ?). split_and!; [done..|]. exists e'. split; [by right|done].
  - intros e' [->|Hin]%elem_of_cons; rewrite !fmap_app, !elem_of_app.
    + destruct Hnew0 as [[-> ->] | (i & pv & av & -> & _)]; [|left; left; by left].
      destruct offs0 as [|o offs0]; [rewrite sum_by_nil in Hc; lia|]. right. left.
      destruct (Hnew o) as (Hf & _); [by left|]. rewrite <- Hf. by left.
    + destruct (Hcov e' Hin); tauto.
  - rewrite !sum_by_app, sum_by_cons.
    assert (sum_by pl_amount new0 = r) by (destruct Hnew0 as [[-> ->] | (i & pv & av & -> & _)]; [done|cbn; lia]). lia.
Qed.

Lemma reserve_entries_Ok db b rq entries remaining lines lines' db' :
  reserve_entries settings db b rq entries remaining lines = Ok (lines', db') -> ids_ok (ds_payees db) ->
  exists new offs, reserved_run db b rq entries lines lines' db' new offs.
Proof.
  revert db remaining lines. induction entries as [|e rest IH]; intros db remaining lines Hrun Hids.
  - injection Hrun as <- <-. exists [], []. split; try done; try by intros ? ?%elem_of_nil.
    + by rewrite app_nil_r.
    + by rewrite app_nil_r.
  - apply reserve_entry_Ok in Hrun as (amount & r & offs0 & p & remaining' & pv & av & Hst & Hty & Hcur & Ham & Hd & Hrec & Hrun);
      [|done].
    cbn zeta in Hrun. destruct (Z.eqb_spec r 0) as [Hz|Hz].
    + apply IH in Hrun as (new & offs & Hrest); [|done]. exists ([] ++ new), (offs0 ++ offs).
      eapply reserved_run_cons; [exact Hrec|lia|by left|lia|by rewrite app_nil_r].
    + destruct Hrun as [Hr Hrun]. apply IH in Hrun as (new & offs & Hrest); [|done].
      eexists (_ ++ new), (offs0 ++ offs). eapply reserved_run_cons; [exact Hrec|lia|right|lia|exact Hrest].
      do 3 eexists. split; [reflexivity|]. split; [reflexivity|].
      do 5 eexists. split; [reflexivity|]. split; [by left|]. split_and!; [done..|lia|lia|done].
Qed.
End Reserve.

(** ** A reservation *)

Lemma flush_lines_Ok lines db db' :
  flush_lines lines db = Ok db' -> db' = set_payout (with_lines (fun rows => rows ++ lines)) db.
Proof.
  revert db. induction lines as [|l lines IH]; intros db Hrun; cbn in Hrun.
  - injection Hrun as <-. destruct db as [p]. destruct p. unfold set_payout, with_lines. cbn. by rewrite app_nil_r.
  - ok_step Hrun as db1 Hf. unfold flush_line in Hf. ok_step Hf. injection Hf as <-. rewrite (IH _ Hrun).
    unfold set_payout, with_lines. cbn. by rewrite <- app_assoc.
Qed.

Section Reservation.
Context `{Sha256} `{AnalyticsFingerprint} (settings : fraud_settings).

(** The store after a reservation: the batch and its lines, on what the loop
    left. *)
Definition reserved_store (arrived : list payout_batch_line) (b : payout_batch) (lines : list payout_batch_line)
    (actor : uuid) (dbr : disbursement_store) : disbursement_store :=
  audit (Some actor) "admin.payout_batch.reserved" "payout_batch" (pb_id b)
    (set_payout (with_lines (fun rows => rows ++ lines))
      (set_batches (set_row pb_id (reserved_batch b lines)) (set_payout (with_lines (fun rows => rows ++ arrived)) dbr))).

Lemma reserve_draft_Ok arrived now db b ids actor ob lines db' :
  reserve_draft settings arrived now db b ids actor = Ok ((ob, lines), db') -> ids_ok (ds_payees db) ->
  exists offs dbr, reserved_run db b (RecoveryRequest (pb_id b) (Some actor) None now) (selected_entries db ids) [] lines dbr
                     lines offs
  /\ ((lines = [] /\ ob = None /\ db' = delete_batch (pb_id b) dbr)
      \/ (lines <> [] /\ ob = Some (reserved_batch b lines) /\ db' = reserved_store arrived b lines actor dbr)).
Proof.
  unfold reserve_draft. intros Hrun Hids. ok_step Hrun. ok_step Hrun. cbn zeta in Hrun. ok_step Hrun as [new dbr] Hloop.
  apply reserve_entries_Ok in Hloop as (new' & offs & Hr); [|done]. pose proof (rs_lines _ _ _ _ _ _ _ _ _ Hr) as Hn.
  cbn in Hn. subst new'. exists offs, dbr. destruct (bool_decide_reflect (new = [])) as [->|Hne].
  - injection Hrun as <- <- <-. split; [done|]. by left.
  - ok_step Hrun as db2 He. injection Hrun as <- <- <-. split; [done|]. right. split; [done|].
    set (dba := set_payout (with_lines (fun l => l ++ arrived)) dbr) in *.
    destruct (mbind (M := result) _ _) as [db3|exc] eqn:Hin in He.
    + injection He as <-. ok_step Hin as db4 Hb. apply flush_lines_Ok in Hin as ->.
      unfold update_batch in Hb. ok_step Hb. injection Hb as <-. done.
    + cbn in He. destruct exc; try discriminate He. destruct (bool_decide _); discriminate He.
Qed.

(** The first run of a request on its draft. *)
Lemma reserve_first arrived now db i ids actor reason b r :
  reserve_payout_batch settings arrived now db i ids actor reason = Ok r -> get_batch db i = Some b ->
  pb_status b = BATCH_DRAFT -> request_offsets db i = [] ->
  active_admin db actor = Ok tt /\ (exists reason', _reason reason = Ok reason') /\ ids <> [] /\ NoDup ids
  /\ pb_created_by_user_id b = actor
  /\ length (List.filter (fun e => bool_decide (le_id e ∈ ids)) (st_ledger db)) = length ids
  /\ existsb (fun e => bool_decide (le_trip_session_id e = None))
       (List.filter (fun e => bool_decide (le_id e ∈ ids)) (st_ledger db)) = false
  /\ reserve_draft settings arrived now db b ids actor = Ok r.
Proof.
  unfold reserve_payout_batch, recovery_replay. intros Hrun Hb Hs Ho. rewrite Ho, Hb in Hrun.
  ok_step Hrun as u Hadm. destruct u. ok_step Hrun as reason' Hreason. cbn in Hrun.
  rewrite bool_decide_eq_true_2 in Hrun by done. cbn in Hrun. ok_step Hrun as u1 Hids. ok_step Hrun as u2 Hstubs.
  ok_step Hrun as u3 Hmaker. apply raise_if_Ok in Hids, Hstubs, Hmaker. bool_prop.
  split_and!; eauto.
Qed.
Lemma selected_in db ids e : e ∈ selected_entries db ids <-> e ∈ st_ledger db /\ le_id e ∈ ids.
Proof.
  unfold selected_entries. rewrite stable_sort_perm, list_elem_of_In, filter_In, <- list_elem_of_In.
  by rewrite bool_decide_eq_true.
Qed.

(** The query found every identifier of the selection. *)
Lemma selected_all (db : disbursement_store) ids i :
  NoDup ids -> NoDup (le_id <$> st_ledger db) ->
  length (List.filter (fun e => bool_decide (le_id e ∈ ids)) (st_ledger db)) = length ids -> i ∈ ids ->
  exists e, e ∈ selected_entries db ids /\ le_id e = i.
Proof.
  intros Hids Hnd Hlen Hi. set (found := List.filter _ _) in Hlen.
  assert (Hsub : le_id <$> found ⊆+ ids).
  { apply NoDup_submseteq; [by apply NoDup_fmap_filter|]. intros x (e & -> & He)%list_elem_of_fmap.
    unfold found in He. rewrite list_elem_of_In, filter_In in He. destruct He as [_ He]. by apply bool_decide_eq_true in He. }
  assert (Hp : le_id <$> found ≡ₚ ids) by (apply submseteq_length_Permutation; [done|rewrite length_fmap; lia]).
  rewrite <- Hp in Hi. apply list_elem_of_fmap in Hi as (e & -> & He). exists e. split; [|done].
  unfold found in He. rewrite list_elem_of_In, filter_In, <- list_elem_of_In in He. rewrite selected_in.
  destruct He as [? He]. by apply bool_decide_eq_true in He.
Qed.

Lemma batch_lines_app (db' : disbursement_store) i old lines :
  st_lines db' = old ++ lines -> (forall l, l ∈ old -> pl_batch_id l <> i) -> (forall l, l ∈ lines -> pl_batch_id l = i) ->
  batch_lines db' i ≡ₚ lines.
Proof.
  intros Hl Hold Hnew. unfold batch_lines. rewrite stable_sort_perm, Hl, List.filter_app, filter_all_false.
  - cbn. clear Hl. induction lines as [|l lines IH]; [done|]. cbn. rewrite bool_decide_eq_true_2 by (apply Hnew; by left).
    constructor. apply IH. intros k Hk. apply Hnew. by right.
  - intros l Hin. by apply bool_decide_eq_false, Hold.
Qed.

Lemma payable_line_keys db b entries l :
  payable_line db b entries l ->
  pl_batch_id l = pb_id b /\ pl_status l = LINE_RESERVED /\ pl_reservation_active l = true
  /\ frozen_destination db (pl_payee_version_id l) (pl_bank_account_version_id l) = true
  /\ exists e, e ∈ entries /\ pl_ledger_entry_id l = le_id e /\ le_status e = AVAILABLE /\ 0 < pl_amount l <= le_amount e.
Proof.
  intros (i & e & pv & av & amount & -> & He & Hst & _ & _ & Ha & Hd). split_and!; [done..|].
  exists e. by split_and!; [done..|apply Ha|apply Ha].
Qed.

(** The batch after a reservation passes the check of every later reader. *)
Lemma reserved_store_frozen arrived now db b ids actor dbr lines offs :
  reserved_run db b (RecoveryRequest (pb_id b) (Some actor) None now) (selected_entries db ids) [] lines dbr lines offs ->
  lines <> [] -> get_batch db (pb_id b) = Some b -> (forall l, l ∈ st_lines db ++ arrived -> pl_batch_id l <> pb_id b) ->
  let db' := reserved_store arrived b lines actor dbr in
  get_batch db' (pb_id b) = Some (reserved_batch b lines)
  /\ batch_lines db' (pb_id b) ≡ₚ lines
  /\ _assert_frozen (reserved_batch b lines) (batch_lines db' (pb_id b)) = Ok tt.
Proof.
  intros Hr Hne Hb Hfree db'. destruct Hr as [_ _ Hba _ (Hl & _) _ Hpay _ _ _ _].
  assert (Hp : batch_lines db' (pb_id b) ≡ₚ lines).
  { apply (batch_lines_app _ _ (st_lines dbr ++ arrived)); [done| |].
    - intros l. rewrite Hl. apply Hfree.
    - intros l Hin. by apply Hpay, payable_line_keys in Hin as [? _]. }
  split; [|split; [exact Hp|]].
  - unfold get_batch, db', reserved_store in *. cbn [audit set_payout set_batches ds_batches]. rewrite Hba.
    by apply find_set_row_same with b.
  - rewrite (assert_frozen_instructions _ lines) by by rewrite Hp.
    change (_assert_frozen (freeze_batch_instruction_set b lines) lines = Ok tt). apply freeze_instructions; [done|].
    apply Forall_forall. intros l Hin. destruct (Hpay l Hin) as (i & e & pv & av & amount & -> & _ & _ & _ & Hc & _).
    by exists i, None, e, pv, av, amount.
Qed.

(** C16: A reserved batch can be paid: the store holds it reserved and frozen, as
    approval, queueing and every later check will read it, each line reserves one
    available credit of the selection, for no more than the credit, to a bank
    account its payee verified, every selected credit is on a line or settled a
    debt, and lines and debts together never exceed the credits. *)
Theorem reserved_batch_is_payable arrived now db i ids actor reason b0 b lines db' :
  reserve_payout_batch settings arrived now db i ids actor reason = Ok ((Some b, lines), db') ->
  get_batch db i = Some b0 -> pb_status b0 = BATCH_DRAFT -> request_offsets db i = [] ->
  ids_ok (ds_payees db) -> NoDup (le_id <$> st_ledger db) ->
  (forall l, l ∈ st_lines db ++ arrived -> pl_batch_id l <> i) ->
  get_batch db' i = Some b /\ pb_status b = BATCH_RESERVED /\ _assert_frozen b (batch_lines db' i) = Ok tt
  /\ (forall l, l ∈ lines -> l ∈ st_lines db' /\ pl_status l = LINE_RESERVED /\ pl_reservation_active l = true
        /\ frozen_destination db' (pl_payee_version_id l) (pl_bank_account_version_id l) = true
        /\ exists e, e ∈ st_ledger db /\ le_id e ∈ ids /\ pl_ledger_entry_id l = le_id e /\ le_status e = AVAILABLE
             /\ 0 < pl_amount l <= le_amount e)
  /\ exists offs, st_offsets db' = st_offsets db ++ offs
       /\ (forall x, x ∈ ids -> x ∈ pl_ledger_entry_id <$> lines \/ x ∈ po_funding_entry_id <$> offs)
       /\ lines_total lines + sum_by po_amount offs <= sum_by le_amount (selected_entries db ids).
Proof.
  intros Hrun Hb Hs Hoff Hids Hnd Hfree. pose proof (find_by_key_Some _ _ _ _ Hb) as [_ Hi].
  destruct (reserve_first _ _ _ _ _ _ _ _ _ Hrun Hb Hs Hoff) as (_ & _ & _ & Hnodup & _ & Hlen & _ & Hdraft).
  apply reserve_draft_Ok in Hdraft as (offs & dbr & Hr & [(_ & Hob & _)|(Hne & Hob & ->)]); [discriminate Hob| |done].
  injection Hob as ->. rewrite <- Hi in Hfree, Hb.
  destruct (reserved_store_frozen arrived now db b0 ids actor dbr lines offs Hr Hne Hb Hfree) as (Hb' & Hp & Hf).
  rewrite <- Hi. split_and!; [done..| |].
  - intros l Hin. pose proof (rs_payable _ _ _ _ _ _ _ _ _ Hr l Hin) as (_ & ? & ? & Hd & e & He & ? & ? & ?)%payable_line_keys.
    split; [cbn; apply elem_of_app; by right|]. split_and!; [done..| |].
    + rewrite <- Hd. apply frozen_destination_same. apply (rs_payees _ _ _ _ _ _ _ _ _ Hr).
    + exists e. apply selected_in in He as [? ?]. split_and!; (done || lia).
  - exists offs. split; [apply (rs_offsets _ _ _ _ _ _ _ _ _ Hr)|]. split.
    + intros x Hx. destruct (selected_all db ids x Hnodup Hnd Hlen Hx) as (e & He & <-).
      exact (rs_covered _ _ _ _ _ _ _ _ _ Hr e He).
    + apply (rs_money _ _ _ _ _ _ _ _ _ Hr).
Qed.
Lemma filter_of_fmap {A B} (f : A -> B) (q : B -> bool) l : List.filter q (f <$> l) = f <$> List.filter (fun x => q (f x)) l.
Proof. induction l as [|x l IH]; [done|]. cbn. destruct (q (f x)); cbn; by rewrite IH. Qed.

Lemma existsb_fmap {A B} (f : A -> B) (q : B -> bool) l : existsb q (f <$> l) = existsb (fun x => q (f x)) l.
Proof. induction l as [|x l IH]; [done|]. cbn. by rewrite IH. Qed.

Lemma existsb_false {A} (p : A -> bool) l : (forall x, x ∈ l -> p x = false) -> existsb p l = false.
Proof.
  induction l as [|x l IH]; intros Hp; [done|]. cbn. rewrite (Hp x) by by left. apply IH. intros y Hy. apply Hp. by right.
Qed.

(** The query of the selection sees the same identifiers and trips. *)
Lemma stubs_quiet (db db' : payout_store) (ids : list uuid) :
  entry_key <$> st_ledger db' = entry_key <$> st_ledger db ->
  let stubs d := List.filter (fun e => bool_decide (le_id e ∈ ids)) (st_ledger d) in
  length (stubs db') = length (stubs db)
  /\ existsb (fun e => bool_decide (le_trip_session_id e = None)) (stubs db')
     = existsb (fun e => bool_decide (le_trip_session_id e = None)) (stubs db).
Proof.
  intros Hk stubs.
  assert (Hs : entry_key <$> stubs db' = entry_key <$> stubs db).
  { assert (Hf : forall d, entry_key <$> stubs d = List.filter (fun k => bool_decide (k.1 ∈ ids)) (entry_key <$> st_ledger d)).
    { intros d. exact (eq_sym (filter_of_fmap entry_key (fun k => bool_decide (k.1 ∈ ids)) (st_ledger d))). }
    by rewrite !Hf, Hk. }
  split.
  - rewrite <- (length_fmap entry_key (stubs db')), Hs. apply length_fmap.
  - assert (Hf : forall d, existsb (fun e => bool_decide (le_trip_session_id e = None)) (stubs d)
              = existsb (fun k => bool_decide (k.2 = None)) (entry_key <$> stubs d)).
    { intros d. exact (eq_sym (existsb_fmap entry_key (fun k => bool_decide (k.2 = None)) (stubs d))). }
    by rewrite !Hf, Hs.
Qed.

Lemma same_set_true a b : (forall i, i ∈ a <-> i ∈ b) -> same_set a b = true.
Proof.
  intros Hab. unfold same_set. apply andb_true_iff.
  split; apply forallb_forall; intros i Hi%list_elem_of_In; by apply bool_decide_eq_true, Hab.
Qed.

Lemma same_set_perm a a' b : a ≡ₚ a' -> same_set a b = true -> same_set a' b = true.
Proof.
  unfold same_set. intros Hp [Ha Hb]%andb_true_iff. rewrite <- (forallb_perm _ _ _ Hp), Ha. cbn.
  apply forallb_forall. intros i Hi. rewrite forallb_forall in Hb. specialize (Hb i Hi). apply bool_decide_eq_true in Hb.
  apply bool_decide_eq_true. by rewrite <- Hp.
Qed.

Lemma request_offsets_after (db db' : disbursement_store) i offs :
  st_offsets db' = st_offsets db ++ offs -> request_offsets db i = [] -> (forall o, o ∈ offs -> po_request_id o = i) ->
  request_offsets db' i = offs.
Proof.
  unfold request_offsets. intros -> Ho Hall. rewrite List.filter_app, Ho. cbn. clear Ho.
  induction offs as [|o offs IH]; [done|]. cbn. rewrite bool_decide_eq_true_2 by (apply Hall; by left). f_equal.
  apply IH. intros o' Ho'. apply Hall. by right.
Qed.

(** What a replay finds of the run: its offsets, its administrator and the
    selection. *)
Lemma replay_facts now db i ids actor b0 lines dbr offs (db' : disbursement_store) :
  reserved_run db b0 (RecoveryRequest (pb_id b0) (Some actor) None now) (selected_entries db ids) [] lines dbr lines offs ->
  pb_id b0 = i -> request_offsets db i = [] -> st_offsets db' = st_offsets dbr ->
  (forall x, x ∈ ids -> exists e, e ∈ selected_entries db ids /\ le_id e = x) ->
  request_offsets db' i = offs
  /\ existsb (fun o => negb (bool_decide (po_actor_user_id o = Some actor))) offs = false
  /\ same_set ((pl_ledger_entry_id <$> lines) ++ (po_funding_entry_id <$> offs)) ids = true.
Proof.
  intros [_ _ _ _ _ Ho Hpay _ Hoffs Hcov _] Hi Hnone Ho' Hall. split; [|split].
  - apply (request_offsets_after db); [by rewrite Ho'|done|]. intros o Hin. by destruct (Hoffs o Hin) as (-> & _).
  - apply existsb_false. intros o Hin. destruct (Hoffs o Hin) as (_ & -> & _). by rewrite bool_decide_eq_true_2.
  - apply same_set_true. intros x. rewrite elem_of_app. split.
    + intros [(l & -> & Hl)%list_elem_of_fmap | (o & -> & Hin)%list_elem_of_fmap].
      * pose proof (Hpay l Hl) as (_ & _ & _ & _ & e & He & Hid & _)%payable_line_keys; rewrite Hid; by apply selected_in in He as [_ ?].
      * destruct (Hoffs o Hin) as (_ & _ & _ & e & He & ->). by apply selected_in in He as [_ ?].
    + intros Hx. destruct (Hall x Hx) as (e & He & <-). by apply Hcov.
Qed.
Lemma delete_batch_gone i db : get_batch (delete_batch i db) i = None.
Proof.
  unfold get_batch. destruct (find_by_key pb_id i _) as [b|] eqn:Hb; [|done].
  apply find_by_key_Some in Hb as [Hin Hid]. cbn in Hin. rewrite list_elem_of_In, filter_In in Hin.
  destruct Hin as [_ Hne]. by rewrite bool_decide_eq_true_2 in Hne.
Qed.

(** The replay of a run that built no line. *)
Lemma replay_recovered arrived now now' (db : disbursement_store) ids actor reason reason' b0 offs dbr :
  let db' := delete_batch (pb_id b0) dbr in
  reserved_run db b0 (RecoveryRequest (pb_id b0) (Some actor) None now) (selected_entries db ids) [] [] dbr [] offs ->
  request_offsets db (pb_id b0) = [] -> (forall x, x ∈ ids -> exists e, e ∈ selected_entries db ids /\ le_id e = x) ->
  active_admin db actor = Ok tt -> _reason reason = Ok reason' -> ids <> [] ->
  reserve_payout_batch settings arrived now' db' (pb_id b0) ids actor reason = Ok ((None, []), db').
Proof.
  intros db' Hr Hoff Hall Hadm Hreason Hne.
  destruct (replay_facts now db _ ids actor b0 [] dbr offs db' Hr eq_refl Hoff eq_refl Hall) as (Ho & Hact & Hsame).
  unfold reserve_payout_batch. rewrite Hreason.
  assert (active_admin db' actor = Ok tt) as ->.
  { unfold active_admin in *. cbn. by rewrite (rs_billing _ _ _ _ _ _ _ _ _ Hr). }
  unfold recovery_replay. rewrite Ho, Hact.
  assert (get_batch db' (pb_id b0) = None) as -> by apply delete_batch_gone.
  assert (Hsame' : same_set ids (po_funding_entry_id <$> offs) = true) by (unfold same_set in *; by rewrite andb_comm).
  rewrite Hsame', (bool_decide_eq_false_2 (offs = [])); [done|]. intros ->.
  destruct ids as [|x ids]; [done|]. unfold same_set in Hsame'. by cbn in Hsame'.
Qed.

(** The replay of a run that reserved a batch. *)
Lemma replay_reserved arrived arrived' now now' (db : disbursement_store) ids actor reason reason' b0 lines offs dbr :
  let db' := reserved_store arrived b0 lines actor dbr in
  reserved_run db b0 (RecoveryRequest (pb_id b0) (Some actor) None now) (selected_entries db ids) [] lines dbr lines offs ->
  request_offsets db (pb_id b0) = [] -> (forall x, x ∈ ids -> exists e, e ∈ selected_entries db ids /\ le_id e = x) ->
  active_admin db actor = Ok tt -> _reason reason = Ok reason' -> ids <> [] -> NoDup ids ->
  pb_created_by_user_id b0 = actor ->
  length (List.filter (fun e => bool_decide (le_id e ∈ ids)) (st_ledger db)) = length ids ->
  existsb (fun e => bool_decide (le_trip_session_id e = None))
    (List.filter (fun e => bool_decide (le_id e ∈ ids)) (st_ledger db)) = false ->
  lines <> [] -> get_batch db (pb_id b0) = Some b0 ->
  (forall l, l ∈ st_lines db ++ arrived -> pl_batch_id l <> pb_id b0) ->
  batch_lines db' (pb_id b0) ≡ₚ lines
  /\ reserve_payout_batch settings arrived' now' db' (pb_id b0) ids actor reason
     = Ok ((Some (reserved_batch b0 lines), batch_lines db' (pb_id b0)), db').
Proof.
  intros db' Hr Hoff Hall Hadm Hreason Hne Hnodup Hmaker Hlen Htrips Hlines Hb Hfree.
  destruct (replay_facts now db _ ids actor b0 lines dbr offs db' Hr eq_refl Hoff eq_refl Hall) as (Ho & Hact & Hsame).
  destruct (reserved_store_frozen arrived now db b0 ids actor dbr lines offs Hr Hlines Hb Hfree) as (Hb' & Hp & Hf).
  fold db' in Hb', Hp, Hf. split; [exact Hp|]. unfold reserve_payout_batch. rewrite Hreason.
  assert (active_admin db' actor = Ok tt) as ->.
  { unfold active_admin in *. cbn. by rewrite (rs_billing _ _ _ _ _ _ _ _ _ Hr). }
  assert (recovery_replay db' (pb_id b0) actor ids = Ok None) as ->.
  { unfold recovery_replay. rewrite Ho, Hact, Hb'. cbn [raise_if mbind result_bind].
    assert (bool_decide (pb_status (reserved_batch b0 lines) = BATCH_DRAFT) = false) as -> by done.
    rewrite andb_false_r. by destruct (bool_decide _). }
  cbn [mbind result_bind]. rewrite Hb'. cbn [require_some mbind result_bind].
  rewrite (bool_decide_eq_false_2 (ids = [])), (bool_decide_eq_true_2 (NoDup ids)) by done.
  destruct (stubs_quiet (ds_payout db) (ds_payout db') ids) as [Hlen' Htrips'].
  { destruct (rs_quiet _ _ _ _ _ _ _ _ _ Hr) as (_ & _ & _ & Hk). exact Hk. }
  rewrite Hlen', Htrips', Hlen, Htrips, (bool_decide_eq_true_2 (length ids = length ids)) by done. cbn [orb negb raise_if mbind result_bind].
  change (pb_created_by_user_id (reserved_batch b0 lines)) with (pb_created_by_user_id b0).
  rewrite Hmaker, (bool_decide_eq_true_2 (actor = actor)) by done. cbn [negb raise_if mbind result_bind].
  assert (bool_decide (pb_status (reserved_batch b0 lines) = BATCH_DRAFT) = false) as -> by done. cbn [negb].
  unfold reserved_before. change (pb_id (reserved_batch b0 lines)) with (pb_id b0). rewrite Ho.
  rewrite Hf, (same_set_perm ((pl_ledger_entry_id <$> lines) ++ (po_funding_entry_id <$> offs))); [done| |done].
  by rewrite Hp.
Qed.

(** Reserving can be repeated: the same request finds its lines again, or
    finds that recovering debts took everything, and the second run changes
    nothing, whatever the time and whatever other transactions commit. *)
Theorem reservation_replay arrived now db i ids actor reason b0 ob lines db' :
  reserve_payout_batch settings arrived now db i ids actor reason = Ok ((ob, lines), db') ->
  get_batch db i = Some b0 -> pb_status b0 = BATCH_DRAFT -> request_offsets db i = [] ->
  ids_ok (ds_payees db) -> NoDup (le_id <$> st_ledger db) ->
  (forall l, l ∈ st_lines db ++ arrived -> pl_batch_id l <> i) ->
  forall arrived' now',
  exists lines', lines' ≡ₚ lines
  /\ reserve_payout_batch settings arrived' now' db' i ids actor reason = Ok ((ob, lines'), db').
Proof.
  intros Hrun Hb Hs Hoff Hids Hnd Hfree arrived' now'. pose proof (find_by_key_Some _ _ _ _ Hb) as [_ Hi]. subst i.
  destruct (reserve_first _ _ _ _ _ _ _ _ _ Hrun Hb Hs Hoff)
    as (Hadm & (reason' & Hreason) & Hne & Hnodup & Hmaker & Hlen & Htrips & Hdraft).
  pose proof (fun x => selected_all db ids x Hnodup Hnd Hlen) as Hall.
  apply reserve_draft_Ok in Hdraft as (offs & dbr & Hr & [(-> & -> & ->)|(Hlines & -> & ->)]); [| |done].
  - exists []. split; [done|]. by eapply replay_recovered.
  - eexists. by eapply replay_reserved.
Qed.
End Reservation.

(** ** Conflicts nobody answers *)

(** A draft reference another request takes first: the primary key of the batches
    is not an expected constraint, so the request gets the bare conflict and
    never [draft_conflict]. *)
Lemma taken_draft_is_reraised arrived db currency normalized actor reason text i :
  active_admin db actor = Ok tt -> _reason reason = Ok text -> draft_currency currency = Ok normalized ->
  String.length normalized = 3%nat -> actor <> CARDVERT_AUTOMATIC_PAYOUT_ACTOR_ID ->
  get_batch db i = None -> i ∈ pb_id <$> arrived ->
  create_payout_batch_draft arrived db currency actor reason (Some i) = Raise (IntegrityError "payout_batches_pkey").
Proof.
  intros Ha Hr Hc Hlen Hactor Hb Hi. unfold create_payout_batch_draft.
  rewrite Ha, Hr, Hc. cbn [mbind result_bind option_bind]. rewrite Hb. cbn zeta.
  unfold flush_batch, payout_batch_row_ok. cbn [pb_currency pb_total_amount pb_status pb_instruction_set_fingerprint
    pb_approval_mode pb_automatic_run_id pb_created_by_user_id pb_id default].
  rewrite Hlen, (bool_decide_eq_false_2 (actor = _)) by done. cbn [negb raise_if mbind result_bind].
  assert (Hconf : forall b, pb_id b = i ->
    conflicts (fun b => Some (pb_id b)) b (ds_batches (set_batches (fun l => l ++ arrived) db)) = true).
  { intros b <-. apply bool_decide_eq_true. cbn. rewrite (list_fmap_compose pb_id Some).
    apply list_elem_of_fmap_2. rewrite fmap_app. apply elem_of_app. by right. }
  rewrite Hconf by done. reflexivity.
Qed.

(** A line that already replaces the failed one: the same. *)
Lemma predecessor_conflict_is_reraised :
  except_replaced (Raise (IntegrityError "uq_payout_batch_lines_predecessor"))
  = Raise (IntegrityError "uq_payout_batch_lines_predecessor").
Proof. reflexivity. Qed.


Section Replacement.
Context `{Sha256} `{AnalyticsFingerprint} `{KeyCustody C} (float_of : string -> json) (settings : fraud_settings).

(** Only the audit log differs. *)
Definition audited (db db' : disbursement_store) : Prop :=
  ds_payees db' = ds_payees db /\ ds_billing db' = ds_billing db /\ ds_batches db' = ds_batches db
  /\ st_lines db' = st_lines db /\ st_ledger db' = st_ledger db /\ st_offsets db' = st_offsets db.

#[export] Instance audited_preorder : PreOrder audited.
Proof.
  split; [done|]. intros a b c (? & ? & ? & ? & ? & ?) (? & ? & ? & ? & ? & ?). unfold audited. split_and!; congruence.
Qed.

Lemma read_account_Ok db v actor (crypto : C) purpose d db' :
  read_verified_bank_account float_of db v actor crypto purpose = Ok (d, db') ->
  audited db db'
  /\ forall db0, audited db0 db -> exists db1, read_verified_bank_account float_of db0 v actor crypto purpose = Ok (d, db1).
Proof.
  unfold read_verified_bank_account, _read_verified_bank_account_authorized. intros Hrun.
  ok_step Hrun as u Hadm. ok_step Hrun as p Hp. ok_step Hrun as row Hrow. destruct row as [[av a] py].
  ok_step Hrun as u' Hstale. ok_step Hrun as envelope Henv. ok_step Hrun as details Hd. injection Hrun as <- <-.
  split; [unfold audited; split_and!; reflexivity|]. intros db0 (Hpay & Hbill & _). rewrite <- Hbill, Hadm, Hp. cbn [mbind result_bind].
  unfold account_version_row, _current_bank_account_version, account_versions, bank_accounts, payees in *.
  rewrite <- Hpay, Hrow. cbn [mbind result_bind]. rewrite Hstale. cbn [mbind result_bind]. rewrite Henv. cbn [mbind result_bind].
  rewrite Hd. cbn [mbind result_bind]. eexists. reflexivity.
Qed.

(** The two versions hold different accounts. *)
Definition different_accounts (db : disbursement_store) (actor : uuid) (crypto : C) (old new : uuid) : Prop :=
  exists d d' db1 db2,
    read_verified_bank_account float_of db old actor crypto "payout_replacement_destination" = Ok (d, db1)
    /\ read_verified_bank_account float_of db new actor crypto "payout_replacement_destination" = Ok (d', db2)
    /\ (vd_bank_code d, vd_account_number d) <> (vd_bank_code d', vd_account_number d').

Lemma new_destination_Ok db predecessor av actor (crypto : C) db' :
  new_destination float_of db predecessor av actor crypto = Ok db' ->
  audited db db' /\ av_id av <> pl_bank_account_version_id predecessor
  /\ forall db0, audited db0 db -> different_accounts db0 actor crypto (pl_bank_account_version_id predecessor) (av_id av).
Proof.
  unfold new_destination. intros Hrun. ok_step Hrun as u Hv. apply raise_if_Ok in Hv. ok_step Hrun as [d db1] Hd.
  ok_step Hrun as [d' db2] Hd'. cbn [fst snd] in *. ok_step Hrun as u' Hne. apply raise_if_Ok in Hne. injection Hrun as <-.
  bool_prop. apply read_account_Ok in Hd as [Ha Hd], Hd' as [Ha' Hd']. split; [by etrans|]. split; [done|].
  intros db0 H0'. destruct (Hd db0 H0') as (dbx & Hx). destruct (Hd' db0) as (dby & Hy); [by etrans|].
  by exists d, d', dbx, dby.
Qed.

(** What replaces a failed line: the same credit, no more than before, to a
    different account the payee verified. *)
Definition replacement_of (db : disbursement_store) (batch_id actor : uuid) (crypto : C) (f l : payout_batch_line) : Prop :=
  exists i e pv av amount, l = reserved_line i batch_id (Some (pl_id f)) e pv av amount
  /\ e ∈ st_ledger db /\ le_id e = pl_ledger_entry_id f /\ le_status e = AVAILABLE /\ le_currency e = pl_currency f
  /\ 0 < amount <= pl_amount f /\ frozen_destination db pv av = true /\ av <> pl_bank_account_version_id f
  /\ different_accounts db actor crypto (pl_bank_account_version_id f) av.

Lemma different_accounts_audited db db' actor (crypto : C) old new :
  audited db db' -> different_accounts db' actor crypto old new -> different_accounts db actor crypto old new.
Proof.
  intros Ha (d & d' & db1 & db2 & Hd & Hd' & Hne). apply read_account_Ok in Hd as [_ Hd], Hd' as [_ Hd'].
  destruct (Hd db Ha) as (dbx & Hx). destruct (Hd' db Ha) as (dby & Hy). by exists d, d', dbx, dby.
Qed.

Lemma replacement_of_audited db db' batch_id actor (crypto : C) f l :
  audited db db' -> replacement_of db' batch_id actor crypto f l -> replacement_of db batch_id actor crypto f l.
Proof.
  intros Ha (i & e & pv & av & amount & -> & Hin & ? & ? & ? & ? & Hd & ? & Hdiff). pose proof Ha as (Hp & _ & _ & _ & Hled & _).
  exists i, e, pv, av, amount. rewrite <- Hled, <- (frozen_destination_same db db') by done. split_and!; try (done || lia).
  by apply (different_accounts_audited db db').
Qed.

Lemma replace_lines_Ok db batch_id actor (crypto : C) failed remaining lines lines' db' :
  replace_lines float_of db batch_id actor crypto failed remaining lines = Ok (lines', db') -> ids_ok (ds_payees db) ->
  exists new, lines' = lines ++ new /\ audited db db'
  /\ Forall2 (replacement_of db batch_id actor crypto) failed new.
Proof.
  revert db remaining lines. induction failed as [|f rest IH]; intros db remaining lines Hrun Hids; cbn [replace_lines] in Hrun.
  { injection Hrun as <- <-. exists []. rewrite app_nil_r. by split_and!. }
  ok_step Hrun as e He. ok_step Hrun as u Hrep. apply raise_if_Ok, negb_false_iff in Hrep. ok_step Hrun as trip Ht.
  ok_step Hrun. ok_step Hrun as p Hp. ok_step Hrun as authority Hauth. destruct authority as [pv av]. cbn [fst snd] in Hrun.
  ok_step Hrun as db1 Hdest. cbn zeta in Hrun. ok_step Hrun as u' Ham. apply raise_if_Ok, Z.leb_gt in Ham.
  apply new_destination_Ok in Hdest as (Ha & Hne & Hdiff).
  apply IH in Hrun as (new & -> & Ha' & Hnew); [|by destruct Ha as (-> & _)].
  eexists (_ :: new). split; [by rewrite <- app_assoc|]. split; [by etrans|]. constructor.
  - apply require_some_Ok, find_by_key_Some in He as [He Hid]. apply require_some_Ok, payee_of_in in Hp.
    unfold replaceable in Hrep. bool_prop. do 5 eexists. split; [reflexivity|]. split_and!; try done.
    + lia.
    + by eapply frozen_authority_destination.
    + by apply Hdiff.
  - eapply Forall2_impl; [exact Hnew|]. intros f' l Hl. by apply (replacement_of_audited db db1).
Qed.
(** The batch and the store a replacement makes. *)
Definition replacement_batch (db : disbursement_store) (b : payout_batch) (actor : uuid) (lines : list payout_batch_line)
    : payout_batch :=
  freeze_batch_instruction_set (PayoutBatch (uuid4 (pb_id <$> ds_batches db)) BATCH_RESERVED (pb_currency b) 0 None None
    actor None None None APPROVAL_MANUAL None) lines.

Definition replacement_store (arrived : list payout_batch_line) (b' : payout_batch) (lines : list payout_batch_line)
    (actor : uuid) (dbr : disbursement_store) : disbursement_store :=
  audit (Some actor) "admin.payout_batch.replacement_reserved" "payout_batch" (pb_id b')
    (set_payout (with_lines (fun rows => rows ++ lines))
      (set_batches (fun l => l ++ [b']) (set_payout (with_lines (fun rows => rows ++ arrived)) dbr))).

Lemma replace_failed_Ok arrived db b failed actor crypto b' lines db' :
  replace_failed float_of settings arrived db b failed actor crypto = Ok (b', lines, db') -> ids_ok (ds_payees db) ->
  exists custody dbr, crypto = Ok custody /\ b' = replacement_batch db b actor lines
  /\ db' = replacement_store arrived b' lines actor dbr /\ audited db dbr
  /\ Forall2 (replacement_of db (pb_id b') actor custody) failed lines.
Proof.
  unfold replace_failed. intros Hrun Hids. cbn zeta in Hrun. ok_step Hrun. ok_step Hrun. ok_step Hrun as custody Hc.
  ok_step Hrun as [new dbr] Hloop. ok_step Hrun as db2 He. injection Hrun as <- <- <-. exists custody, dbr. split; [done|].
  apply replace_lines_Ok in Hloop as (new' & Hn & Ha & Hnew); [|done]. cbn in Hn. subst new'.
  split; [done|]. split; [|by split].
  destruct (mbind (M := result) _ _) as [db3|exc] eqn:Hin in He.
  - injection He as <-. ok_step Hin as db4 Hb. apply flush_lines_Ok in Hin as ->.
    unfold flush_batch in Hb. ok_step Hb. ok_step Hb. injection Hb as <-. done.
  - cbn in He. destruct exc; try discriminate He. destruct (bool_decide _); discriminate He.
Qed.

Lemma replacement_of_keys db i actor (crypto : C) f l :
  replacement_of db i actor crypto f l ->
  pl_batch_id l = i /\ pl_predecessor_line_id l = Some (pl_id f) /\ pl_ledger_entry_id l = pl_ledger_entry_id f
  /\ pl_status l = LINE_RESERVED /\ pl_reservation_active l = true /\ 0 < pl_amount l <= pl_amount f
  /\ frozen_destination db (pl_payee_version_id l) (pl_bank_account_version_id l) = true
  /\ different_accounts db actor crypto (pl_bank_account_version_id f) (pl_bank_account_version_id l).
Proof. intros (i' & e & pv & av & amount & -> & _ & Hid & _ & _ & Ha & Hd & _ & Hdiff). by split_and!; [..|apply Ha|apply Ha| |]. Qed.

Lemma frozen_currency b lines l : _assert_frozen b lines = Ok tt -> l ∈ lines -> pl_currency l = pb_currency b.
Proof.
  unfold _assert_frozen. intros Hrun Hl. ok_step Hrun. ok_step Hrun as u Hall. apply raise_if_Ok, negb_false_iff in Hall.
  rewrite forallb_forall in Hall. specialize (Hall l). rewrite <- list_elem_of_In in Hall. specialize (Hall Hl).
  unfold line_frozen in Hall. by bool_prop.
Qed.

Definition failed_of (lines : list payout_batch_line) : list payout_batch_line :=
  List.filter (fun l => bool_decide (pl_status l = LINE_FAILED)) lines.

Lemma retry_first arrived db i actor adapter crypto reason b r :
  retry_failed_payout_lines float_of settings arrived db i actor adapter crypto reason = Ok r ->
  get_batch db i = Some b -> children db (failed_of (batch_lines db i)) = [] ->
  failed_of (batch_lines db i) <> [] /\ _assert_frozen b (batch_lines db i) = Ok tt
  /\ replace_failed float_of settings arrived db b (failed_of (batch_lines db i)) actor crypto = Ok r.
Proof.
  unfold retry_failed_payout_lines, _locked_batch_with_lines, failed_lines. intros Hrun Hb Hc. rewrite Hb in Hrun.
  pose proof (find_by_key_Some _ _ _ _ Hb) as [_ Hi]. ok_step Hrun. ok_step Hrun. cbn [require_some mbind result_bind mret result_ret] in Hrun.
  rewrite Hi in Hrun. fold (failed_of (batch_lines db i)) in Hrun. ok_step Hrun as failed Hf. ok_step Hf as u Hne.
  ok_step Hf. injection Hf as <-. ok_step Hrun as u' Hfr. destruct u'. ok_step Hrun. ok_step Hrun.
  apply raise_if_Ok in Hne. bool_prop. rewrite Hc in Hrun. cbn in Hrun. by split_and!.
Qed.

(** C22: Replacing failed payments: each failed line of the batch gets exactly one
    replacement, for the same credit and no more money, to an account its payee
    verified that differs from the one that failed; the replacements make one
    new batch, reserved and frozen as every later reader checks it. *)
Theorem replacement_reaches_new_account arrived db i actor adapter crypto reason b b' lines db' :
  retry_failed_payout_lines float_of settings arrived db i actor adapter crypto reason = Ok (b', lines, db') ->
  get_batch db i = Some b -> children db (failed_of (batch_lines db i)) = [] -> ids_ok (ds_payees db) ->
  (forall l, l ∈ st_lines db ++ arrived -> pl_batch_id l ∈ pb_id <$> ds_batches db) ->
  get_batch db' (pb_id b') = Some b' /\ pb_status b' = BATCH_RESERVED
  /\ _assert_frozen b' (batch_lines db' (pb_id b')) = Ok tt
  /\ Forall2 (fun f l => pl_predecessor_line_id l = Some (pl_id f) /\ pl_ledger_entry_id l = pl_ledger_entry_id f
       /\ pl_status l = LINE_RESERVED /\ pl_reservation_active l = true /\ 0 < pl_amount l <= pl_amount f
       /\ frozen_destination db' (pl_payee_version_id l) (pl_bank_account_version_id l) = true
       /\ exists custody, crypto = Ok custody
            /\ different_accounts db actor custody (pl_bank_account_version_id f) (pl_bank_account_version_id l))
     (failed_of (batch_lines db i)) lines.
Proof.
  intros Hrun Hb Hc Hids Hold. destruct (retry_first _ _ _ _ _ _ _ _ _ Hrun Hb Hc) as (Hne & Hfrozen & Hrep).
  apply replace_failed_Ok in Hrep as (custody & dbr & -> & -> & -> & (Hpay & _ & Hba & Hl & _) & Hnew); [|done].
  set (b' := replacement_batch db b actor lines) in *. set (db' := replacement_store arrived b' lines actor dbr).
  assert (Hfresh : pb_id b' ∉ pb_id <$> ds_batches db) by apply uuid4_fresh.
  assert (Hlines : forall l, l ∈ lines -> exists f, f ∈ failed_of (batch_lines db i) /\ replacement_of db (pb_id b') actor custody f l).
  { intros l Hin. apply list_elem_of_lookup_1 in Hin as (n & Hn). destruct (Forall2_lookup_r _ _ _ _ _ Hnew Hn) as (f & Hf & Hr).
    exists f. split; [by eapply list_elem_of_lookup_2|done]. }
  assert (Hp : batch_lines db' (pb_id b') ≡ₚ lines).
  { apply (batch_lines_app _ _ (st_lines dbr ++ arrived)); [done| |].
    - intros l. rewrite Hl. intros Hin He. apply Hfresh. rewrite <- He. by apply Hold.
    - intros l Hin. destruct (Hlines l Hin) as (f & _ & Hr). by apply replacement_of_keys in Hr as [? _]. }
  split; [|split; [done|split]].
  - unfold get_batch, db', replacement_store. cbn [audit set_payout set_batches ds_batches]. rewrite Hba.
    apply find_row_snoc_new; [|by apply bool_decide_eq_true_2].
    destruct (find_row _ (ds_batches db)) as [x|] eqn:Hx; [|done]. apply find_by_key_Some in Hx as [Hin Hid].
    destruct Hfresh. rewrite <- Hid. apply list_elem_of_fmap. by exists x.
  - rewrite (assert_frozen_instructions _ lines) by by rewrite Hp. apply freeze_instructions.
    + intros ->. by apply Forall2_nil_inv_r in Hnew.
    + apply Forall_forall. intros l Hin. destruct (Hlines l Hin) as (f & Hf & j & e & pv & av & amount & -> & _ & _ & _ & Hcur & _).
      exists j, (Some (pl_id f)), e, pv, av, amount. split; [done|]. rewrite Hcur.
      apply (frozen_currency _ _ _ Hfrozen). unfold failed_of in Hf. by apply filter_sub in Hf.
  - eapply Forall2_impl; [exact Hnew|]. intros f l (_ & ? & ? & ? & ? & ? & Hd & Hdiff)%replacement_of_keys.
    split_and!; try (done || lia). + rewrite <- Hd. by apply frozen_destination_same. + by exists custody.
Qed.
End Replacement.

(** ** Examples *)

Module ReservationSample.
Import DisbursementSample CryptoSample PayeeSample BatchSample.

(** The two assessed credits of [BatchSample], the driver's verified account and
    a draft of administrator 1. *)
Definition empty_draft : payout_batch :=
  PayoutBatch 60 BATCH_DRAFT "NGN" 0 None None 1 None None None APPROVAL_MANUAL None.
Definition drafted : disbursement_store :=
  set_payees (fun _ => ds_payees with_account)
    (set_batches (fun _ => [empty_draft]) (set_payout (with_lines (fun _ => [])) BatchSample.store)).

(** The payment of credit 40 failed; since then the driver verified another
    account. *)
Definition failed_line : payout_batch_line :=
  line_with (reserved_line 61 60 None (entry 40 30 10 300000) 1 1 300000) LINE_FAILED (Some "T1"%string) false None (Some 800) None.
Definition failed_db : disbursement_store :=
  set_payees (fun _ => ds_payees with_next_account)
    (set_batches (fun _ => [batch_with (freeze_batch_instruction_set empty_draft [failed_line]) BATCH_FAILED None None])
      (set_payout (with_lines (fun _ => [failed_line])) BatchSample.store)).

Definition retrying : result (payout_batch * list payout_batch_line * disbursement_store) :=
  retry_failed_payout_lines no_floats settings [] failed_db 60 1 (@capabilities _ fake_adapter) (Ok next_keyring) "new account".
End ReservationSample.

Section ReservationExamples.
Import DisbursementSample CryptoSample PayeeSample BatchSample ReservationSample.

Lemma sample_reserving : exists b lines db,
  reserve_payout_batch settings [] 700 drafted 60 [40; 41]%N 1 "monthly payout" = Ok ((Some b, lines), db).
Proof.
  assert (Hok : match reserve_payout_batch settings [] 700 drafted 60 [40; 41]%N 1 "monthly payout" with
                | Ok ((Some _, _), _) => true
                | _ => false
                end = true) by (vm_compute; reflexivity).
  destruct (reserve_payout_batch _ _ _ _ _ _ _ _) as [[[[b|] lines] db]|]; try discriminate Hok. by exists b, lines, db.
Qed.

Lemma drafted_ids : ids_ok (ds_payees drafted).
Proof. exact (proj2 sample_ids). Qed.

Lemma drafted_draft : get_batch drafted 60 = Some empty_draft.
Proof. reflexivity. Qed.

Lemma drafted_credits : NoDup (le_id <$> st_ledger drafted).
Proof. apply (bool_decide_unpack _). vm_compute. exact I. Qed.

Lemma drafted_lines : forall l : payout_batch_line, l ∈ st_lines drafted ++ [] -> pl_batch_id l <> 60%N.
Proof. intros l Hl. by apply elem_of_nil in Hl. Qed.

Lemma drafted_status : pb_status empty_draft = BATCH_DRAFT.
Proof. reflexivity. Qed.

Lemma drafted_offsets : request_offsets drafted 60 = [].
Proof. vm_compute. reflexivity. Qed.

Lemma sample_retried : is_ok retrying = true.
Proof. vm_compute. reflexivity. Qed.

Lemma failed_batch : get_batch failed_db 60
  = Some (batch_with (freeze_batch_instruction_set empty_draft [failed_line]) BATCH_FAILED None None).
Proof. reflexivity. Qed.

Lemma failed_children : children failed_db (failed_of (batch_lines failed_db 60)) = [].
Proof. vm_compute. reflexivity. Qed.

Lemma failed_ids : ids_ok (ds_payees failed_db).
Proof.
  change (ids_ok (ds_payees with_next_account)). eapply gr_ids; [|exact (proj2 sample_ids)].
  eapply payee_steps_grow, sample_steps.
Qed.

Lemma failed_batches : forall l : payout_batch_line, l ∈ st_lines failed_db ++ [] -> pl_batch_id l ∈ pb_id <$> ds_batches failed_db.
Proof. intros l Hl. apply list_elem_of_singleton in Hl as ->. by left. Qed.
End ReservationExamples.

Lemma reserved_batch_is_payable_witness :
  exists b lines db, @reserve_payout_batch DisbursementSample.digest FraudSample.fingerprint BatchSample.settings [] 700
      ReservationSample.drafted 60 [40; 41]%N 1 "monthly payout" = Ok ((Some b, lines), db)
    /\ get_batch db 60 = Some b /\ @_assert_frozen DisbursementSample.digest b (batch_lines db 60) = Ok tt.
Proof.
  destruct sample_reserving as (b & lines & db & Hrun). exists b, lines, db. split; [exact Hrun|].
  destruct (@reserved_batch_is_payable DisbursementSample.digest FraudSample.fingerprint BatchSample.settings
              _ _ _ _ _ _ _ _ _ _ _ Hrun drafted_draft drafted_status drafted_offsets drafted_ids drafted_credits drafted_lines)
    as (Hb & _ & Hf & _).
  split; [exact Hb|exact Hf].
Defined.

Lemma reservation_replay_witness :
  exists b lines lines' db, @reserve_payout_batch DisbursementSample.digest FraudSample.fingerprint BatchSample.settings [] 700
      ReservationSample.drafted 60 [40; 41]%N 1 "monthly payout" = Ok ((Some b, lines), db)
    /\ @reserve_payout_batch DisbursementSample.digest FraudSample.fingerprint BatchSample.settings [] 900
         db 60 [40; 41]%N 1 "monthly payout" = Ok ((Some b, lines'), db).
Proof.
  destruct sample_reserving as (b & lines & db & Hrun).
  destruct (@reservation_replay DisbursementSample.digest FraudSample.fingerprint BatchSample.settings
              _ _ _ _ _ _ _ _ _ _ _ Hrun drafted_draft drafted_status drafted_offsets drafted_ids drafted_credits drafted_lines
              [] 900) as (lines' & _ & Hagain).
  exists b, lines, lines', db. split; [exact Hrun|exact Hagain].
Defined.

Import CryptoSample.

Lemma replacement_reaches_new_account_witness :
  exists b lines db, @retry_failed_payout_lines DisbursementSample.digest FraudSample.fingerprint _ local_custody _
      PayeeSample.no_floats BatchSample.settings [] ReservationSample.failed_db 60 1 (@capabilities _ fake_adapter)
      (Ok CryptoSample.next_keyring) "new account" = Ok (b, lines, db)
    /\ get_batch db (pb_id b) = Some b /\ length lines = 1%nat.
Proof.
  pose proof sample_retried as Hok. unfold ReservationSample.retrying in Hok.
  destruct (retry_failed_payout_lines _ _ _ _ _ _ _ _ _) as [[[b lines] db]|e] eqn:Hrun in Hok; [|discriminate Hok].
  exists b, lines, db. split; [exact Hrun|].
  destruct (@replacement_reaches_new_account DisbursementSample.digest FraudSample.fingerprint _ local_custody _
              PayeeSample.no_floats BatchSample.settings _ _ _ _ _ _ _ _ _ _ _ Hrun failed_batch failed_children failed_ids
              failed_batches) as (Hb & _ & _ & Hall).
  split; [exact Hb|]. apply Forall2_length in Hall. rewrite <- Hall. vm_compute. reflexivity.
Defined.
