(* ===== verification/Trueups.v ===== *)
(** True-ups: what a correction order does to a day's pay, to the ledger and to
    the payments in preparation.  A proof file over Corrections. *)

From S2P Require Import Prelude Eligibility PayoutData DailyRate Ledger Balances DayBooks Engine Rules Text BillingData.
From S2P Require Import DisbursementData Fraud Adapters Disbursements Reconciliation Submission PayOnce Books Cash Corrections.
From stdpp Require Import base list strings gmap.
From Stdlib Require Import ZArith QArith Lia.

#[local] Open Scope Z_scope.

Section Trueups.
Context {F : Type} `{PyFloat F} {G : Type}.
Context (st_intersects : string -> G -> bool).
Context (ping_set_digest : list uuid -> string).
Context (inputs_digest : governing_values F -> string -> option Z -> string).
Context (projection_digest : projection_inputs F -> string).

#[local] Abbreviation classify := (classify_daily_rate_trip st_intersects ping_set_digest inputs_digest).
#[local] Abbreviation day_target := (_daily_rate_day_target st_intersects ping_set_digest inputs_digest).
#[local] Abbreviation targets_of := (day_targets st_intersects ping_set_digest inputs_digest).
#[local] Abbreviation compute := (compute_payout_day_targets st_intersects ping_set_digest inputs_digest).

(** ** One trip's target *)

(** A successful target, taken apart. *)
Record target_facts (db : payout_store) (pings : list (location_ping G)) (trip : trip_session)
    (calculation : payout_calculation) (voided : bool) (d credited : Z) (driver : uuid) (t : day_trip_target F)
    (binding : assignment_rule_binding) (classified : daily_rate_classification) : Prop := {
  tf_binding : binding_for_assignment db (trip_assignment_id trip) = Some binding;
  tf_formula : bind_formula_version binding = PAYOUT_V4;
  tf_currency : pc_currency calculation = bind_currency binding;
  tf_classified : classify db pings trip binding = Ok classified;
  tf_position : (tg_distance_m_by_day t, tg_amount_by_day t)
    = if voided || bool_decide (pc_status calculation = BLOCKED) then (∅, ∅)
      else corrected_position d (latest_daily_rate_position db calculation)
             (dict_get (dc_distance_m_by_day classified) d) credited (dc_terms classified);
  tf_posted : _posted_amount_for_trip db (trip_id trip) driver (pc_currency calculation)
              = Ok (tg_previous_posted_amount t);
  tf_target : tg_target_amount t = map_sum (tg_amount_by_day t);
  tf_delta : tg_delta_amount t = day_delta (tg_target_amount t)
               (trip_deductions db (trip_id trip) (pc_currency calculation)) (tg_previous_posted_amount t);
  tf_trip : tg_trip_session_id t = trip_id trip;
  tf_calculation : tg_payout_calculation_id t = pc_id calculation;
  tf_money : tg_currency t = pc_currency calculation
}.

Lemma day_target_facts db pings trip calculation voided d credited driver t :
  day_target db pings trip calculation voided d credited driver = Ok t ->
  exists binding classified, target_facts db pings trip calculation voided d credited driver t binding classified.
Proof.
  unfold _daily_rate_day_target. intros Hrun.
  ok_step Hrun as binding Hb. ok_step Hrun as u1 Hf. ok_step Hrun as u2 Hc. ok_step Hrun as classified Hcl.
  ok_step Hrun as posted Hp. injection Hrun as <-. exists binding, classified.
  apply require_some_Ok in Hb. apply raise_if_Ok in Hf, Hc. bool_prop.
  split; try done. cbn. by rewrite <- surjective_pairing.
Qed.

(** ** The day's pay *)

Lemma corrected_position_day d stored day_distance credited terms :
  let p := corrected_position d stored day_distance credited terms in
  dict_get p.1 d = Z.max 0 day_distance
  /\ dict_get p.2 d = day_pay_naira (credited + Z.max 0 day_distance) terms - day_pay_naira credited terms.
Proof.
  unfold corrected_position, dict_get. destruct (Z.ltb_spec 0 day_distance); cbn.
  - rewrite !lookup_insert_eq. cbn. by rewrite Z.max_r by lia.
  - rewrite !lookup_delete_eq. cbn. rewrite Z.max_l, Z.add_0_r by lia. lia.
Qed.

(** A target adds its distance of the day to what was credited before it and
    takes the increase of the day's pay. *)
Lemma day_target_increment db pings trip calculation voided d credited driver t terms :
  day_target db pings trip calculation voided d credited driver = Ok t ->
  (forall binding, binding_for_assignment db (trip_assignment_id trip) = Some binding ->
     daily_rate_terms binding = Ok terms) ->
  0 <= dict_get (tg_distance_m_by_day t) d
  /\ dict_get (tg_amount_by_day t) d
     = day_pay_naira (credited + dict_get (tg_distance_m_by_day t) d) terms - day_pay_naira credited terms.
Proof.
  intros (binding & classified & Ht)%day_target_facts Hterms.
  pose proof (classify_daily_rate_trip_inv _ _ _ _ _ _ _ _ (tf_classified _ _ _ _ _ _ _ _ _ _ _ Ht)) as [Hcl _].
  rewrite (Hterms _ (tf_binding _ _ _ _ _ _ _ _ _ _ _ Ht)) in Hcl. injection Hcl as Hcl.
  pose proof (tf_position _ _ _ _ _ _ _ _ _ _ _ Ht) as Hp. destruct (voided || _).
  - injection Hp as -> ->. unfold dict_get. rewrite !lookup_empty. cbn. rewrite Z.add_0_r. lia.
  - rewrite <- Hcl in Hp.
    destruct (corrected_position_day d (latest_daily_rate_position db calculation)
                (dict_get (dc_distance_m_by_day classified) d) credited terms) as [H1 H2].
    rewrite <- Hp in H1, H2. cbn in H1, H2. rewrite H1, H2. lia.
Qed.

Lemma day_targets_increments db pings d driver calculations trips credited targets terms :
  targets_of db pings d driver calculations trips credited = Ok targets ->
  (forall trip binding, trip ∈ trips -> binding_for_assignment db (trip_assignment_id trip) = Some binding ->
     daily_rate_terms binding = Ok terms) ->
  0 <= sum_by (fun t => dict_get (tg_distance_m_by_day t) d) targets
  /\ sum_by (fun t => dict_get (tg_amount_by_day t) d) targets
     = day_pay_naira (credited + sum_by (fun t => dict_get (tg_distance_m_by_day t) d) targets) terms
       - day_pay_naira credited terms.
Proof.
  revert credited targets. induction trips as [|trip trips IH]; intros credited targets Hrun Hterms; cbn in Hrun.
  { injection Hrun as <-. rewrite !sum_by_nil, Z.add_0_r. lia. }
  assert (Hrest : forall trip binding, trip ∈ trips -> binding_for_assignment db (trip_assignment_id trip) = Some binding ->
            daily_rate_terms binding = Ok terms) by (intros ? ? ?; apply Hterms; by right).
  destruct (calculations !! trip_id trip) as [calculation|]; [|by apply IH].
  ok_step Hrun as t Ht. ok_step Hrun as rest Hr. injection Hrun as <-.
  apply (day_target_increment _ _ _ _ _ _ _ _ _ terms) in Ht as [Hpos Ht]; [|by intros binding; apply Hterms; left].
  apply IH in Hr as [Hpos' Hr]; [|done]. rewrite !sum_by_cons, Ht, Hr.
  split; [lia|]. rewrite Z.add_assoc. lia.
Qed.

(** C9: However a corrected day is re-measured, its targets price the day as the
    engine does: the amounts the trips take of the day add up to the day's pay
    for the distance they are credited with, which is never more than the daily
    rate. *)
Theorem corrected_day_is_day_pay db pings campaign driver d c terms :
  compute db pings campaign driver d = Ok c -> frozen_terms driver campaign terms db -> terms_ok terms ->
  let metres := sum_by (fun t => dict_get (tg_distance_m_by_day t) d) (cm_trips c) in
  let amount := sum_by (fun t => dict_get (tg_amount_by_day t) d) (cm_trips c) in
  amount = day_pay_naira metres terms /\ 0 <= amount <= daily_rate_naira terms.
Proof.
  intros Hrun [Hterms _] Hok metres amount. unfold compute_payout_day_targets in Hrun.
  ok_step Hrun. ok_step Hrun. ok_step Hrun. ok_step Hrun as targets Ht. injection Hrun as <-. cbn [cm_trips] in metres, amount.
  apply (day_targets_increments _ _ _ _ _ _ _ _ terms) in Ht as [Hpos Ht].
  - rewrite Z.add_0_l in Ht. unfold amount, metres.
    assert (day_pay_naira 0 terms = 0) as Hz by done. rewrite Ht, Hz, Z.sub_0_r. split; [done|].
    by apply day_pay_bounds.
  - intros trip binding Hin. unfold day_trips in Hin. rewrite stable_sort_perm in Hin.
    apply list_elem_of_In, filter_In in Hin as [Hin Hb]. apply list_elem_of_In in Hin. bool_prop.
    unfold overlapping_trip in *. bool_prop. by apply Hterms.
Qed.

(** ** What posting leaves alone *)

(** The tables a measurement reads. *)
Record same_measurement (db db' : payout_store) : Prop := {
  sm_trips : st_trips db' = st_trips db;
  sm_bindings : st_bindings db' = st_bindings db;
  sm_campaigns : st_campaigns db' = st_campaigns db;
  sm_revisions : st_revisions db' = st_revisions db;
  sm_calculations : st_calculations db' = st_calculations db;
  sm_cutoffs : st_cutoffs db' = st_cutoffs db;
  sm_profiles : st_profiles db' = st_profiles db
}.

#[export] Instance same_measurement_preorder : PreOrder same_measurement.
Proof. split; [by split|]. intros ??? [] []. split; congruence. Qed.

(** A step that appends [es] to the ledger, and touches otherwise only lines,
    intents, batches and the audit log. *)
Record appends (es : list ledger_entry) (db db' : disbursement_store) : Prop := {
  ap_measurement : same_measurement db db';
  ap_ledger : st_ledger db' = st_ledger db ++ es;
  ap_orders : st_orders db' = st_orders db;
  ap_billing : ds_billing db' = ds_billing db
}.

Lemma appends_nil db : appends [] db db.
Proof. split; [done|by rewrite app_nil_r|done..]. Qed.

Lemma appends_app es es' db1 db2 db3 : appends es db1 db2 -> appends es' db2 db3 -> appends (es ++ es') db1 db3.
Proof.
  intros [Hm Hl Ho Hb] [Hm' Hl' Ho' Hb']. split; [by etrans|by rewrite Hl', Hl, app_assoc|congruence..].
Qed.

Lemma appends_frame db db' :
  ds_payout db' = ds_payout db -> ds_billing db' = ds_billing db -> appends [] db db'.
Proof. intros Hp Hb. split; [by rewrite Hp|by rewrite Hp, app_nil_r|by rewrite Hp|done]. Qed.

Lemma cancel_line_appends db l i at_ r : _cancel_uncalled_line db l i at_ = Ok r -> appends [] db r.2.
Proof.
  unfold _cancel_uncalled_line. intros Hrun. destruct (_ || _); [injection Hrun as <-; apply appends_nil|].
  destruct i as [i|].
  - destruct (negb _); [injection Hrun as <-; apply appends_nil|].
    ok_step Hrun as db1 Hi. ok_step Hrun as db2 Hl. injection Hrun as <-.
    apply update_intent_Ok in Hi as [-> _]. apply update_line_Ok in Hl as ->. by split; [split|cbn; rewrite app_nil_r|..].
  - ok_step Hrun as db1 Hl. injection Hrun as <-. apply update_line_Ok in Hl as ->.
    by split; [split|cbn; rewrite app_nil_r|..].
Qed.

Lemma cancel_lines_appends db lines at_ db' : cancel_lines db lines at_ = Ok db' -> appends [] db db'.
Proof.
  revert db. induction lines as [|l lines IH]; intros db Hrun; cbn in Hrun; [injection Hrun as <-; apply appends_nil|].
  ok_step Hrun as r Hc. apply cancel_line_appends in Hc. apply (appends_app [] [] _ _ _ Hc). by apply IH.
Qed.

Lemma rederive_batches_appends db batches db' : rederive_batches db batches = Ok db' -> appends [] db db'.
Proof.
  revert db. induction batches as [|b batches IH]; intros db Hrun; cbn in Hrun; [injection Hrun as <-; apply appends_nil|].
  destruct (get_batch db b); [|by apply IH]. ok_step Hrun as db1 Hb. apply update_batch_Ok in Hb as ->.
  eapply (appends_app [] []); [|by apply IH]. by apply appends_frame.
Qed.

Lemma cancel_trip_appends db trip batches at_ db' :
  cancel_uncalled_trip_payouts db trip batches at_ = Ok db' -> appends [] db db'.
Proof.
  unfold cancel_uncalled_trip_payouts. intros Hrun. ok_step Hrun as db1 Hc.
  apply (appends_app [] [] _ db1); [by eapply cancel_lines_appends|by eapply rederive_batches_appends].
Qed.

(** ** What is posted *)

(** The entry a run posts for a target. *)
Definition differential (at_ : Z) (order : option uuid) (c : day_computation F) (t : day_trip_target F)
    (e : ledger_entry) : Prop :=
  exists db profile release_at, e = differential_entry db c profile t at_ order release_at.

(** The entries of a list of targets, each with its computation. *)
Inductive posts (at_ : Z) (order : option uuid) :
    list (day_computation F * day_trip_target F) -> list ledger_entry -> Prop :=
| posts_nil : posts at_ order [] []
| posts_none c t ps es : tg_delta_amount t = 0 -> posts at_ order ps es -> posts at_ order ((c, t) :: ps) es
| posts_entry c t e ps es :
    tg_delta_amount t <> 0 -> differential at_ order c t e -> posts at_ order ps es ->
    posts at_ order ((c, t) :: ps) (e :: es).

Lemma posts_app at_ order ps ps' es es' :
  posts at_ order ps es -> posts at_ order ps' es' -> posts at_ order (ps ++ ps') (es ++ es').
Proof. induction 1; intros; cbn; auto using posts_none, posts_entry. Qed.

Definition with_computation (c : day_computation F) : list (day_computation F * day_trip_target F) :=
  (fun t => (c, t)) <$> cm_trips c.

Lemma flush_appends e (db : disbursement_store) payout :
  flush_ledger_entry e db = Ok payout -> appends [e] db (set_payout (fun _ => payout) db).
Proof. intros ->%flush_ledger_entry_store. by split; [split|..]. Qed.

Lemma write_differential_posts db c profile t at_ order release_at chains o db' :
  write_differential db c profile t at_ order release_at chains = Ok (o, db') ->
  to_target o = t /\ exists es, appends es db db' /\ posts at_ order [(c, t)] es.
Proof.
  unfold write_differential. destruct (Z.eqb_spec (tg_delta_amount t) 0) as [Hz|Hz]; intros Hrun.
  { injection Hrun as <- <-. split; [done|]. exists []. split; [apply appends_nil|by repeat constructor]. }
  ok_step Hrun. ok_step Hrun as payout Hf. ok_step Hrun as db1 Hc. injection Hrun as <- <-. split; [done|].
  exists [differential_entry db c profile t at_ order release_at]. split.
  - apply (appends_app [_] [] _ _ _ (flush_appends _ _ _ Hf)).
    destruct (tg_delta_amount t <? 0); [by eapply cancel_trip_appends|injection Hc as <-; apply appends_nil].
  - constructor; [done| |constructor]. by repeat eexists.
Qed.

Lemma write_differentials_posts db c profile targets at_ order release_at chains outs db' :
  write_differentials db c profile targets at_ order release_at chains = Ok (outs, db') ->
  to_target <$> outs = targets
  /\ exists es, appends es db db' /\ posts at_ order ((fun t => (c, t)) <$> targets) es.
Proof.
  revert db outs. induction targets as [|t targets IH]; intros db outs Hrun; cbn in Hrun.
  { injection Hrun as <- <-. split; [done|]. exists []. split; [apply appends_nil|constructor]. }
  ok_step Hrun as [o db1] Ho. ok_step Hrun as [outs' db2] Hos. injection Hrun as <- <-. cbn in Hos.
  apply write_differential_posts in Ho as (Ht & es & Ha & Hp). apply IH in Hos as (Hts & es' & Ha' & Hp').
  rewrite fmap_cons. cbn. rewrite Ht, Hts. split; [done|]. exists (es ++ es'). split; [by eapply appends_app|].
  by apply (posts_app _ _ [_]).
Qed.

Lemma write_days_posts db computations at_ order release_at chains outs db' :
  write_days db computations at_ order release_at chains = Ok (outs, db') ->
  to_target <$> outs = all_targets computations
  /\ exists es, appends es db db' /\ posts at_ order (computations ≫= with_computation) es.
Proof.
  revert db outs. induction computations as [|c cs IH]; intros db outs Hrun; cbn in Hrun.
  { injection Hrun as <- <-. split; [done|]. exists []. split; [apply appends_nil|constructor]. }
  ok_step Hrun as [os db1] Hos. ok_step Hrun as [outs' db2] Hrest. injection Hrun as <- <-. cbn in Hrest.
  unfold write_day_differentials in Hos. ok_step Hos. ok_step Hos.
  apply write_differentials_posts in Hos as (Ht & es & Ha & Hp). apply IH in Hrest as (Hts & es' & Ha' & Hp').
  unfold all_targets in *. rewrite fmap_app. cbn. rewrite Ht, Hts. split; [done|]. exists (es ++ es').
  split; [by eapply appends_app|]. by apply posts_app.
Qed.

(** ** What is posted for one trip *)

Lemma differential_facts at_ order c t e :
  differential at_ order c t e -> tg_delta_amount t <> 0 ->
  le_trip_session_id e = Some (tg_trip_session_id t) /\ le_driver_profile_id e = cm_driver_profile_id c
  /\ le_currency e = tg_currency t /\ le_status e <> VOIDED /\ le_entry_type e <> TRIP_PAYOUT
  /\ signed_ledger_amount e = tg_delta_amount t /\ is_manual_deduction e = false.
Proof.
  intros (db & profile & release_at & ->) Hd. cbn. split_and!; try reflexivity.
  - unfold differential_status. repeat case_match; try done. bool_prop. done.
  - by destruct (0 <? _).
  - unfold signed_ledger_amount, differential_entry. cbn [le_entry_type le_amount].
    destruct (Z.ltb_spec 0 (tg_delta_amount t));
      [rewrite bool_decide_eq_false_2 by done|rewrite bool_decide_eq_true_2 by done]; lia.
  - unfold is_manual_deduction. cbn. by rewrite andb_false_r.
Qed.

(** The entries that count for a trip. *)
Definition counted_for (i : uuid) (es : list ledger_entry) : list ledger_entry :=
  List.filter (fun e => bool_decide (le_trip_session_id e = Some i) && negb (bool_decide (le_status e = VOIDED))) es.

Lemma posts_other at_ order ps es i :
  posts at_ order ps es -> i ∉ (fun p => tg_trip_session_id p.2) <$> ps -> counted_for i es = [].
Proof.
  induction 1 as [|c t ps es _ _ IH|c t e ps es Hz He _ IH]; intros Hi; [done|..];
    rewrite fmap_cons, not_elem_of_cons in Hi; destruct Hi as [Hne Hi]; [by apply IH|].
  destruct (differential_facts _ _ _ _ _ He Hz) as (Ht & _). unfold counted_for in *. cbn.
  rewrite Ht, bool_decide_eq_false_2 by (intros [= Heq]; by apply Hne). by apply IH.
Qed.

Lemma posts_trip at_ order ps es c t :
  posts at_ order ps es -> NoDup ((fun p => tg_trip_session_id p.2) <$> ps) -> (c, t) ∈ ps ->
  (tg_delta_amount t = 0 /\ counted_for (tg_trip_session_id t) es = [])
  \/ (tg_delta_amount t <> 0 /\ exists e, counted_for (tg_trip_session_id t) es = [e] /\ differential at_ order c t e).
Proof.
  induction 1 as [|c' t' ps es Hz Hps IH|c' t' e ps es Hz He Hps IH]; intros Hnd Hin; [by apply elem_of_nil in Hin|..];
    rewrite fmap_cons in Hnd; apply NoDup_cons in Hnd as [Hnew Hnd]; apply elem_of_cons in Hin as [[= <- <-]|Hin].
  - left. split; [done|]. by eapply posts_other.
  - by apply IH.
  - right. split; [done|]. exists e. split; [|done].
    destruct (differential_facts _ _ _ _ _ He Hz) as (Ht & _ & _ & Hs & _). unfold counted_for. cbn.
    rewrite bool_decide_eq_true_2, bool_decide_eq_false_2 by done. cbn. f_equal. by eapply posts_other.
  - destruct (differential_facts _ _ _ _ _ He Hz) as (Ht & _). unfold counted_for in *. cbn.
    rewrite Ht, bool_decide_eq_false_2; [by apply IH|].
    intros [= Heq]. apply Hnew. cbn. rewrite Heq. apply list_elem_of_fmap. by exists (c, t).
Qed.

(** What is posted for a trip moves by the difference, its deductions stay. *)
Lemma posted_after at_ order es c t db db' posted :
  (tg_delta_amount t = 0 /\ counted_for (tg_trip_session_id t) es = [])
  \/ (tg_delta_amount t <> 0 /\ exists e, counted_for (tg_trip_session_id t) es = [e] /\ differential at_ order c t e) ->
  st_ledger db' = st_ledger db ++ es ->
  _posted_amount_for_trip db (tg_trip_session_id t) (cm_driver_profile_id c) (tg_currency t) = Ok posted ->
  _posted_amount_for_trip db' (tg_trip_session_id t) (cm_driver_profile_id c) (tg_currency t)
    = Ok (posted + tg_delta_amount t)
  /\ trip_deductions db' (tg_trip_session_id t) (tg_currency t) = trip_deductions db (tg_trip_session_id t) (tg_currency t).
Proof.
  intros Hes Hl Hp. unfold _posted_amount_for_trip, trip_deductions, trip_entries in *. rewrite Hl, List.filter_app.
  change (List.filter _ es) with (counted_for (tg_trip_session_id t) es).
  ok_step Hp as u Hc. apply raise_if_Ok in Hc. injection Hp as <-.
  rewrite existsb_app, !List.filter_app, !sum_by_app, Hc.
  destruct Hes as [[Hz ->]|[Hz (e & -> & He)]].
  - cbn [existsb List.filter orb]. by rewrite Hz, !sum_by_nil, !Z.add_0_r.
  - destruct (differential_facts _ _ _ _ _ He Hz) as (_ & Hd & Hcur & _ & _ & Hs & Hm).
    cbn [existsb List.filter]. rewrite Hd, Hcur, Hm, !bool_decide_eq_true_2 by done. cbn [negb orb andb List.filter].
    by rewrite sum_by_cons, !sum_by_nil, Hs, !Z.add_0_r.
Qed.

(** Posting the difference leaves none. *)
Lemma day_delta_settled target deductions posted :
  day_delta target deductions (posted + day_delta target deductions posted) = 0.
Proof.
  unfold day_delta. destruct (Z.eqb_spec (Z.max (target - deductions) 0) 0) as [Hw|Hw]; cbn [andb].
  - destruct (Z.leb_spec posted 0).
    + rewrite Z.add_0_r. by rewrite (proj2 (Z.leb_le posted 0)).
    + rewrite (proj2 (Z.leb_le _ 0)) by lia. done.
  - lia.
Qed.

(** ** Measuring again *)

Lemma classify_same db db' pings trip binding :
  same_measurement db db' -> classify db' pings trip binding = classify db pings trip binding.
Proof.
  intros [_ _ _ Hrev _ Hcut _]. unfold classify_daily_rate_trip, find_revision, payout_time_bounds,
    campaign_financial_cutoff. by rewrite Hrev, Hcut.
Qed.

Lemma corrected_again d stored day_distance credited terms :
  let p := corrected_position d stored day_distance credited terms in
  corrected_position d p day_distance credited terms = p.
Proof.
  unfold corrected_position. destruct (0 <? day_distance); cbn [fst snd].
  - by rewrite !insert_delete_eq, !insert_insert_eq.
  - by rewrite !delete_delete_eq.
Qed.

(** The trip's position and money have been written. *)
Definition settled_trip (db db' : payout_store) (driver : uuid) (calculation : payout_calculation)
    (t : day_trip_target F) : Prop :=
  latest_daily_rate_position db' calculation = (tg_distance_m_by_day t, tg_amount_by_day t)
  /\ _posted_amount_for_trip db' (tg_trip_session_id t) driver (tg_currency t)
     = Ok (tg_previous_posted_amount t + tg_delta_amount t)
  /\ trip_deductions db' (tg_trip_session_id t) (tg_currency t) = trip_deductions db (tg_trip_session_id t) (tg_currency t).

Lemma day_target_again db db' pings trip calculation voided d credited driver t :
  day_target db pings trip calculation voided d credited driver = Ok t -> same_measurement db db' ->
  settled_trip db db' driver calculation t ->
  exists t', day_target db' pings trip calculation voided d credited driver = Ok t'
  /\ tg_distance_m_by_day t' = tg_distance_m_by_day t /\ tg_amount_by_day t' = tg_amount_by_day t
  /\ tg_delta_amount t' = 0.
Proof.
  intros (binding & classified & [Hb Hf Hc Hcl Hp Hpost Htar Hdelta Htrip Hcalc Hcur])%day_target_facts Hsame
    (Hlatest & Hposted & Hded).
  unfold _daily_rate_day_target, binding_for_assignment in *. rewrite (sm_bindings _ _ Hsame), Hb.
  cbn [require_some mbind result_bind].
  rewrite (bool_decide_eq_true_2 (bind_formula_version binding = PAYOUT_V4)),
    (bool_decide_eq_true_2 (pc_currency calculation = bind_currency binding)) by done.
  cbn [negb raise_if mbind result_bind mret result_ret].
  rewrite (classify_same _ _ _ _ _ Hsame), Hcl. cbn [mbind result_bind].
  rewrite Htrip, Hcur in Hposted. rewrite Hposted. cbn [mbind result_bind]. eexists. split; [reflexivity|].
  cbn [tg_distance_m_by_day tg_amount_by_day tg_delta_amount]. rewrite Htrip, Hcur in Hded. rewrite Hded.
  assert (Hpos : (if voided || bool_decide (pc_status calculation = BLOCKED) then (∅, ∅)
      else corrected_position d (latest_daily_rate_position db' calculation)
             (dict_get (dc_distance_m_by_day classified) d) credited (dc_terms classified))
      = (tg_distance_m_by_day t, tg_amount_by_day t)).
  { rewrite Hlatest, Hp. destruct (voided || _); [done|]. apply corrected_again. }
  rewrite Hpos. cbn [fst snd]. split; [done|]. split; [done|].
  rewrite <- Htar, Hdelta. apply day_delta_settled.
Qed.

Lemma day_targets_again db db' pings d driver calculations trips credited targets :
  targets_of db pings d driver calculations trips credited = Ok targets -> same_measurement db db' ->
  (forall trip, trip_payout_entry_for_trip db' trip = trip_payout_entry_for_trip db trip) ->
  (forall t trip calculation, t ∈ targets -> trip ∈ trips -> calculations !! trip_id trip = Some calculation ->
     tg_trip_session_id t = trip_id trip -> tg_payout_calculation_id t = pc_id calculation ->
     _posted_amount_for_trip db (tg_trip_session_id t) driver (tg_currency t) = Ok (tg_previous_posted_amount t) ->
     settled_trip db db' driver calculation t) ->
  exists targets', targets_of db' pings d driver calculations trips credited = Ok targets'
  /\ Forall2 (fun t t' => tg_distance_m_by_day t' = tg_distance_m_by_day t /\ tg_amount_by_day t' = tg_amount_by_day t
                          /\ tg_delta_amount t' = 0) targets targets'.
Proof.
  revert credited targets. induction trips as [|trip trips IH]; intros credited targets Hrun Hsame Hvoid Hset; cbn in Hrun.
  { injection Hrun as <-. by exists []. }
  cbn [day_targets]. destruct (calculations !! trip_id trip) as [calculation|] eqn:Hcalc.
  2: { apply IH; [done..|]. intros t trip' c Ht Hin. apply Hset; [done|by right]. }
  ok_step Hrun as t Ht. ok_step Hrun as rest Hr. injection Hrun as <-. rewrite Hvoid.
  destruct (day_target_facts _ _ _ _ _ _ _ _ _ Ht) as (b & cl & Hfacts).
  destruct (day_target_again _ db' _ _ _ _ _ _ _ _ Ht Hsame) as (t' & Ht' & Hd & Ha & Hz).
  { destruct Hfacts as [_ _ _ _ _ Hposted _ _ Hid Hpid Hcur]. apply (Hset t trip); [by left|by left|done..|].
    by rewrite Hid, Hcur. }
  rewrite Ht'. cbn [mbind result_bind]. rewrite Hd.
  destruct (IH _ _ Hr Hsame Hvoid) as (rest' & Hr' & Hall).
  { intros t0 trip' c Hin Htr. apply Hset; by right. }
  rewrite Hr'. cbn [mbind result_bind]. eexists. split; [reflexivity|]. by constructor.
Qed.

(** ** The recorded position *)

Lemma differential_position at_ order c t e calculation :
  differential at_ order c t e -> tg_payout_calculation_id t = pc_id calculation ->
  entry_position calculation e = Some (at_, (tg_distance_m_by_day t, tg_amount_by_day t)).
Proof.
  intros (db & profile & release_at & ->) Hc. unfold entry_position. cbn.
  by rewrite Hc, !bool_decide_eq_true_2.
Qed.

(** What an executed order records about the trip. *)
Lemma executed_positions order actor at_ (outs : list (trip_outcome F)) calculation t p :
  NoDup (tg_trip_session_id <$> (to_target <$> outs)) -> t ∈ to_target <$> outs ->
  tg_trip_session_id t = pc_trip_session_id calculation -> tg_payout_calculation_id t = pc_id calculation ->
  (p ∈ order_candidates calculation (executed_order order actor at_ outs)
   <-> p = (at_, (tg_distance_m_by_day t, tg_amount_by_day t))).
Proof.
  intros Hnd Ht Htrip Hcalc. unfold order_candidates. cbn [executed_order co_executed_at co_executed_trips].
  assert (Hpos : forall o, to_target o = t ->
            executed_position calculation (executed_trip_of o) = Some (tg_distance_m_by_day t, tg_amount_by_day t)).
  { intros o Ho. unfold executed_position, executed_trip_of. cbn. by rewrite Ho, Htrip, Hcalc, !bool_decide_eq_true_2. }
  split.
  - intros (q & -> & (x & Hx & Hq)%list_elem_of_omap)%list_elem_of_fmap.
    apply list_elem_of_fmap in Hx as (o & -> & Ho).
    assert (to_target o = t) as Heq.
    { unfold executed_position in Hq. cbn in Hq.
      destruct (bool_decide_reflect (tg_trip_session_id (to_target o) = pc_trip_session_id calculation)) as [He|]; [|done].
      apply (nodup_key_inj tg_trip_session_id (to_target <$> outs)); [done| |done|congruence].
      apply list_elem_of_fmap. by exists o. }
    rewrite (Hpos o Heq) in Hq. by injection Hq as <-.
  - intros ->. apply list_elem_of_fmap in Ht as (o & Ho & Hin). apply list_elem_of_fmap. eexists. split; [reflexivity|].
    apply list_elem_of_omap. exists (executed_trip_of o). split; [apply list_elem_of_fmap; by exists o|by apply Hpos].
Qed.

(** The store an executed order leaves, as the positions see it. *)
Record order_executed (db db' : payout_store) (o : payout_correction_order) (actor : uuid) (at_ : Z)
    (computations : list (day_computation F)) (outs : list (trip_outcome F)) (es : list ledger_entry) : Prop := {
  oe_ledger : st_ledger db' = st_ledger db ++ es;
  oe_orders : st_orders db' = set_row co_id (executed_order o actor at_ outs) (st_orders db);
  oe_posts : posts at_ (Some (co_id o)) (computations ≫= with_computation) es;
  oe_targets : to_target <$> outs = all_targets computations;
  oe_order : o ∈ st_orders db;
  oe_trips : NoDup (tg_trip_session_id <$> all_targets computations)
}.

Lemma with_computation_targets (computations : list (day_computation F)) :
  (computations ≫= with_computation).*2 = all_targets computations.
Proof.
  induction computations as [|c cs IH]; [done|]. cbn. unfold all_targets in *. cbn. rewrite fmap_app, IH. f_equal.
  unfold with_computation. rewrite <- list_fmap_compose. apply list_fmap_id.
Qed.

Lemma pair_trips (computations : list (day_computation F)) :
  (fun p => tg_trip_session_id p.2) <$> (computations ≫= with_computation)
  = tg_trip_session_id <$> all_targets computations.
Proof. rewrite <- with_computation_targets, <- list_fmap_compose. done. Qed.

(** The positions after the run: older ones, and the target's own at [at_]. *)
Lemma positions_after db db' o actor at_ computations outs es calculation c t a p :
  order_executed db db' o actor at_ computations outs es ->
  (forall a p, (a, p) ∈ position_candidates db calculation -> a < at_) ->
  (c, t) ∈ computations ≫= with_computation -> tg_trip_session_id t = pc_trip_session_id calculation ->
  tg_payout_calculation_id t = pc_id calculation -> (a, p) ∈ position_candidates db' calculation ->
  a < at_ \/ (a = at_ /\ p = (tg_distance_m_by_day t, tg_amount_by_day t)).
Proof.
  intros [Hl Ho Hposts Houts Hino Hnd] Hold Hin Htrip Hcalc.
  assert (Hint : t ∈ to_target <$> outs)
    by (rewrite Houts, <- with_computation_targets; apply list_elem_of_fmap; by exists (c, t)).
  rewrite <- Houts in Hnd. intros [Hp|Hp]%elem_of_app.
  - apply list_elem_of_omap in Hp as (e & He & Hp). unfold recompute_entries in He.
    rewrite Hl, List.filter_app in He. apply elem_of_app in He as [He|He].
    + left. apply (Hold a p), elem_of_app. left. apply list_elem_of_omap. by exists e.
    + right. apply list_elem_of_In, filter_In in He as [He Hb]. apply list_elem_of_In in He. bool_prop.
      assert (Hc : e ∈ counted_for (tg_trip_session_id t) es).
      { unfold counted_for. rewrite list_elem_of_In, filter_In, <- list_elem_of_In. split; [done|].
        rewrite Htrip. by rewrite bool_decide_eq_true_2, bool_decide_eq_false_2. }
      destruct (posts_trip _ _ _ _ c t Hposts) as [[_ Hn]|[_ (e' & Hn & Hd)]]; [|done|..].
      * by rewrite pair_trips, <- Houts.
      * rewrite Hn in Hc. by apply elem_of_nil in Hc.
      * rewrite Hn in Hc. apply list_elem_of_singleton in Hc as ->.
        rewrite (differential_position _ _ _ _ _ _ Hd Hcalc) in Hp. by injection Hp as <- <-.
  - apply list_elem_of_bind in Hp as (x & Hp & Hx). unfold executed_orders in Hx.
    apply list_elem_of_In, filter_In in Hx as [Hx Hb]. apply list_elem_of_In in Hx. rewrite Ho in Hx.
    apply elem_of_set_row in Hx as [->|[Hx _]].
    + right. apply (executed_positions o actor at_ outs calculation t) in Hp; [|done..]. by injection Hp as -> ->.
    + left. apply (Hold a p), elem_of_app. right. apply list_elem_of_bind. exists x. split; [done|].
      unfold executed_orders. by rewrite list_elem_of_In, filter_In, <- list_elem_of_In.
Qed.

Lemma latest_position_recorded db db' o actor at_ computations outs es calculation c t :
  order_executed db db' o actor at_ computations outs es ->
  (forall a p, (a, p) ∈ position_candidates db calculation -> a < at_) ->
  (c, t) ∈ computations ≫= with_computation -> tg_trip_session_id t = pc_trip_session_id calculation ->
  tg_payout_calculation_id t = pc_id calculation -> co_campaign_id o = pc_campaign_id calculation ->
  latest_daily_rate_position db' calculation = (tg_distance_m_by_day t, tg_amount_by_day t).
Proof.
  intros Hex Hold Hin Htrip Hcalc Hcamp. set (tpos := (_, _)). pose proof Hex as [Hl Ho Hposts Houts Hino Hnd].
  assert (Hint : t ∈ to_target <$> outs)
    by (rewrite Houts, <- with_computation_targets; apply list_elem_of_fmap; by exists (c, t)).
  rewrite <- Houts in Hnd.
  assert (Hnew : (at_, tpos) ∈ position_candidates db' calculation).
  { apply elem_of_app. right. apply list_elem_of_bind. exists (executed_order o actor at_ outs).
    split; [by apply (executed_positions o actor at_ outs calculation t)|].
    unfold executed_orders. rewrite Ho, list_elem_of_In, filter_In, <- list_elem_of_In. cbn.
    rewrite Hcamp, !bool_decide_eq_true_2 by done. split; [|done].
    by apply (elem_of_set_row_same co_id o). }
  destruct (latest_daily_rate_position_invariant db' calculation) as [[a|] Hn]; unfold newest_of in Hn; cbn in Hn.
  - destruct Hn as [Hm Hmax].
    destruct (positions_after _ _ _ _ _ _ _ _ _ _ _ _ _ Hex Hold Hin Htrip Hcalc Hm) as [Hlt|[_ ?]]; [|done].
    specialize (Hmax _ _ Hnew). lia.
  - destruct Hn as [Hn _]. rewrite Hn in Hnew. by apply elem_of_nil in Hnew.
Qed.

(** ** A whole projection *)

#[local] Abbreviation project := (project_campaign_day st_intersects ping_set_digest inputs_digest projection_digest).

Lemma latest_by_trip_lookup rows i calculation :
  latest_by_trip rows !! i = Some calculation -> calculation ∈ rows /\ pc_trip_session_id calculation = i.
Proof.
  unfold latest_by_trip. enough (Hgen : forall m : gmap uuid payout_calculation, foldl (fun m c => <[pc_trip_session_id c := c]> m) m rows !! i = Some calculation ->
    (calculation ∈ rows /\ pc_trip_session_id calculation = i) \/ m !! i = Some calculation).
  { intros Hl. destruct (Hgen _ Hl) as [?|He]; [done|]. by rewrite lookup_empty in He. }
  induction rows as [|c rows IH]; intros m Hl; cbn in Hl; [by right|].
  apply IH in Hl as [[Hin Hi]|Hl]; [left; split; [by right|done]|].
  destruct (decide (pc_trip_session_id c = i)) as [<-|Hne].
  - rewrite lookup_insert_eq in Hl. injection Hl as <-. left. split; [by left|done].
  - rewrite lookup_insert_ne in Hl by done. by right.
Qed.

Lemma day_trips_in db campaign driver d trip :
  trip ∈ day_trips db campaign driver d -> trip ∈ st_trips db /\ trip_driver_profile_id trip = driver
  /\ trip_campaign_id trip = campaign.
Proof.
  unfold day_trips. rewrite stable_sort_perm, list_elem_of_In, filter_In, <- list_elem_of_In. intros [Hin Hb].
  bool_prop. unfold overlapping_trip in *. by bool_prop.
Qed.

(** Each target is of one of the trips, in their order. *)
Lemma targets_sublist db pings d driver calculations trips credited targets :
  targets_of db pings d driver calculations trips credited = Ok targets ->
  (tg_trip_session_id <$> targets) `sublist_of` (trip_id <$> trips).
Proof.
  revert credited targets. induction trips as [|trip trips IH]; intros credited targets Hrun; cbn in Hrun.
  { by injection Hrun as <-. }
  rewrite (fmap_cons trip_id). destruct (calculations !! trip_id trip) as [calculation|].
  - ok_step Hrun as t Ht. ok_step Hrun as rest Hr. injection Hrun as <-. rewrite fmap_cons.
    apply day_target_facts in Ht as (b & cl & Ht). rewrite (tf_trip _ _ _ _ _ _ _ _ _ _ _ Ht).
    apply sublist_skip. by eapply IH.
  - apply sublist_cons. by eapply IH.
Qed.

Lemma compute_facts db pings campaign driver d c :
  compute db pings campaign driver d = Ok c ->
  cm_driver_profile_id c = driver /\ cm_lagos_date c = d
  /\ targets_of db pings d driver (day_calculations db (day_trips db campaign driver d))
       (day_trips db campaign driver d) 0 = Ok (cm_trips c).
Proof.
  unfold compute_payout_day_targets. intros Hrun. do 3 ok_step Hrun. ok_step Hrun as targets Ht.
  by injection Hrun as <-.
Qed.

Lemma targets_in db pings campaign driver d c t :
  compute db pings campaign driver d = Ok c -> t ∈ cm_trips c ->
  exists trip, trip ∈ st_trips db /\ trip_driver_profile_id trip = driver /\ trip_id trip = tg_trip_session_id t.
Proof.
  intros (_ & _ & Hsub%targets_sublist)%compute_facts Ht.
  assert (Hin : tg_trip_session_id t ∈ trip_id <$> day_trips db campaign driver d).
  { eapply elem_of_submseteq; [|by apply sublist_submseteq]. apply list_elem_of_fmap. by exists t. }
  apply list_elem_of_fmap in Hin as (trip & Hid & Hin). apply day_trips_in in Hin as (Hin & Hd & _). by exists trip.
Qed.

Lemma compute_drivers_all db pings campaign d drivers cs :
  compute_drivers st_intersects ping_set_digest inputs_digest db pings campaign d drivers = Ok cs <->
  Forall2 (fun driver c => compute db pings campaign driver d = Ok c) drivers cs.
Proof.
  revert cs. induction drivers as [|driver drivers IH]; intros cs; cbn; split; intros Hrun.
  - by injection Hrun as <-.
  - by inversion Hrun.
  - ok_step Hrun as c Hc. ok_step Hrun as cs' Hcs. injection Hrun as <-. constructor; [done|by apply IH].
  - inversion Hrun as [|? c ? cs' Hc Hcs]; subst. rewrite Hc. apply IH in Hcs. cbn [mbind result_bind]. by rewrite Hcs.
Qed.

(** A trip is corrected once: its driver's computation has it, and no other. *)
Lemma all_targets_nodup db pings campaign d drivers cs :
  Forall2 (fun driver c => compute db pings campaign driver d = Ok c) drivers cs -> NoDup drivers ->
  NoDup (trip_id <$> st_trips db) -> NoDup (tg_trip_session_id <$> all_targets cs).
Proof.
  intros Hall Hnd Htrips. induction Hall as [|driver c drivers cs Hc Hcs IH]; [constructor|].
  apply NoDup_cons in Hnd as [Hnew Hnd]. unfold all_targets in *. cbn. rewrite fmap_app. apply NoDup_app. split_and!.
  - apply compute_facts in Hc as (_ & _ & Hsub%targets_sublist). eapply sublist_NoDup; [|exact Hsub].
    unfold day_trips. rewrite stable_sort_perm. by apply NoDup_fmap_filter.
  - intros i (t & -> & Ht)%list_elem_of_fmap (t' & Hi & Ht')%list_elem_of_fmap.
    apply (targets_in _ _ _ _ _ _ _ Hc) in Ht as (trip & Hin & Hd & Hid).
    apply list_elem_of_join in Ht' as (ts & Ht' & (c' & -> & Hc')%list_elem_of_fmap).
    destruct (Forall2_in_r _ _ _ _ Hcs Hc') as (driver' & Hdr & Hrun).
    apply (targets_in _ _ _ _ _ _ _ Hrun) in Ht' as (trip' & Hin' & Hd' & Hid').
    assert (trip = trip') as <- by (apply (nodup_key_inj trip_id (st_trips db)); [done..|congruence]).
    apply Hnew. congruence.
  - by apply IH.
Qed.

Lemma posts_no_payout at_ order ps es e : posts at_ order ps es -> e ∈ es -> le_entry_type e <> TRIP_PAYOUT.
Proof.
  induction 1 as [|c t ps es Hz Hps IH|c t e' ps es Hz He Hps IH]; intros Hin; [by apply elem_of_nil in Hin|by apply IH|].
  apply elem_of_cons in Hin as [->|Hin]; [|by apply IH]. by apply (differential_facts _ _ _ _ _ He Hz).
Qed.

Lemma payout_entry_same db db' es trip :
  st_ledger db' = st_ledger db ++ es -> (forall e, e ∈ es -> le_entry_type e <> TRIP_PAYOUT) ->
  trip_payout_entry_for_trip db' trip = trip_payout_entry_for_trip db trip.
Proof.
  intros Hl Hes. unfold trip_payout_entry_for_trip. rewrite Hl.
  destruct (find_row _ (st_ledger db)) as [e|] eqn:Hf; [by rewrite (find_row_prefix _ _ _ _ (prefix_app_r _ _ _ (reflexivity _)) Hf)|].
  destruct (find_row _ (_ ++ _)) as [e|] eqn:Hf'; [|done]. apply find_row_Some in Hf' as [Hin Hb].
  apply elem_of_app in Hin as [Hin|Hin].
  - eapply find_row_None in Hf; [|exact Hin]. congruence.
  - apply Hes in Hin. bool_prop. done.
Qed.

(** A calculation belongs to its trip's campaign. *)
Definition calculations_placed (db : payout_store) : Prop :=
  forall calculation trip, calculation ∈ st_calculations db -> trip ∈ st_trips db ->
    pc_trip_session_id calculation = trip_id trip -> pc_campaign_id calculation = trip_campaign_id trip.

(** Every recorded position is older than [at_]. *)
Definition positions_before (db : payout_store) (at_ : Z) : Prop :=
  forall calculation a p, calculation ∈ st_calculations db -> (a, p) ∈ position_candidates db calculation -> a < at_.

Lemma same_day db db' campaign driver d :
  same_measurement db db' ->
  day_trips db' campaign driver d = day_trips db campaign driver d
  /\ (forall trips, day_calculations db' trips = day_calculations db trips)
  /\ get_campaign db' campaign = get_campaign db campaign
  /\ _affected_driver_ids db' campaign d = _affected_driver_ids db campaign d.
Proof.
  intros [Ht _ Hc _ Hcalc _ _]. unfold day_trips, day_calculations, get_campaign, _affected_driver_ids.
  by rewrite Ht, Hc, Hcalc.
Qed.

(** A target of an executed order is settled. *)
Lemma settled_target db db' o actor at_ computations outs es c trip calculation t :
  order_executed db db' o actor at_ computations outs es -> c ∈ computations -> t ∈ cm_trips c ->
  calculations_placed db -> positions_before db at_ ->
  trip ∈ st_trips db -> trip_campaign_id trip = co_campaign_id o ->
  calculation ∈ st_calculations db -> pc_trip_session_id calculation = trip_id trip ->
  tg_trip_session_id t = trip_id trip -> tg_payout_calculation_id t = pc_id calculation ->
  _posted_amount_for_trip db (tg_trip_session_id t) (cm_driver_profile_id c) (tg_currency t)
    = Ok (tg_previous_posted_amount t) ->
  settled_trip db db' (cm_driver_profile_id c) calculation t.
Proof.
  intros Hexec Hc Ht Hplaced Hbefore Htrip Hcamp Hcalc Hpc Hid Hpid Hposted.
  assert (Hin : (c, t) ∈ computations ≫= with_computation).
  { apply list_elem_of_bind. exists c. split; [|done]. apply list_elem_of_fmap. by exists t. }
  split.
  - eapply latest_position_recorded; [exact Hexec| |exact Hin|congruence|done|].
    + intros a p. by apply Hbefore.
    + rewrite (Hplaced calculation trip) by done. congruence.
  - eapply posted_after; [|by apply Hexec|exact Hposted].
    eapply posts_trip; [by apply Hexec| |exact Hin]. rewrite pair_trips. by apply Hexec.
Qed.

Lemma compute_again db db' pings d o actor at_ computations outs es driver c :
  compute db pings (co_campaign_id o) driver d = Ok c -> c ∈ computations ->
  order_executed db db' o actor at_ computations outs es -> same_measurement db db' ->
  calculations_placed db -> positions_before db at_ ->
  exists c', compute db' pings (co_campaign_id o) driver d = Ok c'
  /\ Forall2 (fun t t' => tg_amount_by_day t' = tg_amount_by_day t /\ tg_delta_amount t' = 0) (cm_trips c) (cm_trips c').
Proof.
  intros Hrun Hin Hexec Hsame Hplaced Hbefore. pose proof (compute_facts _ _ _ _ _ _ Hrun) as (Hdr & _ & Ht).
  destruct (day_targets_again _ db' _ _ _ _ _ _ _ Ht Hsame) as (targets' & Ht' & Hall).
  - intros trip. eapply payout_entry_same; [by apply Hexec|]. intros e. eapply posts_no_payout. by apply Hexec.
  - intros t trip calculation Htin Htrip Hcalc Hid Hpc Hposted. apply day_trips_in in Htrip as (Htrip & _ & Hcamp).
    apply latest_by_trip_lookup in Hcalc as [Hcalc Hpct]. rewrite stable_sort_perm in Hcalc.
    apply list_elem_of_In, filter_In in Hcalc as [Hcalc _]. apply list_elem_of_In in Hcalc. rewrite <- Hdr.
    by apply (settled_target _ _ _ _ _ _ _ _ c trip calculation t Hexec); rewrite ?Hdr.
  - destruct (same_day _ _ (co_campaign_id o) driver d Hsame) as (Htr & Hca & Hget & _).
    unfold compute_payout_day_targets in *. rewrite Hget, Htr, Hca.
    ok_step Hrun as u Hu. ok_step Hrun as u1 Hu1. ok_step Hrun as u2 Hu2. ok_step Hrun as targets Ht0.
    injection Hrun as <-. rewrite Hu. cbn [mbind result_bind]. rewrite Hu1. cbn [mbind result_bind]. rewrite Hu2.
    cbn [mbind result_bind]. rewrite Ht'. eexists. split; [reflexivity|]. cbn [cm_trips] in *.
    eapply Forall2_impl; [exact Hall|]. by intros t t' (_ & ? & ?).
Qed.

Lemma project_facts db pings campaign d p :
  project db pings campaign d = Ok p ->
  Forall2 (fun driver c => compute db pings campaign driver d = Ok c) (_affected_driver_ids db campaign d)
    (cp_computations p).
Proof.
  unfold project_campaign_day. intros Hrun. ok_step Hrun. ok_step Hrun as cs Hcs. injection Hrun as <-.
  by apply compute_drivers_all.
Qed.

Lemma compute_all_again db db' pings d o actor at_ computations outs es drivers cs :
  Forall2 (fun driver c => compute db pings (co_campaign_id o) driver d = Ok c) drivers cs ->
  (forall c, c ∈ cs -> c ∈ computations) ->
  order_executed db db' o actor at_ computations outs es -> same_measurement db db' ->
  calculations_placed db -> positions_before db at_ ->
  exists cs', Forall2 (fun driver c => compute db' pings (co_campaign_id o) driver d = Ok c) drivers cs'
  /\ Forall2 (fun t t' => tg_amount_by_day t' = tg_amount_by_day t /\ tg_delta_amount t' = 0)
       (all_targets cs) (all_targets cs').
Proof.
  intros Hall Hin Hexec Hsame Hplaced Hbefore.
  induction Hall as [|driver c drivers cs Hc Hcs IH]; [by exists []|].
  destruct (compute_again _ _ _ _ _ _ _ _ _ _ _ _ Hc (Hin c (list_elem_of_here _ _)) Hexec Hsame Hplaced Hbefore)
    as (c' & Hc' & Hrel).
  destruct IH as (cs' & Hcs' & Hrels); [intros c0 Hc0; apply Hin; by right|].
  exists (c' :: cs'). split; [by constructor|]. unfold all_targets in *. cbn. by apply Forall2_app.
Qed.

Lemma project_again db db' pings d o actor at_ p outs es :
  project db pings (co_campaign_id o) d = Ok p ->
  order_executed db db' o actor at_ (cp_computations p) outs es -> same_measurement db db' ->
  calculations_placed db -> positions_before db at_ ->
  exists p', project db' pings (co_campaign_id o) d = Ok p'
  /\ Forall2 (fun t t' => tg_amount_by_day t' = tg_amount_by_day t /\ tg_delta_amount t' = 0)
       (all_targets (cp_computations p)) (all_targets (cp_computations p')).
Proof.
  intros Hrun Hexec Hsame Hplaced Hbefore. pose proof (project_facts _ _ _ _ _ Hrun) as Hall.
  destruct (same_day _ _ (co_campaign_id o) 0%N d Hsame) as (_ & _ & Hget & Hdrivers).
  destruct (compute_all_again _ _ _ _ _ _ _ _ _ _ _ _ Hall (fun c Hc => Hc) Hexec Hsame Hplaced Hbefore)
    as (cs' & Hcs' & Hrel).
  unfold project_campaign_day in *. rewrite Hget, Hdrivers.
  ok_step Hrun as k Hk. rewrite Hk. cbn [mbind result_bind]. apply compute_drivers_all in Hcs'. rewrite Hcs'.
  cbn [mbind result_bind]. eexists. by split.
Qed.

(** ** Approving an order *)

#[local] Abbreviation approve :=
  (approve_correction_order st_intersects ping_set_digest inputs_digest projection_digest).

(** An order applied now, taken apart. *)
Record applied (db db' : disbursement_store) (pings : list (location_ping G)) (i actor : uuid) (at_ : Z)
    (o o' : payout_correction_order) (p : campaign_day_projection) (outs : list (trip_outcome F))
    (es : list ledger_entry) : Prop := {
  apl_found : get_correction_order db i = Ok o;
  apl_draft : co_status o = DRAFT;
  apl_projected : project db pings (co_campaign_id o) (co_lagos_day o) = Ok p;
  apl_fingerprint : Some (cp_fingerprint p) = co_projection_fingerprint o;
  apl_order : o' = executed_order o actor at_ outs;
  apl_measurement : same_measurement db db';
  apl_billing : ds_billing db' = ds_billing db;
  apl_ledger : st_ledger db' = st_ledger db ++ es;
  apl_orders : st_orders db' = set_row co_id o' (st_orders db);
  apl_posts : posts at_ (Some (co_id o)) (cp_computations p ≫= with_computation) es;
  apl_targets : to_target <$> outs = all_targets (cp_computations p);
  apl_written : exists release_at db1,
    write_days db (cp_computations p) at_ (Some (co_id o)) release_at
      (lock_payout_chains db (tg_trip_session_id <$> all_targets (cp_computations p))) = Ok (outs, db1)
    /\ ds_batches db' = ds_batches db1 /\ st_lines db' = st_lines db1
}.

Lemma approve_applied db pings i actor release_at reason at_ db' o' :
  approve db pings i actor release_at reason at_ = (db', Ok (o', true)) ->
  exists o p outs es, applied db db' pings i actor at_ o o' p outs es.
Proof.
  unfold approve_correction_order. destruct (admit_order db i actor reason) as [o|e] eqn:Ha; [|done].
  unfold admit_order in Ha. ok_step Ha. ok_step Ha. ok_step Ha as o0 Ho. ok_step Ha as u Hs. injection Ha as ->.
  apply raise_if_Ok, bool_decide_eq_false in Hs.
  destruct (bool_decide_reflect (co_status o = EXECUTED)) as [|Hne]; [done|].
  destruct (project_campaign_day _ _ _ _ _ _ _ _) as [p|e] eqn:Hp; [|done].
  destruct (bool_decide_reflect (Some (cp_fingerprint p) = co_projection_fingerprint o)) as [Hf|]; cbn [negb]; [|done].
  destruct (execute_order db o p actor release_at at_) as [[o1 db1]|e] eqn:Hx; [|done].
  intros [= -> ->]. unfold execute_order in Hx. ok_step Hx. ok_step Hx. ok_step Hx as [outs db2] Hw. injection Hx as <- <-.
  pose proof Hw as (Ht & es & [Hm Hl Hord Hb] & Hps)%write_days_posts. exists o, p, outs, es. split; try done.
  - by destruct (co_status o).
  - by destruct Hm; split.
  - cbn. by rewrite Hord.
  - by exists release_at, db2.
Qed.

Lemma posts_sum at_ order ps es :
  posts at_ order ps es -> sum_by signed_ledger_amount es = sum_by tg_delta_amount ps.*2.
Proof.
  induction 1 as [|c t ps es Hz _ IH|c t e ps es Hz He _ IH]; [done|..]; rewrite fmap_cons, ?sum_by_cons; cbn [snd].
  - lia.
  - destruct (differential_facts _ _ _ _ _ He Hz) as (_ & _ & _ & _ & _ & Hs & _). lia.
Qed.

(** C8: An approved order settles its day, once and for all.  It applies the
    projection it was approved for: the entries it appends, and nothing else,
    move what is posted by the projected total; and when the same pings are
    measured again, every trip of the day is priced as the order priced it and
    nothing is left to post. *)
Theorem approved_order_settles_day db pings i actor release_at reason at_ db' o' :
  approve db pings i actor release_at reason at_ = (db', Ok (o', true)) ->
  NoDup (trip_id <$> st_trips db) -> calculations_placed db -> positions_before db at_ ->
  exists p es p', project db pings (co_campaign_id o') (co_lagos_day o') = Ok p
  /\ Some (cp_fingerprint p) = co_projection_fingerprint o'
  /\ st_ledger db' = st_ledger db ++ es
  /\ sum_by signed_ledger_amount es = jd_delta_amount (cp_projected_delta p)
  /\ project db' pings (co_campaign_id o') (co_lagos_day o') = Ok p'
  /\ Forall2 (fun t t' => tg_amount_by_day t' = tg_amount_by_day t /\ tg_delta_amount t' = 0)
       (all_targets (cp_computations p)) (all_targets (cp_computations p')).
Proof.
  intros (o & p & outs & es & Happ)%approve_applied Hnd Hplaced Hbefore.
  destruct Happ as [Hf Hdraft Hp Hfp -> Hm Hb Hl Hord Hps Ht _]. cbn [executed_order co_campaign_id co_lagos_day
    co_projection_fingerprint].
  assert (Hexec : order_executed db db' o actor at_ (cp_computations p) outs es).
  { split; try done.
    - apply require_some_Ok, find_by_key_Some in Hf. tauto.
    - eapply all_targets_nodup; [by apply (project_facts _ _ _ _ _ Hp)| |done]. apply sorted_ids_nodup. }
  destruct (project_again _ _ _ _ _ _ _ _ _ _ Hp Hexec Hm Hplaced Hbefore) as (p' & Hp' & Hrel).
  exists p, es, p'. split_and!; try done.
  rewrite (posts_sum _ _ _ _ Hps), with_computation_targets. unfold project_campaign_day in Hp.
  ok_step Hp. ok_step Hp as cs Hcs. by injection Hp as <-.
Qed.

(** Approving an order that is decided. *)
Lemma approve_decided (db : disbursement_store) pings i actor release_at reason at_ o r :
  get_correction_order db i = Ok o -> co_status o <> DRAFT -> active_admin db actor = Ok tt -> _reason reason = Ok r ->
  approve db pings i actor release_at reason at_
  = (db, match co_status o with
         | EXECUTED => Ok (o, false)
         | _ => Raise (AppError "CORRECTION_ORDER_INVALID_STATE" 409)
         end).
Proof.
  intros Ho Hs Hadmin Hr. unfold approve_correction_order, admit_order. rewrite Hadmin. cbn [mbind result_bind].
  rewrite Hr. cbn [mbind result_bind]. rewrite Ho. cbn [mbind result_bind]. destruct (co_status o) eqn:He; [by destruct Hs|..].
  - rewrite (bool_decide_eq_false_2 (EXECUTED = STALE)) by done. cbn [raise_if mbind result_bind mret result_ret].
    by rewrite He, bool_decide_eq_true_2.
  - by rewrite bool_decide_eq_true_2.
Qed.

(** Approving a draft whose day can be projected. *)
Lemma approve_draft (db : disbursement_store) pings i actor release_at reason at_ o r p :
  get_correction_order db i = Ok o -> co_status o = DRAFT -> active_admin db actor = Ok tt -> _reason reason = Ok r ->
  project db pings (co_campaign_id o) (co_lagos_day o) = Ok p ->
  approve db pings i actor release_at reason at_
  = if negb (bool_decide (Some (cp_fingerprint p) = co_projection_fingerprint o))
    then (_mark_stale db o actor at_, Raise correction_order_stale)
    else match execute_order db o p actor release_at at_ with
         | Ok (executed, db') => (db', Ok (executed, true))
         | Raise e => (db, Raise e)
         end.
Proof.
  intros Ho Hs Hadmin Hr Hp. unfold approve_correction_order, admit_order. rewrite Hadmin. cbn [mbind result_bind].
  rewrite Hr. cbn [mbind result_bind]. rewrite Ho. cbn [mbind result_bind]. rewrite Hs.
  rewrite !bool_decide_eq_false_2 by done. cbn [raise_if mbind result_bind mret result_ret]. rewrite Hs, Hp.
  by rewrite (bool_decide_eq_false_2 (DRAFT = EXECUTED)).
Qed.

Lemma decided_order (db : disbursement_store) (f : disbursement_store -> disbursement_store) i o o' :
  get_correction_order db i = Ok o -> co_id o' = co_id o -> st_orders (f db) = set_row co_id o' (st_orders db) ->
  get_correction_order (f db) i = Ok o'.
Proof.
  unfold get_correction_order. intros Ho Hid Hf. apply require_some_Ok in Ho. rewrite Hf.
  apply require_some_Ok, find_set_row_same with o; [done|]. apply find_by_key_Some in Ho as [_ <-]. done.
Qed.

(** An order is decided once.  When it has been applied, every later
    approval, on whatever measurements, answers the order as it was recorded and
    changes nothing; when its projection no longer holds, it is refused, now and
    ever after, and nothing is posted. *)
Theorem order_decided_once (db : disbursement_store) pings i actor release_at reason at_ o p r :
  get_correction_order db i = Ok o -> co_status o <> STALE -> active_admin db actor = Ok tt -> _reason reason = Ok r ->
  project db pings (co_campaign_id o) (co_lagos_day o) = Ok p ->
  forall pings' actor' release_at' reason' at' r', _reason reason' = Ok r' ->
  let run := approve db pings i actor release_at reason at_ in
  let again := approve run.1 pings' i actor' release_at' reason' at' in
  active_admin run.1 actor' = Ok tt ->
  (forall o' b, run.2 = Ok (o', b) -> again = (run.1, Ok (o', false)))
  /\ (co_status o = DRAFT -> Some (cp_fingerprint p) <> co_projection_fingerprint o ->
      run.2 = Raise correction_order_stale /\ st_ledger run.1 = st_ledger db
      /\ again = (run.1, Raise (AppError "CORRECTION_ORDER_INVALID_STATE" 409))).
Proof.
  intros Ho Hstale Hadmin Hr Hp pings' actor' release_at' reason' at' r' Hr' run again Hadmin'. split.
  - intros o' b Hout. assert (Hdone : get_correction_order run.1 i = Ok o' /\ co_status o' = EXECUTED).
    { destruct b.
      - destruct (approve_applied db pings i actor release_at reason at_ run.1 o') as (o0 & p0 & outs & es & Happ).
        { fold run. rewrite <- Hout. by destruct run. }
        destruct Happ as [Hf _ _ _ -> _ _ _ Hord _ _ _]. rewrite Ho in Hf. injection Hf as <-. split; [|done].
        by apply (decided_order db (fun _ => run.1) i o).
      - destruct (decide (co_status o = EXECUTED)) as [He|He].
        + subst run. rewrite (approve_decided _ _ _ _ _ _ _ _ _ Ho) in * by (done || by rewrite He).
          rewrite He in *. cbn in *. by injection Hout as <-.
        + exfalso. subst run. assert (Hdraft : co_status o = DRAFT) by by destruct (co_status o).
          rewrite (approve_draft _ _ _ _ _ _ _ _ _ _ Ho Hdraft Hadmin Hr Hp) in Hout.
          destruct (negb _); [done|]. by destruct (execute_order _ _ _ _ _ _) as [[]|]. }
    destruct Hdone as [Hdone He]. subst again. rewrite (approve_decided _ _ _ _ _ _ _ _ _ Hdone) by (done || by rewrite He).
    by rewrite He.
  - intros Hdraft Hf.
    assert (Hrun : run = (_mark_stale db o actor at_, Raise correction_order_stale)).
    { subst run. rewrite (approve_draft _ _ _ _ _ _ _ _ _ _ Ho Hdraft Hadmin Hr Hp). by rewrite bool_decide_eq_false_2. }
    subst again. rewrite Hrun in *. cbn [fst snd] in *. split; [done|]. split; [done|].
    assert (Ho' : get_correction_order (_mark_stale db o actor at_) i = Ok (stale_order o at_))
      by by apply (decided_order db (fun db => _mark_stale db o actor at_) i o).
    by apply (approve_decided _ _ _ _ _ _ _ _ r' Ho').
Qed.

(** ** Batches of other trips *)

(** The lines of batch [i] are what they were, and its row stays until a trip of
    the chains is reversed, when it becomes reconciled. *)
Definition batch_after (reversed : bool) (i : uuid) (b : payout_batch) (db db' : disbursement_store) : Prop :=
  batch_lines db' i = batch_lines db i /\ pl_id <$> st_lines db' = pl_id <$> st_lines db
  /\ exists b', get_batch db' i = Some b' /\ if reversed then pb_status b' = BATCH_RECONCILED else b' = b.

Lemma set_row_filter {A} (key : A -> uuid) (p : A -> bool) row l :
  NoDup (key <$> l) -> (exists x, x ∈ l /\ key x = key row /\ p x = false) -> p row = false ->
  List.filter p (set_row key row l) = List.filter p l.
Proof.
  intros Hnd (x & Hx & Hk & Hp) Hrow.
  assert (Hall : forall y, y ∈ l -> key y = key row -> p y = false).
  { intros y Hy Hky. replace y with x; [done|]. apply (nodup_key_inj key l); congruence. }
  clear Hnd Hx. induction l as [|y l IH]; [done|]. rewrite set_row_cons. cbn.
  assert (IH' : List.filter p (set_row key row l) = List.filter p l) by (apply IH; intros z Hz; apply Hall; by right).
  destruct (bool_decide_reflect (key y = key row)) as [He|]; rewrite IH'; [|done].
  by rewrite Hrow, (Hall y (list_elem_of_here _ _) He).
Qed.

Lemma cancel_lines_elsewhere db lines at_ db' i :
  cancel_lines db lines at_ = Ok db' -> NoDup (pl_id <$> st_lines db) ->
  (forall l, l ∈ lines -> exists x, x ∈ st_lines db /\ pl_id x = pl_id l /\ pl_batch_id x <> i) ->
  (forall l, l ∈ lines -> pl_batch_id l <> i) ->
  batch_lines db' i = batch_lines db i /\ pl_id <$> st_lines db' = pl_id <$> st_lines db
  /\ ds_batches db' = ds_batches db.
Proof.
  revert db. induction lines as [|l lines IH]; intros db Hrun Hnd Hin Hout; cbn in Hrun; [by injection Hrun as <-|].
  ok_step Hrun as r Hc.
  assert (Hb : ds_batches r.2 = ds_batches db).
  { unfold _cancel_uncalled_line in Hc. destruct (_ || _); [by injection Hc as <-|]. destruct (line_intent _ _) as [x|].
    - destruct (negb _); [by injection Hc as <-|]. ok_step Hc as db1 Hi. ok_step Hc as db2 Hl. injection Hc as <-.
      apply update_intent_Ok in Hi as [-> _]. by apply update_line_Ok in Hl as ->.
    - ok_step Hc as db1 Hl. injection Hc as <-. by apply update_line_Ok in Hl as ->. }
  assert (Hstep : List.filter (fun l => bool_decide (pl_batch_id l = i)) (st_lines r.2)
      = List.filter (fun l => bool_decide (pl_batch_id l = i)) (st_lines db)
    /\ pl_id <$> st_lines r.2 = pl_id <$> st_lines db).
  { apply cancel_uncalled_line_lines in Hc as [->| ->]; [done|]. split; [|apply set_row_keys].
    apply set_row_filter; [done| |apply bool_decide_eq_false_2; apply (Hout l); by left].
    destruct (Hin l (list_elem_of_here _ _)) as (x & Hx & Hid & Hb'). exists x. by rewrite bool_decide_eq_false_2. }
  destruct Hstep as [Hf Hids].
  apply IH in Hrun as (H1 & H2 & H3); [|by rewrite Hids| |intros; apply Hout; by right].
  - unfold batch_lines in *. rewrite H1, Hf, H2, H3. by rewrite Hids, Hb.
  - intros k Hk. destruct (Hin k (list_elem_of_further _ _ _ Hk)) as (x & Hx & Hid & Hbx).
    apply cancel_uncalled_line_lines in Hc as [->| ->]; [by exists x|].
    destruct (decide (pl_id x = pl_id l)) as [He|He].
    + exists (voided_line l at_). split; [by apply (elem_of_set_row_same pl_id x)|]. split; [cbn; congruence|].
      apply (Hout l). by left.
    + exists x. split; [by apply elem_of_set_row_other|done].
Qed.

(** A batch in preparation: its lines are reserved, for credits of the ledger. *)
Record prepared (db : disbursement_store) (i : uuid) : Prop := {
  pr_ids : NoDup (pl_id <$> st_lines db);
  pr_lines : batch_lines db i <> [];
  pr_reserved : forall x, x ∈ batch_lines db i -> pl_status x = LINE_RESERVED;
  pr_credits : forall x, x ∈ batch_lines db i -> pl_ledger_entry_id x ∈ le_id <$> st_ledger db
}.

(** None of its credits is of the trip. *)
Definition apart (db : disbursement_store) (i trip : uuid) : Prop :=
  forall x e, x ∈ batch_lines db i -> e ∈ st_ledger db -> le_id e = pl_ledger_entry_id x -> le_trip_session_id e <> Some trip.

Lemma cancel_trip_batch db trip chains at_ db' i b :
  cancel_uncalled_trip_payouts db trip chains at_ = Ok db' -> NoDup chains -> i ∈ chains ->
  get_batch db i = Some b -> prepared db i -> apart db i trip -> batch_after true i b db db'.
Proof.
  unfold cancel_uncalled_trip_payouts. intros Hrun Hnd Hi Hb [Hids Hne Hres Hcr] Hapart. ok_step Hrun as db1 Hc.
  assert (Hlines : forall l, l ∈ List.filter (fun l => bool_decide (pl_ledger_entry_id l ∈ trip_entry_ids db [trip])
      && pl_reservation_active l) (stable_sort line_id_leb (List.filter (fun l => bool_decide (pl_batch_id l ∈ chains)) (st_lines db)))
      -> l ∈ st_lines db /\ pl_batch_id l <> i).
  { intros l Hl. apply list_elem_of_In, filter_In in Hl as [Hl Hp]. apply list_elem_of_In in Hl.
    rewrite stable_sort_perm in Hl. apply list_elem_of_In, filter_In in Hl as [Hl _]. apply list_elem_of_In in Hl.
    split; [done|]. intros Heq. bool_prop. assert (Hx : l ∈ batch_lines db i) by by apply batch_lines_in.
    match goal with H : _ ∈ trip_entry_ids _ _ |- _ => unfold trip_entry_ids in H;
      apply list_elem_of_fmap in H as (e & Hid & He) end.
    apply list_elem_of_In, filter_In in He as [He Ht]. apply list_elem_of_In in He.
    apply (Hapart l e Hx He (eq_sym Hid)). destruct (le_trip_session_id e); [|done]. bool_prop. set_solver. }
  apply (cancel_lines_elsewhere _ _ _ _ i) in Hc as (H1 & H2 & H3); [|done| |by intros l [_ ?]%Hlines].
  2: { intros l [Hl Hlb]%Hlines. by exists l. }
  pose proof Hrun as Hst. apply rederive_batches_frame in Hst as [Ht _]. unfold cash_tables in Ht. injection Ht as Ht _ _ _ _ _.
  assert (Hl' : batch_lines db' i = batch_lines db i) by (rewrite <- H1; unfold batch_lines; by rewrite Ht).
  split; [done|]. split; [by rewrite Ht|]. eexists. split.
  - apply (rederive_batches_status _ _ _ _ b Hrun Hnd Hi). unfold get_batch in *. by rewrite H3.
  - rewrite Hl'. cbn. by rewrite derived_reserved.
Qed.

Lemma batch_after_trans r1 r2 i b db1 db2 db3 :
  batch_after r1 i b db1 db2 -> (forall b', get_batch db2 i = Some b' -> batch_after r2 i b' db2 db3) ->
  batch_after (r1 || r2) i b db1 db3.
Proof.
  intros (Hl & Hids & b2 & Hb2 & Hs) Hnext. destruct (Hnext _ Hb2) as (Hl' & Hids' & b3 & Hb3 & Hs').
  split; [congruence|]. split; [congruence|]. exists b3. split; [done|].
  destruct r1, r2; cbn; congruence.
Qed.

Lemma prepared_after r i b db db' es :
  batch_after r i b db db' -> st_ledger db' = st_ledger db ++ es -> prepared db i -> prepared db' i.
Proof.
  intros (Hl & Hids & _) Hle [H1 H2 H3 H4]. split; rewrite ?Hl, ?Hids, ?Hle; try done.
  intros x Hx. rewrite fmap_app. apply elem_of_app. left. by apply H4.
Qed.

(** New entries have new identifiers, so they are no credit of the batch. *)
Lemma apart_after r i b db db' es trip :
  batch_after r i b db db' -> st_ledger db' = st_ledger db ++ es -> prepared db i -> apart db i trip ->
  (forall e, e ∈ es -> le_id e ∉ le_id <$> st_ledger db) -> apart db' i trip.
Proof.
  intros (Hl & _) Hle [_ _ _ Hcr] Ha Hfresh x e Hx He Hid. rewrite Hl in Hx. rewrite Hle in He.
  apply elem_of_app in He as [He|He]; [by eapply Ha|]. destruct (Hfresh e He). rewrite Hid. by apply Hcr.
Qed.

Lemma batch_after_refl i b db : get_batch db i = Some b -> batch_after false i b db db.
Proof. intros Hb. split; [done|]. split; [done|]. by exists b. Qed.

Lemma write_differential_batch db c profile (t : day_trip_target F) at_ order release_at chains o db' i b :
  write_differential db c profile t at_ order release_at chains = Ok (o, db') -> NoDup chains -> i ∈ chains ->
  get_batch db i = Some b -> prepared db i -> (tg_delta_amount t < 0 -> apart db i (tg_trip_session_id t)) ->
  batch_after (tg_delta_amount t <? 0) i b db db'
  /\ exists es, st_ledger db' = st_ledger db ++ es /\ forall e, e ∈ es -> le_id e ∉ le_id <$> st_ledger db.
Proof.
  unfold write_differential. intros Hrun Hnd Hi Hb Hp Hapart.
  destruct (Z.eqb_spec (tg_delta_amount t) 0) as [Hz|Hz].
  { injection Hrun as _ <-. rewrite Hz. split; [by apply batch_after_refl|]. exists []. rewrite app_nil_r.
    split; [done|]. intros e He. by apply elem_of_nil in He. }
  ok_step Hrun. ok_step Hrun as payout Hf. ok_step Hrun as db1 Hc. injection Hrun as _ <-.
  set (e := differential_entry db c profile t at_ order release_at) in *.
  apply flush_ledger_entry_store in Hf as ->. set (db0 := set_payout _ db) in Hc.
  assert (Hfresh : forall e', e' ∈ [e] -> le_id e' ∉ le_id <$> st_ledger db).
  { intros e' ->%list_elem_of_singleton. apply uuid4_fresh. }
  assert (H0 : batch_after false i b db db0) by (split; [done|]; split; [done|]; by exists b).
  destruct (Z.ltb_spec (tg_delta_amount t) 0) as [Hneg|Hpos].
  - split.
    + apply (batch_after_trans false true _ _ _ db0); [done|]. intros b' Hb'.
      eapply cancel_trip_batch; [exact Hc|done..| |].
      * by eapply prepared_after.
      * eapply apart_after; [exact H0|reflexivity|done|by apply Hapart|done].
    + apply cancel_trip_appends in Hc as [_ Hl _ _]. exists [e]. split; [by rewrite Hl, app_nil_r|done].
  - injection Hc as <-. split; [done|]. by exists [e].
Qed.

Definition reverses (targets : list (day_trip_target F)) : bool := existsb (fun t => tg_delta_amount t <? 0) targets.

(** No reversed trip among the targets has a credit in the batch. *)
Definition apart_from (db : disbursement_store) (i : uuid) (targets : list (day_trip_target F)) : Prop :=
  forall t, t ∈ targets -> tg_delta_amount t < 0 -> apart db i (tg_trip_session_id t).

(** What a sequence of writes keeps for the rest of it. *)
Lemma apart_from_after r i b db db' es targets :
  batch_after r i b db db' -> st_ledger db' = st_ledger db ++ es -> prepared db i -> apart_from db i targets ->
  (forall e, e ∈ es -> le_id e ∉ le_id <$> st_ledger db) -> apart_from db' i targets.
Proof. intros H1 H2 H3 Ha H5 t Ht Hneg. eapply apart_after; [done..|by apply Ha|done]. Qed.

Lemma fresh_app {es es' : list ledger_entry} {l l' : list ledger_entry} :
  (forall e, e ∈ es -> le_id e ∉ le_id <$> l) -> l' = l ++ es -> (forall e, e ∈ es' -> le_id e ∉ le_id <$> l') ->
  forall e, e ∈ es ++ es' -> le_id e ∉ le_id <$> l.
Proof.
  intros H1 -> H2 e [He|He]%elem_of_app; [by apply H1|]. intros Hin. apply (H2 e He). rewrite fmap_app.
  apply elem_of_app. by left.
Qed.

Lemma write_differentials_batch db c profile targets at_ order release_at chains outs db' i b :
  write_differentials db c profile targets at_ order release_at chains = Ok (outs, db') -> NoDup chains -> i ∈ chains ->
  get_batch db i = Some b -> prepared db i -> apart_from db i targets ->
  batch_after (reverses targets) i b db db'
  /\ exists es, st_ledger db' = st_ledger db ++ es /\ forall e, e ∈ es -> le_id e ∉ le_id <$> st_ledger db.
Proof.
  revert db outs b. induction targets as [|t targets IH]; intros db outs b Hrun Hnd Hi Hb Hp Hapart; cbn in Hrun.
  { injection Hrun as _ <-. split; [by apply batch_after_refl|]. exists []. rewrite app_nil_r. split; [done|].
    intros e He. by apply elem_of_nil in He. }
  ok_step Hrun as [o db1] Ho. ok_step Hrun as [outs' db2] Hos. injection Hrun as _ <-. cbn in Hos.
  destruct (write_differential_batch _ _ _ _ _ _ _ _ _ _ i b Ho Hnd Hi Hb Hp) as (Hba & es & Hl & Hfresh).
  { apply Hapart. by left. }
  assert (Hp1 : prepared db1 i) by by eapply prepared_after.
  assert (Ha1 : apart_from db1 i targets).
  { eapply apart_from_after; [done..| |done]. intros t' Ht'. apply Hapart. by right. }
  split.
  - unfold reverses. cbn [existsb]. eapply batch_after_trans; [done|]. intros b' Hb'.
    by apply (IH db1 outs' b' Hos Hnd Hi Hb' Hp1 Ha1).
  - destruct Hba as (_ & _ & b' & Hb' & _). destruct (IH db1 outs' b' Hos Hnd Hi Hb' Hp1 Ha1) as (_ & es' & Hl' & Hfresh').
    exists (es ++ es'). split; [by rewrite Hl', Hl, app_assoc|]. by eapply fresh_app.
Qed.

Lemma write_days_batch db computations at_ order release_at chains outs db' i b :
  write_days db computations at_ order release_at chains = Ok (outs, db') -> NoDup chains -> i ∈ chains ->
  get_batch db i = Some b -> prepared db i -> apart_from db i (all_targets computations) ->
  batch_after (reverses (all_targets computations)) i b db db'.
Proof.
  revert db outs b. induction computations as [|c cs IH]; intros db outs b Hrun Hnd Hi Hb Hp Hapart; cbn in Hrun.
  { injection Hrun as _ <-. by apply batch_after_refl. }
  ok_step Hrun as [os db1] Hos. ok_step Hrun as [outs' db2] Hrest. injection Hrun as _ <-. cbn in Hrest.
  unfold write_day_differentials in Hos. ok_step Hos. ok_step Hos.
  assert (Hapart1 : apart_from db i (cm_trips c)).
  { intros t Ht. apply Hapart. unfold all_targets. cbn. apply elem_of_app. by left. }
  destruct (write_differentials_batch _ _ _ _ _ _ _ _ _ _ i b Hos Hnd Hi Hb Hp Hapart1) as (Hba & es & Hl & Hfresh).
  assert (Hrev : reverses (all_targets (c :: cs)) = reverses (cm_trips c) || reverses (all_targets cs))
    by (unfold reverses, all_targets; cbn; apply existsb_app).
  rewrite Hrev. eapply batch_after_trans; [done|]. intros b' Hb'. eapply IH; [done..| |].
  - by eapply prepared_after.
  - eapply apart_from_after; [done..| |done]. intros t Ht. apply Hapart. unfold all_targets. cbn. apply elem_of_app. by right.
Qed.

(** C35: An order that reverses one trip of a day strands the payments in
    preparation of the day's other trips: a batch none of whose credits is
    reversed keeps its lines reserved, yet it is derived as reconciled, and from
    then on nobody can approve, queue or void it. *)
Theorem reversal_strands_other_batches `{Sha256} db pings i actor release_at reason at_ db' o' p b k batch e t :
  approve db pings i actor release_at reason at_ = (db', Ok (o', true)) ->
  project db pings (co_campaign_id o') (co_lagos_day o') = Ok p ->
  reverses (all_targets (cp_computations p)) = true ->
  get_batch db batch = Some b -> prepared db batch -> apart_from db batch (all_targets (cp_computations p)) ->
  k ∈ batch_lines db batch -> e ∈ st_ledger db -> le_id e = pl_ledger_entry_id k ->
  t ∈ all_targets (cp_computations p) -> le_trip_session_id e = Some (tg_trip_session_id t) ->
  (forall x, x ∈ batch_lines db' batch <-> x ∈ batch_lines db batch)
  /\ (exists b', get_batch db' batch = Some b' /\ pb_status b' = BATCH_RECONCILED)
  /\ (forall clock actor' reason' r, approve_payout_batch clock db' batch actor' reason' <> Ok r)
  /\ (forall now actor' adapter r, submit_payout_batch now db' batch actor' adapter <> Ok r)
  /\ (forall actor' r, void_payout_batch db' batch actor' <> Ok r).
Proof.
  intros (o & p0 & outs & es & Happ)%approve_applied Hp Hrev Hb Hprep Hapart Hk He Hid Ht Htrip.
  destruct Happ as [_ _ Hp0 _ -> _ _ _ _ _ _ (rel & db1 & Hw & Hbt & Hlt)]. cbn in Hp. rewrite Hp in Hp0. injection Hp0 as <-.
  set (chains := lock_payout_chains db _) in Hw.
  assert (Hin : batch ∈ chains).
  { apply sorted_ids_in, list_elem_of_fmap. exists k. apply batch_lines_in in Hk as [Hk <-]. split; [done|].
    rewrite list_elem_of_In, filter_In, <- list_elem_of_In. split; [done|]. apply bool_decide_eq_true_2.
    unfold trip_entry_ids. apply list_elem_of_fmap. exists e. split; [done|].
    rewrite list_elem_of_In, filter_In, <- list_elem_of_In. split; [done|]. rewrite Htrip. apply bool_decide_eq_true_2.
    apply list_elem_of_fmap. by exists t. }
  destruct (write_days_batch _ _ _ _ _ _ _ _ batch b Hw (sorted_ids_nodup _) Hin Hb Hprep Hapart) as (Hl & _ & b' & Hb' & Hs).
  rewrite Hrev in Hs. assert (Hb1 : get_batch db' batch = Some b') by (unfold get_batch in *; by rewrite Hbt).
  split; [unfold batch_lines in *; by rewrite Hlt, Hl|]. split; [by exists b'|]. by apply (refused_batch _ _ _ Hb1).
Qed.
End Trueups.

(** ** A day of two trips *)

Module TrueupSample.
Import RationalFloat.
#[export] Existing Instance DisbursementSample.digest.

(** The sample trip, and one like it an hour later. *)
Definition second_trip : trip_session :=
  TripSession 11 2 4 5 6 TRIP_SEALED (10 * hour) (Some (10 * hour + 120 * second)) (Some (11 * hour)).
Definition second_ping (n : N) : location_ping (F:=Q) bool :=
  {| lp_id := (200 + n)%N; lp_trip_session_id := 11%N; lp_recorded_at := 10 * hour + Z.of_N n * 60 * second;
     lp_sequence_number := Some (Z.of_N n); lp_latitude := Z.of_N n * 5 # 1000; lp_longitude := 3 # 1;
     lp_accuracy_m := Some (10 # 1); lp_geom := true; lp_created_at := 0 |}.
Definition pings : list (location_ping (F:=Q) bool) := PayoutSample.pings ++ (second_ping <$> [0; 1; 2]%N).

Definition measured : payout_store :=
  {| st_trips := [PayoutSample.trip; second_trip];
     st_analytics := [TripAnalytics 20 10 2 4 5 6 TA_COMPUTED "route_analytics_v1" 0 0;
                      TripAnalytics 21 11 2 4 5 6 TA_COMPUTED "route_analytics_v1" 0 0];
     st_estimates := [ImpressionEstimate 30 10 20 2 4 5 6 "imp" true IE_ESTIMATED;
                      ImpressionEstimate 31 11 21 2 4 5 6 "imp" true IE_ESTIMATED];
     st_bindings := [PayoutSample.binding]; st_campaigns := [CampaignRow 4 90 "NGN"]; st_rules := [];
     st_revisions := [PayoutSample.revision]; st_calculations := []; st_ledger := []; st_orders := [];
     st_lines := []; st_intents := []; st_offsets := []; st_profiles := [DriverProfile 5 50];
     st_cutoffs := []; st_audit := [] |}.

Definition paid : payout_store :=
  PayoutSample.run [PayoutCall pings 10 None true (12 * hour); PayoutCall pings 11 None true (12 * hour)] measured.

(** The credits are released; the first trip's is reserved in a batch. *)
Definition released (e : ledger_entry) : ledger_entry :=
  {| le_id := le_id e; le_payout_calculation_id := le_payout_calculation_id e;
     le_driver_profile_id := le_driver_profile_id e; le_driver_user_id := le_driver_user_id e;
     le_campaign_id := le_campaign_id e; le_trip_session_id := le_trip_session_id e;
     le_vehicle_id := le_vehicle_id e; le_entry_type := le_entry_type e; le_status := AVAILABLE;
     le_amount := le_amount e; le_currency := le_currency e; le_description := le_description e;
     le_occurred_at := le_occurred_at e; le_release_at := Some (12 * hour); le_metadata := le_metadata e |}.
Definition payable : payout_store := with_ledger (fmap released) paid.
Definition line_for (e : ledger_entry) : payout_batch_line := reserved_line 61 60 None e 70 71 (le_amount e).
Definition lines : list payout_batch_line := line_for <$> take 1 (st_ledger payable).
Definition batch : payout_batch := CashSample.batch_of 60 BATCH_RESERVED lines.
Definition store : disbursement_store :=
  set_batches (fun _ => [batch]) (set_payout (fun _ => with_lines (fun _ => lines) payable) DisbursementSample.store).

(** The fixes of the second trip turn out to be false. *)
Definition corrected_pings : list (location_ping (F:=Q) bool) := PayoutSample.pings.
Definition projection_digest (p : projection_inputs Q) : string :=
  if bool_decide (length (pj_ledger_entries p) = 2%nat) then "two entries" else "other entries".
Definition no_projection : campaign_day_projection (F:=Q) := CampaignDayProjection [] (_projection_payload (F:=Q) []) "".

(** What is measured and decided of the sample day. *)
#[global] Abbreviation project :=
  (project_campaign_day PayoutSample.intersects PayoutSample.digest PayoutSample.inputs_digest projection_digest).
#[global] Abbreviation measure :=
  (compute_payout_day_targets PayoutSample.intersects PayoutSample.digest PayoutSample.inputs_digest).
#[global] Abbreviation approve :=
  (approve_correction_order PayoutSample.intersects PayoutSample.digest PayoutSample.inputs_digest projection_digest).

Definition create (db : disbursement_store) : result (payout_correction_order * disbursement_store) :=
  create_correction_order PayoutSample.intersects PayoutSample.digest PayoutSample.inputs_digest projection_digest
    db corrected_pings 4 0 "false fixes" 1 (13 * hour).
Definition drafted : disbursement_store := match create store with Ok r => r.2 | Raise _ => store end.
Definition executed : disbursement_store := (approve drafted corrected_pings 1 2 None "checked" (14 * hour)).1.
Definition projection : campaign_day_projection := match project drafted corrected_pings 4 0 with Ok p => p | Raise _ => no_projection end.

Lemma order_approved : exists o,
  approve drafted corrected_pings 1 2 None "checked" (14 * hour) = (executed, Ok (o, true))
  /\ co_campaign_id o = 4%N /\ co_lagos_day o = 0.
Proof. eexists. split; [vm_compute; reflexivity|]. split; reflexivity. Qed.

Lemma day_projected : project drafted corrected_pings 4 0 = Ok projection.
Proof. vm_compute. reflexivity. Qed.

Lemma trips_known : NoDup (trip_id <$> st_trips drafted).
Proof. apply (bool_decide_unpack _). vm_compute. exact I. Qed.

Lemma calculations_agree : calculations_placed drafted.
Proof.
  intros c t Hc Ht _.
  assert (H1 : Forall (fun c => pc_campaign_id c = 4%N) (st_calculations drafted))
    by (apply (bool_decide_unpack _); vm_compute; exact I).
  assert (H2 : Forall (fun t => trip_campaign_id t = 4%N) (st_trips drafted))
    by (apply (bool_decide_unpack _); vm_compute; exact I).
  rewrite (proj1 (Forall_forall _ _) H1 c Hc). by rewrite (proj1 (Forall_forall _ _) H2 t Ht).
Qed.

Lemma never_corrected : positions_before drafted (14 * hour).
Proof.
  intros c a p Hc Hin.
  assert (H1 : Forall (fun c => position_candidates drafted c = []) (st_calculations drafted))
    by (vm_compute; repeat constructor).
  rewrite (proj1 (Forall_forall _ _) H1 c Hc) in Hin. by apply elem_of_nil in Hin.
Qed.

Lemma terms_frozen : frozen_terms 5 4 PayoutSample.terms drafted.
Proof.
  split.
  - intros t b _ _ _ Hb. assert (H1 : Forall (fun b => daily_rate_terms b = Ok PayoutSample.terms) (st_bindings drafted))
      by (vm_compute; repeat constructor).
    apply (proj1 (Forall_forall _ _) H1). unfold binding_for_assignment in Hb. by apply find_row_Some in Hb as [? _].
  - assert (H1 : st_trips drafted = [PayoutSample.trip; second_trip]) by (vm_compute; reflexivity).
    rewrite H1. intros t Ht _. apply elem_of_cons in Ht as [->|Ht%list_elem_of_singleton]; [|subst];
      eexists; (split; [reflexivity|]); vm_compute; (split; [discriminate|reflexivity]).
Qed.

Lemma terms_possible : terms_ok PayoutSample.terms.
Proof. by split. Qed.

Lemma day_measured : exists c, measure drafted corrected_pings 4 5 0 = Ok c /\ length (cm_trips c) = 2%nat.
Proof. eexists. split; [vm_compute; reflexivity|]. reflexivity. Qed.

Lemma draft_pending : exists o, get_correction_order drafted 1 = Ok o /\ co_status o <> STALE
  /\ co_campaign_id o = 4%N /\ co_lagos_day o = 0.
Proof. eexists. split; [vm_compute; reflexivity|]. by split_and!. Qed.

Lemma draft_admin : active_admin drafted 2 = Ok tt.
Proof. vm_compute. reflexivity. Qed.
Lemma executed_admin :
  active_admin (approve drafted corrected_pings 1 2 None "checked" (14 * hour)).1 2 = Ok tt.
Proof. vm_compute. reflexivity. Qed.
Lemma reason_given : _reason "checked" = Ok "checked"%string.
Proof. vm_compute. reflexivity. Qed.

(** The batch of the first trip's credit. *)
Lemma day_reverses : reverses (all_targets (cp_computations projection)) = true.
Proof. vm_compute. reflexivity. Qed.

Lemma batch_drafted : get_batch drafted 60 = Some batch.
Proof. vm_compute. reflexivity. Qed.

Lemma batch_prepared : prepared drafted 60.
Proof.
  assert (H1 : exists l, batch_lines drafted 60 = [l] /\ pl_status l = LINE_RESERVED
                         /\ bool_decide (pl_ledger_entry_id l ∈ le_id <$> st_ledger drafted) = true).
  { eexists. split; [vm_compute; reflexivity|]. split; vm_compute; reflexivity. }
  destruct H1 as (l & Hl & Hs & Hc). split; [apply (bool_decide_unpack _); vm_compute; exact I| |..];
    rewrite Hl; [done| |]; intros x ->%list_elem_of_singleton; [exact Hs|]. by apply bool_decide_eq_true in Hc.
Qed.

Lemma batch_apart : apart_from drafted 60 (all_targets (cp_computations projection)).
Proof.
  assert (H1 : forallb (fun t => negb (tg_delta_amount t <? 0) || bool_decide (tg_trip_session_id t = 11%N))
                 (all_targets (cp_computations projection)) = true) by (vm_compute; reflexivity).
  assert (H2 : forallb (fun l => forallb (fun e => negb (bool_decide (le_id e = pl_ledger_entry_id l))
                 || bool_decide (le_trip_session_id e = Some 10%N)) (st_ledger drafted)) (batch_lines drafted 60) = true)
    by (vm_compute; reflexivity).
  intros t Ht Hneg l e Hl He Hid Htrip. rewrite forallb_forall in H1, H2.
  specialize (H1 t (proj1 (list_elem_of_In _ _) Ht)). specialize (H2 l (proj1 (list_elem_of_In _ _) Hl)).
  rewrite forallb_forall in H2. specialize (H2 e (proj1 (list_elem_of_In _ _) He)).
  rewrite (proj2 (Z.ltb_lt _ _) Hneg) in H1. rewrite bool_decide_eq_true_2 in H2 by done. cbn in H1, H2.
  apply bool_decide_eq_true in H1, H2. rewrite Htrip, H1 in H2. done.
Qed.

(** Its line, its credit and the target of its trip. *)
Lemma batch_credit : exists l e t, l ∈ batch_lines drafted 60 /\ e ∈ st_ledger drafted /\ le_id e = pl_ledger_entry_id l
  /\ t ∈ all_targets (cp_computations projection) /\ le_trip_session_id e = Some (tg_trip_session_id t).
Proof.
  do 3 eexists. split; [vm_compute; left|]. split; [vm_compute; left|]. split; [reflexivity|].
  split; [vm_compute; left|reflexivity].
Qed.
End TrueupSample.
Import RationalFloat TrueupSample.

Lemma corrected_day_is_day_pay_witness :
  exists c, measure drafted corrected_pings 4 5 0 = Ok c /\ sum_by (fun t => dict_get (tg_amount_by_day t) 0) (cm_trips c) <= 300000.
Proof.
  destruct day_measured as (c & Hc & _). exists c. split; [exact Hc|].
  destruct (corrected_day_is_day_pay (F:=Q) PayoutSample.intersects PayoutSample.digest PayoutSample.inputs_digest
    drafted corrected_pings 4 5 0 c PayoutSample.terms Hc terms_frozen terms_possible) as (_ & _ & Hle). exact Hle.
Defined.

Lemma approved_order_settles_day_witness :
  exists p p', project drafted corrected_pings 4 0 = Ok p /\ project executed corrected_pings 4 0 = Ok p'
  /\ length (all_targets (cp_computations p)) = length (all_targets (cp_computations p')).
Proof.
  destruct order_approved as (o & Ho & Hc & Hd).
  destruct (approved_order_settles_day (F:=Q) PayoutSample.intersects PayoutSample.digest PayoutSample.inputs_digest
    projection_digest drafted corrected_pings 1 2 None "checked" (14 * hour) executed o Ho trips_known
    calculations_agree never_corrected) as (p & es & p' & Hp & _ & _ & _ & Hp' & Hall).
  rewrite Hc, Hd in Hp, Hp'. exists p, p'. split; [exact Hp|]. split; [exact Hp'|]. by apply Forall2_length in Hall.
Defined.

Lemma order_decided_once_witness :
  exists o, approve drafted corrected_pings 1 2 None "checked" (14 * hour) = (executed, Ok (o, true))
  /\ approve executed corrected_pings 1 2 None "checked" (14 * hour) = (executed, Ok (o, false)).
Proof.
  pose proof order_approved as Ho. pose proof draft_pending as Hdraft. pose proof day_projected as Hp.
  pose proof draft_admin as Hadmin. pose proof executed_admin as Hadmin'.
  revert Ho Hdraft Hp Hadmin Hadmin'. generalize drafted, executed.
  intros db db' (o & Ho & _) (o0 & Hg & Hs & Hc & Hd) Hp Hadmin Hadmin'. exists o. split; [exact Ho|].
  rewrite <- Hc, <- Hd in Hp.
  destruct (order_decided_once (F:=Q) PayoutSample.intersects PayoutSample.digest PayoutSample.inputs_digest
    projection_digest db corrected_pings 1 2 None "checked" (14 * hour) o0 projection "checked"
    Hg Hs Hadmin reason_given Hp corrected_pings 2 None "checked" (14 * hour) "checked" reason_given Hadmin') as [Hagain _].
  specialize (Hagain o true). rewrite Ho in Hagain. exact (Hagain eq_refl).
Defined.

Lemma reversal_strands_other_batches_witness :
  exists b, get_batch drafted 60 = Some batch /\ get_batch executed 60 = Some b
  /\ pb_status batch = BATCH_RESERVED /\ pb_status b = BATCH_RECONCILED.
Proof.
  destruct order_approved as (o & Ho & Hc & Hd). destruct batch_credit as (l & e & t & Hl & He & Hid & Ht & Htrip).
  pose proof day_projected as Hp.  rewrite <- Hc, <- Hd in Hp.
  destruct (reversal_strands_other_batches (F:=Q) PayoutSample.intersects PayoutSample.digest PayoutSample.inputs_digest
    projection_digest drafted corrected_pings 1 2 None "checked" (14 * hour) executed o projection batch l 60 e t
    Ho Hp day_reverses batch_drafted batch_prepared batch_apart Hl He Hid Ht Htrip) as (_ & (b & Hb & Hs) & _).
  exists b. split; [exact batch_drafted|]. split; [exact Hb|]. split; [reflexivity|exact Hs].
Defined.
