(* ===== verification/TripData.v ===== *)
(** Rows of the trip tables ([app/models/trip.py]) with their constraints, the
    requests of [app/schemas/trips.py], the columns of assignments the trip
    services read, and the store of the trip services. *)

From S2P Require Import Prelude Eligibility PayoutData DailyRate Ledger Engine Text DisbursementData Crypto Payees.
From stdpp Require Import base list strings gmap.
From Stdlib Require Import ZArith Lia.
#[local] Set Warnings "-register-all".
#[local] Open Scope Z_scope.

(** ** Enumerations *)

Inductive trip_seal_reason := CLIENT_COMPLETE | LATE_DATA_COMPLETE | AUTO_ENDED.
Inductive evidence_scope := SCOPE_MANIFEST | SCOPE_LATE | SCOPE_LATE_DROPPED.
Inductive ping_rejection_code :=
  INVALID_RECORDED_AT | INVALID_ASSIGNMENT_AUTHORITY | INVALID_ACCURACY | INVALID_SPEED | PAY_ALREADY_CALCULATED.
Inductive assignment_status :=
  ASSIGNMENT_OFFERED | ASSIGNMENT_ACCEPTED | ASSIGNMENT_DECLINED | ASSIGNMENT_EXPIRED | ASSIGNMENT_ACTIVE
| ASSIGNMENT_CANCELLED.
Inductive activation_event_type :=
  EVENT_ASSIGNED | EVENT_ACCEPTED | EVENT_DECLINED | EVENT_EXPIRED | EVENT_ACTIVATED | EVENT_DEACTIVATED
| EVENT_CANCELLED | EVENT_COMPLETED.

#[export] Instance trip_seal_reason_eq_dec : EqDecision trip_seal_reason.
Proof. solve_decision. Defined.
#[export] Instance evidence_scope_eq_dec : EqDecision evidence_scope.
Proof. solve_decision. Defined.
#[export] Instance ping_rejection_code_eq_dec : EqDecision ping_rejection_code.
Proof. solve_decision. Defined.
#[export] Instance assignment_status_eq_dec : EqDecision assignment_status.
Proof. solve_decision. Defined.
#[export] Instance activation_event_type_eq_dec : EqDecision activation_event_type.
Proof. solve_decision. Defined.

Definition evidence_scope_value (s : evidence_scope) : string :=
  match s with
  | SCOPE_MANIFEST => "manifest" | SCOPE_LATE => "late" | SCOPE_LATE_DROPPED => "late_dropped"
  end.

Definition rejection_code_value (c : ping_rejection_code) : string :=
  match c with
  | INVALID_RECORDED_AT => "INVALID_RECORDED_AT"
  | INVALID_ASSIGNMENT_AUTHORITY => "INVALID_ASSIGNMENT_AUTHORITY"
  | INVALID_ACCURACY => "INVALID_ACCURACY"
  | INVALID_SPEED => "INVALID_SPEED"
  | PAY_ALREADY_CALCULATED => "PAY_ALREADY_CALCULATED"
  end.

(** ** JSON values as the evidence hashes see them *)

(** A value of a JSON column or request.  A float is the 64 bits of its IEEE 754
    representation, a string its UTF-8 bytes. *)
Inductive cvalue :=
| CNone
| CBool (b : bool)
| CInt (n : Z)
| CFloat (bits : N)
| CStr (s : string)
| CList (items : list cvalue)
| CDict (members : list (string * cvalue)).

(** ** Rows *)

(** The three columns of a signed receipt. *)
Record receipt_columns := ReceiptColumns {
  rc_format_version : option Z;
  rc_key_version : option Z;
  rc_signature : option string
}.

Definition no_receipt : receipt_columns := ReceiptColumns None None None.

#[export] Instance receipt_columns_eq_dec : EqDecision receipt_columns.
Proof. solve_decision. Defined.

(** A row of [trip_sessions]; its first part is what the payout services read. *)
Record trip_row := TripRow {
  tr_session : trip_session;
  tr_started_by_user_id : uuid;
  tr_end_reason : option string;
  tr_evidence_protocol_version : Z;
  tr_manifest_version : option Z;
  tr_manifest_root_sha256 : option string;
  tr_manifest_batch_count : option Z;
  tr_manifest_ping_count : option Z;
  tr_manifest_committed_at : option Z;
  tr_manifest_complete : bool;
  tr_manifest_receipt : receipt_columns;
  tr_adjudicated_at : option Z;
  tr_adjudication_outcome : option string;
  tr_adjudication_receipt : receipt_columns;
  tr_grace_expired_at : option Z;
  tr_sealed_at : option Z;
  tr_seal_reason : option trip_seal_reason;
  tr_updated_at : Z
}.

Definition tr_id (t : trip_row) : uuid := trip_id (tr_session t).
Definition tr_status (t : trip_row) : trip_session_status := trip_status (tr_session t).
Definition tr_verified_at (t : trip_row) : option Z := evidence_manifest_verified_at (tr_session t).

(** One entry of the disposition of a batch. *)
Record sample_result := SampleResult {
  sr_index : Z;
  sr_sequence_number : option Z;
  sr_rejection_code : option ping_rejection_code
}.

#[export] Instance sample_result_eq_dec : EqDecision sample_result.
Proof. solve_decision. Defined.

(** A row of [location_ping_batches].  Of its metadata, which nobody reads, the
    financial cutoff and the number of pings after it. *)
Record ping_batch := PingBatch {
  bt_id : uuid;
  bt_trip_session_id : uuid;
  bt_idempotency_key : string;
  bt_batch_sequence : option Z;
  bt_payload_hash_version : Z;
  bt_payload_hash : string;
  bt_pings_submitted : Z;
  bt_pings_accepted : Z;
  bt_pings_rejected : Z;
  bt_evidence_scope : evidence_scope;
  bt_receipt : receipt_columns;
  bt_receipt_outcome : option string;
  bt_rejection_manifest : option (list sample_result);
  bt_rejection_digest : option string;
  bt_received_at : Z;
  bt_cutoff : option (Z * Z)
}.

(** A row of [trip_evidence_manifest_entries]. *)
Record manifest_entry := ManifestEntry {
  mn_id : uuid;
  mn_trip_session_id : uuid;
  mn_batch_sequence : Z;
  mn_idempotency_key : string;
  mn_payload_hash_version : Z;
  mn_payload_hash : string;
  mn_submitted_count : Z
}.

(** A row of [location_pings] and the batch it came with. *)
Record ping_row {F G : Type} := PingRow {
  pr_batch_id : uuid;
  pr_ping : location_ping (F:=F) G
}.
#[global] Arguments ping_row F G : clear implicits.
#[global] Arguments PingRow {F G}.

(** The columns of [campaign_assignments] and [campaign_activation_events] the
    trip services read. *)
Record campaign_assignment := CampaignAssignment {
  as_id : uuid;
  as_campaign_id : uuid;
  as_driver_profile_id : uuid;
  as_vehicle_id : uuid;
  as_status : assignment_status;
  as_activated_at : option Z;
  as_deactivated_at : option Z;
  as_cancelled_at : option Z
}.

Record campaign_activation_event := CampaignActivationEvent {
  ev_id : uuid;
  ev_assignment_id : uuid;
  ev_event_type : activation_event_type;
  ev_occurred_at : Z
}.

(** ** Requests *)

Record location_ping_create {F : Type} := LocationPingCreate {
  lc_recorded_at : Z;
  lc_lat : F;
  lc_lon : F;
  lc_accuracy_m : option F;
  lc_speed_mps : option F;
  lc_heading_degrees : option F;
  lc_altitude_m : option F;
  lc_sequence_number : option Z;
  lc_metadata : list (string * cvalue)
}.
#[global] Arguments location_ping_create F : clear implicits.
#[global] Arguments LocationPingCreate {F}.

Record ping_batch_create {F : Type} := PingBatchCreate {
  lb_idempotency_key : string;
  lb_batch_sequence : option Z;
  lb_pings : list (location_ping_create F);
  lb_metadata : list (string * cvalue)
}.
#[global] Arguments ping_batch_create F : clear implicits.
#[global] Arguments PingBatchCreate {F}.

Record manifest_entry_create := ManifestEntryCreate {
  me_batch_sequence : Z;
  me_idempotency_key : string;
  me_payload_hash_version : Z;
  me_payload_hash : string;
  me_submitted_count : Z
}.

Record manifest_create := ManifestCreate {
  mf_version : Z;
  mf_root_sha256 : string;
  mf_ping_count : Z;
  mf_complete : bool;
  mf_entries : list manifest_entry_create
}.

Record trip_end_request := TripEndRequest {
  te_end_reason : option string;
  te_evidence_manifest : option manifest_create
}.

(** ** The store *)

(** The payout tables hold the other tables; their trips are those of
    [ts_trips]. *)
Record trip_store {F G : Type} := TripStore {
  ts_trips : list trip_row;
  ts_batches : list ping_batch;
  ts_entries : list manifest_entry;
  ts_pings : list (ping_row F G);
  ts_assignments : list campaign_assignment;
  ts_activations : list campaign_activation_event;
  ts_payout : payout_store
}.
#[global] Arguments trip_store F G : clear implicits.
#[global] Arguments TripStore {F G}.

(** What the payout services see. *)
Definition payout_view {F G} (db : trip_store F G) : payout_store :=
  let p := ts_payout db in
  {| st_trips := tr_session <$> ts_trips db; st_analytics := st_analytics p; st_estimates := st_estimates p;
     st_bindings := st_bindings p; st_campaigns := st_campaigns p; st_rules := st_rules p;
     st_revisions := st_revisions p; st_calculations := st_calculations p; st_ledger := st_ledger p;
     st_orders := st_orders p; st_lines := st_lines p; st_intents := st_intents p; st_offsets := st_offsets p;
     st_profiles := st_profiles p; st_cutoffs := st_cutoffs p; st_audit := st_audit p |}.

Section Setters.
Context {F G : Type}.

Definition set_trips (f : list trip_row -> list trip_row) (db : trip_store F G) : trip_store F G :=
  TripStore (f (ts_trips db)) (ts_batches db) (ts_entries db) (ts_pings db) (ts_assignments db) (ts_activations db)
    (ts_payout db).
Definition set_ping_batches (f : list ping_batch -> list ping_batch) (db : trip_store F G) : trip_store F G :=
  TripStore (ts_trips db) (f (ts_batches db)) (ts_entries db) (ts_pings db) (ts_assignments db) (ts_activations db)
    (ts_payout db).
Definition set_entries (f : list manifest_entry -> list manifest_entry) (db : trip_store F G) : trip_store F G :=
  TripStore (ts_trips db) (ts_batches db) (f (ts_entries db)) (ts_pings db) (ts_assignments db) (ts_activations db)
    (ts_payout db).
Definition set_pings (f : list (ping_row F G) -> list (ping_row F G)) (db : trip_store F G) : trip_store F G :=
  TripStore (ts_trips db) (ts_batches db) (ts_entries db) (f (ts_pings db)) (ts_assignments db) (ts_activations db)
    (ts_payout db).
Definition audit_trip (actor : option uuid) (action entity_type : string) (entity : uuid) (db : trip_store F G)
    : trip_store F G :=
  TripStore (ts_trips db) (ts_batches db) (ts_entries db) (ts_pings db) (ts_assignments db) (ts_activations db)
    (create_audit_event actor action entity_type entity (ts_payout db)).
End Setters.

(** ** Constraints *)

Definition given {A} (o : option A) : bool := negb (is_none o).

(** A receipt cluster that is filled: format 2, a key and a signature. *)
Definition receipt_filled (r : receipt_columns) : bool :=
  bool_decide (rc_format_version r = Some 2) && given (rc_key_version r) && given (rc_signature r).

(** The CHECK constraints of [trip_sessions], in the order of the model; the
    enumerations hold by the types. *)
Definition sealed_fields_ok (t : trip_row) : bool :=
  Bool.eqb (bool_decide (tr_status t = TRIP_SEALED)) (given (tr_sealed_at t) && given (tr_seal_reason t)).
Definition manifest_header_ok (t : trip_row) : bool :=
  (is_none (tr_manifest_version t) && is_none (tr_manifest_root_sha256 t) && is_none (tr_manifest_batch_count t)
   && is_none (tr_manifest_ping_count t) && is_none (tr_manifest_committed_at t))
  || (bool_decide (tr_manifest_version t = Some 2) && given (tr_manifest_root_sha256 t)
      && given (tr_manifest_batch_count t) && given (tr_manifest_ping_count t) && given (tr_manifest_committed_at t)).
Definition manifest_receipt_ok (t : trip_row) : bool :=
  (is_none (tr_verified_at t) && bool_decide (tr_manifest_receipt t = no_receipt))
  || (tr_manifest_complete t && given (tr_verified_at t) && receipt_filled (tr_manifest_receipt t)).
Definition sealed_verified_ok (t : trip_row) : bool :=
  negb (bool_decide (tr_status t = TRIP_SEALED)) || given (tr_verified_at t).
Definition adjudication_ok (t : trip_row) : bool :=
  (is_none (tr_adjudicated_at t) && is_none (tr_adjudication_outcome t)
   && bool_decide (tr_adjudication_receipt t = no_receipt))
  || (given (tr_adjudicated_at t)
      && bool_decide (tr_adjudication_outcome t = Some "incomplete_grace_expired"%string)
      && receipt_filled (tr_adjudication_receipt t)).
Definition adjudication_excludes_verification (t : trip_row) : bool :=
  is_none (tr_adjudicated_at t) || is_none (tr_verified_at t).

(** The first constraint a row violates. *)
Definition trip_row_check (t : trip_row) : result unit :=
  raise_if (negb (sealed_fields_ok t)) (IntegrityError "ck_trip_sessions_sealed_fields") ;;
  raise_if (negb (tr_evidence_protocol_version t =? 2))
    (IntegrityError "ck_trip_sessions_evidence_protocol_version") ;;
  raise_if (negb (0 <=? default 0 (tr_manifest_batch_count t)))
    (IntegrityError "ck_trip_sessions_manifest_batch_count_non_negative") ;;
  raise_if (negb (0 <=? default 0 (tr_manifest_ping_count t)))
    (IntegrityError "ck_trip_sessions_manifest_ping_count_non_negative") ;;
  raise_if (negb (manifest_header_ok t)) (IntegrityError "ck_trip_sessions_manifest_header_cluster") ;;
  raise_if (negb (manifest_receipt_ok t)) (IntegrityError "ck_trip_sessions_manifest_receipt_cluster") ;;
  raise_if (negb (sealed_verified_ok t)) (IntegrityError "ck_trip_sessions_v2_sealed_manifest_verified") ;;
  raise_if (negb (adjudication_ok t)) (IntegrityError "ck_trip_sessions_adjudication_cluster") ;;
  raise_if (negb (adjudication_excludes_verification t))
    (IntegrityError "ck_trip_sessions_adjudication_excludes_verification").

(** The partial unique indexes of active trips. *)
Definition active_driver_key (t : trip_row) : option uuid :=
  if bool_decide (tr_status t = TRIP_ACTIVE) then Some (trip_driver_profile_id (tr_session t)) else None.
Definition active_vehicle_key (t : trip_row) : option uuid :=
  if bool_decide (tr_status t = TRIP_ACTIVE) then Some (trip_vehicle_id (tr_session t)) else None.

(** The unique keys of a batch. *)
Definition batch_key (b : ping_batch) : option (uuid * string) := Some (bt_trip_session_id b, bt_idempotency_key b).
Definition manifest_sequence_key (b : ping_batch) : option (uuid * Z) :=
  if bool_decide (bt_evidence_scope b = SCOPE_MANIFEST) then (fun n => (bt_trip_session_id b, n)) <$> bt_batch_sequence b
  else None.

Definition batch_receipt_ok (b : ping_batch) : bool :=
  (bool_decide (bt_receipt b = no_receipt) && is_none (bt_receipt_outcome b))
  || (receipt_filled (bt_receipt b) && given (bt_receipt_outcome b)).

Definition batch_row_check (b : ping_batch) : result unit :=
  raise_if (negb (0 <=? bt_pings_accepted b))
    (IntegrityError "ck_location_ping_batches_pings_accepted_non_negative") ;;
  raise_if (negb ((0 <=? bt_pings_submitted b) && (0 <=? bt_pings_rejected b)
                  && (bt_pings_submitted b =? bt_pings_accepted b + bt_pings_rejected b)))
    (IntegrityError "ck_location_ping_batches_ping_conservation") ;;
  raise_if (negb (batch_receipt_ok b)) (IntegrityError "ck_location_ping_batches_receipt_cluster") ;;
  raise_if (negb (Bool.eqb (is_none (bt_rejection_manifest b)) (is_none (bt_rejection_digest b))))
    (IntegrityError "ck_location_ping_batches_rejection_cluster") ;;
  raise_if (match bt_rejection_digest b with
            | Some d => negb (bool_decide (String.length d = 64%nat))
            | None => false
            end) (IntegrityError "ck_location_ping_batches_rejection_digest_length").

(** The unique keys of a manifest entry. *)
Definition entry_sequence_key (e : manifest_entry) : option (uuid * Z) :=
  Some (mn_trip_session_id e, mn_batch_sequence e).
Definition entry_key (e : manifest_entry) : option (uuid * string) :=
  Some (mn_trip_session_id e, mn_idempotency_key e).

Definition entry_row_check (e : manifest_entry) : result unit :=
  raise_if (negb (0 <=? mn_batch_sequence e)) (IntegrityError "ck_trip_manifest_entries_sequence") ;;
  raise_if (negb (mn_payload_hash_version e =? 2)) (IntegrityError "ck_trip_manifest_entries_hash_version") ;;
  raise_if (negb (0 <=? mn_submitted_count e)) (IntegrityError "ck_trip_manifest_entries_submitted_count").

Section Flush.
Context {F G : Type}.

Definition flush_trip (t : trip_row) (db : trip_store F G) : result (trip_store F G) :=
  trip_row_check t ;;
  raise_if (conflicts active_driver_key t (ts_trips db)) (IntegrityError "uq_trip_sessions_driver_profile_active") ;;
  raise_if (conflicts active_vehicle_key t (ts_trips db)) (IntegrityError "uq_trip_sessions_vehicle_active") ;;
  mret (set_trips (fun l => l ++ [t]) db).

(** An update never makes a trip active. *)
Definition update_trip (t : trip_row) (db : trip_store F G) : result (trip_store F G) :=
  int_column (default 0 (tr_manifest_batch_count t)) ;;
  int_column (default 0 (tr_manifest_ping_count t)) ;;
  trip_row_check t ;;
  mret (set_trips (set_row tr_id t) db).

Definition flush_ping_batch (b : ping_batch) (db : trip_store F G) : result (trip_store F G) :=
  int_column (default 0 (bt_batch_sequence b)) ;;
  batch_row_check b ;;
  raise_if (conflicts batch_key b (ts_batches db))
    (IntegrityError "uq_location_ping_batches_trip_idempotency_key") ;;
  raise_if (conflicts manifest_sequence_key b (ts_batches db))
    (IntegrityError "uq_location_ping_batches_trip_sequence_manifest") ;;
  mret (set_ping_batches (fun l => l ++ [b]) db).

Definition update_ping_batch (b : ping_batch) (db : trip_store F G) : result (trip_store F G) :=
  batch_row_check b ;;
  mret (set_ping_batches (set_row bt_id b) db).

Definition flush_entry (e : manifest_entry) (db : trip_store F G) : result (trip_store F G) :=
  int_column (mn_batch_sequence e) ;;
  int_column (mn_submitted_count e) ;;
  entry_row_check e ;;
  raise_if (conflicts entry_sequence_key e (ts_entries db)) (IntegrityError "uq_trip_manifest_entries_trip_sequence") ;;
  raise_if (conflicts entry_key e (ts_entries db)) (IntegrityError "uq_trip_manifest_entries_trip_idempotency_key") ;;
  mret (set_entries (fun l => l ++ [e]) db).

(** [sequence_number] is an integer column, coordinates and accuracy were
    checked by the request. *)
Definition flush_ping (p : ping_row F G) (db : trip_store F G) : result (trip_store F G) :=
  int_column (default 0 (lp_sequence_number (pr_ping p))) ;;
  mret (set_pings (fun l => l ++ [p]) db).
End Flush.
