(* ===== verification/TripEvidence.v ===== *)
(** The signed evidence of trips ([app/services/trip_evidence.py]): the canonical
    encoding the hashes are taken of, the batch hash and the manifest root, the
    receipts, and whether a committed manifest is complete. *)

From S2P Require Import Prelude Eligibility PayoutData DailyRate Ledger Engine Text Json DisbursementData Crypto TripData.
From stdpp Require Import base list strings gmap.
From Stdlib Require Import ZArith Lia Ascii.
#[local] Open Scope Z_scope.

Definition BATCH_HASH_VERSION : Z := 2.
Definition RECEIPT_FORMAT_VERSION : Z := 2.
Definition MANIFEST_VERSION : Z := 2.
Definition REJECTION_MANIFEST_VERSION : Z := 1.
Definition domain (name : string) : string := (name +:+ nul)%string.
Definition BATCH_DOMAIN : string := domain "cardvert.trip-batch.v2".
Definition MANIFEST_ENTRY_DOMAIN : string := domain "cardvert.trip-manifest-entry.v2".
Definition MANIFEST_DOMAIN : string := domain "cardvert.trip-manifest.v2".
Definition BATCH_RECEIPT_DOMAIN : string := domain "cardvert.trip-receipt.v2".
Definition MANIFEST_RECEIPT_DOMAIN : string := domain "cardvert.trip-manifest-receipt.v2".
Definition REJECTION_MANIFEST_DOMAIN : string := domain "cardvert.trip-batch-rejection.v1".
Definition ADJUDICATION_RECEIPT_DOMAIN : string := domain "cardvert.trip-adjudication-receipt.v2".

(** ** The canonical encoding *)

Definition _u32 (value : Z) : result string :=
  raise_if ((value <? 0) || (4294967295 <? value)) ValueError ;;
  mret (be_bytes 4 (Z.to_N value) "").

(** [value.to_bytes(8, "big", signed=True)] *)
Definition i64_bytes (n : Z) : string := be_bytes 8 (Z.to_N (n mod 2 ^ 64)) "".

(** [math.isfinite] and [== 0] of a double by its bits. *)
Definition double_finite (bits : N) : bool := negb (N.land (N.shiftr bits 52) 2047 =? 2047)%N.
Definition double_zero (bits : N) : bool := (bits mod 2 ^ 63 =? 0)%N.
Definition normalized_double (bits : N) : N := if double_zero bits then 0%N else bits.

Definition canonical_str (s : string) : result string :=
  u ← _u32 (Z.of_nat (String.length s));
  mret ("s" +:+ u +:+ s)%string.

Definition concat_str (l : list string) : string := foldr String.append ""%string l.

Fixpoint canonical_bytes (v : cvalue) : result string :=
  match v with
  | CNone => mret "n"%string
  | CBool false => mret "f"%string
  | CBool true => mret "t"%string
  | CInt n =>
      raise_if ((n <? - 2 ^ 63) || (2 ^ 63 - 1 <? n)) ValueError ;;
      mret ("i" +:+ i64_bytes n)%string
  | CFloat bits =>
      raise_if (negb (double_finite bits)) ValueError ;;
      mret ("d" +:+ be_bytes 8 (normalized_double bits) "")%string
  | CStr s => canonical_str s
  | CList items =>
      u ← _u32 (Z.of_nat (length items));
      parts ← (fix all (l : list cvalue) : result (list string) :=
                 match l with
                 | [] => mret []
                 | x :: rest => a ← canonical_bytes x; b ← all rest; mret (a :: b)
                 end) items;
      mret ("a" +:+ u +:+ concat_str parts)%string
  | CDict members =>
      u ← _u32 (Z.of_nat (length members));
      parts ← (fix all (l : list (string * cvalue)) : result (list (string * string)) :=
                 match l with
                 | [] => mret []
                 | (key, x) :: rest =>
                     k ← canonical_str key; a ← canonical_bytes x; b ← all rest;
                     mret ((key, (k +:+ a)%string) :: b)
                 end) members;
      mret ("o" +:+ u +:+ concat_str (snd <$> stable_sort key_leb parts))%string
  end.

Definition c_opt {A} (f : A -> cvalue) (o : option A) : cvalue := match o with Some a => f a | None => CNone end.

(** Milliseconds since the epoch; [int] truncates, so the second before the
    epoch counts as the one after it. *)
Definition epoch_milliseconds (us : Z) : result Z :=
  raise_if (negb (us mod 1000 =? 0)) ValueError ;;
  mret (Z.quot us second * 1000 + us mod second / 1000).

Fixpoint each_of {A B} (f : A -> result B) (l : list A) : result (list B) :=
  match l with
  | [] => mret []
  | x :: rest => y ← f x; ys ← each_of f rest; mret (y :: ys)
  end.

(** [settings.trip_evidence_signing_keys] and [..._key_version] *)
Record evidence_settings := EvidenceSettings {
  es_signing_keys : gmap Z string;
  es_signing_key_version : Z
}.

Section Evidence.
Context `{Sha256} `{HmacSha256}.
Context {F : Type} (float_bits : F -> N).

(** ** Hashes *)

Definition ping_value (p : location_ping_create F) : result cvalue :=
  ms ← epoch_milliseconds (lc_recorded_at p);
  mret (CDict [("recorded_at_ms", CInt ms);
               ("lat", CFloat (float_bits (lc_lat p)));
               ("lon", CFloat (float_bits (lc_lon p)));
               ("accuracy_m", c_opt (fun f => CFloat (float_bits f)) (lc_accuracy_m p));
               ("speed_mps", c_opt (fun f => CFloat (float_bits f)) (lc_speed_mps p));
               ("heading_degrees", c_opt (fun f => CFloat (float_bits f)) (lc_heading_degrees p));
               ("altitude_m", c_opt (fun f => CFloat (float_bits f)) (lc_altitude_m p));
               ("sequence_number", c_opt CInt (lc_sequence_number p));
               ("metadata", CDict (lc_metadata p))]%string).

Definition canonical_ping_payload (payload : ping_batch_create F) : result cvalue :=
  pings ← each_of ping_value (lb_pings payload);
  mret (CDict [("pings", CList pings); ("metadata", CDict (lb_metadata payload))]%string).

Definition batch_payload_hash (payload : ping_batch_create F) : result string :=
  value ← canonical_ping_payload payload;
  bytes ← canonical_bytes value;
  mret (sha256_hexdigest (BATCH_DOMAIN +:+ bytes)).

Definition manifest_entry_value (e : manifest_entry_create) : cvalue :=
  CDict [("batch_sequence", CInt (me_batch_sequence e));
         ("idempotency_key", CStr (me_idempotency_key e));
         ("payload_hash_version", CInt (me_payload_hash_version e));
         ("payload_hash", CStr (me_payload_hash e));
         ("submitted_count", CInt (me_submitted_count e))]%string.

Definition entry_digest (e : manifest_entry_create) : result string :=
  bytes ← canonical_bytes (manifest_entry_value e);
  mret (sha256_hexdigest (MANIFEST_ENTRY_DOMAIN +:+ bytes)).

Definition manifest_root (trip : uuid) (entries : list manifest_entry_create) (ping_count : Z) : result string :=
  digests ← each_of entry_digest entries;
  bytes ← canonical_bytes
    (CDict [("version", CInt MANIFEST_VERSION); ("trip_id", CStr (uuid_str trip));
            ("batch_count", CInt (Z.of_nat (length entries))); ("ping_count", CInt ping_count);
            ("entry_digests", CList (CStr <$> digests))]%string);
  mret (sha256_hexdigest (MANIFEST_DOMAIN +:+ bytes)).

Definition manifest_invalid : exn := AppError "TRIP_EVIDENCE_MANIFEST_INVALID" 409.

Definition validate_manifest (trip : uuid) (m : manifest_create) : result unit :=
  let entries := mf_entries m in
  raise_if (negb (bool_decide (me_batch_sequence <$> entries = seqZ 0 (Z.of_nat (length entries))))) manifest_invalid ;;
  raise_if (negb (bool_decide (NoDup (me_idempotency_key <$> entries)))) manifest_invalid ;;
  raise_if (negb (sum_by me_submitted_count entries =? mf_ping_count m)) manifest_invalid ;;
  root ← manifest_root trip entries (mf_ping_count m);
  raise_if (negb (bool_decide (root = mf_root_sha256 m))) manifest_invalid.

(** ** Signatures *)

Definition signing_key (settings : evidence_settings) (version : option Z) : result (Z * string) :=
  let selected := default (es_signing_key_version settings) version in
  key ← require_some (es_signing_keys settings !! selected) (AppError "TRIP_EVIDENCE_SIGNING_UNAVAILABLE" 503);
  mret (selected, key).

(** [base64.urlsafe_b64encode(digest).rstrip(b"=")] *)
Definition urlsafe_char (c : ascii) : ascii :=
  if bool_decide (c = "+"%char) then "-"%char else if bool_decide (c = "/"%char) then "_"%char else c.
Fixpoint rstrip_pad (s : string) : string :=
  match s with
  | EmptyString => EmptyString
  | String c rest =>
      match rstrip_pad rest with
      | EmptyString => if bool_decide (c = "="%char) then EmptyString else String c EmptyString
      | rest => String c rest
      end
  end.

Definition _signature (name : string) (value : cvalue) (key : string) : result string :=
  bytes ← canonical_bytes value;
  mret (rstrip_pad (map_string urlsafe_char (b64encode (hmac_sha256 key (name +:+ bytes))))).

Definition verify_signature (name : string) (value : cvalue) (key signature : string) : result bool :=
  expected ← _signature name value key;
  mret (bool_decide (expected = signature)).

(** ** Dispositions *)

Fixpoint numbered (index : Z) (dispositions : list (option Z * option ping_rejection_code)) : list sample_result :=
  match dispositions with
  | [] => []
  | (sequence_number, code) :: rest => SampleResult index sequence_number code :: numbered (index + 1) rest
  end.

(** The codes are constrained by their type. *)
Definition rejection_manifest_document (dispositions : list (option Z * option ping_rejection_code))
    : list sample_result := numbered 0 dispositions.

Definition sample_value (r : sample_result) : cvalue :=
  CDict [("index", CInt (sr_index r)); ("sequence_number", c_opt CInt (sr_sequence_number r));
         ("status", CStr (if is_none (sr_rejection_code r) then "accepted" else "rejected"));
         ("rejection_code", c_opt (fun c => CStr (rejection_code_value c)) (sr_rejection_code r))]%string.

Definition rejection_manifest_digest (document : list sample_result) : result string :=
  bytes ← canonical_bytes
    (CDict [("version", CInt REJECTION_MANIFEST_VERSION); ("results", CList (sample_value <$> document))]%string);
  mret (sha256_hexdigest (REJECTION_MANIFEST_DOMAIN +:+ bytes)).

Definition manifest_sample_results (document : option (list sample_result)) : list sample_result := default [] document.

(** ** Receipts *)

Definition batch_receipt_value (b : ping_batch) : cvalue :=
  let members :=
         [("format_version", CInt RECEIPT_FORMAT_VERSION);
          ("trip_id", CStr (uuid_str (bt_trip_session_id b)));
          ("batch_sequence", c_opt CInt (bt_batch_sequence b));
          ("idempotency_key", CStr (bt_idempotency_key b));
          ("payload_hash_version", CInt (bt_payload_hash_version b));
          ("payload_hash", CStr (bt_payload_hash b));
          ("submitted_count", CInt (bt_pings_submitted b));
          ("accepted_count", CInt (bt_pings_accepted b));
          ("rejected_count", CInt (bt_pings_rejected b));
          ("outcome", c_opt CStr (bt_receipt_outcome b));
          ("evidence_scope", CStr (evidence_scope_value (bt_evidence_scope b)))]%string in
  CDict match bt_rejection_digest b with
        | Some d => members ++ [("rejection_digest"%string, CStr d)]
        | None => members
        end.

Definition with_receipt (b : ping_batch) (receipt : receipt_columns) (outcome : option string) : ping_batch :=
  PingBatch (bt_id b) (bt_trip_session_id b) (bt_idempotency_key b) (bt_batch_sequence b) (bt_payload_hash_version b)
    (bt_payload_hash b) (bt_pings_submitted b) (bt_pings_accepted b) (bt_pings_rejected b) (bt_evidence_scope b)
    receipt outcome (bt_rejection_manifest b) (bt_rejection_digest b) (bt_received_at b) (bt_cutoff b).

(** [dropped] is the one other outcome. *)
Definition sign_batch_receipt (settings : evidence_settings) (b : ping_batch) (dropped : bool) : result ping_batch :=
  k ← signing_key settings None;
  let outcome := Some (if dropped then "dropped" else "accepted")%string in
  signature ← _signature BATCH_RECEIPT_DOMAIN (batch_receipt_value (with_receipt b (bt_receipt b) outcome)) k.2;
  mret (with_receipt b (ReceiptColumns (Some RECEIPT_FORMAT_VERSION) (Some k.1) (Some signature)) outcome).

(** The check of a stored receipt over the value it should sign. *)
Definition verify_receipt (settings : evidence_settings) (name : string) (value : result cvalue)
    (receipt : receipt_columns) : result bool :=
  match rc_key_version receipt, rc_signature receipt with
  | Some version, Some signature =>
      if negb (bool_decide (rc_format_version receipt = Some RECEIPT_FORMAT_VERSION)) then mret false
      else
        k ← signing_key settings (Some version);
        value ← value;
        verify_signature name value k.2 signature
  | _, _ => mret false
  end.

Definition verify_batch_receipt (settings : evidence_settings) (b : ping_batch) : result bool :=
  verify_receipt settings BATCH_RECEIPT_DOMAIN (mret (batch_receipt_value b)) (bt_receipt b).

Definition manifest_receipt_value (t : trip_row) : result cvalue :=
  verified_at ← require_some (tr_verified_at t) ValueError;
  ms ← epoch_milliseconds verified_at;
  mret (CDict [("format_version", CInt RECEIPT_FORMAT_VERSION);
               ("trip_id", CStr (uuid_str (tr_id t)));
               ("manifest_version", c_opt CInt (tr_manifest_version t));
               ("manifest_root_sha256", c_opt CStr (tr_manifest_root_sha256 t));
               ("batch_count", c_opt CInt (tr_manifest_batch_count t));
               ("ping_count", c_opt CInt (tr_manifest_ping_count t));
               ("verified_at_ms", CInt ms)]%string).

Definition with_verified_at (t : trip_session) (at_ : option Z) : trip_session :=
  TripSession (trip_id t) (trip_assignment_id t) (trip_campaign_id t) (trip_driver_profile_id t) (trip_vehicle_id t)
    (trip_status t) (trip_started_at t) (trip_ended_at t) at_.

(** The trip with its manifest verified and the receipt [receipt]. *)
Definition verified_trip (t : trip_row) (at_ : Z) (receipt : receipt_columns) : trip_row :=
  TripRow (with_verified_at (tr_session t) (Some at_)) (tr_started_by_user_id t) (tr_end_reason t)
    (tr_evidence_protocol_version t) (tr_manifest_version t) (tr_manifest_root_sha256 t) (tr_manifest_batch_count t)
    (tr_manifest_ping_count t) (tr_manifest_committed_at t) true receipt (tr_adjudicated_at t)
    (tr_adjudication_outcome t) (tr_adjudication_receipt t) (tr_grace_expired_at t) (tr_sealed_at t)
    (tr_seal_reason t) (tr_updated_at t).

Definition sign_manifest_receipt (settings : evidence_settings) (t : trip_row) : result receipt_columns :=
  k ← signing_key settings None;
  value ← manifest_receipt_value t;
  signature ← _signature MANIFEST_RECEIPT_DOMAIN value k.2;
  mret (ReceiptColumns (Some RECEIPT_FORMAT_VERSION) (Some k.1) (Some signature)).

Definition verify_manifest_receipt (settings : evidence_settings) (t : trip_row) : result bool :=
  if is_none (tr_verified_at t) then mret false
  else verify_receipt settings MANIFEST_RECEIPT_DOMAIN (manifest_receipt_value t) (tr_manifest_receipt t).

Definition INCOMPLETE_GRACE_EXPIRED : string := "incomplete_grace_expired".

Definition adjudication_receipt_value (t : trip_row) : result cvalue :=
  adjudicated_at ← require_some (tr_adjudicated_at t) ValueError;
  ms ← epoch_milliseconds adjudicated_at;
  mret (CDict [("format_version", CInt RECEIPT_FORMAT_VERSION);
               ("trip_id", CStr (uuid_str (tr_id t)));
               ("manifest_version", c_opt CInt (tr_manifest_version t));
               ("manifest_root_sha256", c_opt CStr (tr_manifest_root_sha256 t));
               ("batch_count", c_opt CInt (tr_manifest_batch_count t));
               ("ping_count", c_opt CInt (tr_manifest_ping_count t));
               ("manifest_complete", CBool false);
               ("outcome", c_opt CStr (tr_adjudication_outcome t));
               ("adjudicated_at_ms", CInt ms)]%string).

(** The trip adjudicated incomplete at [at_], with the receipt [receipt]. *)
Definition adjudicated_trip (t : trip_row) (at_ : Z) (receipt : receipt_columns) : trip_row :=
  TripRow (tr_session t) (tr_started_by_user_id t) (tr_end_reason t)
    (tr_evidence_protocol_version t) (tr_manifest_version t) (tr_manifest_root_sha256 t) (tr_manifest_batch_count t)
    (tr_manifest_ping_count t) (tr_manifest_committed_at t) (tr_manifest_complete t) (tr_manifest_receipt t) (Some at_)
    (Some INCOMPLETE_GRACE_EXPIRED) receipt (tr_grace_expired_at t) (tr_sealed_at t)
    (tr_seal_reason t) (tr_updated_at t).

Definition sign_adjudication_receipt (settings : evidence_settings) (t : trip_row) : result receipt_columns :=
  raise_if (negb (bool_decide (tr_adjudication_outcome t = Some INCOMPLETE_GRACE_EXPIRED))) ValueError ;;
  k ← signing_key settings None;
  value ← adjudication_receipt_value t;
  signature ← _signature ADJUDICATION_RECEIPT_DOMAIN value k.2;
  mret (ReceiptColumns (Some RECEIPT_FORMAT_VERSION) (Some k.1) (Some signature)).

Definition verify_adjudication_receipt (settings : evidence_settings) (t : trip_row) : result bool :=
  if is_none (tr_adjudicated_at t) then mret false
  else verify_receipt settings ADJUDICATION_RECEIPT_DOMAIN (adjudication_receipt_value t) (tr_adjudication_receipt t).

(** ** Completeness *)

Record manifest_completeness_result := ManifestCompleteness {
  mc_complete : bool;
  mc_missing_count : Z;
  mc_mismatch_count : Z;
  mc_undeclared_count : Z
}.

Definition manifest_batches {G} (db : trip_store F G) (trip : uuid) : list ping_batch :=
  List.filter (fun b => bool_decide (bt_trip_session_id b = trip) && bool_decide (bt_evidence_scope b = SCOPE_MANIFEST))
    (ts_batches db).
Definition declared_entries {G} (db : trip_store F G) (trip : uuid) : list manifest_entry :=
  stable_sort (fun a b => mn_batch_sequence a <=? mn_batch_sequence b)
    (List.filter (fun e => bool_decide (mn_trip_session_id e = trip)) (ts_entries db)).

(** [by_key.get(key)]: of batches with the same key the last. *)
Definition batch_by_key (batches : list ping_batch) (key : string) : option ping_batch :=
  find_row (fun b => bool_decide (bt_idempotency_key b = key)) (rev batches).

Definition entry_matches (b : ping_batch) (e : manifest_entry) : bool :=
  bool_decide (bt_batch_sequence b = Some (mn_batch_sequence e))
  && (bt_payload_hash_version b =? mn_payload_hash_version e)
  && bool_decide (bt_payload_hash b = mn_payload_hash e)
  && (bt_pings_submitted b =? mn_submitted_count e).

(** The missing and the mismatched entries. *)
Fixpoint compare_entries (settings : evidence_settings) (batches : list ping_batch) (entries : list manifest_entry)
    : result (Z * Z) :=
  match entries with
  | [] => mret (0, 0)
  | e :: rest =>
      counts ← match batch_by_key batches (mn_idempotency_key e) with
               | None => mret (1, 0)
               | Some b =>
                   if negb (entry_matches b e) then mret (0, 1)
                   else
                     valid ← verify_batch_receipt settings b;
                     mret (0, if valid : bool then 0 else 1)
               end;
      others ← compare_entries settings batches rest;
      mret (counts.1 + others.1, counts.2 + others.2)
  end.

Definition manifest_completeness {G} (settings : evidence_settings) (db : trip_store F G) (t : trip_row)
    : result manifest_completeness_result :=
  let entries := declared_entries db (tr_id t) in
  let batches := manifest_batches db (tr_id t) in
  counts ← compare_entries settings batches entries;
  let undeclared := Z.of_nat (length (List.filter
    (fun b => negb (bool_decide (bt_idempotency_key b ∈ mn_idempotency_key <$> entries))) batches)) in
  mret {| mc_complete := (Z.of_nat (length entries) =? default 0 (tr_manifest_batch_count t))
                         && (counts.1 =? 0) && (counts.2 =? 0) && (undeclared =? 0);
          mc_missing_count := counts.1; mc_mismatch_count := counts.2; mc_undeclared_count := undeclared |}.
End Evidence.
