(* ===== verification/Trips.v ===== *)
(** The trip services ([app/services/trips.py], the grace sweep of
    [app/services/trip_processing.py], the trip jobs of
    [app/jobs/trip_processing.py]): opening and ending a trip, receiving its
    location batches, reconciling its evidence, ending an abandoned trip. *)

From S2P Require Import Prelude Eligibility PayoutData DailyRate Ledger Engine Text Json DisbursementData Crypto Payees.
From S2P Require Import TripData TripEvidence.
From stdpp Require Import base list strings gmap.
From Stdlib Require Import ZArith QArith Lia.
#[local] Open Scope Z_scope.

(** ** Settings *)

Definition MAX_LOCATION_PINGS_PER_BATCH : Z := 500.
Definition LOCATION_PING_FUTURE_SKEW : Z := 300 * second.
Definition LOCATION_PING_START_SKEW : Z := 900 * second.
Definition LOCATION_PING_END_SKEW : Z := 300 * second.
Definition MAX_LOCATION_ACCURACY_M : Q := 10000 # 1.
Definition MAX_LOCATION_SPEED_MPS : Q := 120 # 1.
Definition TRIP_SEAL_GRACE : Z := 600 * second.
Definition WORKER_SWEEP_BATCH_SIZE : nat := 25.
Definition TRIP_AUTO_END_NO_LOCATION : Z := 2 * 60 * 60 * second.
Definition TRIP_AUTO_END_REASON : string := "auto_ended_no_location".

(** [utc_now()]: the clock to the millisecond. *)
Definition utc_now (clock : Z) : Z := clock - clock mod 1000.

Definition trip_not_found : exn := AppError "TRIP_NOT_FOUND" 404.
Definition trip_already_ended (status_code : Z) : exn := AppError "TRIP_ALREADY_ENDED" status_code.

(** ** Changed rows *)

Definition with_status (t : trip_session) (status : trip_session_status) (ended_at : option Z) : trip_session :=
  TripSession (trip_id t) (trip_assignment_id t) (trip_campaign_id t) (trip_driver_profile_id t) (trip_vehicle_id t)
    status (trip_started_at t) ended_at (evidence_manifest_verified_at t).

(** Ended, with the manifest of the given root, size and ping count committed. *)
Definition ended_trip (t : trip_row) (ended_at : Z) (reason : option string) (root : string) (batch_count ping_count at_ : Z)
    : trip_row :=
  TripRow (with_status (tr_session t) TRIP_ENDED (Some ended_at)) (tr_started_by_user_id t) reason
    (tr_evidence_protocol_version t) (Some MANIFEST_VERSION) (Some root) (Some batch_count) (Some ping_count) (Some at_)
    (tr_manifest_complete t) (tr_manifest_receipt t) (tr_adjudicated_at t) (tr_adjudication_outcome t)
    (tr_adjudication_receipt t) (tr_grace_expired_at t) (tr_sealed_at t) (tr_seal_reason t) at_.

Definition sealed_trip (t : trip_row) (reason : trip_seal_reason) (at_ : Z) : trip_row :=
  TripRow (with_status (tr_session t) TRIP_SEALED (trip_ended_at (tr_session t))) (tr_started_by_user_id t)
    (tr_end_reason t) (tr_evidence_protocol_version t) (tr_manifest_version t) (tr_manifest_root_sha256 t)
    (tr_manifest_batch_count t) (tr_manifest_ping_count t) (tr_manifest_committed_at t) (tr_manifest_complete t)
    (tr_manifest_receipt t) (tr_adjudicated_at t) (tr_adjudication_outcome t) (tr_adjudication_receipt t)
    (tr_grace_expired_at t) (Some at_) (Some reason) at_.

Definition grace_trip (t : trip_row) (at_ : Z) : trip_row :=
  TripRow (tr_session t) (tr_started_by_user_id t) (tr_end_reason t) (tr_evidence_protocol_version t)
    (tr_manifest_version t) (tr_manifest_root_sha256 t) (tr_manifest_batch_count t) (tr_manifest_ping_count t)
    (tr_manifest_committed_at t) (tr_manifest_complete t) (tr_manifest_receipt t) (tr_adjudicated_at t)
    (tr_adjudication_outcome t) (tr_adjudication_receipt t) (Some at_) (tr_sealed_at t) (tr_seal_reason t)
    (tr_updated_at t).

Definition touched_trip (t : trip_row) (at_ : Z) : trip_row :=
  TripRow (tr_session t) (tr_started_by_user_id t) (tr_end_reason t) (tr_evidence_protocol_version t)
    (tr_manifest_version t) (tr_manifest_root_sha256 t) (tr_manifest_batch_count t) (tr_manifest_ping_count t)
    (tr_manifest_committed_at t) (tr_manifest_complete t) (tr_manifest_receipt t) (tr_adjudicated_at t)
    (tr_adjudication_outcome t) (tr_adjudication_receipt t) (tr_grace_expired_at t) (tr_sealed_at t) (tr_seal_reason t)
    at_.

(** A trip that starts. *)
Definition new_trip (i : uuid) (a : campaign_assignment) (user : uuid) (now : Z) : trip_row :=
  TripRow (TripSession i (as_id a) (as_campaign_id a) (as_driver_profile_id a) (as_vehicle_id a) TRIP_ACTIVE now None None)
    user None 2 None None None None None false no_receipt None None no_receipt None None None now.

Section Trips.
Context `{Sha256} `{HmacSha256}.
Context {F : Type} `{PyFloat F} {G : Type}.
Context (float_bits : F -> N) (st_make_point : F -> F -> G).

(** ** Looking up *)

Definition get_trip (db : trip_store F G) (i : uuid) : option trip_row := find_by_key tr_id i (ts_trips db).

Definition get_driver_profile_for_user (db : payout_store) (user : uuid) : result driver_profile :=
  require_some (find_row (fun p => bool_decide (dp_user_id p = user)) (st_profiles db))
    (AppError "DRIVER_PROFILE_NOT_FOUND" 404).

Definition get_driver_trip (db : trip_store F G) (user i : uuid) : result trip_row :=
  profile ← get_driver_profile_for_user (ts_payout db) user;
  require_some (find_row (fun t => bool_decide (tr_id t = i)
                                   && bool_decide (trip_driver_profile_id (tr_session t) = dp_id profile)) (ts_trips db))
    trip_not_found.

Definition ensure_assignment_active (a : campaign_assignment) : result unit :=
  raise_if (negb (bool_decide (as_status a = ASSIGNMENT_ACTIVE))) (AppError "CAMPAIGN_ASSIGNMENT_NOT_ACTIVE" 400).

(** ** Starting *)

Definition is_active_with {A} `{EqDecision A} (f : trip_session -> A) (v : A) (t : trip_row) : bool :=
  bool_decide (f (tr_session t) = v) && bool_decide (tr_status t = TRIP_ACTIVE).

Definition ensure_no_active_trip_for_driver_or_vehicle (db : trip_store F G) (driver vehicle : uuid) : result unit :=
  raise_if (existsb (is_active_with trip_driver_profile_id driver) (ts_trips db))
    (AppError "ACTIVE_TRIP_EXISTS_FOR_DRIVER" 409) ;;
  raise_if (existsb (is_active_with trip_vehicle_id vehicle) (ts_trips db))
    (AppError "ACTIVE_TRIP_EXISTS_FOR_VEHICLE" 409).

(** Both exclusivity indexes answer with the code of the check that guards
    them. *)
Definition _add_trip_translating_exclusivity_conflict (db : trip_store F G) (t : trip_row) : result (trip_store F G) :=
  match flush_trip t db with
  | Raise e =>
      if bool_decide (e = IntegrityError "uq_trip_sessions_driver_profile_active")
      then Raise (AppError "ACTIVE_TRIP_EXISTS_FOR_DRIVER" 409)
      else if bool_decide (e = IntegrityError "uq_trip_sessions_vehicle_active")
      then Raise (AppError "ACTIVE_TRIP_EXISTS_FOR_VEHICLE" 409)
      else Raise e
  | Ok db => mret db
  end.

(** The end of [start_driver_trip], once the campaign, the driver, the vehicle
    and the activation have been checked: the check for active trips, then the
    row; [arrived] are trips committed in between. *)
Definition open_trip (db : trip_store F G) (arrived : list trip_row) (a : campaign_assignment) (user : uuid) (now : Z)
    : result (trip_row * trip_store F G) :=
  ensure_assignment_active a ;;
  ensure_no_active_trip_for_driver_or_vehicle db (as_driver_profile_id a) (as_vehicle_id a) ;;
  let db := set_trips (fun l => l ++ arrived) db in
  let t := new_trip (uuid4 (tr_id <$> ts_trips db)) a user now in
  db ← _add_trip_translating_exclusivity_conflict db t;
  mret (t, db).

(** ** Sealing *)

(** The guarded update: only an ended trip is sealed. *)
Definition try_seal_trip (db : trip_store F G) (t : trip_row) (reason : trip_seal_reason) (now : Z) (actor : option uuid)
    : result (trip_row * bool * trip_store F G) :=
  match get_trip db (tr_id t) with
  | Some row =>
      if bool_decide (tr_status row = TRIP_ENDED) then
        let row := sealed_trip row reason now in
        db ← update_trip row db;
        mret (row, true, audit_trip actor "trip.sealed" "trip_session" (tr_id t) db)
      else mret (t, false, db)
  | None => mret (t, false, db)
  end.

(** The manifest of a trip is verified: the receipt is signed and the trip
    sealed. *)
Definition verify_and_seal (settings : evidence_settings) (db : trip_store F G) (t : trip_row) (reason : trip_seal_reason)
    (now : Z) (actor : option uuid) : result (trip_row * bool * trip_store F G) :=
  receipt ← sign_manifest_receipt settings (verified_trip t now (tr_manifest_receipt t));
  let t := verified_trip t now receipt in
  db ← update_trip t db;
  try_seal_trip db t reason now actor.

(** ** Ending *)

Definition entry_of (trip i : uuid) (e : manifest_entry_create) : manifest_entry :=
  ManifestEntry i trip (me_batch_sequence e) (me_idempotency_key e) (me_payload_hash_version e) (me_payload_hash e)
    (me_submitted_count e).

Fixpoint add_entries (db : trip_store F G) (trip : uuid) (entries : list manifest_entry_create) : result (trip_store F G) :=
  match entries with
  | [] => mret db
  | e :: rest =>
      db ← flush_entry (entry_of trip (uuid4 (mn_id <$> ts_entries db)) e) db;
      add_entries db trip rest
  end.

Definition manifest_required : exn := AppError "TRIP_EVIDENCE_MANIFEST_REQUIRED" 409.

(** The manifest of the request; without one an empty manifest, when nothing was
    uploaded. *)
Definition requested_manifest (trip : uuid) (existing : list ping_batch) (payload : trip_end_request)
    : result manifest_create :=
  match te_evidence_manifest payload with
  | Some m => mret m
  | None =>
      raise_if (negb (bool_decide (existing = []))) manifest_required ;;
      root ← manifest_root trip [] 0;
      mret (ManifestCreate 2 root 0 false [])
  end.

(** [descriptors.get(key)]: of entries with the same key the last. *)
Definition descriptor_for (m : manifest_create) (key : string) : option manifest_entry_create :=
  find_row (fun e => bool_decide (me_idempotency_key e = key)) (rev (mf_entries m)).

Definition descriptor_matches (b : ping_batch) (e : manifest_entry_create) : bool :=
  bool_decide (bt_batch_sequence b = Some (me_batch_sequence e))
  && (me_payload_hash_version e =? bt_payload_hash_version b)
  && bool_decide (me_payload_hash e = bt_payload_hash b)
  && (me_submitted_count e =? bt_pings_submitted b).

Definition batch_declared (m : manifest_create) (b : ping_batch) : bool :=
  match descriptor_for m (bt_idempotency_key b) with
  | Some e => descriptor_matches b e
  | None => false
  end.

Definition end_driver_trip (settings : evidence_settings) (db : trip_store F G) (user i : uuid) (payload : trip_end_request)
    (clock : Z) : result (trip_row * bool * trip_store F G) :=
  t ← get_driver_trip db user i;
  let now := utc_now clock in
  raise_if (negb (bool_decide (tr_status t = TRIP_ACTIVE))) (trip_already_ended 400) ;;
  signing_key settings None ;;
  let existing := manifest_batches db i in
  manifest ← requested_manifest i existing payload;
  validate_manifest i manifest ;;
  raise_if (negb (forallb (batch_declared manifest) existing)) manifest_invalid ;;
  db ← add_entries db i (mf_entries manifest);
  let t := ended_trip t now (te_end_reason payload) (mf_root_sha256 manifest) (Z.of_nat (length (mf_entries manifest)))
             (mf_ping_count manifest) now in
  db ← update_trip t db;
  completeness ← manifest_completeness settings db t;
  if mf_complete manifest && mc_complete completeness
  then verify_and_seal settings db t CLIENT_COMPLETE now (Some user)
  else mret (t, false, db).

(** ** Ending an abandoned trip *)

(** The last receipt of a batch, or the start. *)
Definition _last_location_at (db : trip_store F G) (t : trip_row) : Z :=
  match bt_received_at <$> List.filter (fun b => bool_decide (bt_trip_session_id b = tr_id t)) (ts_batches db) with
  | [] => trip_started_at (tr_session t)
  | at_ :: rest => foldl Z.max at_ rest
  end.

Definition started_leb (a b : trip_row) : bool :=
  (trip_started_at (tr_session a) <? trip_started_at (tr_session b))
  || ((trip_started_at (tr_session a) =? trip_started_at (tr_session b)) && (tr_id a <=? tr_id b)%N).

Definition find_trips_to_auto_end (db : trip_store F G) (now : Z) (limit : nat) : list uuid :=
  tr_id <$> take limit (stable_sort started_leb
    (List.filter (fun t => bool_decide (tr_status t = TRIP_ACTIVE)
                           && (_last_location_at db t <=? now - TRIP_AUTO_END_NO_LOCATION)) (ts_trips db))).

(** The manifest entry of a batch that was received. *)
Definition descriptor_of (b : ping_batch) : result manifest_entry_create :=
  sequence ← require_some (bt_batch_sequence b) ValueError;
  mret (ManifestEntryCreate sequence (bt_idempotency_key b) (bt_payload_hash_version b) (bt_payload_hash b)
          (bt_pings_submitted b)).

Definition sequence_leb (a b : ping_batch) : bool :=
  match bt_batch_sequence a, bt_batch_sequence b with
  | Some x, Some y => x <=? y
  | Some _, None => true
  | None, Some _ => false
  | None, None => true
  end.

Definition auto_end_inactive_trip (settings : evidence_settings) (db : trip_store F G) (i : uuid) (now : Z)
    : result (bool * trip_store F G) :=
  match get_trip db i with
  | None => mret (false, db)
  | Some t =>
      if negb (bool_decide (tr_status t = TRIP_ACTIVE)) then mret (false, db)
      else
        let last_location_at := _last_location_at db t in
        if now - TRIP_AUTO_END_NO_LOCATION <? last_location_at then mret (false, db)
        else
          signing_key settings None ;;
          entries ← each_of descriptor_of (stable_sort sequence_leb (manifest_batches db i));
          let ping_count := sum_by me_submitted_count entries in
          db ← add_entries db i entries;
          root ← manifest_root i entries ping_count;
          let t := ended_trip t last_location_at (Some TRIP_AUTO_END_REASON) root (Z.of_nat (length entries)) ping_count now in
          db ← update_trip t db;
          let db := audit_trip None "trip.auto_ended" "trip_session" i db in
          completeness ← manifest_completeness settings db t;
          if negb (mc_complete completeness) then mret (false, db)
          else
            r ← verify_and_seal settings db t AUTO_ENDED now None;
            mret (r.1.2, r.2)
  end.

(** ** Receiving locations *)

Definition ensure_ping_batch_size (payload : ping_batch_create F) : result unit :=
  raise_if (MAX_LOCATION_PINGS_PER_BATCH <? Z.of_nat (length (lb_pings payload)))
    (AppError "LOCATION_PING_BATCH_TOO_LARGE" 400).

Definition minimum (l : list Z) : option Z :=
  match l with [] => None | x :: rest => Some (foldl Z.min x rest) end.

Definition capture_cancellation_at (db : trip_store F G) (a : campaign_assignment) : option Z :=
  let events := List.filter (fun e => bool_decide (ev_assignment_id e = as_id a)
                                      && bool_decide (ev_event_type e = EVENT_CANCELLED)) (ts_activations db) in
  minimum (option_list (minimum (ev_occurred_at <$> events)) ++ option_list (as_cancelled_at a)).

Definition event_leb (a b : campaign_activation_event) : bool :=
  (ev_occurred_at a <? ev_occurred_at b) || ((ev_occurred_at a =? ev_occurred_at b) && (ev_id a <=? ev_id b)%N).

(** The intervals between a deactivation and the activation after it. *)
Fixpoint lapses_of (events : list campaign_activation_event) (lapsed_at : option Z) : list (Z * option Z) :=
  match events with
  | [] => match lapsed_at with Some at_ => [(at_, None)] | None => [] end
  | e :: rest =>
      if bool_decide (ev_event_type e = EVENT_DEACTIVATED) then lapses_of rest (Some (ev_occurred_at e))
      else
        match lapsed_at with
        | Some at_ =>
            if at_ <=? ev_occurred_at e then (at_, Some (ev_occurred_at e)) :: lapses_of rest None
            else lapses_of rest lapsed_at
        | None => lapses_of rest None
        end
  end.

Definition capture_authority_lapses (db : trip_store F G) (a : campaign_assignment) : list (Z * option Z) :=
  match as_deactivated_at a with
  | None => []
  | Some deactivated_at =>
      let events := stable_sort event_leb
        (List.filter (fun e => bool_decide (ev_assignment_id e = as_id a)
                               && (bool_decide (ev_event_type e = EVENT_DEACTIVATED)
                                   || bool_decide (ev_event_type e = EVENT_ACTIVATED))) (ts_activations db)) in
      match lapses_of events None with
      | [] =>
          [(deactivated_at,
            match as_activated_at a with
            | Some activated_at => if deactivated_at <=? activated_at then Some activated_at else None
            | None => None
            end)]
      | lapses => lapses
      end
  end.

Definition in_lapse (at_ : Z) (lapse : Z * option Z) : bool :=
  (lapse.1 <=? at_) && match lapse.2 with Some resumed => at_ <? resumed | None => true end.

(** A request's times are instants of microseconds. *)
Definition classify_ping (t : trip_session) (p : location_ping_create F) (now : Z) (lapses : list (Z * option Z))
    (cancelled_at : option Z) : option ping_rejection_code :=
  let recorded_at := lc_recorded_at p in
  if now + LOCATION_PING_FUTURE_SKEW <? recorded_at then Some INVALID_RECORDED_AT
  else if recorded_at <? trip_started_at t - LOCATION_PING_START_SKEW then Some INVALID_RECORDED_AT
  else if match trip_ended_at t with Some ended => ended + LOCATION_PING_END_SKEW <? recorded_at | None => false end
  then Some INVALID_RECORDED_AT
  else if match cancelled_at with Some c => c <=? recorded_at | None => false end
  then Some INVALID_ASSIGNMENT_AUTHORITY
  else if existsb (in_lapse recorded_at) lapses then Some INVALID_ASSIGNMENT_AUTHORITY
  else if match lc_accuracy_m p with Some a => f_ltb (f_lit MAX_LOCATION_ACCURACY_M) a | None => false end
  then Some INVALID_ACCURACY
  else if match lc_speed_mps p with Some v => f_ltb (f_lit MAX_LOCATION_SPEED_MPS) v | None => false end
  then Some INVALID_SPEED
  else None.

(** The Lagos days of a late delivery: those of the trip and of its samples. *)
Definition affected_days (t : trip_session) (payload : ping_batch_create F) : list Z :=
  let first := lagos_date (trip_started_at t) in
  let last := lagos_date (default (trip_started_at t) (trip_ended_at t)) in
  sorted_set (seqZ first (last - first + 1) ++ ((fun p => lagos_date (lc_recorded_at p)) <$> lb_pings payload)).

(** Pay has been calculated for a trip of the driver on one of the days. *)
Definition pay_calculated (db : trip_store F G) (driver campaign : uuid) (days : list Z) : bool :=
  existsb (fun c => bool_decide (pc_driver_profile_id c = driver) && bool_decide (pc_campaign_id c = campaign)
    && match get_trip db (pc_trip_session_id c) with
       | Some t => existsb (fun d => (trip_started_at (tr_session t) <? (lagos_day_utc_range d).2)
                                     && match trip_ended_at (tr_session t) with
                                        | Some ended => (lagos_day_utc_range d).1 <=? ended
                                        | None => false
                                        end) days
       | None => false
       end) (st_calculations (ts_payout db)).

Definition _late_pay_calculated (db : trip_store F G) (t : trip_session) (payload : ping_batch_create F) : bool :=
  pay_calculated db (trip_driver_profile_id t) (trip_campaign_id t) (affected_days t payload).

(** The batch a key was used for. *)
Definition find_batch (db : trip_store F G) (trip : uuid) (key : string) : option ping_batch :=
  find_row (fun b => bool_decide (bt_trip_session_id b = trip) && bool_decide (bt_idempotency_key b = key))
    (ts_batches db).

(** The answer to a key that was used before. *)
Definition replayed_batch (settings : evidence_settings) (b : ping_batch) (digest : string) (sequence : Z) : result ping_batch :=
  let conflict := AppError "IDEMPOTENCY_KEY_CONFLICT" 409 in
  raise_if (negb (bool_decide (bt_payload_hash b = digest))
            || negb (bool_decide (bt_batch_sequence b = Some sequence))) conflict ;;
  valid ← verify_batch_receipt settings b;
  raise_if (negb valid) conflict ;;
  mret b.

Definition find_entry (db : trip_store F G) (trip : uuid) (key : string) : option manifest_entry :=
  find_row (fun e => bool_decide (mn_trip_session_id e = trip) && bool_decide (mn_idempotency_key e = key))
    (ts_entries db).

(** In the recovery window a batch must be one the manifest declares. *)
Definition ensure_declared (db : trip_store F G) (trip : uuid) (payload : ping_batch_create F) (digest : string) (sequence : Z)
    : result unit :=
  raise_if (match find_entry db trip (lb_idempotency_key payload) with
            | None => true
            | Some e => negb ((mn_batch_sequence e =? sequence) && (mn_payload_hash_version e =? BATCH_HASH_VERSION)
                              && bool_decide (mn_payload_hash e = digest)
                              && (mn_submitted_count e =? Z.of_nat (length (lb_pings payload))))
            end) (AppError "TRIP_EVIDENCE_BATCH_UNDECLARED" 409).

Definition rejection_error (c : ping_rejection_code) : exn := AppError (rejection_code_value c) 400.

Definition rejected_samples (dropped : bool) (t : trip_session) (payload : ping_batch_create F) (received_at : Z)
    (lapses : list (Z * option Z)) (cancelled_at : option Z) : list (option ping_rejection_code) :=
  (fun p => if dropped then Some PAY_ALREADY_CALCULATED else classify_ping t p received_at lapses cancelled_at)
  <$> lb_pings payload.

Definition accepted_samples (pings : list (location_ping_create F)) (rejections : list (option ping_rejection_code))
    : list (location_ping_create F) :=
  fst <$> List.filter (fun r => is_none r.2) (zip pings rejections).

Definition ping_of (trip batch i : uuid) (received_at : Z) (p : location_ping_create F) : ping_row F G :=
  PingRow batch
    {| lp_id := i; lp_trip_session_id := trip; lp_recorded_at := lc_recorded_at p;
       lp_sequence_number := lc_sequence_number p; lp_latitude := lc_lat p; lp_longitude := lc_lon p;
       lp_accuracy_m := lc_accuracy_m p; lp_geom := st_make_point (lc_lon p) (lc_lat p); lp_created_at := received_at |}.

Fixpoint add_pings (db : trip_store F G) (trip batch : uuid) (received_at : Z) (pings : list (location_ping_create F))
    : result (trip_store F G) :=
  match pings with
  | [] => mret db
  | p :: rest =>
      db ← flush_ping (ping_of trip batch (uuid4 ((fun r => lp_id (pr_ping r)) <$> ts_pings db)) received_at p) db;
      add_pings db trip batch received_at rest
  end.

(** The batch row before its receipt. *)
Definition batch_of_payload (i trip : uuid) (payload : ping_batch_create F) (sequence : Z) (digest : string)
    (scope : evidence_scope) (rejections : list (option ping_rejection_code)) (rejection_digest : string)
    (received_at : Z) (cutoff : option Z) : ping_batch :=
  let accepted := accepted_samples (lb_pings payload) rejections in
  let submitted := Z.of_nat (length (lb_pings payload)) in
  PingBatch i trip (lb_idempotency_key payload) (Some sequence) BATCH_HASH_VERSION digest submitted
    (Z.of_nat (length accepted)) (submitted - Z.of_nat (length accepted)) scope no_receipt None
    (Some (rejection_manifest_document (zip (lc_sequence_number <$> lb_pings payload) rejections)))
    (Some rejection_digest) received_at
    ((fun c => (c, Z.of_nat (length (List.filter (fun p => c <? lc_recorded_at p) accepted)))) <$> cutoff).

(** The trip is closed: sealed, or adjudicated incomplete. *)
Definition is_closed (t : trip_row) : bool := bool_decide (tr_status t = TRIP_SEALED) || given (tr_adjudicated_at t).

Definition batch_scope (t : trip_row) (dropped : bool) : evidence_scope :=
  if dropped then SCOPE_LATE_DROPPED else if is_closed t then SCOPE_LATE else SCOPE_MANIFEST.

Definition sequence_taken (db : trip_store F G) (trip : uuid) (sequence : Z) : bool :=
  existsb (fun b => bool_decide (bt_batch_sequence b = Some sequence)) (manifest_batches db trip).

(** Storing a batch that passed the gates. *)
Definition store_batch (settings : evidence_settings) (db : trip_store F G) (t : trip_row) (user : uuid)
    (payload : ping_batch_create F) (sequence : Z) (digest : string) (dropped : bool)
    (rejections : list (option ping_rejection_code)) (received_at : Z) (cutoff : option Z)
    : result (ping_batch * trip_store F G) :=
  let scope := batch_scope t dropped in
  rejection_digest ← rejection_manifest_digest
    (rejection_manifest_document (zip (lc_sequence_number <$> lb_pings payload) rejections));
  let batch := batch_of_payload (uuid4 (bt_id <$> ts_batches db)) (tr_id t) payload sequence digest scope rejections
                 rejection_digest received_at (if dropped then None else cutoff) in
  db ← flush_ping_batch batch db;
  db ← add_pings db (tr_id t) (bt_id batch) received_at (accepted_samples (lb_pings payload) rejections);
  db ← (if dropped then mret db else update_trip (touched_trip t received_at) db);
  batch ← sign_batch_receipt settings batch dropped;
  let db := if bool_decide (scope = SCOPE_MANIFEST) then db
            else audit_trip (Some user) (if dropped then "trip.late_data.dropped" else "trip.late_data.accepted")
                   "location_ping_batch" (bt_id batch) db in
  db ← update_ping_batch batch db;
  mret (batch, db).

(** [ValueError] of the hash is answered with its own code. *)
Definition payload_digest (payload : ping_batch_create F) : result string :=
  match batch_payload_hash float_bits payload with
  | Raise ValueError => Raise (AppError "TRIP_EVIDENCE_TIMESTAMP_PRECISION_INVALID" 400)
  | r => r
  end.

(** What a batch with a new key must pass, and its storage. *)
Definition admit_batch (settings : evidence_settings) (db : trip_store F G) (t : trip_row) (a : campaign_assignment)
    (user : uuid) (payload : ping_batch_create F) (sequence : Z) (digest : string) (clock : Z)
    : result (ping_batch * trip_store F G) :=
  raise_if (bool_decide (tr_seal_reason t = Some AUTO_ENDED)) (trip_already_ended 409) ;;
  ensure_ping_batch_size payload ;;
  let received_at := utc_now clock in
  (if bool_decide (tr_status t = TRIP_ENDED) && is_none (tr_adjudicated_at t)
   then ensure_declared db (tr_id t) payload digest sequence else mret tt) ;;
  let dropped := negb (bool_decide (tr_status t = TRIP_ACTIVE)) && _late_pay_calculated db (tr_session t) payload in
  raise_if (bool_decide (batch_scope t dropped = SCOPE_MANIFEST) && sequence_taken db (tr_id t) sequence)
    (AppError "TRIP_EVIDENCE_BATCH_SEQUENCE_TAKEN" 409) ;;
  let rejections := rejected_samples dropped (tr_session t) payload received_at (capture_authority_lapses db a)
                      (capture_cancellation_at db a) in
  match omap id rejections, accepted_samples (lb_pings payload) rejections, dropped with
  | c :: _, [], false => Raise (rejection_error c)
  | _, _, _ => store_batch settings db t user payload sequence digest dropped rejections received_at
                 (campaign_financial_cutoff (ts_payout db) (trip_campaign_id (tr_session t)))
  end.

(** The flag says whether the batch had been received before. *)
Definition ingest_location_ping_batch (settings : evidence_settings) (db : trip_store F G) (user i : uuid)
    (payload : ping_batch_create F) (clock : Z) : result (ping_batch * bool * trip_store F G) :=
  t ← get_driver_trip db user i;
  let cutoff := campaign_financial_cutoff (ts_payout db) (trip_campaign_id (tr_session t)) in
  a ← require_some (find_by_key as_id (trip_assignment_id (tr_session t)) (ts_assignments db)) trip_not_found;
  (if bool_decide (tr_status t = TRIP_ACTIVE) && is_none cutoff then ensure_assignment_active a else mret tt) ;;
  signing_key settings None ;;
  sequence ← require_some (lb_batch_sequence payload) (AppError "TRIP_EVIDENCE_BATCH_SEQUENCE_REQUIRED" 409);
  digest ← payload_digest payload;
  match find_batch db i (lb_idempotency_key payload) with
  | Some b => b ← replayed_batch settings b digest sequence; mret (b, true, db)
  | None => r ← admit_batch settings db t a user payload sequence digest clock; mret (r.1, false, r.2)
  end.

(** ** Reconciling *)

(** The trip adjudicated incomplete, with its receipt signed. *)
Definition adjudicate (settings : evidence_settings) (t : trip_row) (now : Z) : result trip_row :=
  receipt ← sign_adjudication_receipt settings (adjudicated_trip t now (tr_adjudication_receipt t));
  mret (adjudicated_trip t now receipt).

Definition receipt_invalid : exn := AppError "TRIP_EVIDENCE_RECEIPT_INVALID" 409.

Definition reconcile_open_trip (settings : evidence_settings) (db : trip_store F G) (t : trip_row) (user : uuid) (now : Z)
    : result (trip_row * bool * trip_store F G) :=
  completeness ← manifest_completeness settings db t;
  if negb (mc_complete completeness) then
    raise_if (is_none (tr_grace_expired_at t)) (AppError "TRIP_EVIDENCE_INCOMPLETE" 409) ;;
    t ← adjudicate settings t now;
    db ← update_trip t db;
    mret (t, true, db)
  else
    r ← verify_and_seal settings db t LATE_DATA_COMPLETE now (Some user);
    mret (r.1.1, false, r.2).

(** The trip, whether it had been decided before, whether it is adjudicated. *)
Definition reconcile_trip_evidence (settings : evidence_settings) (db : trip_store F G) (user i : uuid) (clock : Z)
    : result (trip_row * bool * bool * trip_store F G) :=
  t ← get_driver_trip db user i;
  raise_if (is_none (tr_manifest_root_sha256 t)) manifest_required ;;
  raise_if (bool_decide (tr_status t = TRIP_ACTIVE)) (AppError "TRIP_EVIDENCE_RECONCILE_NOT_READY" 409) ;;
  signing_key settings None ;;
  if given (tr_verified_at t) then
    valid ← verify_manifest_receipt settings t;
    raise_if (negb valid) receipt_invalid ;;
    mret (t, true, false, db)
  else if given (tr_adjudicated_at t) then
    valid ← verify_adjudication_receipt settings t;
    raise_if (negb valid) receipt_invalid ;;
    mret (t, true, true, db)
  else
    r ← reconcile_open_trip settings db t user (utc_now clock);
    mret (r.1.1, false, r.1.2, r.2).

(** ** The grace sweep *)

Definition ended_leb (a b : trip_row) : bool :=
  match trip_ended_at (tr_session a), trip_ended_at (tr_session b) with
  | Some x, Some y => (x <? y) || ((x =? y) && (tr_id a <=? tr_id b)%N)
  | Some _, None => true
  | None, Some _ => false
  | None, None => (tr_id a <=? tr_id b)%N
  end.

Definition grace_due (now : Z) (t : trip_row) : bool :=
  bool_decide (tr_status t = TRIP_ENDED)
  && match trip_ended_at (tr_session t) with Some ended => ended <=? now - TRIP_SEAL_GRACE | None => false end
  && is_none (tr_grace_expired_at t).

Definition due_trips (db : trip_store F G) (now : Z) : list trip_row :=
  take WORKER_SWEEP_BATCH_SIZE (stable_sort ended_leb (List.filter (grace_due now) (ts_trips db))).

(** One trip of the sweep: its window is over, and incomplete evidence is
    adjudicated. *)
Definition expire_grace (settings : evidence_settings) (db : trip_store F G) (t : trip_row) (now : Z)
    : result (trip_store F G) :=
  let t := grace_trip t now in
  db ← update_trip t db;
  let db := audit_trip None "trip.evidence_grace_expired" "trip_session" (tr_id t) db in
  if is_none (tr_manifest_root_sha256 t) then mret db
  else
    completeness ← manifest_completeness settings db t;
    if mc_complete completeness then mret db
    else
      t ← adjudicate settings t now;
      db ← update_trip t db;
      mret (audit_trip None "trip.evidence_adjudicated_incomplete" "trip_session" (tr_id t) db).

Fixpoint expire_all (settings : evidence_settings) (db : trip_store F G) (trips : list trip_row) (now : Z)
    : result (trip_store F G) :=
  match trips with
  | [] => mret db
  | t :: rest => db ← expire_grace settings db t now; expire_all settings db rest now
  end.

Definition seal_due_trips (settings : evidence_settings) (db : trip_store F G) (now : Z) : result (list uuid * trip_store F G) :=
  let trips := due_trips db now in
  db ← expire_all settings db trips now;
  mret (tr_id <$> trips, db).

(** One transaction for each abandoned trip; a failure leaves the others. *)
Fixpoint auto_end_all (settings : evidence_settings) (db : trip_store F G) (trips : list uuid) (now : Z)
    : list uuid * trip_store F G :=
  match trips with
  | [] => ([], db)
  | i :: rest =>
      match auto_end_inactive_trip settings db i now with
      | Ok (sealed, db) =>
          let r := auto_end_all settings db rest now in
          (if sealed then i :: r.1 else r.1, r.2)
      | Raise _ => auto_end_all settings db rest now
      end
  end.

Definition _auto_end_inactive_trips (settings : evidence_settings) (db : trip_store F G) (clock : Z)
    : list uuid * trip_store F G :=
  let now := utc_now clock in
  auto_end_all settings db (find_trips_to_auto_end db now WORKER_SWEEP_BATCH_SIZE) now.

(** The sweep at the database's clock, then the abandoned trips at the
    application's; a failed sweep ends the job. *)
Definition seal_ended_trips_job (settings : evidence_settings) (db : trip_store F G) (database_now clock : Z)
    : result (list uuid * list uuid) * trip_store F G :=
  match seal_due_trips settings db database_now with
  | Raise e => (Raise e, db)
  | Ok (marked, db) =>
      let r := _auto_end_inactive_trips settings db clock in
      (Ok (marked, r.1), r.2)
  end.
End Trips.
