(* ===== verification/TripCodec.v ===== *)
(** The canonical encoding of TripEvidence tells values apart: a prefix code, up to
    the order of members and the sign of zero.  A proof file over TripEvidence. *)

From S2P Require Import Prelude Eligibility PayoutData DailyRate Ledger Engine Text Json DisbursementData Crypto TripData TripEvidence.
From stdpp Require Import base list strings gmap.
From Stdlib Require Import ZArith Lia Ascii Sorted.
#[local] Open Scope Z_scope.

(** ** Values up to encoding *)

(** The 8 bytes of a packed float. *)
Definition packed_double (bits : N) : N := (normalized_double bits mod 2 ^ 64)%N.

(** Members in the order of their keys, floats as they are packed. *)
Definition by_key {A} (a b : string * A) : bool := String.leb a.1 b.1.

Fixpoint normal (v : cvalue) : cvalue :=
  match v with
  | CFloat bits => CFloat (packed_double bits)
  | CList items => CList (map normal items)
  | CDict members => CDict (stable_sort by_key (map (fun m => (m.1, normal m.2)) members))
  | v => v
  end.

Lemma cvalue_nested_ind (P : cvalue -> Prop) :
  P CNone -> (forall b, P (CBool b)) -> (forall n, P (CInt n)) -> (forall bits, P (CFloat bits)) ->
  (forall s, P (CStr s)) -> (forall l, Forall P l -> P (CList l)) ->
  (forall l, Forall (fun m => P m.2) l -> P (CDict l)) -> forall v, P v.
Proof.
  intros Hn Hb Hi Hf Hs Hl Hd. fix IH 1.
  intros [|b|n|bits|s|items|members]; [exact Hn|apply Hb|apply Hi|apply Hf|apply Hs|apply Hl|apply Hd].
  - induction items as [|x items IHl]; constructor; [apply IH|exact IHl].
  - induction members as [|[k x] members IHl]; constructor; [apply IH|exact IHl].
Qed.

(** One member of an object, with its key. *)
Definition member_bytes (m : string * cvalue) : result (string * string) :=
  k ← canonical_str m.1; a ← canonical_bytes m.2; mret (m.1, (k +:+ a)%string).

Lemma canonical_list items :
  canonical_bytes (CList items) =
  (u ← _u32 (Z.of_nat (length items));
   parts ← each_of canonical_bytes items; mret ("a" +:+ u +:+ concat_str parts)%string).
Proof.
  cbn [canonical_bytes]. destruct (_u32 _) as [u|e]; [|done]. cbn. f_equal.
  induction items as [|x l IH]; [done|]. cbn. destruct (canonical_bytes x); [|done]. cbn. by rewrite IH.
Qed.

Lemma canonical_dict members :
  canonical_bytes (CDict members) =
  (u ← _u32 (Z.of_nat (length members));
   parts ← each_of member_bytes members;
   mret ("o" +:+ u +:+ concat_str (snd <$> stable_sort key_leb parts))%string).
Proof.
  cbn [canonical_bytes]. destruct (_u32 _) as [u|e]; [|done]. cbn [mbind result_bind]. f_equal.
  induction members as [|[k x] l IH]; [done|]. cbn [each_of]. rewrite <- IH.
  unfold member_bytes. cbn [fst snd]. destruct (canonical_str k); [|reflexivity]. cbn [mbind result_bind].
  destruct (canonical_bytes x); reflexivity.
Qed.

Lemma each_of_Forall2 {A B} (f : A -> result B) l k :
  each_of f l = Ok k <-> Forall2 (fun x y => f x = Ok y) l k.
Proof.
  revert k. induction l as [|x l IH]; intros k; cbn.
  - split; [intros [= <-]; constructor|by intros ->%Forall2_nil_inv_l].
  - rewrite bind_Ok. split.
    + intros (y & Hy & Hk). apply bind_Ok in Hk as (ys & Hys & [= <-]). constructor; [done|]. by apply IH.
    + intros (y & ys & Hy & Hys & ->)%Forall2_cons_inv_l. exists y. split; [done|]. apply bind_Ok. exists ys.
      split; [by apply IH|done].
Qed.

(** ** Prefixes *)

Lemma u32_bytes n s : _u32 n = Ok s -> 0 <= n < 2 ^ 32 /\ s = be_bytes 4 (Z.to_N n) "".
Proof.
  unfold _u32. intros Hrun. ok_step Hrun as u Hu. injection Hrun as <-. apply raise_if_Ok in Hu. bool_prop. split; [lia|done].
Qed.

Lemma u32_prefix n m s t x y :
  _u32 n = Ok s -> _u32 m = Ok t -> (s +:+ x = t +:+ y)%string -> n = m /\ x = y.
Proof.
  intros [Hn ->]%u32_bytes [Hm ->]%u32_bytes Heq. apply append_split in Heq as [Heq ->]; [|by rewrite !be_bytes_length].
  apply be_bytes_inj in Heq; [split; [lia|done]|change (256 ^ N.of_nat 4)%N with 4294967296%N; lia..].
Qed.

Lemma canonical_str_prefix a b s t x y :
  canonical_str a = Ok s -> canonical_str b = Ok t -> (s +:+ x = t +:+ y)%string -> a = b /\ x = y.
Proof.
  unfold canonical_str. intros Ha Hb Heq. ok_step Ha as u Hu. ok_step Hb as v Hv.
  injection Ha as <-. injection Hb as <-. rewrite !append_cons, !append_nil, !string_append_assoc in Heq.
  injection Heq as Heq. eapply u32_prefix in Heq as [Hlen Heq]; [|done..]. apply append_split in Heq; [done|lia].
Qed.

Lemma i64_bytes_inj n m : - 2 ^ 63 <= n < 2 ^ 63 -> - 2 ^ 63 <= m < 2 ^ 63 -> i64_bytes n = i64_bytes m -> n = m.
Proof.
  unfold i64_bytes. intros Hn Hm Heq. apply be_bytes_inj in Heq.
  - pose proof (Z.mod_pos_bound n (2 ^ 64)). pose proof (Z.mod_pos_bound m (2 ^ 64)).
    pose proof (Z.div_mod n (2 ^ 64)). pose proof (Z.div_mod m (2 ^ 64)). lia.
  - change (256 ^ N.of_nat 8)%N with 18446744073709551616%N. pose proof (Z.mod_pos_bound n (2 ^ 64)). lia.
  - change (256 ^ N.of_nat 8)%N with 18446744073709551616%N. pose proof (Z.mod_pos_bound m (2 ^ 64)). lia.
Qed.

Lemma be_bytes_mod k n : be_bytes k (n mod 256 ^ N.of_nat k) "" = be_bytes k n "".
Proof.
  revert n. induction k as [|k IH]; intros n; [done|]. cbn [be_bytes].
  rewrite (be_bytes_acc k (_ / 256)), (be_bytes_acc k (n / 256)). rewrite Nat2N.inj_succ, N.pow_succ_r'.
  set (M := (256 ^ N.of_nat k)%N) in *. assert (HM : M <> 0%N) by (by apply N.pow_nonzero).
  assert (Hmod : (n mod (256 * M) = n mod 256 + 256 * ((n / 256) mod M))%N) by (apply N.Div0.mod_mul_r).
  assert (Hhi : (n mod (256 * M) / 256 = (n / 256) mod M)%N).
  { rewrite Hmod, N.mul_comm, N.div_add by lia. rewrite N.div_small; [lia|]. apply N.mod_lt. lia. }
  assert (Hlo : (n mod (256 * M) mod 256 = n mod 256)%N).
  { rewrite Hmod, N.mul_comm, N.Div0.mod_add. by rewrite N.Div0.mod_mod. }
  by rewrite Hhi, Hlo, IH.
Qed.

(** ** Sorting by key *)

Section SortRelated.
Context {A B : Type} (leb : A -> A -> bool) (leb' : B -> B -> bool) (R : A -> B -> Prop).
Hypothesis same_order : forall a a' b b', R a b -> R a' b' -> leb a a' = leb' b b'.

Lemma sort_insert_related x y l k :
  R x y -> Forall2 R l k -> Forall2 R (sort_insert leb x l) (sort_insert leb' y k).
Proof.
  intros Hxy. induction 1 as [|a b l k Hab Hl IH]; cbn; [by repeat constructor|].
  rewrite (same_order _ _ _ _ Hxy Hab). by destruct (leb' y b); repeat constructor.
Qed.

Lemma stable_sort_related l k : Forall2 R l k -> Forall2 R (stable_sort leb l) (stable_sort leb' k).
Proof. induction 1; [constructor|]. by apply sort_insert_related. Qed.
End SortRelated.

Definition normal_member (m : string * cvalue) : string * cvalue := (m.1, normal m.2).

Lemma Forall2_map {A B} (f : A -> B) l : Forall2 (fun x y => y = f x) l (map f l).
Proof. induction l; cbn; by constructor. Qed.

Lemma Forall2_map_eq {A B} (f : A -> B) l k : Forall2 (fun x y => y = f x) l k -> k = map f l.
Proof. induction 1; cbn; congruence. Qed.

Lemma normal_dict members : normal (CDict members) = CDict (map normal_member (stable_sort by_key members)).
Proof.
  cbn [normal]. f_equal. apply Forall2_map_eq. apply stable_sort_related; [|apply Forall2_map].
  by intros a a' b b' -> ->.
Qed.

Lemma members_sorted members parts :
  each_of member_bytes members = Ok parts ->
  each_of member_bytes (stable_sort by_key members) = Ok (stable_sort key_leb parts).
Proof.
  rewrite !each_of_Forall2. apply stable_sort_related. intros a a' b b' Ha Ha'. unfold member_bytes in *.
  ok_step Ha. ok_step Ha. injection Ha as <-. ok_step Ha'. ok_step Ha'. by injection Ha' as <-.
Qed.

(** ** The prefix property *)

(** An encoding starts with the tag of the value's type. *)
Definition tag (v : cvalue) : ascii :=
  match v with
  | CNone => "n" | CBool b => if b then "t" else "f" | CInt _ => "i" | CFloat _ => "d" | CStr _ => "s"
  | CList _ => "a" | CDict _ => "o"
  end.

Lemma canonical_tag v s : canonical_bytes v = Ok s -> exists r, s = String (tag v) r.
Proof.
  destruct v as [|[]|n|bits|t|items|members]; [intros [= <-]; by eexists..| | | | |].
  all: rewrite ?canonical_list, ?canonical_dict; cbn [canonical_bytes]; unfold canonical_str; intros Hrun; ok_step Hrun;
    try ok_step Hrun; injection Hrun as <-; by eexists.
Qed.

(** What can be told of [w] and [y] when the encoding of [v] starts the text. *)
Definition tells_apart (v : cvalue) : Prop :=
  forall w s t x y, canonical_bytes v = Ok s -> canonical_bytes w = Ok t -> (s +:+ x = t +:+ y)%string ->
  normal v = normal w /\ x = y.

Lemma items_prefix l k p q x y :
  Forall tells_apart l -> length l = length k -> each_of canonical_bytes l = Ok p -> each_of canonical_bytes k = Ok q ->
  (concat_str p +:+ x = concat_str q +:+ y)%string -> map normal l = map normal k /\ x = y.
Proof.
  intros Hl. revert k p q. induction Hl as [|v l Hv Hl IH]; intros [|w k] p q Hlen Hp Hq Heq; try done; cbn in *.
  - by injection Hp as <-; injection Hq as <-.
  - ok_step Hp as s Hs. ok_step Hp as p' Hp'. injection Hp as <-.
    ok_step Hq as t Ht. ok_step Hq as q' Hq'. injection Hq as <-. cbn in Heq. rewrite !string_append_assoc in Heq.
    eapply Hv in Heq as [-> Heq]; [|done..]. eapply IH in Heq as [-> ->]; [done|lia|done..].
Qed.

Lemma members_prefix l k p q x y :
  Forall (fun m => tells_apart m.2) l -> length l = length k ->
  each_of member_bytes l = Ok p -> each_of member_bytes k = Ok q ->
  (concat_str (snd <$> p) +:+ x = concat_str (snd <$> q) +:+ y)%string ->
  map normal_member l = map normal_member k /\ x = y.
Proof.
  intros Hl. revert k p q. induction Hl as [|[kv v] l Hv Hl IH]; intros [|[kw w] k] p q Hlen Hp Hq Heq; try done; cbn in *.
  - by injection Hp as <-; injection Hq as <-.
  - ok_step Hp as s Hs. ok_step Hp as p' Hp'. injection Hp as <-. ok_step Hs as kb Hkb. ok_step Hs as b Hb. injection Hs as <-.
    ok_step Hq as t Ht. ok_step Hq as q' Hq'. injection Hq as <-. ok_step Ht as kc Hkc. ok_step Ht as c Hc. injection Ht as <-.
    cbn in *. rewrite !string_append_assoc in Heq.
    destruct (canonical_str_prefix _ _ _ _ _ _ Hkb Hkc Heq) as [-> Heq1].
    destruct (Hv _ _ _ _ _ Hb Hc Heq1) as [Hvw Heq2]. injection Hlen as Hlen. destruct (IH _ _ _ Hlen Hp' Hq' Heq2) as [-> ->].
    unfold normal_member. cbn. by rewrite Hvw.
Qed.

Lemma same_tag v w s t x y :
  canonical_bytes v = Ok s -> canonical_bytes w = Ok t -> (s +:+ x = t +:+ y)%string -> tag v = tag w.
Proof.
  intros [r ->]%canonical_tag [r' ->]%canonical_tag Heq. by injection Heq.
Qed.

Lemma string_tail c c' a b : String c a = String c' b -> a = b.
Proof. by intros [= _ ->]. Qed.

Lemma float_prefix bits bits' s t x y :
  canonical_bytes (CFloat bits) = Ok s -> canonical_bytes (CFloat bits') = Ok t -> (s +:+ x = t +:+ y)%string ->
  normal (CFloat bits) = normal (CFloat bits') /\ x = y.
Proof.
  cbn [canonical_bytes normal]. intros Hv Hw Heq. ok_step Hv. ok_step Hw. apply Ok_inj in Hv as <-. apply Ok_inj in Hw as <-.
  rewrite !append_cons, !append_nil in Heq. apply string_tail in Heq.
  apply append_split in Heq as [Heq ->]; [|by rewrite !be_bytes_length]. split; [|done]. f_equal.
  rewrite <- (be_bytes_mod 8 (normalized_double bits)), <- (be_bytes_mod 8 (normalized_double bits')) in Heq.
  unfold packed_double. apply be_bytes_inj in Heq; [exact Heq|by apply N.mod_lt..].
Qed.

Lemma int_prefix n m s t x y :
  canonical_bytes (CInt n) = Ok s -> canonical_bytes (CInt m) = Ok t -> (s +:+ x = t +:+ y)%string -> n = m /\ x = y.
Proof.
  cbn [canonical_bytes]. intros Hv Hw Heq. ok_step Hv as u Hn. ok_step Hw as u' Hm. apply Ok_inj in Hv as <-. apply Ok_inj in Hw as <-.
  apply raise_if_Ok in Hn, Hm. bool_prop. rewrite !append_cons, !append_nil in Heq. apply string_tail in Heq.
  apply append_split in Heq as [Heq ->]; [|unfold i64_bytes; by rewrite !be_bytes_length].
  apply i64_bytes_inj in Heq; [done|lia..].
Qed.

(** The encoding is a prefix code of normal forms. *)
Lemma canonical_prefix v : tells_apart v.
Proof.
  induction v as [|b|n|bits|s|l IH|l IH] using cvalue_nested_ind; intros w s1 s2 x y Hv Hw Heq.
  all: pose proof (same_tag _ _ _ _ _ _ Hv Hw Heq) as Htag; destruct w; try discriminate Htag;
    try (destruct b; discriminate Htag).
  - injection Hv as <-. injection Hw as <-. by injection Heq.
  - destruct b, b0; try discriminate Htag; injection Hv as <-; injection Hw as <-; by injection Heq.
  - by destruct (int_prefix _ _ _ _ _ _ Hv Hw Heq) as [-> ->].
  - by eapply float_prefix.
  - by destruct (canonical_str_prefix _ _ _ _ _ _ Hv Hw Heq) as [-> ->].
  - rewrite canonical_list in Hv, Hw. ok_step Hv as u Hu. ok_step Hv as p Hp. injection Hv as <-.
    ok_step Hw as u' Hu'. ok_step Hw as q Hq. injection Hw as <-.
    rewrite !append_cons, !append_nil, !string_append_assoc in Heq. injection Heq as Heq.
    destruct (u32_prefix _ _ _ _ _ _ Hu Hu' Heq) as [Hlen%Nat2Z.inj Heq1].
    destruct (items_prefix _ _ _ _ _ _ IH Hlen Hp Hq Heq1) as [Hn ->]. cbn. by rewrite Hn.
  - rewrite canonical_dict in Hv, Hw. ok_step Hv as u Hu. ok_step Hv as p Hp. injection Hv as <-.
    ok_step Hw as u' Hu'. ok_step Hw as q Hq. injection Hw as <-.
    rewrite !append_cons, !append_nil, !string_append_assoc in Heq. injection Heq as Heq.
    destruct (u32_prefix _ _ _ _ _ _ Hu Hu' Heq) as [Hlen%Nat2Z.inj Heq1].
    rewrite !normal_dict. apply members_sorted in Hp, Hq. eapply members_prefix in Heq1 as [Hn ->]; [by rewrite Hn| | |done..].
    + by rewrite stable_sort_perm.
    + by rewrite !stable_sort_length.
Qed.

(** ** The encoding depends on the normal form only *)

Lemma sort_insert_least {A} (leb : A -> A -> bool) x l :
  Forall (fun y => leb x y = true) l -> sort_insert leb x l = x :: l.
Proof. destruct 1 as [|y l Hy _]; [done|]. cbn. by rewrite Hy. Qed.

Lemma stable_sort_fixed {A} (leb : A -> A -> bool) l :
  StronglySorted (fun a b => leb a b = true) l -> stable_sort leb l = l.
Proof. induction 1 as [|x l Hl IH Hx]; [done|]. cbn. fold (stable_sort leb l). rewrite IH. by apply sort_insert_least. Qed.

Lemma by_key_sorted {A} (l : list (string * A)) : StronglySorted (fun a b => by_key a b = true) (stable_sort by_key l).
Proof.
  apply stable_sort_sorted; unfold by_key; intros.
  - by eapply string_leb_trans.
  - by apply string_leb_flip.
Qed.

Lemma finite_mod bits : double_finite (bits mod 2 ^ 64) = double_finite bits.
Proof.
  unfold double_finite. change 2047%N with (N.ones 11). rewrite !N.land_ones, !N.shiftr_div_pow2. do 2 f_equal.
  change (2 ^ 64)%N with (2 ^ 52 * 2 ^ 12)%N. rewrite N.Div0.mod_mul_r, N.mul_comm, N.div_add by done.
  rewrite (N.div_small (bits mod 2 ^ 52)) by (by apply N.mod_lt). rewrite N.add_0_l.
  change (2 ^ 12)%N with (2 ^ 11 * 2)%N. rewrite N.Div0.mod_mul_r, N.mul_comm, N.Div0.mod_add. apply N.Div0.mod_mod.
Qed.

Lemma zero_mod bits : double_zero (bits mod 2 ^ 64) = double_zero bits.
Proof.
  unfold double_zero. f_equal. change (2 ^ 64)%N with (2 ^ 63 * 2)%N.
  rewrite N.Div0.mod_mul_r, N.mul_comm, N.Div0.mod_add. apply N.Div0.mod_mod.
Qed.

Lemma normalized_finite bits : double_finite bits = true -> double_finite (normalized_double bits) = true.
Proof. unfold normalized_double. by destruct (double_zero bits). Qed.

Lemma normalized_double_mod bits :
  (normalized_double (normalized_double bits mod 2 ^ 64) = normalized_double bits mod 2 ^ 64)%N.
Proof.
  unfold normalized_double at 1. rewrite zero_mod. unfold normalized_double.
  destruct (double_zero bits) eqn:Hz; [done|]. by rewrite Hz.
Qed.

Lemma each_of_map {A B C} (f : B -> result C) (g : A -> B) l : each_of f (map g l) = each_of (fun x => f (g x)) l.
Proof. induction l as [|x l IH]; [done|]. cbn. by rewrite IH. Qed.

Lemma canonical_normal v s : canonical_bytes v = Ok s -> canonical_bytes (normal v) = Ok s.
Proof.
  revert s. induction v as [|b|n|bits|t|l IH|l IH] using cvalue_nested_ind; intros s Hv; try exact Hv.
  - cbn [canonical_bytes normal] in *. ok_step Hv as u Hu. apply Ok_inj in Hv as <-. apply raise_if_Ok in Hu. bool_prop.
    unfold packed_double. rewrite finite_mod, normalized_finite, normalized_double_mod by done. cbn [negb raise_if mbind result_bind].
    change (2 ^ 64)%N with (256 ^ N.of_nat 8)%N. by rewrite be_bytes_mod.
  - change (normal (CList l)) with (CList (map normal l)). rewrite canonical_list in *.
    ok_step Hv as u Hu. ok_step Hv as p Hp. injection Hv as <-. rewrite length_map, Hu. cbn. rewrite each_of_map.
    assert (each_of (fun v => canonical_bytes (normal v)) l = Ok p) as ->; [|done].
    apply each_of_Forall2. apply each_of_Forall2 in Hp. clear Hu. induction Hp; [constructor|].
    inversion_clear IH. constructor; auto.
  - rewrite normal_dict. rewrite canonical_dict in *. ok_step Hv as u Hu. ok_step Hv as p Hp. injection Hv as <-.
    rewrite length_map, stable_sort_length, Hu. cbn [mbind result_bind]. apply members_sorted in Hp.
    assert (each_of member_bytes (map normal_member (stable_sort by_key l)) = Ok (stable_sort key_leb p)) as ->.
    + rewrite each_of_map. apply each_of_Forall2. apply each_of_Forall2 in Hp.
      assert (Hall : Forall (fun m => forall s, canonical_bytes m.2 = Ok s -> canonical_bytes (normal m.2) = Ok s)
                       (stable_sort by_key l)) by (by rewrite stable_sort_perm).
      clear Hu. induction Hp as [|[k v] q l' p' Hm Hp IHp]; [constructor|]. inversion_clear Hall. constructor; auto.
      unfold member_bytes, normal_member in *. cbn in *. ok_step Hm as kb Hkb. ok_step Hm as b Hb. injection Hm as <-.
      rewrite Hkb. cbn. by rewrite (H _ Hb).
    + cbn. rewrite (stable_sort_fixed key_leb); [done|].
      apply stable_sort_sorted; unfold key_leb; intros; [by eapply string_leb_trans|by apply string_leb_flip].
Qed.

(** Values encode alike exactly when their normal forms are one. *)
Lemma canonical_equal v w s t :
  canonical_bytes v = Ok s -> canonical_bytes w = Ok t -> (s = t <-> normal v = normal w).
Proof.
  intros Hv Hw. split.
  - intros ->. by destruct (canonical_prefix v w t t "" "" Hv Hw eq_refl).
  - intros Heq. apply canonical_normal in Hv, Hw. rewrite Heq, Hw in Hv. by injection Hv.
Qed.

(** ** Batches *)

Lemma epoch_milliseconds_inj a b ms :
  0 <= a -> 0 <= b -> epoch_milliseconds a = Ok ms -> epoch_milliseconds b = Ok ms -> a = b.
Proof.
  unfold epoch_milliseconds. intros Ha Hb Hma Hmb. ok_step Hma as u Hua. ok_step Hmb as u' Hub.
  apply raise_if_Ok in Hua, Hub. bool_prop. apply Ok_inj in Hma, Hmb. subst ms. unfold second in *.
  rewrite (Z.quot_div_nonneg a), (Z.quot_div_nonneg b) in Hmb by lia. Z.to_euclidean_division_equations. lia.
Qed.

Section Batches.
Context `{Sha256} {F : Type} (float_bits : F -> N).

(** Samples and batches with one content: floats with one packing, metadata with
    one normal form. *)
Definition same_float (a b : F) : Prop := packed_double (float_bits a) = packed_double (float_bits b).
Definition same_metadata (a b : list (string * cvalue)) : Prop := normal (CDict a) = normal (CDict b).
Definition same_ping (a b : location_ping_create F) : Prop :=
  lc_recorded_at a = lc_recorded_at b /\ same_float (lc_lat a) (lc_lat b) /\ same_float (lc_lon a) (lc_lon b)
  /\ option_Forall2 same_float (lc_accuracy_m a) (lc_accuracy_m b)
  /\ option_Forall2 same_float (lc_speed_mps a) (lc_speed_mps b)
  /\ option_Forall2 same_float (lc_heading_degrees a) (lc_heading_degrees b)
  /\ option_Forall2 same_float (lc_altitude_m a) (lc_altitude_m b)
  /\ lc_sequence_number a = lc_sequence_number b /\ same_metadata (lc_metadata a) (lc_metadata b).
Definition same_content (p q : ping_batch_create F) : Prop :=
  Forall2 same_ping (lb_pings p) (lb_pings q) /\ same_metadata (lb_metadata p) (lb_metadata q).

(** The recording times of a batch are not before the epoch. *)
Definition after_epoch (p : ping_batch_create F) : Prop := Forall (fun s => 0 <= lc_recorded_at s) (lb_pings p).

Lemma same_float_option a b :
  normal (c_opt (fun f => CFloat (float_bits f)) a) = normal (c_opt (fun f => CFloat (float_bits f)) b)
  <-> option_Forall2 same_float a b.
Proof.
  destruct a as [a|], b as [b|]; cbn; split; intros Heq; try done; try (by inversion Heq); try by constructor.
  - constructor. unfold same_float. by injection Heq.
  - inversion_clear Heq. unfold same_float in *. by f_equal.
Qed.

Lemma same_int_option (a b : option Z) : normal (c_opt CInt a) = normal (c_opt CInt b) <-> a = b.
Proof. destruct a, b; cbn; split; congruence. Qed.

(** The members of a sample and of a batch in the order of their keys. *)
Lemma ping_members_sorted (at_ lat lon accuracy speed heading altitude sequence metadata : cvalue) :
  stable_sort by_key
    [("recorded_at_ms", at_); ("lat", lat); ("lon", lon); ("accuracy_m", accuracy); ("speed_mps", speed);
     ("heading_degrees", heading); ("altitude_m", altitude); ("sequence_number", sequence); ("metadata", metadata)]%string
  = [("accuracy_m", accuracy); ("altitude_m", altitude); ("heading_degrees", heading); ("lat", lat); ("lon", lon);
     ("metadata", metadata); ("recorded_at_ms", at_); ("sequence_number", sequence); ("speed_mps", speed)]%string.
Proof. reflexivity. Qed.

Lemma batch_members_sorted (pings metadata : cvalue) :
  stable_sort by_key [("pings", pings); ("metadata", metadata)]%string = [("metadata", metadata); ("pings", pings)]%string.
Proof. reflexivity. Qed.

Lemma same_ping_value a b v w :
  0 <= lc_recorded_at a -> 0 <= lc_recorded_at b -> ping_value float_bits a = Ok v -> ping_value float_bits b = Ok w ->
  (normal v = normal w <-> same_ping a b).
Proof.
  intros Ha Hb Hv Hw. unfold ping_value in *. ok_step Hv as ma Hma. ok_step Hw as mb Hmb.
  apply Ok_inj in Hv as <-. apply Ok_inj in Hw as <-. rewrite !normal_dict, !ping_members_sorted.
  unfold same_ping, same_metadata, same_float. rewrite <- !same_float_option, <- same_int_option.
  cbn [map]; unfold normal_member; cbn [fst snd]. split.
  - intros Heq. injection Heq as Hac Hal Hhe Hla Hlo Hme Hms Hse Hsp. subst mb.
    split_and!; try done; [by eapply epoch_milliseconds_inj|]. cbn [normal]. by f_equal.
  - intros (Hat & Hla & Hlo & Hac & Hsp & Hhe & Hal & Hse & Hme). rewrite Hat, Hmb in Hma. apply Ok_inj in Hma as ->.
    rewrite Hac, Hsp, Hhe, Hal, Hse, Hme. cbn [normal]. by rewrite Hla, Hlo.
Qed.

Lemma same_pings l k vs ws :
  Forall (fun p => 0 <= lc_recorded_at p) l -> Forall (fun p => 0 <= lc_recorded_at p) k ->
  each_of (ping_value float_bits) l = Ok vs -> each_of (ping_value float_bits) k = Ok ws ->
  (map normal vs = map normal ws <-> Forall2 same_ping l k).
Proof.
  rewrite !each_of_Forall2. intros Hl Hk Hvs. revert k ws Hk. induction Hvs as [|a v l vs Ha Hvs IH]; intros k ws Hk Hws.
  - destruct Hws; [by split; constructor|]. split; [done|by inversion 1].
  - inversion_clear Hl. destruct Hws as [|b w k ws Hb Hws]; [split; [done|by inversion 1]|]. inversion_clear Hk. cbn. split.
    + intros [= Hvw Hrest]. constructor; [by eapply (same_ping_value a b v w)|by eapply IH].
    + intros Hall. inversion_clear Hall. f_equal; [by apply (same_ping_value a b v w)|by eapply IH].
Qed.

End Batches.

(** ** A sample *)

Module CodecSample.
Import DisbursementSample.

(** One sample on the equator, the two ways: zero and negative zero, members in two
    orders. *)
Definition equator (zero : N) (metadata : list (string * cvalue)) : ping_batch_create N :=
  PingBatchCreate "key" (Some 0)
    [LocationPingCreate (1760000000 * second) zero 4611686018427387904%N None None None None (Some 1) metadata] metadata.

Definition one : ping_batch_create N := equator 0 [("phone", CInt 7); ("app", CStr "x")]%string.
Definition other : ping_batch_create N := equator (2 ^ 63) [("app", CStr "x"); ("phone", CInt 7)]%string.

Lemma one_document :
  canonical_ping_payload id one ≫= canonical_bytes = canonical_ping_payload id other ≫= canonical_bytes.
Proof. vm_compute. reflexivity. Qed.

Lemma samples_after_epoch : after_epoch one /\ after_epoch other.
Proof. split; repeat constructor; vm_compute; discriminate. Qed.

Lemma hashes : exists h, batch_payload_hash id one = Ok h /\ batch_payload_hash id other = Ok h.
Proof. eexists. split; vm_compute; reflexivity. Qed.
End CodecSample.

Section CodecWitness.
Import DisbursementSample CodecSample.

End CodecWitness.
