(* ===== verification/TripBooks.v ===== *)
(** The lifecycle of a trip's evidence: an abstract account of what the trip
    services may do to the trip tables, its invariant, and that every service
    follows it.  A proof file over Trips. *)

From S2P Require Import Prelude Eligibility PayoutData DailyRate Ledger Engine Text Json DisbursementData Crypto Payees.
From S2P Require Import TripData TripEvidence Trips.
From stdpp Require Import base list strings gmap relations.
From Stdlib Require Import ZArith QArith Lia.
#[local] Open Scope Z_scope.

Section Signed.
Context `{Sha256} `{HmacSha256} {F G : Type}.

(** ** Signatures *)

(** The keys of [s] are among those of [ks]. *)
Definition keys_within (s ks : evidence_settings) : Prop := es_signing_keys s ⊆ es_signing_keys ks.

Lemma signing_key_within s ks version k : keys_within s ks ->
  signing_key s version = Ok k -> signing_key ks (Some k.1) = Ok k.
Proof.
  unfold signing_key. intros Hks Hk. ok_step Hk as key Hkey. injection Hk as <-. apply require_some_Ok in Hkey. cbn.
  eapply lookup_weaken in Hkey; [|exact Hks]. by rewrite Hkey.
Qed.

Lemma signed_verifies s ks name value k signature : keys_within s ks ->
  signing_key s None = Ok k -> _signature name value k.2 = Ok signature ->
  verify_receipt ks name (Ok value) (ReceiptColumns (Some RECEIPT_FORMAT_VERSION) (Some k.1) (Some signature)) = Ok true.
Proof.
  intros Hks Hk Hs. unfold verify_receipt, verify_signature. cbn [rc_key_version rc_signature rc_format_version].
  rewrite bool_decide_eq_true_2 by done. cbn [negb]. rewrite (signing_key_within _ _ _ _ Hks Hk).
  cbn [mbind result_bind]. rewrite Hs. cbn. by rewrite bool_decide_eq_true_2.
Qed.

Lemma verify_receipt_within s ks name value receipt b : keys_within s ks ->
  verify_receipt s name value receipt = Ok b -> verify_receipt ks name value receipt = Ok b.
Proof.
  unfold verify_receipt. intros Hks Hv. destruct (rc_key_version receipt), (rc_signature receipt); try done.
  destruct (negb _); [done|]. ok_step Hv as k Hk. pose proof (signing_key_within _ _ _ _ Hks Hk) as Hk'.
  assert (k.1 = z) as Hz by (unfold signing_key in Hk; ok_step Hk; by injection Hk as <-).
  rewrite Hz in Hk'. by rewrite Hk'.
Qed.

Lemma sign_batch_verifies s ks b dropped b' : keys_within s ks -> sign_batch_receipt s b dropped = Ok b' ->
  verify_batch_receipt ks b' = Ok true
  /\ b' = with_receipt b (bt_receipt b') (bt_receipt_outcome b') /\ batch_receipt_ok b' = true.
Proof.
  unfold sign_batch_receipt. intros Hks Hs. ok_step Hs as k Hk. ok_step Hs as signature Hsig. apply Ok_inj in Hs as <-.
  split; [|done]. unfold verify_batch_receipt. by eapply signed_verifies.
Qed.

Lemma sign_manifest_verifies s ks t at_ receipt receipt' : keys_within s ks ->
  sign_manifest_receipt s (verified_trip t at_ receipt) = Ok receipt' ->
  verify_manifest_receipt ks (verified_trip t at_ receipt') = Ok true /\ receipt_filled receipt' = true.
Proof.
  unfold sign_manifest_receipt. intros Hks Hs. ok_step Hs as k Hk. ok_step Hs as value Hv. ok_step Hs as signature Hsig.
  apply Ok_inj in Hs as <-. split; [|done]. unfold verify_manifest_receipt. cbn [tr_verified_at verified_trip tr_session
    with_verified_at evidence_manifest_verified_at is_none].
  change (manifest_receipt_value (verified_trip t at_ (ReceiptColumns (Some RECEIPT_FORMAT_VERSION) (Some k.1) (Some signature))))
    with (manifest_receipt_value (verified_trip t at_ receipt)).
  rewrite Hv. by eapply signed_verifies.
Qed.

Lemma adjudicate_verifies s ks t at_ t' : keys_within s ks -> adjudicate s t at_ = Ok t' ->
  verify_adjudication_receipt ks t' = Ok true
  /\ t' = adjudicated_trip t at_ (tr_adjudication_receipt t') /\ receipt_filled (tr_adjudication_receipt t') = true.
Proof.
  unfold adjudicate, sign_adjudication_receipt. intros Hks Hs. ok_step Hs as receipt Hr. apply Ok_inj in Hs as <-.
  ok_step Hr as u Hu. ok_step Hr as k Hk. ok_step Hr as value Hv. ok_step Hr as signature Hsig. apply Ok_inj in Hr as <-.
  split; [|done]. unfold verify_adjudication_receipt. cbn [tr_adjudicated_at adjudicated_trip is_none tr_adjudication_receipt].
  change (adjudication_receipt_value (adjudicated_trip t at_ (ReceiptColumns (Some RECEIPT_FORMAT_VERSION) (Some k.1) (Some signature))))
    with (adjudication_receipt_value (adjudicated_trip t at_ (tr_adjudication_receipt t))).
  rewrite Hv. by eapply signed_verifies.
Qed.

(** ** Completeness *)

Definition entries_of (db : trip_store F G) (trip : uuid) : list manifest_entry :=
  List.filter (fun e => bool_decide (mn_trip_session_id e = trip)) (ts_entries db).

(** [b] is the batch [e] declares, with a receipt that verifies. *)
Definition delivers (ks : evidence_settings) (b : ping_batch) (e : manifest_entry) : Prop :=
  bt_idempotency_key b = mn_idempotency_key e /\ entry_matches b e = true /\ verify_batch_receipt ks b = Ok true.

(** Every declared batch was received as declared, nothing else was, and as many
    were declared as the manifest says. *)
Record evidence_complete (ks : evidence_settings) (db : trip_store F G) (t : trip_row) : Prop := {
  ec_received : forall e, e ∈ entries_of db (tr_id t) -> exists b, b ∈ manifest_batches db (tr_id t) /\ delivers ks b e;
  ec_declared : forall b, b ∈ manifest_batches db (tr_id t) ->
    exists e, e ∈ entries_of db (tr_id t) /\ mn_idempotency_key e = bt_idempotency_key b;
  ec_count : Z.of_nat (length (entries_of db (tr_id t))) = default 0 (tr_manifest_batch_count t)
}.

Lemma elem_of_entries db trip e : e ∈ entries_of db trip <-> e ∈ ts_entries db /\ mn_trip_session_id e = trip.
Proof. unfold entries_of. by rewrite elem_of_filter_b, bool_decide_eq_true. Qed.

Lemma elem_of_manifest_batches (db : trip_store F G) trip b :
  b ∈ manifest_batches db trip <-> b ∈ ts_batches db /\ bt_trip_session_id b = trip /\ bt_evidence_scope b = SCOPE_MANIFEST.
Proof. unfold manifest_batches. by rewrite elem_of_filter_b, andb_true_iff, !bool_decide_eq_true. Qed.

Lemma elem_of_declared (db : trip_store F G) trip e : e ∈ declared_entries db trip <-> e ∈ entries_of db trip.
Proof. unfold declared_entries. by rewrite stable_sort_perm. Qed.

Lemma batch_by_key_Some batches key b :
  batch_by_key batches key = Some b -> b ∈ batches /\ bt_idempotency_key b = key.
Proof.
  intros [Hb Hk%bool_decide_eq_true]%find_row_Some. split; [|done]. apply list_elem_of_In in Hb. apply in_rev in Hb.
  by apply list_elem_of_In.
Qed.

Lemma compare_entries_sound s batches entries n :
  compare_entries s batches entries = Ok n -> 0 <= n.1 /\ 0 <= n.2 /\
  (n.1 = 0 -> n.2 = 0 -> forall e, e ∈ entries -> exists b, b ∈ batches /\ delivers s b e).
Proof.
  revert n. induction entries as [|e entries IH]; intros n Hrun; cbn in Hrun.
  - apply Ok_inj in Hrun as <-. cbn. split_and!; [lia..|]. intros _ _ e He. by apply not_elem_of_nil in He.
  - ok_step Hrun as counts Hc. ok_step Hrun as others Ho. apply Ok_inj in Hrun as <-. cbn.
    destruct (IH _ Ho) as (H1 & H2 & Hall).
    assert (Hhere : 0 <= counts.1 /\ 0 <= counts.2
                    /\ (counts.1 = 0 -> counts.2 = 0 -> exists b, b ∈ batches /\ delivers s b e)).
    { destruct (batch_by_key batches _) as [b|] eqn:Hb; [|by apply Ok_inj in Hc as <-].
      apply batch_by_key_Some in Hb as [Hb Hk].
      destruct (entry_matches b e) eqn:Hm; cbn in Hc; [|by apply Ok_inj in Hc as <-].
      ok_step Hc as valid Hv. apply Ok_inj in Hc as <-. destruct valid; cbn; split_and!; try lia. intros _ _. by exists b. }
    destruct Hhere as (H3 & H4 & Hthis). split_and!; [lia..|]. intros Hn1 Hn2 e' He'.
    apply elem_of_cons in He' as [->|He']; [apply Hthis|apply Hall]; try lia; done.
Qed.

Lemma delivers_within s ks b e : keys_within s ks -> delivers s b e -> delivers ks b e.
Proof. intros Hks (Hk & Hm & Hv). split_and!; [done..|]. by eapply verify_receipt_within. Qed.

Lemma completeness_sound s ks (db : trip_store F G) t c : keys_within s ks ->
  manifest_completeness s db t = Ok c -> mc_complete c = true -> evidence_complete ks db t.
Proof.
  unfold manifest_completeness. intros Hks Hrun Hc. ok_step Hrun as counts Hn. apply Ok_inj in Hrun as <-. cbn in Hc. bool_prop.
  apply compare_entries_sound in Hn as (_ & _ & Hall). split.
  - intros e He. destruct (Hall ltac:(done) ltac:(done) e) as (b & Hb & Hd); [by apply elem_of_declared|].
    exists b. split; [done|]. by eapply delivers_within.
  - intros b Hb. destruct (decide (bt_idempotency_key b ∈ mn_idempotency_key <$> declared_entries db (tr_id t))) as [Hin|Hout].
    + apply list_elem_of_fmap in Hin as (e & Hk & He). exists e. split; [by apply elem_of_declared|done].
    + exfalso. assert (Hin : b ∈ List.filter (fun b => negb (bool_decide
        (bt_idempotency_key b ∈ mn_idempotency_key <$> declared_entries db (tr_id t)))) (manifest_batches db (tr_id t))).
      { apply elem_of_filter_b. split; [done|]. by rewrite bool_decide_eq_false_2. }
      destruct (List.filter _ _); [by apply not_elem_of_nil in Hin|done].
  - rewrite <- (stable_sort_length (fun a b => mn_batch_sequence a <=? mn_batch_sequence b)). done.
Qed.
End Signed.

(** ** The lifecycle *)

Section Lifecycle.
Context `{Sha256} `{HmacSha256} {F : Type} `{PyFloat F} {G : Type}.
(** Every key that signs receipts. *)
Context (ks : evidence_settings).

(** [e] declares [b]. *)
Definition declares (e : manifest_entry) (b : ping_batch) : Prop :=
  bt_idempotency_key b = mn_idempotency_key e /\ entry_matches b e = true.

Record entry_table (l : list manifest_entry) : Prop := {
  et_rows : Forall (fun e => entry_row_check e = Ok tt) l;
  et_ids : NoDup (mn_id <$> l);
  et_sequences : unique_on entry_sequence_key l;
  et_keys : unique_on entry_key l
}.

Record batch_table (l : list ping_batch) : Prop := {
  bt_rows : Forall (fun b => batch_row_check b = Ok tt) l;
  bt_ids : NoDup (bt_id <$> l);
  bt_keys : unique_on batch_key l;
  bt_sequences : unique_on manifest_sequence_key l;
  bt_receipts : Forall (fun b => verify_batch_receipt ks b = Ok true) l
}.

(** What a service may do to one trip, with the batches, entries and samples it
    adds. *)
Inductive lifecycle (db : trip_store F G) (t : trip_row)
    : list ping_batch -> list manifest_entry -> list (ping_row F G) -> trip_row -> Prop :=
| Ends es ended_at reason root n now :
    tr_status t = TRIP_ACTIVE ->
    (forall b, b ∈ manifest_batches db (tr_id t) -> exists e, e ∈ es /\ declares e b) ->
    entry_table (ts_entries db ++ es) ->
    lifecycle db t [] es [] (ended_trip t ended_at reason root (Z.of_nat (length es)) n now)
| Seals at_ receipt reason now :
    tr_status t = TRIP_ENDED -> tr_adjudicated_at t = None -> evidence_complete ks db t ->
    verify_manifest_receipt ks (verified_trip t at_ receipt) = Ok true ->
    lifecycle db t [] [] [] (sealed_trip (verified_trip t at_ receipt) reason now)
| Expires now :
    tr_status t = TRIP_ENDED -> tr_grace_expired_at t = None ->
    lifecycle db t [] [] [] (grace_trip t now)
| Adjudicates now receipt :
    tr_status t = TRIP_ENDED -> tr_verified_at t = None -> given (tr_grace_expired_at t) = true ->
    tr_adjudicated_at t = None -> verify_adjudication_receipt ks (adjudicated_trip t now receipt) = Ok true ->
    lifecycle db t [] [] [] (adjudicated_trip t now receipt)
| Receives payload dropped b ps t' :
    dropped = negb (bool_decide (tr_status t = TRIP_ACTIVE)) && _late_pay_calculated db (tr_session t) payload ->
    bt_evidence_scope b = batch_scope t dropped ->
    (tr_status t = TRIP_ENDED -> tr_adjudicated_at t = None -> exists e, e ∈ entries_of db (tr_id t) /\ declares e b) ->
    batch_table (ts_batches db ++ [b]) ->
    Forall (fun p => pr_batch_id p = bt_id b /\ lp_trip_session_id (pr_ping p) = tr_id t) ps ->
    Z.of_nat (length ps) = bt_pings_accepted b -> (dropped = true -> ps = []) ->
    t' = t \/ (exists at_, t' = touched_trip t at_) ->
    lifecycle db t [b] [] ps t'.

(** The tables of [db'], from [db]: calculations are never removed. *)
Record tables_are (db db' : trip_store F G) (trips : list trip_row) (batches : list ping_batch)
    (entries : list manifest_entry) (pings : list (ping_row F G)) : Prop := {
  ta_trips : ts_trips db' = trips;
  ta_batches : ts_batches db' = batches;
  ta_entries : ts_entries db' = entries;
  ta_pings : ts_pings db' = pings;
  ta_calculations : st_calculations (ts_payout db) ⊆ st_calculations (ts_payout db')
}.

(** One move: something else changes, a trip opens, or a trip moves along its
    lifecycle. *)
Inductive evidence_move (db db' : trip_store F G) : Prop :=
| move_other :
    tables_are db db' (ts_trips db) (ts_batches db) (ts_entries db) (ts_pings db) -> evidence_move db db'
| move_open t a user now :
    t = new_trip (uuid4 (tr_id <$> ts_trips db)) a user now ->
    conflicts active_driver_key t (ts_trips db) = false -> conflicts active_vehicle_key t (ts_trips db) = false ->
    tables_are db db' (ts_trips db ++ [t]) (ts_batches db) (ts_entries db) (ts_pings db) -> evidence_move db db'
| move_trip t t' bs es ps :
    t ∈ ts_trips db -> trip_row_check t' = Ok tt -> lifecycle db t bs es ps t' ->
    Forall (fun b => bt_trip_session_id b = tr_id t) bs -> Forall (fun e => mn_trip_session_id e = tr_id t) es ->
    tables_are db db' (set_row tr_id t' (ts_trips db)) (ts_batches db ++ bs) (ts_entries db ++ es) (ts_pings db ++ ps) ->
    evidence_move db db'.

(** ** The invariant *)

(** Nothing of a trip in progress is decided. *)
Definition untouched (t : trip_row) : Prop :=
  tr_manifest_root_sha256 t = None /\ tr_verified_at t = None /\ tr_adjudicated_at t = None
  /\ tr_grace_expired_at t = None /\ trip_ended_at (tr_session t) = None.

Record trip_ok (db : trip_store F G) (t : trip_row) : Prop := {
  to_row : trip_row_check t = Ok tt;
  to_active : tr_status t = TRIP_ACTIVE -> untouched t /\ entries_of db (tr_id t) = [];
  to_committed : tr_status t <> TRIP_ACTIVE ->
    given (tr_manifest_root_sha256 t) = true /\ given (trip_ended_at (tr_session t)) = true
    /\ Z.of_nat (length (entries_of db (tr_id t))) = default 0 (tr_manifest_batch_count t)
    /\ forall b, b ∈ manifest_batches db (tr_id t) -> exists e, e ∈ entries_of db (tr_id t) /\ declares e b;
  to_sealed : tr_status t = TRIP_SEALED -> evidence_complete ks db t /\ verify_manifest_receipt ks t = Ok true;
  to_verified : given (tr_verified_at t) = true -> tr_status t = TRIP_SEALED;
  to_adjudicated : given (tr_adjudicated_at t) = true ->
    tr_status t = TRIP_ENDED /\ given (tr_grace_expired_at t) = true /\ verify_adjudication_receipt ks t = Ok true
}.

Definition pings_of (db : trip_store F G) (b : ping_batch) : list (ping_row F G) :=
  List.filter (fun p => bool_decide (pr_batch_id p = bt_id b)) (ts_pings db).

Record trip_books (db : trip_store F G) : Prop := {
  tb_trips : Forall (trip_ok db) (ts_trips db);
  tb_ids : NoDup (tr_id <$> ts_trips db);
  tb_drivers : unique_on active_driver_key (ts_trips db);
  tb_vehicles : unique_on active_vehicle_key (ts_trips db);
  tb_batches : batch_table (ts_batches db);
  tb_entries : entry_table (ts_entries db);
  tb_batch_trips : Forall (fun b => bt_trip_session_id b ∈ tr_id <$> ts_trips db) (ts_batches db);
  tb_entry_trips : Forall (fun e => mn_trip_session_id e ∈ tr_id <$> ts_trips db) (ts_entries db);
  tb_accepted : Forall (fun b => Z.of_nat (length (pings_of db b)) = bt_pings_accepted b) (ts_batches db);
  tb_pings : Forall (fun p => exists b, b ∈ ts_batches db /\ pr_batch_id p = bt_id b
                              /\ lp_trip_session_id (pr_ping p) = bt_trip_session_id b) (ts_pings db)
}.

(** ** One move keeps the invariant *)

Lemma entries_of_app (db db' : trip_store F G) es i :
  ts_entries db' = ts_entries db ++ es ->
  entries_of db' i = entries_of db i ++ List.filter (fun e => bool_decide (mn_trip_session_id e = i)) es.
Proof. intros He. unfold entries_of. by rewrite He, List.filter_app. Qed.

Lemma manifest_batches_app (db db' : trip_store F G) bs i :
  ts_batches db' = ts_batches db ++ bs ->
  manifest_batches db' i = manifest_batches db i
    ++ List.filter (fun b => bool_decide (bt_trip_session_id b = i) && bool_decide (bt_evidence_scope b = SCOPE_MANIFEST)) bs.
Proof. intros He. unfold manifest_batches. by rewrite He, List.filter_app. Qed.

Lemma filter_foreign {A} (p : A -> bool) (f : A -> uuid) t i l :
  Forall (fun x => f x = t) l -> t <> i -> (forall x, p x = true -> f x = i) -> List.filter p l = [].
Proof.
  intros Hl Hi Hp. apply filter_all_false. intros x Hx. rewrite Forall_forall in Hl. specialize (Hl x Hx).
  destruct (p x) eqn:Hpx; [|done]. apply Hp in Hpx. congruence.
Qed.

Lemma complete_same (db db' : trip_store F G) t t' :
  tr_id t' = tr_id t -> tr_manifest_batch_count t' = tr_manifest_batch_count t ->
  entries_of db' (tr_id t) = entries_of db (tr_id t) -> manifest_batches db' (tr_id t) = manifest_batches db (tr_id t) ->
  evidence_complete ks db t -> evidence_complete ks db' t'.
Proof. intros Hi Hc He Hb [K1 K2 K3]. split; rewrite Hi, ?Hc, ?He, ?Hb; [done..|]. by rewrite <- K3. Qed.

Lemma trip_ok_same (db db' : trip_store F G) t :
  entries_of db' (tr_id t) = entries_of db (tr_id t) -> manifest_batches db' (tr_id t) = manifest_batches db (tr_id t) ->
  trip_ok db t -> trip_ok db' t.
Proof.
  intros He Hb [K1 K2 K3 K4 K5 K6]. split; rewrite ?He, ?Hb; try done.
  intros Hs. destruct (K4 Hs). split; [|done]. by apply (complete_same db db' t).
Qed.

Lemma lifecycle_id (db : trip_store F G) t bs es ps t' : lifecycle db t bs es ps t' -> tr_id t' = tr_id t.
Proof. by destruct 1 as [| | | |???????????? [-> | [at_ ->]]]. Qed.

(** No move makes a trip active, or changes who drives what. *)
Lemma lifecycle_active (db : trip_store F G) t bs es ps t' : lifecycle db t bs es ps t' ->
  (active_driver_key t' = None \/ active_driver_key t' = active_driver_key t)
  /\ (active_vehicle_key t' = None \/ active_vehicle_key t' = active_vehicle_key t).
Proof.
  destruct 1 as [| | | |???????????? [-> | [at_ ->]]]; unfold active_driver_key, active_vehicle_key; cbn; auto.
Qed.

Lemma unique_after {K} `{EqDecision K} (k : trip_row -> option K) t t' l :
  NoDup (tr_id <$> l) -> unique_on k l -> t ∈ l -> tr_id t' = tr_id t -> k t' = None \/ k t' = k t ->
  unique_on k (set_row tr_id t' l).
Proof.
  intros Hids Hu Ht Hid [Hk|Hk]; (apply (unique_on_set_row tr_id k); [done..|]).
  - unfold conflicts. by rewrite Hk.
  - by apply (conflicts_kept tr_id k t).
Qed.

Lemma filter_own {A} (f : A -> uuid) t l : Forall (fun x => f x = t) l -> List.filter (fun x => bool_decide (f x = t)) l = l.
Proof. induction 1 as [|x l Hx _ IH]; cbn; [done|]. by rewrite bool_decide_eq_true_2, IH. Qed.

Lemma ends_ok (db db' : trip_store F G) t es ended_at reason root n now :
  let t' := ended_trip t ended_at reason root (Z.of_nat (length es)) n now in
  trip_ok db t -> trip_row_check t' = Ok tt -> tr_status t = TRIP_ACTIVE ->
  (forall b, b ∈ manifest_batches db (tr_id t) -> exists e, e ∈ es /\ declares e b) ->
  Forall (fun e => mn_trip_session_id e = tr_id t) es ->
  manifest_batches db' (tr_id t) = manifest_batches db (tr_id t) -> ts_entries db' = ts_entries db ++ es -> trip_ok db' t'.
Proof.
  intros t' Hok Hrow Hs Hdeclared Hown Hbatches Hentries.
  destruct (to_active _ _ Hok Hs) as [(Hroot & Hverified & Hadjudicated & Hgrace & Hended) Hnone].
  assert (He : entries_of db' (tr_id t) = es) by (by erewrite entries_of_app, Hnone, filter_own).
  split; [exact Hrow|done| |done| |]; change (tr_id t') with (tr_id t).
  - intros _. rewrite He, Hbatches. done.
  - change (tr_verified_at t') with (tr_verified_at t). by rewrite Hverified.
  - change (tr_adjudicated_at t') with (tr_adjudicated_at t). by rewrite Hadjudicated.
Qed.

Lemma seals_ok (db : trip_store F G) t at_ receipt reason now :
  let t' := sealed_trip (verified_trip t at_ receipt) reason now in
  trip_ok db t -> trip_row_check t' = Ok tt -> tr_status t = TRIP_ENDED -> tr_adjudicated_at t = None ->
  evidence_complete ks db t -> verify_manifest_receipt ks (verified_trip t at_ receipt) = Ok true -> trip_ok db t'.
Proof.
  intros t' Hok Hrow Hs Hadjudicated Hcomplete Hverifies.
  destruct (to_committed _ _ Hok) as (Hroot & Hended & Hcount & Hdeclared); [congruence|].
  split; [exact Hrow|done| | |done|]; change (tr_id t') with (tr_id t).
  - done.
  - intros _. split; [by apply (complete_same db db t)|done].
  - change (tr_adjudicated_at t') with (tr_adjudicated_at t). by rewrite Hadjudicated.
Qed.

Lemma expires_ok (db : trip_store F G) t now :
  trip_ok db t -> trip_row_check (grace_trip t now) = Ok tt -> tr_status t = TRIP_ENDED -> tr_grace_expired_at t = None ->
  trip_ok db (grace_trip t now).
Proof.
  intros [K1 K2 K3 K4 K5 K6] Hrow Hs Hgrace. split; [done|unfold tr_status in *; cbn; congruence| | |exact K5|].
  - exact K3.
  - unfold tr_status in *. cbn. congruence.
  - intros Hadj. destruct (K6 Hadj) as (_ & Hg & _). by rewrite Hgrace in Hg.
Qed.

Lemma adjudicates_ok (db : trip_store F G) t now receipt :
  let t' := adjudicated_trip t now receipt in
  trip_ok db t -> trip_row_check t' = Ok tt -> tr_status t = TRIP_ENDED -> tr_verified_at t = None ->
  given (tr_grace_expired_at t) = true -> verify_adjudication_receipt ks t' = Ok true -> trip_ok db t'.
Proof.
  intros t' [K1 K2 K3 K4 K5 K6] Hrow Hs Hverified Hgrace Hverifies. split; [done|unfold tr_status in *; cbn; congruence| | | |].
  - exact K3.
  - unfold tr_status in *. cbn. congruence.
  - exact K5.
  - done.
Qed.

Lemma touched_ok (db : trip_store F G) t at_ : trip_ok db t -> trip_ok db (touched_trip t at_).
Proof.
  intros [K1 K2 K3 K4 K5 K6]. split; try done. intros Hs. destruct (K4 Hs). split; [by apply (complete_same db db t)|done].
Qed.

Lemma receives_ok (db db' : trip_store F G) t b dropped :
  trip_ok db t -> bt_trip_session_id b = tr_id t -> bt_evidence_scope b = batch_scope t dropped ->
  (tr_status t = TRIP_ENDED -> tr_adjudicated_at t = None -> exists e, e ∈ entries_of db (tr_id t) /\ declares e b) ->
  ts_batches db' = ts_batches db ++ [b] -> entries_of db' (tr_id t) = entries_of db (tr_id t) -> trip_ok db' t.
Proof.
  intros Hok Hown Hscope Hdeclared Hbatches Hentries. pose proof (manifest_batches_app _ _ _ (tr_id t) Hbatches) as Hm.
  cbn in Hm. rewrite (bool_decide_eq_true_2 (bt_trip_session_id b = tr_id t)) in Hm by done. cbn [andb] in Hm.
  destruct (bool_decide_reflect (bt_evidence_scope b = SCOPE_MANIFEST)) as [Hmanifest|Hother].
  2:{ rewrite app_nil_r in Hm. by eapply trip_ok_same. }
  assert (Hopen : is_closed t = false).
  { unfold batch_scope in Hscope. destruct dropped; [congruence|]. destruct (is_closed t); congruence. }
  unfold is_closed, given in Hopen. bool_prop.
  destruct Hok as [K5 K6 K7 K8 K9 K10]. split; rewrite ?Hentries, ?Hm; try done.
  intros Hs. destruct (K7 Hs) as (Hr & He & Hc & Hall). split_and!; [done..|].
  intros b' [Hb' | ->%list_elem_of_singleton]%elem_of_app; [by apply Hall|]. apply Hdeclared.
  - destruct (tr_status t); done.
  - destruct (tr_adjudicated_at t); done.
Qed.

Lemma lifecycle_ok (db db' : trip_store F G) t bs es ps t' :
  trip_ok db t -> lifecycle db t bs es ps t' -> trip_row_check t' = Ok tt ->
  Forall (fun b => bt_trip_session_id b = tr_id t) bs -> Forall (fun e => mn_trip_session_id e = tr_id t) es ->
  ts_batches db' = ts_batches db ++ bs -> ts_entries db' = ts_entries db ++ es -> trip_ok db' t'.
Proof.
  intros Hok Hlife Hrow Hbs Hes Hb He.
  assert (Hsame : bs = [] -> es = [] -> trip_ok db t' -> trip_ok db' t').
  { intros -> ->. apply trip_ok_same.
    - by rewrite (entries_of_app _ _ _ _ He), app_nil_r.
    - by rewrite (manifest_batches_app _ _ _ _ Hb), app_nil_r. }
  destruct Hlife as [| | | |payload dropped b ps t' Hdrop Hscope Hdeclared _ _ _ _ Hupdate].
  - eapply ends_ok; try done. by rewrite (manifest_batches_app _ _ _ _ Hb), app_nil_r.
  - apply Hsame; [done..|]. by apply seals_ok.
  - apply Hsame; [done..|]. by apply expires_ok.
  - apply Hsame; [done..|]. by apply adjudicates_ok.
  - rewrite Forall_singleton in Hbs. assert (Hsaved : trip_ok db' t).
    { apply (receives_ok db db' t b dropped); try done. by rewrite (entries_of_app _ _ _ _ He), app_nil_r. }
    destruct Hupdate as [->|[at_ ->]]; [done|]. by apply touched_ok.
Qed.

(** Samples come with one new batch. *)
Lemma lifecycle_batches (db : trip_store F G) t bs es ps t' : lifecycle db t bs es ps t' ->
  (bs = [] /\ ps = [])
  \/ exists b, bs = [b] /\ batch_table (ts_batches db ++ [b]) /\ Z.of_nat (length ps) = bt_pings_accepted b
      /\ Forall (fun p => pr_batch_id p = bt_id b /\ lp_trip_session_id (pr_ping p) = tr_id t) ps.
Proof. destruct 1; eauto 10. Qed.

Lemma lifecycle_entries (db : trip_store F G) t bs es ps t' : lifecycle db t bs es ps t' ->
  entry_table (ts_entries db) -> entry_table (ts_entries db ++ es).
Proof. destruct 1; intros Ht; by rewrite ?app_nil_r. Qed.

Lemma pings_of_app (db db' : trip_store F G) ps b :
  ts_pings db' = ts_pings db ++ ps ->
  pings_of db' b = pings_of db b ++ List.filter (fun p => bool_decide (pr_batch_id p = bt_id b)) ps.
Proof. intros Hp. unfold pings_of. by rewrite Hp, List.filter_app. Qed.

Lemma books_pings (db db' : trip_store F G) t bs es ps t' :
  trip_books db -> lifecycle db t bs es ps t' -> Forall (fun b => bt_trip_session_id b = tr_id t) bs ->
  ts_batches db' = ts_batches db ++ bs -> ts_pings db' = ts_pings db ++ ps ->
  Forall (fun b => Z.of_nat (length (pings_of db' b)) = bt_pings_accepted b) (ts_batches db')
  /\ Forall (fun p => exists b, b ∈ ts_batches db' /\ pr_batch_id p = bt_id b
                              /\ lp_trip_session_id (pr_ping p) = bt_trip_session_id b) (ts_pings db').
Proof.
  intros Hbooks Hlife Hown Hb Hp. pose proof (tb_accepted _ Hbooks) as Hacc. pose proof (tb_pings _ Hbooks) as Hpings.
  rewrite Hb, Hp. destruct (lifecycle_batches _ _ _ _ _ _ Hlife) as [[-> ->]|(b & -> & Htable & Hlen & Hps)].
  - rewrite !app_nil_r. split; [|done]. eapply Forall_impl; [exact Hacc|]. intros b. cbn. unfold pings_of.
    by rewrite Hp, app_nil_r.
  - rewrite Forall_singleton in Hown. pose proof (bt_ids _ Htable) as Hids. rewrite fmap_app in Hids.
    apply NoDup_app in Hids as (_ & Hnew & _).
    assert (Hfresh : forall x, x ∈ ts_batches db -> bt_id b <> bt_id x).
    { intros x Hx Heq. apply (Hnew (bt_id x)); [by apply list_elem_of_fmap_2|]. rewrite <- Heq. by apply list_elem_of_singleton. }
    split; apply Forall_app; split.
    + rewrite Forall_forall in *. intros x Hx. rewrite (pings_of_app _ _ _ x Hp).
      rewrite (filter_foreign _ pr_batch_id (bt_id b) (bt_id x)), app_nil_r; [by apply Hacc| |by apply Hfresh|].
      * eapply Forall_impl; [exact Hps|]. by intros p [? _].
      * intros p. by rewrite bool_decide_eq_true.
    + apply Forall_singleton. rewrite (pings_of_app _ _ _ b Hp), filter_own by (eapply Forall_impl; [exact Hps|by intros p [? _]]).
      unfold pings_of. rewrite (filter_all_false _ (ts_pings db)); [done|]. intros p Hin. apply bool_decide_eq_false.
      rewrite Forall_forall in Hpings. destruct (Hpings p Hin) as (x & Hx & -> & _). intros Heq. by apply (Hfresh x Hx).
    + eapply Forall_impl; [exact Hpings|]. intros p (x & Hx & Hpx & Htx). exists x. split; [apply elem_of_app; by left|done].
    + eapply Forall_impl; [exact Hps|]. intros p [Hpb Hpt]. exists b. rewrite Hown. split; [|done].
      apply elem_of_app. right. by apply list_elem_of_singleton.
Qed.

Lemma books_trip (db db' : trip_store F G) t bs es ps t' :
  trip_books db -> t ∈ ts_trips db -> trip_row_check t' = Ok tt -> lifecycle db t bs es ps t' ->
  Forall (fun b => bt_trip_session_id b = tr_id t) bs -> Forall (fun e => mn_trip_session_id e = tr_id t) es ->
  tables_are db db' (set_row tr_id t' (ts_trips db)) (ts_batches db ++ bs) (ts_entries db ++ es) (ts_pings db ++ ps) ->
  trip_books db'.
Proof.
  intros Hbooks Ht Hrow Hlife Hbs Hes [K1 K2 K3 K4 _].
  destruct (books_pings _ _ _ _ _ _ _ Hbooks Hlife Hbs K2 K4) as [Haccepted Hpings].
  pose proof (lifecycle_id _ _ _ _ _ _ Hlife) as Hid. destruct (lifecycle_active _ _ _ _ _ _ Hlife) as [Hdriver Hvehicle].
  destruct Hbooks as [B1 B2 B3 B4 B5 B6 B7 B8 _ _].
  assert (Hin : tr_id t ∈ tr_id <$> ts_trips db) by by apply list_elem_of_fmap_2.
  split; [| | | | | | | |done|done]; rewrite ?K1, ?K2, ?K3, ?set_row_keys; [|done| | | | | |].
  - rewrite Forall_forall in *. intros x [->|[Hx Hne]]%elem_of_set_row.
    + eapply lifecycle_ok; try done. by apply B1.
    + apply (trip_ok_same db); [| |by apply B1]; rewrite Hid in Hne.
      * rewrite (entries_of_app _ _ _ _ K3), (filter_foreign _ mn_trip_session_id (tr_id t) (tr_id x)), app_nil_r;
          [done|exact Hes|congruence|]. intros e. by rewrite bool_decide_eq_true.
      * rewrite (manifest_batches_app _ _ _ _ K2), (filter_foreign _ bt_trip_session_id (tr_id t) (tr_id x)), app_nil_r;
          [done|exact Hbs|congruence|]. intros b. rewrite andb_true_iff. by intros [?%bool_decide_eq_true _].
  - by eapply unique_after.
  - by eapply unique_after.
  - destruct (lifecycle_batches _ _ _ _ _ _ Hlife) as [[-> _]|(b & -> & Htable & _)]; by rewrite ?app_nil_r.
  - by eapply lifecycle_entries.
  - apply Forall_app. split; [done|]. eapply Forall_impl; [exact Hbs|]. cbn. by intros ? ->.
  - apply Forall_app. split; [done|]. eapply Forall_impl; [exact Hes|]. cbn. by intros ? ->.
Qed.

Lemma same_views (db db' : trip_store F G) :
  ts_batches db' = ts_batches db -> ts_entries db' = ts_entries db ->
  forall i, entries_of db' i = entries_of db i /\ manifest_batches db' i = manifest_batches db i.
Proof. intros Hb He i. unfold entries_of, manifest_batches. by rewrite Hb, He. Qed.

Lemma same_trips_ok (db db' : trip_store F G) l :
  ts_batches db' = ts_batches db -> ts_entries db' = ts_entries db -> Forall (trip_ok db) l -> Forall (trip_ok db') l.
Proof.
  intros Hb He Hl. eapply Forall_impl; [exact Hl|]. intros t. destruct (same_views _ _ Hb He (tr_id t)).
  by apply trip_ok_same.
Qed.

Lemma new_trip_ok (db : trip_store F G) a user now i :
  entries_of db i = [] -> trip_ok db (new_trip i a user now).
Proof. intros He. by split. Qed.

Lemma books_open (db db' : trip_store F G) t a user now :
  trip_books db -> t = new_trip (uuid4 (tr_id <$> ts_trips db)) a user now ->
  conflicts active_driver_key t (ts_trips db) = false -> conflicts active_vehicle_key t (ts_trips db) = false ->
  tables_are db db' (ts_trips db ++ [t]) (ts_batches db) (ts_entries db) (ts_pings db) -> trip_books db'.
Proof.
  intros [B1 B2 B3 B4 B5 B6 B7 B8 B9 B10] Ht Hdriver Hvehicle [K1 K2 K3 K4 _].
  assert (Hfresh : tr_id t ∉ tr_id <$> ts_trips db) by (rewrite Ht; apply uuid4_fresh).
  assert (Hnone : entries_of db' (tr_id t) = []).
  { apply filter_all_false. rewrite K3. intros e He. apply bool_decide_eq_false. intros Heq. apply Hfresh. rewrite <- Heq.
    rewrite Forall_forall in B8. by apply B8. }
  split; unfold pings_of in *; rewrite ?K1, ?K2, ?K3, ?K4, ?fmap_app; try done.
  - apply Forall_app. split; [by eapply same_trips_ok|]. apply Forall_singleton. rewrite Ht in *. by apply new_trip_ok.
  - apply NoDup_app. split; [done|]. split; [|apply NoDup_singleton]. by intros x Hx ->%list_elem_of_singleton.
  - by apply unique_on_snoc.
  - by apply unique_on_snoc.
  - eapply Forall_impl; [exact B7|]. intros b Hb. apply elem_of_app. by left.
  - eapply Forall_impl; [exact B8|]. intros b Hb. apply elem_of_app. by left.
Qed.

Lemma books_other (db db' : trip_store F G) :
  trip_books db -> tables_are db db' (ts_trips db) (ts_batches db) (ts_entries db) (ts_pings db) -> trip_books db'.
Proof.
  intros [B1 B2 B3 B4 B5 B6 B7 B8 B9 B10] [K1 K2 K3 K4 _].
  split; unfold pings_of in *; rewrite ?K1, ?K2, ?K3, ?K4; try done. by eapply same_trips_ok.
Qed.

Lemma books_move (db db' : trip_store F G) : evidence_move db db' -> trip_books db -> trip_books db'.
Proof.
  destruct 1 as [Ht|t a user now Hnew Hd Hv Ht|t t' bs es ps Hin Hrow Hlife Hbs Hes Ht]; intros Hbooks.
  - by eapply books_other.
  - by eapply books_open.
  - by eapply books_trip.
Qed.

Lemma books_moves (db db' : trip_store F G) : rtc evidence_move db db' -> trip_books db -> trip_books db'.
Proof. induction 1 as [|db1 db2 db3 Hmove _ IH]; [done|]. intros Hbooks. by apply IH, (books_move _ _ Hmove). Qed.

Lemma books_empty (p : payout_store) a e : trip_books (TripStore [] [] [] [] a e p).
Proof. repeat split; constructor. Qed.
End Lifecycle.
