(* ===== verification/TripSteps.v ===== *)
(** Every trip service follows the lifecycle of TripBooks: a refinement of the
    abstract moves by the services, and what follows for the reachable stores.  A
    proof file over Trips and TripBooks. *)

From S2P Require Import Prelude Eligibility PayoutData DailyRate Ledger Engine Text Json DisbursementData Crypto Payees.
From S2P Require Import TripData TripEvidence Trips TripBooks.
From stdpp Require Import base list strings gmap relations.
From Stdlib Require Import ZArith QArith Lia.
#[local] Open Scope Z_scope.

Section Writes.
Context {F G : Type}.

(** ** Writes that pass *)

Lemma update_trip_Ok t (db db' : trip_store F G) :
  update_trip t db = Ok db' -> trip_row_check t = Ok tt /\ db' = set_trips (set_row tr_id t) db.
Proof.
  unfold update_trip. intros Hrun. ok_step Hrun. ok_step Hrun. ok_step Hrun as u Hu. destruct u.
  by apply Ok_inj in Hrun as <-.
Qed.

Lemma flush_entry_Ok e (db db' : trip_store F G) :
  flush_entry e db = Ok db' -> entry_table (ts_entries db) -> mn_id e ∉ mn_id <$> ts_entries db ->
  db' = set_entries (fun l => l ++ [e]) db /\ entry_table (ts_entries db ++ [e]).
Proof.
  unfold flush_entry. intros Hrun [K1 K2 K3 K4] Hnew. ok_step Hrun. ok_step Hrun. ok_step Hrun as u Hu. destruct u.
  ok_step Hrun as u Hs. ok_step Hrun as u' Hk. apply Ok_inj in Hrun as <-. apply raise_if_Ok in Hs, Hk.
  split; [done|]. split.
  - apply Forall_app. split; [done|by constructor].
  - rewrite fmap_app. apply NoDup_app. split; [done|]. split; [|apply NoDup_singleton].
    by intros y Hy ->%list_elem_of_singleton.
  - by apply unique_on_snoc.
  - by apply unique_on_snoc.
Qed.

Lemma add_entries_Ok trip creates (db db' : trip_store F G) :
  add_entries db trip creates = Ok db' -> entry_table (ts_entries db) ->
  exists es, db' = set_entries (fun l => l ++ es) db /\ entry_table (ts_entries db ++ es)
    /\ Forall2 (fun c e => e = entry_of trip (mn_id e) c) creates es.
Proof.
  revert db. induction creates as [|c creates IH]; intros db Hrun Ht; cbn in Hrun.
  - apply Ok_inj in Hrun as <-. exists []. rewrite app_nil_r. split_and!; [|done|constructor].
    destruct db. unfold set_entries. cbn. by rewrite app_nil_r.
  - ok_step Hrun as db1 Hf. apply flush_entry_Ok in Hf as [-> Ht1]; [|done|apply uuid4_fresh].
    apply IH in Hrun as (es & -> & Ht2 & Hes); [|done]. cbn in *. set (e := entry_of _ _ _) in *. exists (e :: es).
    split_and!; [unfold set_entries; cbn; by rewrite <- app_assoc|by rewrite <- app_assoc in Ht2|by constructor].
Qed.

Lemma add_entries_own trip creates es :
  Forall2 (fun c e => e = entry_of trip (mn_id e) c) creates es -> Forall (fun e => mn_trip_session_id e = trip) es.
Proof. induction 1 as [|c e creates es He _ IH]; constructor; [by rewrite He|done]. Qed.

Lemma add_entries_in trip creates es c :
  Forall2 (fun c e => e = entry_of trip (mn_id e) c) creates es -> c ∈ creates ->
  exists e, e ∈ es /\ e = entry_of trip (mn_id e) c.
Proof.
  induction 1 as [|c' e creates es He _ IH]; intros Hc; [by apply not_elem_of_nil in Hc|].
  apply elem_of_cons in Hc as [->|Hc]; [exists e; split; [by left|done]|].
  destruct (IH Hc) as (e' & He' & Heq). exists e'. split; [by right|done].
Qed.

Section Pings.
Context (st_make_point : F -> F -> G).

Lemma add_pings_Ok trip batch received_at pings (db db' : trip_store F G) :
  add_pings st_make_point db trip batch received_at pings = Ok db' ->
  exists ps, db' = set_pings (fun l => l ++ ps) db /\ length ps = length pings
    /\ Forall (fun p => pr_batch_id p = batch /\ lp_trip_session_id (pr_ping p) = trip) ps.
Proof.
  revert db. induction pings as [|p pings IH]; intros db Hrun; cbn in Hrun.
  - apply Ok_inj in Hrun as <-. exists []. split_and!; [|done|constructor].
    destruct db. unfold set_pings. cbn. by rewrite app_nil_r.
  - ok_step Hrun as db1 Hf. unfold flush_ping in Hf. ok_step Hf. apply Ok_inj in Hf as <-.
    apply IH in Hrun as (ps & -> & Hlen & Hps). cbn. set (q := ping_of _ _ _ _ _ _). exists (q :: ps).
    split_and!; [unfold set_pings; cbn; by rewrite <- app_assoc|cbn; by rewrite Hlen|by constructor].
Qed.
End Pings.
End Writes.

Section Simulation.
Context `{Sha256} `{HmacSha256} {F : Type} `{PyFloat F} {G : Type}.
Context (float_bits : F -> N) (st_make_point : F -> F -> G).
Context (ks : evidence_settings).

#[local] Abbreviation moves := (rtc (evidence_move (F:=F) (G:=G) ks)).

Lemma tables_now (db db' : trip_store F G) :
  st_calculations (ts_payout db') = st_calculations (ts_payout db) ->
  tables_are db db' (ts_trips db') (ts_batches db') (ts_entries db') (ts_pings db').
Proof. intros Hc. split; [done..|]. by rewrite Hc. Qed.

(** A trip's row is updated and nothing added. *)
Lemma move_update (db db' : trip_store F G) t t' :
  t ∈ ts_trips db -> trip_row_check t' = Ok tt -> lifecycle ks db t [] [] [] t' ->
  ts_trips db' = set_row tr_id t' (ts_trips db) -> ts_batches db' = ts_batches db -> ts_entries db' = ts_entries db ->
  ts_pings db' = ts_pings db -> st_calculations (ts_payout db') = st_calculations (ts_payout db) ->
  evidence_move ks db db'.
Proof.
  intros Ht Hrow Hlife Htrips Hb He Hp Hc. eapply move_trip; [done..|]. rewrite !app_nil_r, <- Htrips, <- Hb, <- He, <- Hp.
  by apply tables_now.
Qed.

Lemma get_trip_in (db : trip_store F G) i t : get_trip db i = Some t -> t ∈ ts_trips db /\ tr_id t = i.
Proof. apply find_by_key_Some. Qed.

Lemma get_driver_trip_in (db : trip_store F G) user i t :
  get_driver_trip db user i = Ok t -> t ∈ ts_trips db /\ tr_id t = i.
Proof.
  unfold get_driver_trip. intros Hrun. ok_step Hrun. apply require_some_Ok, find_row_Some in Hrun as [Ht Hp]. by bool_prop.
Qed.

Lemma books_trip_ok (db : trip_store F G) t : trip_books ks db -> t ∈ ts_trips db -> trip_ok ks db t.
Proof. intros Hb. pose proof (tb_trips _ _ Hb) as Hall. rewrite Forall_forall in Hall. apply Hall. Qed.

(** ** Sealing *)

Lemma seal_moves s (db : trip_store F G) t reason now actor r :
  keys_within s ks -> trip_books ks db -> t ∈ ts_trips db -> tr_status t = TRIP_ENDED -> tr_adjudicated_at t = None ->
  evidence_complete ks db t -> verify_and_seal s db t reason now actor = Ok r -> evidence_move ks db r.2.
Proof.
  unfold verify_and_seal. intros Hks Hbooks Ht Hs Hadj Hcomplete Hrun.
  ok_step Hrun as receipt Hsign. destruct (sign_manifest_verifies _ _ _ _ _ _ Hks Hsign) as [Hver _].
  ok_step Hrun as db1 Hu. apply update_trip_Ok in Hu as [_ ->]. unfold try_seal_trip in Hrun.
  set (v := verified_trip t now receipt) in *.
  assert (Hget : get_trip (set_trips (set_row tr_id v) db) (tr_id v) = Some v).
  { unfold get_trip. cbn. eapply find_set_row_same; [|done]. apply (find_by_key_in tr_id); [apply (tb_ids _ _ Hbooks)|done]. }
  rewrite Hget in Hrun. change (tr_status v) with (tr_status t) in Hrun.
  rewrite bool_decide_eq_true_2 in Hrun by done. ok_step Hrun as db2 Hu. apply Ok_inj in Hrun as <-.
  apply update_trip_Ok in Hu as [Hrow ->]. eapply move_update; [exact Ht|exact Hrow| |try done..].
  - by constructor.
  - apply set_row_twice. done.
Qed.

(** ** Ending *)

Lemma active_not_ended (db : trip_store F G) t :
  trip_ok ks db t -> tr_status t = TRIP_ACTIVE -> tr_adjudicated_at t = None.
Proof. intros Hok Hs. by destruct (to_active _ _ _ Hok Hs) as [(_ & _ & Ha & _) _]. Qed.

(** The entries are committed and the trip ends. *)
Lemma commit_moves (db db1 db2 : trip_store F G) t creates ended_at reason root n now :
  trip_books ks db -> t ∈ ts_trips db -> tr_status t = TRIP_ACTIVE ->
  (forall b, b ∈ manifest_batches db (tr_id t) -> exists c, c ∈ creates
     /\ bt_idempotency_key b = me_idempotency_key c /\ descriptor_matches b c = true) ->
  add_entries db (tr_id t) creates = Ok db1 ->
  update_trip (ended_trip t ended_at reason root (Z.of_nat (length creates)) n now) db1 = Ok db2 ->
  evidence_move ks db db2.
Proof.
  intros Hbooks Ht Hs Hdeclared Hadd Hu. apply add_entries_Ok in Hadd as (es & -> & Htable & Hes); [|apply (tb_entries _ _ Hbooks)].
  apply update_trip_Ok in Hu as [Hrow ->]. rewrite (Forall2_length _ _ _ Hes) in *.
  eapply (move_trip _ _ _ t _ [] es []); [done|exact Hrow| |constructor|by eapply add_entries_own|].
  - constructor; [done| |done]. intros b Hb. destruct (Hdeclared b Hb) as (c & Hc & Hkey & Hm).
    destruct (add_entries_in _ _ _ _ Hes Hc) as (e & He & Heq). exists e. split; [done|].
    rewrite Heq. unfold declares, entry_matches, descriptor_matches in *. cbn. split; [done|]. bool_prop.
    rewrite !andb_true_iff, !bool_decide_eq_true, !Z.eqb_eq. done.
  - rewrite !app_nil_r. by split.
Qed.

(** What follows the commit: the evidence is complete and the trip sealed, or not. *)
Lemma after_commit s (db db2 : trip_store F G) t (creates : list manifest_entry_create) ended_at reason root n now sealing actor r :
  let t' := ended_trip t ended_at reason root (Z.of_nat (length creates)) n now in
  keys_within s ks -> trip_books ks db -> t ∈ ts_trips db -> tr_status t = TRIP_ACTIVE ->
  moves db db2 -> ts_trips db2 = set_row tr_id t' (ts_trips db) ->
  evidence_complete ks db2 t' -> verify_and_seal s db2 t' sealing now actor = Ok r -> evidence_move ks db2 r.2.
Proof.
  intros t' Hks Hbooks Ht Hs Hmove Htrips Hcomplete Hrun. eapply seal_moves; [exact Hks|by eapply books_moves| | | | |exact Hrun].
  - rewrite Htrips. by apply (elem_of_set_row_same tr_id t).
  - done.
  - apply (active_not_ended db t); [by apply books_trip_ok|done].
  - done.
Qed.

Lemma end_moves s (db : trip_store F G) user i payload clock r :
  keys_within s ks -> trip_books ks db -> end_driver_trip s db user i payload clock = Ok r -> moves db r.2.
Proof.
  unfold end_driver_trip. intros Hks Hbooks Hrun. ok_step Hrun as t Ht. apply get_driver_trip_in in Ht as [Ht <-].
  ok_step Hrun as u Hs. apply raise_if_Ok in Hs. bool_prop. ok_step Hrun. ok_step Hrun as manifest _. ok_step Hrun.
  ok_step Hrun as u1 Hall. apply raise_if_Ok in Hall. bool_prop.
  ok_step Hrun as db1 Hadd. ok_step Hrun as db2 Hu. ok_step Hrun as c Hc.
  assert (Hmove : evidence_move ks db db2).
  { eapply commit_moves; [done|exact Ht|done| |exact Hadd|exact Hu]. intros b Hb.
    rewrite forallb_forall in Hall. specialize (Hall b). rewrite <- list_elem_of_In in Hall. specialize (Hall Hb).
    unfold batch_declared, descriptor_for in Hall. destruct (find_row _ _) as [e|] eqn:Hf; [|done].
    apply find_row_Some in Hf as [He Hk]. bool_prop. exists e. split; [|done].
    apply list_elem_of_In, in_rev, list_elem_of_In. done. }
  pose proof Hadd as Hadd'. apply add_entries_Ok in Hadd' as (es & -> & _); [|apply (tb_entries _ _ Hbooks)].
  apply update_trip_Ok in Hu as [_ Hu].
  destruct (mf_complete manifest && mc_complete c) eqn:Hcomplete; [|apply Ok_inj in Hrun as <-; by apply rtc_once].
  bool_prop. apply rtc_once in Hmove. eapply rtc_r; [exact Hmove|].
  eapply after_commit; [done|exact Hbooks|exact Ht|done|done|by rewrite Hu| |exact Hrun].
  by eapply completeness_sound.
Qed.

Lemma each_of_in {A B} (f : A -> result B) l k x : each_of f l = Ok k -> x ∈ l -> exists y, f x = Ok y /\ y ∈ k.
Proof.
  revert k. induction l as [|z l IH]; intros k Hrun Hx; [by apply not_elem_of_nil in Hx|]. cbn in Hrun.
  ok_step Hrun as y Hy. ok_step Hrun as ys Hys. apply Ok_inj in Hrun as <-.
  apply elem_of_cons in Hx as [->|Hx]; [exists y; split; [done|by left]|].
  destruct (IH _ Hys Hx) as (y' & Hf & Hin). exists y'. split; [done|by right].
Qed.

Lemma auto_end_moves s (db : trip_store F G) i now r :
  keys_within s ks -> trip_books ks db -> auto_end_inactive_trip s db i now = Ok r -> moves db r.2.
Proof.
  unfold auto_end_inactive_trip. intros Hks Hbooks Hrun. destruct (get_trip db i) as [t|] eqn:Ht; [|by apply Ok_inj in Hrun as <-].
  apply get_trip_in in Ht as [Ht <-]. destruct (bool_decide_reflect (tr_status t = TRIP_ACTIVE)) as [Hs|]; cbn [negb] in Hrun;
    [|by apply Ok_inj in Hrun as <-].
  destruct (_ <? _); [by apply Ok_inj in Hrun as <-|].
  ok_step Hrun. ok_step Hrun as creates Hcreates. ok_step Hrun as db1 Hadd. ok_step Hrun as root _.
  ok_step Hrun as db2 Hu. ok_step Hrun as c Hc.
  assert (Hmove : evidence_move ks db db2).
  { eapply commit_moves; [done|exact Ht|done| |exact Hadd|exact Hu]. intros b Hb.
    assert (Hb' : b ∈ stable_sort sequence_leb (manifest_batches db (tr_id t))) by (by rewrite stable_sort_perm).
    destruct (each_of_in _ _ _ _ Hcreates Hb') as (e & He & Hin). exists e. split; [done|].
    unfold descriptor_of in He. ok_step He as sequence Hseq. apply require_some_Ok in Hseq. apply Ok_inj in He as <-.
    unfold descriptor_matches. cbn. rewrite Hseq, !Z.eqb_refl, !bool_decide_eq_true_2 by done. done. }
  pose proof Hadd as Hadd'. apply add_entries_Ok in Hadd' as (es & -> & _); [|apply (tb_entries _ _ Hbooks)].
  apply update_trip_Ok in Hu as [_ Hu]. set (db3 := audit_trip _ _ _ _ _) in *.
  assert (Hmoves : moves db db3).
  { eapply rtc_l; [exact Hmove|]. apply rtc_once, move_other. by split. }
  destruct (mc_complete c) eqn:Hcomplete; cbn [negb] in Hrun; [|by apply Ok_inj in Hrun as <-].
  ok_step Hrun as r' Hseal. apply Ok_inj in Hrun as <-. eapply rtc_r; [exact Hmoves|].
  eapply (after_commit s db db3); [done|exact Hbooks|exact Ht|done|done| | |exact Hseal].
  - subst db3. by rewrite Hu.
  - by eapply completeness_sound.
Qed.

(** ** Reconciling *)

Lemma ended_undecided (db : trip_store F G) t :
  trip_ok ks db t -> tr_status t = TRIP_ENDED -> tr_verified_at t = None.
Proof.
  intros Hok Hs. destruct (tr_verified_at t) eqn:Hv; [|done]. assert (tr_status t = TRIP_SEALED); [|congruence].
  apply (to_verified _ _ _ Hok). by rewrite Hv.
Qed.

Lemma adjudicate_moves s (db db' : trip_store F G) t now t' :
  keys_within s ks -> t ∈ ts_trips db -> tr_status t = TRIP_ENDED -> tr_verified_at t = None ->
  given (tr_grace_expired_at t) = true -> tr_adjudicated_at t = None ->
  adjudicate s t now = Ok t' -> update_trip t' db = Ok db' -> evidence_move ks db db'.
Proof.
  intros Hks Ht Hs Hv Hg Ha Hadj Hu. destruct (adjudicate_verifies _ _ _ _ _ Hks Hadj) as (Hver & Heq & _).
  apply update_trip_Ok in Hu as [Hrow ->]. eapply move_update; [exact Ht|exact Hrow| |done..].
  rewrite Heq in *. by constructor.
Qed.

Lemma reconcile_moves s (db : trip_store F G) user i clock r :
  keys_within s ks -> trip_books ks db -> reconcile_trip_evidence s db user i clock = Ok r -> moves db r.2.
Proof.
  unfold reconcile_trip_evidence. intros Hks Hbooks Hrun. ok_step Hrun as t Ht. apply get_driver_trip_in in Ht as [Ht <-].
  pose proof (books_trip_ok _ _ Hbooks Ht) as Hok. ok_step Hrun. ok_step Hrun as u Hs. apply raise_if_Ok in Hs. bool_prop.
  ok_step Hrun. destruct (tr_verified_at t) eqn:Hv; cbn in Hrun; [ok_step Hrun; ok_step Hrun; by apply Ok_inj in Hrun as <-|].
  destruct (tr_adjudicated_at t) eqn:Ha; cbn in Hrun; [ok_step Hrun; ok_step Hrun; by apply Ok_inj in Hrun as <-|].
  ok_step Hrun as r' Hopen. apply Ok_inj in Hrun as <-. unfold reconcile_open_trip in Hopen. ok_step Hopen as c Hc.
  assert (Hended : tr_status t = TRIP_ENDED).
  { destruct (tr_status t) eqn:Hst; [done..|]. destruct (to_sealed _ _ _ Hok Hst) as [_ Hver].
    unfold verify_manifest_receipt in Hver. by rewrite Hv in Hver. }
  apply rtc_once. destruct (mc_complete c) eqn:Hcomplete; cbn [negb] in Hopen.
  - ok_step Hopen as r'' Hseal. apply Ok_inj in Hopen as <-. change (evidence_move ks db r''.2).
    eapply seal_moves; [exact Hks|exact Hbooks|exact Ht|exact Hended|exact Ha| |exact Hseal].
    by eapply completeness_sound.
  - ok_step Hopen as u2 Hg. apply raise_if_Ok in Hg. ok_step Hopen as t' Hadj. ok_step Hopen as db' Hu.
    apply Ok_inj in Hopen as <-. eapply adjudicate_moves; [exact Hks|exact Ht|exact Hended|exact Hv| |exact Ha|exact Hadj|exact Hu].
    unfold given. by rewrite Hg.
Qed.

(** ** Receiving *)

Lemma flush_batch_Ok b (db db' : trip_store F G) : flush_ping_batch b db = Ok db' ->
  conflicts batch_key b (ts_batches db) = false /\ conflicts manifest_sequence_key b (ts_batches db) = false
  /\ db' = set_ping_batches (fun l => l ++ [b]) db.
Proof.
  unfold flush_ping_batch. intros Hrun. ok_step Hrun. ok_step Hrun. ok_step Hrun as u Hk. ok_step Hrun as u' Hs.
  apply Ok_inj in Hrun as <-. by apply raise_if_Ok in Hk, Hs.
Qed.

(** A received batch, with its receipt, fits in the table. *)
Lemma received_fits (l : list ping_batch) b b' :
  batch_table ks l -> bt_id b ∉ bt_id <$> l -> conflicts batch_key b l = false ->
  conflicts manifest_sequence_key b l = false -> b' = with_receipt b (bt_receipt b') (bt_receipt_outcome b') ->
  batch_row_check b' = Ok tt -> verify_batch_receipt ks b' = Ok true -> batch_table ks (l ++ [b']).
Proof.
  intros [K1 K2 K3 K4 K5] Hnew Hk Hs Hb' Hrow Hver.
  assert (Hid : bt_id b' = bt_id b /\ batch_key b' = batch_key b /\ manifest_sequence_key b' = manifest_sequence_key b)
    by (by rewrite Hb'). destruct Hid as (Hid & Hk' & Hs').
  split.
  - apply Forall_app. split; [done|by constructor].
  - rewrite fmap_app. apply NoDup_app. split; [done|]. split; [|apply NoDup_singleton].
    intros y Hy ->%list_elem_of_singleton. by rewrite Hid in Hy.
  - apply unique_on_snoc; [done|]. unfold conflicts in *. by rewrite Hk'.
  - apply unique_on_snoc; [done|]. unfold conflicts in *. by rewrite Hs'.
  - apply Forall_app. split; [done|by constructor].
Qed.

Lemma dropped_accepts_none (pings : list (location_ping_create F)) rejections :
  rejections = (fun _ => Some PAY_ALREADY_CALCULATED) <$> pings -> accepted_samples pings rejections = [].
Proof. intros ->. unfold accepted_samples. induction pings as [|p pings IH]; [done|exact IH]. Qed.

(** What storing a batch does to the tables. *)
Lemma store_batch_Ok s (db : trip_store F G) t user payload sequence digest dropped rejections received_at cutoff r :
  keys_within s ks -> trip_books ks db -> t ∈ ts_trips db ->
  store_batch st_make_point s db t user payload sequence digest dropped rejections received_at cutoff = Ok r ->
  exists ps t' b,
    r.1 = with_receipt b (bt_receipt r.1) (bt_receipt_outcome r.1) /\ batch_table ks (ts_batches db ++ [r.1])
    /\ (exists i rejection_digest, b = batch_of_payload i (tr_id t) payload sequence digest (batch_scope t dropped) rejections
                                         rejection_digest received_at (if dropped then None else cutoff))
    /\ length ps = length (accepted_samples (lb_pings payload) rejections)
    /\ Forall (fun p => pr_batch_id p = bt_id b /\ lp_trip_session_id (pr_ping p) = tr_id t) ps
    /\ t' = (if dropped then t else touched_trip t received_at) /\ trip_row_check t' = Ok tt
    /\ tables_are db r.2 (set_row tr_id t' (ts_trips db)) (ts_batches db ++ [r.1]) (ts_entries db) (ts_pings db ++ ps).
Proof.
  unfold store_batch. intros Hks Hbooks Ht Hrun. ok_step Hrun as rejection_digest _.
  set (b := batch_of_payload _ _ _ _ _ _ _ _ _ _) in *. ok_step Hrun as db1 Hf. apply flush_batch_Ok in Hf as (Hk & Hseq & ->).
  ok_step Hrun as db2 Hp. apply add_pings_Ok in Hp as (ps & -> & Hlen & Hps).
  ok_step Hrun as db3 Hu. ok_step Hrun as b' Hsign. destruct (sign_batch_verifies _ _ _ _ _ Hks Hsign) as (Hver & Hb' & _).
  ok_step Hrun as db4 Hub. apply Ok_inj in Hrun as <-. unfold update_ping_batch in Hub. ok_step Hub as u Hrow. destruct u.
  apply Ok_inj in Hub as <-.
  exists ps, (if dropped then t else touched_trip t received_at), b. cbn [fst snd].
  assert (Hfresh : bt_id b ∉ bt_id <$> ts_batches db) by apply uuid4_fresh.
  assert (Hbatches : set_row bt_id b' (ts_batches db ++ [b]) = ts_batches db ++ [b']).
  { apply set_row_snoc; [done|]. by rewrite Hb'. }
  split_and!; [exact Hb'| |by eauto|exact Hlen|exact Hps|done| |].
  - eapply received_fits; [apply (tb_batches _ _ Hbooks)|exact Hfresh|done..].
  - destruct dropped; [apply (to_row _ _ _ (books_trip_ok _ _ Hbooks Ht))|]. by apply update_trip_Ok in Hu as [Hu _].
  - destruct dropped.
    + apply Ok_inj in Hu as <-. rewrite (set_row_self tr_id t) by (apply (tb_ids _ _ Hbooks) || done).
      by destruct (bool_decide _); split.
    + apply update_trip_Ok in Hu as [_ ->]. by destruct (bool_decide _); split.
Qed.

Lemma ensure_declared_entry (db : trip_store F G) trip payload digest sequence b :
  ensure_declared db trip payload digest sequence = Ok tt ->
  bt_idempotency_key b = lb_idempotency_key payload -> bt_batch_sequence b = Some sequence ->
  bt_payload_hash_version b = BATCH_HASH_VERSION -> bt_payload_hash b = digest ->
  bt_pings_submitted b = Z.of_nat (length (lb_pings payload)) ->
  exists e, e ∈ entries_of db trip /\ declares e b.
Proof.
  unfold ensure_declared. intros Hrun Hk Hs Hv Hd Hn. apply raise_if_Ok in Hrun.
  destruct (find_entry db trip _) as [e|] eqn:Hf; [|done]. apply find_row_Some in Hf as [He Hp]. bool_prop.
  exists e. split; [by apply elem_of_entries|]. split; [congruence|].
  unfold entry_matches. rewrite !andb_true_iff, !bool_decide_eq_true, !Z.eqb_eq. split_and!; congruence.
Qed.

(** A batch with a receipt has an outcome. *)
Lemma receipt_outcome_given b :
  batch_row_check b = Ok tt -> verify_batch_receipt ks b = Ok true -> bt_receipt_outcome b <> None.
Proof.
  unfold batch_row_check, verify_batch_receipt, verify_receipt. intros Hrow Hver Hnone.
  ok_step Hrow. ok_step Hrow. ok_step Hrow as u Hr. apply raise_if_Ok in Hr. unfold batch_receipt_ok in Hr.
  rewrite Hnone in Hr. cbn in Hr. rewrite !andb_false_r, orb_false_r, andb_true_r in Hr. bool_prop. by rewrite Hr in Hver.
Qed.

(** The row of a batch that was received. *)
Record received (t : trip_row) (payload : ping_batch_create F) (sequence : Z) (digest : string) (dropped : bool)
    (b : ping_batch) : Prop := {
  rb_trip : bt_trip_session_id b = tr_id t;
  rb_key : bt_idempotency_key b = lb_idempotency_key payload;
  rb_sequence : bt_batch_sequence b = Some sequence;
  rb_version : bt_payload_hash_version b = BATCH_HASH_VERSION;
  rb_hash : bt_payload_hash b = digest;
  rb_submitted : bt_pings_submitted b = Z.of_nat (length (lb_pings payload));
  rb_scope : bt_evidence_scope b = batch_scope t dropped
}.

(** Late data of days that were paid is dropped. *)
Definition late_dropped (db : trip_store F G) (t : trip_row) (payload : ping_batch_create F) : bool :=
  negb (bool_decide (tr_status t = TRIP_ACTIVE)) && _late_pay_calculated db (tr_session t) payload.

Lemma admit_moves s (db : trip_store F G) t a user payload sequence digest clock r :
  keys_within s ks -> trip_books ks db -> t ∈ ts_trips db ->
  admit_batch st_make_point s db t a user payload sequence digest clock = Ok r ->
  evidence_move ks db r.2 /\ ts_batches r.2 = ts_batches db ++ [r.1]
  /\ received t payload sequence digest (late_dropped db t payload) r.1
  /\ (tr_status t = TRIP_ENDED -> tr_adjudicated_at t = None -> exists e, e ∈ entries_of db (tr_id t) /\ declares e r.1).
Proof.
  unfold admit_batch. intros Hks Hbooks Ht Hrun. ok_step Hrun as u Hauto. ok_step Hrun as u1 Hsize.
  ok_step Hrun as u2 Hdeclared. ok_step Hrun as u3 Htaken. fold (late_dropped db t payload) in *.
  set (dropped := late_dropped db t payload) in *. set (rejections := rejected_samples _ _ _ _ _ _) in *.
  assert (Hstore : store_batch st_make_point s db t user payload sequence digest dropped rejections (utc_now clock)
    (campaign_financial_cutoff (ts_payout db) (trip_campaign_id (tr_session t))) = Ok r).
  { destruct (omap id rejections); [exact Hrun|]. destruct (accepted_samples (lb_pings payload) rejections); [|exact Hrun].
    destruct dropped; [exact Hrun|done]. }
  clear Hrun. apply store_batch_Ok in Hstore as (ps & t' & b & Hr & Htable & (i & rd & Hb) & Hlen & Hps & Ht' & Hrow & Htables);
    [|done..].
  assert (Hreceived : received t payload sequence digest dropped r.1) by (split; by rewrite Hr, Hb).
  assert (Hentry : tr_status t = TRIP_ENDED -> tr_adjudicated_at t = None ->
                   exists e, e ∈ entries_of db (tr_id t) /\ declares e r.1).
  { intros Hs Ha. rewrite Hs, Ha in Hdeclared. cbn in Hdeclared. destruct u2, Hreceived.
    eapply ensure_declared_entry; [exact Hdeclared|done..]. }
  split_and!; [|by destruct Htables|exact Hreceived|exact Hentry].
  eapply (move_trip _ _ _ t t' [r.1] [] ps); [exact Ht|exact Hrow| |constructor; [by destruct Hreceived|constructor]|constructor|by rewrite app_nil_r].
  eapply (Receives _ _ _ payload dropped); [done|by destruct Hreceived|exact Hentry|done| | | |].
  - rewrite Hr. exact Hps.
  - rewrite Hlen, Hr, Hb. done.
  - intros Hdropped. apply nil_length_inv. rewrite Hlen. unfold rejections, rejected_samples.
    rewrite Hdropped, dropped_accepts_none; done.
  - rewrite Ht'. destruct dropped; [by left|right; by eexists].
Qed.

Lemma ingest_moves s (db : trip_store F G) user i payload clock r :
  keys_within s ks -> trip_books ks db ->
  ingest_location_ping_batch float_bits st_make_point s db user i payload clock = Ok r -> moves db r.2.
Proof.
  unfold ingest_location_ping_batch. intros Hks Hbooks Hrun. ok_step Hrun as t Ht. apply get_driver_trip_in in Ht as [Ht _].
  ok_step Hrun. ok_step Hrun. ok_step Hrun. ok_step Hrun. ok_step Hrun.
  destruct (find_batch _ _ _); [ok_step Hrun; by apply Ok_inj in Hrun as <-|].
  ok_step Hrun as r' Hadmit. apply Ok_inj in Hrun as <-. apply rtc_once. by eapply admit_moves.
Qed.

(** ** The sweep *)

Lemma expire_moves s (db : trip_store F G) t now db' :
  keys_within s ks -> trip_books ks db -> t ∈ ts_trips db -> grace_due now t = true ->
  expire_grace s db t now = Ok db' ->
  moves db db' /\ forall x, x ∈ ts_trips db -> tr_id x <> tr_id t -> x ∈ ts_trips db'.
Proof.
  unfold expire_grace, grace_due. intros Hks Hbooks Ht Hdue Hrun. rewrite !andb_true_iff in Hdue.
  destruct Hdue as [[Hs%bool_decide_eq_true _] Hgrace]. pose proof (books_trip_ok _ _ Hbooks Ht) as Hok.
  assert (Hg : tr_grace_expired_at t = None) by (by destruct (tr_grace_expired_at t)).
  assert (Ha : tr_adjudicated_at t = None).
  { destruct (tr_adjudicated_at t) eqn:Ha; [|done]. destruct (to_adjudicated _ _ _ Hok) as (_ & Hg' & _); [by rewrite Ha|].
    by rewrite Hg in Hg'. }
  ok_step Hrun as db1 Hu. apply update_trip_Ok in Hu as [Hrow ->]. set (t' := grace_trip t now) in *.
  set (db2 := audit_trip _ _ _ _ _) in *.
  assert (Hmove : evidence_move ks db db2) by (eapply move_update; [exact Ht|exact Hrow|by constructor|done..]).
  assert (Ht' : t' ∈ ts_trips db2) by (by apply (elem_of_set_row_same tr_id t)).
  assert (Hothers : forall x, x ∈ ts_trips db -> tr_id x <> tr_id t -> x ∈ ts_trips db2)
    by (intros; by apply elem_of_set_row_other).
  destruct (is_none (tr_manifest_root_sha256 t')); [apply Ok_inj in Hrun as <-; split; [by apply rtc_once|exact Hothers]|].
  ok_step Hrun as c Hc. destruct (mc_complete c); [apply Ok_inj in Hrun as <-; split; [by apply rtc_once|exact Hothers]|].
  ok_step Hrun as t2 Hadj. ok_step Hrun as db3 Hu2. apply Ok_inj in Hrun as <-.
  assert (Hid : tr_id t2 = tr_id t) by (by destruct (adjudicate_verifies _ _ _ _ _ Hks Hadj) as (_ & -> & _)).
  pose proof Hu2 as Hu3. apply update_trip_Ok in Hu3 as [_ Hdb3]. split.
  - eapply rtc_l; [exact Hmove|]. apply (rtc_l _ _ db3); [|apply rtc_once, move_other; by split].
    eapply adjudicate_moves; [exact Hks|exact Ht'|exact Hs|exact (ended_undecided db t Hok Hs)|done|exact Ha|exact Hadj|exact Hu2].
  - intros x Hx Hne. rewrite Hdb3. apply elem_of_set_row_other; [by apply Hothers|by rewrite Hid].
Qed.

Lemma expire_all_moves s (db : trip_store F G) trips now db' :
  keys_within s ks -> trip_books ks db -> NoDup (tr_id <$> trips) ->
  Forall (fun t => t ∈ ts_trips db /\ grace_due now t = true) trips ->
  expire_all s db trips now = Ok db' -> moves db db'.
Proof.
  intros Hks. revert db. induction trips as [|t trips IH]; intros db Hbooks Hnd Hall Hrun; cbn in Hrun.
  - by apply Ok_inj in Hrun as <-.
  - ok_step Hrun as db1 Ht. inversion_clear Hall as [|? ? [Hin Hdue] Hrest].
    destruct (expire_moves _ _ _ _ _ Hks Hbooks Hin Hdue Ht) as [Hmoves Hothers].
    etrans; [exact Hmoves|]. rewrite fmap_cons in Hnd. apply NoDup_cons in Hnd as [Hnew Hnd].
    eapply IH; [by eapply books_moves|exact Hnd| |exact Hrun]. rewrite Forall_forall in *. intros y Hy.
    destruct (Hrest y Hy) as [Hxin Hxdue]. split; [|done]. apply Hothers; [done|].
    intros Heq. apply Hnew. rewrite <- Heq. by apply list_elem_of_fmap_2.
Qed.

Lemma filter_sublist {A} (p : A -> bool) l : List.filter p l `sublist_of` l.
Proof. induction l as [|x l IH]; cbn; [constructor|]. destruct (p x); [by apply sublist_skip|by apply sublist_cons]. Qed.

Lemma due_trips_in (db : trip_store F G) now :
  NoDup (tr_id <$> ts_trips db) -> NoDup (tr_id <$> due_trips db now)
  /\ Forall (fun t => t ∈ ts_trips db /\ grace_due now t = true) (due_trips db now).
Proof.
  intros Hnd. unfold due_trips. set (due := stable_sort ended_leb (List.filter (grace_due now) (ts_trips db))). split.
  - eapply sublist_NoDup; [|apply fmap_sublist, sublist_take]. unfold due. rewrite stable_sort_perm.
    eapply sublist_NoDup; [exact Hnd|]. apply fmap_sublist. apply filter_sublist.
  - apply Forall_take. apply Forall_forall. intros t. unfold due. rewrite stable_sort_perm. by rewrite elem_of_filter_b.
Qed.

Lemma sweep_moves s (db : trip_store F G) now r :
  keys_within s ks -> trip_books ks db -> seal_due_trips s db now = Ok r -> moves db r.2.
Proof.
  unfold seal_due_trips. intros Hks Hbooks Hrun. ok_step Hrun as db1 Hall. apply Ok_inj in Hrun as <-.
  destruct (due_trips_in db now (tb_ids _ _ Hbooks)). by eapply expire_all_moves.
Qed.

Lemma auto_end_all_moves s (db : trip_store F G) trips now :
  keys_within s ks -> trip_books ks db -> moves db (auto_end_all s db trips now).2.
Proof.
  intros Hks. revert db. induction trips as [|i trips IH]; intros db Hbooks; cbn; [done|].
  destruct (auto_end_inactive_trip s db i now) as [[sealed db1]|e] eqn:Hrun; [|by apply IH].
  pose proof (auto_end_moves _ _ _ _ _ Hks Hbooks Hrun) as Hmoves. etrans; [exact Hmoves|].
  cbn. apply IH. by eapply books_moves.
Qed.
End Simulation.
