(* ===== verification/TripLife.v ===== *)
(** The trip services run as one system: the stores they reach, what is final in
    them, and what the payout services may rely on.  A proof file over TripBooks
    and TripSteps. *)

From S2P Require Import Prelude Eligibility PayoutData DailyRate Ledger Engine Text Json DisbursementData Crypto Payees.
From S2P Require Import TripData TripEvidence Trips TripBooks TripSteps.
From stdpp Require Import base list strings gmap relations.
From Stdlib Require Import ZArith QArith Lia.
#[local] Open Scope Z_scope.

Section Life.
Context `{Sha256} `{HmacSha256} {F : Type} `{PyFloat F} {G : Type}.
Context (float_bits : F -> N) (st_make_point : F -> F -> G).
Context (ks : evidence_settings).

#[local] Abbreviation moves := (rtc (evidence_move (F:=F) (G:=G) ks)).
#[local] Abbreviation ingest := (ingest_location_ping_batch float_bits st_make_point).

(** ** The services as steps *)

(** A service that succeeds, under settings whose keys are among those of [ks]; a
    trip that starts read the store before the trips [arrived] were committed. *)
Inductive trip_step (db db' : trip_store F G) : Prop :=
| step_start db0 arrived a user now t :
    db = set_trips (fun l => l ++ arrived) db0 -> open_trip db0 arrived a user now = Ok (t, db') -> trip_step db db'
| step_end s user i payload clock r :
    keys_within s ks -> end_driver_trip s db user i payload clock = Ok (r, db') -> trip_step db db'
| step_receive s user i payload clock r :
    keys_within s ks -> ingest s db user i payload clock = Ok (r, db') -> trip_step db db'
| step_reconcile s user i clock r :
    keys_within s ks -> reconcile_trip_evidence s db user i clock = Ok (r, db') -> trip_step db db'
| step_auto_end s i now r :
    keys_within s ks -> auto_end_inactive_trip s db i now = Ok (r, db') -> trip_step db db'
| step_job s database_now clock r :
    keys_within s ks -> seal_ended_trips_job s db database_now clock = (r, db') -> trip_step db db'
| step_other :
    tables_are db db' (ts_trips db) (ts_batches db) (ts_entries db) (ts_pings db) -> trip_step db db'.

Lemma open_moves (db db' : trip_store F G) arrived a user now t :
  open_trip db arrived a user now = Ok (t, db') ->
  evidence_move ks (set_trips (fun l => l ++ arrived) db) db' /\ t ∈ ts_trips db'.
Proof.
  unfold open_trip, _add_trip_translating_exclusivity_conflict. intros Hrun. ok_step Hrun. ok_step Hrun.
  ok_step Hrun as db1 Hf. injection Hrun as <- <-. set (t := new_trip _ _ _ _) in *.
  assert (Hflush : flush_trip t (set_trips (fun l => l ++ arrived) db) = Ok db1) by (clear -Hf; repeat case_match; done).
  clear Hf. unfold flush_trip in Hflush. ok_step Hflush. ok_step Hflush as u Hd. ok_step Hflush as u' Hv.
  apply Ok_inj in Hflush as <-. apply raise_if_Ok in Hd, Hv. split.
  - eapply (move_open _ _ _ t a user now); [done..|]. by split.
  - apply elem_of_app. right. by apply list_elem_of_singleton.
Qed.

Lemma step_moves (db db' : trip_store F G) : trip_books ks db -> trip_step db db' -> moves db db'.
Proof.
  intros Hbooks [? ? ? ? ? ? -> Hrun|? ? ? ? ? r Hks Hrun|? ? ? ? ? r Hks Hrun|? ? ? ? r Hks Hrun|? ? ? r Hks Hrun
    |s database_now clock r Hks Hrun|Htables].
  - apply rtc_once. by eapply open_moves.
  - exact (end_moves _ _ _ _ _ _ _ _ Hks Hbooks Hrun).
  - exact (ingest_moves _ _ _ _ _ _ _ _ _ _ Hks Hbooks Hrun).
  - exact (reconcile_moves _ _ _ _ _ _ _ Hks Hbooks Hrun).
  - exact (auto_end_moves _ _ _ _ _ _ Hks Hbooks Hrun).
  - unfold seal_ended_trips_job in Hrun. destruct (seal_due_trips s db database_now) as [[marked db1]|e] eqn:Hsweep.
    + injection Hrun as _ <-. pose proof (sweep_moves _ _ _ _ _ Hks Hbooks Hsweep) as Hmoves. etrans; [exact Hmoves|].
      apply auto_end_all_moves; [done|]. by eapply books_moves.
    + by injection Hrun as _ <-.
  - by apply rtc_once, move_other.
Qed.

Lemma steps_moves (db db' : trip_store F G) : trip_books ks db -> rtc trip_step db db' -> moves db db'.
Proof.
  intros Hbooks Hsteps. induction Hsteps as [|db1 db2 db3 Hstep _ IH]; [done|].
  pose proof (step_moves _ _ Hbooks Hstep) as Hmoves. etrans; [exact Hmoves|]. apply IH. by eapply books_moves.
Qed.

(** ** What moves keep *)

(** [t'] is [t] later: who drives what for whom, and when it started, never
    change; an ended trip keeps its end, a closed one everything but the time of
    its last update. *)
Record later (t t' : trip_row) : Prop := {
  la_id : tr_id t' = tr_id t;
  la_driver : trip_driver_profile_id (tr_session t') = trip_driver_profile_id (tr_session t);
  la_campaign : trip_campaign_id (tr_session t') = trip_campaign_id (tr_session t);
  la_started : trip_started_at (tr_session t') = trip_started_at (tr_session t);
  la_ended : tr_status t <> TRIP_ACTIVE ->
    tr_status t' <> TRIP_ACTIVE /\ trip_ended_at (tr_session t') = trip_ended_at (tr_session t);
  la_closed : is_closed t = true -> t' = touched_trip t (tr_updated_at t')
}.

Lemma touched_self t : t = touched_trip t (tr_updated_at t).
Proof. by destruct t. Qed.

Lemma later_refl t : later t t.
Proof. split; try done. intros _. apply touched_self. Qed.

Lemma later_trans t1 t2 t3 : later t1 t2 -> later t2 t3 -> later t1 t3.
Proof.
  intros [K1 K2 K3 K4 K5 K6] [L1 L2 L3 L4 L5 L6]. split; try congruence.
  - intros Hs. destruct (K5 Hs) as [Hs2 He2]. destruct (L5 Hs2). split; congruence.
  - intros Hc. pose proof (K6 Hc) as Heq. assert (Hc2 : is_closed t2 = true) by (by rewrite Heq).
    rewrite (L6 Hc2), Heq. done.
Qed.

Lemma lifecycle_later (db : trip_store F G) t bs es ps t' :
  trip_ok ks db t -> lifecycle ks db t bs es ps t' -> later t t'.
Proof.
  intros Hok Hlife. destruct Hlife as [es ended_at reason root n now Hs _ _|at_ receipt reason now Hs Ha _ _|now Hs Hg
    |now receipt Hs _ Hg Ha _|payload dropped b ps t' _ _ _ _ _ _ _ [-> | [at_ ->]]].
  - split; try done. intros Hc. destruct (to_active _ _ _ Hok Hs) as [(_ & _ & Ha & _) _].
    unfold is_closed in Hc. by rewrite Hs, Ha in Hc.
  - split; try done. intros Hc. unfold is_closed in Hc. by rewrite Hs, Ha in Hc.
  - split; try done. intros Hc. unfold is_closed in Hc. rewrite Hs in Hc. cbn in Hc.
    destruct (to_adjudicated _ _ _ Hok Hc) as (_ & Hg' & _). by rewrite Hg in Hg'.
  - split; try done. intros Hc. unfold is_closed in Hc. by rewrite Hs, Ha in Hc.
  - apply later_refl.
  - split; try done.
Qed.

(** A closed trip takes in no more evidence. *)
Lemma lifecycle_closed (db : trip_store F G) t bs es ps t' :
  trip_ok ks db t -> is_closed t = true -> lifecycle ks db t bs es ps t' ->
  es = [] /\ Forall (fun b => bt_evidence_scope b <> SCOPE_MANIFEST) bs.
Proof.
  intros Hok Hc Hlife. destruct Hlife as [es ended_at reason root n now Hs _ _| | | |payload dropped b ps t' _ Hscope _ _ _ _ _ _];
    [|split; [done|constructor]..|].
  - destruct (to_active _ _ _ Hok Hs) as [(_ & _ & Ha & _) _]. unfold is_closed in Hc. by rewrite Hs, Ha in Hc.
  - split; [done|]. apply Forall_singleton. rewrite Hscope. unfold batch_scope. rewrite Hc. by destruct dropped.
Qed.

(** What a move keeps of a trip it finds. *)
Record kept (db db' : trip_store F G) (t t' : trip_row) : Prop := {
  kp_in : t' ∈ ts_trips db';
  kp_later : later t t';
  kp_evidence : is_closed t = true ->
    entries_of db' (tr_id t) = entries_of db (tr_id t) /\ manifest_batches db' (tr_id t) = manifest_batches db (tr_id t)
}.

Lemma move_keeps (db db' : trip_store F G) t :
  trip_books ks db -> evidence_move ks db db' -> t ∈ ts_trips db -> exists t', kept db db' t t'.
Proof.
  intros Hbooks [K|t1 a user now Hnew Hd Hv K|t1 t1' bs es ps Hin Hrow Hlife Hbs Hes K] Ht; destruct K as [K1 K2 K3 K4 K5].
  - exists t. split; [by rewrite K1|apply later_refl|]. intros _. by apply same_views.
  - exists t. split; [rewrite K1; apply elem_of_app; by left|apply later_refl|]. intros _. by apply same_views.
  - pose proof (books_trip_ok _ _ _ Hbooks Hin) as Hok1. destruct (decide (tr_id t = tr_id t1)) as [Heq|Hne].
    + assert (t = t1) as -> by (apply (nodup_key_inj tr_id (ts_trips db)); [apply (tb_ids _ _ Hbooks)|done..]).
      exists t1'. split; [rewrite K1; apply (elem_of_set_row_same tr_id t1); [done|]|by eapply lifecycle_later|].
      * symmetry. by eapply lifecycle_id.
      * intros Hc. destruct (lifecycle_closed _ _ _ _ _ _ Hok1 Hc Hlife) as [-> Hscope].
        rewrite (entries_of_app _ _ _ _ K3), (manifest_batches_app _ _ _ _ K2), app_nil_r. split; [done|].
        rewrite (filter_all_false _ bs), app_nil_r; [done|]. intros b Hb. rewrite Forall_forall in Hscope.
        apply andb_false_iff. right. apply bool_decide_eq_false. by apply Hscope.
    + exists t. split; [rewrite K1; apply elem_of_set_row_other; [done|]|apply later_refl|].
      * by rewrite (lifecycle_id _ _ _ _ _ _ _ Hlife).
      * intros _. rewrite (entries_of_app _ _ _ _ K3), (manifest_batches_app _ _ _ _ K2).
        rewrite (filter_foreign _ mn_trip_session_id (tr_id t1) (tr_id t)), (filter_foreign _ bt_trip_session_id (tr_id t1) (tr_id t)).
        -- by rewrite !app_nil_r. -- exact Hbs. -- congruence.
        -- intros b. rewrite andb_true_iff. by intros [?%bool_decide_eq_true _].
        -- exact Hes. -- congruence. -- intros e. by rewrite bool_decide_eq_true.
Qed.

Lemma moves_keep (db db' : trip_store F G) t :
  trip_books ks db -> moves db db' -> t ∈ ts_trips db -> exists t', kept db db' t t'.
Proof.
  intros Hbooks Hmoves. revert t. induction Hmoves as [db|db1 db2 db3 Hmove _ IH]; intros t Ht.
  - exists t. split; [done|apply later_refl|done].
  - destruct (move_keeps _ _ _ Hbooks Hmove Ht) as (t2 & [Hin2 Hlater2 Hev2]).
    destruct (IH (books_move _ _ _ Hmove Hbooks) t2 Hin2) as (t3 & [Hin3 Hlater3 Hev3]).
    exists t3. split; [done|by eapply later_trans|]. intros Hc. destruct (Hev2 Hc) as [He Hb].
    assert (Hc2 : is_closed t2 = true) by (by rewrite (la_closed _ _ Hlater2 Hc)).
    rewrite (la_id _ _ Hlater2) in Hev3. destruct (Hev3 Hc2) as [He' Hb']. by rewrite He', Hb'.
Qed.

(** ** Reachable stores *)

Definition reachable (db : trip_store F G) : Prop :=
  exists assignments activations payout, rtc trip_step (TripStore [] [] [] [] assignments activations payout) db.

Lemma reachable_books (db : trip_store F G) : reachable db -> trip_books ks db.
Proof.
  intros (a & e & p & Hsteps). pose proof (books_empty (F:=F) (G:=G) ks p a e) as Hbooks.
  eapply books_moves; [|exact Hbooks]. by apply steps_moves.
Qed.

(** C6: The trip services refine the lifecycle: whatever they do, from any store
    they reach, is a sequence of its moves — a trip opens, ends with its manifest,
    is sealed with complete evidence, runs out of its window, is adjudicated, or
    receives a batch. *)
Theorem services_follow_lifecycle (db db' : trip_store F G) :
  reachable db -> trip_step db db' -> rtc (evidence_move ks) db db'.
Proof. intros Hreach. apply step_moves. by apply reachable_books. Qed.

(** C12: In every store the services reach, every row passes the constraints of its
    table, the unique indexes hold, every batch has a receipt that verifies and as
    many samples as it accepted, a trip in progress has no evidence decided, an
    ended trip as many entries as its manifest says and no undeclared batch, and a
    sealed trip complete evidence. *)
Theorem reachable_stores_are_typed (db : trip_store F G) :
  reachable db ->
  Forall (fun t => trip_row_check t = Ok tt) (ts_trips db) /\ batch_table ks (ts_batches db) /\ entry_table (ts_entries db)
  /\ unique_on active_driver_key (ts_trips db) /\ unique_on active_vehicle_key (ts_trips db)
  /\ Forall (fun b => Z.of_nat (length (pings_of db b)) = bt_pings_accepted b) (ts_batches db)
  /\ (forall t, t ∈ ts_trips db -> tr_status t = TRIP_ACTIVE -> untouched t /\ entries_of db (tr_id t) = [])
  /\ (forall t, t ∈ ts_trips db -> tr_status t <> TRIP_ACTIVE ->
        Z.of_nat (length (entries_of db (tr_id t))) = default 0 (tr_manifest_batch_count t)
        /\ forall b, b ∈ manifest_batches db (tr_id t) -> exists e, e ∈ entries_of db (tr_id t) /\ declares e b)
  /\ (forall t, t ∈ ts_trips db -> tr_status t = TRIP_SEALED -> evidence_complete ks db t).
Proof.
  intros [B1 B2 B3 B4 B5 B6 B7 B8 B9 B10]%reachable_books. rewrite Forall_forall in B1. split_and!; try done.
  - apply Forall_forall. intros t Ht. by destruct (B1 t Ht).
  - intros t Ht. by destruct (B1 t Ht).
  - intros t Ht Hs. by destruct (to_committed _ _ _ (B1 t Ht) Hs) as (_ & _ & ? & ?).
  - intros t Ht Hs. by destruct (to_sealed _ _ _ (B1 t Ht) Hs).
Qed.

(** C7: A trip the payout services admit is one whose evidence was complete and
    verified: every batch its manifest declares was received as declared with a
    receipt that verifies, nothing else was, and no later step of the trip services
    takes the trip or its evidence back. *)
Theorem payable_trip_has_evidence verify (db : trip_store F G) i session :
  reachable db -> get_trip_for_payout verify (payout_view db) i = Ok session ->
  exists t, t ∈ ts_trips db /\ tr_session t = session /\ evidence_complete ks db t
    /\ verify_manifest_receipt ks t = Ok true
    /\ forall db', rtc trip_step db db' ->
         exists t', t' ∈ ts_trips db' /\ tr_session t' = session /\ evidence_complete ks db' t'.
Proof.
  intros Hbooks%reachable_books Hget. apply get_trip_for_payout_inv in Hget as ([Hin _] & Hsealed & _ & _).
  apply list_elem_of_fmap in Hin as (t & -> & Ht). pose proof (books_trip_ok _ _ _ Hbooks Ht) as Hok.
  destruct (to_sealed _ _ _ Hok Hsealed) as [Hcomplete Hver]. exists t. split_and!; [done..|]. intros db' Hsteps.
  destruct (moves_keep _ _ _ Hbooks (steps_moves _ _ Hbooks Hsteps) Ht) as (t' & [Hin Hlater Hev]).
  assert (Hc : is_closed t = true).
  { unfold is_closed. by rewrite (bool_decide_eq_true_2 (tr_status t = TRIP_SEALED)). }
  destruct (Hev Hc) as [He Hb]. exists t'. rewrite (la_closed _ _ Hlater Hc). split_and!.
  - by rewrite <- (la_closed _ _ Hlater Hc).
  - done.
  - by apply (complete_same ks db db' t).
Qed.

(** Once a trip is sealed or adjudicated incomplete, nothing but the time of its
    last update ever changes: not its row, not its manifest, not the batches that
    count as its evidence. *)
Theorem closed_evidence_is_final (db db' : trip_store F G) t :
  reachable db -> t ∈ ts_trips db -> is_closed t = true -> rtc trip_step db db' ->
  exists at_, touched_trip t at_ ∈ ts_trips db' /\ entries_of db' (tr_id t) = entries_of db (tr_id t)
    /\ manifest_batches db' (tr_id t) = manifest_batches db (tr_id t).
Proof.
  intros Hbooks%reachable_books Ht Hc Hsteps.
  destruct (moves_keep _ _ _ Hbooks (steps_moves _ _ Hbooks Hsteps) Ht) as (t' & [Hin Hlater Hev]).
  exists (tr_updated_at t'). rewrite <- (la_closed _ _ Hlater Hc). split; [done|by apply Hev].
Qed.

(** ** Days that were paid *)

Lemma pay_calculated_day (db : trip_store F G) t c payload :
  NoDup (tr_id <$> ts_trips db) -> t ∈ ts_trips db -> c ∈ st_calculations (ts_payout db) ->
  pc_trip_session_id c = tr_id t -> pc_driver_profile_id c = trip_driver_profile_id (tr_session t) ->
  pc_campaign_id c = trip_campaign_id (tr_session t) ->
  (exists ended, trip_ended_at (tr_session t) = Some ended /\ trip_started_at (tr_session t) <= ended) ->
  _late_pay_calculated db (tr_session t) payload = true.
Proof.
  intros Hids Ht Hc Hct Hcd Hcc (ended & Hended & Hle). unfold _late_pay_calculated, pay_calculated.
  apply (existsb_in _ _ c Hc). rewrite Hcd, Hcc, !bool_decide_eq_true_2 by done. cbn [andb].
  unfold get_trip. rewrite Hct, (find_by_key_in tr_id) by done.
  set (started := trip_started_at (tr_session t)) in *.
  apply (existsb_in _ _ (lagos_date started)).
  - apply elem_of_sorted_set, elem_of_app. left. apply elem_of_seqZ. rewrite Hended. cbn. fold started.
    pose proof (lagos_date_mono _ _ Hle). lia.
  - rewrite Hended. unfold lagos_day_utc_range. cbn. destruct (proj1 (lagos_date_spec started _) eq_refl) as [Hlo Hhi].
    unfold lagos_midnight in *. apply andb_true_iff. split; [apply Z.ltb_lt|apply Z.leb_le]; lia.
Qed.

Definition samples_of (db : trip_store F G) (trip : uuid) : list (ping_row F G) :=
  List.filter (fun p => bool_decide (lp_trip_session_id (pr_ping p) = trip)) (ts_pings db).

Lemma lifecycle_samples (db : trip_store F G) t bs es ps t' :
  lifecycle ks db t bs es ps t' -> Forall (fun p => lp_trip_session_id (pr_ping p) = tr_id t) ps.
Proof.
  destruct 1; try constructor. eapply Forall_impl; [eassumption|]. by intros p [_ ?].
Qed.

(** Pay was calculated for the trip. *)
Definition calculated (db : trip_store F G) (t : trip_row) : Prop :=
  tr_status t <> TRIP_ACTIVE
  /\ (exists ended, trip_ended_at (tr_session t) = Some ended /\ trip_started_at (tr_session t) <= ended)
  /\ exists c, c ∈ st_calculations (ts_payout db) /\ pc_trip_session_id c = tr_id t
       /\ pc_driver_profile_id c = trip_driver_profile_id (tr_session t) /\ pc_campaign_id c = trip_campaign_id (tr_session t).

Lemma move_samples (db db' : trip_store F G) t :
  trip_books ks db -> evidence_move ks db db' -> t ∈ ts_trips db -> calculated db t ->
  samples_of db' (tr_id t) = samples_of db (tr_id t).
Proof.
  intros Hbooks [K|t1 a user now Hnew Hd Hv K|t1 t1' bs es ps Hin Hrow Hlife Hbs Hes K] Ht (Hs & Hspan & c & Hc & Hct & Hcd & Hcc);
    destruct K as [_ _ _ K4 _]; unfold samples_of; rewrite K4; [done..|]. rewrite List.filter_app.
  destruct (decide (tr_id t1 = tr_id t)) as [Heq|Hne].
  - assert (t = t1) as <- by (apply (nodup_key_inj tr_id (ts_trips db)); [apply (tb_ids _ _ Hbooks)|done..]).
    assert (ps = []) as ->; [|apply app_nil_r].
    destruct Hlife as [| | | |payload dropped b ps t1' Hdrop _ _ _ _ _ Hnone _]; try done. apply Hnone. rewrite Hdrop.
    rewrite (pay_calculated_day db t c) by (apply (tb_ids _ _ Hbooks) || done).
    by rewrite bool_decide_eq_false_2.
  - rewrite (filter_foreign _ (fun p => lp_trip_session_id (pr_ping p)) (tr_id t1) (tr_id t) ps); [apply app_nil_r| |done|].
    + by eapply lifecycle_samples.
    + intros p. by rewrite bool_decide_eq_true.
Qed.

Lemma move_grows (db db' : trip_store F G) : evidence_move ks db db' ->
  st_calculations (ts_payout db) ⊆ st_calculations (ts_payout db') /\ ts_batches db `prefix_of` ts_batches db'
  /\ ts_entries db `prefix_of` ts_entries db'.
Proof. destruct 1 as [K|? ? ? ? ? ? ? K|? ? ? ? ? ? ? ? ? ? K]; destruct K as [K1 -> -> K4 K5]; eauto using prefix_app_r. Qed.

Lemma moves_grow (db db' : trip_store F G) : moves db db' ->
  st_calculations (ts_payout db) ⊆ st_calculations (ts_payout db') /\ ts_batches db `prefix_of` ts_batches db'
  /\ ts_entries db `prefix_of` ts_entries db'.
Proof.
  induction 1 as [|db1 db2 db3 Hmove _ (IH1 & IH2 & IH3)]; [done|]. destruct (move_grows _ _ Hmove) as (K1 & K2 & K3).
  split_and!; by etrans.
Qed.

Lemma calculated_later (db db' : trip_store F G) t t' :
  later t t' -> st_calculations (ts_payout db) ⊆ st_calculations (ts_payout db') -> calculated db t -> calculated db' t'.
Proof.
  intros [K1 K2 K3 K4 K5 K6] Hsub (Hs & (ended & He & Hle) & c & Hc & Hct & Hcd & Hcc). destruct (K5 Hs) as [Hs' He'].
  split_and!; [done| |].
  - exists ended. by rewrite He', K4.
  - exists c. rewrite K1, K2, K3. split_and!; [by apply Hsub|done..].
Qed.

(** C15: Once pay has been calculated for an ended trip, no step of the services adds
    a sample to it: the samples the pay was calculated from stay the trip's samples. *)
Theorem calculated_trip_takes_no_samples (db db' : trip_store F G) t :
  reachable db -> t ∈ ts_trips db -> calculated db t -> rtc trip_step db db' ->
  samples_of db' (tr_id t) = samples_of db (tr_id t).
Proof.
  intros Hbooks%reachable_books Ht Hcalc Hsteps. pose proof (steps_moves _ _ Hbooks Hsteps) as Hmoves. clear Hsteps.
  revert t Ht Hcalc. induction Hmoves as [|db1 db2 db3 Hmove _ IH]; intros t Ht Hcalc; [done|].
  rewrite <- (move_samples _ _ _ Hbooks Hmove Ht Hcalc).
  destruct (move_keeps _ _ _ Hbooks Hmove Ht) as (t2 & [Hin Hlater _]). rewrite <- (la_id _ _ Hlater).
  apply IH; [by eapply books_move|done|]. eapply calculated_later; [done| |done]. by apply move_grows.
Qed.

(** ** Deliveries *)

Lemma ingest_new s (db db' : trip_store F G) user i payload clock b :
  ingest s db user i payload clock = Ok (b, false, db') ->
  exists t a sequence digest, get_driver_trip db user i = Ok t /\ lb_batch_sequence payload = Some sequence
    /\ payload_digest float_bits payload = Ok digest
    /\ admit_batch st_make_point s db t a user payload sequence digest clock = Ok (b, db').
Proof.
  unfold ingest_location_ping_batch. intros Hrun. ok_step Hrun as t Ht. ok_step Hrun as a Ha. ok_step Hrun. ok_step Hrun.
  ok_step Hrun as sequence Hs. ok_step Hrun as digest Hd. apply require_some_Ok in Hs.
  destruct (find_batch _ _ _); [ok_step Hrun; by injection Hrun|]. ok_step Hrun as r Hadmit. injection Hrun as <- <-.
  exists t, a, sequence, digest. by destruct r.
Qed.

Lemma find_batch_in (db : trip_store F G) b :
  unique_on batch_key (ts_batches db) -> b ∈ ts_batches db ->
  find_batch db (bt_trip_session_id b) (bt_idempotency_key b) = Some b.
Proof.
  intros Hu Hb. unfold find_batch. destruct (find_row _ _) as [b'|] eqn:Hf.
  - apply find_row_Some in Hf as [Hb' Hk]. bool_prop. f_equal.
    apply (unique_on_inj batch_key (ts_batches db) b' b (bt_trip_session_id b, bt_idempotency_key b)); [done..| |done].
    unfold batch_key. congruence.
  - eapply find_row_None in Hf; [|exact Hb]. by rewrite !bool_decide_eq_true_2 in Hf.
Qed.

(** C36: A delivery that was acknowledged stays acknowledged: sent again after any
    further steps, by a driver whose trip is still found and may still report, it
    is answered with the same batch and receipt, flagged as received before, and
    nothing is stored. *)
Theorem acknowledged_delivery_replays s s' (db db1 db2 : trip_store F G) user i payload clock clock' b t a k :
  reachable db -> keys_within s ks -> keys_within ks s' ->
  ingest s db user i payload clock = Ok (b, false, db1) -> rtc trip_step db1 db2 ->
  get_driver_trip db2 user i = Ok t -> find_by_key as_id (trip_assignment_id (tr_session t)) (ts_assignments db2) = Some a ->
  as_status a = ASSIGNMENT_ACTIVE \/ tr_status t <> TRIP_ACTIVE -> signing_key s' None = Ok k ->
  ingest s' db2 user i payload clock' = Ok (b, true, db2).
Proof.
  intros Hbooks%reachable_books Hks Hks' Hnew Hsteps Ht Ha Hmay Hk.
  apply ingest_new in Hnew as (t0 & a0 & sequence & digest & Ht0 & Hseq & Hdigest & Hadmit).
  apply get_driver_trip_in in Ht0 as [Ht0 Hid].
  destruct (admit_moves _ _ _ _ _ _ _ _ _ _ _ _ Hks Hbooks Ht0 Hadmit) as (Hmove & Hbatches & Hreceived & _). cbn in *.
  pose proof (books_move _ _ _ Hmove Hbooks) as Hbooks1. pose proof (steps_moves _ _ Hbooks1 Hsteps) as Hmoves.
  pose proof (tb_batches _ _ (books_moves _ _ _ Hmoves Hbooks1)) as [_ _ Hkeys _ Hreceipts].
  assert (Hb : b ∈ ts_batches db2).
  { destruct (moves_grow _ _ Hmoves) as (_ & [l ->] & _). rewrite Hbatches. set_solver. }
  rewrite Forall_forall in Hreceipts. specialize (Hreceipts b Hb). cbn in Hreceipts.
  destruct Hreceived as [Htrip Hkey Hsequence _ Hhash _ _].
  unfold ingest_location_ping_batch. rewrite Ht. cbn [mbind result_bind]. rewrite Ha. cbn [require_some mbind result_bind].
  assert (Hguard : (if bool_decide (tr_status t = TRIP_ACTIVE) && is_none (campaign_financial_cutoff (ts_payout db2)
      (trip_campaign_id (tr_session t))) then ensure_assignment_active a else mret tt) = Ok tt).
  { destruct Hmay as [Hmay|Hmay]; [|by rewrite bool_decide_eq_false_2]. unfold ensure_assignment_active.
    rewrite Hmay. by destruct (_ && _). }
  rewrite Hguard, Hk. cbn [mbind result_bind]. rewrite Hseq. cbn [require_some mbind result_bind].
  rewrite Hdigest. cbn [mbind result_bind]. rewrite <- Hid, <- Htrip, <- Hkey, find_batch_in by done.
  unfold replayed_batch. rewrite !bool_decide_eq_true_2 by done. cbn [negb orb raise_if mbind result_bind].
  unfold verify_batch_receipt in *. by rewrite (verify_receipt_within _ _ _ _ _ _ Hks' Hreceipts).
Qed.

(** ** The recovery window *)

(** A declared batch that was dropped leaves the evidence incomplete. *)
Lemma dropped_incomplete (db : trip_store F G) t b e :
  unique_on batch_key (ts_batches db) -> b ∈ ts_batches db -> bt_trip_session_id b = tr_id t ->
  bt_evidence_scope b = SCOPE_LATE_DROPPED -> e ∈ entries_of db (tr_id t) -> declares e b -> ~ evidence_complete ks db t.
Proof.
  intros Hu Hb Htrip Hscope He [Hk _] [Hreceived _ _]. destruct (Hreceived e He) as (b' & Hb' & Hk' & _).
  apply elem_of_manifest_batches in Hb' as (Hin & Htrip' & Hscope').
  assert (b' = b) as ->; [|congruence].
  apply (unique_on_inj batch_key (ts_batches db) b' b (tr_id t, mn_idempotency_key e)); [done..| |];
    unfold batch_key; congruence.
Qed.

(** C37: In the recovery window of an ended trip, once pay has been calculated for a
    trip of the same driver and campaign on one of its days, a batch that the
    committed manifest declares is acknowledged but dropped, and that is the end of
    it: its key is used, so whatever happens later the trip is never sealed, and so
    never paid. *)
Theorem paid_day_strands_open_trip s (db db1 db2 : trip_store F G) user payload clock b t :
  reachable db -> keys_within s ks -> t ∈ ts_trips db -> tr_status t = TRIP_ENDED -> tr_adjudicated_at t = None ->
  _late_pay_calculated db (tr_session t) payload = true ->
  ingest s db user (tr_id t) payload clock = Ok (b, false, db1) -> rtc trip_step db1 db2 ->
  bt_receipt_outcome b <> None /\ bt_evidence_scope b = SCOPE_LATE_DROPPED
  /\ (exists e, e ∈ entries_of db (tr_id t) /\ declares e b)
  /\ exists t', t' ∈ ts_trips db2 /\ tr_id t' = tr_id t /\ tr_status t' <> TRIP_SEALED
       /\ forall verify, is_ok (get_trip_for_payout verify (payout_view db2) (tr_id t)) = false.
Proof.
  intros Hbooks%reachable_books Hks Ht Hs Ha Hpaid Hnew Hsteps.
  apply ingest_new in Hnew as (t0 & a0 & sequence & digest & Ht0 & _ & _ & Hadmit).
  apply get_driver_trip_in in Ht0 as [Ht0 Hid].
  assert (t0 = t) as -> by (apply (nodup_key_inj tr_id (ts_trips db)); [apply (tb_ids _ _ Hbooks)|done..]).
  destruct (admit_moves _ _ _ _ _ _ _ _ _ _ _ _ Hks Hbooks Ht Hadmit) as (Hmove & Hbatches & Hreceived & Hentry). cbn in *.
  destruct (Hentry Hs Ha) as (e & He & Hdeclares). destruct Hreceived as [Htrip _ _ _ _ _ Hscope].
  unfold late_dropped in Hscope. rewrite Hpaid, bool_decide_eq_false_2 in Hscope by congruence. cbn in Hscope.
  pose proof (books_move _ _ _ Hmove Hbooks) as Hbooks1. pose proof (steps_moves _ _ Hbooks1 Hsteps) as Hmoves.
  pose proof (books_moves _ _ _ Hmoves Hbooks1) as Hbooks2.
  assert (Hall : moves db db2) by (by eapply rtc_l). destruct (moves_keep _ _ _ Hbooks Hall Ht) as (t' & [Hin Hlater _]).
  destruct (moves_grow _ _ Hmoves) as (_ & [l Hb2] & _). destruct (moves_grow _ _ Hall) as (_ & _ & [l' He2]).
  assert (Hb : b ∈ ts_batches db2) by (rewrite Hb2, Hbatches; set_solver).
  assert (Hunsealed : tr_status t' <> TRIP_SEALED).
  { intros Hsealed. destruct (to_sealed _ _ _ (books_trip_ok _ _ _ Hbooks2 Hin) Hsealed) as [Hcomplete _]. revert Hcomplete.
    apply (dropped_incomplete db2 t' b e); rewrite ?(la_id _ _ Hlater); try done; [apply (tb_batches _ _ Hbooks2)|].
    rewrite (entries_of_app _ _ _ _ He2). apply elem_of_app. by left. }
  split_and!; [|done|by exists e|].
  - pose proof (bt_receipts _ _ (tb_batches _ _ Hbooks1)) as Hver. rewrite Hbatches, Forall_app, Forall_singleton in Hver.
    destruct Hver as [_ Hver]. pose proof (bt_rows _ _ (tb_batches _ _ Hbooks1)) as Hrow.
    rewrite Hbatches, Forall_app, Forall_singleton in Hrow. destruct Hrow as [_ Hrow]. by apply (receipt_outcome_given ks b).
  - exists t'. split_and!; [done|apply (la_id _ _ Hlater)|done|]. intros verify.
    destruct (get_trip_for_payout _ _ _) as [ts|] eqn:Hget; [|done]. exfalso. apply Hunsealed.
    apply get_trip_for_payout_inv in Hget as ([Hts Hi] & Hsealed & _ & _). apply list_elem_of_fmap in Hts as (t2 & -> & Ht2).
    assert (t2 = t') as <-; [|done]. apply (nodup_key_inj tr_id (ts_trips db2)); [apply (tb_ids _ _ Hbooks2)|done..|].
    by rewrite (la_id _ _ Hlater).
Qed.

(** ** The sweep *)

Lemma expire_grace_evidence s (db db' : trip_store F G) t now :
  expire_grace s db t now = Ok db' -> ts_batches db' = ts_batches db /\ ts_entries db' = ts_entries db.
Proof.
  unfold expire_grace. intros Hrun. ok_step Hrun as db1 Hu. apply update_trip_Ok in Hu as [_ ->].
  destruct (is_none _); [by apply Ok_inj in Hrun as <-|]. ok_step Hrun as c Hc. destruct (mc_complete c); [by apply Ok_inj in Hrun as <-|].
  ok_step Hrun. ok_step Hrun as db2 Hu. apply Ok_inj in Hrun as <-. by apply update_trip_Ok in Hu as [_ ->].
Qed.

Lemma adjudicate_fractional s t now t' : now mod 1000 <> 0 -> adjudicate s t now <> Ok t'.
Proof.
  unfold adjudicate, sign_adjudication_receipt. intros Hnow Hrun. ok_step Hrun as receipt Hr. ok_step Hr. ok_step Hr.
  ok_step Hr as value Hv. unfold adjudication_receipt_value in Hv. ok_step Hv as at_ Hat. apply require_some_Ok in Hat.
  cbn in Hat. injection Hat as <-. ok_step Hv as ms Hms. unfold epoch_milliseconds in Hms. ok_step Hms as u Hu.
  apply raise_if_Ok in Hu. by bool_prop.
Qed.

Lemma expire_fractional s (db db' : trip_store F G) t now c :
  now mod 1000 <> 0 -> given (tr_manifest_root_sha256 t) = true -> manifest_completeness s db t = Ok c ->
  mc_complete c = false -> expire_grace s db t now <> Ok db'.
Proof.
  unfold expire_grace. intros Hnow Hroot Hc Hincomplete Hrun. ok_step Hrun as db1 Hu. apply update_trip_Ok in Hu as [_ ->].
  change (tr_manifest_root_sha256 (grace_trip t now)) with (tr_manifest_root_sha256 t) in Hrun.
  unfold given in Hroot. apply negb_true_iff in Hroot. rewrite Hroot in Hrun.
  set (db2 := audit_trip _ _ _ _ _) in Hrun.
  assert (manifest_completeness s db2 (grace_trip t now) = Ok c) as Hc2 by exact Hc.
  rewrite Hc2 in Hrun. cbn [mbind result_bind] in Hrun. rewrite Hincomplete in Hrun. ok_step Hrun as t' Hadj.
  by apply adjudicate_fractional in Hadj.
Qed.

Lemma completeness_same s (db db' : trip_store F G) t :
  ts_batches db' = ts_batches db -> ts_entries db' = ts_entries db ->
  manifest_completeness s db' t = manifest_completeness s db t.
Proof. intros Hb He. unfold manifest_completeness, declared_entries, manifest_batches. by rewrite Hb, He. Qed.

Lemma expire_all_fractional s (db db' : trip_store F G) trips t now c :
  now mod 1000 <> 0 -> t ∈ trips -> given (tr_manifest_root_sha256 t) = true -> manifest_completeness s db t = Ok c ->
  mc_complete c = false -> expire_all s db trips now <> Ok db'.
Proof.
  intros Hnow Ht Hroot Hc Hincomplete. revert db Hc. induction trips as [|t1 trips IH]; intros db Hc Hrun; [by apply not_elem_of_nil in Ht|].
  cbn in Hrun. ok_step Hrun as db1 Hx. apply elem_of_cons in Ht as [<-|Ht]; [by eapply expire_fractional|].
  destruct (expire_grace_evidence _ _ _ _ _ Hx) as [Hb He]. eapply IH; [done| |exact Hrun]. by rewrite (completeness_same _ db).
Qed.

(** C38: The sweep reads the database's clock, which counts microseconds, and signs
    an adjudication only for a whole millisecond.  So while one of the trips it
    finds has committed a manifest that is incomplete, a run at any other instant
    fails, nothing of it is stored, no other trip's window is closed, and the
    abandoned trips are not ended. *)
Theorem fractional_clock_stops_the_sweep s (db : trip_store F G) database_now clock t c :
  database_now mod 1000 <> 0 -> t ∈ due_trips db database_now -> given (tr_manifest_root_sha256 t) = true ->
  manifest_completeness s db t = Ok c -> mc_complete c = false ->
  exists e, seal_ended_trips_job s db database_now clock = (Raise e, db).
Proof.
  intros Hnow Ht Hroot Hc Hincomplete. unfold seal_ended_trips_job, seal_due_trips.
  destruct (expire_all s db (due_trips db database_now) database_now) as [db'|e] eqn:Hrun; [|by exists e].
  by apply (expire_all_fractional _ _ _ _ t _ c) in Hrun.
Qed.
End Life.

(** ** A sample *)

Module TripSample.
Import RationalFloat DisbursementSample.

#[export] Instance hmac : HmacSha256 := fun key m => hex_digits 64 (text_value (key +:+ m)%string 0) "".

Definition keys : evidence_settings := EvidenceSettings {[ 1 := "secret"%string ]} 1.
Definition bits (q : Q) : N := Z.to_N (Qnum q).
Definition point (lon lat : Q) : Q * Q := (lon, lat).
Definition t0 : Z := 1760000000 * second.

#[global] Abbreviation store := (trip_store Q (Q * Q)).
#[global] Abbreviation deliver := (ingest_location_ping_batch bits point keys).

Definition assignment : campaign_assignment := CampaignAssignment 9 20 5 30 ASSIGNMENT_ACTIVE (Some t0) None None.

Definition after {A} (db : store) (r : result (A * store)) : store := match r with Ok (_, db') => db' | Raise _ => db end.

Definition sample (at_ : Z) : location_ping_create Q :=
  LocationPingCreate at_ (65 # 10) (34 # 10) (Some (8 # 1)) None None None (Some 1) [("source", CStr "gps")]%string.
Definition batch (key : string) (sequence at_ : Z) : ping_batch_create Q := PingBatchCreate key (Some sequence) [sample at_] [].
Definition declare (payload : ping_batch_create Q) : manifest_entry_create :=
  ManifestEntryCreate (default 0 (lb_batch_sequence payload)) (lb_idempotency_key payload) 2
    (match batch_payload_hash bits payload with Ok h => h | Raise _ => ""%string end) (Z.of_nat (length (lb_pings payload))).
Definition manifest (trip : uuid) (complete : bool) (payloads : list (ping_batch_create Q)) : trip_end_request :=
  let entries := declare <$> payloads in
  let n := Z.of_nat (length entries) in
  TripEndRequest None (Some (ManifestCreate 2 (match manifest_root trip entries n with Ok r => r | Raise _ => ""%string end)
    n complete entries)).

Definition calculation : payout_calculation :=
  PayoutCalculation 40 1 41 42 43 9 20 5 30 "v4" CALCULATED "NGN" 0 0 ∅ ∅ ∅ "" 0 (t0 + 1000 * second).
Definition with_calculation (db : store) : store :=
  TripStore (ts_trips db) (ts_batches db) (ts_entries db) (ts_pings db) (ts_assignments db) (ts_activations db)
    (let p := ts_payout db in
     {| st_trips := st_trips p; st_analytics := st_analytics p; st_estimates := st_estimates p;
        st_bindings := st_bindings p; st_campaigns := st_campaigns p; st_rules := st_rules p;
        st_revisions := st_revisions p; st_calculations := calculation :: st_calculations p; st_ledger := st_ledger p;
        st_orders := st_orders p; st_lines := st_lines p; st_intents := st_intents p; st_offsets := st_offsets p;
        st_profiles := st_profiles p; st_cutoffs := st_cutoffs p; st_audit := st_audit p |}).

(** The first trip: one batch, complete at its end. *)
Definition first_batch := batch "a" 0 (t0 + 60 * second).
Definition s0 : store := TripStore [] [] [] [] [assignment] [] payout_tables.
Definition s1 : store := after s0 (open_trip s0 [] assignment 50 t0).
Definition s2 : store := after s1 (deliver s1 50 1 first_batch (t0 + 90 * second)).
Definition s3 : store := after s2 (end_driver_trip keys s2 50 1 (manifest 1 true [first_batch]) (t0 + 600 * second)).

(** The second trip: two batches declared, one delivered before the end. *)
Definition open_batch := batch "b" 0 (t0 + 3700 * second).
Definition late_batch := batch "c" 1 (t0 + 3800 * second).
Definition opened (db : store) : store := after db (open_trip db [] assignment 50 (t0 + 3600 * second)).
Definition half (db : store) : store := after db (deliver db 50 2 open_batch (t0 + 3750 * second)).
Definition ended (db : store) : store :=
  after db (end_driver_trip keys db 50 2 (manifest 2 true [open_batch; late_batch]) (t0 + 4200 * second)).
Definition late (db : store) : store := after db (deliver db 50 2 late_batch (t0 + 4300 * second)).
Definition reconciled (db : store) : store := after db (reconcile_trip_evidence keys db 50 2 (t0 + 4400 * second)).

(** The second trip after the first, and after pay was calculated for the first. *)
Definition q1 : store := opened s3.
Definition q2 : store := half q1.
Definition q3 : store := ended q2.
Definition q4 : store := late q3.
Definition q5 : store := reconciled q4.
Definition c3 : store := with_calculation s3.
Definition c3a : store := opened c3.
Definition c3b : store := half c3a.
Definition c4 : store := ended c3b.
Definition c5 : store := late c4.
Definition c6 : store := (seal_ended_trips_job keys c5 (t0 + 6000 * second) (t0 + 6000 * second)).2.

Definition trip_of (db : store) (i : uuid) : trip_row := default (new_trip 0 assignment 0 0) (get_trip db i).

#[global] Abbreviation step := (trip_step bits point keys).
#[global] Abbreviation reached := (reachable bits point keys).

(** *** Every store of the sample is reached *)

Lemma ok_after {A} (db : store) (r : result (A * store)) : is_ok r = true -> exists x, r = Ok (x, after db r).
Proof. destruct r as [[x db']|e]; [by exists x|done]. Qed.

Lemma keys_refl : keys_within keys keys.
Proof. unfold keys_within. reflexivity. Qed.

Lemma start_step (db : store) now :
  set_trips (fun l => l ++ []) db = db -> is_ok (open_trip db [] assignment 50 now) = true ->
  step db (after db (open_trip db [] assignment 50 now)).
Proof. intros Hdb (t & Hrun)%(ok_after db). eapply step_start; [symmetry; exact Hdb|exact Hrun]. Qed.

Lemma deliver_step (db : store) trip payload clock :
  is_ok (deliver db 50 trip payload clock) = true -> step db (after db (deliver db 50 trip payload clock)).
Proof. intros (r & Hrun)%(ok_after db). eapply step_receive; [apply keys_refl|exact Hrun]. Qed.

Lemma end_step (db : store) trip payload clock :
  is_ok (end_driver_trip keys db 50 trip payload clock) = true -> step db (after db (end_driver_trip keys db 50 trip payload clock)).
Proof. intros (r & Hrun)%(ok_after db). eapply step_end; [apply keys_refl|exact Hrun]. Qed.

Lemma reconcile_step (db : store) trip clock :
  is_ok (reconcile_trip_evidence keys db 50 trip clock) = true ->
  step db (after db (reconcile_trip_evidence keys db 50 trip clock)).
Proof. intros (r & Hrun)%(ok_after db). eapply step_reconcile; [apply keys_refl|exact Hrun]. Qed.

Lemma reached_more (db db' : store) : reached db -> step db db' -> reached db'.
Proof. intros (a & e & p & Hsteps) Hstep. exists a, e, p. by eapply rtc_r. Qed.

Lemma reached_s0 : reached s0.
Proof. exists [assignment], [], payout_tables. apply rtc_refl. Qed.

Lemma step_s1 : step s0 s1. Proof. unfold s1. apply (start_step s0 _); vm_compute; reflexivity. Qed.
Lemma step_s2 : step s1 s2. Proof. unfold s2. apply (deliver_step s1 _ _ _); vm_compute; reflexivity. Qed.
Lemma step_s3 : step s2 s3. Proof. unfold s3. apply (end_step s2 _ _ _); vm_compute; reflexivity. Qed.
Lemma step_q1 : step s3 q1. Proof. unfold q1, opened. apply (start_step s3 _); vm_compute; reflexivity. Qed.
Lemma step_q2 : step q1 q2. Proof. unfold q2, half. apply (deliver_step q1 _ _ _); vm_compute; reflexivity. Qed.
Lemma step_q3 : step q2 q3. Proof. unfold q3, ended. apply (end_step q2 _ _ _); vm_compute; reflexivity. Qed.
Lemma step_q4 : step q3 q4. Proof. unfold q4, late. apply (deliver_step q3 _ _ _); vm_compute; reflexivity. Qed.
Lemma step_q5 : step q4 q5. Proof. unfold q5, reconciled. apply (reconcile_step q4 _ _); vm_compute; reflexivity. Qed.

Lemma reached_s1 : reached s1. Proof. exact (reached_more _ _ reached_s0 step_s1). Qed.
Lemma reached_s2 : reached s2. Proof. exact (reached_more _ _ reached_s1 step_s2). Qed.
Lemma reached_s3 : reached s3. Proof. exact (reached_more _ _ reached_s2 step_s3). Qed.
Lemma reached_q1 : reached q1. Proof. exact (reached_more _ _ reached_s3 step_q1). Qed.
Lemma reached_q2 : reached q2. Proof. exact (reached_more _ _ reached_q1 step_q2). Qed.
Lemma reached_q3 : reached q3. Proof. exact (reached_more _ _ reached_q2 step_q3). Qed.

Lemma step_c3 : step s3 c3.
Proof. apply step_other. split; try reflexivity. intros c Hc. by right. Qed.

Lemma step_c3a : step c3 c3a. Proof. unfold c3a, opened. apply (start_step c3 _); vm_compute; reflexivity. Qed.
Lemma step_c3b : step c3a c3b. Proof. unfold c3b, half. apply (deliver_step c3a _ _ _); vm_compute; reflexivity. Qed.
Lemma step_c4 : step c3b c4. Proof. unfold c4, ended. apply (end_step c3b _ _ _); vm_compute; reflexivity. Qed.

Lemma steps_c4 : rtc step c3 c4.
Proof. exact (rtc_l _ _ _ _ step_c3a (rtc_l _ _ _ _ step_c3b (rtc_once _ _ step_c4))). Qed.

Lemma reached_c3 : reached c3. Proof. exact (reached_more _ _ reached_s3 step_c3). Qed.

Lemma reached_c4 : reached c4.
Proof.
  destruct reached_c3 as (a & e & p & Hsteps). exists a, e, p. etrans; [exact Hsteps|exact steps_c4].
Qed.

Lemma step_c6 : step c5 c6.
Proof.
  eapply (step_job _ _ _ _ _ keys (t0 + 6000 * second) (t0 + 6000 * second)); [apply keys_refl|]. apply surjective_pairing.
Qed.

Lemma in_store (db : store) i t : get_trip db i = Some t -> t ∈ ts_trips db.
Proof. intros Ht. by apply get_trip_in in Ht as [? _]. Qed.
End TripSample.

Section Witnesses.
Import RationalFloat DisbursementSample TripSample.

Lemma services_follow_lifecycle_witness : reached s2 /\ step s2 s3 /\ rtc (evidence_move keys) s2 s3.
Proof.
  split; [exact reached_s2|]. split; [exact step_s3|].
  exact (services_follow_lifecycle bits point keys s2 s3 reached_s2 step_s3).
Defined.

Lemma reachable_stores_are_typed_witness : reached q3 /\ Forall (fun t => trip_row_check t = Ok tt) (ts_trips q3).
Proof.
  split; [exact reached_q3|]. exact (proj1 (reachable_stores_are_typed bits point keys q3 reached_q3)).
Defined.

Lemma payable_trip_has_evidence_witness :
  reached s3 /\ exists session, get_trip_for_payout (fun _ => true) (payout_view s3) 1 = Ok session
  /\ exists t, t ∈ ts_trips s3 /\ tr_session t = session /\ evidence_complete keys s3 t.
Proof.
  split; [exact reached_s3|]. exists (tr_session (trip_of s3 1)).
  assert (Hget : get_trip_for_payout (fun _ => true) (payout_view s3) 1 = Ok (tr_session (trip_of s3 1))) by (vm_compute; reflexivity).
  split; [exact Hget|].
  destruct (payable_trip_has_evidence bits point keys (fun _ => true) s3 1 _ reached_s3 Hget) as (t & Ht & Hts & Hev & _).
  exists t. split; [exact Ht|]. split; [exact Hts|exact Hev].
Defined.

Lemma closed_evidence_is_final_witness :
  reached s3 /\ is_closed (trip_of s3 1) = true /\ rtc step s3 q1
  /\ exists at_, touched_trip (trip_of s3 1) at_ ∈ ts_trips q1.
Proof.
  assert (Hin : trip_of s3 1 ∈ ts_trips s3) by (apply (in_store s3 1); vm_compute; reflexivity).
  assert (Hc : is_closed (trip_of s3 1) = true) by (vm_compute; reflexivity).
  split; [exact reached_s3|]. split; [exact Hc|]. split; [exact (rtc_once _ _ step_q1)|].
  destruct (closed_evidence_is_final bits point keys s3 q1 _ reached_s3 Hin Hc (rtc_once _ _ step_q1)) as (at_ & Ht & _).
  exists at_. exact Ht.
Defined.

Lemma calculated_sample : calculated c3 (trip_of c3 1).
Proof.
  split; [vm_compute; discriminate|]. split.
  - exists (t0 + 600 * second). split; [vm_compute; reflexivity|vm_compute; discriminate].
  - exists calculation. split; [left|vm_compute; split; [reflexivity|split; reflexivity]].
Qed.

Lemma calculated_trip_takes_no_samples_witness :
  reached c3 /\ calculated c3 (trip_of c3 1) /\ rtc step c3 c4
  /\ samples_of c4 (tr_id (trip_of c3 1)) = samples_of c3 (tr_id (trip_of c3 1)).
Proof.
  assert (Hin : trip_of c3 1 ∈ ts_trips c3) by (apply (in_store c3 1); vm_compute; reflexivity).
  split; [exact reached_c3|]. split; [exact calculated_sample|]. split; [exact steps_c4|].
  exact (calculated_trip_takes_no_samples bits point keys c3 c4 _ reached_c3 Hin calculated_sample steps_c4).
Defined.

Lemma first_received : exists b, deliver s1 50 1 first_batch (t0 + 90 * second) = Ok (b, false, s2).
Proof. eexists. vm_compute. reflexivity. Qed.

Lemma acknowledged_delivery_replays_witness :
  reached s1 /\ rtc step s2 s3 /\ exists b, deliver s1 50 1 first_batch (t0 + 90 * second) = Ok (b, false, s2)
  /\ deliver s3 50 1 first_batch (t0 + 900 * second) = Ok (b, true, s3).
Proof.
  split; [exact reached_s1|]. split; [exact (rtc_once _ _ step_s3)|]. destruct first_received as (b & Hb). exists b. split; [exact Hb|].
  refine (acknowledged_delivery_replays bits point keys keys keys s1 s2 s3 50 1 first_batch (t0 + 90 * second) _ b
    (trip_of s3 1) assignment (1, "secret"%string) reached_s1 keys_refl keys_refl Hb (rtc_once _ _ step_s3) _ _ _ _).
  - vm_compute. reflexivity.
  - vm_compute. reflexivity.
  - left. reflexivity.
  - vm_compute. reflexivity.
Defined.

Lemma late_received : exists b, deliver c4 50 (tr_id (trip_of c4 2)) late_batch (t0 + 4300 * second) = Ok (b, false, c5).
Proof. eexists. vm_compute. reflexivity. Qed.

Lemma paid_day_strands_open_trip_witness :
  reached c4 /\ tr_status (trip_of c4 2) = TRIP_ENDED /\ rtc step c5 c6
  /\ exists b, deliver c4 50 (tr_id (trip_of c4 2)) late_batch (t0 + 4300 * second) = Ok (b, false, c5)
     /\ bt_evidence_scope b = SCOPE_LATE_DROPPED.
Proof.
  assert (Hin : trip_of c4 2 ∈ ts_trips c4) by (apply (in_store c4 2); vm_compute; reflexivity).
  assert (Hs : tr_status (trip_of c4 2) = TRIP_ENDED) by (vm_compute; reflexivity).
  split; [exact reached_c4|]. split; [exact Hs|]. split; [exact (rtc_once _ _ step_c6)|].
  destruct late_received as (b & Hb). exists b. split; [exact Hb|].
  refine (proj1 (proj2 (paid_day_strands_open_trip bits point keys keys c4 c5 c6 50 late_batch (t0 + 4300 * second) b
    (trip_of c4 2) reached_c4 keys_refl Hin Hs _ _ Hb (rtc_once _ _ step_c6)))).
  - vm_compute. reflexivity.
  - vm_compute. reflexivity.
Defined.

Lemma due_sample : due_trips q3 (t0 + 5000 * second + 1) = [trip_of q3 2].
Proof. vm_compute. reflexivity. Qed.

(** The sweep passes at a whole millisecond, and fails one microsecond later. *)
Lemma fractional_clock_stops_the_sweep_witness :
  let now := t0 + 5000 * second in
  is_ok (seal_ended_trips_job keys q3 now now).1 = true /\ (now + 1) mod 1000 <> 0
  /\ exists e, seal_ended_trips_job keys q3 (now + 1) (now + 1) = (Raise e, q3).
Proof.
  intros now. split; [vm_compute; reflexivity|]. split; [vm_compute; discriminate|].
  refine (fractional_clock_stops_the_sweep keys q3 (now + 1) (now + 1) (trip_of q3 2) (ManifestCompleteness false 1 0 0) _ _ _ _ _).
  - vm_compute. discriminate.
  - subst now. rewrite due_sample. apply list_elem_of_singleton. reflexivity.
  - vm_compute. reflexivity.
  - vm_compute. reflexivity.
  - reflexivity.
Defined.
End Witnesses.
