(* ===== verification/Contacts.v ===== *)
(** Driver contacts ([app/services/contacts.py], the tables of
    [app/models/contact.py]): the recorded phone numbers of a driver, the codes
    that verify them, the WhatsApp consents, and the contact tasks operators
    carry out under a consent. *)

From S2P Require Import Prelude Eligibility PayoutData DailyRate Text BillingData DisbursementData Crypto.
From stdpp Require Import base list strings gmap.
From Stdlib Require Import ZArith Lia Ascii.
#[local] Open Scope Z_scope.

(** ** Rows *)

Inductive phone_challenge_status := CHALLENGE_PENDING | CHALLENGE_VERIFIED | CHALLENGE_EXPIRED | CHALLENGE_EXHAUSTED.
Inductive manual_contact_task_status := TASK_OPEN | TASK_COMPLETED.

#[export] Instance phone_challenge_status_eq_dec : EqDecision phone_challenge_status.
Proof. solve_decision. Defined.
#[export] Instance manual_contact_task_status_eq_dec : EqDecision manual_contact_task_status.
Proof. solve_decision. Defined.

Record driver_phone_version := DriverPhoneVersion {
  dv_id : uuid;
  dv_driver_profile_id : uuid;
  dv_version : Z;
  dv_phone_fingerprint : string;
  dv_masked_phone : string;
  dv_recorded_by_user_id : uuid;
  dv_recorded_at : Z;
  dv_verified_at : option Z
}.

Record phone_verification_challenge := PhoneVerificationChallenge {
  ch_id : uuid;
  ch_phone_version_id : uuid;
  ch_code_hash : string;
  ch_status : phone_challenge_status;
  ch_attempt_count : Z;
  ch_max_attempts : Z;
  ch_created_at : Z;
  ch_expires_at : Z;
  ch_verified_by_user_id : option uuid;
  ch_verified_at : option Z
}.

Record whatsapp_consent := WhatsappConsent {
  wc_id : uuid;
  wc_driver_profile_id : uuid;
  wc_phone_version_id : uuid;
  wc_version : Z;
  wc_purpose : string;
  wc_notice_version : string;
  wc_granted_by_user_id : uuid;
  wc_granted_at : Z;
  wc_withdrawn_by_user_id : option uuid;
  wc_withdrawn_at : option Z
}.

Record contact_task := ManualDriverContactTask {
  mt_id : uuid;
  mt_driver_profile_id : uuid;
  mt_phone_version_id : uuid;
  mt_consent_id : uuid;
  mt_event_key : string;
  mt_purpose : string;
  mt_status : manual_contact_task_status;
  mt_created_at : Z;
  mt_completed_by_user_id : option uuid;
  mt_completed_at : option Z;
  mt_completion_outcome : option string;
  mt_completion_note : option string
}.

(** [ct_phones] is the [phone] column of [users], where it is not NULL. *)
Record contact_tables := ContactTables {
  ct_phones : gmap uuid string;
  ct_versions : list driver_phone_version;
  ct_challenges : list phone_verification_challenge;
  ct_consents : list whatsapp_consent;
  ct_tasks : list contact_task
}.

Record contact_store := ContactStore {
  cs_disbursement :> disbursement_store;
  cs_contacts : contact_tables
}.

Definition phones (db : contact_store) : gmap uuid string := ct_phones (cs_contacts db).
Definition versions (db : contact_store) : list driver_phone_version := ct_versions (cs_contacts db).
Definition challenges (db : contact_store) : list phone_verification_challenge := ct_challenges (cs_contacts db).
Definition consents (db : contact_store) : list whatsapp_consent := ct_consents (cs_contacts db).
Definition tasks (db : contact_store) : list contact_task := ct_tasks (cs_contacts db).

Definition set_contacts (f : contact_tables -> contact_tables) (db : contact_store) : contact_store :=
  ContactStore (cs_disbursement db) (f (cs_contacts db)).
Definition set_disbursement (f : disbursement_store -> disbursement_store) (db : contact_store) : contact_store :=
  ContactStore (f (cs_disbursement db)) (cs_contacts db).
Definition set_phones (f : gmap uuid string -> gmap uuid string) : contact_store -> contact_store :=
  set_contacts (fun c => ContactTables (f (ct_phones c)) (ct_versions c) (ct_challenges c) (ct_consents c) (ct_tasks c)).
Definition set_versions (f : list driver_phone_version -> list driver_phone_version) : contact_store -> contact_store :=
  set_contacts (fun c => ContactTables (ct_phones c) (f (ct_versions c)) (ct_challenges c) (ct_consents c) (ct_tasks c)).
Definition set_challenges (f : list phone_verification_challenge -> list phone_verification_challenge)
    : contact_store -> contact_store :=
  set_contacts (fun c => ContactTables (ct_phones c) (ct_versions c) (f (ct_challenges c)) (ct_consents c) (ct_tasks c)).
Definition set_consents (f : list whatsapp_consent -> list whatsapp_consent) : contact_store -> contact_store :=
  set_contacts (fun c => ContactTables (ct_phones c) (ct_versions c) (ct_challenges c) (f (ct_consents c)) (ct_tasks c)).
Definition set_tasks (f : list contact_task -> list contact_task) : contact_store -> contact_store :=
  set_contacts (fun c => ContactTables (ct_phones c) (ct_versions c) (ct_challenges c) (ct_consents c) (f (ct_tasks c))).

(** ** Constraints *)

Definition nonblank (s : string) : bool := nonempty (strip s).

(** The CHECK constraints of [driver_phone_versions]. *)
Definition phone_version_row_ok (v : driver_phone_version) : bool :=
  (0 <? dv_version v) && (String.length (dv_phone_fingerprint v) =? 64)%nat && nonempty (dv_masked_phone v).

(** [uq_driver_phone_version] *)
Definition phone_version_key (v : driver_phone_version) : option (uuid * Z) :=
  Some (dv_driver_profile_id v, dv_version v).

(** The CHECK constraints of [phone_verification_challenges]. *)
Definition challenge_row_ok (c : phone_verification_challenge) : bool :=
  (String.length (ch_code_hash c) =? 64)%nat && (0 <? ch_max_attempts c)
  && ((0 <=? ch_attempt_count c) && (ch_attempt_count c <=? ch_max_attempts c))
  && (ch_created_at c <? ch_expires_at c).

(** The CHECK constraints of [whatsapp_consents]. *)
Definition consent_row_ok (c : whatsapp_consent) : bool :=
  (0 <? wc_version c) && nonblank (wc_purpose c) && nonblank (wc_notice_version c)
  && match wc_withdrawn_at c with Some w => wc_granted_at c <=? w | None => true end.

(** [uq_whatsapp_consent_version] *)
Definition consent_key (c : whatsapp_consent) : option (uuid * Z) := Some (wc_driver_profile_id c, wc_version c).

(** [ck_manual_contact_completion] and the other CHECK constraints of
    [manual_driver_contact_tasks]. *)
Definition contact_outcomes : list string := ["attempted"; "reached"; "failed"]%string.
Definition task_row_ok (t : contact_task) : bool :=
  nonblank (mt_event_key t) && nonblank (mt_purpose t)
  && match mt_status t with
     | TASK_OPEN =>
         is_none (mt_completed_by_user_id t) && is_none (mt_completed_at t)
         && is_none (mt_completion_outcome t) && is_none (mt_completion_note t)
     | TASK_COMPLETED =>
         negb (is_none (mt_completed_by_user_id t)) && negb (is_none (mt_completed_at t))
         && match mt_completion_outcome t with Some o => bool_decide (o ∈ contact_outcomes) | None => false end
         && match mt_completion_note t with Some n => nonblank n | None => false end
     end.

(** [uq_manual_contact_event] *)
Definition task_key (t : contact_task) : option (uuid * string) := Some (mt_driver_profile_id t, mt_event_key t).

Definition flush_version (v : driver_phone_version) (db : contact_store) : result contact_store :=
  raise_if (negb (phone_version_row_ok v)) (IntegrityError "ck_driver_phone_versions") ;;
  raise_if (conflicts phone_version_key v (versions db)) (IntegrityError "uq_driver_phone_version") ;;
  mret (set_versions (fun l => l ++ [v]) db).

Definition flush_challenge (c : phone_verification_challenge) (db : contact_store) : result contact_store :=
  raise_if (negb (challenge_row_ok c)) (IntegrityError "ck_phone_challenges") ;;
  mret (set_challenges (fun l => l ++ [c]) db).

Definition flush_consent (c : whatsapp_consent) (db : contact_store) : result contact_store :=
  raise_if (negb (consent_row_ok c)) (IntegrityError "ck_whatsapp_consents") ;;
  raise_if (conflicts consent_key c (consents db)) (IntegrityError "uq_whatsapp_consent_version") ;;
  mret (set_consents (fun l => l ++ [c]) db).

Definition flush_task (t : contact_task) (db : contact_store) : result contact_store :=
  raise_if (negb (task_row_ok t)) (IntegrityError "ck_manual_contact_completion") ;;
  raise_if (conflicts task_key t (tasks db)) (IntegrityError "uq_manual_contact_event") ;;
  mret (set_tasks (fun l => l ++ [t]) db).

(** Updates of mapped rows: the columns of the unique keys do not change. *)
Definition update_version (v : driver_phone_version) : contact_store -> contact_store := set_versions (set_row dv_id v).

Definition update_challenge (c : phone_verification_challenge) (db : contact_store) : result contact_store :=
  raise_if (negb (challenge_row_ok c)) (IntegrityError "ck_phone_challenges") ;;
  mret (set_challenges (set_row ch_id c) db).

Definition update_consent (c : whatsapp_consent) (db : contact_store) : result contact_store :=
  raise_if (negb (consent_row_ok c)) (IntegrityError "ck_whatsapp_consents") ;;
  mret (set_consents (set_row wc_id c) db).

Definition update_task (t : contact_task) (db : contact_store) : result contact_store :=
  raise_if (negb (task_row_ok t)) (IntegrityError "ck_manual_contact_completion") ;;
  mret (set_tasks (set_row mt_id t) db).

Definition contact_audit (actor : option uuid) (action entity_type : string) (entity : uuid)
    : contact_store -> contact_store := set_disbursement (audit actor action entity_type entity).

(** [ORDER BY column DESC LIMIT 1] of a column without duplicates. *)
Fixpoint latest_by {A} (column : A -> Z) (l : list A) : option A :=
  match l with
  | [] => None
  | x :: rest =>
      match latest_by column rest with
      | Some y => if column x <? column y then Some y else Some x
      | None => Some x
      end
  end.

(** ** Phone numbers *)

(** [PHONE_PATTERN.fullmatch]: [+], a digit from 1 to 9, then 7 to 14 digits. *)
Definition phone_pattern (s : string) : bool :=
  match s with
  | String plus (String first rest) =>
      bool_decide (plus = "+"%char) && is_digit first && negb (bool_decide (first = "0"%char))
      && all_digits rest && ((7 <=? String.length rest) && (String.length rest <=? 14))%nat
  | _ => false
  end.

Fixpoint keep_chars (p : ascii -> bool) (s : string) : string :=
  match s with
  | EmptyString => EmptyString
  | String c rest => if p c then String c (keep_chars p rest) else keep_chars p rest
  end.

Definition phone_separator (c : ascii) : bool := bool_decide (c ∈ [" "; "-"; "("; ")"]%char).

Definition normalize_phone (phone : string) : result string :=
  let normalized := keep_chars (negb ∘ phone_separator) (strip phone) in
  raise_if (negb (phone_pattern normalized)) (AppError "INVALID_PHONE_NUMBER" 400) ;;
  mret normalized.

Fixpoint stars (k : nat) : string := match k with O => EmptyString | S k => String "*" (stars k) end.

Definition mask_phone (phone : string) : result string :=
  normalized ← normalize_phone phone;
  let n := String.length normalized in
  mret (String.substring 0 3 normalized +:+ stars (Nat.max (n - 7) 3) +:+ String.substring (n - 4) 4 normalized)%string.

(** [bytes.hex] and [int.from_bytes(..., "big")]. *)
Fixpoint hexdigest (bytes : string) : string :=
  match bytes with
  | EmptyString => EmptyString
  | String c rest => hex_digits 2 (N_of_ascii c) (hexdigest rest)
  end.

Fixpoint be_value (bytes : string) (acc : N) : N :=
  match bytes with
  | EmptyString => acc
  | String c rest => be_value rest (acc * 256 + N_of_ascii c)%N
  end.

(** ** Settings *)

Definition PHONE_VERIFICATION_TTL : Z := 600 * second.
Definition PHONE_VERIFICATION_MAX_CODE_ATTEMPTS : Z := 5.
Definition PHONE_VERIFICATION_REQUEST_MAX_ATTEMPTS : Z := 3.
Definition PHONE_VERIFICATION_REQUEST_WINDOW : Z := 3600 * second.

Record contact_settings := ContactSettings {
  jwt_secret_key : string;
  phone_verification_terrax_number : string
}.

(** [phone_verification_available] *)
Definition reserved_number (number : string) : bool :=
  (startswith number "+447700900" && all_digits (String.substring 10 3 number) && (String.length number =? 13)%nat)
  || startswith number "+2340".
Definition phone_verification_available (s : contact_settings) : bool :=
  let number := strip (phone_verification_terrax_number s) in
  phone_pattern number && negb (reserved_number number).
Definition require_phone_verification_available (s : contact_settings) : result unit :=
  raise_if (negb (phone_verification_available s)) (AppError "PHONE_VERIFICATION_UNAVAILABLE" 503).

(** The computation succeeds with this text. *)
Definition yields (m : result string) (text : string) : bool :=
  match m with Ok s => bool_decide (s = text) | Raise _ => false end.

Section Contacts.
Context `{HmacSha256}.

Definition phone_fingerprint (phone : string) (s : contact_settings) : result string :=
  normalized ← normalize_phone phone;
  mret (hexdigest (hmac_sha256 (jwt_secret_key s) ("driver-phone:v1:" +:+ normalized)%string)).

Definition _challenge_code (challenge : uuid) (s : contact_settings) : string :=
  let digest := hmac_sha256 (jwt_secret_key s) ("phone-verification:v2:" +:+ uuid_str challenge)%string in
  zero_padded 6 (be_value (String.substring 0 8 digest) 0 mod 1000000)%N.

Definition _challenge_code_hash (code : string) (s : contact_settings) : string :=
  hexdigest (hmac_sha256 (jwt_secret_key s) ("phone-verification-code:v2:" +:+ code)%string).

(** ** Recorded numbers *)

Definition driver_profile_not_found : exn := AppError "DRIVER_PROFILE_NOT_FOUND" 404.

Definition find_user (db : contact_store) (i : uuid) : option user := find_by_key us_id i (bs_users (ds_billing db)).
Definition find_profile (db : contact_store) (i : uuid) : option driver_profile := find_by_key dp_id i (st_profiles db).

(** [user.phone or ""] *)
Definition user_phone (db : contact_store) (i : uuid) : string := default ""%string (phones db !! i).

Definition active_driver (u : user) : bool := bool_decide (us_role u = ROLE_DRIVER) && bool_decide (us_status u = USER_ACTIVE).

Definition _locked_driver_context (db : contact_store) (user_id : uuid) : result (driver_profile * user) :=
  u ← require_some (find_user db user_id) driver_profile_not_found;
  p ← require_some (find_row (fun p => bool_decide (dp_user_id p = user_id)) (st_profiles db)) driver_profile_not_found;
  raise_if (negb (active_driver u)) driver_profile_not_found ;;
  mret (p, u).

Definition profile_versions (db : contact_store) (profile : uuid) : list driver_phone_version :=
  List.filter (fun v => bool_decide (dv_driver_profile_id v = profile)) (versions db).

Definition _latest_phone_version (db : contact_store) (profile : uuid) : option driver_phone_version :=
  latest_by dv_version (profile_versions db profile).

Definition consent_active (c : whatsapp_consent) : bool := is_none (wc_withdrawn_at c).

Definition profile_consents (db : contact_store) (profile : uuid) : list whatsapp_consent :=
  List.filter (fun c => bool_decide (wc_driver_profile_id c = profile)) (consents db).

Definition active_consents (db : contact_store) (profile : uuid) : list whatsapp_consent :=
  List.filter consent_active (profile_consents db profile).

Definition withdrawn_consent (c : whatsapp_consent) (user_id : uuid) (at_ : Z) : whatsapp_consent :=
  WhatsappConsent (wc_id c) (wc_driver_profile_id c) (wc_phone_version_id c) (wc_version c) (wc_purpose c)
    (wc_notice_version c) (wc_granted_by_user_id c) (wc_granted_at c) (Some user_id) (Some at_).

Fixpoint withdraw_all (l : list whatsapp_consent) (user_id : uuid) (at_ : Z) (db : contact_store) : result contact_store :=
  match l with
  | [] => mret db
  | c :: rest => db ← update_consent (withdrawn_consent c user_id at_) db; withdraw_all rest user_id at_ db
  end.

(** [saved_phone_matches]: an invalid saved number does not match. *)
Definition saved_phone_matches (saved normalized : string) : bool :=
  nonempty saved && yields (normalize_phone saved) normalized.

Definition phone_current (latest : option driver_phone_version) (fingerprint : string) : option driver_phone_version :=
  v ← latest; if bool_decide (dv_phone_fingerprint v = fingerprint) then Some v else None.

Definition set_driver_phone (s : contact_settings) (db : contact_store) (user_id : uuid) (phone : string) (now : Z)
    : result (driver_phone_version * contact_store) :=
  r ← _locked_driver_context db user_id;
  let profile := dp_id r.1 in
  normalized ← normalize_phone phone;
  fingerprint ← phone_fingerprint normalized s;
  let latest := _latest_phone_version db profile in
  match (if saved_phone_matches (user_phone db user_id) normalized then phone_current latest fingerprint else None) with
  | Some v => mret (v, db)
  | None =>
      db ← withdraw_all (active_consents db profile) user_id now db;
      masked ← mask_phone normalized;
      let v := DriverPhoneVersion (uuid4 (dv_id <$> versions db)) profile
                 (match latest with Some l => dv_version l + 1 | None => 1 end) fingerprint masked user_id now None in
      db ← flush_version v (set_phones <[user_id := normalized]> db);
      mret (v, contact_audit (Some user_id) "driver.contact.phone_version.recorded" "driver_phone_version" (dv_id v) db)
  end.

(** ** Verification of a number *)

(** The challenges of all the numbers of a profile. *)
Definition profile_challenges (db : contact_store) (profile : uuid) : list phone_verification_challenge :=
  List.filter (fun c => match find_by_key dv_id (ch_phone_version_id c) (versions db) with
                        | Some v => bool_decide (dv_driver_profile_id v = profile)
                        | None => false
                        end) (challenges db).

Definition open_challenge (db : contact_store) (version : uuid) (now : Z) : option phone_verification_challenge :=
  latest_by ch_created_at
    (List.filter (fun c => bool_decide (ch_phone_version_id c = version) && bool_decide (ch_status c = CHALLENGE_PENDING)
                           && (now <? ch_expires_at c)) (challenges db)).

Definition recent_challenges (db : contact_store) (profile : uuid) (start : Z) : Z :=
  Z.of_nat (length (List.filter (fun c => start <=? ch_created_at c) (profile_challenges db profile))).

(** [now] is the clock of the request, [recorded_at] the earlier clock of the
    number it records when the saved one is not on record. *)
Definition request_phone_verification (s : contact_settings) (db : contact_store) (user_id : uuid) (recorded_at now : Z)
    : result (phone_verification_challenge * contact_store) :=
  require_phone_verification_available s ;;
  r ← _locked_driver_context db user_id;
  raise_if (negb (nonempty (user_phone db user_id))) (AppError "PHONE_VERSION_REQUIRED" 409) ;;
  p ← set_driver_phone s db user_id (user_phone db user_id) recorded_at;
  let '(phone, db) := (p : driver_phone_version * contact_store) in
  raise_if (negb (is_none (dv_verified_at phone))) (AppError "PHONE_ALREADY_VERIFIED" 409) ;;
  match open_challenge db (dv_id phone) now with
  | Some existing => mret (existing, db)
  | None =>
      raise_if (PHONE_VERIFICATION_REQUEST_MAX_ATTEMPTS <=?
                recent_challenges db (dp_id r.1) (now - PHONE_VERIFICATION_REQUEST_WINDOW))
        (AppError "PHONE_VERIFICATION_RATE_LIMITED" 429) ;;
      let i := uuid4 (ch_id <$> challenges db) in
      let c := PhoneVerificationChallenge i (dv_id phone) (_challenge_code_hash (_challenge_code i s) s)
                 CHALLENGE_PENDING 0 PHONE_VERIFICATION_MAX_CODE_ATTEMPTS now (now + PHONE_VERIFICATION_TTL) None None in
      db ← flush_challenge c db;
      mret (c, contact_audit (Some user_id) "driver.contact.phone_verification.requested"
                 "phone_verification_challenge" i db)
  end.

Definition challenge_with (c : phone_verification_challenge) (status : phone_challenge_status) (attempts : Z)
    (verified_by : option uuid) (verified_at : option Z) : phone_verification_challenge :=
  PhoneVerificationChallenge (ch_id c) (ch_phone_version_id c) (ch_code_hash c) status attempts (ch_max_attempts c)
    (ch_created_at c) (ch_expires_at c) verified_by verified_at.

Definition verified_version (v : driver_phone_version) (at_ : Z) : driver_phone_version :=
  DriverPhoneVersion (dv_id v) (dv_driver_profile_id v) (dv_version v) (dv_phone_fingerprint v) (dv_masked_phone v)
    (dv_recorded_by_user_id v) (dv_recorded_at v) (Some at_).

(** [matches_phone]: the message came from the number on record. *)
Definition matches_phone (s : contact_settings) (sender_phone saved : string) (phone : driver_phone_version) : bool :=
  match normalize_phone sender_phone with
  | Raise _ => false
  | Ok sender =>
      nonempty saved && yields (normalize_phone saved) sender
      && yields (phone_fingerprint sender s) (dv_phone_fingerprint phone)
  end.

(** The guards before the clock is read: the number, its driver and the challenge. *)
Definition admit_verification (s : contact_settings) (db : contact_store) (profile_id actor challenge_id : uuid)
    : result (driver_phone_version * user * phone_verification_challenge) :=
  require_phone_verification_available s ;;
  user_id ← require_some (dp_user_id <$> find_profile db profile_id) driver_profile_not_found;
  require_active_admin (ds_billing db) actor None ;;
  r ← _locked_driver_context db user_id;
  match find_by_key ch_id challenge_id (challenges db), _latest_phone_version db (dp_id r.1) with
  | Some c, Some phone =>
      raise_if (negb (bool_decide (ch_phone_version_id c = dv_id phone))) (AppError "PHONE_CHALLENGE_INVALID" 409) ;;
      raise_if (negb (bool_decide (ch_status c = CHALLENGE_PENDING)) || negb (is_none (dv_verified_at phone)))
        (AppError "PHONE_CHALLENGE_USED" 409) ;;
      mret (phone, r.2, c)
  | _, _ => Raise (AppError "PHONE_CHALLENGE_INVALID" 409)
  end.

(** What a wrong message leaves of the challenge. *)
Definition failed_challenge (c : phone_verification_challenge) : phone_verification_challenge :=
  let attempts := ch_attempt_count c + 1 in
  challenge_with c (if ch_max_attempts c <=? attempts then CHALLENGE_EXHAUSTED else ch_status c) attempts
    (ch_verified_by_user_id c) (ch_verified_at c).

Definition accept_verification (db : contact_store) (phone : driver_phone_version) (c : phone_verification_challenge)
    (actor : uuid) (now : Z) : result (driver_phone_version * contact_store) :=
  let phone := verified_version phone now in
  db ← update_challenge (challenge_with c CHALLENGE_VERIFIED (ch_attempt_count c + 1) (Some actor) (Some now)) db;
  mret (phone, contact_audit (Some actor) "admin.phone_verification.recorded" "driver_phone_version" (dv_id phone)
                 (update_version phone db)).

(** The committed store and the answer: a wrong message and an expired code are
    committed before the exception leaves the call. *)
Definition record_phone_verification (s : contact_settings) (db : contact_store)
    (profile_id actor challenge_id : uuid) (code sender_phone : string) (now : Z)
    : contact_store * result driver_phone_version :=
  match admit_verification s db profile_id actor challenge_id with
  | Raise e => (db, Raise e)
  | Ok (phone, u, c) =>
      if ch_expires_at c <=? now then
        match update_challenge (challenge_with c CHALLENGE_EXPIRED (ch_attempt_count c) (ch_verified_by_user_id c)
                                  (ch_verified_at c)) db with
        | Raise e => (db, Raise e)
        | Ok db => (db, Raise (AppError "PHONE_CHALLENGE_EXPIRED" 409))
        end
      else if matches_phone s sender_phone (user_phone db (us_id u)) phone
              && bool_decide (_challenge_code_hash code s = ch_code_hash c) then
        match accept_verification db phone c actor now with
        | Raise e => (db, Raise e)
        | Ok (phone, db) => (db, Ok phone)
        end
      else
        match update_challenge (failed_challenge c) db with
        | Raise e => (db, Raise e)
        | Ok db =>
            (contact_audit (Some actor) "admin.phone_verification.failed" "phone_verification_challenge" (ch_id c) db,
             Raise (AppError "PHONE_VERIFICATION_MISMATCH" 400))
        end
  end.

(** ** Consent *)

Definition max_version (l : list whatsapp_consent) : Z := foldr (fun c m => Z.max (wc_version c) m) 0 l.

Definition same_grant (c : whatsapp_consent) (phone : uuid) (purpose notice : string) : bool :=
  bool_decide (wc_phone_version_id c = phone) && bool_decide (wc_purpose c = purpose)
  && bool_decide (wc_notice_version c = notice).

Definition grant_whatsapp_consent (db : contact_store) (user_id : uuid) (purpose notice_version : string) (now : Z)
    : result (whatsapp_consent * contact_store) :=
  r ← _locked_driver_context db user_id;
  let profile := dp_id r.1 in
  phone ← require_some (_latest_phone_version db profile) (AppError "VERIFIED_PHONE_REQUIRED" 409);
  raise_if (is_none (dv_verified_at phone)) (AppError "VERIFIED_PHONE_REQUIRED" 409) ;;
  let purpose := strip purpose in
  let notice := strip notice_version in
  raise_if (negb (nonempty purpose) || negb (nonempty notice)) (AppError "WHATSAPP_CONSENT_EVIDENCE_REQUIRED" 400) ;;
  match latest_by wc_version (active_consents db profile) with
  | Some active =>
      raise_if (negb (same_grant active (dv_id phone) purpose notice)) (AppError "WHATSAPP_CONSENT_ALREADY_ACTIVE" 409) ;;
      mret (active, db)
  | None =>
      let c := WhatsappConsent (uuid4 (wc_id <$> consents db)) profile (dv_id phone)
                 (max_version (profile_consents db profile) + 1) purpose notice user_id now None None in
      db ← flush_consent c db;
      mret (c, contact_audit (Some user_id) "driver.contact.whatsapp_consent.granted" "whatsapp_consent" (wc_id c) db)
  end.

Definition withdraw_whatsapp_consent (db : contact_store) (user_id : uuid) (now : Z)
    : result (whatsapp_consent * contact_store) :=
  r ← _locked_driver_context db user_id;
  consent ← require_some (latest_by wc_version (active_consents db (dp_id r.1))) (AppError "WHATSAPP_CONSENT_NOT_ACTIVE" 409);
  let consent := withdrawn_consent consent user_id now in
  db ← update_consent consent db;
  mret (consent, contact_audit (Some user_id) "driver.contact.whatsapp_consent.withdrawn" "whatsapp_consent" (wc_id consent) db).

(** ** Contact tasks *)

(** A verified current number with an active consent for the purpose. *)
Definition _manual_contact_authority (db : contact_store) (profile : uuid) (purpose : string)
    : option (driver_phone_version * whatsapp_consent) :=
  _ ← find_profile db profile;
  phone ← _latest_phone_version db profile;
  consent ← latest_by wc_version (active_consents db profile);
  if is_none (dv_verified_at phone) || negb (bool_decide (wc_phone_version_id consent = dv_id phone))
     || negb (bool_decide (wc_purpose consent = purpose))
  then None else Some (phone, consent).

Definition _task_matches_authority (t : contact_task) (phone : driver_phone_version) (consent : whatsapp_consent)
    (purpose : string) : bool :=
  bool_decide (mt_phone_version_id t = dv_id phone) && bool_decide (mt_consent_id t = wc_id consent)
  && bool_decide (mt_purpose t = purpose) && bool_decide (purpose = wc_purpose consent).

Definition find_task (db : contact_store) (profile : uuid) (event_key : string) : option contact_task :=
  find_row (fun t => bool_decide (mt_driver_profile_id t = profile) && bool_decide (mt_event_key t = event_key)) (tasks db).

Definition matching (t : contact_task) (phone : driver_phone_version) (consent : whatsapp_consent) (purpose : string)
    : option contact_task :=
  if _task_matches_authority t phone consent purpose then Some t else None.

(** [arrived] are the tasks other sessions commit between the lookup and the
    flush. *)
Definition create_manual_driver_contact_task (arrived : list contact_task) (db : contact_store)
    (profile : uuid) (event_key purpose : string) (now : Z) : result (option contact_task * contact_store) :=
  match _manual_contact_authority db profile purpose with
  | None => mret (None, db)
  | Some (phone, consent) =>
      match find_task db profile event_key with
      | Some existing => mret (matching existing phone consent purpose, db)
      | None =>
          let db := set_tasks (fun l => l ++ arrived) db in
          let t := ManualDriverContactTask (uuid4 (mt_id <$> tasks db)) profile (dv_id phone) (wc_id consent)
                     event_key purpose TASK_OPEN now None None None None in
          match flush_task t db with
          | Ok db =>
              mret (Some t, contact_audit None "operations.driver_contact_task.created" "manual_driver_contact_task" (mt_id t) db)
          | Raise exc =>
              match find_task db profile event_key with
              | None => Raise exc
              | Some concurrent => mret (matching concurrent phone consent purpose, db)
              end
          end
      end
  end.

Definition completed_task (t : contact_task) (actor : uuid) (outcome note : string) (at_ : Z) : contact_task :=
  ManualDriverContactTask (mt_id t) (mt_driver_profile_id t) (mt_phone_version_id t) (mt_consent_id t) (mt_event_key t)
    (mt_purpose t) TASK_COMPLETED (mt_created_at t) (Some actor) (Some at_) (Some outcome) (Some note).

(** The same completion again. *)
Definition same_completion (t : contact_task) (actor : uuid) (outcome note : string) : bool :=
  bool_decide (mt_completed_by_user_id t = Some actor) && bool_decide (mt_completion_outcome t = Some outcome)
  && bool_decide (mt_completion_note t = Some note).

(** The fingerprint of the number the driver has now, if the driver is active. *)
Definition current_fingerprint (s : contact_settings) (db : contact_store) (driver : option user) : option string :=
  u ← driver;
  if active_driver u then match phone_fingerprint (user_phone db (us_id u)) s with Ok f => Some f | Raise _ => None end
  else None.

(** The task's number and consent are still the driver's, for its purpose. *)
Definition task_authorized (s : contact_settings) (db : contact_store) (t : contact_task) (user_id : uuid) : bool :=
  match _manual_contact_authority db (mt_driver_profile_id t) (mt_purpose t) with
  | None => false
  | Some (phone, consent) =>
      bool_decide (Some (dv_phone_fingerprint phone) = current_fingerprint s db (find_user db user_id))
      && _task_matches_authority t phone consent (mt_purpose t)
  end.

Definition complete_manual_driver_contact_task (s : contact_settings) (db : contact_store) (task_id actor : uuid)
    (outcome note : string) (now : Z) : result (contact_task * contact_store) :=
  require_active_admin (ds_billing db) actor None ;;
  let note := strip note in
  raise_if (negb (bool_decide (outcome ∈ contact_outcomes)) || negb (nonempty note)) (AppError "INVALID_CONTACT_COMPLETION" 400) ;;
  t ← require_some (find_by_key mt_id task_id (tasks db)) (AppError "CONTACT_TASK_NOT_FOUND" 404);
  user_id ← require_some (dp_user_id <$> find_profile db (mt_driver_profile_id t)) (AppError "CONTACT_TASK_NOT_FOUND" 404);
  if bool_decide (mt_status t = TASK_COMPLETED) then
    raise_if (negb (same_completion t actor outcome note)) (AppError "CONTACT_TASK_COMPLETION_CONFLICT" 409) ;;
    mret (t, db)
  else
    raise_if (negb (task_authorized s db t user_id)) (AppError "CONTACT_TASK_AUTHORITY_INACTIVE" 409) ;;
    let t := completed_task t actor outcome note now in
    db ← update_task t db;
    mret (t, contact_audit (Some actor) "operations.driver_contact_task.completed" "manual_driver_contact_task" task_id db).

(** ** Reads *)

(** What the driver sees: nothing when the saved number is not the one on record. *)
Definition current_driver_contact_state (s : contact_settings) (db : contact_store) (user_id : uuid)
    : result (option driver_phone_version * option whatsapp_consent) :=
  r ← _locked_driver_context db user_id;
  let consent := latest_by wc_version (profile_consents db (dp_id r.1)) in
  match _latest_phone_version db (dp_id r.1) with
  | None => mret (None, consent)
  | Some phone =>
      if yields (phone_fingerprint (user_phone db user_id) s) (dv_phone_fingerprint phone)
      then mret (Some phone, consent) else mret (None, None)
  end.

Definition newer_phone (db : contact_store) (profile : uuid) (phone : driver_phone_version) : bool :=
  existsb (fun v => bool_decide (dv_driver_profile_id v = profile) && (dv_version phone <? dv_version v)) (versions db).

(** [current_authority] of the task list: its own consent, not withdrawn. *)
Definition task_consent_current (db : contact_store) (t : contact_task) : bool :=
  existsb (fun c => bool_decide (wc_id c = mt_consent_id t) && bool_decide (wc_driver_profile_id c = mt_driver_profile_id t)
                    && bool_decide (wc_phone_version_id c = mt_phone_version_id t)
                    && bool_decide (wc_purpose c = mt_purpose t) && consent_active c) (consents db).

Definition task_visible (db : contact_store) (t : contact_task) (phone : driver_phone_version) : bool :=
  bool_decide (mt_status t = TASK_COMPLETED)
  || (task_consent_current db t && negb (newer_phone db (mt_driver_profile_id t) phone)
      && negb (is_none (dv_verified_at phone))).

Definition task_order (oldest_first : bool) (a b : contact_task * driver_phone_version) : bool :=
  let at_ x := mt_created_at x.1 in
  if at_ a =? at_ b then N.leb (mt_id b.1) (mt_id a.1)
  else if oldest_first then at_ a <=? at_ b else at_ b <=? at_ a.

(** The rows the list selects, with the number of each task. *)
Definition task_rows (db : contact_store) (profile : option uuid) (history open_only : bool)
    : list (contact_task * driver_phone_version) :=
  omap (fun t =>
    phone ← find_by_key dv_id (mt_phone_version_id t) (versions db);
    if match profile with Some p => bool_decide (mt_driver_profile_id t = p) | None => true end
       && (negb open_only || (bool_decide (mt_status t = TASK_OPEN) && is_none (mt_completed_at t)))
       && (history || task_visible db t phone)
    then Some (t, phone) else None) (tasks db).

Definition list_manual_driver_contact_tasks (db : contact_store) (limit offset : nat) (history : bool)
    (profile : option uuid) (oldest_first open_only : bool) : list (contact_task * driver_phone_version) * nat :=
  let rows := task_rows db profile history open_only in
  (take limit (drop offset (stable_sort (task_order oldest_first) rows)), length rows).

(** The challenges staff may work on. *)
Definition verification_open (db : contact_store) (now : Z) (c : phone_verification_challenge) (v : driver_phone_version) : bool :=
  bool_decide (ch_status c = CHALLENGE_PENDING) && (now <? ch_expires_at c) && is_none (dv_verified_at v)
  && negb (newer_phone db (dv_driver_profile_id v) v)
  && match (p ← find_profile db (dv_driver_profile_id v); find_user db (dp_user_id p)) with
     | Some u => bool_decide (us_status u = USER_ACTIVE)
     | None => false
     end.

Definition work_order (a b : phone_verification_challenge * driver_phone_version) : bool :=
  if ch_created_at a.1 =? ch_created_at b.1 then N.leb (ch_id a.1) (ch_id b.1) else ch_created_at a.1 <=? ch_created_at b.1.

Definition verification_rows (db : contact_store) (now : Z) (profile : option uuid)
    : list (phone_verification_challenge * driver_phone_version) :=
  omap (fun c =>
    v ← find_by_key dv_id (ch_phone_version_id c) (versions db);
    if verification_open db now c v
       && match profile with Some p => bool_decide (dv_driver_profile_id v = p) | None => true end
    then Some (c, v) else None) (challenges db).

Definition list_phone_verification_work (db : contact_store) (limit offset : nat) (profile : option uuid) (now : Z)
    : list (phone_verification_challenge * driver_phone_version) * nat :=
  let rows := verification_rows db now profile in
  (take limit (drop offset (stable_sort work_order rows)), length rows).

(** The newest challenge of a number. *)
Definition challenge_order (a b : phone_verification_challenge) : bool :=
  if ch_created_at a =? ch_created_at b then N.leb (ch_id b) (ch_id a) else ch_created_at b <=? ch_created_at a.

Definition current_phone_challenge (db : contact_store) (phone : option driver_phone_version)
    : option phone_verification_challenge :=
  v ← phone;
  head (stable_sort challenge_order
    (List.filter (fun c => bool_decide (ch_phone_version_id c = dv_id v)) (challenges db))).
End Contacts.
