(* ===== verification/ContactBooks.v ===== *)
(** What the contact services keep: the books of the numbers and their codes, of
    the consents and of the contact tasks, over any sequence of calls under a
    clock that does not run back.  A proof file over Contacts. *)

From S2P Require Import Prelude Eligibility PayoutData DailyRate Text BillingData DisbursementData Crypto Contacts.
From stdpp Require Import base list strings gmap relations.
From Stdlib Require Import ZArith Lia Ascii.
#[local] Open Scope Z_scope.

(** ** Lists *)

Lemma latest_by_Some {A} (f : A -> Z) l x : latest_by f l = Some x -> x ∈ l /\ forall y, y ∈ l -> f y <= f x.
Proof.
  revert x. induction l as [|a l IH]; intros x Hx; [done|]. cbn in Hx.
  destruct (latest_by f l) as [b|] eqn:Hb.
  - destruct (IH b eq_refl) as [Hin Hmax]. destruct (f a <? f b) eqn:Hlt; injection Hx as <-.
    + apply Z.ltb_lt in Hlt. split; [by right|]. intros y [->|Hy]%elem_of_cons; [lia|by apply Hmax].
    + apply Z.ltb_ge in Hlt. split; [left|]. intros y [->|Hy]%elem_of_cons; [lia|]. specialize (Hmax y Hy). lia.
  - injection Hx as <-. split; [left|]. intros y [->|Hy]%elem_of_cons; [lia|].
    destruct l as [|c l]; [by apply not_elem_of_nil in Hy|]. cbn in Hb. by destruct (latest_by f l); [destruct (_ <? _)|].
Qed.

Lemma latest_by_None {A} (f : A -> Z) l : latest_by f l = None -> l = [].
Proof. destruct l as [|a l]; [done|]. cbn. by destruct (latest_by f l); [destruct (_ <? _)|]. Qed.

Lemma latest_by_max {A} (f : A -> Z) l x :
  x ∈ l -> (forall y, y ∈ l -> f y <= f x) -> (forall y, y ∈ l -> f y = f x -> y = x) -> latest_by f l = Some x.
Proof.
  intros Hx Hmax Hone. destruct (latest_by f l) as [y|] eqn:Hy.
  - apply latest_by_Some in Hy as [Hin Hall]. f_equal. apply Hone; [done|]. specialize (Hmax y Hin).
    specialize (Hall x Hx). lia.
  - apply latest_by_None in Hy as ->. by apply not_elem_of_nil in Hx.
Qed.

Lemma filter_length_fmap {A} (p : A -> bool) (f : A -> A) l :
  (forall x, x ∈ l -> p (f x) = p x) -> length (List.filter p (f <$> l)) = length (List.filter p l).
Proof.
  induction l as [|a l IH]; intros Hp; [done|]. cbn. rewrite (Hp a) by left.
  destruct (p a); cbn; rewrite IH; try done; intros x Hx; apply Hp; by right.
Qed.

Lemma filter_length_mono {A} (p q : A -> bool) l :
  (forall x, x ∈ l -> p x = true -> q x = true) -> (length (List.filter p l) <= length (List.filter q l))%nat.
Proof.
  induction l as [|a l IH]; intros Hp; [done|]. cbn.
  assert (length (List.filter p l) <= length (List.filter q l))%nat by (apply IH; intros x Hx; apply Hp; by right).
  destruct (p a) eqn:Ha; [rewrite (Hp a) by (done || left); cbn; lia|]. destruct (q a); cbn; lia.
Qed.

Lemma sum_by_le_length {A} (f : A -> Z) (m : Z) l :
  (forall x, x ∈ l -> f x <= m) -> sum_by f l <= m * Z.of_nat (length l).
Proof.
  induction l as [|a l IH]; intros Hf; [rewrite sum_by_nil; cbn; lia|]. rewrite sum_by_cons. cbn [length].
  assert (f a <= m) by (apply Hf; left). assert (sum_by f l <= m * Z.of_nat (length l)) by (apply IH; intros x Hx; apply Hf; by right).
  lia.
Qed.

(** ** The books *)

Definition versions_of (vs : list driver_phone_version) (profile : uuid) : list driver_phone_version :=
  List.filter (fun v => bool_decide (dv_driver_profile_id v = profile)) vs.

(** [v] is the number on record of its driver. *)
Definition current_version (vs : list driver_phone_version) (v : driver_phone_version) : Prop :=
  latest_by dv_version (versions_of vs (dv_driver_profile_id v)) = Some v.

Definition challenges_of (vs : list driver_phone_version) (cs : list phone_verification_challenge) (profile : uuid)
    : list phone_verification_challenge :=
  List.filter (fun c => match find_by_key dv_id (ch_phone_version_id c) vs with
                        | Some v => bool_decide (dv_driver_profile_id v = profile)
                        | None => false
                        end) cs.

(** Issued in the hour that starts at [x]. *)
Definition issued_within (x : Z) (c : phone_verification_challenge) : bool :=
  (x <=? ch_created_at c) && (ch_created_at c <=? x + PHONE_VERIFICATION_REQUEST_WINDOW).

(** A code: issued for a number on record, tried at most five times, and used
    only while it is valid. *)
Record challenge_ok (t : Z) (vs : list driver_phone_version) (c : phone_verification_challenge) : Prop := {
  cg_version : exists v, v ∈ vs /\ dv_id v = ch_phone_version_id c /\ dv_recorded_at v <= ch_created_at c;
  cg_past : ch_created_at c <= t;
  cg_expires : ch_expires_at c = ch_created_at c + PHONE_VERIFICATION_TTL;
  cg_max : ch_max_attempts c = PHONE_VERIFICATION_MAX_CODE_ATTEMPTS;
  cg_attempts : 0 <= ch_attempt_count c <= ch_max_attempts c;
  cg_pending : ch_status c = CHALLENGE_PENDING -> ch_attempt_count c < ch_max_attempts c;
  cg_verified : ch_status c = CHALLENGE_VERIFIED ->
    exists w, ch_verified_at c = Some w /\ ch_created_at c <= w < ch_expires_at c
}.

Record numbers_ok (t : Z) (vs : list driver_phone_version) (cs : list phone_verification_challenge) : Prop := {
  nu_ids : NoDup (dv_id <$> vs);
  nu_challenge_ids : NoDup (ch_id <$> cs);
  nu_key : unique_on phone_version_key vs;
  nu_past : forall v, v ∈ vs -> dv_recorded_at v <= t;
  nu_challenge : forall c, c ∈ cs -> challenge_ok t vs c;
  nu_verified : forall v w, v ∈ vs -> dv_verified_at v = Some w ->
    w <= t /\ exists c, c ∈ cs /\ ch_phone_version_id c = dv_id v /\ ch_status c = CHALLENGE_VERIFIED
                        /\ ch_verified_at c = Some w;
  nu_window : forall profile x,
    (length (List.filter (issued_within x) (challenges_of vs cs profile)) <= 3)%nat
}.

(** The consent covers the instant [x]. *)
Definition in_force (c : whatsapp_consent) (x : Z) : Prop :=
  wc_granted_at c <= x /\ forall w, wc_withdrawn_at c = Some w -> x <= w.

(** Each consent was given for a number its driver had verified; a driver has at
    most one that is active, for the number on record. *)
Record consents_ok (t : Z) (vs : list driver_phone_version) (ws : list whatsapp_consent) : Prop := {
  wo_ids : NoDup (wc_id <$> ws);
  wo_past : forall c, c ∈ ws -> wc_granted_at c <= t /\ forall w, wc_withdrawn_at c = Some w -> wc_granted_at c <= w <= t;
  wo_verified : forall c, c ∈ ws -> exists v w, v ∈ vs /\ dv_id v = wc_phone_version_id c
    /\ dv_driver_profile_id v = wc_driver_profile_id c /\ dv_verified_at v = Some w /\ w <= wc_granted_at c;
  wo_active : forall c v, c ∈ ws -> consent_active c = true -> v ∈ vs -> dv_id v = wc_phone_version_id c -> current_version vs v;
  wo_one : forall c c', c ∈ ws -> c' ∈ ws -> consent_active c = true -> consent_active c' = true ->
    wc_driver_profile_id c = wc_driver_profile_id c' -> c = c';
  wo_superseded : forall c v v', c ∈ ws -> v ∈ vs -> dv_id v = wc_phone_version_id c -> v' ∈ vs ->
    dv_driver_profile_id v' = dv_driver_profile_id v -> dv_version v < dv_version v' ->
    exists w, wc_withdrawn_at c = Some w /\ w <= dv_recorded_at v'
}.

(** The consent a task is carried out under. *)
Definition task_consent (k : contact_task) (c : whatsapp_consent) : Prop :=
  wc_id c = mt_consent_id k /\ wc_driver_profile_id c = mt_driver_profile_id k
  /\ wc_phone_version_id c = mt_phone_version_id k /\ wc_purpose c = mt_purpose k.

Record task_ok (t : Z) (ws : list whatsapp_consent) (k : contact_task) : Prop := {
  tk_row : task_row_ok k = true;
  tk_past : mt_created_at k <= t;
  tk_consent : exists c, c ∈ ws /\ task_consent k c /\ in_force c (mt_created_at k)
    /\ forall x, mt_completed_at k = Some x -> x <= t /\ in_force c x
}.

Record tasks_ok (t : Z) (ws : list whatsapp_consent) (ks : list contact_task) : Prop := {
  to_ids : NoDup (mt_id <$> ks);
  to_task : forall k, k ∈ ks -> task_ok t ws k
}.

Record contact_books (t : Z) (db : contact_store) : Prop := {
  cb_numbers : numbers_ok t (versions db) (challenges db);
  cb_consents : consents_ok t (versions db) (consents db);
  cb_tasks : tasks_ok t (consents db) (tasks db)
}.

(** ** Numbers and codes *)

Lemma nodup_rows_snoc {A B} (k : A -> B) l x : NoDup (k <$> l) -> k x ∉ k <$> l -> NoDup (k <$> (l ++ [x])).
Proof.
  intros Hl Hx. rewrite fmap_app. apply NoDup_app. split_and!; [done| |apply NoDup_singleton].
  intros y Hy ->%list_elem_of_singleton. done.
Qed.

Lemma fresh_id {A} (key : A -> uuid) l y : y ∈ l -> key y <> uuid4 (key <$> l).
Proof. intros Hy Heq. apply (uuid4_fresh (key <$> l)). rewrite <- Heq. by apply list_elem_of_fmap_2. Qed.

Lemma find_by_key_snoc {A} (key : A -> uuid) i l x :
  key x <> i -> find_by_key key i (l ++ [x]) = find_by_key key i l.
Proof.
  intros Hx. unfold find_by_key, find_row. induction l as [|y l IH]; cbn.
  - by rewrite bool_decide_eq_false_2.
  - by destruct (bool_decide _).
Qed.

Lemma nodup_set_row {A} (key : A -> uuid) row l : NoDup (key <$> l) -> NoDup (key <$> set_row key row l).
Proof. by rewrite set_row_keys. Qed.

Lemma elem_of_versions_of vs profile v : v ∈ versions_of vs profile <-> v ∈ vs /\ dv_driver_profile_id v = profile.
Proof. unfold versions_of. by rewrite elem_of_filter_b, bool_decide_eq_true. Qed.

(** The number on record is the one with the greatest version of its driver. *)
Lemma current_spec vs v : unique_on phone_version_key vs ->
  current_version vs v <->
  v ∈ vs /\ forall y, y ∈ vs -> dv_driver_profile_id y = dv_driver_profile_id v -> dv_version y <= dv_version v.
Proof.
  intros Hu. unfold current_version. split.
  - intros [Hin Hmax]%latest_by_Some. apply elem_of_versions_of in Hin as [Hin _]. split; [done|].
    intros y Hy Hp. apply Hmax. by apply elem_of_versions_of.
  - intros [Hin Hmax]. apply latest_by_max.
    + by apply elem_of_versions_of.
    + intros y [Hy Hp]%elem_of_versions_of. by apply Hmax.
    + intros y [Hy Hp]%elem_of_versions_of Hver. apply (unique_on_inj phone_version_key vs y v (dv_driver_profile_id v, dv_version v));
        [done..| |done]. unfold phone_version_key. by rewrite Hp, Hver.
Qed.

Section Numbers.
Context (t : Z) (vs : list driver_phone_version) (cs : list phone_verification_challenge).
Context (Hok : numbers_ok t vs cs).

Lemma version_by_id v v' : v ∈ vs -> v' ∈ vs -> dv_id v = dv_id v' -> v = v'.
Proof. intros Hv Hv' Hk. by apply (nodup_key_inj dv_id vs); [apply (nu_ids t vs cs Hok)|..]. Qed.

Lemma numbers_later t' : t <= t' -> numbers_ok t' vs cs.
Proof.
  intros Hle. destruct Hok as [Hids Hcids Hkey Hpast Hch Hver Hwin]. split; try done.
  - intros v Hv. specialize (Hpast v Hv). lia.
  - intros c Hc. destruct (Hch c Hc). split; try done. lia.
  - intros v w Hv Hw. destruct (Hver v w Hv Hw) as [Ht Hc]. split; [lia|done].
Qed.

(** The number on record is the one with the greatest version. *)
Lemma latest_current profile v :
  latest_by dv_version (versions_of vs profile) = Some v ->
  v ∈ vs /\ dv_driver_profile_id v = profile /\ current_version vs v.
Proof.
  intros Hv. pose proof (latest_by_Some _ _ _ Hv) as [Hin _]. apply elem_of_versions_of in Hin as [Hin Hp].
  split; [done|]. split; [done|]. unfold current_version. by rewrite Hp.
Qed.

(** ** A new number *)

Context (v : driver_phone_version).
Context (Hfresh : forall y, y ∈ vs -> dv_id y <> dv_id v).

Lemma challenges_of_snoc profile : challenges_of (vs ++ [v]) cs profile = challenges_of vs cs profile.
Proof.
  unfold challenges_of. apply filter_ext_in. intros c Hc%list_elem_of_In.
  destruct (cg_version _ _ _ (nu_challenge _ _ _ Hok c Hc)) as (u & Hu & Hid & _).
  rewrite find_by_key_snoc; [done|]. rewrite <- Hid. intros Heq. by eapply Hfresh.
Qed.

Lemma numbers_record :
  dv_recorded_at v <= t -> dv_verified_at v = None -> conflicts phone_version_key v vs = false ->
  numbers_ok t (vs ++ [v]) cs.
Proof.
  intros Hrec Hunv Hkey. pose proof challenges_of_snoc as Hcs. destruct Hok as [Hids Hcids Hk Hpast Hch Hver Hwin]. split.
  - apply nodup_rows_snoc; [done|]. intros (y & Hy & Hin)%list_elem_of_fmap. by eapply Hfresh.
  - done.
  - by apply unique_on_snoc.
  - intros y [Hy| ->%list_elem_of_singleton]%elem_of_app; [by apply Hpast|done].
  - intros c Hc. destruct (Hch c Hc) as [(u & Hu & Hid & Hle) ? ? ? ? ? ?]. split; try done. exists u. set_solver.
  - intros y w [Hy| ->%list_elem_of_singleton]%elem_of_app Hw; [by apply Hver|congruence].
  - intros profile x. by rewrite Hcs.
Qed.
End Numbers.

Section Codes.
Context (t : Z) (vs : list driver_phone_version) (cs : list phone_verification_challenge).
Context (Hok : numbers_ok t vs cs).

(** A code is issued only when fewer than three were in the last hour. *)
Lemma numbers_issue v c :
  v ∈ vs -> dv_id v = ch_phone_version_id c -> challenge_ok t vs c -> ch_created_at c = t ->
  ch_status c = CHALLENGE_PENDING -> (forall y, y ∈ cs -> ch_id y <> ch_id c) ->
  (length (List.filter (fun y => (t - PHONE_VERIFICATION_REQUEST_WINDOW <=? ch_created_at y)%Z)
     (challenges_of vs cs (dv_driver_profile_id v))) < 3)%nat ->
  numbers_ok t vs (cs ++ [c]).
Proof.
  intros Hv Hid Hc Hat Hpending Hfresh Hfew. destruct Hok as [Hids Hcids Hk Hpast Hch Hver Hwin]. split; try done.
  - apply nodup_rows_snoc; [done|]. intros (y & Hy & Hin)%list_elem_of_fmap. by eapply Hfresh.
  - intros y [Hy| ->%list_elem_of_singleton]%elem_of_app; [by apply Hch|done].
  - intros u w Hu Hw. destruct (Hver u w Hu Hw) as [Hle (y & Hy & Hrest)]. split; [done|]. exists y. set_solver.
  - intros profile x. unfold challenges_of. rewrite !List.filter_app, length_app. specialize (Hwin profile x).
    fold (challenges_of vs cs profile). cbn [List.filter]. rewrite <- Hid, find_by_key_in by done.
    destruct (bool_decide_reflect (dv_driver_profile_id v = profile)) as [Hp|Hp]; [|cbn; lia].
    cbn [List.filter]. destruct (issued_within x c) eqn:Hx; [|cbn; lia]. cbn [length]. subst profile.
    unfold issued_within in Hx. apply andb_true_iff in Hx as [Hx1%Z.leb_le Hx2%Z.leb_le].
    enough (length (List.filter (issued_within x) (challenges_of vs cs (dv_driver_profile_id v)))
      <= length (List.filter (fun y => (t - PHONE_VERIFICATION_REQUEST_WINDOW <=? ch_created_at y)%Z)
           (challenges_of vs cs (dv_driver_profile_id v))))%nat by lia.
    apply filter_length_mono. intros y _ Hy. unfold issued_within in Hy. bool_prop. apply Z.leb_le. lia.
Qed.

(** The columns a judgement of a message leaves alone. *)
Definition same_issue (c c' : phone_verification_challenge) : Prop :=
  ch_id c' = ch_id c /\ ch_phone_version_id c' = ch_phone_version_id c /\ ch_created_at c' = ch_created_at c.

Lemma set_challenge_windows c c' profile x : c ∈ cs -> same_issue c c' ->
  length (List.filter (issued_within x) (challenges_of vs (set_row ch_id c' cs) profile))
  = length (List.filter (issued_within x) (challenges_of vs cs profile)).
Proof.
  intros Hc (Hi & Hp & Ha). unfold challenges_of.
  assert (Hstep : forall y, y ∈ cs -> ch_id y = ch_id c' -> y = c)
    by (intros y Hy Hk; apply (nodup_key_inj ch_id cs); [apply (nu_challenge_ids _ _ _ Hok)|done|done|congruence]).
  revert Hstep. generalize cs. intros l Hl. induction l as [|y l IH]; [done|]. rewrite set_row_cons.
  assert (IH' : length (List.filter (issued_within x) (challenges_of vs (set_row ch_id c' l) profile))
              = length (List.filter (issued_within x) (challenges_of vs l profile)))
    by (apply IH; intros z Hz; apply Hl; by right).
  unfold challenges_of in IH'. cbn [List.filter].
  destruct (bool_decide_reflect (ch_id y = ch_id c')) as [Hk|Hk].
  - rewrite (Hl y) by (done || left). rewrite Hp. destruct (find_by_key _ _ _) as [u|]; [|exact IH'].
    destruct (bool_decide _); [|exact IH']. cbn [List.filter]. unfold issued_within in *. rewrite Ha.
    destruct (_ && _); cbn; by rewrite IH'.
  - destruct (find_by_key _ _ _) as [u|]; [|exact IH']. destruct (bool_decide _); [|exact IH']. cbn [List.filter].
    destruct (issued_within x y); cbn; by rewrite IH'.
Qed.

(** A message that does not verify the number. *)
Lemma numbers_judge c c' :
  c ∈ cs -> same_issue c c' -> challenge_ok t vs c' -> ch_status c <> CHALLENGE_VERIFIED ->
  numbers_ok t vs (set_row ch_id c' cs).
Proof.
  intros Hc Hsame Hc' Hst. pose proof Hsame as (Hi & Hp & Ha). pose proof set_challenge_windows as Hw.
  destruct Hok as [Hids Hcids Hk Hpast Hch Hver Hwin]. split; try done.
  - by apply nodup_set_row.
  - intros y [->|[Hy _]]%elem_of_set_row; [done|by apply Hch].
  - intros u w Hu Hw'. destruct (Hver u w Hu Hw') as [Hle (y & Hy & Hpy & Hsy & Hwy)]. split; [done|].
    exists y. split; [|done]. apply elem_of_set_row_other; [done|]. intros Heq.
    assert (y = c) as -> by (apply (nodup_key_inj ch_id cs); [done..|congruence]). done.
  - intros profile x. by rewrite (Hw c).
Qed.
End Codes.

(** ** A verified number *)

(** Rows written over rows of the same version: the lookups by driver and by
    version do not change. *)
Section Verified.
Context (vs : list driver_phone_version) (v : driver_phone_version) (at_ : Z).
Context (Hids : NoDup (dv_id <$> vs)) (Hv : v ∈ vs).
#[local] Abbreviation v' := (verified_version v at_).
#[local] Abbreviation vs' := (set_row dv_id v' vs).

Lemma elem_of_verified y : y ∈ vs' <-> y = v' \/ (y ∈ vs /\ dv_id y <> dv_id v).
Proof.
  split; [apply (elem_of_set_row dv_id y v' vs)|]. intros [->|[Hy Hk]].
  - by apply (elem_of_set_row_same dv_id v).
  - by apply elem_of_set_row_other.
Qed.

(** The version a row of the table had before. *)
Lemma before_verified y : y ∈ vs' -> exists u, u ∈ vs /\ dv_id u = dv_id y /\ dv_driver_profile_id u = dv_driver_profile_id y
  /\ dv_version u = dv_version y /\ dv_recorded_at u = dv_recorded_at y.
Proof. intros [->|[Hy _]]%elem_of_verified; [by exists v|by exists y]. Qed.

Lemma after_verified u : u ∈ vs -> exists y, y ∈ vs' /\ dv_id y = dv_id u /\ dv_driver_profile_id y = dv_driver_profile_id u
  /\ dv_version y = dv_version u /\ dv_recorded_at y = dv_recorded_at u
  /\ (dv_verified_at u = None \/ y = u \/ u = v).
Proof.
  intros Hu. destruct (decide (dv_id u = dv_id v)) as [Heq|Hne].
  - assert (u = v) as -> by (by apply (nodup_key_inj dv_id vs)). exists v'. rewrite elem_of_verified. by split_and!; auto.
  - exists u. rewrite elem_of_verified. by split_and!; auto.
Qed.

Lemma challenges_of_verified cs profile : challenges_of vs' cs profile = challenges_of vs cs profile.
Proof.
  unfold challenges_of. apply filter_ext_in. intros c _.
  destruct (decide (ch_phone_version_id c = dv_id v)) as [Heq|Hne].
  - rewrite Heq. pose proof (find_by_key_in dv_id vs v Hids Hv) as Hf. rewrite Hf.
    by rewrite (find_set_row_same dv_id (dv_id v) v' vs v).
  - by rewrite find_set_row_other by (cbn; congruence).
Qed.
End Verified.

Lemma numbers_verify t vs cs v c : numbers_ok t vs cs ->
  v ∈ vs -> c ∈ cs -> ch_phone_version_id c = dv_id v -> dv_verified_at v = None -> ch_status c = CHALLENGE_PENDING ->
  t < ch_expires_at c -> forall by_,
  let c' := challenge_with c CHALLENGE_VERIFIED (ch_attempt_count c + 1) by_ (Some t) in
  numbers_ok t (set_row dv_id (verified_version v t) vs) (set_row ch_id c' cs).
Proof.
  intros Hok Hv Hc Hcv Hunv Hpending Hlive by_ c'. pose proof (nu_ids _ _ _ Hok) as Hids.
  pose proof (fun y => elem_of_verified vs v t Hv y) as Hin.
  assert (Hother : forall y, y ∈ cs -> ch_status y = CHALLENGE_VERIFIED -> ch_id y <> ch_id c').
  { intros y Hy Hst Heq. assert (y = c) as -> by (by apply (nodup_key_inj ch_id cs); [apply Hok|..]). congruence. }
  assert (Hstill : forall y, challenge_ok t vs y -> challenge_ok t (set_row dv_id (verified_version v t) vs) y).
  { intros y [(u & Hu & Hid & Hle) ? ? ? ? ? ?]. split; try done.
    destruct (after_verified vs v t Hids Hv u Hu) as (u' & Hu' & Hid' & _ & _ & Hrec & _). exists u'. split_and!; [done|congruence|lia]. }
  split.
  - by apply nodup_set_row.
  - apply nodup_set_row, Hok.
  - apply (unique_on_set_row dv_id phone_version_key _ _ Hids); [apply Hok|].
    by apply (conflicts_kept dv_id phone_version_key v); [apply Hok|..].
  - intros y (u & Hu & _ & _ & _ & Hrec)%(before_verified vs v t Hv). rewrite <- Hrec. by apply (nu_past _ _ _ Hok).
  - intros y [->|[Hy _]]%elem_of_set_row; [|apply Hstill; by apply (nu_challenge _ _ _ Hok)].
    destruct (nu_challenge _ _ _ Hok c Hc) as [Hu ? ? ? ? Hp ?]. specialize (Hp Hpending).
    destruct (Hstill c (nu_challenge _ _ _ Hok c Hc)) as [Hu' _ _ _ _ _ _].
    split; cbn; try done; [lia|]. intros _. exists t. split; [done|lia].
  - intros y w [->|[Hy Hk]]%Hin Hw.
    + injection Hw as <-. split; [done|]. exists c'. split; [|done]. by apply (elem_of_set_row_same ch_id c).
    + destruct (nu_verified _ _ _ Hok y w Hy Hw) as [Hle (d & Hd & Hdy & Hds & Hdw)]. split; [done|]. exists d.
      split; [|done]. apply elem_of_set_row_other; [done|]. by apply Hother.
  - intros profile x. rewrite challenges_of_verified by done.
    rewrite (set_challenge_windows t vs cs Hok c c') by done. apply Hok.
Qed.

(** ** Consents *)

(** Withdraw the driver's active consents. *)
Definition revoke (profile user_id : uuid) (at_ : Z) (c : whatsapp_consent) : whatsapp_consent :=
  if bool_decide (wc_driver_profile_id c = profile) && consent_active c then withdrawn_consent c user_id at_ else c.

Lemma revoke_facts profile user at_ c : let c' := revoke profile user at_ c in
  wc_id c' = wc_id c /\ wc_driver_profile_id c' = wc_driver_profile_id c /\ wc_phone_version_id c' = wc_phone_version_id c
  /\ wc_purpose c' = wc_purpose c /\ wc_granted_at c' = wc_granted_at c
  /\ (consent_active c' = true -> c' = c /\ consent_active c = true /\ wc_driver_profile_id c <> profile)
  /\ (forall w, wc_withdrawn_at c' = Some w -> w = at_ \/ wc_withdrawn_at c = Some w).
Proof.
  unfold revoke. destruct (bool_decide_reflect (wc_driver_profile_id c = profile)) as [Hp|Hp], (consent_active c) eqn:Ha;
    cbn; split_and!; auto; try (intros w [= <-]; by left); try (rewrite ?Ha; by intros); by intros.
Qed.

(** A withdrawn consent is left as it is. *)
Lemma revoke_withdrawn profile user at_ c w : wc_withdrawn_at c = Some w -> revoke profile user at_ c = c.
Proof. intros Hw. unfold revoke, consent_active. rewrite Hw. cbn. by rewrite andb_false_r. Qed.

Lemma revoke_own profile user at_ c : wc_driver_profile_id c = profile ->
  exists w, wc_withdrawn_at (revoke profile user at_ c) = Some w /\ (w = at_ \/ wc_withdrawn_at c = Some w).
Proof.
  intros Hp. unfold revoke, consent_active. rewrite bool_decide_eq_true_2 by done.
  destruct (wc_withdrawn_at c) as [w|] eqn:Hw; cbn; rewrite ?Hw; eauto.
Qed.

Lemma revoke_keys profile user at_ (ws : list whatsapp_consent) : wc_id <$> (revoke profile user at_ <$> ws) = wc_id <$> ws.
Proof. rewrite <- list_fmap_compose. apply list_fmap_ext. intros _ c _. apply (revoke_facts profile user at_ c). Qed.

Section Consents.
Context (t : Z) (vs : list driver_phone_version) (ws : list whatsapp_consent).
Context (Hids : NoDup (dv_id <$> vs)) (Hok : consents_ok t vs ws).

Lemma consents_later t' : t <= t' -> consents_ok t' vs ws.
Proof.
  intros Hle. destruct Hok as [? Hpast ? ? ? ?]. split; try done. intros c Hc. destruct (Hpast c Hc) as [Hg Hw].
  split; [lia|]. intros w Hcw. specialize (Hw w Hcw). lia.
Qed.

(** The number an active consent binds is the one on record. *)
Lemma active_version c : c ∈ ws -> consent_active c = true -> exists v w, v ∈ vs /\ dv_id v = wc_phone_version_id c
  /\ dv_driver_profile_id v = wc_driver_profile_id c /\ dv_verified_at v = Some w /\ current_version vs v.
Proof.
  intros Hc Ha. destruct (wo_verified _ _ _ Hok c Hc) as (v & w & Hv & Hid & Hp & Hw & _). exists v, w.
  split_and!; try done. by apply (wo_active _ _ _ Hok c).
Qed.

Lemma consents_revoke profile user : consents_ok t vs (revoke profile user t <$> ws).
Proof.
  destruct Hok as [Hk Hpast Hver Hact Hone Hsup]. split.
  - by rewrite revoke_keys.
  - intros c' (c & -> & Hc)%list_elem_of_fmap. destruct (revoke_facts profile user t c) as (_ & _ & _ & _ & -> & _ & Hw).
    destruct (Hpast c Hc) as [Hg Hw0]. split; [done|]. intros w [->|Hcw]%Hw; [lia|by apply Hw0].
  - intros c' (c & -> & Hc)%list_elem_of_fmap. destruct (revoke_facts profile user t c) as (_ & -> & -> & _ & -> & _ & _).
    by apply Hver.
  - intros c' v (c & -> & Hc)%list_elem_of_fmap Ha Hv Hid.
    destruct (revoke_facts profile user t c) as (_ & _ & Hp & _ & _ & Hact' & _). destruct (Hact' Ha) as (Heq & Ha0 & _).
    apply (Hact c); [done..|congruence].
  - intros c1 c2 (d1 & -> & Hd1)%list_elem_of_fmap (d2 & -> & Hd2)%list_elem_of_fmap Ha1 Ha2.
    destruct (revoke_facts profile user t d1) as (_ & Hp1 & _ & _ & _ & H1' & _).
    destruct (revoke_facts profile user t d2) as (_ & Hp2 & _ & _ & _ & H2' & _).
    destruct (H1' Ha1) as (-> & Hb1 & _), (H2' Ha2) as (-> & Hb2 & _). by apply Hone.
  - intros c' v v' (c & -> & Hc)%list_elem_of_fmap Hv Hid Hv' Hp Hlt.
    destruct (revoke_facts profile user t c) as (_ & _ & Hpc & _).
    destruct (Hsup c v v') as (w & Hw & Hle); try done; [congruence|]. exists w. by rewrite (revoke_withdrawn _ _ _ _ w).
Qed.

Lemma versions_of_snoc v profile :
  versions_of (vs ++ [v]) profile = versions_of vs profile ++ (if bool_decide (dv_driver_profile_id v = profile) then [v] else []).
Proof. unfold versions_of. rewrite List.filter_app. cbn. by destruct (bool_decide _). Qed.

(** A new number withdraws the consents given for the earlier ones. *)
Lemma consents_record v user : (forall y, y ∈ vs -> dv_id y <> dv_id v) ->
  (forall y, y ∈ vs -> dv_driver_profile_id y = dv_driver_profile_id v -> dv_version y < dv_version v) -> dv_recorded_at v = t ->
  consents_ok t (vs ++ [v]) (revoke (dv_driver_profile_id v) user t <$> ws).
Proof.
  intros Hfresh Hmax Hrec. pose proof (consents_revoke (dv_driver_profile_id v) user) as [Hk Hpast Hver Hact Hone Hsup].
  assert (Hold : forall c u, c ∈ revoke (dv_driver_profile_id v) user t <$> ws -> u ∈ vs ++ [v] ->
    dv_id u = wc_phone_version_id c -> u ∈ vs /\ dv_driver_profile_id u = wc_driver_profile_id c).
  { intros c u Hc [Hu| ->%list_elem_of_singleton]%elem_of_app Hid; destruct (Hver c Hc) as (u0 & w & Hu0 & Hid0 & Hp0 & _).
    - assert (u = u0) as -> by (apply (nodup_key_inj dv_id vs); [done..|congruence]). done.
    - exfalso. apply (Hfresh u0); [done|congruence]. }
  split; try done.
  - intros c Hc. destruct (Hver c Hc) as (u & w & Hu & Hrest). exists u, w. split; [set_solver|done].
  - intros c u Hc Ha Hu Hid. destruct (Hold c u Hc Hu Hid) as [Hu' Hp]. pose proof (Hact c u Hc Ha Hu' Hid) as Hcur.
    unfold current_version in *. rewrite versions_of_snoc, bool_decide_eq_false_2, app_nil_r; [done|].
    apply list_elem_of_fmap in Hc as (c0 & -> & Hc0).
    destruct (revoke_facts (dv_driver_profile_id v) user t c0) as (_ & Hp0 & _ & _ & _ & Ha' & _).
    destruct (Ha' Ha) as (_ & _ & Hne). congruence.
  - intros c u u' Hc Hu Hid Hu' Hp Hlt. destruct (Hold c u Hc Hu Hid) as [Huin Hpu].
    apply elem_of_app in Hu' as [Hu'| ->%list_elem_of_singleton]; [by apply (Hsup c u u')|].
    apply list_elem_of_fmap in Hc as (c0 & -> & Hc0). pose proof (revoke_facts (dv_driver_profile_id v) user t c0) as (_ & Hp0 & _).
    destruct (revoke_own (dv_driver_profile_id v) user t c0) as (w & Hw & Hcase); [congruence|]. exists w. split; [done|].
    destruct Hcase as [->|Hw0]; [lia|]. destruct (wo_past _ _ _ Hok c0 Hc0) as [_ Hpast0]. specialize (Hpast0 w Hw0). lia.
Qed.

Lemma consents_verify v : unique_on phone_version_key vs -> v ∈ vs -> dv_verified_at v = None ->
  consents_ok t (set_row dv_id (verified_version v t) vs) ws.
Proof.
  intros Hu Hv Hunv. destruct Hok as [Hk Hpast Hver Hact Hone Hsup].
  assert (Hu' : unique_on phone_version_key (set_row dv_id (verified_version v t) vs)).
  { apply (unique_on_set_row dv_id phone_version_key _ _ Hids); [done|].
    by apply (conflicts_kept dv_id phone_version_key v). }
  split; try done.
  - intros c Hc. destruct (Hver c Hc) as (u & w & Hu0 & Hid & Hp & Hw & Hle).
    destruct (after_verified vs v t Hids Hv u Hu0) as (u' & Hin & Hid' & Hp' & _ & _ & Hcase). exists u', w.
    destruct Hcase as [?|[->| ->]]; [congruence| |congruence]. by split_and!.
  - intros c y Hc Ha Hy Hid. destruct (Hver c Hc) as (u & w & Hu0 & Hidu & Hp & Hw & _).
    pose proof (before_verified vs v t Hv y Hy) as (u0 & Hu1 & Hid1 & Hp1 & Hv1 & _).
    assert (u0 = u) as -> by (apply (nodup_key_inj dv_id vs); [done..|congruence]).
    apply current_spec; [done|]. split; [done|]. intros z Hz Hpz.
    destruct (before_verified vs v t Hv z Hz) as (z0 & Hz0 & _ & Hpz0 & Hvz & _). rewrite <- Hvz, <- Hv1.
    pose proof (Hact c u Hc Ha Hu0 Hidu) as Hcur. apply current_spec in Hcur as [_ Hmax]; [|done]. apply Hmax; [done|congruence].
  - intros c y y' Hc Hy Hid Hy' Hp Hlt. destruct (before_verified vs v t Hv y Hy) as (u & Hu0 & Hi & Hpu & Hvu & _).
    destruct (before_verified vs v t Hv y' Hy') as (u' & Hu0' & _ & Hpu' & Hvu' & Hru). rewrite <- Hru.
    apply (Hsup c u u'); try done; [congruence..|lia].
Qed.

Lemma consents_grant v c w : unique_on phone_version_key vs -> v ∈ vs -> dv_id v = wc_phone_version_id c -> dv_driver_profile_id v = wc_driver_profile_id c ->
  dv_verified_at v = Some w -> w <= t -> current_version vs v -> wc_granted_at c = t -> wc_withdrawn_at c = None ->
  (forall y, y ∈ ws -> wc_id y <> wc_id c) ->
  (forall y, y ∈ ws -> consent_active y = true -> wc_driver_profile_id y <> wc_driver_profile_id c) ->
  consents_ok t vs (ws ++ [c]).
Proof.
  intros Hu0 Hv Hid Hp Hw Hle Hcur Hg Hwd Hfresh Hnone. destruct Hok as [Hk Hpast Hver Hact Hone Hsup]. split.
  - apply nodup_rows_snoc; [done|]. intros (y & Hy & Hin)%list_elem_of_fmap. by eapply Hfresh.
  - intros y [Hy| ->%list_elem_of_singleton]%elem_of_app; [by apply Hpast|]. split; [lia|]. rewrite Hwd. by intros.
  - intros y [Hy| ->%list_elem_of_singleton]%elem_of_app; [by apply Hver|]. exists v, w. split_and!; try done. lia.
  - intros y u [Hy| ->%list_elem_of_singleton]%elem_of_app Ha Hu Huid; [by apply (Hact y)|].
    assert (u = v) as -> by (apply (nodup_key_inj dv_id vs); [done..|congruence]). done.
  - intros y y' [Hy| ->%list_elem_of_singleton]%elem_of_app [Hy'| ->%list_elem_of_singleton]%elem_of_app Ha Ha' Hpp; try done.
    + by apply Hone.
    + exfalso. by apply (Hnone y).
    + exfalso. by apply (Hnone y').
  - intros y u u' [Hy| ->%list_elem_of_singleton]%elem_of_app Hu Huid Hu' Hpu Hlt; [by apply (Hsup y u u')|].
    assert (u = v) as -> by (apply (nodup_key_inj dv_id vs); [done..|congruence]).
    apply current_spec in Hcur as [_ Hmax]; [|done]. specialize (Hmax u' Hu' Hpu). lia.
Qed.
End Consents.

(** ** Tasks *)

Section Tasks.
Context (t : Z) (ws : list whatsapp_consent) (ks : list contact_task) (Hok : tasks_ok t ws ks).

Lemma tasks_later t' : t <= t' -> tasks_ok t' ws ks.
Proof.
  intros Hle. destruct Hok as [Hk Ht]. split; [done|]. intros k Hin. destruct (Ht k Hin) as [? ? (c & Hc & Htc & Hf & Hx)].
  split; [done|lia|]. exists c. split_and!; try done. intros x Hcx. destruct (Hx x Hcx). split; [lia|done].
Qed.

Lemma in_force_revoke profile user c x : x <= t -> in_force c x -> in_force (revoke profile user t c) x.
Proof.
  intros Hx [Hg Hw]. destruct (revoke_facts profile user t c) as (_ & _ & _ & _ & Hg' & _ & Hw').
  split; [lia|]. intros w [->|Hcw]%Hw'; [done|by apply Hw].
Qed.

Lemma tasks_revoke profile user : tasks_ok t (revoke profile user t <$> ws) ks.
Proof.
  destruct Hok as [Hk Ht]. split; [done|]. intros k Hin.
  destruct (Ht k Hin) as [? ? (c & Hc & (Hi & Hp & Hv & Hpu) & Hf & Hx)]. split; [done..|].
  exists (revoke profile user t c). destruct (revoke_facts profile user t c) as (Hi' & Hp' & Hv' & Hpu' & _).
  split; [by apply list_elem_of_fmap_2|]. split; [unfold task_consent; split_and!; congruence|].
  split; [by apply in_force_revoke|]. intros x Hcx. destruct (Hx x Hcx). split; [done|by apply in_force_revoke].
Qed.

Lemma tasks_grant c : tasks_ok t (ws ++ [c]) ks.
Proof.
  destruct Hok as [Hk Ht]. split; [done|]. intros k Hin. destruct (Ht k Hin) as [? ? (d & Hd & Hrest)].
  split; [done..|]. exists d. split; [set_solver|done].
Qed.

Lemma tasks_add k : task_ok t ws k -> (forall y, y ∈ ks -> mt_id y <> mt_id k) -> tasks_ok t ws (ks ++ [k]).
Proof.
  intros Hnew Hfresh. destruct Hok as [Hk Ht]. split.
  - apply nodup_rows_snoc; [done|]. intros (y & Hy & Hin)%list_elem_of_fmap. by eapply Hfresh.
  - intros y [Hy| ->%list_elem_of_singleton]%elem_of_app; [by apply Ht|done].
Qed.

Lemma tasks_set k : task_ok t ws k -> tasks_ok t ws (set_row mt_id k ks).
Proof.
  intros Hnew. destruct Hok as [Hk Ht]. split; [by apply nodup_set_row|].
  intros y [->|[Hy _]]%elem_of_set_row; [done|by apply Ht].
Qed.
End Tasks.

(** ** The services *)

Lemma withdraw_run l user at_ db db' : withdraw_all l user at_ db = Ok db' ->
  db' = set_consents (fun ws => foldl (fun ws c => set_row wc_id (withdrawn_consent c user at_) ws) ws l) db.
Proof.
  revert db. induction l as [|c l IH]; intros db Hrun; cbn in Hrun.
  - apply Ok_inj in Hrun as <-. destruct db as [d []]. done.
  - ok_step Hrun as db1 H1. unfold update_consent in H1. ok_step H1. apply Ok_inj in H1 as <-.
    apply IH in Hrun as ->. by destruct db as [d []].
Qed.

Lemma set_withdrawn c user at_ ws : NoDup (wc_id <$> ws) -> c ∈ ws ->
  set_row wc_id (withdrawn_consent c user at_) ws
  = (fun x => if bool_decide (wc_id x = wc_id c) then withdrawn_consent x user at_ else x) <$> ws.
Proof.
  intros Hnd Hc. apply list_fmap_ext. intros _ x Hx%list_elem_of_lookup_2. cbn.
  destruct (bool_decide_reflect (wc_id x = wc_id c)) as [Hk|]; [|done].
  by replace x with c by (symmetry; by apply (nodup_key_inj wc_id ws)).
Qed.

Lemma withdraw_fold l user at_ ws : NoDup (wc_id <$> ws) -> NoDup (wc_id <$> l) -> (forall c, c ∈ l -> c ∈ ws) ->
  foldl (fun ws c => set_row wc_id (withdrawn_consent c user at_) ws) ws l
  = (fun x => if bool_decide (wc_id x ∈ wc_id <$> l) then withdrawn_consent x user at_ else x) <$> ws.
Proof.
  revert ws. induction l as [|c l IH]; intros ws Hnd Hl Hin; cbn [foldl].
  - rewrite <- (list_fmap_id ws) at 1. apply list_fmap_ext. intros _ x _. by rewrite bool_decide_eq_false_2 by apply not_elem_of_nil.
  - rewrite fmap_cons in Hl. apply NoDup_cons in Hl as [Hc Hl]. rewrite IH; [|by apply nodup_set_row|done|].
    + rewrite set_withdrawn by (done || apply Hin; left). rewrite <- list_fmap_compose. apply list_fmap_ext.
      intros _ x _. cbn. destruct (bool_decide_reflect (wc_id x = wc_id c)) as [Hk|Hk].
      * rewrite (bool_decide_eq_true_2 (wc_id x ∈ wc_id c :: (wc_id <$> l))) by (rewrite Hk; left).
        by destruct (bool_decide _).
      * destruct (bool_decide_reflect (wc_id x ∈ wc_id <$> l)) as [Hx|Hx].
        -- by rewrite (bool_decide_eq_true_2 (wc_id x ∈ wc_id c :: (wc_id <$> l))) by (by right).
        -- by rewrite (bool_decide_eq_false_2 (wc_id x ∈ wc_id c :: (wc_id <$> l))) by (intros [?|?]%elem_of_cons; done).
    + intros x Hx. apply elem_of_set_row_other; [apply Hin; by right|]. intros Heq. apply Hc. cbn in Heq. rewrite <- Heq.
      by apply list_elem_of_fmap_2.
Qed.

Lemma elem_of_active db profile c :
  c ∈ active_consents db profile <-> c ∈ consents db /\ wc_driver_profile_id c = profile /\ consent_active c = true.
Proof. unfold active_consents, profile_consents. rewrite !elem_of_filter_b, bool_decide_eq_true. tauto. Qed.

Lemma nodup_kept {A B} (k : A -> B) (p : A -> bool) l : NoDup (k <$> l) -> NoDup (k <$> List.filter p l).
Proof.
  induction l as [|x l IH]; intros Hnd; [done|]. rewrite fmap_cons in Hnd. apply NoDup_cons in Hnd as [Hx Hnd]. cbn.
  destruct (p x); [|by apply IH]. rewrite fmap_cons. apply NoDup_cons. split; [|by apply IH].
  intros (y & Hy & Hin)%list_elem_of_fmap. apply elem_of_filter_b in Hin as [Hin _]. apply Hx, list_elem_of_fmap. by exists y.
Qed.

(** Withdrawing all the active consents of a driver. *)
Lemma withdraw_all_revokes profile user at_ db0 db db' : NoDup (wc_id <$> consents db) -> consents db0 = consents db ->
  withdraw_all (active_consents db0 profile) user at_ db = Ok db' -> db' = set_consents (fmap (revoke profile user at_)) db.
Proof.
  intros Hnd Heq Hrun. apply withdraw_run in Hrun as ->. unfold set_consents, set_contacts. f_equal. f_equal.
  change (ct_consents (cs_contacts db)) with (consents db).
  assert (Hin : forall c, c ∈ active_consents db0 profile <->
    c ∈ consents db /\ wc_driver_profile_id c = profile /\ consent_active c = true) by (intros c; by rewrite elem_of_active, Heq).
  rewrite withdraw_fold; [|done| |].
  - apply list_fmap_ext. intros _ x Hx%list_elem_of_lookup_2. cbn. unfold revoke.
    assert (Hiff : wc_id x ∈ wc_id <$> active_consents db0 profile <-> wc_driver_profile_id x = profile /\ consent_active x = true).
    { split.
      - intros (y & Hk & Hy)%list_elem_of_fmap. apply Hin in Hy as (Hy & Hp & Ha).
        by replace x with y by (symmetry; by apply (nodup_key_inj wc_id (consents db))).
      - intros [Hp Ha]. apply list_elem_of_fmap_2. by apply Hin. }
    destruct (bool_decide_reflect (wc_id x ∈ wc_id <$> active_consents db0 profile)) as [Hb|Hb].
    + apply Hiff in Hb as [Hp Ha]. by rewrite (bool_decide_eq_true_2 _ Hp), Ha.
    + destruct (bool_decide_reflect (wc_driver_profile_id x = profile)) as [Hp|]; [|done].
      destruct (consent_active x) eqn:Ha; [|done]. exfalso. by apply Hb, Hiff.
  - unfold active_consents, profile_consents. rewrite Heq. by do 2 apply nodup_kept.
  - intros c Hc. by apply Hin.
Qed.

Section Services.
Context `{HmacSha256}.

Lemma books_later t t' db : contact_books t db -> t <= t' -> contact_books t' db.
Proof.
  intros [Hn Hc Hk] Hle. split; [by eapply numbers_later|by eapply consents_later|by eapply tasks_later].
Qed.

(** [contact_books] reads only the four tables. *)
Lemma contact_books_frame t db db' : contact_books t db ->
  versions db' = versions db -> challenges db' = challenges db -> consents db' = consents db -> tasks db' = tasks db ->
  contact_books t db'.
Proof. intros [Hn Hc Hk] Hv Hch Hco Ht. split; by rewrite ?Hv, ?Hch, ?Hco, ?Ht. Qed.

Lemma locked_context db user r : _locked_driver_context db user = Ok r ->
  r.1 ∈ st_profiles db /\ dp_user_id r.1 = user /\ find_user db user = Some r.2 /\ active_driver r.2 = true.
Proof.
  unfold _locked_driver_context. intros Hrun. ok_step Hrun as u Hu. ok_step Hrun as p Hp. ok_step Hrun as x Hx.
  apply require_some_Ok in Hu, Hp. apply raise_if_Ok in Hx. apply negb_false_iff in Hx. apply Ok_inj in Hrun as <-.
  apply find_row_Some in Hp as [Hp Hid]. apply bool_decide_eq_true in Hid. done.
Qed.

Definition phone_recorded (db : contact_store) (user : uuid) (now : Z) (p : driver_profile) (normalized fingerprint : string)
    (v : driver_phone_version) (db' : contact_store) : Prop :=
  dv_driver_profile_id v = dp_id p /\ dv_recorded_at v = now /\ dv_verified_at v = None
  /\ dv_phone_fingerprint v = fingerprint /\ dv_id v = uuid4 (dv_id <$> versions db)
  /\ conflicts phone_version_key v (versions db) = false
  /\ (forall y, y ∈ versions db -> dv_driver_profile_id y = dp_id p -> dv_version y < dv_version v)
  /\ versions db' = versions db ++ [v] /\ challenges db' = challenges db
  /\ consents db' = revoke (dp_id p) user now <$> consents db /\ tasks db' = tasks db
  /\ phones db' = <[user := normalized]> (phones db).

(** Recording a number: the one already on record, or a new version with the
    driver's consents withdrawn. *)
Lemma set_driver_phone_spec s db user phone now v db' : NoDup (wc_id <$> consents db) ->
  set_driver_phone s db user phone now = Ok (v, db') ->
  exists p u normalized fingerprint, _locked_driver_context db user = Ok (p, u)
  /\ normalize_phone phone = Ok normalized /\ phone_fingerprint normalized s = Ok fingerprint
  /\ (db' = db /\ _latest_phone_version db (dp_id p) = Some v /\ dv_phone_fingerprint v = fingerprint
        /\ normalize_phone (user_phone db user) = Ok normalized
      \/ phone_recorded db user now p normalized fingerprint v db').
Proof.
  unfold set_driver_phone. intros Hnd Hrun. ok_step Hrun as [p u] Hctx. ok_step Hrun as normalized Hn.
  ok_step Hrun as fingerprint Hf. cbn [fst] in Hrun. exists p, u, normalized, fingerprint. split_and!; try done.
  destruct (if saved_phone_matches _ _ then _ else _) as [v0|] eqn:Hcur.
  - apply Ok_inj in Hrun. injection Hrun as <- <-. left. destruct (saved_phone_matches _ _) eqn:Hm; [|done].
    unfold phone_current in Hcur. destruct (_latest_phone_version db (dp_id p)) as [v1|]; [|done]. cbn in Hcur.
    destruct (bool_decide_reflect (dv_phone_fingerprint v1 = fingerprint)); [|done]. injection Hcur as ->.
    split_and!; try done. unfold saved_phone_matches in Hm. apply andb_true_iff in Hm as [_ Hm].
    unfold yields in Hm. destruct (normalize_phone (user_phone db user)) as [x|]; [|done].
    by apply bool_decide_eq_true in Hm as ->.
  - right. ok_step Hrun as db1 H1. ok_step Hrun as masked Hmask. ok_step Hrun as db2 H2.
    apply withdraw_all_revokes in H1 as ->; [|done..]. unfold flush_version in H2. ok_step H2. ok_step H2 as x0 Hx.
    apply raise_if_Ok in Hx. apply Ok_inj in H2 as <-. apply Ok_inj in Hrun. injection Hrun as <- <-.
    unfold phone_recorded. cbn [dv_driver_profile_id dv_recorded_at dv_verified_at dv_phone_fingerprint dv_id dv_version].
    split_and!; try done. intros y Hy Hp. unfold _latest_phone_version.
    assert (Hin : y ∈ profile_versions db (dp_id p)) by (by apply (elem_of_versions_of (versions db))).
    destruct (latest_by dv_version (profile_versions db (dp_id p))) as [l|] eqn:Hl.
    + apply latest_by_Some in Hl as [_ Hmax]. specialize (Hmax y Hin). lia.
    + apply latest_by_None in Hl. rewrite Hl in Hin. by apply not_elem_of_nil in Hin.
Qed.

Lemma books_record_version t db now user p normalized fingerprint v db' : contact_books t db -> t <= now ->
  phone_recorded db user now p normalized fingerprint v db' -> contact_books now db'.
Proof.
  intros Hb Hle (Hp & Hrec & Hunv & _ & Hid & Hkey & Hmax & Hvs & Hcs & Hws & Hks & _).
  apply (books_later _ now) in Hb as [Hn Hc Hk]; [|done].
  assert (Hfresh : forall y, y ∈ versions db -> dv_id y <> dv_id v) by (intros y Hy; rewrite Hid; by apply fresh_id).
  split; rewrite ?Hvs, ?Hcs, ?Hws, ?Hks.
  - apply numbers_record; try done. lia.
  - rewrite <- Hp. apply consents_record; try done; [apply Hn|]. intros y Hy Hpy. apply Hmax; [done|congruence].
  - by apply tasks_revoke.
Qed.

Lemma books_set_phone s t db user phone now v db' : contact_books t db -> t <= now ->
  set_driver_phone s db user phone now = Ok (v, db') -> contact_books now db'.
Proof.
  intros Hb Hle Hrun. apply set_driver_phone_spec in Hrun as (p & u & n & f & _ & _ & _ & [(-> & _)|Hrec]).
  - by eapply books_later.
  - by eapply books_record_version.
  - apply Hb.
Qed.

(** The number a call of [set_driver_phone] answers is the one on record. *)
Lemma set_phone_current s t db user phone now v db' r : contact_books t db -> t <= now ->
  _locked_driver_context db user = Ok r -> set_driver_phone s db user phone now = Ok (v, db') ->
  v ∈ versions db' /\ dv_driver_profile_id v = dp_id r.1 /\ current_version (versions db') v.
Proof.
  intros Hb Hle Hctx Hrun. pose proof (books_set_phone _ _ _ _ _ _ _ _ Hb Hle Hrun) as Hb'.
  apply set_driver_phone_spec in Hrun as (p & u & n & f & Hctx' & _ & _ & Hcase); [|apply Hb].
  rewrite Hctx in Hctx'. injection Hctx' as ->. cbn [fst]. destruct Hcase as [(-> & Hl & _)|Hrec].
  - by apply latest_current.
  - destruct Hrec as (Hp & _ & _ & _ & _ & _ & Hmax & Hvs & _). assert (Hin : v ∈ versions db') by (rewrite Hvs; set_solver).
    split; [done|]. split; [done|]. apply current_spec; [apply Hb'|]. split; [done|]. intros y Hy Hpy. rewrite Hvs in Hy.
    apply elem_of_app in Hy as [Hy| ->%list_elem_of_singleton]; [|done]. specialize (Hmax y Hy). rewrite Hpy, Hp in Hmax.
    specialize (Hmax eq_refl). lia.
Qed.

Lemma open_challenge_none_pending db version now : open_challenge db version now = None ->
  forall c, c ∈ challenges db -> ch_phone_version_id c = version -> ch_status c = CHALLENGE_PENDING -> ch_expires_at c <= now.
Proof.
  intros Hnone%latest_by_None c Hc Hv Hs. destruct (Z.le_gt_cases (ch_expires_at c) now) as [|Hlt]; [done|].
  assert (c ∈ @nil phone_verification_challenge) as Hin; [|by apply not_elem_of_nil in Hin].
  rewrite <- Hnone. apply elem_of_filter_b. split; [done|]. rewrite !bool_decide_eq_true_2 by done. by apply Z.ltb_lt.
Qed.

Lemma request_spec s t db user recorded now c db' : contact_books t db -> t <= recorded -> recorded <= now ->
  request_phone_verification s db user recorded now = Ok (c, db') ->
  exists r v db1, _locked_driver_context db user = Ok r /\ contact_books now db1 /\ v ∈ versions db1
  /\ dv_driver_profile_id v = dp_id r.1 /\ current_version (versions db1) v /\ dv_verified_at v = None
  /\ set_driver_phone s db user (user_phone db user) recorded = Ok (v, db1)
  /\ (db' = db1 /\ c ∈ challenges db1
      \/ recent_challenges db1 (dp_id r.1) (now - PHONE_VERIFICATION_REQUEST_WINDOW) < PHONE_VERIFICATION_REQUEST_MAX_ATTEMPTS
         /\ c = PhoneVerificationChallenge (uuid4 (ch_id <$> challenges db1)) (dv_id v)
                 (_challenge_code_hash (_challenge_code (uuid4 (ch_id <$> challenges db1)) s) s)
                 CHALLENGE_PENDING 0 PHONE_VERIFICATION_MAX_CODE_ATTEMPTS now (now + PHONE_VERIFICATION_TTL) None None
         /\ db' = contact_audit (Some user) "driver.contact.phone_verification.requested"
                    "phone_verification_challenge" (ch_id c) (set_challenges (fun l => l ++ [c]) db1)).
Proof.
  intros Hb Hle Hle' Hrun. unfold request_phone_verification in Hrun. ok_step Hrun. ok_step Hrun as r Hctx. ok_step Hrun.
  ok_step Hrun as [v db1] Hset. ok_step Hrun as u Hunv. apply raise_if_Ok, negb_false_iff in Hunv.
  pose proof (set_phone_current _ _ _ _ _ _ _ _ _ Hb Hle Hctx Hset) as (Hv & Hp & Hcur).
  pose proof (books_set_phone _ _ _ _ _ _ _ _ Hb Hle Hset) as Hb1. apply (books_later _ now) in Hb1; [|done].
  exists r, v, db1. split_and!; try done; [by destruct (dv_verified_at v)|].
  destruct (open_challenge db1 (dv_id v) now) as [e|] eqn:He.
  - apply Ok_inj in Hrun. injection Hrun as <- <-. left. split; [done|].
    apply latest_by_Some in He as [Hin _]. by apply elem_of_filter_b in Hin as [Hin _].
  - right. ok_step Hrun as u1 Hfew. apply raise_if_Ok, Z.leb_gt in Hfew. ok_step Hrun as db2 H2. unfold flush_challenge in H2.
    ok_step H2. apply Ok_inj in H2 as <-. apply Ok_inj in Hrun. injection Hrun as <- <-. done.
Qed.

Lemma books_request s t db user recorded now c db' : contact_books t db -> t <= recorded -> recorded <= now ->
  request_phone_verification s db user recorded now = Ok (c, db') -> contact_books now db'.
Proof.
  intros Hb Hle Hle' Hrun.
  destruct (request_spec _ _ _ _ _ _ _ _ Hb Hle Hle' Hrun) as (r & v & db1 & _ & Hb1 & Hv & Hp & _ & _ & _ & [[-> _]|(Hfew & -> & ->)]);
    [done|]. destruct Hb1 as [Hn Hc Hk]. split; [|done..].
  change (numbers_ok now (versions db1) (challenges db1 ++
    [PhoneVerificationChallenge (uuid4 (ch_id <$> challenges db1)) (dv_id v)
       (_challenge_code_hash (_challenge_code (uuid4 (ch_id <$> challenges db1)) s) s)
       CHALLENGE_PENDING 0 PHONE_VERIFICATION_MAX_CODE_ATTEMPTS now (now + PHONE_VERIFICATION_TTL) None None])).
  apply (numbers_issue now _ _ Hn v); try done.
  - split; cbn; try done.
    exists v. split_and!; [done..|]. by apply (nu_past _ _ _ Hn).
  - intros y Hy. by apply fresh_id.
  - unfold recent_challenges, PHONE_VERIFICATION_REQUEST_MAX_ATTEMPTS in Hfew. rewrite Hp.
    change (challenges_of (versions db1) (challenges db1) (dp_id r.1)) with (profile_challenges db1 (dp_id r.1)). lia.
Qed.

Lemma admit_spec s db profile actor challenge phone u c :
  admit_verification s db profile actor challenge = Ok (phone, u, c) ->
  exists r, require_active_admin (ds_billing db) actor None = Ok tt
  /\ _locked_driver_context db (dp_user_id r) = Ok (r, u) /\ _latest_phone_version db (dp_id r) = Some phone
  /\ c ∈ challenges db /\ ch_id c = challenge /\ ch_phone_version_id c = dv_id phone
  /\ ch_status c = CHALLENGE_PENDING /\ dv_verified_at phone = None.
Proof.
  unfold admit_verification. intros Hrun. ok_step Hrun. ok_step Hrun as i Hi. ok_step Hrun as [] Hadmin.
  ok_step Hrun as [r u'] Hctx. cbn [fst snd] in Hrun. pose proof (locked_context _ _ _ Hctx) as (_ & Hid & _). cbn in Hid.
  destruct (find_by_key ch_id challenge (challenges db)) as [c'|] eqn:Hc; [|done].
  destruct (_latest_phone_version db (dp_id r)) as [v|] eqn:Hv; [|done].
  ok_step Hrun as x1 Hx. ok_step Hrun as y1 Hy. apply raise_if_Ok in Hx, Hy. apply Ok_inj in Hrun. injection Hrun as <- <- <-.
  apply find_by_key_Some in Hc as [Hin Hk]. bool_prop. exists r. rewrite Hid. split_and!; try done.
  by destruct (dv_verified_at v).
Qed.

Lemma update_challenge_Ok c db db' : update_challenge c db = Ok db' ->
  challenge_row_ok c = true /\ db' = set_challenges (set_row ch_id c) db.
Proof.
  unfold update_challenge. intros Hrun. ok_step Hrun as x Hx. apply raise_if_Ok, negb_false_iff in Hx.
  by apply Ok_inj in Hrun as <-.
Qed.

(** A message that does not verify the number leaves the books. *)
Lemma books_judge now db c c' db' : contact_books now db -> c ∈ challenges db -> same_issue c c' ->
  ch_status c = CHALLENGE_PENDING -> challenge_ok now (versions db) c' -> update_challenge c' db = Ok db' ->
  contact_books now db'.
Proof.
  intros [Hn Hc Hk] Hin Hsame Hst Hok [_ ->]%update_challenge_Ok. split; [|done..].
  apply (numbers_judge now _ _ Hn c); try done. congruence.
Qed.

Lemma failed_challenge_ok now vs c : challenge_ok now vs c -> ch_status c = CHALLENGE_PENDING ->
  challenge_ok now vs (failed_challenge c).
Proof.
  intros [? ? ? Hmax ? Hp ?] Hst. specialize (Hp Hst). unfold failed_challenge, challenge_with.
  split; cbn; try done; [lia| |].
  - destruct (Z.leb_spec (ch_max_attempts c) (ch_attempt_count c + 1)); [done|lia].
  - destruct (Z.leb_spec (ch_max_attempts c) (ch_attempt_count c + 1)); [done|congruence].
Qed.

Lemma expired_challenge_ok now vs c : challenge_ok now vs c ->
  challenge_ok now vs (challenge_with c CHALLENGE_EXPIRED (ch_attempt_count c) (ch_verified_by_user_id c) (ch_verified_at c)).
Proof. by intros [? ? ? ? ? ? ?]. Qed.

Lemma accept_books now db phone c actor v db' : contact_books now db ->
  phone ∈ versions db -> c ∈ challenges db -> ch_phone_version_id c = dv_id phone -> dv_verified_at phone = None ->
  ch_status c = CHALLENGE_PENDING -> now < ch_expires_at c -> accept_verification db phone c actor now = Ok (v, db') ->
  contact_books now db' /\ v = verified_version phone now
  /\ versions db' = set_row dv_id v (versions db) /\ consents db' = consents db /\ tasks db' = tasks db.
Proof.
  intros [Hn Hc Hk] Hphone Hin Hcp Hunv Hst Hlive Hrun. unfold accept_verification in Hrun. ok_step Hrun as db1 H1.
  apply update_challenge_Ok in H1 as [_ ->]. apply Ok_inj in Hrun. injection Hrun as <- <-. split; [|done]. split.
  - by apply (numbers_verify now _ _ phone c).
  - apply consents_verify; try done; apply Hn.
  - done.
Qed.

Lemma books_record s t db profile actor challenge code sender now : contact_books t db -> t <= now ->
  contact_books now (record_phone_verification s db profile actor challenge code sender now).1.
Proof.
  intros Hb Hle. apply (books_later _ now) in Hb; [|done]. unfold record_phone_verification.
  destruct (admit_verification s db profile actor challenge) as [[[phone u] c]|] eqn:Ha; [|done].
  apply admit_spec in Ha as (r & _ & _ & Hl & Hc & _ & Hcp & Hst & Hunv).
  pose proof (nu_challenge _ _ _ (cb_numbers _ _ Hb) c Hc) as Hok.
  assert (Hphone : phone ∈ versions db) by (by apply (latest_current _ _ _ Hl)).
  destruct (Z.leb_spec (ch_expires_at c) now) as [Hex|Hlive].
  - destruct (update_challenge _ db) as [db1|] eqn:H1; [|done].
    eapply (books_judge now db c); [exact Hb|exact Hc| |exact Hst| |exact H1]; [done|by apply expired_challenge_ok].
  - destruct (_ && _).
    + destruct (accept_verification db phone c actor now) as [[v db1]|] eqn:H1; [|done].
      by apply (accept_books now db phone c actor v db1).
    + destruct (update_challenge (failed_challenge c) db) as [db1|] eqn:H1; [|done]. cbn [fst].
      apply (contact_books_frame _ db1); [|done..].
      eapply (books_judge now db c); [exact Hb|exact Hc| |exact Hst| |exact H1]; [done|by apply failed_challenge_ok].
Qed.

(** ** Consents and tasks *)

Lemma no_active db profile : latest_by wc_version (active_consents db profile) = None ->
  forall c, c ∈ consents db -> consent_active c = true -> wc_driver_profile_id c <> profile.
Proof.
  intros Hnone%latest_by_None c Hc Ha Hp. assert (c ∈ active_consents db profile) as Hin by (by apply elem_of_active).
  rewrite Hnone in Hin. by apply not_elem_of_nil in Hin.
Qed.

Lemma books_grant t db user purpose notice now c db' : contact_books t db -> t <= now ->
  grant_whatsapp_consent db user purpose notice now = Ok (c, db') -> contact_books now db'.
Proof.
  intros Hb Hle Hrun. apply (books_later _ now) in Hb as [Hn Hc Hk]; [|done]. unfold grant_whatsapp_consent in Hrun.
  ok_step Hrun as r Hctx. ok_step Hrun as v Hv. ok_step Hrun as x Hx. ok_step Hrun.
  apply require_some_Ok in Hv. apply raise_if_Ok in Hx.
  destruct (latest_by wc_version (active_consents db (dp_id r.1))) as [a|] eqn:Ha.
  - ok_step Hrun. apply Ok_inj in Hrun. injection Hrun as <- <-. done.
  - ok_step Hrun as db1 H1. unfold flush_consent in H1. ok_step H1. ok_step H1. apply Ok_inj in H1 as <-. apply Ok_inj in Hrun.
    injection Hrun as <- <-. apply latest_current in Hv as (Hin & Hp & Hcur).
    destruct (dv_verified_at v) as [w|] eqn:Hw; [|done]. pose proof (nu_verified _ _ _ Hn v w Hin Hw) as [Hwle _].
    split; [done| |by apply tasks_grant].
    apply (consents_grant now _ _ (nu_ids _ _ _ Hn) Hc v _ w); try done; [apply Hn|..].
    + intros y Hy. by apply fresh_id.
    + intros y Hy Hay. by eapply no_active.
Qed.

Lemma books_withdraw t db user now c db' : contact_books t db -> t <= now ->
  withdraw_whatsapp_consent db user now = Ok (c, db') -> contact_books now db'.
Proof.
  intros Hb Hle Hrun. apply (books_later _ now) in Hb as [Hn Hc Hk]; [|done]. unfold withdraw_whatsapp_consent in Hrun.
  ok_step Hrun as r Hctx. ok_step Hrun as a Ha. ok_step Hrun as db1 H1. unfold update_consent in H1. ok_step H1.
  apply Ok_inj in H1 as <-. apply Ok_inj in Hrun. injection Hrun as <- <-. apply require_some_Ok in Ha.
  apply latest_by_Some in Ha as [Hin _]. apply elem_of_active in Hin as (Hin & Hp & Hact).
  assert (Heq : set_row wc_id (withdrawn_consent a user now) (consents db) = revoke (dp_id r.1) user now <$> consents db).
  { rewrite set_withdrawn by (done || apply Hc). apply list_fmap_ext. intros _ y Hy%list_elem_of_lookup_2. unfold revoke.
    destruct (bool_decide_reflect (wc_id y = wc_id a)) as [Hk'|Hk'].
    - replace y with a by (symmetry; by apply (nodup_key_inj wc_id (consents db)); [apply Hc|..]).
      by rewrite bool_decide_eq_true_2, Hact.
    - destruct (bool_decide_reflect (wc_driver_profile_id y = dp_id r.1)) as [Hpy|]; [|done].
      destruct (consent_active y) eqn:Hay; [|done]. exfalso. apply Hk'.
      by rewrite (wo_one _ _ _ Hc y a) by (done || congruence). }
  split; [done|..]; change (consents (contact_audit _ _ _ _ _)) with (set_row wc_id (withdrawn_consent a user now) (consents db));
    rewrite Heq; [by apply consents_revoke|by apply tasks_revoke].
Qed.

(** The authority to contact a driver: the number on record, verified, and the
    active consent given for it. *)
Lemma authority_spec t db profile purpose phone c : contact_books t db ->
  _manual_contact_authority db profile purpose = Some (phone, c) <->
  (exists p, find_profile db profile = Some p) /\ phone ∈ versions db /\ dv_driver_profile_id phone = profile
  /\ current_version (versions db) phone
  /\ c ∈ consents db /\ wc_driver_profile_id c = profile /\ consent_active c = true
  /\ wc_phone_version_id c = dv_id phone /\ wc_purpose c = purpose.
Proof.
  intros Hb. unfold _manual_contact_authority. split.
  - destruct (find_profile db profile) as [p|] eqn:Hp; [|done]. cbn [mbind option_bind].
    destruct (_latest_phone_version db profile) as [v|] eqn:Hv; [|done]. cbn [mbind option_bind].
    destruct (latest_by wc_version (active_consents db profile)) as [a|] eqn:Ha; [|done]. cbn [mbind option_bind].
    destruct (_ || _) eqn:Hbad; [done|]. intros [= <- <-]. bool_prop.
    apply latest_by_Some in Ha as [Hin _]. apply elem_of_active in Hin as (Hin & Hpa & Hact).
    apply latest_current in Hv as (Hvin & Hvp & Hcur). split; [by exists p|]. done.
  - intros ([p Hp] & Hv & Hvp & Hcur & Hc & Hcp & Ha & Hid & Hpu). rewrite Hp. cbn [mbind option_bind].
    unfold current_version in Hcur. rewrite Hvp in Hcur.
    change (_latest_phone_version db profile) with (latest_by dv_version (versions_of (versions db) profile)).
    rewrite Hcur. cbn [mbind option_bind].
    assert (latest_by wc_version (active_consents db profile) = Some c) as ->.
    { apply latest_by_max.
      - by apply elem_of_active.
      - intros y (Hy & Hyp & Hya)%elem_of_active. by rewrite (wo_one _ _ _ (cb_consents _ _ Hb) y c) by (done || congruence).
      - intros y (Hy & Hyp & Hya)%elem_of_active _. apply (wo_one _ _ _ (cb_consents _ _ Hb)); [done..|congruence]. }
    cbn [mbind option_bind]. rewrite !bool_decide_eq_true_2 by done.
    destruct (wo_verified _ _ _ (cb_consents _ _ Hb) c Hc) as (u & w & Hu & Huid & _ & Hw & _).
    assert (u = phone) as -> by (apply (nodup_key_inj dv_id (versions db)); [apply Hb|done..|congruence]).
    by rewrite Hw.
Qed.

Lemma active_in_force t ws vs c : consents_ok t vs ws -> c ∈ ws -> consent_active c = true -> in_force c t.
Proof.
  intros Hok Hc Ha. split; [by destruct (wo_past _ _ _ Hok c Hc)|]. unfold consent_active in Ha. by destruct (wc_withdrawn_at c).
Qed.

(** What creating a task does when no other session creates one meanwhile. *)
Lemma create_task_spec t db profile event_key purpose now o db' : contact_books t db -> t <= now ->
  create_manual_driver_contact_task [] db profile event_key purpose now = Ok (o, db') ->
  db' = db
  \/ exists k phone c, o = Some k /\ _manual_contact_authority db profile purpose = Some (phone, c)
     /\ find_task db profile event_key = None
     /\ k = ManualDriverContactTask (uuid4 (mt_id <$> tasks db)) profile (dv_id phone) (wc_id c)
                event_key purpose TASK_OPEN now None None None None
     /\ task_row_ok k = true
     /\ db' = contact_audit None "operations.driver_contact_task.created" "manual_driver_contact_task" (mt_id k)
                (set_tasks (fun l => l ++ [k]) db).
Proof.
  intros Hb Hle Hrun. unfold create_manual_driver_contact_task in Hrun.
  destruct (_manual_contact_authority db profile purpose) as [[phone c]|] eqn:Ha;
    [|apply Ok_inj in Hrun; injection Hrun as <- <-; by left].
  destruct (find_task db profile event_key) as [e|] eqn:He; [apply Ok_inj in Hrun; injection Hrun as <- <-; by left|].
  assert (Hdb : set_tasks (fun l => l ++ []) db = db)
    by (destruct db as [d [? ? ? ? ks]]; unfold set_tasks, set_contacts; cbn; by rewrite app_nil_r).
  rewrite Hdb in Hrun. destruct (flush_task _ db) as [db1|exc] eqn:Hf.
  - unfold flush_task in Hf. ok_step Hf as x1 Hrow. ok_step Hf. apply Ok_inj in Hf as <-. apply raise_if_Ok, negb_false_iff in Hrow.
    apply Ok_inj in Hrun. injection Hrun as <- <-. right. eexists _, phone, c. by split_and!.
  - rewrite He in Hrun. done.
Qed.

Lemma books_create t db profile event_key purpose now o db' : contact_books t db -> t <= now ->
  create_manual_driver_contact_task [] db profile event_key purpose now = Ok (o, db') -> contact_books now db'.
Proof.
  intros Hb Hle Hrun. pose proof (create_task_spec _ _ _ _ _ _ _ _ Hb Hle Hrun) as Hcase.
  apply (books_later _ now) in Hb; [|done]. destruct Hcase as [->|(k & phone & c & _ & Ha & _ & -> & Hrow & ->)]; [done|].
  apply (authority_spec _ _ _ _ _ _ Hb) in Ha as (_ & _ & _ & _ & Hc & Hcp & Hact & Hcv & Hpu).
  destruct Hb as [Hn Hco Hk]. split; [done..|]. apply tasks_add; [done| |].
  - split; [done|cbn; lia|]. exists c. split; [done|]. split; [done|]. split; [|done]. by eapply active_in_force.
  - intros y Hy. by apply fresh_id.
Qed.

Lemma complete_spec s db task actor outcome note now k db' :
  complete_manual_driver_contact_task s db task actor outcome note now = Ok (k, db') ->
  db' = db /\ mt_status k = TASK_COMPLETED
  \/ exists k0 p phone c, k0 ∈ tasks db /\ mt_id k0 = task /\ mt_status k0 = TASK_OPEN
     /\ find_profile db (mt_driver_profile_id k0) = Some p
     /\ _manual_contact_authority db (mt_driver_profile_id k0) (mt_purpose k0) = Some (phone, c)
     /\ Some (dv_phone_fingerprint phone) = current_fingerprint s db (find_user db (dp_user_id p))
     /\ _task_matches_authority k0 phone c (mt_purpose k0) = true
     /\ k = completed_task k0 actor outcome (strip note) now /\ task_row_ok k = true
     /\ db' = contact_audit (Some actor) "operations.driver_contact_task.completed" "manual_driver_contact_task" task
                (set_tasks (set_row mt_id k) db).
Proof.
  unfold complete_manual_driver_contact_task. intros Hrun. ok_step Hrun. ok_step Hrun. ok_step Hrun as k0 Hk. ok_step Hrun as i Hi.
  apply require_some_Ok in Hk, Hi. apply find_by_key_Some in Hk as [Hin Hid].
  destruct (bool_decide_reflect (mt_status k0 = TASK_COMPLETED)) as [Hst|Hst].
  - left. ok_step Hrun. apply Ok_inj in Hrun. by injection Hrun as <- <-.
  - right. ok_step Hrun as x1 Hx. apply raise_if_Ok, negb_false_iff in Hx. ok_step Hrun as db1 H1. unfold update_task in H1.
    ok_step H1 as x2 Hrow. apply raise_if_Ok, negb_false_iff in Hrow. apply Ok_inj in H1 as <-. apply Ok_inj in Hrun.
    injection Hrun as <- <-. unfold task_authorized in Hx.
    destruct (find_profile db (mt_driver_profile_id k0)) as [p|] eqn:Hp; [|done]. injection Hi as <-.
    destruct (_manual_contact_authority _ _ _) as [[phone c]|] eqn:Ha; [|done]. bool_prop.
    exists k0, p, phone, c. split_and!; try done. by destruct (mt_status k0).
Qed.

Lemma task_matches k phone c : _task_matches_authority k phone c (mt_purpose k) = true <->
  mt_phone_version_id k = dv_id phone /\ mt_consent_id k = wc_id c /\ mt_purpose k = wc_purpose c.
Proof. unfold _task_matches_authority. rewrite !andb_true_iff, !bool_decide_eq_true. intuition. Qed.

Lemma books_complete s t db task actor outcome note now k db' : contact_books t db -> t <= now ->
  complete_manual_driver_contact_task s db task actor outcome note now = Ok (k, db') -> contact_books now db'.
Proof.
  intros Hb Hle Hrun. apply (books_later _ now) in Hb; [|done].
  apply complete_spec in Hrun as [[-> _]|(k0 & p & phone & c & Hk0 & _ & _ & _ & Ha & _ & Hm & -> & Hrow & ->)]; [done|].
  apply (authority_spec _ _ _ _ _ _ Hb) in Ha as (_ & _ & _ & _ & Hc & Hcp & Hact & Hcv & Hpu).
  apply task_matches in Hm as (Hmv & Hmc & _). destruct Hb as [Hn Hco Hk]. split; [done..|]. apply tasks_set; [done|].
  destruct (to_task _ _ _ Hk k0 Hk0) as [_ Hpast (c' & Hc' & (Hi & _) & Hf & _)].
  assert (c' = c) as -> by (apply (nodup_key_inj wc_id (consents db)); [apply Hco|done..|congruence]).
  split; [done|done|]. exists c. split; [done|]. split; [unfold task_consent; cbn; split_and!; congruence|]. split; [done|].
  intros x [= <-]. split; [lia|]. by eapply active_in_force.
Qed.

(** ** Runs *)

(** One call, or anything another part of the program does to the other tables
    and to [users.phone], at a time not before the last call.  Calls for one
    driver hold the driver's row locks, so they follow one another. *)
Inductive contact_step (s : contact_settings) : Z * contact_store -> Z * contact_store -> Prop :=
| step_set_phone t db user phone now v db' : t <= now ->
    set_driver_phone s db user phone now = Ok (v, db') -> contact_step s (t, db) (now, db')
| step_request_code t db user recorded now c db' : t <= recorded -> recorded <= now ->
    request_phone_verification s db user recorded now = Ok (c, db') -> contact_step s (t, db) (now, db')
| step_record_message t db profile actor challenge code sender now answer db' : t <= now ->
    record_phone_verification s db profile actor challenge code sender now = (db', answer) ->
    contact_step s (t, db) (now, db')
| step_grant t db user purpose notice now c db' : t <= now ->
    grant_whatsapp_consent db user purpose notice now = Ok (c, db') -> contact_step s (t, db) (now, db')
| step_withdraw t db user now c db' : t <= now ->
    withdraw_whatsapp_consent db user now = Ok (c, db') -> contact_step s (t, db) (now, db')
| step_create_task t db profile event_key purpose now o db' : t <= now ->
    create_manual_driver_contact_task [] db profile event_key purpose now = Ok (o, db') -> contact_step s (t, db) (now, db')
| step_complete_task t db task actor outcome note now k db' : t <= now ->
    complete_manual_driver_contact_task s db task actor outcome note now = Ok (k, db') -> contact_step s (t, db) (now, db')
| step_elsewhere t db now d f : t <= now ->
    contact_step s (t, db) (now, set_disbursement (fun _ => d) (set_phones f db)).

(** A deployment without recorded contacts. *)
Definition no_contacts (saved : gmap uuid string) : contact_tables := ContactTables saved [] [] [] [].

Definition contact_reachable (s : contact_settings) (st : Z * contact_store) : Prop :=
  exists t0 d saved, rtc (contact_step s) (t0, ContactStore d (no_contacts saved)) st.

Lemma step_books s st st' : contact_step s st st' -> contact_books st.1 st.2 -> contact_books st'.1 st'.2.
Proof.
  destruct 1; cbn [fst snd]; intros Hb; [by eapply books_set_phone|by eapply books_request| |by eapply books_grant
    |by eapply books_withdraw|by eapply books_create|by eapply books_complete|].
  - pose proof (books_record s t db profile actor challenge code sender now Hb H0) as Hr. by rewrite H1 in Hr.
  - apply (contact_books_frame _ db); [by eapply books_later|done..].
Qed.

Lemma reachable_contact_books s t db : contact_reachable s (t, db) -> contact_books t db.
Proof.
  intros (t0 & d & saved & Hrun). change (contact_books (t, db).1 (t, db).2).
  assert (Hstart : contact_books (t0, ContactStore d (no_contacts saved)).1 (t0, ContactStore d (no_contacts saved)).2).
  { split; split; try apply NoDup_nil_2; try (intros; cbn; lia); intros;
      match goal with Hx : _ ∈ _ |- _ => by apply not_elem_of_nil in Hx end. }
  revert Hstart. induction Hrun as [|x y z Hxy _ IH]; [done|]. intros Hx. apply IH. by eapply step_books.
Qed.
End Services.
