(* ===== verification/ContactLife.v ===== *)
(** What a driver can rely on: contacted only under a consent in force, for the
    number they proved and had on record; few guesses at a code; tasks listed
    exactly when they may be carried out; tasks that end with the number. *)

From S2P Require Import Prelude Eligibility PayoutData DailyRate Text BillingData DisbursementData Crypto Contacts ContactBooks.
From stdpp Require Import base list strings gmap relations.
From Stdlib Require Import ZArith Lia Ascii.
#[local] Open Scope Z_scope.

Section ContactLife.
Context `{HmacSha256} (s : contact_settings).

(** C11: An operator's contact is covered by the driver's consent.  When a task was
    completed at [x], its consent was in force, given for the task's purpose and
    for a number of that driver; a code sent to the driver had proved the number
    before the consent, within the life of the code; and no later number was on
    record yet. *)
Theorem contact_within_consent t db k x : contact_reachable s (t, db) ->
  k ∈ tasks db -> mt_completed_at k = Some x ->
  exists c v w ch, c ∈ consents db /\ task_consent k c /\ in_force c x
  /\ v ∈ versions db /\ dv_id v = mt_phone_version_id k /\ dv_driver_profile_id v = mt_driver_profile_id k
  /\ dv_verified_at v = Some w /\ w <= wc_granted_at c
  /\ ch ∈ challenges db /\ ch_phone_version_id ch = dv_id v /\ ch_status ch = CHALLENGE_VERIFIED
  /\ ch_created_at ch <= w < ch_expires_at ch
  /\ (forall v', v' ∈ versions db -> dv_driver_profile_id v' = dv_driver_profile_id v -> dv_version v < dv_version v' ->
        x <= dv_recorded_at v').
Proof.
  intros Hr Hk Hx. apply reachable_contact_books in Hr as [Hn Hc Ht].
  destruct (tk_consent _ _ _ (to_task _ _ _ Ht k Hk)) as (c & Hin & Htc & _ & Hf). destruct (Hf x Hx) as [_ Hforce].
  destruct (wo_verified _ _ _ Hc c Hin) as (v & w & Hv & Hid & Hp & Hw & Hle). pose proof Htc as (_ & Hcp & Hcv & _).
  destruct (nu_verified _ _ _ Hn v w Hv Hw) as (_ & ch & Hch & Hchv & Hst & Hat).
  destruct (cg_verified _ _ _ (nu_challenge _ _ _ Hn ch Hch) Hst) as (w' & Hat' & Hlife).
  assert (w' = w) as -> by congruence. exists c, v, w, ch. split_and!; try done; [congruence..|lia|lia|].
  intros v' Hv' Hp' Hlt. destruct (wo_superseded _ _ _ Hc c v v') as (y & Hy & Hle'); try done.
  destruct Hforce as [_ Hy']. specialize (Hy' y Hy). lia.
Qed.

(** C19: The codes sent to a driver's numbers cannot be searched.  In any hour at
    most three codes are issued for a driver, and whoever sends the messages,
    at most fifteen are judged against them. *)
Theorem guesses_bounded t db profile x : contact_reachable s (t, db) ->
  let issued := List.filter (issued_within x) (profile_challenges db profile) in
  Z.of_nat (length issued) <= PHONE_VERIFICATION_REQUEST_MAX_ATTEMPTS
  /\ sum_by ch_attempt_count issued <= PHONE_VERIFICATION_REQUEST_MAX_ATTEMPTS * PHONE_VERIFICATION_MAX_CODE_ATTEMPTS.
Proof.
  intros Hr issued. apply reachable_contact_books in Hr as [Hn _ _].
  assert (Hlen : (length issued <= 3)%nat) by (by apply (nu_window _ _ _ Hn)).
  unfold PHONE_VERIFICATION_REQUEST_MAX_ATTEMPTS, PHONE_VERIFICATION_MAX_CODE_ATTEMPTS. split; [lia|].
  transitivity (5 * Z.of_nat (length issued)); [|lia]. apply sum_by_le_length. intros c Hc.
  apply elem_of_filter_b in Hc as [Hc _]. apply elem_of_filter_b in Hc as [Hc _].
  destruct (nu_challenge _ _ _ Hn c Hc) as [_ _ _ Hmax Hle _ _]. unfold PHONE_VERIFICATION_MAX_CODE_ATTEMPTS in Hmax. lia.
Qed.

(** ** The list of tasks *)

Lemma newer_current t db phone profile : contact_books t db -> phone ∈ versions db -> dv_driver_profile_id phone = profile ->
  newer_phone db profile phone = false <-> current_version (versions db) phone.
Proof.
  intros Hb Hv Hp. rewrite (current_spec _ _ (nu_key _ _ _ (cb_numbers _ _ Hb))). unfold newer_phone. rewrite Hp.
  rewrite <- not_true_iff_false, existsb_exists. split.
  - intros Hno. split; [done|]. intros y Hy Hpy. destruct (Z.le_gt_cases (dv_version y) (dv_version phone)) as [|Hlt]; [done|].
    exfalso. apply Hno. exists y. split; [by apply list_elem_of_In|]. rewrite bool_decide_eq_true_2 by done. by apply Z.ltb_lt.
  - intros [_ Hmax] (y & Hy%list_elem_of_In & Hbad). bool_prop. specialize (Hmax y Hy). lia.
Qed.

Lemma consent_current db k : task_consent_current db k = true <->
  exists c, c ∈ consents db /\ task_consent k c /\ consent_active c = true.
Proof.
  unfold task_consent_current. rewrite existsb_exists. split.
  - intros (c & Hc%list_elem_of_In & Hok). bool_prop. exists c. unfold task_consent. by split_and!.
  - intros (c & Hc & (Hi & Hp & Hv & Hpu) & Ha). exists c. split; [by apply list_elem_of_In|].
    rewrite !bool_decide_eq_true_2 by done. done.
Qed.

(** An open task is listed when the driver may be contacted for it. *)
Lemma visible_authority t db k phone p : contact_books t db ->
  k ∈ tasks db -> mt_status k = TASK_OPEN -> phone ∈ versions db -> dv_id phone = mt_phone_version_id k ->
  dv_driver_profile_id phone = mt_driver_profile_id k -> find_profile db (mt_driver_profile_id k) = Some p ->
  task_visible db k phone = true <->
  exists c, _manual_contact_authority db (mt_driver_profile_id k) (mt_purpose k) = Some (phone, c)
            /\ _task_matches_authority k phone c (mt_purpose k) = true.
Proof.
  intros Hb Hk Hopen Hv Hid Hp Hpf. unfold task_visible. rewrite bool_decide_eq_false_2 by congruence. cbn [orb].
  rewrite !andb_true_iff, !negb_true_iff, (newer_current t) by done. rewrite consent_current. split.
  - intros [[(c & Hc & Htc & Ha) Hcur] _]. pose proof Htc as (Hi & Hcp & Hcv & Hpu). exists c. split.
    + apply (authority_spec t); [done|]. split; [by exists p|]. split_and!; try done; congruence.
    + apply task_matches. split_and!; congruence.
  - intros (c & Ha & Hm). apply (authority_spec t) in Ha as (_ & _ & _ & Hcur & Hc & Hcp & Hact & Hcv & Hpu); [|done].
    apply task_matches in Hm as (Hmv & Hmc & Hmp). split; [split; [exists c; unfold task_consent; split_and!; congruence|done]|].
    destruct (wo_verified _ _ _ (cb_consents _ _ Hb) c Hc) as (u & w & Hu & Huid & _ & Hw & _).
    assert (u = phone) as -> by (apply (nodup_key_inj dv_id (versions db)); [apply Hb|done..|congruence]). by rewrite Hw.
Qed.

Lemma task_phone t db k phone : contact_books t db -> k ∈ tasks db ->
  find_by_key dv_id (mt_phone_version_id k) (versions db) = Some phone ->
  phone ∈ versions db /\ dv_id phone = mt_phone_version_id k /\ dv_driver_profile_id phone = mt_driver_profile_id k.
Proof.
  intros Hb Hk [Hv Hid]%find_by_key_Some. split_and!; try done.
  destruct (tk_consent _ _ _ (to_task _ _ _ (cb_tasks _ _ Hb) k Hk)) as (c & Hc & (_ & Hcp & Hcv & _) & _).
  destruct (wo_verified _ _ _ (cb_consents _ _ Hb) c Hc) as (u & w & Hu & Huid & Hup & _).
  assert (u = phone) as -> by (apply (nodup_key_inj dv_id (versions db)); [apply Hb|done..|congruence]). congruence.
Qed.

Lemma elem_of_open_rows db k phone : mt_status k = TASK_OPEN -> task_row_ok k = true ->
  (k, phone) ∈ task_rows db None false true <->
  k ∈ tasks db /\ find_by_key dv_id (mt_phone_version_id k) (versions db) = Some phone /\ task_visible db k phone = true.
Proof.
  intros Hopen Hrow. unfold task_rows. rewrite list_elem_of_omap. unfold task_row_ok in Hrow. rewrite Hopen in Hrow. split.
  - intros (k' & Hk' & Hsome). destruct (find_by_key dv_id _ _) as [v|] eqn:Hv; [|done]. cbn [mbind option_bind] in Hsome.
    cbn [negb orb andb] in Hsome. match type of Hsome with (if ?b then _ else _) = _ => destruct b eqn:Hb end; [|done].
    injection Hsome as -> ->. bool_prop. done.
  - intros (Hk & Hv & Hvis). exists k. split; [done|]. rewrite Hv. cbn [mbind option_bind]. rewrite Hvis, Hopen.
    rewrite bool_decide_eq_true_2 by done. bool_prop. by destruct (is_none (mt_completed_at k)).
Qed.

Lemma completed_row k actor outcome note at_ : task_row_ok k = true -> outcome ∈ contact_outcomes ->
  nonempty (strip note) = true -> task_row_ok (completed_task k actor outcome (strip note) at_) = true.
Proof.
  unfold task_row_ok. intros Hrow Ho Hn. apply andb_true_iff in Hrow as [Hrow _]. cbn [mt_event_key mt_purpose completed_task
    mt_status mt_completed_by_user_id mt_completed_at mt_completion_outcome mt_completion_note is_none negb andb].
  rewrite Hrow, bool_decide_eq_true_2 by done. unfold nonblank. by rewrite strip_fix, Hn.
Qed.

(** Completing an open task. *)
Lemma complete_open t db k p actor outcome note now : contact_books t db ->
  k ∈ tasks db -> mt_status k = TASK_OPEN -> find_profile db (mt_driver_profile_id k) = Some p ->
  require_active_admin (ds_billing db) actor None = Ok tt -> outcome ∈ contact_outcomes -> nonempty (strip note) = true ->
  is_ok (complete_manual_driver_contact_task s db (mt_id k) actor outcome note now) = task_authorized s db k (dp_user_id p).
Proof.
  intros Hb Hk Hopen Hp Hadmin Ho Hn. unfold complete_manual_driver_contact_task. rewrite Hadmin. cbn [mbind result_bind].
  rewrite bool_decide_eq_true_2, Hn by done. cbn [negb orb raise_if mbind result_bind].
  rewrite (find_by_key_in mt_id _ k) by (done || apply Hb). cbn [require_some mbind result_bind]. rewrite Hp.
  cbn [fmap option_fmap option_map require_some mbind result_bind]. rewrite bool_decide_eq_false_2 by congruence.
  destruct (task_authorized s db k (dp_user_id p)); [|done]. cbn [negb raise_if mbind result_bind]. unfold update_task.
  rewrite completed_row; [done| |done..]. apply (tk_row _ _ _ (to_task _ _ _ (cb_tasks _ _ Hb) k Hk)).
Qed.

(** C24: Staff see the tasks they may carry out.  For an open task and a valid
    completion by an active administrator, the completion succeeds exactly when
    the task is in the list of open tasks and the number on record is the one
    the driver, who is active, still has in the account. *)
Theorem listed_tasks_can_be_completed t db k phone p actor outcome note now : contact_reachable s (t, db) ->
  k ∈ tasks db -> mt_status k = TASK_OPEN ->
  find_by_key dv_id (mt_phone_version_id k) (versions db) = Some phone ->
  find_profile db (mt_driver_profile_id k) = Some p ->
  require_active_admin (ds_billing db) actor None = Ok tt -> outcome ∈ contact_outcomes -> nonempty (strip note) = true ->
  is_ok (complete_manual_driver_contact_task s db (mt_id k) actor outcome note now) = true
  <-> (k, phone) ∈ task_rows db None false true
      /\ current_fingerprint s db (find_user db (dp_user_id p)) = Some (dv_phone_fingerprint phone).
Proof.
  intros Hr Hk Hopen Hf Hp Hadmin Ho Hn. apply reachable_contact_books in Hr as Hb.
  destruct (task_phone _ _ _ _ Hb Hk Hf) as (Hv & Hid & Hvp).
  pose proof (tk_row _ _ _ (to_task _ _ _ (cb_tasks _ _ Hb) k Hk)) as Hrow.
  rewrite (elem_of_open_rows _ _ _ Hopen Hrow), (visible_authority t db k phone p) by done.
  rewrite (complete_open t db k p) by done. unfold task_authorized. split.
  - destruct (_manual_contact_authority db _ _) as [[v c]|] eqn:Ha; [|done].
    intros [Hfp%bool_decide_eq_true Hm]%andb_true_iff. assert (v = phone) as ->.
    { apply (authority_spec t) in Ha as (_ & Hvin & _); [|done]. apply task_matches in Hm as (Hmv & _).
      apply (nodup_key_inj dv_id (versions db)); [apply Hb|done..|congruence]. }
    split; [|done]. split_and!; [done..|]. by exists c.
  - intros [(_ & _ & c & Ha & Hm) Hfp]. rewrite Ha, Hm, Hfp. by rewrite bool_decide_eq_true_2.
Qed.

(** ** Tasks that have ended *)

(** An open task whose consent was withdrawn. *)
Definition ended (db : contact_store) (k : contact_task) : Prop :=
  k ∈ tasks db /\ mt_status k = TASK_OPEN
  /\ exists c w, c ∈ consents db /\ wc_id c = mt_consent_id k /\ wc_withdrawn_at c = Some w.

Lemma ended_frame db db' k : ended db k -> tasks db' = tasks db ->
  (forall c w, c ∈ consents db -> wc_withdrawn_at c = Some w -> c ∈ consents db') -> ended db' k.
Proof. intros (Hk & Ho & c & w & Hc & Hi & Hw) Ht Hcs. split; [by rewrite Ht|]. split; [done|]. exists c, w. eauto. Qed.

Lemma set_phone_consents db user phone now v db' : NoDup (wc_id <$> consents db) ->
  set_driver_phone s db user phone now = Ok (v, db') ->
  tasks db' = tasks db /\ forall c w, c ∈ consents db -> wc_withdrawn_at c = Some w -> c ∈ consents db'.
Proof.
  intros Hnd Hrun. apply set_driver_phone_spec in Hrun as (p & u & n & f & _ & _ & _ & [(-> & _)|Hrec]); [done| |done].
  destruct Hrec as (_ & _ & _ & _ & _ & _ & _ & _ & _ & Hws & Hks & _). split; [done|]. intros c w Hc Hw. rewrite Hws.
  apply list_elem_of_fmap. exists c. by rewrite (revoke_withdrawn _ _ _ _ w).
Qed.

Lemma record_consents db profile actor challenge code sender now :
  let db' := (record_phone_verification s db profile actor challenge code sender now).1 in
  tasks db' = tasks db /\ consents db' = consents db.
Proof.
  cbn. unfold record_phone_verification. destruct (admit_verification _ _ _ _ _) as [[[phone u] c]|]; [|done].
  destruct (_ <=? _).
  - destruct (update_challenge _ db) as [db1|] eqn:H1; [|done]. by apply update_challenge_Ok in H1 as [_ ->].
  - destruct (_ && _).
    + destruct (accept_verification db phone c actor now) as [[v db1]|] eqn:H1; [|done]. unfold accept_verification in H1.
      ok_step H1 as db2 H2. apply update_challenge_Ok in H2 as [_ ->]. apply Ok_inj in H1. by injection H1 as <- <-.
    + destruct (update_challenge _ db) as [db1|] eqn:H1; [|done]. by apply update_challenge_Ok in H1 as [_ ->].
Qed.

Lemma grant_consents db user purpose notice now c db' : grant_whatsapp_consent db user purpose notice now = Ok (c, db') ->
  tasks db' = tasks db /\ forall y, y ∈ consents db -> y ∈ consents db'.
Proof.
  unfold grant_whatsapp_consent. intros Hrun. ok_step Hrun as r Hr. ok_step Hrun as v Hv. ok_step Hrun. ok_step Hrun.
  destruct (latest_by _ _) as [a|].
  - ok_step Hrun. apply Ok_inj in Hrun. by injection Hrun as <- <-.
  - ok_step Hrun as db1 H1. unfold flush_consent in H1. ok_step H1. ok_step H1. apply Ok_inj in H1 as <-. apply Ok_inj in Hrun.
    injection Hrun as Hc <-. rewrite Hc. split; [done|]. intros y Hy. change (y ∈ consents db ++ [c]). set_solver.
Qed.

Lemma withdraw_consents t db user now c db' : contact_books t db -> withdraw_whatsapp_consent db user now = Ok (c, db') ->
  tasks db' = tasks db /\ forall y w, y ∈ consents db -> wc_withdrawn_at y = Some w -> y ∈ consents db'.
Proof.
  unfold withdraw_whatsapp_consent. intros Hb Hrun. ok_step Hrun as r Hr. ok_step Hrun as a Ha. ok_step Hrun as db1 H1.
  unfold update_consent in H1. ok_step H1. apply Ok_inj in H1 as <-. apply Ok_inj in Hrun. injection Hrun as <- <-.
  split; [done|]. intros y w Hy Hw. apply elem_of_set_row_other; [done|]. cbn. intros Hk. apply require_some_Ok in Ha.
  apply latest_by_Some in Ha as [Hin _]. apply elem_of_active in Hin as (Hin & _ & Hact).
  assert (y = a) as -> by (apply (nodup_key_inj wc_id (consents db)); [apply Hb|done..]).
  unfold consent_active in Hact. by rewrite Hw in Hact.
Qed.

Lemma ended_stays st st' k : contact_books st.1 st.2 -> contact_step s st st' -> ended st.2 k -> ended st'.2 k.
Proof.
  intros Hb Hstep He. pose proof (wo_ids _ _ _ (cb_consents _ _ Hb)) as Hnd.
  destruct Hstep as [t db user phone now v db' Hle Hrun|t db user rec now c db' Hle Hle' Hrun
    |t db profile actor ch code sender now answer db' Hle Hrun|t db user purpose notice now c db' Hle Hrun
    |t db user now c db' Hle Hrun|t db profile key purpose now o db' Hle Hrun|t db task actor outcome note now k' db' Hle Hrun
    |t db now d f Hle]; cbn [fst snd] in *.
  - destruct (set_phone_consents _ _ _ _ _ _ Hnd Hrun). by eapply ended_frame.
  - destruct (request_spec _ _ _ _ _ _ _ _ Hb Hle Hle' Hrun) as (r & v & db1 & _ & _ & _ & _ & _ & _ & Hset & Hcase).
    destruct (set_phone_consents _ _ _ _ _ _ Hnd Hset) as [Ht Hc]. apply (ended_frame db); [done|..];
      destruct Hcase as [[-> _]|(_ & _ & ->)]; done.
  - pose proof (record_consents db profile actor ch code sender now) as Hrec. rewrite Hrun in Hrec. cbn [fst] in Hrec.
    destruct Hrec as [Ht Hc]. apply (ended_frame db); [done..|]. intros. by rewrite Hc.
  - destruct (grant_consents _ _ _ _ _ _ _ Hrun) as [Ht Hc]. apply (ended_frame db); [done..|]. intros. by apply Hc.
  - destruct (withdraw_consents _ _ _ _ _ _ Hb Hrun). by eapply ended_frame.
  - destruct He as (Hk & Ho & He).
    destruct (create_task_spec _ _ _ _ _ _ _ _ Hb Hle Hrun) as [->|(k1 & phone & c & _ & _ & _ & _ & _ & ->)]; [done|].
    split; [|done]. change (k ∈ tasks db ++ [k1]). set_solver.
  - apply complete_spec in Hrun as [[-> _]|(k0 & p & phone & c & Hk0 & Hid & _ & _ & Ha & _ & Hm & -> & _ & ->)]; [done|].
    destruct He as (Hk & Ho & c0 & w & Hc0 & Hi0 & Hw0). split; [|split; [done|by exists c0, w]].
    apply elem_of_set_row_other; [done|]. cbn. intros Heq.
    assert (k0 = k) as -> by (apply (nodup_key_inj mt_id (tasks db)); [apply Hb|done..]).
    apply (authority_spec t) in Ha as (_ & _ & _ & _ & Hc & _ & Hact & _ & _); [|done].
    apply task_matches in Hm as (_ & Hmc & _).
    assert (c0 = c) as -> by (apply (nodup_key_inj wc_id (consents db)); [done..|congruence]).
    unfold consent_active in Hact. by rewrite Hw0 in Hact.
  - by apply (ended_frame db).
Qed.

Lemma ended_forever st st' k : rtc (contact_step s) st st' -> contact_books st.1 st.2 -> ended st.2 k ->
  contact_books st'.1 st'.2 /\ ended st'.2 k.
Proof.
  induction 1 as [|x y z Hxy _ IH]; [done|]. intros Hb He. apply IH; [by eapply step_books|by eapply ended_stays].
Qed.

(** A new number ends the open contact tasks.  Once a driver records another
    number, an open task of that driver is never carried out and never again in
    the list of open tasks, whatever is recorded, verified or consented to later. *)
Theorem new_number_ends_tasks t db user phone now v db' k t2 db2 : contact_reachable s (t, db) -> t <= now ->
  set_driver_phone s db user phone now = Ok (v, db') -> v ∉ versions db ->
  k ∈ tasks db -> mt_status k = TASK_OPEN -> mt_driver_profile_id k = dv_driver_profile_id v ->
  rtc (contact_step s) (now, db') (t2, db2) ->
  find_by_key mt_id (mt_id k) (tasks db2) = Some k /\ forall number, (k, number) ∉ task_rows db2 None false true.
Proof.
  intros Hr Hle Hset Hv Hk Ho Hp Hrun. apply reachable_contact_books in Hr as Hb.
  pose proof (books_set_phone _ _ _ _ _ _ _ _ Hb Hle Hset) as Hb'.
  assert (He : ended db' k).
  { apply set_driver_phone_spec in Hset as (p & u & n & f & _ & _ & _ & [(-> & Hl & _)|Hrec]); [..|apply Hb].
    - exfalso. apply Hv. by apply (latest_current _ _ _ Hl).
    - destruct Hrec as (Hvp & _ & _ & _ & _ & _ & _ & _ & _ & Hws & Hks & _). split; [by rewrite Hks|]. split; [done|].
      destruct (tk_consent _ _ _ (to_task _ _ _ (cb_tasks _ _ Hb) k Hk)) as (c & Hc & (Hci & Hcp & _) & _).
      destruct (revoke_own (dp_id p) user now c) as (w & Hw & _); [congruence|].
      exists (revoke (dp_id p) user now c), w. rewrite Hws. split; [by apply list_elem_of_fmap_2|]. split; [|done].
      destruct (revoke_facts (dp_id p) user now c) as (-> & _). done. }
  destruct (ended_forever (now, db') (t2, db2) k Hrun Hb' He) as [Hb2 (Hk2 & _ & c & w & Hc & Hci & Hw)].
  cbn [fst snd] in *. split; [apply find_by_key_in; [apply Hb2|done]|]. intros number Hin.
  apply elem_of_open_rows in Hin as (_ & _ & Hvis); [|done|apply (tk_row _ _ _ (to_task _ _ _ (cb_tasks _ _ Hb2) k Hk2))].
  unfold task_visible in Hvis. rewrite bool_decide_eq_false_2 in Hvis by congruence. cbn [orb] in Hvis.
  apply andb_true_iff in Hvis as [[Hvis _]%andb_true_iff _]. apply consent_current in Hvis as (c' & Hc' & (Hci' & _) & Ha).
  assert (c' = c) as -> by (apply (nodup_key_inj wc_id (consents db2)); [apply Hb2|done..|congruence]).
  unfold consent_active in Ha. by rewrite Hw in Ha.
Qed.
End ContactLife.

(** ** A sample *)

Module ContactSample.
Import DisbursementSample.

#[export] Instance hmac : HmacSha256 := fun key m => hex_digits 32 (text_value (key +:+ m)%string 0) "".

Definition settings : contact_settings := ContactSettings "secret" "+2347074200080".
Definition t0 : Z := 1760000000 * second.
Definition number : string := "+234 803 000-0001".
Definition purpose : string := "earnings_release".

Definition after {A} (db : contact_store) (r : result (A * contact_store)) : contact_store :=
  match r with Ok (_, db') => db' | Raise _ => db end.

Lemma after_Ok {A} db (r : result (A * contact_store)) : is_ok r = true -> exists a, r = Ok (a, after db r).
Proof. destruct r as [[a db']|]; [by exists a|done]. Qed.

(** A number is recorded, proved at the second message, consented to; a task is
    created and carried out, or the number replaced first. *)
Definition c0 : contact_store := ContactStore store (no_contacts ∅).
Definition c1 : contact_store := after c0 (set_driver_phone settings c0 50 number t0).
Definition c2 : contact_store := after c1 (request_phone_verification settings c1 50 (t0 + 1) (t0 + 2)).
Definition code : string := _challenge_code 1 settings.
Definition c3 : contact_store := (record_phone_verification settings c2 5 1 1 "none" number (t0 + 3)).1.
Definition c4 : contact_store := (record_phone_verification settings c3 5 1 1 code number (t0 + 4)).1.
Definition c5 : contact_store := after c4 (grant_whatsapp_consent c4 50 purpose " v1 " (t0 + 5)).
Definition c6 : contact_store := after c5 (create_manual_driver_contact_task [] c5 5 "trip:7" purpose (t0 + 6)).
Definition completion := complete_manual_driver_contact_task settings c6 1 1 "reached" " called " (t0 + 7).
Definition c7 : contact_store := after c6 completion.
Definition replacement := set_driver_phone settings c6 50 "+2348030000002" (t0 + 7).
Definition d7 : contact_store := after c6 replacement.

(** A call that succeeds is a step to what it leaves. *)
Lemma set_phone_after t db user phone now : t <= now -> is_ok (set_driver_phone settings db user phone now) = true ->
  contact_step settings (t, db) (now, after db (set_driver_phone settings db user phone now)).
Proof. intros Hle [v Hv]%(after_Ok db). by eapply step_set_phone. Qed.

Lemma request_after t db user recorded now : t <= recorded -> recorded <= now ->
  is_ok (request_phone_verification settings db user recorded now) = true ->
  contact_step settings (t, db) (now, after db (request_phone_verification settings db user recorded now)).
Proof. intros Hle Hle' [v Hv]%(after_Ok db). by eapply step_request_code. Qed.

Lemma record_after t db sent now : t <= now ->
  contact_step settings (t, db) (now, (record_phone_verification settings db 5 1 1 sent number now).1).
Proof.
  intros Hle. destruct (record_phone_verification settings db 5 1 1 sent number now) as [db' a] eqn:Hr.
  by eapply (step_record_message settings t db).
Qed.

Lemma grant_after t db now : t <= now -> is_ok (grant_whatsapp_consent db 50 purpose " v1 " now) = true ->
  contact_step settings (t, db) (now, after db (grant_whatsapp_consent db 50 purpose " v1 " now)).
Proof. intros Hle [v Hv]%(after_Ok db). by eapply step_grant. Qed.

Lemma create_after t db key now : t <= now -> is_ok (create_manual_driver_contact_task [] db 5 key purpose now) = true ->
  contact_step settings (t, db) (now, after db (create_manual_driver_contact_task [] db 5 key purpose now)).
Proof. intros Hle [v Hv]%(after_Ok db). by eapply step_create_task. Qed.

Lemma complete_after t db now : t <= now ->
  is_ok (complete_manual_driver_contact_task settings db 1 1 "reached" " called " now) = true ->
  contact_step settings (t, db) (now, after db (complete_manual_driver_contact_task settings db 1 1 "reached" " called " now)).
Proof. intros Hle [v Hv]%(after_Ok db). by eapply step_complete_task. Qed.

Lemma first_six : rtc (contact_step settings) (t0, c0) (t0 + 6, c6).
Proof.
  apply (rtc_l _ _ (t0, c1)); [unfold c1; apply set_phone_after; [lia|vm_compute; reflexivity]|].
  apply (rtc_l _ _ (t0 + 2, c2)); [unfold c2; apply request_after; [lia|lia|vm_compute; reflexivity]|].
  apply (rtc_l _ _ (t0 + 3, c3)); [unfold c3; apply record_after; lia|].
  apply (rtc_l _ _ (t0 + 4, c4)); [unfold c4; apply record_after; lia|].
  apply (rtc_l _ _ (t0 + 5, c5)); [unfold c5; apply grant_after; [lia|vm_compute; reflexivity]|].
  apply rtc_once. unfold c6. apply create_after; [lia|vm_compute; reflexivity].
Qed.

Lemma c6_reachable : contact_reachable settings (t0 + 6, c6).
Proof. exists t0, store, ∅. exact first_six. Qed.

Lemma c7_reachable : contact_reachable settings (t0 + 7, c7).
Proof.
  exists t0, store, ∅. apply (rtc_r _ (t0 + 6, c6)); [exact first_six|].
  unfold c7, completion. apply complete_after; [lia|vm_compute; reflexivity].
Qed.

Definition done_task : contact_task :=
  ManualDriverContactTask 1 5 1 1 "trip:7" purpose TASK_COMPLETED (t0 + 6) (Some 1%N) (Some (t0 + 7))
    (Some "reached"%string) (Some "called"%string).
Definition open_task : contact_task :=
  ManualDriverContactTask 1 5 1 1 "trip:7" purpose TASK_OPEN (t0 + 6) None None None None.

Lemma c7_task : tasks c7 = [done_task].
Proof. vm_compute. reflexivity. Qed.

Lemma c6_task : tasks c6 = [open_task].
Proof. vm_compute. reflexivity. Qed.
End ContactSample.
Import ContactSample.

Lemma contact_within_consent_witness :
  exists v w, v ∈ versions c7 /\ dv_verified_at v = Some w /\ dv_driver_profile_id v = 5%N.
Proof.
  destruct (contact_within_consent settings (t0 + 7) c7 done_task (t0 + 7) c7_reachable)
    as (c & v & w & ch & _ & _ & _ & Hv & _ & Hp & Hw & _); [rewrite c7_task; left|reflexivity|].
  exists v, w. split; [exact Hv|]. split; [exact Hw|exact Hp].
Defined.

Lemma guesses_bounded_witness :
  sum_by ch_attempt_count (List.filter (issued_within t0) (profile_challenges c7 5)) = 2
  /\ sum_by ch_attempt_count (List.filter (issued_within t0) (profile_challenges c7 5)) <= 15.
Proof. split; [vm_compute; reflexivity|]. exact (proj2 (guesses_bounded settings (t0 + 7) c7 5%N t0 c7_reachable)). Defined.

Lemma listed_tasks_can_be_completed_witness :
  exists phone, (open_task, phone) ∈ task_rows c6 None false true.
Proof.
  destruct (find_by_key dv_id 1%N (versions c6)) as [phone|] eqn:Hf; [|vm_compute in Hf; discriminate].
  exists phone. refine (proj1 (proj1 (listed_tasks_can_be_completed settings (t0 + 6) c6 open_task phone (DriverProfile 5 50) 1%N
    "reached" " called " (t0 + 7) c6_reachable _ eq_refl Hf _ _ _ _) _)); [rewrite c6_task; left|..];
    [reflexivity|reflexivity|apply (bool_decide_unpack _); vm_compute; exact I|reflexivity|vm_compute; reflexivity].
Defined.

Lemma new_number_ends_tasks_witness :
  find_by_key mt_id 1%N (tasks d7) = Some open_task /\ dv_version <$> versions d7 = [1; 2].
Proof.
  split; [|vm_compute; reflexivity]. destruct (after_Ok c6 replacement) as [v Hv]; [vm_compute; reflexivity|].
  refine (proj1 (new_number_ends_tasks settings (t0 + 6) c6 50%N "+2348030000002" (t0 + 7) v d7 open_task (t0 + 7) d7
    c6_reachable _ Hv _ _ eq_refl _ (rtc_refl _ _))); [lia| |rewrite c6_task; left|].
  - assert (dv_version v = 2) as H2 by (vm_compute in Hv; injection Hv as <-; reflexivity).
    intros Hin. assert (Hall : forallb (fun u => dv_version u =? 1) (versions c6) = true) by (vm_compute; reflexivity).
    rewrite forallb_forall in Hall. apply list_elem_of_In, Hall, Z.eqb_eq in Hin. congruence.
  - vm_compute in Hv. injection Hv as <-. reflexivity.
Defined.
