(* ===== verification/Releases.v ===== *)
(** Release of earnings ([app/services/earnings_release.py], the sweep of
    [app/jobs/earnings_release.py]) and the driver's business notices
    ([create_driver_business_notification]): pending money becomes available
    under a current fraud assessment without a hold; overdue reviews are
    escalated. *)

From S2P Require Import Prelude Eligibility PayoutData DailyRate Balances Text BillingData.
From S2P Require Import Notifications DisbursementData Crypto Fraud Disbursements Corrections Contacts ContactBooks.
From stdpp Require Import base list strings gmap.
From Stdlib Require Import ZArith Lia.
#[local] Open Scope Z_scope.

Definition ledger (db : contact_store) : list ledger_entry := st_ledger db.

(** ** Notices to a driver *)

Section Notices.
Context `{Sha256}.

Definition driver_notice (clock : Z) (db : contact_store) (recipient : uuid) (type_key : notification_type)
    (payload : gmap string string) (key : string) (channel : notification_channel)
    : result (notification * contact_store) :=
  r ← create_notification [] clock (ds_billing db) recipient type_key payload (Some key) channel "v1";
  mret (r.1, set_disbursement (set_billing (fun _ => r.2)) db).

Definition create_driver_business_notification (clock : Z) (db : contact_store) (profile : uuid)
    (type_key : notification_type) (event_key : string) (payload : gmap string string)
    (manual_contact_purpose : option string) : result (notification * contact_store) :=
  recipient ← require_some (dp_user_id <$> find_profile db profile) RuntimeError;
  r ← driver_notice clock db recipient type_key payload (event_key +:+ ":in_app")%string IN_APP;
  let '(notice, db) := (r : notification * contact_store) in
  db ← (match manual_contact_purpose with
        | None => mret db
        | Some purpose => x ← create_manual_driver_contact_task [] db profile event_key purpose clock; mret x.2
        end);
  db ← (if bool_decide (type_key = ASSIGNMENT_OFFERED)
        then x ← driver_notice clock db recipient type_key payload (event_key +:+ ":transactional_email")%string
               TRANSACTIONAL_EMAIL; mret x.2
        else mret db);
  mret (notice, db).
End Notices.

(** ** Release *)

Record earnings_release_result := EarningsReleaseResult {
  er_trip_id : uuid;
  er_released_entry_ids : list uuid;
  er_assessment_current : bool;
  er_hold_active : bool
}.

(** [release_at] has come, or was never set. *)
Definition release_due (now : Z) (e : ledger_entry) : bool :=
  match le_release_at e with Some at_ => at_ <=? now | None => true end.

Definition trip_pending (trip : uuid) (e : ledger_entry) : bool :=
  bool_decide (le_trip_session_id e = Some trip) && bool_decide (le_status e = PENDING).

(** The trips of one page: distinct, after the last of the page before. *)
Definition pending_release_trips (db : contact_store) (now : Z) : list uuid :=
  sorted_ids (omap (fun e => if bool_decide (le_status e = PENDING) && release_due now e
                             then le_trip_session_id e else None) (ledger db)).

Definition find_pending_release_trip_ids (db : contact_store) (now limit : Z) (after : option uuid) : list uuid :=
  if limit <=? 0 then []
  else take (Z.to_nat limit)
         (List.filter (fun i => match after with Some a => (a <? i)%N | None => true end) (pending_release_trips db now)).

(** [entry.status = AVAILABLE] of each released entry.  The entries are pending, so
    the ledger's trigger lets the update pass. *)
Definition make_available (ids : list uuid) (l : list ledger_entry) : list ledger_entry :=
  foldl (fun l i => set_entry_status i AVAILABLE l) l ids.

Definition entry_id_leb (a b : ledger_entry) : bool := N.leb (le_id a) (le_id b).

Definition released_entries (db : contact_store) (trip : uuid) (now : Z) : list ledger_entry :=
  List.filter (release_due now) (stable_sort entry_id_leb (List.filter (trip_pending trip) (ledger db))).

Definition release_event (trip : uuid) : string := ("payout:released:v1:" +:+ uuid_str trip)%string.
Definition release_payload (trip : uuid) : gmap string string := {[ "trip_session_id"%string := uuid_str trip ]}.
Definition RELEASE_CONTACT_PURPOSE : string := "earnings_release".

Section Release.
Context `{Sha256} `{AnalyticsFingerprint}.

(** The update, its audit event and the driver's notice. *)
Definition apply_release (db : contact_store) (trip : uuid) (released : list ledger_entry) (now : Z) : result contact_store :=
  match released with
  | [] => mret db
  | first :: _ =>
      let db := set_disbursement (set_payout (with_ledger (make_available (le_id <$> released)))) db in
      let db := contact_audit None "worker.earnings.released" "trip_session" trip db in
      r ← create_driver_business_notification now db (le_driver_profile_id first) PAYOUT_RELEASED (release_event trip)
            (release_payload trip) (Some RELEASE_CONTACT_PURPOSE);
      mret r.2
  end.

(** [now] is the clock read under the trip lock. *)
Definition release_pending_earnings_for_trip (s : fraud_settings) (db : contact_store) (trip : uuid) (now : Z)
    : result (earnings_release_result * contact_store) :=
  current ← load_current_successful_assessment s db trip;
  let held := trip_held db trip in
  if negb current || held then mret (EarningsReleaseResult trip [] current held, db)
  else
    (match find_row (fun e => bool_decide (le_trip_session_id e = Some trip)) (ledger db) with
     | Some e => _ ← lock_driver_money_scope db (le_driver_profile_id e); mret tt
     | None => mret tt
     end) ;;
    let released := released_entries db trip now in
    db ← apply_release db trip released now;
    mret (EarningsReleaseResult trip (le_id <$> released) true false, db).

(** ** Escalation of overdue reviews *)

Definition DAY : Z := 86400 * second.

(** [updated_at] is [now()], the start of the transaction. *)
Definition escalated_flag (f : fraud_flag) (now transaction_at : Z) : fraud_flag :=
  {| fl_id := fl_id f; fl_trip_session_id := fl_trip_session_id f;
     fl_trip_analytics_id := fl_trip_analytics_id f; fl_campaign_id := fl_campaign_id f;
     fl_driver_profile_id := fl_driver_profile_id f; fl_flag_type := fl_flag_type f;
     fl_severity := fl_severity f; fl_status := fl_status f; fl_description := fl_description f;
     fl_evidence := fl_evidence f; fl_detected_at := fl_detected_at f;
     fl_reviewed_by_user_id := fl_reviewed_by_user_id f; fl_reviewed_at := fl_reviewed_at f;
     fl_resolution_note := fl_resolution_note f; fl_escalated_at := Some now;
     fl_updated_at := transaction_at |}.

Definition escalate_fraud_flag_if_due (db : contact_store) (flag_id : uuid) (review_sla_days now transaction_at : Z)
    : result (bool * contact_store) :=
  raise_if (review_sla_days <=? 0) ValueError ;;
  match find_by_key fl_id flag_id (flags db) with
  | None => mret (false, db)
  | Some f =>
      if negb (bool_decide (fl_status f = FLAG_OPEN)) || negb (is_none (fl_escalated_at f))
         || (now <? fl_detected_at f + review_sla_days * DAY)
      then mret (false, db)
      else
        d ← update_flag (escalated_flag f now transaction_at) (cs_disbursement db);
        mret (true, contact_audit None "worker.fraud_flag.review_escalated" "fraud_flag" flag_id (set_disbursement (fun _ => d) db))
  end.

Definition flag_due (review_sla_days now : Z) (f : fraud_flag) : bool :=
  bool_decide (fl_status f = FLAG_OPEN) && is_none (fl_escalated_at f) && (fl_detected_at f <=? now - review_sla_days * DAY).

Definition detection_order (a b : fraud_flag) : bool :=
  if fl_detected_at a =? fl_detected_at b then N.leb (fl_id a) (fl_id b) else fl_detected_at a <=? fl_detected_at b.

Definition find_due_fraud_flag_ids (db : contact_store) (review_sla_days limit now : Z) : result (list uuid) :=
  raise_if (review_sla_days <=? 0) ValueError ;;
  if limit <=? 0 then mret []
  else mret (take (Z.to_nat limit) (fl_id <$> stable_sort detection_order (List.filter (flag_due review_sla_days now) (flags db)))).

(** ** The money a flag is about *)

Record fraud_flag_money_effect := FraudFlagMoneyEffect {
  fe_available_net : kobo;
  fe_currency : option string
}.

Definition flag_money_effect (db : contact_store) (f : fraud_flag) : result fraud_flag_money_effect :=
  let entries := List.filter (fun e => bool_decide (le_trip_session_id e = Some (fl_trip_session_id f)) && is_released (le_status e))
                   (ledger db) in
  let currencies := remove_dups (le_currency <$> entries) in
  raise_if (1 <? Z.of_nat (length currencies)) RuntimeError ;;
  mret (FraudFlagMoneyEffect (sum_by (fun e => if bool_decide (le_entry_type e = REVERSAL) then - le_amount e else le_amount e) entries)
          (head currencies)).

(** ** The sweep *)

(** The loop over the pages; [view k] is what the query of page [k] sees: the
    store committed by then and the clock. *)
Fixpoint collect_pages (fuel : nat) (view : nat -> contact_store * Z) (limit : Z) (k : nat) (after : option uuid)
    : result (list uuid) :=
  match fuel with
  | O => Raise OutOfFuel
  | S fuel =>
      let page := find_pending_release_trip_ids (view k).1 (view k).2 limit after in
      if Z.of_nat (length page) <? limit then mret page
      else
        final ← require_some (last page) IndexError;
        rest ← collect_pages fuel view limit (S k) (Some final);
        mret (page ++ rest)
  end.

(** Each trip in a session of its own: a failed one is rolled back and counted.
    [clock] is the time of each call. *)
Fixpoint release_each (s : fraud_settings) (db : contact_store) (trips : list uuid) (clock : uuid -> Z)
    : contact_store * Z * Z :=
  match trips with
  | [] => (db, 0, 0)
  | trip :: rest =>
      match release_pending_earnings_for_trip s db trip (clock trip) with
      | Ok (r, db) =>
          let '(db, released, failed) := release_each s db rest clock in
          (db, released + Z.of_nat (length (er_released_entry_ids r)), failed)
      | Raise _ =>
          let '(db, released, failed) := release_each s db rest clock in (db, released, failed + 1)
      end
  end.

Fixpoint escalate_each (db : contact_store) (flag_ids : list uuid) (review_sla_days : Z) (clock : uuid -> Z * Z)
    : contact_store * Z * Z :=
  match flag_ids with
  | [] => (db, 0, 0)
  | i :: rest =>
      match escalate_fraud_flag_if_due db i review_sla_days (clock i).1 (clock i).2 with
      | Ok (changed, db) =>
          let '(db, escalated, failed) := escalate_each db rest review_sla_days clock in
          (db, escalated + (if changed : bool then 1 else 0), failed)
      | Raise _ =>
          let '(db, escalated, failed) := escalate_each db rest review_sla_days clock in (db, escalated, failed + 1)
      end
  end.

Record sweep_report := SweepReport {
  sw_release_candidates : Z;
  sw_released_entries : Z;
  sw_release_failed : Z;
  sw_escalation_candidates : Z;
  sw_escalated_flags : Z;
  sw_escalation_failed : Z
}.

(** The pages are read while [view 0], [view 1], ... is committed; the calls then
    run on [db]. *)
Definition sweep_earnings_release_reviews (s : fraud_settings) (batch_size review_sla_days : Z) (fuel : nat)
    (view : nat -> contact_store * Z) (flags_view : contact_store * Z) (db : contact_store)
    (release_clock : uuid -> Z) (escalation_clock : uuid -> Z * Z) : result (sweep_report * contact_store) :=
  trips ← collect_pages fuel view batch_size 0 None;
  flag_ids ← find_due_fraud_flag_ids flags_view.1 review_sla_days batch_size flags_view.2;
  let '(db, released, release_failed) := release_each s db trips release_clock in
  let '(db, escalated, escalation_failed) := escalate_each db flag_ids review_sla_days escalation_clock in
  mret (SweepReport (Z.of_nat (length trips)) released release_failed
          (Z.of_nat (length flag_ids)) escalated escalation_failed, db).
End Release.
