(* ===== verification/ReleaseLife.v ===== *)
(** What the release of earnings does: exactly the due money of a clear trip
    becomes available; the sweep visits every trip with due money once, and
    releases all that may be.  A proof file over Releases. *)

From S2P Require Import Prelude Eligibility PayoutData DailyRate Balances Text Json BillingData.
From S2P Require Import Notifications DisbursementData Crypto Fraud Disbursements Corrections Contacts ContactBooks Releases.
From stdpp Require Import base list strings gmap sorting.
From Stdlib Require Import ZArith Lia Sorting.Sorted.
#[local] Open Scope Z_scope.

(** ** The update of the ledger *)

Definition available (e : ledger_entry) : ledger_entry :=
  EarningsLedgerEntry (le_id e) (le_payout_calculation_id e) (le_driver_profile_id e)
    (le_driver_user_id e) (le_campaign_id e) (le_trip_session_id e) (le_vehicle_id e)
    (le_entry_type e) AVAILABLE (le_amount e) (le_currency e) (le_description e)
    (le_occurred_at e) (le_release_at e) (le_metadata e).

Definition available_if (p : ledger_entry -> bool) (l : list ledger_entry) : list ledger_entry :=
  (fun e => if p e then available e else e) <$> l.

Lemma make_available_ids ids l : make_available ids l = available_if (fun e => bool_decide (le_id e ∈ ids)) l.
Proof.
  unfold make_available, available_if. revert l. induction ids as [|i ids IH]; intros l; cbn [foldl].
  - rewrite <- (list_fmap_id l) at 1. apply list_fmap_ext. intros _ e _. by rewrite bool_decide_eq_false_2 by apply not_elem_of_nil.
  - rewrite IH. unfold set_entry_status. rewrite <- list_fmap_compose. apply list_fmap_ext. intros _ e _. cbn.
    destruct (bool_decide_reflect (le_id e = i)) as [Hi|Hi].
    + rewrite (bool_decide_eq_true_2 (le_id e ∈ i :: ids)) by (rewrite Hi; left). by destruct (bool_decide _).
    + destruct (bool_decide_reflect (le_id e ∈ ids)) as [Hin|Hin].
      * by rewrite (bool_decide_eq_true_2 (le_id e ∈ i :: ids)) by (by right).
      * by rewrite (bool_decide_eq_false_2 (le_id e ∈ i :: ids)) by (intros [?|?]%elem_of_cons; done).
Qed.

Lemma elem_of_released db trip now e :
  e ∈ released_entries db trip now <-> e ∈ ledger db /\ trip_pending trip e = true /\ release_due now e = true.
Proof. unfold released_entries. rewrite elem_of_filter_b, stable_sort_perm, elem_of_filter_b. tauto. Qed.

Lemma available_if_ext p q l : (forall e, e ∈ l -> p e = q e) -> available_if p l = available_if q l.
Proof. intros Hpq. apply list_fmap_ext. intros _ e He%list_elem_of_lookup_2. by rewrite Hpq. Qed.

(** Entries are released by identifier, which no two rows share. *)
Lemma make_available_released db trip now : NoDup (le_id <$> ledger db) ->
  make_available (le_id <$> released_entries db trip now) (ledger db)
  = available_if (fun e => trip_pending trip e && release_due now e) (ledger db).
Proof.
  intros Hnd. rewrite make_available_ids. apply available_if_ext. intros e He.
  destruct (bool_decide_reflect (le_id e ∈ le_id <$> released_entries db trip now)) as [Hin|Hin].
  - apply list_elem_of_fmap in Hin as (r & Hid & Hr). apply elem_of_released in Hr as (Hrl & Hp & Hd).
    assert (r = e) as -> by (apply (nodup_key_inj le_id (ledger db)); congruence). by rewrite Hp, Hd.
  - destruct (trip_pending trip e && release_due now e) eqn:Hb; [|done]. exfalso. apply Hin, list_elem_of_fmap_2, elem_of_released.
    apply andb_true_iff in Hb as [Hp Hd]. done.
Qed.

Lemma available_if_ids p l : le_id <$> available_if p l = le_id <$> l.
Proof. unfold available_if. rewrite <- list_fmap_compose. apply list_fmap_ext. intros _ e _. cbn. by destruct (p e). Qed.

(** ** What a release leaves alone *)

Section Release.
Context `{Sha256} `{AnalyticsFingerprint} (s : fraud_settings).

(** Only statuses of the ledger, the audit trail, notices and contact tasks. *)
Record release_frame (db db' : contact_store) : Prop := {
  rf_payout : exists l a, ds_payout db' = PayoutData.with_audit (fun _ => a) (with_ledger (fun _ => l) (ds_payout db));
  rf_billing : notified (ds_billing db) (ds_billing db');
  rf_fraud : ds_fraud db' = ds_fraud db;
  rf_batches : ds_batches db' = ds_batches db
}.

#[export] Instance release_frame_preorder : PreOrder release_frame.
Proof.
  split.
  - intros db. split; [|apply notified_refl|done|done]. exists (st_ledger db), (st_audit db). by destruct (ds_payout db).
  - intros d1 d2 d3 [(l1 & a1 & Hp1) Hb1 Hf1 Hba1] [(l2 & a2 & Hp2) Hb2 Hf2 Hba2]. split; [|by eapply notified_trans|congruence..].
    exists l2, a2. by rewrite Hp2, Hp1.
Qed.

Lemma frame_facts db db' : release_frame db db' ->
  st_profiles db' = st_profiles db /\ st_analytics db' = st_analytics db /\ ds_fraud db' = ds_fraud db.
Proof. intros [(l & a & Hp) _ Hf _]. by rewrite Hp. Qed.

Lemma frame_assessment db db' trip : release_frame db db' ->
  load_current_successful_assessment s db' trip = load_current_successful_assessment s db trip
  /\ trip_held db' trip = trip_held db trip.
Proof.
  intros Hfr. destruct (frame_facts _ _ Hfr) as (_ & Ha & Hf).
  unfold load_current_successful_assessment, load_current_detection_flags, trip_assessment, trip_held, flags.
  by rewrite Ha, Hf.
Qed.

Lemma frame_ledger db db' : release_frame db db' -> ledger db' = ledger db ->
  exists a, ds_payout db' = PayoutData.with_audit (fun _ => a) (ds_payout db).
Proof.
  intros [(l & a & Hp) _ _ _] Hl. exists a. rewrite Hp. unfold ledger in Hl. rewrite Hp in Hl. cbn in Hl. subst l.
  by destruct (ds_payout db).
Qed.

(** The notice a release gives, under its key. *)
Definition release_notice_fingerprint (recipient : uuid) (trip : uuid) : string :=
  notification_dedupe_fingerprint recipient PAYOUT_RELEASED "v1" IN_APP (release_payload trip).
Definition release_key (trip : uuid) : string := (release_event trip +:+ ":in_app")%string.

Definition find_release_notice (db : contact_store) (recipient trip : uuid) : option notification :=
  find_notification recipient IN_APP (release_key trip) (bs_notifications (ds_billing db)).

Lemma uuid_str_length i : String.length (uuid_str i) = 36%nat.
Proof. unfold uuid_str. rewrite !string_append_length, !hex_digits_length. done. Qed.

Lemma release_key_payload t1 t2 : release_key t1 = release_key t2 -> release_payload t1 = release_payload t2.
Proof.
  unfold release_key, release_event, release_payload. intros Heq.
  apply append_split in Heq as [Heq _]; [|by rewrite !string_append_length, !uuid_str_length].
  by apply append_split in Heq as [_ ->].
Qed.

Lemma driver_notice_spec clock db recipient t payload k channel n db' :
  driver_notice clock db recipient t payload k channel = Ok (n, db') ->
  exists b, create_notification [] clock (ds_billing db) recipient t payload (Some k) channel "v1" = Ok (n, b)
  /\ db' = set_disbursement (set_billing (fun _ => b)) db.
Proof.
  unfold driver_notice. intros Hrun. ok_step Hrun as [m b] Hc. apply Ok_inj in Hrun. injection Hrun as <- <-. by exists b.
Qed.

(** What a release writes besides the ledger. *)
Lemma release_notification_spec clock db profile trip r :
  create_driver_business_notification clock db profile PAYOUT_RELEASED (release_event trip) (release_payload trip)
    (Some RELEASE_CONTACT_PURPOSE) = Ok r ->
  exists p b o, find_profile db profile = Some p
  /\ create_notification [] clock (ds_billing db) (dp_user_id p) PAYOUT_RELEASED (release_payload trip)
       (Some (release_key trip)) IN_APP "v1" = Ok (r.1, b)
  /\ create_manual_driver_contact_task [] (set_disbursement (set_billing (fun _ => b)) db) profile (release_event trip)
       RELEASE_CONTACT_PURPOSE clock = Ok (o, r.2).
Proof.
  unfold create_driver_business_notification. intros Hrun. ok_step Hrun as i Hi. apply require_some_Ok in Hi.
  destruct (find_profile db profile) as [p|] eqn:Hp; [|done]. injection Hi as <-.
  ok_step Hrun as [n d1] Hn. apply driver_notice_spec in Hn as (b & Hc & ->).
  ok_step Hrun as d2 H2. ok_step H2 as [o d3] H3. apply Ok_inj in H2 as <-. rewrite bool_decide_eq_false_2 in Hrun by done.
  ok_step Hrun as d4 H4. apply Ok_inj in H4 as <-. apply Ok_inj in Hrun as <-. by exists p, b, o.
Qed.

Lemma create_task_frame db profile key purpose now o db' :
  create_manual_driver_contact_task [] db profile key purpose now = Ok (o, db') ->
  exists a, ds_payout db' = PayoutData.with_audit (fun _ => a) (ds_payout db) /\ ds_billing db' = ds_billing db
  /\ ds_fraud db' = ds_fraud db /\ ds_batches db' = ds_batches db.
Proof.
  unfold create_manual_driver_contact_task. intros Hrun.
  assert (Hrefl : exists a, ds_payout db = PayoutData.with_audit (fun _ => a) (ds_payout db))
    by (exists (st_audit db); by destruct (ds_payout db)). destruct Hrefl as [a0 Hrefl].
  destruct (_manual_contact_authority _ _ _) as [[phone c]|]; [|apply Ok_inj in Hrun; injection Hrun as <- <-; eauto].
  destruct (find_task db profile key) as [e|]; [apply Ok_inj in Hrun; injection Hrun as <- <-; eauto|].
  destruct (flush_task _ _) as [d|exc] eqn:Hf.
  - unfold flush_task in Hf. ok_step Hf. ok_step Hf. apply Ok_inj in Hf as <-. apply Ok_inj in Hrun. injection Hrun as <- <-.
    eexists _. by split_and!.
  - destruct (find_task _ profile key); [|done]. apply Ok_inj in Hrun. injection Hrun as <- <-. eauto.
Qed.

Lemma apply_release_spec db trip released now db' : apply_release db trip released now = Ok db' ->
  release_frame db db'
  /\ ledger db' = (match released with [] => ledger db | _ => make_available (le_id <$> released) (ledger db) end).
Proof.
  destruct released as [|first rest]; cbn [apply_release]; intros Hrun; [by apply Ok_inj in Hrun as <-|].
  ok_step Hrun as [n d] Hr. apply Ok_inj in Hrun as <-.
  apply release_notification_spec in Hr as (p & b & o & Hp & Hn & Ht). cbn [fst snd] in *.
  apply create_task_frame in Ht as (a & Hpay & Hbill & Hfraud & Hbatch).
  apply create_notification_spec in Hn as (Hnot & _ & _). split.
  - split; [|by rewrite Hbill|by rewrite Hfraud|by rewrite Hbatch].
    rewrite Hpay. by eexists _, _.
  - unfold ledger. by rewrite Hpay.
Qed.

Lemma release_run db trip now r db' : release_pending_earnings_for_trip s db trip now = Ok (r, db') ->
  exists current, load_current_successful_assessment s db trip = Ok current
  /\ let clear := current && negb (trip_held db trip) in
     er_trip_id r = trip /\ er_released_entry_ids r = (if clear then le_id <$> released_entries db trip now else [])
     /\ release_frame db db'
     /\ ledger db' = (if clear then make_available (le_id <$> released_entries db trip now) (ledger db) else ledger db).
Proof.
  unfold release_pending_earnings_for_trip. intros Hrun. ok_step Hrun as current Hc. exists current. split; [done|]. cbv zeta.
  destruct current, (trip_held db trip); cbn [negb orb andb] in *;
    try (apply Ok_inj in Hrun; injection Hrun as <- <-; by split_and!).
  ok_step Hrun. ok_step Hrun as d Hd. apply Ok_inj in Hrun. injection Hrun as <- <-.
  apply apply_release_spec in Hd as [Hf Hl]. split_and!; try done. rewrite Hl.
  by destruct (released_entries db trip now).
Qed.

(** C10: Only clear money is released, and all of it that is due.  A release turns
    the trip's due pending entries available exactly when the trip's fraud
    assessment is current and no hold is active; it reports those entries,
    changes no other entry and no other column, and leaves calculations, payment
    lines, recovery offsets, batches and fraud records as they were. *)
Theorem release_is_exact db trip now r db' : NoDup (le_id <$> ledger db) ->
  release_pending_earnings_for_trip s db trip now = Ok (r, db') ->
  exists current, load_current_successful_assessment s db trip = Ok current
  /\ let clear := current && negb (trip_held db trip) in
     ledger db' = available_if (fun e => clear && trip_pending trip e && release_due now e) (ledger db)
     /\ (forall e, e ∈ ledger db -> le_id e ∈ er_released_entry_ids r <-> clear && trip_pending trip e && release_due now e = true)
     /\ (exists a, ds_payout db' = PayoutData.with_audit (fun _ => a) (with_ledger (fun _ => ledger db') (ds_payout db)))
     /\ ds_batches db' = ds_batches db /\ ds_fraud db' = ds_fraud db.
Proof.
  intros Hnd Hrun. apply release_run in Hrun as (current & Hc & Hclear). exists current. split; [done|]. cbv zeta in *.
  destruct Hclear as (_ & Hids & Hf & Hl).
  assert (Hrest : ds_batches db' = ds_batches db /\ ds_fraud db' = ds_fraud db) by (split; apply Hf).
  destruct (current && negb (trip_held db trip)) eqn:Hcl; cbn [andb].
  - rewrite make_available_released in Hl by done. split; [done|]. split; [|split; [|done]].
    + intros e He. rewrite Hids. split.
      * intros (y & Hid & Hy)%list_elem_of_fmap. apply elem_of_released in Hy as (Hy & Hp & Hd).
        assert (y = e) as -> by (apply (nodup_key_inj le_id (ledger db)); congruence). by rewrite Hp, Hd.
      * intros [Hp Hd]%andb_true_iff. by apply list_elem_of_fmap_2, elem_of_released.
    + destruct Hf as [(l & a & Hp) _ _ _]. exists a. rewrite Hp. unfold ledger. rewrite Hp. done.
  - split; [rewrite Hl; symmetry; apply list_fmap_id|]. split; [|split; [|done]].
    + intros e _. rewrite Hids. split; [by intros ?%not_elem_of_nil|done].
    + destruct (frame_ledger _ _ Hf Hl) as [a Hp]. exists a. rewrite Hp, Hl. unfold ledger. by destruct (ds_payout db).
Qed.
End Release.

(** ** The pages of the sweep *)

Definition above (a : option uuid) (i : uuid) : bool := match a with Some a => (a <? i)%N | None => true end.

Lemma sorted_ids_sorted l : StronglySorted N.lt (sorted_ids l).
Proof.
  pose proof (sorted_ids_nodup l) as Hnd. unfold sorted_ids in *.
  assert (Hs : StronglySorted (fun a b => N.leb a b = true) (stable_sort N.leb (remove_dups l))).
  { apply stable_sort_sorted; [intros x y z; rewrite !N.leb_le; lia|intros x y; rewrite N.leb_gt, N.leb_le; lia]. }
  revert Hnd. induction Hs as [|x r Hr IH Hx]; intros Hnd; [constructor|]. apply NoDup_cons in Hnd as [Hni Hnd].
  constructor; [by apply IH|]. rewrite Forall_forall in *. intros y Hy. specialize (Hx y Hy). apply N.leb_le in Hx.
  assert (x <> y) by (by intros ->). lia.
Qed.

Lemma sorted_filter {A} (R : A -> A -> Prop) (p : A -> bool) l : StronglySorted R l -> StronglySorted R (List.filter p l).
Proof.
  induction 1 as [|x l Hl IH Hx]; cbn; [constructor|]. destruct (p x); [|done]. constructor; [done|].
  rewrite Forall_forall in *. intros y [Hy _]%elem_of_filter_b. by apply Hx.
Qed.

Lemma sorted_take_drop {A} (R : A -> A -> Prop) n l : StronglySorted R l ->
  StronglySorted R (take n l) /\ forall x y, x ∈ take n l -> y ∈ drop n l -> R x y.
Proof.
  intros Hs. revert n. induction Hs as [|x l Hl IH Hx]; intros [|n]; cbn.
  1-3: split; [constructor|intros a b Ha; by apply not_elem_of_nil in Ha].
  destruct (IH n) as [Ht Hd]. rewrite Forall_forall in Hx. split.
  - constructor; [done|]. rewrite Forall_forall. intros y Hy. apply Hx. by eapply subseteq_take.
  - intros a b [->|Ha]%elem_of_cons Hb; [|by apply Hd]. apply Hx. by eapply subseteq_drop.
Qed.

Lemma filter_length_lt {A} (p q : A -> bool) l x :
  (forall y, p y = true -> q y = true) -> x ∈ l -> q x = true -> p x = false ->
  (length (List.filter p l) < length (List.filter q l))%nat.
Proof.
  intros Hpq. induction l as [|y l IH]; [by intros ?%not_elem_of_nil|]. intros Hx Hqx Hpx.
  assert (length (List.filter p l) <= length (List.filter q l))%nat by (apply filter_length_mono; auto).
  apply elem_of_cons in Hx as [->|Hx]; cbn.
  - rewrite Hqx, Hpx. cbn. lia.
  - specialize (IH Hx Hqx Hpx). destruct (p y) eqn:Hp; [rewrite (Hpq y Hp); cbn; lia|]. destruct (q y); cbn; lia.
Qed.

Section Pages.
Context (view : nat -> contact_store * Z) (limit : Z) (Hlimit : 0 < limit) (ids : list uuid).
#[local] Abbreviation pending k := (pending_release_trips (view k).1 (view k).2).
#[local] Abbreviation page k a := (find_pending_release_trip_ids (view k).1 (view k).2 limit a).
Context (Hids : forall k i, i ∈ pending k -> i ∈ ids).

Lemma page_spec k a :
  StronglySorted N.lt (page k a) /\ (forall i, i ∈ page k a -> i ∈ pending k /\ above a i = true)
  /\ (forall i, i ∈ pending k -> above a i = true ->
        i ∈ page k a \/ limit <= Z.of_nat (length (page k a)) /\ forall x, x ∈ page k a -> (x < i)%N).
Proof.
  unfold find_pending_release_trip_ids. rewrite (proj2 (Z.leb_gt limit 0)) by lia. set (n := Z.to_nat limit).
  change (fun i => match a with Some a0 => (a0 <? i)%N | None => true end) with (above a).
  set (l := List.filter (above a) (pending k)).
  assert (Hs : StronglySorted N.lt l) by (apply sorted_filter, sorted_ids_sorted).
  destruct (sorted_take_drop N.lt n l Hs) as [Ht Hd]. split; [done|]. split.
  - intros i Hi. assert (i ∈ l) as Hl by (by eapply subseteq_take). by apply elem_of_filter_b in Hl.
  - intros i Hi Ha. assert (i ∈ l) as Hl by (by apply elem_of_filter_b). rewrite <- (take_drop n l) in Hl.
    apply elem_of_app in Hl as [Hl|Hl]; [by left|]. right. split; [|intros x Hx; by apply Hd].
    rewrite length_take. assert (n < length l)%nat; [|lia].
    destruct (Nat.lt_ge_cases n (length l)) as [|Hge]; [done|]. rewrite drop_ge in Hl by done. by apply not_elem_of_nil in Hl.
Qed.

(** Every page but the last moves the cursor past a trip, so the loop ends; it
    finds the trips that stay due once each, in order. *)
Lemma collect_spec fuel k a : (length (List.filter (above a) ids) < fuel)%nat ->
  exists l, collect_pages fuel view limit k a = Ok l /\ StronglySorted N.lt l /\ (forall i, i ∈ l -> above a i = true)
  /\ (forall i, i ∈ l -> exists j, i ∈ pending j)
  /\ (forall i, above a i = true -> (forall j, i ∈ pending j) -> i ∈ l).
Proof.
  revert k a. induction fuel as [|fuel IH]; intros k a Hfuel; [lia|]. cbn [collect_pages].
  destruct (page_spec k a) as (Hs & Hin & Hall). destruct (Z.ltb_spec (Z.of_nat (length (page k a))) limit) as [Hlt|Hge].
  - exists (page k a). split_and!; [done|done|intros i Hi; by apply Hin|intros i Hi; exists k; by apply Hin|].
    intros i Ha Hi. destruct (Hall i (Hi k) Ha) as [|[? _]]; [done|lia].
  - destruct (last (page k a)) as [f|] eqn:Hf.
    2: { apply last_None in Hf. rewrite Hf in Hge. cbn in Hge. lia. }
    pose proof Hf as Hfin. apply last_Some_elem_of in Hfin. destruct (Hin f Hfin) as [Hfp Hfa].
    assert (Hmax : forall x, x ∈ page k a -> (x <= f)%N).
    { apply last_Some in Hf as [l Hl]. intros x Hx. rewrite Hl in Hx, Hs.
      apply elem_of_app in Hx as [Hx| ->%list_elem_of_singleton]; [|lia].
      apply N.lt_le_incl. eapply (StronglySorted_app_1_elem_of N.lt l [f]); [exact Hs|exact Hx|left]. }
    assert (Hab : forall x, above (Some f) x = true -> above a x = true).
    { cbn. intros x Hx%N.ltb_lt. destruct a as [a'|]; cbn in *; [|done]. apply N.ltb_lt in Hfa. apply N.ltb_lt. lia. }
    destruct (IH (S k) (Some f)) as (l & Hl & Hsl & Hal & Hpl & Hcl).
    { assert (length (List.filter (above (Some f)) ids) < length (List.filter (above a) ids))%nat; [|lia].
      apply (filter_length_lt _ _ _ f); [done|by eapply Hids|done|]. apply N.ltb_irrefl. }
    exists (page k a ++ l). cbn [require_some mbind result_bind]. rewrite Hl. split; [done|]. split_and!.
    + apply StronglySorted_app_2; try done. intros x y Hx Hy. specialize (Hmax x Hx). specialize (Hal y Hy). cbn in Hal.
      apply N.ltb_lt in Hal. lia.
    + intros i [Hi|Hi]%elem_of_app; [by apply Hin|by apply Hab, Hal].
    + intros i [Hi|Hi]%elem_of_app; [exists k; by apply Hin|by apply Hpl].
    + intros i Ha Hi. apply elem_of_app. destruct (Hall i (Hi k) Ha) as [|[_ Hbig]]; [by left|]. right.
      apply Hcl; [|done]. apply N.ltb_lt, Hbig, Hfin.
Qed.
End Pages.

(** ** The calls of the sweep *)

Lemma find_row_conflict {A K} `{EqDecision K} (k : A -> option K) (p : A -> bool) row l :
  (forall y, y ∈ l -> k y = k row -> k row <> None -> p y = true) -> find_row p l = None -> conflicts k row l = false.
Proof.
  intros Hp Hnone. apply conflicts_fresh. intros v y Hv Hy Hky.
  eapply find_row_None in Hnone; [|exact Hy]. rewrite Hp in Hnone; [done|done|congruence|congruence].
Qed.

Lemma rstrip_head c t : is_space c = false -> exists r, rstrip (String c t) = String c r.
Proof. intros Hc. cbn. destruct (rstrip t) as [|d r]; [rewrite Hc; by exists EmptyString|by exists (String d r)]. Qed.

Lemma nonblank_head c t : is_space c = false -> nonblank (String c t) = true.
Proof. intros Hc. unfold nonblank, strip. destruct (rstrip_head c t Hc) as [r ->]. cbn. by rewrite Hc. Qed.

Lemma create_task_succeeds db profile key purpose now : nonblank key = true -> nonblank purpose = true ->
  exists r, create_manual_driver_contact_task [] db profile key purpose now = Ok r.
Proof.
  intros Hkey Hpurpose. unfold create_manual_driver_contact_task.
  destruct (_manual_contact_authority _ _ _) as [[phone c]|]; [|by eexists].
  destruct (find_task db profile key) as [e|] eqn:He; [by eexists|].
  assert (Hdb : set_tasks (fun l => l ++ []) db = db)
    by (destruct db as [d [? ? ? ? ks]]; unfold set_tasks, set_contacts; cbn; by rewrite app_nil_r).
  rewrite Hdb. set (k := ManualDriverContactTask _ _ _ _ _ _ _ _ _ _ _ _). unfold flush_task.
  assert (task_row_ok k = true) as -> by (unfold task_row_ok; cbn; by rewrite Hkey, Hpurpose).
  cbn [negb raise_if mbind result_bind]. assert (conflicts task_key k (tasks db) = false) as ->; [|by eexists]. eapply find_row_conflict; [|exact He].
  intros y Hy [= Hp Hek] _. cbn. by rewrite !bool_decide_eq_true_2.
Qed.

Section Sweep.
Context `{Sha256} `{AnalyticsFingerprint} (s : fraud_settings).

Lemma create_notification_cases clock db recipient t payload k channel v n db' :
  create_notification [] clock db recipient t payload (Some k) channel v = Ok (n, db') ->
  bs_notifications db' = bs_notifications db
  \/ bs_notifications db' = bs_notifications db ++ [n]
     /\ no_recipient_user_id n = recipient /\ no_dedupe_key n = Some k
     /\ no_dedupe_fingerprint n = notification_dedupe_fingerprint recipient t v channel payload.
Proof.
  unfold create_notification, accept_existing. cbn [mbind option_bind].
  destruct (find_notification recipient channel k (bs_notifications db)) as [e|] eqn:He.
  - destruct (bool_decide _); [|done]. cbn. intros [= <- <-]. by left.
  - rewrite with_no_notifications. unfold flush_notification.
    set (notice := new_notification _ _ _ _ _ _ _ _).
    destruct (conflicts _ _ _); cbn [raise_if mbind result_bind]; [by rewrite He|].
    intros Hrun. apply Ok_inj in Hrun. injection Hrun as <- <-. right. split; [by destruct channel|done].
Qed.

Lemma create_notification_succeeds clock db recipient t payload k channel v :
  (forall n, find_notification recipient channel k (bs_notifications db) = Some n ->
     no_dedupe_fingerprint n = notification_dedupe_fingerprint recipient t v channel payload) ->
  exists r, create_notification [] clock db recipient t payload (Some k) channel v = Ok r.
Proof.
  intros Hold. unfold create_notification, accept_existing. cbn [mbind option_bind].
  destruct (find_notification recipient channel k (bs_notifications db)) as [e|] eqn:He.
  - rewrite bool_decide_eq_true_2 by auto. by eexists.
  - rewrite with_no_notifications. unfold flush_notification. set (notice := new_notification _ _ _ _ _ _ _ _).
    assert (conflicts notification_dedupe notice (bs_notifications db) = false) as ->; [|by eexists].
    eapply find_row_conflict; [|exact He].
    intros y Hy Hk _. unfold notification_dedupe in Hk. cbn in Hk. destruct (no_dedupe_key y) as [ky|] eqn:Hky; [|done].
    injection Hk as Hr Hch ->. cbn. by rewrite Hr, Hch, Hky, !bool_decide_eq_true_2.
Qed.

(** What a release needs besides a clear trip: the profile of its driver, whose
    earlier notice under the release's key, if any, is one of a release. *)
Definition notifiable (db : contact_store) (trip : uuid) : Prop :=
  forall e, e ∈ ledger db -> le_trip_session_id e = Some trip ->
  exists p, find_profile db (le_driver_profile_id e) = Some p
  /\ forall n, find_release_notice db (dp_user_id p) trip = Some n ->
       no_dedupe_fingerprint n = release_notice_fingerprint (dp_user_id p) trip.

Definition clear_trip (db : contact_store) (trip : uuid) : Prop :=
  load_current_successful_assessment s db trip = Ok true /\ trip_held db trip = false.

Lemma release_succeeds db trip now : clear_trip db trip -> notifiable db trip ->
  exists r, release_pending_earnings_for_trip s db trip now = Ok r.
Proof.
  intros [Hc Hh] Hn. unfold release_pending_earnings_for_trip. rewrite Hc, Hh. cbn [mbind result_bind negb orb].
  assert (Hlock : (match find_row (fun e => bool_decide (le_trip_session_id e = Some trip)) (ledger db) with
     | Some e => _ ← lock_driver_money_scope db (le_driver_profile_id e); mret tt | None => mret tt end) = Ok tt).
  { destruct (find_row _ _) as [e|] eqn:He; [|done]. apply find_row_Some in He as [He Ht%bool_decide_eq_true].
    destruct (Hn e He Ht) as (p & Hp & _). unfold lock_driver_money_scope. change (find_row _ _) with (find_profile db (le_driver_profile_id e)).
    by rewrite Hp. }
  rewrite Hlock. cbn [mbind result_bind]. destruct (released_entries db trip now) as [|e rest] eqn:Hr; [by eexists|].
  assert (He : e ∈ released_entries db trip now) by (rewrite Hr; left). apply elem_of_released in He as (He & Hp & _).
  apply andb_true_iff in Hp as [Ht%bool_decide_eq_true _]. destruct (Hn e He Ht) as (p & Hp & Hold).
  cbn [apply_release]. set (db1 := contact_audit _ _ _ _ _).
  unfold create_driver_business_notification. change (find_profile db1 (le_driver_profile_id e)) with (find_profile db (le_driver_profile_id e)).
  rewrite Hp. cbn [fmap option_fmap option_map require_some mbind result_bind]. unfold driver_notice.
  destruct (create_notification_succeeds now (ds_billing db1) (dp_user_id p) PAYOUT_RELEASED (release_payload trip)
    (release_key trip) IN_APP "v1") as [[n b] Hnot]; [exact Hold|].
  change (release_event trip +:+ ":in_app")%string with (release_key trip). rewrite Hnot. cbn [mbind result_bind fst snd].
  set (db2 := set_disbursement _ db1).
  destruct (create_task_succeeds db2 (le_driver_profile_id e) (release_event trip) RELEASE_CONTACT_PURPOSE now)
    as [[o d] Ht2]; [by apply nonblank_head|done|].
  cbn [mret result_ret mbind result_bind]. rewrite Ht2. cbn [mret result_ret mbind result_bind snd fst].
  rewrite bool_decide_eq_false_2 by done. by eexists.
Qed.

(** A release leaves the other trips as ready as they were. *)
Lemma release_notices db trip now r db' recipient t n : release_pending_earnings_for_trip s db trip now = Ok (r, db') ->
  find_release_notice db' recipient t = Some n ->
  find_release_notice db recipient t = Some n \/ no_dedupe_fingerprint n = release_notice_fingerprint recipient t.
Proof.
  unfold release_pending_earnings_for_trip. intros Hrun Hn. ok_step Hrun as current Hc.
  destruct (negb current || trip_held db trip); [apply Ok_inj in Hrun; injection Hrun as <- <-; by left|].
  ok_step Hrun. ok_step Hrun as d Hd. apply Ok_inj in Hrun. injection Hrun as <- <-.
  destruct (released_entries db trip now) as [|e rest]; [apply Ok_inj in Hd as <-; by left|]. cbn [apply_release] in Hd.
  ok_step Hd as [m d'] Hr. apply Ok_inj in Hd as <-. apply release_notification_spec in Hr as (p & b & o & _ & Hnot & Ht).
  cbn [fst snd] in *. apply create_task_frame in Ht as (a & _ & Hbill & _). unfold find_release_notice in *.
  rewrite Hbill in Hn. apply create_notification_cases in Hnot as [Heq|(Heq & Hrec & Hkey & Hfp)];
    change (bs_notifications (ds_billing (set_disbursement _ _))) with (bs_notifications b) in Hn; rewrite Heq in Hn; [by left|].
  rewrite find_notification_app in Hn. change (ds_billing (contact_audit _ _ _ _ _)) with (ds_billing db) in *.
  destruct (find_notification recipient IN_APP (release_key t) (bs_notifications (ds_billing db))); [by left|]. right.
  apply find_row_Some in Hn as [->%list_elem_of_singleton Hp].
  apply andb_true_iff in Hp as [[Hr%bool_decide_eq_true _]%andb_true_iff Hk%bool_decide_eq_true].
  assert (release_key trip = release_key t) as Heqk by congruence. unfold release_notice_fingerprint.
  rewrite Hfp, <- (release_key_payload trip t Heqk). congruence.
Qed.

Lemma notifiable_after db trip now r db' t : NoDup (le_id <$> ledger db) ->
  release_pending_earnings_for_trip s db trip now = Ok (r, db') -> notifiable db t -> notifiable db' t.
Proof.
  intros Hnd Hrun Hn e' He' Ht. pose proof Hrun as Hrun'. apply release_run in Hrun as (current & _ & _ & _ & Hf & Hl).
  assert (exists e, e ∈ ledger db /\ le_trip_session_id e = le_trip_session_id e' /\ le_driver_profile_id e = le_driver_profile_id e')
    as (e & He & Hte & Hde).
  { rewrite Hl in He'. destruct (current && _); [|by exists e']. rewrite make_available_released in He' by done.
    apply list_elem_of_fmap in He' as (e & -> & He). exists e. by destruct (_ && _). }
  destruct (Hn e He) as (p & Hp & Hold); [congruence|]. exists p. destruct (frame_facts _ _ Hf) as (Hprof & _).
  unfold find_profile in *. rewrite Hprof, <- Hde. split; [done|]. intros n Hfn.
  by destruct (release_notices _ _ _ _ _ _ _ _ Hrun' Hfn) as [Hfn'|]; [apply Hold|].
Qed.

Lemma clear_after db trip now r db' t :
  release_pending_earnings_for_trip s db trip now = Ok (r, db') -> clear_trip db t -> clear_trip db' t.
Proof.
  intros Hrun [Hc Hh]. apply release_run in Hrun as (current & _ & _ & _ & Hf & _).
  destruct (frame_assessment s _ _ t Hf) as [Hc' Hh']. split; congruence.
Qed.

Lemma release_ids db trip now r db' : release_pending_earnings_for_trip s db trip now = Ok (r, db') ->
  le_id <$> ledger db' = le_id <$> ledger db.
Proof.
  intros Hrun. apply release_run in Hrun as (current & _ & _ & _ & _ & ->). destruct (_ && _); [|done].
  by rewrite make_available_ids, available_if_ids.
Qed.

(** Money that is not pending for the trip is left alone. *)
Lemma release_keeps db trip now r db' e : NoDup (le_id <$> ledger db) ->
  release_pending_earnings_for_trip s db trip now = Ok (r, db') -> e ∈ ledger db -> trip_pending trip e = false -> e ∈ ledger db'.
Proof.
  intros Hnd Hrun He Hp. apply release_run in Hrun as (current & _ & _ & _ & _ & ->). destruct (_ && _); [|done].
  rewrite make_available_released by done. apply list_elem_of_fmap. exists e. by rewrite Hp.
Qed.

(** Entries that are not pending, wherever they are, stay through the loop. *)
Lemma release_each_keeps db trips clock e : NoDup (le_id <$> ledger db) -> e ∈ ledger db -> le_status e <> PENDING ->
  e ∈ ledger (release_each s db trips clock).1.1.
Proof.
  intros Hnd He Hst. revert db Hnd He. induction trips as [|t trips IH]; intros db Hnd He; [done|]. cbn [release_each].
  destruct (release_pending_earnings_for_trip s db t (clock t)) as [[r db1]|exc] eqn:Hrun.
  - specialize (IH db1). destruct (release_each s db1 trips clock) as [[d n] m]. apply IH; cbn.
    + by rewrite (release_ids _ _ _ _ _ Hrun).
    + eapply release_keeps; [done|exact Hrun|done|]. unfold trip_pending. by rewrite (bool_decide_eq_false_2 _ Hst), andb_false_r.
  - specialize (IH db Hnd He). by destruct (release_each s db trips clock) as [[d n] m].
Qed.

(** A failed trip does not hold the others up: each clear one is released. *)
Lemma release_each_spec trips clock trip e : trip ∈ trips -> forall db, NoDup (le_id <$> ledger db) ->
  e ∈ ledger db -> trip_pending trip e = true -> release_due (clock trip) e = true ->
  clear_trip db trip -> notifiable db trip -> available e ∈ ledger (release_each s db trips clock).1.1.
Proof.
  intros Hin. induction trips as [|t trips IH]; [by apply not_elem_of_nil in Hin|]. intros db Hnd He Hp Hd Hc Hn.
  cbn [release_each]. destruct (decide (t = trip)) as [->|Hne].
  - destruct (release_succeeds db trip (clock trip) Hc Hn) as [[r db1] Hrun]. rewrite Hrun.
    pose proof (release_ids _ _ _ _ _ Hrun) as Hids. apply release_run in Hrun as (current & Hcur & _ & _ & _ & Hl).
    destruct Hc as [Hc Hh]. rewrite Hc in Hcur. injection Hcur as <-. rewrite Hh in Hl. cbn [andb negb] in Hl.
    rewrite make_available_released in Hl by done.
    pose proof (release_each_keeps db1 trips clock (available e)) as Hkeep.
    destruct (release_each s db1 trips clock) as [[d n] m]. apply Hkeep; [by rewrite Hids| |done].
    rewrite Hl. apply list_elem_of_fmap. exists e. by rewrite Hp, Hd.
  - apply elem_of_cons in Hin as [|Hin]; [congruence|].
    destruct (release_pending_earnings_for_trip s db t (clock t)) as [[r db1]|exc] eqn:Hrun.
    + specialize (IH Hin db1). destruct (release_each s db1 trips clock) as [[d n] m]. apply IH; try done.
      * by rewrite (release_ids _ _ _ _ _ Hrun).
      * eapply release_keeps; [done|exact Hrun|done|]. unfold trip_pending in *. apply andb_true_iff in Hp as [Ht%bool_decide_eq_true _].
        by rewrite bool_decide_eq_false_2 by congruence.
      * by eapply clear_after.
      * by eapply notifiable_after.
    + specialize (IH Hin db Hnd He Hp Hd Hc Hn). by destruct (release_each s db trips clock) as [[d n] m].
Qed.

Lemma escalate_ledger db i days now at_ r : escalate_fraud_flag_if_due db i days now at_ = Ok r -> ledger r.2 = ledger db.
Proof.
  unfold escalate_fraud_flag_if_due. intros Hrun. ok_step Hrun.
  destruct (find_by_key fl_id i (flags db)) as [f|]; [|by apply Ok_inj in Hrun as <-].
  destruct (_ || _); [by apply Ok_inj in Hrun as <-|]. ok_step Hrun as d Hd. unfold update_flag in Hd. ok_step Hd. ok_step Hd.
  apply Ok_inj in Hd as <-. by apply Ok_inj in Hrun as <-.
Qed.

Lemma escalate_each_ledger db fs days clock : ledger (escalate_each db fs days clock).1.1 = ledger db.
Proof.
  revert db. induction fs as [|i fs IH]; intros db; [done|]. cbn [escalate_each].
  destruct (escalate_fraud_flag_if_due db i days (clock i).1 (clock i).2) as [[b db1]|] eqn:Hrun.
  - specialize (IH db1). apply escalate_ledger in Hrun. destruct (escalate_each db1 fs days clock) as [[d n] m]. cbn in *. congruence.
  - specialize (IH db). by destruct (escalate_each db fs days clock) as [[d n] m].
Qed.

(** C13: The sweep ends and releases the clear money it finds.  Whatever is committed
    between its pages, the loop over them ends after at most one page more than
    there are trips to find.  A due entry, of a trip that every page's query finds due and that is
    clear when the calls start, is available after the sweep, whatever becomes of the
    other trips: one that fails is rolled back on its own. *)
Theorem sweep_releases_clear_money batch_size days ids fuel view flags_view db clock escalation_clock trip e :
  0 < batch_size -> 0 < days -> (length ids < fuel)%nat ->
  (forall k i, i ∈ pending_release_trips (view k).1 (view k).2 -> i ∈ ids) ->
  (forall k, trip ∈ pending_release_trips (view k).1 (view k).2) ->
  NoDup (le_id <$> ledger db) -> e ∈ ledger db -> trip_pending trip e = true -> release_due (clock trip) e = true ->
  clear_trip db trip -> notifiable db trip ->
  exists report db', sweep_earnings_release_reviews s batch_size days fuel view flags_view db clock escalation_clock
    = Ok (report, db') /\ available e ∈ ledger db'.
Proof.
  intros Hb Hdays Hfuel Hids Htrip Hnd He Hp Hd Hc Hn. unfold sweep_earnings_release_reviews.
  destruct (collect_spec view batch_size Hb ids Hids fuel 0 None) as (trips & -> & _ & _ & _ & Hfound).
  { eapply Nat.le_lt_trans; [|exact Hfuel]. apply List.filter_length_le. }
  cbn [mbind result_bind]. unfold find_due_fraud_flag_ids. rewrite (proj2 (Z.leb_gt days 0)) by lia.
  cbn [raise_if mbind result_bind]. rewrite (proj2 (Z.leb_gt batch_size 0)) by lia. cbn [mret result_ret mbind result_bind].
  pose proof (release_each_spec trips clock trip e (Hfound trip eq_refl Htrip) db Hnd He Hp Hd Hc Hn) as Hav.
  destruct (release_each s db trips clock) as [[d released] failed]. cbn [fst] in Hav. set (fs := take _ _).
  pose proof (escalate_each_ledger d fs days escalation_clock) as Hel.
  destruct (escalate_each d fs days escalation_clock) as [[d' escalated] failed']. cbn [fst] in Hel.
  eexists _, d'. split; [reflexivity|]. by rewrite Hel.
Qed.
End Sweep.

(** ** A sample *)

Module ReleaseSample.
Import DisbursementSample FraudSample.

Definition credit (i trip : uuid) (release_at : option Z) : ledger_entry :=
  {| le_id := i; le_payout_calculation_id := None; le_driver_profile_id := 5; le_driver_user_id := 50; le_campaign_id := 4;
     le_trip_session_id := Some trip; le_vehicle_id := None; le_entry_type := TRIP_PAYOUT; le_status := PENDING;
     le_amount := 300000; le_currency := "NGN"; le_description := None; le_occurred_at := 0; le_release_at := release_at;
     le_metadata := no_metadata |}.

(** Trip 10 was assessed without a flag; trip 11 never was. *)
Definition assessed : disbursement_store :=
  let db := set_flags (fun _ => []) FraudSample.store in
  match assess_trip_fraud [] FraudSample.settings db FraudSample.analytics (load_current_detection_flags db FraudSample.analytics)
          600 (replay_upstream FraudSample.signature) None with
  | Ok r => r.2
  | Raise _ => db
  end.
Definition entries : list ledger_entry := [credit 1 11 None; credit 2 10 None; credit 3 10 (Some 900)].
Definition db0 : contact_store :=
  ContactStore (set_payout (with_ledger (fun _ => entries)) assessed) (no_contacts ∅).
Definition after {A} (db : contact_store) (r : result (A * contact_store)) : contact_store :=
  match r with Ok (_, db') => db' | Raise _ => db end.
Lemma after_run {A} db (r : result (A * contact_store)) : is_ok r = true -> exists a, r = Ok (a, after db r).
Proof. destruct r as [[a db']|]; [by exists a|done]. Qed.
Definition db1 : contact_store := after db0 (release_pending_earnings_for_trip FraudSample.settings db0 10 800).
Definition sweep : result (sweep_report * contact_store) :=
  sweep_earnings_release_reviews FraudSample.settings 1 2 3 (fun _ => (db0, 800)) (db0, 800) db0 (fun _ => 800) (fun _ => (800, 800)).
End ReleaseSample.
Import DisbursementSample FraudSample ReleaseSample.

Lemma release_is_exact_witness : ledger db1 = [credit 1 11 None; available (credit 2 10 None); credit 3 10 (Some 900)].
Proof.
  unfold db1. destruct (after_run db0 (release_pending_earnings_for_trip FraudSample.settings db0 10 800)) as [r Hr];
    [vm_compute; reflexivity|].
  assert (Hnd : NoDup (le_id <$> ledger db0)) by (apply (bool_decide_unpack _); vm_compute; exact I).
  destruct (release_is_exact FraudSample.settings db0 10 800 r _ Hnd Hr)
    as (current & Hc & Hl & _). refine (eq_trans Hl _). clear Hl Hr.
  assert (Ht : load_current_successful_assessment FraudSample.settings db0 10 = Ok true) by (vm_compute; reflexivity).
  rewrite Ht in Hc. injection Hc as <-. vm_compute. reflexivity.
Defined.

Lemma ready_to_release : clear_trip FraudSample.settings db0 10 /\ notifiable db0 10.
Proof.
  split; [split; vm_compute; reflexivity|].
  assert (Hall : forallb (fun e => bool_decide (le_driver_profile_id e = 5%N)) (ledger db0) = true) by (vm_compute; reflexivity).
  intros e He _. rewrite forallb_forall in Hall. apply list_elem_of_In, Hall, bool_decide_eq_true in He.
  exists (DriverProfile 5 50). split; [rewrite He; vm_compute; reflexivity|]. intros n Hn.
  assert (Hno : find_release_notice db0 50 10 = None) by (vm_compute; reflexivity). cbn [dp_user_id] in Hn. congruence.
Qed.

Lemma sweep_releases_clear_money_witness :
  exists report db', sweep = Ok (report, db') /\ available (credit 2 10 None) ∈ ledger db'.
Proof.
  destruct ready_to_release as [Hclear Hnotify]. unfold sweep.
  assert (Hp : pending_release_trips db0 800 = [10; 11]%N) by (vm_compute; reflexivity).
  refine (sweep_releases_clear_money FraudSample.settings 1 2 [10; 11]%N 3 (fun _ => (db0, 800)) (db0, 800) db0 (fun _ => 800)
    (fun _ => (800, 800)) 10%N (credit 2 10 None) eq_refl eq_refl _ _ _ _ _ eq_refl eq_refl Hclear Hnotify).
  - cbn. lia.
  - intros _ i Hi. cbn [fst snd] in Hi. by rewrite Hp in Hi.
  - intros _. cbn [fst snd]. rewrite Hp. left.
  - apply (bool_decide_unpack _). vm_compute. exact I.
  - change (credit 2 10 None ∈ entries). right. left.
Defined.
