(* ===== verification/Adjustments.v ===== *)
(** Negative adjustments of staff ([app/services/payout_adjustments.py]): a
    deduction appended to a trip's ledger under a reference chosen by the client,
    and the payments in preparation it cancels. *)

From S2P Require Import Prelude Eligibility PayoutData DailyRate Ledger Balances.
From S2P Require Import Text BillingData DisbursementData Crypto Disbursements Corrections Trueups.
From stdpp Require Import base list strings gmap.
From Stdlib Require Import ZArith QArith Lia.
#[local] Open Scope Z_scope.

Definition _adjustment_day (t : trip_session) (requested : option Z) : result Z :=
  let first := lagos_date (trip_started_at t) in
  let final := lagos_date (default (trip_started_at t) (trip_ended_at t)) in
  match requested with
  | None =>
      raise_if (negb (first =? final)) (AppError "PAYOUT_ADJUSTMENT_DAY_REQUIRED" 422) ;;
      mret first
  | Some d =>
      raise_if (negb ((first <=? d) && (d <=? final))) (AppError "PAYOUT_ADJUSTMENT_DAY_INVALID" 422) ;;
      mret d
  end.

(** The kobo of [0 < amount <= 999999999999.99] with at most two decimals; the
    parameter is a [Decimal], so [NotDecimal] does not occur. *)
Definition adjustment_amount (amount : amount_input) : result kobo :=
  let invalid := AppError "PAYOUT_ADJUSTMENT_AMOUNT_INVALID" 422 in
  match amount with
  | NotDecimal | NotFinite => Raise invalid
  | Finite q =>
      let k := round_half_even (q * inject_Z 100) in
      raise_if (Qle_bool q 0 || negb (Qle_bool q (99999999999999 # 100))
                || negb (Qeq_bool (q * inject_Z 100) (inject_Z k))) invalid ;;
      mret k
  end.

(** The source of an adjustment: a credit of a trip that is not voided. *)
Definition adjustment_source (db : disbursement_store) (i : uuid) : result (ledger_entry * uuid) :=
  source ← require_some (find_by_key le_id i (st_ledger db)) (AppError "EARNINGS_LEDGER_ENTRY_NOT_FOUND" 404);
  match le_trip_session_id source with
  | Some trip =>
      raise_if (bool_decide (le_entry_type source = REVERSAL) || bool_decide (le_status source = VOIDED))
        (AppError "PAYOUT_ADJUSTMENT_SOURCE_INVALID" 409) ;;
      mret (source, trip)
  | None => Raise (AppError "PAYOUT_ADJUSTMENT_SOURCE_INVALID" 409)
  end.

(** The four keys of the metadata. *)
Definition adjustment_metadata (source actor : uuid) (reason : string) (lagos_day : Z) : ledger_metadata :=
  LedgerMetadata (Some source) false None None None (Some reason) (Some actor) (Some lagos_day) None.

Definition adjustment_entry (request : uuid) (source : ledger_entry) (amount : kobo) (currency : string)
    (metadata : ledger_metadata) (now : Z) : ledger_entry :=
  {| le_id := request; le_payout_calculation_id := None;
     le_driver_profile_id := le_driver_profile_id source; le_driver_user_id := le_driver_user_id source;
     le_campaign_id := le_campaign_id source; le_trip_session_id := le_trip_session_id source;
     le_vehicle_id := le_vehicle_id source; le_entry_type := REVERSAL; le_status := AVAILABLE;
     le_amount := amount; le_currency := currency; le_description := Some "Manual negative adjustment"%string;
     le_occurred_at := now; le_release_at := None; le_metadata := metadata |}.

(** The same adjustment under the same reference. *)
Definition same_adjustment (e : ledger_entry) (amount : kobo) (currency : string) (metadata : ledger_metadata) : bool :=
  bool_decide (le_entry_type e = REVERSAL) && (le_amount e =? amount) && bool_decide (le_currency e = currency)
  && bool_decide (le_metadata e = metadata).

(** The insertion, with the primary key. *)
Definition flush_adjustment (e : ledger_entry) (db : payout_store) : result payout_store :=
  raise_if (bool_decide (le_id e ∈ le_id <$> st_ledger db)) (IntegrityError "earnings_ledger_entries_pkey") ;;
  flush_ledger_entry e db.

Definition retry_conflict : exn := AppError "PAYOUT_ADJUSTMENT_RETRY_CONFLICT" 409.

(** [arrived] are the ledger entries other sessions commit between the lookup of
    the reference and the insertion. *)
Definition insert_adjustment (arrived : list ledger_entry) (e : ledger_entry) (db : disbursement_store)
    : result disbursement_store :=
  let db := set_payout (with_ledger (fun l => l ++ arrived)) db in
  match flush_adjustment e db with
  | Ok p => mret (set_payout (fun _ => p) db)
  | Raise (IntegrityError name as exc) =>
      if bool_decide (integrity_constraint_name exc = Some "earnings_ledger_entries_pkey"%string)
      then Raise retry_conflict else Raise exc
  | Raise exc => Raise exc
  end.

(** The guards, up to the lookup of the reference: the source, its trip, the
    batches locked, the amount, and the metadata. *)
Definition admit_adjustment (db : disbursement_store) (source_entry_id : uuid) (amount : amount_input) (currency reason : string)
    (actor : uuid) (lagos_day : option Z) : result (ledger_entry * uuid * list uuid * kobo * ledger_metadata) :=
  require_active_admin (ds_billing db) actor None ;;
  reason ← _reason reason;
  amount ← adjustment_amount amount;
  r ← adjustment_source db source_entry_id;
  let '(source, trip_id_) := (r : ledger_entry * uuid) in
  raise_if (negb (bool_decide (currency = le_currency source))) (AppError "PAYOUT_ADJUSTMENT_CURRENCY_INVALID" 422) ;;
  trip ← require_some (find_by_key trip_id trip_id_ (st_trips db)) AssertionError;
  d ← _adjustment_day trip lagos_day;
  _ ← lock_driver_money_scope db (le_driver_profile_id source);
  mret (source, trip_id_, lock_payout_chains db [trip_id_], amount, adjustment_metadata (le_id source) actor reason d).

Definition record_negative_adjustment (arrived : list ledger_entry) (db : disbursement_store)
    (source_entry_id request_id : uuid) (amount : amount_input) (currency reason : string) (actor : uuid)
    (lagos_day : option Z) (now : Z) : result (ledger_entry * disbursement_store) :=
  r ← admit_adjustment db source_entry_id amount currency reason actor lagos_day;
  let '(source, trip, chain, amount, metadata) := (r : ledger_entry * uuid * list uuid * kobo * ledger_metadata) in
  match find_by_key le_id request_id (st_ledger db) with
  | Some existing =>
      raise_if (negb (same_adjustment existing amount currency metadata)) retry_conflict ;;
      mret (existing, db)
  | None =>
      let e := adjustment_entry request_id source amount currency metadata now in
      db ← insert_adjustment arrived e db;
      db ← cancel_uncalled_trip_payouts db trip chain now;
      mret (e, audit (Some actor) "admin.earnings.negative_adjustment" "earnings_ledger_entry" request_id db)
  end.

(** ** What a recorded adjustment does *)

(** The awards of a trip in a currency. *)
Definition scope_awards (db : payout_store) (trip : uuid) (currency : string) : kobo * kobo * kobo :=
  trip_awards (List.filter (fun e => bool_decide (entry_scope e = (Some trip, currency))) (st_ledger db)).

Lemma awards_snoc_deduction l e :
  is_manual_deduction e = true -> le_status e <> VOIDED ->
  exists earned, (trip_awards l).1.1 = Z.max earned 0
  /\ trip_awards (l ++ [e]) = (Z.max (earned - le_amount e) 0, (trip_awards l).1.2, (trip_awards l).2 + le_amount e).
Proof.
  intros Hm Hv. unfold trip_awards. rewrite foldl_app. cbn [foldl]. set (a := foldl award_step _ l).
  exists (aw_earned a - aw_manual_deductions a). split; [done|].
  assert (award_step a e = Awards (aw_earned a) (aw_manual_deductions a + le_amount e) (aw_released a) (aw_negatives a + le_amount e)) as ->.
  { unfold award_step. rewrite bool_decide_eq_false_2, Hm by done. unfold is_manual_deduction in Hm.
    apply andb_true_iff in Hm as [[Hr _]%andb_true_iff _]. by rewrite Hr. }
  cbn. f_equal. f_equal. f_equal. lia.
Qed.

Lemma adjustment_amount_pos q k : adjustment_amount q = Ok k -> 0 < k <= 99999999999999.
Proof.
  destruct q as [q| |]; cbn [adjustment_amount]; [|done..]. intros Hrun. ok_step Hrun as u Hb. apply raise_if_Ok in Hb.
  apply Ok_inj in Hrun as <-. apply orb_false_iff in Hb as [[Hlo Hhi]%orb_false_iff Heq].
  apply negb_false_iff in Hhi, Heq. apply Qle_bool_iff in Hhi. apply Qeq_bool_iff in Heq.
  assert (0 < q)%Q as Hpos.
  { apply Qnot_le_lt. intros Hle. apply Qle_bool_iff in Hle. congruence. }
  set (k := round_half_even (q * inject_Z 100)) in *. rewrite Zlt_Qlt, Zle_Qle, <- Heq. split.
  - change (inject_Z 0) with (0 * inject_Z 100)%Q. by apply Qmult_lt_compat_r.
  - change (inject_Z 99999999999999) with ((99999999999999 # 1))%Q.
    apply (Qle_trans _ ((99999999999999 # 100) * inject_Z 100)); [by apply Qmult_le_compat_r|by apply Qle_lteq; right].
Qed.

Lemma find_app_None {A} (p : A -> bool) l l' : List.find p l = None -> List.find p (l ++ l') = List.find p l'.
Proof. induction l as [|x l IH]; cbn; [done|]. by destruct (p x). Qed.

Lemma find_key_absent i l : i ∉ le_id <$> l -> List.find (fun e => bool_decide (le_id e = i)) l = None.
Proof.
  intros Hi. destruct (List.find _ l) as [e|] eqn:Hf; [|done]. apply find_row_Some in Hf as [He Hk%bool_decide_eq_true].
  destruct Hi. rewrite <- Hk. by apply list_elem_of_fmap_2.
Qed.

Section Adjustment.
Variables (arrived : list ledger_entry) (db : disbursement_store) (source_entry_id request_id : uuid)
  (amount : amount_input) (currency reason : string) (actor : uuid) (lagos_day : option Z) (now : Z).

Lemma admit_adjustment_Ok source trip chain k m :
  admit_adjustment db source_entry_id amount currency reason actor lagos_day = Ok (source, trip, chain, k, m) ->
  adjustment_amount amount = Ok k /\ currency = le_currency source /\ le_trip_session_id source = Some trip
  /\ find_by_key le_id source_entry_id (st_ledger db) = Some source /\ md_source_entry_id m = Some (le_id source)
  /\ md_recompute_day m = false.
Proof.
  unfold admit_adjustment. intros Hrun. ok_step Hrun as u Hadmin. ok_step Hrun as why Hwhy. ok_step Hrun as k' Hk.
  ok_step Hrun as r Hr. destruct r as [source' trip']. ok_step Hrun as u' Hcur. ok_step Hrun as t Ht.
  ok_step Hrun as d Hd. ok_step Hrun as p Hp. injection Hrun as <- <- _ <- <-.
  apply raise_if_Ok, negb_false_iff, bool_decide_eq_true in Hcur. split; [done|]. split; [done|].
  unfold adjustment_source in Hr. ok_step Hr as s Hs. apply require_some_Ok in Hs.
  destruct (le_trip_session_id s) as [i|] eqn:Hi; [|done]. ok_step Hr as u'' Hg. by injection Hr as <- <-.
Qed.

(** The guards read the users, the trips, the profiles and the ledger only. *)
Lemma admit_adjustment_again db' es source trip chain k m : appends es db db' ->
  admit_adjustment db source_entry_id amount currency reason actor lagos_day = Ok (source, trip, chain, k, m) ->
  exists chain', admit_adjustment db' source_entry_id amount currency reason actor lagos_day = Ok (source, trip, chain', k, m).
Proof.
  intros [Hm Hl _ Hb]. unfold admit_adjustment, lock_driver_money_scope.
  rewrite Hb, (sm_trips _ _ Hm), (sm_profiles _ _ Hm). intros Hrun.
  ok_step Hrun as u Hadmin. ok_step Hrun as why Hwhy. ok_step Hrun as k' Hk.
  ok_step Hrun as r Hr. destruct r as [source' trip']. ok_step Hrun as u' Hcur. ok_step Hrun as t Ht.
  ok_step Hrun as d Hd. ok_step Hrun as p Hp. injection Hrun as <- <- _ <- <-.
  assert (adjustment_source db' source_entry_id = Ok (source', trip')) as Hr'.
  { unfold adjustment_source in *. ok_step Hr as s Hs. apply require_some_Ok in Hs.
    unfold find_by_key in *. rewrite Hl, (find_row_prefix _ (st_ledger db) _ s) by (done || by eexists). done. }
  repeat match goal with H : ?m = Ok _ |- context [?m ≫= _] => rewrite H; cbn [mbind result_bind] end.
  by eexists.
Qed.

Lemma insert_adjustment_Ok e db' : insert_adjustment arrived e db = Ok db' ->
  (le_id e ∉ le_id <$> arrived) /\ appends (arrived ++ [e]) db db'.
Proof.
  unfold insert_adjustment, flush_adjustment. set (db1 := set_payout _ db). intros Hrun.
  destruct (bool_decide (le_id e ∈ _)) eqn:Hid; cbn in Hrun; [by case_bool_decide|].
  apply bool_decide_eq_false in Hid. split.
  - intros Hin. apply Hid. cbn. rewrite fmap_app. apply elem_of_app. by right.
  - destruct (flush_ledger_entry e _) as [p|exc] eqn:Hf; [|by destruct exc; try done; case_bool_decide].
    apply Ok_inj in Hrun as <-. apply (appends_app arrived [e] _ db1); [split; [by split|done..]|]. by apply flush_appends.
Qed.

Lemma insert_adjustment_no_conflict e : insert_adjustment arrived e db <> Raise retry_conflict.
Proof.
  unfold insert_adjustment. destruct (flush_adjustment e _) as [p|exc] eqn:Hf; [done|].
  assert (exc <> retry_conflict) as Hne.
  { intros ->. unfold flush_adjustment, flush_ledger_entry in Hf.
    repeat (apply bind_Raise in Hf as [Hf|(? & _ & Hf)]; [apply raise_if_Raise in Hf as [_ Hf]; unfold retry_conflict in Hf; discriminate Hf|]). done. }
  destruct exc; try congruence. rewrite bool_decide_eq_false_2; [congruence|].
  cbn [integrity_constraint_name]. destruct (decide _) as [Hin|]; [|done]. intros [= ->]. revert Hin.
  apply (bool_decide_unpack _). vm_compute. exact I.
Qed.

Lemma record_adjustment_new e db' : find_by_key le_id request_id (st_ledger db) = None ->
  record_negative_adjustment arrived db source_entry_id request_id amount currency reason actor lagos_day now = Ok (e, db') ->
  exists source trip chain k m,
    admit_adjustment db source_entry_id amount currency reason actor lagos_day = Ok (source, trip, chain, k, m)
    /\ e = adjustment_entry request_id source k currency m now
    /\ (request_id ∉ le_id <$> arrived) /\ appends (arrived ++ [e]) db db'.
Proof.
  intros Hnew Hrun. unfold record_negative_adjustment in Hrun. ok_step Hrun as r Hr. destruct r as [[[[source trip] chain] k] m].
  rewrite Hnew in Hrun. ok_step Hrun as db1 Hi. ok_step Hrun as db2 Hc. injection Hrun as <- <-.
  apply insert_adjustment_Ok in Hi as [Hid Hi]. exists source, trip, chain, k, m. split; [done|]. split; [done|]. split; [done|].
  apply cancel_trip_appends in Hc. rewrite <-(app_nil_r (arrived ++ _)). eapply appends_app; [exact Hi|].
  destruct Hc as [[] Hl Ho Hb]. split; [by split|done..].
Qed.

End Adjustment.

Section Recorded.
Variables (arrived : list ledger_entry) (db : disbursement_store) (source_entry_id request_id : uuid)
  (amount : amount_input) (currency reason : string) (actor : uuid) (lagos_day : option Z) (now : Z).

(** C14: An adjustment is recorded once under its reference, and takes its amount off
    the trip's award.  The first call appends one deduction of the amount asked for, after
    the entries that arrived meanwhile; what the trip has earned falls by the amount, to zero at least, what was
    released of it stays.  A retry, whatever arrives then, finds the entry and changes nothing;
    any call under the reference that succeeds asked for the same amount and currency. *)
Theorem adjustment_recorded_once e db' : find_by_key le_id request_id (st_ledger db) = None ->
  record_negative_adjustment arrived db source_entry_id request_id amount currency reason actor lagos_day now = Ok (e, db') ->
  let before := with_ledger (fun l => l ++ arrived) (ds_payout db) in
  st_ledger db' = st_ledger before ++ [e]
  /\ le_id e = request_id /\ adjustment_amount amount = Ok (le_amount e) /\ 0 < le_amount e /\ le_currency e = currency
  /\ (exists source trip earned, find_by_key le_id source_entry_id (st_ledger db) = Some source
      /\ le_trip_session_id source = Some trip /\ le_driver_profile_id e = le_driver_profile_id source
      /\ (scope_awards before trip currency).1.1 = Z.max earned 0
      /\ scope_awards db' trip currency
         = (Z.max (earned - le_amount e) 0, (scope_awards before trip currency).1.2, (scope_awards before trip currency).2 + le_amount e))
  /\ (forall arrived' later, record_negative_adjustment arrived' db' source_entry_id request_id amount currency reason actor
        lagos_day later = Ok (e, db'))
  /\ (forall arrived' source' amount' currency' reason' actor' day' later r,
        record_negative_adjustment arrived' db' source' request_id amount' currency' reason' actor' day' later = Ok r ->
        r = (e, db') /\ adjustment_amount amount' = Ok (le_amount e) /\ currency' = currency).
Proof.
  intros Hnew Hrun. apply record_adjustment_new in Hrun as (source & trip & chain & k & m & Hadmit & He & Harr & Hap); [|done].
  pose proof (admit_adjustment_Ok _ _ _ _ _ _ _ _ _ _ _ _ Hadmit) as (Hk & Hcur & Htrip & Hsrc & Hm & Hday).
  pose proof (ap_ledger _ _ _ Hap) as Hl. cbn [st_ledger with_ledger]. rewrite app_assoc in Hl.
  assert (find_by_key le_id request_id (st_ledger db') = Some e) as Hfound.
  { unfold find_by_key. rewrite Hl. apply find_row_snoc_new; [|rewrite He; by apply bool_decide_eq_true].
    unfold find_row. rewrite find_app_None by exact Hnew. by apply find_key_absent. }
  split; [done|]. split; [by rewrite He|]. split; [by rewrite He|]. split; [rewrite He; by eapply adjustment_amount_pos|].
  split; [by rewrite He|]. split; [|split].
  - assert (is_manual_deduction e = true /\ le_status e <> VOIDED /\ entry_scope e = (Some trip, currency)) as (Hman & Hv & Hs).
    { rewrite He. unfold is_manual_deduction, entry_scope. cbn. by rewrite Hm, Hday, Htrip. }
    destruct (awards_snoc_deduction (List.filter (fun e => bool_decide (entry_scope e = (Some trip, currency)))
      (st_ledger db ++ arrived)) e Hman Hv) as (earned & Hea & Haw).
    exists source, trip, earned. split; [done|]. split; [done|]. split; [by rewrite He|]. split; [done|].
    unfold scope_awards. rewrite Hl, List.filter_app. cbn [List.filter]. by rewrite bool_decide_eq_true_2.
  - intros arrived' later. destruct (admit_adjustment_again _ _ _ _ _ _ _ _ _ _ _ _ _ _ Hap Hadmit) as [chain' Hagain].
    unfold record_negative_adjustment. rewrite Hagain. cbn [mbind result_bind]. rewrite Hfound.
    unfold same_adjustment. rewrite He. cbn [adjustment_entry le_entry_type le_amount le_currency le_metadata].
    by rewrite Z.eqb_refl, !bool_decide_eq_true_2.
  - intros * Hrun. unfold record_negative_adjustment in Hrun. ok_step Hrun as r' Hr. destruct r' as [[[[s' t'] c'] k'] m'].
    rewrite Hfound in Hrun. ok_step Hrun as u Hsame. apply raise_if_Ok, negb_false_iff in Hsame.
    apply admit_adjustment_Ok in Hr as [Hk' _]. unfold same_adjustment in Hsame. bool_prop. apply Ok_inj in Hrun as <-.
    split; [done|]. rewrite He in *. cbn in *. split; congruence.
Qed.

(** C40: A reference taken meanwhile is not answered as a conflict.  When another
    session commits an entry under the reference between the lookup and the insertion, the
    call ends with the bare violation of the primary key: that constraint is not among the expected ones, so its
    name is never recovered and the branch that answers 409 is never taken. *)
Theorem adjustment_conflict_is_reraised source trip chain k m :
  admit_adjustment db source_entry_id amount currency reason actor lagos_day = Ok (source, trip, chain, k, m) ->
  find_by_key le_id request_id (st_ledger db) = None -> request_id ∈ le_id <$> arrived ->
  record_negative_adjustment arrived db source_entry_id request_id amount currency reason actor lagos_day now
    = Raise (IntegrityError "earnings_ledger_entries_pkey")
  /\ forall e store, insert_adjustment arrived e store <> Raise retry_conflict.
Proof.
  intros Hadmit Hnew Harr. split; [|intros e store; apply insert_adjustment_no_conflict]. unfold record_negative_adjustment. rewrite Hadmit. cbn [mbind result_bind]. rewrite Hnew.
  unfold insert_adjustment, flush_adjustment. rewrite bool_decide_eq_true_2; [done|].
  cbn. rewrite fmap_app. apply elem_of_app. by right.
Qed.
End Recorded.

(** ** A sample *)

Module AdjustmentSample.
Import DisbursementSample.

Definition credit (i : uuid) : ledger_entry :=
  {| le_id := i; le_payout_calculation_id := None; le_driver_profile_id := 5; le_driver_user_id := 50; le_campaign_id := 4;
     le_trip_session_id := Some 10%N; le_vehicle_id := None; le_entry_type := TRIP_PAYOUT; le_status := AVAILABLE;
     le_amount := 300000; le_currency := "NGN"; le_description := None; le_occurred_at := 0; le_release_at := None;
     le_metadata := no_metadata |}.
Definition trip : trip_session := TripSession 10 6 4 5 3 TRIP_ENDED 0 (Some 3600000000) None.
Definition db0 : disbursement_store :=
  set_payout (fun p => {| st_trips := [trip]; st_analytics := st_analytics p; st_estimates := st_estimates p;
     st_bindings := st_bindings p; st_campaigns := st_campaigns p; st_rules := st_rules p; st_revisions := st_revisions p;
     st_calculations := st_calculations p; st_ledger := [credit 1]; st_orders := st_orders p; st_lines := st_lines p;
     st_intents := st_intents p; st_offsets := st_offsets p; st_profiles := st_profiles p; st_cutoffs := st_cutoffs p;
     st_audit := st_audit p |}) store.
Definition lost_panel (arrived : list ledger_entry) : result (ledger_entry * disbursement_store) :=
  record_negative_adjustment arrived db0 1 2 (Finite (1000 # 1)) "NGN" "lost panel" 1 None 900.
End AdjustmentSample.
Import AdjustmentSample.

Lemma adjustment_recorded_once_witness :
  exists e db', lost_panel [credit 3] = Ok (e, db') /\ scope_awards db' 10 "NGN" = (500000, 600000, 100000).
Proof.
  destruct (lost_panel [credit 3]) as [[e db']|] eqn:Hrun; [|vm_compute in Hrun; discriminate Hrun].
  exists e, db'. split; [done|]. unfold lost_panel in Hrun.
  destruct (adjustment_recorded_once [credit 3] db0 1 2 _ _ _ _ _ _ e db' eq_refl Hrun)
    as (Hl & _). unfold scope_awards. rewrite Hl. clear Hl.
  pose proof (f_equal (fun r => match r with Ok (e, _) => Some e | Raise _ => None end) Hrun) as He. vm_compute in He.
  injection He as <-. vm_compute. reflexivity.
Defined.

Lemma adjustment_conflict_is_reraised_witness :
  lost_panel [credit 2] = Raise (IntegrityError "earnings_ledger_entries_pkey").
Proof.
  unfold lost_panel.
  destruct (admit_adjustment db0 1 (Finite (1000 # 1)) "NGN" "lost panel" 1 None) as [r|] eqn:Hadmit;
    [|vm_compute in Hadmit; discriminate Hadmit].
  destruct r as [[[[source t] chain] k] m].
  apply (adjustment_conflict_is_reraised [credit 2] db0 1 2 _ _ _ _ _ 900 _ _ _ _ _ Hadmit eq_refl). left.
Defined.
